(* ===== verification/_CoqProject ===== *)
-Q . S2P
Prelude.v
Values.v
Json.v
JsonLoads.v
Schedules.v
StateMachine.v
Tables.v
Idempotency.v
InMemory.v
Liveness.v
SqlBackend.v
SqlProps.v
SqlReaper.v
Streaming.v
Context.v
NativeApi.v
NativeProps.v
SqlNative.v
SqlNativeProps.v
RunStore.v
SqlRunStore.v
RuntimeLaws.v
Floats.v
RedisBackend.v
RedisProps.v
RunGraph.v
Executor.v
Deployments.v
Policy.v
ApiKeys.v
ApiKeyProps.v
Console.v
ConsoleProps.v
ConsoleApi.v
ConsoleApiProps.v
DeploymentStore.v
Costs.v
DeploymentLaws.v
DeploymentApi.v
DeploymentApiProps.v
Packages.v
NativeStore.v
NativeLaws.v
AgentApi.v
AgentApiProps.v
Batches.v
BatchProps.v
Hitl.v
Gateways.v
ModelGateway.v
Registry.v
RegistryProps.v
Observe.v
Artifacts.v
ArtifactProps.v
Backups.v
Webhooks.v
Alerts.v
Services.v
Assets.v
AssetProps.v
Surfaces.v
Workers.v
