(* ===== verification/Prelude.v ===== *)
(** * DimooRun: the agent runtime, modelled and verified

    DimooRun runs AI agents as deployments: an HTTP API accepts runs, a task
    queue hands their tasks to workers under leases, a worker executes the
    agent and records events, and governance (policies, human approvals,
    secrets, deployment control) decides what may happen. All sources named
    below are under [src/apps/server/dimoo_run/].

    ** The parts and how they interact

    [RunManager.create_run_task] (runtime/run_manager.py) asks the deployment
    gate (deployments/service.py), creates a run in the run store and enqueues
    a task (scheduler/in_memory.py, the database-backed queue of
    scheduler/sqlalchemy_backend.py with its quotas, or the Redis queue of
    scheduler/redis_backend.py). A [WorkerLoop] (worker/loop.py) polls,
    obeying the operator's instructions in the [WorkerRegistry]
    (runtime/capacity.py), and calls [WorkerExecutor.execute_once]
    (worker/executor.py), which leases a task, opens an attempt, runs the
    adapter, and settles task, attempt and run if its fencing token is still
    the newest. What it loads comes from the package registry
    (packages/registry.py). Events go to the replay buffer and the fan-out hub
    (streaming/). Agents reach tools, models and secrets through gateways
    (tools/gateway.py, model_gateway/provider.py, secrets/provider.py) that consult
    the policy engine (policy/) and open approval tasks (hitl/service.py).

    ** Files

    - [Prelude]: the state-and-exception monad [M], Python dictionaries as
      association lists in insertion order, stable sorting, record update,
      the relation [respects R m] (every run of [m], raising or not, relates
      its pre- and post-state by [R]) with its hint database, arithmetic
      tactics.
    - [Values], [Json]: untyped Python values, truth values and dictionary
      access; compact [json.dumps] with sorted keys, [str] and [int(text)].
    - [JsonLoads]: [json.loads], and that it reads back what [json.dumps] wrote.
    - [StateMachine]: domain/enums.py and runtime/state_machine.py; the three
      transition tables and the relation [evolves] they generate.
    - [Schedules]: runtime/scheduled_runs.py (cron fields, next and due fire times).
    - [Idempotency]: runtime/idempotency.py and sqlalchemy_idempotency.py behind one
      interface.
    - [InMemory]: scheduler/in_memory.py and scheduler/reaper.py. The backend
      object is the record [InMemoryTaskBackend]; each method is a monadic
      operation of the same name.
    - [Liveness]: workers going round over that queue until it is empty.
    - [Tables]: the rows of [tasks], [runs], [run_attempts] and [events] of
      domain/models.py, [session_scope], the event repository of
      persistence/repositories.py, and the JSON references in columns.
    - [SqlBackend]: scheduler/sqlalchemy_backend.py, scheduler/quota.py and
      scheduler/metrics.py on those tables. What other sessions commit while
      [lease] goes through its candidates is an argument, [Interference].
    - [SqlProps], [SqlReaper]: its row-wise invariants, fencing, quotas, and the
      database reaper.
    - [RedisBackend], [RedisProps]: scheduler/redis_backend.py over the hashes and sorted
      sets it keeps. What other clients do between the reading and the writing of a
      method is an argument, [gap]; [behaviour] is any such interleaving.
    - [SqlRunStore]: runtime/sqlalchemy_run_store.py, and that it implements
      the in-process store.
    - [Streaming]: core/events.py, streaming/replay_buffer.py and the
      in-process hub of streaming/fanout.py.
    - [RunGraph]: run_graph/projector.py.
    - [Context]: core/context.py and the trace fields of observability/otel.py.
    - [NativeApi], [NativeProps]: the in-process store behind the native API
      (api/native/runtime.py); [SqlNative], [SqlNativeProps]: the database-backed one
      with its repositories, over any idempotency backend.
    - [RunStore]: runtime/run_manager.py (store, governance bundle, manager)
      and the protocols of scheduler/backend.py as the type classes
      [RuntimeTaskBackend] and [RuntimeRunStore].
    - [RuntimeLaws]: what those protocols promise to the worker, as classes of
      laws on an abstract view of tasks and runs, with the in-process queue and store
      as instances, and the Redis queue in [RedisProps].
    - [Executor]: worker/executor.py, over any implementation of the two
      interfaces; its theorems use only the laws.
    - [Deployments]: deployments/service.py, status.py and instances.py.
    - [Policy]: policy/engine.py and decisions.py.
    - [ApiKeys], [ApiKeyProps]: security/api_keys.py, identity/service_accounts.py and
      their administration (api/admin/router.py, identity_workflows.py); service
      accounts are an interface with its laws, in process and over the database.
    - [Console], [ConsoleProps]: identity/console.py and permission_matrix.py;
      [ConsoleApi], [ConsoleApiProps]: who a request comes from (api/dependencies.py) and
      the handlers of api/auth.py.
    - [Floats]: Python's floats, [sum], [round] and formatting.
    - [DeploymentStore], [DeploymentLaws]: what the deployment handlers ask of the
      control service and the runtime store, the in-process and database-backed
      implementations, and the laws both keep.
    - [Costs]: costs/attribution.py, budget_policy.py and enforcement.py.
    - [DeploymentApi], [DeploymentApiProps]: the handlers of api/native/deployments.py
      and promotion.py, over those interfaces.
    - [Packages]: packages/validation.py.
    - [NativeStore], [NativeLaws]: the two stores of api/native/runtime.py behind one
      interface, and the laws about versions and new runs both keep.
    - [AgentApi], [AgentApiProps]: the handlers of api/native/agents.py, packages.py,
      runs.py, tasks.py and replay_jobs.py over that interface.
    - [Batches], [BatchProps]: runtime/batch_runs.py with the handlers of
      api/admin/batches.py and datasets.py, over that interface.
    - [Hitl]: both services of hitl/service.py; database tables are lists of
      rows, a query is a filter and a sort, a commit replaces the tables.
    - [Gateways]: tools/gateway.py and secrets/provider.py; [ModelGateway]:
      model_gateway/provider.py.
    - [Registry], [RegistryProps]: packages/registry.py, the references of
      packages/materializer.py and the stored policies of worker/durable.py.
    - [Observe]: redaction, sampling, the compliance audit log and the sinks of
      observability/.
    - [Artifacts], [ArtifactProps]: the stores of artifacts/store.py over any object store
      that keeps its objects; [Backups]: enterprise/dr.py.
    - [Webhooks]: extensions/webhooks.py; [Alerts]: notifications/alerts.py.
    - [Services]: a module for each of datasets/service.py, prompts/assets.py,
      memory/providers.py, sandbox/ and evals/service.py.
    - [Assets], [AssetProps]: catalog/asset_lifecycle.py and the handlers of
      api/admin/catalog.py and assets.py.
    - [Surfaces]: gateway/published_surfaces.py and ingress_routes.py, catalog/service.py,
      replay/service.py and core/startup_checks.py.
    - [Workers]: the registry and operator actions of runtime/capacity.py
      (in memory or over the table [worker_snapshots]) and worker/loop.py.

    ** How Python is rendered

    A method of a mutable object is a function [S → result A * S]; an
    exception is the value [Raise e] together with the state at the point of
    the raise, so that partial effects of failing calls are visible.
    [datetime] values are integers (microseconds) and each reading of the
    clock is an argument or comes from an oracle in the state. Integers are
    unbounded, as in Python. Records that Python passes by reference and
    mutates (tasks, runs, attempts) live in their store under their id; the
    functions return the id's current record. Locks are not modelled: every
    operation holds the object's lock from beginning to end (or does not
    await), so calls are atomic, and concurrency is the order of calls in a
    sequence. The exceptions are the database-backed [lease], where other
    sessions may commit between the query of the candidates, the quota check
    and the conditional update that claims a row, and the methods of the Redis queue,
    which read a task and write it back with other clients' commands in between. A call that raises in a
    [session_scope] is rolled back.

    ** What the theorems show

    - Queue: every reachable queue is well formed; [lease] returns the due task
      of highest priority and earliest creation; a re-leased task is closed
      to its previous holder; a task is completed at most once, fails at most
      as often as its attempts allow, and never leaves a final status; the
      reaper reports exactly the expired leases.
    - Database-backed queue: a row is leased only while it is queued, whatever
      other sessions do meanwhile; a re-leased task is closed to its previous
      holder; quotas hold over any sequence of atomic calls; the reaper
      requeues, counts and dead-letters as it should.
    - Redis queue: it keeps the promises of the interface, and no interleaving of its
      clients puts a waiting task out of reach of the next lease; but a report is
      written as it was computed, over whatever was written meanwhile.
    - Runs: statuses move only along the table, outcomes are final, attempts
      are numbered consecutively, and creating a run with its task is
      atomic; the database-backed store gives the same answers and exceptions
      as the in-process one, and JSON columns read back what was written.
    - Worker: for every backend and store satisfying the laws, an execution
      that reports a result leaves task, run and attempt in matching states,
      and a fenced worker writes nothing.
    - Deployments: runs are only accepted for active, matching deployments;
      a closed deployment stays closed until reopened; control actions are
      audited; stop evicts every instance.
    - Streaming: the replay buffer refines the complete log cut to its last
      events, and resuming after an event returns what follows it or raises
      exactly when the event named is not newer than the last one trimmed;
      publishing disconnects slow readers and disturbs nobody else.
    - Governance: deny before approval before allow, with audits; redactions
      are collected; tools and secrets stay inside their scope; an approval
      is decided once, never by its requester; the database-backed approval
      service refines the in-process one.
    - Model gateway and registry: a model is called only when scope, model, budget and
      rules grant it; a run is given only what is validated and of its scope; a stored
      denial denies.
    - Run graph: well formed, with the nodes and edges the events tell.
    - Batches: counters tally with the items over any requests, cancelling leaves no item
      waiting, and captured runs show no redacted field.
    - Native API: the stores stay well formed over any calls; a request with an
      idempotency key is answered once, by either store.
    - Schedules: the due fire times are exactly the missed ones, capped.
    - Identity: keys never exceed their account, a key or session admits only its
      active, unexpired owner in scope, a revoked one stays out, and operators are
      changed only by requests that may.
    - Deployment API: requests reach the deployments of their own tenant and project
      only; a promotion passed every guard and a rollback undoes it; a task is taken
      within the budgets.
    - Packages and agents: a package is valid exactly when nothing is wrong with it; only
      versions with a token for what they contain are ever ready, and only such a version
      of an active agent in scope is given to a run.
    - Liveness: workers that keep going finish every task.
    - Artifacts: what was written is read back by those who may, whatever happens in
      between; reads are guarded and audited; a dry run of a restore passes exactly when
      the bytes are those recorded.
    - Observability: what leaves the process or is logged shows no redacted field;
      webhooks keep to twice their limit in any minute; a signal opens at most one
      incident, with one notification, while one is open.
    - Services: datasets stay in scope and redacted, the sandbox runs an operation only
      within its policy, the quality gate passes exactly the runs without a failed result.
    - Assets: while nothing is rolled back, an asset has at most one published version;
      an asset in use is neither deprecated nor archived.
    - Surfaces: only active deployments of the scope are published, public routes are
      limited and logged, and production starts without any default for development.
    - Worker fleet: a withdrawn worker takes no work and its loop ends;
      heartbeats preserve the operator's instructions.
    - Defects of the code, each as a theorem with a concrete instance:
      environment rules ignored for tool calls, approvals not enforced for
      secrets, quotas exceeded by two workers leasing at once, stale trace
      context, attempts recorded by refused calls, dry run rules skipped,
      worker records shared across scopes, budgets for all environments never enforced,
      refused updates that change a deployment, operators that reach beyond their
      project or make themselves administrators, a console locked by deleting its first
      operator, deleted roles that still grant, operator sessions admitted without
      a look at their permissions, versions deleted by readers, validation tokens anybody
      can compute, replays compared before they are executed, Redis tasks leased twice or
      too early, failed steps shown as succeeded, settled batches shown as queued, limits
      of model policies never read, package references that leave their directory,
      unknown verdicts that allow, artifacts replaced after a restart, rules behind the
      first that never alert, incidents reopened by acknowledging them, evaluations that
      fail and pass the gate, and assets published without or against their validation.

    ** Bounds and fuel

    Every definition is structurally recursive or a fold, with three exceptions.
    [Schedules.resolve_due_fire_times] has as fuel the bound the code itself puts on the
    number of missed runs, plus the search limits of the code for the next fire time;
    [due_fire_times_correct] shows that the result does not depend on it.
    [Workers.run_forever] has fuel because its loop in the code may run for
    ever; [shutdown_terminates] states that two iterations are enough once the
    worker is told to go. [JsonLoads.json_loads] has fuel twice the length of
    the text plus two; [loads_dumps] shows that this is enough for every text
    [json.dumps] writes.

    ** Not modelled

    Routing and serialization of HTTP, adapters (parameters of the executor), logging,
    sleeping, the Prometheus rendering, the Redis bridge of the fan-out hub and the Redis session
    cache, copying and extracting packages, time stamps that nothing reads, and the
    components listed in the manifest as such: they are mostly queries and serialization
    around tables, file and network access, or wiring. *)

From stdpp Require Export base tactics decidable option list strings pretty sorting.
From Stdlib Require Export ZArith Lia.
#[global] Open Scope string_scope.
#[global] Open Scope list_scope.
#[global] Open Scope Z_scope.

(** * Record update *)

(** [Eta R] gives the eta expansion of a record; [build_setter] derives from
    it the setter of any field, so that [r <| f := v |>] is the Python
    attribute assignment [r.f = v] on an immutable copy. *)
Class Eta (R : Type) := eta : R → R.
Class Setter {R T : Type} (g : R → T) := set_field : (T → T) → R → R.
Arguments set_field {R T} g {_} f r / : simpl nomatch.

Ltac build_setter :=
  lazymatch goal with
  | |- @Setter ?R ?T ?g =>
    let inst := constr:(_ : Eta R) in
    let e := eval red in inst in
    let f := constr:(fun (k : T → T) (r : R) =>
      ltac:(let b := eval cbv beta in (e r) in
            let b' := eval pattern (g r) in b in
            lazymatch b' with
            | ?F _ => let t := eval cbv beta in (F (k (g r))) in exact t
            end)) in
    exact f
  end.
#[export] Hint Extern 1 (Setter _) => build_setter : typeclass_instances.

Declare Scope py_scope.
Delimit Scope py_scope with py.
Notation "r <| f := v |>" := (set_field f (fun _ => v) r)
  (at level 1, left associativity, format "r  <| f  :=  v |>") : py_scope.
#[global] Open Scope py_scope.

(** * Exceptions *)

(** The exceptions the modelled code raises, with the data it puts in them. *)
Inductive exn : Type :=
| KeyError (key : string)
| ValueError (msg : string)
| TypeError (msg : string)
| PermissionError (reason : string)
| RuntimeError (msg : string)
| TimeoutError
| InvalidStateTransitionError (entity current target : string)
| TaskLeaseError (task_id : Z) (worker_id : string)
| StaleFencingTokenError (task_id : Z)
| QuotaExceededError (scope : string) (limit current : Z)
| IdempotencyConflictError (key : string)
| DeploymentNotFoundError (deployment_id : Z)
| PolicyDeniedError (reason error_code : string)
| ReplayExpiredError (event_id : string)
| ToolScopeMismatchError (tool_id : Z)
| SecretScopeMismatchError (name : string)
| SecretAccessDeniedError (reason : string)
| APIKeyError (msg : string)
| AssertionError
| APIKeyDisabledError (msg : string)
| APIKeyScopeError (msg : string)
| IntegrityError (constraint : string)
| CapabilityNotSupportedError (msg : string)
| BudgetExceededError (limit : string)
| ModelNotAllowedError (model : string)
| ModelPolicyDecisionError (decision : string) (reason : option string)
| ModelGatewayScopeMismatchError (gateway_id : Z)
| ModelGatewayTimeoutError
| PackageRegistryError (error_code : string)
| FileNotFoundError (path : string)
| ArtifactAccessDeniedError (storage_uri : string)
| ArtifactChecksumMismatchError (storage_uri : string)
| RestoreValidationError (reason : string)
| NotificationConfigurationError (reason : string)
| DatasetScopeMismatchError (reason : string)
| AssetVersionError (msg : string)
| SandboxPolicyViolation (msg : string)
| ContainerPoolBoundaryError (reason : string)
| AssetLifecycleError (code : string) (status_code : Z)
| AgentError (cls msg : string).

#[export] Instance exn_eq_dec : EqDecision exn.
Proof. solve_decision. Defined.

(** * Stateful code that can raise *)

(** A method of a Python object: it runs on the object's state and either
    returns or raises, and in both cases leaves the state as the statements
    executed so far made it. *)
Inductive outcome (A : Type) : Type :=
| Ret (a : A)
| Raise (e : exn).
Arguments Ret {A} a.
Arguments Raise {A} e.

Definition M (S A : Type) : Type := S → outcome A * S.

#[export] Instance M_ret {S} : MRet (M S) := λ A a s, (Ret a, s).
#[export] Instance M_bind {S} : MBind (M S) := λ A B f m s,
  match m s with
  | (Ret a, s') => f a s'
  | (Raise e, s') => (Raise e, s')
  end.
#[export] Instance M_throw {S} : MThrow exn (M S) := λ A e s, (Raise e, s).

Definition raise {S A} (e : exn) : M S A := λ s, (Raise e, s).
Definition get_state {S} : M S S := λ s, (Ret s, s).
Definition modify {S} (f : S → S) : M S unit := λ s, (Ret tt, f s).
Definition gets {S A} (f : S → A) : M S A := λ s, (Ret (f s), s).
(** [if not b: raise e] *)
Definition check {S} (b : bool) (e : exn) : M S unit :=
  if b then mret tt else raise e.
(** [d[k]]: the value, or a [KeyError]. *)
Definition of_option {S A} (o : option A) (e : exn) : M S A :=
  match o with Some a => mret a | None => raise e end.
(** [try: m except: h] *)
Definition try_except {S A} (m : M S A) (h : exn → M S A) : M S A := λ s,
  match m s with
  | (Ret a, s') => (Ret a, s')
  | (Raise e, s') => h e s'
  end.
(** [m], its result or exception as a value. *)
Definition catch {S A} (m : M S A) : M S (outcome A) := λ s,
  let '(r, s') := m s in (Ret r, s').
(** Runs a method of a sub-object on the state that holds it. *)
Definition zoom {S T A} (g : S → T) (put : T → S → S) (m : M T A) : M S A := λ s,
  let '(r, t) := m (g s) in (r, put t s).
(** [for x in l: f(x)] *)
Fixpoint for_each {S A} (l : list A) (f : A → M S unit) : M S unit :=
  match l with
  | [] => mret tt
  | x :: l' => f x ;; for_each l' f
  end.

Definition returns {A} (o : outcome A) : Prop := ∃ a, o = Ret a.
Definition raises {A} (o : outcome A) : Prop := ∃ e, o = Raise e.

(** ** State relations of stateful code *)

(** [respects R m]: whatever [m] returns or raises, it moves the state along
    [R]. An invariant [I] is the relation [λ s s', I s → I s']. *)
Definition respects {S A} (R : relation S) (m : M S A) : Prop := ∀ s, R s (m s).2.
Definition keeps {S} (I : S → Prop) : relation S := λ s s', I s → I s'.

#[export] Instance keeps_preorder {S} (I : S → Prop) : PreOrder (keeps I).
Proof. split; unfold keeps; [intros ?| intros ???]; auto. Qed.

Create HintDb respects discriminated.
#[export] Hint Constants Opaque : respects.
#[export] Hint Variables Transparent : respects.

Section respects.
Context {S : Type} (R : relation S) `{!PreOrder R}.

Lemma respects_ret {A} (a : A) : respects R (mret a).
Proof. intros s. reflexivity. Qed.

Lemma respects_raise {A} e : respects R (@raise S A e).
Proof. intros s. reflexivity. Qed.

Lemma respects_gets {A} (f : S → A) : respects R (gets f).
Proof. intros s. reflexivity. Qed.

Lemma respects_get_state : respects R get_state.
Proof. intros s. reflexivity. Qed.

Lemma respects_check b e : respects R (check b e).
Proof. destruct b; intros s; reflexivity. Qed.

Lemma respects_of_option {A} (o : option A) e : respects R (of_option o e).
Proof. destruct o; intros s; reflexivity. Qed.

Lemma respects_bind {A B} (m : M S A) (f : A → M S B) :
  respects R m → (∀ a, respects R (f a)) → respects R (m ≫= f).
Proof.
  intros Hm Hf s. specialize (Hm s). unfold mbind, M_bind.
  destruct (m s) as [[a|e] s'] eqn:E; [|done].
  etrans; [exact Hm|apply Hf].
Qed.

Lemma respects_try {A} (m : M S A) h :
  respects R m → (∀ e, respects R (h e)) → respects R (try_except m h).
Proof.
  intros Hm Hh s. specialize (Hm s). unfold try_except.
  destruct (m s) as [[a|e] s'] eqn:E; [done|].
  etrans; [exact Hm|apply Hh].
Qed.

Lemma respects_for_each {A} (l : list A) (f : A → M S unit) :
  (∀ x, x ∈ l → respects R (f x)) → respects R (for_each l f).
Proof.
  induction l as [|x l IH]; simpl; intros H; [apply respects_ret|].
  apply respects_bind; [apply H; left|]. intros _. apply IH.
  intros y Hy. apply H. by right.
Qed.

Lemma respects_if {A} (b : bool) (m1 m2 : M S A) :
  respects R m1 → respects R m2 → respects R (if b then m1 else m2).
Proof. by destruct b. Qed.

Lemma respects_match_option {A B} (o : option A) (f : A → M S B) (m : M S B) :
  (∀ a, respects R (f a)) → respects R m →
  respects R (match o with Some a => f a | None => m end).
Proof. destruct o; auto. Qed.
End respects.

Lemma respects_modify {S} (R : relation S) f : (∀ s, R s (f s)) → respects R (modify f).
Proof. intros H s. apply H. Qed.

Lemma respects_weaken {S A} (R R' : relation S) (m : M S A) :
  (∀ s s', R s s' → R' s s') → respects R m → respects R' m.
Proof. intros H Hm s. apply H, Hm. Qed.

(** Like [respects_bind], at one state. *)
Lemma respects_bind_at {S A B} (R : relation S) `{!Transitive R} (m : M S A) (f : A → M S B) s :
  R s (m s).2 → (∀ a s', m s = (Ret a, s') → R s' (f a s').2) → R s ((m ≫= f) s).2.
Proof.
  intros Hm Hf. unfold mbind, M_bind. destruct (m s) as [[a|e] s'] eqn:E; [|done]. etrans; [exact Hm|by apply Hf].
Qed.

#[export] Hint Resolve respects_ret respects_raise respects_gets respects_get_state
  respects_check respects_of_option respects_bind respects_try respects_for_each
  respects_if respects_match_option : respects.
#[export] Hint Extern 0 (PreOrder _) => typeclasses eauto : respects.

(** Running a sequence to its end. *)
Lemma bind_ret_inv {S A B} (m : M S A) (f : A → M S B) s b s'' :
  (m ≫= f) s = (Ret b, s'') → ∃ a s', m s = (Ret a, s') ∧ f a s' = (Ret b, s'').
Proof. unfold mbind, M_bind. destruct (m s) as [[a|e] s']; [by eauto|done]. Qed.

Lemma zoom_inv {S T A} (g : S → T) put (m : M T A) s r s' :
  zoom g put m s = (r, s') → ∃ t, m (g s) = (r, t) ∧ s' = put t s.
Proof. unfold zoom. destruct (m (g s)) as [r1 t]. intros [= <- <-]. by exists t. Qed.

(** [m_simpl] runs the monad symbolically in the goal. *)
Ltac m_unfold :=
  unfold check, of_option, mbind, M_bind, mret, M_ret, mthrow, M_throw, raise, get_state, gets,
    modify, try_except, zoom.
Tactic Notation "m_unfold" "in" hyp(H) :=
  unfold check, of_option, mbind, M_bind, mret, M_ret, mthrow, M_throw, raise, get_state, gets,
    modify, try_except, zoom in H.

(** Integer comparisons in hypotheses as propositions, then [lia]. *)
Ltac b2p := repeat match goal with
  | H : (_ <? _) = true |- _ => apply Z.ltb_lt in H
  | H : (_ <? _) = false |- _ => apply Z.ltb_ge in H
  | H : (_ <=? _) = true |- _ => apply Z.leb_le in H
  | H : (_ <=? _) = false |- _ => apply Z.leb_gt in H
  | H : (_ =? _) = true |- _ => apply Z.eqb_eq in H
  | H : (_ =? _) = false |- _ => apply Z.eqb_neq in H
  end.
Ltac blia := b2p; lia.

(** * Insertion-ordered dictionaries *)

(** A Python [dict]: keys in insertion order; assigning to a present key keeps
    its position. *)
Abbreviation dict K V := (list (K * V)).

Section dict.
Context {K V : Type} `{!EqDecision K}.
Implicit Types (d : dict K V) (k : K) (v : V).

Fixpoint dict_get k d : option V :=
  match d with
  | [] => None
  | (k', v) :: d' => if decide (k = k') then Some v else dict_get k d'
  end.

Fixpoint dict_set k v d : dict K V :=
  match d with
  | [] => [(k, v)]
  | (k', v') :: d' => if decide (k = k') then (k, v) :: d' else (k', v') :: dict_set k v d'
  end.

Definition dict_pop k d : dict K V := filter (λ p, p.1 ≠ k) d.
Definition dict_keys d : list K := d.*1.
Definition dict_values d : list V := d.*2.

Lemma dict_get_set_eq k v d : dict_get k (dict_set k v d) = Some v.
Proof.
  induction d as [|[k' v'] d IH]; simpl; [by rewrite decide_True|].
  destruct (decide (k = k')); simpl; [by rewrite decide_True|by rewrite decide_False].
Qed.

Lemma dict_get_set_ne k k' v d : k ≠ k' → dict_get k' (dict_set k v d) = dict_get k' d.
Proof.
  intros Hne. induction d as [|[k1 v1] d IH]; simpl; [by rewrite decide_False|].
  destruct (decide (k = k1)) as [->|]; simpl.
  - by rewrite !(decide_False (P := k' = k1)).
  - by destruct (decide (k' = k1)).
Qed.

Lemma dict_get_set k k' v d :
  dict_get k' (dict_set k v d) = if decide (k = k') then Some v else dict_get k' d.
Proof.
  destruct (decide (k = k')) as [->|]; [apply dict_get_set_eq|by apply dict_get_set_ne].
Qed.

Lemma dict_set_id k v d : dict_get k d = Some v → dict_set k v d = d.
Proof.
  induction d as [|[k' v'] d IH]; simpl; [done|].
  destruct (decide (k = k')) as [->|]; intros H; [by simplify_eq|]. by rewrite IH.
Qed.

Lemma dict_set_set k v v' d : dict_set k v (dict_set k v' d) = dict_set k v d.
Proof.
  induction d as [|[k1 v1] d IH]; simpl; [by rewrite decide_True|].
  case_decide; simpl; [by rewrite decide_True|]. by rewrite decide_False, IH.
Qed.

Lemma dict_get_elem k v d : dict_get k d = Some v → (k, v) ∈ d.
Proof.
  induction d as [|[k' v'] d IH]; simpl; [done|]. intros H.
  destruct (decide (k = k')); [simplify_eq; left|right; auto].
Qed.

Lemma dict_elem_get k v d : NoDup (dict_keys d) → (k, v) ∈ d → dict_get k d = Some v.
Proof.
  induction d as [|[k' v'] d IH]; simpl; [by rewrite elem_of_nil|].
  intros [Hni Hnd]%NoDup_cons [[= <- <-]|Hin]%elem_of_cons; [by rewrite decide_True|].
  rewrite decide_False; [by apply IH|]. intros ->. apply Hni.
  apply list_elem_of_fmap. by exists (k', v).
Qed.

Lemma dict_get_None k d : dict_get k d = None ↔ k ∉ dict_keys d.
Proof.
  induction d as [|[k' v'] d IH]; simpl; [split; [intros _; apply not_elem_of_nil|done]|].
  rewrite not_elem_of_cons. destruct (decide (k = k')) as [->|Hne]; [by split; [|intros []]|].
  rewrite IH. by split; [|intros []].
Qed.

Lemma dict_get_is_Some k d : is_Some (dict_get k d) ↔ k ∈ dict_keys d.
Proof.
  rewrite <-not_eq_None_Some, dict_get_None.
  destruct (decide (k ∈ dict_keys d)); naive_solver.
Qed.

Lemma dict_keys_set k v d :
  dict_keys (dict_set k v d) = if decide (k ∈ dict_keys d) then dict_keys d else dict_keys d ++ [k].
Proof.
  induction d as [|[k' v'] d IH].
  { rewrite decide_False; [done|apply not_elem_of_nil]. }
  cbn [dict_set]. destruct (decide (k = k')) as [->|Hne].
  { rewrite decide_True; [done|left]. }
  change (k' :: dict_keys (dict_set k v d) = if decide (k ∈ k' :: dict_keys d)
    then k' :: dict_keys d else k' :: dict_keys d ++ [k]).
  rewrite IH. destruct (decide (k ∈ dict_keys d)) as [Hin|Hni].
  - rewrite decide_True; [done|by right].
  - rewrite decide_False; [done|]. by intros [?|?]%elem_of_cons.
Qed.

Lemma dict_set_nodup k v d : NoDup (dict_keys d) → NoDup (dict_keys (dict_set k v d)).
Proof.
  intros Hnd. rewrite dict_keys_set. case_decide; [done|].
  apply NoDup_app. split_and!; [done| |apply NoDup_singleton].
  intros x Hx ->%list_elem_of_singleton. done.
Qed.

Lemma dict_set_fresh k v d : dict_get k d = None → dict_set k v d = d ++ [(k, v)].
Proof.
  induction d as [|[k1 v1] d IH]; simpl; [done|]. case_decide; [done|]. intros Hn. by rewrite IH.
Qed.

Lemma dict_elem_set k v d k' v' :
  (k', v') ∈ dict_set k v d → (k' = k ∧ v' = v) ∨ (k', v') ∈ d.
Proof.
  induction d as [|[k1 v1] d IH]; simpl.
  { intros [=]%list_elem_of_singleton; naive_solver. }
  destruct (decide (k = k1)); intros [[=]|Hin]%elem_of_cons; subst.
  - naive_solver.
  - right; by right.
  - right; left.
  - destruct (IH Hin) as [?|?]; [by left|right; by right].
Qed.

Lemma dict_elem_set_ne k v d k' v' : (k', v') ∈ d → k' ≠ k → (k', v') ∈ dict_set k v d.
Proof.
  intros Hin Hne. induction d as [|[k1 v1] d IH]; [by apply elem_of_nil in Hin|]. simpl.
  destruct (decide (k = k1)); apply elem_of_cons in Hin as [[=]|Hin]; subst; try done.
  - by right.
  - left.
  - right. by apply IH.
Qed.

Lemma dict_get_pop_eq k d : dict_get k (dict_pop k d) = None.
Proof.
  apply dict_get_None. unfold dict_keys, dict_pop. intros ([k' v]&->&Hin)%list_elem_of_fmap.
  apply list_elem_of_filter in Hin as [Hne _]. done.
Qed.

Lemma dict_get_pop_ne k k' d : k ≠ k' → dict_get k' (dict_pop k d) = dict_get k' d.
Proof.
  intros Hne. unfold dict_pop. induction d as [|[k1 v1] d IH]; [done|].
  rewrite filter_cons; simpl. destruct (decide (k1 ≠ k)) as [H|H]; simpl; rewrite IH; [done|].
  rewrite decide_False; [done|]. intros ->. apply H. naive_solver.
Qed.

Lemma dict_lfilter_nodup (f : K * V → bool) d :
  NoDup (dict_keys d) → NoDup (dict_keys (List.filter f d)).
Proof.
  induction d as [|[k v] d IH]; simpl; [done|]. intros [Hni Hnd]%NoDup_cons.
  destruct (f (k, v)); [|by apply IH]. simpl. apply NoDup_cons. split; [|by apply IH].
  intros ([k' v']&->&[Hin _]%list_elem_of_In%filter_In)%list_elem_of_fmap.
  apply Hni, list_elem_of_fmap. exists (k', v'). split; [done|]. by apply list_elem_of_In.
Qed.

Lemma dict_filter_nodup (P : K * V → Prop) `{!∀ x, Decision (P x)} d :
  NoDup (dict_keys d) → NoDup (dict_keys (filter P d)).
Proof.
  intros Hk. unfold dict_keys.
  induction d as [|[k1 v1] d IH]; [done|]. apply NoDup_cons in Hk as [Hni Hnd].
  rewrite filter_cons. case_decide; simpl; [|by apply IH].
  apply NoDup_cons. split; [|by apply IH].
  intros ([k2 v2]&Heq&Hin)%list_elem_of_fmap. apply Hni. simpl in *. subst.
  apply list_elem_of_filter in Hin as [_ Hin]. apply list_elem_of_fmap. by exists (k2, v2).
Qed.

Lemma dict_pop_nodup k d : NoDup (dict_keys d) → NoDup (dict_keys (dict_pop k d)).
Proof. apply dict_filter_nodup. Qed.
End dict.

Lemma values_elem {K V} `{!EqDecision K} (d : dict K V) v :
  NoDup (dict_keys d) → v ∈ dict_values d ↔ ∃ k, dict_get k d = Some v.
Proof.
  intros Hnd. unfold dict_values. rewrite list_elem_of_fmap. split.
  - intros ([k x]&->&Hin). exists k. by apply dict_elem_get.
  - intros [k Hk]. exists (k, v). split; [done|]. by apply dict_get_elem.
Qed.

(** Applies an in-place mutation to every value: [for v in d.values(): ...] *)
Definition dict_map_values {K V W} (f : V → W) (d : dict K V) : dict K W :=
  (λ p, (p.1, f p.2)) <$> d.

Lemma dict_keys_map_values {K V W} (f : V → W) (d : dict K V) :
  dict_keys (dict_map_values f d) = dict_keys d.
Proof.
  unfold dict_keys, dict_map_values. rewrite <-list_fmap_compose. by apply list_fmap_ext.
Qed.

Lemma dict_get_map_values {K V W} `{!EqDecision K} (f : V → W) k (d : dict K V) :
  dict_get k (dict_map_values f d) = f <$> dict_get k d.
Proof.
  induction d as [|[k' v'] d IH]; simpl; [done|]. by destruct (decide (k = k')).
Qed.

(** [for v in d.values(): m(v)], where [m] mutates the value object it is given. *)
Fixpoint for_values {K V} (m : M V unit) (d : dict K V) : outcome unit * dict K V :=
  match d with
  | [] => (Ret tt, [])
  | (k, v) :: d' =>
      match m v with
      | (Ret _, v') => let '(r, d'') := for_values m d' in (r, (k, v') :: d'')
      | (Raise e, v') => (Raise e, (k, v') :: d')
      end
  end.

Lemma for_values_total {K V} (m : M V unit) (f : V → V) (d : dict K V) :
  (∀ v, m v = (Ret tt, f v)) → for_values m d = (Ret tt, dict_map_values f d).
Proof.
  intros H. induction d as [|[k v] d IH]; simpl; [done|]. by rewrite H, IH.
Qed.

(** [m] run on the object stored under [k]: [d[k]] raises [KeyError] when the
    key is absent. *)
Definition on_key {K V A} `{!EqDecision K} (k : K) (e : exn) (m : M V A) : M (dict K V) A := λ d,
  match dict_get k d with
  | Some v => let '(r, v') := m v in (r, dict_set k v' d)
  | None => (Raise e, d)
  end.

Lemma on_key_get {K V A} `{!EqDecision K} (k : K) e (m : M V A) (d : dict K V) k' :
  dict_get k' (on_key k e m d).2 =
  if decide (k = k') then (λ v, (m v).2) <$> dict_get k d else dict_get k' d.
Proof.
  unfold on_key. destruct (dict_get k d) as [v|] eqn:E; simpl.
  - destruct (m v) as [r v'] eqn:Em; simpl. by rewrite dict_get_set.
  - case_decide; subst; done.
Qed.

(** * Stable sorting *)

Section stable_sort.
Context {A : Type} (leb : A → A → bool).

Fixpoint sort_insert (x : A) (l : list A) : list A :=
  match l with
  | [] => [x]
  | y :: l' => if leb x y then x :: y :: l' else y :: sort_insert x l'
  end.

(** Python's [sorted]: equal keys keep their order. *)
Definition stable_sort (l : list A) : list A := foldr sort_insert [] l.

Lemma sort_insert_perm x l : sort_insert x l ≡ₚ x :: l.
Proof.
  induction l as [|y l IH]; simpl; [done|]. destruct (leb x y); [done|].
  rewrite IH. apply Permutation_swap.
Qed.

Lemma stable_sort_perm l : stable_sort l ≡ₚ l.
Proof. induction l as [|x l IH]; simpl; [done|]. by rewrite sort_insert_perm, IH. Qed.

Lemma stable_sort_nil l : stable_sort l = [] ↔ l = [].
Proof.
  split; [|by intros ->]. intros H. pose proof (stable_sort_perm l) as Hp.
  rewrite H in Hp. by apply Permutation_nil_l in Hp.
Qed.

Context (Htot : ∀ x y, leb x y = true ∨ leb y x = true).
Context (Htrans : ∀ x y z, leb x y = true → leb y z = true → leb x z = true).

Lemma sort_insert_sorted x l :
  StronglySorted (λ a b, leb a b = true) l →
  StronglySorted (λ a b, leb a b = true) (sort_insert x l).
Proof using Htot Htrans.
  induction 1 as [|y l Hs IH Hall]; simpl; [by repeat constructor|].
  destruct (leb x y) eqn:E.
  - constructor; [by constructor|]. constructor; [done|].
    eapply Forall_impl; [exact Hall|]. simpl. eauto.
  - constructor; [done|]. rewrite sort_insert_perm. constructor; [|done].
    destruct (Htot x y); congruence.
Qed.

Lemma stable_sort_sorted l : StronglySorted (λ a b, leb a b = true) (stable_sort l).
Proof using Htot Htrans. induction l; simpl; [constructor|by apply sort_insert_sorted]. Qed.

Lemma stable_sort_head_min l x t y :
  stable_sort l = x :: t → y ∈ l → leb x y = true.
Proof using Htot Htrans.
  intros E Hy. pose proof (stable_sort_sorted l) as Hs. rewrite E in Hs.
  apply StronglySorted_inv in Hs as [_ Hall].
  rewrite <-(stable_sort_perm l), E in Hy. apply elem_of_cons in Hy as [->|Hy].
  - destruct (Htot x x); done.
  - rewrite Forall_forall in Hall. by apply Hall.
Qed.
End stable_sort.

(** Stability of the head: of two elements with equal keys, the one that comes
    first in the input is never sorted after the other one. *)
Lemma stable_sort_head_first {A} (leb : A → A → bool) l x t :
  (∀ x y, leb x y = true ∨ leb y x = true) →
  (∀ x y z, leb x y = true → leb y z = true → leb x z = true) →
  stable_sort leb l = x :: t →
  ∃ l1 l2, l = l1 ++ x :: l2 ∧ Forall (λ y, leb y x = false) l1.
Proof.
  intros Htot Htrans. revert x t. induction l as [|y l IH]; simpl; intros x t E; [done|].
  destruct (stable_sort leb l) as [|z t'] eqn:El; simpl in E.
  { simplify_eq. exists [], l. by split. }
  destruct (leb y z) eqn:Eyz; simplify_eq; [exists [], l; by split|].
  destruct (IH _ _ eq_refl) as (l1&l2&->&Hall). exists (y :: l1), l2. by split; [|constructor].
Qed.

(** * Time *)

(** [datetime] values are microseconds since the epoch, the resolution of the
    type; [timedelta(seconds=n)] is [seconds n]. *)
Definition seconds (n : Z) : Z := n * 1000000.

(** * Strings *)

Lemma string_app_assoc (s t u : string) : (s +:+ t) +:+ u = s +:+ t +:+ u.
Proof.
  induction s as [|c s IH]; [done|].
  change (String c ((s +:+ t) +:+ u) = String c (s +:+ t +:+ u)). by rewrite IH.
Qed.

(** * Lists *)

(** [len([x for x in l if p x])] *)
Definition count {A} (p : A → bool) (l : list A) : Z := Z.of_nat (length (List.filter p l)).

Lemma count_nonneg {A} (p : A → bool) l : 0 ≤ count p l.
Proof. unfold count. lia. Qed.

Lemma count_cons {A} (p : A → bool) x l : count p (x :: l) = (if p x then 1 else 0) + count p l.
Proof. unfold count. simpl. destruct (p x); simpl; lia. Qed.

Lemma count_app {A} (p : A → bool) l1 l2 : count p (l1 ++ l2) = count p l1 + count p l2.
Proof. induction l1; simpl; [done|]. rewrite !count_cons. lia. Qed.

Lemma count_ext {A} (p q : A → bool) l :
  (∀ x, x ∈ l → p x = q x) → count p l = count q l.
Proof.
  induction l as [|x l IH]; intros H; [done|]. rewrite !count_cons, (H x) by left.
  rewrite IH; [done|]. intros y Hy. apply H. by right.
Qed.

Lemma count_mono {A} (p q : A → bool) l :
  (∀ x, x ∈ l → p x = true → q x = true) → count p l ≤ count q l.
Proof.
  induction l as [|x l IH]; intros H; [done|]. rewrite !count_cons.
  assert (count p l ≤ count q l). { apply IH. intros y Hy. apply H. by right. }
  destruct (p x) eqn:E; [rewrite (H x) by (done || left); lia|]. destruct (q x); lia.
Qed.

Lemma filter_iff_in {A} (P Q : A → Prop) `{!∀ x, Decision (P x), !∀ x, Decision (Q x)} (l : list A) :
  (∀ x, x ∈ l → P x ↔ Q x) → filter P l = filter Q l.
Proof.
  induction l as [|x l IH]; intros Heq; [done|].
  rewrite !filter_cons, IH by (intros; apply Heq; by right).
  assert (P x ↔ Q x) as Hx by (apply Heq; left). destruct (decide (P x)); case_decide; tauto.
Qed.

Lemma filter_split {A} (f : A → bool) l l1 x l2 :
  List.filter f l = l1 ++ x :: l2 →
  ∃ k1 k2, l = k1 ++ x :: k2 ∧ f x = true ∧ List.filter f k1 = l1 ∧ List.filter f k2 = l2.
Proof.
  revert l1. induction l as [|y l IH]; simpl; intros l1 H; [by destruct l1|].
  destruct (f y) eqn:E.
  - destruct l1 as [|z l1]; simpl in H; injection H as <- H.
    + subst; by exists [], l.
    + destruct (IH _ H) as (k1&k2&->&?&<-&<-). exists (y :: k1), k2. simpl. by rewrite E.
  - destruct (IH _ H) as (k1&k2&->&?&<-&<-). exists (y :: k1), k2. simpl. by rewrite E.
Qed.

Lemma filter_nil_not_in {A} (f : A → bool) l x : List.filter f l = [] → x ∈ l → f x = true → False.
Proof.
  intros E Hx Hf. assert (In x (List.filter f l)) as H; [|by rewrite E in H].
  apply filter_In. by rewrite <-list_elem_of_In.
Qed.

Lemma filter_all {A} (P : A → Prop) `{!∀ x, Decision (P x)} (l : list A) :
  (∀ x, x ∈ l → P x) → filter P l = l.
Proof.
  induction l as [|x l IH]; intros Hall; [done|].
  rewrite filter_cons, decide_True by (apply Hall; left).
  f_equal. apply IH. intros y Hy. apply Hall. by right.
Qed.

Lemma find_app {A} (p : A → bool) l1 l2 :
  List.find p (l1 ++ l2) = match List.find p l1 with Some x => Some x | None => List.find p l2 end.
Proof. induction l1 as [|x l1 IH]; simpl; [done|]. by destruct (p x). Qed.
