(* ===== verification/Values.v ===== *)
(** Python values held in untyped dictionaries (payloads, errors, metadata,
    configuration): the JSON-shaped values the runtime stores, their equality,
    truth value and the [dict] accessors the code applies to them. *)

From S2P Require Import Prelude.

(** A value of a [dict[str, Any]] the runtime writes or reads. [VTime] is a
    [datetime]; floats do not occur in the modelled payloads. *)
Inductive value : Type :=
| VNone
| VBool (b : bool)
| VInt (z : Z)
| VStr (s : string)
| VTime (t : Z)
| VList (l : list value)
| VDict (d : list (string * value)).

Abbreviation pydict := (dict string value).

(** Structural equality of values. *)
Fixpoint value_eqb (v w : value) {struct v} : bool :=
  match v, w with
  | VNone, VNone => true
  | VBool a, VBool b => Bool.eqb a b
  | VInt a, VInt b => a =? b
  | VStr a, VStr b => String.eqb a b
  | VTime a, VTime b => a =? b
  | VList l, VList k =>
      (fix go (l k : list value) : bool :=
         match l, k with
         | [], [] => true
         | x :: l', y :: k' => value_eqb x y && go l' k'
         | _, _ => false
         end) l k
  | VDict d, VDict e =>
      (fix go (d e : list (string * value)) : bool :=
         match d, e with
         | [], [] => true
         | (a, x) :: d', (b, y) :: e' => String.eqb a b && value_eqb x y && go d' e'
         | _, _ => false
         end) d e
  | _, _ => false
  end.

(** Induction over values that reaches the elements of lists and dictionaries. *)
Section value_ind.
Context (P : value → Prop).
Context (HNone : P VNone) (HBool : ∀ b, P (VBool b)) (HInt : ∀ z, P (VInt z))
  (HStr : ∀ s, P (VStr s)) (HTime : ∀ t, P (VTime t))
  (HList : ∀ l, Forall P l → P (VList l))
  (HDict : ∀ d, Forall (λ p, P p.2) d → P (VDict d)).

Fixpoint value_deep_ind (v : value) : P v :=
  match v with
  | VNone => HNone
  | VBool b => HBool b
  | VInt z => HInt z
  | VStr s => HStr s
  | VTime t => HTime t
  | VList l => HList l
      ((fix go (l : list value) : Forall P l :=
          match l with
          | [] => Forall_nil_2 P
          | x :: l' => Forall_cons_2 P x l' (value_deep_ind x) (go l')
          end) l)
  | VDict d => HDict d
      ((fix go (d : list (string * value)) : Forall (λ p, P p.2) d :=
          match d with
          | [] => Forall_nil_2 _
          | x :: d' => Forall_cons_2 (λ p, P p.2) x d' (value_deep_ind x.2) (go d')
          end) d)
  end.
End value_ind.

Lemma value_eqb_eq v w : value_eqb v w = true ↔ v = w.
Proof.
  revert w. induction v as [|b|z|s|t|l IH|d IH] using value_deep_ind;
    intros [| | | | |k|e]; simpl; try (by split).
  - rewrite Bool.eqb_true_iff. naive_solver.
  - rewrite Z.eqb_eq. naive_solver.
  - rewrite String.eqb_eq. naive_solver.
  - rewrite Z.eqb_eq. naive_solver.
  - transitivity (l = k); [|naive_solver].
    revert k. induction IH as [|x l Hx _ IHl]; intros [|y k]; try (by split).
    rewrite andb_true_iff, Hx, IHl. naive_solver.
  - transitivity (d = e); [|naive_solver].
    revert e. induction IH as [|[a x] d Hx _ IHd]; intros [|[b y] e]; try (by split).
    simpl in Hx. rewrite !andb_true_iff, String.eqb_eq, Hx, IHd. naive_solver.
Qed.

#[export] Instance value_eq_dec : EqDecision value.
Proof.
  intros v w. destruct (value_eqb v w) eqn:E; [left|right].
  - by apply value_eqb_eq.
  - intros H%value_eqb_eq. congruence.
Defined.

(** [bool(v)] *)
Definition truthy (v : value) : bool :=
  match v with
  | VNone => false
  | VBool b => b
  | VInt z => negb (z =? 0)
  | VStr s => negb (String.eqb s "")
  | VTime _ => true
  | VList l => match l with [] => false | _ => true end
  | VDict d => match d with [] => false | _ => true end
  end.

(** [a or b] on optional integers and strings, where [0] and [""] are false. *)
Definition or_int (o : option Z) (d : Z) : Z :=
  match o with Some z => if z =? 0 then d else z | None => d end.
Definition str_truthy (o : option string) : bool :=
  match o with Some s => negb (String.eqb s "") | None => false end.
Definition or_str (o : option string) (d : string) : string :=
  match o with Some s => if String.eqb s "" then d else s | None => d end.

(** [{**a, **b}]: the entries of [b] override those of [a]. *)
Definition dict_merge {V} (a b : dict string V) : dict string V :=
  foldl (λ acc p, dict_set p.1 p.2 acc) a b.
Definition of_int_opt (o : option Z) : value := match o with Some z => VInt z | None => VNone end.
Definition of_str_opt (o : option string) : value := match o with Some s => VStr s | None => VNone end.
