(* ===== verification/Json.v ===== *)
(** The part of Python's [json], [str] and [int] that the runtime relies on:
    compact [json.dumps] with sorted keys, and [int(text)]. A string is a
    sequence of code points below 256. *)

From S2P Require Import Prelude Values.
From Stdlib Require Import Ascii.

(** * Lists of characters *)

Abbreviation chars := (list ascii).

Definition code (c : ascii) : Z := Z.of_N (N_of_ascii c).
Definition chr (z : Z) : ascii := ascii_of_N (Z.to_N z).

Fixpoint to_chars (s : string) : chars :=
  match s with EmptyString => [] | String c s' => c :: to_chars s' end.
Fixpoint of_chars (l : chars) : string :=
  match l with [] => EmptyString | c :: l' => String c (of_chars l') end.

(** [len(s)] *)
Definition str_len (s : string) : Z := Z.of_nat (String.length s).

(** * [str.startswith] and slicing *)

(** [s[len(p):]] when [s.startswith(p)]. *)
Fixpoint strip_prefix (p s : string) : option string :=
  match p, s with
  | EmptyString, _ => Some s
  | String a p', String b s' => if Ascii.eqb a b then strip_prefix p' s' else None
  | String _ _, EmptyString => None
  end.

Definition starts_with (p s : string) : bool := bool_decide (is_Some (strip_prefix p s)).

(** * [int(text)] *)

Definition is_space (c : ascii) : bool :=
  let z := code c in
  ((9 <=? z) && (z <=? 13)) || ((28 <=? z) && (z <=? 32)) || (z =? 133) || (z =? 160).
Definition is_digit (c : ascii) : bool := (48 <=? code c) && (code c <=? 57).

Fixpoint lstrip (l : chars) : chars :=
  match l with
  | c :: l' => if is_space c then lstrip l' else l
  | [] => []
  end.
(** [text.strip()] *)
Definition strip (l : chars) : chars := rev (lstrip (rev (lstrip l))).

(** Decimal digits, single underscores allowed between two digits; [prev] says
    whether the previous character was a digit. *)
Fixpoint parse_digits (acc : Z) (prev : bool) (l : chars) : option Z :=
  match l with
  | [] => if prev then Some acc else None
  | c :: l' =>
      if is_digit c then parse_digits (acc * 10 + (code c - 48)) true l'
      else if Ascii.eqb c "_" && prev then
        match l' with
        | d :: _ => if is_digit d then parse_digits acc false l' else None
        | [] => None
        end
      else None
  end.

Definition py_int (s : string) : option Z :=
  match strip (to_chars s) with
  | c :: l =>
      if Ascii.eqb c "-" then Z.opp <$> parse_digits 0 false l
      else if Ascii.eqb c "+" then parse_digits 0 false l
      else parse_digits 0 false (c :: l)
  | [] => None
  end.

(** * [json.dumps(v, separators=(",", ":"), sort_keys=True)] *)

Definition hex_digit (z : Z) : ascii := if z <? 10 then chr (48 + z) else chr (87 + z).

(** One character of a JSON string, with [ensure_ascii]. *)
Definition dump_char (c : ascii) : chars :=
  let z := code c in
  if z =? 34 then [chr 92; chr 34]
  else if z =? 92 then [chr 92; chr 92]
  else if z =? 10 then [chr 92; "n"%char]
  else if z =? 13 then [chr 92; "r"%char]
  else if z =? 9 then [chr 92; "t"%char]
  else if z =? 12 then [chr 92; "f"%char]
  else if z =? 8 then [chr 92; "b"%char]
  else if (32 <=? z) && (z <=? 126) then [c]
  else [chr 92; "u"%char; "0"%char; "0"%char; hex_digit (z / 16); hex_digit (z mod 16)].

Definition dump_string (s : string) : chars :=
  chr 34 :: (to_chars s ≫= dump_char) ++ [chr 34].

Fixpoint intersperse (sep : ascii) (l : list chars) : chars :=
  match l with
  | [] => []
  | [x] => x
  | x :: l' => x ++ sep :: intersperse sep l'
  end.

(** Code-point order of keys. *)
Fixpoint chars_leb (a b : chars) : bool :=
  match a, b with
  | [], _ => true
  | _ :: _, [] => false
  | x :: a', y :: b' => (code x <? code y) || ((code x =? code y) && chars_leb a' b')
  end.
Definition key_leb {A} (a b : string * A) : bool := chars_leb (to_chars a.1) (to_chars b.1).

(** The compact dump with sorted keys; a [datetime] has no JSON form and makes
    [json.dumps] raise. *)
Fixpoint dump (v : value) : option chars :=
  match v with
  | VNone => Some (to_chars "null")
  | VBool true => Some (to_chars "true")
  | VBool false => Some (to_chars "false")
  | VInt z => Some (to_chars (pretty z))
  | VStr s => Some (dump_string s)
  | VTime _ => None
  | VList l =>
      items ← (fix go (l : list value) : option (list chars) :=
        match l with
        | [] => Some []
        | x :: l' => a ← dump x; b ← go l'; Some (a :: b)
        end) l;
      Some ("["%char :: intersperse "," items ++ ["]"%char])
  | VDict d =>
      items ← (fix go (d : list (string * value)) : option (list (string * chars)) :=
        match d with
        | [] => Some []
        | (k, x) :: d' => a ← dump x; b ← go d'; Some ((k, a) :: b)
        end) d;
      Some ("{"%char :: intersperse ","
        ((λ p, dump_string p.1 ++ ":"%char :: p.2) <$> stable_sort key_leb items) ++ ["}"%char])
  end.

Definition json_dumps (v : value) : option string := of_chars <$> dump v.

Definition type_error : exn := TypeError "Object of type datetime is not JSON serializable".

Example dumps_sorted :
  json_dumps (VDict [("b", VList [VInt 1; VNone]); ("a", VStr "x")])
  = Some (of_chars (intersperse (chr 34) (to_chars <$> ["{"; "a"; ":"; "x"; ","; "b"; ":[1,null]}"]))).
Proof. reflexivity. Qed.
Example int_spaces : py_int " +1_000 " = Some 1000.
Proof. reflexivity. Qed.
Example int_bad : py_int "1__0" = None ∧ py_int "" = None ∧ py_int "x" = None.
Proof. done. Qed.

(** * [int] reads back what [str] prints *)

Lemma pretty_N_char_digit (n : N) :
  (n < 10)%N → is_digit (pretty_N_char n) = true ∧ code (pretty_N_char n) = 48 + Z.of_N n.
Proof.
  intros H. assert (n = 0 ∨ n = 1 ∨ n = 2 ∨ n = 3 ∨ n = 4 ∨ n = 5 ∨ n = 6 ∨ n = 7 ∨ n = 8 ∨ n = 9)%N
    as Hn by lia. by destruct_or! Hn; subst.
Qed.

Lemma pretty_N_go_digits x s :
  Forall (λ c, is_digit c = true) (to_chars s) →
  Forall (λ c, is_digit c = true) (to_chars (pretty_N_go x s)).
Proof.
  revert s. induction (N.lt_wf_0 x) as [x _ IH]; intros s Hs.
  destruct (decide (x = 0)%N) as [->|]; [done|].
  rewrite pretty_N_go_step by lia. apply IH; [by apply N.div_lt; lia|]. simpl.
  constructor; [|done]. apply pretty_N_char_digit, N.mod_lt. lia.
Qed.

Lemma parse_pretty_N_go x s prev :
  (0 < x)%N → parse_digits 0 prev (to_chars (pretty_N_go x s)) = parse_digits (Z.of_N x) true (to_chars s).
Proof.
  revert s prev. induction (N.lt_wf_0 x) as [x _ IH]; intros s prev Hx.
  rewrite pretty_N_go_step by done.
  destruct (pretty_N_char_digit (x mod 10)) as [Hd Hc]; [apply N.mod_lt; lia|].
  destruct (decide (x / 10 = 0)%N) as [E|E].
  - rewrite E. cbn [pretty_N_go to_chars]. rewrite pretty_N_go_0. cbn [to_chars parse_digits].
    rewrite Hd, Hc. f_equal. apply N.div_small_iff in E; [|lia]. rewrite N.mod_small by lia. lia.
  - rewrite IH; [|by apply N.div_lt|by apply N.neq_0_lt_0]. cbn [to_chars parse_digits]. rewrite Hd, Hc. f_equal.
    pose proof (N.div_mod x 10 ltac:(lia)). lia.
Qed.

Lemma digit_not_space c : is_digit c = true → is_space c = false.
Proof. unfold is_digit, is_space. lia. Qed.

Lemma lstrip_digits l : Forall (λ c, is_digit c = true) l → lstrip l = l.
Proof. intros [|c l' Hc _]; simpl; [done|]. by rewrite digit_not_space. Qed.

Lemma strip_digits l : Forall (λ c, is_digit c = true) l → strip l = l.
Proof.
  intros H. unfold strip. rewrite (lstrip_digits l) by done.
  rewrite lstrip_digits by by apply Forall_rev. apply rev_involutive.
Qed.

Lemma digit_not_sign c : is_digit c = true → Ascii.eqb c "-" = false ∧ Ascii.eqb c "+" = false.
Proof.
  intros H. split; apply Ascii.eqb_neq; intros ->; by vm_compute in H.
Qed.

Lemma py_int_digits l :
  Forall (λ c, is_digit c = true) l → l ≠ [] → py_int (of_chars l) = parse_digits 0 false l.
Proof.
  intros H Hne. unfold py_int.
  assert (to_chars (of_chars l) = l) as -> by (clear; induction l; simpl; congruence).
  rewrite strip_digits by done. destruct H as [|c l Hc Hl]; [done|].
  by destruct (digit_not_sign c Hc) as [-> ->].
Qed.

Lemma of_to_chars s : of_chars (to_chars s) = s.
Proof. induction s; simpl; congruence. Qed.

Lemma to_chars_app a b : to_chars (a +:+ b) = to_chars a ++ to_chars b.
Proof. induction a as [|c a IH]; [done|]. simpl. by f_equal. Qed.

Lemma py_int_pretty z : 0 ≤ z → py_int (pretty z) = Some z.
Proof.
  intros Hz. destruct z as [|p|p]; [done| |lia].
  change (pretty (Z.pos p)) with (pretty (N.pos p)). unfold pretty, pretty_N.
  rewrite decide_False by done. rewrite <-(of_to_chars (pretty_N_go _ _)).
  pose proof (parse_pretty_N_go (N.pos p) "" false ltac:(lia)) as Hp.
  rewrite py_int_digits; [done|by apply pretty_N_go_digits|].
  intros E. rewrite E in Hp. done.
Qed.

(** * Prefixes *)

Lemma strip_prefix_app p s : strip_prefix p (p +:+ s) = Some s.
Proof. induction p as [|a p IH]; simpl; [done|]. by rewrite Ascii.eqb_refl. Qed.

(** * Identifiers joined by colons *)

Lemma digits_no_colon l : Forall (λ c, is_digit c = true) l → ":"%char ∉ l.
Proof. intros Hl Hin. rewrite Forall_forall in Hl. specialize (Hl _ Hin). by vm_compute in Hl. Qed.

Lemma pretty_no_colon (z : Z) : ":"%char ∉ to_chars (pretty z).
Proof.
  assert (∀ p, ":"%char ∉ to_chars (pretty (N.pos p))) as Hp.
  { intros p. unfold pretty, pretty_N. rewrite decide_False by done.
    by apply digits_no_colon, pretty_N_go_digits. }
  destruct z as [|p|p]; [by apply digits_no_colon; repeat constructor|apply Hp|].
  change (to_chars (pretty (Z.neg p))) with ("-"%char :: to_chars (pretty (N.pos p))).
  by intros [?|?%Hp]%elem_of_cons.
Qed.

(** The first colon separates: no two ids make the same key. *)
Lemma colon_split a b x y :
  ":"%char ∉ to_chars a → ":"%char ∉ to_chars b → a +:+ ":" +:+ x = b +:+ ":" +:+ y → a = b ∧ x = y.
Proof.
  revert b. induction a as [|c a IH]; intros [|d b] Ha Hb H; simpl in *.
  - by injection H.
  - injection H as <- _. destruct Hb. left.
  - injection H as -> _. destruct Ha. left.
  - apply not_elem_of_cons in Ha as [_ Ha]. apply not_elem_of_cons in Hb as [_ Hb].
    injection H as -> H. by destruct (IH b Ha Hb H) as [-> ->].
Qed.

Lemma pretty_colon_inj (a b : Z) x y :
  pretty a +:+ ":" +:+ x = pretty b +:+ ":" +:+ y → a = b ∧ x = y.
Proof.
  intros H. apply colon_split in H as [H ->]; [|apply pretty_no_colon..].
  split; [|done]. by apply (inj pretty).
Qed.
