(* ===== verification/JsonLoads.v ===== *)
(** Python's [json.loads] on the values the runtime stores, and that it reads
    back what the compact [json.dumps] of [Json] wrote, with sorted keys. *)

From S2P Require Import Prelude Values Json.
From Stdlib Require Import Ascii.

(** * The decoder *)

Definition is_ws (c : ascii) : bool :=
  (code c =? 32) || (code c =? 9) || (code c =? 10) || (code c =? 13).

Fixpoint skip_ws (l : chars) : chars :=
  match l with
  | c :: l' => if is_ws c then skip_ws l' else l
  | [] => []
  end.

Definition hex_value (c : ascii) : option Z :=
  let z := code c in
  if is_digit c then Some (z - 48)
  else if (97 <=? z) && (z <=? 102) then Some (z - 87)
  else if (65 <=? z) && (z <=? 70) then Some (z - 55)
  else None.

(** The code point of [\uXXXX]; code points from 256 on are outside the
    model of strings. *)
Definition hex4 (a b c d : ascii) : option ascii :=
  w ← hex_value a; x ← hex_value b; y ← hex_value c; z ← hex_value d;
  let n := ((w * 16 + x) * 16 + y) * 16 + z in
  if n <? 256 then Some (chr n) else None.

Definition simple_escape (c : ascii) : option ascii :=
  let z := code c in
  if z =? 34 then Some (chr 34)
  else if z =? 92 then Some (chr 92)
  else if z =? 47 then Some (chr 47)
  else if z =? 98 then Some (chr 8)
  else if z =? 102 then Some (chr 12)
  else if z =? 110 then Some (chr 10)
  else if z =? 114 then Some (chr 13)
  else if z =? 116 then Some (chr 9)
  else None.

(** The characters of a string up to its closing quote, and what follows. *)
Fixpoint parse_string (l : chars) : option (chars * chars) :=
  match l with
  | [] => None
  | c :: l' =>
      if code c =? 34 then Some ([], l')
      else if code c =? 92 then
        match l' with
        | e :: l'' =>
            if Ascii.eqb e "u" then
              match l'' with
              | w :: x :: y :: z :: r =>
                  match hex4 w x y z, parse_string r with
                  | Some a, Some (s, r') => Some (a :: s, r')
                  | _, _ => None
                  end
              | _ => None
              end
            else
              match simple_escape e, parse_string l'' with
              | Some a, Some (s, r') => Some (a :: s, r')
              | _, _ => None
              end
        | [] => None
        end
      else if code c <? 32 then None
      else match parse_string l' with Some (s, r') => Some (c :: s, r') | None => None end
  end.

Fixpoint span_digits (acc : Z) (l : chars) : Z * chars :=
  match l with
  | c :: l' => if is_digit c then span_digits (acc * 10 + (code c - 48)) l' else (acc, l)
  | [] => (acc, [])
  end.

(** [0|[1-9][0-9]*]. A fraction or exponent is left unread, and refused by what
    follows: floats are outside the model of values. *)
Definition parse_natural (l : chars) : option (Z * chars) :=
  match l with
  | c :: l' =>
      if code c =? 48 then Some (0, l')
      else if is_digit c then Some (span_digits 0 l) else None
  | [] => None
  end.

Definition parse_number (l : chars) : option (value * chars) :=
  match l with
  | c :: l' =>
      if Ascii.eqb c "-" then '(z, r) ← parse_natural l'; Some (VInt (- z), r)
      else '(z, r) ← parse_natural l; Some (VInt z, r)
  | [] => None
  end.

Fixpoint strip_chars (p l : chars) : option chars :=
  match p, l with
  | [], _ => Some l
  | a :: p', b :: l' => if Ascii.eqb a b then strip_chars p' l' else None
  | _ :: _, [] => None
  end.

Definition parse_literal (l : chars) : option (value * chars) :=
  match strip_chars (to_chars "null") l with
  | Some r => Some (VNone, r)
  | None =>
      match strip_chars (to_chars "true") l with
      | Some r => Some (VBool true, r)
      | None => r ← strip_chars (to_chars "false") l; Some (VBool false, r)
      end
  end.

(** One value at the head of the text. Every call with fuel [S n] reads a
    character or ends the list it is in, so twice the length is enough. *)
Fixpoint parse_value (n : nat) (l : chars) : option (value * chars) :=
  match n with
  | O => None
  | S n =>
      match l with
      | [] => None
      | c :: l' =>
          if code c =? 34 then '(s, r) ← parse_string l'; Some (VStr (of_chars s), r)
          else if Ascii.eqb c "{" then
            match skip_ws l' with
            | d :: r => if Ascii.eqb d "}" then Some (VDict [], r) else parse_members n [] (d :: r)
            | [] => None
            end
          else if Ascii.eqb c "[" then
            match skip_ws l' with
            | d :: r => if Ascii.eqb d "]" then Some (VList [], r) else parse_items n [] (d :: r)
            | [] => None
            end
          else if Ascii.eqb c "-" || is_digit c then parse_number l
          else parse_literal l
      end
  end
with parse_items (n : nat) (acc : list value) (l : chars) : option (value * chars) :=
  match n with
  | O => None
  | S n =>
      '(v, r) ← parse_value n (skip_ws l);
      match skip_ws r with
      | d :: r' =>
          if Ascii.eqb d "," then parse_items n (acc ++ [v]) r'
          else if Ascii.eqb d "]" then Some (VList (acc ++ [v]), r') else None
      | [] => None
      end
  end
with parse_members (n : nat) (acc : pydict) (l : chars) : option (value * chars) :=
  match n with
  | O => None
  | S n =>
      match skip_ws l with
      | q :: l' =>
          if code q =? 34 then
            '(k, r) ← parse_string l';
            match skip_ws r with
            | d :: r1 =>
                if Ascii.eqb d ":" then
                  '(v, r2) ← parse_value n (skip_ws r1);
                  match skip_ws r2 with
                  | e :: r3 =>
                      let acc' := dict_set (of_chars k) v acc in
                      if Ascii.eqb e "," then parse_members n acc' r3
                      else if Ascii.eqb e "}" then Some (VDict acc', r3) else None
                  | [] => None
                  end
                else None
            | [] => None
            end
          else None
      | [] => None
      end
  end.

Definition json_loads (s : string) : option value :=
  let l := skip_ws (to_chars s) in
  '(v, r) ← parse_value (2 * length l + 2) l;
  match skip_ws r with [] => Some v | _ => None end.

Example loads_spaces :
  json_loads (of_chars (intersperse (chr 34) (to_chars <$> ["{ "; "a"; " : [1 ,-20, true ], "; "b"; ":null }"])))
  = Some (VDict [("a", VList [VInt 1; VInt (-20); VBool true]); ("b", VNone)]).
Proof. reflexivity. Qed.
Example loads_bad : json_loads "[1,]" = None ∧ json_loads "01" = None ∧ json_loads "{} x" = None.
Proof. by vm_compute. Qed.

(** * What comes back *)

(** The value that [json.loads] returns for the dump of [v]: the keys of every
    dictionary in sorted order. *)
Fixpoint canon (v : value) : value :=
  match v with
  | VList l => VList ((fix go (l : list value) : list value :=
      match l with [] => [] | x :: l' => canon x :: go l' end) l)
  | VDict d => VDict (stable_sort key_leb
      ((fix go (d : pydict) : pydict :=
          match d with [] => [] | (k, x) :: d' => (k, canon x) :: go d' end) d))
  | _ => v
  end.

(** No dictionary in [v] has the same key twice. *)
Fixpoint unique_keys (v : value) : Prop :=
  match v with
  | VList l => (fix go (l : list value) : Prop :=
      match l with [] => True | x :: l' => unique_keys x ∧ go l' end) l
  | VDict d => NoDup (dict_keys d) ∧ (fix go (d : pydict) : Prop :=
      match d with [] => True | (_, x) :: d' => unique_keys x ∧ go d' end) d
  | _ => True
  end.

Definition canon_dict (d : pydict) : pydict := stable_sort key_leb ((λ p, (p.1, canon p.2)) <$> d).

Lemma canon_list l : canon (VList l) = VList (canon <$> l).
Proof. done. Qed.

Lemma canon_VDict d : canon (VDict d) = VDict (canon_dict d).
Proof.
  simpl. unfold canon_dict. do 2 f_equal. induction d as [|[k x] d IH]; [done|].
  rewrite fmap_cons. f_equal. exact IH.
Qed.

Lemma unique_list l : unique_keys (VList l) ↔ Forall unique_keys l.
Proof. simpl. induction l as [|x l IH]; [by rewrite Forall_nil|]. by rewrite Forall_cons, IH. Qed.

Lemma unique_dict d :
  unique_keys (VDict d) ↔ NoDup (dict_keys d) ∧ Forall (λ p, unique_keys p.2) d.
Proof.
  simpl. f_equiv. induction d as [|[k x] d IH]; [by rewrite Forall_nil|]. by rewrite Forall_cons, IH.
Qed.

(** The dumps of the elements, as [dump] computes them. *)
Lemma dump_list l cs :
  dump (VList l) = Some cs → ∃ items, Forall2 (λ x c, dump x = Some c) l items ∧
    cs = "["%char :: intersperse "," items ++ ["]"%char].
Proof.
  simpl. intros (items&Hgo&[= <-])%bind_Some. exists items. split; [|done].
  revert items Hgo. induction l as [|x l IH]; intros items H; [by simplify_eq|].
  apply bind_Some in H as (a&Ha&(b&Hb&[= <-])%bind_Some). constructor; [done|]. by apply IH.
Qed.

Definition dumps_to (p : string * value) (q : string * chars) : Prop :=
  p.1 = q.1 ∧ dump p.2 = Some q.2.

Definition dump_member (p : string * chars) : chars := dump_string p.1 ++ ":"%char :: p.2.

Lemma dump_dict d cs :
  dump (VDict d) = Some cs → ∃ items, Forall2 dumps_to d items ∧
    cs = "{"%char :: intersperse "," (dump_member <$> stable_sort key_leb items) ++ ["}"%char].
Proof.
  simpl. intros (items&Hgo&[= <-])%bind_Some. exists items. split; [|done].
  revert items Hgo. induction d as [|[k x] d IH]; intros items H; [by simplify_eq|].
  apply bind_Some in H as (a&Ha&(b&Hb&[= <-])%bind_Some). constructor; [done|]. by apply IH.
Qed.

(** Sorting by key commutes with what happens to the values. *)
Lemma sort_insert_rel {A B} (R : string * A → string * B → Prop) x y l k :
  (∀ a b, R a b → a.1 = b.1) → R x y → Forall2 R l k →
  Forall2 R (sort_insert key_leb x l) (sort_insert key_leb y k).
Proof.
  intros HR Hxy Hlk. induction Hlk as [|a b l k Hab Hlk IH]; simpl; [by repeat constructor|].
  assert (key_leb x a = key_leb y b) as ->.
  { unfold key_leb. by rewrite (HR _ _ Hxy), (HR _ _ Hab). }
  destruct (key_leb y b); by repeat constructor.
Qed.

Lemma stable_sort_rel {A B} (R : string * A → string * B → Prop) l k :
  (∀ a b, R a b → a.1 = b.1) → Forall2 R l k →
  Forall2 R (stable_sort key_leb l) (stable_sort key_leb k).
Proof.
  intros HR Hlk. induction Hlk as [|a b l k Hab Hlk IH]; simpl; [done|].
  by apply sort_insert_rel.
Qed.

(** * Strings and numbers *)

Lemma parse_dump_char c tl :
  parse_string (dump_char c ++ tl) =
  match parse_string tl with Some (s, r) => Some (c :: s, r) | None => None end.
Proof. destruct c as [[] [] [] [] [] [] [] []]; reflexivity. Qed.

Lemma parse_dump_chars s rest :
  parse_string ((s ≫= dump_char) ++ chr 34 :: rest) = Some (s, rest).
Proof.
  induction s as [|c s IH]; [done|]. cbn [mbind list_bind]. change (list_bind _ _ dump_char s) with (s ≫= dump_char).
  rewrite <-app_assoc, parse_dump_char. by rewrite IH.
Qed.

(** What may follow a value inside a dump. *)
Definition closes (rest : chars) : Prop :=
  match rest with [] => True | c :: _ => c = ","%char ∨ c = "]"%char ∨ c = "}"%char end.

Lemma span_closes z rest : closes rest → span_digits z rest = (z, rest).
Proof. destruct rest as [|c rest]; simpl; [done|]. by intros [-> |[-> | ->]]. Qed.

Lemma skip_closes rest : closes rest → skip_ws rest = rest.
Proof. destruct rest as [|c rest]; simpl; [done|]. by intros [-> |[-> | ->]]. Qed.

Lemma span_pretty x s rest :
  (0 < x)%N →
  span_digits 0 (to_chars (pretty_N_go x s) ++ rest) = span_digits (Z.of_N x) (to_chars s ++ rest).
Proof.
  revert s. induction (N.lt_wf_0 x) as [x _ IH]; intros s Hx.
  rewrite pretty_N_go_step by done.
  destruct (pretty_N_char_digit (x mod 10)) as [Hd Hc]; [apply N.mod_lt; lia|].
  destruct (decide (x / 10 = 0)%N) as [E|E].
  - rewrite E, pretty_N_go_0. cbn [to_chars app span_digits].
    rewrite Hd, Hc. f_equal. apply N.div_small_iff in E; [|lia]. rewrite N.mod_small by lia. lia.
  - rewrite IH; [|by apply N.div_lt|by apply N.neq_0_lt_0]. cbn [to_chars app span_digits].
    rewrite Hd, Hc. f_equal. pose proof (N.div_mod x 10 ltac:(lia)). lia.
Qed.

Lemma pretty_N_go_head x s :
  (0 < x)%N → ∃ c l, to_chars (pretty_N_go x s) = c :: l ∧ is_digit c = true ∧ code c ≠ 48.
Proof.
  revert s. induction (N.lt_wf_0 x) as [x _ IH]; intros s Hx.
  rewrite pretty_N_go_step by done. destruct (decide (x / 10 = 0)%N) as [E|E].
  - rewrite E, pretty_N_go_0. apply N.div_small_iff in E; [|lia].
    destruct (pretty_N_char_digit (x mod 10)) as [Hd Hc]; [apply N.mod_lt; lia|].
    eexists _, _. split; [done|]. split; [done|]. rewrite Hc, N.mod_small by lia. lia.
  - apply IH; [by apply N.div_lt|by apply N.neq_0_lt_0].
Qed.

Lemma parse_natural_pretty p rest :
  closes rest → parse_natural (to_chars (pretty (N.pos p)) ++ rest) = Some (Z.pos p, rest).
Proof.
  intros Hr. unfold pretty, pretty_N. rewrite decide_False by done.
  destruct (pretty_N_go_head (N.pos p) "" ltac:(lia)) as (c&l&E&Hd&Hc).
  pose proof (span_pretty (N.pos p) "" rest ltac:(lia)) as Hs. rewrite E in *. simpl in *.
  rewrite (proj2 (Z.eqb_neq _ _) Hc), Hd in *. by rewrite Hs, span_closes.
Qed.

(** The first character of a dump says which branch of the decoder reads it. *)
Lemma parse_int_dump n z rest :
  closes rest → parse_value (S n) (to_chars (pretty z) ++ rest) = Some (VInt z, rest).
Proof.
  intros Hr. destruct z as [|p|p].
  - reflexivity.
  - pose proof (parse_natural_pretty p rest Hr) as Hp. change (pretty (Z.pos p)) with (pretty (N.pos p)).
    destruct (pretty_N_go_head (N.pos p) "" ltac:(lia)) as (c&l&E&Hd&Hc).
    assert (to_chars (pretty (N.pos p)) = c :: l) as E'.
    { unfold pretty, pretty_N. by rewrite decide_False. }
    rewrite E' in *. cbn [app] in *. destruct (digit_not_sign c Hd) as [Hm _]. cbn [parse_value].
    assert (code c =? 34 = false ∧ Ascii.eqb c "{" = false ∧ Ascii.eqb c "[" = false) as (->&->&->).
    { split_and!; [unfold is_digit in Hd; lia| |]; apply Ascii.eqb_neq; intros ->; by vm_compute in Hd. }
    rewrite Hd, orb_true_r. unfold parse_number. by rewrite Hm, Hp.
  - pose proof (parse_natural_pretty p rest Hr) as Hp.
    change (to_chars (pretty (Z.neg p))) with ("-"%char :: to_chars (pretty (N.pos p))).
    cbn [app]. simpl. by rewrite Hp.
Qed.

(** * The round trip *)

(** [cs] is read back as the canonical form of [v], whatever follows it. *)
Definition reads (v : value) (cs : chars) : Prop :=
  (∃ c l, cs = c :: l ∧ is_ws c = false ∧ c ≠ "]"%char) ∧
  ∀ n rest, (2 * length cs ≤ n)%nat → closes rest → parse_value n (cs ++ rest) = Some (canon v, rest).

Definition reads_member (p : string * value) (q : string * chars) : Prop :=
  p.1 = q.1 ∧ reads p.2 q.2.

Lemma reads_skip v cs rest : reads v cs → skip_ws (cs ++ rest) = cs ++ rest.
Proof. intros [(c&l&->&Hc&_) _]. simpl. by rewrite Hc. Qed.

Lemma parse_items_ok l items acc n rest :
  Forall2 reads l items → l ≠ [] → (2 * length (intersperse "," items) + 1 ≤ n)%nat →
  parse_items n acc (intersperse "," items ++ "]"%char :: rest) = Some (VList (acc ++ (canon <$> l)), rest).
Proof.
  intros Hl. revert acc n. induction Hl as [|v cs l items Hv Hl IH]; intros acc n Hne Hn; [done|].
  destruct n as [|n]; [lia|]. pose proof (λ r, reads_skip v cs r Hv) as Hskip. destruct Hv as [_ Hv].
  destruct Hl as [|w ds l items Hw Hl].
  - cbn [intersperse] in *. cbn [parse_items]. rewrite Hskip, Hv; [|lia|simpl; tauto]. reflexivity.
  - change (intersperse "," (cs :: ds :: items)) with (cs ++ ","%char :: intersperse "," (ds :: items)) in *.
    rewrite length_app in Hn. cbn [length] in Hn. rewrite <-app_assoc. cbn [app parse_items].
    rewrite Hskip, Hv; [|lia|simpl; tauto]. cbn [mbind option_bind]. rewrite skip_closes by (simpl; tauto).
    change (Ascii.eqb "," ",") with true. cbv iota.
    rewrite IH; [|done|lia]. by rewrite <-app_assoc.
Qed.

Lemma parse_member_ok k v cs acc n tl :
  reads v cs → closes tl → (2 * length cs ≤ n)%nat →
  parse_members (S n) acc (dump_member (k, cs) ++ tl) =
  match tl with
  | e :: r =>
      let acc' := dict_set k (canon v) acc in
      if Ascii.eqb e "," then parse_members n acc' r
      else if Ascii.eqb e "}" then Some (VDict acc', r) else None
  | [] => None
  end.
Proof.
  intros Hv Htl Hn. pose proof (reads_skip v cs tl Hv) as Hskip. destruct Hv as [_ Hv].
  assert (dump_member (k, cs) ++ tl
    = chr 34 :: (to_chars k ≫= dump_char) ++ chr 34 :: ":"%char :: cs ++ tl) as ->.
  { unfold dump_member, dump_string. simpl. by rewrite <-!app_assoc. }
  cbn [parse_members]. cbn [skip_ws]. change (is_ws (chr 34)) with false. cbv iota.
  change (code (chr 34) =? 34) with true. cbv iota. rewrite parse_dump_chars. cbn [mbind option_bind].
  cbn [skip_ws]. change (is_ws ":") with false. cbv iota. change (Ascii.eqb ":" ":") with true. cbv iota.
  rewrite Hskip, Hv by done. cbn [mbind option_bind]. by rewrite skip_closes, of_to_chars.
Qed.

Lemma dump_member_length k cs : (length cs < length (dump_member (k, cs)))%nat.
Proof. unfold dump_member. rewrite length_app. simpl. lia. Qed.

Lemma parse_members_ok d items acc n rest :
  Forall2 reads_member d items → d ≠ [] → NoDup (dict_keys acc ++ dict_keys d) →
  (2 * length (intersperse "," (dump_member <$> items)) + 1 ≤ n)%nat →
  parse_members n acc (intersperse "," (dump_member <$> items) ++ "}"%char :: rest)
  = Some (VDict (acc ++ ((λ p, (p.1, canon p.2)) <$> d)), rest).
Proof.
  intros Hd. revert acc n. induction Hd as [|[k v] [k' cs] d items [Hk Hv] Hd IH];
    intros acc n Hne Hnd Hn; [done|].
  simpl in Hk, Hv. subst k'. destruct n as [|n]; [lia|]. pose proof (dump_member_length k cs).
  assert (dict_set k (canon v) acc = acc ++ [(k, canon v)]) as Hset.
  { apply dict_set_fresh, dict_get_None. intros Hin. apply NoDup_app in Hnd as (_&Hnd&_). apply (Hnd _ Hin). left. }
  destruct Hd as [|[k2 w] [k2' ds] d items Hw Hd].
  - cbn [fmap list_fmap intersperse] in *. rewrite (parse_member_ok k v); [|done|simpl; tauto|lia].
    simpl. by rewrite Hset.
  - set (ms := dump_member <$> ((k2', ds) :: items)) in *.
    change (intersperse "," (dump_member <$> ((k, cs) :: (k2', ds) :: items))) with
      (dump_member (k, cs) ++ ","%char :: intersperse "," ms) in *.
    rewrite length_app in Hn. cbn [length] in Hn. rewrite <-app_assoc. cbn [app].
    rewrite (parse_member_ok k v); [|done|simpl; tauto|lia]. cbv zeta. rewrite Hset.
    change (Ascii.eqb "," ",") with true. cbv iota.
    rewrite IH; [by rewrite <-app_assoc|done| |lia].
    unfold dict_keys in *. rewrite fmap_app, <-app_assoc. done.
Qed.

Lemma dict_keys_sort {A} (d : dict string A) : dict_keys (stable_sort key_leb d) ≡ₚ dict_keys d.
Proof. unfold dict_keys. by rewrite stable_sort_perm. Qed.

Definition canon_entry (p : string * value) : string * value := (p.1, canon p.2).

Lemma sort_insert_canon x d :
  sort_insert key_leb (canon_entry x) (canon_entry <$> d) = canon_entry <$> sort_insert key_leb x d.
Proof.
  induction d as [|y d IH]; [done|]. simpl. change (key_leb (canon_entry x) (canon_entry y)) with (key_leb x y).
  destruct (key_leb x y); [done|]. simpl. by f_equal.
Qed.

Lemma canon_dict_fmap d : canon_dict d = canon_entry <$> stable_sort key_leb d.
Proof.
  unfold canon_dict. change (λ p, (p.1, canon p.2)) with canon_entry.
  induction d as [|x d IH]; [done|].
  change (sort_insert key_leb (canon_entry x) (stable_sort key_leb (canon_entry <$> d))
    = canon_entry <$> sort_insert key_leb x (stable_sort key_leb d)).
  rewrite IH. apply sort_insert_canon.
Qed.

(** Each kind of value is read back. *)
Lemma reads_int z : reads (VInt z) (to_chars (pretty z)).
Proof.
  split.
  - destruct z as [|p|p]; [by eexists _, _| |by eexists _, _].
    destruct (pretty_N_go_head (N.pos p) "" ltac:(lia)) as (c&l&E&Hc&_). exists c, l.
    split; [change (pretty (Z.pos p)) with (pretty (N.pos p)); unfold pretty, pretty_N; by rewrite decide_False|].
    split; [unfold is_digit, is_ws in *; lia|]. intros ->. by vm_compute in Hc.
  - intros [|n] rest Hn Hr; [|by apply parse_int_dump].
    destruct (to_chars (pretty z)) eqn:E; [|simpl in Hn; lia].
    pose proof (parse_int_dump 0 z [] I) as H. by rewrite E in H.
Qed.

Lemma reads_str s : reads (VStr s) (dump_string s).
Proof.
  split; [by eexists _, _|]. intros [|n] rest Hn Hr; [simpl in Hn; lia|]. unfold dump_string.
  cbn [app parse_value]. change (code (chr 34) =? 34) with true. cbv iota. rewrite <-app_assoc. cbn [app].
  rewrite parse_dump_chars. cbn [mbind option_bind]. by rewrite of_to_chars.
Qed.

Lemma reads_list l items :
  Forall2 reads l items → reads (VList l) ("["%char :: intersperse "," items ++ ["]"%char]).
Proof.
  intros Hreads. split; [by eexists _, _|]. intros [|n] rest Hn Hr; [simpl in Hn; lia|]. rewrite canon_list.
  cbn [app length] in *. rewrite length_app in Hn. cbn [length] in Hn. rewrite <-app_assoc.
  cbn [app parse_value]. change (code "[" =? 34) with false. change (Ascii.eqb "[" "{") with false.
  change (Ascii.eqb "[" "[") with true. cbv iota.
  destruct Hreads as [|x c l items Hx Hreads]; [done|].
  pose proof (parse_items_ok (x :: l) (c :: items) [] n rest ltac:(by constructor) ltac:(done) ltac:(lia)) as Hp.
  destruct Hx as [(ch&tl&->&Hws&Hne) _].
  assert (∃ tl', intersperse "," ((ch :: tl) :: items) = ch :: tl') as [tl' Htl].
  { destruct items; simpl; by eexists. }
  rewrite Htl in *. cbn [app] in *. cbn [skip_ws]. rewrite Hws, (proj2 (Ascii.eqb_neq _ _) Hne). exact Hp.
Qed.

Lemma reads_dict d items :
  NoDup (dict_keys d) → Forall2 reads_member d items →
  reads (VDict d) ("{"%char :: intersperse "," (dump_member <$> stable_sort key_leb items) ++ ["}"%char]).
Proof.
  intros Hnd Hreads. apply (stable_sort_rel reads_member) in Hreads; [|by intros ?? []].
  assert (NoDup (dict_keys (stable_sort key_leb d))) as Hnd' by by rewrite dict_keys_sort.
  split; [by eexists _, _|]. intros [|n] rest Hn Hr; [simpl in Hn; lia|].
  rewrite canon_VDict, canon_dict_fmap.
  cbn [app length] in *. rewrite length_app in Hn. cbn [length] in Hn. rewrite <-app_assoc.
  cbn [app parse_value]. change (code "{" =? 34) with false. change (Ascii.eqb "{" "{") with true. cbv iota.
  destruct Hreads as [|[k x] [k' c] d' items' Hx Hreads]; [done|].
  pose proof (parse_members_ok ((k, x) :: d') ((k', c) :: items') [] n rest ltac:(by constructor)
    ltac:(done) ltac:(done) ltac:(lia)) as Hp.
  assert (∃ tl', intersperse "," (dump_member <$> ((k', c) :: items')) = chr 34 :: tl') as [tl' Htl].
  { destruct items'; simpl; by eexists. }
  rewrite Htl in *. exact Hp.
Qed.

Lemma dump_reads v cs : unique_keys v → dump v = Some cs → reads v cs.
Proof.
  revert cs. induction v as [|b|z|s|t|l IH|d IH] using value_deep_ind; intros cs Hu Hd.
  - simplify_eq/=. split; [by eexists _, _|]. intros [|n] rest Hn Hr; [simpl in Hn; lia|done].
  - destruct b; simplify_eq/=; (split; [by eexists _, _|]);
      intros [|n] rest Hn Hr; (simpl in Hn; lia) || done.
  - injection Hd as <-. apply reads_int.
  - injection Hd as <-. apply reads_str.
  - done.
  - apply unique_list in Hu. apply dump_list in Hd as (items&Hitems&->). apply reads_list.
    induction Hitems as [|x c l items Hx Hitems IHl]; [done|].
    apply Forall_cons in IH as [IHx IH], Hu as [Hux Hu]. constructor; auto.
  - apply unique_dict in Hu as [Hnd Hu]. apply dump_dict in Hd as (items&Hitems&->).
    apply reads_dict; [done|]. clear Hnd. induction Hitems as [|x c d items [Hk Hx] Hitems IHl]; [done|].
    apply Forall_cons in IH as [IHx IH], Hu as [Hux Hu]. constructor; [|auto]. split; auto.
Qed.

Lemma to_of_chars l : to_chars (of_chars l) = l.
Proof. induction l; simpl; congruence. Qed.

(** [json.loads(json.dumps(v))] is [v] with its keys sorted. *)
Lemma loads_dumps v s : unique_keys v → json_dumps v = Some s → json_loads s = Some (canon v).
Proof.
  unfold json_dumps. intros Hu (cs&Hd&->)%fmap_Some. destruct (dump_reads v cs Hu Hd) as [(c&l&->&Hc&_) Hp].
  unfold json_loads. rewrite to_of_chars. cbn [skip_ws]. rewrite Hc.
  rewrite <-(app_nil_r (c :: l)) at 2. by rewrite Hp by (simpl; lia).
Qed.

(** Sorting the keys does not change what a dictionary holds. *)
Lemma canon_dict_get d k : NoDup (dict_keys d) → dict_get k (canon_dict d) = canon <$> dict_get k d.
Proof.
  intros Hnd. rewrite canon_dict_fmap.
  assert (NoDup (dict_keys (canon_entry <$> stable_sort key_leb d))) as Hnd'.
  { unfold dict_keys. rewrite <-list_fmap_compose.
    change (fst ∘ canon_entry) with (fst : string * value → string). by rewrite stable_sort_perm. }
  destruct (dict_get k d) as [v|] eqn:E; simpl.
  - apply dict_elem_get; [done|]. apply list_elem_of_fmap. exists (k, v). split; [done|].
    rewrite stable_sort_perm. by apply dict_get_elem.
  - apply dict_get_None. apply dict_get_None in E. unfold dict_keys. rewrite <-list_fmap_compose.
    change (fst ∘ canon_entry) with (fst : string * value → string). by rewrite stable_sort_perm.
Qed.

Lemma canon_dict_keys d : dict_keys (canon_dict d) ≡ₚ dict_keys d.
Proof.
  rewrite canon_dict_fmap. unfold dict_keys. rewrite <-list_fmap_compose.
  change (fst ∘ canon_entry) with (fst : string * value → string). by rewrite stable_sort_perm.
Qed.
