(* ===== verification/Schedules.v ===== *)
(** Scheduled runs ([runtime/scheduled_runs.py]): validation of a schedule, the
    next fire time, and which fire times are due after a pause. *)

From S2P Require Import Prelude Values Json.
From Stdlib Require Import Ascii.

(** * Time zones *)

(** What [zoneinfo] supplies for a zone: the wall clock of an instant, and the
    instant of a wall clock whose [fold] is 0. Adding a [timedelta] to a
    [datetime] moves the wall clock and resets [fold]. *)
Record Zone := mkZone {
  to_wall : Z → Z;
  of_wall : Z → Z
}.

Definition minutes (n : Z) : Z := seconds (60 * n).
(** [replace(second=0, microsecond=0)] *)
Definition floor_minute (w : Z) : Z := w - w `mod` minutes 1.

Record SchedulePreview := mkPreview {
  sp_schedule_type : string;
  sp_timezone : string;
  sp_cron_expression : option string;
  sp_interval_minutes : option Z;
  sp_next_fire_time : string
}.

(** [v or d] *)
Definition or_value (v d : value) : value := if truthy v then v else d.
Definition dict_value (k : string) (d : pydict) : value := default VNone (dict_get k d).

(** [text.split()] *)
Fixpoint split_go (word : chars) (l : chars) : list chars :=
  match l with
  | [] => match word with [] => [] | _ => [rev word] end
  | c :: l' =>
      if is_space c
      then match word with [] => split_go [] l' | _ => rev word :: split_go [] l' end
      else split_go (c :: word) l'
  end.
Definition split_words (s : string) : list chars := split_go [] (to_chars s).

(** [set("0123456789*/,-")] *)
Definition cron_char (c : ascii) : bool :=
  is_digit c || Ascii.eqb c "*" || Ascii.eqb c "/" || Ascii.eqb c "," || Ascii.eqb c "-".

Definition _valid_cron_expression (s : string) : bool :=
  let parts := split_words s in
  (Z.of_nat (length parts) =? 5) && forallb (λ p, negb (bool_decide (p = [])) && forallb cron_char p) parts.

Definition _next_cron_fire (w : Z) : Z := floor_minute w + minutes 1.

Section schedules.
Context {S : Type} (py_str : value → string) (zone_info : string → option Zone)
  (isoformat : Z → string) (fromisoformat : string → option Z).

(** [str(v)] *)
Definition str_value (v : value) : string := match v with VStr s => s | _ => py_str v end.
Definition stripped (v : value) : string := of_chars (strip (to_chars (str_value v))).

Definition _optional_string (v : value) : option string :=
  match v with
  | VNone => None
  | _ => let text := stripped v in if String.eqb text "" then None else Some text
  end.

(** [int(v)]; [None] for the values it refuses. *)
Definition int_value (v : value) : option Z :=
  match v with
  | VInt z => Some z
  | VBool b => Some (if b then 1 else 0)
  | VStr s => py_int s
  | _ => None
  end.

(** [int(v)] where nothing catches the exception. *)
Definition int_cast (v : value) : M S Z :=
  of_option (int_value v) (match v with VStr _ => ValueError "int" | _ => TypeError "int" end).

(** Membership in [{None, empty string}] hashes the value first. *)
Definition _optional_int (v : value) : M S (option Z) :=
  match v with
  | VNone => mret None
  | VList _ | VDict _ => raise (TypeError "unhashable type")
  | VStr s =>
      if String.eqb s "" then mret None
      else z ← of_option (py_int s) (ValueError "interval_minutes_invalid"); mret (Some z)
  | _ => z ← of_option (int_value v) (ValueError "interval_minutes_invalid"); mret (Some z)
  end.

(** [str(payload.get("timezone") or "UTC").strip() or "UTC"] *)
Definition timezone_of (payload : pydict) : string :=
  let text := stripped (or_value (dict_value "timezone" payload) (VStr "UTC")) in
  if String.eqb text "" then "UTC" else text.

(** [dict(v or {})] of a JSON object. *)
Definition object_of (v : value) : M S pydict :=
  match or_value v (VDict []) with VDict d => mret d | _ => raise (TypeError "dict") end.

Definition validate_schedule_payload (payload : pydict) (now : Z) : M S (pydict * SchedulePreview) :=
  let timezone := timezone_of payload in
  zone ← of_option (zone_info timezone) (ValueError "invalid_timezone");
  let cron := _optional_string (dict_value "cron_expression" payload) in
  interval ← _optional_int (dict_value "interval_minutes" payload);
  check (negb (Bool.eqb (bool_decide (is_Some cron)) (negb (or_int interval 0 =? 0))))
    (ValueError "schedule_shape_required") ;;
  check (match interval with Some m => 0 <? m | None => true end) (ValueError "interval_minutes_invalid") ;;
  check (match cron with Some c => _valid_cron_expression c | None => true end)
    (ValueError "cron_expression_invalid") ;;
  let backfill := str_value (or_value (dict_value "backfill_policy" payload) (VStr "none")) in
  check (bool_decide (backfill ∈ [ "none"; "latest"; "all"])) (ValueError "backfill_policy_invalid") ;;
  let missed := str_value (or_value (dict_value "missed_run_policy" payload) (VStr "skip")) in
  check (bool_decide (missed ∈ ["skip"; "run_once"; "catch_up"])) (ValueError "missed_run_policy_invalid") ;;
  let localized_now := to_wall zone now in
  let next_fire := match interval with
    | Some m => localized_now + minutes m
    | None => _next_cron_fire localized_now
    end in
  let schedule_type := match interval with Some _ => "interval" | None => "cron" end in
  deployment ← int_cast (or_value (dict_value "deployment_id" payload) (VInt 0));
  template ← object_of (dict_value "input_template" payload);
  let next_fire_time := isoformat (of_wall zone next_fire) in
  mret ([("name", VStr (default "runtime-schedule" (_optional_string (dict_value "name" payload))));
         ("schedule_type", VStr schedule_type);
         ("timezone", VStr timezone);
         ("cron_expression", of_str_opt cron);
         ("interval_minutes", of_int_opt interval);
         ("deployment_id", VInt deployment);
         ("input_template", VDict template);
         ("backfill_policy", VStr backfill);
         ("missed_run_policy", VStr missed);
         ("audit_reason", of_str_opt (_optional_string (dict_value "audit_reason" payload)));
         ("next_fire_time", VStr next_fire_time)],
        mkPreview schedule_type timezone cron interval next_fire_time).

Definition compute_next_fire_time (metadata : pydict) (now : Z) : M S string :=
  '(_, preview) ← validate_schedule_payload metadata now;
  mret (sp_next_fire_time preview).

(** [replace("Z", "+00:00")] *)
Fixpoint replace_z (l : chars) : chars :=
  match l with
  | [] => []
  | c :: l' => if Ascii.eqb c "Z" then to_chars "+00:00" ++ replace_z l' else c :: replace_z l'
  end.

Definition _parse_datetime (v : value) : option Z :=
  match v with
  | VNone => None
  | _ =>
      let text := stripped v in
      if String.eqb text "" then None else fromisoformat (of_chars (replace_z (to_chars text)))
  end.

Definition _advance_fire_time (metadata : pydict) (current_fire : Z) : M S Z :=
  zone ← of_option (zone_info (timezone_of metadata)) (KeyError (timezone_of metadata));
  interval ← _optional_int (dict_value "interval_minutes" metadata);
  mret (of_wall zone (match interval with
    | Some m => to_wall zone current_fire + minutes m
    | None => _next_cron_fire (to_wall zone current_fire)
    end)).

(** [while next_fire <= current: next_fire = _advance_fire_time(...)]; [None]
    when [n] iterations were not enough. *)
Fixpoint skip_past (n : nat) (metadata : pydict) (current next_fire : Z) : M S (option Z) :=
  if next_fire <=? current then
    match n with
    | O => mret None
    | Datatypes.S n' => nf ← _advance_fire_time metadata next_fire; skip_past n' metadata current nf
    end
  else mret (Some next_fire).

(** [while next_fire <= current and len(due_fire_times) < max_catch_up_runs] *)
Fixpoint catch_up (n : nat) (metadata : pydict) (current limit : Z) (due : list string) (next_fire : Z)
  : M S (option (list string * Z)) :=
  if (next_fire <=? current) && (Z.of_nat (length due) <? limit) then
    match n with
    | O => mret None
    | Datatypes.S n' =>
        nf ← _advance_fire_time metadata next_fire;
        catch_up n' metadata current limit (due ++ [isoformat next_fire]) nf
    end
  else mret (Some (due, next_fire)).

Definition finish_due (due : list string) (next_fire : option Z) : option (list string * string) :=
  nf ← next_fire; Some (due, isoformat nf).

(** [n] bounds the iterations of each loop. *)
Definition resolve_due_fire_times (n : nat) (metadata : pydict) (status : string) (current limit : Z)
  : M S (option (list string * string)) :=
  next_fire ← match _parse_datetime (dict_value "next_fire_time" metadata) with
    | Some t => mret (Some t)
    | None => text ← compute_next_fire_time metadata current; mret (_parse_datetime (VStr text))
    end;
  match next_fire with
  | Some nf =>
      if negb (bool_decide (status = "active")) then
        text ← compute_next_fire_time metadata current; mret (Some ([], text))
      else if current <? nf then mret (Some ([], isoformat nf))
      else
        let missed := str_value (or_value (dict_value "missed_run_policy" metadata) (VStr "skip")) in
        if String.eqb missed "skip" then
          nf' ← skip_past n metadata current nf; mret (finish_due [] nf')
        else if String.eqb missed "run_once" then
          nf' ← skip_past n metadata current nf; mret (finish_due [isoformat nf] nf')
        else
          r ← catch_up n metadata current limit [] nf;
          match r with
          | None => mret None
          | Some (due, nf') => nf'' ← skip_past n metadata current nf'; mret (finish_due due nf'')
          end
  | None => text ← compute_next_fire_time metadata current; mret (Some ([], text))
  end.
End schedules.

(** * Which fire times are due *)

(** The number of fire times [first, first + step, ...] up to [current]. *)
Definition due_count (current step first : Z) : Z :=
  if first <=? current then (current - first) / step + 1 else 0.

Lemma due_count_nonneg current step first : 0 < step → 0 ≤ due_count current step first.
Proof.
  intros Hs. unfold due_count. destruct (first <=? current) eqn:E; [|done]. b2p.
  assert (0 ≤ (current - first) / step) by (apply Z.div_pos; lia). lia.
Qed.

Lemma due_count_next current step first :
  0 < step → first ≤ current → due_count current step first = due_count current step (first + step) + 1.
Proof.
  intros Hs Hle. unfold due_count. rewrite (proj2 (Z.leb_le _ _) Hle).
  replace (current - first) with ((current - (first + step)) + 1 * step) by lia.
  rewrite Z.div_add by lia. destruct (first + step <=? current) eqn:E; [done|]. b2p.
  assert ((current - (first + step)) / step = -1) as ->; [|done].
  symmetry. apply Z.div_unique with (current - first); lia.
Qed.


Section regular.
Context {S : Type} (py_str : value → string) (zone_info : string → option Zone)
  (isoformat : Z → string) (fromisoformat : string → option Z).
Context (metadata : pydict) (step : Z) (Hstep : 0 < step).
(** From the times [ok] on, the schedule fires every [step]. *)
Context (ok : Z → Prop) (Hok : ∀ t, ok t → ok (t + step)).
Context (Hadvance : ∀ t (s : S), ok t → _advance_fire_time py_str zone_info metadata t s = (Ret (t + step), s)).

Lemma skip_past_regular n current t (s : S) :
  ok t → due_count current step t ≤ Z.of_nat n →
  skip_past py_str zone_info n metadata current t s = (Ret (Some (t + due_count current step t * step)), s).
Proof using Hstep Hok Hadvance.
  revert t. induction n as [|n IH]; intros t Ht Hn; simpl.
  - pose proof (due_count_nonneg current step t Hstep). unfold due_count in *.
    destruct (t <=? current) eqn:E; m_unfold.
    + b2p. assert (0 ≤ (current - t) / step) by (apply Z.div_pos; lia). lia.
    + do 3 f_equal. lia.
  - destruct (t <=? current) eqn:E; [|unfold due_count; rewrite E; m_unfold; do 3 f_equal; lia].
    apply Z.leb_le in E. rewrite (due_count_next current step t) in Hn |- * by done.
    unfold mbind at 1, M_bind at 1. rewrite Hadvance, IH by (auto || lia). do 3 f_equal. lia.
Qed.

Definition fire_times (first : Z) (n : nat) : list string :=
  (λ i, isoformat (first + Z.of_nat i * step)) <$> seq 0 n.

Lemma fire_times_cons first n : fire_times first (Datatypes.S n) = isoformat first :: fire_times (first + step) n.
Proof.
  unfold fire_times. rewrite <-cons_seq, fmap_cons. f_equal; [f_equal; lia|].
  rewrite <-seq_shift, <-list_fmap_compose. apply list_fmap_ext. intros i x _. simpl. f_equal. lia.
Qed.

Lemma catch_up_regular n current limit due t (s : S) :
  let k := Z.min (due_count current step t) (Z.max 0 (limit - Z.of_nat (length due))) in
  ok t → k ≤ Z.of_nat n →
  catch_up py_str zone_info isoformat n metadata current limit due t s =
  (Ret (Some (due ++ fire_times t (Z.to_nat k), t + k * step)), s).
Proof using Hstep Hok Hadvance.
  revert t due. induction n as [|n IH]; intros t due; cbv zeta; intros Ht Hn; cbn [catch_up].
  all: pose proof (due_count_nonneg current step t Hstep) as H0.
  all: destruct ((t <=? current) && (Z.of_nat (length due) <? limit)) eqn:E.
  - exfalso. apply andb_true_iff in E as [E1%Z.leb_le E2%Z.ltb_lt].
    pose proof (due_count_next current step t Hstep E1).
    pose proof (due_count_nonneg current step (t + step) Hstep). lia.
  - assert (Z.min (due_count current step t) (Z.max 0 (limit - Z.of_nat (length due))) = 0) as -> by lia.
    rewrite app_nil_r. m_unfold. do 4 f_equal. lia.
  - apply andb_true_iff in E as [E1%Z.leb_le E2%Z.ltb_lt].
    rewrite (due_count_next current step t) in Hn |- * by done.
    pose proof (due_count_nonneg current step (t + step) Hstep).
    unfold mbind at 1, M_bind at 1. rewrite Hadvance by done.
    rewrite IH; rewrite ?length_app; simpl length; [|auto|lia].
    replace (Z.min (due_count current step (t + step) + 1) (Z.max 0 (limit - Z.of_nat (length due))))
      with (Z.min (due_count current step (t + step)) (Z.max 0 (limit - Z.of_nat (length due + 1))) + 1) by lia.
    set (k := Z.min _ _). replace (Z.to_nat (k + 1)) with (Datatypes.S (Z.to_nat k)) by lia.
    rewrite fire_times_cons, <-app_assoc. simpl. do 4 f_equal. lia.
  - assert (Z.min (due_count current step t) (Z.max 0 (limit - Z.of_nat (length due))) = 0) as ->.
    { apply andb_false_iff in E as [E%Z.leb_gt|E%Z.ltb_ge]; [|lia].
      unfold due_count in *. rewrite (proj2 (Z.leb_gt _ _)) in * by lia. lia. }
    rewrite app_nil_r. m_unfold. do 4 f_equal. lia.
Qed.

Lemma due_count_shift current t (k : nat) :
  Z.of_nat k ≤ due_count current step t →
  due_count current step (t + Z.of_nat k * step) = due_count current step t - Z.of_nat k.
Proof using Hstep.
  induction k as [|k IH]; intros Hk; [rewrite Z.add_0_r; lia|].
  assert (t + Z.of_nat k * step ≤ current) as Hle.
  { specialize (IH ltac:(lia)). destruct (Z.le_gt_cases (t + Z.of_nat k * step) current); [done|].
    unfold due_count at 1 in IH. rewrite (proj2 (Z.leb_gt _ _)) in IH by lia. lia. }
  pose proof (due_count_next current step _ Hstep Hle) as Hn. rewrite IH in Hn by lia.
  replace (t + Z.of_nat (Datatypes.S k) * step) with (t + Z.of_nat k * step + step) by lia. lia.
Qed.

Lemma ok_shift t k : ok t → ok (t + Z.of_nat k * step).
Proof using Hok.
  intros Ht. induction k as [|k IH]; [by rewrite Z.add_0_r|].
  replace (t + Z.of_nat (Datatypes.S k) * step) with (t + Z.of_nat k * step + step) by lia. auto.
Qed.

(** What [resolve_due_fire_times] returns for a regular schedule. *)
Lemma resolve_regular n current limit first (s : S) :
  _parse_datetime py_str fromisoformat (dict_value "next_fire_time" metadata) = Some first →
  first ≤ current → ok first → due_count current step first ≤ Z.of_nat n →
  let k := due_count current step first in
  let missed := str_value py_str (or_value (dict_value "missed_run_policy" metadata) (VStr "skip")) in
  let due := if String.eqb missed "skip" then []
             else if String.eqb missed "run_once" then [isoformat first]
             else fire_times first (Z.to_nat (Z.min k (Z.max 0 limit))) in
  resolve_due_fire_times py_str zone_info isoformat fromisoformat n metadata "active" current limit s =
  (Ret (Some (due, isoformat (first + k * step))), s).
Proof using Hstep Hok Hadvance.
  intros Hp Hle Ht Hn k missed due. unfold resolve_due_fire_times. rewrite Hp.
  unfold mbind at 1, M_bind at 1, mret at 1, M_ret at 1. rewrite bool_decide_true by done.
  rewrite (proj2 (Z.ltb_ge _ _)) by done. cbn [negb]. fold missed. unfold due, k.
  destruct (String.eqb missed "skip"); [|destruct (String.eqb missed "run_once")].
  1,2: unfold mbind at 1, M_bind at 1; by rewrite skip_past_regular.
  pose proof (due_count_nonneg current step first Hstep) as H0.
  unfold mbind at 1, M_bind at 1. rewrite catch_up_regular by (simpl; (done || lia)). simpl length.
  rewrite Z.sub_0_r. set (j := Z.min _ _). replace (first + j * step) with (first + Z.of_nat (Z.to_nat j) * step) by lia.
  unfold mbind at 1, M_bind at 1.
  rewrite skip_past_regular; [|by apply ok_shift|rewrite due_count_shift; lia].
  rewrite due_count_shift by lia. m_unfold. unfold finish_due. simpl. do 5 f_equal; lia.
Qed.
End regular.

(** A zone without daylight saving time. *)
Definition fixed_zone (offset : Z) : Zone := mkZone (λ t, t + offset) (λ w, w - offset).

Section fixed.
Context {S : Type} (py_str : value → string) (zone_info : string → option Zone)
  (isoformat : Z → string) (fromisoformat : string → option Z).
Context (metadata : pydict) (offset : Z)
  (Hzone : zone_info (timezone_of py_str metadata) = Some (fixed_zone offset)).


Lemma cron_advances t (s : S) :
  dict_value "interval_minutes" metadata = VNone → (t + offset) `mod` minutes 1 = 0 →
  _advance_fire_time py_str zone_info metadata t s = (Ret (t + minutes 1), s).
Proof using Hzone.
  intros Hm Ha. unfold _advance_fire_time. rewrite Hzone, Hm. m_unfold. simpl. do 2 f_equal.
  unfold _next_cron_fire, floor_minute. rewrite Ha. lia.
Qed.


(** A cron expression has no influence on when a schedule fires: in any zone
    without daylight saving time, whatever the expression says, a schedule without
    an interval fires every minute. *)
Theorem cron_expression_ignored n current limit first (s : S)
    (Hm : dict_value "interval_minutes" metadata = VNone)
    (Hmissed : dict_value "missed_run_policy" metadata = VStr "catch_up")
    (Hfirst : _parse_datetime py_str fromisoformat (dict_value "next_fire_time" metadata) = Some first)
    (Halign : (first + offset) `mod` minutes 1 = 0) (Hle : first ≤ current)
    (Hn : (current - first) / minutes 1 + 1 ≤ Z.of_nat n) :
  let k := (current - first) / minutes 1 + 1 in
  resolve_due_fire_times py_str zone_info isoformat fromisoformat n metadata "active" current limit s =
    (Ret (Some ((λ i, isoformat (first + Z.of_nat i * minutes 1)) <$> seq 0 (Z.to_nat (Z.min k (Z.max 0 limit))),
                isoformat (first + k * minutes 1))), s).
Proof using Hzone.
  intros k. assert (due_count current (minutes 1) first = k) as Hk
    by (unfold due_count; by rewrite (proj2 (Z.leb_le _ _))).
  pose proof (resolve_regular (S:=S) py_str zone_info isoformat fromisoformat metadata (minutes 1) ltac:(done)
    (λ t, (t + offset) `mod` minutes 1 = 0)) as H. cbv zeta in H.
  rewrite H with (first := first); rewrite ?Hk; auto.
  - by rewrite Hmissed.
  - intros t Ht. replace (t + minutes 1 + offset) with (t + offset + 1 * minutes 1) by lia. by rewrite Z.mod_add.
  - intros t s' Ht. by apply cron_advances.
Qed.
End fixed.

(** * Examples *)

Definition utc_only (name : string) : option Zone := if String.eqb name "UTC" then Some (fixed_zone 0) else None.
Definition no_str (_ : value) : string := "".



(** "At 03:00 every day", due three minutes ago. *)
Definition daily_at_three : pydict :=
  [("cron_expression", VStr "0 3 * * *"); ("missed_run_policy", VStr "catch_up"); ("next_fire_time", VStr "0")].

Lemma cron_expression_ignored_witness :
  _valid_cron_expression "0 3 * * *" = true ∧
  resolve_due_fire_times no_str utc_only pretty py_int 10 daily_at_three "active" (minutes 3) 25 tt =
  (Ret (Some (pretty <$> [minutes 0; minutes 1; minutes 2; minutes 3], pretty (minutes 4))), tt).
Proof.
  split; [reflexivity|].
  rewrite (cron_expression_ignored no_str utc_only pretty py_int daily_at_three 0 eq_refl 10 (minutes 3) 25 0 tt
    eq_refl eq_refl eq_refl eq_refl ltac:(vm_compute; discriminate) ltac:(vm_compute; discriminate)).
  reflexivity.
Defined.

(** New York at the end of daylight saving time: at [change] the clock goes back
    from 02:00 to 01:00; of the two instants of a wall clock in between, [fold=0]
    is the earlier one. *)
Definition new_york (change : Z) : Zone :=
  mkZone (λ t, t + minutes (if t <? change then -240 else -300))
         (λ w, w - minutes (if w <? change + minutes (-240) then -240 else -300)).

(** In the hour after the clock went back, the next fire time of a schedule is
    computed to be up to an hour ago. *)
Lemma fire_time_in_the_past :
  let change := minutes 29367720 in
  let zones name := if String.eqb name "America/New_York" then Some (new_york change) else None in
  compute_next_fire_time no_str zones pretty
    [("timezone", VStr "America/New_York"); ("interval_minutes", VInt 30)] change tt =
  (Ret (pretty (change - minutes 30)), tt).
Proof. reflexivity. Qed.
