(* ===== verification/StateMachine.v ===== *)
(** The status enumerations of [domain/enums.py] and the transition tables of
    [runtime/state_machine.py] that every store and backend consults before it
    changes a status. *)

From stdpp Require Import relations.
From S2P Require Import Prelude.

(** * Enumerations *)

Inductive DeploymentDesiredStatus : Type :=
| DD_draft | DD_active | DD_paused | DD_draining | DD_stopped | DD_archived.

Inductive DeploymentRuntimeStatus : Type :=
| DR_not_loaded | DR_warming_up | DR_ready | DR_degraded | DR_failed | DR_draining | DR_stopped.

Inductive AgentInstanceStatus : Type :=
| AI_loading | AI_ready | AI_busy | AI_idle | AI_draining | AI_evicted | AI_failed.

Inductive RunStatus : Type :=
| RS_pending | RS_running | RS_interrupted | RS_succeeded | RS_failed | RS_cancelled | RS_timeout.

Inductive RunAttemptStatus : Type :=
| RA_running | RA_succeeded | RA_failed | RA_timeout | RA_cancelled | RA_worker_lost.

Inductive TaskStatus : Type :=
| TS_queued | TS_leased | TS_running | TS_retrying | TS_succeeded | TS_failed
| TS_dead_letter | TS_cancelled.

#[export] Instance desired_status_eq_dec : EqDecision DeploymentDesiredStatus.
Proof. solve_decision. Defined.
#[export] Instance runtime_status_eq_dec : EqDecision DeploymentRuntimeStatus.
Proof. solve_decision. Defined.

Definition desired_status_value (s : DeploymentDesiredStatus) : string :=
  match s with
  | DD_draft => "draft" | DD_active => "active" | DD_paused => "paused"
  | DD_draining => "draining" | DD_stopped => "stopped" | DD_archived => "archived"
  end.
Definition runtime_status_value (s : DeploymentRuntimeStatus) : string :=
  match s with
  | DR_not_loaded => "not_loaded" | DR_warming_up => "warming_up" | DR_ready => "ready"
  | DR_degraded => "degraded" | DR_failed => "failed" | DR_draining => "draining"
  | DR_stopped => "stopped"
  end.
Definition agent_instance_status_value (s : AgentInstanceStatus) : string :=
  match s with
  | AI_loading => "loading" | AI_ready => "ready" | AI_busy => "busy" | AI_idle => "idle"
  | AI_draining => "draining" | AI_evicted => "evicted" | AI_failed => "failed"
  end.
Definition run_status_value (s : RunStatus) : string :=
  match s with
  | RS_pending => "pending" | RS_running => "running" | RS_interrupted => "interrupted"
  | RS_succeeded => "succeeded" | RS_failed => "failed" | RS_cancelled => "cancelled"
  | RS_timeout => "timeout"
  end.
Definition run_attempt_status_value (s : RunAttemptStatus) : string :=
  match s with
  | RA_running => "running" | RA_succeeded => "succeeded" | RA_failed => "failed"
  | RA_timeout => "timeout" | RA_cancelled => "cancelled" | RA_worker_lost => "worker_lost"
  end.
Definition task_status_value (s : TaskStatus) : string :=
  match s with
  | TS_queued => "queued" | TS_leased => "leased" | TS_running => "running"
  | TS_retrying => "retrying" | TS_succeeded => "succeeded" | TS_failed => "failed"
  | TS_dead_letter => "dead_letter" | TS_cancelled => "cancelled"
  end.

(** * Transition tables *)

Abbreviation transition_table := (dict string (list string)).

Definition RUN_TRANSITIONS : transition_table :=
  [ ("pending", ["running"; "cancelled"]);
    ("running", ["interrupted"; "succeeded"; "failed"; "cancelled"; "timeout"]);
    ("interrupted", ["running"; "cancelled"; "timeout"]);
    ("failed", ["running"]);
    ("timeout", ["running"]);
    ("succeeded", []);
    ("cancelled", []) ].

Definition TASK_TRANSITIONS : transition_table :=
  [ ("queued", ["leased"; "cancelled"]);
    ("leased", ["running"; "queued"]);
    ("running", ["succeeded"; "failed"; "retrying"; "cancelled"; "dead_letter"]);
    ("retrying", ["queued"]);
    ("failed", ["retrying"; "dead_letter"]);
    ("succeeded", []);
    ("dead_letter", []);
    ("cancelled", []) ].

Definition RUN_ATTEMPT_TRANSITIONS : transition_table :=
  [ ("running", ["succeeded"; "failed"; "timeout"; "cancelled"; "worker_lost"]);
    ("succeeded", []);
    ("failed", []);
    ("timeout", []);
    ("cancelled", []);
    ("worker_lost", []) ].

(** [target in transitions.get(current, set())] *)
Definition allowed (t : transition_table) (current target : string) : bool :=
  bool_decide (target ∈ default [] (dict_get current t)).

Definition assert_transition {S} (t : transition_table) (entity current target : string)
  : M S unit :=
  check (allowed t current target) (InvalidStateTransitionError entity current target).

Definition assert_run_transition {S} (current target : string) : M S unit :=
  assert_transition RUN_TRANSITIONS "run" current target.

Definition assert_task_transition {S} (current target : string) : M S unit :=
  assert_transition TASK_TRANSITIONS "task" current target.

Definition assert_run_attempt_transition {S} (current target : string) : M S unit :=
  assert_transition RUN_ATTEMPT_TRANSITIONS "run_attempt" current target.

(** * Paths through a table *)

(** One edge of the table, and status evolutions along it: a status changes
    only by a chain of table edges. *)
Definition edge (t : transition_table) : relation string := λ c g, allowed t c g = true.
Definition evolves (t : transition_table) : relation string := rtc (edge t).

#[export] Instance evolves_preorder t : PreOrder (evolves t).
Proof. unfold evolves. apply _. Qed.

Definition terminal (t : transition_table) (s : string) : bool :=
  bool_decide (dict_get s t = Some []).

Lemma allowed_elem t c g : allowed t c g = true ↔ ∃ l, dict_get c t = Some l ∧ g ∈ l.
Proof.
  unfold allowed. rewrite bool_decide_eq_true. destruct (dict_get c t); simpl.
  - naive_solver.
  - split; [by intros ?%elem_of_nil|naive_solver].
Qed.

Lemma evolves_refl t s : evolves t s s.
Proof. reflexivity. Qed.

Lemma evolves_edge t s s' : allowed t s s' = true → evolves t s s'.
Proof. intros H. by apply rtc_once. Qed.

Lemma evolves_edge_trans t s s' s'' :
  allowed t s s' = true → evolves t s' s'' → evolves t s s''.
Proof. intros H1 H2. by eapply rtc_l. Qed.

(** A path through the table, checked by computation. *)
Fixpoint path_ok (t : transition_table) (s : string) (path : list string) : bool :=
  match path with
  | [] => true
  | g :: path' => allowed t s g && path_ok t g path'
  end.

Fixpoint path_end (s : string) (path : list string) : string :=
  match path with
  | [] => s
  | g :: path' => path_end g path'
  end.

Lemma evolves_path t s path : path_ok t s path = true → evolves t s (path_end s path).
Proof.
  revert s. induction path as [|g path IH]; intros s; [reflexivity|].
  simpl. intros [Hg Hp]%andb_true_iff. eapply evolves_edge_trans; [done|]. by apply IH.
Qed.

(** A terminal status never changes again. *)
Lemma terminal_absorbing t s s' : terminal t s = true → evolves t s s' → s' = s.
Proof.
  unfold terminal. rewrite bool_decide_eq_true. intros Ht H.
  inversion H as [|? y ? Hstep]; subst; [done|].
  unfold edge in Hstep. apply allowed_elem in Hstep as (l&Hl&Hin).
  rewrite Ht in Hl. simplify_eq. by apply elem_of_nil in Hin.
Qed.

Create HintDb evolves discriminated.
#[export] Hint Resolve evolves_refl evolves_edge : evolves.

Lemma respects_assert_transition {S} (R : relation S) `{!PreOrder R} t en c g :
  respects R (assert_transition t en c g).
Proof. by apply respects_check. Qed.

Lemma respects_assert_run {S} (R : relation S) `{!PreOrder R} c g :
  respects R (assert_run_transition c g).
Proof. by apply respects_check. Qed.

Lemma respects_assert_task {S} (R : relation S) `{!PreOrder R} c g :
  respects R (assert_task_transition c g).
Proof. by apply respects_check. Qed.

Lemma respects_assert_attempt {S} (R : relation S) `{!PreOrder R} c g :
  respects R (assert_run_attempt_transition c g).
Proof. by apply respects_check. Qed.
#[export] Hint Resolve respects_assert_transition respects_assert_run respects_assert_task
  respects_assert_attempt : respects.

(** Statuses of an enumeration, as the strings the tables hold. *)
Definition all_run_statuses : list RunStatus :=
  [RS_pending; RS_running; RS_interrupted; RS_succeeded; RS_failed; RS_cancelled; RS_timeout].
Definition all_task_statuses : list TaskStatus :=
  [TS_queued; TS_leased; TS_running; TS_retrying; TS_succeeded; TS_failed; TS_dead_letter;
   TS_cancelled].
Definition all_run_attempt_statuses : list RunAttemptStatus :=
  [RA_running; RA_succeeded; RA_failed; RA_timeout; RA_cancelled; RA_worker_lost].

(** The table has one row per status of the enumeration, and every target is
    a status of the enumeration. *)
Definition table_typed (statuses : list string) (t : transition_table) : Prop :=
  dict_keys t ≡ₚ statuses ∧ Forall (λ row, Forall (λ g, g ∈ statuses) row.2) t.
#[export] Instance table_typed_dec statuses t : Decision (table_typed statuses t).
Proof. unfold table_typed. apply _. Defined.

(** * Which statuses reach a target of the task and run tables in one step *)

Ltac solve_allowed :=
  unfold allowed; cbn [dict_get RUN_TRANSITIONS TASK_TRANSITIONS RUN_ATTEMPT_TRANSITIONS];
  repeat (case_decide; subst; [by vm_compute|]);
  cbn [default from_option]; symmetry;
  rewrite (bool_decide_eq_false_2 (_ ∈ [])) by apply not_elem_of_nil;
  repeat (rewrite bool_decide_eq_false_2 by done); done.

Section allowed_rules.
Context (s : string).

Lemma allowed_task_leased : allowed TASK_TRANSITIONS s "leased" = bool_decide (s = "queued").
Proof. solve_allowed. Qed.
Lemma allowed_task_running : allowed TASK_TRANSITIONS s "running" = bool_decide (s = "leased").
Proof. solve_allowed. Qed.
Lemma allowed_task_succeeded : allowed TASK_TRANSITIONS s "succeeded" = bool_decide (s = "running").
Proof. solve_allowed. Qed.
Lemma allowed_task_failed : allowed TASK_TRANSITIONS s "failed" = bool_decide (s = "running").
Proof. solve_allowed. Qed.
Lemma allowed_task_cancelled :
  allowed TASK_TRANSITIONS s "cancelled" = bool_decide (s = "queued") || bool_decide (s = "running").
Proof. solve_allowed. Qed.
Lemma allowed_task_queued :
  allowed TASK_TRANSITIONS s "queued" = bool_decide (s = "leased") || bool_decide (s = "retrying").
Proof. solve_allowed. Qed.
Lemma allowed_run_running :
  allowed RUN_TRANSITIONS s "running" = bool_decide (s = "pending") || bool_decide (s = "interrupted")
    || bool_decide (s = "failed") || bool_decide (s = "timeout").
Proof. solve_allowed. Qed.
Lemma allowed_run_succeeded : allowed RUN_TRANSITIONS s "succeeded" = bool_decide (s = "running").
Proof. solve_allowed. Qed.
Lemma allowed_run_failed : allowed RUN_TRANSITIONS s "failed" = bool_decide (s = "running").
Proof. solve_allowed. Qed.
Lemma allowed_run_timeout :
  allowed RUN_TRANSITIONS s "timeout" = bool_decide (s = "running") || bool_decide (s = "interrupted").
Proof. solve_allowed. Qed.
Lemma allowed_run_cancelled :
  allowed RUN_TRANSITIONS s "cancelled" = bool_decide (s = "pending") || bool_decide (s = "running")
    || bool_decide (s = "interrupted").
Proof. solve_allowed. Qed.
Lemma allowed_attempt_done g :
  g = "succeeded" ∨ g = "failed" ∨ g = "timeout" →
  allowed RUN_ATTEMPT_TRANSITIONS s g = bool_decide (s = "running").
Proof. intros [->|[->| ->]]; solve_allowed. Qed.
End allowed_rules.

#[export] Hint Rewrite allowed_task_leased allowed_task_running allowed_task_succeeded
  allowed_task_failed allowed_task_cancelled allowed_task_queued allowed_run_running
  allowed_run_succeeded allowed_run_failed allowed_run_timeout allowed_run_cancelled
  : transitions.
