(* ===== verification/Tables.v ===== *)
(** The tables [tasks], [runs], [run_attempts] and [events] of
    [domain/models.py], the columns the runtime reads and writes, and the event
    repository of [persistence/repositories.py].

    A table maps primary keys to rows in insertion order. A query reads the rows
    in that order before it sorts them; the session is created without
    autoflush, but every method flushes before its next query of a table it
    changed, so rows and mapped objects are the same thing here. *)

From S2P Require Import Prelude Values Json JsonLoads StateMachine.

(** * Rows *)

Record Task := mkTask {
  tk_id : Z;
  tk_run_id : Z;
  tk_tenant_id : Z;
  tk_project_id : Z;
  tk_status : string;
  tk_attempt : Z;
  tk_max_attempts : Z;
  tk_queue : string;
  tk_priority : Z;
  tk_scheduled_at : option Z;
  tk_started_at : option Z;
  tk_finished_at : option Z;
  tk_leased_until : option Z;
  tk_worker_id : option string;
  tk_heartbeat_at : option Z;
  tk_fencing_token : Z;
  tk_idempotency_key : option string;
  tk_error : option string;
  tk_dead_letter_reason : option string;
  tk_metadata_json : pydict;
  tk_created_at : Z;
  tk_is_deleted : bool
}.
#[export] Instance Task_eta : Eta Task := λ t,
  mkTask (tk_id t) (tk_run_id t) (tk_tenant_id t) (tk_project_id t) (tk_status t) (tk_attempt t)
    (tk_max_attempts t) (tk_queue t) (tk_priority t) (tk_scheduled_at t) (tk_started_at t)
    (tk_finished_at t) (tk_leased_until t) (tk_worker_id t) (tk_heartbeat_at t) (tk_fencing_token t)
    (tk_idempotency_key t) (tk_error t) (tk_dead_letter_reason t) (tk_metadata_json t)
    (tk_created_at t) (tk_is_deleted t).

Record Run := mkRun {
  rn_id : Z;
  rn_tenant_id : Z;
  rn_project_id : Z;
  rn_agent_id : Z;
  rn_agent_version_id : Z;
  rn_deployment_id : option Z;
  rn_thread_id : option string;
  rn_status : string;
  rn_input_ref : option string;
  rn_output_ref : option string;
  rn_error : option string;
  rn_started_at : option Z;
  rn_finished_at : option Z;
  rn_created_at : Z;
  rn_is_deleted : bool;
  rn_deleted_at : option Z;
  rn_idempotency_key : option string
}.
#[export] Instance Run_eta : Eta Run := λ r,
  mkRun (rn_id r) (rn_tenant_id r) (rn_project_id r) (rn_agent_id r) (rn_agent_version_id r)
    (rn_deployment_id r) (rn_thread_id r) (rn_status r) (rn_input_ref r) (rn_output_ref r)
    (rn_error r) (rn_started_at r) (rn_finished_at r) (rn_created_at r) (rn_is_deleted r)
    (rn_deleted_at r) (rn_idempotency_key r).

Record RunAttempt := mkRunAttempt {
  at_id : Z;
  at_run_id : Z;
  at_task_id : option Z;
  at_attempt_no : Z;
  at_worker_id : option string;
  at_status : string;
  at_started_at : option Z;
  at_finished_at : option Z;
  at_error : option string;
  at_latency_ms : option Z;
  at_created_at : Z;
  at_is_deleted : bool
}.
#[export] Instance RunAttempt_eta : Eta RunAttempt := λ a,
  mkRunAttempt (at_id a) (at_run_id a) (at_task_id a) (at_attempt_no a) (at_worker_id a)
    (at_status a) (at_started_at a) (at_finished_at a) (at_error a) (at_latency_ms a)
    (at_created_at a) (at_is_deleted a).

Record Event := mkEvent {
  er_run_id : Z;
  er_attempt_id : option Z;
  er_tenant_id : Z;
  er_project_id : Z;
  er_type : string;
  er_sequence : Z;
  er_event_id : string;
  er_framework : option string;
  er_payload_json : pydict;
  er_visibility_level : string;
  er_is_deleted : bool
}.

(** The four tables, and the keys their next rows get. *)
Record Db := mkDb {
  db_tasks : dict Z Task;
  db_runs : dict Z Run;
  db_attempts : dict Z RunAttempt;
  db_events : list Event;
  db_next_task : Z;
  db_next_run : Z;
  db_next_attempt : Z
}.
#[export] Instance Db_eta : Eta Db := λ d,
  mkDb (db_tasks d) (db_runs d) (db_attempts d) (db_events d) (db_next_task d) (db_next_run d)
    (db_next_attempt d).

Definition empty_db : Db := mkDb [] [] [] [] 1 1 1.

(** Runs the statements that change one mapped object; [session.get] of an
    absent key gives [None], for which the callers raise [KeyError]. *)
Definition on_task_row {A} (id : Z) (m : M Task A) : M Db A :=
  zoom db_tasks (λ t d, d <| db_tasks := t |>) (on_key id (KeyError (pretty id)) m).
Definition on_run_row {A} (id : Z) (m : M Run A) : M Db A :=
  zoom db_runs (λ t d, d <| db_runs := t |>) (on_key id (KeyError (pretty id)) m).
Definition on_attempt_row {A} (id : Z) (m : M RunAttempt A) : M Db A :=
  zoom db_attempts (λ t d, d <| db_attempts := t |>) (on_key id (KeyError (pretty id)) m).

(** [session_scope]: the changes of a block that raises are rolled back. *)
Definition session_scope {S A} (m : M S A) : M S A := λ s,
  match m s with
  | (Ret a, s') => (Ret a, s')
  | (Raise e, _) => (Raise e, s)
  end.

(** * [EventRepository] *)

Definition list_by_run (run : Z) (d : Db) : list Event :=
  stable_sort (λ a b, er_sequence a <=? er_sequence b)
    (List.filter (λ e, (er_run_id e =? run) && negb (er_is_deleted e)) (db_events d)).

Definition next_sequence (run : Z) (d : Db) : Z :=
  match list_by_run run d with
  | [] => 1
  | e :: events => foldl (λ m e, Z.max m (er_sequence e)) (er_sequence e) events + 1
  end.

Definition append_event (run : Z) (attempt : option Z) (tenant project : Z) (type : string)
    (payload : pydict) (framework : option string) (visibility : string) : M Db Event :=
  d ← get_state;
  let sequence := next_sequence run d in
  let e := mkEvent run attempt tenant project type sequence
    (pretty run +:+ ":" +:+ pretty sequence) framework payload visibility false in
  modify (λ d, d <| db_events := db_events d ++ [e] |>) ;;
  mret e.

(** * JSON references *)

(** [_encode_ref]; [json.dumps] raises for a value with no JSON form. *)
Definition _encode_ref {S} (payload : pydict) : M S string :=
  text ← of_option (json_dumps (VDict payload)) type_error;
  mret ("json:" +:+ text).

(** [_decode_ref]; [json.loads] raises [JSONDecodeError], a [ValueError]. *)
Definition _decode_ref {S} (v : option string) : M S pydict :=
  match v with
  | None => mret []
  | Some s =>
      match strip_prefix "json:" s with
      | None => mret []
      | Some text =>
          payload ← of_option (json_loads text) (ValueError "JSONDecodeError");
          mret (match payload with VDict d => d | _ => [] end)
      end
  end.

(** [_error_message]: the message, or the printed dictionary. *)
Definition _error_message (py_str : value → string) (err : pydict) : string :=
  match dict_get "message" err with
  | None | Some VNone => py_str (VDict err)
  | Some v => py_str v
  end.

(** * Lemmas *)

(** Decoding gives back what was encoded, keys sorted. *)
Lemma ref_roundtrip {S} (d : pydict) (s : S) ref s' :
  unique_keys (VDict d) → _encode_ref d s = (Ret ref, s') →
  s' = s ∧ ∀ s1 : S, _decode_ref (Some ref) s1 = (Ret (canon_dict d), s1).
Proof.
  intros Hu. unfold _encode_ref, _decode_ref. m_unfold.
  destruct (json_dumps (VDict d)) as [text|] eqn:E; [|done]. intros [= <- <-]. split; [done|].
  intros s1. rewrite strip_prefix_app. rewrite (loads_dumps (VDict d) text Hu E), canon_VDict. done.
Qed.

Lemma append_event_run run att tenant project ty p f vis d :
  append_event run att tenant project ty p f vis d =
  (Ret (mkEvent run att tenant project ty (next_sequence run d)
         (pretty run +:+ ":" +:+ pretty (next_sequence run d)) f p vis false),
   d <| db_events := db_events d ++
        [mkEvent run att tenant project ty (next_sequence run d)
          (pretty run +:+ ":" +:+ pretty (next_sequence run d)) f p vis false] |>).
Proof. done. Qed.

(** The next sequence number is larger than every one used for the run. *)
Lemma next_sequence_fresh run d e :
  e ∈ db_events d → er_run_id e = run → er_is_deleted e = false → er_sequence e < next_sequence run d.
Proof.
  intros Hin Hr Hdel. unfold next_sequence.
  assert (e ∈ list_by_run run d) as He.
  { unfold list_by_run. rewrite stable_sort_perm. apply list_elem_of_In, filter_In.
    split; [by apply list_elem_of_In|]. by rewrite Hr, Z.eqb_refl, Hdel. }
  assert (∀ l m, m ≤ foldl (λ m e, Z.max m (er_sequence e)) m l ∧
    ∀ x, x ∈ l → er_sequence x ≤ foldl (λ m e, Z.max m (er_sequence e)) m l) as Hfold.
  { induction l as [|x l IH]; intros m; simpl; [split; [lia|by intros ? ?%elem_of_nil]|].
    destruct (IH (Z.max m (er_sequence x))) as [H1 H2]. split; [lia|].
    intros y [->|Hy]%elem_of_cons; [lia|]. by apply H2. }
  destruct (list_by_run run d) as [|x l]; [by apply elem_of_nil in He|].
  destruct (Hfold l (er_sequence x)) as [H1 H2]. apply elem_of_cons in He as [->|He]; [lia|].
  specialize (H2 _ He). lia.
Qed.

(** Stored input and output read back: whatever dictionary with JSON values
    is written to a reference column, decoding the column gives a dictionary with
    the same keys, the value of each key with the keys of nested dictionaries
    sorted, and every other value unchanged. *)
Theorem ref_reads_back {S} (d : pydict) (s : S) ref s' :
  unique_keys (VDict d) → _encode_ref d s = (Ret ref, s') →
  ∃ d', (∀ s1 : S, _decode_ref (Some ref) s1 = (Ret d', s1)) ∧
    dict_keys d' ≡ₚ dict_keys d ∧ ∀ k, dict_get k d' = canon <$> dict_get k d.
Proof.
  intros Hu H. destruct (ref_roundtrip d s ref s' Hu H) as [_ Hd]. exists (canon_dict d). split; [done|].
  split; [apply canon_dict_keys|]. intros k. apply canon_dict_get. by apply unique_dict in Hu as [Hu _].
Qed.

Definition demo_payload : pydict :=
  [("b", VStr (of_chars [chr 113; chr 34; chr 10])); ("a", VList [VDict [("y", VInt (-7)); ("x", VNone)]])].

Lemma ref_reads_back_witness :
  ∃ ref d', _encode_ref demo_payload tt = (Ret ref, tt) ∧ _decode_ref (Some ref) tt = (Ret d', tt) ∧
    dict_get "a" d' = Some (VList [VDict [("x", VNone); ("y", VInt (-7))]]).
Proof.
  destruct (_encode_ref demo_payload tt) as [[ref|e] s'] eqn:E; [|vm_compute in E; discriminate E].
  destruct (ref_reads_back demo_payload tt ref s') as (d'&Hd&_&Hk).
  - split; [apply (bool_decide_unpack _); vm_compute; reflexivity|]. simpl. repeat split; apply (bool_decide_unpack _); vm_compute; reflexivity.
  - exact E.
  - exists ref, d'. destruct s'. split; [reflexivity|]. split; [apply Hd|]. rewrite Hk. vm_compute. reflexivity.
Defined.
