(* ===== verification/Idempotency.v ===== *)
(** Idempotency keys: the protocol and the in-process store of
    [runtime/idempotency.py], the database-backed store of
    [runtime/sqlalchemy_idempotency.py], and what both promise. *)

From S2P Require Import Prelude Values Json JsonLoads Tables.

(** [(tenant_id, project_id, endpoint, idempotency_key)] *)
Record IdemScope := mkScope {
  is_tenant_id : Z;
  is_project_id : option Z;
  is_endpoint : string;
  is_key : string
}.
#[export] Instance IdemScope_eq_dec : EqDecision IdemScope.
Proof. solve_decision. Defined.

Record IdempotencyReservation := mkReservation {
  rv_record_id : Z;
  rv_is_replay : bool;
  rv_response : option pydict
}.

(** * The protocol *)

Class IdempotencyBackend (B : Type) := {
  ib_reserve : IdemScope → string → M B IdempotencyReservation;
  ib_complete : Z → pydict → M B unit
}.

(** What a client may rely on: a store maps scopes to (record id, request hash,
    response). [ib_ok] is the store's own invariant. *)
Abbreviation idem_view := (Z * string * option pydict)%type.
Class IdempotencyLaws (B : Type) `{!IdempotencyBackend B} := {
  ib_ok : B → Prop;
  ib_lookup : B → IdemScope → option idem_view;
  ib_reserve_new b sc h :
    ib_ok b → ib_lookup b sc = None →
    ∃ id b', ib_reserve sc h b = (Ret (mkReservation id false None), b') ∧ ib_ok b' ∧
      ∀ sc', ib_lookup b' sc' = if decide (sc = sc') then Some (id, h, None) else ib_lookup b sc';
  ib_reserve_old b sc h id h' r :
    ib_ok b → ib_lookup b sc = Some (id, h', r) →
    ib_reserve sc h b =
      (if bool_decide (h' = h) then Ret (mkReservation id true r)
       else Raise (IdempotencyConflictError (is_key sc)), b);
  ib_complete_law b sc id h r response :
    ib_ok b → ib_lookup b sc = Some (id, h, r) →
    unique_keys (VDict response) → is_Some (json_dumps (VDict response)) → canon_dict response = response →
    ∃ b', ib_complete id response b = (Ret tt, b') ∧ ib_ok b' ∧
      ∀ sc', ib_lookup b' sc' = if decide (sc = sc') then Some (id, h, Some response) else ib_lookup b sc'
}.

(** * The in-process store *)

Record IdempotencyRecord := mkIdemRecord {
  ir_record_id : Z;
  ir_request_hash : string;
  ir_status : string;
  ir_response : option pydict
}.
#[export] Instance IdempotencyRecord_eta : Eta IdempotencyRecord := λ r,
  mkIdemRecord (ir_record_id r) (ir_request_hash r) (ir_status r) (ir_response r).

Record IdempotencyStore := mkIdemStore {
  id_records : dict IdemScope IdempotencyRecord;
  id_next_id : Z
}.
#[export] Instance IdempotencyStore_eta : Eta IdempotencyStore := λ s,
  mkIdemStore (id_records s) (id_next_id s).

Definition init_idempotency : IdempotencyStore := mkIdemStore [] 1.

Definition reserve (scope : IdemScope) (request_hash : string) : M IdempotencyStore IdempotencyReservation :=
  s ← get_state;
  match dict_get scope (id_records s) with
  | Some existing =>
      check (bool_decide (ir_request_hash existing = request_hash)) (IdempotencyConflictError (is_key scope)) ;;
      mret (mkReservation (ir_record_id existing) true (ir_response existing))
  | None =>
      let record := mkIdemRecord (id_next_id s) request_hash "pending" None in
      modify (λ s, s <| id_next_id := id_next_id s + 1 |>) ;;
      modify (λ s, s <| id_records := dict_set scope record (id_records s) |>) ;;
      mret (mkReservation (ir_record_id record) false None)
  end.

(** [complete]: the first record with the given id. *)
Definition complete_reservation (record_id : Z) (response : pydict) : M IdempotencyStore unit :=
  s ← get_state;
  match List.find (λ p, ir_record_id p.2 =? record_id) (id_records s) with
  | Some (scope, record) =>
      modify (λ s, s <| id_records := dict_set scope
        (record <| ir_status := "completed" |> <| ir_response := Some response |>) (id_records s) |>)
  | None => raise (KeyError (pretty record_id))
  end.

#[export] Instance in_memory_idempotency : IdempotencyBackend IdempotencyStore := {
  ib_reserve := reserve;
  ib_complete := complete_reservation
}.

(** * The database-backed store *)

Record IdempotencyRow := mkIdemRow {
  iw_id : Z;
  iw_tenant_id : Z;
  iw_project_id : option Z;
  iw_endpoint : string;
  iw_idempotency_key : string;
  iw_request_hash : string;
  iw_response_ref : option string;
  iw_status : string
}.
#[export] Instance IdempotencyRow_eta : Eta IdempotencyRow := λ r,
  mkIdemRow (iw_id r) (iw_tenant_id r) (iw_project_id r) (iw_endpoint r) (iw_idempotency_key r)
    (iw_request_hash r) (iw_response_ref r) (iw_status r).

(** The committed rows, in insertion order, and the key of the next one. *)
Record IdemTable := mkIdemTable {
  it_rows : dict Z IdempotencyRow;
  it_next_id : Z
}.
#[export] Instance IdemTable_eta : Eta IdemTable := λ t, mkIdemTable (it_rows t) (it_next_id t).

Definition row_scope (r : IdempotencyRow) : IdemScope :=
  mkScope (iw_tenant_id r) (iw_project_id r) (iw_endpoint r) (iw_idempotency_key r).

Definition _find_record (scope : IdemScope) (t : IdemTable) : option IdempotencyRow :=
  List.find (λ r, bool_decide (row_scope r = scope)) (dict_values (it_rows t)).

Definition _encode_response {S} (response : pydict) : M S string := _encode_ref response.

Definition _decode_response {S} (v : option string) : M S (option pydict) :=
  match v with
  | None => mret None
  | Some s =>
      match strip_prefix "json:" s with
      | None => mret None
      | Some text =>
          decoded ← of_option (json_loads text) (ValueError "JSONDecodeError");
          mret (match decoded with VDict d => Some d | _ => None end)
      end
  end.

Definition _reservation_from_existing (r : IdempotencyRow) (request_hash : string)
  : M IdemTable IdempotencyReservation :=
  check (bool_decide (iw_request_hash r = request_hash)) (IdempotencyConflictError (iw_idempotency_key r)) ;;
  response ← _decode_response (iw_response_ref r);
  mret (mkReservation (iw_id r) true response).

(** The unique constraint on the scope columns; NULLs are distinct in it. *)
Definition violates_unique (scope : IdemScope) (t : IdemTable) : bool :=
  match is_project_id scope with
  | Some _ => existsb (λ r, bool_decide (row_scope r = scope)) (dict_values (it_rows t))
  | None => false
  end.

(** [reserve]; [meanwhile] is what other sessions commit between the query and
    the insertion. *)
Definition sql_reserve (meanwhile : IdemTable → IdemTable) (scope : IdemScope) (request_hash : string)
  : M IdemTable IdempotencyReservation :=
  t ← get_state;
  match _find_record scope t with
  | Some existing => _reservation_from_existing existing request_hash
  | None =>
      modify meanwhile ;;
      t ← get_state;
      if violates_unique scope t then
        (* IntegrityError: roll back and look again *)
        match _find_record scope t with
        | None => raise (RuntimeError "IntegrityError")
        | Some existing => _reservation_from_existing existing request_hash
        end
      else
        let id := it_next_id t in
        modify (λ t, t <| it_rows := dict_set id (mkIdemRow id (is_tenant_id scope) (is_project_id scope)
            (is_endpoint scope) (is_key scope) request_hash None "pending") (it_rows t) |>
          <| it_next_id := it_next_id t + 1 |>) ;;
        mret (mkReservation id false None)
  end.

Definition sql_complete_reservation (record_id : Z) (response : pydict) : M IdemTable unit :=
  t ← get_state;
  match dict_get record_id (it_rows t) with
  | None => raise (KeyError (pretty record_id))
  | Some r =>
      modify (λ t, t <| it_rows := dict_set record_id (r <| iw_status := "completed" |>) (it_rows t) |>) ;;
      ref ← _encode_response response;
      modify (λ t, t <| it_rows := dict_set record_id
        (r <| iw_status := "completed" |> <| iw_response_ref := Some ref |>) (it_rows t) |>)
  end.

#[export] Instance sql_idempotency : IdempotencyBackend IdemTable := {
  ib_reserve := sql_reserve (λ t, t);
  ib_complete := sql_complete_reservation
}.

(** * The in-process store keeps the promise *)

Record idem_ok (s : IdempotencyStore) : Prop := {
  io_nodup : NoDup (dict_keys (id_records s));
  io_fresh : ∀ sc r, dict_get sc (id_records s) = Some r → ir_record_id r < id_next_id s;
  io_inj : ∀ sc sc' r r', dict_get sc (id_records s) = Some r → dict_get sc' (id_records s) = Some r' →
    ir_record_id r = ir_record_id r' → sc = sc'
}.

Definition idem_lookup (s : IdempotencyStore) (sc : IdemScope) : option idem_view :=
  (λ r, (ir_record_id r, ir_request_hash r, ir_response r)) <$> dict_get sc (id_records s).

Lemma idem_ok_set s sc r next :
  idem_ok s → id_next_id s ≤ next → ir_record_id r < next →
  (∀ sc' r', dict_get sc' (id_records s) = Some r' → ir_record_id r' = ir_record_id r → sc' = sc) →
  idem_ok (mkIdemStore (dict_set sc r (id_records s)) next).
Proof.
  intros [H1 H2 H3] Hn Hr Hu. split; simpl; [by apply dict_set_nodup|..].
  - intros sc' r'. rewrite dict_get_set. case_decide; [by intros [= <-]|]. intros Hg%H2. lia.
  - intros sc1 sc2 r1 r2. rewrite !dict_get_set. repeat case_decide; subst; try done.
    + intros [= <-] Hg He. symmetry. by apply (Hu _ r2).
    + intros Hg [= <-] He. by apply (Hu _ r1).
    + apply H3.
Qed.

Lemma reserve_new s sc h :
  idem_ok s → idem_lookup s sc = None →
  ∃ id s', reserve sc h s = (Ret (mkReservation id false None), s') ∧ idem_ok s' ∧
    ∀ sc', idem_lookup s' sc' = if decide (sc = sc') then Some (id, h, None) else idem_lookup s sc'.
Proof.
  intros Hok Hn. unfold idem_lookup in Hn. apply fmap_None in Hn.
  unfold reserve. m_unfold. rewrite Hn. eexists _, _. split; [done|]. split.
  - apply (idem_ok_set s); simpl; [done|lia|lia|].
    intros sc' r' Hr' He. apply (io_fresh _ Hok) in Hr'. lia.
  - intros sc'. unfold idem_lookup. simpl. rewrite dict_get_set. by case_decide.
Qed.

Lemma reserve_old s sc h id h' r :
  idem_lookup s sc = Some (id, h', r) →
  reserve sc h s = (if bool_decide (h' = h) then Ret (mkReservation id true r)
                    else Raise (IdempotencyConflictError (is_key sc)), s).
Proof.
  unfold idem_lookup. intros (rec&Hr&[= -> -> ->])%fmap_Some. unfold reserve. m_unfold. rewrite Hr.
  by case_bool_decide.
Qed.

Lemma find_record_id s sc r :
  idem_ok s → dict_get sc (id_records s) = Some r →
  List.find (λ p, ir_record_id p.2 =? ir_record_id r) (id_records s) = Some (sc, r).
Proof.
  intros Hok Hr. destruct (List.find _ (id_records s)) as [[sc' r']|] eqn:E.
  - apply find_some in E as [Hin He]. simpl in He. b2p. apply list_elem_of_In in Hin.
    apply dict_elem_get in Hin; [|apply Hok]. pose proof (io_inj _ Hok _ _ _ _ Hin Hr He). congruence.
  - apply dict_get_elem, list_elem_of_In in Hr. pose proof (find_none _ _ E _ Hr) as H. simpl in H. blia.
Qed.

Lemma complete_reservation_law s sc id h r response :
  idem_ok s → idem_lookup s sc = Some (id, h, r) →
  ∃ s', complete_reservation id response s = (Ret tt, s') ∧ idem_ok s' ∧
    ∀ sc', idem_lookup s' sc' = if decide (sc = sc') then Some (id, h, Some response) else idem_lookup s sc'.
Proof.
  intros Hok. unfold idem_lookup. intros (rec&Hr&[= -> -> ->])%fmap_Some.
  unfold complete_reservation. m_unfold. rewrite (find_record_id s sc rec Hok Hr).
  eexists. split; [done|]. split.
  - apply (idem_ok_set s); simpl; [done|lia|by apply (io_fresh _ Hok sc)|].
    intros sc' r' Hr' He. by apply (io_inj _ Hok sc' sc r' rec).
  - intros sc'. unfold idem_lookup. simpl. rewrite dict_get_set. by case_decide.
Qed.

#[export] Program Instance in_memory_idempotency_laws : IdempotencyLaws IdempotencyStore := {
  ib_ok := idem_ok;
  ib_lookup := idem_lookup
}.
Next Obligation. intros. by apply reserve_new. Qed.
Next Obligation. intros. by apply reserve_old. Qed.
Next Obligation. intros. eapply complete_reservation_law; eauto. Qed.

(** * The database-backed store keeps the promise *)

Definition decoded_response (v : option string) : option pydict :=
  match _decode_response v tt with (Ret r, _) => r | _ => None end.

(** Keys are the rows' ids, scopes are unique, stored responses are JSON. *)
Record table_ok (t : IdemTable) : Prop := {
  to_nodup : NoDup (dict_keys (it_rows t));
  to_id : ∀ id r, dict_get id (it_rows t) = Some r → iw_id r = id ∧ id < it_next_id t;
  to_scope : ∀ id id' r r', dict_get id (it_rows t) = Some r → dict_get id' (it_rows t) = Some r' →
    row_scope r = row_scope r' → id = id';
  to_json : ∀ id r, dict_get id (it_rows t) = Some r →
    ∀ s : IdemTable, _decode_response (iw_response_ref r) s = (Ret (decoded_response (iw_response_ref r)), s)
}.

Definition table_lookup (t : IdemTable) (sc : IdemScope) : option idem_view :=
  (λ r, (iw_id r, iw_request_hash r, decoded_response (iw_response_ref r))) <$> _find_record sc t.

Lemma find_record_spec t sc r :
  table_ok t → _find_record sc t = Some r ↔ (∃ id, dict_get id (it_rows t) = Some r) ∧ row_scope r = sc.
Proof.
  intros Hok. unfold _find_record. split.
  - intros [Hin He%bool_decide_eq_true]%find_some. split; [|done].
    apply list_elem_of_In, list_elem_of_fmap in Hin as ([id r']&->&Hin). exists id.
    apply dict_elem_get; [apply Hok|done].
  - intros [[id Hr] Hs]. destruct (List.find _ _) as [r'|] eqn:E.
    + apply find_some in E as [Hin He%bool_decide_eq_true].
      apply list_elem_of_In, list_elem_of_fmap in Hin as ([id' r'']&->&Hin). simpl in *.
      apply dict_elem_get in Hin; [|apply Hok].
      assert (id' = id) as -> by (eapply (to_scope _ Hok); eauto; congruence). congruence.
    + assert (In r (dict_values (it_rows t))) as Hin.
      { apply list_elem_of_In, list_elem_of_fmap. exists (id, r). split; [done|]. by apply dict_get_elem. }
      pose proof (find_none _ _ E _ Hin) as H. by apply bool_decide_eq_false in H.
Qed.

Lemma find_record_none t sc :
  table_ok t → _find_record sc t = None ↔ ∀ id r, dict_get id (it_rows t) = Some r → row_scope r ≠ sc.
Proof.
  intros Hok. destruct (_find_record sc t) as [r|] eqn:E.
  - apply (find_record_spec t sc r Hok) in E as [[id Hr] Hs]. split; [done|]. intros H. by destruct (H _ _ Hr).
  - split; [|done]. intros _ id r Hr Hs.
    assert (_find_record sc t = Some r) as H by (apply find_record_spec; [done|split; [by exists id|done]]). congruence.
Qed.

Lemma table_ok_set t id r next :
  table_ok t → it_next_id t ≤ next → iw_id r = id → id < next →
  (∀ id' r', dict_get id' (it_rows t) = Some r' → row_scope r' = row_scope r → id' = id) →
  (∀ s : IdemTable, _decode_response (iw_response_ref r) s = (Ret (decoded_response (iw_response_ref r)), s)) →
  table_ok (mkIdemTable (dict_set id r (it_rows t)) next).
Proof.
  intros [H1 H2 H3 H4] Hn Hid Hlt Hu Hj. split; simpl; [by apply dict_set_nodup|..].
  - intros id' r'. rewrite dict_get_set. case_decide; [intros [= <-]; by subst|].
    intros Hg. apply H2 in Hg as [? ?]. split; [done|lia].
  - intros id1 id2 r1 r2. rewrite !dict_get_set. repeat case_decide; subst; try done.
    + intros [= <-] Hg He. symmetry. by apply (Hu _ r2).
    + intros Hg [= <-] He. by apply (Hu _ r1).
    + apply H3.
  - intros id' r'. rewrite dict_get_set. case_decide; [by intros [= <-]|]. apply H4.
Qed.

(** Looking up a scope after a row was written. *)
Lemma table_lookup_set t id r next sc' :
  table_ok t → table_ok (mkIdemTable (dict_set id r (it_rows t)) next) →
  (∀ r0, dict_get id (it_rows t) = Some r0 → row_scope r0 = row_scope r) →
  table_lookup (mkIdemTable (dict_set id r (it_rows t)) next) sc' =
  if decide (row_scope r = sc') then Some (iw_id r, iw_request_hash r, decoded_response (iw_response_ref r))
  else table_lookup t sc'.
Proof.
  intros Hok Hok' Hsame. unfold table_lookup. case_decide as Hs.
  - assert (_find_record sc' (mkIdemTable (dict_set id r (it_rows t)) next) = Some r) as ->; [|done].
    apply find_record_spec; [done|]. split; [|done]. exists id. simpl. apply dict_get_set_eq.
  - f_equal. destruct (_find_record sc' t) as [r0|] eqn:E.
    + apply find_record_spec in E as [[id0 Hr0] Hs0]; [|done]. apply find_record_spec; [done|]. split; [|done].
      exists id0. simpl. rewrite dict_get_set_ne; [done|]. intros <-. apply Hsame in Hr0. congruence.
    + pose proof (proj1 (find_record_none t sc' Hok) E) as Hn. apply find_record_none; [done|]. simpl.
      intros id0 r0. rewrite dict_get_set. case_decide; [by intros [= <-]|]. apply Hn.
Qed.

(** What [sql_reserve] does when no other session interferes. *)
Lemma sql_reserve_new t sc h :
  table_ok t → table_lookup t sc = None →
  ∃ id t', sql_reserve (λ t, t) sc h t = (Ret (mkReservation id false None), t') ∧ table_ok t' ∧
    ∀ sc', table_lookup t' sc' = if decide (sc = sc') then Some (id, h, None) else table_lookup t sc'.
Proof.
  intros Hok Hn. unfold table_lookup in Hn. apply fmap_None in Hn.
  pose proof (proj1 (find_record_none t sc Hok) Hn) as Hnone.
  assert (violates_unique sc t = false) as Hv.
  { unfold violates_unique. destruct (is_project_id sc); [|done]. apply not_true_iff_false.
    intros (r&Hin&He%bool_decide_eq_true)%existsb_exists.
    apply list_elem_of_In, list_elem_of_fmap in Hin as ([id' r']&->&Hin).
    apply dict_elem_get in Hin; [|apply Hok]. by apply (Hnone _ _ Hin). }
  unfold sql_reserve. m_unfold. rewrite Hn, Hv. eexists _, _. split; [done|].
  set (row := mkIdemRow _ _ _ _ _ _ _ _). assert (row_scope row = sc) as Hrow by by destruct sc.
  assert (table_ok (mkIdemTable (dict_set (it_next_id t) row (it_rows t)) (it_next_id t + 1))) as Hok'.
  { apply (table_ok_set t); simpl; [done|lia|done|lia| |done].
    intros id' r' Hr' He. destruct (Hnone _ _ Hr'). by rewrite He. }
  split; [exact Hok'|]. intros sc'.
  transitivity (table_lookup (mkIdemTable (dict_set (it_next_id t) row (it_rows t)) (it_next_id t + 1)) sc'); [done|].
  rewrite table_lookup_set by (try done; intros r0 Hr0; apply (to_id _ Hok) in Hr0; lia). by rewrite Hrow.
Qed.

Lemma sql_reserve_old t sc h id h' r :
  table_ok t → table_lookup t sc = Some (id, h', r) →
  sql_reserve (λ t, t) sc h t = (if bool_decide (h' = h) then Ret (mkReservation id true r)
                    else Raise (IdempotencyConflictError (is_key sc)), t).
Proof.
  intros Hok. unfold table_lookup. intros (row&Hr&[= -> -> ->])%fmap_Some. unfold sql_reserve.
  unfold mbind at 1, M_bind at 1, get_state at 1. rewrite Hr.
  apply find_record_spec in Hr as [[id Hr] Hs]; [|done]. unfold _reservation_from_existing.
  subst sc. unfold check. m_unfold. case_bool_decide; [|done]. by rewrite (to_json _ Hok _ _ Hr).
Qed.

(** A stored response decodes to what was stored, keys sorted. *)
Lemma decode_encoded {S} (d : pydict) text (s : S) :
  unique_keys (VDict d) → json_dumps (VDict d) = Some text →
  _decode_response (Some ("json:" +:+ text)) s = (Ret (Some (canon_dict d)), s).
Proof.
  intros Hu E. unfold _decode_response. rewrite strip_prefix_app. m_unfold.
  by rewrite (loads_dumps (VDict d) text Hu E), canon_VDict.
Qed.

Lemma sql_complete_reservation_law t sc id h r response :
  table_ok t → table_lookup t sc = Some (id, h, r) →
  unique_keys (VDict response) → is_Some (json_dumps (VDict response)) → canon_dict response = response →
  ∃ t', sql_complete_reservation id response t = (Ret tt, t') ∧ table_ok t' ∧
    ∀ sc', table_lookup t' sc' = if decide (sc = sc') then Some (id, h, Some response) else table_lookup t sc'.
Proof.
  intros Hok Hl Hu [text Htext] Hcanon. apply fmap_Some in Hl as (row&Hr&[= -> -> ->]).
  apply find_record_spec in Hr as [[id Hr] Hs]; [|done].
  destruct (to_id _ Hok _ _ Hr) as [Hid Hlt]. unfold sql_complete_reservation. m_unfold. rewrite Hid, Hr.
  unfold _encode_response, _encode_ref. m_unfold. rewrite Htext. simpl.
  eexists. split; [done|].
  set (row' := row <| iw_status := "completed" |> <| iw_response_ref := Some ("json:" +:+ text) |>).
  assert (table_ok (mkIdemTable (dict_set id row' (it_rows t)) (it_next_id t))) as Hok'.
  { apply (table_ok_set t); [done|lia|done|done| |].
    - intros id' r' Hr' He. by apply (to_scope _ Hok id' id r' row).
    - intros s. unfold decoded_response. change (iw_response_ref row') with (Some ("json:" +:+ text)).
      rewrite (decode_encoded (S:=unit) response text) by done. by apply decode_encoded. }
  rewrite dict_set_set. split; [exact Hok'|]. intros sc'.
  transitivity (table_lookup (mkIdemTable (dict_set id row' (it_rows t)) (it_next_id t)) sc'); [done|].
  rewrite table_lookup_set by (try done; intros r0 Hr0; by assert (r0 = row) as -> by congruence).
  change (row_scope row') with (row_scope row). subst sc. case_decide; [|done].
  unfold decoded_response. change (iw_response_ref row') with (Some ("json:" +:+ text)).
  rewrite (decode_encoded response text), Hcanon by done. by subst id.
Qed.

#[export] Program Instance sql_idempotency_laws : IdempotencyLaws IdemTable := {
  ib_ok := table_ok;
  ib_lookup := table_lookup
}.
Next Obligation. intros. by apply sql_reserve_new. Qed.
Next Obligation. intros. by apply sql_reserve_old. Qed.
Next Obligation. intros. by eapply sql_complete_reservation_law. Qed.
