(* ===== verification/InMemory.v ===== *)
(** The in-process task queue of [scheduler/in_memory.py] and the lease reaper
    of [scheduler/reaper.py]: leases with fencing tokens, retries, dead letters
    and expiry. *)

From stdpp Require Import relations.
From S2P Require Import Prelude Values StateMachine.

(** * Data *)

(** The [dict] handed to [TaskBackend.enqueue]: the keys the backends read,
    [None] for a key that is absent, and the other keys of the payload. *)
Record TaskRequest := mkTaskRequest {
  rq_task_id : option Z;
  rq_run_id : Z;
  rq_tenant_id : Z;
  rq_project_id : Z;
  rq_agent_id : option Z;
  rq_deployment_id : option Z;
  rq_queue : option string;
  rq_priority : option Z;
  rq_attempt : option Z;
  rq_max_attempts : option Z;
  rq_scheduled_at : option Z;
  rq_input_data : pydict;
  rq_override_config : option pydict;
  rq_execution_mode : option string;
  rq_extra : pydict
}.
#[export] Instance TaskRequest_eta : Eta TaskRequest := λ r,
  mkTaskRequest (rq_task_id r) (rq_run_id r) (rq_tenant_id r) (rq_project_id r) (rq_agent_id r)
    (rq_deployment_id r) (rq_queue r) (rq_priority r) (rq_attempt r) (rq_max_attempts r)
    (rq_scheduled_at r) (rq_input_data r) (rq_override_config r) (rq_execution_mode r)
    (rq_extra r).

Record InMemoryTask := mkInMemoryTask {
  task_id : Z;
  payload : TaskRequest;
  run_id : Z;
  queue : string;
  priority : Z;
  status : string;
  attempt : Z;
  max_attempts : Z;
  worker_id : option string;
  leased_until : option Z;
  heartbeat_at : option Z;
  scheduled_at : option Z;
  fencing_token : Z;
  error : option pydict;
  created_at : Z
}.
#[export] Instance InMemoryTask_eta : Eta InMemoryTask := λ t,
  mkInMemoryTask (task_id t) (payload t) (run_id t) (queue t) (priority t) (status t)
    (attempt t) (max_attempts t) (worker_id t) (leased_until t) (heartbeat_at t)
    (scheduled_at t) (fencing_token t) (error t) (created_at t).

(** [InMemoryTask.snapshot()]: the payload, overridden by the task's fields. *)
Record Snapshot := mkSnapshot {
  sn_payload : TaskRequest;
  sn_task_id : Z;
  sn_run_id : Z;
  sn_queue : string;
  sn_priority : Z;
  sn_status : string;
  sn_attempt : Z;
  sn_max_attempts : Z;
  sn_worker_id : option string;
  sn_leased_until : option Z;
  sn_heartbeat_at : option Z;
  sn_scheduled_at : option Z;
  sn_fencing_token : Z
}.

Definition snapshot (t : InMemoryTask) : Snapshot :=
  mkSnapshot (payload t) (task_id t) (run_id t) (queue t) (priority t) (status t) (attempt t)
    (max_attempts t) (worker_id t) (leased_until t) (heartbeat_at t) (scheduled_at t)
    (fencing_token t).

Record InMemoryTaskBackend := mkBackend {
  tasks : dict Z InMemoryTask;
  dead_letters : list (Z * pydict);
  next_id : Z
}.
#[export] Instance InMemoryTaskBackend_eta : Eta InMemoryTaskBackend := λ b,
  mkBackend (tasks b) (dead_letters b) (next_id b).

Definition init_backend : InMemoryTaskBackend := mkBackend [] [] 1.

(** * Operations *)

(** Runs a method body on the task object [self.tasks[task_id]]. *)
Definition on_task {A} (id : Z) (m : M InMemoryTask A) : M InMemoryTaskBackend A :=
  zoom tasks (λ d b, b <| tasks := d |>) (on_key id (KeyError (pretty id)) m).

Definition set_status (s : string) : M InMemoryTask unit := modify (λ t, t <| status := s |>).

Definition _transition (target : string) : M InMemoryTask unit :=
  t ← get_state; assert_task_transition (status t) target.

Definition _assert_fencing_token (token : Z) : M InMemoryTask unit :=
  t ← get_state; check (fencing_token t =? token) (StaleFencingTokenError (task_id t)).

Definition _assert_owner (worker : string) : M InMemoryTask unit :=
  t ← get_state;
  check (bool_decide (worker_id t = Some worker)) (TaskLeaseError (task_id t) worker).

Definition enqueue (now : Z) (rq : TaskRequest) : M InMemoryTaskBackend Z :=
  b ← get_state;
  let id := or_int (rq_task_id rq) (next_id b) in
  modify (λ b, b <| next_id :=
    match rq_task_id rq with
    | None => next_id b + 1
    | Some _ => Z.max (next_id b) (id + 1)
    end |>) ;;
  let item := mkInMemoryTask id rq (rq_run_id rq) (default "default" (rq_queue rq))
    (default 0 (rq_priority rq)) "queued" (default 0 (rq_attempt rq))
    (default 3 (rq_max_attempts rq)) None None None (rq_scheduled_at rq) 0 None now in
  modify (λ b, b <| tasks := dict_set id item (tasks b) |>) ;;
  mret id.

(** The body of the loop of [reap_expired_leases]. *)
Definition reap_task (now : Z) : M InMemoryTask unit :=
  t ← get_state;
  if (bool_decide (status t = "leased") || bool_decide (status t = "running"))
     && match leased_until t with Some u => u <? now | None => false end
  then
    (if bool_decide (status t = "running")
     then _transition "retrying" ;; set_status "retrying"
     else mret tt) ;;
    _transition "queued" ;;
    set_status "queued" ;;
    modify (λ t, t <| worker_id := None |>) ;;
    modify (λ t, t <| leased_until := None |>)
  else mret tt.

Definition reap_expired_leases (now : Z) : M InMemoryTaskBackend unit :=
  zoom tasks (λ d b, b <| tasks := d |>) (for_values (reap_task now)).

(** The filter of [lease]: a due task of the queue. *)
Definition eligible (q : string) (now : Z) (t : InMemoryTask) : bool :=
  bool_decide (queue t = q) && bool_decide (status t = "queued")
  && match scheduled_at t with Some at_ => at_ <=? now | None => true end.

(** The sort key [(-item.priority, item.created_at)], compared lexicographically. *)
Definition lease_key_leb (a b : Z * InMemoryTask) : bool :=
  (priority b.2 <? priority a.2)
  || ((priority a.2 =? priority b.2) && (created_at a.2 <=? created_at b.2)).

(** What [lease] does to the task it picked. *)
Definition lease_task (now : Z) (worker : string) (lease_seconds : Z) : M InMemoryTask Snapshot :=
  _transition "leased" ;;
  set_status "leased" ;;
  modify (λ t, t <| worker_id := Some worker |>) ;;
  modify (λ t, t <| leased_until := Some (now + seconds lease_seconds) |>) ;;
  modify (λ t, t <| heartbeat_at := Some now |>) ;;
  modify (λ t, t <| fencing_token := fencing_token t + 1 |>) ;;
  t ← get_state;
  mret (snapshot t).

(** [now] is the clock at the entry of the method, [now_reap] the reading of
    [reap_expired_leases]. *)
Definition lease (now now_reap : Z) (q worker : string) (lease_seconds : Z)
  : M InMemoryTaskBackend (option Snapshot) :=
  reap_expired_leases now_reap ;;
  b ← get_state;
  let candidates := List.filter (λ p, eligible q now p.2) (tasks b) in
  match stable_sort lease_key_leb candidates with
  | [] => mret None
  | (id, _) :: _ =>
      sn ← on_task id (lease_task now worker lease_seconds);
      mret (Some sn)
  end.

Definition heartbeat_task (now : Z) (worker : string) (lease_seconds : Z) : M InMemoryTask unit :=
  _assert_owner worker ;;
  modify (λ t, t <| heartbeat_at := Some now |>) ;;
  modify (λ t, t <| leased_until := Some (now + seconds lease_seconds) |>).

Definition heartbeat (now : Z) (id : Z) (worker : string) (lease_seconds : Z)
  : M InMemoryTaskBackend unit :=
  on_task id (heartbeat_task now worker lease_seconds).

Definition assert_can_complete (id : Z) (worker : string) (token : Z)
  : M InMemoryTaskBackend unit :=
  on_task id (_assert_fencing_token token ;; _assert_owner worker).

Definition complete (id : Z) (worker : string) (token : Z) : M InMemoryTaskBackend unit :=
  on_task id (mret tt) ;;
  assert_can_complete id worker token ;;
  on_task id (_transition "succeeded" ;; set_status "succeeded").

(** The part of [fail] that acts on the task object; returns whether the task
    was dead-lettered. *)
Definition fail_task (worker : string) (token : Z) (err : pydict) : M InMemoryTask bool :=
  _assert_fencing_token token ;;
  _assert_owner worker ;;
  t ← get_state;
  (if bool_decide (status t = "leased")
   then _transition "running" ;; set_status "running" else mret tt) ;;
  _transition "failed" ;;
  set_status "failed" ;;
  t ← get_state;
  (if max_attempts t <=? attempt t + 1 then _transition "dead_letter"
   else _transition "retrying") ;;
  modify (λ t, t <| error := Some err |>) ;;
  if max_attempts t <=? attempt t + 1 then set_status "dead_letter" ;; mret true
  else
    modify (λ t, t <| attempt := attempt t + 1 |>) ;;
    set_status "retrying" ;;
    modify (λ t, t <| worker_id := None |>) ;;
    modify (λ t, t <| leased_until := None |>) ;;
    _transition "queued" ;;
    set_status "queued" ;;
    mret false.

Definition fail (id : Z) (worker : string) (token : Z) (err : pydict)
  : M InMemoryTaskBackend unit :=
  dead ← on_task id (fail_task worker token err);
  if (dead : bool) then modify (λ b, b <| dead_letters := dead_letters b ++ [(id, err)] |>)
  else mret tt.

Definition cancel_task : M InMemoryTask unit :=
  t ← get_state;
  (if bool_decide (status t = "leased")
   then _transition "running" ;; set_status "running" else mret tt) ;;
  _transition "cancelled" ;;
  set_status "cancelled".

Definition cancel (id : Z) : M InMemoryTaskBackend unit := on_task id cancel_task.

Definition mark_running_task (worker : string) (token : Z) : M InMemoryTask unit :=
  _assert_owner worker ;;
  _assert_fencing_token token ;;
  _transition "running" ;;
  set_status "running".

Definition mark_running (id : Z) (worker : string) (token : Z) : M InMemoryTaskBackend unit :=
  on_task id (mark_running_task worker token).

Definition will_retry (id : Z) : M InMemoryTaskBackend bool :=
  on_task id (t ← get_state; mret (attempt t + 1 <? max_attempts t)).

(** * The lease reaper of [scheduler/reaper.py] *)

Record ReaperHeartbeat := mkReaperHeartbeat {
  rh_reaper_id : string;
  rh_status : string;
  rh_heartbeat_at : Z;
  rh_reaped_count : Z
}.

Record LeaseReaper := mkLeaseReaper {
  lr_backend : InMemoryTaskBackend;
  lr_reaper_id : string;
  lr_heartbeat : ReaperHeartbeat
}.
#[export] Instance LeaseReaper_eta : Eta LeaseReaper := λ r,
  mkLeaseReaper (lr_backend r) (lr_reaper_id r) (lr_heartbeat r).

Definition new_lease_reaper (now : Z) (b : InMemoryTaskBackend) (reaper_id : string) : LeaseReaper :=
  mkLeaseReaper b reaper_id (mkReaperHeartbeat reaper_id "starting" now 0).

Definition _record_heartbeat (now : Z) (reaped_count : Z) : M LeaseReaper unit :=
  modify (λ r, r <| lr_heartbeat := mkReaperHeartbeat (lr_reaper_id r) "running" now reaped_count |>).

(** A leased or running task with a lease deadline: the [before] set of [reap]. *)
Definition holds_lease (t : InMemoryTask) : bool :=
  (bool_decide (status t = "leased") || bool_decide (status t = "running"))
  && bool_decide (is_Some (leased_until t)).

(** [LeaseReaper.reap] on a backend with a [tasks] dictionary. The Python code
    collects [before] as a set; the list here holds the same keys. *)
Definition reap (now now_heartbeat : Z) : M LeaseReaper (list Z) :=
  r ← get_state;
  let before := dict_keys (List.filter (λ p, holds_lease p.2) (tasks (lr_backend r))) in
  zoom lr_backend (λ b r, r <| lr_backend := b |>) (reap_expired_leases now) ;;
  r ← get_state;
  let reaped := List.filter (λ id,
    match dict_get id (tasks (lr_backend r)) with
    | Some t => bool_decide (status t = "queued") && bool_decide (worker_id t = None)
    | None => false
    end) before in
  _record_heartbeat now_heartbeat (Z.of_nat (length reaped)) ;;
  mret reaped.

(** * What each method does to a task, branch by branch *)

Ltac task_crush :=
  unfold fail_task, reap_task, _assert_fencing_token, _assert_owner, _transition, set_status,
    assert_task_transition, assert_transition; m_unfold; simpl;
  autorewrite with transitions.

Lemma fail_task_spec w tok err t :
  fail_task w tok err t =
  if fencing_token t =? tok then
    if bool_decide (worker_id t = Some w) then
      if bool_decide (status t = "leased") || bool_decide (status t = "running") then
        if max_attempts t <=? attempt t + 1
        then (Ret true, t <| status := "dead_letter" |> <| error := Some err |>)
        else (Ret false, t <| status := "queued" |> <| error := Some err |>
                <| attempt := attempt t + 1 |> <| worker_id := None |> <| leased_until := None |>)
      else (Raise (InvalidStateTransitionError "task" (status t) "failed"), t)
    else (Raise (TaskLeaseError (task_id t) w), t)
  else (Raise (StaleFencingTokenError (task_id t)), t).
Proof.
  task_crush. destruct (fencing_token t =? tok); simpl; [|done].
  destruct (bool_decide (worker_id t = Some w)); simpl; [|done].
  destruct (bool_decide_reflect (status t = "leased")) as [Hl|Hl]; simpl.
  - rewrite Hl; simpl. by destruct (max_attempts t <=? attempt t + 1).
  - autorewrite with transitions.
    destruct (bool_decide_reflect (status t = "running")) as [Hr|Hr]; simpl; [|done].
    by destruct (max_attempts t <=? attempt t + 1).
Qed.

Lemma reap_task_spec now t :
  reap_task now t =
  (Ret tt,
   if holds_lease t && match leased_until t with Some u => u <? now | None => false end
   then t <| status := "queued" |> <| worker_id := None |> <| leased_until := None |> else t).
Proof.
  unfold holds_lease. task_crush.
  destruct (bool_decide_reflect (status t = "leased")) as [Hl|Hl]; simpl.
  - destruct (leased_until t) as [u|]; simpl; [|done].
    destruct (u <? now); simpl; [|done]. by rewrite Hl; simpl; rewrite ?Hl.
  - destruct (bool_decide_reflect (status t = "running")) as [Hr|Hr]; simpl; [|done].
    destruct (leased_until t) as [u|]; simpl; [|done].
    destruct (u <? now); simpl; [|done]. by rewrite Hr; simpl; rewrite ?Hr.
Qed.

(** A queued task as a lease leaves it. *)
Definition leased (now : Z) (worker : string) (lease_seconds : Z) (t : InMemoryTask)
  : InMemoryTask :=
  t <| status := "leased" |> <| worker_id := Some worker |>
    <| leased_until := Some (now + seconds lease_seconds) |> <| heartbeat_at := Some now |>
    <| fencing_token := fencing_token t + 1 |>.

Lemma lease_task_spec now w secs t :
  lease_task now w secs t =
  if bool_decide (status t = "queued")
  then (Ret (snapshot (leased now w secs t)), leased now w secs t)
  else (Raise (InvalidStateTransitionError "task" (status t) "leased"), t).
Proof. unfold lease_task. task_crush. by destruct (bool_decide (status t = "queued")). Qed.

Lemma cancel_task_spec t :
  cancel_task t =
  if bool_decide (status t = "queued") || bool_decide (status t = "leased")
     || bool_decide (status t = "running")
  then (Ret tt, t <| status := "cancelled" |>)
  else (Raise (InvalidStateTransitionError "task" (status t) "cancelled"), t).
Proof.
  unfold cancel_task. task_crush.
  destruct (bool_decide_reflect (status t = "leased")) as [Hl|Hl]; simpl; [by rewrite Hl|].
  autorewrite with transitions. rewrite orb_false_r.
  by destruct (bool_decide (status t = "queued") || bool_decide (status t = "running")).
Qed.

Lemma mark_running_task_spec w tok t :
  mark_running_task w tok t =
  if bool_decide (worker_id t = Some w) then
    if fencing_token t =? tok then
      if bool_decide (status t = "leased") then (Ret tt, t <| status := "running" |>)
      else (Raise (InvalidStateTransitionError "task" (status t) "running"), t)
    else (Raise (StaleFencingTokenError (task_id t)), t)
  else (Raise (TaskLeaseError (task_id t) w), t).
Proof.
  unfold mark_running_task. task_crush. destruct (bool_decide (worker_id t = Some w)); simpl; [|done].
  destruct (fencing_token t =? tok); simpl; [|done].
  autorewrite with transitions. by destruct (bool_decide (status t = "leased")).
Qed.

Lemma heartbeat_task_spec now w secs t :
  heartbeat_task now w secs t =
  if bool_decide (worker_id t = Some w)
  then (Ret tt, t <| heartbeat_at := Some now |> <| leased_until := Some (now + seconds secs) |>)
  else (Raise (TaskLeaseError (task_id t) w), t).
Proof. unfold heartbeat_task. task_crush. by destruct (bool_decide (worker_id t = Some w)). Qed.

(** [reap_task] as a function of the task. *)
Definition reaped (now : Z) (t : InMemoryTask) : InMemoryTask :=
  if holds_lease t && match leased_until t with Some u => u <? now | None => false end
  then t <| status := "queued" |> <| worker_id := None |> <| leased_until := None |> else t.

Lemma on_task_run {A} id (m : M InMemoryTask A) b :
  on_task id m b =
  match dict_get id (tasks b) with
  | Some t => ((m t).1, b <| tasks := dict_set id (m t).2 (tasks b) |>)
  | None => (Raise (KeyError (pretty id)), b)
  end.
Proof.
  unfold on_task, zoom, on_key. destruct (dict_get id (tasks b)) as [t|]; simpl.
  - by destruct (m t).
  - by destruct b.
Qed.

Lemma reap_run now b :
  reap_expired_leases now b =
  (Ret tt, b <| tasks := dict_map_values (reaped now) (tasks b) |>).
Proof.
  unfold reap_expired_leases, zoom.
  by rewrite (for_values_total _ (reaped now)) by (intros t; apply reap_task_spec).
Qed.

Lemma lease_key_leb_total x y : lease_key_leb x y = true ∨ lease_key_leb y x = true.
Proof. unfold lease_key_leb. lia. Qed.

Lemma lease_key_leb_trans x y z :
  lease_key_leb x y = true → lease_key_leb y z = true → lease_key_leb x z = true.
Proof. unfold lease_key_leb. lia. Qed.

(** * Every method moves a task along the transition table *)

(** What a method may do to a task object: its status follows the table, its
    fencing token and attempt counter never go down, its identity is fixed. *)
Definition task_step (t t' : InMemoryTask) : Prop :=
  evolves TASK_TRANSITIONS (status t) (status t') ∧
  fencing_token t ≤ fencing_token t' ∧ attempt t ≤ attempt t' ∧
  task_id t' = task_id t ∧ run_id t' = run_id t ∧ max_attempts t' = max_attempts t ∧
  queue t' = queue t ∧ priority t' = priority t ∧ created_at t' = created_at t.

#[export] Instance task_step_preorder : PreOrder task_step.
Proof.
  split.
  - intros t. unfold task_step. split_and!; (reflexivity || lia || done).
  - intros t1 t2 t3 (?&?&?&?&?&?&?&?&?) (?&?&?&?&?&?&?&?&?). unfold task_step.
    split_and!; [by etrans|lia|lia|congruence..].
Qed.

(** The task stored under [id] is still there and moved by [R]. *)
Definition at_task (id : Z) (R : relation InMemoryTask) : relation InMemoryTaskBackend := λ b b',
  ∀ t, dict_get id (tasks b) = Some t → ∃ t', dict_get id (tasks b') = Some t' ∧ R t t'.

#[export] Instance at_task_preorder id R `{!PreOrder R} : PreOrder (at_task id R).
Proof.
  split.
  - intros b t Ht. by exists t.
  - intros b1 b2 b3 H1 H2 t Ht. destruct (H1 t Ht) as (t2&Ht2&Hr).
    destruct (H2 t2 Ht2) as (t3&Ht3&Hr'). exists t3. split; [done|]. by etrans.
Qed.

Lemma respects_on_task {A} id id' R `{!PreOrder R} (m : M InMemoryTask A) :
  respects R m → respects (at_task id' R) (on_task id m).
Proof.
  intros Hm b t Ht. rewrite on_task_run. destruct (dict_get id (tasks b)) as [u|] eqn:E; simpl.
  - rewrite dict_get_set. case_decide; subst; [|by exists t].
    simplify_eq. exists (m t).2. split; [done|apply Hm].
  - by exists t.
Qed.

Lemma respects_reap id R now :
  (∀ t, R t (reaped now t)) → respects (at_task id R) (reap_expired_leases now).
Proof.
  intros HR b t Ht. rewrite reap_run; simpl. rewrite dict_get_map_values, Ht. eauto.
Qed.

Ltac task_step_tac :=
  repeat split; simpl; try reflexivity; try lia; auto with evolves.

Lemma respects_transition_set {A} g (k : M InMemoryTask A) :
  respects task_step k → respects task_step (_transition g ;; set_status g ;; k).
Proof.
  intros Hk t. unfold _transition, set_status, assert_task_transition, assert_transition.
  m_unfold. simpl. destruct (allowed TASK_TRANSITIONS (status t) g) eqn:E; simpl.
  - etrans; [|apply Hk]. by task_step_tac.
  - reflexivity.
Qed.

Lemma respects_transition_set_end g : respects task_step (_transition g ;; set_status g).
Proof.
  intros t. unfold _transition, set_status, assert_task_transition, assert_transition.
  m_unfold. simpl. destruct (allowed TASK_TRANSITIONS (status t) g) eqn:E; simpl;
    [by task_step_tac|reflexivity].
Qed.

Lemma respects_fencing R `{!PreOrder R} tok : respects R (_assert_fencing_token tok).
Proof. unfold _assert_fencing_token. auto with respects. Qed.

Lemma respects_owner R `{!PreOrder R} w : respects R (_assert_owner w).
Proof. unfold _assert_owner. auto with respects. Qed.

#[export] Hint Resolve respects_transition_set respects_transition_set_end respects_fencing
  respects_owner respects_on_task : respects.
#[export] Hint Extern 1 (respects task_step (modify _)) =>
  (apply respects_modify; intros ?; task_step_tac) : respects.

Lemma respects_fail_task w tok err : respects task_step (fail_task w tok err).
Proof.
  intros t. rewrite fail_task_spec. repeat case_match; simpl; try reflexivity; task_step_tac;
    match goal with H : _ || _ = true |- _ => apply orb_true_iff in H end;
    rewrite !bool_decide_eq_true in *; destruct_or!; rewrite H1.
  - by apply (evolves_path _ _ ["running"; "failed"; "dead_letter"]).
  - by apply (evolves_path _ _ ["failed"; "dead_letter"]).
  - by apply (evolves_path _ _ ["running"; "failed"; "retrying"; "queued"]).
  - by apply (evolves_path _ _ ["failed"; "retrying"; "queued"]).
Qed.
#[export] Hint Resolve respects_fail_task : respects.

Lemma task_step_reaped now t : task_step t (reaped now t).
Proof.
  unfold reaped, holds_lease. case_match; [|reflexivity]. task_step_tac.
  apply andb_true_iff in H as [[H _]%andb_true_iff _]. apply orb_true_iff in H.
  rewrite !bool_decide_eq_true in H. destruct H as [H|H]; rewrite H.
  - by apply (evolves_path _ _ ["queued"]).
  - by apply (evolves_path _ _ ["retrying"; "queued"]).
Qed.

(** * Sequences of calls *)

(** A call of a public method, with the clock readings it makes. *)
Inductive op : Type :=
| OpEnqueue (now : Z) (rq : TaskRequest)
| OpLease (now now_reap : Z) (q worker : string) (lease_seconds : Z)
| OpHeartbeat (now id : Z) (worker : string) (lease_seconds : Z)
| OpComplete (id : Z) (worker : string) (token : Z)
| OpFail (id : Z) (worker : string) (token : Z) (err : pydict)
| OpCancel (id : Z)
| OpMarkRunning (id : Z) (worker : string) (token : Z)
| OpReap (now : Z).

Definition run_op (o : op) : M InMemoryTaskBackend unit :=
  match o with
  | OpEnqueue now rq => enqueue now rq ;; mret tt
  | OpLease now now_reap q w secs => lease now now_reap q w secs ;; mret tt
  | OpHeartbeat now id w secs => heartbeat now id w secs
  | OpComplete id w tok => complete id w tok
  | OpFail id w tok err => fail id w tok err
  | OpCancel id => cancel id
  | OpMarkRunning id w tok => mark_running id w tok
  | OpReap now => reap_expired_leases now
  end.

(** The backend after the calls; a call that raises leaves its effects behind. *)
Definition exec (b : InMemoryTaskBackend) (ops : list op) : InMemoryTaskBackend :=
  foldl (λ b o, (run_op o b).2) b ops.

(** The call does not enqueue another task under the identifier [id]. *)
Definition keeps_id (id : Z) (o : op) : Prop :=
  match o with OpEnqueue _ rq => rq_task_id rq ≠ Some id | _ => True end.

(** * Well-formed backends *)

(** A task between two calls: it is queued without owner, or held by a worker
    with a lease deadline and a positive token, or finished. *)
Definition task_ok (t : InMemoryTask) : Prop :=
  0 ≤ fencing_token t ∧
  ((status t = "queued" ∧ worker_id t = None ∧ leased_until t = None) ∨
   ((status t = "leased" ∨ status t = "running") ∧
      is_Some (worker_id t) ∧ is_Some (leased_until t) ∧ 1 ≤ fencing_token t) ∨
   (status t = "succeeded" ∨ status t = "dead_letter" ∨ status t = "cancelled")).

Definition backend_wf (b : InMemoryTaskBackend) : Prop :=
  NoDup (dict_keys (tasks b)) ∧
  ∀ id t, (id, t) ∈ tasks b → task_id t = id ∧ id < next_id b ∧ task_ok t.

Ltac status_cases :=
  repeat match goal with
  | H : _ || _ = true |- _ => apply orb_true_iff in H
  | H : _ && _ = true |- _ => apply andb_true_iff in H as [? ?]
  | H : bool_decide _ = true |- _ => apply bool_decide_eq_true in H
  | H : bool_decide _ = false |- _ => apply bool_decide_eq_false in H
  end.

Lemma task_ok_owner t w : task_ok t → worker_id t = Some w → status t ≠ "queued".
Proof. intros (_&[(?&?&?)|[([?|?]&?)|[?|[?|?]]]]) ? ?; congruence. Qed.

Section bodies_keep_task_ok.

Lemma keeps_lease now w secs : respects (keeps task_ok) (lease_task now w secs).
Proof.
  intros t Hok. rewrite lease_task_spec. case_match; [|done]. destruct Hok as [? _].
  split; simpl; [lia|]. right; left. split_and!; [by left|done|done|lia].
Qed.

Lemma keeps_heartbeat now w secs : respects (keeps task_ok) (heartbeat_task now w secs).
Proof.
  intros t Hok. rewrite heartbeat_task_spec. case_bool_decide as Hw; [|done]. simpl.
  pose proof (task_ok_owner _ _ Hok Hw). destruct Hok as (?&[(?&?&?)|[(?&?&?&?)|?]]); [done|..];
    (split; simpl; [done|]); right; [left|right]; done.
Qed.

Lemma keeps_complete : respects (keeps task_ok) (_transition "succeeded" ;; set_status "succeeded").
Proof.
  intros t Hok. task_crush. destruct (bool_decide (status t = "running")); simpl; [|done].
  destruct Hok as [? _]. split; simpl; [done|]. right; right. by left.
Qed.

Lemma keeps_fail w tok err : respects (keeps task_ok) (fail_task w tok err).
Proof.
  intros t Hok. rewrite fail_task_spec. repeat case_match; try done; destruct Hok as [? _];
    (split; simpl; [done|]); [right; right; by right; left|by left].
Qed.

Lemma keeps_cancel : respects (keeps task_ok) cancel_task.
Proof.
  intros t Hok. rewrite cancel_task_spec. case_match; [|done]. destruct Hok as [? _].
  split; simpl; [done|]. right; right. by right; right.
Qed.

Lemma keeps_mark_running w tok : respects (keeps task_ok) (mark_running_task w tok).
Proof.
  intros t Hok. rewrite mark_running_task_spec. repeat case_match; try done. simpl. status_cases.
  destruct Hok as (?&[(?&?&?)|[(?&?&?&?)|[?|[?|?]]]]); try congruence.
  split; simpl; [done|]. right; left. by split_and!; [right|..].
Qed.

Lemma task_ok_reaped now t : task_ok t → task_ok (reaped now t).
Proof.
  intros Hok. unfold reaped. case_match; [|done]. destruct Hok as [? _].
  split; simpl; [done|]. by left.
Qed.
End bodies_keep_task_ok.

Section bodies_task_step.

Lemma step_lease now w secs : respects task_step (lease_task now w secs).
Proof. unfold lease_task. auto 12 with respects. Qed.

Lemma step_heartbeat now w secs : respects task_step (heartbeat_task now w secs).
Proof. unfold heartbeat_task. auto 12 with respects. Qed.

Lemma step_cancel : respects task_step cancel_task.
Proof. unfold cancel_task. auto 12 with respects. Qed.

Lemma step_mark_running w tok : respects task_step (mark_running_task w tok).
Proof. unfold mark_running_task. auto 12 with respects. Qed.
End bodies_task_step.

#[export] Hint Resolve keeps_lease keeps_heartbeat keeps_complete keeps_fail keeps_cancel
  keeps_mark_running step_lease step_heartbeat step_cancel step_mark_running
  task_step_reaped : respects.

Lemma respects_wf_on_task {A} id (m : M InMemoryTask A) :
  respects (keeps task_ok) m → respects task_step m →
  respects (keeps backend_wf) (on_task id m).
Proof.
  intros Hok Hst b [Hnd Hall]. rewrite on_task_run.
  destruct (dict_get id (tasks b)) as [t|] eqn:E; simpl; [|done].
  split; simpl; [by apply dict_set_nodup|]. intros id' t' [[-> ->]|Hin]%dict_elem_set; [|by apply Hall].
  destruct (Hall id t (dict_get_elem _ _ _ E)) as (Hid&Hlt&Ht).
  destruct (Hst t) as (_&_&_&Hid'&_). rewrite Hid'. split_and!; [done|done|by apply Hok].
Qed.

Lemma respects_wf_reap now : respects (keeps backend_wf) (reap_expired_leases now).
Proof.
  intros b [Hnd Hall]. rewrite reap_run. split; simpl; [by rewrite dict_keys_map_values|].
  intros id t. unfold dict_map_values. intros ([id' t']&[= -> ->]&Hin)%list_elem_of_fmap.
  destruct (Hall _ _ Hin) as (Hid&Hlt&Hok). destruct (task_step_reaped now t') as (_&_&_&Hid'&_).
  simpl. rewrite Hid'. split_and!; [done|done|by apply task_ok_reaped].
Qed.

Lemma enqueue_id_bound rq b :
  let id := or_int (rq_task_id rq) (next_id b) in
  (id = next_id b ∨ rq_task_id rq = Some id) ∧
  id < match rq_task_id rq with None => next_id b + 1 | Some _ => Z.max (next_id b) (id + 1) end ∧
  next_id b ≤ match rq_task_id rq with None => next_id b + 1 | Some _ => Z.max (next_id b) (id + 1) end.
Proof.
  unfold or_int. destruct (rq_task_id rq) as [i|]; simpl; [|split_and!; [by left|lia|lia]].
  destruct (i =? 0) eqn:E; split_and!; try lia; auto.
Qed.

Lemma respects_wf_enqueue now rq : respects (keeps backend_wf) (enqueue now rq).
Proof.
  intros b [Hnd Hall]. unfold enqueue. m_unfold. simpl.
  destruct (enqueue_id_bound rq b) as (_&Hlt&Hle). split; simpl; [by apply dict_set_nodup|].
  intros id t [[-> ->]|Hin]%dict_elem_set; simpl.
  - do 2 (split; [done|]). split; simpl; [done|by left].
  - destruct (Hall _ _ Hin) as (?&?&?). split; [done|]. split; [lia|done].
Qed.

#[export] Hint Resolve respects_wf_on_task respects_wf_reap respects_wf_enqueue : respects.
#[export] Hint Extern 1 (respects (keeps backend_wf) (modify _)) =>
  (apply respects_modify; intros ? ?; done) : respects.

Lemma respects_wf_lease now now_reap q w secs :
  respects (keeps backend_wf) (lease now now_reap q w secs).
Proof.
  unfold lease. apply respects_bind; [apply _|auto with respects|]. intros _.
  apply respects_bind; [apply _|auto with respects|]. intros b.
  destruct (stable_sort _ _) as [|[id t] l]; auto with respects.
Qed.

Lemma respects_wf_op o : respects (keeps backend_wf) (run_op o).
Proof.
  destruct o; simpl; unfold heartbeat, complete, assert_can_complete, fail, cancel, mark_running;
    auto 8 using respects_wf_lease with respects.
Qed.

Lemma exec_wf b ops : backend_wf b → backend_wf (exec b ops).
Proof.
  revert b. induction ops as [|o ops IH]; intros b Hwf; simpl; [done|].
  apply IH. by apply respects_wf_op.
Qed.

Lemma init_backend_wf : backend_wf init_backend.
Proof. split; [constructor|]. intros id t Hin. by apply elem_of_nil in Hin. Qed.

(** * Tasks across a sequence of calls *)

Lemma respects_at_lease id now now_reap q w secs :
  respects (at_task id task_step) (lease now now_reap q w secs).
Proof.
  unfold lease. apply respects_bind; [apply _|by apply respects_reap, task_step_reaped|]. intros _.
  apply respects_bind; [apply _|auto with respects|]. intros b.
  destruct (stable_sort _ _) as [|[id' t] l]; auto with respects.
Qed.

Lemma at_task_enqueue id now rq b :
  backend_wf b → rq_task_id rq ≠ Some id → at_task id task_step b (enqueue now rq b).2.
Proof.
  intros [_ Hall] Hne t Ht. unfold enqueue. m_unfold. simpl.
  destruct (Hall _ _ (dict_get_elem _ _ _ Ht)) as (_&Hlt&_).
  destruct (enqueue_id_bound rq b) as ([Heq|Heq]&_&_).
  - rewrite dict_get_set_ne by lia. exists t. by split.
  - rewrite dict_get_set_ne by congruence. exists t. by split.
Qed.

#[export] Hint Extern 1 (respects (at_task _ task_step) (modify _)) =>
  (apply respects_modify; intros ? t Ht; exists t; by split) : respects.

(** One call moves the task along the table, and never loses it. *)
Lemma run_op_task_step id o b :
  backend_wf b → keeps_id id o → at_task id task_step b (run_op o b).2.
Proof.
  intros Hwf Hid. destruct o; simpl in *;
    unfold heartbeat, complete, assert_can_complete, fail, cancel, mark_running.
  { exact (at_task_enqueue id now rq b Hwf Hid). }
  all: match goal with |- at_task ?id ?R ?b (?m ?b).2 =>
         assert (respects (at_task id R) m) as Hr; [|apply Hr] end.
  all: auto 8 using respects_at_lease, respects_reap, task_step_reaped with respects.
Qed.

Lemma exec_task_step id b ops :
  backend_wf b → Forall (keeps_id id) ops → at_task id task_step b (exec b ops).
Proof.
  intros Hwf Hops. revert b Hwf. induction Hops as [|o ops Ho _ IH]; intros b Hwf; simpl.
  { reflexivity. }
  etrans; [by apply run_op_task_step|]. apply IH. by apply respects_wf_op.
Qed.

(** * Leases *)

Lemma lease_run now now_reap q w secs b :
  backend_wf b →
  let b1 := b <| tasks := dict_map_values (reaped now_reap) (tasks b) |> in
  lease now now_reap q w secs b =
  match stable_sort lease_key_leb (List.filter (λ p, eligible q now p.2) (tasks b1)) with
  | [] => (Ret None, b1)
  | (id, t) :: _ =>
      (Ret (Some (snapshot (leased now w secs t))),
       b1 <| tasks := dict_set id (leased now w secs t) (tasks b1) |>)
  end.
Proof.
  intros [Hnd Hall] b1. unfold lease, mbind, M_bind. rewrite reap_run. unfold get_state.
  fold b1. destruct (stable_sort _ _) as [|[id t] l] eqn:E; [done|].
  assert ((id, t) ∈ List.filter (λ p, eligible q now p.2) (tasks b1)) as Hin.
  { rewrite <-(stable_sort_perm lease_key_leb), E. left. }
  apply list_elem_of_In, filter_In in Hin as [Hin%list_elem_of_In Hel].
  rewrite on_task_run, (dict_elem_get id t); [|by simpl; rewrite dict_keys_map_values|done].
  rewrite lease_task_spec. simpl in Hel. unfold eligible in Hel.
  status_cases. rewrite bool_decide_eq_true_2 by done. done.
Qed.

(** * Properties *)

(** C11: Well-formedness of the queue is an invariant: after any sequence of
    calls on a new backend, including calls that raise, identifiers are unique
    and below the next identifier, and every task is either queued without
    owner, held by a worker with a deadline and a positive fencing token, or
    finished. *)
Theorem backend_invariant ops : backend_wf (exec init_backend ops).
Proof. apply exec_wf, init_backend_wf. Qed.

(** A task that [lease] may hand out, and the order in which it prefers them:
    higher priority first, then earlier creation. *)
Definition due (q : string) (now : Z) (t : InMemoryTask) : Prop :=
  queue t = q ∧ status t = "queued" ∧ ∀ at_, scheduled_at t = Some at_ → at_ ≤ now.

Definition preferred (t u : InMemoryTask) : Prop :=
  priority u < priority t ∨ priority u = priority t ∧ created_at t < created_at u.

Lemma eligible_due q now t : eligible q now t = true ↔ due q now t.
Proof.
  unfold eligible, due. rewrite !andb_true_iff, !bool_decide_eq_true.
  destruct (scheduled_at t) as [at_|].
  - split; [intros [[? ?] ?]; split_and!; try done; intros ? [= <-]; blia|].
    intros (?&?&H). split_and!; try done. specialize (H _ eq_refl). blia.
  - split; [intros [[? ?] ?]|intros (?&?&?)]; by split_and!.
Qed.

Lemma lease_key_preferred a b : lease_key_leb a b = false ↔ preferred b.2 a.2.
Proof. unfold lease_key_leb, preferred. lia. Qed.

(** C4: [lease] never raises on a well-formed backend. It first requeues the
    expired leases; it then returns nothing exactly when no task of the queue
    is due, and otherwise the due task of highest priority, oldest among those
    and first inserted among ties, held by the caller under the next fencing
    token, every other task being left as the reaping left it. *)
Theorem lease_correct now now_reap q w secs b :
  backend_wf b →
  let b1 := (reap_expired_leases now_reap b).2 in
  match lease now now_reap q w secs b with
  | (Ret None, b') => b' = b1 ∧ ∀ id t, (id, t) ∈ tasks b1 → ¬ due q now t
  | (Ret (Some sn), b') =>
      ∃ id t l1 l2, tasks b1 = l1 ++ (id, t) :: l2 ∧ due q now t ∧
        (∀ id' u, (id', u) ∈ l1 → due q now u → preferred t u) ∧
        (∀ id' u, (id', u) ∈ l2 → due q now u → ¬ preferred u t) ∧
        sn = snapshot (leased now w secs t) ∧
        b' = b1 <| tasks := dict_set id (leased now w secs t) (tasks b1) |>
  | (Raise _, _) => False
  end.
Proof.
  intros Hwf. rewrite reap_run, lease_run by done. cbv zeta. cbn [snd].
  set (b1 := b <| tasks := _ |>).
  destruct (stable_sort _ _) as [|[id t] l] eqn:E.
  { apply stable_sort_nil in E. split; [done|]. intros id t Ht Hd%eligible_due.
    eapply (filter_nil_not_in _ _ (id, t)); eauto. }
  pose proof (stable_sort_head_min lease_key_leb lease_key_leb_total lease_key_leb_trans) as Hmin.
  destruct (stable_sort_head_first _ _ _ _ lease_key_leb_total lease_key_leb_trans E)
    as (l1&l2&Hdue&Hall).
  destruct (filter_split _ _ _ _ _ Hdue) as (k1&k2&Hk&Ht&<-&<-).
  exists id, t, k1, k2. split_and!; try done; [by apply eligible_due| |].
  - intros id' u Hu Hd%eligible_due. rewrite <-(lease_key_preferred (id', u) (id, t)).
    rewrite Forall_forall in Hall. apply Hall. by apply list_elem_of_In, filter_In; split; [apply list_elem_of_In|].
  - intros id' u Hu Hd%eligible_due. rewrite <-(lease_key_preferred (id, t) (id', u)).
    rewrite (Hmin _ _ _ (id', u) E); [done|]. rewrite Hk. apply list_elem_of_In, filter_In.
    split; [|done]. apply list_elem_of_In. set_solver.
Qed.

(** A lease names a task that is in the dictionary afterwards, under its token. *)
Lemma lease_holds now now_reap q w secs b sn b' :
  backend_wf b → lease now now_reap q w secs b = (Ret (Some sn), b') →
  ∃ t, dict_get (sn_task_id sn) (tasks b') = Some t ∧ fencing_token t = sn_fencing_token sn ∧
    worker_id t = Some w ∧ status t = "leased" ∧
    ∀ u, dict_get (sn_task_id sn) (tasks b) = Some u → fencing_token t = fencing_token u + 1.
Proof.
  intros Hwf E. pose proof Hwf as [Hnd Hall]. rewrite lease_run in E by done. simpl in E.
  destruct (stable_sort _ _) as [|[id t] l] eqn:Es; [done|]. simplify_eq.
  assert ((id, t) ∈ List.filter (λ p, eligible q now p.2)
    (dict_map_values (reaped now_reap) (tasks b))) as Hin.
  { rewrite <-(stable_sort_perm lease_key_leb), Es. left. }
  apply list_elem_of_In, filter_In in Hin as [Hin%list_elem_of_In _].
  unfold dict_map_values in Hin. apply list_elem_of_fmap in Hin as ([id' u]&[= -> ->]&Hu).
  destruct (Hall _ _ Hu) as (Hid&_&_). simpl.
  assert (task_id (reaped now_reap u) = id') as Hid'.
  { destruct (task_step_reaped now_reap u) as (_&_&_&->&_). done. }
  rewrite Hid', dict_get_set_eq. eexists. split_and!; [done..|].
  intros u'. rewrite (dict_elem_get id' u) by done. intros [= <-]. simpl.
  unfold reaped. by case_match.
Qed.

(** The calls of a worker whose token is not the current one raise and leave
    the backend as it is. *)
Lemma stale_calls_raise b id t w tok err :
  dict_get id (tasks b) = Some t → fencing_token t ≠ tok →
  complete id w tok b = (Raise (StaleFencingTokenError (task_id t)), b) ∧
  fail id w tok err b = (Raise (StaleFencingTokenError (task_id t)), b) ∧
  raises (mark_running id w tok b).1 ∧ (mark_running id w tok b).2 = b.
Proof.
  intros Ht Hne. apply Z.eqb_neq in Hne.
  unfold complete, assert_can_complete, fail, mark_running, mbind, M_bind.
  rewrite !on_task_run, Ht. simpl. rewrite dict_set_id by done.
  assert (b <| tasks := tasks b |> = b) as Hb by by destruct b.
  rewrite !on_task_run. simpl in Hb. simpl. rewrite Hb, Ht, fail_task_spec, Hne.
  rewrite mark_running_task_spec, Hne. unfold _assert_fencing_token, check, raise, mbind, M_bind.
  simpl. rewrite Hne; simpl. rewrite dict_set_id by done.
  split_and!; [by rewrite Hb|by rewrite Hb|by case_match; eexists|].
  case_match; simpl; by rewrite dict_set_id by done.
Qed.

(** C1: Fencing. If a task is leased to one worker and, after any calls, leased
    again, the second token is larger, and from then on, whatever calls follow,
    the first holder's [complete] and [fail] raise [StaleFencingTokenError] and
    its [mark_running] raises, none of them changing the backend. The calls in
    between do not enqueue a new task under the same explicit identifier. *)
Theorem stale_lease_fenced b now nr q w secs sn b1 ops now' nr' q' w' secs' sn' b2 ops' err :
  backend_wf b →
  lease now nr q w secs b = (Ret (Some sn), b1) →
  Forall (keeps_id (sn_task_id sn)) ops →
  lease now' nr' q' w' secs' (exec b1 ops) = (Ret (Some sn'), b2) →
  sn_task_id sn' = sn_task_id sn →
  Forall (keeps_id (sn_task_id sn)) ops' →
  let b3 := exec b2 ops' in
  let id := sn_task_id sn in
  let tok := sn_fencing_token sn in
  tok < sn_fencing_token sn' ∧
  complete id w tok b3 = (Raise (StaleFencingTokenError id), b3) ∧
  fail id w tok err b3 = (Raise (StaleFencingTokenError id), b3) ∧
  raises (mark_running id w tok b3).1 ∧ (mark_running id w tok b3).2 = b3.
Proof.
  intros Hwf E1 Hops E2 Hid Hops' b3 id tok.
  assert (backend_wf b1) as Hwf1.
  { pose proof (respects_wf_lease now nr q w secs b Hwf) as H. by rewrite E1 in H. }
  pose proof (exec_wf _ ops Hwf1) as Hwf1'.
  assert (backend_wf b2) as Hwf2.
  { pose proof (respects_wf_lease now' nr' q' w' secs' _ Hwf1') as H. by rewrite E2 in H. }
  destruct (lease_holds _ _ _ _ _ _ _ _ Hwf E1) as (t1&Ht1&Htok1&_&_&_).
  destruct (exec_task_step id b1 ops Hwf1 Hops t1 Ht1) as (t2&Ht2&_&Hle&_).
  destruct (lease_holds _ _ _ _ _ _ _ _ Hwf1' E2) as (t3&Ht3&Htok3&_&_&Hnew).
  rewrite Hid in Ht3, Hnew. specialize (Hnew t2 Ht2).
  destruct (exec_task_step id b2 ops' Hwf2 Hops' t3 Ht3) as (t4&Ht4&_&Hle'&_&_).
  pose proof (exec_wf _ ops' Hwf2) as [_ Hall].
  destruct (Hall _ _ (dict_get_elem _ _ _ Ht4)) as (Hid4&_&_).
  split; [lia|]. rewrite <-Hid4. rewrite Hid4 at 1 3 5 6.
  apply stale_calls_raise; [done|]. lia.
Qed.

(** The calls among [ops] that satisfy [p] and return, in execution order. *)
Fixpoint successes (p : op → bool) (b : InMemoryTaskBackend) (ops : list op) : Z :=
  match ops with
  | [] => 0
  | o :: ops' =>
      match run_op o b with
      | (Ret _, b') => (if p o then 1 else 0) + successes p b' ops'
      | (Raise _, b') => successes p b' ops'
      end
  end.

Definition is_complete (id : Z) (o : op) : bool :=
  match o with OpComplete id' _ _ => id =? id' | _ => false end.
Definition is_fail (id : Z) (o : op) : bool :=
  match o with OpFail id' _ _ _ => id =? id' | _ => false end.

Lemma successes_nonneg p b ops : 0 ≤ successes p b ops.
Proof.
  revert b. induction ops as [|o ops IH]; intros b; simpl; [done|].
  destruct (run_op o b) as [[|] b']; [|done]. specialize (IH b'). destruct (p o); lia.
Qed.

(** A bound on successful calls from a measure of the task that every call
    keeps and every counted call decreases. *)
Lemma successes_bound (p : op → bool) id (m : InMemoryTask → Z) :
  (∀ t t', task_step t t' → m t' ≤ m t) →
  (∀ t, 0 ≤ m t) →
  (∀ o b t, backend_wf b → dict_get id (tasks b) = Some t → p o = true →
     returns (run_op o b).1 →
     ∃ t', dict_get id (tasks (run_op o b).2) = Some t' ∧ m t' + 1 ≤ m t) →
  ∀ ops b t, backend_wf b → Forall (keeps_id id) ops → dict_get id (tasks b) = Some t →
  successes p b ops ≤ m t.
Proof.
  intros Hmono Hpos Hdec ops. induction ops as [|o ops IH]; intros b t Hwf Hops Ht; simpl.
  { apply Hpos. }
  apply Forall_cons in Hops as [Ho Hops].
  pose proof (respects_wf_op o b Hwf) as Hwf'.
  destruct (run_op_task_step id o b Hwf Ho t Ht) as (t'&Ht'&Hst).
  specialize (Hdec o b t Hwf Ht). destruct (run_op o b) as [[[]|e] b'] eqn:E; simpl in *.
  - destruct (p o) eqn:Ep.
    + destruct Hdec as (t''&Ht''&Hm); [done|by eexists|]. specialize (IH b' t'' Hwf' Hops Ht''). lia.
    + specialize (IH b' t' Hwf' Hops Ht'). specialize (Hmono _ _ Hst). lia.
  - specialize (IH b' t' Hwf' Hops Ht'). specialize (Hmono _ _ Hst). lia.
Qed.

Lemma complete_spec id w tok b :
  complete id w tok b =
  match dict_get id (tasks b) with
  | None => (Raise (KeyError (pretty id)), b)
  | Some t =>
      if fencing_token t =? tok then
        if bool_decide (worker_id t = Some w) then
          if bool_decide (status t = "running")
          then (Ret tt, b <| tasks := dict_set id (t <| status := "succeeded" |>) (tasks b) |>)
          else (Raise (InvalidStateTransitionError "task" (status t) "succeeded"), b)
        else (Raise (TaskLeaseError (task_id t) w), b)
      else (Raise (StaleFencingTokenError (task_id t)), b)
  end.
Proof.
  unfold complete, assert_can_complete, mbind, M_bind. rewrite !on_task_run.
  destruct (dict_get id (tasks b)) as [t|] eqn:E; simpl; [|done].
  rewrite dict_set_id by done.
  replace (mkBackend (tasks b) (dead_letters b) (next_id b)) with b by by destruct b.
  rewrite on_task_run, E. unfold _assert_fencing_token, _assert_owner. m_unfold. simpl.
  destruct (fencing_token t =? tok); simpl.
  2:{ rewrite dict_set_id by done. by destruct b. }
  destruct (bool_decide (worker_id t = Some w)); simpl;
    rewrite dict_set_id by done;
    (replace (mkBackend (tasks b) (dead_letters b) (next_id b)) with b by by destruct b); [|done].
  rewrite on_task_run, E. unfold _transition, set_status, assert_task_transition, assert_transition.
  m_unfold. simpl. rewrite allowed_task_succeeded.
  destruct (bool_decide (status t = "running")); simpl; [done|].
  rewrite dict_set_id by done. by destruct b.
Qed.

Lemma fail_spec id w tok err b :
  fail id w tok err b =
  match dict_get id (tasks b) with
  | None => (Raise (KeyError (pretty id)), b)
  | Some t =>
      match fail_task w tok err t with
      | (Ret true, t') => (Ret tt, b <| tasks := dict_set id t' (tasks b) |>
                             <| dead_letters := dead_letters b ++ [(id, err)] |>)
      | (Ret false, t') => (Ret tt, b <| tasks := dict_set id t' (tasks b) |>)
      | (Raise e, t') => (Raise e, b <| tasks := dict_set id t' (tasks b) |>)
      end
  end.
Proof.
  unfold fail, mbind, M_bind. rewrite on_task_run.
  destruct (dict_get id (tasks b)) as [t|]; [|done].
  by destruct (fail_task w tok err t) as [[[]|] t'].
Qed.

Definition is_terminal (t : InMemoryTask) : bool := terminal TASK_TRANSITIONS (status t).

Lemma task_step_terminal t t' : task_step t t' → is_terminal t = true → status t' = status t.
Proof. intros (Hev&_) Ht. by eapply terminal_absorbing. Qed.

(** A finished task stays finished: once its status is "succeeded",
    "dead_letter" or "cancelled", no sequence of calls changes that status or
    drops the task. *)
Theorem finished_task_final b id t ops :
  backend_wf b → Forall (keeps_id id) ops → dict_get id (tasks b) = Some t →
  status t ∈ ["succeeded"; "dead_letter"; "cancelled"] →
  ∃ t', dict_get id (tasks (exec b ops)) = Some t' ∧ status t' = status t.
Proof.
  intros Hwf Hops Ht Hterm. destruct (exec_task_step id b ops Hwf Hops t Ht) as (t'&Ht'&Hst).
  exists t'. split; [done|]. apply task_step_terminal; [done|]. unfold is_terminal.
  set_unfold in Hterm. by destruct Hterm as [-> | [-> | [-> | []]]].
Qed.

(** A task is completed at most once: over any sequence of calls at most
    one [complete] on it returns. *)
Theorem complete_at_most_once b id t ops :
  backend_wf b → Forall (keeps_id id) ops → dict_get id (tasks b) = Some t →
  successes (is_complete id) b ops ≤ 1.
Proof.
  intros Hwf Hops Ht. set (m := λ t, if bool_decide (status t = "succeeded") then 0 else 1).
  etrans; [eapply (successes_bound _ id m); try done|].
  - intros t1 t2 Hst. unfold m.
    destruct (bool_decide_reflect (status t1 = "succeeded")) as [H1|H1]; [|by case_bool_decide].
    rewrite bool_decide_eq_true_2; [done|].
    rewrite (task_step_terminal _ _ Hst); [done|]. unfold is_terminal. by rewrite H1.
  - intros t1. unfold m. by case_bool_decide.
  - intros o b0 t0 _ Ht0 Hp [u Hret]. destruct o; try done. simpl in *.
    apply Z.eqb_eq in Hp as <-. rewrite complete_spec, Ht0 in *.
    destruct (fencing_token t0 =? token); [|done].
    case_bool_decide; [|done]. case_bool_decide as Hs; [|done]. simpl.
    rewrite dict_get_set_eq. eexists. split; [done|]. unfold m. simpl. by rewrite Hs.
  - unfold m. by case_bool_decide.
Qed.

(** C12: Retries are bounded: over any sequence of calls, the number of [fail]
    calls on a task that return is at most the attempts it had left, and at
    most one when it had none left. *)
Theorem fail_bounded_by_attempts b id t ops :
  backend_wf b → Forall (keeps_id id) ops → dict_get id (tasks b) = Some t →
  successes (is_fail id) b ops ≤ Z.max 1 (max_attempts t - attempt t).
Proof.
  intros Hwf Hops Ht.
  set (m := λ t, if is_terminal t then 0 else Z.max 1 (max_attempts t - attempt t)).
  etrans; [eapply (successes_bound _ id m); try done|].
  - intros t1 t2 Hst. unfold m. destruct (is_terminal t1) eqn:E1.
    + assert (is_terminal t2 = true) as ->; [|done].
      unfold is_terminal. by rewrite (task_step_terminal _ _ Hst).
    + destruct Hst as (_&_&?&_&_&->&_). destruct (is_terminal t2); lia.
  - intros t1. unfold m. destruct (is_terminal t1); lia.
  - intros o b0 t0 _ Ht0 Hp [u Hret]. destruct o; try done. simpl in *.
    apply Z.eqb_eq in Hp as <-. rewrite fail_spec, Ht0, fail_task_spec in *.
    destruct (fencing_token t0 =? token); [|done]. case_bool_decide; [|done].
    destruct (_ || _) eqn:Es; [|done].
    assert (is_terminal t0 = false) as Hnt.
    { unfold is_terminal. apply orb_true_iff in Es. rewrite !bool_decide_eq_true in Es.
      by destruct Es as [-> | ->]. }
    destruct (max_attempts t0 <=? attempt t0 + 1) eqn:Em; simpl; rewrite dict_get_set_eq;
      (eexists; split; [done|]); unfold m; rewrite Hnt; unfold is_terminal; cbn [status max_attempts attempt].
    + change (terminal TASK_TRANSITIONS "dead_letter") with true. cbv iota. lia.
    + change (terminal TASK_TRANSITIONS "queued") with false. cbv iota. lia.
  - unfold m. case_match; lia.
Qed.

(** [fail] on every branch. It raises and changes nothing for an unknown
    task, a stale token, a foreign worker or a task that is not leased or
    running. Otherwise it returns and does what [will_retry] announced: while an
    attempt is left the task is queued again without owner and with one more
    attempt counted, else it is dead-lettered and recorded once in [dead_letters]. Other tasks are untouched. *)
Theorem fail_correct id w tok err b :
  match dict_get id (tasks b) with
  | None => fail id w tok err b = (Raise (KeyError (pretty id)), b)
  | Some t =>
      if negb (fencing_token t =? tok)
      then fail id w tok err b = (Raise (StaleFencingTokenError (task_id t)), b)
      else if negb (bool_decide (worker_id t = Some w))
      then fail id w tok err b = (Raise (TaskLeaseError (task_id t) w), b)
      else if negb (bool_decide (status t = "leased") || bool_decide (status t = "running"))
      then fail id w tok err b = (Raise (InvalidStateTransitionError "task" (status t) "failed"), b)
      else ∃ b', fail id w tok err b = (Ret tt, b') ∧
        (∀ id', id' ≠ id → dict_get id' (tasks b') = dict_get id' (tasks b)) ∧
        (will_retry id b).1 = Ret (attempt t + 1 <? max_attempts t) ∧
        if attempt t + 1 <? max_attempts t then
          dict_get id (tasks b') = Some (t <| status := "queued" |> <| error := Some err |>
            <| attempt := attempt t + 1 |> <| worker_id := None |> <| leased_until := None |>) ∧
          dead_letters b' = dead_letters b
        else
          dict_get id (tasks b') = Some (t <| status := "dead_letter" |> <| error := Some err |>) ∧
          dead_letters b' = dead_letters b ++ [(id, err)]
  end.
Proof.
  unfold will_retry. rewrite fail_spec, on_task_run.
  destruct (dict_get id (tasks b)) as [t|] eqn:E; [|done]. rewrite fail_task_spec.
  assert (b <| tasks := dict_set id t (tasks b) |> = b) as Hb.
  { rewrite dict_set_id by done. by destruct b. }
  destruct (fencing_token t =? tok); cbn [negb]; [|by rewrite Hb].
  destruct (bool_decide (worker_id t = Some w)); cbn [negb]; [|by rewrite Hb].
  destruct (_ || _); cbn [negb]; [|by rewrite Hb].
  m_unfold. simpl. replace (attempt t + 1 <? max_attempts t) with (negb (max_attempts t <=? attempt t + 1)) by lia.
  destruct (max_attempts t <=? attempt t + 1); simpl; eexists; (split; [done|]); simpl.
  all: split; [intros id' Hne; by rewrite dict_get_set_ne|].
  all: split; [done|]. all: by rewrite dict_get_set_eq.
Qed.

(** A lease whose deadline has passed. *)
Definition expired (now : Z) (t : InMemoryTask) : bool :=
  holds_lease t && match leased_until t with Some u => u <? now | None => false end.

Definition overdue (now : Z) (t : InMemoryTask) : Prop :=
  (status t = "leased" ∨ status t = "running") ∧ ∃ u, leased_until t = Some u ∧ u < now.

Lemma expired_overdue now t : expired now t = true ↔ overdue now t.
Proof.
  unfold expired, overdue, holds_lease. rewrite !andb_true_iff, orb_true_iff, !bool_decide_eq_true.
  destruct (leased_until t) as [u|].
  - split; [intros [[? _] ?]; split; [done|]; exists u; split; [done|blia]|].
    intros [? (?&[= <-]&?)]. split; [by split; [|eexists]|blia].
  - split; [by intros [_ ?]|by intros [_ (?&?&_)]].
Qed.

Lemma reaped_not_expired now t : expired now (reaped now t) = false.
Proof.
  unfold reaped. destruct (holds_lease t && _) eqn:E; [|exact E]. done.
Qed.

Lemma filter_keys {A} (p : Z → bool) (q : Z * A → bool) (l : list (Z * A)) :
  List.filter p (List.filter q l).*1 = (List.filter (λ x, q x && p x.1) l).*1.
Proof.
  induction l as [|[k v] l IH]; simpl; [done|]. destruct (q (k, v)); simpl; [|done].
  destruct (p k); simpl; [f_equal|]; exact IH.
Qed.

Lemma reap_spec now nh r :
  backend_wf (lr_backend r) →
  let b' := (lr_backend r) <| tasks := dict_map_values (reaped now) (tasks (lr_backend r)) |> in
  let ids := dict_keys (List.filter (λ p, expired now p.2) (tasks (lr_backend r))) in
  ∃ r', reap now nh r = (Ret ids, r') ∧ lr_backend r' = b' ∧
    rh_reaped_count (lr_heartbeat r') = Z.of_nat (length ids).
Proof.
  intros [Hnd Hall]. unfold reap. m_unfold. simpl. rewrite reap_run. simpl.
  match goal with |- ∃ r', (Ret ?l, ?s) = _ ∧ _ => assert (l = dict_keys
    (List.filter (λ p, expired now p.2) (tasks (lr_backend r)))) as Hids; [|rewrite Hids; by eexists] end.
  unfold dict_keys at 1. rewrite filter_keys. unfold dict_keys. f_equal.
  apply filter_ext_in. intros [id t] Hin%list_elem_of_In. simpl.
  rewrite dict_get_map_values, (dict_elem_get id t) by done. simpl. unfold expired, reaped.
  destruct (holds_lease t) eqn:Eh; simpl; [|done].
  destruct (match leased_until t with Some u => u <? now | None => false end); [done|].
  unfold holds_lease in Eh. status_cases.
  match goal with H : _ ∨ _ |- _ => rewrite !bool_decide_eq_true in H; destruct H as [-> | ->]; done end.
Qed.

Lemma reaped_cases now t :
  reaped now t = if expired now t
                 then t <| status := "queued" |> <| worker_id := None |> <| leased_until := None |>
                 else t.
Proof. done. Qed.

(** [LeaseReaper.reap] on a well-formed backend returns the identifiers of
    exactly the tasks whose lease deadline had passed, counts them in its
    heartbeat, requeues each of them without owner, leaves every other task as
    it was, and no lease of the resulting backend is overdue. *)
Theorem reap_reports_expired now nh r :
  backend_wf (lr_backend r) →
  match reap now nh r with
  | (Ret ids, r') =>
      NoDup ids ∧
      rh_reaped_count (lr_heartbeat r') = Z.of_nat (length ids) ∧
      (∀ id t, dict_get id (tasks (lr_backend r)) = Some t →
         (id ∈ ids ↔ overdue now t) ∧
         (overdue now t → dict_get id (tasks (lr_backend r')) =
            Some (t <| status := "queued" |> <| worker_id := None |> <| leased_until := None |>)) ∧
         (¬ overdue now t → dict_get id (tasks (lr_backend r')) = Some t)) ∧
      (∀ id t, dict_get id (tasks (lr_backend r')) = Some t → ¬ overdue now t)
  | (Raise _, _) => False
  end.
Proof.
  intros Hwf. destruct (reap_spec now nh r Hwf) as (r'&->&Hb&Hc). destruct Hwf as [Hnd Hall].
  rewrite Hb. simpl. split_and!; [by apply dict_lfilter_nodup|done|intros id t Ht|intros id t].
  - rewrite dict_get_map_values, Ht, <-expired_overdue. cbn [fmap option_fmap option_map].
    rewrite reaped_cases. split_and!.
    + unfold dict_keys. rewrite list_elem_of_fmap. split.
      * intros ([id' u]&->&[Hu He]%list_elem_of_In%filter_In).
        apply list_elem_of_In, (dict_elem_get _ _ _ Hnd) in Hu. by simplify_eq/=.
      * intros He. exists (id, t). split; [done|]. apply list_elem_of_In, filter_In.
        split; [|done]. by apply list_elem_of_In, dict_get_elem.
    + by intros ->.
    + intros He. by destruct (expired now t).
  - rewrite dict_get_map_values, <-expired_overdue. destruct (dict_get id _) as [u|]; simpl; [|done].
    intros [= <-]. by rewrite reaped_not_expired.
Qed.

(** * Witnesses: one task, leased by a worker that loses its lease *)

Definition demo_request : TaskRequest :=
  mkTaskRequest None 1 1 1 None None None None None None None [] None None [].
Definition demo_backend : InMemoryTaskBackend :=
  Eval vm_compute in exec init_backend [OpEnqueue 0 demo_request].
Definition demo_leased : InMemoryTaskBackend :=
  Eval vm_compute in (lease 0 0 "default" "w1" 30 demo_backend).2.
Definition demo_released : InMemoryTaskBackend :=
  Eval vm_compute in (lease (seconds 60) (seconds 60) "default" "w2" 30 demo_leased).2.
Definition demo_snapshot (b : InMemoryTaskBackend) : Snapshot :=
  Eval vm_compute in match dict_get 1 (tasks b) with Some t => snapshot t | None =>
    snapshot (mkInMemoryTask 0 demo_request 0 "" 0 "" 0 0 None None None None 0 None 0) end.

Lemma demo_wf ops : backend_wf (exec demo_backend ops).
Proof.
  apply exec_wf. change demo_backend with (exec init_backend [OpEnqueue 0 demo_request]).
  apply exec_wf, init_backend_wf.
Qed.

Lemma lease_correct_witness :
  ∃ id t l1 l2, tasks demo_backend = l1 ++ (id, t) :: l2 ∧ due "default" 0 t
    ∧ (lease 0 0 "default" "w1" 30 demo_backend).1 = Ret (Some (snapshot (leased 0 "w1" 30 t))).
Proof.
  destruct (lease_correct 0 0 "default" "w1" 30 demo_backend (demo_wf []))
    as (id&t&l1&l2&H&Hd&_&_&Hsn&_).
  exists id, t, l1, l2. split_and!; [exact H|exact Hd|]. rewrite <-Hsn. reflexivity.
Defined.

Lemma stale_lease_fenced_witness :
  complete 1 "w1" 1 demo_released = (Raise (StaleFencingTokenError 1), demo_released).
Proof.
  destruct (stale_lease_fenced demo_backend 0 0 "default" "w1" 30 (demo_snapshot demo_leased)
    demo_leased [] (seconds 60) (seconds 60) "default" "w2" 30 (demo_snapshot demo_released)
    demo_released [] []) as (_&H&_).
  - exact (demo_wf []).
  - vm_compute. reflexivity.
  - constructor.
  - vm_compute. reflexivity.
  - vm_compute. reflexivity.
  - constructor.
  - exact H.
Defined.

Lemma finished_task_final_witness :
  ∃ t', dict_get 1 (tasks (exec (exec demo_backend [OpCancel 1]) [OpReap 5])) = Some t'
    ∧ status t' = "cancelled".
Proof.
  apply (finished_task_final (exec demo_backend [OpCancel 1]) 1 _ [OpReap 5] (demo_wf [OpCancel 1])
    ltac:(repeat constructor) eq_refl ltac:(vm_compute; set_solver)).
Defined.

Definition demo_run : list op :=
  [OpLease 0 0 "default" "w1" 30; OpMarkRunning 1 "w1" 1; OpComplete 1 "w1" 1; OpComplete 1 "w1" 1].

Lemma complete_at_most_once_witness :
  successes (is_complete 1) demo_backend demo_run ≤ 1 ∧
  successes (is_complete 1) demo_backend demo_run = 1.
Proof.
  split; [|reflexivity].
  apply (complete_at_most_once demo_backend 1 _ demo_run (demo_wf [])
    ltac:(repeat constructor) eq_refl).
Defined.

Definition demo_fails : list op :=
  [OpLease 0 0 "default" "w1" 30; OpFail 1 "w1" 1 []; OpLease 0 0 "default" "w1" 30;
   OpFail 1 "w1" 2 []; OpLease 0 0 "default" "w1" 30; OpFail 1 "w1" 3 []; OpFail 1 "w1" 3 []].

Lemma fail_bounded_by_attempts_witness :
  successes (is_fail 1) demo_backend demo_fails ≤ 3 ∧
  successes (is_fail 1) demo_backend demo_fails = 3.
Proof.
  split; [|reflexivity].
  apply (fail_bounded_by_attempts demo_backend 1 _ demo_fails (demo_wf [])
    ltac:(repeat constructor) eq_refl).
Defined.

Lemma reap_reports_expired_witness :
  ∃ ids r', reap (seconds 60) 0 (new_lease_reaper 0 demo_leased "lease_reaper") = (Ret ids, r') ∧ 1 ∈ ids.
Proof.
  pose proof (reap_reports_expired (seconds 60) 0 (new_lease_reaper 0 demo_leased "lease_reaper")
    (demo_wf [OpLease 0 0 "default" "w1" 30])) as H.
  destruct (reap _ _ _) as [[ids|e] r'] eqn:E; [|destruct H].
  exists ids, r'. split; [done|]. destruct H as (_&_&H&_). apply (H 1 _ eq_refl).
  split; [by left|]. eexists. by split.
Defined.
