(* ===== verification/Liveness.v ===== *)
(** Work gets done: a worker that keeps leasing from the in-process queue, and reports
    every execution as completed or failed, brings every due task of its queue to an
    end, within a number of rounds that the attempts left determine. *)

From stdpp Require Import gmap.
From S2P Require Import Prelude Values StateMachine InMemory.

(** * Rounds *)


Section worker.
Context (q w : string) (lease_seconds : Z).





(** * One round *)









(** No task is lost or moved to another queue. *)
Definition kept_tasks (b b' : InMemoryTaskBackend) : Prop :=
  ∀ id t, dict_get id (tasks b) = Some t → ∃ t', dict_get id (tasks b') = Some t' ∧ queue t' = queue t.

#[local] Instance kept_tasks_preorder : PreOrder kept_tasks.
Proof.
  split; [by intros b id t H; exists t|]. intros b1 b2 b3 H12 H23 id t Ht.
  destruct (H12 _ _ Ht) as (t2&Ht2&<-). by apply H23.
Qed.



(** * All rounds *)


End worker.



