(* ===== verification/SqlBackend.v ===== *)
(** The database-backed task queue of [scheduler/sqlalchemy_backend.py] with the
    quotas of [scheduler/quota.py] and the counters of [scheduler/metrics.py]. *)

From stdpp Require Import relations.
From S2P Require Import Prelude Values Json JsonLoads StateMachine Tables InMemory.

(** * Quotas *)

Record RuntimeQuota := mkQuota {
  tenant_max_running_tasks : option Z;
  project_max_running_tasks : option Z;
  agent_max_running_tasks : option Z;
  deployment_max_running_tasks : option Z
}.

(** [Task.status.in_(["leased", "running"]), Task.is_deleted.is_(False)] *)
Definition active_row (t : Task) : bool :=
  (bool_decide (tk_status t = "leased") || bool_decide (tk_status t = "running"))
  && negb (tk_is_deleted t).

Definition _count_running (tenant : Z) (project : option Z) (d : Db) : Z :=
  count (λ t, (tk_tenant_id t =? tenant) && active_row t &&
      match project with Some p => tk_project_id t =? p | None => true end)
    (dict_values (db_tasks d)).

(** The join [Task.run_id == Run.id] with the given conditions on the run. *)
Definition _count_running_for_run_binding (tenant project : Z) (agent deployment : option Z)
    (d : Db) : Z :=
  count (λ t, (tk_tenant_id t =? tenant) && (tk_project_id t =? project) && active_row t &&
      match dict_get (tk_run_id t) (db_runs d) with
      | Some r =>
          match agent with Some a => rn_agent_id r =? a | None => true end &&
          match deployment with Some p => bool_decide (rn_deployment_id r = Some p) | None => true end
      | None => false
      end)
    (dict_values (db_tasks d)).

(** [if limit is not None and current >= limit: raise QuotaExceededError] *)
Definition within_limit (limit : option Z) (scope : string) (current : Z) : M Db unit :=
  match limit with
  | Some l => check (current <? l) (QuotaExceededError scope l current)
  | None => mret tt
  end.

Definition assert_can_enqueue (q : RuntimeQuota) (tenant project : Z) (agent deployment : option Z)
  : M Db unit :=
  d ← get_state;
  within_limit (tenant_max_running_tasks q) "tenant" (_count_running tenant None d) ;;
  within_limit (project_max_running_tasks q) "project" (_count_running tenant (Some project) d) ;;
  match agent with
  | Some a => within_limit (agent_max_running_tasks q) "agent"
                (_count_running_for_run_binding tenant project (Some a) None d)
  | None => mret tt
  end ;;
  match deployment with
  | Some p => within_limit (deployment_max_running_tasks q) "deployment"
                (_count_running_for_run_binding tenant project None (Some p) d)
  | None => mret tt
  end.

Definition _assert_task_within_quota (q : RuntimeQuota) (t : Task) : M Db unit :=
  assert_can_enqueue q (tk_tenant_id t) (tk_project_id t) None None ;;
  d ← get_state;
  match dict_get (tk_run_id t) (db_runs d) with
  | None => mret tt
  | Some run =>
      within_limit (agent_max_running_tasks q) "agent"
        (_count_running_for_run_binding (tk_tenant_id t) (tk_project_id t) (Some (rn_agent_id run)) None d) ;;
      match rn_deployment_id run with
      | Some p => within_limit (deployment_max_running_tasks q) "deployment"
          (_count_running_for_run_binding (tk_tenant_id t) (tk_project_id t) None (Some p) d)
      | None => mret tt
      end
  end.

Definition assert_can_lease (q : RuntimeQuota) (t : Task) : M Db unit := _assert_task_within_quota q t.

(** * The backend *)

(** [sb_now] is the callable [self._now]: its n-th call returns [sb_now n]. *)
Record SQLAlchemyTaskBackend := mkSqlBackend {
  sb_db : Db;
  sb_now : nat → Z;
  sb_ticks : nat;
  sb_last_quota_error : option exn;
  sb_dead_letters : list (Z * pydict)
}.
#[export] Instance SQLAlchemyTaskBackend_eta : Eta SQLAlchemyTaskBackend := λ b,
  mkSqlBackend (sb_db b) (sb_now b) (sb_ticks b) (sb_last_quota_error b) (sb_dead_letters b).

Definition new_sql_backend (now : nat → Z) (d : Db) : SQLAlchemyTaskBackend :=
  mkSqlBackend d now 0 None [].

Definition in_db {A} (m : M Db A) : M SQLAlchemyTaskBackend A :=
  zoom sb_db (λ d b, b <| sb_db := d |>) m.

Definition _now : M SQLAlchemyTaskBackend Z :=
  b ← get_state;
  modify (λ b, b <| sb_ticks := S (sb_ticks b) |>) ;;
  mret (sb_now b (sb_ticks b)).

(** [session.get(Task, task_id)] *)
Definition _task (id : Z) : M Db Task :=
  d ← get_state; of_option (dict_get id (db_tasks d)) (KeyError (pretty id)).

Definition set_task (id : Z) (f : Task → Task) : M Db unit := on_task_row id (modify f).

Definition _assert_token (t : Task) (token : Z) : M Db unit :=
  check (tk_fencing_token t =? token) (StaleFencingTokenError (tk_id t)).
Definition _assert_row_owner (t : Task) (worker : string) : M Db unit :=
  check (bool_decide (tk_worker_id t = Some worker)) (TaskLeaseError (tk_id t) worker).

(** [if task.status == "leased": ...; task.status = "running"] *)
Definition leased_to_running (id : Z) : M Db unit :=
  t ← _task id;
  if bool_decide (tk_status t = "leased") then
    assert_task_transition (tk_status t) "running" ;;
    set_task id (λ t, t <| tk_status := "running" |>)
  else mret tt.

(** [assert_task_transition(task.status, target); task.status = target] *)
Definition move_task (id : Z) (target : string) : M Db unit :=
  t ← _task id;
  assert_task_transition (tk_status t) target ;;
  set_task id (λ t, t <| tk_status := target |>).

(** ** [enqueue] *)

Definition setdefault (k : string) (v : value) (d : pydict) : pydict :=
  match dict_get k d with Some _ => d | None => dict_set k v d end.

(** [dict(task.get("metadata") or {})] *)
Definition given_metadata (rq : TaskRequest) : option pydict :=
  match dict_get "metadata" (rq_extra rq) with
  | Some v => if truthy v then match v with VDict d => Some d | _ => None end else Some []
  | None => Some []
  end.

Definition _task_metadata (rq : TaskRequest) : option pydict :=
  m ← given_metadata rq;
  let m := setdefault "partition_key"
    (VStr (pretty (rq_tenant_id rq) +:+ ":" +:+ pretty (rq_project_id rq))) m in
  let m := setdefault "resource_class" (default (VStr "default") (dict_get "resource_class" (rq_extra rq))) m in
  let m := match rq_agent_id rq with Some a => setdefault "agent_id" (VInt a) m | None => m end in
  Some (match rq_deployment_id rq with Some p => setdefault "deployment_id" (VInt p) m | None => m end).

Section backend.
Context (py_str : value → string) (ms_of : Z → Z) (quota_policy : option RuntimeQuota).

Definition sql_enqueue (created : Z) (rq : TaskRequest) : M SQLAlchemyTaskBackend Z :=
  match quota_policy with
  | Some q => in_db (assert_can_enqueue q (rq_tenant_id rq) (rq_project_id rq) (rq_agent_id rq)
                       (rq_deployment_id rq))
  | None => mret tt
  end ;;
  metadata ← of_option (_task_metadata rq) (TypeError "metadata");
  in_db (
    d ← get_state;
    let id := db_next_task d in
    let model := mkTask id (rq_run_id rq) (rq_tenant_id rq) (rq_project_id rq) "queued"
      (default 0 (rq_attempt rq)) (default 3 (rq_max_attempts rq)) (default "default" (rq_queue rq))
      (default 0 (rq_priority rq)) (rq_scheduled_at rq) None None None None None 0
      (match dict_get "idempotency_key" (rq_extra rq) with Some (VStr k) => Some k | _ => None end)
      None None metadata created false in
    modify (λ d, d <| db_tasks := dict_set id model (db_tasks d) |>
                   <| db_next_task := db_next_task d + 1 |>) ;;
    mret id).

(** ** The reaper *)

Definition _latest_attempt (task : Z) (d : Db) : option RunAttempt :=
  List.head (stable_sort (λ a b, at_attempt_no b <=? at_attempt_no a)
    (List.filter (λ a, bool_decide (at_task_id a = Some task) && negb (at_is_deleted a))
      (dict_values (db_attempts d)))).

Definition _append_reaper_event (t : Task) (type : string) (payload : pydict) : M Db unit :=
  append_event (tk_run_id t) None (tk_tenant_id t) (tk_project_id t) type payload None "internal" ;;
  mret tt.

Definition _fail_attempt_for_reaper (a : option RunAttempt) (now : Z) : M Db unit :=
  match a with
  | Some a =>
      if bool_decide (at_status a = "running") then
        assert_run_attempt_transition (at_status a) "failed" ;;
        on_attempt_row (at_id a) (modify (λ a,
          let a := a <| at_status := "failed" |> <| at_error := Some "lease_expired" |>
                     <| at_finished_at := Some now |> in
          match at_started_at a with
          | Some s => a <| at_latency_ms := Some (ms_of (now - s)) |>
          | None => a
          end))
      else mret tt
  | None => mret tt
  end.

Definition expired_reason (t : Task) : pydict :=
  [("task_id", VInt (tk_id t)); ("reason", VStr "lease_expired")].

(** The run of a task whose last attempt was lost. *)
Definition fail_run_for_reaper (run : Z) (now : Z) : M Db unit :=
  d ← get_state;
  match dict_get run (db_runs d) with
  | None => mret tt
  | Some r =>
      if bool_decide (rn_status r = "failed") then mret tt
      else
        on_run_row run (
          r ← get_state;
          (if bool_decide (rn_status r = "pending") then
             assert_run_transition (rn_status r) "running" ;;
             modify (λ r, r <| rn_status := "running" |>
                            <| rn_started_at := match rn_started_at r with Some s => Some s | None => Some now end |>)
           else mret tt) ;;
          r ← get_state;
          assert_run_transition (rn_status r) "failed" ;;
          modify (λ r, r <| rn_status := "failed" |> <| rn_error := Some "lease_expired" |>
                         <| rn_finished_at := Some now |>))
  end.

Definition dead_letter_row (now id : Z) (t : Task) : M Db unit :=
  move_task id "dead_letter" ;;
  set_task id (λ t, t <| tk_finished_at := Some now |> <| tk_dead_letter_reason := Some "lease_expired" |>
    <| tk_worker_id := None |> <| tk_leased_until := None |>) ;;
  fail_run_for_reaper (tk_run_id t) now ;;
  _append_reaper_event t "attempt.failed" (expired_reason t) ;;
  _append_reaper_event t "task.dead_letter" (expired_reason t) ;;
  _append_reaper_event t "run.failed" (expired_reason t) ;;
  _append_reaper_event t "stream.failed" (expired_reason t).

Definition requeue_row (id : Z) (t : Task) (latest : option RunAttempt) : M Db unit :=
  move_task id "queued" ;;
  set_task id (λ t, t <| tk_worker_id := None |> <| tk_leased_until := None |>) ;;
  _append_reaper_event t (match latest with Some _ => "task.retrying" | None => "task.lease_expired" end)
    [("task_id", VInt (tk_id t)); ("status", VStr "queued"); ("reason", VStr "lease_expired")].

(** The body of the loop for one expired task. *)
Definition reap_row (now id : Z) : M Db unit :=
  t ← _task id;
  d ← get_state;
  let latest := _latest_attempt id d in
  if bool_decide (tk_status t = "running") then
    _fail_attempt_for_reaper latest now ;;
    if tk_max_attempts t <=? tk_attempt t + 1 then dead_letter_row now id t
    else
      move_task id "retrying" ;;
      set_task id (λ t, t <| tk_attempt := tk_attempt t + 1 |>) ;;
      _append_reaper_event t "attempt.failed" (expired_reason t) ;;
      requeue_row id t latest
  else requeue_row id t latest.

Definition expired_row (now : Z) (t : Task) : bool :=
  active_row t && match tk_leased_until t with Some u => u <? now | None => false end.

Definition sql_reap_expired_leases : M SQLAlchemyTaskBackend Z :=
  now ← _now;
  in_db (
    d ← get_state;
    let expired := List.filter (expired_row now) (dict_values (db_tasks d)) in
    for_each expired (λ t, reap_row now (tk_id t)) ;;
    mret (Z.of_nat (length expired))).

(** ** [lease] *)

Definition due_row (q : string) (now : Z) (t : Task) : bool :=
  bool_decide (tk_queue t = q) && bool_decide (tk_status t = "queued") && negb (tk_is_deleted t)
  && match tk_scheduled_at t with Some at_ => at_ <=? now | None => true end.

Definition _active_partition_count (d : Db) (t : Task) : Z :=
  count (λ u, (tk_tenant_id u =? tk_tenant_id t) && (tk_project_id u =? tk_project_id t) && active_row u)
    (dict_values (db_tasks d)).

(** [ORDER BY priority DESC, created_at ASC] *)
Definition row_leb (a b : Task) : bool :=
  (tk_priority b <? tk_priority a)
  || ((tk_priority a =? tk_priority b) && (tk_created_at a <=? tk_created_at b)).

(** The sort key [(active_partition_count, -priority, created_at)] *)
Definition fair_leb (d : Db) (a b : Task) : bool :=
  let ca := _active_partition_count d a in
  let cb := _active_partition_count d b in
  (ca <? cb) || ((ca =? cb) && row_leb a b).

Definition lease_candidates (q : string) (now : Z) (d : Db) : list Task :=
  stable_sort (fair_leb d)
    (stable_sort row_leb (List.filter (due_row q now) (dict_values (db_tasks d)))).

Definition quota_reason (scope : string) (limit current : Z) : value :=
  VDict [("error_code", VStr "runtime_quota_exceeded"); ("scope", VStr scope);
         ("limit", VInt limit); ("current", VInt current)].

(** The candidate's metadata as it was loaded, with the reason added. *)
Definition _record_quota_block (c : Task) (scope : string) (limit current : Z) : M Db unit :=
  set_task (tk_id c) (λ t,
    t <| tk_metadata_json := dict_set "quota_blocking_reason" (quota_reason scope limit current)
                               (tk_metadata_json c) |>
      <| tk_error := Some ("runtime_quota_exceeded:" +:+ scope) |>).

Definition claimed_row (worker : string) (leased_until now : Z) (t : Task) : Task :=
  t <| tk_status := "leased" |> <| tk_worker_id := Some worker |>
    <| tk_leased_until := Some leased_until |> <| tk_heartbeat_at := Some now |>
    <| tk_fencing_token := tk_fencing_token t + 1 |>.

(** [UPDATE tasks SET ... WHERE id = c.id AND status = 'queued' AND NOT is_deleted]:
    the row claimed, or [None] when no row was updated. *)
Definition _claim_queued_task (c : Task) (worker : string) (leased_until now : Z) : M Db (option Task) :=
  assert_task_transition (tk_status c) "leased" ;;
  d ← get_state;
  match dict_get (tk_id c) (db_tasks d) with
  | Some t =>
      if bool_decide (tk_status t = "queued") && negb (tk_is_deleted t) then
        let t' := claimed_row worker leased_until now t in
        modify (λ d, d <| db_tasks := dict_set (tk_id c) t' (db_tasks d) |>) ;;
        mret (Some t')
      else mret None
  | None => mret None
  end.

(** What other sessions commit while this one goes through its candidates:
    before the quota of a candidate is checked, and before it is claimed. *)
Record Interference := mkInterference {
  at_check : Z → Db → Db;
  at_claim : Z → Db → Db
}.
Definition calm : Interference := mkInterference (λ _ d, d) (λ _ d, d).

Fixpoint try_candidates (env : Interference) (now : Z) (worker : string) (lease_seconds : Z)
    (l : list Task) (last : option exn) : M Db (option Task * option exn) :=
  match l with
  | [] => mret (None, last)
  | c :: l' =>
      modify (at_check env (tk_id c)) ;;
      blocked ← catch (match quota_policy with Some q => assert_can_lease q c | None => mret tt end);
      match blocked with
      | Raise (QuotaExceededError scope limit current) =>
          _record_quota_block c scope limit current ;;
          try_candidates env now worker lease_seconds l' (Some (QuotaExceededError scope limit current))
      | Raise e => raise e
      | Ret _ =>
          modify (at_claim env (tk_id c)) ;;
          claimed ← _claim_queued_task c worker (now + seconds lease_seconds) now;
          match claimed with
          | Some t => mret (Some t, last)
          | None => try_candidates env now worker lease_seconds l' last
          end
      end
  end.

Definition _snapshot (t : Task) : M Db Snapshot :=
  d ← get_state;
  input ← match dict_get (tk_run_id t) (db_runs d) with
          | Some r => _decode_ref (rn_input_ref r)
          | None => mret []
          end;
  let meta k := default VNone (dict_get k (tk_metadata_json t)) in
  mret (mkSnapshot
    (mkTaskRequest (Some (tk_id t)) (tk_run_id t) (tk_tenant_id t) (tk_project_id t) None None
      (Some (tk_queue t)) (Some (tk_priority t)) (Some (tk_attempt t)) (Some (tk_max_attempts t))
      (tk_scheduled_at t) input None None
      [("partition_key", meta "partition_key"); ("resource_class", meta "resource_class");
       ("quota_blocking_reason", meta "quota_blocking_reason")])
    (tk_id t) (tk_run_id t) (tk_queue t) (tk_priority t) (tk_status t) (tk_attempt t)
    (tk_max_attempts t) (tk_worker_id t) (tk_leased_until t) (tk_heartbeat_at t)
    (tk_scheduled_at t) (tk_fencing_token t)).

Definition sql_lease (env : Interference) (q worker : string) (lease_seconds : Z)
  : M SQLAlchemyTaskBackend (option Snapshot) :=
  sql_reap_expired_leases ;;
  now ← _now;
  candidates ← in_db (gets (lease_candidates q now));
  match candidates with
  | [] => mret None
  | _ =>
      '(task, last) ← in_db (try_candidates env now worker lease_seconds candidates None);
      match task with
      | None =>
          modify (λ b, b <| sb_last_quota_error := last |>) ;;
          mret None
      | Some t =>
          modify (λ b, b <| sb_last_quota_error := None |>) ;;
          sn ← in_db (_snapshot t);
          mret (Some sn)
      end
  end.

(** ** The operations on a leased task *)

Definition sql_heartbeat (id : Z) (worker : string) (lease_seconds : Z) : M SQLAlchemyTaskBackend unit :=
  t ← in_db (_task id);
  in_db (_assert_row_owner t worker) ;;
  now ← _now;
  in_db (set_task id (λ t, t <| tk_heartbeat_at := Some now |>
                             <| tk_leased_until := Some (now + seconds lease_seconds) |>)).

Definition sql_assert_can_complete (id : Z) (worker : string) (token : Z) : M SQLAlchemyTaskBackend unit :=
  in_db (t ← _task id; _assert_token t token ;; _assert_row_owner t worker).

Definition sql_complete (id : Z) (worker : string) (token : Z) : M SQLAlchemyTaskBackend unit :=
  in_db (_task id) ;;
  sql_assert_can_complete id worker token ;;
  in_db (leased_to_running id ;; move_task id "succeeded") ;;
  now ← _now;
  in_db (set_task id (λ t, t <| tk_finished_at := Some now |> <| tk_leased_until := None |>)).

Definition sql_fail (id : Z) (worker : string) (token : Z) (err : pydict) : M SQLAlchemyTaskBackend unit :=
  in_db (t ← _task id;
         _assert_token t token ;;
         _assert_row_owner t worker ;;
         leased_to_running id ;;
         move_task id "failed" ;;
         set_task id (λ t, t <| tk_error := Some (_error_message py_str err) |>)) ;;
  now ← _now;
  t ← in_db (_task id);
  if tk_max_attempts t <=? tk_attempt t + 1 then
    in_db (move_task id "dead_letter" ;;
           set_task id (λ t, t <| tk_finished_at := Some now |> <| tk_dead_letter_reason := tk_error t |>
                               <| tk_leased_until := None |>)) ;;
    modify (λ b, b <| sb_dead_letters := sb_dead_letters b ++ [(id, err)] |>)
  else
    in_db (move_task id "retrying" ;;
           set_task id (λ t, t <| tk_attempt := tk_attempt t + 1 |> <| tk_worker_id := None |>
                               <| tk_leased_until := None |>) ;;
           move_task id "queued").

Definition sql_cancel (id : Z) : M SQLAlchemyTaskBackend unit :=
  in_db (_task id ;; leased_to_running id ;; move_task id "cancelled") ;;
  now ← _now;
  in_db (set_task id (λ t, t <| tk_finished_at := Some now |>)).

Definition sql_mark_running (id : Z) (worker : string) (token : Z) : M SQLAlchemyTaskBackend unit :=
  in_db (t ← _task id;
         _assert_row_owner t worker ;;
         _assert_token t token ;;
         move_task id "running") ;;
  t ← in_db (_task id);
  match tk_started_at t with
  | Some _ => mret tt
  | None => now ← _now; in_db (set_task id (λ t, t <| tk_started_at := Some now |>))
  end.

Definition sql_will_retry (id : Z) : M SQLAlchemyTaskBackend bool :=
  t ← in_db (_task id); mret (tk_attempt t + 1 <? tk_max_attempts t).
End backend.

(** * [SQLAlchemySchedulerMetrics] *)

Record QueueMetrics := mkQueueMetrics {
  queue_depth : Z;
  running_task_count : Z;
  lease_expired_count : Z;
  retry_count : Z;
  dead_letter_count : Z;
  worker_heartbeat_age : option Z
}.

Definition _count (q : string) (statuses : list string) (d : Db) : Z :=
  count (λ t, bool_decide (tk_queue t = q) && bool_decide (tk_status t ∈ statuses) && negb (tk_is_deleted t))
    (dict_values (db_tasks d)).

Definition _count_expired (q : string) (now : Z) (d : Db) : Z :=
  count (λ t, bool_decide (tk_queue t = q) && expired_row now t) (dict_values (db_tasks d)).

(** The age of the heartbeat is kept in microseconds. *)
Definition metrics_snapshot (q : string) (now : Z) (heartbeat_at : option Z) (d : Db) : QueueMetrics :=
  mkQueueMetrics (_count q ["queued"] d) (_count q ["leased"; "running"] d) (_count_expired q now d)
    (_count q ["retrying"] d) (_count q ["dead_letter"] d) ((λ h, now - h) <$> heartbeat_at).
