(* ===== verification/SqlProps.v ===== *)
(** Properties of the database-backed task queue: how its operations move the
    rows of [tasks], quotas, fencing and the reaper. *)

From stdpp Require Import relations.
From S2P Require Import Prelude Values Json JsonLoads StateMachine Tables InMemory SqlBackend.

(** * Relations between tables *)

(** The rows stay under their keys, each of them moves along [R], and no key is
    used up. *)
Definition row_wise (R : relation Task) : relation (dict Z Task) :=
  Forall2 (λ p p' : Z * Task, p.1 = p'.1 ∧ R p.2 p'.2).
Definition rows (R : relation Task) : relation Db := λ d d',
  db_next_task d' = db_next_task d ∧ row_wise R (db_tasks d) (db_tasks d').

#[export] Instance row_wise_preorder R `{!PreOrder R} : PreOrder (row_wise R).
Proof.
  split.
  - intros l. apply Forall_Forall2_diag, Forall_true. intros p. by split.
  - intros l1 l2 l3 H1. revert l3. induction H1 as [|p1 p2 l1 l2 [Hk HR] H1 IH]; intros l3 H2;
      inversion H2 as [|? p3 ? l3' [Hk' HR'] H2']; subst; [constructor|].
    constructor; [|by apply IH]. split; [congruence|]. by etrans.
Qed.

#[export] Instance rows_preorder R `{!PreOrder R} : PreOrder (rows R).
Proof.
  split; [intros d; by split|]. intros d1 d2 d3 [H1 K1] [H2 K2]. split; [congruence|by etrans].
Qed.

Lemma rows_mono (R R' : relation Task) d d' : (∀ t t', R t t' → R' t t') → rows R d d' → rows R' d d'.
Proof. intros H [Hn Hr]. split; [done|]. eapply Forall2_impl; [exact Hr|]. intros ?? []. split; auto. Qed.

(** Only the rows of [tasks] matter. *)
Lemma rows_same R `{!PreOrder R} d d' :
  db_tasks d' = db_tasks d → db_next_task d' = db_next_task d → rows R d d'.
Proof. intros H Hn. split; [done|]. by rewrite H. Qed.

Lemma row_wise_set (R : relation Task) `{!PreOrder R} id t t' (l : dict Z Task) :
  dict_get id l = Some t → R t t' → row_wise R l (dict_set id t' l).
Proof.
  induction l as [|[k u] l IH]; simpl; [done|]. case_decide as Hk.
  - intros [= ->] HR. constructor; [by split|]. reflexivity.
  - intros Hg HR. constructor; [by split|]. by apply IH.
Qed.

Lemma rows_update R `{!PreOrder R} id t t' d :
  dict_get id (db_tasks d) = Some t → R t t' → rows R d (d <| db_tasks := dict_set id t' (db_tasks d) |>).
Proof. intros Hg HR. split; [done|]. by eapply row_wise_set. Qed.

Lemma row_wise_get R l l' id t :
  row_wise R l l' → dict_get id l = Some t → ∃ t', dict_get id l' = Some t' ∧ R t t'.
Proof.
  intros H. induction H as [|[k u] [k' u'] l l' [Hk HR] H IH]; simpl in *; [done|]. subst k'.
  case_decide; [intros [= ->]; by eexists|done].
Qed.

Lemma row_wise_keys R l l' : row_wise R l l' → dict_keys l' = dict_keys l.
Proof. intros H. induction H as [|p p' l l' [Hk _] H IH]; [done|]. simpl. f_equal; [done|exact IH]. Qed.

(** ** What the statements do *)

Lemma set_task_run id f d :
  set_task id f d =
  match dict_get id (db_tasks d) with
  | None => (Raise (KeyError (pretty id)), d)
  | Some t => (Ret tt, d <| db_tasks := dict_set id (f t) (db_tasks d) |>)
  end.
Proof.
  unfold set_task, on_task_row, zoom, on_key. destruct (dict_get id (db_tasks d)); simpl; [done|].
  by destruct d.
Qed.

Lemma task_run id d :
  _task id d = (match dict_get id (db_tasks d) with Some t => Ret t | None => Raise (KeyError (pretty id)) end, d).
Proof. unfold _task. m_unfold. by destruct (dict_get id (db_tasks d)). Qed.

Lemma move_task_run id target d :
  move_task id target d =
  match dict_get id (db_tasks d) with
  | None => (Raise (KeyError (pretty id)), d)
  | Some t =>
      if allowed TASK_TRANSITIONS (tk_status t) target
      then (Ret tt, d <| db_tasks := dict_set id (t <| tk_status := target |>) (db_tasks d) |>)
      else (Raise (InvalidStateTransitionError "task" (tk_status t) target), d)
  end.
Proof.
  unfold move_task, assert_task_transition, assert_transition, mbind, M_bind. rewrite task_run.
  destruct (dict_get id (db_tasks d)) as [t|] eqn:E; [|done].
  destruct (allowed _ _ target); simpl; [|done]. by rewrite set_task_run, E.
Qed.

Lemma leased_to_running_run id d :
  leased_to_running id d =
  match dict_get id (db_tasks d) with
  | None => (Raise (KeyError (pretty id)), d)
  | Some t =>
      if bool_decide (tk_status t = "leased")
      then (Ret tt, d <| db_tasks := dict_set id (t <| tk_status := "running" |>) (db_tasks d) |>)
      else (Ret tt, d)
  end.
Proof.
  unfold leased_to_running, assert_task_transition, assert_transition, mbind, M_bind. rewrite task_run.
  destruct (dict_get id (db_tasks d)) as [t|] eqn:E; [|done].
  case_bool_decide as Hs; [|done]. rewrite Hs. change (allowed TASK_TRANSITIONS "leased" "running") with true.
  simpl. by rewrite set_task_run, E.
Qed.

(** ** Statements *)

Section statements.
Context (R : relation Task) `{!PreOrder R}.

Lemma respects_on_task_row {A} id (m : M Task A) :
  respects R m → respects (rows R) (on_task_row id m).
Proof.
  intros Hm d. unfold on_task_row, zoom, on_key.
  destruct (dict_get id (db_tasks d)) as [t|] eqn:E; simpl.
  - specialize (Hm t). destruct (m t) as [r t']. simpl in *. by eapply rows_update.
  - by apply rows_same.
Qed.

Lemma respects_set_task id f : (∀ t, R t (f t)) → respects (rows R) (set_task id f).
Proof. intros H. apply respects_on_task_row. intros t. apply H. Qed.

Lemma respects_on_run_row {A} id (m : M Run A) : respects (rows R) (on_run_row id m).
Proof.
  intros d. apply rows_same; [done|..]; unfold on_run_row, zoom; by destruct (on_key id (KeyError (pretty id)) m (db_runs d)).
Qed.

Lemma respects_on_attempt_row {A} id (m : M RunAttempt A) : respects (rows R) (on_attempt_row id m).
Proof.
  intros d. apply rows_same; [done|..]; unfold on_attempt_row, zoom; by destruct (on_key id (KeyError (pretty id)) m (db_attempts d)).
Qed.

Lemma respects_append_event a b c e f g h i : respects (rows R) (append_event a b c e f g h i).
Proof. intros d. by apply rows_same. Qed.

Lemma respects_task id : respects (rows R) (_task id).
Proof. intros d. by rewrite task_run. Qed.

(** A guarded change of status moves only rows the guard lets through. *)
Lemma respects_move_task id target :
  (∀ t, allowed TASK_TRANSITIONS (tk_status t) target = true → R t (t <| tk_status := target |>)) →
  respects (rows R) (move_task id target).
Proof.
  intros H d. rewrite move_task_run. destruct (dict_get id (db_tasks d)) as [t|] eqn:E; [|reflexivity].
  destruct (allowed _ _ target) eqn:Ea; [|reflexivity]. simpl. eapply rows_update; [done|done|]. by apply H.
Qed.

Lemma respects_leased_to_running id :
  (∀ t, tk_status t = "leased" → R t (t <| tk_status := "running" |>)) →
  respects (rows R) (leased_to_running id).
Proof.
  intros H d. rewrite leased_to_running_run. destruct (dict_get id (db_tasks d)) as [t|] eqn:E; [|reflexivity].
  case_bool_decide; [|reflexivity]. simpl. eapply rows_update; [done|done|]. by apply H.
Qed.
End statements.

#[export] Hint Resolve respects_on_run_row respects_on_attempt_row respects_append_event
  respects_task respects_set_task respects_move_task respects_leased_to_running : respects.

(** * How operations move a row *)

Definition same_identity (t t' : Task) : Prop :=
  tk_id t' = tk_id t ∧ tk_run_id t' = tk_run_id t ∧ tk_tenant_id t' = tk_tenant_id t ∧
  tk_project_id t' = tk_project_id t ∧ tk_queue t' = tk_queue t ∧
  tk_max_attempts t' = tk_max_attempts t ∧ tk_is_deleted t' = tk_is_deleted t.

(** Any operation: the status moves along the table, tokens and attempts only
    grow. *)
Definition row_step (t t' : Task) : Prop :=
  same_identity t t' ∧ evolves TASK_TRANSITIONS (tk_status t) (tk_status t') ∧
  tk_fencing_token t ≤ tk_fencing_token t' ∧ tk_attempt t ≤ tk_attempt t'.

(** An operation other than a claim: the token stays, and no task becomes
    active. *)
Definition quiet_step (t t' : Task) : Prop :=
  same_identity t t' ∧ evolves TASK_TRANSITIONS (tk_status t) (tk_status t') ∧
  tk_fencing_token t' = tk_fencing_token t ∧ tk_attempt t ≤ tk_attempt t' ∧
  (active_row t' = true → active_row t = true).

#[export] Instance row_step_preorder : PreOrder row_step.
Proof.
  split; [intros t; split_and!; done|]. intros t1 t2 t3 (H1&H2&H3&H4) (K1&K2&K3&K4).
  split_and!; [unfold same_identity in *; intuition congruence|by etrans|lia|lia].
Qed.

#[export] Instance quiet_step_preorder : PreOrder quiet_step.
Proof.
  split; [intros t; split_and!; done|]. intros t1 t2 t3 (H1&H2&H3&H4&H5) (K1&K2&K3&K4&K5).
  split_and!; [unfold same_identity in *; intuition congruence|by etrans|lia|lia|auto].
Qed.

Lemma quiet_row t t' : quiet_step t t' → row_step t t'.
Proof. intros (H1&H2&H3&H4&_). split_and!; [done|done|lia|done]. Qed.

(** A change of columns other than the status, the token and the identity. *)
Lemma quiet_columns t t' :
  same_identity t t' → tk_status t' = tk_status t → tk_fencing_token t' = tk_fencing_token t →
  tk_attempt t ≤ tk_attempt t' → quiet_step t t'.
Proof.
  intros Hid Hs Ht Ha. split_and!; [done|by rewrite Hs|done|done|].
  unfold active_row. destruct Hid as (_&_&_&_&_&_&->). by rewrite Hs.
Qed.

Lemma quiet_move target t :
  target ≠ "leased" → allowed TASK_TRANSITIONS (tk_status t) target = true →
  quiet_step t (t <| tk_status := target |>).
Proof.
  intros Hne Ha. split_and!; [done|by apply evolves_edge|done|done|].
  unfold active_row. simpl. rewrite (bool_decide_false (target = "leased")) by done. simpl.
  intros [H%bool_decide_eq_true Hd]%andb_true_iff. subst. rewrite Hd, andb_true_r.
  rewrite allowed_task_running in Ha. apply bool_decide_eq_true in Ha. by rewrite Ha.
Qed.

Ltac quiet := intros; apply quiet_columns; [by split_and!|done|done|simpl; lia].
Ltac quiet_tac :=
  repeat first
    [ solve [auto with respects typeclass_instances]
    | apply respects_set_task; [apply _|quiet]
    | apply respects_move_task; [apply _|intros; by apply quiet_move]
    | apply respects_leased_to_running; [apply _|intros ? Hs; apply quiet_move; [done|by rewrite Hs]]
    | apply respects_bind; [apply _| |intros ?]
    | apply respects_if | apply respects_match_option; [intros ?|] ].

Lemma quiet_reaper_event t ty p : respects (rows quiet_step) (_append_reaper_event t ty p).
Proof. unfold _append_reaper_event. quiet_tac. Qed.

Lemma quiet_fail_attempt ms_of a now : respects (rows quiet_step) (_fail_attempt_for_reaper ms_of a now).
Proof. unfold _fail_attempt_for_reaper. quiet_tac. Qed.

Lemma quiet_fail_run run now : respects (rows quiet_step) (fail_run_for_reaper run now).
Proof. unfold fail_run_for_reaper. quiet_tac. Qed.
#[export] Hint Resolve quiet_reaper_event quiet_fail_attempt quiet_fail_run : respects.

Lemma quiet_reap_row ms_of now id : respects (rows quiet_step) (reap_row ms_of now id).
Proof. unfold reap_row, dead_letter_row, requeue_row. quiet_tac. Qed.

Lemma quiet_quota_block c scope limit current :
  respects (rows quiet_step) (_record_quota_block c scope limit current).
Proof. unfold _record_quota_block. quiet_tac. Qed.
#[export] Hint Resolve quiet_reap_row quiet_quota_block : respects.

(** ** The backend's own state *)

Definition rows_b (R : relation Task) : relation SQLAlchemyTaskBackend := λ b b', rows R (sb_db b) (sb_db b').

#[export] Instance rows_b_preorder R `{!PreOrder R} : PreOrder (rows_b R).
Proof. unfold rows_b. split; [intros b; reflexivity|intros ???; apply transitivity]. Qed.

Lemma respects_in_db R {A} (m : M Db A) : respects (rows R) m → respects (rows_b R) (in_db m).
Proof.
  intros Hm b. specialize (Hm (sb_db b)). unfold rows_b, in_db, zoom. by destruct (m (sb_db b)).
Qed.

Lemma respects_now R `{!PreOrder R} : respects (rows_b R) _now.
Proof. intros b. unfold rows_b. reflexivity. Qed.

Lemma respects_own R `{!PreOrder R} f :
  (∀ b, sb_db (f b) = sb_db b) → respects (rows_b R) (modify f).
Proof. intros H b. unfold rows_b. simpl. rewrite H. reflexivity. Qed.
#[export] Hint Resolve respects_now : respects.

Ltac quiet_b :=
  repeat first
    [ solve [auto with respects typeclass_instances]
    | apply respects_in_db; solve [quiet_tac]
    | apply respects_own; [apply _|done]
    | apply respects_bind; [apply _| |intros ?]
    | apply respects_if | apply respects_match_option; [intros ?|] ].

Section quiet_operations.
Context (py_str : value → string) (ms_of : Z → Z).

Lemma quiet_reap : respects (rows_b quiet_step) (sql_reap_expired_leases ms_of).
Proof.
  unfold sql_reap_expired_leases. quiet_b.
Qed.
Lemma quiet_heartbeat id w secs : respects (rows_b quiet_step) (sql_heartbeat id w secs).
Proof. unfold sql_heartbeat, _assert_row_owner. quiet_b. Qed.
Lemma quiet_can_complete id w tok : respects (rows_b quiet_step) (sql_assert_can_complete id w tok).
Proof. unfold sql_assert_can_complete, _assert_token, _assert_row_owner. quiet_b. Qed.
Hint Resolve quiet_can_complete : respects.
Lemma quiet_complete id w tok : respects (rows_b quiet_step) (sql_complete id w tok).
Proof. unfold sql_complete. quiet_b. Qed.
Lemma quiet_fail id w tok err : respects (rows_b quiet_step) (sql_fail py_str id w tok err).
Proof. unfold sql_fail, _assert_token, _assert_row_owner. quiet_b. Qed.
Lemma quiet_cancel id : respects (rows_b quiet_step) (sql_cancel id).
Proof. unfold sql_cancel. quiet_b. Qed.
Lemma quiet_mark_running id w tok : respects (rows_b quiet_step) (sql_mark_running id w tok).
Proof. unfold sql_mark_running, _assert_token, _assert_row_owner. quiet_b. Qed.
End quiet_operations.

(** * Claims *)

Lemma claim_run c w until now d :
  _claim_queued_task c w until now d =
  if bool_decide (tk_status c = "queued") then
    match dict_get (tk_id c) (db_tasks d) with
    | Some t =>
        if bool_decide (tk_status t = "queued") && negb (tk_is_deleted t)
        then (Ret (Some (claimed_row w until now t)),
              d <| db_tasks := dict_set (tk_id c) (claimed_row w until now t) (db_tasks d) |>)
        else (Ret None, d)
    | None => (Ret None, d)
    end
  else (Raise (InvalidStateTransitionError "task" (tk_status c) "leased"), d).
Proof.
  unfold _claim_queued_task, assert_task_transition, assert_transition. m_unfold.
  rewrite allowed_task_leased. case_bool_decide; [|done]. simpl.
  destruct (dict_get (tk_id c) (db_tasks d)) as [t|]; [|done].
  by destruct (bool_decide (tk_status t = "queued") && negb (tk_is_deleted t)).
Qed.

Lemma claimed_step w until now t : tk_status t = "queued" → row_step t (claimed_row w until now t).
Proof.
  intros Hs. split_and!; [done| |simpl; lia|done]. simpl. rewrite Hs. by apply evolves_edge.
Qed.

Lemma respects_claim c w until now : respects (rows row_step) (_claim_queued_task c w until now).
Proof.
  intros d. rewrite claim_run. case_bool_decide; [|reflexivity].
  destruct (dict_get (tk_id c) (db_tasks d)) as [t|] eqn:E; [|reflexivity].
  destruct (bool_decide (tk_status t = "queued") && negb (tk_is_deleted t)) eqn:Eq; [|reflexivity].
  apply andb_true_iff in Eq as [Hq%bool_decide_eq_true _]. simpl.
  eapply rows_update; [apply _|done|]. by apply claimed_step.
Qed.
#[export] Hint Resolve respects_claim : respects.

Lemma quiet_rows_row {A} (m : M Db A) : respects (rows quiet_step) m → respects (rows row_step) m.
Proof. apply respects_weaken. intros d d'. apply rows_mono, quiet_row. Qed.

Lemma quiet_rows_b_row {A} (m : M SQLAlchemyTaskBackend A) :
  respects (rows_b quiet_step) m → respects (rows_b row_step) m.
Proof. apply respects_weaken. intros b b'. apply rows_mono, quiet_row. Qed.

(** Reading does not change the database. *)
Lemma within_limit_same limit scope n d : (within_limit limit scope n d).2 = d.
Proof. unfold within_limit. destruct limit as [l|]; [|done]. m_unfold. by destruct (n <? l). Qed.

Definition unchanged {S} : relation S := λ s s', s' = s.
#[export] Instance unchanged_preorder {S} : PreOrder (@unchanged S).
Proof. unfold unchanged. split; [done|]. intros ??? -> ->. done. Qed.

Lemma respects_within_limit limit scope n : respects unchanged (within_limit limit scope n).
Proof. intros d. apply within_limit_same. Qed.
#[export] Hint Resolve respects_within_limit : respects.

Ltac read_tac :=
  repeat first
    [ solve [auto with respects typeclass_instances]
    | apply respects_bind; [apply _| |intros ?]
    | apply respects_if | apply respects_match_option; [intros ?|] ].

Lemma assert_can_enqueue_reads q tenant project a p : respects unchanged (assert_can_enqueue q tenant project a p).
Proof. unfold assert_can_enqueue. read_tac. Qed.
#[export] Hint Resolve assert_can_enqueue_reads : respects.

Lemma assert_can_lease_reads q c : respects unchanged (assert_can_lease q c).
Proof. unfold assert_can_lease, _assert_task_within_quota. read_tac. Qed.

Lemma decode_ref_reads {S} v : respects (@unchanged S) (_decode_ref v).
Proof.
  unfold _decode_ref. destruct v as [s|]; [|by intros ?]. destruct (strip_prefix "json:" s); read_tac.
Qed.
#[export] Hint Resolve decode_ref_reads : respects.

Lemma snapshot_reads t : respects unchanged (_snapshot t).
Proof. unfold _snapshot. read_tac. Qed.

Lemma reads_rows R `{!PreOrder R} {A} (m : M Db A) : respects unchanged m → respects (rows R) m.
Proof. apply respects_weaken. intros d d' ->. reflexivity. Qed.

(** * Well-formed tables *)

Definition db_wf (d : Db) : Prop :=
  NoDup (dict_keys (db_tasks d)) ∧
  Forall (λ p, tk_id p.2 = p.1 ∧ p.1 < db_next_task d) (db_tasks d).

Lemma rows_wf d d' : rows row_step d d' → db_wf d → db_wf d'.
Proof.
  intros [Hn Hr] [Hnd Hall]. split; [by rewrite (row_wise_keys _ _ _ Hr)|]. rewrite Hn.
  clear Hnd Hn. induction Hr as [|p p' l l' [Hk ((Hid&_)&_)] Hr IH]; [done|].
  apply Forall_cons in Hall as [[H1 H2] Hall]. constructor; [|by apply IH]. rewrite Hid, <-Hk. done.
Qed.

Lemma wf_row d c : db_wf d → c ∈ dict_values (db_tasks d) → dict_get (tk_id c) (db_tasks d) = Some c.
Proof.
  intros [Hnd Hall] ([k u]&->&Hin)%list_elem_of_fmap. rewrite Forall_forall in Hall.
  destruct (Hall _ Hin) as [Hid _]. simpl in *. rewrite Hid. by apply dict_elem_get.
Qed.

Lemma wf_get_id d id t : db_wf d → dict_get id (db_tasks d) = Some t → tk_id t = id.
Proof.
  intros [_ Hall] Ht%dict_get_elem. rewrite Forall_forall in Hall. by apply (Hall _ Ht).
Qed.

Lemma wf_fresh d : db_wf d → dict_get (db_next_task d) (db_tasks d) = None.
Proof.
  intros [_ Hall]. apply dict_get_None. intros ([k u]&Hk&Hin)%list_elem_of_fmap.
  rewrite Forall_forall in Hall. destruct (Hall _ Hin). simpl in *. lia.
Qed.

(** Every row is still there, moved by operations; new rows may have come. *)
Definition later (d d' : Db) : Prop :=
  ∀ id t, dict_get id (db_tasks d) = Some t → ∃ t', dict_get id (db_tasks d') = Some t' ∧ row_step t t'.

#[export] Instance later_preorder : PreOrder later.
Proof.
  split; [intros d id t Ht; by eexists|]. intros d1 d2 d3 H1 H2 id t Ht.
  destruct (H1 id t Ht) as (t'&Ht'&Hs). destruct (H2 id t' Ht') as (t''&?&?). eexists. split; [done|by etrans].
Qed.

Lemma rows_later d d' : rows row_step d d' → later d d'.
Proof. intros [_ Hr] id t Ht. by eapply row_wise_get. Qed.

(** * Going through the candidates *)

Section lease.
Context (ms_of : Z → Z) (quota_policy : option RuntimeQuota).

(** The rows move along the table whatever the outcome. *)
Lemma respects_try_candidates now w secs l last :
  respects (rows row_step) (try_candidates quota_policy calm now w secs l last).
Proof.
  revert last. induction l as [|c l IH]; intros last; simpl; [intros d; reflexivity|].
  apply respects_bind; [apply _|by intros d|intros _].
  apply respects_bind; [apply _| |].
  { intros d. unfold catch. destruct quota_policy as [q|]; [|reflexivity].
    pose proof (assert_can_lease_reads q c d) as H. destruct (assert_can_lease q c d). simpl in *.
    rewrite H. reflexivity. }
  intros blocked. assert (respects (rows row_step) (modify (at_claim calm (tk_id c)) ;;
    claimed ← _claim_queued_task c w (now + seconds secs) now;
    match claimed with
    | Some t => mret (Some t, last)
    | None => try_candidates quota_policy calm now w secs l last
    end)) as Hclaim.
  { apply respects_bind; [apply _|by intros d|intros _]. apply respects_bind; [apply _|apply respects_claim|].
    intros [t|]; [by intros d|apply IH]. }
  destruct blocked as [u|e]; [exact Hclaim|]. destruct e; try (by intros d).
  apply respects_bind; [apply _|apply quiet_rows_row, quiet_quota_block|]. intros _. apply IH.
Qed.

Lemma respects_sql_lease q w secs :
  respects (rows_b row_step) (sql_lease ms_of quota_policy calm q w secs).
Proof.
  unfold sql_lease. apply respects_bind; [apply _|apply quiet_rows_b_row, quiet_reap|intros _].
  apply respects_bind; [apply _|apply respects_now; apply _|intros now].
  apply respects_bind; [apply _|apply respects_in_db; by intros d|intros [|c cs]]; [by intros b|].
  apply respects_bind; [apply _|apply respects_in_db, respects_try_candidates|intros [[t|] last]].
  - apply respects_bind; [apply _|by apply respects_own; [apply _|]|intros _].
    apply respects_bind; [apply _| |by intros sn b].
    apply respects_in_db, reads_rows; [apply _|]. apply snapshot_reads.
  - apply respects_bind; [apply _|by apply respects_own; [apply _|]|by intros _ b].
Qed.
End lease.

(** * Quotas *)

(** The number of active tasks is within the limits of every tenant and every
    project. *)
Definition within (q : RuntimeQuota) (d : Db) : Prop :=
  (∀ tenant l, tenant_max_running_tasks q = Some l → _count_running tenant None d ≤ Z.max 0 l) ∧
  (∀ tenant project l, project_max_running_tasks q = Some l →
     _count_running tenant (Some project) d ≤ Z.max 0 l).

(** The tasks a quota counts. *)
Definition counted (tenant : Z) (project : option Z) (t : Task) : bool :=
  (tk_tenant_id t =? tenant) && active_row t &&
  match project with Some p => tk_project_id t =? p | None => true end.

Lemma count_running_counted tenant project d :
  _count_running tenant project d = count (counted tenant project) (dict_values (db_tasks d)).
Proof. done. Qed.

Lemma count_rows R p d d' :
  (∀ t t', R t t' → p t' = true → p t = true) → rows R d d' →
  count p (dict_values (db_tasks d')) ≤ count p (dict_values (db_tasks d)).
Proof.
  intros H [_ Hr]. induction Hr as [|[k t] [k' t'] l l' [_ HR] Hr IH]; [done|].
  unfold dict_values in *. rewrite !fmap_cons, !count_cons. pose proof (H _ _ HR) as Hp. cbn [snd] in *.
  destruct (p t') eqn:E1; [rewrite Hp by done; lia|]. destruct (p t); lia.
Qed.

Lemma count_dict_set {A} (p : A → bool) k v (l : dict Z A) :
  count p (dict_values (dict_set k v l)) =
  count p (dict_values l) + (if p v then 1 else 0) -
  match dict_get k l with Some u => if p u then 1 else 0 | None => 0 end.
Proof.
  unfold dict_values. induction l as [|[k' u] l IH]; cbn [dict_set dict_get];
    [rewrite fmap_cons, count_cons; simpl; lia|].
  case_decide; rewrite !fmap_cons, !count_cons; simpl; [destruct (p u); lia|].
  rewrite IH. lia.
Qed.

Lemma quiet_counted tenant project t t' :
  quiet_step t t' → counted tenant project t' = true → counted tenant project t = true.
Proof.
  intros ((_&_&Ht&Hp&_)&_&_&_&Ha). unfold counted. rewrite Ht, Hp.
  rewrite !andb_true_iff. naive_solver.
Qed.

Lemma within_quiet q d d' : rows quiet_step d d' → within q d → within q d'.
Proof.
  intros Hr [Ht Hp].
  assert (∀ tenant project, _count_running tenant project d' ≤ _count_running tenant project d) as Hle.
  { intros tenant project. rewrite !count_running_counted. eapply count_rows; [|done].
    apply quiet_counted. }
  split; [intros tenant l Hl|intros tenant project l Hl].
  - specialize (Ht tenant l Hl). specialize (Hle tenant None). lia.
  - specialize (Hp tenant project l Hl). specialize (Hle tenant (Some project)). lia.
Qed.

Lemma within_limit_ret limit scope n d d' :
  within_limit limit scope n d = (Ret tt, d') → ∀ l, limit = Some l → n < l.
Proof. intros H l ->. unfold within_limit in H. m_unfold in H. destruct (n <? l) eqn:E; [blia|done]. Qed.

(** What a passed check guarantees. *)
Lemma assert_can_lease_ret q c d d' :
  assert_can_lease q c d = (Ret tt, d') →
  (∀ l, tenant_max_running_tasks q = Some l → _count_running (tk_tenant_id c) None d < l) ∧
  (∀ l, project_max_running_tasks q = Some l →
     _count_running (tk_tenant_id c) (Some (tk_project_id c)) d < l).
Proof.
  unfold assert_can_lease, _assert_task_within_quota, assert_can_enqueue. intros H.
  apply bind_ret_inv in H as ([]&d1&H&_). apply bind_ret_inv in H as (d2&d3&[= <- <-]&H).
  apply bind_ret_inv in H as ([]&d4&H1&H). apply bind_ret_inv in H as ([]&d5&H2&_).
  split; by eapply within_limit_ret.
Qed.

(** The table still holds the candidate's task, for the same tenant and project. *)
Definition current (d : Db) (c : Task) : Prop :=
  ∃ t, dict_get (tk_id c) (db_tasks d) = Some t ∧ tk_tenant_id t = tk_tenant_id c ∧
    tk_project_id t = tk_project_id c.

Lemma current_later d d' c : later d d' → current d c → current d' c.
Proof.
  intros Hl (t&Ht&H1&H2). destruct (Hl _ _ Ht) as (t'&Ht'&(_&_&E1&E2&_)&_). exists t'.
  split_and!; [done|congruence|congruence].
Qed.

Lemma within_claim q c w until now d r d' :
  within q d → current d c →
  (∀ l, tenant_max_running_tasks q = Some l → _count_running (tk_tenant_id c) None d < l) →
  (∀ l, project_max_running_tasks q = Some l →
     _count_running (tk_tenant_id c) (Some (tk_project_id c)) d < l) →
  _claim_queued_task c w until now d = (r, d') → within q d'.
Proof.
  intros [Ht Hp] (t&Hget&Hten&Hproj) HT HP. rewrite claim_run, Hget.
  case_bool_decide; [|by intros [= _ <-]].
  destruct (bool_decide (tk_status t = "queued") && _) eqn:Eq; [|by intros [= _ <-]]. intros [= _ <-].
  assert (∀ tenant project, _count_running tenant project
    (d <| db_tasks := dict_set (tk_id c) (claimed_row w until now t) (db_tasks d) |>)
    ≤ _count_running tenant project d +
      (if (tk_tenant_id c =? tenant) && match project with Some p => tk_project_id c =? p | None => true end
       then 1 else 0)) as Hle.
  { intros tenant project. rewrite !count_running_counted. simpl. rewrite count_dict_set, Hget.
    unfold counted at 2. simpl. rewrite Hten, Hproj.
    destruct (tk_tenant_id c =? tenant), project as [p|]; [destruct (tk_project_id c =? p)|..];
      rewrite ?andb_true_r, ?andb_false_r; simpl;
      repeat match goal with |- context [if ?x then 1 else 0] => destruct x end; lia. }
  split; [intros tenant l Hl; specialize (Hle tenant None); specialize (Ht tenant l Hl); specialize (HT l Hl)|
    intros tenant project l Hl; specialize (Hle tenant (Some project)); specialize (Hp tenant project l Hl);
    specialize (HP l Hl)].
  - destruct (tk_tenant_id c =? tenant) eqn:E; simpl in Hle; b2p; [subst|]; lia.
  - destruct (tk_tenant_id c =? tenant) eqn:E, (tk_project_id c =? project) eqn:E'; simpl in Hle; b2p; subst; lia.
Qed.

Lemma within_try_candidates q now w secs l last d :
  within q d → Forall (current d) l →
  within q (try_candidates (Some q) calm now w secs l last d).2.
Proof.
  revert last d. induction l as [|c l IH]; intros last d Hw Hl; [done|].
  apply Forall_cons in Hl as [Hc Hl]. simpl. unfold mbind at 1, M_bind at 1. cbn [modify at_check calm].
  unfold mbind at 1, M_bind at 1, catch. pose proof (assert_can_lease_reads q c d) as Hr.
  destruct (assert_can_lease q c d) as [[[]|e] d1] eqn:E; unfold unchanged in Hr; simpl in Hr; subst d1.
  - apply assert_can_lease_ret in E as [HT HP]. unfold mbind, M_bind. cbn [modify at_claim calm].
    pose proof (respects_claim c w (now + seconds secs) now d) as Hstep.
    destruct (_claim_queued_task c w (now + seconds secs) now d) as [r d'] eqn:Ecl.
    pose proof (within_claim _ _ _ _ _ _ _ _ Hw Hc HT HP Ecl) as Hw'.
    destruct r as [[t|]|e]; [done| |done]. apply IH; [done|].
    eapply Forall_impl; [exact Hl|]. intros x. by apply current_later, rows_later.
  - destruct e; try done. pose proof (quiet_quota_block c scope limit current0 d) as Hq.
    unfold mbind, M_bind. destruct (_record_quota_block c scope limit current0 d) as [[u|e] d'].
    + apply IH; [by eapply within_quiet|]. eapply Forall_impl; [exact Hl|].
      intros x. apply current_later, rows_later. eapply rows_mono; [|exact Hq]. apply quiet_row.
    + by eapply within_quiet.
Qed.

(** * Sequences of calls *)

Inductive sql_op : Type :=
| SEnqueue (created : Z) (rq : TaskRequest)
| SLease (q worker : string) (lease_seconds : Z)
| SHeartbeat (id : Z) (worker : string) (lease_seconds : Z)
| SComplete (id : Z) (worker : string) (token : Z)
| SFail (id : Z) (worker : string) (token : Z) (err : pydict)
| SCancel (id : Z)
| SMarkRunning (id : Z) (worker : string) (token : Z)
| SReap.

Section sequences.
Context (py_str : value → string) (ms_of : Z → Z) (quota_policy : option RuntimeQuota).

(** The state a call leaves, whether it returns or raises. *)
Definition sql_step (b : SQLAlchemyTaskBackend) (op : sql_op) : SQLAlchemyTaskBackend :=
  match op with
  | SEnqueue created rq => (sql_enqueue quota_policy created rq b).2
  | SLease q w secs => (sql_lease ms_of quota_policy calm q w secs b).2
  | SHeartbeat id w secs => (sql_heartbeat id w secs b).2
  | SComplete id w tok => (sql_complete id w tok b).2
  | SFail id w tok err => (sql_fail py_str id w tok err b).2
  | SCancel id => (sql_cancel id b).2
  | SMarkRunning id w tok => (sql_mark_running id w tok b).2
  | SReap => (sql_reap_expired_leases ms_of b).2
  end.

Lemma sql_enqueue_db created rq b :
  let d := sb_db b in
  sb_db (sql_enqueue quota_policy created rq b).2 = d ∨
  ∃ t, tk_id t = db_next_task d ∧ tk_status t = "queued" ∧ tk_worker_id t = None ∧ tk_fencing_token t = 0 ∧
    sb_db (sql_enqueue quota_policy created rq b).2 =
      d <| db_tasks := dict_set (db_next_task d) t (db_tasks d) |> <| db_next_task := db_next_task d + 1 |>.
Proof.
  intros d. unfold sql_enqueue. set (guard := match quota_policy with Some _ => _ | None => _ end).
  assert ((guard b).2 = b) as Hg.
  { subst guard. destruct quota_policy as [q|]; [|done]. unfold in_db, zoom.
    pose proof (assert_can_enqueue_reads q (rq_tenant_id rq) (rq_project_id rq) (rq_agent_id rq)
      (rq_deployment_id rq) (sb_db b)) as H.
    destruct (assert_can_enqueue _ _ _ _ _ _) as [r d1]. unfold unchanged in H. simpl in *. subst. by destruct b. }
  unfold mbind, M_bind. destruct (guard b) as [[u|e] b1]; simpl in Hg; subst b1; [|by left].
  destruct (_task_metadata rq) as [m|]; [|by left]. right. unfold in_db. m_unfold. simpl.
  eexists. split_and!; [..|reflexivity]; done.
Qed.

Lemma sql_step_rows b op :
  (∀ created rq, op ≠ SEnqueue created rq) → rows row_step (sb_db b) (sb_db (sql_step b op)).
Proof.
  intros Hne. destruct op; simpl.
  - by destruct (Hne created rq).
  - apply respects_sql_lease.
  - eapply rows_mono; [apply quiet_row|apply quiet_heartbeat].
  - eapply rows_mono; [apply quiet_row|apply quiet_complete].
  - eapply rows_mono; [apply quiet_row|apply quiet_fail].
  - eapply rows_mono; [apply quiet_row|apply quiet_cancel].
  - eapply rows_mono; [apply quiet_row|apply quiet_mark_running].
  - eapply rows_mono; [apply quiet_row|apply quiet_reap].
Qed.

Lemma enqueued_wf d t :
  db_wf d → tk_id t = db_next_task d →
  let d' := d <| db_tasks := dict_set (db_next_task d) t (db_tasks d) |>
              <| db_next_task := db_next_task d + 1 |> in
  db_wf d' ∧ later d d'.
Proof.
  intros Hwf Hid. pose proof (wf_fresh d Hwf) as Hf. destruct Hwf as [Hnd Hall]. simpl. split; [split; simpl|].
  - by apply dict_set_nodup.
  - rewrite dict_set_fresh by done. apply Forall_app. split; [|repeat constructor; simpl; lia].
    eapply Forall_impl; [exact Hall|]. intros p [H1 H2]. split; [done|simpl; lia].
  - intros id u Hu. exists u. split; [|reflexivity]. simpl. rewrite dict_get_set_ne; [done|]. congruence.
Qed.

Lemma sql_step_later b op :
  db_wf (sb_db b) → db_wf (sb_db (sql_step b op)) ∧ later (sb_db b) (sb_db (sql_step b op)).
Proof.
  intros Hwf. destruct op as [created rq| | | | | | |]; [|
    by (split; [eapply rows_wf; [apply sql_step_rows|]|apply rows_later, sql_step_rows])..].
  simpl. destruct (sql_enqueue_db created rq b) as [->|(t&Hid&_&_&_&->)]; [by split|].
  by apply enqueued_wf.
Qed.

Lemma sql_exec_later ops b :
  db_wf (sb_db b) →
  db_wf (sb_db (foldl sql_step b ops)) ∧ later (sb_db b) (sb_db (foldl sql_step b ops)).
Proof.
  revert b. induction ops as [|op ops IH]; intros b Hwf; [by split|]. simpl.
  destruct (sql_step_later b op Hwf) as [Hwf1 Hl1]. destruct (IH _ Hwf1) as [Hwf2 Hl2].
  split; [done|by etrans].
Qed.
End sequences.

(** ** [lease], step by step *)

#[local] Arguments try_candidates : simpl never.

(** The three phases: reaping, choosing the candidates, claiming one of them. *)
Lemma sql_lease_phases ms_of quota env q w secs b r b' :
  sql_lease ms_of quota env q w secs b = (r, b') →
  ∃ r1 b1, sql_reap_expired_leases ms_of b = (r1, b1) ∧
  let now := sb_now b1 (sb_ticks b1) in
  let cs := lease_candidates q now (sb_db b1) in
  match r1 with
  | Raise e => r = Raise e ∧ b' = b1
  | Ret _ =>
      (cs = [] ∧ r = Ret None ∧ sb_db b' = sb_db b1) ∨
      (∃ r2, try_candidates quota env now w secs cs None (sb_db b1) = (r2, sb_db b') ∧
        match r2 with
        | Raise e => r = Raise e
        | Ret (None, _) => r = Ret None
        | Ret (Some t, _) => ∀ sn, r = Ret sn → ∃ sn', sn = Some sn' ∧ _snapshot t (sb_db b') = (Ret sn', sb_db b')
        end)
  end.
Proof.
  unfold sql_lease, mbind, M_bind. destruct (sql_reap_expired_leases ms_of b) as [[n|e] b1]; intros H;
    [|exists (Raise e), b1; by simplify_eq]. exists (Ret n), b1. split; [done|]. revert H. unfold _now. m_unfold. simpl.
  set (now := sb_now b1 (sb_ticks b1)). unfold in_db, zoom. simpl.
  destruct (lease_candidates q now (sb_db b1)) as [|c cs]; simpl.
  { intros [= <- <-]. by left. }
  destruct (try_candidates _ _ _ _ _ _ _ _) as [[[[t|] last]|e] d'] eqn:Et; simpl; intros H; right.
  - pose proof (snapshot_reads t d') as Hs. destruct (_snapshot t d') as [[sn|e] d''] eqn:Esn;
      unfold unchanged in Hs; simpl in *; simplify_eq/=; (eexists; split; [reflexivity|]); intros sn' [= <-]; eauto.
  - simplify_eq/=. by eexists.
  - simplify_eq/=. by eexists.
Qed.

Lemma candidates_current q now d : db_wf d → Forall (current d) (lease_candidates q now d).
Proof.
  intros Hwf. apply Forall_forall. intros x Hx. exists x. split_and!; [|done..]. apply wf_row; [done|].
  unfold lease_candidates in Hx. rewrite !stable_sort_perm in Hx.
  by apply list_elem_of_In, filter_In in Hx as [Hx%list_elem_of_In _].
Qed.

Lemma within_lease ms_of q queue w secs b :
  db_wf (sb_db b) → within q (sb_db b) → within q (sb_db (sql_lease ms_of (Some q) calm queue w secs b).2).
Proof.
  intros Hwf Hw. destruct (sql_lease _ _ _ _ _ _ b) as [r b'] eqn:E. simpl.
  apply sql_lease_phases in E as (r1&b1&Er&H). pose proof (quiet_reap ms_of b) as Hr. rewrite Er in Hr. simpl in Hr.
  assert (within q (sb_db b1)) as Hw1 by by eapply within_quiet.
  destruct r1 as [n|e]; [|by destruct H as [_ ->]].
  destruct H as [(_&_&->)|(r2&Et&_)]; [done|].
  pose proof (within_try_candidates q (sb_now b1 (sb_ticks b1)) w secs _ None _ Hw1
    (candidates_current queue (sb_now b1 (sb_ticks b1)) (sb_db b1)
       ltac:(eapply rows_wf; [eapply rows_mono; [apply quiet_row|exact Hr]|exact Hwf]))) as Htry.
  by rewrite Et in Htry.
Qed.

(** One call keeps the active tasks within the limits. *)
Lemma within_step py_str ms_of q b op :
  db_wf (sb_db b) → within q (sb_db b) → within q (sb_db (sql_step py_str ms_of (Some q) b op)).
Proof.
  intros Hwf Hw. destruct op; simpl.
  - destruct (sql_enqueue_db (Some q) created rq b) as [->|(t&_&Hs&_&_&->)]; [done|].
    pose proof (wf_fresh _ Hwf) as Hf.
    assert (∀ tenant project, counted tenant project t = false) as Hc.
    { intros. unfold counted, active_row. rewrite Hs. simpl. by rewrite andb_false_r. }
    destruct Hw as [Ht Hp]; split; intros; rewrite count_running_counted; simpl;
      rewrite count_dict_set, Hf, Hc, Z.add_0_r, Z.sub_0_r; [by apply Ht|by apply Hp].
  - by apply within_lease.
  - eapply within_quiet; [apply quiet_heartbeat|done].
  - eapply within_quiet; [apply quiet_complete|done].
  - eapply within_quiet; [apply quiet_fail|done].
  - eapply within_quiet; [apply quiet_cancel|done].
  - eapply within_quiet; [apply quiet_mark_running|done].
  - eapply within_quiet; [apply quiet_reap|done].
Qed.

(** * Properties *)

(** C7: the quotas hold: in a backend with quotas, whatever sequence of calls is
    made, returning or raising, no tenant and no project ever has more active
    (leased or running) tasks than its limit, provided it had not at the start. *)
Theorem quota_respected py_str ms_of q b ops :
  db_wf (sb_db b) → within q (sb_db b) →
  within q (sb_db (foldl (sql_step py_str ms_of (Some q)) b ops)).
Proof.
  revert b. induction ops as [|op ops IH]; intros b Hwf Hw; [done|]. simpl.
  apply IH; [by apply sql_step_later|by apply within_step].
Qed.

(** Other sessions keep the tables well formed and move rows as operations do. *)
Definition civil (env : Interference) : Prop :=
  ∀ id d, db_wf d → (db_wf (at_check env id d) ∧ later d (at_check env id d)) ∧
    (db_wf (at_claim env id d) ∧ later d (at_claim env id d)).

Lemma try_candidates_claims quota env now w secs l last d t x d' :
  civil env → db_wf d → try_candidates quota env now w secs l last d = (Ret (Some t, x), d') →
  ∃ id d0 u, let d1 := at_claim env id d0 in
    db_wf d1 ∧ later d d1 ∧ dict_get id (db_tasks d1) = Some u ∧ tk_status u = "queued" ∧
    tk_is_deleted u = false ∧ t = claimed_row w (now + seconds secs) now u ∧
    d' = d1 <| db_tasks := dict_set id t (db_tasks d1) |>.
Proof.
  intros Henv. revert last d. induction l as [|c l IH]; intros last d Hwf H; [done|].
  destruct (Henv (tk_id c) d Hwf) as [[Hwf1 Hl1] _]. cbn [try_candidates] in H.
  apply bind_ret_inv in H as (u1&d1&[= _ <-]&H). set (d1 := at_check env (tk_id c) d) in *.
  apply bind_ret_inv in H as (blocked&d2&Hc&H).
  assert (d2 = d1) as ->.
  { unfold catch in Hc. destruct quota as [q|]; [|by simplify_eq/=].
    pose proof (assert_can_lease_reads q c d1) as Hr. destruct (assert_can_lease q c d1). by simplify_eq/=. }
  clear Hc. destruct (Henv (tk_id c) d1 Hwf1) as [_ [Hwf2 Hl2]]. destruct blocked as [v|e].
  - apply bind_ret_inv in H as (u2&d2&[= _ <-]&H). set (d2 := at_claim env (tk_id c) d1) in *.
    apply bind_ret_inv in H as (cl&d3&Hcl&H). rewrite claim_run in Hcl. case_bool_decide; [|done].
    assert (later d d2) as Hl by by etrans.
    destruct (dict_get (tk_id c) (db_tasks d2)) as [row|] eqn:Erow.
    + destruct (_ && _) eqn:Eq; simplify_eq/=.
      * apply andb_true_iff in Eq as [Eq%bool_decide_eq_true Ed%negb_true_iff]. injection H as <- <- <-.
        exists (tk_id c), d1, row. by split_and!.
      * destruct (IH _ _ Hwf2 H) as (id&d0&u&Hw&Hl'&Hrest). exists id, d0, u. split; [done|]. split; [by etrans|done].
    + simplify_eq. destruct (IH _ _ Hwf2 H) as (id&d0&u&Hw&Hl'&Hrest). exists id, d0, u.
      split; [done|]. split; [by etrans|done].
  - destruct e; try done. apply bind_ret_inv in H as (u2&d2&Hq&H).
    pose proof (quiet_quota_block c scope limit current0 d1) as Hr. rewrite Hq in Hr. simpl in Hr.
    assert (rows row_step d1 d2) as Hr' by (eapply rows_mono; [apply quiet_row|exact Hr]).
    destruct (IH _ _ (rows_wf _ _ Hr' Hwf1) H) as (id&d0&u&Hw&Hl'&Hrest). exists id, d0, u.
    split; [done|]. split; [|done]. etrans; [exact Hl1|]. etrans; [by apply rows_later|done].
Qed.

Lemma snapshot_task t d sn d' :
  _snapshot t d = (Ret sn, d') → sn_task_id sn = tk_id t ∧ sn_fencing_token sn = tk_fencing_token t.
Proof.
  unfold _snapshot. intros H. apply bind_ret_inv in H as (d1&d2&[= <- <-]&H).
  apply bind_ret_inv in H as (input&d3&_&[= <- <-]). done.
Qed.

Lemma sql_lease_spec ms_of quota env q w secs b sn b' :
  db_wf (sb_db b) → civil env →
  sql_lease ms_of quota env q w secs b = (Ret (Some sn), b') →
  ∃ d0 u now, let id := sn_task_id sn in let d := at_claim env id d0 in
    later (sb_db b) d ∧ dict_get id (db_tasks d) = Some u ∧
    tk_status u = "queued" ∧ tk_is_deleted u = false ∧
    sn_fencing_token sn = tk_fencing_token u + 1 ∧
    sb_db b' = d <| db_tasks := dict_set id (u <| tk_status := "leased" |> <| tk_worker_id := Some w |>
      <| tk_leased_until := Some (now + seconds secs) |> <| tk_heartbeat_at := Some now |>
      <| tk_fencing_token := sn_fencing_token sn |>) (db_tasks d) |>.
Proof.
  intros Hwf Henv H. apply sql_lease_phases in H as (r1&b1&Er&H).
  pose proof (quiet_reap ms_of b) as Hr. rewrite Er in Hr. simpl in Hr.
  assert (rows row_step (sb_db b) (sb_db b1)) as Hr' by (eapply rows_mono; [apply quiet_row|exact Hr]).
  destruct r1 as [n|e]; [|by destruct H].
  destruct H as [(_&?&_)|([[[t|] last]|e]&Et&H)]; try done.
  apply try_candidates_claims in Et as (id&d0&u&Hw&Hl&Hu&Hs&Hd&->&Hb); [|done|by eapply rows_wf].
  destruct (H _ eq_refl) as (sn'&[= <-]&Hsn). apply snapshot_task in Hsn as [Hid Htok].
  assert (tk_id u = id) as Hu'.
  { by eapply wf_get_id. }
  simpl in Hid, Htok. rewrite Hid, Hu'. exists d0, u, (sb_now b1 (sb_ticks b1)). split_and!; try done.
  - etrans; [by apply rows_later|done].
  - rewrite Hb, Htok. done.
Qed.


Lemma calm_civil : civil calm.
Proof. intros id d Hwf. by split. Qed.

(** Any sequence of calls made by other sessions is civil interference. *)
Lemma calls_civil py_str ms_of quota clock (ops1 ops2 : Z → list sql_op) :
  let session ops d := sb_db (foldl (sql_step py_str ms_of quota) (new_sql_backend clock d) ops) in
  civil (mkInterference (λ id, session (ops1 id)) (λ id, session (ops2 id))).
Proof. intros session id d Hwf. split; by apply sql_exec_later. Qed.

(** A lease raises the token of its task above every earlier one. *)
Lemma sql_lease_token ms_of quota q w secs b sn b' :
  db_wf (sb_db b) → sql_lease ms_of quota calm q w secs b = (Ret (Some sn), b') →
  ∃ t, dict_get (sn_task_id sn) (db_tasks (sb_db b')) = Some t ∧
    tk_fencing_token t = sn_fencing_token sn ∧ tk_id t = sn_task_id sn ∧
    ∀ u, dict_get (sn_task_id sn) (db_tasks (sb_db b)) = Some u → tk_fencing_token u < sn_fencing_token sn.
Proof.
  intros Hwf H. pose proof (respects_sql_lease ms_of quota q w secs b) as Hr. rewrite H in Hr. simpl in Hr.
  apply (rows_wf _ _ Hr) in Hwf as Hwf'.
  apply sql_lease_spec in H as (d&u&now&Hl&Hu&_&_&Htok&Hb); [|done|apply calm_civil]. simpl in *.
  eassert (dict_get (sn_task_id sn) (db_tasks (sb_db b')) = Some _) as Hget.
  { rewrite Hb. simpl. apply dict_get_set_eq. }
  eexists. split; [exact Hget|]. split; [done|]. split; [by apply (wf_get_id (sb_db b'))|].
  intros u0 Hu0. destruct (Hl _ _ Hu0) as (u1&Hu1&_&_&Hle&_). simplify_eq. lia.
Qed.

(** ** What [complete], [fail] and the fencing check do *)

Lemma sql_assert_run id w tok b :
  sql_assert_can_complete id w tok b =
  (match dict_get id (db_tasks (sb_db b)) with
   | None => Raise (KeyError (pretty id))
   | Some t =>
       if tk_fencing_token t =? tok then
         if bool_decide (tk_worker_id t = Some w) then Ret tt else Raise (TaskLeaseError (tk_id t) w)
       else Raise (StaleFencingTokenError (tk_id t))
   end, b).
Proof.
  unfold sql_assert_can_complete, in_db, zoom, mbind, M_bind. rewrite task_run.
  destruct (dict_get id (db_tasks (sb_db b))) as [t|]; [|by destruct b].
  unfold _assert_token, _assert_row_owner. m_unfold.
  destruct (tk_fencing_token t =? tok); simpl; [destruct (bool_decide _)|]; by destruct b.
Qed.

Definition set_tasks (f : dict Z Task → dict Z Task) (b : SQLAlchemyTaskBackend) : SQLAlchemyTaskBackend :=
  b <| sb_db := (sb_db b) <| db_tasks := f (db_tasks (sb_db b)) |> |>.
Definition tick_of (b : SQLAlchemyTaskBackend) : SQLAlchemyTaskBackend := b <| sb_ticks := S (sb_ticks b) |>.
Definition held (t : Task) : bool := bool_decide (tk_status t = "leased") || bool_decide (tk_status t = "running").

(** From a leased or running task to the target, through "running". *)
Lemma finish_run id target d t :
  target = "succeeded" ∨ target = "failed" → dict_get id (db_tasks d) = Some t →
  (leased_to_running id ;; move_task id target) d =
  if held t then (Ret tt, d <| db_tasks := dict_set id (t <| tk_status := target |>) (db_tasks d) |>)
  else (Raise (InvalidStateTransitionError "task" (tk_status t) target), d).
Proof.
  intros Htar Ht. unfold mbind, M_bind, held. rewrite leased_to_running_run, Ht.
  assert (∀ s, allowed TASK_TRANSITIONS s target = bool_decide (s = "running")) as Ha.
  { intros s. destruct Htar as [-> | ->]; [apply allowed_task_succeeded|apply allowed_task_failed]. }
  case_bool_decide as Hs; simpl.
  - rewrite move_task_run. simpl. rewrite dict_get_set_eq. simpl. rewrite Ha. simpl.
    by rewrite dict_set_set.
  - rewrite move_task_run, Ht, Ha. by case_bool_decide.
Qed.

Lemma sql_complete_spec id w tok b :
  sql_complete id w tok b =
  match dict_get id (db_tasks (sb_db b)) with
  | None => (Raise (KeyError (pretty id)), b)
  | Some t =>
      if tk_fencing_token t =? tok then
        if bool_decide (tk_worker_id t = Some w) then
          if held t then
            (Ret tt, tick_of (set_tasks (dict_set id (t <| tk_status := "succeeded" |>
               <| tk_finished_at := Some (sb_now b (sb_ticks b)) |> <| tk_leased_until := None |>)) b))
          else (Raise (InvalidStateTransitionError "task" (tk_status t) "succeeded"), b)
        else (Raise (TaskLeaseError (tk_id t) w), b)
      else (Raise (StaleFencingTokenError (tk_id t)), b)
  end.
Proof.
  unfold sql_complete. unfold mbind at 1, M_bind at 1. unfold in_db at 1, zoom at 1. rewrite task_run.
  destruct (dict_get id (db_tasks (sb_db b))) as [t|] eqn:Ht; [|by destruct b].
  replace (b <| sb_db := sb_db b |>) with b by by destruct b.
  unfold mbind at 1, M_bind at 1. rewrite sql_assert_run, Ht.
  destruct (tk_fencing_token t =? tok); [|done]. case_bool_decide; [|done].
  unfold mbind at 1, M_bind at 1. unfold in_db at 1, zoom at 1. rewrite (finish_run _ _ _ t) by eauto.
  destruct (held t); [|by destruct b]. unfold _now, in_db. m_unfold. rewrite set_task_run. simpl.
  rewrite dict_get_set_eq. simpl. by rewrite dict_set_set.
Qed.

Definition failed_row (msg : string) (now : Z) (t : Task) : Task :=
  if tk_max_attempts t <=? tk_attempt t + 1
  then t <| tk_status := "dead_letter" |> <| tk_error := Some msg |> <| tk_finished_at := Some now |>
         <| tk_dead_letter_reason := Some msg |> <| tk_leased_until := None |>
  else t <| tk_status := "queued" |> <| tk_error := Some msg |> <| tk_attempt := tk_attempt t + 1 |>
         <| tk_worker_id := None |> <| tk_leased_until := None |>.

Lemma sql_fail_spec py_str id w tok err b :
  sql_fail py_str id w tok err b =
  match dict_get id (db_tasks (sb_db b)) with
  | None => (Raise (KeyError (pretty id)), b)
  | Some t =>
      if tk_fencing_token t =? tok then
        if bool_decide (tk_worker_id t = Some w) then
          if held t then
            let b' := tick_of (set_tasks (dict_set id
              (failed_row (_error_message py_str err) (sb_now b (sb_ticks b)) t)) b) in
            (Ret tt, if tk_max_attempts t <=? tk_attempt t + 1
                     then b' <| sb_dead_letters := sb_dead_letters b ++ [(id, err)] |> else b')
          else (Raise (InvalidStateTransitionError "task" (tk_status t) "failed"), b)
        else (Raise (TaskLeaseError (tk_id t) w), b)
      else (Raise (StaleFencingTokenError (tk_id t)), b)
  end.
Proof.
  unfold sql_fail. unfold mbind at 1, M_bind at 1. unfold in_db at 1, zoom at 1.
  unfold mbind at 1, M_bind at 1. rewrite task_run.
  destruct (dict_get id (db_tasks (sb_db b))) as [t|] eqn:Ht; [|by destruct b].
  unfold mbind at 1, M_bind at 1. unfold _assert_token at 1. unfold check at 1.
  destruct (tk_fencing_token t =? tok); [|by destruct b]. unfold mret at 1, M_ret at 1.
  unfold mbind at 1, M_bind at 1. unfold _assert_row_owner at 1. unfold check at 1.
  case_bool_decide; [|by destruct b]. unfold mret at 1, M_ret at 1.
  pose proof (finish_run id "failed" (sb_db b) t ltac:(by right) Ht) as Hf. unfold mbind, M_bind in Hf |- *.
  destruct (leased_to_running id (sb_db b)) as [[u|e] d1]; [|destruct (held t); simplify_eq; by destruct b].
  rewrite Hf. clear Hf. destruct (held t); [|by destruct b].
  rewrite set_task_run. simpl. rewrite dict_get_set_eq. unfold _now. m_unfold. simpl.
  unfold in_db, zoom. rewrite task_run. simpl. rewrite !dict_set_set, dict_get_set_eq. simpl.
  unfold failed_row. destruct (tk_max_attempts t <=? tk_attempt t + 1).
  - rewrite move_task_run. simpl. rewrite dict_get_set_eq. simpl.
    rewrite set_task_run. simpl. rewrite dict_get_set_eq. simpl. by rewrite !dict_set_set.
  - rewrite move_task_run. simpl. rewrite dict_get_set_eq. simpl.
    rewrite set_task_run. simpl. rewrite dict_get_set_eq. simpl. rewrite move_task_run. simpl.
    rewrite dict_get_set_eq. simpl. by rewrite !dict_set_set.
Qed.

(** Calls with a token that is not the row's are refused and change nothing. *)
Lemma sql_stale_calls py_str id w tok err b t :
  dict_get id (db_tasks (sb_db b)) = Some t → tk_id t = id → tk_fencing_token t ≠ tok →
  sql_complete id w tok b = (Raise (StaleFencingTokenError id), b) ∧
  sql_fail py_str id w tok err b = (Raise (StaleFencingTokenError id), b) ∧
  raises (sql_mark_running id w tok b).1 ∧ (sql_mark_running id w tok b).2 = b.
Proof.
  intros Ht Hid Hf%Z.eqb_neq. rewrite sql_complete_spec, sql_fail_spec, Ht, Hf, Hid.
  do 2 (split; [done|]). unfold sql_mark_running, in_db, mbind, M_bind, zoom. rewrite task_run, Ht.
  unfold _assert_token, _assert_row_owner. m_unfold. rewrite Hf. destruct b as [d clock n e l].
  destruct (bool_decide (tk_worker_id t = Some w)); simpl; split; by try eexists.
Qed.

(** C6: fencing in the database-backed queue: when a task that was leased is
    leased again after any calls, the second token is larger, and from then on,
    whatever calls follow, the first holder's [complete] and [fail] raise
    [StaleFencingTokenError] and its [mark_running] raises, none of them changing
    anything. *)
Theorem sql_stale_lease_fenced py_str ms_of quota b q w secs sn b1 ops q' w' secs' sn' b2 ops' err :
  db_wf (sb_db b) →
  sql_lease ms_of quota calm q w secs b = (Ret (Some sn), b1) →
  sql_lease ms_of quota calm q' w' secs' (foldl (sql_step py_str ms_of quota) b1 ops) = (Ret (Some sn'), b2) →
  sn_task_id sn' = sn_task_id sn →
  let b3 := foldl (sql_step py_str ms_of quota) b2 ops' in
  let id := sn_task_id sn in
  let tok := sn_fencing_token sn in
  tok < sn_fencing_token sn' ∧
  sql_complete id w tok b3 = (Raise (StaleFencingTokenError id), b3) ∧
  sql_fail py_str id w tok err b3 = (Raise (StaleFencingTokenError id), b3) ∧
  raises (sql_mark_running id w tok b3).1 ∧ (sql_mark_running id w tok b3).2 = b3.
Proof.
  intros Hwf H1 H2 Hid b3 id tok.
  pose proof (sql_step_later py_str ms_of quota b (SLease q w secs) Hwf) as [Hwf1 _]. simpl in Hwf1.
  rewrite H1 in Hwf1. simpl in Hwf1.
  destruct (sql_exec_later py_str ms_of quota ops b1 Hwf1) as [Hwf1' Hl1].
  pose proof (sql_step_later py_str ms_of quota _ (SLease q' w' secs') Hwf1') as [Hwf2 _]. simpl in Hwf2.
  rewrite H2 in Hwf2. simpl in Hwf2.
  destruct (sql_exec_later py_str ms_of quota ops' b2 Hwf2) as [_ Hl2]. fold b3 in Hl2.
  destruct (sql_lease_token _ _ _ _ _ _ _ _ Hwf H1) as (t1&Ht1&Htok1&_&_).
  destruct (sql_lease_token _ _ _ _ _ _ _ _ Hwf1' H2) as (t2&Ht2&Htok2&Hid2&Hlt).
  destruct (Hl1 _ _ Ht1) as (t1'&Ht1'&_&_&Hle1&_). rewrite Hid in *. specialize (Hlt _ Ht1').
  destruct (Hl2 _ _ Ht2) as (t3&Ht3&(Hid3&_)&_&Hle2&_).
  split; [unfold tok; lia|]. apply sql_stale_calls with t3; [done|unfold id; by rewrite Hid3|unfold tok; lia].
Qed.

(** * Examples *)

Definition demo_run : Run :=
  mkRun 1 1 1 5 50 None None "pending" (Some "json:{}") None None None None 0 false None None.
Definition demo_request (q : string) : TaskRequest :=
  mkTaskRequest None 1 1 1 (Some 5) None (Some q) None None None None [] None None [].
(** Two tasks of one tenant in different queues; the clock advances 20 seconds
    with every reading. *)
Definition demo_ticks (n : nat) : Z := seconds (20 * Z.of_nat n).
Definition demo_sql : SQLAlchemyTaskBackend := Eval vm_compute in
  let b := new_sql_backend demo_ticks (empty_db <| db_runs := [(1, demo_run)] |> <| db_next_run := 2 |>) in
  let b := (sql_enqueue None 0 (demo_request "a") b).2 in
  (sql_enqueue None 1 (demo_request "b") b).2.
Definition demo_quota : RuntimeQuota := mkQuota (Some 1) None None None.
Definition demo_str (_ : value) : string := "error".
Definition demo_ms (us : Z) : Z := us / 1000.

Lemma demo_sql_wf : db_wf (sb_db demo_sql).
Proof.
  split; [|by repeat constructor]. apply (bool_decide_unpack _). by vm_compute.
Qed.

(** The quota check and the claim are not atomic: when another worker
    claims a task of the same tenant from another queue in between, both leases
    go through, and the tenant has two active tasks with a limit of one. *)
Theorem quota_race :
  let other d := sb_db (sql_lease demo_ms (Some demo_quota) calm "b" "w2" 30 (new_sql_backend demo_ticks d)).2 in
  let env := mkInterference (λ _ d, d) (λ _ d, other d) in
  ∃ sn b', sql_lease demo_ms (Some demo_quota) env "a" "w1" 30 demo_sql = (Ret (Some sn), b') ∧
    tenant_max_running_tasks demo_quota = Some 1 ∧
    _count_running 1 None (sb_db demo_sql) = 0 ∧ _count_running 1 None (sb_db b') = 2.
Proof. eexists _, _. split; [vm_compute; reflexivity|]. by vm_compute. Qed.

Lemma quota_respected_witness :
  within demo_quota (sb_db (foldl (sql_step demo_str demo_ms (Some demo_quota)) demo_sql
    [SLease "a" "w1" 30; SLease "b" "w2" 30])) ∧
  _count_running 1 None (sb_db (foldl (sql_step demo_str demo_ms (Some demo_quota)) demo_sql
    [SLease "a" "w1" 30; SLease "b" "w2" 30])) = 1.
Proof.
  split; [|vm_compute; reflexivity]. apply (quota_respected demo_str demo_ms demo_quota demo_sql).
  - exact demo_sql_wf.
  - split; [|by intros ??? [=]]. intros tenant l [= <-]. unfold _count_running.
    etrans; [apply (count_mono _ (λ _, false))|by vm_compute].
    intros t Ht. vm_compute in Ht. set_unfold in Ht. destruct_or? Ht; subst; simpl; by rewrite andb_false_r.
Defined.


(** Leased by w1, expired, leased again by w2. *)
Definition demo_leased_sql : SQLAlchemyTaskBackend :=
  Eval vm_compute in (sql_lease demo_ms None calm "a" "w1" 30 demo_sql).2.
Definition demo_released_sql : SQLAlchemyTaskBackend :=
  Eval vm_compute in (sql_lease demo_ms None calm "a" "w2" 30
    (foldl (sql_step demo_str demo_ms None) demo_leased_sql [SReap; SReap; SReap])).2.

Lemma sql_stale_lease_fenced_witness :
  sql_complete 1 "w1" 1 demo_released_sql = (Raise (StaleFencingTokenError 1), demo_released_sql).
Proof.
  assert (∃ sn, sql_lease demo_ms None calm "a" "w1" 30 demo_sql = (Ret (Some sn), demo_leased_sql) ∧
    sn_task_id sn = 1 ∧ sn_fencing_token sn = 1) as (sn&E&Hid&Htok).
  { eexists. split; [vm_compute; reflexivity|]. split; reflexivity. }
  assert (∃ sn, sql_lease demo_ms None calm "a" "w2" 30
    (foldl (sql_step demo_str demo_ms None) demo_leased_sql [SReap; SReap; SReap])
    = (Ret (Some sn), demo_released_sql) ∧ sn_task_id sn = 1) as (sn'&E'&Hid').
  { eexists. split; [vm_compute; reflexivity|]. reflexivity. }
  destruct (sql_stale_lease_fenced demo_str demo_ms None demo_sql "a" "w1" 30 sn demo_leased_sql
    [SReap; SReap; SReap] "a" "w2" 30 sn' demo_released_sql [] [] demo_sql_wf E E'
    ltac:(by rewrite Hid, Hid')) as (_&H&_).
  cbn [foldl] in H. rewrite Hid, Htok in H. exact H.
Defined.
