(* ===== verification/SqlReaper.v ===== *)
(** The reaper of the database-backed queue: what it does to expired tasks and
    their runs, and when it fails. *)

From stdpp Require Import relations.
From S2P Require Import Prelude Values Json JsonLoads StateMachine Tables InMemory SqlBackend SqlProps.

(** * One expired task *)



(** Tasks and runs are untouched. *)
Definition aside (d d' : Db) : Prop := db_tasks d' = db_tasks d ∧ db_runs d' = db_runs d.
#[export] Instance aside_preorder : PreOrder aside.
Proof. unfold aside. split; [done|]. intros ??? [] []. split; congruence. Qed.



(** Runs only move to "failed". *)
Definition runs_fail (d d' : Db) : Prop :=
  db_tasks d' = db_tasks d ∧
  ∀ id r', dict_get id (db_runs d') = Some r' →
    ∃ r, dict_get id (db_runs d) = Some r ∧ (rn_status r' = rn_status r ∨ rn_status r' = "failed").



Lemma runs_fail_aside d d' : aside d d' → runs_fail d d'.
Proof. intros [Ht Hr]. split; [done|]. rewrite Hr. intros id r' H. exists r'. by split; [|left]. Qed.




(** ** The reaper returns *)

Definition attempts_keyed (d : Db) : Prop :=
  Forall (λ p, at_id p.2 = p.1) (db_attempts d) ∧ NoDup (dict_keys (db_attempts d)).


Lemma latest_attempt_row id d a :
  attempts_keyed d → _latest_attempt id d = Some a → dict_get (at_id a) (db_attempts d) = Some a.
Proof.
  intros [Hk Hnd] H. unfold _latest_attempt in H.
  set (l := List.filter _ _) in H. destruct (stable_sort _ l) as [|x tl] eqn:E; [done|]. injection H as ->.
  assert (a ∈ l) as Ha by (rewrite <-(stable_sort_perm (λ a b, at_attempt_no b <=? at_attempt_no a)), E; left).
  subst l. apply list_elem_of_In, filter_In in Ha as [Ha%list_elem_of_In _].
  apply list_elem_of_fmap in Ha as ([k a']&->&Hin). rewrite Forall_forall in Hk. specialize (Hk _ Hin).
  simpl in *. rewrite Hk. by apply dict_elem_get.
Qed.

Lemma dict_set_forall (P : Z * RunAttempt → Prop) k v (l : dict Z RunAttempt) :
  P (k, v) → Forall P l → Forall P (dict_set k v l).
Proof.
  intros Hv Hl. apply Forall_forall. intros [k' v'] Hin. rewrite Forall_forall in Hl.
  apply dict_elem_set in Hin as [[-> ->]|Hin]; [done|]. by apply Hl.
Qed.

Lemma fail_attempt_total ms_of id now d :
  attempts_keyed d → ∃ d', _fail_attempt_for_reaper ms_of (_latest_attempt id d) now d = (Ret tt, d') ∧
    attempts_keyed d' ∧ aside d d'.
Proof.
  intros Hk. destruct (_latest_attempt id d) as [a|] eqn:E; [|by exists d]. unfold _fail_attempt_for_reaper.
  case_bool_decide as Hs; [|by exists d]. rewrite Hs.
  assert (dict_get (at_id a) (db_attempts d) = Some a) as Ha by by eapply latest_attempt_row.
  unfold mbind, M_bind.
  change (assert_run_attempt_transition "running" "failed" d) with (Ret tt : outcome unit, d).
  unfold on_attempt_row, zoom, on_key. rewrite Ha. eexists. split; [reflexivity|]. split; [|done].
  destruct Hk as [Hk Hnd]. split; [|by apply dict_set_nodup]. apply dict_set_forall; [|done]. simpl.
  by destruct (at_started_at _).
Qed.


Lemma fail_run_raises run now d r :
  dict_get run (db_runs d) = Some r → rn_status r ∈ ["succeeded"; "cancelled"; "timeout"; "interrupted"] →
  ∃ d', fail_run_for_reaper run now d = (Raise (InvalidStateTransitionError "run" (rn_status r) "failed"), d').
Proof.
  intros Hr Hs. unfold fail_run_for_reaper. unfold mbind at 1, M_bind at 1. cbn [get_state].
  rewrite Hr. rewrite !elem_of_cons, elem_of_nil in Hs.
  rewrite bool_decide_false by (destruct_or? Hs; by rewrite Hs).
  unfold on_run_row, zoom, on_key. rewrite Hr. unfold mbind, M_bind, get_state, mret, M_ret.
  rewrite bool_decide_false by (destruct_or? Hs; by rewrite Hs).
  destruct Hs as [Hs|[Hs|[Hs|[Hs|[]]]]]; rewrite Hs; by eexists.
Qed.


(** * All expired tasks *)



Definition expired_rows (now : Z) (d : Db) : list Task :=
  List.filter (expired_row now) (dict_values (db_tasks d)).


Lemma expired_rows_in now d t :
  db_wf d → t ∈ expired_rows now d → expired_row now t = true ∧ dict_get (tk_id t) (db_tasks d) = Some t.
Proof.
  intros Hwf [Hin%list_elem_of_In He]%list_elem_of_In%filter_In. split; [done|by apply wf_row].
Qed.




(** A run that has ended or is interrupted while its task still counts as
    running blocks the queue: when the first expired task is on its last attempt
    and its run is succeeded, cancelled, timed out or interrupted, the reaper
    raises, and because every [lease] reaps first, no worker gets a task from any
    queue; the transaction is rolled back, so the next call meets the same rows. *)
Theorem lease_blocked_by_reaper ms_of quota env q w secs b t rest r
    (Hwf : db_wf (sb_db b)) (Hk : attempts_keyed (sb_db b))
    (Hexp : expired_rows (sb_now b (sb_ticks b)) (sb_db b) = t :: rest)
    (Hs : tk_status t = "running") (Hlast : tk_max_attempts t ≤ tk_attempt t + 1)
    (Hr : dict_get (tk_run_id t) (db_runs (sb_db b)) = Some r)
    (Hrs : rn_status r ∈ ["succeeded"; "cancelled"; "timeout"; "interrupted"]) :
  session_scope (sql_lease ms_of quota env q w secs) b =
    (Raise (InvalidStateTransitionError "run" (rn_status r) "failed"), b).
Proof.
  assert (t ∈ expired_rows (sb_now b (sb_ticks b)) (sb_db b)) as Hin by (rewrite Hexp; left).
  destruct (expired_rows_in _ _ _ Hwf Hin) as [_ Ht].
  assert (∃ d', reap_row ms_of (sb_now b (sb_ticks b)) (tk_id t) (sb_db b)
    = (Raise (InvalidStateTransitionError "run" (rn_status r) "failed"), d')) as [d' E].
  { unfold reap_row. unfold mbind at 1, M_bind at 1. rewrite task_run, Ht.
    unfold mbind at 1, M_bind at 1. cbn [get_state]. rewrite bool_decide_true by done.
    destruct (fail_attempt_total ms_of (tk_id t) (sb_now b (sb_ticks b)) _ Hk) as (d1&E1&_&Ht1&Hr1).
    unfold mbind at 1, M_bind at 1. rewrite E1. rewrite (proj2 (Z.leb_le _ _)) by done.
    unfold dead_letter_row. unfold mbind at 1, M_bind at 1. rewrite move_task_run, Ht1, Ht, Hs.
    change (allowed TASK_TRANSITIONS "running" "dead_letter") with true. cbv iota beta.
    unfold mbind at 1, M_bind at 1. rewrite set_task_run. simpl. rewrite dict_get_set_eq.
    unfold mbind at 1, M_bind at 1.
    match goal with |- context [fail_run_for_reaper ?x ?y ?z] =>
      destruct (fail_run_raises x y z r) as (d2&E2); [simpl; by rewrite Hr1|done|]; rewrite E2 end.
    by eexists. }
  unfold session_scope, sql_lease. unfold mbind at 1, M_bind at 1.
  unfold sql_reap_expired_leases, _now, in_db. m_unfold. simpl.
  change (List.filter (expired_row (sb_now b (sb_ticks b))) _) with (expired_rows (sb_now b (sb_ticks b)) (sb_db b)).
  rewrite Hexp. simpl. unfold mbind at 1, M_bind at 1. by rewrite E.
Qed.

(** * Examples *)

(** Task 1 is running at w1 and its lease has expired at the next reading of the
    clock. *)
Definition demo_expired_sql : SQLAlchemyTaskBackend := Eval vm_compute in
  foldl (sql_step demo_str demo_ms None) demo_leased_sql [SMarkRunning 1 "w1" 1].



(** The same with a cancelled run and no attempts left. *)
Definition demo_blocked_sql : SQLAlchemyTaskBackend := Eval vm_compute in
  demo_expired_sql <| sb_db :=
    ((foldl (λ d id, (set_task id (λ t, t <| tk_max_attempts := 1 |>) d).2) (sb_db demo_expired_sql) [1; 2])
      <| db_runs := [(1, demo_run <| rn_status := "cancelled" |>)] |>) |>.

Lemma lease_blocked_by_reaper_witness :
  session_scope (sql_lease demo_ms None calm "b" "w2" 30) demo_blocked_sql
  = (Raise (InvalidStateTransitionError "run" "cancelled" "failed"), demo_blocked_sql).
Proof.
  refine (lease_blocked_by_reaper demo_ms None calm "b" "w2" 30 demo_blocked_sql _ [] (demo_run <| rn_status := "cancelled" |>)
    _ _ _ _ _ _ _).
  - split; [apply (bool_decide_unpack _); by vm_compute|by repeat constructor].
  - split; constructor.
  - vm_compute. reflexivity.
  - reflexivity.
  - reflexivity.
  - reflexivity.
  - apply (bool_decide_unpack _). by vm_compute.
Defined.
