(* ===== verification/Streaming.v ===== *)
(** Run events and their delivery: [core/events.py], the replay buffer of
    [streaming/replay_buffer.py] and the in-process fan-out hub of
    [streaming/fanout.py]. *)

From S2P Require Import Prelude Values Json.

(** * Events *)

Record AgentEvent := mkAgentEvent {
  ev_type : string;
  ev_payload : pydict;
  ev_run_id : option Z;
  ev_attempt_id : option Z;
  ev_sequence : option Z;
  ev_event_id : option string;
  ev_framework : option string;
  ev_created_at : Z;
  ev_visibility_level : string
}.
#[export] Instance AgentEvent_eta : Eta AgentEvent := λ e,
  mkAgentEvent (ev_type e) (ev_payload e) (ev_run_id e) (ev_attempt_id e) (ev_sequence e)
    (ev_event_id e) (ev_framework e) (ev_created_at e) (ev_visibility_level e).

(** [f"{run_id}:{sequence}"] *)
Definition event_id_of (run_id sequence : Z) : string := pretty run_id +:+ ":" +:+ pretty sequence.

(** [AgentEvent.__post_init__]: fills a missing event id. *)
Definition post_init (e : AgentEvent) : AgentEvent :=
  match ev_event_id e, ev_run_id e, ev_sequence e with
  | None, Some r, Some s => e <| ev_event_id := Some (event_id_of r s) |>
  | _, _, _ => e
  end.

(** [AgentEvent(type=..., payload=...)] with the defaults of the other fields. *)
Definition new_event (now : Z) (type : string) (payload : pydict) : AgentEvent :=
  post_init (mkAgentEvent type payload None None None None None now "internal").

Record AgentResult := mkAgentResult {
  ar_output : pydict;
  ar_events : list AgentEvent;
  ar_metadata : pydict
}.

(** * Replay buffer *)

Record ReplayBuffer := mkReplayBuffer {
  max_events_per_run : Z;
  max_payload_bytes : Z;
  rb_events : dict Z (list AgentEvent);
  rb_next_sequence : dict Z Z
}.
#[export] Instance ReplayBuffer_eta : Eta ReplayBuffer := λ b,
  mkReplayBuffer (max_events_per_run b) (max_payload_bytes b) (rb_events b) (rb_next_sequence b).

Definition new_replay_buffer (max_events max_bytes : Z) : ReplayBuffer :=
  mkReplayBuffer max_events max_bytes [] [].

(** The payload, or a reference in place of one whose JSON is too long. *)
Definition _payload_or_ref (run_id sequence : Z) (payload : pydict) : M ReplayBuffer pydict :=
  b ← get_state;
  encoded ← of_option (json_dumps (VDict payload)) type_error;
  if str_len encoded <=? max_payload_bytes b then mret payload
  else mret [("payload_ref", VStr ("artifact://" +:+ pretty run_id +:+ "/" +:+ pretty sequence));
             ("truncated", VBool true)].

(** [del events[:len(events) - n]] when there are more than [n] of them. *)
Definition keep_last {A} (n : Z) (l : list A) : list A :=
  let len := Z.of_nat (length l) in
  if n <? len then drop (Z.to_nat (len - n)) l else l.

Definition append (run_id : Z) (attempt_id : option Z) (event : AgentEvent)
  : M ReplayBuffer AgentEvent :=
  b ← get_state;
  let sequence := default 1 (dict_get run_id (rb_next_sequence b)) in
  payload ← _payload_or_ref run_id sequence (ev_payload event);
  let stored := post_init (event <| ev_run_id := Some run_id |> <| ev_attempt_id := attempt_id |>
    <| ev_sequence := Some sequence |> <| ev_event_id := Some (event_id_of run_id sequence) |>
    <| ev_payload := payload |>) in
  modify (λ b,
    let events := default [] (dict_get run_id (rb_events b)) ++ [stored] in
    b <| rb_events := dict_set run_id (keep_last (max_events_per_run b) events) (rb_events b) |>) ;;
  modify (λ b, b <| rb_next_sequence := dict_set run_id (sequence + 1) (rb_next_sequence b) |>) ;;
  mret stored.

Definition _parse_event_id (run_id : Z) (event_id : string) : M ReplayBuffer Z :=
  match strip_prefix (pretty run_id +:+ ":") event_id with
  | None => raise (ValueError "Last-Event-ID does not match run_id")
  | Some rest => of_option (py_int rest) (ValueError rest)
  end.

(** [events and events[0].sequence is not None and last_sequence < events[0].sequence] *)
Definition starts_after (last_sequence : Z) (events : list AgentEvent) : bool :=
  match events with
  | e :: _ => match ev_sequence e with Some s => last_sequence <? s | None => false end
  | [] => false
  end.

Definition replay (run_id : Z) (last_event_id : option string) : M ReplayBuffer (list AgentEvent) :=
  b ← get_state;
  let events := default [] (dict_get run_id (rb_events b)) in
  match last_event_id with
  | None => mret events
  | Some id =>
      last_sequence ← _parse_event_id run_id id;
      if starts_after last_sequence events
      then raise (ReplayExpiredError
        (pretty run_id +:+ ":replay-expired:" +:+ pretty last_sequence))
      else mret (List.filter (λ e,
        match ev_sequence e with Some s => last_sequence <? s | None => false end) events)
  end.

(** * Fan-out hub *)

Record StreamSubscriber := mkStreamSubscriber {
  subscriber_id : string;
  max_buffer_size : Z;
  buffer : list AgentEvent;
  disconnected : bool;
  disconnect_reason : option string
}.
#[export] Instance StreamSubscriber_eta : Eta StreamSubscriber := λ s,
  mkStreamSubscriber (subscriber_id s) (max_buffer_size s) (buffer s) (disconnected s)
    (disconnect_reason s).

(** [push] returns, or raises [StreamBackpressureError] and disconnects. *)
Definition push (event : AgentEvent) : M StreamSubscriber unit :=
  s ← get_state;
  if disconnected s then mret tt
  else if max_buffer_size s <=? Z.of_nat (length (buffer s)) then
    modify (λ s, s <| disconnected := true |>) ;;
    modify (λ s, s <| disconnect_reason := Some "stream_backpressure" |>) ;;
    raise (RuntimeError "stream_backpressure")
  else modify (λ s, s <| buffer := buffer s ++ [event] |>).

Definition drain_subscriber : M StreamSubscriber (list AgentEvent) :=
  s ← get_state;
  modify (λ s, s <| buffer := [] |>) ;;
  mret (buffer s).

(** Subscriber objects are shared between the hub and the callers of
    [subscribe], so they live in a store indexed by reference; the hub maps a
    run to its subscribers' references by subscriber id. *)
Record StreamFanOutHub := mkHub {
  hub_max_buffer_size : Z;
  hub_objects : dict Z StreamSubscriber;
  hub_next_ref : Z;
  hub_subscribers : dict Z (dict string Z)
}.
#[export] Instance StreamFanOutHub_eta : Eta StreamFanOutHub := λ h,
  mkHub (hub_max_buffer_size h) (hub_objects h) (hub_next_ref h) (hub_subscribers h).

Definition new_hub (max_size : Z) : StreamFanOutHub := mkHub max_size [] 1 [].

(** Returns the reference of the new subscriber object. *)
Definition subscribe (run_id : Z) (sid : string) : M StreamFanOutHub Z :=
  h ← get_state;
  let ref := hub_next_ref h in
  modify (λ h, h <| hub_objects :=
    dict_set ref (mkStreamSubscriber sid (hub_max_buffer_size h) [] false None) (hub_objects h) |>
    <| hub_next_ref := ref + 1 |>) ;;
  modify (λ h, h <| hub_subscribers :=
    dict_set run_id (dict_set sid ref (default [] (dict_get run_id (hub_subscribers h))))
      (hub_subscribers h) |>) ;;
  mret ref.

Definition unsubscribe (run_id : Z) (sid : string) : M StreamFanOutHub unit :=
  modify (λ h,
    match dict_get run_id (hub_subscribers h) with
    | Some subs => h <| hub_subscribers := dict_set run_id (dict_pop sid subs) (hub_subscribers h) |>
    | None => h
    end).

(** One iteration of the loop of [publish]: 1 when the event was delivered. *)
Definition publish_one (run_id : Z) (event : AgentEvent) (ref : Z) : M StreamFanOutHub Z :=
  h ← get_state;
  match dict_get ref (hub_objects h) with
  | None => raise (KeyError (pretty ref))
  | Some s =>
      let '(r, s') := push event s in
      modify (λ h, h <| hub_objects := dict_set ref s' (hub_objects h) |>) ;;
      match r with
      | Ret _ => mret 1
      | Raise _ => unsubscribe run_id (subscriber_id s) ;; mret 0
      end
  end.

Fixpoint publish_all (run_id : Z) (event : AgentEvent) (refs : list Z) (delivered : Z)
  : M StreamFanOutHub Z :=
  match refs with
  | [] => mret delivered
  | ref :: refs' =>
      d ← publish_one run_id event ref;
      publish_all run_id event refs' (delivered + d)
  end.

Definition publish (run_id : Z) (event : AgentEvent) : M StreamFanOutHub Z :=
  h ← get_state;
  publish_all run_id event
    (dict_values (default [] (dict_get run_id (hub_subscribers h)))) 0.

Definition subscriber_count (run_id : Z) : M StreamFanOutHub Z :=
  h ← get_state;
  mret (Z.of_nat (length (default [] (dict_get run_id (hub_subscribers h))))).

(** * The replay buffer against the complete log of a run *)

(** A call of [append]. *)
Record append_call := mkAppend {
  ac_run : Z;
  ac_attempt : option Z;
  ac_event : AgentEvent
}.

Definition exec_appends (b : ReplayBuffer) (calls : list append_call) : ReplayBuffer :=
  foldl (λ b c, (append (ac_run c) (ac_attempt c) (ac_event c) b).2) b calls.

(** Every event the calls returned for the run, oldest first: the log an
    unbounded buffer would hold. *)
Fixpoint run_log (run : Z) (b : ReplayBuffer) (calls : list append_call) : list AgentEvent :=
  match calls with
  | [] => []
  | c :: calls' =>
      match append (ac_run c) (ac_attempt c) (ac_event c) b with
      | (Ret e, b') => (if ac_run c =? run then [e] else []) ++ run_log run b' calls'
      | (Raise _, b') => run_log run b' calls'
      end
  end.

(** The buffer holds the most recent events of the log, numbered from 1. *)
Definition represents (run : Z) (n : Z) (b : ReplayBuffer) (l : list AgentEvent) : Prop :=
  max_events_per_run b = n ∧
  default [] (dict_get run (rb_events b)) = keep_last n l ∧
  default 1 (dict_get run (rb_next_sequence b)) = Z.of_nat (length l) + 1 ∧
  ∀ i e, l !! i = Some e → ev_sequence e = Some (Z.of_nat i + 1) ∧
    ev_event_id e = Some (event_id_of run (Z.of_nat i + 1)).

Lemma keep_last_skip {A} n (l : list A) : ∃ k, keep_last n l = drop k l ∧
  (1 ≤ n → Z.of_nat k = Z.max 0 (Z.of_nat (length l) - n)).
Proof.
  unfold keep_last. destruct (n <? Z.of_nat (length l)) eqn:E.
  - eexists. split; [done|]. blia.
  - exists 0%nat. split; [done|]. blia.
Qed.

Lemma keep_last_snoc {A} n (l : list A) x : keep_last n (keep_last n l ++ [x]) = keep_last n (l ++ [x]).
Proof.
  unfold keep_last at 2. destruct (n <? Z.of_nat (length l)) eqn:E; [|done].
  unfold keep_last. rewrite !length_app, length_drop. simpl.
  destruct (n <? Z.of_nat (length l + 1)) eqn:E2; [|exfalso; blia].
  destruct (decide (0 ≤ n)) as [Hn|Hn].
  - assert (length l - Z.to_nat (Z.of_nat (length l) - n) + 1 = S (Z.to_nat n))%nat as -> by blia.
    destruct (n <? Z.of_nat (S (Z.to_nat n))) eqn:E1; [|exfalso; blia].
    rewrite <-(drop_app_le l [x]), drop_drop by blia. f_equal. blia.
  - rewrite (drop_ge l), (drop_ge (l ++ [x])) by (rewrite ?length_app; simpl; blia).
    case_match eqn:E1; [|exfalso; blia]. rewrite drop_ge; [done|]. simpl. blia.
Qed.

Lemma keep_last_drop {A} (n : Z) (l : list A) : keep_last n l = drop (length l - Z.to_nat n) l.
Proof.
  unfold keep_last. destruct (n <? _) eqn:E; b2p.
  - destruct (decide (0 ≤ n)); [f_equal; lia|]. rewrite !drop_ge; [done|lia|lia].
  - by replace (length l - Z.to_nat n)%nat with 0%nat by lia.
Qed.

Lemma post_init_sequence e s : ev_event_id e = Some s → post_init e = e.
Proof. intros H. unfold post_init. by rewrite H. Qed.

Lemma append_run run att ev b :
  let seq := default 1 (dict_get run (rb_next_sequence b)) in
  (∃ e p, append run att ev b = (Ret e, b <| rb_events := dict_set run
      (keep_last (max_events_per_run b) (default [] (dict_get run (rb_events b)) ++ [e]))
      (rb_events b) |> <| rb_next_sequence := dict_set run (seq + 1) (rb_next_sequence b) |>) ∧
    e = ev <| ev_run_id := Some run |> <| ev_attempt_id := att |> <| ev_sequence := Some seq |>
          <| ev_event_id := Some (event_id_of run seq) |> <| ev_payload := p |>) ∨
  append run att ev b = (Raise type_error, b).
Proof.
  intros seq. unfold append, _payload_or_ref. m_unfold. simpl.
  destruct (json_dumps (VDict (ev_payload ev))) as [enc|]; simpl; [|by right].
  left. destruct (str_len enc <=? max_payload_bytes b); simpl; by repeat eexists.
Qed.

Lemma append_represents run n b l c :
  represents run n b l →
  match append (ac_run c) (ac_attempt c) (ac_event c) b with
  | (Ret e, b') => represents run n b' (l ++ (if ac_run c =? run then [e] else []))
  | (Raise _, b') => b' = b
  end.
Proof.
  intros (Hn&Hev&Hseq&Hnum).
  destruct (append_run (ac_run c) (ac_attempt c) (ac_event c) b) as [(e&p&->&He)| ->]; [|done].
  unfold represents. simpl. rewrite !dict_get_set.
  destruct (ac_run c =? run) eqn:E; simplify_eq/=.
  - apply Z.eqb_eq in E as ->. rewrite !decide_True by done. simpl. rewrite Hev, Hseq.
    rewrite keep_last_snoc, length_app. simpl. split_and!; [done|done|lia|].
    intros i e' [[_ Hi]|[-> <-]]%lookup_snoc_Some; [by apply Hnum|done].
  - apply Z.eqb_neq in E. rewrite !decide_False, app_nil_r by done. by split_and!.
Qed.

Lemma exec_represents run n b l calls :
  represents run n b l → represents run n (exec_appends b calls) (l ++ run_log run b calls).
Proof.
  revert b l. induction calls as [|c calls IH]; intros b l Hr; simpl; [by rewrite app_nil_r|].
  pose proof (append_represents run n b l c Hr) as Ha.
  destruct (append _ _ _ b) as [[e|e] b']; simpl.
  - specialize (IH _ _ Ha). by rewrite <-app_assoc in IH.
  - subst. by apply IH.
Qed.

Lemma new_buffer_represents run n m : represents run n (new_replay_buffer n m) [].
Proof.
  unfold represents. simpl. split_and!; [done| |done|done].
  unfold keep_last. simpl. case_match; [by rewrite drop_nil|done].
Qed.

(** The numbered events after position [k], read off the retained suffix. *)
Lemma filter_after (l : list AgentEvent) (d k : nat) :
  (∀ i e, l !! i = Some e → ev_sequence e = Some (Z.of_nat i + 1)) → (d ≤ k)%nat →
  List.filter (λ e, match ev_sequence e with Some s => Z.of_nat k <? s | None => false end) (drop d l)
  = drop k l.
Proof.
  intros Hnum Hle. remember (k - d)%nat as j eqn:Hj. revert d Hle Hj.
  induction j as [|j IH]; intros d Hle Hj.
  - replace d with k by lia. assert (∀ e, e ∈ drop k l →
      match ev_sequence e with Some s => Z.of_nat k <? s | None => false end = true) as Hall.
    { intros e (i&Hi)%list_elem_of_lookup. rewrite lookup_drop in Hi.
      rewrite (Hnum _ _ Hi). apply Z.ltb_lt. lia. }
    clear -Hall. induction (drop k l) as [|x t IHt]; [done|]. simpl.
    rewrite Hall by left. f_equal. apply IHt. intros e He. apply Hall. by right.
  - destruct (l !! d) as [e|] eqn:E.
    + rewrite (drop_S _ _ _ E). simpl. rewrite (Hnum _ _ E).
      destruct (Z.of_nat k <? Z.of_nat d + 1) eqn:El; [lia|]. apply IH; lia.
    + apply lookup_ge_None in E. rewrite !drop_ge by lia. done.
Qed.

Lemma parse_own_event_id run k b :
  0 ≤ k → _parse_event_id run (event_id_of run k) b = (Ret k, b).
Proof.
  intros Hk. unfold _parse_event_id, event_id_of.
  replace (pretty run +:+ ":" +:+ pretty k) with ((pretty run +:+ ":") +:+ pretty k)
    by by rewrite string_app_assoc.
  rewrite strip_prefix_app. by rewrite py_int_pretty.
Qed.


(** Whatever sequence of [append] calls was made, replaying a run without a
    [Last-Event-ID] returns exactly the last [max_events_per_run] events of the
    run's complete log, and the i-th event of that log carries the sequence
    number i and the id "run:i"; so memory is bounded and numbering has no gap
    or repetition, across the trimming and across other runs' events. *)
Theorem replay_window (n m : Z) (calls : list append_call) (run : Z) :
  let b := exec_appends (new_replay_buffer n m) calls in
  let log := run_log run (new_replay_buffer n m) calls in
  replay run None b = (Ret (drop (length log - Z.to_nat n) log), b) ∧
  (∀ i e, log !! i = Some e → ev_sequence e = Some (Z.of_nat i + 1) ∧
     ev_event_id e = Some (event_id_of run (Z.of_nat i + 1))).
Proof.
  intros b log. destruct (exec_represents run n _ [] calls (new_buffer_represents run n m))
    as (Hn&Hev&Hseq&Hnum). simpl in *. fold b log in Hev, Hseq, Hnum.
  split; [|done]. unfold replay. m_unfold. simpl. by rewrite Hev, keep_last_drop.
Qed.

(** C15: resuming after event [k] of a run never loses, repeats or reorders an
    event: it returns exactly the events of the complete log after the k-th, or
    raises [ReplayExpiredError]; and it raises exactly when [k] is not newer than
    the last event trimmed from the buffer (for a run with no event it never
    raises). *)
Theorem replay_resume (n m : Z) (calls : list append_call) (run k : Z) (Hn : 1 ≤ n) (Hk : 0 ≤ k) :
  let b := exec_appends (new_replay_buffer n m) calls in
  let log := run_log run (new_replay_buffer n m) calls in
  let trimmed := Z.max 0 (Z.of_nat (length log) - n) in
  replay run (Some (event_id_of run k)) b =
    (if bool_decide (log ≠ []) && (k <=? trimmed)
     then Raise (ReplayExpiredError (pretty run +:+ ":replay-expired:" +:+ pretty k))
     else Ret (drop (Z.to_nat k) log), b).
Proof.
  intros b log trimmed.
  destruct (exec_represents run n _ [] calls (new_buffer_represents run n m))
    as (_&Hev&_&Hids). simpl in *. fold b log in Hev, Hids.
  pose proof (λ i e H, proj1 (Hids i e H)) as Hnum.
  unfold replay. m_unfold. rewrite parse_own_event_id by done. simpl. rewrite Hev.
  destruct (keep_last_skip n log) as (d&->&Hd). specialize (Hd Hn).
  rewrite <-(Z2Nat.id k) in * by done. rewrite Nat2Z.id in *. set (j := Z.to_nat k) in *.
  destruct (log !! d) as [e|] eqn:E.
  - rewrite bool_decide_true by (intros Hnil; by rewrite Hnil, lookup_nil in E). simpl.
    assert (starts_after (Z.of_nat j) (drop d log) = (Z.of_nat j <? Z.of_nat d + 1)) as ->.
    { rewrite (drop_S _ _ _ E). simpl. by rewrite (Hnum _ _ E). }
    destruct (Z.of_nat j <? Z.of_nat d + 1) eqn:E1, (Z.of_nat j <=? trimmed) eqn:E2;
      subst trimmed; b2p; try (exfalso; lia); [done|]. by rewrite filter_after by (done || lia).
  - apply lookup_ge_None in E. assert (log = []) as ->.
    { apply nil_length_inv. lia. }
    rewrite drop_nil. simpl. by rewrite drop_nil.
Qed.

Definition sample_appends : list append_call :=
  [mkAppend 7 None (new_event 0 "run.started" []);
   mkAppend 8 None (new_event 0 "run.started" []);
   mkAppend 7 (Some 1) (new_event 0 "token" [("t", VStr "a")]);
   mkAppend 7 (Some 1) (new_event 0 "run.completed" [])].

Lemma replay_resume_witness :
  replay 7 (Some (event_id_of 7 2)) (exec_appends (new_replay_buffer 2 100) sample_appends) =
    (Ret [post_init (mkAgentEvent "run.completed" [] (Some 7) (Some 1) (Some 3) None None 0 "internal")],
     exec_appends (new_replay_buffer 2 100) sample_appends).
Proof.
  etrans; [apply (replay_resume 2 100 sample_appends 7 2); lia|]. vm_compute. reflexivity.
Defined.

(** * The fan-out hub *)

Definition subs (run : Z) (h : StreamFanOutHub) : dict string Z :=
  default [] (dict_get run (hub_subscribers h)).

Definition has_room (s : StreamSubscriber) : bool :=
  Z.of_nat (length (buffer s)) <? max_buffer_size s.

(** A hub's subscribers are live objects, each in one place, under its own id,
    and no buffer is over its limit. *)
Record hub_wf (h : StreamFanOutHub) : Prop := {
  wf_subs_nodup : ∀ run, NoDup (dict_keys (subs run h));
  wf_subs_live : ∀ run sid ref, dict_get sid (subs run h) = Some ref →
    ∃ s, dict_get ref (hub_objects h) = Some s ∧ subscriber_id s = sid ∧ disconnected s = false;
  wf_subs_inj : ∀ run run' sid sid' ref, dict_get sid (subs run h) = Some ref →
    dict_get sid' (subs run' h) = Some ref → run = run' ∧ sid = sid';
  wf_fresh : ∀ ref, is_Some (dict_get ref (hub_objects h)) → ref < hub_next_ref h;
  wf_bounded : ∀ ref s, dict_get ref (hub_objects h) = Some s →
    max_buffer_size s = hub_max_buffer_size h ∧ Z.of_nat (length (buffer s)) ≤ Z.max 0 (max_buffer_size s)
}.

(** The holder of a subscriber reference empties its buffer. *)
Definition drain (ref : Z) : M StreamFanOutHub (list AgentEvent) :=
  zoom hub_objects (λ o h, h <| hub_objects := o |>)
    (on_key ref (KeyError (pretty ref)) drain_subscriber).

Inductive hub_op :=
| HSubscribe (run : Z) (sid : string)
| HUnsubscribe (run : Z) (sid : string)
| HPublish (run : Z) (event : AgentEvent)
| HDrain (ref : Z).

Definition hub_step (h : StreamFanOutHub) (op : hub_op) : StreamFanOutHub :=
  match op with
  | HSubscribe run sid => (subscribe run sid h).2
  | HUnsubscribe run sid => (unsubscribe run sid h).2
  | HPublish run event => (publish run event h).2
  | HDrain ref => (drain ref h).2
  end.

(** What one publication does to a subscriber that is still connected. *)
Definition offer (event : AgentEvent) (s : StreamSubscriber) : StreamSubscriber :=
  if has_room s then s <| buffer := buffer s ++ [event] |>
  else s <| disconnected := true |> <| disconnect_reason := Some "stream_backpressure" |>.

Lemma push_connected event s : disconnected s = false →
  push event s = (if has_room s then Ret tt else Raise (RuntimeError "stream_backpressure"), offer event s).
Proof.
  intros H. unfold push, offer, has_room. m_unfold. rewrite H.
  rewrite Z.ltb_antisym. by destruct (_ <=? _).
Qed.

Lemma subs_set run run' d h :
  subs run' (h <| hub_subscribers := dict_set run d (hub_subscribers h) |>) =
  if decide (run = run') then d else subs run' h.
Proof. unfold subs. simpl. rewrite dict_get_set. by case_decide. Qed.

Lemma subs_unsubscribe run sid run' h :
  subs run' (unsubscribe run sid h).2 =
  if decide (run = run') then dict_pop sid (subs run h) else subs run' h.
Proof.
  unfold unsubscribe. m_unfold. simpl. destruct (dict_get run (hub_subscribers h)) eqn:E.
  - unfold subs. simpl. rewrite dict_get_set, E. by case_decide.
  - case_decide; subst; [|done]. unfold subs. by rewrite E.
Qed.

Lemma objects_unsubscribe run sid h :
  hub_objects (unsubscribe run sid h).2 = hub_objects h.
Proof. unfold unsubscribe. m_unfold. simpl. by destruct (dict_get run _). Qed.

Definition room_at (h : StreamFanOutHub) (ref : Z) : bool :=
  match dict_get ref (hub_objects h) with Some s => has_room s | None => false end.

(** The subscriber stored under [ref] is connected and has the id [sid]. *)
Definition connected (h : StreamFanOutHub) (sid : string) (ref : Z) : Prop :=
  ∃ s, dict_get ref (hub_objects h) = Some s ∧ subscriber_id s = sid ∧ disconnected s = false.

Definition same_config (h h' : StreamFanOutHub) : Prop :=
  hub_max_buffer_size h' = hub_max_buffer_size h ∧ hub_next_ref h' = hub_next_ref h.

Lemma publish_one_spec run event sid ref h :
  connected h sid ref →
  ∃ h', publish_one run event ref h = (Ret (if room_at h ref then 1 else 0), h') ∧
    same_config h h' ∧
    (∀ ref', dict_get ref' (hub_objects h') =
      if decide (ref = ref') then offer event <$> dict_get ref (hub_objects h)
      else dict_get ref' (hub_objects h)) ∧
    (∀ run', subs run' h' =
      if decide (run = run') then (if room_at h ref then subs run h else dict_pop sid (subs run h))
      else subs run' h).
Proof.
  intros (s&Hs&<-&Hc). unfold publish_one, room_at, get_state, modify, mbind, M_bind. rewrite Hs.
  rewrite push_connected by done. simpl. destruct (has_room s) eqn:Hr; simpl.
  - eexists. split; [done|]. split; [done|]. simpl. split.
    + intros ref'. rewrite dict_get_set. by case_decide.
    + intros run'. by case_decide; subst.
  - eexists. split; [done|]. unfold subs.
    destruct (dict_get run (hub_subscribers h)) eqn:E; split; [done| |done|]; simpl; split.
    + intros ref'. rewrite dict_get_set. by case_decide.
    + intros run'. rewrite dict_get_set. by case_decide.
    + intros ref'. rewrite dict_get_set. by case_decide.
    + intros run'. case_decide; [subst; by rewrite E|done].
Qed.

Lemma publish_all_spec run event (l : dict string Z) n h :
  NoDup (dict_values l) → (∀ sid ref, (sid, ref) ∈ l → connected h sid ref) →
  ∃ h', publish_all run event (dict_values l) n h
      = (Ret (n + count (λ p, room_at h p.2) l), h') ∧
    same_config h h' ∧
    (∀ ref, dict_get ref (hub_objects h') =
      if decide (ref ∈ dict_values l) then offer event <$> dict_get ref (hub_objects h)
      else dict_get ref (hub_objects h)) ∧
    (∀ run', subs run' h' =
      if decide (run = run')
      then foldl (λ d p, if room_at h p.2 then d else dict_pop p.1 d) (subs run h) l
      else subs run' h).
Proof.
  revert n h. induction l as [|[sid ref] l IH]; intros n h Hnd Hc.
  { exists h. split; [|split; [done|split; [done|]]; intros run'; by case_decide; subst].
    cbn. unfold mret, M_ret. repeat f_equal. unfold count. simpl. lia. }
  apply NoDup_cons in Hnd as [Hni Hnd].
  destruct (publish_one_spec run event sid ref h) as (h1&H1&Hcfg1&Hobj1&Hsub1).
  { apply Hc. left. }
  assert (∀ ref', ref' ∈ dict_values l → dict_get ref' (hub_objects h1) = dict_get ref' (hub_objects h))
    as Hsame. { intros ref' Hin. rewrite Hobj1, decide_False; [done|]. by intros ->. }
  assert (∀ p, p ∈ l → room_at h1 p.2 = room_at h p.2) as Hroom.
  { intros p Hin. unfold room_at. rewrite Hsame; [done|]. by apply list_elem_of_fmap_2. }
  destruct (IH (n + if room_at h ref then 1 else 0) h1 Hnd) as (h2&H2&Hcfg2&Hobj2&Hsub2).
  { intros sid' ref' Hin. unfold connected. rewrite Hsame; [apply Hc; by right|].
    by apply (list_elem_of_fmap_2 snd l (sid', ref')). }
  exists h2. split; [|split; [|split]].
  - change (dict_values ((sid, ref) :: l)) with (ref :: dict_values l). cbn [publish_all].
    unfold mbind, M_bind. rewrite H1, H2. do 2 f_equal. rewrite count_cons, (count_ext _ _ _ Hroom).
    simpl. lia.
  - destruct Hcfg1, Hcfg2. split; congruence.
  - intros ref'. rewrite Hobj2. change (dict_values ((sid, ref) :: l)) with (ref :: dict_values l).
    rewrite !Hobj1. destruct (decide (ref' = ref)) as [->|Hne].
    + rewrite decide_False by done. rewrite !decide_True by (done || left). done.
    + rewrite !(decide_False (P := ref = ref')) by done.
      destruct (decide (ref' ∈ dict_values l)).
      * by rewrite decide_True by (by right).
      * rewrite decide_False; [done|]. by intros [?|?]%elem_of_cons.
  - intros run'. rewrite Hsub2. case_decide; [subst|by rewrite Hsub1, decide_False].
    rewrite Hsub1, decide_True by done. simpl. clear -Hroom.
    generalize (if room_at h ref then subs run' h else dict_pop sid (subs run' h)).
    induction l as [|p l IHl]; intros d; [done|]. simpl. rewrite Hroom by left.
    apply IHl. intros q Hq. apply Hroom. by right.
Qed.

Lemma foldl_pop_filter (room : Z → bool) (l d : dict string Z) :
  foldl (λ d p, if room p.2 then d else dict_pop p.1 d) d l =
  filter (λ q, Forall (λ p, room p.2 = true ∨ q.1 ≠ p.1) l) d.
Proof.
  revert d. induction l as [|p l IH]; intros d; simpl.
  { symmetry. apply filter_all. intros. by constructor. }
  rewrite IH. destruct (room p.2) eqn:E; [|unfold dict_pop; rewrite list_filter_filter];
    apply filter_iff_in; intros q _; rewrite Forall_cons, E; naive_solver.
Qed.

(** Keys being distinct, exactly the entries without room are removed. *)
Lemma filter_rooms (room : Z → bool) (d : dict string Z) : NoDup (dict_keys d) →
  filter (λ q, Forall (λ p, room p.2 = true ∨ q.1 ≠ p.1) d) d = filter (λ q, room q.2 = true) d.
Proof.
  intros Hnd. apply filter_iff_in. intros [sid ref] Hin. rewrite Forall_forall. split.
  - intros H. by destruct (H _ Hin).
  - intros H [sid' ref'] Hin'. destruct (decide (sid = sid')) as [<-|?]; [left|by right].
    apply (dict_elem_get _ _ _ Hnd) in Hin, Hin'. simpl in *. congruence.
Qed.

Lemma NoDup_fmap_fst_snd (d : dict string Z) : NoDup (dict_keys d) →
  (∀ sid sid' ref, (sid, ref) ∈ d → (sid', ref) ∈ d → sid = sid') → NoDup (dict_values d).
Proof.
  induction d as [|[sid ref] d IH]; intros Hnd Hinj; [constructor|].
  apply NoDup_cons in Hnd as [Hni Hnd]. apply NoDup_cons. split.
  - intros ([sid' ref']&Heq&Hin)%list_elem_of_fmap. simpl in Heq. subst.
    apply Hni, list_elem_of_fmap. exists (sid', ref'). split; [|done]. simpl.
    apply (Hinj _ _ ref'); [left|by right].
  - apply IH; [done|]. intros ??? H1 H2. eapply Hinj; by right.
Qed.

Lemma publish_spec run event h : hub_wf h →
  ∃ h', publish run event h = (Ret (count (λ p, room_at h p.2) (subs run h)), h') ∧
    same_config h h' ∧
    (∀ ref, dict_get ref (hub_objects h') =
      if decide (ref ∈ dict_values (subs run h)) then offer event <$> dict_get ref (hub_objects h)
      else dict_get ref (hub_objects h)) ∧
    (∀ run', subs run' h' =
      if decide (run = run') then filter (λ q, room_at h q.2 = true) (subs run h) else subs run' h).
Proof.
  intros Hwf. destruct (publish_all_spec run event (subs run h) 0 h) as (h'&H&Hc&Hobj&Hsub).
  - apply NoDup_fmap_fst_snd; [apply Hwf|]. intros sid sid' ref H1 H2.
    apply dict_elem_get in H1, H2; [|apply Hwf..]. by destruct (wf_subs_inj _ Hwf _ _ _ _ _ H1 H2).
  - intros sid ref Hin. apply dict_elem_get in Hin; [|apply Hwf]. by apply (wf_subs_live _ Hwf run).
  - exists h'. split; [done|]. split; [done|]. split; [done|]. intros run'. rewrite Hsub.
    case_decide; [|done]. by rewrite foldl_pop_filter, filter_rooms by apply Hwf.
Qed.

(** The subscriptions only lose entries and the surviving subscribers stay
    connected: what every operation but [subscribe] does. *)
Lemma hub_wf_shrink h h' : hub_wf h → same_config h h' →
  (∀ run, NoDup (dict_keys (subs run h'))) →
  (∀ run sid ref, dict_get sid (subs run h') = Some ref → dict_get sid (subs run h) = Some ref ∧
     ∀ s, dict_get ref (hub_objects h) = Some s → disconnected s = false →
       ∃ s', dict_get ref (hub_objects h') = Some s' ∧ subscriber_id s' = subscriber_id s ∧
         disconnected s' = false) →
  (∀ ref s', dict_get ref (hub_objects h') = Some s' → ∃ s, dict_get ref (hub_objects h) = Some s ∧
     max_buffer_size s' = max_buffer_size s ∧
     (Z.of_nat (length (buffer s)) ≤ Z.max 0 (max_buffer_size s) →
      Z.of_nat (length (buffer s')) ≤ Z.max 0 (max_buffer_size s))) →
  hub_wf h'.
Proof.
  intros Hwf [Hmax Hnext] Hnd Hsub Hobj. split.
  - done.
  - intros run sid ref [Hr Hlive]%Hsub. destruct (wf_subs_live _ Hwf _ _ _ Hr) as (s&Hs&<-&Hd).
    destruct (Hlive s Hs Hd) as (s'&?&?&?). by exists s'.
  - intros run run' sid sid' ref [H1 _]%Hsub [H2 _]%Hsub. by apply (wf_subs_inj _ Hwf _ _ _ _ _ H1 H2).
  - intros ref [s' (s&Hs&_)%Hobj]. rewrite Hnext. apply (wf_fresh _ Hwf). by exists s.
  - intros ref s' (s&Hs&Hm&Hb)%Hobj. destruct (wf_bounded _ Hwf _ _ Hs) as [Hms Hlen].
    rewrite Hm, Hmax. split; [done|by apply Hb].
Qed.

Lemma publish_wf run event h : hub_wf h → hub_wf (publish run event h).2.
Proof.
  intros Hwf. destruct (publish_spec run event h Hwf) as (h'&->&Hc&Hobj&Hsub). simpl.
  apply (hub_wf_shrink h); [done..| | |].
  - intros run'. rewrite Hsub. case_decide; [apply dict_filter_nodup|]; apply Hwf.
  - intros run' sid ref. rewrite Hsub. case_decide; subst.
    + intros [Hroom Hr]%dict_get_elem%list_elem_of_filter. simpl in Hroom.
      apply dict_elem_get in Hr; [|apply Hwf]. split; [done|]. intros s Hs Hd. rewrite Hobj, Hs. simpl.
      unfold room_at in Hroom. rewrite Hs in Hroom. unfold offer. rewrite Hroom.
      case_decide; eexists; by split_and!.
    + intros Hr. split; [done|]. intros s Hs Hd. rewrite Hobj, decide_False; [by exists s|].
      intros ([sid' ref']&Heq&Hin)%list_elem_of_fmap. simpl in Heq. subst.
      apply dict_elem_get in Hin; [|apply Hwf]. by destruct (wf_subs_inj _ Hwf _ _ _ _ _ Hr Hin).
  - intros ref s'. rewrite Hobj. case_decide; [|by eauto].
    intros (s&Hs&->)%fmap_Some. exists s. split; [done|]. unfold offer, has_room.
    destruct (_ <? _) eqn:E; simpl; [|done]. split; [done|]. rewrite length_app. simpl. blia.
Qed.

Lemma unsubscribe_wf run sid h : hub_wf h → hub_wf (unsubscribe run sid h).2.
Proof.
  intros Hwf. apply (hub_wf_shrink h); [done| | | |].
  - unfold unsubscribe, same_config. m_unfold. simpl. by case_match.
  - intros run'. rewrite subs_unsubscribe. case_decide; [apply dict_pop_nodup|]; apply Hwf.
  - intros run' sid' ref. rewrite subs_unsubscribe, objects_unsubscribe. case_decide; subst; [|by eauto].
    destruct (decide (sid = sid')) as [->|?]; [by rewrite dict_get_pop_eq|].
    rewrite dict_get_pop_ne by done. eauto.
  - intros ref s'. rewrite objects_unsubscribe. eauto.
Qed.

Lemma drain_wf ref h : hub_wf h → hub_wf (drain ref h).2.
Proof.
  intros Hwf. unfold drain, zoom. pose proof (on_key_get ref (KeyError (pretty ref)) drain_subscriber
    (hub_objects h)) as Hget. destruct (on_key _ _ _ _) as [r o]. simpl in *.
  apply (hub_wf_shrink h); [done|done|apply Hwf| |]; simpl.
  - intros run sid ref' Hr. split; [done|]. intros s Hs Hd. rewrite Hget. case_decide; subst.
    + rewrite Hs. by eexists.
    + by exists s.
  - intros ref' s'. rewrite Hget. case_decide; subst; [|by eauto].
    intros (s&Hs&->)%fmap_Some. exists s. split_and!; [done|done|]. simpl. lia.
Qed.

Lemma subscribe_wf run sid h : hub_wf h → hub_wf (subscribe run sid h).2.
Proof.
  intros Hwf. unfold subscribe. m_unfold. simpl.
  set (h' := mkHub _ _ _ _).
  assert (∀ run' sid', dict_get sid' (subs run' h') =
    if decide (run = run' ∧ sid = sid') then Some (hub_next_ref h) else dict_get sid' (subs run' h)) as Hsub.
  { intros run' sid'. unfold h', subs. simpl. rewrite dict_get_set.
    destruct (decide (run = run')) as [<-|]; simpl; [rewrite dict_get_set; case_decide|];
      case_decide; naive_solver. }
  assert (∀ ref, dict_get ref (hub_objects h') = if decide (hub_next_ref h = ref)
    then Some (mkStreamSubscriber sid (hub_max_buffer_size h) [] false None)
    else dict_get ref (hub_objects h)) as Hobj by (intros; apply dict_get_set).
  assert (∀ run' sid' , dict_get sid' (subs run' h) ≠ Some (hub_next_ref h)) as Hfresh.
  { intros run' sid' (s&Hs&_)%(wf_subs_live _ Hwf). by apply mk_is_Some, (wf_fresh _ Hwf), Z.lt_irrefl in Hs. }
  split.
  - intros run'. unfold h', subs. simpl. rewrite dict_get_set.
    case_decide; [apply dict_set_nodup|]; apply Hwf.
  - intros run' sid' ref. rewrite Hsub, Hobj. case_decide as Hd.
    + intros [= <-]. rewrite decide_True by done. destruct Hd as [_ <-]. by eexists.
    + intros Hr. rewrite decide_False; [by apply (wf_subs_live _ Hwf run')|]. intros <-. by apply Hfresh in Hr.
  - intros run1 run2 sid1 sid2 ref. rewrite !Hsub. case_decide as H1; case_decide as H2; intros E1 E2.
    + by destruct H1, H2; subst.
    + simplify_eq. by apply Hfresh in E2.
    + simplify_eq. by apply Hfresh in E1.
    + by apply (wf_subs_inj _ Hwf _ _ _ _ _ E1 E2).
  - intros ref. rewrite Hobj. simpl. case_decide; [lia|]. intros Hf%(wf_fresh _ Hwf). lia.
  - intros ref s. rewrite Hobj. case_decide; [intros [= <-]; simpl; split; [done|lia]|apply (wf_bounded _ Hwf)].
Qed.

Lemma hub_reachable_wf size ops : hub_wf (foldl hub_step (new_hub size) ops).
Proof.
  induction ops as [|op ops IH] using rev_ind.
  { simpl. split; simpl; unfold subs; simpl; try done. intros _. constructor. }
  rewrite foldl_app.
  destruct op; [apply subscribe_wf|apply unsubscribe_wf|apply publish_wf|apply drain_wf]; exact IH.
Qed.

(** In every state a hub can reach, [publish] never raises; it appends the
    event to the buffer of every subscriber of the run that has room and returns
    how many those are; the others it disconnects with the reason
    "stream_backpressure" and unsubscribes, keeping what they had buffered; other
    runs' subscribers are untouched; and no buffer ever exceeds the hub's limit. *)
Theorem fanout_publish (size : Z) (ops : list hub_op) (run : Z) (event : AgentEvent) :
  let h := foldl hub_step (new_hub size) ops in
  ∃ h', publish run event h = (Ret (count (λ p, room_at h p.2) (subs run h)), h') ∧
    (∀ ref, dict_get ref (hub_objects h') =
      if decide (ref ∈ dict_values (subs run h)) then offer event <$> dict_get ref (hub_objects h)
      else dict_get ref (hub_objects h)) ∧
    (∀ run', subs run' h' =
      if decide (run = run') then filter (λ q, room_at h q.2 = true) (subs run h) else subs run' h) ∧
    (∀ ref s, dict_get ref (hub_objects h') = Some s →
      Z.of_nat (length (buffer s)) ≤ Z.max 0 (hub_max_buffer_size h)).
Proof.
  intros h. pose proof (hub_reachable_wf size ops) as Hwf. fold h in Hwf.
  pose proof (publish_wf run event h Hwf) as Hwf'.
  destruct (publish_spec run event h Hwf) as (h'&Hp&[Hm _]&Hobj&Hsub). rewrite Hp in Hwf'. simpl in Hwf'.
  exists h'. split_and!; [done..|]. intros ref s Hs.
  destruct (wf_bounded _ Hwf' _ _ Hs) as [Hmax Hlen]. by rewrite Hmax, Hm in Hlen.
Qed.
