(* ===== verification/Context.v ===== *)
(** The runtime context of [core/context.py] that an agent's calls carry, and
    the trace fields of [observability/otel.py] derived from it. *)

From S2P Require Import Prelude Values.

(** * Runtime context and trace fields *)

Record RuntimeContext := mkRuntimeContext {
  cx_tenant_id : Z;
  cx_project_id : option Z;
  cx_run_id : Z;
  cx_task_id : option Z;
  cx_agent_id : Z;
  cx_agent_version_id : Z;
  cx_deployment_id : option Z;
  cx_user_id : option Z;
  cx_service_account_id : option Z;
  cx_thread_id : option string;
  cx_session_id : option Z;
  cx_request_id : option string;
  cx_attempt_id : option Z;
  cx_trace_id : option string;
  cx_correlation_id : option string;
  cx_idempotency_key : option string;
  cx_environment : option string;
  cx_framework : option string;
  cx_adapter : option string;
  cx_agent_version : option string;
  cx_deadline_at : option Z;
  cx_permissions : list string;
  cx_secrets : dict string string;
  cx_config : pydict;
  cx_metadata : pydict
}.
#[export] Instance RuntimeContext_eta : Eta RuntimeContext := λ c,
  mkRuntimeContext (cx_tenant_id c) (cx_project_id c) (cx_run_id c) (cx_task_id c) (cx_agent_id c)
    (cx_agent_version_id c) (cx_deployment_id c) (cx_user_id c) (cx_service_account_id c)
    (cx_thread_id c) (cx_session_id c) (cx_request_id c) (cx_attempt_id c) (cx_trace_id c)
    (cx_correlation_id c) (cx_idempotency_key c) (cx_environment c) (cx_framework c)
    (cx_adapter c) (cx_agent_version c) (cx_deadline_at c) (cx_permissions c) (cx_secrets c)
    (cx_config c) (cx_metadata c).

(** [RuntimeContext.to_metadata] *)
Definition to_metadata (include_none : bool) (c : RuntimeContext) : pydict :=
  let metadata :=
    [("tenant_id", VInt (cx_tenant_id c)); ("project_id", of_int_opt (cx_project_id c));
     ("run_id", VInt (cx_run_id c)); ("task_id", of_int_opt (cx_task_id c));
     ("agent_id", VInt (cx_agent_id c)); ("agent_version_id", VInt (cx_agent_version_id c));
     ("deployment_id", of_int_opt (cx_deployment_id c)); ("user_id", of_int_opt (cx_user_id c));
     ("service_account_id", of_int_opt (cx_service_account_id c));
     ("thread_id", of_str_opt (cx_thread_id c)); ("session_id", of_int_opt (cx_session_id c));
     ("request_id", of_str_opt (cx_request_id c)); ("attempt_id", of_int_opt (cx_attempt_id c));
     ("trace_id", of_str_opt (cx_trace_id c)); ("correlation_id", of_str_opt (cx_correlation_id c));
     ("idempotency_key", of_str_opt (cx_idempotency_key c));
     ("environment", of_str_opt (cx_environment c)); ("framework", of_str_opt (cx_framework c));
     ("adapter", of_str_opt (cx_adapter c)); ("agent_version", of_str_opt (cx_agent_version c));
     ("metadata", VDict (cx_metadata c))] in
  if include_none then metadata
  else List.filter (λ p, match p.2 with VNone => false | _ => true end) metadata.

Record RuntimeTraceContext := mkTrace {
  tr_request_id : string;
  tr_trace_id : string;
  tr_correlation_id : string;
  tr_worker_id : string
}.

Definition as_payload_fields (t : RuntimeTraceContext) : pydict :=
  [("request_id", VStr (tr_request_id t)); ("trace_id", VStr (tr_trace_id t));
   ("correlation_id", VStr (tr_correlation_id t)); ("worker_id", VStr (tr_worker_id t))].

Definition ensure_trace_context (c : RuntimeContext) (worker : string) : RuntimeContext :=
  c <| cx_request_id := Some (or_str (cx_request_id c) ("req_run_" +:+ pretty (cx_run_id c))) |>
    <| cx_trace_id := Some (or_str (cx_trace_id c) ("trace_run_" +:+ pretty (cx_run_id c))) |>
    <| cx_correlation_id := Some (or_str (cx_correlation_id c)
         ("corr_task_" +:+ pretty (or_int (cx_task_id c) (cx_run_id c)))) |>
    <| cx_metadata := dict_set "worker_id" (VStr worker) (cx_metadata c) |>.

(** [uuid] stands for the fresh hexadecimal of [uuid4().hex]. *)
Definition trace_context_from_runtime (uuid : string) (c : RuntimeContext) (worker : string)
  : RuntimeTraceContext :=
  let e := ensure_trace_context c worker in
  mkTrace (or_str (cx_request_id e) ("req_" +:+ uuid)) (or_str (cx_trace_id e) ("trace_" +:+ uuid))
    (or_str (cx_correlation_id e) ("corr_" +:+ uuid)) worker.

Definition attach_trace_fields (payload : pydict) (t : RuntimeTraceContext) : pydict :=
  dict_merge payload (as_payload_fields t).

(** [redact_event_payload]: everything but the trace keys is dropped from an
    event that is not public. *)
Definition TRACE_KEYS : list string := ["trace_id"; "request_id"; "correlation_id"; "worker_id"].

Definition redact_event_payload (payload : pydict) (visibility_level : string) : pydict :=
  if bool_decide (visibility_level = "public") then payload
  else dict_merge [("redacted", VBool true)]
         (List.filter (λ p, bool_decide (p.1 ∈ TRACE_KEYS)) payload).

(** * Facts *)

Lemma or_str_nonempty o s : s ≠ "" → or_str o s ≠ "".
Proof. intros Hs. destruct o as [t|]; simpl; [|done]. by destruct (String.eqb_spec t ""). Qed.

Lemma app_nonempty s t : s ≠ "" → s +:+ t ≠ "".
Proof. by destruct s. Qed.

(** The generated identifiers are never used: the trace of a context depends on
    the context and the worker only. *)
Lemma trace_deterministic uuid uuid' c w :
  trace_context_from_runtime uuid c w = trace_context_from_runtime uuid' c w.
Proof.
  assert (∀ o s t t', s ≠ "" → or_str (Some (or_str o s)) t = or_str (Some (or_str o s)) t') as H.
  { intros o s t t' Hs. pose proof (or_str_nonempty o s Hs) as Hne. simpl.
    by destruct (String.eqb_spec (or_str o s) ""). }
  unfold trace_context_from_runtime, ensure_trace_context. cbn [set_field cx_request_id cx_trace_id cx_correlation_id].
  f_equal; by apply H, app_nonempty.
Qed.

Lemma dict_get_merge {V} (a b : dict string V) k :
  NoDup (dict_keys b) →
  dict_get k (dict_merge a b) = match dict_get k b with Some v => Some v | None => dict_get k a end.
Proof.
  unfold dict_merge. revert a. induction b as [|[k' v] b IH]; intros a Hnd; [done|].
  apply NoDup_cons in Hnd as [Hni Hnd]. simpl. rewrite IH by done.
  destruct (decide (k = k')) as [->|Hne].
  - simpl in Hni. apply dict_get_None in Hni. by rewrite Hni, dict_get_set_eq.
  - by rewrite dict_get_set_ne.
Qed.

(** Attaching the trace to an event payload sets the four trace fields,
    whatever the payload held under their names, and keeps every other entry. *)
Theorem attach_trace_fields_correct (payload : pydict) (t : RuntimeTraceContext) (k : string) :
  dict_get k (attach_trace_fields payload t) =
  if bool_decide (k ∈ TRACE_KEYS) then dict_get k (as_payload_fields t) else dict_get k payload.
Proof.
  unfold attach_trace_fields. rewrite dict_get_merge by (apply (bool_decide_unpack _); done).
  unfold as_payload_fields, TRACE_KEYS. simpl.
  repeat (case_decide; [by subst|]). rewrite bool_decide_false; [done|].
  rewrite !elem_of_cons, elem_of_nil. naive_solver.
Qed.
