(* ===== verification/NativeApi.v ===== *)
(** The stores behind the native HTTP API ([api/native/runtime.py]): agents,
    agent versions, runs and tasks, in memory and over the database. The time
    stamp [updated_at] is not modelled. *)

From S2P Require Import Prelude Values Json JsonLoads StateMachine Tables Idempotency Streaming.

(** * Data *)

Record NativeAgent := mkNativeAgent {
  ag_id : Z;
  ag_tenant_id : Z;
  ag_project_id : Z;
  ag_name : string;
  ag_description : option string;
  ag_status : string;
  ag_created_at : Z
}.
#[export] Instance NativeAgent_eta : Eta NativeAgent := λ a,
  mkNativeAgent (ag_id a) (ag_tenant_id a) (ag_project_id a) (ag_name a) (ag_description a)
    (ag_status a) (ag_created_at a).

Record NativeAgentVersion := mkNativeVersion {
  av_id : Z;
  av_agent_id : Z;
  av_version : string;
  av_package_uri : string;
  av_framework : string;
  av_adapter : string;
  av_entrypoint : string;
  av_capabilities : pydict;
  av_manifest : pydict;
  av_status : string;
  av_created_at : Z
}.
#[export] Instance NativeAgentVersion_eta : Eta NativeAgentVersion := λ v,
  mkNativeVersion (av_id v) (av_agent_id v) (av_version v) (av_package_uri v) (av_framework v)
    (av_adapter v) (av_entrypoint v) (av_capabilities v) (av_manifest v) (av_status v) (av_created_at v).

Record NativeRun := mkNativeRun {
  nr_id : Z;
  nr_tenant_id : Z;
  nr_project_id : Z;
  nr_agent_id : Z;
  nr_agent_version_id : Z;
  nr_deployment_id : option Z;
  nr_status : RunStatus;
  nr_input : pydict;
  nr_output : option pydict;
  nr_error : option pydict;
  nr_thread_id : option string;
  nr_idempotency_key : option string;
  nr_created_at : Z;
  nr_started_at : option Z;
  nr_finished_at : option Z
}.
#[export] Instance NativeRun_eta : Eta NativeRun := λ r,
  mkNativeRun (nr_id r) (nr_tenant_id r) (nr_project_id r) (nr_agent_id r) (nr_agent_version_id r)
    (nr_deployment_id r) (nr_status r) (nr_input r) (nr_output r) (nr_error r) (nr_thread_id r)
    (nr_idempotency_key r) (nr_created_at r) (nr_started_at r) (nr_finished_at r).

Record NativeTask := mkNativeTask {
  nt_id : Z;
  nt_run_id : Z;
  nt_tenant_id : Z;
  nt_project_id : Z;
  nt_status : TaskStatus;
  nt_worker_id : option string;
  nt_queue : string;
  nt_priority : Z;
  nt_attempt : Z;
  nt_max_attempts : Z;
  nt_idempotency_key : option string;
  nt_error : option pydict;
  nt_dead_letter_reason : option string;
  nt_partition_key : option string;
  nt_resource_class : option string;
  nt_quota_blocking_reason : option pydict;
  nt_created_at : Z
}.
#[export] Instance NativeTask_eta : Eta NativeTask := λ t,
  mkNativeTask (nt_id t) (nt_run_id t) (nt_tenant_id t) (nt_project_id t) (nt_status t) (nt_worker_id t)
    (nt_queue t) (nt_priority t) (nt_attempt t) (nt_max_attempts t) (nt_idempotency_key t) (nt_error t)
    (nt_dead_letter_reason t) (nt_partition_key t) (nt_resource_class t) (nt_quota_blocking_reason t)
    (nt_created_at t).

(** The arguments of [create_version] and [update_version]. *)
Record VersionArgs := mkVersionArgs {
  va_version : string;
  va_package_uri : string;
  va_framework : string;
  va_adapter : string;
  va_entrypoint : string;
  va_capabilities : pydict;
  va_manifest : pydict
}.

(** The arguments of [create_task_run]; of agent and version only the ids are used. *)
Record TaskRunArgs := mkTaskRunArgs {
  ta_tenant_id : Z;
  ta_project_id : Z;
  ta_agent : Z;
  ta_agent_version : Z;
  ta_input_data : pydict;
  ta_thread_id : option string;
  ta_idempotency_key : option string;
  ta_endpoint : string;
  ta_request_body : pydict;
  ta_deployment_id : option Z
}.

Definition scope_of_args (a : TaskRunArgs) (key : string) : IdemScope :=
  mkScope (ta_tenant_id a) (Some (ta_project_id a)) (ta_endpoint a) key.

(** [idempotency_key] when it is given and not empty. *)
Definition given_key (a : TaskRunArgs) : option string :=
  match ta_idempotency_key a with
  | Some k => if String.eqb k "" then None else Some k
  | None => None
  end.

(** [reservation.response] if the reservation is a replay with a response. *)
Definition replayed_response (r : IdempotencyReservation) : option pydict :=
  if rv_is_replay r then
    match rv_response r with
    | Some d => if truthy (VDict d) then Some d else None
    | None => None
    end
  else None.

Definition response_of (run task : Z) : pydict := [("run_id", VInt run); ("task_id", VInt task)].

Definition _stable_hash {S} (sha256 : string → string) (payload : pydict) : M S string :=
  encoded ← of_option (json_dumps (VDict payload)) type_error;
  mret (sha256 encoded).

(** [d[k]] for an integer entry. *)
Definition int_entry {S} (k : string) (d : pydict) : M S Z :=
  match dict_get k d with Some (VInt z) => mret z | _ => raise (KeyError k) end.

(** * [NativeRuntimeStore] *)

Record NativeRuntimeStore := mkNative {
  nv_agents : dict Z NativeAgent;
  nv_versions : dict Z NativeAgentVersion;
  nv_runs : dict Z NativeRun;
  nv_tasks : dict Z NativeTask;
  nv_next_agent_id : Z;
  nv_next_version_id : Z;
  nv_next_run_id : Z;
  nv_next_task_id : Z;
  nv_idempotency : IdempotencyStore;
  nv_replay_buffer : ReplayBuffer;
  nv_clock : nat → Z;
  nv_ticks : nat
}.
#[export] Instance NativeRuntimeStore_eta : Eta NativeRuntimeStore := λ s,
  mkNative (nv_agents s) (nv_versions s) (nv_runs s) (nv_tasks s) (nv_next_agent_id s)
    (nv_next_version_id s) (nv_next_run_id s) (nv_next_task_id s) (nv_idempotency s)
    (nv_replay_buffer s) (nv_clock s) (nv_ticks s).

Definition new_native (clock : nat → Z) : NativeRuntimeStore :=
  mkNative [] [] [] [] 1 1 1 1 init_idempotency (new_replay_buffer 1000 64000) clock 0.

(** [datetime.now(UTC)] *)
Definition native_now : M NativeRuntimeStore Z :=
  s ← get_state;
  modify (λ s, s <| nv_ticks := S (nv_ticks s) |>) ;;
  mret (nv_clock s (nv_ticks s)).

Definition with_idempotency {A} (m : M IdempotencyStore A) : M NativeRuntimeStore A :=
  zoom nv_idempotency (λ i s, s <| nv_idempotency := i |>) m.
Definition with_replay_buffer {A} (m : M ReplayBuffer A) : M NativeRuntimeStore A :=
  zoom nv_replay_buffer (λ b s, s <| nv_replay_buffer := b |>) m.
Definition on_agent {A} (id : Z) (m : M NativeAgent A) : M NativeRuntimeStore A :=
  zoom nv_agents (λ t s, s <| nv_agents := t |>) (on_key id (KeyError (pretty id)) m).
Definition on_version {A} (id : Z) (m : M NativeAgentVersion A) : M NativeRuntimeStore A :=
  zoom nv_versions (λ t s, s <| nv_versions := t |>) (on_key id (KeyError (pretty id)) m).
Definition on_native_run {A} (id : Z) (m : M NativeRun A) : M NativeRuntimeStore A :=
  zoom nv_runs (λ t s, s <| nv_runs := t |>) (on_key id (KeyError (pretty id)) m).
Definition on_native_task {A} (id : Z) (m : M NativeTask A) : M NativeRuntimeStore A :=
  zoom nv_tasks (λ t s, s <| nv_tasks := t |>) (on_key id (KeyError (pretty id)) m).

(** [self.replay_buffer.append(run_id, None, AgentEvent(type=..., payload=...))] *)
Definition record_event (run : Z) (type : string) (payload : pydict) : M NativeRuntimeStore unit :=
  now ← native_now;
  with_replay_buffer (append run None (new_event now type payload)) ;;
  mret tt.

(** ** Agents and versions *)

Definition create_agent (tenant project : Z) (name : string) (description : option string)
  : M NativeRuntimeStore NativeAgent :=
  now ← native_now;
  s ← get_state;
  let agent := mkNativeAgent (nv_next_agent_id s) tenant project name description "active" now in
  modify (λ s, s <| nv_next_agent_id := nv_next_agent_id s + 1 |>
                 <| nv_agents := dict_set (ag_id agent) agent (nv_agents s) |>) ;;
  mret agent.

Definition live_agent (tenant project : Z) (a : NativeAgent) : bool :=
  (ag_tenant_id a =? tenant) && (ag_project_id a =? project) && negb (bool_decide (ag_status a = "archived")).

Definition list_agents (tenant project : Z) (s : NativeRuntimeStore) : list NativeAgent :=
  List.filter (live_agent tenant project) (dict_values (nv_agents s)).

Definition get_agent (id tenant project : Z) (s : NativeRuntimeStore) : option NativeAgent :=
  a ← dict_get id (nv_agents s);
  if live_agent tenant project a then Some a else None.

Definition update_agent (id : Z) (name description status : option string) : M NativeRuntimeStore unit :=
  on_agent id (
    modify (λ a, match name with Some n => a <| ag_name := n |> | None => a end) ;;
    modify (λ a, a <| ag_description := description |>) ;;
    modify (λ a, match status with Some st => a <| ag_status := st |> | None => a end)).

Definition archive_agent (id : Z) : M NativeRuntimeStore unit :=
  on_agent id (modify (λ a, a <| ag_status := "archived" |>)).

Definition create_version (agent : Z) (v : VersionArgs) : M NativeRuntimeStore NativeAgentVersion :=
  now ← native_now;
  s ← get_state;
  let version := mkNativeVersion (nv_next_version_id s) agent (va_version v) (va_package_uri v)
    (va_framework v) (va_adapter v) (va_entrypoint v) (va_capabilities v) (va_manifest v) "ready" now in
  modify (λ s, s <| nv_next_version_id := nv_next_version_id s + 1 |>
                 <| nv_versions := dict_set (av_id version) version (nv_versions s) |>) ;;
  mret version.

Definition live_version (agent : Z) (v : NativeAgentVersion) : bool :=
  (av_agent_id v =? agent) && negb (bool_decide (av_status v = "archived")).

Definition list_versions (agent : Z) (s : NativeRuntimeStore) : list NativeAgentVersion :=
  List.filter (live_version agent) (dict_values (nv_versions s)).

Definition get_version (agent : Z) (version : string) (s : NativeRuntimeStore) : option NativeAgentVersion :=
  List.find (λ v, live_version agent v && bool_decide (av_version v = version)) (dict_values (nv_versions s)).

Definition update_version (id : Z) (v : VersionArgs) (status : string) : M NativeRuntimeStore unit :=
  on_version id (modify (λ x, x <| av_version := va_version v |> <| av_package_uri := va_package_uri v |>
    <| av_framework := va_framework v |> <| av_adapter := va_adapter v |>
    <| av_entrypoint := va_entrypoint v |> <| av_capabilities := va_capabilities v |>
    <| av_manifest := va_manifest v |> <| av_status := status |>)).

Definition archive_version (id : Z) : M NativeRuntimeStore unit :=
  on_version id (modify (λ v, v <| av_status := "archived" |>)).

Definition get_version_by_id (agent id : Z) (s : NativeRuntimeStore) : option NativeAgentVersion :=
  v ← dict_get id (nv_versions s);
  if live_version agent v then Some v else None.

(** [sorted(versions, key=created_at)[-1]] *)
Definition latest_version (agent : Z) (s : NativeRuntimeStore) : option NativeAgentVersion :=
  last (stable_sort (λ v w, av_created_at v <=? av_created_at w) (list_versions agent s)).

(** ** Runs and tasks *)

Section native.
Context (sha256 : string → string).

(** Creates the run and its task and records the two events. *)
Definition add_task_run (a : TaskRunArgs) : M NativeRuntimeStore (Z * Z) :=
  now ← native_now;
  s ← get_state;
  let run := mkNativeRun (nv_next_run_id s) (ta_tenant_id a) (ta_project_id a) (ta_agent a)
    (ta_agent_version a) (ta_deployment_id a) RS_pending (ta_input_data a) None None (ta_thread_id a)
    (ta_idempotency_key a) now None None in
  modify (λ s, s <| nv_next_run_id := nv_next_run_id s + 1 |>) ;;
  now ← native_now;
  s ← get_state;
  let task := mkNativeTask (nv_next_task_id s) (nr_id run) (ta_tenant_id a) (ta_project_id a) TS_queued
    None "default" 0 0 3 (ta_idempotency_key a) None None None None None now in
  modify (λ s, s <| nv_next_task_id := nv_next_task_id s + 1 |>) ;;
  modify (λ s, s <| nv_runs := dict_set (nr_id run) run (nv_runs s) |>) ;;
  modify (λ s, s <| nv_tasks := dict_set (nt_id task) task (nv_tasks s) |>) ;;
  record_event (nr_id run) "run.created" [("task_id", VInt (nt_id task))] ;;
  record_event (nr_id run) "task.queued" [("task_id", VInt (nt_id task))] ;;
  mret (nr_id run, nt_id task).

(** Returns the ids of the run and the task, and whether the request was a replay. *)
Definition create_task_run (a : TaskRunArgs) : M NativeRuntimeStore (Z * Z * bool) :=
  match given_key a with
  | None => '(run, task) ← add_task_run a; mret (run, task, false)
  | Some key =>
      request_hash ← _stable_hash sha256 (ta_request_body a);
      reservation ← with_idempotency (reserve (scope_of_args a key) request_hash);
      match replayed_response reservation with
      | Some response =>
          s ← get_state;
          r ← int_entry "run_id" response;
          of_option (dict_get r (nv_runs s)) (KeyError (pretty r)) ;;
          t ← int_entry "task_id" response;
          of_option (dict_get t (nv_tasks s)) (KeyError (pretty t)) ;;
          mret (r, t, true)
      | None =>
          '(run, task) ← add_task_run a;
          with_idempotency (complete_reservation (rv_record_id reservation) (response_of run task)) ;;
          mret (run, task, rv_is_replay reservation)
      end
  end.

Definition get_native_run (id tenant project : Z) (s : NativeRuntimeStore) : option NativeRun :=
  r ← dict_get id (nv_runs s);
  if (nr_tenant_id r =? tenant) && (nr_project_id r =? project) then Some r else None.

Definition list_runs (tenant project : Z) (s : NativeRuntimeStore) : list NativeRun :=
  List.filter (λ r, (nr_tenant_id r =? tenant) && (nr_project_id r =? project)) (dict_values (nv_runs s)).

Definition get_task (id tenant project : Z) (s : NativeRuntimeStore) : option NativeTask :=
  t ← dict_get id (nv_tasks s);
  if (nt_tenant_id t =? tenant) && (nt_project_id t =? project) then Some t else None.

Definition list_tasks (tenant project : Z) (s : NativeRuntimeStore) : list NativeTask :=
  List.filter (λ t, (nt_tenant_id t =? tenant) && (nt_project_id t =? project)) (dict_values (nv_tasks s)).

(** [replay_run]: a new run with the input of [source]. *)
Definition replay_run (source : NativeRun) (agent_version_id : option Z) : M NativeRuntimeStore Z :=
  s ← get_state;
  match get_agent (nr_agent_id source) (nr_tenant_id source) (nr_project_id source) s,
        get_version_by_id (nr_agent_id source) (or_int agent_version_id (nr_agent_version_id source)) s with
  | Some agent, Some version =>
      '(run, task, _) ← create_task_run (mkTaskRunArgs (nr_tenant_id source) (nr_project_id source)
        (ag_id agent) (av_id version) (nr_input source) (nr_thread_id source) None
        ("/v1/runs/" +:+ pretty (nr_id source) +:+ "/replay")
        [("source_run_id", VInt (nr_id source)); ("agent_version_id", VInt (av_id version))] None);
      record_event run "run.replayed" [("source_run_id", VInt (nr_id source)); ("task_id", VInt task);
        ("agent_version_id", VInt (av_id version))] ;;
      mret run
  | _, _ => raise (KeyError (pretty (nr_id source)))
  end.

Definition list_run_events (run : Z) : M NativeRuntimeStore (list AgentEvent) :=
  with_replay_buffer (replay run None).

(** [cancel_run] on the stored run [id]: the statements on one task. *)
Definition cancel_native_task (run : Z) : M NativeTask unit :=
  t ← get_state;
  if (nt_run_id t =? run) && bool_decide (task_status_value (nt_status t) ∈ ["queued"; "leased"; "running"])
  then
    assert_task_transition (task_status_value (nt_status t)) "cancelled" ;;
    modify (λ t, t <| nt_status := TS_cancelled |>)
  else mret tt.

Definition cancel_run (id : Z) : M NativeRuntimeStore unit :=
  s ← get_state;
  r ← of_option (dict_get id (nv_runs s)) (KeyError (pretty id));
  if bool_decide (run_status_value (nr_status r) = "cancelled") then mret tt
  else
    assert_run_transition (run_status_value (nr_status r)) "cancelled" ;;
    on_native_run id (modify (λ r, r <| nr_status := RS_cancelled |>)) ;;
    native_now ;;
    zoom nv_tasks (λ t s, s <| nv_tasks := t |>) (for_values (cancel_native_task id)) ;;
    record_event id "run.cancelled" [].

Definition cancel_task (id : Z) : M NativeRuntimeStore unit :=
  s ← get_state;
  t ← of_option (dict_get id (nv_tasks s)) (KeyError (pretty id));
  if bool_decide (task_status_value (nt_status t) = "cancelled") then mret tt
  else
    assert_task_transition (task_status_value (nt_status t)) "cancelled" ;;
    on_native_task id (modify (λ t, t <| nt_status := TS_cancelled |>)) ;;
    native_now ;;
    r ← of_option (dict_get (nt_run_id t) (nv_runs s)) (KeyError (pretty (nt_run_id t)));
    assert_run_transition (run_status_value (nr_status r)) "cancelled" ;;
    on_native_run (nt_run_id t) (modify (λ r, r <| nr_status := RS_cancelled |>)) ;;
    record_event (nt_run_id t) "task.cancelled" [("task_id", VInt id)].
End native.
