(* ===== verification/NativeProps.v ===== *)
(** What the in-memory store of the native API guarantees: an invariant of every
    reachable store, idempotent creation of runs, and cancellation. *)

From stdpp Require Import relations.
From S2P Require Import Prelude Values Json JsonLoads StateMachine Tables Idempotency Streaming NativeApi.

(** * What an operation may change *)

(** Runs and tasks are never removed, and of an existing one only the status
    changes, along the transition tables; a stored response is never changed. *)
Record persists (s s' : NativeRuntimeStore) : Prop := {
  ps_runs : ∀ id r, dict_get id (nv_runs s) = Some r → ∃ st,
    dict_get id (nv_runs s') = Some (r <| nr_status := st |>) ∧
    evolves RUN_TRANSITIONS (run_status_value (nr_status r)) (run_status_value st);
  ps_tasks : ∀ id t, dict_get id (nv_tasks s) = Some t → ∃ st,
    dict_get id (nv_tasks s') = Some (t <| nt_status := st |>) ∧
    evolves TASK_TRANSITIONS (task_status_value (nt_status t)) (task_status_value st);
  ps_responses : ∀ sc id h r, idem_lookup (nv_idempotency s) sc = Some (id, h, Some r) →
    idem_lookup (nv_idempotency s') sc = Some (id, h, Some r)
}.

(** The invariant: the idempotency records are well formed and name existing
    runs and tasks, ids are given out once, and every task belongs to a run of
    its own tenant and project. *)
Record native_wf (s : NativeRuntimeStore) : Prop := {
  nw_idem : idem_ok (nv_idempotency s);
  nw_responses : ∀ sc id h r, idem_lookup (nv_idempotency s) sc = Some (id, h, Some r) →
    ∃ run task, r = response_of run task ∧ is_Some (dict_get run (nv_runs s)) ∧ is_Some (dict_get task (nv_tasks s));
  nw_runs : ∀ id r, dict_get id (nv_runs s) = Some r → nr_id r = id ∧ id < nv_next_run_id s;
  nw_tasks : ∀ id t, dict_get id (nv_tasks s) = Some t → nt_id t = id ∧ id < nv_next_task_id s ∧
    ∃ r, dict_get (nt_run_id t) (nv_runs s) = Some r ∧
      nr_tenant_id r = nt_tenant_id t ∧ nr_project_id r = nt_project_id t
}.

#[export] Instance persists_preorder : PreOrder persists.
Proof.
  split.
  - intros s. split; [intros id r Hr; exists (nr_status r); by destruct r|
      intros id t Ht; exists (nt_status t); by destruct t|done].
  - intros s1 s2 s3 [R1 T1 P1] [R2 T2 P2]. split; [| |by auto].
    + intros id r (st&Hr&He)%R1. destruct (R2 _ _ Hr) as (st'&Hr'&He'). exists st'. split; [by destruct r|by etrans].
    + intros id t (st&Ht&He)%T1. destruct (T2 _ _ Ht) as (st'&Ht'&He'). exists st'. split; [by destruct t|by etrans].
Qed.

(** What each operation does to a well-formed store. *)
Definition sound_step (s s' : NativeRuntimeStore) : Prop := native_wf s → native_wf s' ∧ persists s s'.

#[export] Instance sound_step_preorder : PreOrder sound_step.
Proof.
  split; [by intros s Hs|]. intros s1 s2 s3 H1 H2 Hs. destruct (H1 Hs) as [Hs2 P1], (H2 Hs2) as [Hs3 P2].
  split; [done|by etrans].
Qed.

(** The parts of the store the guarantees are about. *)
Definition same_core (s s' : NativeRuntimeStore) : Prop :=
  nv_runs s' = nv_runs s ∧ nv_tasks s' = nv_tasks s ∧ nv_idempotency s' = nv_idempotency s ∧
  nv_next_run_id s' = nv_next_run_id s ∧ nv_next_task_id s' = nv_next_task_id s.

Lemma same_core_sound s s' : same_core s s' → sound_step s s'.
Proof.
  intros (Hr&Ht&Hi&Hn&Hm) [W1 W2 W3 W4]. split.
  - split; rewrite ?Hr, ?Ht, ?Hi, ?Hn, ?Hm; done.
  - destruct s, s'; simpl in *; subst. split; simpl; [..|done].
    + intros id r H. exists (nr_status r). by destruct r.
    + intros id t H. exists (nt_status t). by destruct t.
Qed.

Lemma sound_modify f : (∀ s, same_core s (f s)) → respects sound_step (modify f).
Proof. intros H. apply respects_modify. intros s. by apply same_core_sound. Qed.

(** ** Pieces *)

Lemma native_now_run s : native_now s = (Ret (nv_clock s (nv_ticks s)), s <| nv_ticks := S (nv_ticks s) |>).
Proof. done. Qed.

Lemma append_total run att e b :
  is_Some (json_dumps (VDict (ev_payload e))) → ∃ e' b', append run att e b = (Ret e', b').
Proof.
  intros [text Ht]. unfold append, _payload_or_ref. m_unfold. rewrite Ht.
  destruct (str_len text <=? max_payload_bytes b); by eexists _, _.
Qed.

Lemma record_event_run run ty p s :
  is_Some (json_dumps (VDict p)) → ∃ s', record_event run ty p s = (Ret tt, s') ∧ same_core s s'.
Proof.
  intros Hp. unfold record_event. unfold mbind at 1, M_bind at 1. rewrite native_now_run.
  unfold with_replay_buffer, zoom, mbind, M_bind. cbn [nv_replay_buffer].
  match goal with |- context [append ?a ?b ?c ?d] =>
    destruct (append_total a b c d) as (e'&b'&E); [exact Hp|] end.
  change (nv_replay_buffer (s <| nv_ticks := S (nv_ticks s) |>)) with (nv_replay_buffer s) in *.
  rewrite E. eexists. split; [done|]. by split_and!.
Qed.

Lemma sound_record_event run ty p :
  is_Some (json_dumps (VDict p)) → respects sound_step (record_event run ty p).
Proof. intros Hp s. destruct (record_event_run run ty p s Hp) as (s'&->&H). by apply same_core_sound. Qed.

Lemma add_task_run_run a s :
  ∃ s' run task, add_task_run a s = (Ret (nv_next_run_id s, nv_next_task_id s), s') ∧
    nr_id run = nv_next_run_id s ∧ nr_tenant_id run = ta_tenant_id a ∧ nr_project_id run = ta_project_id a ∧
    nr_status run = RS_pending ∧ nr_input run = ta_input_data a ∧
    nt_id task = nv_next_task_id s ∧ nt_run_id task = nr_id run ∧ nt_status task = TS_queued ∧
    nt_tenant_id task = ta_tenant_id a ∧ nt_project_id task = ta_project_id a ∧
    nv_runs s' = dict_set (nr_id run) run (nv_runs s) ∧ nv_tasks s' = dict_set (nt_id task) task (nv_tasks s) ∧
    nv_idempotency s' = nv_idempotency s ∧
    nv_next_run_id s' = nv_next_run_id s + 1 ∧ nv_next_task_id s' = nv_next_task_id s + 1.
Proof.
  unfold add_task_run. unfold mbind at 1, M_bind at 1. rewrite native_now_run.
  unfold mbind at 1, M_bind at 1, get_state at 1. cbv zeta.
  unfold mbind at 1, M_bind at 1, modify at 1.
  unfold mbind at 1, M_bind at 1. rewrite native_now_run.
  unfold mbind at 1, M_bind at 1, get_state at 1. cbv zeta.
  do 3 (unfold mbind at 1, M_bind at 1, modify at 1).
  match goal with |- context [record_event (nr_id ?r) _ [(_, VInt (nt_id ?t))]] =>
    pose (run := r); pose (task := t) end.
  match goal with |- context [(record_event ?run ?ty ?p ;; ?k) ?s0] =>
    destruct (record_event_run run ty p s0) as (s1&E1&H1); [by eexists|];
    unfold mbind at 1, M_bind at 1; rewrite E1 end.
  match goal with |- context [(record_event ?run ?ty ?p ;; ?k) ?s0] =>
    destruct (record_event_run run ty p s0) as (s2&E2&H2); [by eexists|];
    unfold mbind at 1, M_bind at 1; rewrite E2 end.
  destruct H1 as (R1&T1&I1&N1&M1), H2 as (R2&T2&I2&N2&M2).
  rewrite R1 in R2. rewrite T1 in T2. rewrite I1 in I2. rewrite N1 in N2. rewrite M1 in M2.
  exists s2, run, task. split; [done|]. rewrite R2, T2, I2, N2, M2. by split_and!.
Qed.

(** A new run with its task. *)
Lemma add_task_run_sound a s s' x : add_task_run a s = (x, s') → sound_step s s'.
Proof.
  intros E [W1 W2 W3 W4]. destruct (add_task_run_run a s) as (s1&run&task&E'&Hrun).
  rewrite E' in E. injection E as <- <-.
  destruct Hrun as (Hid&Hten&Hpro&_&_&Htid&Htr&_&Htt&Htp&HR&HT&HI&HN&HM).
  assert (dict_get (nr_id run) (nv_runs s) = None) as Hfresh.
  { destruct (dict_get (nr_id run) (nv_runs s)) eqn:Eg; [|done]. apply W3 in Eg. lia. }
  assert (dict_get (nt_id task) (nv_tasks s) = None) as Hfresht.
  { destruct (dict_get (nt_id task) (nv_tasks s)) eqn:Eg; [|done]. apply W4 in Eg. lia. }
  assert (∀ id r, dict_get id (nv_runs s) = Some r → dict_get id (nv_runs s1) = Some r) as HkeepR.
  { intros id r Hr. rewrite HR, dict_get_set_ne; [done|]. intros <-. congruence. }
  assert (∀ id t, dict_get id (nv_tasks s) = Some t → dict_get id (nv_tasks s1) = Some t) as HkeepT.
  { intros id t Ht. rewrite HT, dict_get_set_ne; [done|]. intros <-. congruence. }
  split; [split|split].
  - by rewrite HI.
  - rewrite HI. intros sc id h r H. destruct (W2 _ _ _ _ H) as (x&y&->&[? Hx]&[? Hy]).
    exists x, y. split; [done|]. split; eexists; eauto.
  - intros id r. rewrite HR, dict_get_set. case_decide; [intros [= <-]; lia|]. intros Hr%W3. lia.
  - intros id t. rewrite HT, dict_get_set. case_decide.
    + intros [= <-]. split; [done|]. split; [lia|]. exists run. rewrite HR, Htr, dict_get_set_eq. by rewrite Hten, Hpro.
    + intros Ht. destruct (W4 _ _ Ht) as (H1&H2&r&Hr&H3). split; [done|]. split; [lia|]. exists r. by split; [apply HkeepR|].
  - intros id r Hr. exists (nr_status r). split; [by destruct r; apply HkeepR|done].
  - intros id t Ht. exists (nt_status t). split; [by destruct t; apply HkeepT|done].
  - by rewrite HI.
Qed.

(** Replacing the idempotency records by ones that know at least the same
    responses, all of them of existing runs and tasks. *)
Lemma sound_idempotency s i :
  idem_ok i →
  (∀ sc id h r, idem_lookup i sc = Some (id, h, Some r) →
     ∃ run task, r = response_of run task ∧ is_Some (dict_get run (nv_runs s)) ∧ is_Some (dict_get task (nv_tasks s))) →
  (∀ sc id h r, idem_lookup (nv_idempotency s) sc = Some (id, h, Some r) → idem_lookup i sc = Some (id, h, Some r)) →
  sound_step s (s <| nv_idempotency := i |>).
Proof.
  intros Hi Hr Hp [W1 W2 W3 W4]. split; [by split|]. split; simpl; [..|done].
  - intros id r H. exists (nr_status r). by destruct r.
  - intros id t H. exists (nt_status t). by destruct t.
Qed.

Lemma reserve_sound sc h s : sound_step s (with_idempotency (reserve sc h) s).2.
Proof.
  intros Hwf. pose proof (nw_idem _ Hwf) as Hok. unfold with_idempotency, zoom.
  destruct (idem_lookup (nv_idempotency s) sc) as [[[id h'] r]|] eqn:El.
  - rewrite (reserve_old _ _ _ _ _ _ El). simpl. destruct (bool_decide (h' = h)); by destruct s.
  - destruct (reserve_new _ sc h Hok El) as (id&i&->&Hi&Hl). simpl. apply sound_idempotency; [done|..|done].
    + intros sc' id' h' r. rewrite Hl. case_decide; [done|]. apply Hwf.
    + intros sc' id' h' r Hr. rewrite Hl. case_decide; [by subst; rewrite El in Hr|done].
Qed.

(** The statements of [create_task_run] after the reservation of a new key. *)
Lemma create_reserved a sc id h s (b : bool) :
  native_wf s → idem_lookup (nv_idempotency s) sc = Some (id, h, None) →
  ∃ s', ('(run, task) ← add_task_run a; with_idempotency (complete_reservation id (response_of run task)) ;;
         mret (run, task, b)) s = (Ret (nv_next_run_id s, nv_next_task_id s, b), s') ∧ native_wf s' ∧ persists s s' ∧
    idem_lookup (nv_idempotency s') sc = Some (id, h, Some (response_of (nv_next_run_id s) (nv_next_task_id s))).
Proof.
  intros Hwf Hl. destruct (add_task_run_run a s) as (s1&run&task&E&Hid&_&_&_&_&Htid&_&_&_&_&HR&HT&HI&HN&HM).
  destruct (add_task_run_sound a s s1 _ E Hwf) as [Hwf1 Hp1].
  destruct (complete_reservation_law (nv_idempotency s1) sc id h None
    (response_of (nv_next_run_id s) (nv_next_task_id s))) as (i&Ec&Hi&Hlk); [apply Hwf1|by rewrite HI|].
  unfold mbind at 1, M_bind at 1. rewrite E. unfold with_idempotency, zoom, mbind, M_bind. rewrite Ec.
  eexists. split; [done|].
  destruct (sound_idempotency s1 i) as [Hwf2 Hp2]; [done|..|done|].
  - intros sc' id' h' r. rewrite Hlk. case_decide.
    + intros [= <- <- <-]. eexists _, _. split; [done|]. rewrite HR, HT, Hid, Htid, !dict_get_set_eq. by split; eexists.
    + apply Hwf1.
  - intros sc' id' h' r Hr. rewrite Hlk. case_decide; [subst; rewrite HI in Hr; congruence|done].
  - split; [done|]. split; [by etrans|]. simpl. rewrite Hlk. by rewrite decide_True.
Qed.

(** *** The cases of [create_task_run] *)

Lemma native_eta_idempotency s : s <| nv_idempotency := nv_idempotency s |> = s.
Proof. by destruct s. Qed.

Section create.
Context (sha : string → string) (a : TaskRunArgs) (s : NativeRuntimeStore) (Hwf : native_wf s).

Lemma create_without_key :
  given_key a = None →
  ∃ s', create_task_run sha a s = (Ret (nv_next_run_id s, nv_next_task_id s, false), s') ∧
    native_wf s' ∧ persists s s'.
Proof using Hwf.
  intros Hk. unfold create_task_run. rewrite Hk.
  destruct (add_task_run_run a s) as (s'&run&task&E&_). exists s'.
  unfold mbind, M_bind. rewrite E. split; [done|]. by apply (add_task_run_sound a s s' _ E).
Qed.

Context (key text : string) (Hkey : given_key a = Some key)
  (Htext : json_dumps (VDict (ta_request_body a)) = Some text).
Abbreviation sc := (scope_of_args a key).

(** After the hash is computed. *)
Lemma create_keyed :
  create_task_run sha a s = (reservation ← with_idempotency (reserve sc (sha text));
    match replayed_response reservation with
    | Some response =>
        s ← get_state;
        r ← int_entry "run_id" response;
        of_option (dict_get r (nv_runs s)) (KeyError (pretty r)) ;;
        t ← int_entry "task_id" response;
        of_option (dict_get t (nv_tasks s)) (KeyError (pretty t)) ;;
        mret (r, t, true)
    | None =>
        '(run, task) ← add_task_run a;
        with_idempotency (complete_reservation (rv_record_id reservation) (response_of run task)) ;;
        mret (run, task, rv_is_replay reservation)
    end) s.
Proof using Hkey Htext.
  unfold create_task_run. rewrite Hkey. unfold _stable_hash. unfold mbind at 1, M_bind at 1.
  unfold mbind at 1, M_bind at 1. by rewrite Htext.
Qed.

Lemma create_conflict id h r :
  idem_lookup (nv_idempotency s) sc = Some (id, h, r) → h ≠ sha text →
  create_task_run sha a s = (Raise (IdempotencyConflictError key), s).
Proof using Hkey Htext.
  intros El Hh. rewrite create_keyed. unfold mbind at 1, M_bind at 1. unfold with_idempotency at 1, zoom at 1.
  rewrite (reserve_old _ _ _ _ _ _ El), bool_decide_false by done. by rewrite native_eta_idempotency.
Qed.

Lemma create_replay id r :
  idem_lookup (nv_idempotency s) sc = Some (id, sha text, Some r) →
  ∃ run task, r = response_of run task ∧ create_task_run sha a s = (Ret (run, task, true), s).
Proof using Hwf Hkey Htext.
  intros El. rewrite create_keyed. unfold mbind at 1, M_bind at 1. unfold with_idempotency at 1, zoom at 1.
  rewrite (reserve_old _ _ _ _ _ _ El), bool_decide_true by done.
  rewrite native_eta_idempotency.
  destruct (nw_responses _ Hwf _ _ _ _ El) as (run&task&->&[x Hx]&[y Hy]). exists run, task.
  split; [done|]. unfold replayed_response, int_entry. simpl. m_unfold. by rewrite Hx, Hy.
Qed.

(** A new key, or one whose first request never finished. *)
Lemma create_fresh :
  match idem_lookup (nv_idempotency s) sc with
  | Some (_, h, r) => h = sha text ∧ r = None
  | None => True
  end →
  ∃ s' id b, create_task_run sha a s = (Ret (nv_next_run_id s, nv_next_task_id s, b), s') ∧
    native_wf s' ∧ persists s s' ∧ idem_lookup (nv_idempotency s') sc =
      Some (id, sha text, Some (response_of (nv_next_run_id s) (nv_next_task_id s))).
Proof using Hwf Hkey Htext.
  intros El. rewrite create_keyed. unfold mbind at 1, M_bind at 1.
  pose proof (reserve_sound sc (sha text) s Hwf) as [Hwf1 Hp1].
  assert (∃ id b i, reserve sc (sha text) (nv_idempotency s) = (Ret (mkReservation id b None), i) ∧
    idem_lookup i sc = Some (id, sha text, None)) as (id&b&i&Er&Hl).
  { destruct (idem_lookup (nv_idempotency s) sc) as [[[id h] r]|] eqn:Elk.
    - destruct El as [-> ->]. exists id, true, (nv_idempotency s).
      rewrite (reserve_old _ _ _ _ _ _ Elk), bool_decide_true; done.
    - destruct (reserve_new _ sc (sha text) (nw_idem _ Hwf) Elk) as (id&i&Er&Hi&Hlk).
      exists id, false, i. split; [done|]. by rewrite Hlk, decide_True. }
  unfold with_idempotency at 1, zoom at 1 in Hwf1. unfold with_idempotency at 1, zoom at 1 in Hp1.
  unfold with_idempotency at 1, zoom at 1. rewrite Er in Hwf1, Hp1 |- *. simpl in Hwf1, Hp1.
  set (s1 := mkNative _ _ _ _ _ _ _ _ i _ _ _) in Hwf1, Hp1.
  destruct (create_reserved a sc id (sha text) s1 b Hwf1 Hl) as (s'&E&Hwf'&Hp'&Hl').
  exists s', id, b. split; [|split; [done|split; [by etrans|done]]].
  replace (replayed_response (mkReservation id b None)) with (@None pydict) by by destruct b.
  exact E.
Qed.
End create.

Lemma create_task_run_sound sha a : respects sound_step (create_task_run sha a).
Proof.
  intros s Hwf. destruct (given_key a) as [key|] eqn:Hk.
  2:{ by destruct (create_without_key sha a s Hwf Hk) as (s'&->&?&?). }
  destruct (json_dumps (VDict (ta_request_body a))) as [text|] eqn:Ht.
  2:{ unfold create_task_run. rewrite Hk. unfold _stable_hash. m_unfold. by rewrite Ht. }
  pose proof (create_fresh sha a s Hwf key text Hk Ht) as Hf.
  destruct (idem_lookup (nv_idempotency s) (scope_of_args a key)) as [[[id h] r]|] eqn:El.
  - destruct (decide (h = sha text)) as [->|]; [|by rewrite (create_conflict sha a s key text Hk Ht id h r)].
    destruct r as [r|]; [|by destruct Hf as (s'&id'&b&->&?&?&_)].
    by destruct (create_replay sha a s Hwf key text Hk Ht id r El) as (run&task&_&->).
  - by destruct Hf as (s'&id'&b&->&?&?&_).
Qed.

(** ** Status changes *)

Definition task_moves (t t' : NativeTask) : Prop := ∃ st, t' = t <| nt_status := st |> ∧
  evolves TASK_TRANSITIONS (task_status_value (nt_status t)) (task_status_value st).
Definition run_moves (r r' : NativeRun) : Prop := ∃ st, r' = r <| nr_status := st |> ∧
  evolves RUN_TRANSITIONS (run_status_value (nr_status r)) (run_status_value st).

#[export] Instance task_moves_refl : Reflexive task_moves.
Proof. intros t. exists (nt_status t). by destruct t. Qed.
#[export] Instance run_moves_refl : Reflexive run_moves.
Proof. intros r. exists (nr_status r). by destruct r. Qed.

(** Both dictionaries have the same keys, with related values. *)
Definition dict_rel {K V} `{!EqDecision K} (R : relation V) (d d' : dict K V) : Prop := ∀ k,
  match dict_get k d, dict_get k d' with
  | Some v, Some v' => R v v'
  | None, None => True
  | _, _ => False
  end.

Lemma dict_rel_refl {K V} `{!EqDecision K} (R : relation V) `{!Reflexive R} (d : dict K V) : dict_rel R d d.
Proof. intros k. by destruct (dict_get k d). Qed.

Lemma for_values_rel {K V} `{!EqDecision K} (R : relation V) `{!Reflexive R} (m : M V unit) (d : dict K V) :
  (∀ v, R v (m v).2) → dict_rel R d (for_values m d).2.
Proof.
  intros Hm. induction d as [|[k v] d IH]; intros k'; simpl; [done|]. specialize (Hm v).
  destruct (m v) as [[u|e] v']; simpl in *.
  - specialize (IH k'). destruct (for_values m d) as [r d']. simpl in *. by destruct (decide (k' = k)).
  - destruct (decide (k' = k)); [done|]. apply (dict_rel_refl R d k').
Qed.

Lemma on_key_rel {K V A} `{!EqDecision K} (R : relation V) `{!Reflexive R} (k : K) e (m : M V A) (d : dict K V) :
  (∀ v, R v (m v).2) → dict_rel R d (on_key k e m d).2.
Proof.
  intros Hm k'. rewrite on_key_get. case_decide; subst.
  - destruct (dict_get k' d); simpl; [apply Hm|done].
  - apply (dict_rel_refl R d k').
Qed.

Lemma sound_moves s runs tasks :
  dict_rel run_moves (nv_runs s) runs → dict_rel task_moves (nv_tasks s) tasks →
  sound_step s (s <| nv_runs := runs |> <| nv_tasks := tasks |>).
Proof.
  intros HR HT [W1 W2 W3 W4].
  assert (∀ id r, dict_get id (nv_runs s) = Some r → ∃ st, dict_get id runs = Some (r <| nr_status := st |>) ∧
    evolves RUN_TRANSITIONS (run_status_value (nr_status r)) (run_status_value st)) as Hruns.
  { intros id r Hr. specialize (HR id). rewrite Hr in HR. destruct (dict_get id runs); [|done].
    destruct HR as (st&->&He). by exists st. }
  assert (∀ id t, dict_get id (nv_tasks s) = Some t → ∃ st, dict_get id tasks = Some (t <| nt_status := st |>) ∧
    evolves TASK_TRANSITIONS (task_status_value (nt_status t)) (task_status_value st)) as Htasks.
  { intros id t Ht. specialize (HT id). rewrite Ht in HT. destruct (dict_get id tasks); [|done].
    destruct HT as (st&->&He). by exists st. }
  split; split; simpl; try done.
  - intros sc id h r H. destruct (W2 _ _ _ _ H) as (x&y&->&[? Hx]&[? Hy]). exists x, y. split; [done|].
    apply Hruns in Hx as (?&->&_). apply Htasks in Hy as (?&->&_). by split; eexists.
  - intros id r Hr. specialize (HR id). rewrite Hr in HR. destruct (dict_get id (nv_runs s)) eqn:E; [|done].
    destruct HR as (st&->&_). exact (W3 _ _ E).
  - intros id t Ht. specialize (HT id). rewrite Ht in HT. destruct (dict_get id (nv_tasks s)) eqn:E; [|done].
    destruct HT as (st&->&_). destruct (W4 _ _ E) as (H1&H2&r&Hr&H3). split_and!; [done..|].
    apply Hruns in Hr as (st'&Hr&_). by eexists.
Qed.

Lemma cancel_native_task_moves run t : task_moves t (cancel_native_task run t).2.
Proof.
  unfold cancel_native_task, assert_task_transition, assert_transition. m_unfold.
  destruct (_ && _); [|reflexivity]. destruct (allowed _ _ _) eqn:E; [|reflexivity]. simpl.
  exists TS_cancelled. split; [done|]. by apply evolves_edge.
Qed.

Lemma dict_rel_set {K V} `{!EqDecision K} (R : relation V) `{!Reflexive R} (k : K) v v' (d : dict K V) :
  dict_get k d = Some v → R v v' → dict_rel R d (dict_set k v' d).
Proof.
  intros Hv HR k'. rewrite dict_get_set. case_decide; [by subst; rewrite Hv|]. apply (dict_rel_refl R d k').
Qed.

(** [m] applied to the stored run or task [id]. *)
Lemma on_native_run_run id f s r :
  dict_get id (nv_runs s) = Some r →
  on_native_run id (modify f) s = (Ret tt, s <| nv_runs := dict_set id (f r) (nv_runs s) |>).
Proof. intros H. unfold on_native_run, zoom, on_key. by rewrite H. Qed.

Lemma on_native_task_run id f s t :
  dict_get id (nv_tasks s) = Some t →
  on_native_task id (modify f) s = (Ret tt, s <| nv_tasks := dict_set id (f t) (nv_tasks s) |>).
Proof. intros H. unfold on_native_task, zoom, on_key. by rewrite H. Qed.

Lemma sound_set_run s id r r' :
  dict_get id (nv_runs s) = Some r → run_moves r r' →
  sound_step s (s <| nv_runs := dict_set id r' (nv_runs s) |>).
Proof.
  intros Hr Hm. pose proof (sound_moves s (dict_set id r' (nv_runs s)) (nv_tasks s)
    (dict_rel_set _ _ _ _ _ Hr Hm) (dict_rel_refl _ _)) as Hs. by destruct s.
Qed.

Lemma sound_set_tasks s tasks :
  dict_rel task_moves (nv_tasks s) tasks → sound_step s (s <| nv_tasks := tasks |>).
Proof.
  intros H. pose proof (sound_moves s (nv_runs s) tasks (dict_rel_refl _ _) H) as Hs. by destruct s.
Qed.

Lemma cancelled_run_moves r :
  allowed RUN_TRANSITIONS (run_status_value (nr_status r)) "cancelled" = true →
  run_moves r (r <| nr_status := RS_cancelled |>).
Proof. intros H. exists RS_cancelled. split; [done|]. by apply evolves_edge. Qed.

(** *** [cancel_run] *)

(** What [cancel_run] does up to the event, in each case. *)
Lemma cancel_run_run id s r :
  dict_get id (nv_runs s) = Some r →
  if bool_decide (run_status_value (nr_status r) = "cancelled") then cancel_run id s = (Ret tt, s)
  else if allowed RUN_TRANSITIONS (run_status_value (nr_status r)) "cancelled" then
    let '(o, tasks) := for_values (cancel_native_task id) (nv_tasks s) in
    ∃ s', cancel_run id s = (o, s') ∧
      nv_runs s' = dict_set id (r <| nr_status := RS_cancelled |>) (nv_runs s) ∧ nv_tasks s' = tasks ∧
      nv_idempotency s' = nv_idempotency s ∧ nv_next_run_id s' = nv_next_run_id s ∧
      nv_next_task_id s' = nv_next_task_id s
  else cancel_run id s = (Raise (InvalidStateTransitionError "run" (run_status_value (nr_status r)) "cancelled"), s).
Proof.
  intros Hr. destruct (bool_decide _) eqn:Eb; [|destruct (allowed _ _ _) eqn:Ea].
  - unfold cancel_run. m_unfold. by rewrite Hr, Eb.
  - assert (∃ s1, ∀ k : M NativeRuntimeStore unit,
      (on_native_run id (modify (λ r, r <| nr_status := RS_cancelled |>)) ;; native_now ;; k) s = k s1 ∧
      nv_runs s1 = dict_set id (r <| nr_status := RS_cancelled |>) (nv_runs s) ∧ nv_tasks s1 = nv_tasks s ∧
      nv_idempotency s1 = nv_idempotency s ∧ nv_next_run_id s1 = nv_next_run_id s ∧
      nv_next_task_id s1 = nv_next_task_id s) as (s1&H1).
    { eexists. intros k. unfold mbind at 1, M_bind at 1. rewrite (on_native_run_run id _ s r Hr).
      unfold mbind at 1, M_bind at 1. rewrite native_now_run. by split_and!. }
    assert (cancel_run id s = (zoom nv_tasks (λ t s, s <| nv_tasks := t |>) (for_values (cancel_native_task id)) ;;
      record_event id "run.cancelled" []) s1) as E.
    { destruct (H1 (zoom nv_tasks (λ t s, s <| nv_tasks := t |>) (for_values (cancel_native_task id)) ;;
        record_event id "run.cancelled" [])) as [<- _].
      unfold cancel_run, assert_run_transition, assert_transition, check.
      unfold mbind at 1, M_bind at 1, get_state at 1. unfold mbind at 1, M_bind at 1. rewrite Hr.
      unfold of_option, mret at 1, M_ret at 1. rewrite Eb. unfold mbind at 1, M_bind at 1. by rewrite Ea. }
    destruct (H1 (mret tt)) as (_&R1&T1&I1&N1&M1). rewrite E. unfold zoom, mbind, M_bind. rewrite T1.
    destruct (for_values (cancel_native_task id) (nv_tasks s)) as [[[]|e] tasks]; [|by eexists; split_and!].
    match goal with |- context [record_event ?a ?b ?c ?d] =>
      destruct (record_event_run a b c d) as (s2&->&(R2&T2&I2&N2&M2)); [by eexists|] end.
    exists s2. rewrite R2, T2, I2, N2, M2. by split_and!.
  - unfold cancel_run, assert_run_transition, assert_transition. m_unfold. by rewrite Hr, Eb, Ea.
Qed.

Lemma cancel_run_missing id s :
  dict_get id (nv_runs s) = None → cancel_run id s = (Raise (KeyError (pretty id)), s).
Proof. intros Hr. unfold cancel_run. m_unfold. by rewrite Hr. Qed.

Lemma cancel_run_sound id : respects sound_step (cancel_run id).
Proof.
  intros s. destruct (dict_get id (nv_runs s)) as [r|] eqn:Hr; [|by rewrite cancel_run_missing].
  pose proof (cancel_run_run id s r Hr) as H. destruct (bool_decide _); [by rewrite H|].
  destruct (allowed _ _ _) eqn:Ea; [|by rewrite H].
  pose proof (for_values_rel task_moves (cancel_native_task id) (nv_tasks s) (cancel_native_task_moves id)) as Hm.
  destruct (for_values _ (nv_tasks s)) as [o tasks]. destruct H as (s'&->&HR&HT&HI&HN&HM). simpl in *.
  etrans; [apply (sound_moves s _ tasks (dict_rel_set _ _ _ _ _ Hr (cancelled_run_moves r Ea)) Hm)|].
  apply same_core_sound. by split_and!.
Qed.

(** *** [cancel_task] and the rest *)

Lemma cancel_task_sound id : respects sound_step (cancel_task id).
Proof.
  intros s. destruct (dict_get id (nv_tasks s)) as [t|] eqn:Ht;
    [|unfold cancel_task; m_unfold; by rewrite Ht].
  destruct (bool_decide (task_status_value (nt_status t) = "cancelled")) eqn:Eb;
    [unfold cancel_task; m_unfold; by rewrite Ht, Eb|].
  destruct (allowed TASK_TRANSITIONS (task_status_value (nt_status t)) "cancelled") eqn:Ea.
  2:{ unfold cancel_task, assert_task_transition, assert_transition. m_unfold. by rewrite Ht, Eb, Ea. }
  assert (sound_step s (s <| nv_tasks := dict_set id (t <| nt_status := TS_cancelled |>) (nv_tasks s) |>)) as H1.
  { apply sound_set_tasks, (dict_rel_set _ _ _ _ _ Ht). exists TS_cancelled. split; [done|]. by apply evolves_edge. }
  unfold cancel_task, assert_task_transition, assert_transition, check.
  unfold mbind at 1, M_bind at 1, get_state at 1. unfold mbind at 1, M_bind at 1. rewrite Ht.
  unfold of_option at 1, mret at 1, M_ret at 1. rewrite Eb. unfold mbind at 1, M_bind at 1. rewrite Ea.
  unfold mret at 1, M_ret at 1. unfold mbind at 1, M_bind at 1. rewrite (on_native_task_run id _ s t Ht).
  unfold mbind at 1, M_bind at 1. rewrite native_now_run.
  etrans; [exact H1|]. set (s1 := s <| nv_tasks := _ |>).
  etrans; [apply (same_core_sound s1 (s1 <| nv_ticks := S (nv_ticks s1) |>)); by split_and!|].
  set (s2 := s1 <| nv_ticks := S (nv_ticks s1) |>).
  unfold mbind at 1, M_bind at 1. destruct (dict_get (nt_run_id t) (nv_runs s)) as [r|] eqn:Hr; [|done].
  unfold of_option, mret at 1, M_ret at 1. unfold assert_run_transition, assert_transition, check.
  unfold mbind at 1, M_bind at 1. destruct (allowed RUN_TRANSITIONS _ _) eqn:Er; [|done]. unfold mret at 1, M_ret at 1.
  assert (dict_get (nt_run_id t) (nv_runs s2) = Some r) as Hr2 by done.
  unfold mbind at 1, M_bind at 1. rewrite (on_native_run_run _ _ s2 r Hr2).
  etrans; [apply (sound_set_run s2 _ r (r <| nr_status := RS_cancelled |>) Hr2); by apply cancelled_run_moves|].
  apply sound_record_event. by eexists.
Qed.

Lemma sound_native_now : respects sound_step native_now.
Proof. intros s. rewrite native_now_run. apply same_core_sound. by split_and!. Qed.

Lemma sound_on_agent id (m : M NativeAgent unit) : respects sound_step (on_agent id m).
Proof. intros s. unfold on_agent, zoom. destruct (on_key _ _ _ _). apply same_core_sound. by split_and!. Qed.

Lemma sound_on_version id (m : M NativeAgentVersion unit) : respects sound_step (on_version id m).
Proof. intros s. unfold on_version, zoom. destruct (on_key _ _ _ _). apply same_core_sound. by split_and!. Qed.

Lemma sound_create_agent t p n d : respects sound_step (create_agent t p n d).
Proof. intros s. unfold create_agent, native_now. m_unfold. apply same_core_sound. by split_and!. Qed.

Lemma sound_create_version a v : respects sound_step (create_version a v).
Proof. intros s. unfold create_version, native_now. m_unfold. apply same_core_sound. by split_and!. Qed.

Lemma sound_replay_run sha source v : respects sound_step (replay_run sha source v).
Proof.
  unfold replay_run. apply respects_bind; [apply _|apply respects_get_state; apply _|]. intros s.
  destruct (get_agent _ _ _ s); [|apply respects_raise; apply _].
  match goal with |- context [get_version_by_id ?x ?y s] => destruct (get_version_by_id x y s) end;
    [|apply respects_raise; apply _].
  apply respects_bind; [apply _|apply create_task_run_sound|]. intros [[run task] b].
  apply respects_bind; [apply _|by apply sound_record_event; eexists|]. intros _. apply respects_ret. apply _.
Qed.

(** * Sequences of requests *)

Inductive native_op : Type :=
| NCreateAgent (tenant project : Z) (name : string) (description : option string)
| NUpdateAgent (id : Z) (name description status : option string)
| NArchiveAgent (id : Z)
| NCreateVersion (agent : Z) (v : VersionArgs)
| NUpdateVersion (id : Z) (v : VersionArgs) (status : string)
| NArchiveVersion (id : Z)
| NCreate (a : TaskRunArgs)
| NReplay (source : NativeRun) (version : option Z)
| NCancelRun (id : Z)
| NCancelTask (id : Z).

Definition native_step (sha : string → string) (s : NativeRuntimeStore) (op : native_op) : NativeRuntimeStore :=
  match op with
  | NCreateAgent t p n d => (create_agent t p n d s).2
  | NUpdateAgent id n d st => (update_agent id n d st s).2
  | NArchiveAgent id => (archive_agent id s).2
  | NCreateVersion a v => (create_version a v s).2
  | NUpdateVersion id v st => (update_version id v st s).2
  | NArchiveVersion id => (archive_version id s).2
  | NCreate a => (create_task_run sha a s).2
  | NReplay source v => (replay_run sha source v s).2
  | NCancelRun id => (cancel_run id s).2
  | NCancelTask id => (cancel_task id s).2
  end.

Lemma native_step_sound sha op s : sound_step s (native_step sha s op).
Proof.
  destruct op; simpl.
  - apply sound_create_agent.
  - apply sound_on_agent.
  - apply sound_on_agent.
  - apply sound_create_version.
  - apply sound_on_version.
  - apply sound_on_version.
  - apply create_task_run_sound.
  - apply sound_replay_run.
  - apply cancel_run_sound.
  - apply cancel_task_sound.
Qed.

Lemma native_exec_sound sha ops s : sound_step s (foldl (native_step sha) s ops).
Proof.
  revert s. induction ops as [|op ops IH]; intros s; [done|]. simpl. etrans; [apply native_step_sound|apply IH].
Qed.

Lemma new_native_wf clock : native_wf (new_native clock).
Proof. by split; [split; [constructor|..]|..]. Qed.


(** C24: creating a run is idempotent. Once a request with an idempotency key has
    been answered with a run and a task, then after any other requests the same key
    (same tenant, project and endpoint) with the same body is answered with that run
    and task and changes nothing at all, and with a body that hashes differently it
    is refused, changing nothing. *)
Theorem create_task_run_idempotent sha s a key text run task b s1 ops a' text'
    (Hwf : native_wf s) (Hkey : given_key a = Some key)
    (Htext : json_dumps (VDict (ta_request_body a)) = Some text)
    (Hcall : create_task_run sha a s = (Ret (run, task, b), s1))
    (Hkey' : given_key a' = Some key) (Hscope : scope_of_args a' key = scope_of_args a key)
    (Htext' : json_dumps (VDict (ta_request_body a')) = Some text') :
  let s2 := foldl (native_step sha) s1 ops in
  create_task_run sha a' s2 =
    (if bool_decide (sha text' = sha text) then Ret (run, task, true)
     else Raise (IdempotencyConflictError key), s2).
Proof.
  intros s2.
  assert (native_wf s1 ∧ ∃ id, idem_lookup (nv_idempotency s1) (scope_of_args a key) =
    Some (id, sha text, Some (response_of run task))) as [Hwf1 [id Hl1]].
  { pose proof (create_task_run_sound sha a s Hwf) as [Hwf1 _]. rewrite Hcall in Hwf1. split; [done|].
    pose proof (create_fresh sha a s Hwf key text Hkey Htext) as Hf.
    destruct (idem_lookup (nv_idempotency s) (scope_of_args a key)) as [[[id h] r]|] eqn:El.
    - destruct (decide (h = sha text)) as [->|Hh];
        [|by rewrite (create_conflict sha a s key text Hkey Htext id h r El Hh) in Hcall].
      destruct r as [r|].
      + destruct (create_replay sha a s Hwf key text Hkey Htext id r El) as (run'&task'&->&E).
        rewrite E in Hcall. injection Hcall as <- <- <- <-. by exists id.
      + destruct Hf as (s'&id'&b'&E&_&_&Hl'); [done|]. rewrite E in Hcall. injection Hcall as <- <- <- <-. by exists id'.
    - destruct Hf as (s'&id'&b'&E&_&_&Hl'); [done|]. rewrite E in Hcall. injection Hcall as <- <- <- <-. by exists id'. }
  destruct (native_exec_sound sha ops s1 Hwf1) as [Hwf2 Hp2]. fold s2 in Hwf2, Hp2.
  apply (ps_responses _ _ Hp2) in Hl1. rewrite <-Hscope in Hl1. case_bool_decide as Hh.
  - rewrite <-Hh in Hl1. destruct (create_replay sha a' s2 Hwf2 key text' Hkey' Htext' id _ Hl1) as (run'&task'&Hr&E).
    injection Hr as <- <-. exact E.
  - apply (create_conflict sha a' s2 key text' Hkey' Htext' id _ _ Hl1). congruence.
Qed.

(** ** Cancelling a run *)

Definition cancelled_with (run : Z) (t : NativeTask) : NativeTask :=
  if (nt_run_id t =? run) && bool_decide (task_status_value (nt_status t) ∈ ["queued"; "running"])
  then t <| nt_status := TS_cancelled |> else t.

Lemma for_values_total_on {K V} (m : M V unit) (f : V → V) (d : dict K V) :
  (∀ v, v ∈ dict_values d → m v = (Ret tt, f v)) → for_values m d = (Ret tt, dict_map_values f d).
Proof.
  induction d as [|[k v] d IH]; intros H; simpl; [done|]. rewrite H by left. rewrite IH; [done|].
  intros w Hw. apply H. by right.
Qed.

Lemma cancel_native_task_run run t :
  ¬ (nt_run_id t = run ∧ nt_status t = TS_leased) → cancel_native_task run t = (Ret tt, cancelled_with run t).
Proof.
  intros Hn. unfold cancel_native_task, cancelled_with, assert_task_transition, assert_transition. m_unfold.
  destruct (nt_run_id t =? run) eqn:E; simpl; [|done]. b2p.
  destruct (nt_status t) eqn:Es; simpl; try done. by destruct Hn.
Qed.

(** Cancelling a run that has not ended and none of whose tasks is leased
    cancels the run and its queued and running tasks, and changes no other run or
    task. *)
Theorem cancel_run_correct id s r
    (Hr : dict_get id (nv_runs s) = Some r)
    (Hlive : nr_status r = RS_pending ∨ nr_status r = RS_running ∨ nr_status r = RS_interrupted)
    (Htasks : ∀ t, t ∈ dict_values (nv_tasks s) → nt_run_id t = id → nt_status t ≠ TS_leased) :
  ∃ s', cancel_run id s = (Ret tt, s') ∧
    (∀ rid, dict_get rid (nv_runs s') =
       if decide (id = rid) then Some (r <| nr_status := RS_cancelled |>) else dict_get rid (nv_runs s)) ∧
    (∀ tid, dict_get tid (nv_tasks s') = cancelled_with id <$> dict_get tid (nv_tasks s)).
Proof.
  pose proof (cancel_run_run id s r Hr) as H.
  rewrite (for_values_total_on _ (cancelled_with id)) in H.
  2:{ intros t Ht. apply cancel_native_task_run. intros [H1 H2]. by apply (Htasks t). }
  destruct Hlive as [Hs|[Hs|Hs]]; rewrite Hs in H; simpl in H.
  all: destruct H as (s'&E&HR&HT&_); exists s'; split; [exact E|]; split;
    [intros rid; by rewrite HR, dict_get_set|intros tid; by rewrite HT, dict_get_map_values].
Qed.

(** * Examples *)

Definition plain_args (key : option string) (body : pydict) : TaskRunArgs :=
  mkTaskRunArgs 1 1 5 50 [("q", VInt 1)] None key "/v1/runs" body None.
Definition id_hash (s : string) : string := s.

Definition body_ab : pydict := [("a", VInt 1); ("b", VInt 2)].
Definition body_ba : pydict := [("b", VInt 2); ("a", VInt 1)].
Definition demo_created : NativeRuntimeStore := Eval vm_compute in
  (create_task_run id_hash (plain_args (Some "k") body_ab) (new_native Z.of_nat)).2.
Definition demo_text : string := Eval vm_compute in default "" (json_dumps (VDict body_ab)).

Lemma create_task_run_idempotent_witness :
  let s := foldl (native_step id_hash) demo_created [NCancelRun 1] in
  create_task_run id_hash (plain_args (Some "k") body_ba) s = (Ret (1, 1, true), s).
Proof.
  intros s. unfold s. rewrite (create_task_run_idempotent id_hash (new_native Z.of_nat) (plain_args (Some "k") body_ab)
    "k" demo_text 1 1 false demo_created [NCancelRun 1] (plain_args (Some "k") body_ba) demo_text).
  - rewrite bool_decide_true; reflexivity.
  - apply new_native_wf.
  - reflexivity.
  - vm_compute. reflexivity.
  - vm_compute. reflexivity.
  - reflexivity.
  - reflexivity.
  - vm_compute. reflexivity.
Defined.

Lemma cancel_run_correct_witness :
  nt_status <$> dict_get 1 (nv_tasks (cancel_run 1 demo_created).2) = Some TS_cancelled.
Proof.
  destruct (dict_get 1 (nv_runs demo_created)) as [r|] eqn:Hr; [|discriminate Hr].
  destruct (cancel_run_correct 1 demo_created r Hr) as (s'&E&_&Ht).
  - left. injection Hr as <-. reflexivity.
  - intros t Hin. apply list_elem_of_singleton in Hin as ->. discriminate.
  - rewrite E. simpl. rewrite Ht. reflexivity.
Defined.
