(* ===== verification/SqlNative.v ===== *)
(** The database-backed store of the native API ([SQLAlchemyNativeRuntimeStore] of
    [api/native/runtime.py]) with the repositories it uses
    ([persistence/repositories.py]), over any idempotency backend. *)

From stdpp Require Import relations.
From S2P Require Import Prelude Values Json JsonLoads StateMachine Tables Idempotency Streaming NativeApi.

(** * Rows *)

Record AgentRow := mkAgentRow {
  aw_id : Z;
  aw_tenant_id : Z;
  aw_project_id : Z;
  aw_name : string;
  aw_description : option string;
  aw_status : string;
  aw_created_at : Z;
  aw_is_deleted : bool;
  aw_deleted_at : option Z
}.
#[export] Instance AgentRow_eta : Eta AgentRow := λ a,
  mkAgentRow (aw_id a) (aw_tenant_id a) (aw_project_id a) (aw_name a) (aw_description a) (aw_status a)
    (aw_created_at a) (aw_is_deleted a) (aw_deleted_at a).

Record AgentVersionRow := mkVersionRow {
  vw_id : Z;
  vw_agent_id : Z;
  vw_version : string;
  vw_package_uri : string;
  vw_framework : string;
  vw_adapter : string;
  vw_entrypoint : string;
  vw_capabilities_json : pydict;
  vw_manifest_json : pydict;
  vw_status : string;
  vw_created_at : Z;
  vw_is_deleted : bool;
  vw_deleted_at : option Z
}.
#[export] Instance AgentVersionRow_eta : Eta AgentVersionRow := λ v,
  mkVersionRow (vw_id v) (vw_agent_id v) (vw_version v) (vw_package_uri v) (vw_framework v) (vw_adapter v)
    (vw_entrypoint v) (vw_capabilities_json v) (vw_manifest_json v) (vw_status v) (vw_created_at v)
    (vw_is_deleted v) (vw_deleted_at v).

Record AuditLog := mkAuditLog {
  al_tenant_id : Z;
  al_project_id : option Z;
  al_actor_id : option string;
  al_actor_type : string;
  al_action : string;
  al_resource_type : string;
  al_resource_id : option Z;
  al_result : string;
  al_metadata_json : pydict
}.

(** The session and the idempotency store of the object. *)
Record SqlNative (B : Type) := mkSqlNative {
  sn_db : Db;
  sn_agents : dict Z AgentRow;
  sn_versions : dict Z AgentVersionRow;
  sn_next_agent : Z;
  sn_next_version : Z;
  sn_audit : list AuditLog;
  sn_idempotency : B;
  sn_now : nat → Z;
  sn_ticks : nat
}.
Arguments mkSqlNative {B}.
Arguments sn_db {B}.
Arguments sn_agents {B}.
Arguments sn_versions {B}.
Arguments sn_next_agent {B}.
Arguments sn_next_version {B}.
Arguments sn_audit {B}.
Arguments sn_idempotency {B}.
Arguments sn_now {B}.
Arguments sn_ticks {B}.
#[export] Instance SqlNative_eta {B} : Eta (SqlNative B) := λ s,
  mkSqlNative (sn_db s) (sn_agents s) (sn_versions s) (sn_next_agent s) (sn_next_version s) (sn_audit s)
    (sn_idempotency s) (sn_now s) (sn_ticks s).

Section store.
Context {B : Type} `{!IdempotencyBackend B}.
Context (sha256 : string → string).
Implicit Types s : SqlNative B.

Definition sql_now : M (SqlNative B) Z :=
  s ← get_state;
  modify (λ s, s <| sn_ticks := S (sn_ticks s) |>) ;;
  mret (sn_now s (sn_ticks s)).

Definition in_session {A} (m : M Db A) : M (SqlNative B) A := zoom sn_db (λ d s, s <| sn_db := d |>) m.
Definition in_idempotency {A} (m : M B A) : M (SqlNative B) A :=
  zoom sn_idempotency (λ i s, s <| sn_idempotency := i |>) m.
Definition on_agent_row {A} (id : Z) (m : M AgentRow A) : M (SqlNative B) A :=
  zoom sn_agents (λ t s, s <| sn_agents := t |>) (on_key id (KeyError (pretty id)) m).
Definition on_version_row {A} (id : Z) (m : M AgentVersionRow A) : M (SqlNative B) A :=
  zoom sn_versions (λ t s, s <| sn_versions := t |>) (on_key id (KeyError (pretty id)) m).

(** * Repositories *)

(** [get_by_id] leaves out deleted rows. *)
Definition run_by_id (id : Z) (d : Db) : option Run :=
  r ← dict_get id (db_runs d); if rn_is_deleted r then None else Some r.
Definition task_by_id (id : Z) (d : Db) : option Task :=
  t ← dict_get id (db_tasks d); if tk_is_deleted t then None else Some t.
Definition agent_by_id (id : Z) s : option AgentRow :=
  a ← dict_get id (sn_agents s); if aw_is_deleted a then None else Some a.
Definition version_by_id (id : Z) s : option AgentVersionRow :=
  v ← dict_get id (sn_versions s); if vw_is_deleted v then None else Some v.

(** [RunRepository.transition] *)
Definition run_transition (id : Z) (status : string) : M (SqlNative B) Run :=
  s ← get_state;
  of_option (run_by_id id (sn_db s)) (KeyError (pretty id)) ;;
  in_session (on_run_row id (modify (λ r, r <| rn_status := status |> <| rn_error := None |>))) ;;
  r ← (s ← get_state; of_option (run_by_id id (sn_db s)) (KeyError (pretty id)));
  (if bool_decide (status = "running") && bool_decide (rn_started_at r = None)
   then now ← sql_now; in_session (on_run_row id (modify (λ r, r <| rn_started_at := Some now |>)))
   else mret tt) ;;
  (if bool_decide (status ∈ ["succeeded"; "failed"; "cancelled"; "timeout"])
   then now ← sql_now; in_session (on_run_row id (modify (λ r, r <| rn_finished_at := Some now |>)))
   else mret tt) ;;
  s ← get_state;
  of_option (run_by_id id (sn_db s)) (KeyError (pretty id)).

(** [TaskRepository.list_by_run] *)
Definition tasks_of_run (run : Z) (d : Db) : list Task :=
  List.filter (λ t, (tk_run_id t =? run) && negb (tk_is_deleted t)) (dict_values (db_tasks d)).

(** [TaskRepository.transition] without a worker or an error *)
Definition task_transition (id : Z) (status : string) : M (SqlNative B) Task :=
  s ← get_state;
  of_option (task_by_id id (sn_db s)) (KeyError (pretty id)) ;;
  in_session (on_task_row id (modify (λ t,
    t <| tk_status := status |> <| tk_worker_id := None |> <| tk_error := None |>))) ;;
  t ← (s ← get_state; of_option (task_by_id id (sn_db s)) (KeyError (pretty id)));
  (if bool_decide (status = "running") && bool_decide (tk_started_at t = None)
   then now ← sql_now; in_session (on_task_row id (modify (λ t, t <| tk_started_at := Some now |>)))
   else mret tt) ;;
  (if bool_decide (status ∈ ["succeeded"; "failed"; "dead_letter"; "cancelled"])
   then now ← sql_now; in_session (on_task_row id (modify (λ t, t <| tk_finished_at := Some now |>)))
   else mret tt) ;;
  s ← get_state;
  of_option (task_by_id id (sn_db s)) (KeyError (pretty id)).

(** [AuditLogRepository.append] with the arguments [create_task_run] gives *)
Definition append_audit (tenant project : Z) (action resource_type : string) (resource : Z) (result : string)
  : M (SqlNative B) unit :=
  modify (λ s, s <| sn_audit := sn_audit s ++
    [mkAuditLog tenant (Some project) None "system" action resource_type (Some resource) result []] |>).

(** * Views of rows *)

Definition _agent_from_model (a : AgentRow) : NativeAgent :=
  mkNativeAgent (aw_id a) (aw_tenant_id a) (aw_project_id a) (aw_name a) (aw_description a) (aw_status a)
    (aw_created_at a).

Definition _version_from_model (v : AgentVersionRow) : NativeAgentVersion :=
  mkNativeVersion (vw_id v) (vw_agent_id v) (vw_version v) (vw_package_uri v) (vw_framework v) (vw_adapter v)
    (vw_entrypoint v) (vw_capabilities_json v) (vw_manifest_json v) (vw_status v) (vw_created_at v).

(** [RunStatus(value)] and [TaskStatus(value)]: [ValueError] for other strings. *)
Definition run_status_of (v : string) : option RunStatus :=
  List.find (λ st, String.eqb (run_status_value st) v)
    [RS_pending; RS_running; RS_interrupted; RS_succeeded; RS_failed; RS_cancelled; RS_timeout].
Definition task_status_of (v : string) : option TaskStatus :=
  List.find (λ st, String.eqb (task_status_value st) v)
    [TS_queued; TS_leased; TS_running; TS_retrying; TS_succeeded; TS_failed; TS_dead_letter; TS_cancelled].

(** [{"message": error} if error else None] *)
Definition message_dict (e : option string) : option pydict :=
  if str_truthy e then Some [("message", of_str_opt e)] else None.

Definition native_run_of (r : Run) : M (SqlNative B) NativeRun :=
  status ← of_option (run_status_of (rn_status r)) (ValueError (rn_status r));
  input ← _decode_ref (rn_input_ref r);
  output ← (if str_truthy (rn_output_ref r) then o ← _decode_ref (rn_output_ref r); mret (Some o) else mret None);
  mret (mkNativeRun (rn_id r) (rn_tenant_id r) (rn_project_id r) (rn_agent_id r) (rn_agent_version_id r)
    (rn_deployment_id r) status input output (message_dict (rn_error r)) (rn_thread_id r)
    (rn_idempotency_key r) (rn_created_at r) (rn_started_at r) (rn_finished_at r)).

(** Entries of [metadata_json]; the queue writes strings and a dictionary. *)
Definition str_entry (k : string) (d : pydict) : option string :=
  match dict_get k d with Some (VStr s) => Some s | _ => None end.
Definition dict_entry (k : string) (d : pydict) : option pydict :=
  match dict_get k d with Some (VDict e) => Some e | _ => None end.

Definition native_task_of (t : Task) : M (SqlNative B) NativeTask :=
  status ← of_option (task_status_of (tk_status t)) (ValueError (tk_status t));
  let metadata := tk_metadata_json t in
  mret (mkNativeTask (tk_id t) (tk_run_id t) (tk_tenant_id t) (tk_project_id t) status (tk_worker_id t)
    (tk_queue t) (tk_priority t) (tk_attempt t) (tk_max_attempts t) (tk_idempotency_key t)
    (message_dict (tk_error t)) (tk_dead_letter_reason t) (str_entry "partition_key" metadata)
    (str_entry "resource_class" metadata) (dict_entry "quota_blocking_reason" metadata) (tk_created_at t)).

(** * Agents and versions *)

(** The unique index over project and name of the live agents, and the constraint over
    agent and version of all versions, deleted ones included, checked by a flush. *)
Definition flush_agent (a : AgentRow) : M (SqlNative B) unit :=
  s ← get_state;
  check (negb (existsb (λ b, negb (aw_id b =? aw_id a) && negb (aw_is_deleted b)
      && (aw_project_id b =? aw_project_id a) && bool_decide (aw_name b = aw_name a)) (dict_values (sn_agents s))))
    (IntegrityError "uq_agents_project_name_active") ;;
  modify (λ s, s <| sn_agents := dict_set (aw_id a) a (sn_agents s) |>).
Definition flush_version (v : AgentVersionRow) : M (SqlNative B) unit :=
  s ← get_state;
  check (negb (existsb (λ w, negb (vw_id w =? vw_id v) && (vw_agent_id w =? vw_agent_id v)
      && bool_decide (vw_version w = vw_version v)) (dict_values (sn_versions s))))
    (IntegrityError "uq_agent_versions_agent_version") ;;
  modify (λ s, s <| sn_versions := dict_set (vw_id v) v (sn_versions s) |>).

Definition sql_create_agent (tenant project : Z) (name : string) (description : option string)
  : M (SqlNative B) NativeAgent :=
  now ← sql_now;
  s ← get_state;
  let agent := mkAgentRow (sn_next_agent s) tenant project name description "active" now false None in
  flush_agent agent ;;
  modify (λ s, s <| sn_next_agent := sn_next_agent s + 1 |>) ;;
  mret (_agent_from_model agent).

Definition sql_list_agents (tenant project : Z) s : list NativeAgent :=
  _agent_from_model <$> List.filter (λ a, (aw_tenant_id a =? tenant) && (aw_project_id a =? project)
    && negb (aw_is_deleted a)) (dict_values (sn_agents s)).

Definition sql_get_agent (id tenant project : Z) s : option NativeAgent :=
  a ← agent_by_id id s;
  if (aw_tenant_id a =? tenant) && (aw_project_id a =? project) then Some (_agent_from_model a) else None.

Definition sql_update_agent (id : Z) (name description status : option string) : M (SqlNative B) unit :=
  s ← get_state;
  a ← of_option (agent_by_id id s) (KeyError (pretty id));
  let a := match name with Some n => a <| aw_name := n |> | None => a end in
  let a := a <| aw_description := description |> in
  flush_agent (match status with Some st => a <| aw_status := st |> | None => a end).

(** [soft_delete_or_archive] *)
Definition sql_archive_agent (id : Z) : M (SqlNative B) unit :=
  s ← get_state;
  of_option (agent_by_id id s) (KeyError (pretty id)) ;;
  on_agent_row id (modify (λ a, a <| aw_status := "archived" |> <| aw_is_deleted := true |>)) ;;
  now ← sql_now;
  on_agent_row id (modify (λ a, a <| aw_deleted_at := Some now |>)).

Definition sql_create_version (agent : Z) (v : VersionArgs) : M (SqlNative B) NativeAgentVersion :=
  now ← sql_now;
  s ← get_state;
  let version := mkVersionRow (sn_next_version s) agent (va_version v) (va_package_uri v) (va_framework v)
    (va_adapter v) (va_entrypoint v) (va_capabilities v) (va_manifest v) "ready" now false None in
  flush_version version ;;
  modify (λ s, s <| sn_next_version := sn_next_version s + 1 |>) ;;
  mret (_version_from_model version).

Definition sql_update_version (id : Z) (v : VersionArgs) (status : string) : M (SqlNative B) unit :=
  s ← get_state;
  x ← of_option (version_by_id id s) (KeyError (pretty id));
  flush_version (x <| vw_version := va_version v |> <| vw_package_uri := va_package_uri v |>
    <| vw_framework := va_framework v |> <| vw_adapter := va_adapter v |>
    <| vw_entrypoint := va_entrypoint v |> <| vw_capabilities_json := va_capabilities v |>
    <| vw_manifest_json := va_manifest v |> <| vw_status := status |>).

Definition sql_archive_version (id : Z) : M (SqlNative B) unit :=
  s ← get_state;
  of_option (version_by_id id s) (KeyError (pretty id)) ;;
  on_version_row id (modify (λ v, v <| vw_status := "archived" |> <| vw_is_deleted := true |>)) ;;
  now ← sql_now;
  on_version_row id (modify (λ v, v <| vw_deleted_at := Some now |>)).

Definition sql_get_version_by_id (agent id : Z) s : option NativeAgentVersion :=
  v ← version_by_id id s;
  if vw_agent_id v =? agent then Some (_version_from_model v) else None.

(** [list_by_agent] leaves out archived versions. *)
Definition live_version_row (agent : Z) (v : AgentVersionRow) : bool :=
  (vw_agent_id v =? agent) && negb (vw_is_deleted v) && negb (bool_decide (vw_status v = "archived")).
Definition sql_list_versions (agent : Z) s : list NativeAgentVersion :=
  _version_from_model <$> List.filter (live_version_row agent) (dict_values (sn_versions s)).
Definition sql_get_version (agent : Z) (version : string) s : option NativeAgentVersion :=
  _version_from_model <$> List.find (λ v, live_version_row agent v && bool_decide (vw_version v = version))
    (dict_values (sn_versions s)).
Definition sql_latest_version (agent : Z) s : option NativeAgentVersion :=
  last (stable_sort (λ v w, av_created_at v <=? av_created_at w) (sql_list_versions agent s)).

(** * Runs and tasks *)

(** A query whose rows are read one by one, in order. *)
Fixpoint read_rows {R A} (read : R → M (SqlNative B) A) (rows : list R) : M (SqlNative B) (list A) :=
  match rows with
  | [] => mret []
  | r :: rows => x ← read r; l ← read_rows read rows; mret (x :: l)
  end.

(** [list_runs] and [list_tasks] show deleted rows, too. *)
Definition sql_list_runs (tenant project : Z) : M (SqlNative B) (list NativeRun) :=
  s ← get_state;
  read_rows native_run_of (List.filter (λ r, (rn_tenant_id r =? tenant) && (rn_project_id r =? project))
    (dict_values (db_runs (sn_db s)))).
Definition sql_list_tasks (tenant project : Z) : M (SqlNative B) (list NativeTask) :=
  s ← get_state;
  read_rows native_task_of (List.filter (λ t, (tk_tenant_id t =? tenant) && (tk_project_id t =? project))
    (dict_values (db_tasks (sn_db s)))).

Definition sql_get_run (id tenant project : Z) : M (SqlNative B) (option NativeRun) :=
  s ← get_state;
  match run_by_id id (sn_db s) with
  | Some r =>
      if (rn_tenant_id r =? tenant) && (rn_project_id r =? project)
      then n ← native_run_of r; mret (Some n) else mret None
  | None => mret None
  end.

Definition sql_get_task (id tenant project : Z) : M (SqlNative B) (option NativeTask) :=
  s ← get_state;
  match task_by_id id (sn_db s) with
  | Some t =>
      if (tk_tenant_id t =? tenant) && (tk_project_id t =? project)
      then n ← native_task_of t; mret (Some n) else mret None
  | None => mret None
  end.

(** The rows of the new run and its task, the two events, and the audit entry. *)
Definition sql_add_task_run (a : TaskRunArgs) : M (SqlNative B) (Z * Z) :=
  ref ← _encode_ref (ta_input_data a);
  now ← sql_now;
  s ← get_state;
  let run := db_next_run (sn_db s) in
  in_session (modify (λ d, d <| db_runs := dict_set run (mkRun run (ta_tenant_id a) (ta_project_id a)
      (ta_agent a) (ta_agent_version a) (ta_deployment_id a) (ta_thread_id a) "pending" (Some ref) None None
      None None now false None (ta_idempotency_key a)) (db_runs d) |>
    <| db_next_run := run + 1 |>)) ;;
  now ← sql_now;
  let task := db_next_task (sn_db s) in
  in_session (modify (λ d, d <| db_tasks := dict_set task (mkTask task run (ta_tenant_id a) (ta_project_id a)
      "queued" 0 3 "default" 0 None None None None None None 0 (ta_idempotency_key a) None None [] now false)
      (db_tasks d) |>
    <| db_next_task := task + 1 |>)) ;;
  in_session (append_event run None (ta_tenant_id a) (ta_project_id a) "run.created"
    [("task_id", VInt task)] None "internal") ;;
  in_session (append_event run None (ta_tenant_id a) (ta_project_id a) "task.queued"
    [("task_id", VInt task)] None "internal") ;;
  append_audit (ta_tenant_id a) (ta_project_id a) "run.create" "run" run "allow" ;;
  mret (run, task).

Definition sql_create_task_run (a : TaskRunArgs) : M (SqlNative B) (Z * Z * bool) :=
  match given_key a with
  | None => '(run, task) ← sql_add_task_run a; mret (run, task, false)
  | Some key =>
      request_hash ← _stable_hash sha256 (ta_request_body a);
      reservation ← in_idempotency (ib_reserve (scope_of_args a key) request_hash);
      match replayed_response reservation with
      | Some response =>
          r ← int_entry "run_id" response;
          run ← sql_get_run r (ta_tenant_id a) (ta_project_id a);
          t ← int_entry "task_id" response;
          task ← sql_get_task t (ta_tenant_id a) (ta_project_id a);
          match run, task with
          | Some _, Some _ => mret (r, t, true)
          | _, _ => raise (KeyError "idempotency response references missing run/task")
          end
      | None =>
          '(run, task) ← sql_add_task_run a;
          in_idempotency (ib_complete (rv_record_id reservation) (response_of run task)) ;;
          mret (run, task, rv_is_replay reservation)
      end
  end.

Definition sql_replay_run (source : NativeRun) (agent_version_id : option Z) : M (SqlNative B) Z :=
  s ← get_state;
  match sql_get_agent (nr_agent_id source) (nr_tenant_id source) (nr_project_id source) s,
        sql_get_version_by_id (nr_agent_id source) (or_int agent_version_id (nr_agent_version_id source)) s with
  | Some agent, Some version =>
      '(run, task, _) ← sql_create_task_run (mkTaskRunArgs (nr_tenant_id source) (nr_project_id source)
        (ag_id agent) (av_id version) (nr_input source) (nr_thread_id source) None
        ("/v1/runs/" +:+ pretty (nr_id source) +:+ "/replay")
        [("source_run_id", VInt (nr_id source)); ("agent_version_id", VInt (av_id version))] None);
      in_session (append_event run None (nr_tenant_id source) (nr_project_id source) "run.replayed"
        [("source_run_id", VInt (nr_id source)); ("task_id", VInt task);
         ("agent_version_id", VInt (av_id version))] None "internal") ;;
      mret run
  | _, _ => raise (KeyError (pretty (nr_id source)))
  end.

(** [cancel_run]; [run] is a copy the caller read before. *)
Definition sql_native_cancel_run (run : NativeRun) : M (SqlNative B) unit :=
  if bool_decide (run_status_value (nr_status run) = "cancelled") then mret tt
  else
    assert_run_transition (run_status_value (nr_status run)) "cancelled" ;;
    run_transition (nr_id run) "cancelled" ;;
    s ← get_state;
    for_each (tasks_of_run (nr_id run) (sn_db s)) (λ task,
      if bool_decide (tk_status task ∈ ["queued"; "leased"; "running"]) then
        assert_task_transition (tk_status task) "cancelled" ;;
        task_transition (tk_id task) "cancelled" ;;
        mret tt
      else mret tt) ;;
    in_session (append_event (nr_id run) None (nr_tenant_id run) (nr_project_id run) "run.cancelled" []
      None "internal") ;;
    mret tt.

Definition sql_native_cancel_task (task : NativeTask) : M (SqlNative B) unit :=
  if bool_decide (task_status_value (nt_status task) = "cancelled") then mret tt
  else
    assert_task_transition (task_status_value (nt_status task)) "cancelled" ;;
    task_transition (nt_id task) "cancelled" ;;
    s ← get_state;
    r ← of_option (run_by_id (nt_run_id task) (sn_db s)) (KeyError (pretty (nt_run_id task)));
    assert_run_transition (rn_status r) "cancelled" ;;
    run_transition (nt_run_id task) "cancelled" ;;
    in_session (append_event (nt_run_id task) None (nt_tenant_id task) (nt_project_id task) "task.cancelled"
      [("task_id", VInt (nt_id task))] None "internal") ;;
    mret tt.
End store.
