(* ===== verification/SqlNativeProps.v ===== *)
(** What the database-backed store of the native API guarantees, for every
    idempotency backend that keeps the promise of [IdempotencyLaws]. *)

From stdpp Require Import relations.
From S2P Require Import Prelude Values Json JsonLoads StateMachine Tables Idempotency Streaming NativeApi SqlNative.

(** * Rows that can be read back *)

Section decode.
Context {S : Type}.

Definition decodes (v : option string) : Prop := ∀ s : S, ∃ d, _decode_ref v s = (Ret d, s).

Lemma decodes_encoded d (s : S) ref s' :
  unique_keys (VDict d) → _encode_ref d s = (Ret ref, s') → decodes (Some ref).
Proof. intros Hu H s1. destruct (ref_roundtrip d s ref s' Hu H) as [_ Hd]. eexists. apply Hd. Qed.
End decode.

Section props.
Context {B : Type} `{!IdempotencyBackend B, !IdempotencyLaws B}.
Context (sha256 : string → string).
Abbreviation St := (SqlNative B).
Implicit Types s : St.

(** The row can be shown to its tenant and project. *)
Definition run_readable (tenant project : Z) (r : Run) : Prop :=
  rn_is_deleted r = false ∧ rn_tenant_id r = tenant ∧ rn_project_id r = project ∧
  is_Some (run_status_of (rn_status r)) ∧ decodes (S:=St) (rn_input_ref r) ∧ decodes (S:=St) (rn_output_ref r).
Definition task_readable (tenant project : Z) (t : Task) : Prop :=
  tk_is_deleted t = false ∧ tk_tenant_id t = tenant ∧ tk_project_id t = project ∧
  is_Some (task_status_of (tk_status t)).

(** Every stored response names a run and a task its tenant can read; ids are
    given out once. *)
Record sql_wf s : Prop := {
  qw_idem : ib_ok (sn_idempotency s);
  qw_responses : ∀ sc id h resp, ib_lookup (sn_idempotency s) sc = Some (id, h, Some resp) →
    ∃ run task r t, resp = response_of run task ∧
      dict_get run (db_runs (sn_db s)) = Some r ∧ dict_get task (db_tasks (sn_db s)) = Some t ∧
      ∃ p, is_project_id sc = Some p ∧ run_readable (is_tenant_id sc) p r ∧ task_readable (is_tenant_id sc) p t;
  qw_runs : ∀ id r, dict_get id (db_runs (sn_db s)) = Some r → id < db_next_run (sn_db s);
  qw_tasks : ∀ id t, dict_get id (db_tasks (sn_db s)) = Some t → id < db_next_task (sn_db s)
}.

(** Rows stay, and stay readable; responses stay. *)
Record sql_persists s s' : Prop := {
  qp_runs : ∀ id r, dict_get id (db_runs (sn_db s)) = Some r →
    ∃ r', dict_get id (db_runs (sn_db s')) = Some r' ∧ ∀ t p, run_readable t p r → run_readable t p r';
  qp_tasks : ∀ id k, dict_get id (db_tasks (sn_db s)) = Some k →
    ∃ k', dict_get id (db_tasks (sn_db s')) = Some k' ∧ ∀ t p, task_readable t p k → task_readable t p k';
  qp_responses : ∀ sc id h r, ib_lookup (sn_idempotency s) sc = Some (id, h, Some r) →
    ib_lookup (sn_idempotency s') sc = Some (id, h, Some r)
}.

#[export] Instance sql_persists_preorder : PreOrder sql_persists.
Proof.
  split.
  - intros s. by split; eauto.
  - intros s1 s2 s3 [R1 T1 P1] [R2 T2 P2]. split; [| |by auto].
    + intros id r (r2&Hr&H2)%R1. destruct (R2 _ _ Hr) as (r3&Hr3&H3). exists r3. split; [done|]. auto.
    + intros id t (t2&Ht&H2)%T1. destruct (T2 _ _ Ht) as (t3&Ht3&H3). exists t3. split; [done|]. auto.
Qed.

Definition sql_sound s s' : Prop := sql_wf s → sql_wf s' ∧ sql_persists s s'.

#[export] Instance sql_sound_preorder : PreOrder sql_sound.
Proof.
  split; [by intros s Hs|]. intros s1 s2 s3 H1 H2 Hs. destruct (H1 Hs) as [Hs2 P1], (H2 Hs2) as [Hs3 P2].
  split; [done|by etrans].
Qed.

(** A step that keeps the ids, the responses and what can be read. *)
Lemma sound_rows s s' :
  (∀ id r, dict_get id (db_runs (sn_db s)) = Some r →
    ∃ r', dict_get id (db_runs (sn_db s')) = Some r' ∧ ∀ t p, run_readable t p r → run_readable t p r') →
  (∀ id k, dict_get id (db_tasks (sn_db s)) = Some k →
    ∃ k', dict_get id (db_tasks (sn_db s')) = Some k' ∧ ∀ t p, task_readable t p k → task_readable t p k') →
  (∀ id, is_Some (dict_get id (db_runs (sn_db s'))) →
     is_Some (dict_get id (db_runs (sn_db s))) ∨ id < db_next_run (sn_db s')) →
  (∀ id, is_Some (dict_get id (db_tasks (sn_db s'))) →
     is_Some (dict_get id (db_tasks (sn_db s))) ∨ id < db_next_task (sn_db s')) →
  db_next_run (sn_db s) ≤ db_next_run (sn_db s') → db_next_task (sn_db s) ≤ db_next_task (sn_db s') →
  sn_idempotency s' = sn_idempotency s → sql_sound s s'.
Proof.
  intros HR HT HnR HnT HleR HleT HI [W1 W2 W3 W4]. split; [split|by split; rewrite ?HI].
  - by rewrite HI.
  - rewrite HI. intros sc id h resp H. destruct (W2 _ _ _ _ H) as (run&task&r&t&->&Hr&Ht&p&Hp&Hrr&Htr).
    destruct (HR _ _ Hr) as (r'&Hr'&Hrr'), (HT _ _ Ht) as (t'&Ht'&Htr'). exists run, task, r', t'. split_and!; [done..|].
    exists p. split_and!; [done|by apply Hrr'|by apply Htr'].
  - intros id r Hr. destruct (HnR id) as [[r0 H0]|]; [by eexists| |done]. apply W3 in H0. lia.
  - intros id t Ht. destruct (HnT id) as [[t0 H0]|]; [by eexists| |done]. apply W4 in H0. lia.
Qed.

(** Nothing but the clock, the events, the audit log or the agents changed. *)
Lemma sound_aside s s' :
  db_runs (sn_db s') = db_runs (sn_db s) → db_tasks (sn_db s') = db_tasks (sn_db s) →
  db_next_run (sn_db s') = db_next_run (sn_db s) → db_next_task (sn_db s') = db_next_task (sn_db s) →
  sn_idempotency s' = sn_idempotency s → sql_sound s s'.
Proof.
  intros HR HT HN HM HI. apply sound_rows; rewrite ?HR, ?HT, ?HN, ?HM; try done; eauto.
Qed.

(** ** Pieces *)

Lemma sql_now_run s : sql_now s = (Ret (sn_now s (sn_ticks s)), s <| sn_ticks := S (sn_ticks s) |>).
Proof. done. Qed.

Lemma sound_sql_now : respects sql_sound (sql_now (B:=B)).
Proof. intros s. rewrite sql_now_run. by apply sound_aside. Qed.

Lemma sound_event run att t p ty pl f v : respects sql_sound (in_session (B:=B) (append_event run att t p ty pl f v)).
Proof. intros s. unfold in_session, zoom. rewrite append_event_run. by apply sound_aside. Qed.

Lemma sound_agent_row {A} id (m : M AgentRow A) : respects sql_sound (on_agent_row (B:=B) id m).
Proof. intros s. unfold on_agent_row, zoom. destruct (on_key _ _ _ _). by apply sound_aside. Qed.

Lemma sound_version_row {A} id (m : M AgentVersionRow A) : respects sql_sound (on_version_row (B:=B) id m).
Proof. intros s. unfold on_version_row, zoom. destruct (on_key _ _ _ _). by apply sound_aside. Qed.

Lemma sound_flush_agent a : respects sql_sound (flush_agent (B:=B) a).
Proof. intros s. unfold flush_agent. m_unfold. destruct (negb _); by apply sound_aside. Qed.

Lemma sound_flush_version v : respects sql_sound (flush_version (B:=B) v).
Proof. intros s. unfold flush_version. m_unfold. destruct (negb _); by apply sound_aside. Qed.

(** One column-wise change of a run or a task. *)
Lemma sound_run_row id f :
  (∀ r t p, run_readable t p r → run_readable t p (f r)) →
  respects sql_sound (in_session (B:=B) (on_run_row id (modify f))).
Proof.
  intros Hf s. unfold in_session, on_run_row, zoom, on_key. simpl.
  destruct (dict_get id (db_runs (sn_db s))) as [r|] eqn:E; simpl; [|by apply sound_aside].
  apply sound_rows; simpl; try done; eauto.
  - intros id' r' Hr'. rewrite dict_get_set. case_decide; [|by eauto]. subst. exists (f r). split; [done|].
    intros t p. assert (r' = r) as -> by congruence. apply Hf.
  - intros id'. rewrite dict_get_set. case_decide; [subst; rewrite E; by left|by left].
Qed.

Lemma sound_task_row id f :
  (∀ k t p, task_readable t p k → task_readable t p (f k)) →
  respects sql_sound (in_session (B:=B) (on_task_row id (modify f))).
Proof.
  intros Hf s. unfold in_session, on_task_row, zoom, on_key. simpl.
  destruct (dict_get id (db_tasks (sn_db s))) as [r|] eqn:E; simpl; [|by apply sound_aside].
  apply sound_rows; simpl; try done; eauto.
  - intros id' r' Hr'. rewrite dict_get_set. case_decide; [|by eauto]. subst. exists (f r). split; [done|].
    intros t p. assert (r' = r) as -> by congruence. apply Hf.
  - intros id'. rewrite dict_get_set. case_decide; [subst; rewrite E; by left|by left].
Qed.

Ltac sound_tac := repeat first
  [ apply sound_sql_now | apply sound_event | apply sound_agent_row | apply sound_version_row
  | apply sound_flush_agent | apply sound_flush_version | (intros ?; by apply sound_aside)
  | apply respects_ret; apply _ | apply respects_raise; apply _ | apply respects_get_state; apply _
  | apply respects_check; apply _ | apply respects_of_option; apply _
  | apply respects_bind; [apply _| |intros ?]
  | match goal with |- respects _ (if ?b then _ else _) => destruct b end
  | match goal with |- respects _ (match ?o with Some _ => _ | None => _ end) => destruct o end ].

Lemma sound_run_transition id status :
  is_Some (run_status_of status) → respects sql_sound (run_transition (B:=B) id status).
Proof.
  intros Hst. unfold run_transition. sound_tac.
  all: apply sound_run_row; intros r t p (?&?&?&?&?&?); by split_and!.
Qed.

Lemma sound_task_transition id status :
  is_Some (task_status_of status) → respects sql_sound (task_transition (B:=B) id status).
Proof.
  intros Hst. unfold task_transition. sound_tac.
  all: apply sound_task_row; intros r t p (?&?&?&?); by split_and!.
Qed.

#[local] Opaque run_transition task_transition.

Lemma sound_cancel_run run : respects sql_sound (sql_native_cancel_run (B:=B) run).
Proof.
  unfold sql_native_cancel_run, assert_run_transition, assert_task_transition, assert_transition. sound_tac.
  - apply sound_run_transition. by eexists.
  - apply respects_for_each; [apply _|]. intros task _. sound_tac. apply sound_task_transition. by eexists.
Qed.

Lemma sound_cancel_task task : respects sql_sound (sql_native_cancel_task (B:=B) task).
Proof.
  unfold sql_native_cancel_task, assert_run_transition, assert_task_transition, assert_transition. sound_tac.
  - apply sound_task_transition. by eexists.
  - apply sound_run_transition. by eexists.
Qed.

#[local] Transparent run_transition task_transition.

(** ** A new run *)

Lemma sql_add_task_run_run a s :
  unique_keys (VDict (ta_input_data a)) →
  match json_dumps (VDict (ta_input_data a)) with
  | None => sql_add_task_run a s = (Raise type_error, s)
  | Some _ => ∃ s' r t,
      sql_add_task_run a s = (Ret (db_next_run (sn_db s), db_next_task (sn_db s)), s') ∧
      run_readable (ta_tenant_id a) (ta_project_id a) r ∧ task_readable (ta_tenant_id a) (ta_project_id a) t ∧
      db_runs (sn_db s') = dict_set (db_next_run (sn_db s)) r (db_runs (sn_db s)) ∧
      db_tasks (sn_db s') = dict_set (db_next_task (sn_db s)) t (db_tasks (sn_db s)) ∧
      db_next_run (sn_db s') = db_next_run (sn_db s) + 1 ∧ db_next_task (sn_db s') = db_next_task (sn_db s) + 1 ∧
      sn_idempotency s' = sn_idempotency s
  end.
Proof.
  intros Hu. destruct (json_dumps (VDict (ta_input_data a))) as [text|] eqn:E.
  2:{ unfold sql_add_task_run, _encode_ref. m_unfold. by rewrite E. }
  assert (_encode_ref (ta_input_data a) s = (Ret ("json:" +:+ text), s)) as Ee
    by (unfold _encode_ref; m_unfold; by rewrite E).
  pose proof (decodes_encoded _ s _ _ Hu Ee) as Hd.
  unfold sql_add_task_run. unfold mbind at 1, M_bind at 1. rewrite Ee.
  unfold mbind, M_bind, sql_now, mret, M_ret, mbind, M_bind, get_state, in_session, zoom, modify, append_audit.
  cbn -[append_event]. rewrite append_event_run. cbn -[append_event]. rewrite append_event_run. cbn.
  eexists _, _, _. split; [reflexivity|].
  split; [|split; [|done]]; [|by split_and!; try (by eexists)].
  split_and!; [done..|by eexists|exact Hd|intros s1; by eexists].
Qed.

Lemma sound_add_task_run a s :
  unique_keys (VDict (ta_input_data a)) → sql_sound s (sql_add_task_run a s).2.
Proof.
  intros Hu. pose proof (sql_add_task_run_run a s Hu) as H.
  destruct (json_dumps (VDict (ta_input_data a))); [|by rewrite H].
  destruct H as (s'&r&t&->&Hr&Ht&HR&HT&HN&HM&HI). simpl. intros Hwf.
  apply sound_rows; [..|done|done]; rewrite ?HN, ?HM; try lia.
  - intros id r0 Hr0. exists r0. split; [|done]. rewrite HR, dict_get_set_ne; [done|].
    intros <-. apply (qw_runs _ Hwf) in Hr0. lia.
  - intros id r0 Hr0. exists r0. split; [|done]. rewrite HT, dict_get_set_ne; [done|].
    intros <-. apply (qw_tasks _ Hwf) in Hr0. lia.
  - intros id. rewrite HR, dict_get_set. case_decide; [right; lia|by left].
  - intros id. rewrite HT, dict_get_set. case_decide; [right; lia|by left].
Qed.

(** ** [create_task_run] *)

(** Replacing the idempotency records. *)
Lemma sound_records s i :
  ib_ok i →
  (∀ sc id h resp, ib_lookup i sc = Some (id, h, Some resp) →
    ib_lookup (sn_idempotency s) sc = Some (id, h, Some resp) ∨
    ∃ run task r t, resp = response_of run task ∧
      dict_get run (db_runs (sn_db s)) = Some r ∧ dict_get task (db_tasks (sn_db s)) = Some t ∧
      ∃ p, is_project_id sc = Some p ∧ run_readable (is_tenant_id sc) p r ∧ task_readable (is_tenant_id sc) p t) →
  (∀ sc id h r, ib_lookup (sn_idempotency s) sc = Some (id, h, Some r) → ib_lookup i sc = Some (id, h, Some r)) →
  sql_sound s (s <| sn_idempotency := i |>).
Proof.
  intros Hi Hr Hp [W1 W2 W3 W4]. split; [split|split]; simpl; try done; eauto.
  intros sc id h resp H. destruct (Hr _ _ _ _ H) as [H'|H']; [by apply (W2 sc id h)|done].
Qed.

Lemma sound_reserve sc h : respects sql_sound (in_idempotency (ib_reserve sc h)).
Proof.
  intros s Hwf. pose proof (qw_idem _ Hwf) as Hok. unfold in_idempotency, zoom.
  destruct (ib_lookup (sn_idempotency s) sc) as [[[id h'] r]|] eqn:El.
  - rewrite (ib_reserve_old _ _ h _ _ _ Hok El). simpl. destruct (bool_decide (h' = h)); by destruct s.
  - destruct (ib_reserve_new _ sc h Hok El) as (id&i&->&Hi&Hl). simpl. apply sound_records; [done|..|done].
    + intros sc' id' h' r. rewrite Hl. case_decide; [done|]. by left.
    + intros sc' id' h' r Hr. rewrite Hl. case_decide; [by subst; rewrite El in Hr|done].
Qed.

(** The statements after a reservation without a response. *)
Lemma sql_create_reserved a key id h b s1 :
  let sc := scope_of_args a key in
  unique_keys (VDict (ta_input_data a)) → sql_wf s1 → ib_lookup (sn_idempotency s1) sc = Some (id, h, None) →
  is_Some (json_dumps (VDict (ta_input_data a))) →
  ∃ s', ('(run, task) ← sql_add_task_run a; in_idempotency (ib_complete id (response_of run task)) ;;
         mret (run, task, b)) s1 = (Ret (db_next_run (sn_db s1), db_next_task (sn_db s1), b : bool), s') ∧
    sql_wf s' ∧ sql_persists s1 s' ∧ ib_lookup (sn_idempotency s') sc =
      Some (id, h, Some (response_of (db_next_run (sn_db s1)) (db_next_task (sn_db s1)))).
Proof.
  intros sc Hu Hwf1 Hl Hj. pose proof (sql_add_task_run_run a s1 Hu) as H. destruct Hj as [itext Hi]. rewrite Hi in H.
  destruct H as (s2&r&t&E&Hr&Ht&HR&HT&HN&HM&HI).
  pose proof (sound_add_task_run a s1 Hu Hwf1) as [Hwf2 Hp2]. rewrite E in Hwf2, Hp2. simpl in *.
  destruct (ib_complete_law (sn_idempotency s2) sc id h None
    (response_of (db_next_run (sn_db s1)) (db_next_task (sn_db s1)))) as (i&Ec&Hok&Hlk);
    [apply Hwf2|by rewrite HI|by repeat constructor; set_solver|by eexists|done|].
  unfold mbind at 1, M_bind at 1. rewrite E. unfold in_idempotency, zoom, mbind, M_bind. rewrite Ec.
  eexists. split; [done|].
  destruct (sound_records s2 i) as [Hwf3 Hp3]; [done|..|done|].
  - intros sc' id' h' resp. rewrite Hlk. case_decide; [|by left]. intros [= <- <- <-]. right.
    eexists _, _, r, t. split; [done|]. rewrite HR, HT, !dict_get_set_eq. split_and!; [done..|].
    subst sc'. by exists (ta_project_id a).
  - intros sc' id' h' resp Hx. rewrite Hlk. case_decide; [subst; rewrite HI in Hx; congruence|done].
  - split; [done|]. split; [by etrans|]. simpl. rewrite Hlk. by rewrite decide_True.
Qed.

Lemma sql_eta_idempotency (x : St) : x <| sn_idempotency := sn_idempotency x |> = x.
Proof. by destruct x. Qed.

(** What can be read is read. *)
Lemma sql_get_run_readable id r t p (x : St) :
  dict_get id (db_runs (sn_db x)) = Some r → run_readable t p r → ∃ n, sql_get_run id t p x = (Ret (Some n), x).
Proof.
  intros Hr (Hd&<-&<-&[st Hst]&Hi&Ho). unfold sql_get_run, run_by_id. m_unfold. rewrite Hr. simpl. rewrite Hd, !Z.eqb_refl.
  simpl. unfold native_run_of. unfold mbind at 1, M_bind at 1. rewrite Hst. unfold of_option, mret at 1, M_ret at 1.
  destruct (Hi x) as [di Ei], (Ho x) as [do Eo]. unfold mbind at 1, M_bind at 1. rewrite Ei.
  unfold mbind, M_bind. destruct (str_truthy (rn_output_ref r)); [rewrite Eo|]; by eexists.
Qed.

Lemma sql_get_task_readable id k t p (x : St) :
  dict_get id (db_tasks (sn_db x)) = Some k → task_readable t p k → ∃ n, sql_get_task id t p x = (Ret (Some n), x).
Proof.
  intros Hr (Hd&<-&<-&[st Hst]). unfold sql_get_task, task_by_id. m_unfold. rewrite Hr. simpl. rewrite Hd, !Z.eqb_refl.
  simpl. unfold native_task_of. m_unfold. rewrite Hst. by eexists.
Qed.

Section create.
Context (a : TaskRunArgs) (s : St) (Hwf : sql_wf s) (Hu : unique_keys (VDict (ta_input_data a))).
Context (key text : string) (Hkey : given_key a = Some key)
  (Htext : json_dumps (VDict (ta_request_body a)) = Some text).
Abbreviation sc := (scope_of_args a key).

Lemma sql_create_keyed :
  sql_create_task_run sha256 a s = (reservation ← in_idempotency (ib_reserve sc (sha256 text));
    match replayed_response reservation with
    | Some response =>
        r ← int_entry "run_id" response;
        run ← sql_get_run r (ta_tenant_id a) (ta_project_id a);
        t ← int_entry "task_id" response;
        task ← sql_get_task t (ta_tenant_id a) (ta_project_id a);
        match run, task with
        | Some _, Some _ => mret (r, t, true)
        | _, _ => raise (KeyError "idempotency response references missing run/task")
        end
    | None =>
        '(run, task) ← sql_add_task_run a;
        in_idempotency (ib_complete (rv_record_id reservation) (response_of run task)) ;;
        mret (run, task, rv_is_replay reservation)
    end) s.
Proof using Hkey Htext.
  unfold sql_create_task_run. rewrite Hkey. unfold _stable_hash. unfold mbind at 1, M_bind at 1.
  unfold mbind at 1, M_bind at 1. by rewrite Htext.
Qed.

Lemma sql_create_conflict id h r :
  ib_lookup (sn_idempotency s) sc = Some (id, h, r) → h ≠ sha256 text →
  sql_create_task_run sha256 a s = (Raise (IdempotencyConflictError key), s).
Proof using Hwf Hkey Htext.
  intros El Hh. rewrite sql_create_keyed. unfold mbind at 1, M_bind at 1. unfold in_idempotency at 1, zoom at 1.
  rewrite (ib_reserve_old _ _ _ _ _ _ (qw_idem _ Hwf) El), bool_decide_false by done.
  by rewrite sql_eta_idempotency.
Qed.

Lemma sql_create_replay id r :
  ib_lookup (sn_idempotency s) sc = Some (id, sha256 text, Some r) →
  ∃ run task, r = response_of run task ∧ sql_create_task_run sha256 a s = (Ret (run, task, true), s).
Proof using Hwf Hkey Htext.
  intros El. rewrite sql_create_keyed. unfold mbind at 1, M_bind at 1. unfold in_idempotency at 1, zoom at 1.
  rewrite (ib_reserve_old _ _ _ _ _ _ (qw_idem _ Hwf) El), bool_decide_true by done.
  rewrite sql_eta_idempotency.
  destruct (qw_responses _ Hwf _ _ _ _ El) as (run&task&x&y&->&Hx&Hy&p&[= <-]&Hrr&Htr). exists run, task.
  split; [done|]. unfold replayed_response, int_entry. simpl.
  unfold mbind at 1, M_bind at 1, mret at 1, M_ret at 1. unfold mbind at 1, M_bind at 1.
  destruct (sql_get_run_readable run x (ta_tenant_id a) (ta_project_id a) s Hx Hrr) as [n ->].
  unfold mbind at 1, M_bind at 1, mret at 1, M_ret at 1. unfold mbind at 1, M_bind at 1.
  by destruct (sql_get_task_readable task y (ta_tenant_id a) (ta_project_id a) s Hy Htr) as [m ->].
Qed.

(** A new key, or one whose first request never finished. *)
Definition pending : Prop :=
  match ib_lookup (sn_idempotency s) sc with
  | Some (_, h, r) => h = sha256 text ∧ r = None
  | None => True
  end.

Lemma reserve_pending :
  pending → ∃ id b i, ib_reserve sc (sha256 text) (sn_idempotency s) = (Ret (mkReservation id b None), i) ∧
    ib_lookup i sc = Some (id, sha256 text, None).
Proof using Hwf.
  unfold pending. intros El. destruct (ib_lookup (sn_idempotency s) sc) as [[[id h] r]|] eqn:Elk.
  - destruct El as [-> ->]. exists id, true, (sn_idempotency s).
    rewrite (ib_reserve_old _ _ _ _ _ _ (qw_idem _ Hwf) Elk), bool_decide_true; done.
  - destruct (ib_reserve_new _ sc (sha256 text) (qw_idem _ Hwf) Elk) as (id&i&Er&Hi&Hlk).
    exists id, false, i. split; [done|]. by rewrite Hlk, decide_True.
Qed.

Lemma sql_create_fresh :
  pending → is_Some (json_dumps (VDict (ta_input_data a))) →
  ∃ s' id b, sql_create_task_run sha256 a s = (Ret (db_next_run (sn_db s), db_next_task (sn_db s), b), s') ∧
    sql_wf s' ∧ sql_persists s s' ∧ ib_lookup (sn_idempotency s') sc =
      Some (id, sha256 text, Some (response_of (db_next_run (sn_db s)) (db_next_task (sn_db s)))).
Proof using Hwf Hu Hkey Htext.
  intros El Hj. rewrite sql_create_keyed. unfold mbind at 1, M_bind at 1.
  pose proof (sound_reserve sc (sha256 text) s Hwf) as [Hwf1 Hp1].
  destruct (reserve_pending El) as (id&b&i&Er&Hl).
  unfold in_idempotency at 1, zoom at 1 in Hwf1. unfold in_idempotency at 1, zoom at 1 in Hp1.
  unfold in_idempotency at 1, zoom at 1. rewrite Er in Hwf1, Hp1 |- *. simpl in Hwf1, Hp1.
  set (s1 := mkSqlNative _ _ _ _ _ _ i _ _) in Hwf1, Hp1.
  destruct (sql_create_reserved a key id (sha256 text) b s1 Hu Hwf1 Hl Hj) as (s'&E&Hwf'&Hp'&Hl').
  exists s', id, b. split; [|split; [done|split; [by etrans|done]]].
  replace (replayed_response (mkReservation id b None)) with (@None pydict) by by destruct b.
  exact E.
Qed.

(** An input without JSON form is refused. *)
Lemma sql_create_refused :
  pending → json_dumps (VDict (ta_input_data a)) = None → (sql_create_task_run sha256 a s).1 = Raise type_error.
Proof using Hwf Hu Hkey Htext.
  intros El Hj. rewrite sql_create_keyed. unfold mbind at 1, M_bind at 1.
  destruct (reserve_pending El) as (id&b&i&Er&Hl). unfold in_idempotency at 1, zoom at 1. rewrite Er.
  replace (replayed_response (mkReservation id b None)) with (@None pydict) by by destruct b.
  unfold mbind at 1, M_bind at 1. pose proof (sql_add_task_run_run a (s <| sn_idempotency := i |>) Hu) as H.
  rewrite Hj in H. by rewrite H.
Qed.

(** After a request with a key was answered, the answer is recorded. *)
Lemma sql_create_recorded run task b s' :
  sql_create_task_run sha256 a s = (Ret (run, task, b), s') →
  sql_wf s' ∧ sql_persists s s' ∧
  ∃ id, ib_lookup (sn_idempotency s') sc = Some (id, sha256 text, Some (response_of run task)).
Proof using Hwf Hu Hkey Htext.
  intros H. destruct (decide (is_Some (json_dumps (VDict (ta_input_data a))))) as [Hj|Hj].
  all: destruct (ib_lookup (sn_idempotency s) sc) as [[[id h] r]|] eqn:El.
  all: try (destruct (decide (h = sha256 text)) as [->|Hh]; [|by rewrite (sql_create_conflict id h r El Hh) in H]).
  all: try (destruct r as [r|]; [destruct (sql_create_replay id r El) as (run'&task'&->&E); rewrite E in H;
    injection H as <- <- <- <-; split; [done|split; [done|by exists id]]|]).
  all: assert pending as Hp by (unfold pending; rewrite El; done).
  1,2: destruct (sql_create_fresh Hp Hj) as (s2&id'&b'&E&?&?&Hl); rewrite E in H;
    injection H as <- <- <- <-; split; [done|split; [done|by exists id']].
  all: assert (json_dumps (VDict (ta_input_data a)) = None) as Hn by by apply eq_None_not_Some.
  all: pose proof (sql_create_refused Hp Hn) as Hr; by rewrite H in Hr.
Qed.
End create.

Lemma sql_create_sound a s x s' :
  unique_keys (VDict (ta_input_data a)) → sql_create_task_run sha256 a s = (Ret x, s') → sql_sound s s'.
Proof.
  intros Hu H Hwf. destruct (given_key a) as [key|] eqn:Hk.
  2:{ unfold sql_create_task_run in H. rewrite Hk in H. pose proof (sound_add_task_run a s Hu Hwf) as Hs.
      unfold mbind, M_bind in H. destruct (sql_add_task_run a s) as [[[run task]|e] s1]; [|done].
      by injection H as <- <-. }
  destruct (json_dumps (VDict (ta_request_body a))) as [text|] eqn:Ht.
  2:{ unfold sql_create_task_run in H. rewrite Hk in H. unfold _stable_hash in H. m_unfold in H. by rewrite Ht in H. }
  destruct x as [[run task] b].
  destruct (sql_create_recorded a s Hwf Hu key text Hk Ht run task b s' H) as (?&?&_). done.
Qed.

(** * Sequences of requests *)

Inductive sql_native_op : Type :=
| QCreateAgent (tenant project : Z) (name : string) (description : option string)
| QUpdateAgent (id : Z) (name description status : option string)
| QArchiveAgent (id : Z)
| QCreateVersion (agent : Z) (v : VersionArgs)
| QUpdateVersion (id : Z) (v : VersionArgs) (status : string)
| QArchiveVersion (id : Z)
| QCreate (a : TaskRunArgs)
| QCancelRun (run : NativeRun)
| QCancelTask (task : NativeTask).

(** Requests carry JSON objects, whose keys are unique. *)
Definition json_request (op : sql_native_op) : Prop :=
  match op with QCreate a => unique_keys (VDict (ta_input_data a)) | _ => True end.

(** Each request is one transaction. *)
Definition sql_native_step s (op : sql_native_op) : St :=
  match op with
  | QCreateAgent t p n d => (session_scope (sql_create_agent t p n d) s).2
  | QUpdateAgent id n d st => (session_scope (sql_update_agent id n d st) s).2
  | QArchiveAgent id => (session_scope (sql_archive_agent id) s).2
  | QCreateVersion a v => (session_scope (sql_create_version a v) s).2
  | QUpdateVersion id v st => (session_scope (sql_update_version id v st) s).2
  | QArchiveVersion id => (session_scope (sql_archive_version id) s).2
  | QCreate a => (session_scope (sql_create_task_run sha256 a) s).2
  | QCancelRun run => (session_scope (sql_native_cancel_run run) s).2
  | QCancelTask task => (session_scope (sql_native_cancel_task task) s).2
  end.

Lemma scope_sound {A} (m : M St A) s :
  (∀ x s', m s = (Ret x, s') → sql_sound s s') → sql_sound s (session_scope m s).2.
Proof. unfold session_scope. destruct (m s) as [[x|e] s']; intros H; simpl; [by apply (H x)|done]. Qed.

Lemma scope_respects {A} (m : M St A) s : respects sql_sound m → sql_sound s (session_scope m s).2.
Proof. intros Hm. apply scope_sound. intros x s' H. specialize (Hm s). by rewrite H in Hm. Qed.

Lemma sql_native_step_sound s op : json_request op → sql_sound s (sql_native_step s op).
Proof.
  destruct op; intros Hj; unfold sql_native_step;
    try (apply scope_respects; unfold sql_create_agent, sql_create_version, sql_update_agent, sql_archive_agent,
      sql_update_version, sql_archive_version; by sound_tac).
  - apply scope_sound. intros x s' H. by eapply sql_create_sound.
  - apply scope_respects, sound_cancel_run.
  - apply scope_respects, sound_cancel_task.
Qed.

Lemma sql_native_exec_sound ops s : Forall json_request ops → sql_sound s (foldl sql_native_step s ops).
Proof.
  intros Hj. revert s. induction Hj as [|op ops Hop _ IH]; intros s; [done|]. simpl.
  etrans; [by apply sql_native_step_sound|apply IH].
Qed.

(** C25: with the database, too, creating a run is idempotent, for every
    idempotency backend that keeps its promise: once a request with a key has been
    answered, after any other requests the same key is answered with the same run
    and task, or refused when the body hashes differently, and nothing changes. *)
Theorem sql_create_task_run_idempotent s a key text run task b s1 ops a' text'
    (Hwf : sql_wf s) (Hkey : given_key a = Some key) (Hu : unique_keys (VDict (ta_input_data a)))
    (Htext : json_dumps (VDict (ta_request_body a)) = Some text)
    (Hcall : sql_create_task_run sha256 a s = (Ret (run, task, b), s1)) (Hops : Forall json_request ops)
    (Hkey' : given_key a' = Some key) (Hscope : scope_of_args a' key = scope_of_args a key)
    (Htext' : json_dumps (VDict (ta_request_body a')) = Some text') :
  let s2 := foldl sql_native_step s1 ops in
  sql_create_task_run sha256 a' s2 =
    (if bool_decide (sha256 text' = sha256 text) then Ret (run, task, true)
     else Raise (IdempotencyConflictError key), s2).
Proof.
  intros s2. destruct (sql_create_recorded a s Hwf Hu key text Hkey Htext run task b s1 Hcall) as (Hwf1&_&id&Hl1).
  destruct (sql_native_exec_sound ops s1 Hops Hwf1) as [Hwf2 Hp2]. fold s2 in Hwf2, Hp2.
  apply (qp_responses _ _ Hp2) in Hl1. rewrite <-Hscope in Hl1. case_bool_decide as Hh.
  - rewrite <-Hh in Hl1. destruct (sql_create_replay a' s2 Hwf2 key text' Hkey' Htext' id _ Hl1) as (run'&task'&Hr&E).
    injection Hr as <- <-. exact E.
  - apply (sql_create_conflict a' s2 Hwf2 key text' Hkey' Htext' id _ _ Hl1). congruence.
Qed.

(** * Cancelling *)

Lemma task_by_id_some id (d : Db) : is_Some (task_by_id id d) ↔ ∃ t, dict_get id (db_tasks d) = Some t ∧ tk_is_deleted t = false.
Proof.
  unfold task_by_id. destruct (dict_get id (db_tasks d)) as [t|]; simpl.
  - destruct (tk_is_deleted t) eqn:E; split; [by intros []|intros (?&[= <-]&?); congruence|by eauto|by eexists].
  - split; [by intros []|by intros (?&?&_)].
Qed.

(** Cancelling a task row that is there succeeds, and no row goes away. *)
Lemma task_transition_cancelled id s :
  is_Some (task_by_id id (sn_db s)) →
  ∃ t' s', task_transition id "cancelled" s = (Ret t', s') ∧
    ∀ i, is_Some (task_by_id i (sn_db s)) → is_Some (task_by_id i (sn_db s')).
Proof.
  intros (t&Et&Ed)%task_by_id_some.
  unfold task_transition, in_session, on_task_row, on_key, zoom, sql_now, task_by_id. m_unfold.
  repeat (progress (simpl; try rewrite Et; try rewrite Ed; try rewrite dict_get_set_eq)).
  eexists _, _. split; [done|]. intros i (t'&Ei&Ed')%task_by_id_some. apply task_by_id_some. simpl.
  rewrite !dict_get_set. repeat case_decide; subst; simplify_eq; eauto.
Qed.

Lemma run_transition_cancelled id r s :
  run_by_id id (sn_db s) = Some r →
  ∃ r' s', run_transition id "cancelled" s = (Ret r', s') ∧ db_tasks (sn_db s') = db_tasks (sn_db s).
Proof.
  unfold run_by_id. destruct (dict_get id (db_runs (sn_db s))) as [x|] eqn:Er; simpl; [|done].
  destruct (rn_is_deleted x) eqn:Ed; [done|]. intros _.
  unfold run_transition, in_session, on_run_row, on_key, zoom, sql_now, run_by_id. m_unfold.
  repeat (progress (simpl; try rewrite Er; try rewrite Ed; try rewrite dict_get_set_eq)).
  eexists _, _. split; [done|]. done.
Qed.

(** The loop of [cancel_run] over the tasks of the run. *)
Abbreviation cancel_loop l := (for_each (S:=St) l (λ task,
  if bool_decide (tk_status task ∈ ["queued"; "leased"; "running"]) then
    assert_task_transition (tk_status task) "cancelled" ;; task_transition (tk_id task) "cancelled" ;; mret tt
  else mret tt)).

Lemma cancel_loop_leased l s :
  Forall (λ t, is_Some (task_by_id (tk_id t) (sn_db s))) l → Exists (λ t, tk_status t = "leased") l →
  (cancel_loop l s).1 = Raise (InvalidStateTransitionError "task" "leased" "cancelled").
Proof.
  revert s. induction l as [|t l IH]; intros s Hl He; [by inversion He|].
  apply Forall_cons in Hl as [Ht Hl]. simpl. unfold mbind at 1, M_bind at 1.
  destruct (decide (tk_status t = "leased")) as [Hs|Hs].
  { rewrite Hs. done. }
  apply Exists_cons in He as [He|He]; [done|]. case_bool_decide as Hin; [|by apply IH].
  destruct (task_transition_cancelled (tk_id t) s Ht) as (t'&s'&E&Hk).
  assert (assert_task_transition (S:=St) (tk_status t) "cancelled" s = (Ret tt, s)) as Ha.
  { rewrite !elem_of_cons, elem_of_nil in Hin. destruct Hin as [->|[?|[->|[]]]]; done. }
  unfold mbind at 1, M_bind at 1. rewrite Ha. unfold mbind at 1, M_bind at 1. rewrite E.
  apply IH; [|done]. eapply Forall_impl; [done|]. auto.
Qed.

(** A run with a leased task cannot be cancelled: the transition table has no
    edge from leased to cancelled, so the request fails and nothing changes. *)
Theorem sql_cancel_leased_refused s run r t
    (Hlive : nr_status run = RS_pending ∨ nr_status run = RS_running ∨ nr_status run = RS_interrupted)
    (Hrun : run_by_id (nr_id run) (sn_db s) = Some r)
    (Hids : ∀ id t, (id, t) ∈ db_tasks (sn_db s) → tk_id t = id ∧ dict_get id (db_tasks (sn_db s)) = Some t)
    (Htask : t ∈ tasks_of_run (nr_id run) (sn_db s)) (Hleased : tk_status t = "leased") :
  session_scope (sql_native_cancel_run run) s =
    (Raise (InvalidStateTransitionError "task" "leased" "cancelled"), s).
Proof.
  destruct (run_transition_cancelled _ r s Hrun) as (r'&s1&E1&Et).
  assert (tasks_of_run (nr_id run) (sn_db s1) = tasks_of_run (nr_id run) (sn_db s)) as El
    by (unfold tasks_of_run; by rewrite Et).
  unfold session_scope, sql_native_cancel_run.
  rewrite bool_decide_false by (destruct Hlive as [->|[->| ->]]; done).
  unfold mbind at 1, M_bind at 1.
  assert (assert_run_transition (S:=St) (run_status_value (nr_status run)) "cancelled" s = (Ret tt, s)) as ->
    by (destruct Hlive as [->|[->| ->]]; done).
  unfold mbind at 1, M_bind at 1. rewrite E1. unfold mbind at 1, M_bind at 1, get_state at 1.
  unfold mbind at 1, M_bind at 1. rewrite El.
  pose proof (cancel_loop_leased (tasks_of_run (nr_id run) (sn_db s)) s1) as HL.
  destruct (cancel_loop _ s1) as [o s2]. simpl in HL. rewrite HL; [done| |apply Exists_exists; by eauto].
  apply Forall_forall. intros x Hx. apply task_by_id_some. rewrite Et.
  unfold tasks_of_run in Hx. apply list_elem_of_In, filter_In in Hx as [Hx Hc]. b2p.
  apply list_elem_of_In, list_elem_of_fmap in Hx as ([i y]&->&Hi). simpl in *.
  destruct (Hids _ _ Hi) as [-> Hg]. exists y. split; [done|].
  apply andb_true_iff in Hc as [_ Hc]. by destruct (tk_is_deleted y).
Qed.
End props.

(** * Examples *)

Definition demo_store {B} (b : B) : SqlNative B := mkSqlNative empty_db [] [] 1 1 [] b Z.of_nat 0.
Definition sql_args (body : pydict) : TaskRunArgs :=
  mkTaskRunArgs 1 1 5 50 [("q", VInt 1)] None (Some "k") "/v1/runs" body None.
Definition sql_body_ab : pydict := [("a", VInt 1); ("b", VInt 2)].
Definition sql_body_ba : pydict := [("b", VInt 2); ("a", VInt 1)].
Definition sql_body_text : string := Eval vm_compute in default "" (json_dumps (VDict sql_body_ab)).

Definition demo_answered : SqlNative IdemTable := Eval vm_compute in
  (sql_create_task_run id (sql_args sql_body_ab) (demo_store (mkIdemTable [] 1))).2.

Definition demo_read_run : NativeRun := mkNativeRun 1 1 1 5 50 None RS_pending [] None None None None 0 None None.

Lemma demo_store_wf : sql_wf (demo_store (mkIdemTable [] 1)).
Proof. split; [split; try done; constructor|done..]. Qed.

Lemma sql_create_task_run_idempotent_witness :
  let s := foldl (sql_native_step id) demo_answered [QCancelRun demo_read_run] in
  sql_create_task_run id (sql_args sql_body_ba) s = (Ret (1, 1, true), s).
Proof.
  intros s. unfold s. rewrite (sql_create_task_run_idempotent id (demo_store (mkIdemTable [] 1)) (sql_args sql_body_ab)
    "k" sql_body_text 1 1 false demo_answered _ (sql_args sql_body_ba) sql_body_text).
  - reflexivity.
  - apply demo_store_wf.
  - reflexivity.
  - split; [apply NoDup_singleton|by split].
  - vm_compute. reflexivity.
  - vm_compute. reflexivity.
  - repeat constructor.
  - reflexivity.
  - reflexivity.
  - vm_compute. reflexivity.
Defined.

Definition demo_leased : SqlNative IdemTable := Eval vm_compute in
  let d := sn_db demo_answered in
  demo_answered <| sn_db :=
    d <| db_tasks := dict_map_values (λ t, t <| tk_status := "leased" |>) (db_tasks d) |> |>.
Lemma sql_cancel_leased_refused_witness :
  session_scope (sql_native_cancel_run demo_read_run) demo_leased =
    (Raise (InvalidStateTransitionError "task" "leased" "cancelled"), demo_leased).
Proof.
  eapply (sql_cancel_leased_refused demo_leased demo_read_run).
  - by left.
  - vm_compute. reflexivity.
  - simpl. intros id t Hin. rewrite list_elem_of_singleton in Hin. injection Hin as -> ->. vm_compute. done.
  - vm_compute. left.
  - reflexivity.
Defined.
