(* ===== verification/RunStore.v ===== *)
(** Runs and their attempts: the in-process run store of
    [runtime/run_manager.py], the interfaces the runtime's components see of
    each other ([scheduler/backend.py], [RuntimeRunStore], [DeploymentRunGate])
    and [RunManager.create_run_task], which creates a run and its task. *)

From stdpp Require Import relations.
From S2P Require Import Prelude Values StateMachine InMemory.

(** * Data *)

Record RuntimeRun := mkRuntimeRun {
  rr_run_id : Z;
  rr_tenant_id : Z;
  rr_project_id : Z;
  rr_agent_id : Z;
  rr_agent_version_id : Z;
  rr_deployment_id : option Z;
  rr_input_data : pydict;
  rr_override_config : pydict;
  rr_status : string;
  rr_thread_id : option string;
  rr_output : option pydict;
  rr_error : option pydict;
  rr_created_at : Z
}.
#[export] Instance RuntimeRun_eta : Eta RuntimeRun := λ r,
  mkRuntimeRun (rr_run_id r) (rr_tenant_id r) (rr_project_id r) (rr_agent_id r)
    (rr_agent_version_id r) (rr_deployment_id r) (rr_input_data r) (rr_override_config r)
    (rr_status r) (rr_thread_id r) (rr_output r) (rr_error r) (rr_created_at r).

Record RuntimeAttempt := mkRuntimeAttempt {
  ra_attempt_id : Z;
  ra_run_id : Z;
  ra_task_id : Z;
  ra_worker_id : string;
  ra_attempt_no : Z;
  ra_status : string;
  ra_started_at : Z;
  ra_finished_at : option Z;
  ra_error : option pydict
}.
#[export] Instance RuntimeAttempt_eta : Eta RuntimeAttempt := λ a,
  mkRuntimeAttempt (ra_attempt_id a) (ra_run_id a) (ra_task_id a) (ra_worker_id a)
    (ra_attempt_no a) (ra_status a) (ra_started_at a) (ra_finished_at a) (ra_error a).

(** The services a run is given are opaque objects; here their names. *)
Record RuntimeGovernanceBundle := mkGovernanceBundle {
  gb_secret_provider : option value;
  gb_model_gateway : option value;
  gb_tool_gateway : option value
}.

(** [RuntimeGovernanceBundle.apply] *)
Definition apply (g : RuntimeGovernanceBundle) (runtime_config : pydict) : pydict :=
  let services := omap (λ p, match p.2 with Some v => Some (p.1, v) | None => None end)
    [("secrets", gb_secret_provider g); ("model_gateway", gb_model_gateway g);
     ("tools", gb_tool_gateway g)] in
  match services with
  | [] => runtime_config
  | _ => dict_set "governance" (VDict services) runtime_config
  end.

(** The keyword arguments of [create_run]. *)
Record RunArgs := mkRunArgs {
  ca_tenant_id : Z;
  ca_project_id : Z;
  ca_agent_id : Z;
  ca_agent_version_id : Z;
  ca_deployment_id : option Z;
  ca_input_data : pydict;
  ca_override_config : option pydict;
  ca_thread_id : option string;
  ca_run_id : option Z
}.

Record InMemoryRunStore := mkRunStore {
  runs : dict Z RuntimeRun;
  attempts : dict Z RuntimeAttempt;
  next_run_id : Z;
  next_attempt_id : Z
}.
#[export] Instance InMemoryRunStore_eta : Eta InMemoryRunStore := λ s,
  mkRunStore (runs s) (attempts s) (next_run_id s) (next_attempt_id s).

Definition init_run_store : InMemoryRunStore := mkRunStore [] [] 1 1.

(** * Operations *)

Definition on_run {A} (id : Z) (m : M RuntimeRun A) : M InMemoryRunStore A :=
  zoom runs (λ d s, s <| runs := d |>) (on_key id (KeyError (pretty id)) m).

Definition on_attempt {A} (id : Z) (m : M RuntimeAttempt A) : M InMemoryRunStore A :=
  zoom attempts (λ d s, s <| attempts := d |>) (on_key id (KeyError (pretty id)) m).

Definition create_run (now : Z) (a : RunArgs) : M InMemoryRunStore RuntimeRun :=
  s ← get_state;
  let run := mkRuntimeRun (or_int (ca_run_id a) (next_run_id s)) (ca_tenant_id a)
    (ca_project_id a) (ca_agent_id a) (ca_agent_version_id a) (ca_deployment_id a)
    (ca_input_data a) (default [] (ca_override_config a)) "pending" (ca_thread_id a)
    None None now in
  modify (λ s, s <| next_run_id :=
    match ca_run_id a with
    | None => next_run_id s + 1
    | Some id => Z.max (next_run_id s) (id + 1)
    end |>) ;;
  modify (λ s, s <| runs := dict_set (rr_run_id run) run (runs s) |>) ;;
  mret run.

(** [if run.status != "running": ...] of [create_attempt] and
    [mark_run_running]. *)
Definition mark_running_body : M RuntimeRun unit :=
  r ← get_state;
  if bool_decide (rr_status r = "running") then mret tt
  else
    assert_run_transition (rr_status r) "running" ;;
    modify (λ r, r <| rr_status := "running" |>).

(** The attempts recorded for a run. *)
Definition attempts_of (run : Z) (s : InMemoryRunStore) : list RuntimeAttempt :=
  List.filter (λ a, ra_run_id a =? run) (dict_values (attempts s)).

Definition create_attempt (now : Z) (run task : Z) (worker : string)
  : M InMemoryRunStore RuntimeAttempt :=
  s ← get_state;
  let attempt_no := Z.of_nat (length (attempts_of run s)) + 1 in
  let a := mkRuntimeAttempt (next_attempt_id s) run task worker attempt_no "running" now None None in
  modify (λ s, s <| next_attempt_id := next_attempt_id s + 1 |>) ;;
  modify (λ s, s <| attempts := dict_set (ra_attempt_id a) a (attempts s) |>) ;;
  on_run run mark_running_body ;;
  mret a.

Definition get_run (id : Z) : M InMemoryRunStore RuntimeRun := on_run id get_state.

(** The common prefix of [complete_run], [fail_run] and [timeout_run]: a pending
    run first becomes running, then takes the final status. *)
Definition finish_body (target : string) (record : RuntimeRun → RuntimeRun) : M RuntimeRun unit :=
  r ← get_state;
  (if bool_decide (rr_status r = "pending") then
     assert_run_transition (rr_status r) "running" ;;
     modify (λ r, r <| rr_status := "running" |>)
   else mret tt) ;;
  r ← get_state;
  assert_run_transition (rr_status r) target ;;
  modify (λ r, r <| rr_status := target |>) ;;
  modify record.

Definition complete_run (id : Z) (output : pydict) : M InMemoryRunStore unit :=
  on_run id (finish_body "succeeded" (λ r, r <| rr_output := Some output |>)).

Definition fail_run (id : Z) (err : pydict) : M InMemoryRunStore unit :=
  on_run id (finish_body "failed" (λ r, r <| rr_error := Some err |>)).

Definition timeout_run (id : Z) (err : pydict) : M InMemoryRunStore unit :=
  on_run id (finish_body "timeout" (λ r, r <| rr_error := Some err |>)).

Definition mark_run_running (id : Z) : M InMemoryRunStore unit := on_run id mark_running_body.

Definition cancel_run (id : Z) : M InMemoryRunStore unit :=
  on_run id (r ← get_state;
    assert_run_transition (rr_status r) "cancelled" ;;
    modify (λ r, r <| rr_status := "cancelled" |>)).

Definition delete_run (id : Z) : M InMemoryRunStore unit :=
  modify (λ s, s <| runs := dict_pop id (runs s) |>).

(** [complete_attempt], [fail_attempt] and [timeout_attempt]. *)
Definition finish_attempt_body (now : Z) (target : string) (err : option pydict)
  : M RuntimeAttempt unit :=
  a ← get_state;
  assert_run_attempt_transition (ra_status a) target ;;
  modify (λ a, a <| ra_status := target |>) ;;
  match err with
  | Some e => modify (λ a, a <| ra_error := Some e |>)
  | None => mret tt
  end ;;
  modify (λ a, a <| ra_finished_at := Some now |>).

Definition complete_attempt (now id : Z) : M InMemoryRunStore unit :=
  on_attempt id (finish_attempt_body now "succeeded" None).

Definition fail_attempt (now id : Z) (err : pydict) : M InMemoryRunStore unit :=
  on_attempt id (finish_attempt_body now "failed" (Some err)).

Definition timeout_attempt (now id : Z) (err : pydict) : M InMemoryRunStore unit :=
  on_attempt id (finish_attempt_body now "timeout" (Some err)).

(** * Interfaces *)

(** [RuntimeTaskBackend] of [scheduler/backend.py]. The [Z] arguments named
    [now] are the clock readings of the implementations. *)
Class RuntimeTaskBackend (B : Type) := {
  tb_enqueue : ∀ now : Z, TaskRequest → M B Z;
  tb_lease : ∀ (now now_reap : Z) (queue worker : string) (lease_seconds : Z), M B (option Snapshot);
  tb_heartbeat : ∀ (now id : Z) (worker : string) (lease_seconds : Z), M B unit;
  tb_complete : ∀ (id : Z) (worker : string) (token : Z), M B unit;
  tb_fail : ∀ (id : Z) (worker : string) (token : Z) (err : pydict), M B unit;
  tb_cancel : ∀ id : Z, M B unit;
  tb_mark_running : ∀ (id : Z) (worker : string) (token : Z), M B unit;
  tb_assert_can_complete : ∀ (id : Z) (worker : string) (token : Z), M B unit;
  tb_will_retry : ∀ id : Z, M B bool
}.

(** [RuntimeRunStore] *)
Class RuntimeRunStore (R : Type) := {
  rs_create_run : ∀ now : Z, RunArgs → M R RuntimeRun;
  rs_create_attempt : ∀ (now run task : Z) (worker : string), M R RuntimeAttempt;
  rs_complete_run : ∀ (id : Z) (output : pydict), M R unit;
  rs_fail_run : ∀ (id : Z) (err : pydict), M R unit;
  rs_timeout_run : ∀ (id : Z) (err : pydict), M R unit;
  rs_get_run : ∀ id : Z, M R RuntimeRun;
  rs_mark_run_running : ∀ id : Z, M R unit;
  rs_cancel_run : ∀ id : Z, M R unit;
  rs_delete_run : ∀ id : Z, M R unit;
  rs_complete_attempt : ∀ now id : Z, M R unit;
  rs_fail_attempt : ∀ (now id : Z) (err : pydict), M R unit;
  rs_timeout_attempt : ∀ (now id : Z) (err : pydict), M R unit
}.

(** [DeploymentRunGate]: the gate only accepts or raises. *)
Definition DeploymentRunGate : Type :=
  ∀ (deployment_id tenant_id project_id agent_id agent_version_id : Z), option exn.

#[export] Instance in_memory_backend : RuntimeTaskBackend InMemoryTaskBackend := {
  tb_enqueue := enqueue;
  tb_lease := lease;
  tb_heartbeat := heartbeat;
  tb_complete := complete;
  tb_fail := fail;
  tb_cancel := cancel;
  tb_mark_running := mark_running;
  tb_assert_can_complete := assert_can_complete;
  tb_will_retry := will_retry
}.

#[export] Instance in_memory_run_store : RuntimeRunStore InMemoryRunStore := {
  rs_create_run := create_run;
  rs_create_attempt := create_attempt;
  rs_complete_run := complete_run;
  rs_fail_run := fail_run;
  rs_timeout_run := timeout_run;
  rs_get_run := get_run;
  rs_mark_run_running := mark_run_running;
  rs_cancel_run := cancel_run;
  rs_delete_run := delete_run;
  rs_complete_attempt := complete_attempt;
  rs_fail_attempt := fail_attempt;
  rs_timeout_attempt := timeout_attempt
}.

(** * [RunManager.create_run_task] *)

Section run_manager.
Context {B R : Type} `{!RuntimeTaskBackend B, !RuntimeRunStore R}.

Record RunManager := mkRunManager {
  rm_run_store : R;
  rm_task_backend : B
}.
#[export] Instance RunManager_eta : Eta RunManager := λ m,
  mkRunManager (rm_run_store m) (rm_task_backend m).

Definition with_store {A} (m : M R A) : M RunManager A :=
  zoom rm_run_store (λ r s, s <| rm_run_store := r |>) m.
Definition with_backend {A} (m : M B A) : M RunManager A :=
  zoom rm_task_backend (λ b s, s <| rm_task_backend := b |>) m.

(** The [dict] [create_run_task] hands to [enqueue]. *)
Definition task_request (a : RunArgs) (run queue : _) (task : option Z) : TaskRequest :=
  mkTaskRequest task run (ca_tenant_id a) (ca_project_id a) (Some (ca_agent_id a))
    (ca_deployment_id a) (Some queue) None None None None (ca_input_data a)
    (Some (default [] (ca_override_config a))) None
    [("agent_version_id", VInt (ca_agent_version_id a)); ("thread_id", of_str_opt (ca_thread_id a))].

Definition create_run_task (gate : option DeploymentRunGate) (now now_task : Z) (a : RunArgs)
    (queue : string) (task : option Z) : M RunManager (RuntimeRun * Z) :=
  match ca_deployment_id a, gate with
  | Some d, Some g =>
      match g d (ca_tenant_id a) (ca_project_id a) (ca_agent_id a) (ca_agent_version_id a) with
      | Some e => raise e
      | None => mret tt
      end
  | _, _ => mret tt
  end ;;
  run ← with_store (rs_create_run now a);
  task_id ← try_except
    (with_backend (tb_enqueue now_task (task_request a (rr_run_id run) queue task)))
    (λ e, with_store (rs_delete_run (rr_run_id run)) ;; raise e);
  mret (run, task_id).
End run_manager.
Arguments RunManager : clear implicits.
Arguments mkRunManager {B R}.

(** * The store under any sequence of operations *)

Inductive store_op :=
| OCreateRun (now : Z) (a : RunArgs)
| OCreateAttempt (now run task : Z) (worker : string)
| OCompleteRun (id : Z) (output : pydict)
| OFailRun (id : Z) (err : pydict)
| OTimeoutRun (id : Z) (err : pydict)
| OMarkRunning (id : Z)
| OCancelRun (id : Z)
| ODeleteRun (id : Z)
| OCompleteAttempt (now id : Z)
| OFailAttempt (now id : Z) (err : pydict)
| OTimeoutAttempt (now id : Z) (err : pydict).

Definition store_step (s : InMemoryRunStore) (op : store_op) : InMemoryRunStore :=
  match op with
  | OCreateRun now a => (create_run now a s).2
  | OCreateAttempt now run task w => (create_attempt now run task w s).2
  | OCompleteRun id o => (complete_run id o s).2
  | OFailRun id e => (fail_run id e s).2
  | OTimeoutRun id e => (timeout_run id e s).2
  | OMarkRunning id => (mark_run_running id s).2
  | OCancelRun id => (cancel_run id s).2
  | ODeleteRun id => (delete_run id s).2
  | OCompleteAttempt now id => (complete_attempt now id s).2
  | OFailAttempt now id e => (fail_attempt now id e s).2
  | OTimeoutAttempt now id e => (timeout_attempt now id e s).2
  end.

Lemma on_run_run {A} id (m : M RuntimeRun A) s :
  on_run id m s =
  match dict_get id (runs s) with
  | Some r => ((m r).1, s <| runs := dict_set id (m r).2 (runs s) |>)
  | None => (Raise (KeyError (pretty id)), s)
  end.
Proof.
  unfold on_run, zoom, on_key. destruct (dict_get id (runs s)) as [r|]; simpl.
  - by destruct (m r).
  - by destruct s.
Qed.

Lemma on_attempt_run {A} id (m : M RuntimeAttempt A) s :
  on_attempt id m s =
  match dict_get id (attempts s) with
  | Some a => ((m a).1, s <| attempts := dict_set id (m a).2 (attempts s) |>)
  | None => (Raise (KeyError (pretty id)), s)
  end.
Proof.
  unfold on_attempt, zoom, on_key. destruct (dict_get id (attempts s)) as [r|]; simpl.
  - by destruct (m r).
  - by destruct s.
Qed.

Lemma mark_running_body_spec r :
  mark_running_body r =
  if bool_decide (rr_status r = "running") then (Ret tt, r)
  else if allowed RUN_TRANSITIONS (rr_status r) "running" then (Ret tt, r <| rr_status := "running" |>)
  else (Raise (InvalidStateTransitionError "run" (rr_status r) "running"), r).
Proof.
  unfold mark_running_body, assert_run_transition, assert_transition. m_unfold.
  destruct (bool_decide _); [done|]. by destruct (allowed _ _ _).
Qed.

(** The final status is reached from a pending or a running run; a run that is
    neither is left as it is, unless the target is one it can reach directly. *)
Lemma finish_body_spec target record r :
  finish_body target record r =
  let s := if bool_decide (rr_status r = "pending") then "running" else rr_status r in
  if allowed RUN_TRANSITIONS s target then (Ret tt, record (r <| rr_status := target |>))
  else (Raise (InvalidStateTransitionError "run" s target), r <| rr_status := s |>).
Proof.
  unfold finish_body, assert_run_transition, assert_transition. m_unfold.
  destruct (bool_decide_reflect (rr_status r = "pending")) as [Hp|Hp]; simpl.
  - rewrite Hp, allowed_run_running. simpl. by destruct (allowed RUN_TRANSITIONS "running" target).
  - destruct (allowed RUN_TRANSITIONS _ target); [done|]. by destruct r.
Qed.

Lemma finish_attempt_body_spec now target err a :
  finish_attempt_body now target err a =
  if allowed RUN_ATTEMPT_TRANSITIONS (ra_status a) target
  then (Ret tt, a <| ra_status := target |> <| ra_finished_at := Some now |>
          <| ra_error := match err with Some e => Some e | None => ra_error a end |>)
  else (Raise (InvalidStateTransitionError "run_attempt" (ra_status a) target), a).
Proof.
  unfold finish_attempt_body, assert_run_attempt_transition, assert_transition. m_unfold.
  destruct (allowed _ _ target); [|done]. by destruct err, a.
Qed.

(** ** Runs follow the transition table *)

(** What the methods may do to a run object. *)
Definition run_step (r r' : RuntimeRun) : Prop :=
  evolves RUN_TRANSITIONS (rr_status r) (rr_status r') ∧
  rr_run_id r' = rr_run_id r ∧ rr_tenant_id r' = rr_tenant_id r ∧
  rr_project_id r' = rr_project_id r ∧ rr_agent_version_id r' = rr_agent_version_id r ∧
  rr_deployment_id r' = rr_deployment_id r ∧ rr_input_data r' = rr_input_data r ∧
  (rr_output r ≠ rr_output r' → rr_status r' = "succeeded").

Lemma run_step_refl r : run_step r r.
Proof. by split_and!. Qed.

Lemma mark_running_body_step r : run_step r (mark_running_body r).2.
Proof.
  rewrite mark_running_body_spec. destruct (bool_decide _); [apply run_step_refl|].
  destruct (allowed _ _ _) eqn:E; [|apply run_step_refl]. split; [by apply evolves_edge|by split_and!].
Qed.

Lemma finish_body_step target record r :
  (∀ r, run_step (r <| rr_status := target |>) (record (r <| rr_status := target |>))) →
  run_step r (finish_body target record r).2.
Proof.
  intros Hrec. rewrite finish_body_spec. simpl.
  set (s := if bool_decide _ then _ else _).
  assert (evolves RUN_TRANSITIONS (rr_status r) s) as Hs.
  { subst s. case_bool_decide as H; [|done]. rewrite H. by apply evolves_edge. }
  destruct (allowed RUN_TRANSITIONS s target) eqn:E; simpl; [|by split_and!].
  destruct (Hrec r) as (He&H). split; [|exact H].
  etrans; [exact Hs|]. etrans; [by apply evolves_edge|exact He].
Qed.

Lemma complete_body_step o r :
  run_step r (finish_body "succeeded" (λ r, r <| rr_output := Some o |>) r).2.
Proof. apply finish_body_step. intros r'. by split_and!. Qed.

Lemma error_body_step target e r :
  run_step r (finish_body target (λ r, r <| rr_error := Some e |>) r).2.
Proof. apply finish_body_step. intros r'. by split_and!. Qed.

Lemma cancel_body_step r :
  run_step r ((r ← get_state; assert_run_transition (rr_status r) "cancelled" ;;
    modify (λ r, r <| rr_status := "cancelled" |>)) r).2.
Proof.
  unfold assert_run_transition, assert_transition. m_unfold.
  destruct (allowed _ _ _) eqn:E; [|apply run_step_refl]. split; [by apply evolves_edge|by split_and!].
Qed.

(** The run id an operation creates or deletes. *)
Definition replaces (op : store_op) (s : InMemoryRunStore) : option Z :=
  match op with
  | OCreateRun _ a => Some (or_int (ca_run_id a) (next_run_id s))
  | ODeleteRun id => Some id
  | _ => None
  end.

Lemma on_run_step {A} id (m : M RuntimeRun A) s id' r :
  (∀ r, run_step r (m r).2) → dict_get id' (runs s) = Some r →
  ∃ r', dict_get id' (runs (on_run id m s).2) = Some r' ∧ run_step r r'.
Proof.
  intros Hm Hr. rewrite on_run_run. destruct (dict_get id (runs s)) as [r1|] eqn:E; simpl.
  - rewrite dict_get_set. case_decide; [subst|by exists r; split; [|apply run_step_refl]].
    rewrite E in Hr. simplify_eq. by eexists.
  - exists r. by split; [|apply run_step_refl].
Qed.

Lemma runs_on_attempt {A} id (m : M RuntimeAttempt A) s : runs (on_attempt id m s).2 = runs s.
Proof. rewrite on_attempt_run. by case_match. Qed.

Lemma store_step_run s op id r :
  dict_get id (runs s) = Some r → replaces op s ≠ Some id →
  ∃ r', dict_get id (runs (store_step s op)) = Some r' ∧ run_step r r'.
Proof.
  intros Hr Hrep.
  destruct op; simpl in Hrep |- *;
    try (apply on_run_step; [|done]; auto using complete_body_step, error_body_step,
      mark_running_body_step, cancel_body_step; fail);
    try (unfold complete_attempt, fail_attempt, timeout_attempt; rewrite runs_on_attempt;
      exists r; by split; [|apply run_step_refl]).
  - exists r. split; [|apply run_step_refl]. unfold create_run. m_unfold. simpl.
    rewrite dict_get_set_ne; [done|]. naive_solver.
  - unfold create_attempt, mbind, M_bind, get_state, modify. simpl.
    set (s1 := mkRunStore _ _ _ _).
    destruct (on_run_step run mark_running_body s1 id r mark_running_body_step) as (r'&Hr'&Hst).
    { done. }
    exists r'. split; [|done]. by destruct (on_run _ _ s1) as [[]].
  - exists r. split; [|apply run_step_refl]. unfold delete_run. m_unfold. simpl.
    rewrite dict_get_pop_ne; [done|]. naive_solver.
Qed.

(** No operation of the sequence creates a run under [id] or deletes it. *)
Fixpoint untouched (id : Z) (s : InMemoryRunStore) (ops : list store_op) : bool :=
  match ops with
  | [] => true
  | op :: ops' => bool_decide (replaces op s ≠ Some id) && untouched id (store_step s op) ops'
  end.

(** C13: whatever operations are performed on the store, in any order, the
    status of a run that is not deleted or created again moves only along
    [RUN_TRANSITIONS], its identity and input never change, and its output is
    written only together with the status "succeeded". *)
Theorem run_status_evolves (s : InMemoryRunStore) (ops : list store_op) (id : Z) (r : RuntimeRun)
    (Hr : dict_get id (runs s) = Some r) (Hu : untouched id s ops = true) :
  ∃ r', dict_get id (runs (foldl store_step s ops)) = Some r' ∧
    evolves RUN_TRANSITIONS (rr_status r) (rr_status r') ∧
    rr_run_id r' = rr_run_id r ∧ rr_tenant_id r' = rr_tenant_id r ∧
    rr_input_data r' = rr_input_data r ∧
    (rr_output r' ≠ rr_output r → evolves RUN_TRANSITIONS "succeeded" (rr_status r')).
Proof.
  revert s r Hr Hu. induction ops as [|op ops IH]; intros s r Hr Hu; [by exists r|].
  simpl in Hu. apply andb_true_iff in Hu as [Hrep%bool_decide_eq_true Hu].
  destruct (store_step_run s op id r Hr Hrep) as (r1&Hr1&He1&Hid&Htn&_&_&_&Hin&Hout).
  destruct (IH _ _ Hr1 Hu) as (r'&Hr'&He'&Hid'&Htn'&Hin'&Hout').
  exists r'. split; [done|]. split; [by etrans|]. split_and!; [congruence..|].
  intros Hne. destruct (decide (rr_output r' = rr_output r1)) as [Heq|Hne1]; [|by apply Hout'].
  rewrite <-(Hout ltac:(congruence)). done.
Qed.

Lemma run_finished_terminal st :
  st = "succeeded" ∨ st = "cancelled" → terminal RUN_TRANSITIONS st = true.
Proof. by intros [-> | ->]. Qed.

Lemma run_terminal s : terminal RUN_TRANSITIONS s = true →
  allowed RUN_TRANSITIONS s = (λ _, false) ∧ s ≠ "pending" ∧ s ≠ "running".
Proof.
  unfold terminal, allowed. rewrite bool_decide_eq_true. intros H. rewrite H.
  split; [done|]. by split; intros ->.
Qed.

Lemma mark_running_body_final r : terminal RUN_TRANSITIONS (rr_status r) = true →
  (mark_running_body r).2 = r.
Proof.
  intros (Ha&_&Hr)%run_terminal. rewrite mark_running_body_spec, Ha. by case_bool_decide.
Qed.

Lemma finish_body_final target record r : terminal RUN_TRANSITIONS (rr_status r) = true →
  (finish_body target record r).2 = r.
Proof.
  intros (Ha&Hp&_)%run_terminal. rewrite finish_body_spec. rewrite bool_decide_false by done. simpl.
  rewrite Ha. by destruct r.
Qed.

Lemma on_run_final {A} id (m : M RuntimeRun A) s id' r :
  ((m r).2 = r) → dict_get id' (runs s) = Some r → dict_get id' (runs (on_run id m s).2) = Some r.
Proof.
  intros Hm Hr. rewrite on_run_run. destruct (dict_get id (runs s)) as [r1|] eqn:E; simpl; [|done].
  rewrite dict_get_set. case_decide; [subst|done]. congruence.
Qed.

Lemma store_step_final s op id r :
  dict_get id (runs s) = Some r → terminal RUN_TRANSITIONS (rr_status r) = true →
  replaces op s ≠ Some id → dict_get id (runs (store_step s op)) = Some r.
Proof.
  intros Hr Ht Hrep.
  destruct op; simpl in Hrep |- *;
    try (apply on_run_final; [|done]; auto using mark_running_body_final, finish_body_final; fail);
    try (unfold complete_attempt, fail_attempt, timeout_attempt; by rewrite runs_on_attempt).
  - unfold create_run. m_unfold. simpl. rewrite dict_get_set_ne; [done|]. naive_solver.
  - unfold create_attempt, mbind, M_bind, get_state, modify. simpl. set (s1 := mkRunStore _ _ _ _).
    pose proof (on_run_final run mark_running_body s1 id r (mark_running_body_final r Ht) Hr) as H.
    by destruct (on_run _ _ s1) as [[]].
  - apply on_run_final; [|done]. unfold assert_run_transition, assert_transition. m_unfold.
    by destruct (run_terminal _ Ht) as (->&_).
  - unfold delete_run. m_unfold. simpl. rewrite dict_get_pop_ne; [done|]. naive_solver.
Qed.

(** A run that has succeeded or was cancelled is final: no sequence of
    store operations that does not delete it or create it again changes anything
    of its record, whatever late workers report. *)
Theorem run_outcome_final (s : InMemoryRunStore) (ops : list store_op) (id : Z) (r : RuntimeRun)
    (Hr : dict_get id (runs s) = Some r)
    (Ht : rr_status r = "succeeded" ∨ rr_status r = "cancelled") (Hu : untouched id s ops = true) :
  dict_get id (runs (foldl store_step s ops)) = Some r.
Proof.
  apply run_finished_terminal in Ht. revert s Hr Hu.
  induction ops as [|op ops IH]; intros s Hr Hu; [done|].
  simpl in Hu. apply andb_true_iff in Hu as [Hrep%bool_decide_eq_true Hu]. simpl.
  apply IH; [|done]. by apply store_step_final.
Qed.

(** ** Attempts are numbered without gaps *)

Lemma dict_values_set_proj {V W} (f : V → W) k v v' (d : dict Z V) :
  dict_get k d = Some v → f v' = f v → f <$> dict_values (dict_set k v' d) = f <$> dict_values d.
Proof.
  intros Hk Hf. induction d as [|[k1 v1] d IH]; simpl in *; [done|].
  destruct (decide (k = k1)); simplify_eq/=; f_equal; [done|]. by apply IH.
Qed.

(** Run and number of each attempt, in creation order. *)
Definition numbering (s : InMemoryRunStore) : list (Z * Z) :=
  (λ a, (ra_run_id a, ra_attempt_no a)) <$> dict_values (attempts s).

Definition numbers_of (run : Z) (l : list (Z * Z)) : list Z :=
  (List.filter (λ p, p.1 =? run) l).*2.

Lemma numbers_attempts_of run s : ra_attempt_no <$> attempts_of run s = numbers_of run (numbering s).
Proof.
  unfold attempts_of, numbers_of, numbering. induction (dict_values (attempts s)) as [|a l IH]; [done|].
  cbn. destruct (ra_run_id a =? run); cbn; [f_equal|]; exact IH.
Qed.

Definition attempts_ok (s : InMemoryRunStore) : Prop :=
  (∀ id, is_Some (dict_get id (attempts s)) → id < next_attempt_id s) ∧
  ∀ run, numbers_of run (numbering s) = seqZ 1 (Z.of_nat (length (numbers_of run (numbering s)))).

Lemma attempts_on_run {A} id (m : M RuntimeRun A) s :
  attempts (on_run id m s).2 = attempts s ∧ next_attempt_id (on_run id m s).2 = next_attempt_id s.
Proof. rewrite on_run_run. by case_match. Qed.

Lemma attempts_ok_ext s s' :
  attempts s' = attempts s → next_attempt_id s' = next_attempt_id s → attempts_ok s → attempts_ok s'.
Proof. unfold attempts_ok, numbering. by intros -> ->. Qed.

Lemma on_attempt_ok id now target err s :
  attempts_ok s → attempts_ok (on_attempt id (finish_attempt_body now target err) s).2.
Proof.
  intros [Hid Hnum]. rewrite on_attempt_run. destruct (dict_get id (attempts s)) as [a|] eqn:E; [|done].
  rewrite finish_attempt_body_spec. simpl. set (a' := (if allowed _ _ _ then _ else _).2).
  assert ((ra_run_id a', ra_attempt_no a') = (ra_run_id a, ra_attempt_no a)) as Ha
    by (subst a'; by case_match).
  split; simpl.
  - intros id'. rewrite dict_get_set. case_decide; [subst; intros _; apply Hid; by exists a|apply Hid].
  - intros run. unfold numbering. simpl. by rewrite (dict_values_set_proj _ _ _ _ _ E Ha).
Qed.

Lemma create_attempt_ok now run task w s : attempts_ok s → attempts_ok (create_attempt now run task w s).2.
Proof.
  intros [Hid Hnum]. unfold create_attempt, mbind, M_bind, get_state, modify. simpl.
  set (s1 := mkRunStore _ _ _ _). assert (attempts_ok s1) as H1.
  { assert (dict_get (next_attempt_id s) (attempts s) = None) as Hf.
    { destruct (dict_get (next_attempt_id s) (attempts s)) eqn:E; [|done].
      apply mk_is_Some, Hid, Z.lt_irrefl in E. done. }
    split; simpl.
    - intros id'. rewrite dict_get_set. case_decide; [lia|]. intros H'%Hid. lia.
    - intros run'. unfold numbering, numbers_of. simpl.
      rewrite dict_set_fresh by done. unfold dict_values. rewrite !fmap_app, List.filter_app. simpl.
      rewrite fmap_app. specialize (Hnum run'). unfold numbers_of, numbering, dict_values in Hnum.
      rewrite Hnum at 1. destruct (run =? run') eqn:E; simpl; [|by rewrite !app_nil_r].
      apply Z.eqb_eq in E as ->. rewrite length_app. simpl.
      rewrite Nat2Z.inj_add, seqZ_app by lia. f_equal. simpl.
      rewrite seqZ_cons by lia. simpl. f_equal.
      change (Z.of_nat (length (attempts_of run' s)) + 1 = 1 + Z.of_nat (length (numbers_of run' (numbering s)))).
      rewrite <-numbers_attempts_of, length_fmap. lia. }
  destruct (attempts_on_run run mark_running_body s1) as [Ha Hn].
  destruct (on_run run mark_running_body s1) as [[] s2]; by apply (attempts_ok_ext s1).
Qed.

Lemma store_step_attempts s op : attempts_ok s → attempts_ok (store_step s op).
Proof.
  intros H. destruct op; simpl;
    first [by apply create_attempt_ok | by apply on_attempt_ok
          | eapply attempts_ok_ext; [apply attempts_on_run..|done] | exact H].
Qed.

(** After any sequence of store operations the attempts recorded for a run
    are numbered 1, 2, 3, ... in the order they were created, whichever runs they
    were interleaved with and whichever of the operations raised. *)
Theorem attempts_numbered (ops : list store_op) (run : Z) :
  let s := foldl store_step init_run_store ops in
  ra_attempt_no <$> attempts_of run s = seqZ 1 (Z.of_nat (length (attempts_of run s))).
Proof.
  assert (attempts_ok (foldl store_step init_run_store ops)) as [_ H].
  { induction ops as [|op ops IH] using rev_ind; [by split; [intros ? [? ?]|]|].
    rewrite foldl_app. by apply store_step_attempts. }
  intros s. rewrite numbers_attempts_of. etrans; [apply H|].
  by rewrite <-numbers_attempts_of, length_fmap.
Qed.

(** An attempt for a run that cannot start (it is already succeeded or
    cancelled) is refused with [InvalidStateTransitionError], but the attempt
    stays recorded with the status "running" and nothing returns its id. *)
Theorem refused_attempt_recorded (s : InMemoryRunStore) (now run task : Z) (worker : string)
    (r : RuntimeRun) (Hr : dict_get run (runs s) = Some r)
    (Ht : rr_status r = "succeeded" ∨ rr_status r = "cancelled") :
  ∃ s', create_attempt now run task worker s
      = (Raise (InvalidStateTransitionError "run" (rr_status r) "running"), s') ∧
    runs s' = runs s ∧
    ∃ a, dict_get (next_attempt_id s) (attempts s') = Some a ∧
      ra_status a = "running" ∧ ra_run_id a = run ∧ ra_finished_at a = None.
Proof.
  destruct (run_terminal _ (run_finished_terminal _ Ht)) as (Ha&_&Hn).
  unfold create_attempt, mbind, M_bind, get_state, modify. rewrite on_run_run. simpl. rewrite Hr.
  rewrite mark_running_body_spec, Ha, bool_decide_false by done. simpl.
  eexists. split; [done|]. simpl. rewrite dict_set_id by done. split; [done|].
  rewrite dict_get_set_eq. by eexists.
Qed.

(** An explicit [run_id=0] is taken as absent for the run's id but present
    for the id counter: the run gets the next id, the counter does not move, and
    the next run created gets the same id and replaces it in the store. *)
Theorem create_run_zero_overwritten (s : InMemoryRunStore) (now now' : Z) (a b : RunArgs)
    (Hnext : 1 ≤ next_run_id s) (Ha : ca_run_id a = Some 0) (Hb : ca_run_id b = None) :
  ∃ ra rb s1 s2, create_run now a s = (Ret ra, s1) ∧ create_run now' b s1 = (Ret rb, s2) ∧
    rr_run_id ra = rr_run_id rb ∧ dict_get (rr_run_id ra) (runs s2) = Some rb.
Proof.
  unfold create_run. m_unfold. rewrite Ha, Hb. simpl. do 4 eexists. do 2 (split; [done|]). simpl.
  rewrite Z.max_l by lia. split; [done|]. by rewrite dict_get_set_eq.
Qed.

(** ** Creating a run together with its task *)

Lemma dict_pop_set_fresh {V} k (v : V) (d : dict Z V) :
  dict_get k d = None → dict_pop k (dict_set k v d) = d.
Proof.
  intros Hk. rewrite dict_set_fresh by done. unfold dict_pop. rewrite filter_app.
  rewrite (filter_all _ d), filter_cons; simpl.
  - rewrite decide_False by tauto. apply app_nil_r.
  - intros [k' v'] Hin. simpl. intros ->. apply dict_get_None in Hk. apply Hk, list_elem_of_fmap. by exists (k, v').
Qed.

(** The gate's verdict on the arguments. *)
Definition gate_verdict (gate : option DeploymentRunGate) (a : RunArgs) : option exn :=
  match ca_deployment_id a, gate with
  | Some d, Some g => g d (ca_tenant_id a) (ca_project_id a) (ca_agent_id a) (ca_agent_version_id a)
  | _, _ => None
  end.

(** The id [create_run] gives a run. *)
Definition assigned_id (a : RunArgs) (s : InMemoryRunStore) : Z := or_int (ca_run_id a) (next_run_id s).

Lemma create_run_spec now a s : ∃ run n,
  create_run now a s = (Ret run, s <| next_run_id := n |> <| runs := dict_set (assigned_id a s) run (runs s) |>) ∧
  rr_run_id run = assigned_id a s ∧ rr_status run = "pending" ∧ rr_input_data run = ca_input_data a ∧
  rr_tenant_id run = ca_tenant_id a ∧ rr_deployment_id run = ca_deployment_id a.
Proof. unfold create_run, assigned_id. m_unfold. by repeat eexists. Qed.

Section create_run_task.
Context {B : Type} `{!RuntimeTaskBackend B}.

Lemma create_run_task_run gate now now' a q task (m : RunManager B InMemoryRunStore) :
  create_run_task gate now now' a q task m =
  match gate_verdict gate a with
  | Some e => (Raise e, m)
  | None =>
      match create_run now a (rm_run_store m) with
      | (Raise e, s) => (Raise e, mkRunManager s (rm_task_backend m))
      | (Ret run, s) =>
          match tb_enqueue now' (task_request a (rr_run_id run) q task) (rm_task_backend m) with
          | (Ret t, b) => (Ret (run, t), mkRunManager s b)
          | (Raise e, b) => (Raise e, mkRunManager (delete_run (rr_run_id run) s).2 b)
          end
      end
  end.
Proof.
  unfold create_run_task, gate_verdict, with_store, with_backend. m_unfold.
  destruct (ca_deployment_id a), gate as [g|]; try destruct (g _ _ _ _ _); simpl; try done;
    by destruct (tb_enqueue _ _ _) as [[]].
Qed.

(** Creating a run and its task is all or nothing, with any task backend:
    when [create_run_task] raises, the runs and attempts of the store are as they
    were (the run created before the failing [enqueue] was deleted again), and the
    backend is untouched or in the state its own failing [enqueue] left it in. *)
Theorem create_run_task_atomic gate now now' a q task (m m' : RunManager B InMemoryRunStore) e
    (Hfresh : dict_get (assigned_id a (rm_run_store m)) (runs (rm_run_store m)) = None)
    (Hraise : create_run_task gate now now' a q task m = (Raise e, m')) :
  runs (rm_run_store m') = runs (rm_run_store m) ∧
  attempts (rm_run_store m') = attempts (rm_run_store m) ∧
  (m' = m ∨ tb_enqueue now' (task_request a (assigned_id a (rm_run_store m)) q task)
              (rm_task_backend m) = (Raise e, rm_task_backend m')).
Proof.
  rewrite create_run_task_run in Hraise.
  destruct (gate_verdict gate a); [simplify_eq; by auto|].
  destruct (create_run_spec now a (rm_run_store m)) as (run&n&Hc&Hid&_). rewrite Hc, Hid in Hraise.
  destruct (tb_enqueue _ _ _) as [[t|e'] b] eqn:E; simplify_eq/=.
  split; [|by auto]. by rewrite dict_pop_set_fresh.
Qed.
End create_run_task.

(** A task queue that accepts nothing, to exercise the failing path. *)
Definition closed_queue : RuntimeTaskBackend unit := {|
  tb_enqueue _ _ := raise (RuntimeError "queue closed");
  tb_lease _ _ _ _ _ := mret None;
  tb_heartbeat _ id w _ := raise (TaskLeaseError id w);
  tb_complete id w _ := raise (TaskLeaseError id w);
  tb_fail id w _ _ := raise (TaskLeaseError id w);
  tb_cancel id := raise (KeyError (pretty id));
  tb_mark_running id w _ := raise (TaskLeaseError id w);
  tb_assert_can_complete id w _ := raise (TaskLeaseError id w);
  tb_will_retry _ := mret false
|}.

Definition sample_args : RunArgs := mkRunArgs 1 1 5 50 None [("q", VStr "hi")] None None None.

Lemma create_run_task_atomic_witness :
  runs (rm_run_store (create_run_task (RuntimeTaskBackend0 := closed_queue) None 10 11 sample_args
    "default" None (mkRunManager init_run_store tt)).2) = [].
Proof.
  refine (proj1 (create_run_task_atomic (RuntimeTaskBackend0 := closed_queue) None 10 11 sample_args
    "default" None (mkRunManager init_run_store tt) _ (RuntimeError "queue closed") _ _));
    vm_compute; reflexivity.
Defined.

(** With the in-process queue, [create_run_task] raises only what the
    deployment gate raises, and then changes nothing; otherwise the run is stored
    as pending under the id it returns, and the task under the returned task id is
    queued for that run on the requested queue, with no lease and no fencing token
    handed out yet. *)
Theorem create_run_task_correct gate now now' a q task
    (m : RunManager InMemoryTaskBackend InMemoryRunStore) :
  match create_run_task gate now now' a q task m with
  | (Raise e, m') => gate_verdict gate a = Some e ∧ m' = m
  | (Ret (run, tid), m') =>
      gate_verdict gate a = None ∧
      dict_get (rr_run_id run) (runs (rm_run_store m')) = Some run ∧ rr_status run = "pending" ∧
      rr_input_data run = ca_input_data a ∧
      ∃ t, dict_get tid (tasks (rm_task_backend m')) = Some t ∧ run_id t = rr_run_id run ∧
        queue t = q ∧ status t = "queued" ∧ worker_id t = None ∧ fencing_token t = 0 ∧
        rq_input_data (payload t) = ca_input_data a
  end.
Proof.
  rewrite create_run_task_run. destruct (gate_verdict gate a) as [e|]; [done|].
  destruct (create_run_spec now a (rm_run_store m)) as (run&n&Hc&Hid&Hst&Hin&_). rewrite Hc. simpl.
  unfold enqueue. m_unfold. simpl. rewrite Hid, !dict_get_set_eq.
  split_and!; try done. eexists. by split_and!.
Qed.

Definition sample_store : InMemoryRunStore := Eval vm_compute in
  foldl store_step init_run_store
    [OCreateRun 1 sample_args; OCreateRun 2 sample_args; OCreateAttempt 3 1 1 "w1";
     OCompleteRun 1 [("ok", VBool true)]].

Lemma run_status_evolves_witness :
  ∃ r', dict_get 2 (runs (foldl store_step sample_store [OMarkRunning 2; OTimeoutRun 2 []])) = Some r' ∧
    rr_status r' = "timeout".
Proof.
  destruct (run_status_evolves sample_store [OMarkRunning 2; OTimeoutRun 2 []] 2
    (mkRuntimeRun 2 1 1 5 50 None [("q", VStr "hi")] [] "pending" None None None 2)
    ltac:(vm_compute; reflexivity) ltac:(vm_compute; reflexivity)) as (r'&Hr'&_).
  exists r'. split; [exact Hr'|]. vm_compute in Hr'. injection Hr' as <-. reflexivity.
Defined.

Lemma run_outcome_final_witness :
  option_map rr_status (dict_get 1 (runs (foldl store_step sample_store
    [OCancelRun 1; OFailRun 1 []; OCreateAttempt 9 1 1 "w2"; ODeleteRun 2]))) = Some "succeeded".
Proof.
  refine (f_equal (option_map rr_status) (run_outcome_final sample_store _ 1
    (mkRuntimeRun 1 1 1 5 50 None [("q", VStr "hi")] [] "succeeded" None
       (Some [("ok", VBool true)]) None 1) _ (or_introl eq_refl) _)); vm_compute; reflexivity.
Defined.

Lemma refused_attempt_recorded_witness :
  ∃ s' a, create_attempt 9 1 1 "w2" sample_store
      = (Raise (InvalidStateTransitionError "run" "succeeded" "running"), s') ∧
    dict_get 2 (attempts s') = Some a ∧ ra_status a = "running".
Proof.
  destruct (refused_attempt_recorded sample_store 9 1 1 "w2"
    (mkRuntimeRun 1 1 1 5 50 None [("q", VStr "hi")] [] "succeeded" None
       (Some [("ok", VBool true)]) None 1) ltac:(vm_compute; reflexivity)
    (or_introl eq_refl)) as (s'&H&_&a&Ha&Hs&_).
  exists s', a. split; [exact H|]. split; [exact Ha|exact Hs].
Defined.

Lemma create_run_zero_overwritten_witness :
  ∃ ra rb s1 s2,
    create_run 5 (mkRunArgs 1 1 5 50 None [] None None (Some 0)) sample_store = (Ret ra, s1) ∧
    create_run 6 sample_args s1 = (Ret rb, s2) ∧ rr_run_id ra = rr_run_id rb ∧
    dict_get (rr_run_id ra) (runs s2) = Some rb.
Proof.
  apply (create_run_zero_overwritten sample_store 5 6); vm_compute; [intros [=]|reflexivity..].
Defined.
