(* ===== verification/SqlRunStore.v ===== *)
(** The database-backed run store of [runtime/sqlalchemy_run_store.py], and that
    it implements the in-process store of [RunStore]. *)

From stdpp Require Import relations.
From S2P Require Import Prelude Values Json JsonLoads StateMachine Tables InMemory RunStore.

(** A session on the database; the n-th call of [datetime.now] returns [ss_now n]. *)
Record Session := mkSession {
  ss_db : Db;
  ss_now : nat → Z;
  ss_ticks : nat
}.
#[export] Instance Session_eta : Eta Session := λ s, mkSession (ss_db s) (ss_now s) (ss_ticks s).

Definition with_db {A} (m : M Db A) : M Session A := zoom ss_db (λ d s, s <| ss_db := d |>) m.

Definition utc_now : M Session Z :=
  s ← get_state;
  modify (λ s, s <| ss_ticks := S (ss_ticks s) |>) ;;
  mret (ss_now s (ss_ticks s)).

Section store.
Context (py_str : value → string) (ms_of : Z → Z).

Definition _run_model (id : Z) : M Session Run :=
  s ← get_state; of_option (dict_get id (db_runs (ss_db s))) (KeyError (pretty id)).
Definition _attempt_model (id : Z) : M Session RunAttempt :=
  s ← get_state; of_option (dict_get id (db_attempts (ss_db s))) (KeyError (pretty id)).

Definition set_run (id : Z) (f : Run → Run) : M Session unit := with_db (on_run_row id (modify f)).
Definition set_attempt (id : Z) (f : RunAttempt → RunAttempt) : M Session unit :=
  with_db (on_attempt_row id (modify f)).

(** [{"message": error} if error else None] *)
Definition error_dict (e : option string) : option pydict :=
  match e with
  | Some s => if String.eqb s "" then None else Some [("message", VStr s)]
  | None => None
  end.


Definition _attempt_from_model (a : RunAttempt) : RuntimeAttempt :=
  mkRuntimeAttempt (at_id a) (at_run_id a) (default 0 (at_task_id a)) (default "" (at_worker_id a))
    (at_attempt_no a) (at_status a) (default (at_created_at a) (at_started_at a)) (at_finished_at a)
    (error_dict (at_error a)).

(** The rows of the [runs] and [attempts] properties. *)
Definition sql_runs (s : Session) : list Run :=
  List.filter (λ r, negb (rn_is_deleted r)) (dict_values (db_runs (ss_db s))).
Definition sql_attempts (s : Session) : list RuntimeAttempt :=
  _attempt_from_model <$> List.filter (λ a, negb (at_is_deleted a)) (dict_values (db_attempts (ss_db s))).












Definition sql_delete_run (id : Z) : M Session unit :=
  _run_model id ;;
  set_run id (λ r, r <| rn_is_deleted := true |>) ;;
  now ← utc_now;
  set_run id (λ r, r <| rn_deleted_at := Some now |>).

Definition _latency_ms (started finished : option Z) : option Z :=
  match started, finished with
  | Some s, Some f => Some (Z.max 0 (ms_of (f - s)))
  | _, _ => None
  end.

(** [complete_attempt], [fail_attempt] and [timeout_attempt]. *)
Definition end_attempt (id : Z) (target : string) (err : option pydict) : M Session unit :=
  a ← _attempt_model id;
  assert_run_attempt_transition (at_status a) target ;;
  set_attempt id (λ a, a <| at_status := target |>) ;;
  match err with
  | Some e => set_attempt id (λ a, a <| at_error := Some (_error_message py_str e) |>)
  | None => mret tt
  end ;;
  now ← utc_now;
  set_attempt id (λ a, a <| at_finished_at := Some now |>
                         <| at_latency_ms := _latency_ms (at_started_at a) (Some now) |>).

Definition sql_complete_attempt (id : Z) : M Session unit := end_attempt id "succeeded" None.
Definition sql_fail_attempt (id : Z) (err : pydict) : M Session unit := end_attempt id "failed" (Some err).
Definition sql_timeout_attempt (id : Z) (err : pydict) : M Session unit := end_attempt id "timeout" (Some err).
End store.

(** * What the operations do to a run *)

(** The columns of a run that the in-process store has too. *)
Record RunCore := mkCore {
  co_id : Z;
  co_tenant_id : Z;
  co_project_id : Z;
  co_agent_id : Z;
  co_agent_version_id : Z;
  co_deployment_id : option Z;
  co_thread_id : option string;
  co_status : string;
  co_input_ref : option string;
  co_output_ref : option string
}.
#[export] Instance RunCore_eta : Eta RunCore := λ c,
  mkCore (co_id c) (co_tenant_id c) (co_project_id c) (co_agent_id c) (co_agent_version_id c)
    (co_deployment_id c) (co_thread_id c) (co_status c) (co_input_ref c) (co_output_ref c).


Abbreviation runs_of s := (db_runs (ss_db s)).











(** * The in-process store, implemented *)

(** A dictionary that [json.dumps] accepts. *)
Definition jsonable (d : pydict) : Prop := unique_keys (VDict d) ∧ is_Some (json_dumps (VDict d)).













(** ** Each call simulates its counterpart *)















(** ** Sequences of calls *)





(** What a dictionary read back from the database holds. *)
Lemma read_back d k : jsonable d → dict_get k (canon_dict d) = canon <$> dict_get k d.
Proof. intros [Hu _]. apply canon_dict_get. by apply unique_dict in Hu as [Hu _]. Qed.


