(* ===== verification/RuntimeLaws.v ===== *)
(** What the task backend and the run store promise to the worker: the laws of
    the interfaces [RuntimeTaskBackend] and [RuntimeRunStore], stated on an
    abstract view of their state, and the in-process implementations as
    instances. *)

From stdpp Require Import relations.
From S2P Require Import Prelude Values Json StateMachine InMemory RunStore.

(** What the worker can observe of a task. *)
Record TaskView := mkTaskView {
  tv_status : string;
  tv_worker : option string;
  tv_token : Z;
  tv_attempt : Z;
  tv_max_attempts : Z
}.
#[export] Instance TaskView_eta : Eta TaskView := λ v,
  mkTaskView (tv_status v) (tv_worker v) (tv_token v) (tv_attempt v) (tv_max_attempts v).

(** The worker [w] holds the lease [tok]. *)
Definition holds (v : TaskView) (w : string) (tok : Z) : Prop := tv_worker v = Some w ∧ tv_token v = tok.

(** The task after a failed attempt. *)
Definition after_failure (v : TaskView) : TaskView :=
  if tv_attempt v + 1 <? tv_max_attempts v
  then mkTaskView "queued" None (tv_token v) (tv_attempt v + 1) (tv_max_attempts v)
  else v <| tv_status := "dead_letter" |>.

Class TaskBackendLaws (B : Type) `{!RuntimeTaskBackend B} := {
  tb_view : B → Z → option TaskView;
  (** The fencing check reads only, and passes exactly for the lease holder. *)
  tb_can_complete_law id w tok b r b' : tb_assert_can_complete id w tok b = (r, b') →
    b' = b ∧ (r = Ret tt ↔ ∃ v, tb_view b id = Some v ∧ holds v w tok);
  tb_will_retry_law id b x b' : tb_will_retry id b = (Ret x, b') →
    b' = b ∧ ∃ v, tb_view b id = Some v ∧ x = (tv_attempt v + 1 <? tv_max_attempts v);
  tb_complete_law id w tok b b' : tb_complete id w tok b = (Ret tt, b') →
    ∃ v, tb_view b id = Some v ∧ holds v w tok ∧ (tv_status v = "running" ∨ tv_status v = "leased") ∧
      tb_view b' id = Some (v <| tv_status := "succeeded" |>);
  tb_fail_law id w tok err b b' : tb_fail id w tok err b = (Ret tt, b') →
    ∃ v, tb_view b id = Some v ∧ holds v w tok ∧ tb_view b' id = Some (after_failure v);
  (** The lease holder of a running task can always report, the error being a JSON object. *)
  tb_complete_live id w tok b v : tb_view b id = Some v → holds v w tok → tv_status v = "running" →
    ∃ b', tb_complete id w tok b = (Ret tt, b');
  tb_fail_live id w tok err b v : is_Some (json_dumps (VDict err)) →
    tb_view b id = Some v → holds v w tok → tv_status v = "running" → ∃ b', tb_fail id w tok err b = (Ret tt, b');
  tb_will_retry_live id b v : tb_view b id = Some v → ∃ x, tb_will_retry id b = (Ret x, b)
}.

Class RunStoreLaws (R : Type) `{!RuntimeRunStore R} := {
  rs_run : R → Z → option RuntimeRun;
  rs_attempt : R → Z → option RuntimeAttempt;
  rs_get_run_law id s r s' : rs_get_run id s = (Ret r, s') → s' = s ∧ rs_run s id = Some r;
  rs_create_attempt_law now run task w s a s' : rs_create_attempt now run task w s = (Ret a, s') →
    rs_attempt s' (ra_attempt_id a) = Some a ∧ ra_status a = "running" ∧ ra_run_id a = run ∧
    ∃ r, rs_run s' run = Some r ∧ rr_status r = "running";
  rs_complete_run_law id out s s' : rs_complete_run id out s = (Ret tt, s') →
    (∃ r, rs_run s' id = Some r ∧ rr_status r = "succeeded" ∧ rr_output r = Some out) ∧
    rs_attempt s' = rs_attempt s;
  rs_fail_run_law id err s s' : rs_fail_run id err s = (Ret tt, s') →
    (∃ r, rs_run s' id = Some r ∧ rr_status r = "failed" ∧ rr_error r = Some err) ∧
    rs_attempt s' = rs_attempt s;
  rs_timeout_run_law id err s s' : rs_timeout_run id err s = (Ret tt, s') →
    (∃ r, rs_run s' id = Some r ∧ rr_status r = "timeout" ∧ rr_error r = Some err) ∧
    rs_attempt s' = rs_attempt s;
  rs_complete_attempt_law now id s s' : rs_complete_attempt now id s = (Ret tt, s') →
    (∃ a, rs_attempt s' id = Some a ∧ ra_status a = "succeeded") ∧ rs_run s' = rs_run s;
  rs_fail_attempt_law now id err s s' : rs_fail_attempt now id err s = (Ret tt, s') →
    (∃ a, rs_attempt s' id = Some a ∧ ra_status a = "failed" ∧ ra_error a = Some err) ∧
    rs_run s' = rs_run s;
  rs_timeout_attempt_law now id err s s' : rs_timeout_attempt now id err s = (Ret tt, s') →
    (∃ a, rs_attempt s' id = Some a ∧ ra_status a = "timeout" ∧ ra_error a = Some err) ∧
    rs_run s' = rs_run s
}.

(** * The in-process queue *)

Definition view_of (t : InMemoryTask) : TaskView :=
  mkTaskView (status t) (worker_id t) (fencing_token t) (attempt t) (max_attempts t).
Definition in_memory_view (b : InMemoryTaskBackend) (id : Z) : option TaskView :=
  view_of <$> dict_get id (tasks b).

Lemma assert_can_complete_spec id w tok b :
  assert_can_complete id w tok b =
  (match dict_get id (tasks b) with
   | None => Raise (KeyError (pretty id))
   | Some t =>
       if fencing_token t =? tok then
         if bool_decide (worker_id t = Some w) then Ret tt else Raise (TaskLeaseError (task_id t) w)
       else Raise (StaleFencingTokenError (task_id t))
   end, b).
Proof.
  unfold assert_can_complete. rewrite on_task_run.
  destruct (dict_get id (tasks b)) as [t|] eqn:E; [|done].
  unfold _assert_fencing_token, _assert_owner. m_unfold. simpl.
  destruct (fencing_token t =? tok); simpl; [destruct (bool_decide _)|]; simpl;
    rewrite dict_set_id by done; by destruct b.
Qed.

Lemma will_retry_spec id b :
  will_retry id b =
  (match dict_get id (tasks b) with
   | None => Raise (KeyError (pretty id))
   | Some t => Ret (attempt t + 1 <? max_attempts t)
   end, b).
Proof.
  unfold will_retry. rewrite on_task_run. destruct (dict_get id (tasks b)) as [t|] eqn:E; [|done].
  m_unfold. simpl. rewrite dict_set_id by done. by destruct b.
Qed.

#[export] Instance in_memory_backend_laws : TaskBackendLaws InMemoryTaskBackend.
Proof.
  refine {| tb_view := in_memory_view |}; simpl.
  - intros id w tok b r b'. rewrite assert_can_complete_spec. intros [= <- <-]. split; [done|].
    unfold in_memory_view, holds. destruct (dict_get id (tasks b)) as [t|]; simpl; [|naive_solver].
    destruct (fencing_token t =? tok) eqn:E; b2p.
    + case_bool_decide; naive_solver.
    + split; [done|]. intros (v&[= <-]&_&Hv). simpl in Hv. done.
  - intros id b x b'. rewrite will_retry_spec. unfold in_memory_view.
    destruct (dict_get id (tasks b)) as [t|]; [|done]. intros [= <- <-]. split; [done|]. by eexists.
  - intros id w tok b b'. rewrite complete_spec. unfold holds.
    destruct (dict_get id (tasks b)) as [t|] eqn:Ht; [|done].
    destruct (fencing_token t =? tok) eqn:E; [|done]. case_bool_decide; [|done].
    case_bool_decide; [|done]. intros [= <-]. b2p. exists (view_of t).
    unfold in_memory_view. simpl. rewrite Ht, dict_get_set_eq. split_and!; try done. by left.
  - intros id w tok err b b'. rewrite fail_spec. unfold holds.
    destruct (dict_get id (tasks b)) as [t|] eqn:Ht; [|done]. rewrite fail_task_spec.
    destruct (fencing_token t =? tok) eqn:E; [|done]. case_bool_decide; [|done].
    destruct (_ || _); [|done]. intros Hf. b2p. exists (view_of t).
    unfold after_failure. simpl. split; [unfold in_memory_view; by rewrite Ht|]. split; [done|].
    destruct (max_attempts t <=? attempt t + 1) eqn:Em; simplify_eq;
      unfold in_memory_view; simpl; rewrite dict_get_set_eq; b2p.
    + by rewrite (proj2 (Z.ltb_ge _ _)).
    + by rewrite (proj2 (Z.ltb_lt _ _)).
  - intros id w tok b v Hv [Hw Htok] Hs. rewrite complete_spec. unfold in_memory_view in Hv.
    destruct (dict_get id (tasks b)) as [t|]; simplify_eq/=.
    rewrite Z.eqb_refl, !bool_decide_true by done. by eexists.
  - intros id w tok err b v _ Hv [Hw Htok] Hs. rewrite fail_spec. unfold in_memory_view in Hv.
    destruct (dict_get id (tasks b)) as [t|]; simplify_eq/=. rewrite fail_task_spec.
    rewrite Z.eqb_refl, bool_decide_true, Hs by done. simpl.
    destruct (max_attempts t <=? attempt t + 1); by eexists.
  - intros id b v Hv. rewrite will_retry_spec. unfold in_memory_view in Hv.
    destruct (dict_get id (tasks b)); simplify_eq/=. by eexists.
Defined.

(** * The in-process run store *)

Lemma finish_run_law id target record s s' :
  on_run id (finish_body target record) s = (Ret tt, s') →
  ∃ r, dict_get id (runs s') = Some (record (r <| rr_status := target |>)) ∧ attempts s' = attempts s.
Proof.
  rewrite on_run_run. destruct (dict_get id (runs s)) as [r|]; [|done].
  rewrite finish_body_spec. simpl. destruct (allowed _ _ target); [|done]. intros [= <-]. simpl.
  rewrite dict_get_set_eq. by eexists.
Qed.

Lemma finish_attempt_law id now target err s s' :
  on_attempt id (finish_attempt_body now target err) s = (Ret tt, s') →
  ∃ a, dict_get id (attempts s') = Some a ∧ ra_status a = target ∧
    (∀ e, err = Some e → ra_error a = Some e) ∧ runs s' = runs s.
Proof.
  rewrite on_attempt_run. destruct (dict_get id (attempts s)) as [a|]; [|done].
  rewrite finish_attempt_body_spec. destruct (allowed _ _ target); [|done]. intros [= <-]. simpl.
  rewrite dict_get_set_eq. eexists. split_and!; [done|done|by intros ? ->|done].
Qed.

#[export] Instance in_memory_run_store_laws : RunStoreLaws InMemoryRunStore.
Proof.
  refine {| rs_run s id := dict_get id (runs s); rs_attempt s id := dict_get id (attempts s) |}; simpl.
  - intros id s r s'. unfold get_run. rewrite on_run_run.
    destruct (dict_get id (runs s)) eqn:E; [|done]. m_unfold. simpl. intros [= <- <-].
    rewrite dict_set_id by done. by destruct s.
  - intros now run task w s a s'. unfold create_attempt, mbind, M_bind, get_state, modify.
    rewrite on_run_run. simpl. destruct (dict_get run (runs s)) as [r|] eqn:E; [|done].
    rewrite mark_running_body_spec. case_bool_decide as Hr; [|destruct (allowed _ _ _); [|done]];
      unfold mret, M_ret; intros [= <- <-]; simpl; rewrite !dict_get_set_eq; split_and!; try done;
      by eexists.
  - intros id out s s' (r&->&->)%finish_run_law. split; [|done]. by eexists.
  - intros id err s s' (r&->&->)%finish_run_law. split; [|done]. by eexists.
  - intros id err s s' (r&->&->)%finish_run_law. split; [|done]. by eexists.
  - intros now id s s' (a&->&?&_&->)%finish_attempt_law. by eauto.
  - intros now id err s s' (a&->&?&He&->)%finish_attempt_law. by eauto 6.
  - intros now id err s s' (a&->&?&He&->)%finish_attempt_law. by eauto 6.
Defined.
