(* ===== verification/Floats.v ===== *)
(** Python's [float]: binary64 as an inductive type with its exact operations, the
    built-in [sum], [round(x, digits)] and fixed-point formatting. *)

From Stdlib Require Import SpecFloat Ascii.
From S2P Require Import Prelude Values Json.

Abbreviation float := spec_float.

Definition fadd : float → float → float := SFadd 53 1024.
Definition fsub : float → float → float := SFsub 53 1024.
Definition fmul : float → float → float := SFmul 53 1024.
Definition fdiv : float → float → float := SFdiv 53 1024.
Definition fleb : float → float → bool := SFleb.
Definition fltb : float → float → bool := SFltb.
Definition float_of_Z (z : Z) : float := binary_normalize 53 1024 z 0 false.

(** The float nearest to [n / d]; [d] is positive. *)
Definition float_of_ratio (negative : bool) (n : Z) (d : positive) : float :=
  match n with
  | Zpos m =>
      let '(mz, ez, lz) := SFdiv_core_binary 53 1024 (Zpos m) 0 (Zpos d) 0 in
      binary_round_aux 53 1024 negative mz ez lz
  | _ => S754_zero negative
  end.

(** The integer nearest to [n / d], ties to even. *)
Definition round_ratio (n d : Z) : Z :=
  let q := n / d in
  match Z.compare (2 * (n mod d)) d with
  | Lt => q
  | Gt => q + 1
  | Eq => if Z.even q then q else q + 1
  end.

(** The magnitude in units of [10^-digits], rounded. *)
Definition scaled (digits : Z) (m : positive) (e : Z) : Z :=
  if 0 <=? e then Zpos m * 2 ^ e * 10 ^ digits else round_ratio (Zpos m * 10 ^ digits) (2 ^ (- e)).

(** [round(x, digits)] *)
Definition round_digits (digits : Z) (x : float) : float :=
  match x with
  | S754_finite s m e => float_of_ratio s (scaled digits m e) (Z.to_pos (10 ^ digits))
  | _ => x
  end.

(** Pads on the left with zeros. *)
Definition zero_pad (width : nat) (s : string) : string :=
  of_chars (replicate (width - String.length s) "0"%char ++ to_chars s).

(** [f"{x:.{digits}f}"] *)
Definition fixed (digits : Z) (x : float) : string :=
  let sign (s : bool) := if s then "-" else "" in
  let text (n : Z) := pretty (n / 10 ^ digits) +:+ "." +:+ zero_pad (Z.to_nat digits) (pretty (n mod 10 ^ digits)) in
  match x with
  | S754_finite s m e => sign s +:+ text (scaled digits m e)
  | S754_zero s => sign s +:+ text 0
  | S754_infinity s => sign s +:+ "inf"
  | S754_nan => "nan"
  end.

(** The built-in [sum] of floats: added from left to right up to Python 3.11, with a
    compensation term from 3.12 on. What is proved holds for any summation. *)
Definition sum_plain (l : list float) : float := foldl fadd (S754_zero false) l.
Definition sum_step (a : float * float) (x : float) : float * float :=
  let '(s, c) := a in
  let t := fadd s x in
  (t, fadd c (if fleb (SFabs x) (SFabs s) then fadd (fsub s t) x else fadd (fsub x t) s)).
Definition sum_compensated (l : list float) : float :=
  let '(s, c) := foldl sum_step (S754_zero false, S754_zero false) l in
  match c with S754_finite _ _ _ => fadd s c | _ => s end.

(** A decimal literal. *)
Definition decimal (n : Z) (digits : Z) : float := float_of_ratio (n <? 0) (Z.abs n) (Z.to_pos (10 ^ digits)).

Example point_three : fadd (decimal 1 1) (decimal 2 1) ≠ decimal 3 1 ∧
  round_digits 6 (fadd (decimal 1 1) (decimal 2 1)) = decimal 3 1 ∧
  fixed 2 (decimal 12345 4) = "1.23" ∧ fixed 6 (decimal (-5) 1) = "-0.500000" ∧
  sum_plain (replicate 10 (decimal 1 1)) ≠ float_of_Z 1 ∧ sum_compensated (replicate 10 (decimal 1 1)) = float_of_Z 1.
Proof. vm_compute. split_and!; done. Qed.
