(* ===== verification/RedisBackend.v ===== *)
(** The Redis-backed task queue ([scheduler/redis_backend.py]).

    A task is a hash whose fields hold JSON texts; the record keeps the values the texts
    stand for. A field the hash lacks is [None], and [HSET] leaves it as it is; a field
    that can be null is an option of an option. A queue is a sorted set of
    task ids. A method is a sequence of Redis commands: what other clients do between its
    reading and its writing is an argument ([gap]), the identity when nobody interferes.
    Requests carry no [created_at] and name the fields they have; [scheduled_at] is a
    [datetime], stored as [str] prints it. The clock is read through an oracle in the state. *)

From stdpp Require Import gmap.
From Stdlib Require Import SpecFloat.
From S2P Require Import Prelude Values Json StateMachine InMemory RunStore Tables Floats.

(** * Data *)

Record RedisTask := mkRedisTask {
  kt_task_id : Z;
  kt_payload : TaskRequest;
  kt_queue : string;
  kt_priority : Z;
  kt_status : string;
  kt_attempt : Z;
  kt_max_attempts : Z;
  kt_fencing_token : Z;
  kt_created_at : Z;
  kt_worker_id : option (option string);
  kt_leased_until : option (option Z);
  kt_heartbeat_at : option Z;
  kt_started_at : option Z;
  kt_finished_at : option Z;
  kt_error : option pydict;
  kt_dead_letter_reason : option string
}.
#[export] Instance RedisTask_eta : Eta RedisTask := λ t,
  mkRedisTask (kt_task_id t) (kt_payload t) (kt_queue t) (kt_priority t) (kt_status t) (kt_attempt t)
    (kt_max_attempts t) (kt_fencing_token t) (kt_created_at t) (kt_worker_id t) (kt_leased_until t)
    (kt_heartbeat_at t) (kt_started_at t) (kt_finished_at t) (kt_error t) (kt_dead_letter_reason t).

Record CancelMessage := mkCancelMessage {
  km_task_id : Z;
  km_run_id : Z;
  km_worker_id : option string;
  km_status : string
}.

(** The keys of the backend's prefix. [kr_connected] and [kr_eval] tell whether there is
    a client and whether it has [eval]. *)
Record RedisTaskBackend := mkRedis {
  kr_tasks : dict Z RedisTask;
  kr_queues : dict string (dict Z float);
  kr_task_id_seq : Z;
  kr_dead_letters : list (Z * pydict);
  kr_published : list CancelMessage;
  kr_connected : bool;
  kr_eval : bool;
  kr_clock : nat → Z;
  kr_ticks : nat
}.
#[export] Instance RedisTaskBackend_eta : Eta RedisTaskBackend := λ s,
  mkRedis (kr_tasks s) (kr_queues s) (kr_task_id_seq s) (kr_dead_letters s) (kr_published s) (kr_connected s)
    (kr_eval s) (kr_clock s) (kr_ticks s).

Definition new_redis (clock : nat → Z) (has_eval : bool) : RedisTaskBackend :=
  mkRedis [] [] 0 [] [] true has_eval clock 0.

Definition redis_now : M RedisTaskBackend Z :=
  s ← get_state;
  modify (λ s, s <| kr_ticks := S (kr_ticks s) |>) ;;
  mret (kr_clock s (kr_ticks s)).

(** What the others do meanwhile. *)
Definition gap := RedisTaskBackend → RedisTaskBackend.
Definition meanwhile (g : gap) : M RedisTaskBackend unit := modify g.

(** * Commands *)

Definition _require_client : M RedisTaskBackend unit :=
  s ← get_state; check (kr_connected s) (RuntimeError "Redis client is not configured.").

(** [HSET] over a hash that exists keeps the fields the request does not name. *)
Definition or_old {A} (new old : option A) : option A := match new with Some a => Some a | None => old end.
Definition merge_request (old new : TaskRequest) : TaskRequest :=
  mkTaskRequest (or_old (rq_task_id new) (rq_task_id old)) (rq_run_id new) (rq_tenant_id new) (rq_project_id new)
    (or_old (rq_agent_id new) (rq_agent_id old)) (or_old (rq_deployment_id new) (rq_deployment_id old))
    (or_old (rq_queue new) (rq_queue old)) (or_old (rq_priority new) (rq_priority old))
    (or_old (rq_attempt new) (rq_attempt old)) (or_old (rq_max_attempts new) (rq_max_attempts old))
    (or_old (rq_scheduled_at new) (rq_scheduled_at old)) (rq_input_data new)
    (or_old (rq_override_config new) (rq_override_config old)) (or_old (rq_execution_mode new) (rq_execution_mode old))
    (dict_merge (rq_extra old) (rq_extra new)).

Definition merge_task (old t : RedisTask) : RedisTask :=
  mkRedisTask (kt_task_id t) (merge_request (kt_payload old) (kt_payload t)) (kt_queue t) (kt_priority t) (kt_status t)
    (kt_attempt t) (kt_max_attempts t) (kt_fencing_token t) (kt_created_at t)
    (or_old (kt_worker_id t) (kt_worker_id old)) (or_old (kt_leased_until t) (kt_leased_until old))
    (or_old (kt_heartbeat_at t) (kt_heartbeat_at old)) (or_old (kt_started_at t) (kt_started_at old))
    (or_old (kt_finished_at t) (kt_finished_at old)) (or_old (kt_error t) (kt_error old))
    (or_old (kt_dead_letter_reason t) (kt_dead_letter_reason old)).
Definition written (old : option RedisTask) (t : RedisTask) : RedisTask := from_option (λ old, merge_task old t) t old.

(** [HSET] of every field of the task *)
Definition _hset (id : Z) (t : RedisTask) : M RedisTaskBackend unit :=
  _require_client ;;
  modify (λ s, s <| kr_tasks := dict_set id (written (dict_get id (kr_tasks s)) t) (kr_tasks s) |>).

(** [HGETALL] and decoding *)
Definition _task (id : Z) : M RedisTaskBackend RedisTask :=
  _require_client ;; s ← get_state; of_option (dict_get id (kr_tasks s)) (KeyError (pretty id)).

Definition queue_of (q : string) (s : RedisTaskBackend) : dict Z float := default [] (dict_get q (kr_queues s)).
Definition _zadd (q : string) (id : Z) (score : float) : M RedisTaskBackend unit :=
  _require_client ;;
  modify (λ s, s <| kr_queues := dict_set q (dict_set id score (queue_of q s)) (kr_queues s) |>).
Definition _zrem (q : string) (id : Z) : M RedisTaskBackend unit :=
  _require_client ;; modify (λ s, s <| kr_queues := dict_set q (dict_pop id (queue_of q s)) (kr_queues s) |>).

(** [ZRANGE key 0 -1]: by score, members of equal score as texts *)
Definition member_leb (a b : Z * float) : bool :=
  fltb a.2 b.2 || (negb (fltb b.2 a.2) && String.leb (pretty a.1) (pretty b.1)).
Definition zrange (q : string) (s : RedisTaskBackend) : list Z := (stable_sort member_leb (queue_of q s)).*1.

(** [INCR] *)
Definition _next_task_id : M RedisTaskBackend Z :=
  _require_client ;;
  modify (λ s, s <| kr_task_id_seq := kr_task_id_seq s + 1 |>) ;;
  s ← get_state; mret (kr_task_id_seq s).

(** [-priority * 1_000_000_000_000 + created_at.timestamp()] *)
Definition _queue_score (t : RedisTask) : float :=
  fadd (float_of_Z (- kt_priority t * 1000000000000))
    (float_of_ratio (kt_created_at t <? 0) (Z.abs (kt_created_at t)) 1000000).

Definition redis_fencing (t : RedisTask) (token : Z) : M RedisTaskBackend unit :=
  check (kt_fencing_token t =? token) (StaleFencingTokenError (kt_task_id t)).
Definition redis_owner (t : RedisTask) (worker : string) : M RedisTaskBackend unit :=
  check (bool_decide (mjoin (kt_worker_id t) = Some worker)) (TaskLeaseError (kt_task_id t) worker).
Definition move (target : string) (t : RedisTask) : M RedisTaskBackend RedisTask :=
  assert_task_transition (kt_status t) target ;; mret (t <| kt_status := target |>).
(** [if task["status"] == "leased": ...] *)
Definition start_leased (t : RedisTask) : M RedisTaskBackend RedisTask :=
  if bool_decide (kt_status t = "leased") then move "running" t else mret t.

(** * Methods *)

Definition new_task (id now : Z) (rq : TaskRequest) : RedisTask :=
  mkRedisTask id rq (default "default" (rq_queue rq)) (default 0 (rq_priority rq)) "queued" (default 0 (rq_attempt rq))
    (default 3 (rq_max_attempts rq)) 0 now None None None None None None None.

Definition redis_enqueue (rq : TaskRequest) : M RedisTaskBackend Z :=
  _require_client ;;
  id ← match rq_task_id rq with
       | Some z => if z =? 0 then _next_task_id else mret z
       | None => _next_task_id
       end;
  now ← redis_now;
  let t := new_task id now rq in
  _hset id t ;;
  _zadd (kt_queue t) id (_queue_score t) ;;
  mret id.

(** ** Leases *)

Definition redis_snapshot (t : RedisTask) : Snapshot :=
  mkSnapshot (kt_payload t) (kt_task_id t) (rq_run_id (kt_payload t)) (kt_queue t) (kt_priority t) (kt_status t)
    (kt_attempt t) (kt_max_attempts t) (mjoin (kt_worker_id t)) (mjoin (kt_leased_until t)) (kt_heartbeat_at t)
    (rq_scheduled_at (kt_payload t)) (kt_fencing_token t).

Definition leased_to (worker : string) (until now : Z) (t : RedisTask) : RedisTask :=
  t <| kt_status := "leased" |> <| kt_worker_id := Some (Some worker) |> <| kt_leased_until := Some (Some until) |>
    <| kt_heartbeat_at := Some now |> <| kt_fencing_token := kt_fencing_token t + 1 |>.

(** The script compares texts: [str] puts a blank after the date and [isoformat] a [T],
    which is greater, so that only the dates count. *)
Definition day : Z := 86400000000.
Definition script_due (now : Z) (t : RedisTask) : bool :=
  match rq_scheduled_at (kt_payload t) with None => true | Some at_ => at_ / day <=? now / day end.

(** The task the script picks. *)
Definition script_pick (q : string) (now : Z) (s : RedisTaskBackend) : option RedisTask :=
  head (omap (λ id, t ← dict_get id (kr_tasks s);
    if bool_decide (kt_status t = "queued") && script_due now t then Some t else None) (zrange q s)).

(** [_LEASE_SCRIPT], which runs as one command *)
Definition lease_script (q worker : string) (until now : Z) : M RedisTaskBackend (option RedisTask) :=
  s ← get_state;
  match script_pick q now s with
  | None => mret None
  | Some t =>
      let t := leased_to worker until now t in
      modify (λ s, s <| kr_tasks := dict_set (kt_task_id t) t (kr_tasks s) |>
        <| kr_queues := dict_set q (dict_pop (kt_task_id t) (queue_of q s)) (kr_queues s) |>) ;;
      mret (Some t)
  end.

Definition _lease_with_eval (q worker : string) (until now : Z) : M RedisTaskBackend (option RedisTask) :=
  _require_client ;;
  s ← get_state;
  if kr_eval s then lease_script q worker until now else mret None.

Definition due (now : Z) (t : RedisTask) : bool :=
  match rq_scheduled_at (kt_payload t) with None => true | Some at_ => at_ <=? now end.

(** The loop of [lease] over the ids it read; [g] acts between reading and writing. *)
Fixpoint lease_loop (g : gap) (q worker : string) (until now : Z) (ids : list Z) : M RedisTaskBackend (option RedisTask) :=
  match ids with
  | [] => mret None
  | id :: ids =>
      t ← _task id;
      if negb (bool_decide (kt_status t = "queued")) || negb (due now t) then lease_loop g q worker until now ids
      else
        assert_task_transition (kt_status t) "leased" ;;
        meanwhile g ;;
        let t := leased_to worker until now t in
        _hset (kt_task_id t) t ;;
        _zrem q (kt_task_id t) ;;
        mret (Some t)
  end.

(** One task of [reap_expired_leases] *)
Definition reap_one (now : Z) (q : string) (id : Z) : M RedisTaskBackend Z :=
  t ← _task id;
  if negb (bool_decide (kt_queue t = q)) then mret 0
  else if negb (bool_decide (kt_status t = "leased") || bool_decide (kt_status t = "running")) then mret 0
  else match mjoin (kt_leased_until t) with
  | None => mret 0
  | Some until =>
      if now <=? until then mret 0
      else if bool_decide (kt_status t = "running") && (kt_max_attempts t <=? kt_attempt t + 1) then
        t ← move "dead_letter" t;
        _hset (kt_task_id t) (t <| kt_dead_letter_reason := Some "lease_expired" |> <| kt_worker_id := Some None |>
          <| kt_leased_until := Some None |>) ;;
        mret 1
      else
        t ← (if bool_decide (kt_status t = "running")
             then t ← move "retrying" t; mret (t <| kt_attempt := kt_attempt t + 1 |>) else mret t);
        t ← move "queued" t;
        let t := t <| kt_worker_id := Some None |> <| kt_leased_until := Some None |> in
        _hset (kt_task_id t) t ;;
        _zadd (kt_queue t) (kt_task_id t) (_queue_score t) ;;
        mret 1
  end.

Fixpoint reap_all (now : Z) (q : string) (ids : list Z) : M RedisTaskBackend Z :=
  match ids with
  | [] => mret 0
  | id :: ids => n ← reap_one now q id; m ← reap_all now q ids; mret (n + m)
  end.

(** [None] stands for the queues that are known: the one called [default]. *)
Definition redis_reap (q : option string) : M RedisTaskBackend Z :=
  now ← redis_now;
  _require_client ;;
  s ← get_state;
  reap_all now (default "default" q) (dict_keys (kr_tasks s)).

(** When the script leased nothing, the loop tries again. *)
Definition redis_lease (g_script g_scan g_write : gap) (q worker : string) (lease_seconds : Z)
  : M RedisTaskBackend (option Snapshot) :=
  _require_client ;;
  redis_reap (Some q) ;;
  now ← redis_now;
  meanwhile g_script ;;
  let until := now + seconds lease_seconds in
  t ← _lease_with_eval q worker until now;
  match t with
  | Some t => mret (Some (redis_snapshot t))
  | None =>
      meanwhile g_scan ;;
      _require_client ;;
      s ← get_state;
      t ← lease_loop g_write q worker until now (zrange q s);
      mret (redis_snapshot <$> t)
  end.

Definition redis_heartbeat (g : gap) (id : Z) (worker : string) (lease_seconds : Z) : M RedisTaskBackend unit :=
  t ← _task id;
  redis_owner t worker ;;
  now ← redis_now;
  meanwhile g ;;
  _hset id (t <| kt_heartbeat_at := Some now |> <| kt_leased_until := Some (Some (now + seconds lease_seconds)) |>).

(** ** Reports *)

Definition redis_complete (g : gap) (id : Z) (worker : string) (token : Z) : M RedisTaskBackend unit :=
  t ← _task id;
  redis_fencing t token ;;
  redis_owner t worker ;;
  t ← start_leased t;
  t ← move "succeeded" t;
  now ← redis_now;
  meanwhile g ;;
  _hset id (t <| kt_finished_at := Some now |> <| kt_leased_until := Some None |>).

Section strings.
Context (py_str : value → string).

(** What [fail] does once the attempt counts as failed. *)
Definition report_failure (g : gap) (id : Z) (err : pydict) (t : RedisTask) : M RedisTaskBackend unit :=
  if kt_max_attempts t <=? kt_attempt t + 1 then
    t ← move "dead_letter" t;
    now ← redis_now;
    meanwhile g ;;
    _hset id (t <| kt_dead_letter_reason := Some (_error_message py_str err) |> <| kt_finished_at := Some now |>
             <| kt_leased_until := Some None |>) ;;
    of_option (json_dumps (VDict err)) type_error ;;
    _require_client ;;
    modify (λ s, s <| kr_dead_letters := kr_dead_letters s ++ [(id, err)] |>)
  else
    t ← move "retrying" t;
    let t := t <| kt_attempt := kt_attempt t + 1 |> <| kt_worker_id := Some None |> <| kt_leased_until := Some None |> in
    t ← move "queued" t;
    meanwhile g ;;
    _hset id t ;;
    _zadd (kt_queue t) id (_queue_score t).

Definition redis_fail (g : gap) (id : Z) (worker : string) (token : Z) (err : pydict) : M RedisTaskBackend unit :=
  t ← _task id;
  redis_fencing t token ;;
  redis_owner t worker ;;
  t ← start_leased t;
  t ← move "failed" t;
  report_failure g id err (t <| kt_error := Some err |>).
End strings.

Definition redis_cancel (g : gap) (id : Z) : M RedisTaskBackend unit :=
  t ← _task id;
  t ← start_leased t;
  t ← move "cancelled" t;
  now ← redis_now;
  meanwhile g ;;
  _hset id (t <| kt_finished_at := Some now |>) ;;
  _zrem (kt_queue t) id ;;
  modify (λ s, s <| kr_published := kr_published s ++
    [mkCancelMessage id (rq_run_id (kt_payload t)) (mjoin (kt_worker_id t)) "cancelled"] |>).

Definition redis_mark_running (g : gap) (id : Z) (worker : string) (token : Z) : M RedisTaskBackend unit :=
  t ← _task id;
  redis_fencing t token ;;
  redis_owner t worker ;;
  t ← move "running" t;
  started ← match kt_started_at t with Some s => mret s | None => redis_now end;
  meanwhile g ;;
  _hset id (t <| kt_started_at := Some started |>).

Definition redis_assert_can_complete (id : Z) (worker : string) (token : Z) : M RedisTaskBackend unit :=
  t ← _task id; redis_fencing t token ;; redis_owner t worker.

Definition redis_will_retry (id : Z) : M RedisTaskBackend bool :=
  t ← _task id; mret (kt_attempt t + 1 <? kt_max_attempts t).

(** The backend as the runtime uses it, when nobody interferes. *)
#[export] Instance redis_backend (py_str : value → string) : RuntimeTaskBackend RedisTaskBackend := {
  tb_enqueue := λ _, redis_enqueue;
  tb_lease := λ _ _, redis_lease id id id;
  tb_heartbeat := λ _, redis_heartbeat id;
  tb_complete := redis_complete id;
  tb_fail := redis_fail py_str id;
  tb_cancel := redis_cancel id;
  tb_mark_running := redis_mark_running id;
  tb_assert_can_complete := redis_assert_can_complete;
  tb_will_retry := redis_will_retry
}.

(** * [RedisCancelSubscriber] *)

(** How many messages were published before the next one to be read, once subscribed. *)
Record RedisCancelSubscriber := mkSubscriber { ks_position : option nat }.

Definition listen_once (published : list CancelMessage) : M RedisCancelSubscriber (option CancelMessage) :=
  s ← get_state;
  let p := default (length published) (ks_position s) in
  match published !! p with
  | Some m => modify (λ _, mkSubscriber (Some (S p))) ;; mret (Some m)
  | None => modify (λ _, mkSubscriber (Some p)) ;; mret None
  end.
