(* ===== verification/RedisProps.v ===== *)
(** The Redis-backed queue: it keeps the promises of the task backend to the worker, no
    queued task is lost, and what can go wrong between its commands. *)

From stdpp Require Import gmap relations.
From S2P Require Import Prelude Values Json StateMachine InMemory RunStore RuntimeLaws Tables Floats RedisBackend.

(** * Running the methods *)

Lemma require_client_run s : _require_client s =
  (if kr_connected s then Ret tt else Raise (RuntimeError "Redis client is not configured."), s).
Proof. unfold _require_client. m_unfold. by destruct (kr_connected s). Qed.

Lemma redis_task_run id s : _task id s =
  (if kr_connected s then match dict_get id (kr_tasks s) with Some t => Ret t | None => Raise (KeyError (pretty id)) end
   else Raise (RuntimeError "Redis client is not configured."), s).
Proof.
  unfold _task. unfold mbind, M_bind. rewrite require_client_run. destruct (kr_connected s); [|done].
  m_unfold. by destruct (dict_get id (kr_tasks s)).
Qed.

Lemma hset_run id t s : kr_connected s = true → _hset id t s =
  (Ret tt, s <| kr_tasks := dict_set id (written (dict_get id (kr_tasks s)) t) (kr_tasks s) |>).
Proof. intros H. unfold _hset, mbind, M_bind. rewrite require_client_run, H. done. Qed.

Lemma written_worker old t o : kt_worker_id t = Some o → kt_worker_id (written old t) = Some o.
Proof. destruct old; simpl; by intros ->. Qed.

Lemma zadd_run q id score s : kr_connected s = true → _zadd q id score s =
  (Ret tt, s <| kr_queues := dict_set q (dict_set id score (queue_of q s)) (kr_queues s) |>).
Proof. intros H. unfold _zadd, mbind, M_bind. rewrite require_client_run, H. done. Qed.


Lemma move_run target t s : move target t s =
  (if allowed TASK_TRANSITIONS (kt_status t) target then Ret (t <| kt_status := target |>)
   else Raise (InvalidStateTransitionError "task" (kt_status t) target), s).
Proof.
  unfold move, assert_task_transition, assert_transition. m_unfold. by destruct (allowed _ _ _).
Qed.

(** ** Reports

    A report is refused or written; what is written was computed from what was read. *)

Definition reportable (t : RedisTask) : bool := bool_decide (kt_status t = "leased") || bool_decide (kt_status t = "running").

(** Why the report of [w] with [tok] on the task [id] is refused. *)
Definition refusal (id : Z) (w : string) (tok : Z) (target : string) (s : RedisTaskBackend) : option exn :=
  if negb (kr_connected s) then Some (RuntimeError "Redis client is not configured.")
  else match dict_get id (kr_tasks s) with
       | None => Some (KeyError (pretty id))
       | Some t =>
           if negb (kt_fencing_token t =? tok) then Some (StaleFencingTokenError (kt_task_id t))
           else if negb (bool_decide (mjoin (kt_worker_id t) = Some w)) then Some (TaskLeaseError (kt_task_id t) w)
           else if negb (reportable t) then Some (InvalidStateTransitionError "task" (kt_status t) target)
           else None
       end.

(** Completing and failing begin alike. *)
Lemma report_run {A} id w tok target (k : RedisTask → M RedisTaskBackend A) s :
  (∀ c, allowed TASK_TRANSITIONS c target = bool_decide (c = "running")) →
  (t ← _task id; redis_fencing t tok ;; redis_owner t w ;; t ← start_leased t; t ← move target t; k t) s =
  match refusal id w tok target s, dict_get id (kr_tasks s) with
  | None, Some t => k (t <| kt_status := target |>) s
  | Some e, _ => (Raise e, s)
  | None, None => (Raise (KeyError (pretty id)), s)
  end.
Proof.
  intros Ha. unfold refusal. unfold mbind at 1, M_bind at 1. rewrite redis_task_run.
  destruct (kr_connected s) eqn:Hc; [|done]. destruct (dict_get id (kr_tasks s)) as [t|] eqn:Ht; [|done].
  unfold redis_fencing, redis_owner, check. unfold mbind at 1, M_bind at 1.
  destruct (kt_fencing_token t =? tok); [|done]. simpl. unfold mbind at 1, M_bind at 1.
  destruct (bool_decide (mjoin (kt_worker_id t) = Some w)); [|done]. simpl. unfold start_leased, reportable.
  unfold mbind at 1, M_bind at 1. destruct (bool_decide_reflect (kt_status t = "leased")) as [Hl|Hl].
  - rewrite move_run, Hl. simpl. unfold mbind at 1, M_bind at 1. rewrite move_run, Ha. done.
  - simpl. unfold mbind at 1, M_bind at 1. rewrite move_run, Ha. by destruct (bool_decide (kt_status t = "running")).
Qed.

Definition completed (finished : Z) (t : RedisTask) : RedisTask :=
  t <| kt_status := "succeeded" |> <| kt_finished_at := Some finished |> <| kt_leased_until := Some None |>.

Lemma complete_run g id w tok s : redis_complete g id w tok s =
  match refusal id w tok "succeeded" s, dict_get id (kr_tasks s) with
  | None, Some t => (meanwhile g ;; _hset id (completed (kr_clock s (kr_ticks s)) t)) (s <| kr_ticks := S (kr_ticks s) |>)
  | Some e, _ => (Raise e, s)
  | None, None => (Raise (KeyError (pretty id)), s)
  end.
Proof.
  unfold redis_complete. rewrite report_run by (intros c; by autorewrite with transitions).
  destruct (refusal _ _ _ _ _); [done|]. by destruct (dict_get id (kr_tasks s)).
Qed.

Section fail.
Context (py_str : value → string).

Definition dead (finished : Z) (err : pydict) (t : RedisTask) : RedisTask :=
  t <| kt_status := "dead_letter" |> <| kt_error := Some err |> <| kt_dead_letter_reason := Some (_error_message py_str err) |>
    <| kt_finished_at := Some finished |> <| kt_leased_until := Some None |>.
Definition retried (err : pydict) (t : RedisTask) : RedisTask :=
  t <| kt_status := "queued" |> <| kt_error := Some err |> <| kt_attempt := kt_attempt t + 1 |> <| kt_worker_id := Some None |>
    <| kt_leased_until := Some None |>.

Definition write_failure (g : gap) (id : Z) (err : pydict) (t : RedisTask) : M RedisTaskBackend unit := λ s,
  if kt_max_attempts t <=? kt_attempt t + 1 then
    (meanwhile g ;; _hset id (dead (kr_clock s (kr_ticks s)) err t) ;;
     of_option (json_dumps (VDict err)) type_error ;; _require_client ;;
     modify (λ s, s <| kr_dead_letters := kr_dead_letters s ++ [(id, err)] |>)) (s <| kr_ticks := S (kr_ticks s) |>)
  else (meanwhile g ;; _hset id (retried err t) ;; _zadd (kt_queue t) id (_queue_score t)) s.

Lemma fail_run g id w tok err s : redis_fail py_str g id w tok err s =
  match refusal id w tok "failed" s, dict_get id (kr_tasks s) with
  | None, Some t => write_failure g id err t s
  | Some e, _ => (Raise e, s)
  | None, None => (Raise (KeyError (pretty id)), s)
  end.
Proof.
  unfold redis_fail. rewrite report_run by (intros c; by autorewrite with transitions).
  destruct (refusal _ _ _ _ _); [done|]. destruct (dict_get id (kr_tasks s)) as [t|]; [|done].
  unfold report_failure, write_failure. simpl. destruct (kt_max_attempts t <=? kt_attempt t + 1);
    unfold mbind at 1, M_bind at 1; rewrite move_run; simpl; [done|]. unfold mbind at 1, M_bind at 1. by rewrite move_run.
Qed.
End fail.

(** * The promises to the worker *)

Definition task_view (t : RedisTask) : TaskView :=
  mkTaskView (kt_status t) (mjoin (kt_worker_id t)) (kt_fencing_token t) (kt_attempt t) (kt_max_attempts t).
Definition redis_view (s : RedisTaskBackend) (id : Z) : option TaskView :=
  if kr_connected s then task_view <$> dict_get id (kr_tasks s) else None.

Lemma written_view old t : is_Some (kt_worker_id t) → task_view (written old t) = task_view t.
Proof. intros [o Ho]. unfold task_view. rewrite (written_worker _ _ _ Ho), Ho. by destruct old. Qed.
Lemma joined_is_Some {A} (x : option (option A)) a : mjoin x = Some a → is_Some x.
Proof. by destruct x. Qed.

Lemma refusal_view id w tok target s : refusal id w tok target s = None ↔
  ∃ v, redis_view s id = Some v ∧ holds v w tok ∧ (tv_status v = "running" ∨ tv_status v = "leased").
Proof.
  unfold refusal, redis_view, holds, reportable. destruct (kr_connected s); simpl; [|naive_solver].
  destruct (dict_get id (kr_tasks s)) as [t|]; simpl; [|naive_solver].
  destruct (kt_fencing_token t =? tok) eqn:E; b2p; simpl; [|naive_solver].
  destruct (bool_decide_reflect (mjoin (kt_worker_id t) = Some w)); simpl; [|naive_solver].
  destruct (bool_decide_reflect (kt_status t = "leased")); simpl; [naive_solver|].
  destruct (bool_decide_reflect (kt_status t = "running")); naive_solver.
Qed.

#[export] Instance redis_backend_laws (py_str : value → string) : @TaskBackendLaws RedisTaskBackend (redis_backend py_str).
Proof.
  refine {| tb_view := redis_view |}; simpl.
  - intros id w tok s r s'. unfold redis_assert_can_complete, redis_fencing, redis_owner, redis_view, holds, mbind, M_bind.
    rewrite redis_task_run. destruct (kr_connected s); simpl; [|naive_solver].
    destruct (dict_get id (kr_tasks s)) as [t|]; simpl; [|naive_solver]. unfold check, mret, M_ret, raise.
    destruct (Z.eqb_spec (kt_fencing_token t) tok); [|naive_solver].
    destruct (bool_decide_reflect (mjoin (kt_worker_id t) = Some w)); naive_solver.
  - intros id s x s'. unfold redis_will_retry, redis_view, mbind, M_bind. rewrite redis_task_run.
    destruct (kr_connected s); [|done]. destruct (dict_get id (kr_tasks s)) as [t|]; [|done].
    intros [= <- <-]. split; [done|]. by eexists.
  - intros id w tok s s'. rewrite complete_run. destruct (refusal _ _ _ _ _) eqn:Hr; [done|].
    apply refusal_view in Hr as (v&Hv&Hh&Hs). unfold redis_view in *. destruct (kr_connected s) eqn:Hc; [|done].
    destruct (dict_get id (kr_tasks s)) as [t|]; [|done]. injection Hv as <-.
    unfold meanwhile, modify, mbind, M_bind. rewrite hset_run by done. intros [= <-]. eexists. split_and!; [done..|].
    simpl. rewrite Hc, dict_get_set_eq. refine (f_equal Some _). apply written_view, (joined_is_Some _ w), Hh.
  - intros id w tok err s s'. rewrite fail_run. destruct (refusal _ _ _ _ _) eqn:Hr; [done|].
    apply refusal_view in Hr as (v&Hv&Hh&_). unfold redis_view in *. destruct (kr_connected s) eqn:Hc; [|done].
    destruct (dict_get id (kr_tasks s)) as [t|]; [|done]. injection Hv as <-. intros H. eexists. split_and!; [done..|].
    unfold write_failure, after_failure in *. simpl. destruct (kt_max_attempts t <=? kt_attempt t + 1) eqn:Em; b2p.
    + rewrite (proj2 (Z.ltb_ge _ _)) by lia. unfold meanwhile, modify, mbind, M_bind in H. rewrite hset_run in H by done.
      unfold of_option, mret, M_ret in H. destruct (json_dumps _); [|done]. rewrite require_client_run in H. simpl in H. rewrite Hc in H.
      injection H as <-. simpl. rewrite dict_get_set_eq. refine (f_equal Some _). apply written_view, (joined_is_Some _ w), Hh.
    + rewrite (proj2 (Z.ltb_lt _ _)) by lia. unfold meanwhile, modify, mbind, M_bind in H. rewrite hset_run in H by done.
      rewrite zadd_run in H by done. injection H as <-. simpl. rewrite Hc, dict_get_set_eq.
      refine (f_equal Some _). by apply written_view.
  - intros id w tok s v Hv Hh Hs. rewrite complete_run.
    rewrite (proj2 (refusal_view id w tok "succeeded" s)) by eauto. unfold redis_view in Hv.
    destruct (kr_connected s) eqn:Hc; [|done]. destruct (dict_get id (kr_tasks s)) as [t|]; [|done].
    unfold meanwhile, modify, mbind, M_bind. rewrite hset_run by done. by eexists.
  - intros id w tok err s v [text Hj] Hv Hh Hs. rewrite fail_run.
    rewrite (proj2 (refusal_view id w tok "failed" s)) by eauto. unfold redis_view in Hv.
    destruct (kr_connected s) eqn:Hc; [|done]. destruct (dict_get id (kr_tasks s)) as [t|]; [|done].
    unfold write_failure, meanwhile, modify, mbind, M_bind. destruct (kt_max_attempts t <=? kt_attempt t + 1);
      rewrite hset_run by done.
    + unfold of_option, mret, M_ret. rewrite Hj, require_client_run. simpl. rewrite Hc. by eexists.
    + rewrite zadd_run by done. by eexists.
  - intros id s v Hv. unfold redis_will_retry, redis_view, mbind, M_bind in *. rewrite redis_task_run.
    destruct (kr_connected s); [|done]. destruct (dict_get id (kr_tasks s)) as [t|]; [|done]. by eexists.
Defined.

(** * No queued task is lost

    Whatever happens between the commands of the methods, a task that waits is in the
    sorted set of its queue. *)

Definition waiting (t : RedisTask) : Prop := kt_status t = "queued".




(** ** Rules *)
















(** ** The methods *)
















(** ** Interleavings

    What the clients of the queue may do: methods one after the other, and, in the middle
    of a method, again what the clients may do. Nobody chooses the id of a task. *)
Definition effect {A} (m : M RedisTaskBackend A) : gap := λ s, (m s).2.






(** ** A waiting task is leased *)

(** What reaping leaves alone. *)
Record reaped (s s' : RedisTaskBackend) : Prop := mkReaped {
  rp_connected : kr_connected s' = kr_connected s;
  rp_eval : kr_eval s' = kr_eval s;
  rp_waiting : ∀ id t, dict_get id (kr_tasks s) = Some t → waiting t → dict_get id (kr_tasks s') = Some t;
  rp_known : ∀ id, is_Some (dict_get id (kr_tasks s)) → is_Some (dict_get id (kr_tasks s'))
}.
#[export] Instance reaped_preorder : PreOrder reaped.
Proof.
  split; [by intros s; split|]. intros s1 s2 s3 [H1 H2 H3 H4] [K1 K2 K3 K4]. split; [congruence..|eauto|eauto].
Qed.








(** A run of a method, from its result. *)
Lemma effect_ret {A} (m : M RedisTaskBackend A) s a : (m s).1 = Ret a → m s = (Ret a, effect m s).
Proof. unfold effect. destruct (m s). by intros [= ->]. Qed.


(** * Between the commands *)

(** C29: A completion is written as it was computed when the task was read, whatever the
    others did to the task meanwhile: the token, the worker and the attempt of a newer
    lease are replaced by the older ones. *)
Theorem stale_completion_wins g i w tok s t :
  refusal i w tok "succeeded" s = None → dict_get i (kr_tasks s) = Some t →
  kr_connected (g (s <| kr_ticks := S (kr_ticks s) |>)) = true →
  ∃ s' t', redis_complete g i w tok s = (Ret tt, s') ∧ dict_get i (kr_tasks s') = Some t' ∧
    task_view t' = mkTaskView "succeeded" (Some w) tok (kt_attempt t) (kt_max_attempts t).
Proof.
  intros Hr Ht Hg. pose proof (proj1 (refusal_view _ _ _ _ _) Hr) as (v&Hv&[Hw Htok]&_). unfold redis_view in Hv.
  destruct (kr_connected s); [|done]. rewrite Ht in Hv. injection Hv as <-. rewrite complete_run, Hr, Ht.
  unfold meanwhile, modify, mbind, M_bind. rewrite hset_run by done. do 2 eexists. split; [done|].
  split; [simpl; apply dict_get_set_eq|]. rewrite written_view by by eapply joined_is_Some. unfold task_view in *. simpl in *.
  by rewrite Hw, Htok.
Qed.

(** ** Examples *)

Definition demo_at (at_ : option Z) : TaskRequest := mkTaskRequest None 1 1 1 None None None None None None at_ [] None None [].
(** The first task is leased by [a] at the start of the epoch; later readings of the clock
    are a minute on. *)
Definition demo_clock (n : nat) : Z := if (n <? 3)%nat then 0 else 60000000.
Definition demo_leased : RedisTaskBackend :=
  effect (redis_lease id id id "default" "a" 30) (effect (redis_enqueue (demo_at None)) (new_redis demo_clock true)).
Definition b_takes_over : gap := effect (redis_lease id id id "default" "b" 30).

(** [a] reports when its lease has run out; once its report has been checked and before it is
    written [b] leases the task with the next token, and the report of [a] replaces the lease. *)
Theorem fencing_race :
  (∃ t, dict_get 1 (kr_tasks (b_takes_over demo_leased)) = Some t ∧ kt_worker_id t = Some (Some "b") ∧ kt_fencing_token t = 2) ∧
  ∃ s', redis_complete b_takes_over 1 "a" 1 demo_leased = (Ret tt, s') ∧
    ∃ t, dict_get 1 (kr_tasks s') = Some t ∧ kt_status t = "succeeded" ∧ kt_worker_id t = Some (Some "a") ∧ kt_fencing_token t = 1.
Proof.
  split; [eexists; split; [vm_compute; reflexivity|done]|]. eexists. split; [apply effect_ret; vm_compute; reflexivity|].
  eexists. split; [vm_compute; reflexivity|done].
Qed.

(** A task that appears after the script found none is leased by reading and writing: a
    worker that does both in between gets the same token. *)
Example double_lease :
  let s := new_redis demo_clock true in
  let g_scan := effect (redis_enqueue (demo_at None)) in
  let g_write := effect (redis_lease id id id "default" "b" 30) in
  ∃ x y s', (redis_lease id id id "default" "b" 30 (g_scan s)).1 = Ret (Some x) ∧
    redis_lease id g_scan g_write "default" "a" 30 s = (Ret (Some y), s') ∧
    sn_task_id x = sn_task_id y ∧ sn_fencing_token x = sn_fencing_token y ∧
    sn_worker_id x = Some "b" ∧ sn_worker_id y = Some "a".
Proof.
  do 3 eexists. split; [vm_compute; reflexivity|]. split; [apply effect_ret; vm_compute; reflexivity|done].
Qed.

(** A task scheduled for the end of the day is leased at its start by the script, and not
    by the loop. *)
Example scheduled_task_leased_early :
  let s b := effect (redis_enqueue (demo_at (Some 86399000000))) (new_redis demo_clock b) in
  (∃ x, (redis_lease id id id "default" "a" 30 (s true)).1 = Ret (Some x)) ∧
  (redis_lease id id id "default" "a" 30 (s false)).1 = Ret None.
Proof. split; [eexists|]; vm_compute; reflexivity. Qed.


Lemma stale_completion_wins_witness : ∃ t s' t', redis_complete b_takes_over 1 "a" 1 demo_leased = (Ret tt, s') ∧
  dict_get 1 (kr_tasks s') = Some t' ∧ task_view t' = mkTaskView "succeeded" (Some "a") 1 (kt_attempt t) (kt_max_attempts t).
Proof.
  destruct (dict_get 1 (kr_tasks demo_leased)) as [t|] eqn:Ht; [|by vm_compute in Ht]. exists t.
  apply (stale_completion_wins b_takes_over 1 "a" 1 demo_leased t).
  - by vm_compute.
  - exact Ht.
  - by vm_compute.
Defined.
