(* ===== verification/RunGraph.v ===== *)
(** The graph of a run ([run_graph/projector.py]): nodes and edges as the events of the
    run tell them. *)

From stdpp Require Import gmap.
From S2P Require Import Prelude Values Json Streaming.

Record RunGraphNode := mkNode {
  gn_id : Z;
  gn_run_id : Z;
  gn_attempt_id : option Z;
  gn_node_key : string;
  gn_node_type : string;
  gn_name : string;
  gn_status : string;
  gn_latency_ms : value;
  gn_input_ref : value;
  gn_output_ref : value;
  gn_metadata : pydict
}.
#[export] Instance RunGraphNode_eta : Eta RunGraphNode := λ n,
  mkNode (gn_id n) (gn_run_id n) (gn_attempt_id n) (gn_node_key n) (gn_node_type n) (gn_name n) (gn_status n)
    (gn_latency_ms n) (gn_input_ref n) (gn_output_ref n) (gn_metadata n).

Record RunGraphEdge := mkEdge {
  ge_id : Z;
  ge_run_id : Z;
  ge_source_node_key : string;
  ge_target_node_key : string;
  ge_source_node_id : option Z;
  ge_target_node_id : option Z;
  ge_edge_type : string;
  ge_metadata : pydict
}.

Record RunGraph := mkGraph {
  gr_run_id : Z;
  gr_attempt_id : option Z;
  gr_nodes : list RunGraphNode;
  gr_edges : list RunGraphEdge
}.

(** [event_type.endswith(suffix)] *)
Definition ends_with (suffix s : string) : bool :=
  Nat.leb (String.length suffix) (String.length s) &&
  String.eqb (String.substring (String.length s - String.length suffix) (String.length suffix) s) suffix.

Definition _node_type (event_type : string) : string :=
  if starts_with "model." event_type then "model"
  else if starts_with "tool." event_type then "tool"
  else if starts_with "retriever." event_type then "retriever"
  else if starts_with "ranker." event_type then "ranker"
  else if starts_with "generator." event_type then "generator"
  else if starts_with "router." event_type then "router"
  else if starts_with "human" event_type then "human"
  else "custom".

(** The local variables of [project]. Nodes are shared: an assignment to a node is one to
    the entry of its key. *)
Record Projection := mkProjection {
  pj_nodes : dict string RunGraphNode;
  pj_edges : list RunGraphEdge;
  pj_next_node_id : Z;
  pj_next_edge_id : Z
}.
#[export] Instance Projection_eta : Eta Projection := λ p,
  mkProjection (pj_nodes p) (pj_edges p) (pj_next_node_id p) (pj_next_edge_id p).

Section project.
Context (py_str : value → string) (run : Z) (attempt : option Z).

(** [payload.get(key)] *)
Definition field (key : string) (e : AgentEvent) : value := default VNone (dict_get key (ev_payload e)).
(** [str(payload.get(key) or default)] *)
Definition text_or (key : string) (e : AgentEvent) (d : string) : string :=
  if truthy (field key e) then py_str (field key e) else d.

Definition event_key (e : AgentEvent) : string := text_or "node_key" e (ev_type e).
Definition parent_of (e : AgentEvent) : option string :=
  match field "parent_node_key" e with VNone => None | v => Some (py_str v) end.

Definition observed_node (id : Z) (e : AgentEvent) : RunGraphNode :=
  mkNode id run attempt (event_key e) (_node_type (ev_type e)) (text_or "name" e (event_key e))
    (if ends_with ".started" (ev_type e) then "running" else "succeeded") VNone (field "input_ref" e)
    (field "output_ref" e) [("source_event_type", VStr (ev_type e))].
Definition inferred_node (id : Z) (key : string) : RunGraphNode :=
  mkNode id run attempt key "custom" key "observed" VNone VNone VNone [("source_event_type", VStr "inferred.parent")].

(** [nodes.get(key)], or a new node *)
Definition ensure (key : string) (new : Z → RunGraphNode) (p : Projection) : Projection :=
  match dict_get key (pj_nodes p) with
  | Some _ => p
  | None => p <| pj_nodes := dict_set key (new (pj_next_node_id p)) (pj_nodes p) |>
              <| pj_next_node_id := pj_next_node_id p + 1 |>
  end.

Definition complete_node (e : AgentEvent) (n : RunGraphNode) : RunGraphNode :=
  n <| gn_status := "succeeded" |>
    <| gn_output_ref := default (gn_output_ref n) (dict_get "output_ref" (ev_payload e)) |>
    <| gn_latency_ms := default (gn_latency_ms n) (dict_get "latency_ms" (ev_payload e)) |>.
Definition completion (e : AgentEvent) (p : Projection) : Projection :=
  if ends_with ".completed" (ev_type e) then
    match dict_get (event_key e) (pj_nodes p) with
    | Some n => p <| pj_nodes := dict_set (event_key e) (complete_node e n) (pj_nodes p) |>
    | None => p
    end
  else p.

Definition link (parent key : string) (p : Projection) : Projection :=
  p <| pj_edges := pj_edges p ++ [mkEdge (pj_next_edge_id p) run parent key (gn_id <$> dict_get parent (pj_nodes p))
         (gn_id <$> dict_get key (pj_nodes p)) "observed" []] |>
    <| pj_next_edge_id := pj_next_edge_id p + 1 |>.

Definition project_event (p : Projection) (e : AgentEvent) : Projection :=
  let p := completion e (ensure (event_key e) (λ id, observed_node id e) p) in
  match parent_of e with
  | None => p
  | Some parent => link parent (event_key e) (ensure parent (λ id, inferred_node id parent) p)
  end.

Definition projection (events : list AgentEvent) : Projection := foldl project_event (mkProjection [] [] 1 1) events.
Definition project (events : list AgentEvent) : RunGraph :=
  let p := projection events in mkGraph run attempt (dict_values (pj_nodes p)) (pj_edges p).
End project.

(** * Well-formed graphs *)

Section props.
Context (py_str : value → string) (run : Z) (attempt : option Z).
Abbreviation projection := (projection py_str run attempt).
Abbreviation project := (project py_str run attempt).
Abbreviation project_event := (project_event py_str run attempt).
Abbreviation event_key := (event_key py_str).
Abbreviation parent_of := (parent_of py_str).

(** Ids number the nodes and the edges; every node is filed under its key; an edge of the
    run leads from a node to a node. *)
Definition joins (nodes : list RunGraphNode) (e : RunGraphEdge) : Prop :=
  ge_run_id e = run ∧
  (∃ n, n ∈ nodes ∧ gn_node_key n = ge_source_node_key e ∧ ge_source_node_id e = Some (gn_id n)) ∧
  (∃ n, n ∈ nodes ∧ gn_node_key n = ge_target_node_key e ∧ ge_target_node_id e = Some (gn_id n)).

Record well_formed (g : RunGraph) : Prop := mkWellFormed {
  wf_ids : gn_id <$> gr_nodes g = Z.of_nat <$> seq 1 (length (gr_nodes g));
  wf_edge_ids : ge_id <$> gr_edges g = Z.of_nat <$> seq 1 (length (gr_edges g));
  wf_keys : NoDup (gn_node_key <$> gr_nodes g);
  wf_owned : Forall (λ n, gn_run_id n = gr_run_id g ∧ gn_attempt_id n = gr_attempt_id g) (gr_nodes g);
  wf_joins : Forall (joins (gr_nodes g)) (gr_edges g)
}.

(** A projection in progress: every node is filed under its key, the counters are ahead,
    and an edge knows the ids of the nodes of its keys. *)
Definition edge_ok (nodes : dict string RunGraphNode) (e : RunGraphEdge) : Prop :=
  ge_run_id e = run ∧
  (∃ n, dict_get (ge_source_node_key e) nodes = Some n ∧ ge_source_node_id e = Some (gn_id n)) ∧
  (∃ n, dict_get (ge_target_node_key e) nodes = Some n ∧ ge_target_node_id e = Some (gn_id n)).

Record sound (p : Projection) : Prop := mkSound {
  sd_filed : gn_node_key <$> dict_values (pj_nodes p) = dict_keys (pj_nodes p);
  sd_nodup : NoDup (dict_keys (pj_nodes p));
  sd_ids : gn_id <$> dict_values (pj_nodes p) = Z.of_nat <$> seq 1 (length (pj_nodes p));
  sd_next_node : pj_next_node_id p = Z.of_nat (S (length (pj_nodes p)));
  sd_owned : Forall (λ n, gn_run_id n = run ∧ gn_attempt_id n = attempt) (dict_values (pj_nodes p));
  sd_edge_ids : ge_id <$> pj_edges p = Z.of_nat <$> seq 1 (length (pj_edges p));
  sd_next_edge : pj_next_edge_id p = Z.of_nat (S (length (pj_edges p)));
  sd_edges : Forall (edge_ok (pj_nodes p)) (pj_edges p)
}.

Lemma edge_ok_mono nodes nodes' e :
  (∀ k n, dict_get k nodes = Some n → ∃ n', dict_get k nodes' = Some n' ∧ gn_id n' = gn_id n) →
  edge_ok nodes e → edge_ok nodes' e.
Proof.
  intros H (Hr&(n1&H1&E1)&(n2&H2&E2)). destruct (H _ _ H1) as (m1&?&?), (H _ _ H2) as (m2&?&?).
  split; [done|]. split; [exists m1|exists m2]; split; congruence.
Qed.

(** The list of a field is the same when an entry is replaced by one that has it. *)
Lemma values_set {A} (f : RunGraphNode → A) (k : string) n n' d : dict_get k d = Some n → f n' = f n →
  f <$> dict_values (dict_set k n' d) = f <$> dict_values d.
Proof.
  intros Hg Hf. induction d as [|[k' v] d IH]; [done|]. simpl in *. case_decide; simpl.
  - injection Hg as ->. by rewrite Hf.
  - f_equal. by apply IH.
Qed.
Lemma length_set (k : string) (n n' : RunGraphNode) d : dict_get k d = Some n → length (dict_set k n' d) = length d.
Proof. induction d as [|[k' v] d IH]; [done|]. simpl. case_decide; simpl; [done|]. intros Hk. by rewrite IH. Qed.

Lemma sound_ensure k new p : sound p → (∀ id, gn_id (new id) = id ∧ gn_node_key (new id) = k ∧
  gn_run_id (new id) = run ∧ gn_attempt_id (new id) = attempt) → sound (ensure k new p).
Proof.
  intros Hs Hn. unfold ensure. destruct (dict_get k (pj_nodes p)) as [n|] eqn:Hk; [done|]. destruct Hs.
  destruct (Hn (pj_next_node_id p)) as (Hi&Hkey&Hr&Ha). set (n := new (pj_next_node_id p)) in *.
  pose proof (dict_set_fresh k n (pj_nodes p) Hk) as E. split; cbn [pj_nodes pj_edges pj_next_node_id pj_next_edge_id].
  - simpl. rewrite E. unfold dict_values, dict_keys in *. rewrite !fmap_app. simpl. by rewrite sd_filed0, Hkey.
  - simpl. by apply dict_set_nodup.
  - simpl. rewrite E. unfold dict_values in *. rewrite !fmap_app, length_app. simpl.
    rewrite sd_ids0, Nat.add_1_r, seq_S, fmap_app. simpl. by rewrite Hi, sd_next_node0.
  - simpl. rewrite E, length_app. simpl. lia.
  - simpl. rewrite E. unfold dict_values in *. rewrite fmap_app. apply Forall_app. split; [done|]. by repeat constructor.
  - done.
  - done.
  - simpl. eapply Forall_impl; [done|]. intros e. apply edge_ok_mono. intros k' n' Hk'. exists n'.
    rewrite dict_get_set_ne by congruence. done.
Qed.

Lemma sound_completion e p : sound p → sound (completion py_str e p).
Proof.
  intros Hs. unfold completion. destruct (ends_with _ _); [|done].
  destruct (dict_get _ (pj_nodes p)) as [n|] eqn:Hk; [|done]. destruct Hs. split; simpl; try done.
  - rewrite (values_set gn_node_key _ n) by done. rewrite sd_filed0, dict_keys_set. by rewrite decide_True by (by apply dict_get_is_Some).
  - by apply dict_set_nodup.
  - rewrite (values_set gn_id _ n) by done. by rewrite (length_set _ n).
  - by rewrite (length_set _ n).
  - rewrite Forall_forall in *. intros x ([k' n']&->&Hx)%list_elem_of_fmap.
    apply dict_elem_set in Hx as [[-> ->]|Hx]; simpl.
    + apply (sd_owned0 n). apply dict_get_elem in Hk. apply list_elem_of_fmap. by exists (event_key e, n).
    + apply sd_owned0. apply list_elem_of_fmap. by exists (k', n').
  - eapply Forall_impl; [done|]. intros e'. apply edge_ok_mono. intros k' n' Hk'. rewrite dict_get_set.
    case_decide; [|by eexists]. subst. eexists. split; [done|]. rewrite Hk in Hk'. by injection Hk' as ->.
Qed.

Lemma sound_link parent key p : sound p → is_Some (dict_get parent (pj_nodes p)) → is_Some (dict_get key (pj_nodes p)) →
  sound (link run parent key p).
Proof.
  intros [] [n1 H1] [n2 H2]. split; simpl; try done.
  - rewrite fmap_app, length_app. simpl. by rewrite sd_edge_ids0, Nat.add_1_r, seq_S, fmap_app, sd_next_edge0.
  - rewrite length_app. simpl. lia.
  - apply Forall_app. split; [done|]. constructor; [|done]. rewrite H1, H2. repeat split; eauto.
Qed.

Lemma keys_ensure k new p k' : k' ∈ dict_keys (pj_nodes (ensure k new p)) ↔ k' = k ∨ k' ∈ dict_keys (pj_nodes p).
Proof.
  unfold ensure. destruct (dict_get k (pj_nodes p)) as [n|] eqn:Hk.
  - assert (k ∈ dict_keys (pj_nodes p)) by (apply dict_get_is_Some; by eexists). naive_solver.
  - simpl. rewrite dict_keys_set, decide_False by (by apply dict_get_None). rewrite elem_of_app, list_elem_of_singleton.
    naive_solver.
Qed.
Lemma keys_completion e p : dict_keys (pj_nodes (completion py_str e p)) = dict_keys (pj_nodes p).
Proof.
  unfold completion. destruct (ends_with _ _); [|done]. destruct (dict_get _ (pj_nodes p)) as [n|] eqn:Hk; [|done].
  simpl. rewrite dict_keys_set, decide_True; [done|]. apply dict_get_is_Some. by eexists.
Qed.
Lemma edges_ensure k new p : pj_edges (ensure k new p) = pj_edges p.
Proof. unfold ensure. by destruct (dict_get k (pj_nodes p)). Qed.
Lemma edges_completion e p : pj_edges (completion py_str e p) = pj_edges p.
Proof. unfold completion. destruct (ends_with _ _); [|done]. by destruct (dict_get _ (pj_nodes p)). Qed.

(** What an event tells: its node, and the node it came from. *)
Definition mentions (e : AgentEvent) (k : string) : Prop := event_key e = k ∨ parent_of e = Some k.
Definition told_edge (e : AgentEvent) : option (string * string) := (λ parent, (parent, event_key e)) <$> parent_of e.
Definition ends (e : RunGraphEdge) : string * string := (ge_source_node_key e, ge_target_node_key e).

Lemma project_event_sound p e : sound p → sound (project_event p e).
Proof.
  intros Hs. unfold RunGraph.project_event.
  assert (sound (completion py_str e (ensure (event_key e) (λ id, observed_node py_str run attempt id e) p))) as H1.
  { apply sound_completion. by apply sound_ensure. }
  destruct (parent_of e) as [parent|]; [|done]. apply sound_link; [by apply sound_ensure|..]; apply dict_get_is_Some, keys_ensure.
  - by left.
  - right. rewrite keys_completion. apply keys_ensure. by left.
Qed.

Lemma project_event_keys p e k :
  k ∈ dict_keys (pj_nodes (project_event p e)) ↔ mentions e k ∨ k ∈ dict_keys (pj_nodes p).
Proof.
  unfold RunGraph.project_event, mentions. destruct (parent_of e) as [parent|]; simpl;
    rewrite ?keys_ensure, keys_completion, keys_ensure; naive_solver.
Qed.

Lemma project_event_edges p e : ends <$> pj_edges (project_event p e) = (ends <$> pj_edges p) ++ option_list (told_edge e).
Proof.
  unfold RunGraph.project_event, told_edge. destruct (parent_of e) as [parent|]; simpl.
  - by rewrite fmap_app, edges_ensure, edges_completion, edges_ensure.
  - by rewrite edges_completion, edges_ensure, app_nil_r.
Qed.

Lemma projection_spec events : sound (projection events) ∧
  (∀ k, k ∈ dict_keys (pj_nodes (projection events)) ↔ ∃ e, e ∈ events ∧ mentions e k) ∧
  ends <$> pj_edges (projection events) = omap told_edge events.
Proof.
  induction events as [|e events (Hs&Hk&He)] using rev_ind.
  - split; [split; simpl; try done; constructor|]. split; [|done]. intros k. split; [by intros ?%elem_of_nil|]. by intros (e&?%elem_of_nil&_).
  - unfold RunGraph.projection in *. rewrite foldl_app. simpl. split; [by apply project_event_sound|]. split.
    + intros k. rewrite project_event_keys, Hk. setoid_rewrite elem_of_app. setoid_rewrite list_elem_of_singleton. naive_solver.
    + rewrite project_event_edges, He, omap_app. simpl. by destruct (told_edge e).
Qed.

Lemma filed_key (d : dict string RunGraphNode) k n :
  gn_node_key <$> dict_values d = dict_keys d → (k, n) ∈ d → gn_node_key n = k.
Proof.
  induction d as [|[k' n'] d IH]; [by intros _ ?%elem_of_nil|]. intros [= Hk Hd] [[= -> ->]|H]%elem_of_cons; auto.
Qed.

(** C31: The graph projected from any events is well formed: nodes and edges are numbered,
    no two nodes have the same key, every edge joins two nodes of the graph by their keys and
    ids; the nodes are those the events mention and the edges the links they tell, in order. *)
Theorem project_correct events : let g := project events in
  well_formed g ∧
  (∀ k, k ∈ gn_node_key <$> gr_nodes g ↔ ∃ e, e ∈ events ∧ mentions e k) ∧
  ends <$> gr_edges g = omap told_edge events.
Proof.
  destruct (projection_spec events) as (Hs&Hk&He). destruct Hs. split; [|split; [|exact He]].
  - unfold RunGraph.project. split; simpl.
    + unfold dict_values in *. by rewrite length_fmap.
    + done.
    + by rewrite sd_filed0.
    + done.
    + eapply Forall_impl; [done|]. intros e (Hr&(n1&H1&E1)&(n2&H2&E2)).
      assert (∀ k n, dict_get k (pj_nodes (projection events)) = Some n →
        n ∈ dict_values (pj_nodes (projection events)) ∧ gn_node_key n = k) as Hn.
      { intros k n Hg. apply dict_get_elem in Hg. split; [apply list_elem_of_fmap; by exists (k, n)|].
        by eapply filed_key. }
      split; [done|]. apply Hn in H1 as [? ?]. apply Hn in H2 as [? ?]. split; eauto.
  - intros k. simpl. by rewrite sd_filed0, Hk.
Qed.
End props.

(** ** Example

    A step that failed is shown as succeeded: only [.started] and [.completed] count. *)
Definition demo_event (type : string) (payload : pydict) : AgentEvent :=
  mkAgentEvent type payload (Some 1) None None None None 0 "public".

Example failed_step_succeeded :
  (λ n, (gn_node_key n, gn_status n)) <$> gr_nodes (project (λ _, "") 1 None
    [demo_event "tool.started" [("node_key", VStr "")];
     demo_event "tool.failed" [("parent_node_key", VStr "")]]) =
  [("tool.started", "running"); ("tool.failed", "succeeded"); ("", "observed")].
Proof. vm_compute. reflexivity. Qed.
