(* ===== verification/Executor.v ===== *)
(** The worker: [worker/executor.py]. The executor is modelled over the interfaces of the task backend and the run
    store, and its theorems are proved from what those promise. *)

From stdpp Require Import relations.
From S2P Require Import Prelude Values Json StateMachine InMemory Streaming RunStore RuntimeLaws Context.

(** * Specifications, adapters and the executor's state *)

Record AgentRuntimeSpec := mkSpec {
  sp_adapter : string;
  sp_package_uri : string;
  sp_manifest : pydict;
  sp_runtime_config : pydict;
  sp_secrets : option (dict string string);
  sp_metadata : option pydict
}.

Record WorkerExecutionResult := mkExecutionResult {
  er_task_id : Z;
  er_run_id : Z;
  er_attempt_id : Z;
  er_status : string
}.

(** [_runtime_environment] *)
Definition _runtime_environment (config : pydict) : option string :=
  match dict_get "environment" config with
  | Some (VStr s) => if String.eqb s "" then None else Some s
  | _ => None
  end.

Section executor.
Context {B R Agent : Type} `{!RuntimeTaskBackend B, !RuntimeRunStore R}.

(** Python's [str(exc)] and [exc.__class__.__name__], [uuid4().hex] and whether
    [float(s)] is defined and positive for a string [s]. *)
Context (exn_str exn_class : exn → string) (uuid : string) (float_positive : string → option bool).

(** The services the worker shares with the rest of the system, and the clock:
    [wo_time i] is the [i]-th reading of [datetime.now]. *)
Record World := mkWorld {
  wo_backend : B;
  wo_runs : R;
  wo_replay : ReplayBuffer;
  wo_time : nat → Z;
  wo_ticks : nat
}.
#[export] Instance World_eta : Eta World := λ w,
  mkWorld (wo_backend w) (wo_runs w) (wo_replay w) (wo_time w) (wo_ticks w).

(** The stream of [adapter.stream]: each [__anext__] awaits the next event and
    may let the rest of the system run, or raise. *)
Record AgentStream := mkStream {
  st_next : list (M World AgentEvent);
  st_end : M World unit
}.

(** An [AgentAdapter]: every call awaits foreign code, during which other
    workers, the reaper and the API may change the shared services. A timeout of
    [asyncio.wait_for] surfaces as a [TimeoutError] of the call it interrupts. *)
Record AgentAdapter := mkAdapter {
  ad_framework : option string;
  ad_load : string → pydict → pydict → M World Agent;
  ad_invoke : Agent → pydict → RuntimeContext → M World AgentResult;
  ad_stream : Agent → pydict → RuntimeContext → M World AgentStream;
  ad_cancel : Z → RuntimeContext → M World unit
}.

(** The constructor arguments of [WorkerExecutor] that never change. *)
Record ExecutorConfig := mkExecutorConfig {
  ec_worker_id : string;
  ec_adapters : dict string AgentAdapter;
  ec_agent_specs : dict Z AgentRuntimeSpec;
  ec_runtime_spec_resolver : option (RuntimeRun → M World AgentRuntimeSpec);
  ec_governance_bundle_factory :
    option (RuntimeRun → RuntimeContext → pydict → M World (option RuntimeGovernanceBundle))
}.

Record WorkerExecutor := mkExecutor {
  we_world : World;
  _active_task_id : option Z;
  _active_worker_id : option string;
  _active_fencing_token : option Z;
  _active_context : option RuntimeContext
}.
#[export] Instance WorkerExecutor_eta : Eta WorkerExecutor := λ e,
  mkExecutor (we_world e) (_active_task_id e) (_active_worker_id e) (_active_fencing_token e)
    (_active_context e).

Definition in_world {A} (m : M World A) : M WorkerExecutor A :=
  zoom we_world (λ w e, e <| we_world := w |>) m.
Definition backend {A} (m : M B A) : M WorkerExecutor A :=
  in_world (zoom wo_backend (λ b w, w <| wo_backend := b |>) m).
Definition run_store {A} (m : M R A) : M WorkerExecutor A :=
  in_world (zoom wo_runs (λ r w, w <| wo_runs := r |>) m).
Definition replay_buffer {A} (m : M ReplayBuffer A) : M WorkerExecutor A :=
  in_world (zoom wo_replay (λ r w, w <| wo_replay := r |>) m).

(** [datetime.now(UTC)] *)
Definition tick : M WorkerExecutor Z :=
  in_world (λ w, (Ret (wo_time w (wo_ticks w)), w <| wo_ticks := S (wo_ticks w) |>)).

Context (cfg : ExecutorConfig).

(** * Methods *)

Definition _assert_active_fencing : M WorkerExecutor unit :=
  e ← get_state;
  match _active_task_id e, _active_worker_id e, _active_fencing_token e with
  | Some t, Some w, Some tok => backend (tb_assert_can_complete t w tok)
  | _, _, _ => mret tt
  end.

Definition _clear_active_lease : M WorkerExecutor unit :=
  modify (λ e, e <| _active_task_id := None |>) ;;
  modify (λ e, e <| _active_worker_id := None |>) ;;
  modify (λ e, e <| _active_fencing_token := None |>) ;;
  modify (λ e, e <| _active_context := None |>).

Definition _append (run_id attempt_id : Z) (event : AgentEvent) : M WorkerExecutor AgentEvent :=
  _assert_active_fencing ;;
  e ← get_state;
  let payload := match _active_context e with
    | Some c => attach_trace_fields (ev_payload event)
                  (trace_context_from_runtime uuid c (ec_worker_id cfg))
    | None => ev_payload event
    end in
  now ← tick;
  replay_buffer (append run_id (Some attempt_id) (post_init
    (mkAgentEvent (ev_type event) payload (ev_run_id event) (ev_attempt_id event)
       (ev_sequence event) (ev_event_id event) (ev_framework event) now
       (ev_visibility_level event)))).

(** [self._append(run_id, attempt_id, AgentEvent(type=..., payload=...))] *)
Definition emit (run_id attempt_id : Z) (type : string) (payload : pydict) : M WorkerExecutor unit :=
  now ← tick;
  _append run_id attempt_id (new_event now type payload) ;;
  mret tt.

Definition _agent_spec (agent_version_id : Z) : M WorkerExecutor AgentRuntimeSpec :=
  of_option (dict_get agent_version_id (ec_agent_specs cfg))
    (RuntimeError "worker_agent_version_not_found").

Definition _agent_spec_for_run (run : RuntimeRun) : M WorkerExecutor AgentRuntimeSpec :=
  match ec_runtime_spec_resolver cfg with
  | Some resolver => in_world (resolver run)
  | None => _agent_spec (rr_agent_version_id run)
  end.

Definition _adapter (name : string) : M WorkerExecutor AgentAdapter :=
  of_option (dict_get name (ec_adapters cfg)) (RuntimeError "worker_adapter_not_found").

Definition _governance_bundle (run : RuntimeRun) (c : RuntimeContext) (config : pydict)
  : M WorkerExecutor (option RuntimeGovernanceBundle) :=
  match ec_governance_bundle_factory cfg with
  | None => mret None
  | Some f => in_world (f run c config)
  end.

Fixpoint append_all (run_id attempt_id : Z) (events : list AgentEvent) : M WorkerExecutor unit :=
  match events with
  | [] => mret tt
  | event :: events' => _append run_id attempt_id event ;; append_all run_id attempt_id events'
  end.

Fixpoint append_stream (run_id attempt_id : Z) (next : list (M World AgentEvent))
  : M WorkerExecutor unit :=
  match next with
  | [] => mret tt
  | m :: next' =>
      event ← in_world m;
      _append run_id attempt_id event ;;
      append_stream run_id attempt_id next'
  end.

Definition _execute_agent (adapter : AgentAdapter) (agent : Agent) (leased : Snapshot)
    (c : RuntimeContext) (attempt_id : Z) : M WorkerExecutor AgentResult :=
  if negb (bool_decide (rq_execution_mode (sn_payload leased) = Some "stream")) then
    result ← in_world (ad_invoke adapter agent (rq_input_data (sn_payload leased)) c);
    append_all (cx_run_id c) attempt_id (ar_events result) ;;
    mret result
  else
    stream ← in_world (ad_stream adapter agent (rq_input_data (sn_payload leased)) c);
    append_stream (cx_run_id c) attempt_id (st_next stream) ;;
    in_world (st_end stream) ;;
    mret (mkAgentResult [("streamed", VBool true)] [] []).

(** [float(timeout_seconds)]: whether the timeout is positive. *)
Definition float_of (v : value) : M WorkerExecutor bool :=
  match v with
  | VInt z => if Z.abs z <? 2 ^ 1024 - 2 ^ 970 then mret (0 <? z)
              else raise (AgentError "OverflowError" "int too large to convert to float")
  | VBool b => mret b
  | VStr s => of_option (float_positive s) (ValueError ("could not convert string to float: " +:+ s))
  | _ => raise (TypeError "float() argument must be a string or a real number")
  end.

(** [await execution], under [asyncio.wait_for] when a timeout is configured: a
    timeout that is not positive expires before the coroutine starts. *)
Definition await_execution (timeout_seconds : value) (execution : M WorkerExecutor AgentResult)
  : M WorkerExecutor AgentResult :=
  match timeout_seconds with
  | VNone => execution
  | v =>
      positive ← float_of v;
      if (positive : bool) then execution else raise TimeoutError
  end.

(** [a or b] on values. *)
Definition or_value (a b : value) : value := if truthy a then a else b.
Definition get_value (k : string) (d : pydict) : value := default VNone (dict_get k d).

(** The context built before the governance bundle is known. *)
Definition first_context (run : RuntimeRun) (task_id : Z) (config : pydict) (adapter : AgentAdapter)
    (spec : AgentRuntimeSpec) : RuntimeContext :=
  mkRuntimeContext (rr_tenant_id run) (Some (rr_project_id run)) (rr_run_id run) (Some task_id)
    (rr_agent_id run) (rr_agent_version_id run) (rr_deployment_id run) None None (rr_thread_id run)
    None None None None None None (_runtime_environment config)
    (Some (default (sp_adapter spec) (ad_framework adapter))) (Some (sp_adapter spec)) None None
    [] [] [] [].

(** The context the agent runs in. *)
Definition full_context (c : RuntimeContext) (trace : RuntimeTraceContext) (attempt_id : Z)
    (config : pydict) (spec : AgentRuntimeSpec) : RuntimeContext :=
  c <| cx_request_id := Some (tr_request_id trace) |>
    <| cx_attempt_id := Some attempt_id |>
    <| cx_trace_id := Some (tr_trace_id trace) |>
    <| cx_correlation_id := Some (tr_correlation_id trace) |>
    <| cx_environment := _runtime_environment config |>
    <| cx_secrets := default [] (sp_secrets spec) |>
    <| cx_config := config |>
    <| cx_metadata := dict_merge [("worker_id", VStr (ec_worker_id cfg))]
         (default [] (sp_metadata spec)) |>.

(** The [try] block of [execute_once]. *)
Definition try_block (leased : Snapshot) (attempt : RuntimeAttempt) : M WorkerExecutor AgentResult :=
  run ← run_store (rs_get_run (sn_run_id leased));
  spec ← _agent_spec_for_run run;
  adapter ← _adapter (sp_adapter spec);
  let config := dict_merge (sp_runtime_config spec)
    (default [] (rq_override_config (sn_payload leased))) in
  let c := first_context run (sn_task_id leased) config adapter spec in
  bundle ← _governance_bundle run c config;
  let config := match bundle with Some g => apply g config | None => config end in
  let trace := trace_context_from_runtime uuid c (ec_worker_id cfg) in
  let c := full_context c trace (ra_attempt_id attempt) config spec in
  modify (λ e, e <| _active_context := Some c |>) ;;
  agent ← in_world (ad_load adapter (sp_package_uri spec) (sp_manifest spec) config);
  let timeout_seconds := or_value (get_value "timeout_seconds" config) (get_value "timeout" config) in
  await_execution timeout_seconds (_execute_agent adapter agent leased c (ra_attempt_id attempt)).

(** The two exception handlers of [execute_once]: [kind] is "timeout" or
    "failed". *)
Definition handle_failure (kind : string) (error : pydict) (leased : Snapshot)
    (attempt : RuntimeAttempt) : M WorkerExecutor WorkerExecutionResult :=
  let run_id := sn_run_id leased in
  let task_id := sn_task_id leased in
  let attempt_id := ra_attempt_id attempt in
  _assert_active_fencing ;;
  now ← tick;
  run_store (if bool_decide (kind = "timeout") then rs_timeout_attempt now attempt_id error
             else rs_fail_attempt now attempt_id error) ;;
  emit run_id attempt_id ("attempt." +:+ kind) error ;;
  will_retry ← backend (tb_will_retry task_id);
  (if (will_retry : bool) then emit run_id attempt_id "task.retrying" error
   else
     run_store (if bool_decide (kind = "timeout") then rs_timeout_run run_id error
                else rs_fail_run run_id error) ;;
     emit run_id attempt_id ("run." +:+ kind) error ;;
     emit run_id attempt_id "stream.failed" error) ;;
  backend (tb_fail task_id (ec_worker_id cfg) (sn_fencing_token leased) error) ;;
  _clear_active_lease ;;
  mret (mkExecutionResult task_id run_id attempt_id kind).

Definition timeout_error : pydict :=
  [("message", VStr "run timed out"); ("type", VStr (exn_class TimeoutError));
   ("error_code", VStr "runtime_timeout")].
Definition failure_error (exc : exn) : pydict :=
  [("message", VStr (exn_str exc)); ("type", VStr (exn_class exc))].

(** The code after the [try] statement. *)
Definition handle_success (result : AgentResult) (leased : Snapshot) (attempt : RuntimeAttempt)
  : M WorkerExecutor WorkerExecutionResult :=
  let run_id := sn_run_id leased in
  let task_id := sn_task_id leased in
  let attempt_id := ra_attempt_id attempt in
  _assert_active_fencing ;;
  run_store (rs_complete_run run_id (ar_output result)) ;;
  now ← tick;
  run_store (rs_complete_attempt now attempt_id) ;;
  emit run_id attempt_id "run.completed" [("output", VDict (ar_output result))] ;;
  emit run_id attempt_id "stream.completed" [] ;;
  backend (tb_complete task_id (ec_worker_id cfg) (sn_fencing_token leased)) ;;
  _clear_active_lease ;;
  mret (mkExecutionResult task_id run_id attempt_id "succeeded").

Definition settle (r : outcome AgentResult) (leased : Snapshot) (attempt : RuntimeAttempt)
  : M WorkerExecutor WorkerExecutionResult :=
  match r with
  | Raise (StaleFencingTokenError id) => _clear_active_lease ;; raise (StaleFencingTokenError id)
  | Raise TimeoutError => handle_failure "timeout" timeout_error leased attempt
  | Raise exc => handle_failure "failed" (failure_error exc) leased attempt
  | Ret result => handle_success result leased attempt
  end.

(** The part of [execute_once] before the [try] statement. *)
Definition begin_attempt (leased : Snapshot) : M WorkerExecutor RuntimeAttempt :=
  let task_id := sn_task_id leased in
  backend (tb_mark_running task_id (ec_worker_id cfg) (sn_fencing_token leased)) ;;
  modify (λ e, e <| _active_task_id := Some task_id |>) ;;
  modify (λ e, e <| _active_worker_id := Some (ec_worker_id cfg) |>) ;;
  modify (λ e, e <| _active_fencing_token := Some (sn_fencing_token leased) |>) ;;
  now ← tick;
  attempt ← run_store (rs_create_attempt now (sn_run_id leased) task_id (ec_worker_id cfg));
  emit (sn_run_id leased) (ra_attempt_id attempt) "attempt.started" [] ;;
  mret attempt.

Definition execute_once (queue : string) (lease_seconds : Z)
  : M WorkerExecutor (option WorkerExecutionResult) :=
  now ← tick;
  now_reap ← tick;
  leased ← backend (tb_lease now now_reap queue (ec_worker_id cfg) lease_seconds);
  match leased with
  | None => mret None
  | Some leased =>
      attempt ← begin_attempt leased;
      r ← catch (try_block leased attempt);
      res ← settle r leased attempt;
      mret (Some res)
  end.

(** [WorkerExecutor.cancel_run] *)
Definition executor_cancel_run (run_id : Z) (task_id : option Z) : M WorkerExecutor string :=
  run ← run_store (rs_get_run run_id);
  spec ← _agent_spec_for_run run;
  adapter ← of_option (dict_get (sp_adapter spec) (ec_adapters cfg)) (KeyError (sp_adapter spec));
  let c := (first_context run 0 [] adapter spec) <| cx_task_id := task_id |> in
  status ← try_except (in_world (ad_cancel adapter run_id c) ;; mret "adapter_cancelled")
    (λ e, match e with
          | CapabilityNotSupportedError _ => mret "best_effort"
          | _ => raise e
          end);
  let trace := trace_context_from_runtime uuid c (ec_worker_id cfg) in
  now ← tick;
  replay_buffer (append run_id None (new_event now "run.cancel_requested"
    (attach_trace_fields [("status", VStr status); ("task_id", of_int_opt task_id)] trace))) ;;
  mret status.
End executor.
Arguments World : clear implicits.
Arguments AgentAdapter : clear implicits.
Arguments AgentStream : clear implicits.
Arguments ExecutorConfig : clear implicits.
Arguments WorkerExecutor : clear implicits.

(** * What an execution guarantees *)

Section executor_theorems.
Context {B R Agent : Type}.
Context `{!RuntimeTaskBackend B, !RuntimeRunStore R, !TaskBackendLaws B, !RunStoreLaws R}.
Context (exn_str exn_class : exn → string) (uuid : string) (float_positive : string → option bool).
Context (cfg : ExecutorConfig B R Agent).

(** Only the replay buffer and the clock moved. *)
Definition quiet (e e' : WorkerExecutor B R) : Prop :=
  wo_backend (we_world e') = wo_backend (we_world e) ∧ wo_runs (we_world e') = wo_runs (we_world e) ∧
  _active_task_id e' = _active_task_id e ∧ _active_worker_id e' = _active_worker_id e ∧
  _active_fencing_token e' = _active_fencing_token e ∧ _active_context e' = _active_context e.

#[local] Instance quiet_preorder : PreOrder quiet.
Proof.
  unfold quiet. split; [by intros e|]. intros e1 e2 e3 H1 H2. destruct_and!. split_and!; congruence.
Qed.

Lemma fencing_unchanged (e : WorkerExecutor B R) : (_assert_active_fencing e).2 = e.
Proof.
  unfold _assert_active_fencing, mbind, M_bind, get_state, backend, in_world, zoom.
  destruct (_active_task_id e) as [t|], (_active_worker_id e) as [w|], (_active_fencing_token e) as [tok|];
    try done.
  destruct (tb_assert_can_complete t w tok (wo_backend (we_world e))) as [r b'] eqn:E.
  apply tb_can_complete_law in E as [-> _]. by destruct e as [[]].
Qed.

Lemma tick_quiet (e : WorkerExecutor B R) : quiet e (tick e).2.
Proof. by split_and!. Qed.

Lemma append_quiet run att ev : respects quiet (_append uuid cfg run att ev).
Proof.
  unfold _append. apply respects_bind; [apply _| |intros _].
  { intros e. by rewrite fencing_unchanged. }
  apply respects_bind; [apply _|auto with respects|]. intros e0.
  apply respects_bind; [apply _|exact tick_quiet|]. intros now e.
  unfold replay_buffer, in_world, zoom. destruct (append _ _ _ _) as [r b]. by split_and!.
Qed.

Lemma emit_quiet run att ty p : respects quiet (emit uuid cfg run att ty p).
Proof.
  unfold emit. apply respects_bind; [apply _|exact tick_quiet|]. intros now.
  apply respects_bind; [apply _|apply append_quiet|]. auto with respects.
Qed.

Lemma backend_inv {A} (m : M B A) (e : WorkerExecutor B R) r e' :
  backend m e = (r, e') → ∃ b', m (wo_backend (we_world e)) = (r, b') ∧
    wo_backend (we_world e') = b' ∧ wo_runs (we_world e') = wo_runs (we_world e).
Proof.
  unfold backend, in_world. intros (w&(b&Hm&->)%zoom_inv&->)%zoom_inv. by exists b.
Qed.

Lemma run_store_inv {A} (m : M R A) (e : WorkerExecutor B R) r e' :
  run_store m e = (r, e') → ∃ s', m (wo_runs (we_world e)) = (r, s') ∧
    wo_runs (we_world e') = s' ∧ wo_backend (we_world e') = wo_backend (we_world e).
Proof.
  unfold run_store, in_world. intros (w&(b&Hm&->)%zoom_inv&->)%zoom_inv. by exists b.
Qed.

Lemma emit_inv run att ty p e r e' : emit uuid cfg run att ty p e = (r, e') →
  wo_backend (we_world e') = wo_backend (we_world e) ∧ wo_runs (we_world e') = wo_runs (we_world e).
Proof.
  intros H. pose proof (emit_quiet run att ty p e) as Hq. rewrite H in Hq. by destruct Hq as (?&?&_).
Qed.

Lemma tick_inv (e : WorkerExecutor B R) r e' : tick e = (r, e') →
  wo_backend (we_world e') = wo_backend (we_world e) ∧ wo_runs (we_world e') = wo_runs (we_world e).
Proof. intros H. pose proof (tick_quiet e) as Hq. rewrite H in Hq. by destruct Hq as (?&?&_). Qed.

(** Names the states a run of [H] goes through, statement by statement. *)
Ltac m_steps H :=
  repeat match type of H with
  | (mbind _ _) _ = (Ret _, _) =>
      let x := fresh "x" in let e := fresh "e" in let Hx := fresh "Hx" in
      apply bind_ret_inv in H as (x&e&Hx&H)
  end.
Ltac m_facts :=
  repeat match goal with
  | H : tick _ = _ |- _ => apply tick_inv in H as [? ?]
  | H : emit _ _ _ _ _ _ _ = _ |- _ => apply emit_inv in H as [? ?]
  | H : run_store _ _ = _ |- _ => apply run_store_inv in H as (?&?&?&?)
  | H : backend _ _ = _ |- _ => apply backend_inv in H as (?&?&?&?)
  | H : _assert_active_fencing ?e = (_, ?e') |- _ =>
      let Hf := fresh in pose proof (fencing_unchanged e) as Hf; rewrite H in Hf; simpl in Hf;
      subst e'; clear H
  | H : _clear_active_lease ?e = (_, ?e') |- _ => injection H as _ <-
  end.

(** How a reported execution leaves its task, run and attempt. *)
Definition settled (w : World B R) (res : WorkerExecutionResult) : Prop :=
  ∃ v a, tb_view (wo_backend w) (er_task_id res) = Some v ∧
    rs_attempt (wo_runs w) (er_attempt_id res) = Some a ∧ ra_status a = er_status res ∧
    ((er_status res = "succeeded" ∧ tv_status v = "succeeded" ∧
        ∃ r, rs_run (wo_runs w) (er_run_id res) = Some r ∧ rr_status r = "succeeded") ∨
     ((er_status res = "timeout" ∨ er_status res = "failed") ∧
        ((tv_status v = "dead_letter" ∧
            ∃ r, rs_run (wo_runs w) (er_run_id res) = Some r ∧ rr_status r = er_status res) ∨
         (tv_status v = "queued" ∧ tv_worker v = None ∧ tv_attempt v < tv_max_attempts v)))).

Definition lease_cleared (e : WorkerExecutor B R) : Prop :=
  _active_task_id e = None ∧ _active_worker_id e = None ∧ _active_fencing_token e = None ∧
  _active_context e = None.

Lemma success_settles result sn att e res e' :
  handle_success uuid cfg result sn att e = (Ret res, e') → settled (we_world e') res ∧ lease_cleared e'.
Proof.
  unfold handle_success. intros H. m_steps H. injection H as <- <-. m_facts. simplify_eq/=.
  repeat match goal with x : () |- _ => destruct x end.
  edestruct rs_complete_run_law as [(r&Hr&Hs&_) Ha]; [eassumption|].
  edestruct rs_complete_attempt_law as [(a&Hatt&Has) Hrr]; [eassumption|].
  edestruct tb_complete_law as (v&_&_&_&Hv); [eassumption|].
  split; [|by split_and!]. exists (v <| tv_status := "succeeded" |>), a. simpl in *.
  split_and!; [congruence..|]. left. split_and!; [done..|]. exists r. split; congruence.
Qed.

(** The first half of the handlers: the attempt is closed with the error. *)
Lemma finish_attempt_kind kind now id err (s s' : R) :
  kind = "timeout" ∨ kind = "failed" →
  (if bool_decide (kind = "timeout") then rs_timeout_attempt now id err
   else rs_fail_attempt now id err) s = (Ret tt, s') →
  (∃ a, rs_attempt s' id = Some a ∧ ra_status a = kind) ∧ rs_run s' = rs_run s.
Proof.
  intros [->| ->]; simpl.
  - intros [(a&?&?&_) ?]%rs_timeout_attempt_law. by eauto.
  - intros [(a&?&?&_) ?]%rs_fail_attempt_law. by eauto.
Qed.

Lemma finish_run_kind kind id err (s s' : R) :
  kind = "timeout" ∨ kind = "failed" →
  (if bool_decide (kind = "timeout") then rs_timeout_run id err else rs_fail_run id err) s
    = (Ret tt, s') →
  (∃ r, rs_run s' id = Some r ∧ rr_status r = kind) ∧ rs_attempt s' = rs_attempt s.
Proof.
  intros [->| ->]; simpl.
  - intros [(a&?&?&_) ?]%rs_timeout_run_law. by eauto.
  - intros [(a&?&?&_) ?]%rs_fail_run_law. by eauto.
Qed.

Lemma failure_settles kind err sn att e res e' :
  kind = "timeout" ∨ kind = "failed" →
  handle_failure uuid cfg kind err sn att e = (Ret res, e') →
  settled (we_world e') res ∧ lease_cleared e'.
Proof.
  intros Hk. unfold handle_failure. intros H. m_steps H. injection H as <- <-.
  destruct x3; m_steps Hx4; m_facts; repeat match goal with x : () |- _ => destruct x end;
    match goal with H : _ = (Ret (), ?s') |- _ =>
      apply (finish_attempt_kind _ _ _ _ _ s' Hk) in H as [(a&Hatt&Has) Hrr] end;
    match goal with H : tb_will_retry _ _ = _ |- _ =>
      apply tb_will_retry_law in H as (Hsame&v&Hv&Hret) end;
    match goal with H : tb_fail _ _ _ _ _ = _ |- _ =>
      apply tb_fail_law in H as (v'&Hv'&_&Hafter) end.
  - assert (v' = v) as -> by (simpl in *; congruence).
    split; [|by split_and!]. exists (after_failure v), a. simpl in *.
    split_and!; [congruence|congruence|done|]. right. split; [done|]. right.
    unfold after_failure. rewrite <-Hret. simpl. symmetry in Hret. split_and!; [done..|]. blia.
  - match goal with H : _ = (Ret (), ?s') |- _ =>
      apply (finish_run_kind _ _ _ _ s' Hk) in H as [(r&Hr&Hrs) Haa] end.
    assert (v' = v) as -> by (simpl in *; congruence).
    split; [|by split_and!]. exists (after_failure v), a. simpl in *.
    split_and!; [congruence|congruence|done|]. right. split; [done|]. left.
    unfold after_failure. rewrite <-Hret. simpl. split; [done|]. exists r. split; congruence.
Qed.

Lemma settle_settles r sn att e res e' :
  settle exn_str exn_class uuid cfg r sn att e = (Ret res, e') →
  settled (we_world e') res ∧ lease_cleared e'.
Proof.
  destruct r as [result|exc]; [apply success_settles|]. unfold settle.
  destruct exc; try (apply failure_settles; by auto); done.
Qed.

(** C2: whenever [execute_once] reports a result, whatever the agent did, however
    the services changed while it ran, and for any task backend and run store that
    keep their interface's promises: the attempt carries the reported status; a
    success leaves the run and the task succeeded; a failure or timeout leaves
    either the task dead-lettered and the run with the same final status, or, when
    attempts remain, the task queued again without a worker; and the worker holds
    no lease. *)
Theorem execute_once_settles queue lease_seconds (e e' : WorkerExecutor B R) (res : WorkerExecutionResult)
    (Hrun : execute_once exn_str exn_class uuid float_positive cfg queue lease_seconds e
            = (Ret (Some res), e')) :
  settled (we_world e') res ∧ lease_cleared e'.
Proof.
  unfold execute_once in Hrun. m_steps Hrun. destruct x1 as [sn|]; [|done].
  m_steps Hrun. injection Hrun as -> ->. by eapply settle_settles.
Qed.

(** C3: a worker whose lease was taken over, expired and was handed out again, or
    whose task is gone, can no longer change anything: when the fencing check
    fails at the moment the agent's result, failure or timeout comes in, the
    executor raises the backend's error and the task, the run, the attempt and
    the event log are exactly as they were. *)
Theorem fenced_worker_writes_nothing (r : outcome AgentResult) sn att (e : WorkerExecutor B R)
    (task tok : Z) (w : string) (err : exn) (b' : B)
    (Hactive : _active_task_id e = Some task ∧ _active_worker_id e = Some w ∧
               _active_fencing_token e = Some tok)
    (Hstale : tb_assert_can_complete task w tok (wo_backend (we_world e)) = (Raise err, b'))
    (Hr : ∀ id, r ≠ Raise (StaleFencingTokenError id)) :
  settle exn_str exn_class uuid cfg r sn att e = (Raise err, e).
Proof.
  destruct Hactive as (H1&H2&H3).
  assert (_assert_active_fencing e = (Raise err, e)) as Hf.
  { rewrite (surjective_pairing (_assert_active_fencing e)), fencing_unchanged. f_equal.
    unfold _assert_active_fencing, mbind, M_bind, get_state. rewrite H1, H2, H3.
    unfold backend, in_world, zoom. by rewrite Hstale. }
  destruct r as [result|exc]; [|unfold settle; destruct exc; try (exfalso; by eapply Hr)];
    unfold settle, handle_success, handle_failure, mbind, M_bind; by rewrite Hf.
Qed.
End executor_theorems.

(** * Concrete executions on the in-process services *)

Definition DemoWorld : Type := World InMemoryTaskBackend InMemoryRunStore.
Definition DemoExecutor : Type := WorkerExecutor InMemoryTaskBackend InMemoryRunStore.
Definition DemoAdapter : Type := AgentAdapter InMemoryTaskBackend InMemoryRunStore ().

(** An agent that echoes its input. *)
Definition echo_adapter : DemoAdapter :=
  mkAdapter None (λ _ _ _, mret tt) (λ _ input _, mret (mkAgentResult input [] []))
    (λ _ _ _, mret (mkStream [] (mret tt))) (λ _ _, mret tt).

(** The API cancels a run and its task. *)
Definition api_cancel (run task : Z) : M DemoWorld unit :=
  zoom wo_runs (λ r w, w <| wo_runs := r |>) (cancel_run run) ;;
  zoom wo_backend (λ b w, w <| wo_backend := b |>) (cancel task).

(** An agent during whose execution run 1 is cancelled. *)
Definition cancelled_adapter : DemoAdapter :=
  mkAdapter None (λ _ _ _, mret tt)
    (λ _ input c, (if cx_run_id c =? 1 then api_cancel 1 1 else mret tt) ;; mret (mkAgentResult input [] []))
    (λ _ _ _, mret (mkStream [] (mret tt))) (λ _ _, mret tt).

Definition demo_config (adapter : DemoAdapter)
  : ExecutorConfig InMemoryTaskBackend InMemoryRunStore () :=
  mkExecutorConfig "w1" [("echo", adapter)] [(50, mkSpec "echo" "pkg://echo" [] [] None None)] None None.

Definition demo_execute (adapter : DemoAdapter) : M DemoExecutor (option WorkerExecutionResult) :=
  execute_once (λ _, "error") (λ _, "Exception") "0" (λ _, None) (demo_config adapter) "default" 30.

(** Two runs created by the run manager, their tasks queued. *)
Definition demo_manager : RunManager InMemoryTaskBackend InMemoryRunStore := Eval vm_compute in
  (create_run_task None 1 2 sample_args "default" None
    (create_run_task None 1 2 sample_args "default" None (mkRunManager init_run_store init_backend)).2).2.

Definition demo_executor : DemoExecutor :=
  mkExecutor (mkWorld (rm_task_backend demo_manager) (rm_run_store demo_manager)
    (new_replay_buffer 100 10000) (λ i, Z.of_nat i + 10) 0) None None None None.

Definition demo_done : DemoExecutor := Eval vm_compute in (demo_execute echo_adapter demo_executor).2.

Lemma execute_once_settles_witness :
  settled (we_world demo_done) (mkExecutionResult 1 1 1 "succeeded") ∧ lease_cleared demo_done.
Proof.
  apply (execute_once_settles (λ _, "error") (λ _, "Exception") "0" (λ _, None)
    (demo_config echo_adapter) "default" 30 demo_executor). vm_compute. reflexivity.
Defined.

(** The worker's lease has expired and another worker has taken the task. *)
Definition demo_stale : DemoExecutor := Eval vm_compute in
  let e := (begin_attempt "0" (demo_config echo_adapter)
    (mkSnapshot demo_request 1 1 "default" 0 "leased" 0 3 (Some "w1") None None None 1)
    (backend (lease 10 10 "default" "w1" 30) demo_executor).2).2 in
  (backend (lease 90000000 90000000 "default" "w2" 30) e).2.

Lemma fenced_worker_writes_nothing_witness :
  settle (λ _, "error") (λ _, "Exception") "0" (demo_config echo_adapter)
    (Ret (mkAgentResult [] [] []))
    (mkSnapshot demo_request 1 1 "default" 0 "leased" 0 3 (Some "w1") None None None 1)
    (mkRuntimeAttempt 1 1 1 "w1" 1 "running" 12 None None) demo_stale
  = (Raise (StaleFencingTokenError 1), demo_stale).
Proof.
  apply (fenced_worker_writes_nothing (λ _, "error") (λ _, "Exception") "0" (demo_config echo_adapter)
    _ _ _ demo_stale 1 1 "w1" _ (wo_backend (we_world demo_stale))).
  - vm_compute. split; [reflexivity|split; reflexivity].
  - vm_compute. reflexivity.
  - discriminate.
Defined.

(** An execution that ends in an error raised outside the [try] statement
    (here: the run was cancelled while its agent ran, so completing it is refused)
    leaves the executor's trace context in place, and the next execution logs the
    first event of another run with the trace of the previous one. *)
Theorem stale_trace_context :
  ∃ e1 e2 ev rest,
    demo_execute cancelled_adapter demo_executor
      = (Raise (InvalidStateTransitionError "run" "cancelled" "succeeded"), e1) ∧
    demo_execute cancelled_adapter e1 = (Ret (Some (mkExecutionResult 2 2 2 "succeeded")), e2) ∧
    replay 2 None (wo_replay (we_world e2)) = (Ret (ev :: rest), wo_replay (we_world e2)) ∧
    ev_type ev = "attempt.started" ∧
    dict_get "request_id" (ev_payload ev) = Some (VStr "req_run_1").
Proof.
  eexists _, _, _, _. split; [vm_compute; reflexivity|]. split; [vm_compute; reflexivity|].
  split; [vm_compute; reflexivity|]. split; vm_compute; reflexivity.
Qed.
