(* ===== verification/Deployments.v ===== *)
(** Deployments: the control service of [deployments/service.py], the status
    aggregation of [deployments/status.py] and the registry of loaded agent
    instances of [deployments/instances.py]. *)

From S2P Require Import Prelude Values Json StateMachine InMemory RunStore.

(** * Agent instances *)

Record AgentInstanceRecord := mkInstance {
  ai_id : Z;
  ai_tenant_id : Z;
  ai_project_id : Z;
  ai_deployment_id : Z;
  ai_agent_id : Z;
  ai_agent_version_id : Z;
  ai_worker_id : string;
  ai_execution_profile_id : option string;
  ai_cache_key : string;
  ai_status : string;
  ai_loaded_at : option Z;
  ai_last_used_at : option Z;
  ai_heartbeat_at : option Z;
  ai_running_runs : Z;
  ai_error : option string;
  ai_metadata : pydict
}.
#[export] Instance AgentInstanceRecord_eta : Eta AgentInstanceRecord := λ i,
  mkInstance (ai_id i) (ai_tenant_id i) (ai_project_id i) (ai_deployment_id i) (ai_agent_id i)
    (ai_agent_version_id i) (ai_worker_id i) (ai_execution_profile_id i) (ai_cache_key i)
    (ai_status i) (ai_loaded_at i) (ai_last_used_at i) (ai_heartbeat_at i) (ai_running_runs i)
    (ai_error i) (ai_metadata i).

Definition build_cache_key (deployment_id agent_version_id : Z) (profile : option string) : string :=
  pretty deployment_id +:+ ":" +:+ pretty agent_version_id +:+ ":" +:+ or_str profile "default".

Definition instance_mark_ready (now : Z) (i : AgentInstanceRecord) : AgentInstanceRecord :=
  i <| ai_status := "ready" |> <| ai_loaded_at := Some (default now (ai_loaded_at i)) |>
    <| ai_last_used_at := Some now |> <| ai_heartbeat_at := Some now |> <| ai_error := None |>.

Definition instance_mark_failed (error : string) (now : Z) (i : AgentInstanceRecord)
  : AgentInstanceRecord :=
  i <| ai_status := "failed" |> <| ai_error := Some error |> <| ai_heartbeat_at := Some now |>.

Definition mark_evicted (reason : string) (i : AgentInstanceRecord) : AgentInstanceRecord :=
  i <| ai_status := "evicted" |> <| ai_running_runs := 0 |>
    <| ai_metadata := dict_set "evict_reason" (VStr reason) (ai_metadata i) |>.

Record AgentInstanceRegistry := mkRegistry {
  instances : dict Z AgentInstanceRecord;
  registry_next_id : Z
}.
#[export] Instance AgentInstanceRegistry_eta : Eta AgentInstanceRegistry := λ r,
  mkRegistry (instances r) (registry_next_id r).

(** The statuses of an instance that can serve runs. *)
Definition available_status (s : string) : bool :=
  bool_decide (s = "ready") || bool_decide (s = "idle") || bool_decide (s = "busy").

Definition register_loading (now tenant project deployment agent version : Z) (worker : string)
    (profile : option string) : M AgentInstanceRegistry AgentInstanceRecord :=
  r ← get_state;
  let i := mkInstance (registry_next_id r) tenant project deployment agent version worker profile
    (build_cache_key deployment version profile) "loading" None None (Some now) 0 None [] in
  modify (λ r, r <| registry_next_id := registry_next_id r + 1 |>) ;;
  modify (λ r, r <| instances := dict_set (ai_id i) i (instances r) |>) ;;
  mret i.

(** The first instance with the key that can serve; it is marked as just used. *)
Definition get_ready (now deployment version : Z) (profile : option string)
  : M AgentInstanceRegistry (option AgentInstanceRecord) :=
  r ← get_state;
  let cache_key := build_cache_key deployment version profile in
  match List.find (λ p, bool_decide (ai_cache_key p.2 = cache_key) && available_status (ai_status p.2))
          (instances r) with
  | Some (id, i) =>
      let i := i <| ai_last_used_at := Some now |> in
      modify (λ r, r <| instances := dict_set id i (instances r) |>) ;;
      mret (Some i)
  | None => mret None
  end.

Definition registry_mark_ready (now id : Z) : M AgentInstanceRegistry AgentInstanceRecord :=
  zoom instances (λ d r, r <| instances := d |>)
    (on_key id (KeyError (pretty id)) (modify (instance_mark_ready now) ;; get_state)).

Definition registry_mark_failed (now id : Z) (error : string) : M AgentInstanceRegistry AgentInstanceRecord :=
  zoom instances (λ d r, r <| instances := d |>)
    (on_key id (KeyError (pretty id)) (modify (instance_mark_failed error now) ;; get_state)).

Definition list_by_deployment (deployment : Z) (r : AgentInstanceRegistry) : list AgentInstanceRecord :=
  List.filter (λ i, ai_deployment_id i =? deployment) (dict_values (instances r)).

(** Mutates every instance of a deployment. *)
Definition map_deployment (deployment : Z) (f : AgentInstanceRecord → AgentInstanceRecord)
    (r : AgentInstanceRegistry) : AgentInstanceRegistry :=
  r <| instances := dict_map_values (λ i, if ai_deployment_id i =? deployment then f i else i)
         (instances r) |>.

Definition evict_deployment (deployment : Z) (reason : string)
  : M AgentInstanceRegistry (list AgentInstanceRecord) :=
  modify (map_deployment deployment (mark_evicted reason)) ;;
  gets (list_by_deployment deployment).

(** The instances [evict_idle] evicts. *)
Definition idle_before (threshold : Z) (i : AgentInstanceRecord) : bool :=
  (bool_decide (ai_status i = "ready") || bool_decide (ai_status i = "idle"))
  && (ai_running_runs i =? 0)
  && match ai_last_used_at i with Some t => t <? threshold | None => false end.

Definition evict_idle (now max_idle : Z) : M AgentInstanceRegistry (list AgentInstanceRecord) :=
  r ← get_state;
  let threshold := now - max_idle in
  modify (λ r, r <| instances := dict_map_values
    (λ i, if idle_before threshold i then mark_evicted "idle_timeout" i else i) (instances r) |>) ;;
  mret (mark_evicted "idle_timeout" <$> List.filter (idle_before threshold) (dict_values (instances r))).

(** * Status aggregation *)

Record RuntimeStatusSummary := mkSummary {
  su_runtime_status : DeploymentRuntimeStatus;
  su_running_runs : Z;
  su_queue_backlog : Z;
  su_worker_distribution : dict string Z;
  su_last_runtime_error : option string;
  su_last_heartbeat_at : option Z;
  su_loaded_at : option Z
}.

(** [max(..., default=None)] *)
Definition max_time (l : list (option Z)) : option Z :=
  foldl (λ acc o, match o with
    | Some t => Some (match acc with Some a => Z.max a t | None => t end)
    | None => acc
    end) None l.

Definition tally (l : list AgentInstanceRecord) : dict string Z :=
  foldl (λ d i, dict_set (ai_worker_id i) (default 0 (dict_get (ai_worker_id i) d) + 1) d) [] l.

Definition is_nil {A} (l : list A) : bool := match l with [] => true | _ => false end.

Definition active_instances (l : list AgentInstanceRecord) : list AgentInstanceRecord :=
  List.filter (λ i, negb (bool_decide (ai_status i = "evicted"))) l.

Definition aggregate_runtime_status (desired : DeploymentDesiredStatus)
    (all : list AgentInstanceRecord) (running_runs queue_backlog : Z) : RuntimeStatusSummary :=
  let active := active_instances all in
  let available := List.filter (λ i, available_status (ai_status i)) active in
  let loading := List.filter (λ i, bool_decide (ai_status i = "loading")) active in
  let failed := List.filter (λ i, bool_decide (ai_status i = "failed")) active in
  let draining := List.filter (λ i, bool_decide (ai_status i = "draining")) active in
  let status :=
    if bool_decide (desired = DD_stopped) && is_nil active then DR_stopped
    else if bool_decide (desired = DD_draining)
            || (negb (is_nil active) && (length draining =? length active)%nat) then DR_draining
    else if is_nil active then DR_not_loaded
    else if negb (is_nil available) && negb (is_nil failed) then DR_degraded
    else if negb (is_nil available) then DR_ready
    else if negb (is_nil loading) then DR_warming_up
    else if negb (is_nil failed) then DR_failed
    else DR_not_loaded in
  mkSummary status running_runs queue_backlog (tally active)
    (match List.find (λ i, str_truthy (ai_error i)) (reverse active) with
     | Some i => ai_error i
     | None => None
     end)
    (max_time (ai_heartbeat_at <$> active)) (max_time (ai_loaded_at <$> active)).

(** * Deployments *)

Record DeploymentRecord := mkDeployment {
  dp_id : Z;
  dp_tenant_id : Z;
  dp_project_id : Z;
  dp_agent_id : Z;
  dp_agent_version_id : Z;
  dp_environment : string;
  dp_desired_status : DeploymentDesiredStatus;
  dp_runtime_status : DeploymentRuntimeStatus;
  dp_replicas : Z;
  dp_config_json : pydict;
  dp_last_runtime_error : option string
}.
#[export] Instance DeploymentRecord_eta : Eta DeploymentRecord := λ d,
  mkDeployment (dp_id d) (dp_tenant_id d) (dp_project_id d) (dp_agent_id d) (dp_agent_version_id d)
    (dp_environment d) (dp_desired_status d) (dp_runtime_status d) (dp_replicas d)
    (dp_config_json d) (dp_last_runtime_error d).

(** The verdict of a [DeploymentPolicyEngine]. *)
Record DeploymentDecision := mkDeploymentDecision {
  dd_allowed : bool;
  dd_reason : option string
}.
Definition DeploymentPolicyEngine : Type := option string → string → DeploymentRecord → DeploymentDecision.

Definition AllowAllPolicyEngine : DeploymentPolicyEngine := λ _ _ _, mkDeploymentDecision true None.
Definition StaticPolicyEngine (allowed : bool) (reason : option string) : DeploymentPolicyEngine :=
  λ _ _ _, mkDeploymentDecision allowed reason.

Record AuditEntry := mkAuditEntry {
  au_action : string;
  au_resource_type : string;
  au_resource_id : Z;
  au_actor_id : option string;
  au_tenant_id : Z;
  au_project_id : Z;
  au_request_id : option string;
  au_result : string;
  au_metadata : dict string string
}.

Record InMemoryDeploymentStore := mkDeploymentStore {
  deployments : dict Z DeploymentRecord;
  store_next_id : Z
}.
#[export] Instance InMemoryDeploymentStore_eta : Eta InMemoryDeploymentStore := λ s,
  mkDeploymentStore (deployments s) (store_next_id s).

Definition store_add (d : DeploymentRecord) : M InMemoryDeploymentStore DeploymentRecord :=
  s ← get_state;
  let d' := if dp_id d <=? 0 then d <| dp_id := store_next_id s |> else d in
  modify (λ s, s <| store_next_id :=
    if dp_id d <=? 0 then store_next_id s + 1 else Z.max (store_next_id s) (dp_id d + 1) |>) ;;
  modify (λ s, s <| deployments := dict_set (dp_id d') d' (deployments s) |>) ;;
  mret d'.

Definition store_get (id : Z) : M InMemoryDeploymentStore DeploymentRecord :=
  s ← get_state;
  of_option (dict_get id (deployments s)) (DeploymentNotFoundError id).

Definition store_list (tenant project : option Z) (s : InMemoryDeploymentStore) : list DeploymentRecord :=
  List.filter (λ d, match project with Some p => dp_project_id d =? p | None => true end)
    (List.filter (λ d, match tenant with Some t => dp_tenant_id d =? t | None => true end)
      (dict_values (deployments s))).

Definition store_save (d : DeploymentRecord) : M InMemoryDeploymentStore DeploymentRecord :=
  modify (λ s, s <| deployments := dict_set (dp_id d) d (deployments s) |>) ;;
  mret d.

Definition store_archive (id : Z) : M InMemoryDeploymentStore DeploymentRecord :=
  d ← store_get id;
  modify (λ s, s <| deployments := dict_pop id (deployments s) |>) ;;
  mret (d <| dp_desired_status := DD_archived |> <| dp_runtime_status := DR_stopped |>).

(** * The control service *)

Record ControlService := mkControl {
  cs_deployments : InMemoryDeploymentStore;
  cs_instances : AgentInstanceRegistry;
  cs_audit : list AuditEntry
}.
#[export] Instance ControlService_eta : Eta ControlService := λ c,
  mkControl (cs_deployments c) (cs_instances c) (cs_audit c).

Definition in_store {A} (m : M InMemoryDeploymentStore A) : M ControlService A :=
  zoom cs_deployments (λ s c, c <| cs_deployments := s |>) m.
Definition in_registry {A} (m : M AgentInstanceRegistry A) : M ControlService A :=
  zoom cs_instances (λ r c, c <| cs_instances := r |>) m.

(** Assigns attributes of the shared record [self.deployments.get(id)]. *)
Definition mutate_deployment (id : Z) (f : DeploymentRecord → DeploymentRecord) : M ControlService unit :=
  in_store (zoom deployments (λ d s, s <| deployments := d |>)
    (on_key id (DeploymentNotFoundError id) (modify f))).

(** [expected is not None and actual != expected] *)
Definition differs (expected : option Z) (actual : Z) : bool :=
  match expected with Some x => negb (actual =? x) | None => false end.

(** [_assert_deployment_binding]: the error, if any. *)
Definition binding_error (d : DeploymentRecord) (tenant project agent version : option Z) : option exn :=
  if differs tenant (dp_tenant_id d) then
    Some (PolicyDeniedError "deployment_scope_mismatch" "deployment_scope_mismatch")
  else if differs project (dp_project_id d) then
    Some (PolicyDeniedError "deployment_scope_mismatch" "deployment_scope_mismatch")
  else if differs agent (dp_agent_id d) then
    Some (PolicyDeniedError "deployment_agent_version_mismatch" "deployment_agent_version_mismatch")
  else if differs version (dp_agent_version_id d) then
    Some (PolicyDeniedError "deployment_agent_version_mismatch" "deployment_agent_version_mismatch")
  else None.

(** The keyword arguments every control method takes. *)
Record ControlArgs := mkControlArgs {
  co_actor_id : option string;
  co_tenant_id : option Z;
  co_project_id : option Z;
  co_request_id : option string
}.

Definition _write_audit (action : string) (d : DeploymentRecord) (a : ControlArgs) (result : string)
    (metadata : dict string string) : M ControlService unit :=
  modify (λ c, c <| cs_audit := cs_audit c ++
    [mkAuditEntry action "deployment" (dp_id d) (co_actor_id a)
       (or_int (co_tenant_id a) (dp_tenant_id d)) (or_int (co_project_id a) (dp_project_id d))
       (co_request_id a) result metadata] |>).

Section control.
Context (policy : DeploymentPolicyEngine).

(** The status a deployment shows right after a control action. *)
Definition control_status (desired : DeploymentDesiredStatus) (l : list AgentInstanceRecord)
  : DeploymentRuntimeStatus :=
  match desired with
  | DD_stopped => DR_stopped
  | DD_draining => DR_draining
  | _ => su_runtime_status (aggregate_runtime_status desired l 0 0)
  end.

Definition _control (id : Z) (a : ControlArgs) (action : string) (desired : DeploymentDesiredStatus)
  : M ControlService DeploymentRecord :=
  d ← in_store (store_get id);
  match binding_error d (co_tenant_id a) (co_project_id a) None None with
  | Some e =>
      _write_audit ("deployment." +:+ action) d a "denied"
        [("reason", match e with PolicyDeniedError r _ => r | _ => "" end)] ;;
      raise e
  | None => mret tt
  end ;;
  let decision := policy (co_actor_id a) ("deployment." +:+ action) d in
  (if dd_allowed decision then mret tt
   else
     _write_audit ("deployment." +:+ action) d a "denied"
       [("reason", or_str (dd_reason decision) "policy_denied")] ;;
     raise (PolicyDeniedError (or_str (dd_reason decision) "policy_denied") "policy_denied")) ;;
  mutate_deployment id (λ d, d <| dp_desired_status := desired |>) ;;
  c ← get_state;
  mutate_deployment id (λ d, d <| dp_runtime_status :=
    control_status desired (list_by_deployment id (cs_instances c)) |>) ;;
  d ← in_store (store_get id);
  in_store (store_save d) ;;
  _write_audit ("deployment." +:+ action) d a "allowed" [] ;;
  mret d.

Definition activate id a := _control id a "activate" DD_active.
Definition pause id a := _control id a "pause" DD_paused.
Definition resume id a := _control id a "resume" DD_active.

Definition drain_deployment (id : Z) (a : ControlArgs) : M ControlService DeploymentRecord :=
  d ← _control id a "drain" DD_draining;
  in_registry (modify (map_deployment id (λ i,
    if bool_decide (ai_status i = "evicted") then i else i <| ai_status := "draining" |>))) ;;
  mret d.

Definition stop (id : Z) (a : ControlArgs) : M ControlService DeploymentRecord :=
  d ← _control id a "stop" DD_stopped;
  in_registry (evict_deployment id "stop") ;;
  mret (d <| dp_runtime_status := DR_stopped |>).

Definition summarize (id running_runs queue_backlog : Z) : M ControlService RuntimeStatusSummary :=
  d ← in_store (store_get id);
  c ← get_state;
  let summary := aggregate_runtime_status (dp_desired_status d)
    (list_by_deployment id (cs_instances c)) running_runs queue_backlog in
  mutate_deployment id (λ d, d <| dp_runtime_status := su_runtime_status summary |>) ;;
  mutate_deployment id (λ d, d <| dp_last_runtime_error := su_last_runtime_error summary |>) ;;
  mret summary.

Definition restart (id : Z) (a : ControlArgs) : M ControlService DeploymentRecord :=
  _control id a "restart" DD_active ;;
  in_registry (evict_deployment id "restart") ;;
  summarize id 0 0 ;;
  in_store (store_get id).

Definition list_instances (id : Z) : M ControlService (list AgentInstanceRecord) :=
  in_store (store_get id) ;;
  c ← get_state;
  mret (list_by_deployment id (cs_instances c)).

Definition assert_accepts_new_run (id : Z) (tenant project agent version : option Z)
  : M ControlService unit :=
  d ← in_store (store_get id);
  match binding_error d tenant project agent version with
  | Some e => raise e
  | None =>
      check (bool_decide (dp_desired_status d = DD_active))
        (PolicyDeniedError ("Deployment " +:+ pretty id +:+ " does not accept new runs while "
           +:+ desired_status_value (dp_desired_status d) +:+ ".") "deployment_not_accepting_runs")
  end.
End control.

(** * What a control action does *)

(** The stored records are filed under their own ids. *)
Definition filed (c : ControlService) : Prop :=
  ∀ id d, dict_get id (deployments (cs_deployments c)) = Some d → dp_id d = id.

Definition deployment_of (id : Z) (c : ControlService) : option DeploymentRecord :=
  dict_get id (deployments (cs_deployments c)).

(** Why an action is refused: the error raised and the reason logged. *)
Definition refusal (policy : DeploymentPolicyEngine) (a : ControlArgs) (action : string)
    (d : DeploymentRecord) : option (exn * string) :=
  match binding_error d (co_tenant_id a) (co_project_id a) None None with
  | Some e => Some (e, match e with PolicyDeniedError r _ => r | _ => "" end)
  | None =>
      let decision := policy (co_actor_id a) ("deployment." +:+ action) d in
      if dd_allowed decision then None
      else let r := or_str (dd_reason decision) "policy_denied" in
           Some (PolicyDeniedError r "policy_denied", r)
  end.

Definition audit_of (action : string) (d : DeploymentRecord) (a : ControlArgs) (result : string)
    (metadata : dict string string) : AuditEntry :=
  mkAuditEntry ("deployment." +:+ action) "deployment" (dp_id d) (co_actor_id a)
    (or_int (co_tenant_id a) (dp_tenant_id d)) (or_int (co_project_id a) (dp_project_id d))
    (co_request_id a) result metadata.

(** The record after an allowed action. *)
Definition controlled (desired : DeploymentDesiredStatus) (l : list AgentInstanceRecord)
    (d : DeploymentRecord) : DeploymentRecord :=
  d <| dp_desired_status := desired |> <| dp_runtime_status := control_status desired l |>.

Lemma mutate_run id f c d : deployment_of id c = Some d →
  mutate_deployment id f c =
  (Ret tt, c <| cs_deployments := (cs_deployments c)
     <| deployments := dict_set id (f d) (deployments (cs_deployments c)) |> |>).
Proof.
  unfold deployment_of, mutate_deployment, in_store, zoom, on_key. intros ->. done.
Qed.

Lemma get_run_eq id c : in_store (store_get id) c =
  (match deployment_of id c with Some d => Ret d | None => Raise (DeploymentNotFoundError id) end, c).
Proof.
  unfold in_store, store_get, deployment_of. m_unfold. by destruct (dict_get id _), c.
Qed.

Lemma control_spec policy id a action desired c : filed c →
  _control policy id a action desired c =
  match deployment_of id c with
  | None => (Raise (DeploymentNotFoundError id), c)
  | Some d =>
      match refusal policy a action d with
      | Some (e, r) => (Raise e, c <| cs_audit := cs_audit c ++ [audit_of action d a "denied" [("reason", r)]] |>)
      | None =>
          let d' := controlled desired (list_by_deployment id (cs_instances c)) d in
          (Ret d', c <| cs_deployments := (cs_deployments c)
                 <| deployments := dict_set id d' (deployments (cs_deployments c)) |> |>
               <| cs_audit := cs_audit c ++ [audit_of action d' a "allowed" []] |>)
      end
  end.
Proof.
  intros Hf. unfold _control, mbind, M_bind, get_state. rewrite get_run_eq.
  destruct (deployment_of id c) as [d|] eqn:Hd; [|done]. unfold refusal.
  destruct (binding_error d _ _ _ _) as [e|]; [done|]. unfold mret, M_ret.
  destruct (dd_allowed _); [|done]. rewrite (mutate_run id _ c d) by done. cbv beta iota.
  erewrite mutate_run by (unfold deployment_of; simpl; apply dict_get_set_eq).
  rewrite get_run_eq. unfold deployment_of at 1. simpl. rewrite dict_get_set_eq.
  rewrite !dict_set_set. unfold in_store, store_save, _write_audit. m_unfold. simpl.
  assert (dp_id d = id) as Hid by (by apply (Hf id)). rewrite Hid, !dict_set_set.
  unfold controlled. simpl. unfold audit_of. simpl. by rewrite Hid.
Qed.

(** ** Every action is audited exactly once *)

Inductive control_op :=
| CActivate (id : Z) (a : ControlArgs)
| CPause (id : Z) (a : ControlArgs)
| CResume (id : Z) (a : ControlArgs)
| CDrain (id : Z) (a : ControlArgs)
| CStop (id : Z) (a : ControlArgs)
| CRestart (id : Z) (a : ControlArgs).

Definition run_control (policy : DeploymentPolicyEngine) (op : control_op) : M ControlService DeploymentRecord :=
  match op with
  | CActivate id a => activate policy id a
  | CPause id a => pause policy id a
  | CResume id a => resume policy id a
  | CDrain id a => drain_deployment policy id a
  | CStop id a => stop policy id a
  | CRestart id a => restart policy id a
  end.

Definition op_id (op : control_op) : Z :=
  match op with
  | CActivate id _ | CPause id _ | CResume id _ | CDrain id _ | CStop id _ | CRestart id _ => id
  end.
Definition op_args (op : control_op) : ControlArgs :=
  match op with
  | CActivate _ a | CPause _ a | CResume _ a | CDrain _ a | CStop _ a | CRestart _ a => a
  end.
Definition op_action (op : control_op) : string :=
  match op with
  | CActivate _ _ => "activate" | CPause _ _ => "pause" | CResume _ _ => "resume"
  | CDrain _ _ => "drain" | CStop _ _ => "stop" | CRestart _ _ => "restart"
  end.
Definition op_desired (op : control_op) : DeploymentDesiredStatus :=
  match op with
  | CActivate _ _ | CResume _ _ | CRestart _ _ => DD_active
  | CPause _ _ => DD_paused
  | CDrain _ _ => DD_draining
  | CStop _ _ => DD_stopped
  end.

(** What the methods do beyond [_control], once the action is allowed: only the
    instances of the deployment and its runtime status change. *)
Lemma run_control_spec policy op c : filed c →
  match deployment_of (op_id op) c with
  | None => run_control policy op c = (Raise (DeploymentNotFoundError (op_id op)), c)
  | Some d =>
      match refusal policy (op_args op) (op_action op) d with
      | Some (e, r) => run_control policy op c =
          (Raise e, c <| cs_audit := cs_audit c ++ [audit_of (op_action op) d (op_args op) "denied" [("reason", r)]] |>)
      | None => ∃ d' d'' c', run_control policy op c = (Ret d', c') ∧
          deployments (cs_deployments c') = dict_set (op_id op) d'' (deployments (cs_deployments c)) ∧
          dp_id d'' = dp_id d ∧ dp_desired_status d'' = op_desired op ∧ dp_tenant_id d'' = dp_tenant_id d ∧
          dp_project_id d'' = dp_project_id d ∧
          (∃ f, cs_instances c' = map_deployment (op_id op) f (cs_instances c)) ∧
          cs_audit c' = cs_audit c ++ [audit_of (op_action op) d (op_args op) "allowed" []]
      end
  end.
Proof.
  intros Hf. assert (∀ l, map_deployment (op_id op) (λ i, i) l = l) as Hmap.
  { intros [d n]. unfold map_deployment. simpl. f_equal. unfold dict_map_values.
    rewrite <-(list_fmap_id d) at 2. apply list_fmap_ext. intros k [? ?] _. simpl. by case_match. }
  destruct op; cbn [run_control op_id op_args op_action op_desired];
    unfold activate, pause, resume, drain_deployment, stop, restart, mbind, M_bind;
    rewrite control_spec by done; destruct (deployment_of id c) as [d|] eqn:Hd; try done;
    destruct (refusal policy a _ d) as [[e r]|]; try done; cbv zeta.
  - do 3 eexists. split; [done|]. simpl. split_and!; try done. exists (λ i, i). by rewrite Hmap.
  - do 3 eexists. split; [done|]. simpl. split_and!; try done. exists (λ i, i). by rewrite Hmap.
  - do 3 eexists. split; [done|]. simpl. split_and!; try done. exists (λ i, i). by rewrite Hmap.
  - do 3 eexists. split; [done|]. simpl. split_and!; try done. by eexists.
  - do 3 eexists. split; [done|]. simpl. split_and!; try done. by eexists.
  - simpl. unfold summarize, mbind, M_bind, get_state.
    rewrite get_run_eq. unfold deployment_of at 1. simpl. rewrite dict_get_set_eq. cbv beta iota.
    erewrite mutate_run by (unfold deployment_of; simpl; apply dict_get_set_eq). cbv beta iota.
    erewrite mutate_run by (unfold deployment_of; simpl; apply dict_get_set_eq). cbv beta iota.
    unfold mret, M_ret. rewrite get_run_eq. unfold deployment_of at 1. simpl. rewrite dict_get_set_eq.
    do 3 eexists. split; [done|]. simpl. rewrite !dict_set_set. split_and!; try done. by eexists.
Qed.

(** Every control action on an existing deployment writes exactly one audit
    entry, naming the action, the deployment and the actor, with the result
    "denied" exactly when the tenant or project does not match or the policy
    refuses. A refused action raises and changes nothing else; an allowed one sets
    the desired status of that deployment, and leaves every other deployment and
    every other deployment's instances as they were. *)
Theorem control_audited (policy : DeploymentPolicyEngine) (op : control_op) (c : ControlService)
    (d : DeploymentRecord) (Hf : filed c) (Hd : deployment_of (op_id op) c = Some d) :
  let '(r, c') := run_control policy op c in
  (∃ result metadata,
    cs_audit c' = cs_audit c ++ [audit_of (op_action op) d (op_args op) result metadata] ∧
    match refusal policy (op_args op) (op_action op) d with
    | Some (e, _) => result = "denied" ∧ r = Raise e ∧ cs_deployments c' = cs_deployments c ∧
        cs_instances c' = cs_instances c
    | None => result = "allowed" ∧ returns r ∧
        (∃ d', deployment_of (op_id op) c' = Some d' ∧ dp_desired_status d' = op_desired op) ∧
        (∀ id, id ≠ op_id op → deployment_of id c' = deployment_of id c) ∧
        (∀ k i, dict_get k (instances (cs_instances c)) = Some i → ai_deployment_id i ≠ op_id op →
          dict_get k (instances (cs_instances c')) = Some i)
    end).
Proof.
  pose proof (run_control_spec policy op c Hf) as Hs. rewrite Hd in Hs.
  destruct (refusal policy _ _ d) as [[e reason]|] eqn:Hr.
  - rewrite Hs. by repeat eexists.
  - destruct Hs as (d'&d''&c'&->&Hdep&_&Hdes&_&_&(f&Hi)&Ha). exists "allowed", [].
    split; [done|]. split_and!; [done|by eexists|..].
    + unfold deployment_of. rewrite Hdep, dict_get_set_eq. by eexists.
    + intros id Hne. unfold deployment_of. by rewrite Hdep, dict_get_set_ne.
    + intros k i Hk Hne. rewrite Hi. unfold map_deployment. simpl. rewrite dict_get_map_values, Hk. simpl.
      apply Z.eqb_neq in Hne. by rewrite Hne.
Qed.

Lemma differs_false o z : differs o z = false ↔ ∀ x, o = Some x → z = x.
Proof.
  destruct o as [y|]; simpl; [|by split]. rewrite negb_false_iff, Z.eqb_eq.
  split; [by intros -> ? [= ->]|by eauto].
Qed.

Lemma binding_ok d tenant project agent version : binding_error d tenant project agent version = None ↔
  (∀ t, tenant = Some t → dp_tenant_id d = t) ∧ (∀ p, project = Some p → dp_project_id d = p) ∧
  (∀ a, agent = Some a → dp_agent_id d = a) ∧ (∀ v, version = Some v → dp_agent_version_id d = v).
Proof.
  unfold binding_error. rewrite <-!differs_false.
  destruct (differs tenant _), (differs project _), (differs agent _), (differs version _); naive_solver.
Qed.

Lemma accepts_iff (id : Z) (tenant project agent version : option Z) (c : ControlService) :
  (assert_accepts_new_run id tenant project agent version c).2 = c ∧
  ((assert_accepts_new_run id tenant project agent version c).1 = Ret tt ↔
   ∃ d, deployment_of id c = Some d ∧ dp_desired_status d = DD_active ∧
     binding_error d tenant project agent version = None).
Proof.
  unfold assert_accepts_new_run, mbind, M_bind. rewrite get_run_eq.
  destruct (deployment_of id c) as [d|]; simpl; [|split; [done|]; split; [done|by intros (?&?&_)]].
  unfold check, raise, mret, M_ret.
  destruct (binding_error d tenant project agent version) as [e|] eqn:Hb; simpl.
  - split; [done|]. split; [done|]. intros (d'&[= <-]&_&Hb'). congruence.
  - case_bool_decide as Hac; simpl; (split; [done|]); split; try done; [by eauto|].
    intros (d'&[= <-]&?&_). done.
Qed.

(** The gate that runs go through accepts a new run exactly when the
    deployment exists, is active, and belongs to the tenant, project, agent and
    agent version it is asked for; and it never changes anything. *)
Theorem accepts_new_run_iff (id : Z) (tenant project agent version : option Z) (c : ControlService) :
  (assert_accepts_new_run id tenant project agent version c).2 = c ∧
  ((assert_accepts_new_run id tenant project agent version c).1 = Ret tt ↔
   ∃ d, deployment_of id c = Some d ∧ dp_desired_status d = DD_active ∧
     (∀ t, tenant = Some t → dp_tenant_id d = t) ∧ (∀ p, project = Some p → dp_project_id d = p) ∧
     (∀ a, agent = Some a → dp_agent_id d = a) ∧ (∀ v, version = Some v → dp_agent_version_id d = v)).
Proof. setoid_rewrite <-binding_ok. apply accepts_iff. Qed.

(** The control service as the gate of the run manager. *)
Definition gate_of (c : ControlService) : DeploymentRunGate := λ d t p a v,
  match (assert_accepts_new_run d (Some t) (Some p) (Some a) (Some v) c).1 with
  | Ret _ => None
  | Raise e => Some e
  end.

(** C14: the run manager, gated by the control service, creates a run for a
    deployment only while that deployment is active and belongs to the run's
    tenant, project, agent and agent version. *)
Theorem run_needs_active_deployment {B R} `{!RuntimeTaskBackend B, !RuntimeRunStore R}
    (c : ControlService) now now' a q task (m m' : RunManager B R) run tid id
    (Hid : ca_deployment_id a = Some id)
    (Hrun : create_run_task (Some (gate_of c)) now now' a q task m = (Ret (run, tid), m')) :
  ∃ d, deployment_of id c = Some d ∧ dp_desired_status d = DD_active ∧
    dp_tenant_id d = ca_tenant_id a ∧ dp_project_id d = ca_project_id a ∧
    dp_agent_id d = ca_agent_id a ∧ dp_agent_version_id d = ca_agent_version_id a.
Proof.
  unfold create_run_task in Hrun. rewrite Hid in Hrun. apply bind_ret_inv in Hrun as (x&m1&Hg&_).
  unfold gate_of in Hg.
  destruct (accepts_iff id (Some (ca_tenant_id a)) (Some (ca_project_id a)) (Some (ca_agent_id a))
    (Some (ca_agent_version_id a)) c) as [_ Hiff].
  destruct (assert_accepts_new_run _ _ _ _ _ c) as [[[]|e] c1]; [|done].
  destruct (proj1 Hiff eq_refl) as (d&Hd&Hac&(?&?&?&?)%binding_ok). exists d.
  split_and!; [done|done|..]; by eauto.
Qed.

(** Actions that let a deployment take runs again. *)
Definition reopens (id : Z) (op : control_op) : bool :=
  bool_decide (op_desired op = DD_active) && (op_id op =? id).

Definition exec_controls (policy : DeploymentPolicyEngine) (c : ControlService) (ops : list control_op)
  : ControlService :=
  foldl (λ c op, (run_control policy op c).2) c ops.

Lemma control_filed policy op c : filed c → filed (run_control policy op c).2.
Proof.
  intros Hf. pose proof (run_control_spec policy op c Hf) as Hs.
  destruct (deployment_of (op_id op) c) as [d|] eqn:Hd; [|by rewrite Hs].
  destruct (refusal _ _ _ d) as [[e r]|]; [by rewrite Hs|].
  destruct Hs as (d'&d''&c'&->&Hdep&Hid&_). intros id0 d0. simpl. rewrite Hdep, dict_get_set.
  case_decide; [intros [= <-]; subst; rewrite Hid; by apply Hf|apply Hf].
Qed.

Lemma control_keeps_closed policy op c id d : filed c → reopens id op = false →
  deployment_of id c = Some d → dp_desired_status d ≠ DD_active →
  ∃ d', deployment_of id (run_control policy op c).2 = Some d' ∧ dp_desired_status d' ≠ DD_active.
Proof.
  intros Hf Hop Hd Hne. pose proof (run_control_spec policy op c Hf) as Hs.
  destruct (deployment_of (op_id op) c) as [d0|] eqn:Hd0; [|rewrite Hs; by exists d].
  destruct (refusal _ _ _ d0) as [[e r]|]; [rewrite Hs; by exists d|].
  destruct Hs as (d'&d''&c'&->&Hdep&_&Hdes&_). unfold deployment_of. simpl. rewrite Hdep, dict_get_set.
  case_decide; [|by exists d]. exists d''. split; [done|]. rewrite Hdes.
  unfold reopens in Hop. subst. rewrite Z.eqb_refl, andb_true_r in Hop. by apply bool_decide_eq_false in Hop.
Qed.

(** Once a deployment is paused, draining or stopped, no sequence of control
    actions other than activating, resuming or restarting it makes it accept a new
    run again. *)
Theorem closed_deployment_stays_closed (policy : DeploymentPolicyEngine) (c : ControlService)
    (ops : list control_op) (id : Z) (d : DeploymentRecord) (tenant project agent version : option Z)
    (Hf : filed c) (Hd : deployment_of id c = Some d) (Hclosed : dp_desired_status d ≠ DD_active)
    (Hops : forallb (λ op, negb (reopens id op)) ops = true) :
  ∃ e, (assert_accepts_new_run id tenant project agent version (exec_controls policy c ops)).1 = Raise e.
Proof.
  revert c d Hf Hd Hclosed. induction ops as [|op ops IH]; intros c d Hf Hd Hclosed.
  - unfold assert_accepts_new_run, mbind, M_bind. simpl. rewrite get_run_eq, Hd.
    unfold check, raise. destruct (binding_error d _ _ _ _); simpl; [by eexists|].
    rewrite bool_decide_false by done. by eexists.
  - simpl in Hops. apply andb_true_iff in Hops as [Hop%negb_true_iff Hops].
    destruct (control_keeps_closed policy op c id d Hf Hop Hd Hclosed) as (d'&Hd'&Hc').
    by apply (IH Hops _ d' (control_filed policy op c Hf)).
Qed.

(** ** Instances *)

(** The cache key of a registered instance is the one built from its own ids. *)
Definition keyed (r : AgentInstanceRegistry) : Prop :=
  ∀ k i, (k, i) ∈ instances r →
    ai_cache_key i = build_cache_key (ai_deployment_id i) (ai_agent_version_id i) (ai_execution_profile_id i).

Lemma build_cache_key_inj d v p d' v' p' :
  build_cache_key d v p = build_cache_key d' v' p' → d = d' ∧ v = v' ∧ or_str p "default" = or_str p' "default".
Proof. unfold build_cache_key. by intros (->&(->&->)%pretty_colon_inj)%pretty_colon_inj. Qed.

Lemma list_elem_of_fmap_dict {V W} (f : V → W) k w (d : dict Z V) :
  (k, w) ∈ dict_map_values f d → ∃ v, w = f v ∧ (k, v) ∈ d.
Proof. intros ([k' v]&[= -> ->]&Hin)%list_elem_of_fmap. by exists v. Qed.

Lemma list_by_deployment_map id f r : (∀ i, ai_deployment_id (f i) = ai_deployment_id i) →
  list_by_deployment id (map_deployment id f r) = f <$> list_by_deployment id r.
Proof.
  intros Hf. unfold list_by_deployment, map_deployment, dict_values, dict_map_values. simpl.
  induction (instances r) as [|[k i] d IH]; [done|]. simpl.
  destruct (ai_deployment_id i =? id) eqn:E; simpl; rewrite ?Hf, E; simpl; [f_equal|]; exact IH.
Qed.

Lemma list_by_deployment_map_ne id other f r : (∀ i, ai_deployment_id (f i) = ai_deployment_id i) →
  other ≠ id → list_by_deployment other (map_deployment id f r) = list_by_deployment other r.
Proof.
  intros Hf Hne. unfold list_by_deployment, map_deployment, dict_values, dict_map_values. simpl.
  induction (instances r) as [|[k i] d IH]; [done|]. simpl.
  destruct (ai_deployment_id i =? id) eqn:E; simpl; rewrite ?Hf; b2p.
  - rewrite (proj2 (Z.eqb_neq _ other)) by congruence. exact IH.
  - destruct (ai_deployment_id i =? other); [f_equal|]; exact IH.
Qed.

Lemma find_None {A} (p : A → bool) l : (∀ x, x ∈ l → p x = false) → List.find p l = None.
Proof.
  induction l as [|x l IH]; intros H; [done|]. simpl. rewrite H by left.
  apply IH. intros y Hy. apply H. by right.
Qed.

(** An allowed [stop] leaves the deployment stopped and every loaded instance
    of it evicted with no running run and the reason recorded; none of its
    instances is handed out any more, for any version or profile; and the
    instances of other deployments are untouched. *)
Theorem stop_evicts_instances (policy : DeploymentPolicyEngine) (id : Z) (a : ControlArgs)
    (c c' : ControlService) (d : DeploymentRecord) (now version : Z) (profile : option string)
    (Hf : filed c) (Hk : keyed (cs_instances c)) (Hstop : stop policy id a c = (Ret d, c')) :
  (∃ d', deployment_of id c' = Some d' ∧ dp_desired_status d' = DD_stopped ∧ dp_runtime_status d' = DR_stopped) ∧
  Forall (λ i, ai_status i = "evicted" ∧ ai_running_runs i = 0 ∧
            dict_get "evict_reason" (ai_metadata i) = Some (VStr "stop"))
    (list_by_deployment id (cs_instances c')) ∧
  (get_ready now id version profile (cs_instances c')).1 = Ret None ∧
  (∀ other, other ≠ id → list_by_deployment other (cs_instances c') = list_by_deployment other (cs_instances c)).
Proof.
  unfold stop, mbind, M_bind in Hstop. rewrite control_spec in Hstop by done.
  destruct (deployment_of id c) as [d0|] eqn:Hd; [|done].
  destruct (refusal policy a "stop" d0) as [[e r]|]; [done|]. injection Hstop as _ <-.
  split; [|split; [|split]].
  - unfold deployment_of. simpl. rewrite dict_get_set_eq. by eexists.
  - simpl. rewrite list_by_deployment_map by done. apply Forall_fmap, Forall_true. intros i. simpl.
    by rewrite dict_get_set_eq.
  - unfold get_ready, mbind, M_bind, get_state. simpl. rewrite find_None; [done|].
    intros [k i] (j&->&Hin)%list_elem_of_fmap_dict. simpl.
    destruct (ai_deployment_id j =? id) eqn:E; simpl; [apply andb_false_r|].
    rewrite bool_decide_false; [done|]. rewrite (Hk _ _ Hin). b2p. by intros [? _]%build_cache_key_inj.
  - intros other Hne. by apply list_by_deployment_map_ne.
Qed.

(** ** The aggregated status *)

Lemma not_nil_filter {A} (p : A → bool) l : negb (is_nil (List.filter p l)) = true ↔ ∃ x, x ∈ l ∧ p x = true.
Proof.
  split.
  - intros H. destruct (List.filter p l) as [|x t] eqn:E; [done|]. exists x.
    rewrite list_elem_of_In, <-(filter_In p x l), E. by left.
  - intros (x&Hx%list_elem_of_In&Hp). assert (In x (List.filter p l)) as Hin by (by apply filter_In).
    by destruct (List.filter p l).
Qed.

Lemma filter_length_lt {A} (p : A → bool) (l : list A) x :
  x ∈ l → p x = false → (length (List.filter p l) < length l)%nat.
Proof.
  intros Hin Hp. induction l as [|y l IH]; [by apply elem_of_nil in Hin|]. simpl.
  apply elem_of_cons in Hin as [->|Hin].
  - rewrite Hp. pose proof (List.filter_length_le p l). lia.
  - specialize (IH Hin). destruct (p y); simpl; lia.
Qed.

Lemma available_status_in s : available_status s = true ↔ s ∈ ["ready"; "idle"; "busy"].
Proof.
  unfold available_status. rewrite !elem_of_cons, elem_of_nil.
  repeat case_bool_decide; naive_solver.
Qed.

Lemma available_not s : available_status s = true → s ≠ "evicted" ∧ s ≠ "draining" ∧ s ≠ "failed".
Proof. unfold available_status. repeat case_bool_decide; naive_solver. Qed.

Lemma tally_total l : foldr Z.add 0 (dict_values (tally l)) = Z.of_nat (length l).
Proof.
  assert (∀ k (d : dict string Z), foldr Z.add 0 (dict_values (dict_set k (default 0 (dict_get k d) + 1) d))
    = foldr Z.add 0 (dict_values d) + 1) as Hset.
  { intros k d. induction d as [|[k' v] d IH]; simpl; [lia|].
    destruct (decide (k = k')); simpl; [lia|]. unfold dict_values in *. rewrite IH. lia. }
  unfold tally. induction l as [|i l IH] using rev_ind; [done|].
  rewrite foldl_app, length_app. simpl. rewrite Hset, IH. lia.
Qed.

Lemma active_idem all : active_instances (active_instances all) = active_instances all.
Proof.
  unfold active_instances. induction all as [|i l IH]; simpl; [done|].
  destruct (negb _) eqn:E; simpl; rewrite ?E, IH; done.
Qed.

Lemma elem_of_active x all : x ∈ active_instances all ↔ x ∈ all ∧ ai_status x ≠ "evicted".
Proof.
  unfold active_instances. rewrite !list_elem_of_In, filter_In, negb_true_iff, bool_decide_eq_false. done.
Qed.

(** Some instance that is not evicted passes the test. *)
Definition any_active (p : string → bool) (all : list AgentInstanceRecord) : bool :=
  negb (is_nil (List.filter (λ i, p (ai_status i)) (active_instances all))).

Lemma any_active_iff p all : (p "evicted" = false) →
  any_active p all = true ↔ ∃ i, i ∈ all ∧ p (ai_status i) = true.
Proof.
  intros He. unfold any_active. rewrite not_nil_filter. split.
  - intros (i&[Hin _]%elem_of_active&Hp). by exists i.
  - intros (i&Hin&Hp). exists i. split; [|done]. apply elem_of_active. split; [done|]. congruence.
Qed.

Lemma serving_not_draining all : any_active available_status all = true →
  is_nil (active_instances all) = false ∧
  (length (List.filter (λ i, bool_decide (ai_status i = "draining")) (active_instances all)) =?
    length (active_instances all))%nat = false.
Proof.
  unfold any_active. intros (i&Ha&Hav)%not_nil_filter. split.
  - by destruct (active_instances all); [apply elem_of_nil in Ha|].
  - apply Nat.eqb_neq, Nat.lt_neq, (filter_length_lt _ _ i); [done|].
    apply available_not in Hav as (_&Hd&_). by apply bool_decide_eq_false.
Qed.

Lemma aggregate_status_cases desired all running backlog :
  let st := su_runtime_status (aggregate_runtime_status desired all running backlog) in
  let failed := any_active (λ s, bool_decide (s = "failed")) all in
  (st = DR_ready ↔ desired ≠ DD_draining ∧ any_active available_status all = true ∧ failed = false) ∧
  (st = DR_degraded ↔ desired ≠ DD_draining ∧ any_active available_status all = true ∧ failed = true).
Proof.
  pose proof (serving_not_draining all) as Hlive. unfold aggregate_runtime_status, any_active in *. simpl.
  destruct (negb (is_nil (List.filter (λ i, available_status (ai_status i)) _))).
  - destruct (Hlive eq_refl) as [-> ->].
    destruct (negb (is_nil (List.filter (λ i, bool_decide (ai_status i = "failed")) _))), desired; naive_solver.
  - clear Hlive. generalize (is_nil (active_instances all))
      (negb (is_nil (List.filter (λ i, bool_decide (ai_status i = "loading")) (active_instances all))))
      (negb (is_nil (List.filter (λ i, bool_decide (ai_status i = "failed")) (active_instances all)))).
    intros [] [] []; destruct desired; simpl; try destruct (_ =? _)%nat; simpl; naive_solver.
Qed.

(** The runtime status a deployment shows: it is ready exactly when it is
    not draining, some instance can serve (ready, idle or busy) and none has failed, and degraded
    exactly when some instance can serve while another has failed; evicted
    instances count for nothing; and the per-worker distribution adds up to the
    number of loaded instances. *)
Theorem aggregate_status_correct (desired : DeploymentDesiredStatus) (all : list AgentInstanceRecord)
    (running backlog : Z) :
  let s := aggregate_runtime_status desired all running backlog in
  let can_serve := ∃ i, i ∈ all ∧ ai_status i ∈ ["ready"; "idle"; "busy"] in
  let has_failed := ∃ i, i ∈ all ∧ ai_status i = "failed" in
  (su_runtime_status s = DR_ready ↔ desired ≠ DD_draining ∧ can_serve ∧ ¬ has_failed) ∧
  (su_runtime_status s = DR_degraded ↔ desired ≠ DD_draining ∧ can_serve ∧ has_failed) ∧
  s = aggregate_runtime_status desired (active_instances all) running backlog ∧
  foldr Z.add 0 (dict_values (su_worker_distribution s)) = Z.of_nat (length (active_instances all)).
Proof.
  intros s can_serve has_failed.
  assert (can_serve ↔ any_active available_status all = true) as Hserve.
  { rewrite any_active_iff by done. subst can_serve. by setoid_rewrite available_status_in. }
  assert (has_failed ↔ any_active (λ s, bool_decide (s = "failed")) all = true) as Hfail.
  { rewrite any_active_iff by done. subst has_failed. by setoid_rewrite bool_decide_eq_true. }
  destruct (aggregate_status_cases desired all running backlog) as [Hready Hdeg].
  rewrite Hserve, Hfail, not_true_iff_false. split; [exact Hready|]. split; [exact Hdeg|].
  split; [|apply tally_total]. subst s. unfold aggregate_runtime_status. by rewrite active_idem.
Qed.

(** ** Concrete services *)

Definition demo_deployment : DeploymentRecord :=
  mkDeployment 7 1 1 5 50 "production" DD_active DR_ready 1 [] None.

(** One active deployment with a loaded instance. *)
Definition demo_control : ControlService := Eval vm_compute in
  let r := (registry_mark_ready 20 1
    (register_loading 10 1 1 7 5 50 "w1" None (mkRegistry [] 1)).2).2 in
  mkControl (store_add demo_deployment (mkDeploymentStore [] 1)).2 r [].
Definition demo_args : ControlArgs := mkControlArgs (Some "ops") (Some 1) (Some 1) None.

Lemma demo_filed : filed demo_control.
Proof.
  intros id d. unfold demo_control. cbn. destruct (decide (id = 7)); intros H; simplify_eq/=; done.
Qed.

Lemma control_audited_witness :
  ∃ c', run_control (StaticPolicyEngine false (Some "frozen")) (CPause 7 demo_args) demo_control
      = (Raise (PolicyDeniedError "frozen" "policy_denied"), c') ∧
    cs_audit c' = [audit_of "pause" demo_deployment demo_args "denied" [("reason", "frozen")]].
Proof.
  pose proof (control_audited (StaticPolicyEngine false (Some "frozen")) (CPause 7 demo_args) demo_control
    demo_deployment demo_filed ltac:(vm_compute; reflexivity)) as H.
  vm_compute in H |- *. destruct H as (r&md&Ha&_). by eexists.
Defined.

Lemma closed_deployment_stays_closed_witness :
  ∃ e, (assert_accepts_new_run 7 None None None None
    (exec_controls AllowAllPolicyEngine (pause AllowAllPolicyEngine 7 demo_args demo_control).2
       [CDrain 7 demo_args; CStop 7 demo_args])).1 = Raise e.
Proof.
  refine (closed_deployment_stays_closed AllowAllPolicyEngine _ [CDrain 7 demo_args; CStop 7 demo_args] 7
    (demo_deployment <| dp_desired_status := DD_paused |>) None None None None
    (control_filed AllowAllPolicyEngine (CPause 7 demo_args) demo_control demo_filed) _ _ _);
    [vm_compute; reflexivity|discriminate|vm_compute; reflexivity].
Defined.

Lemma stop_evicts_instances_witness :
  ∃ d c', stop AllowAllPolicyEngine 7 demo_args demo_control = (Ret d, c') ∧
    (get_ready 30 7 50 None (cs_instances demo_control)).1 ≠ Ret None ∧
    (get_ready 30 7 50 None (cs_instances c')).1 = Ret None.
Proof.
  eexists _, _. split; [vm_compute; reflexivity|]. split; [vm_compute; discriminate|].
  refine (proj1 (proj2 (proj2 (stop_evicts_instances AllowAllPolicyEngine 7 demo_args demo_control _ _
    30 50 None demo_filed _ _)))).
  - intros k i [= -> ->]%list_elem_of_singleton. vm_compute. reflexivity.
  - vm_compute. reflexivity.
Defined.

Lemma run_needs_active_deployment_witness :
  ∃ d, deployment_of 7 demo_control = Some d ∧ dp_desired_status d = DD_active.
Proof.
  destruct (run_needs_active_deployment demo_control 1 2
    (mkRunArgs 1 1 5 50 (Some 7) [] None None None) "default" None
    (mkRunManager init_run_store init_backend)
    (create_run_task (Some (gate_of demo_control)) 1 2 (mkRunArgs 1 1 5 50 (Some 7) [] None None None)
       "default" None (mkRunManager init_run_store init_backend)).2
    (mkRuntimeRun 1 1 1 5 50 (Some 7) [] [] "pending" None None None 1) 1 7
    ltac:(reflexivity) ltac:(vm_compute; reflexivity)) as (d&Hd&Hac&_).
  exists d. split; [exact Hd|exact Hac].
Defined.
