(* ===== verification/Policy.v ===== *)
(** The policy engine of [policy/engine.py] and [policy/decisions.py]: which
    rules match a request, how their verdicts combine, and what is audited. *)

From S2P Require Import Prelude Values Json.

(** * Decisions *)

Inductive Decision :=
| D_allow | D_deny | D_allow_with_redaction | D_allow_with_limit | D_require_approval
| D_require_dry_run | D_fallback.

#[export] Instance Decision_eq_dec : EqDecision Decision.
Proof. solve_decision. Defined.

Definition decision_value (d : Decision) : string :=
  match d with
  | D_allow => "allow" | D_deny => "deny" | D_allow_with_redaction => "allow_with_redaction"
  | D_allow_with_limit => "allow_with_limit" | D_require_approval => "require_approval"
  | D_require_dry_run => "require_dry_run" | D_fallback => "fallback"
  end.

Record PolicyDecision := mkPolicyDecision {
  pd_decision : Decision;
  pd_reason : option string;
  pd_matched_policy_ids : list string;
  pd_limits : pydict;
  pd_redactions : list string;
  pd_approval_required : bool;
  pd_expires_at : option Z;
  pd_metadata : pydict
}.

(** [tuple(filter(None, [policy_id]))] *)
Definition nonempty_ids (id : string) : list string := if String.eqb id "" then [] else [id].

Definition decision_allow : PolicyDecision := mkPolicyDecision D_allow None [] [] [] false None [].
Definition decision_deny (reason policy_id : string) : PolicyDecision :=
  mkPolicyDecision D_deny (Some reason) (nonempty_ids policy_id) [] [] false None [].
Definition decision_require_approval (reason policy_id : string) : PolicyDecision :=
  mkPolicyDecision D_require_approval (Some reason) (nonempty_ids policy_id) [] [] true None [].

(** * Requests, rules and the audit trail *)

Record PolicyRequest := mkPolicyRequest {
  pr_tenant_id : Z;
  pr_project_id : option Z;
  pr_actor_id : option string;
  pr_actor_type : string;
  pr_resource_type : string;
  pr_resource_id : option Z;
  pr_action : string;
  pr_risk_level : option string;
  pr_user_id : option Z;
  pr_service_account_id : option Z;
  pr_agent_id : option Z;
  pr_agent_version_id : option Z;
  pr_deployment_id : option Z;
  pr_environment : option string;
  pr_runtime_context : pydict;
  pr_request_metadata : pydict
}.

Record AuditRecord := mkAuditRecord {
  ar_tenant_id : Z;
  ar_project_id : option Z;
  ar_actor_id : option string;
  ar_actor_type : string;
  ar_resource_type : string;
  ar_resource_id : option Z;
  ar_action : string;
  ar_result : string;
  ar_reason : option string;
  ar_matched_policy_ids : list string;
  ar_record_metadata : pydict
}.

(** [InMemoryAuditSink]: the records written so far. *)
Abbreviation AuditSink := (list AuditRecord).
Definition write (r : AuditRecord) : M AuditSink unit := modify (λ l, l ++ [r]).

Record StaticPolicyRule := mkRule {
  ru_policy_id : string;
  ru_resource_type : string;
  ru_action : string;
  ru_decision : Decision;
  ru_reason : string;
  ru_tenant_id : option Z;
  ru_project_id : option Z;
  ru_environment : option string;
  ru_risk_level : option string;
  ru_resource_id : option Z;
  ru_expires_at : option Z;
  ru_metadata : pydict
}.

(** [rule_field is not None and rule_field != request_field] *)
Definition conflicts {A} `{!EqDecision A} (rule request : option A) : bool :=
  match rule with Some _ => negb (bool_decide (rule = request)) | None => false end.

Definition matches (r : StaticPolicyRule) (q : PolicyRequest) : bool :=
  if negb (bool_decide (ru_resource_type r = pr_resource_type q))
     || negb (bool_decide (ru_action r = pr_action q)) then false
  else if conflicts (ru_tenant_id r) (Some (pr_tenant_id q)) then false
  else if conflicts (ru_project_id r) (pr_project_id q) then false
  else if conflicts (ru_environment r) (pr_environment q) then false
  else if conflicts (ru_risk_level r) (pr_risk_level q) then false
  else if conflicts (ru_resource_id r) (pr_resource_id q) then false
  else true.

Section engine.
(** [str(x)] of a value that is not a string. *)
Context (py_str : value → string).

Definition str_of (v : value) : string := match v with VStr s => s | v => py_str v end.

Definition _metadata_limits (metadata : pydict) : pydict :=
  match dict_get "limits" metadata with Some (VDict d) => d | _ => [] end.

Definition _metadata_redactions (metadata : pydict) : list string :=
  match dict_get "redactions" metadata with
  | Some (VList l) =>
      List.filter (λ s, negb (String.eqb s ""))
        ((λ v, of_chars (strip (to_chars (str_of v)))) <$> l)
  | _ => []
  end.

Definition to_decision (r : StaticPolicyRule) : PolicyDecision :=
  match ru_decision r with
  | D_deny => decision_deny (ru_reason r) (ru_policy_id r)
  | D_require_approval => decision_require_approval (ru_reason r) (ru_policy_id r)
  | d => mkPolicyDecision d (Some (ru_reason r)) [ru_policy_id r] (_metadata_limits (ru_metadata r))
           (_metadata_redactions (ru_metadata r)) false (ru_expires_at r) (ru_metadata r)
  end.

(** The accumulators of the loop of [_compose_allow_decision]. *)
Record Composition := mkComposition {
  cm_matched : list string;
  cm_limits : pydict;
  cm_redactions : list string;
  cm_primary : StaticPolicyRule
}.

(** [for redaction in ...: if redaction not in redactions: append] *)
Definition add_redactions (acc new : list string) : list string :=
  foldl (λ acc r, if bool_decide (r ∈ acc) then acc else acc ++ [r]) acc new.

Definition allow_kind (d : Decision) : bool :=
  match d with D_allow | D_allow_with_redaction | D_allow_with_limit => true | _ => false end.

Definition compose_step (c : Composition) (r : StaticPolicyRule) : Composition :=
  if negb (allow_kind (ru_decision r)) then c
  else mkComposition (cm_matched c ++ [ru_policy_id r])
    (dict_merge (cm_limits c) (_metadata_limits (ru_metadata r)))
    (add_redactions (cm_redactions c) (_metadata_redactions (ru_metadata r)))
    (if negb (bool_decide (ru_decision (cm_primary c) = D_allow_with_limit))
        && bool_decide (ru_decision r = D_allow_with_limit) then r
     else if bool_decide (ru_decision (cm_primary c) = D_allow)
             && bool_decide (ru_decision r = D_allow_with_redaction) then r
     else cm_primary c).

Definition _compose_allow_decision (first : StaticPolicyRule) (rules : list StaticPolicyRule)
  : PolicyDecision :=
  let c := foldl compose_step (mkComposition [] [] [] first) rules in
  let decision := match cm_limits c, cm_redactions c with
    | _ :: _, _ => D_allow_with_limit
    | [], _ :: _ => D_allow_with_redaction
    | [], [] => ru_decision (cm_primary c)
    end in
  mkPolicyDecision decision (Some (ru_reason (cm_primary c))) (cm_matched c) (cm_limits c)
    (cm_redactions c) false (ru_expires_at (cm_primary c))
    [("limits", VDict (cm_limits c)); ("redactions", VList (VStr <$> cm_redactions c))].

(** * The engine *)

Definition audit_record (q : PolicyRequest) (result : string) (reason : option string)
    (matched : list string) (metadata : pydict) : AuditRecord :=
  mkAuditRecord (pr_tenant_id q) (pr_project_id q) (pr_actor_id q) (pr_actor_type q)
    (pr_resource_type q) (pr_resource_id q) (pr_action q) result reason matched metadata.

Definition _audit_when_required (q : PolicyRequest) (d : PolicyDecision) : M AuditSink unit :=
  match pd_decision d with
  | D_deny | D_require_approval =>
      write (audit_record q (decision_value (pd_decision d)) (pd_reason d) (pd_matched_policy_ids d)
               (pd_metadata d))
  | _ => mret tt
  end.

Context (rules : list StaticPolicyRule).

Definition matching (q : PolicyRequest) : list StaticPolicyRule := List.filter (λ r, matches r q) rules.

Definition evaluate (q : PolicyRequest) : M AuditSink PolicyDecision :=
  let found d := List.find (λ r, bool_decide (ru_decision r = d)) (matching q) in
  match found D_deny with
  | Some r => _audit_when_required q (to_decision r) ;; mret (to_decision r)
  | None =>
      match found D_require_approval with
      | Some r => _audit_when_required q (to_decision r) ;; mret (to_decision r)
      | None =>
          match matching q with
          | [] => mret decision_allow
          | r :: rs => mret (_compose_allow_decision r (r :: rs))
          end
      end
  end.

Definition assert_allowed (q : PolicyRequest) : M AuditSink PolicyDecision :=
  d ← evaluate q;
  if bool_decide (pd_decision d = D_deny)
  then raise (PermissionError (or_str (pd_reason d) "policy_denied"))
  else mret d.

Definition record_violation (q : PolicyRequest) (reason : string) (metadata : pydict) : M AuditSink unit :=
  write (audit_record q "policy_violation" (Some reason) [] metadata).

(** * Theorems *)

(** Some rule with the verdict [d] matches. *)
Definition matched_by (d : Decision) (q : PolicyRequest) : Prop :=
  ∃ r, r ∈ rules ∧ matches r q = true ∧ ru_decision r = d.

Lemma find_matching d q :
  match List.find (λ r, bool_decide (ru_decision r = d)) (matching q) with
  | Some r => r ∈ rules ∧ matches r q = true ∧ ru_decision r = d
  | None => ¬ matched_by d q
  end.
Proof.
  destruct (List.find _ _) as [r|] eqn:E.
  - apply find_some in E as [Hin Hd%bool_decide_eq_true]. apply filter_In in Hin as [Hin Hm].
    split_and!; [by apply list_elem_of_In|done|done].
  - intros (r&Hin&Hm&Hd). eapply find_none in E; [by apply bool_decide_eq_false in E|].
    apply filter_In. split; [by apply list_elem_of_In|done].
Qed.

(** The verdicts a composition can end with. *)
Lemma compose_primary c rs :
  (∀ r, r ∈ rs → ru_decision r ≠ D_deny ∧ ru_decision r ≠ D_require_approval) →
  ru_decision (cm_primary c) ≠ D_deny → ru_decision (cm_primary c) ≠ D_require_approval →
  ru_decision (cm_primary (foldl compose_step c rs)) ≠ D_deny ∧
  ru_decision (cm_primary (foldl compose_step c rs)) ≠ D_require_approval.
Proof.
  revert c. induction rs as [|r rs IH]; intros c Hrs H1 H2; [done|]. simpl.
  assert (ru_decision r ≠ D_deny ∧ ru_decision r ≠ D_require_approval) as [Hr1 Hr2] by (apply Hrs; left).
  apply IH.
  - intros x Hx. apply Hrs. by right.
  - unfold compose_step. repeat case_match; simpl; repeat case_match; done.
  - unfold compose_step. repeat case_match; simpl; repeat case_match; done.
Qed.

Lemma evaluate_spec (q : PolicyRequest) (sink : AuditSink) :
  ∃ d sink', evaluate q sink = (Ret d, sink') ∧
    (pd_decision d = D_deny ↔ matched_by D_deny q) ∧
    (pd_decision d = D_require_approval ↔ ¬ matched_by D_deny q ∧ matched_by D_require_approval q) ∧
    (if bool_decide (pd_decision d = D_deny ∨ pd_decision d = D_require_approval)
     then sink' = sink ++ [audit_record q (decision_value (pd_decision d)) (pd_reason d)
                             (pd_matched_policy_ids d) (pd_metadata d)]
     else sink' = sink).
Proof.
  pose proof (find_matching D_deny q) as Hdeny. pose proof (find_matching D_require_approval q) as Happr.
  unfold evaluate. destruct (List.find (λ r, bool_decide (ru_decision r = D_deny)) _) as [r|].
  { destruct Hdeny as (Hin&Hm&Hd). unfold to_decision, _audit_when_required. rewrite Hd. m_unfold.
    do 2 eexists. split; [done|]. simpl. assert (matched_by D_deny q) by (by exists r).
    split; [done|]. split; [naive_solver|done]. }
  destruct (List.find (λ r, bool_decide (ru_decision r = D_require_approval)) _) as [r|].
  { destruct Happr as (Hin&Hm&Hd). unfold to_decision, _audit_when_required. rewrite Hd. m_unfold.
    do 2 eexists. split; [done|]. simpl. assert (matched_by D_require_approval q) by (by exists r).
    split; [naive_solver|]. split; [naive_solver|done]. }
  assert (∀ d, pd_decision d ≠ D_deny → pd_decision d ≠ D_require_approval →
    (pd_decision d = D_deny ↔ matched_by D_deny q) ∧
    (pd_decision d = D_require_approval ↔ ¬ matched_by D_deny q ∧ matched_by D_require_approval q) ∧
    (if bool_decide (pd_decision d = D_deny ∨ pd_decision d = D_require_approval)
     then sink = sink ++ [audit_record q (decision_value (pd_decision d)) (pd_reason d)
                             (pd_matched_policy_ids d) (pd_metadata d)]
     else sink = sink)) as Hother.
  { intros d Hd1 Hd2. rewrite bool_decide_false by tauto. by split_and!; split; naive_solver. }
  destruct (matching q) as [|r rs] eqn:Em.
  { exists decision_allow, sink. split; [done|]. by apply Hother. }
  exists (_compose_allow_decision r (r :: rs)), sink. split; [done|].
  assert (∀ x, x ∈ r :: rs → ru_decision x ≠ D_deny ∧ ru_decision x ≠ D_require_approval) as Hall.
  { intros x Hx. rewrite <-Em in Hx. apply list_elem_of_In, filter_In in Hx as [Hx%list_elem_of_In Hm].
    split; intros Hd; [apply Hdeny|apply Happr]; by exists x. }
  destruct (Hall r ltac:(left)) as [Hr1 Hr2].
  destruct (compose_primary (mkComposition [] [] [] r) (r :: rs) Hall Hr1 Hr2) as [H1 H2].
  apply Hother; unfold _compose_allow_decision; simpl in *; repeat case_match; done.
Qed.
(** C16: deny overrides everything and approval overrides every allowance: the
    verdict is "deny" exactly when some matching rule denies, and
    "require_approval" exactly when none denies and some matching rule requires
    approval; exactly then one audit record with that verdict is written, and
    otherwise none. *)
Theorem evaluate_precedence (q : PolicyRequest) (sink : AuditSink) :
  ∃ d sink', evaluate q sink = (Ret d, sink') ∧
    (pd_decision d = D_deny ↔ matched_by D_deny q) ∧
    (pd_decision d = D_require_approval ↔ ¬ matched_by D_deny q ∧ matched_by D_require_approval q) ∧
    (if bool_decide (pd_decision d = D_deny ∨ pd_decision d = D_require_approval)
     then sink' = sink ++ [audit_record q (decision_value (pd_decision d)) (pd_reason d)
                             (pd_matched_policy_ids d) (pd_metadata d)]
     else sink' = sink).
Proof. apply evaluate_spec. Qed.
End engine.

(** ** What an allowance collects *)

Lemma add_redactions_in acc new x : x ∈ add_redactions acc new ↔ x ∈ acc ∨ x ∈ new.
Proof.
  unfold add_redactions. revert acc. induction new as [|y new IH]; intros acc; simpl.
  { rewrite elem_of_nil. tauto. }
  rewrite IH, elem_of_cons. case_bool_decide; [naive_solver|]. rewrite elem_of_app, list_elem_of_singleton. tauto.
Qed.

Lemma add_redactions_nodup acc new : NoDup acc → NoDup (add_redactions acc new).
Proof.
  unfold add_redactions. revert acc. induction new as [|y new IH]; intros acc Hnd; simpl; [done|].
  apply IH. case_bool_decide; [done|]. apply NoDup_app. split_and!; [done| |apply NoDup_singleton].
  intros x Hx ->%list_elem_of_singleton. done.
Qed.

Lemma compose_redactions py_str c rs x :
  x ∈ cm_redactions (foldl (compose_step py_str) c rs) ↔ x ∈ cm_redactions c ∨
    ∃ r, r ∈ rs ∧ allow_kind (ru_decision r) = true ∧ x ∈ _metadata_redactions py_str (ru_metadata r).
Proof.
  revert c. induction rs as [|r rs IH]; intros c; simpl.
  { split; [by left|]. intros [?|(r&[]%elem_of_nil&_)]. done. }
  rewrite IH. setoid_rewrite elem_of_cons. unfold compose_step.
  destruct (allow_kind (ru_decision r)) eqn:E; simpl.
  - rewrite add_redactions_in. split.
    + intros [[?|?]|(r'&?&?&?)]; eauto 7.
    + intros [?|(r'&[->|?]&?&?)]; eauto 7.
  - split; [intros [?|(r'&?&?&?)]|intros [?|(r'&[->|?]&?&?)]]; eauto 7. congruence.
Qed.

Lemma compose_redactions_nodup py_str c rs :
  NoDup (cm_redactions c) → NoDup (cm_redactions (foldl (compose_step py_str) c rs)).
Proof.
  revert c. induction rs as [|r rs IH]; intros c Hnd; simpl; [done|]. apply IH.
  unfold compose_step. case_match; simpl; [done|]. by apply add_redactions_nodup.
Qed.

(** When nothing denies or asks for approval, the decision carries every
    redaction of every matching allowing rule, each once, and nothing else. *)
Theorem redactions_collected (py_str : value → string) (rules : list StaticPolicyRule)
    (q : PolicyRequest) (sink sink' : AuditSink) (d : PolicyDecision) (x : string)
    (Hev : evaluate py_str rules q sink = (Ret d, sink'))
    (Hd : ¬ matched_by rules D_deny q) (Ha : ¬ matched_by rules D_require_approval q) :
  NoDup (pd_redactions d) ∧
  (x ∈ pd_redactions d ↔ ∃ r, r ∈ rules ∧ matches r q = true ∧ allow_kind (ru_decision r) = true ∧
     x ∈ _metadata_redactions py_str (ru_metadata r)).
Proof.
  unfold evaluate in Hev. pose proof (find_matching rules D_deny q) as H1.
  pose proof (find_matching rules D_require_approval q) as H2.
  destruct (List.find (λ r, bool_decide (ru_decision r = D_deny)) _) as [r|]; [destruct Hd; by exists r|].
  destruct (List.find (λ r, bool_decide (ru_decision r = D_require_approval)) _) as [r|];
    [destruct Ha; by exists r|].
  assert ((∃ r, r ∈ rules ∧ matches r q = true ∧ allow_kind (ru_decision r) = true ∧
      x ∈ _metadata_redactions py_str (ru_metadata r)) ↔
    ∃ r, r ∈ matching rules q ∧ allow_kind (ru_decision r) = true ∧
      x ∈ _metadata_redactions py_str (ru_metadata r)) as ->.
  { assert (∀ r, r ∈ matching rules q ↔ r ∈ rules ∧ matches r q = true) as Hm
      by (intros r; rewrite !list_elem_of_In; apply filter_In).
    split; intros (r&Hr); exists r; rewrite Hm in *; tauto. }
  destruct (matching rules q) as [|r rs]; injection Hev as <- <-; simpl.
  - split; [constructor|]. rewrite elem_of_nil. split; [done|]. by intros (r&[]%elem_of_nil&_).
  - split; [by apply (compose_redactions_nodup py_str (mkComposition [] [] [] r) (r :: rs)); constructor|].
    etrans; [apply (compose_redactions py_str (mkComposition [] [] [] r) (r :: rs) x)|]. simpl.
    rewrite elem_of_nil. tauto.
Qed.

Lemma compose_skip py_str c rs1 x rs2 : allow_kind (ru_decision x) = false →
  foldl (compose_step py_str) c (rs1 ++ x :: rs2) = foldl (compose_step py_str) c (rs1 ++ rs2).
Proof. intros Hx. rewrite !foldl_app. simpl. unfold compose_step at 2. by rewrite Hx. Qed.

(** A rule whose verdict is "require_dry_run" or "fallback" has no effect
    unless it is the first rule that matches: with any matching rule before it,
    the decision and the audit trail are the same as without it. *)
Theorem dry_run_rule_ignored (py_str : value → string) (l1 l2 : list StaticPolicyRule)
    (x r : StaticPolicyRule) (q : PolicyRequest) (sink : AuditSink)
    (Hx : ru_decision x = D_require_dry_run ∨ ru_decision x = D_fallback)
    (Hr : r ∈ l1) (Hm : matches r q = true) :
  evaluate py_str (l1 ++ x :: l2) q sink = evaluate py_str (l1 ++ l2) q sink.
Proof.
  unfold evaluate, matching. rewrite !List.filter_app. simpl.
  destruct (matches x q); [|done]. rewrite !find_app. simpl.
  assert (∀ d, d = D_deny ∨ d = D_require_approval → bool_decide (ru_decision x = d) = false) as Hd.
  { intros d [->| ->]; apply bool_decide_eq_false; destruct Hx as [->| ->]; done. }
  rewrite !Hd by auto. assert (In r (List.filter (λ r, matches r q) l1)) as Hin.
  { apply filter_In. split; [by apply list_elem_of_In|done]. }
  destruct (List.filter (λ r, matches r q) l1) as [|r1 rs1]; [done|]. simpl.
  repeat case_match; try done. unfold _compose_allow_decision.
  change (r1 :: rs1 ++ x :: List.filter (λ r, matches r q) l2) with
    ((r1 :: rs1) ++ x :: List.filter (λ r, matches r q) l2).
  by rewrite compose_skip by (by destruct Hx as [->| ->]).
Qed.

Definition rule (id : string) (d : Decision) (metadata : pydict) : StaticPolicyRule :=
  mkRule id "tool" "call" d "because" None None None None None None metadata.
Definition tool_request : PolicyRequest :=
  mkPolicyRequest 1 (Some 1) (Some "u") "user" "tool" (Some 9) "call" None None None None None None None [] [].

Lemma redactions_collected_witness :
  NoDup ["email"; "phone"] ∧
  ("phone" ∈ ["email"; "phone"] ↔ ∃ r, r ∈ [rule "a" D_allow [("redactions", VList [VStr "email"])];
     rule "b" D_allow_with_redaction [("redactions", VList [VStr " phone "; VStr "email"])]] ∧
     matches r tool_request = true ∧ allow_kind (ru_decision r) = true ∧
     "phone" ∈ _metadata_redactions (λ _, "") (ru_metadata r)).
Proof.
  refine (redactions_collected (λ _, "") [rule "a" D_allow [("redactions", VList [VStr "email"])];
     rule "b" D_allow_with_redaction [("redactions", VList [VStr " phone "; VStr "email"])]] tool_request []
     _ _ "phone" ltac:(vm_compute; reflexivity) _ _);
    intros (r&Hin&_&Hd); apply elem_of_cons in Hin as [->|Hin]; try discriminate Hd;
    apply list_elem_of_singleton in Hin as ->; discriminate Hd.
Defined.

Lemma dry_run_rule_ignored_witness :
  (evaluate (λ _, "") ([rule "a" D_allow []] ++ rule "dry" D_require_dry_run [] :: []) tool_request []).1
  = Ret (mkPolicyDecision D_allow (Some "because") ["a"] [] [] false None
           [("limits", VDict []); ("redactions", VList [])]).
Proof.
  rewrite (dry_run_rule_ignored (λ _, "") [rule "a" D_allow []] [] (rule "dry" D_require_dry_run [])
    (rule "a" D_allow []) tool_request []); [vm_compute; reflexivity|by left|by left|vm_compute; reflexivity].
Defined.
