(* ===== verification/ApiKeys.v ===== *)
(** Machine identities: service accounts ([identity/service_accounts.py]), API keys
    and their authentication ([security/api_keys.py]), and the administration
    requests that manage them ([api/admin/router.py],
    [api/admin/identity_workflows.py]).

    [sha256] is the hash of [hashlib]; the tokens of [secrets] and the clock are
    streams in the state. *)

From stdpp Require Import gmap.
From S2P Require Import Prelude Values Json Tables SqlNative Policy.

(** * Sets of permissions *)

Abbreviation scopes_t := (gset string).

(** [sorted(scopes)] *)
Definition sorted_scopes (s : scopes_t) : list string :=
  stable_sort (λ a b, chars_leb (to_chars a) (to_chars b)) (elements s).

(** * Service accounts *)

Record ServiceAccountRecord := mkAccount {
  sr_id : Z;
  sr_tenant_id : Z;
  sr_project_id : option Z;
  sr_name : string;
  sr_permissions : scopes_t;
  sr_created_by : string;
  sr_status : string;
  sr_created_at : Z;
  sr_last_used_at : option Z
}.
#[export] Instance ServiceAccountRecord_eta : Eta ServiceAccountRecord := λ a,
  mkAccount (sr_id a) (sr_tenant_id a) (sr_project_id a) (sr_name a) (sr_permissions a) (sr_created_by a)
    (sr_status a) (sr_created_at a) (sr_last_used_at a).

(** What the authenticator and the requests need of a registry. *)
Class ServiceAccounts (R : Type) := {
  sa_create : Z → option Z → string → scopes_t → string → M R ServiceAccountRecord;
  sa_get : Z → M R ServiceAccountRecord;
  sa_list : R → list ServiceAccountRecord;
  sa_set_status : Z → string → M R ServiceAccountRecord;
  sa_update : Z → option string → option scopes_t → option string → M R ServiceAccountRecord;
  sa_delete : Z → M R ServiceAccountRecord;
  sa_mark_used : Z → M R unit
}.

(** ** In process *)

Record ServiceAccountRegistry := mkRegistry {
  rg_now : nat → Z;
  rg_ticks : nat;
  rg_accounts : dict Z ServiceAccountRecord;
  rg_next_id : Z
}.
#[export] Instance ServiceAccountRegistry_eta : Eta ServiceAccountRegistry := λ r,
  mkRegistry (rg_now r) (rg_ticks r) (rg_accounts r) (rg_next_id r).
Definition new_registry (now : nat → Z) : ServiceAccountRegistry := mkRegistry now 0 [] 1.

Definition registry_now : M ServiceAccountRegistry Z :=
  r ← get_state;
  modify (λ r, r <| rg_ticks := S (rg_ticks r) |>) ;;
  mret (rg_now r (rg_ticks r)).

Definition account_create (tenant : Z) (project : option Z) (name : string) (permissions : scopes_t)
    (created_by : string) : M ServiceAccountRegistry ServiceAccountRecord :=
  r ← get_state;
  now ← registry_now;
  let record := mkAccount (rg_next_id r) tenant project name permissions created_by "active" now None in
  modify (λ r, r <| rg_next_id := rg_next_id r + 1 |>) ;;
  modify (λ r, r <| rg_accounts := dict_set (sr_id record) record (rg_accounts r) |>) ;;
  mret record.

Definition account_get (id : Z) : M ServiceAccountRegistry ServiceAccountRecord :=
  r ← get_state; of_option (dict_get id (rg_accounts r)) (KeyError (pretty id)).

Definition account_list (r : ServiceAccountRegistry) : list ServiceAccountRecord :=
  stable_sort (λ a b, sr_created_at b <=? sr_created_at a) (dict_values (rg_accounts r)).

Definition on_account {A} (id : Z) (m : M ServiceAccountRecord A) : M ServiceAccountRegistry A :=
  zoom rg_accounts (λ d r, r <| rg_accounts := d |>) (on_key id (KeyError (pretty id)) m).

Definition account_set_status (id : Z) (status : string) : M ServiceAccountRegistry ServiceAccountRecord :=
  account_get id ;;
  on_account id (modify (λ a, a <| sr_status := status |>)) ;;
  account_get id.

(** The fields [update] is given. *)
Definition with_update (name : option string) (permissions : option scopes_t) (status : option string)
    (a : ServiceAccountRecord) : ServiceAccountRecord :=
  let a := match name with Some n => a <| sr_name := n |> | None => a end in
  let a := match permissions with Some p => a <| sr_permissions := p |> | None => a end in
  match status with Some st => a <| sr_status := st |> | None => a end.

Definition account_update (id : Z) (name : option string) (permissions : option scopes_t)
    (status : option string) : M ServiceAccountRegistry ServiceAccountRecord :=
  account_get id ;;
  on_account id (modify (with_update name permissions status)) ;;
  account_get id.

Definition account_delete (id : Z) : M ServiceAccountRegistry ServiceAccountRecord :=
  account_get id ;;
  on_account id (modify (λ a, a <| sr_status := "deleted" |>)) ;;
  account_get id.

Definition account_mark_used (id : Z) : M ServiceAccountRegistry unit :=
  now ← registry_now;
  on_account id (modify (λ a, a <| sr_last_used_at := Some now |>)).

#[export] Instance in_memory_accounts : ServiceAccounts ServiceAccountRegistry := {
  sa_create := account_create;
  sa_get := account_get;
  sa_list := account_list;
  sa_set_status := account_set_status;
  sa_update := account_update;
  sa_delete := account_delete;
  sa_mark_used := account_mark_used
}.

(** ** In the database *)

Record ServiceAccountRow := mkAccountRow {
  sw_id : Z;
  sw_tenant_id : Z;
  sw_project_id : option Z;
  sw_name : string;
  sw_permissions_json : list string;
  sw_status : string;
  sw_created_by : option string;
  sw_updated_by : option string;
  sw_created_at : Z;
  sw_updated_at : Z;
  sw_last_used_at : option Z;
  sw_is_deleted : bool;
  sw_deleted_at : option Z
}.
#[export] Instance ServiceAccountRow_eta : Eta ServiceAccountRow := λ w,
  mkAccountRow (sw_id w) (sw_tenant_id w) (sw_project_id w) (sw_name w) (sw_permissions_json w) (sw_status w)
    (sw_created_by w) (sw_updated_by w) (sw_created_at w) (sw_updated_at w) (sw_last_used_at w)
    (sw_is_deleted w) (sw_deleted_at w).

(** The table, and the tenants and projects there are. *)
Record AccountTable := mkAccountTable {
  st_now : nat → Z;
  st_ticks : nat;
  st_rows : dict Z ServiceAccountRow;
  st_next_id : Z;
  st_tenants : list Z;
  st_projects : list Z
}.
#[export] Instance AccountTable_eta : Eta AccountTable := λ t,
  mkAccountTable (st_now t) (st_ticks t) (st_rows t) (st_next_id t) (st_tenants t) (st_projects t).

(** [value or "system"] *)
Definition or_system (v : option string) : string := or_str v "system".

Definition account_of_row (w : ServiceAccountRow) : ServiceAccountRecord :=
  mkAccount (sw_id w) (sw_tenant_id w) (sw_project_id w) (sw_name w) (list_to_set (sw_permissions_json w))
    (or_system (sw_created_by w)) (sw_status w) (sw_created_at w) (sw_last_used_at w).

Definition account_now : M AccountTable Z :=
  t ← get_state;
  modify (λ t, t <| st_ticks := S (st_ticks t) |>) ;;
  mret (st_now t (st_ticks t)).

Definition sql_account_create (tenant : Z) (project : option Z) (name : string) (permissions : scopes_t)
    (created_by : string) : M AccountTable ServiceAccountRecord :=
  now ← account_now;
  t ← get_state;
  check (bool_decide (tenant ∈ st_tenants t)) (KeyError (pretty tenant)) ;;
  check (match project with Some p => bool_decide (p ∈ st_projects t) | None => true end)
    (KeyError (pretty (default 0 project))) ;;
  let row := mkAccountRow (st_next_id t) tenant project name (sorted_scopes permissions) "active"
    (Some created_by) (Some created_by) now now None false None in
  modify (λ t, t <| st_rows := dict_set (sw_id row) row (st_rows t) |> <| st_next_id := st_next_id t + 1 |>) ;;
  mret (account_of_row row).

(** [session.get], without deleted rows *)
Definition account_row (id : Z) (t : AccountTable) : option ServiceAccountRow :=
  w ← dict_get id (st_rows t); if sw_is_deleted w then None else Some w.

Definition sql_account_get (id : Z) : M AccountTable ServiceAccountRecord :=
  t ← get_state;
  w ← of_option (account_row id t) (KeyError (pretty id));
  mret (account_of_row w).

Definition sql_account_list (t : AccountTable) : list ServiceAccountRecord :=
  account_of_row <$> stable_sort (λ a b, sw_created_at b <=? sw_created_at a)
    (List.filter (λ w, negb (sw_is_deleted w)) (dict_values (st_rows t))).

Definition set_account_row (id : Z) (w : ServiceAccountRow) : M AccountTable unit :=
  modify (λ t, t <| st_rows := dict_set id w (st_rows t) |>).

Definition sql_account_set_status (id : Z) (status : string) : M AccountTable ServiceAccountRecord :=
  t ← get_state;
  w ← of_option (account_row id t) (KeyError (pretty id));
  now ← account_now;
  let w := w <| sw_status := status |> <| sw_updated_at := now |> in
  set_account_row id w ;;
  mret (account_of_row w).

Definition sql_account_update (id : Z) (name : option string) (permissions : option scopes_t)
    (status : option string) : M AccountTable ServiceAccountRecord :=
  t ← get_state;
  w ← of_option (account_row id t) (KeyError (pretty id));
  let w := match name with Some n => w <| sw_name := n |> | None => w end in
  let w := match permissions with Some p => w <| sw_permissions_json := sorted_scopes p |> | None => w end in
  let w := match status with Some st => w <| sw_status := st |> | None => w end in
  now ← account_now;
  let w := w <| sw_updated_at := now |> in
  set_account_row id w ;;
  mret (account_of_row w).

Definition sql_account_delete (id : Z) : M AccountTable ServiceAccountRecord :=
  t ← get_state;
  w ← of_option (account_row id t) (KeyError (pretty id));
  now ← account_now;
  let w := w <| sw_status := "deleted" |> <| sw_is_deleted := true |> <| sw_deleted_at := Some now |>
             <| sw_updated_at := now |> in
  set_account_row id w ;;
  mret (account_of_row w).

(** Deleted rows are marked, too. *)
Definition sql_account_mark_used (id : Z) : M AccountTable unit :=
  t ← get_state;
  match dict_get id (st_rows t) with
  | None => mret tt
  | Some w =>
      now ← account_now;
      set_account_row id (w <| sw_last_used_at := Some now |> <| sw_updated_at := now |>)
  end.

#[export] Instance sql_accounts : ServiceAccounts AccountTable := {
  sa_create := sql_account_create;
  sa_get := sql_account_get;
  sa_list := sql_account_list;
  sa_set_status := sql_account_set_status;
  sa_update := sql_account_update;
  sa_delete := sql_account_delete;
  sa_mark_used := sql_account_mark_used
}.

(** * API keys *)

Record APIKeyRecord := mkKey {
  ak_id : Z;
  ak_tenant_id : Z;
  ak_project_id : option Z;
  ak_name : string;
  ak_owner_type : string;
  ak_owner_id : Z;
  ak_key_hash : string;
  ak_key_prefix : string;
  ak_scopes : scopes_t;
  ak_status : string;
  ak_created_by : string;
  ak_created_at : Z;
  ak_last_used_at : option Z;
  ak_expires_at : option Z
}.
#[export] Instance APIKeyRecord_eta : Eta APIKeyRecord := λ k,
  mkKey (ak_id k) (ak_tenant_id k) (ak_project_id k) (ak_name k) (ak_owner_type k) (ak_owner_id k)
    (ak_key_hash k) (ak_key_prefix k) (ak_scopes k) (ak_status k) (ak_created_by k) (ak_created_at k)
    (ak_last_used_at k) (ak_expires_at k).

Record AuthenticatedActor := mkActor {
  ac_tenant_id : Z;
  ac_project_id : option Z;
  ac_actor_type : string;
  ac_actor_id : string;
  ac_scopes : scopes_t;
  ac_api_key_id : option Z
}.

Record APIKeyRow := mkKeyRow {
  kw_id : Z;
  kw_tenant_id : Z;
  kw_project_id : option Z;
  kw_name : string;
  kw_owner_type : string;
  kw_owner_id : Z;
  kw_key_hash : string;
  kw_key_prefix : string;
  kw_scopes_json : list string;
  kw_status : string;
  kw_created_by : option string;
  kw_updated_by : option string;
  kw_created_at : Z;
  kw_updated_at : Z;
  kw_last_used_at : option Z;
  kw_expires_at : option Z;
  kw_is_deleted : bool;
  kw_deleted_by : option string;
  kw_deleted_at : option Z
}.
#[export] Instance APIKeyRow_eta : Eta APIKeyRow := λ w,
  mkKeyRow (kw_id w) (kw_tenant_id w) (kw_project_id w) (kw_name w) (kw_owner_type w) (kw_owner_id w)
    (kw_key_hash w) (kw_key_prefix w) (kw_scopes_json w) (kw_status w) (kw_created_by w) (kw_updated_by w)
    (kw_created_at w) (kw_updated_at w) (kw_last_used_at w) (kw_expires_at w) (kw_is_deleted w)
    (kw_deleted_by w) (kw_deleted_at w).

(** The row of a record; the database chooses its [id]. *)
Definition _model_from_record (id : Z) (k : APIKeyRecord) : APIKeyRow :=
  mkKeyRow id (ak_tenant_id k) (ak_project_id k) (ak_name k) (ak_owner_type k) (ak_owner_id k)
    (ak_key_hash k) (ak_key_prefix k) (sorted_scopes (ak_scopes k)) (ak_status k) (Some (ak_created_by k))
    (Some (ak_created_by k)) (ak_created_at k) (ak_created_at k) None (ak_expires_at k) false None None.

Definition _record_from_model (w : APIKeyRow) : APIKeyRecord :=
  mkKey (kw_id w) (kw_tenant_id w) (kw_project_id w) (kw_name w) (kw_owner_type w) (kw_owner_id w)
    (kw_key_hash w) (kw_key_prefix w) (list_to_set (kw_scopes_json w)) (kw_status w)
    (or_system (kw_created_by w)) (kw_created_at w) (kw_last_used_at w) (kw_expires_at w).

(** The authenticator; [au_db] tells whether it was given a session factory, and
    [au_rows] is the table [api_keys] it then works on. *)
Record APIKeyAuthenticator (R : Type) := mkAuth {
  au_service_accounts : R;
  au_audit_sink : AuditSink;
  au_now : nat → Z;
  au_ticks : nat;
  au_token : nat → string;
  au_drawn : nat;
  au_db : bool;
  au_keys : dict Z APIKeyRecord;
  au_next_id : Z;
  au_rows : dict Z APIKeyRow;
  au_next_row : Z;
  au_audit_log : list AuditLog
}.
Arguments mkAuth {R}.
Arguments au_service_accounts {R}.
Arguments au_audit_sink {R}.
Arguments au_now {R}.
Arguments au_ticks {R}.
Arguments au_token {R}.
Arguments au_drawn {R}.
Arguments au_db {R}.
Arguments au_keys {R}.
Arguments au_next_id {R}.
Arguments au_rows {R}.
Arguments au_next_row {R}.
Arguments au_audit_log {R}.
#[export] Instance APIKeyAuthenticator_eta {R} : Eta (APIKeyAuthenticator R) := λ s,
  mkAuth (au_service_accounts s) (au_audit_sink s) (au_now s) (au_ticks s) (au_token s) (au_drawn s) (au_db s)
    (au_keys s) (au_next_id s) (au_rows s) (au_next_row s) (au_audit_log s).

Definition new_authenticator {R} (accounts : R) (now : nat → Z) (token : nat → string) (db : bool)
  : APIKeyAuthenticator R := mkAuth accounts [] now 0 token 0 db [] 1 [] 1 [].

Section authenticator.
Context {R : Type} `{!ServiceAccounts R}.
Context (sha256 : string → string).
Abbreviation Auth := (APIKeyAuthenticator R).
Implicit Types s : Auth.

Definition auth_now : M Auth Z :=
  s ← get_state;
  modify (λ s, s <| au_ticks := S (au_ticks s) |>) ;;
  mret (au_now s (au_ticks s)).

(** [secrets.token_urlsafe(24)] *)
Definition draw_token : M Auth string :=
  s ← get_state;
  modify (λ s, s <| au_drawn := S (au_drawn s) |>) ;;
  mret (au_token s (au_drawn s)).

Definition in_accounts {A} (m : M R A) : M Auth A :=
  zoom au_service_accounts (λ r s, s <| au_service_accounts := r |>) m.

Definition in_audit_sink {A} (m : M AuditSink A) : M Auth A :=
  zoom au_audit_sink (λ l s, s <| au_audit_sink := l |>) m.

Definition on_api_key {A} (id : Z) (m : M APIKeyRecord A) : M Auth A :=
  zoom au_keys (λ d s, s <| au_keys := d |>) (on_key id (KeyError (pretty id)) m).

Definition set_key_row (id : Z) (w : APIKeyRow) : M Auth unit :=
  modify (λ s, s <| au_rows := dict_set id w (au_rows s) |>).

(** [session.get(APIKey, id)], without deleted rows *)
Definition key_row (id : Z) s : option APIKeyRow :=
  w ← dict_get id (au_rows s); if kw_is_deleted w then None else Some w.

Definition _hash (plain_key : string) : string := sha256 plain_key.

Definition _assert_owner_scope_subset (tenant : Z) (project : option Z) (owner_type : string) (owner : Z)
    (scopes : scopes_t) : M Auth unit :=
  if negb (bool_decide (owner_type = "service_account")) then mret tt
  else
    owner ← in_accounts (sa_get owner);
    check (bool_decide (sr_status owner = "active")) (APIKeyDisabledError "owner_disabled") ;;
    check (bool_decide (sr_tenant_id owner = tenant) && bool_decide (sr_project_id owner = project))
      (APIKeyScopeError "owner_scope_mismatch") ;;
    check (bool_decide (scopes ⊆ sr_permissions owner)) (APIKeyScopeError "api_key_scope_exceeds_owner").

(** [session.add(model)]: key hashes are unique. *)
Definition insert_key_row (record : APIKeyRecord) : M Auth APIKeyRecord :=
  s ← get_state;
  check (bool_decide (Forall (λ w, kw_key_hash w ≠ ak_key_hash record) (dict_values (au_rows s))))
    (IntegrityError "uq_api_keys_key_hash") ;;
  let row := _model_from_record (au_next_row s) record in
  modify (λ s, s <| au_rows := dict_set (kw_id row) row (au_rows s) |>
                 <| au_next_row := au_next_row s + 1 |>) ;;
  mret (_record_from_model row).

(** The part of [create_key] after the check. *)
Definition issue_key (tenant : Z) (project : option Z) (name owner_type : string) (owner : Z)
    (scopes : scopes_t) (created_by : string) (expires_at : option Z) : M Auth (string * APIKeyRecord) :=
  token ← draw_token;
  let plain_key := "dr_" +:+ token in
  s ← get_state;
  now ← auth_now;
  let record := mkKey (au_next_id s) tenant project name owner_type owner (_hash plain_key)
    (String.substring 0 12 plain_key) scopes "active" created_by now None expires_at in
  modify (λ s, s <| au_next_id := au_next_id s + 1 |>) ;;
  if au_db s then
    record ← insert_key_row record;
    mret (plain_key, record)
  else
    modify (λ s, s <| au_keys := dict_set (ak_id record) record (au_keys s) |>) ;;
    mret (plain_key, record).

Definition create_key (tenant : Z) (project : option Z) (name owner_type : string) (owner : Z)
    (scopes : scopes_t) (created_by : string) (expires_at : option Z) : M Auth (string * APIKeyRecord) :=
  _assert_owner_scope_subset tenant project owner_type owner scopes ;;
  issue_key tenant project name owner_type owner scopes created_by expires_at.

Definition _find_by_hash (key_hash : string) : M Auth APIKeyRecord :=
  s ← get_state;
  if au_db s then
    w ← of_option (List.find (λ w, bool_decide (kw_key_hash w = key_hash) && negb (kw_is_deleted w))
      (dict_values (au_rows s))) (APIKeyError "api_key_not_found");
    if bool_decide (kw_status w = "active") then
      now ← auth_now;
      set_key_row (kw_id w) (w <| kw_last_used_at := Some now |> <| kw_updated_at := now |>) ;;
      mret ((_record_from_model w) <| ak_last_used_at := Some now |>)
    else mret (_record_from_model w)
  else
    of_option (List.find (λ k, bool_decide (ak_key_hash k = key_hash)) (dict_values (au_keys s)))
      (APIKeyError "api_key_not_found").

Definition authenticate (plain_key : string) (tenant : Z) (project : option Z) (required_scope : string)
  : M Auth AuthenticatedActor :=
  record ← _find_by_hash (_hash plain_key);
  check (bool_decide (ak_status record = "active")) (APIKeyDisabledError (pretty (ak_id record))) ;;
  match ak_expires_at record with
  | Some e => now ← auth_now; check (negb (e <=? now)) (APIKeyDisabledError (pretty (ak_id record)))
  | None => mret tt
  end ;;
  check (ak_tenant_id record =? tenant) (APIKeyScopeError "tenant_scope_mismatch") ;;
  check (match ak_project_id record with Some p => bool_decide (project = Some p) | None => true end)
    (APIKeyScopeError "project_scope_mismatch") ;;
  check (bool_decide (required_scope ∈ ak_scopes record)) (APIKeyScopeError required_scope) ;;
  now ← auth_now;
  s ← get_state;
  (** the record found in process is the stored one *)
  (if au_db s then mret tt else on_api_key (ak_id record) (modify (λ k, k <| ak_last_used_at := Some now |>))) ;;
  (if bool_decide (ak_owner_type record = "service_account")
   then in_accounts (sa_mark_used (ak_owner_id record)) else mret tt) ;;
  in_audit_sink (write (mkAuditRecord tenant project (Some (pretty (ak_owner_id record))) (ak_owner_type record)
    "api_key" (Some (ak_id record)) "authenticate" "allow" None []
    [("required_scope", VStr required_scope)])) ;;
  mret (mkActor tenant project (ak_owner_type record) (pretty (ak_owner_id record)) (ak_scopes record)
    (Some (ak_id record))).

(** [disable_key] also finds deleted rows. *)
Definition disable_key (id : Z) (actor : string) : M Auth APIKeyRecord :=
  s ← get_state;
  if au_db s then
    w ← of_option (dict_get id (au_rows s)) (KeyError (pretty id));
    now ← auth_now;
    let w := w <| kw_status := "disabled" |> <| kw_updated_by := Some actor |> <| kw_updated_at := now |> in
    set_key_row id w ;;
    mret (_record_from_model w)
  else
    on_api_key id (modify (λ k, k <| ak_status := "disabled" |>) ;; get_state).

Definition enable_key (id : Z) (actor : string) : M Auth APIKeyRecord :=
  s ← get_state;
  if au_db s then
    w ← of_option (key_row id s) (KeyError (pretty id));
    let record := _record_from_model w in
    _assert_owner_scope_subset (ak_tenant_id record) (ak_project_id record) (ak_owner_type record)
      (ak_owner_id record) (ak_scopes record) ;;
    now ← auth_now;
    let w := w <| kw_status := "active" |> <| kw_updated_by := Some actor |> <| kw_updated_at := now |> in
    set_key_row id w ;;
    mret (_record_from_model w)
  else
    record ← of_option (dict_get id (au_keys s)) (KeyError (pretty id));
    _assert_owner_scope_subset (ak_tenant_id record) (ak_project_id record) (ak_owner_type record)
      (ak_owner_id record) (ak_scopes record) ;;
    on_api_key id (modify (λ k, k <| ak_status := "active" |>) ;; get_state).

Definition delete_key (id : Z) (actor : string) : M Auth APIKeyRecord :=
  s ← get_state;
  if au_db s then
    w ← of_option (key_row id s) (KeyError (pretty id));
    now ← auth_now;
    let w := w <| kw_status := "deleted" |> <| kw_is_deleted := true |> <| kw_deleted_by := Some actor |>
               <| kw_deleted_at := Some now |> <| kw_updated_by := Some actor |> <| kw_updated_at := now |> in
    set_key_row id w ;;
    mret (_record_from_model w)
  else
    record ← of_option (dict_get id (au_keys s)) (KeyError (pretty id));
    modify (λ s, s <| au_keys := dict_pop id (au_keys s) |>) ;;
    mret (record <| ak_status := "deleted" |>).

Definition expire_key (id : Z) (actor : string) : M Auth APIKeyRecord :=
  now ← auth_now;
  s ← get_state;
  if au_db s then
    w ← of_option (key_row id s) (KeyError (pretty id));
    let w := w <| kw_status := "disabled" |> <| kw_expires_at := Some now |>
               <| kw_updated_by := Some actor |> <| kw_updated_at := now |> in
    set_key_row id w ;;
    mret (_record_from_model w)
  else
    on_api_key id (modify (λ k, k <| ak_status := "disabled" |> <| ak_expires_at := Some now |>) ;; get_state).

(** [list_keys]; the newest first *)
Definition list_keys (owner_type : option string) (owner : option Z) s : list APIKeyRecord :=
  let selected k :=
    match owner_type with Some t => bool_decide (ak_owner_type k = t) | None => true end &&
    match owner with Some o => ak_owner_id k =? o | None => true end in
  stable_sort (λ a b, ak_created_at b <=? ak_created_at a) (List.filter selected
    (if au_db s
     then _record_from_model <$> List.filter (λ w, negb (kw_is_deleted w)) (dict_values (au_rows s))
     else dict_values (au_keys s))).
End authenticator.

(** * Administration requests *)

(** A reply: an item, or an error code with its HTTP status. *)
Inductive reply (A : Type) : Type :=
| Item (a : A)
| Refused (status : Z) (error_code : string).
Arguments Item {A} a.
Arguments Refused {A} status error_code.

Definition _actor_can_access_target (actor : AuthenticatedActor) (tenant : Z) (project : option Z) : bool :=
  if bool_decide ("*" ∈ ac_scopes actor) then true
  else if negb (ac_tenant_id actor =? tenant) then false
  else match ac_project_id actor, project with
       | Some p, Some q => p =? q
       | _, _ => true
       end.

(** The request bodies, with the types the console sends. *)
Record CreateAccount := mkCreateAccount {
  ca_tenant_id : option Z;
  ca_project_id : option Z;
  ca_name : option string;
  ca_permissions : option (list string)
}.
Record UpdateAccount := mkUpdateAccount {
  ua_name : option string;
  ua_permissions : option (list string);
  ua_status : option string
}.
Record KeyBody := mkKeyBody {
  kb_name : option string;
  kb_scopes : option (list string);
  kb_expires_at : option Z
}.

(** [value or default] of a list *)
Definition or_list (v : option (list string)) (d : list string) : list string :=
  match v with Some (x :: l) => x :: l | _ => d end.

Section requests.
Context {R : Type} `{!ServiceAccounts R}.
Context (sha256 : string → string).
Abbreviation Auth := (APIKeyAuthenticator R).
Implicit Types s : Auth.

Definition _append_identity_audit (actor : AuthenticatedActor) (action resource_type : string) (resource : Z)
    (metadata : pydict) : M Auth unit :=
  modify (λ s, s <| au_audit_log := au_audit_log s ++ [mkAuditLog (ac_tenant_id actor) (ac_project_id actor)
    (Some (ac_actor_id actor)) (ac_actor_type actor) action resource_type (Some resource) "allow" metadata] |>).

Definition str_list (s : scopes_t) : value := VList (VStr <$> sorted_scopes s).

Definition create_identity_service_account (actor : AuthenticatedActor) (data : CreateAccount)
  : M Auth (reply ServiceAccountRecord) :=
  let tenant := or_int (ca_tenant_id data) (ac_tenant_id actor) in
  let project := match ca_project_id data with
    | Some p => if p =? 0 then ac_project_id actor else Some p
    | None => ac_project_id actor
    end in
  match project with
  | None => mret (Refused 400 "project_scope_required")
  | Some p =>
      if negb (_actor_can_access_target actor tenant (Some p)) then mret (Refused 403 "scope_not_allowed")
      else
        record ← in_accounts (sa_create tenant (Some p) (or_str (ca_name data) "Service Account")
          (list_to_set (or_list (ca_permissions data) ["agent:read"])) (ac_actor_id actor));
        _append_identity_audit actor "identity.service_account.create" "service_account" (sr_id record)
          [("permissions", str_list (sr_permissions record))] ;;
        mret (Item record)
  end.

(** [registry.get(id)], or the reply when there is none *)
Definition with_account {A} (actor : AuthenticatedActor) (id : Z) (missing : string)
    (k : ServiceAccountRecord → M Auth (reply A)) : M Auth (reply A) :=
  record ← catch (in_accounts (sa_get id));
  match record with
  | Raise (KeyError _) => mret (Refused 404 missing)
  | Raise e => raise e
  | Ret record =>
      if negb (_actor_can_access_target actor (sr_tenant_id record) (sr_project_id record))
      then mret (Refused 403 "scope_not_allowed")
      else k record
  end.

Definition disable_keys (actor : string) (keys : list APIKeyRecord) : M Auth unit :=
  for_each keys (λ key, disable_key (ak_id key) actor ;; mret tt).

Definition owned_keys (account : Z) s : list APIKeyRecord := list_keys (Some "service_account") (Some account) s.

Definition _disable_api_keys_outside_service_account_permissions (account : Z) (record : ServiceAccountRecord)
    (actor : AuthenticatedActor) : M Auth unit :=
  s ← get_state;
  for_each (owned_keys account s) (λ key,
    if negb (bool_decide (ak_scopes key ⊆ sr_permissions record))
    then disable_key (ak_id key) (ac_actor_id actor) ;; mret tt
    else mret tt).

Definition update_identity_service_account (account : Z) (actor : AuthenticatedActor) (data : UpdateAccount)
  : M Auth (reply ServiceAccountRecord) :=
  with_account actor account "resource_not_found" (λ record,
    let permissions : option scopes_t := list_to_set <$> ua_permissions data in
    match ua_status data with
    | Some status =>
        record ← in_accounts (sa_update account (ua_name data) permissions (Some status));
        (if negb (bool_decide (sr_status record = "active")) then
           s ← get_state; disable_keys "console" (owned_keys account s)
         else if bool_decide (is_Some permissions) then
           _disable_api_keys_outside_service_account_permissions account record actor
         else mret tt) ;;
        _append_identity_audit actor "identity.service_account.update" "service_account" account
          [("status", VStr status)] ;;
        mret (Item record)
    | None =>
        if bool_decide (is_Some (ua_name data)) || bool_decide (is_Some permissions) then
          record ← in_accounts (sa_update account (ua_name data) permissions None);
          (if bool_decide (is_Some permissions) then
             _disable_api_keys_outside_service_account_permissions account record actor
           else mret tt) ;;
          _append_identity_audit actor "identity.service_account.update" "service_account" account
            [("permissions", str_list (sr_permissions record))] ;;
          mret (Item record)
        else mret (Item record)
    end).

Definition delete_identity_service_account (account : Z) (actor : AuthenticatedActor)
  : M Auth (reply ServiceAccountRecord) :=
  with_account actor account "resource_not_found" (λ _,
    record ← in_accounts (sa_delete account);
    s ← get_state;
    disable_keys (ac_actor_id actor) (owned_keys account s) ;;
    _append_identity_audit actor "identity.service_account.delete" "service_account" account [] ;;
    mret (Item record)).

(** Only [APIKeyScopeError] is turned into a reply. *)
Definition create_identity_service_account_api_key (account : Z) (actor : AuthenticatedActor) (data : KeyBody)
  : M Auth (reply (string * APIKeyRecord)) :=
  with_account actor account "resource_not_found" (λ owner,
    r ← catch (create_key sha256 (sr_tenant_id owner) (sr_project_id owner) (or_str (kb_name data) "API Key")
      "service_account" account (list_to_set (or_list (kb_scopes data) [])) (ac_actor_id actor)
      (kb_expires_at data));
    match r with
    | Raise (APIKeyScopeError msg) => mret (Refused 403 msg)
    | Raise e => raise e
    | Ret (plain_key, record) =>
        _append_identity_audit actor "identity.api_key.create" "api_key" (ak_id record)
          [("service_account_id", VInt account); ("scopes", str_list (ak_scopes record))] ;;
        mret (Item (plain_key, record))
    end).

Definition _get_service_account_api_key (account key : Z) s : option APIKeyRecord :=
  List.find (λ k, ak_id k =? key) (owned_keys account s).

(** The key of the account, or the reply when there is none *)
Definition with_key (account key : Z) (actor : AuthenticatedActor)
    (k : M Auth (reply APIKeyRecord)) : M Auth (reply APIKeyRecord) :=
  s ← get_state;
  match _get_service_account_api_key account key s with
  | None => mret (Refused 404 "resource_not_found")
  | Some record =>
      if negb (_actor_can_access_target actor (ak_tenant_id record) (ak_project_id record))
      then mret (Refused 403 "scope_not_allowed")
      else k
  end.

Definition key_audit (actor : AuthenticatedActor) (action : string) (account key : Z) : M Auth unit :=
  _append_identity_audit actor action "api_key" key [("service_account_id", VInt account)].

Definition disable_identity_service_account_api_key (account key : Z) (actor : AuthenticatedActor)
  : M Auth (reply APIKeyRecord) :=
  with_key account key actor (
    record ← disable_key key (ac_actor_id actor);
    key_audit actor "identity.api_key.disable" account key ;;
    mret (Item record)).

Definition enable_identity_service_account_api_key (account key : Z) (actor : AuthenticatedActor)
  : M Auth (reply APIKeyRecord) :=
  with_key account key actor (
    r ← catch (enable_key key (ac_actor_id actor));
    match r with
    | Raise (APIKeyError msg) | Raise (APIKeyDisabledError msg) | Raise (APIKeyScopeError msg) =>
        mret (Refused 403 msg)
    | Raise (KeyError _) => mret (Refused 404 "api_key_not_found")
    | Raise e => raise e
    | Ret record =>
        key_audit actor "identity.api_key.enable" account key ;;
        mret (Item record)
    end).

Definition delete_identity_service_account_api_key (account key : Z) (actor : AuthenticatedActor)
  : M Auth (reply APIKeyRecord) :=
  with_key account key actor (
    record ← delete_key key (ac_actor_id actor);
    key_audit actor "identity.api_key.delete" account key ;;
    mret (Item record)).

(** [(x_audit_reason or "").strip()] is empty *)
Definition no_reason (reason : option string) : bool :=
  match reason with
  | Some r => bool_decide (strip (to_chars r) = [])
  | None => true
  end.

(** The metadata of [rotate] *)
Definition scope_diff (old new : scopes_t) : value :=
  VDict [("added", str_list (new ∖ old)); ("removed", str_list (old ∖ new)); ("unchanged", str_list (old ∩ new))].

Definition rotate_service_account_api_key (account key : Z) (actor : AuthenticatedActor) (requested : KeyBody)
    (reason : option string) : M Auth (reply (string * APIKeyRecord)) :=
  if no_reason reason then mret (Refused 400 "audit_reason_required")
  else with_account actor account "service_account_not_found" (λ _,
    s ← get_state;
    match _get_service_account_api_key account key s with
    | None => mret (Refused 404 "api_key_not_found")
    | Some current =>
        let scopes := match kb_scopes requested with
          | Some (x :: l) => list_to_set (x :: l)
          | _ => ak_scopes current
          end in
        let expires_at := match kb_expires_at requested with Some e => Some e | None => ak_expires_at current end in
        '(plain_key, rotated) ← create_key sha256 (ak_tenant_id current) (ak_project_id current)
          (or_str (kb_name requested) (ak_name current +:+ "-rotated")) (ak_owner_type current)
          (ak_owner_id current) scopes (ac_actor_id actor) expires_at;
        disable_key key (ac_actor_id actor) ;;
        _append_identity_audit actor "identity.api_key.rotate" "api_key" (ak_id rotated)
          [("audit_reason", of_str_opt reason); ("service_account_id", VInt account);
           ("rotated_from_key_id", VInt key); ("scope_diff", scope_diff (ak_scopes current) scopes)] ;;
        mret (Item (plain_key, rotated))
    end).

(** The key is not looked up under the account. *)
Definition force_expire_service_account_api_key (account key : Z) (actor : AuthenticatedActor)
    (reason : option string) : M Auth (reply APIKeyRecord) :=
  if no_reason reason then mret (Refused 400 "audit_reason_required")
  else with_account actor account "service_account_not_found" (λ _,
    r ← catch (expire_key key (ac_actor_id actor));
    match r with
    | Raise (KeyError _) => mret (Refused 404 "api_key_not_found")
    | Raise e => raise e
    | Ret record =>
        _append_identity_audit actor "identity.api_key.force_expire" "api_key" key
          [("audit_reason", of_str_opt reason); ("service_account_id", VInt account)] ;;
        mret (Item record)
    end).

Definition list_api_keys (actor : AuthenticatedActor) s : list APIKeyRecord :=
  List.filter (λ k, _actor_can_access_target actor (ak_tenant_id k) (ak_project_id k)) (list_keys None None s).

Definition list_identity_service_accounts (actor : AuthenticatedActor) s : list ServiceAccountRecord :=
  List.filter (λ a, _actor_can_access_target actor (sr_tenant_id a) (sr_project_id a))
    (sa_list (au_service_accounts s)).
End requests.
