(* ===== verification/ApiKeyProps.v ===== *)
(** What machine identities guarantee: a registry's promise as a type class kept by
    both registries; keys never have more rights than their owner; what it takes
    to authenticate; revoked keys stay out; and where the requests fall short. *)

From stdpp Require Import gmap.
From S2P Require Import Prelude Values Json Tables SqlNative Policy ApiKeys.

Lemma sorted_scopes_set (p : scopes_t) : list_to_set (sorted_scopes p) = p.
Proof. apply set_eq. intros x. unfold sorted_scopes. rewrite elem_of_list_to_set, stable_sort_perm. set_solver. Qed.

(** * What a registry promises *)

(** The part of an account that grants rights. *)
Definition grants (a : ServiceAccountRecord) : Z * option Z * scopes_t * string :=
  (sr_tenant_id a, sr_project_id a, sr_permissions a, sr_status a).

Class ServiceAccountsLaws (R : Type) `{!ServiceAccounts R} := {
  sa_ok : R → Prop;
  sa_view : R → Z → option ServiceAccountRecord;
  sa_get_law r id : sa_get id r =
    (match sa_view r id with Some a => Ret a | None => Raise (KeyError (pretty id)) end, r);
  sa_create_law r t p n ps by' : sa_ok r →
    match sa_create t p n ps by' r with
    | (Ret a, r') => sa_ok r' ∧ sa_view r (sr_id a) = None ∧ grants a = (t, p, ps, "active") ∧
        ∀ id, sa_view r' id = if decide (sr_id a = id) then Some a else sa_view r id
    | (Raise _, r') => sa_ok r' ∧ ∀ id, sa_view r' id = sa_view r id
    end;
  sa_update_law r id n ps st a : sa_ok r → sa_view r id = Some a →
    ∃ r', sa_update id n ps st r = (Ret (with_update n ps st a), r') ∧ sa_ok r' ∧
      ∀ id', sa_view r' id' = if decide (id = id') then Some (with_update n ps st a) else sa_view r id';
  sa_delete_law r id a : sa_ok r → sa_view r id = Some a →
    ∃ a' r', sa_delete id r = (Ret a', r') ∧ sa_ok r' ∧
      (∀ id', id ≠ id' → sa_view r' id' = sa_view r id') ∧
      ∀ b, sa_view r' id = Some b → sr_status b ≠ "active";
  sa_mark_used_law r id : sa_ok r →
    sa_ok (sa_mark_used id r).2 ∧
    (∀ id', grants <$> sa_view (sa_mark_used id r).2 id' = grants <$> sa_view r id') ∧
    (is_Some (sa_view r id) → (sa_mark_used id r).1 = Ret tt)
}.

(** ** The registry in process *)

Definition registry_ok (r : ServiceAccountRegistry) : Prop :=
  ∀ id a, dict_get id (rg_accounts r) = Some a → id < rg_next_id r.

#[export] Program Instance in_memory_accounts_laws : ServiceAccountsLaws ServiceAccountRegistry := {
  sa_ok := registry_ok;
  sa_view r id := dict_get id (rg_accounts r)
}.
Next Obligation. intros r id. cbn. unfold account_get. m_unfold. by destruct (dict_get id (rg_accounts r)). Qed.
Next Obligation.
  intros r t p n ps by' Hok. cbn. unfold account_create, registry_now. m_unfold. simpl. split_and!; [|..|done|].
  - intros id a. simpl. rewrite dict_get_set. case_decide; [lia|]. intros ?%Hok. lia.
  - destruct (dict_get (rg_next_id r) (rg_accounts r)) eqn:E; [|done]. apply Hok in E. lia.
  - intros id. by rewrite dict_get_set.
Qed.
Next Obligation.
  intros r id n ps st a Hok Ha. cbn in *. unfold account_update, account_get, on_account, on_key. m_unfold.
  rewrite Ha. simpl. rewrite Ha. simpl. rewrite dict_get_set_eq. eexists. split; [done|]. split.
  - intros i b. simpl. rewrite dict_get_set. case_decide; subst; [intros _; by eapply Hok|apply Hok].
  - intros i. simpl. apply dict_get_set.
Qed.
Next Obligation.
  intros r id a Hok Ha. cbn in *. unfold account_delete, account_get, on_account, on_key. m_unfold.
  rewrite Ha. simpl. rewrite Ha. simpl. rewrite dict_get_set_eq. eexists _, _. split; [done|]. split_and!.
  - intros i b. simpl. rewrite dict_get_set. case_decide; subst; [intros _; by eapply Hok|apply Hok].
  - intros i Hi. simpl. by rewrite dict_get_set_ne.
  - intros b. simpl. rewrite dict_get_set_eq. by intros [= <-].
Qed.
Next Obligation.
  intros r id Hok. cbn in *. unfold account_mark_used, registry_now, on_account, on_key. m_unfold. simpl.
  destruct (dict_get id (rg_accounts r)) as [a|] eqn:Ha; simpl; [|split_and!; [done|done|by intros []]].
  split_and!; [| |done].
  - intros i b. simpl. rewrite dict_get_set. case_decide; subst; [intros _; by eapply Hok|apply Hok].
  - intros i. rewrite dict_get_set. case_decide; subst; [by rewrite Ha|done].
Qed.

(** ** The registry in the database *)

Definition accounts_ok (t : AccountTable) : Prop :=
  ∀ id w, dict_get id (st_rows t) = Some w → sw_id w = id ∧ id < st_next_id t.

Definition table_view (t : AccountTable) (id : Z) : option ServiceAccountRecord := account_of_row <$> account_row id t.

Lemma account_row_inv id t w : account_row id t = Some w → dict_get id (st_rows t) = Some w ∧ sw_is_deleted w = false.
Proof.
  unfold account_row. destruct (dict_get id (st_rows t)) as [w'|]; simpl; [|done].
  destruct (sw_is_deleted w') eqn:E; [done|]. by intros [= <-].
Qed.

(** Writing a row that was there. *)
Lemma accounts_set t id w w' n :
  accounts_ok t → dict_get id (st_rows t) = Some w → sw_id w' = sw_id w →
  let t' := mkAccountTable (st_now t) n (dict_set id w' (st_rows t)) (st_next_id t) (st_tenants t) (st_projects t) in
  accounts_ok t' ∧ ∀ i, table_view t' i =
    if decide (id = i) then (if sw_is_deleted w' then None else Some (account_of_row w')) else table_view t i.
Proof.
  intros Hok Hw Hid t'. split.
  - intros i x. simpl. rewrite dict_get_set. case_decide; subst; [|apply Hok].
    intros [= <-]. rewrite Hid. by eapply Hok.
  - intros i. unfold table_view, account_row. simpl. rewrite dict_get_set. case_decide; [|done]. simpl.
    by destruct (sw_is_deleted w').
Qed.

Lemma account_of_update w n ps st now :
  account_of_row ((let w := match n with Some n => w <| sw_name := n |> | None => w end in
    let w := match ps with Some p => w <| sw_permissions_json := sorted_scopes p |> | None => w end in
    match st with Some st => w <| sw_status := st |> | None => w end) <| sw_updated_at := now |>) =
  with_update n ps st (account_of_row w).
Proof.
  destruct n, ps, st; unfold account_of_row, with_update; simpl; try rewrite sorted_scopes_set; done.
Qed.

#[export] Program Instance sql_accounts_laws : ServiceAccountsLaws AccountTable := {
  sa_ok := accounts_ok;
  sa_view := table_view
}.
Next Obligation.
  intros t id. cbn. unfold sql_account_get, table_view. m_unfold. by destruct (account_row id t).
Qed.
Next Obligation.
  intros r t p n ps by' Hok. cbn. unfold sql_account_create, account_now. m_unfold. simpl.
  destruct (bool_decide (t ∈ st_tenants r)); [|done].
  destruct (match p with Some p => _ | None => _ end); [|done]. simpl. split_and!.
  - intros id a. simpl. rewrite dict_get_set. case_decide; subst; [intros [= <-]; simpl; lia|].
    intros [? ?]%Hok. simpl. lia.
  - unfold table_view, account_row. destruct (dict_get (st_next_id r) (st_rows r)) eqn:E; [|done].
    apply Hok in E. lia.
  - unfold grants. simpl. by rewrite sorted_scopes_set.
  - intros id. unfold table_view, account_row. simpl. rewrite dict_get_set. by case_decide.
Qed.
Next Obligation.
  intros t id n ps st a Hok Ha. cbn in *. unfold sql_account_update, account_now, set_account_row. m_unfold.
  unfold table_view in Ha. destruct (account_row id t) as [w|] eqn:Ew; [|done]. injection Ha as <-.
  apply account_row_inv in Ew as [Ew Ed]. eexists. split; [f_equal; f_equal; apply account_of_update|].
  simpl. match goal with |- accounts_ok (mkAccountTable _ ?k (dict_set _ ?w' _) _ _ _) ∧ _ =>
    destruct (accounts_set t id w w' k Hok Ew) as [H1 H2]; [by destruct n, ps, st|];
    assert (sw_is_deleted w' = false) as Hd by by destruct n, ps, st end.
  split; [exact H1|]. intros i. rewrite H2. case_decide; [|done]. rewrite Hd. f_equal. apply account_of_update.
Qed.
Next Obligation.
  intros t id a Hok Ha. cbn in *. unfold sql_account_delete, account_now, set_account_row. m_unfold.
  unfold table_view in Ha. destruct (account_row id t) as [w|] eqn:Ew; [|done]. clear Ha.
  apply account_row_inv in Ew as [Ew Ed]. eexists _, _. split; [done|]. simpl.
  match goal with |- accounts_ok (mkAccountTable _ ?n (dict_set _ ?w' _) _ _ _) ∧ _ =>
    destruct (accounts_set t id w w' n Hok Ew eq_refl) as [H1 H2] end.
  split_and!; [exact H1| |].
  - intros i Hi. rewrite H2. by rewrite decide_False.
  - intros b. rewrite H2, decide_True by done. done.
Qed.
Next Obligation.
  intros t id Hok. cbn in *. unfold sql_account_mark_used, account_now, set_account_row. m_unfold.
  destruct (dict_get id (st_rows t)) as [w|] eqn:Ew; simpl; [|split_and!; [done|done|done]].
  match goal with |- accounts_ok (mkAccountTable _ ?n (dict_set _ ?w' _) _ _ _) ∧ _ =>
    destruct (accounts_set t id w w' n Hok Ew eq_refl) as [H1 H2] end.
  split_and!; [exact H1| |done].
  intros i. rewrite H2. case_decide; subst; [|done]. unfold table_view, account_row. rewrite Ew. simpl.
  by destruct (sw_is_deleted w).
Qed.

(** * Well-formed authenticators *)

Section props.
Context {R : Type} `{!ServiceAccounts R, !ServiceAccountsLaws R}.
Context (sha256 : string → string).
Abbreviation Auth := (APIKeyAuthenticator R).
Implicit Types s : Auth.

(** The keys that can be used, in either storage. *)
Definition key_view s (id : Z) : option APIKeyRecord :=
  if au_db s then _record_from_model <$> key_row id s else dict_get id (au_keys s).

Record auth_wf s : Prop := {
  aw_accounts : sa_ok (au_service_accounts s);
  aw_rows : ∀ id w, dict_get id (au_rows s) = Some w → kw_id w = id ∧ id < au_next_row s;
  aw_rows_nodup : NoDup (dict_keys (au_rows s));
  aw_hash : ∀ id id' w w', dict_get id (au_rows s) = Some w → dict_get id' (au_rows s) = Some w' →
    kw_key_hash w = kw_key_hash w' → id = id';
  aw_keys : ∀ id k, dict_get id (au_keys s) = Some k → ak_id k = id ∧ id < au_next_id s;
  aw_keys_nodup : NoDup (dict_keys (au_keys s))
}.

Lemma key_row_inv id s w : key_row id s = Some w → dict_get id (au_rows s) = Some w ∧ kw_is_deleted w = false.
Proof.
  unfold key_row. destruct (dict_get id (au_rows s)) as [w'|]; simpl; [|done].
  destruct (kw_is_deleted w') eqn:E; [done|]. by intros [= <-].
Qed.

Lemma key_view_id s id k : auth_wf s → key_view s id = Some k → ak_id k = id.
Proof.
  intros Hwf. unfold key_view. destruct (au_db s).
  - destruct (key_row id s) as [w|] eqn:E; [|done]. intros [= <-]. apply key_row_inv in E as [E _].
    by apply (aw_rows _ Hwf) in E as [? _].
  - intros H. by apply (aw_keys _ Hwf) in H as [? _].
Qed.

(** [s'] is [s] with the stored key [id] written over. *)
Inductive written (id : Z) (w w' : APIKeyRow) s s' : Prop :=
  mk_written (_ : dict_get id (au_rows s) = Some w) (_ : kw_id w' = kw_id w) (_ : kw_key_hash w' = kw_key_hash w)
    (_ : au_rows s' = dict_set id w' (au_rows s)) (_ : au_next_row s' = au_next_row s)
    (_ : au_keys s' = au_keys s) (_ : au_next_id s' = au_next_id s) (_ : au_db s' = au_db s)
    (_ : au_service_accounts s' = au_service_accounts s).
Inductive changed (id : Z) (k k' : APIKeyRecord) s s' : Prop :=
  mk_changed (_ : dict_get id (au_keys s) = Some k) (_ : ak_id k' = ak_id k)
    (_ : au_keys s' = dict_set id k' (au_keys s)) (_ : au_rows s' = au_rows s)
    (_ : au_next_row s' = au_next_row s) (_ : au_next_id s' = au_next_id s) (_ : au_db s' = au_db s)
    (_ : au_service_accounts s' = au_service_accounts s).

Lemma wf_written id w w' s s' : written id w w' s s' → auth_wf s → auth_wf s'.
Proof.
  intros [Hw Hid Hh Er En Ek Eni Ed Ea] [W1 W2 W3 W4 W5 W6]. split; rewrite ?Er, ?En, ?Ek, ?Eni, ?Ea; try done.
  - intros i x. rewrite dict_get_set. case_decide; [|apply W2]. intros [= <-]. subst. rewrite Hid. by apply W2.
  - by apply dict_set_nodup.
  - intros i j x y. rewrite !dict_get_set. repeat case_decide; subst; try done; try apply W4.
    + intros [= <-] Hy Hxy. rewrite Hh in Hxy. by eapply W4.
    + intros Hx [= <-] Hxy. rewrite Hh in Hxy. by eapply W4.
Qed.

Lemma wf_changed id k k' s s' : changed id k k' s s' → auth_wf s → auth_wf s'.
Proof.
  intros [Hk Hid Ek Er En Eni Ed Ea] [W1 W2 W3 W4 W5 W6]. split; rewrite ?Er, ?En, ?Ek, ?Eni, ?Ea; try done.
  - intros i x. rewrite dict_get_set. case_decide; [|apply W5]. intros [= <-]. subst. rewrite Hid. by apply W5.
  - by apply dict_set_nodup.
Qed.

Lemma view_written id w w' s s' i :
  written id w w' s s' → au_db s = true → key_view s' i =
    if decide (id = i) then (if kw_is_deleted w' then None else Some (_record_from_model w')) else key_view s i.
Proof.
  intros [Hw Hid Hh Er En Ek Eni Ed Ea] Hd. unfold key_view, key_row. rewrite Ed, Hd, Er, dict_get_set.
  case_decide; [|done]. simpl. by destruct (kw_is_deleted w').
Qed.

Lemma view_changed id k k' s s' i :
  changed id k k' s s' → au_db s = false → key_view s' i = if decide (id = i) then Some k' else key_view s i.
Proof.
  intros [Hk Hid Ek Er En Eni Ed Ea] Hd. unfold key_view. by rewrite Ed, Hd, Ek, dict_get_set.
Qed.

Ltac written_tac := eapply mk_written; [| | |simpl; reflexivity|..]; first [eassumption|done|simpl; congruence].
Ltac changed_tac := eapply mk_changed; [| |simpl; reflexivity|..]; first [eassumption|done|simpl; congruence].

(** ** Steps that give nobody more rights *)

Definition rights (k : APIKeyRecord) : string * Z * Z * option Z * scopes_t :=
  (ak_owner_type k, ak_owner_id k, ak_tenant_id k, ak_project_id k, ak_scopes k).

Record fewer_rights s s' : Prop := {
  fr_wf : auth_wf s';
  fr_db : au_db s' = au_db s;
  fr_accounts : ∀ id, grants <$> sa_view (au_service_accounts s') id = grants <$> sa_view (au_service_accounts s) id;
  fr_keys : ∀ id k', key_view s' id = Some k' → ak_status k' = "active" →
    ∃ k, key_view s id = Some k ∧ ak_status k = "active" ∧ rights k' = rights k
}.
Definition restricts s s' : Prop := auth_wf s → fewer_rights s s'.

#[export] Instance restricts_preorder : PreOrder restricts.
Proof.
  split.
  - intros s Hwf. by split; eauto.
  - intros s1 s2 s3 H1 H2 Hwf. destruct (H1 Hwf) as [W1 D1 A1 K1]. destruct (H2 W1) as [W2 D2 A2 K2].
    split; [done|by rewrite D2|intros id; by rewrite A2|].
    intros id k3 Hk3 Ha3. destruct (K2 _ _ Hk3 Ha3) as (k2&Hk2&Ha2&Hr2).
    destruct (K1 _ _ Hk2 Ha2) as (k&Hk&Ha&Hr). exists k. by rewrite Hr2.
Qed.

(** The state without the keys, the accounts and their storage. *)
Lemma restricts_aside s s' :
  au_rows s' = au_rows s → au_next_row s' = au_next_row s → au_keys s' = au_keys s → au_next_id s ≤ au_next_id s' →
  au_db s' = au_db s → au_service_accounts s' = au_service_accounts s → restricts s s'.
Proof.
  intros Er En Ek Eni Ed Ea [W1 W2 W3 W4 W5 W6]. split.
  - split; rewrite ?Er, ?En, ?Ek, ?Ea; try done. intros id k [? ?]%W5. lia.
  - done.
  - intros id. by rewrite Ea.
  - intros id k. unfold key_view, key_row. rewrite Ed, Er, Ek. by eauto.
Qed.

Lemma restricts_written id w w' s s' :
  written id w w' s s' → au_db s = true →
  (kw_is_deleted w' = false → kw_status w' = "active" → kw_is_deleted w = false ∧ kw_status w = "active" ∧
    rights (_record_from_model w') = rights (_record_from_model w)) → restricts s s'.
Proof.
  intros Hw Hd Hr Hwf. pose proof Hw as [Hg _ _ _ _ _ _ Ed Ea]. split.
  - by eapply wf_written.
  - done.
  - intros i. by rewrite Ea.
  - intros i k'. rewrite (view_written _ _ _ _ _ _ Hw Hd). case_decide; [subst i|by eauto].
    destruct (kw_is_deleted w') eqn:Ed'; [done|]. intros [= <-] Hs. destruct (Hr eq_refl Hs) as (Ew&Es&Er).
    exists (_record_from_model w). unfold key_view, key_row. rewrite Hd, Hg. simpl. by rewrite Ew.
Qed.

Lemma restricts_changed id k k' s s' :
  changed id k k' s s' → au_db s = false →
  (ak_status k' = "active" → ak_status k = "active" ∧ rights k' = rights k) → restricts s s'.
Proof.
  intros Hc Hd Hr Hwf. pose proof Hc as [Hg _ _ _ _ _ Ed Ea]. split.
  - by eapply wf_changed.
  - done.
  - intros i. by rewrite Ea.
  - intros i x. rewrite (view_changed _ _ _ _ _ _ Hc Hd). case_decide; [subst i|by eauto].
    intros [= <-] Hs. destruct (Hr Hs) as (Es&Er). exists k. unfold key_view. by rewrite Hd.
Qed.

(** ** The operations *)

Lemma restricts_now : respects restricts (auth_now (R:=R)).
Proof. intros s. by apply restricts_aside. Qed.

Lemma restricts_identity_audit actor action ty res md :
  respects restricts (_append_identity_audit (R:=R) actor action ty res md).
Proof. intros s. by apply restricts_aside. Qed.

Lemma restricts_audit_sink r : respects restricts (in_audit_sink (R:=R) (write r)).
Proof. intros s. by apply restricts_aside. Qed.

Lemma restricts_get_account id : respects restricts (in_accounts (sa_get id)).
Proof. intros s. unfold in_accounts, zoom. rewrite sa_get_law. by apply restricts_aside. Qed.

Lemma restricts_mark_used id : respects restricts (in_accounts (sa_mark_used id)).
Proof.
  intros s Hwf. unfold in_accounts, zoom. destruct (sa_mark_used_law (au_service_accounts s) id (aw_accounts _ Hwf)) as (Ho&Hg&_).
  destruct (sa_mark_used id (au_service_accounts s)) as [o r]. simpl in *.
  destruct Hwf as [W1 W2 W3 W4 W5 W6]. split; [by split|done|done|]. intros i k. simpl. by eauto.
Qed.

(** What happens to the stored key, by storage. *)
Lemma disable_key_run id a s :
  (au_db s = true ∧ ∃ w w' s', disable_key id a s = (Ret (_record_from_model w'), s') ∧ written id w w' s s' ∧
     kw_status w' = "disabled" ∧ kw_is_deleted w' = kw_is_deleted w) ∨
  (au_db s = false ∧ ∃ k s', disable_key id a s = (Ret (k <| ak_status := "disabled" |>), s') ∧
     changed id k (k <| ak_status := "disabled" |>) s s') ∨
  (disable_key id a s = (Raise (KeyError (pretty id)), s) ∧ key_view s id = None).
Proof.
  unfold disable_key, auth_now, set_key_row, on_api_key, on_key, key_view, key_row. m_unfold.
  destruct (au_db s) eqn:Ed.
  - destruct (dict_get id (au_rows s)) as [w|] eqn:Ew; [|by right; right].
    left. split; [done|]. eexists w, _, _. split; [done|]. split; [by split|done].
  - right. destruct (dict_get id (au_keys s)) as [k|] eqn:Ek; [left|right; by destruct s].
    split; [done|]. eexists k, _. split; [done|]. by split.
Qed.

Lemma restricts_disable id a : respects restricts (disable_key (R:=R) id a).
Proof.
  intros s. destruct (disable_key_run id a s) as [(Hd&w&w'&s'&->&Hw&Hs&_)|[(Hd&k&s'&->&Hc)|[-> _]]]; simpl.
  - eapply restricts_written; [done..|]. by rewrite Hs.
  - by eapply restricts_changed.
  - done.
Qed.

(** Disabling a key one can see. *)
Lemma disable_key_spec id a s k :
  key_view s id = Some k → ∃ k' s', disable_key id a s = (Ret k', s') ∧ restricts s s' ∧
    (∀ i, is_Some (key_view s i) → is_Some (key_view s' i)) ∧
    ∀ x, key_view s' id = Some x → ak_status x ≠ "active".
Proof.
  intros Hk. pose proof (restricts_disable id a s) as Hr.
  destruct (disable_key_run id a s) as [(Hd&w&w'&s'&E&Hw&Hs&Hdel)|[(Hd&x&s'&E&Hc)|[_ Hn]]]; [..|congruence].
  - rewrite E in *. eexists _, _. split; [done|]. split; [done|]. split.
    + intros i. rewrite (view_written _ _ _ _ _ _ Hw Hd). case_decide; [subst i|done]. intros _.
      pose proof Hw as [Hg _ _ _ _ _ _ _ _]. unfold key_view, key_row in Hk. rewrite Hd, Hg in Hk. simpl in Hk.
      rewrite Hdel. by destruct (kw_is_deleted w).
    + intros y. rewrite (view_written _ _ _ _ _ _ Hw Hd), decide_True by done.
      destruct (kw_is_deleted w'); [done|]. intros [= <-]. simpl. by rewrite Hs.
  - rewrite E in *. eexists _, _. split; [done|]. split; [done|]. split.
    + intros i. rewrite (view_changed _ _ _ _ _ _ Hc Hd). by case_decide.
    + intros y. rewrite (view_changed _ _ _ _ _ _ Hc Hd), decide_True by done. by intros [= <-].
Qed.

Lemma restricts_delete id a : respects restricts (delete_key (R:=R) id a).
Proof.
  intros s. unfold delete_key, auth_now, set_key_row. m_unfold. destruct (au_db s) eqn:Ed.
  - destruct (key_row id s) as [w|] eqn:Ew; [|done]. apply key_row_inv in Ew as [Ew _]. simpl.
    eapply restricts_written; [written_tac|done|]. done.
  - destruct (dict_get id (au_keys s)) as [k|] eqn:Ek; [|done]. simpl. intros [W1 W2 W3 W4 W5 W6]. split.
    + split; simpl; try done; [|by apply dict_pop_nodup]. intros i x. destruct (decide (id = i)) as [->|Hi].
      * by rewrite dict_get_pop_eq.
      * rewrite dict_get_pop_ne by done. apply W5.
    + done.
    + done.
    + intros i x. unfold key_view. simpl. rewrite Ed. destruct (decide (id = i)) as [->|Hi].
      * by rewrite dict_get_pop_eq.
      * rewrite dict_get_pop_ne by done. by eauto.
Qed.

Lemma restricts_expire id a : respects restricts (expire_key (R:=R) id a).
Proof.
  intros s. unfold expire_key, auth_now, set_key_row, on_api_key, on_key. m_unfold. simpl.
  destruct (au_db s) eqn:Ed.
  - change (key_row id _) with (key_row id s). destruct (key_row id s) as [w|] eqn:Ew; simpl.
    + apply key_row_inv in Ew as [Ew _]. eapply restricts_written; [written_tac|done|]. done.
    + apply restricts_aside; simpl; congruence || lia.
  - simpl. destruct (dict_get id (au_keys s)) as [k|] eqn:Ek; simpl; [|apply restricts_aside; simpl; congruence || lia].
    eapply restricts_changed; [changed_tac|done|]. done.
Qed.

Lemma restricts_find h : respects restricts (_find_by_hash (R:=R) h).
Proof.
  intros s. unfold _find_by_hash, auth_now, set_key_row. m_unfold.
  destruct (au_db s) eqn:Ed; [|destruct (List.find _ _); reflexivity].
  destruct (List.find _ _) as [w|] eqn:Ef; [|reflexivity]. apply find_some in Ef as [Hin _]. simpl.
  destruct (bool_decide (kw_status w = "active")) eqn:Es; [|reflexivity]. simpl. intros Hwf.
  apply list_elem_of_In, list_elem_of_fmap in Hin as ([i x]&->&Hi). simpl.
  apply dict_elem_get in Hi; [|apply Hwf]. pose proof (aw_rows _ Hwf _ _ Hi) as [Hx _].
  rewrite Hx. revert Hwf. eapply restricts_written; [written_tac|done|]. done.
Qed.

(** The owner's rights were checked. *)
Definition key_within s (k : APIKeyRecord) : Prop :=
  ak_owner_type k = "service_account" ∧
  ∃ a, sa_view (au_service_accounts s) (ak_owner_id k) = Some a ∧ sr_status a = "active" ∧
    sr_tenant_id a = ak_tenant_id k ∧ sr_project_id a = ak_project_id k ∧ ak_scopes k ⊆ sr_permissions a.

Lemma assert_owner_run t p owner sc s :
  match _assert_owner_scope_subset t p "service_account" owner sc s with
  | (Ret _, s') => s' = s ∧ ∀ k, rights k = ("service_account", owner, t, p, sc) → key_within s k
  | (Raise _, s') => s' = s
  end.
Proof.
  unfold _assert_owner_scope_subset, in_accounts. rewrite bool_decide_true by done. simpl. m_unfold.
  rewrite sa_get_law. assert (s <| au_service_accounts := au_service_accounts s |> = s) as Hs by by destruct s.
  destruct (sa_view _ owner) as [a|] eqn:Ea; simpl in *; [|exact Hs]. rewrite Hs.
  destruct (bool_decide (sr_status a = "active")) eqn:E1; [|done]. apply bool_decide_eq_true in E1.
  destruct (bool_decide (sr_tenant_id a = t)) eqn:E2; simpl; [|done]. apply bool_decide_eq_true in E2.
  destruct (bool_decide (sr_project_id a = p)) eqn:E3; simpl; [|done]. apply bool_decide_eq_true in E3.
  destruct (bool_decide (sc ⊆ sr_permissions a)) eqn:E4; [|done]. apply bool_decide_eq_true in E4.
  split; [done|]. intros k Hk. injection Hk as H1 H2 H3 H4 H5. split; [done|]. exists a.
  by rewrite H2, H3, H4, H5.
Qed.

(** A new key. *)
Lemma issue_key_run t p n ot o sc by' e s :
  auth_wf s →
  match issue_key sha256 t p n ot o sc by' e s with
  | (Ret (plain, k), s') => auth_wf s' ∧ au_db s' = au_db s ∧
      au_service_accounts s' = au_service_accounts s ∧ plain = "dr_" +:+ au_token s (au_drawn s) ∧
      key_view s (ak_id k) = None ∧ rights k = (ot, o, t, p, sc) ∧ ak_status k = "active" ∧
      ak_key_hash k = sha256 plain ∧ ak_expires_at k = e ∧
      (∀ id, key_view s' id = if decide (ak_id k = id) then Some k else key_view s id) ∧
      (∀ id w, dict_get id (au_rows s) = Some w → dict_get id (au_rows s') = Some w)
  | (Raise _, s') => restricts s s' ∧ au_rows s' = au_rows s
  end.
Proof.
  intros [W1 W2 W3 W4 W5 W6]. unfold issue_key, draw_token, auth_now, insert_key_row. m_unfold. simpl.
  destruct (au_db s) eqn:Ed; simpl.
  - destruct (bool_decide _) eqn:Eh; simpl.
    2:{ split; [|done]. apply restricts_aside; simpl; congruence || lia. }
    apply bool_decide_eq_true in Eh.
    assert (dict_get (au_next_row s) (au_rows s) = None) as Hn.
    { destruct (dict_get (au_next_row s) (au_rows s)) eqn:E; [|done]. apply W2 in E. lia. }
    assert (∀ i w, dict_get i (au_rows s) = Some w → kw_key_hash w ≠ sha256 ("dr_" +:+ au_token s (au_drawn s))) as Hfresh.
    { intros i w Hw. rewrite Forall_forall in Eh. apply Eh. apply list_elem_of_fmap. exists (i, w).
      split; [done|]. by apply dict_get_elem. }
    split_and!; try done.
    + split; simpl; try done.
      * intros i w. rewrite dict_get_set. case_decide; [intros [= <-]; simpl; lia|].
        intros [? ?]%W2. lia.
      * by apply dict_set_nodup.
      * intros i j w w'. rewrite !dict_get_set. repeat case_decide; subst; try done; try apply W4.
        -- intros [= <-] Hw Hh. by apply Hfresh in Hw.
        -- intros Hw [= <-] Hh. by apply Hfresh in Hw.
      * intros i x [? ?]%W5. lia.
    + unfold key_view, key_row. by rewrite Ed, Hn.
    + unfold rights. simpl. by rewrite sorted_scopes_set.
    + intros i. unfold key_view, key_row. simpl. rewrite Ed, dict_get_set. by case_decide.
    + intros i w Hw. rewrite dict_get_set_ne; [done|]. intros Hi. rewrite <-Hi in Hw. congruence.
  - assert (dict_get (au_next_id s) (au_keys s) = None) as Hn.
    { destruct (dict_get (au_next_id s) (au_keys s)) eqn:E; [|done]. apply W5 in E. lia. }
    split_and!; try done.
    + split; simpl; try done; [|by apply dict_set_nodup].
      intros i k. rewrite dict_get_set. case_decide; [intros [= <-]; simpl; lia|]. intros [? ?]%W5. lia.
    + unfold key_view. by rewrite Ed.
    + intros i. unfold key_view. simpl. by rewrite Ed, dict_get_set.
Qed.

(** * Least privilege *)

(** A key that works belongs to an active service account of its tenant and project,
    and its scopes are permissions of that account. *)
Definition least_privilege s : Prop :=
  ∀ id k, key_view s id = Some k → ak_status k = "active" → key_within s k.
Definition lp s : Prop := auth_wf s ∧ least_privilege s.

Lemma key_within_rights s s' k k' :
  (∀ id, grants <$> sa_view (au_service_accounts s') id = grants <$> sa_view (au_service_accounts s) id) →
  rights k' = rights k → key_within s k → key_within s' k'.
Proof.
  intros Hg Hr (Ht&a&Ha&Hact&Hten&Hprj&Hsub). injection Hr as R1 R2 R3 R4 R5.
  split; [by rewrite R1|]. specialize (Hg (ak_owner_id k)). rewrite Ha in Hg. rewrite R2, R3, R4, R5.
  destruct (sa_view (au_service_accounts s') (ak_owner_id k)) as [b|]; [|done]. exists b.
  injection Hg as G1 G2 G3 G4. by rewrite G1, G2, G3, G4.
Qed.

Lemma lp_restricts s s' : restricts s s' → lp s → lp s'.
Proof.
  intros Hr [Hwf Hl]. destruct (Hr Hwf) as [W _ A K]. split; [done|]. intros id k' Hk' Ha'.
  destruct (K _ _ Hk' Ha') as (k&Hk&Ha&Hrt). eapply key_within_rights; [done..|by eapply Hl].
Qed.

Lemma lp_of_restricts {A} (m : M Auth A) : respects restricts m → respects (keeps lp) m.
Proof. intros H s. exact (lp_restricts _ _ (H s)). Qed.

Lemma lp_create_key t p n o sc by' e : respects (keeps lp) (create_key sha256 t p n "service_account" o sc by' e).
Proof.
  intros s [Hwf Hl]. unfold create_key. pose proof (assert_owner_run t p o sc s) as Ha.
  unfold mbind, M_bind. destruct (_assert_owner_scope_subset _ _ _ _ _ s) as [[[]|x] s1]; [|by subst].
  destruct Ha as [-> Hin]. pose proof (issue_key_run t p n "service_account" o sc by' e s Hwf) as Hi.
  destruct (issue_key _ _ _ _ _ _ _ _ _ s) as [[[plain k]|x] s']; [|by apply (lp_restricts s); [apply Hi|]].
  destruct Hi as (Hwf'&_&Hacc&_&_&Hr&_&_&_&Hv&_). simpl. split; [done|]. intros id x. rewrite Hv. case_decide.
  - intros [= <-] _. eapply (key_within_rights s); [intros i; by rewrite Hacc|reflexivity|]. by apply Hin.
  - intros Hx Hs. eapply (key_within_rights s); [intros i; by rewrite Hacc|reflexivity|]. by eapply Hl.
Qed.

Lemma assert_owner_other t p ot owner sc s :
  ot ≠ "service_account" → _assert_owner_scope_subset (R:=R) t p ot owner sc s = (Ret tt, s).
Proof. intros H. unfold _assert_owner_scope_subset. by rewrite bool_decide_false. Qed.

(** Enabling gives the key of a service account back what its owner may do; keys of
    other owners are not checked. *)
Lemma enable_key_run id a s :
  (∀ k, key_view s id = Some k → ak_owner_type k = "service_account") →
  (∃ k s', enable_key id a s = (Ret k, s') ∧ key_within s k ∧
     ((au_db s = true ∧ ∃ w w', written id w w' s s' ∧ kw_is_deleted w' = false ∧ k = _record_from_model w') ∨
      (au_db s = false ∧ ∃ k0, changed id k0 k s s'))) ∨
  (∃ e, enable_key id a s = (Raise e, s)).
Proof.
  intros Hot. unfold enable_key, auth_now, set_key_row, on_api_key, on_key. m_unfold. unfold key_view in Hot.
  destruct (au_db s) eqn:Ed.
  - destruct (key_row id s) as [w|] eqn:Ew; [|right; eexists; reflexivity]. pose proof Ew as [Hg Hd]%key_row_inv.
    specialize (Hot _ eq_refl). simpl in Hot.
    pose proof (assert_owner_run (kw_tenant_id w) (kw_project_id w) (kw_owner_id w) (list_to_set (kw_scopes_json w)) s) as Ha.
    rewrite <-Hot in Ha. simpl.
    destruct (_assert_owner_scope_subset _ _ _ _ _ s) as [[[]|x] s1]; [|subst s1; right; eexists; reflexivity].
    destruct Ha as [-> Hin]. left. simpl. eexists _, _. split; [done|].
    split; [by apply Hin|]. left. split; [done|]. eexists w, _. split; [written_tac|done].
  - destruct (dict_get id (au_keys s)) as [k|] eqn:Ek; [|right; eexists; reflexivity]. specialize (Hot _ eq_refl).
    pose proof (assert_owner_run (ak_tenant_id k) (ak_project_id k) (ak_owner_id k) (ak_scopes k) s) as Ha.
    rewrite <-Hot in Ha.
    destruct (_assert_owner_scope_subset _ _ _ _ _ s) as [[[]|x] s1]; [|subst s1; right; eexists; reflexivity].
    destruct Ha as [-> Hin]. left. rewrite Ek. simpl. eexists _, _. split; [done|].
    split; [by apply Hin|]. right. split; [done|]. exists k. changed_tac.
Qed.

Lemma lp_enable id a s :
  lp s → (∀ k, key_view s id = Some k → ak_owner_type k = "service_account") → lp (enable_key id a s).2.
Proof.
  intros [Hwf Hl] Hot.
  destruct (enable_key_run id a s Hot) as [(k&s'&E&Hin&[(Hd&w&w'&Hw&Hdel&Ek)|(Hd&k0&Hc)])|[e ->]]; [| |done].
  - rewrite E. simpl. split; [by eapply wf_written|]. pose proof Hw as [_ _ _ _ _ _ _ _ Ea].
    intros i x. rewrite (view_written _ _ _ _ _ _ Hw Hd), Hdel. case_decide; intros Hx Hs.
    + eapply (key_within_rights s); [intros j; by rewrite Ea| |exact Hin]. by simplify_eq.
    + eapply (key_within_rights s); [intros j; by rewrite Ea|reflexivity|]. by eapply Hl.
  - rewrite E. simpl. split; [by eapply wf_changed|]. pose proof Hc as [_ _ _ _ _ _ _ Ea].
    intros i x. rewrite (view_changed _ _ _ _ _ _ Hc Hd). case_decide; intros Hx Hs.
    + eapply (key_within_rights s); [intros j; by rewrite Ea| |exact Hin]. by simplify_eq.
    + eapply (key_within_rights s); [intros j; by rewrite Ea|reflexivity|]. by eapply Hl.
Qed.

(** ** The keys of an account *)

Lemma owned_keys_spec account s k :
  auth_wf s → k ∈ owned_keys account s ↔
    key_view s (ak_id k) = Some k ∧ ak_owner_type k = "service_account" ∧ ak_owner_id k = account.
Proof.
  intros Hwf. unfold owned_keys, list_keys. rewrite stable_sort_perm, list_elem_of_In, filter_In, <-list_elem_of_In.
  rewrite andb_true_iff, bool_decide_eq_true, Z.eqb_eq. unfold key_view.
  enough (k ∈ (if au_db s then _record_from_model <$> List.filter (λ w, negb (kw_is_deleted w)) (dict_values (au_rows s))
    else dict_values (au_keys s)) ↔
    (if au_db s then _record_from_model <$> key_row (ak_id k) s else dict_get (ak_id k) (au_keys s)) = Some k) as ->
    by tauto.
  destruct (au_db s).
  - rewrite list_elem_of_fmap, fmap_Some. split.
    + intros (w&->&Hw). exists w. split; [|done].
      apply list_elem_of_In, filter_In in Hw as [Hw Hd]. apply list_elem_of_In, values_elem in Hw as [i Hi]; [|apply Hwf].
      simpl. pose proof (aw_rows _ Hwf _ _ Hi) as [-> _]. unfold key_row. rewrite Hi. simpl. by destruct (kw_is_deleted w).
    + intros (w&Hw&->). exists w. split; [done|]. apply key_row_inv in Hw as [Hw Hd].
      apply list_elem_of_In, filter_In. rewrite Hd. split; [|done]. apply list_elem_of_In, values_elem; [apply Hwf|by eauto].
  - rewrite values_elem by apply Hwf. split; [|by eauto].
    intros [i Hi]. by pose proof (aw_keys _ Hwf _ _ Hi) as [-> _].
Qed.

(** Disabling the listed keys that satisfy [P]. *)
Lemma disable_loop (P : APIKeyRecord → bool) a l s :
  (∀ k, k ∈ l → is_Some (key_view s (ak_id k))) →
  ∃ s', for_each l (λ k, if P k then disable_key (ak_id k) a ;; mret tt else mret tt) s = (Ret tt, s') ∧
    (auth_wf s → fewer_rights s s' ∧
     ∀ k, k ∈ l → P k = true → ∀ x, key_view s' (ak_id k) = Some x → ak_status x ≠ "active").
Proof.
  revert s. induction l as [|k l IH]; intros s Hl.
  - exists s. split; [done|]. intros Hwf. split; [|by intros ? ?%elem_of_nil]. by apply (reflexivity (R:=restricts) s).
  - simpl. unfold mbind at 1, M_bind at 1. destruct (P k) eqn:EP.
    + destruct (Hl k) as [k0 Hk0]; [left|].
      destruct (disable_key_spec (ak_id k) a s k0 Hk0) as (k'&s1&E1&Hr1&Hv1&Hd1).
      unfold mbind at 1, M_bind at 1. rewrite E1. simpl.
      destruct (IH s1) as (s'&E&Hs'); [intros x Hx; apply Hv1, Hl; by right|]. exists s'. split; [done|].
      intros Hwf. destruct (Hr1 Hwf) as [Hwf1 D1 A1 K1]. destruct (Hs' Hwf1) as [Hf Hdis].
      split; [apply (transitivity (R:=restricts) (x:=s) (y:=s1)); [done|by intros _|done]|].
      intros x [->|Hx]%elem_of_cons Hpx y Hy; [|by eapply Hdis].
      intros Hact. destruct (fr_keys _ _ Hf _ _ Hy Hact) as (y1&Hy1&Ha1&_). by apply (Hd1 y1).
    + destruct (IH s) as (s'&E&Hs'); [intros x Hx; apply Hl; by right|]. exists s'. split; [done|].
      intros Hwf. destruct (Hs' Hwf) as [Hf Hdis]. split; [done|].
      intros x [->|Hx]%elem_of_cons Hpx; [congruence|by apply Hdis].
Qed.

(** A change of one account followed by disabling keys of that account. *)
Lemma lp_after_change s r account P s2 :
  lp s → sa_ok r → (∀ id, account ≠ id → sa_view r id = sa_view (au_service_accounts s) id) →
  let s1 := s <| au_service_accounts := r |> in
  fewer_rights s1 s2 →
  (∀ k, k ∈ owned_keys account s1 → P k = true → ∀ x, key_view s2 (ak_id k) = Some x → ak_status x ≠ "active") →
  (∀ k, k ∈ owned_keys account s1 → P k = false → key_within s k → key_within s1 k) →
  lp s2.
Proof.
  intros [Hwf Hl] Hok Hv s1 Hf Hdis Hkeep. split; [apply Hf|]. intros id x Hx Hact.
  assert (auth_wf s1) as Hwf1 by (destruct Hwf; by split).
  destruct (fr_keys _ _ Hf _ _ Hx Hact) as (k&Hk&Hka&Hr).
  eapply (key_within_rights s1); [apply Hf|exact Hr|].
  assert (key_within s k) as Hin by by eapply Hl. pose proof Hin as (Hot&a&Ha&Hrest).
  destruct (decide (account = ak_owner_id k)) as [->|Hne].
  - assert (k ∈ owned_keys (ak_owner_id k) s1) as Hown.
    { apply owned_keys_spec; [done|]. split; [|done]. by rewrite (key_view_id _ _ _ Hwf1 Hk). }
    destruct (P k) eqn:EP; [|by apply Hkeep]. exfalso. apply (Hdis k Hown EP x); [|done].
    by rewrite (key_view_id _ _ _ Hwf1 Hk).
  - split; [done|]. exists a. simpl. by rewrite Hv.
Qed.

(** ** Requests *)

Lemma set_accounts_same s : s <| au_service_accounts := au_service_accounts s |> = s.
Proof using. by destruct s. Qed.

Lemma wf_accounts s r : auth_wf s → sa_ok r → auth_wf (s <| au_service_accounts := r |>).
Proof. intros [W1 W2 W3 W4 W5 W6] Hr. by split. Qed.

Lemma with_account_cases {A} actor id missing (f : ServiceAccountRecord → M Auth (reply A)) s :
  with_account actor id missing f s =
    match sa_view (au_service_accounts s) id with
    | None => (Ret (Refused 404 missing), s)
    | Some a => if _actor_can_access_target actor (sr_tenant_id a) (sr_project_id a) then f a s
                else (Ret (Refused 403 "scope_not_allowed"), s)
    end.
Proof.
  unfold with_account, in_accounts, catch. m_unfold. rewrite sa_get_law, set_accounts_same.
  destruct (sa_view _ id) as [a|]; [|done]. by destruct (_actor_can_access_target _ _ _).
Qed.

Lemma lp_with_account {A} actor id missing (f : ServiceAccountRecord → M Auth (reply A)) :
  (∀ a s, sa_view (au_service_accounts s) id = Some a → lp s → lp (f a s).2) →
  respects (keeps lp) (with_account actor id missing f).
Proof.
  intros Hf s Hl. rewrite with_account_cases. destruct (sa_view _ id) as [a|] eqn:Ea; [|done].
  destruct (_actor_can_access_target _ _ _); [by apply Hf|done].
Qed.

Lemma lp_audit_after {A} actor action ty res md (x : A) s :
  lp s → lp ((_append_identity_audit actor action ty res md ;; mret x) s).2.
Proof. apply lp_restricts, restricts_aside; done. Qed.

Lemma lp_create_account actor data : respects (keeps lp) (create_identity_service_account (R:=R) actor data).
Proof.
  intros s [Hwf Hl]. unfold create_identity_service_account.
  match goal with |- context [match ?o with Some p => _ | None => mret (Refused 400 _) end] => destruct o as [p|]; [|done] end.
  destruct (negb _); [done|]. unfold in_accounts. m_unfold.
  match goal with |- context [sa_create ?t ?p ?n ?ps ?b ?r] => pose proof (sa_create_law r t p n ps b (aw_accounts _ Hwf)) as Hc;
    destruct (sa_create t p n ps b r) as [[a|e] r'] end; simpl.
  - destruct Hc as (Hok&Hn&_&Hv). assert (lp (s <| au_service_accounts := r' |>)) as Hlp.
    { split; [by apply wf_accounts|]. intros id k Hk Hs. destruct (Hl id k Hk Hs) as (Ht&x&Hx&Hrest).
      split; [done|]. exists x. simpl. rewrite Hv, decide_False by congruence. done. }
    eapply lp_restricts; [|exact Hlp]. by apply restricts_aside.
  - destruct Hc as (Hok&Hv). split; [by apply wf_accounts|]. intros id k Hk Hs.
    eapply (key_within_rights s); [simpl; intros i; by rewrite Hv|reflexivity|]. by eapply Hl.
Qed.

(** The account is changed, then its keys are disabled as [P] says. *)
Lemma lp_change_loop s r account (P : APIKeyRecord → bool) a (done_ : M Auth (reply ServiceAccountRecord)) :
  lp s → sa_ok r → (∀ id, account ≠ id → sa_view r id = sa_view (au_service_accounts s) id) →
  let s1 := s <| au_service_accounts := r |> in
  (∀ k, k ∈ owned_keys account s1 → P k = false → key_within s k → key_within s1 k) →
  respects restricts done_ →
  lp ((for_each (owned_keys account s1) (λ k, if P k then disable_key (ak_id k) a ;; mret tt else mret tt) ;; done_) s1).2.
Proof.
  intros Hlp Hok Hv s1 Hkeep Hd. assert (auth_wf s1) as Hwf1 by (apply wf_accounts; [apply Hlp|done]).
  destruct (disable_loop P a (owned_keys account s1) s1) as (s2&E&H2).
  { intros k Hk. apply owned_keys_spec in Hk as (Hk&_); [by eexists|done]. }
  destruct (H2 Hwf1) as [Hf Hdis]. unfold mbind at 1, M_bind at 1. rewrite E.
  apply (lp_restricts s2); [apply Hd|]. by eapply (lp_after_change s r account P s2).
Qed.

Lemma in_accounts_run {A} (m : M R A) s x r :
  m (au_service_accounts s) = (x, r) → in_accounts m s = (x, s <| au_service_accounts := r |>).
Proof using. unfold in_accounts, zoom. by intros ->. Qed.

Lemma restricts_finish {A} actor action ty res md (x : A) :
  respects restricts (_append_identity_audit (R:=R) actor action ty res md ;; mret x).
Proof. intros s. by apply restricts_aside. Qed.

Lemma key_within_update s r account n ps st a k :
  sa_view (au_service_accounts s) account = Some a →
  (∀ id, sa_view r id = if decide (account = id) then Some (with_update n ps st a) else sa_view (au_service_accounts s) id) →
  ak_owner_id k = account → (∀ st', st = Some st' → st' = "active") →
  (∀ p, ps = Some p → ak_scopes k ⊆ p) → key_within s k → key_within (s <| au_service_accounts := r |>) k.
Proof.
  intros Ha Hv Ho Hst Hps (Ht&b&Hb&Hact&Hten&Hprj&Hsub). rewrite Ho, Ha in Hb. injection Hb as <-. split; [done|].
  exists (with_update n ps st a). simpl. rewrite Hv, decide_True by done. split; [done|].
  destruct n, ps as [p|], st as [st'|]; simpl; rewrite ?(Hst _ eq_refl); try specialize (Hps _ eq_refl); done.
Qed.

(** After [update]: nothing is left to do when the account stays active and keeps
    its permissions. *)
Lemma lp_updated s r account n ps st a :
  lp s → sa_ok r → sa_view (au_service_accounts s) account = Some a →
  (∀ id, sa_view r id = if decide (account = id) then Some (with_update n ps st a) else sa_view (au_service_accounts s) id) →
  (∀ st', st = Some st' → st' = "active") → ps = None → lp (s <| au_service_accounts := r |>).
Proof.
  intros Hlp Hok Ha Hv Hst Hps. assert (auth_wf (s <| au_service_accounts := r |>)) as Hwf1 by (apply wf_accounts; [apply Hlp|done]).
  apply (lp_after_change s r account (λ _, false)); [done|done|intros id Hne; by rewrite Hv, decide_False| |done|].
  - by apply (reflexivity (R:=restricts)).
  - intros k Hk _. apply owned_keys_spec in Hk as (_&_&Ho); [|done].
    eapply key_within_update; [done|done|done|done|]. by rewrite Hps.
Qed.

(** The two loops. *)
Lemma lp_disable_all s r account a (done_ : M Auth (reply ServiceAccountRecord)) :
  lp s → sa_ok r → (∀ id, account ≠ id → sa_view r id = sa_view (au_service_accounts s) id) →
  respects restricts done_ →
  lp (((s ← get_state; disable_keys a (owned_keys account s)) ;; done_) (s <| au_service_accounts := r |>)).2.
Proof.
  intros Hlp Hok Hv Hd. exact (lp_change_loop s r account (λ _, true) a done_ Hlp Hok Hv (λ _ _ H, ltac:(done)) Hd).
Qed.

Lemma lp_disable_outside s r account n ps st a actor (done_ : M Auth (reply ServiceAccountRecord)) :
  lp s → sa_ok r → sa_view (au_service_accounts s) account = Some a →
  (∀ id, sa_view r id = if decide (account = id) then Some (with_update n ps st a) else sa_view (au_service_accounts s) id) →
  (∀ st', st = Some st' → st' = "active") → respects restricts done_ →
  lp ((_disable_api_keys_outside_service_account_permissions account (with_update n ps st a) actor ;; done_)
    (s <| au_service_accounts := r |>)).2.
Proof.
  intros Hlp Hok Ha Hv Hst Hd.
  assert (auth_wf (s <| au_service_accounts := r |>)) as Hwf1 by (apply wf_accounts; [apply Hlp|done]).
  apply (lp_change_loop s r account (λ k, negb (bool_decide (ak_scopes k ⊆ sr_permissions (with_update n ps st a)))));
    [done|done|intros id Hne; by rewrite Hv, decide_False| |done].
  intros k Hk HP. apply owned_keys_spec in Hk as (_&_&Ho); [|done].
  apply negb_false_iff, bool_decide_eq_true in HP. eapply key_within_update; [done|done|done|done|].
  intros p ->. by destruct n, st.
Qed.

Lemma lp_update_account account actor data :
  respects (keeps lp) (update_identity_service_account (R:=R) account actor data).
Proof.
  apply lp_with_account. intros a s Ha Hlp. pose proof (aw_accounts _ (proj1 Hlp)) as Hok0.
  set (ps := list_to_set <$> ua_permissions data : option scopes_t). destruct (ua_status data) as [st|] eqn:Est.
  - destruct (sa_update_law _ account (ua_name data) ps (Some st) a Hok0 Ha) as (r&Eu&Hok&Hv).
    unfold mbind at 1, M_bind at 1. rewrite (in_accounts_run _ _ _ _ Eu).
    destruct (bool_decide (sr_status (with_update (ua_name data) ps (Some st) a) = "active")) eqn:Eact; cbn [negb].
    + apply bool_decide_eq_true in Eact. assert (st = "active") as -> by by destruct (ua_name data), ps.
      case_bool_decide as Hps.
      * eapply lp_disable_outside; [done..| |apply restricts_finish]. by intros ? [= <-].
      * eapply lp_restricts; [apply restricts_finish|]. eapply lp_updated; [done..| |].
        -- by intros ? [= <-].
        -- by apply eq_None_not_Some.
    + eapply lp_disable_all; [done|done| |apply restricts_finish].
      intros id Hne. by rewrite Hv, decide_False.
  - cbv zeta. fold ps. destruct (bool_decide (is_Some (ua_name data)) || bool_decide (is_Some ps)); [|exact Hlp].
    destruct (sa_update_law _ account (ua_name data) ps None a Hok0 Ha) as (r&Eu&Hok&Hv).
    unfold mbind at 1, M_bind at 1. rewrite (in_accounts_run _ _ _ _ Eu). case_bool_decide as Hps.
    + eapply lp_disable_outside; [done..|apply restricts_finish].
    + eapply lp_restricts; [apply restricts_finish|]. eapply lp_updated; [done..| |]; [done|].
      by apply eq_None_not_Some.
Qed.

Lemma lp_delete_account account actor : respects (keeps lp) (delete_identity_service_account (R:=R) account actor).
Proof.
  apply lp_with_account. intros a s Ha Hlp.
  destruct (sa_delete_law _ account a (aw_accounts _ (proj1 Hlp)) Ha) as (a'&r&Ed&Hok&Hv&_).
  unfold mbind at 1, M_bind at 1. rewrite (in_accounts_run _ _ _ _ Ed).
  exact (lp_disable_all s r account (ac_actor_id actor)
    (_append_identity_audit actor "identity.service_account.delete" "service_account" account [] ;; mret (Item a'))
    Hlp Hok Hv (restricts_finish _ _ _ _ _ _)).
Qed.

Lemma lp_catch {A B} (m : M Auth A) (f : outcome A → M Auth B) :
  respects (keeps lp) m → (∀ o, respects restricts (f o)) → respects (keeps lp) (catch m ≫= f).
Proof.
  intros Hm Hf s Hlp. specialize (Hm s Hlp). unfold catch, mbind, M_bind. destruct (m s) as [o s1].
  by apply (lp_restricts s1); [apply Hf|].
Qed.

Lemma restricts_raise {A} e : respects restricts (raise (S:=Auth) (A:=A) e).
Proof. intros s. reflexivity. Qed.
Lemma restricts_ret {A} (x : A) : respects restricts (mret (M:=M Auth) x).
Proof. intros s. reflexivity. Qed.

Lemma lp_create_key_request account actor data :
  respects (keeps lp) (create_identity_service_account_api_key sha256 account actor data).
Proof.
  apply lp_with_account. intros a s _. apply lp_catch; [apply lp_create_key|].
  intros [[plain k]|e]; [apply restricts_finish|]. destruct e; solve [apply restricts_raise|apply restricts_ret].
Qed.

Lemma get_key_spec account key s k :
  auth_wf s → _get_service_account_api_key account key s = Some k →
  key_view s key = Some k ∧ ak_owner_type k = "service_account" ∧ ak_owner_id k = account.
Proof.
  intros Hwf H. unfold _get_service_account_api_key in H. apply find_some in H as [Hin He]. b2p.
  apply list_elem_of_In, owned_keys_spec in Hin as (?&?&?); [|done]. by subst.
Qed.

Lemma lp_with_key account key actor m :
  (∀ s k, key_view s key = Some k → ak_owner_type k = "service_account" → lp s → lp (m s).2) →
  respects (keeps lp) (with_key account key actor m).
Proof.
  intros Hm s Hlp. unfold with_key. unfold mbind at 1, M_bind at 1, get_state at 1.
  destruct (_get_service_account_api_key account key s) as [k|] eqn:Ek; [|done].
  apply get_key_spec in Ek as (Ek&Hot&_); [|apply Hlp]. destruct (negb _); [done|]. by eapply Hm.
Qed.

Lemma lp_disable_request account key actor :
  respects (keeps lp) (disable_identity_service_account_api_key (R:=R) account key actor).
Proof.
  apply lp_with_key. intros s k _ _. apply (respects_bind (keeps lp)); [apply lp_of_restricts, restricts_disable|].
  intros x. apply lp_of_restricts, restricts_finish.
Qed.

Lemma lp_delete_request account key actor :
  respects (keeps lp) (delete_identity_service_account_api_key (R:=R) account key actor).
Proof.
  apply lp_with_key. intros s k _ _. apply (respects_bind (keeps lp)); [apply lp_of_restricts, restricts_delete|].
  intros x. apply lp_of_restricts, restricts_finish.
Qed.

Lemma lp_enable_request account key actor :
  respects (keeps lp) (enable_identity_service_account_api_key (R:=R) account key actor).
Proof.
  apply lp_with_key. intros s k Hk Hot Hlp. pose proof (lp_enable key (ac_actor_id actor) s Hlp) as He.
  unfold catch, mbind at 1, M_bind at 1. destruct (enable_key key (ac_actor_id actor) s) as [o s1].
  assert (lp s1) as H1 by (apply He; intros ? ?; by simplify_eq).
  apply (lp_restricts s1); [|done]. destruct o as [x|e]; [apply restricts_finish|].
  destruct e; solve [apply restricts_raise|apply restricts_ret].
Qed.

Lemma lp_rotate account key actor body reason :
  respects (keeps lp) (rotate_service_account_api_key sha256 account key actor body reason).
Proof.
  unfold rotate_service_account_api_key. destruct (no_reason reason); [by intros s|].
  apply lp_with_account. intros a s _ Hlp. unfold mbind at 1, M_bind at 1, get_state at 1.
  destruct (_get_service_account_api_key account key s) as [k|] eqn:Ek; [|done].
  apply get_key_spec in Ek as (Ek&Hot&_); [|apply Hlp]. rewrite Hot. cbv zeta.
  revert Hlp. apply (respects_bind (keeps lp)); [apply lp_create_key|]. intros [plain x].
  apply (respects_bind (keeps lp)); [apply lp_of_restricts, restricts_disable|]. intros y.
  apply lp_of_restricts, restricts_finish.
Qed.

Lemma lp_force_expire account key actor reason :
  respects (keeps lp) (force_expire_service_account_api_key (R:=R) account key actor reason).
Proof.
  unfold force_expire_service_account_api_key. destruct (no_reason reason); [by intros s|].
  apply lp_with_account. intros a s _. apply lp_catch; [apply lp_of_restricts, restricts_expire|].
  intros [x|e]; [apply restricts_finish|]. destruct e; solve [apply restricts_raise|apply restricts_ret].
Qed.

Lemma restricts_mark_key id now :
  respects restricts (on_api_key (R:=R) id (modify (λ k, k <| ak_last_used_at := Some now |>))).
Proof.
  intros s Hwf. pose proof Hwf as [W1 W2 W3 W4 W5 W6]. unfold on_api_key, on_key, zoom.
  destruct (dict_get id (au_keys s)) as [k|] eqn:Ek; simpl; [|by revert Hwf; apply restricts_aside].
  assert (auth_wf (s <| au_keys := dict_set id (k <| ak_last_used_at := Some now |>) (au_keys s) |>)) as Hwf'
    by (eapply (wf_changed id k); [changed_tac|done]).
  split; [exact Hwf'|done|done|]. intros i x. unfold key_view. simpl. destruct (au_db s); [by eauto|].
  rewrite dict_get_set. case_decide; [subst i|by eauto]. intros [= <-] Hs. by exists k.
Qed.

Lemma restricts_authenticate plain t p sc : respects restricts (authenticate sha256 plain t p sc).
Proof.
  unfold authenticate. apply (respects_bind restricts); [apply restricts_find|]. intros k.
  repeat (first [apply restricts_audit_sink|apply restricts_now|apply restricts_mark_used|apply restricts_mark_key
    |apply (respects_check restricts)|apply (respects_get_state restricts)|apply (respects_ret restricts)
    |apply (respects_if restricts)|apply (respects_match_option restricts)|apply (respects_bind restricts)|intros ?]).
Qed.

(** ** What it takes to authenticate *)

Lemma find_by_hash_spec h s r s' :
  auth_wf s → _find_by_hash h s = (Ret r, s') →
  ∃ k, key_view s (ak_id k) = Some k ∧ r = k <| ak_last_used_at := ak_last_used_at r |> ∧ ak_key_hash k = h ∧
    au_now s' = au_now s ∧ (au_ticks s ≤ au_ticks s')%nat.
Proof.
  intros Hwf. unfold _find_by_hash, auth_now, set_key_row, key_view. m_unfold. destruct (au_db s) eqn:Ed.
  - destruct (List.find _ _) as [w|] eqn:Ef; [|done]. apply find_some in Ef as [Hin Hc].
    apply list_elem_of_In, values_elem in Hin as [i Hi]; [|apply Hwf]. pose proof (aw_rows _ Hwf _ _ Hi) as [Hid _].
    apply andb_true_iff in Hc as [Hh%bool_decide_eq_true Hd].
    assert (_record_from_model <$> key_row (ak_id (_record_from_model w)) s = Some (_record_from_model w)) as Hv.
    { simpl. unfold key_row. rewrite Hid, Hi. simpl. by destruct (kw_is_deleted w). }
    destruct (bool_decide (kw_status w = "active")); intros [= <- <-]; exists (_record_from_model w); simpl; split_and!; try done; lia.
  - destruct (List.find _ _) as [k|] eqn:Ef; [|done]. apply find_some in Ef as [Hin Hh%bool_decide_eq_true].
    apply list_elem_of_In, values_elem in Hin as [i Hi]; [|apply Hwf]. pose proof (aw_keys _ Hwf _ _ Hi) as [Hid _].
    intros [= <- <-]. exists k. rewrite Hid. split_and!; try done. by destruct k.
Qed.

Lemma authenticate_inv plain t p sc s actor s' :
  auth_wf s → authenticate sha256 plain t p sc s = (Ret actor, s') →
  ∃ k, key_view s (ak_id k) = Some k ∧ ak_key_hash k = sha256 plain ∧ ak_status k = "active" ∧
    ak_tenant_id k = t ∧ (∀ q, ak_project_id k = Some q → p = Some q) ∧ sc ∈ ak_scopes k ∧
    (∀ e, ak_expires_at k = Some e → ∃ n, (au_ticks s ≤ n)%nat ∧ au_now s n < e) ∧
    actor = mkActor t p (ak_owner_type k) (pretty (ak_owner_id k)) (ak_scopes k) (Some (ak_id k)).
Proof.
  intros Hwf H. unfold authenticate in H. apply bind_ret_inv in H as (r&s1&Hf&H).
  destruct (find_by_hash_spec _ _ _ _ Hwf Hf) as (k&Hk&Er&Hh&Hnow&Htick). 
  clear Hf. revert Er. generalize (ak_last_used_at r). intros l ->. simpl in H.
  apply bind_ret_inv in H as ([]&s2&Hs&H). unfold check in Hs.
  destruct (bool_decide (ak_status k = "active")) eqn:Es; [|done]. apply bool_decide_eq_true in Es. injection Hs as <-.
  apply bind_ret_inv in H as ([]&s3&He&H).
  apply bind_ret_inv in H as ([]&s4&Ht&H). unfold check in Ht. destruct (ak_tenant_id k =? t) eqn:Et; [|done]. b2p. injection Ht as <-.
  apply bind_ret_inv in H as ([]&s5&Hp&H). unfold check in Hp.
  destruct (match ak_project_id k with Some p0 => _ | None => _ end) eqn:Ep; [|done]. injection Hp as <-.
  apply bind_ret_inv in H as ([]&s6&Hc&H). unfold check in Hc.
  destruct (bool_decide (sc ∈ ak_scopes k)) eqn:Ec; [|done]. apply bool_decide_eq_true in Ec. injection Hc as <-.
  do 5 (apply bind_ret_inv in H as (?&?&_&H)). injection H as <- <-.
  exists k. split_and!; try done.
  - intros q Hq. rewrite Hq in Ep. by apply bool_decide_eq_true in Ep.
  - intros e Eexp. rewrite Eexp in He. unfold auth_now, check in He. m_unfold in He. simpl in He.
    exists (au_ticks s1). split; [done|]. rewrite <-Hnow.
    destruct (e <=? au_now s1 (au_ticks s1)) eqn:Ee; [done|]. blia.
Qed.

(** C27: whoever authenticates holds a stored key that is active, not expired, of
    the tenant and project asked for, and has the scope required; the key's owner
    is an active service account of that tenant and project, and the caller gets
    no scope the owner lacks. *)
Theorem authenticate_sound plain t p sc s actor s'
    (Hlp : lp s) (Hcall : authenticate sha256 plain t p sc s = (Ret actor, s')) :
  ∃ k a, key_view s (ak_id k) = Some k ∧ ak_key_hash k = sha256 plain ∧ ak_status k = "active" ∧
    (∀ e, ak_expires_at k = Some e → ∃ n, (au_ticks s ≤ n)%nat ∧ au_now s n < e) ∧
    sa_view (au_service_accounts s) (ak_owner_id k) = Some a ∧ sr_status a = "active" ∧ sr_tenant_id a = t ∧
    (∀ q, sr_project_id a = Some q → p = Some q) ∧
    sc ∈ ac_scopes actor ∧ ac_scopes actor ⊆ sr_permissions a ∧ ac_tenant_id actor = t ∧ ac_project_id actor = p.
Proof.
  destruct (authenticate_inv _ _ _ _ _ _ _ (proj1 Hlp) Hcall) as (k&Hk&Hh&Hs&Ht&Hp&Hc&He&->).
  destruct (proj2 Hlp _ _ Hk Hs) as (Hot&a&Ha&Hact&Hten&Hprj&Hsub). exists k, a. split_and!; try done.
  - by rewrite Hten.
  - intros q Hq. apply Hp. by rewrite <-Hprj.
Qed.

(** * Sequences of requests *)

Inductive identity_request : Type :=
| RCreateAccount (actor : AuthenticatedActor) (data : CreateAccount)
| RUpdateAccount (account : Z) (actor : AuthenticatedActor) (data : UpdateAccount)
| RDeleteAccount (account : Z) (actor : AuthenticatedActor)
| RCreateKey (account : Z) (actor : AuthenticatedActor) (data : KeyBody)
| RDisableKey (account key : Z) (actor : AuthenticatedActor)
| REnableKey (account key : Z) (actor : AuthenticatedActor)
| RDeleteKey (account key : Z) (actor : AuthenticatedActor)
| RRotateKey (account key : Z) (actor : AuthenticatedActor) (data : KeyBody) (reason : option string)
| RForceExpire (account key : Z) (actor : AuthenticatedActor) (reason : option string)
| RAuthenticate (plain : string) (tenant : Z) (project : option Z) (scope : string).

(** Each call commits its own transactions: what was done before an error stays. *)
Definition identity_step s (q : identity_request) : Auth :=
  match q with
  | RCreateAccount actor d => (create_identity_service_account actor d s).2
  | RUpdateAccount a actor d => (update_identity_service_account a actor d s).2
  | RDeleteAccount a actor => (delete_identity_service_account a actor s).2
  | RCreateKey a actor d => (create_identity_service_account_api_key sha256 a actor d s).2
  | RDisableKey a k actor => (disable_identity_service_account_api_key a k actor s).2
  | REnableKey a k actor => (enable_identity_service_account_api_key a k actor s).2
  | RDeleteKey a k actor => (delete_identity_service_account_api_key a k actor s).2
  | RRotateKey a k actor d r => (rotate_service_account_api_key sha256 a k actor d r s).2
  | RForceExpire a k actor r => (force_expire_service_account_api_key a k actor r s).2
  | RAuthenticate plain t p sc => (authenticate sha256 plain t p sc s).2
  end.

Lemma lp_step s q : lp s → lp (identity_step s q).
Proof.
  destruct q; [apply lp_create_account|apply lp_update_account|apply lp_delete_account|apply lp_create_key_request
    |apply lp_disable_request|apply lp_enable_request|apply lp_delete_request|apply lp_rotate|apply lp_force_expire|].
  apply lp_of_restricts, restricts_authenticate.
Qed.

Lemma lp_new accounts now token db : sa_ok accounts → lp (new_authenticator accounts now token db).
Proof.
  intros Hok. split; [split; try done; constructor|]. intros id k. unfold key_view. by destruct db.
Qed.

Lemma lp_exec reqs s : lp s → lp (foldl identity_step s reqs).
Proof. revert s. induction reqs as [|q reqs IH]; [done|]. intros s Hs. apply IH. by apply lp_step. Qed.

(** C26: after any sequence of administration requests and logins, whatever the
    order and whoever made them, a key that works belongs to an active service
    account of the same tenant and project, and grants only permissions that
    account has now: disabling or deleting an account, or taking permissions from
    it, also takes them from its keys. *)
Theorem least_privilege_invariant accounts now token db reqs (Hok : sa_ok accounts) :
  least_privilege (foldl identity_step (new_authenticator accounts now token db) reqs).
Proof. by apply lp_exec, lp_new. Qed.

(** ** Revoked keys *)

Definition revoked (w : APIKeyRow) : Prop := kw_status w ≠ "active" ∨ kw_is_deleted w = true.

(** The row [id] stays, keeps its hash, and stays revoked. *)
Record row_kept id s s' : Prop := {
  rk_wf : auth_wf s';
  rk_db : au_db s' = au_db s;
  rk_row : ∀ w, dict_get id (au_rows s) = Some w →
    ∃ w', dict_get id (au_rows s') = Some w' ∧ kw_key_hash w' = kw_key_hash w ∧ (revoked w → revoked w')
}.
Definition keeps_row id s s' : Prop := auth_wf s → row_kept id s s'.

#[export] Instance keeps_row_preorder id : PreOrder (keeps_row id).
Proof.
  split.
  - intros s Hwf. split; eauto.
  - intros s1 s2 s3 H1 H2 Hwf. destruct (H1 Hwf) as [W1 D1 K1]. destruct (H2 W1) as [W2 D2 K2].
    split; [done|by rewrite D2|]. intros w Hw. destruct (K1 _ Hw) as (w1&Hw1&Hh1&Hr1).
    destruct (K2 _ Hw1) as (w2&Hw2&Hh2&Hr2). exists w2. split; [done|]. split; [by rewrite Hh2|auto].
Qed.

(** Steps that leave the table alone. *)
Lemma keeps_row_same id s s' : restricts s s' → au_rows s' = au_rows s → keeps_row id s s'.
Proof. intros Hr E Hwf. destruct (Hr Hwf) as [W D _ _]. split; [done|done|]. rewrite E. eauto. Qed.

Lemma keeps_row_accounts {A} id (m : M R A) :
  (∀ r, sa_ok r → sa_ok (m r).2) → respects (keeps_row id) (in_accounts m).
Proof.
  intros Hm s Hwf. unfold in_accounts, zoom. specialize (Hm _ (aw_accounts _ Hwf)).
  destruct (m (au_service_accounts s)) as [o r]. split; [by apply wf_accounts|done|]. simpl. eauto.
Qed.

(** Steps that write one row. *)
Lemma keeps_row_written id i w w' s s' :
  written i w w' s s' → (id = i → revoked w → revoked w') → keeps_row id s s'.
Proof.
  intros Hw Hr Hwf. pose proof Hw as [Hg _ Hh Er _ _ _ Ed _]. split; [by eapply wf_written|done|].
  intros x Hx. rewrite Er, dict_get_set. case_decide; subst; [|by eauto]. simplify_eq. exists w'. auto.
Qed.

Lemma keeps_row_aside {A} id (m : M Auth A) :
  respects restricts m → (∀ s, au_rows (m s).2 = au_rows s) → respects (keeps_row id) m.
Proof. intros Hr He s. by apply keeps_row_same. Qed.

Lemma keeps_row_disable id i a : respects (keeps_row id) (disable_key (R:=R) i a).
Proof.
  intros s. destruct (disable_key_run i a s) as [(Hd&w&w'&s'&E&Hw&Hs&_)|[(Hd&k&s'&E&Hc)|[-> _]]]; [| |reflexivity].
  - rewrite E. eapply keeps_row_written; [done|]. intros _ _. left. by rewrite Hs.
  - pose proof (restricts_disable i a s) as Hr. rewrite E in Hr |- *. apply keeps_row_same; [done|]. by destruct Hc.
Qed.

Lemma keeps_row_delete id i a : respects (keeps_row id) (delete_key (R:=R) i a).
Proof.
  intros s. pose proof (restricts_delete i a s) as Hr. revert Hr.
  unfold delete_key, auth_now, set_key_row. m_unfold. destruct (au_db s) eqn:Ed.
  - destruct (key_row i s) as [w|] eqn:Ew; [|reflexivity]. apply key_row_inv in Ew as [Ew _]. simpl. intros _.
    eapply keeps_row_written; [written_tac|]. intros _ _. by right.
  - destruct (dict_get i (au_keys s)) as [k|] eqn:Ek; [|reflexivity]. simpl. intros Hr. by apply keeps_row_same.
Qed.

Lemma keeps_row_expire id i a : respects (keeps_row id) (expire_key (R:=R) i a).
Proof.
  intros s. pose proof (restricts_expire i a s) as Hr. revert Hr.
  unfold expire_key, auth_now, set_key_row, on_api_key, on_key. m_unfold. simpl. destruct (au_db s) eqn:Ed.
  - change (key_row i _) with (key_row i s). destruct (key_row i s) as [w|] eqn:Ew; simpl; intros Hr; [|by apply keeps_row_same].
    apply key_row_inv in Ew as [Ew _]. eapply keeps_row_written; [written_tac|]. intros _ _. by left.
  - simpl. destruct (dict_get i (au_keys s)) as [k|] eqn:Ek; simpl; intros Hr; by apply keeps_row_same.
Qed.

Lemma keeps_row_find id h : respects (keeps_row id) (_find_by_hash (R:=R) h).
Proof.
  intros s. unfold _find_by_hash, auth_now, set_key_row. m_unfold.
  destruct (au_db s) eqn:Ed; [|destruct (List.find _ _); reflexivity].
  destruct (List.find _ _) as [w|] eqn:Ef; [|reflexivity]. apply find_some in Ef as [Hin _]. simpl.
  destruct (bool_decide (kw_status w = "active")) eqn:Es; [|reflexivity]. simpl. intros Hwf.
  apply list_elem_of_In, values_elem in Hin as [i Hi]; [|apply Hwf]. pose proof (aw_rows _ Hwf _ _ Hi) as [Hx _].
  rewrite Hx. revert Hwf. eapply keeps_row_written; [written_tac|]. done.
Qed.

Lemma keeps_row_create_key id t p n o sc by' e :
  respects (keeps_row id) (create_key sha256 t p n "service_account" o sc by' e).
Proof.
  intros s Hwf. unfold create_key. pose proof (assert_owner_run t p o sc s) as Ha.
  unfold mbind, M_bind. destruct (_assert_owner_scope_subset _ _ _ _ _ s) as [[[]|x] s1].
  2:{ subst s1. by apply (reflexivity (R:=keeps_row id)). }
  destruct Ha as [-> _]. pose proof (issue_key_run t p n "service_account" o sc by' e s Hwf) as Hi.
  destruct (issue_key _ _ _ _ _ _ _ _ _ s) as [[[plain k]|x] s'].
  - destruct Hi as (Hwf'&Hd&_&_&_&_&_&_&_&_&Hrows). split; [done|done|]. simpl. eauto.
  - destruct Hi as [Hr Er]. by apply keeps_row_same.
Qed.

(** Enabling another key. *)
Lemma keeps_row_enable id i a s :
  (∀ k, key_view s i = Some k → ak_owner_type k = "service_account") → id ≠ i → keeps_row id s (enable_key i a s).2.
Proof.
  intros Hot Hne.
  destruct (enable_key_run i a s Hot) as [(k&s'&E&Hin&[(Hd&w&w'&Hw&Hdel&Ek)|(Hd&k0&Hc)])|[e ->]]; [| |reflexivity].
  - rewrite E. by eapply keeps_row_written.
  - rewrite E. intros Hwf. pose proof Hc as [_ _ _ Er _ _ Ed _]. simpl. split; [by eapply wf_changed|done|].
    rewrite Er. eauto.
Qed.

Lemma row_with_account {A} id actor account missing (f : ServiceAccountRecord → M Auth (reply A)) :
  (∀ a s, sa_view (au_service_accounts s) account = Some a → keeps_row id s (f a s).2) →
  respects (keeps_row id) (with_account actor account missing f).
Proof.
  intros Hf s. rewrite with_account_cases. destruct (sa_view _ account) as [a|] eqn:Ea; [|reflexivity].
  destruct (_actor_can_access_target _ _ _); [by apply Hf|reflexivity].
Qed.

Lemma row_with_key id account key actor m :
  (∀ s, (∀ k, key_view s key = Some k → ak_owner_type k = "service_account") → keeps_row id s (m s).2) →
  respects (keeps_row id) (with_key account key actor m).
Proof.
  intros Hm s Hwf. unfold with_key. unfold mbind at 1, M_bind at 1, get_state at 1.
  destruct (_get_service_account_api_key account key s) as [k|] eqn:Ek; [|by apply (reflexivity (R:=keeps_row id))].
  apply get_key_spec in Ek as (Ek&Hot&_); [|done]. destruct (negb _); [by apply (reflexivity (R:=keeps_row id))|].
  apply Hm; [|done]. intros x Hx. by simplify_eq.
Qed.

Lemma row_finish {A} id actor action ty res md (x : A) :
  respects (keeps_row id) (_append_identity_audit (R:=R) actor action ty res md ;; mret x).
Proof. apply keeps_row_aside; [apply restricts_finish|done]. Qed.

Lemma row_catch {A B} id (m : M Auth A) (f : outcome A → M Auth B) s :
  keeps_row id s (m s).2 → (∀ o, respects (keeps_row id) (f o)) → keeps_row id s ((catch m ≫= f) s).2.
Proof.
  intros Hm Hf. unfold catch, mbind, M_bind. destruct (m s) as [o s1]. etrans; [exact Hm|apply Hf].
Qed.

Lemma row_disable_loop id (P : APIKeyRecord → bool) a l :
  respects (keeps_row id) (for_each (S:=Auth) l (λ k, if P k then disable_key (ak_id k) a ;; mret tt else mret tt)).
Proof.
  apply (respects_for_each (keeps_row id)). intros k _. destruct (P k); [|apply (respects_ret (keeps_row id))].
  apply (respects_bind (keeps_row id)); [apply keeps_row_disable|]. intros ?. apply (respects_ret (keeps_row id)).
Qed.

Lemma row_in_accounts id s r : sa_ok r → keeps_row id s (s <| au_service_accounts := r |>).
Proof. intros Hr Hwf. split; [by apply wf_accounts|done|]. simpl. eauto. Qed.

(** An account is changed, keys are disabled, the change is audited. *)
Lemma row_change {A} id s (m : M R A) a r (f : A → M Auth (reply ServiceAccountRecord)) :
  m (au_service_accounts s) = (Ret a, r) → sa_ok r → (∀ x, respects (keeps_row id) (f x)) →
  keeps_row id s ((in_accounts m ≫= f) s).2.
Proof.
  intros E Hok Hf. unfold mbind at 1, M_bind at 1. rewrite (in_accounts_run _ _ _ _ E).
  etrans; [by apply row_in_accounts|apply Hf].
Qed.

Ltac row_tac id := repeat (first
  [apply row_finish|apply row_disable_loop|apply keeps_row_disable|apply keeps_row_delete|apply keeps_row_expire
  |apply keeps_row_create_key|apply (respects_get_state (keeps_row id))|apply (respects_ret (keeps_row id))
  |apply (respects_raise (keeps_row id))|apply (respects_if (keeps_row id))|apply (respects_bind (keeps_row id))|intros ?]).

Lemma row_disable_all id a ac :
  respects (keeps_row id) (s ← get_state; disable_keys (R:=R) a (owned_keys ac s)).
Proof. apply (respects_bind (keeps_row id)); [by row_tac id|]. intros s. exact (row_disable_loop id (λ _, true) a _). Qed.

Lemma row_disable_outside id ac r actor :
  respects (keeps_row id) (_disable_api_keys_outside_service_account_permissions (R:=R) ac r actor).
Proof. apply (respects_bind (keeps_row id)); [by row_tac id|]. intros s. apply (row_disable_loop id (λ k, negb _)). Qed.

Lemma row_create_account id actor d : respects (keeps_row id) (create_identity_service_account (R:=R) actor d).
Proof.
  unfold create_identity_service_account.
  match goal with |- context [match ?o with Some p => _ | None => mret (Refused 400 _) end] =>
    destruct o as [p|]; [|apply (respects_ret (keeps_row id))] end.
  destruct (negb _); [apply (respects_ret (keeps_row id))|].
  apply (respects_bind (keeps_row id)); [|intros x; apply row_finish]. intros s Hwf.
  match goal with |- context [sa_create ?t ?p ?n ?ps ?b] =>
    pose proof (sa_create_law (au_service_accounts s) t p n ps b (aw_accounts _ Hwf)) as Hc;
    destruct (sa_create t p n ps b (au_service_accounts s)) as [o r'] eqn:Ec end.
  rewrite (in_accounts_run _ _ _ _ Ec). simpl. revert Hwf. apply row_in_accounts. destruct o; apply Hc.
Qed.

Lemma row_update_account id ac actor d : respects (keeps_row id) (update_identity_service_account (R:=R) ac actor d).
Proof.
  apply row_with_account. intros a s Ha Hwf. set (ps := list_to_set <$> ua_permissions d : option scopes_t).
  destruct (ua_status d) as [st|].
  - destruct (sa_update_law _ ac (ua_name d) ps (Some st) a (aw_accounts _ Hwf) Ha) as (r&Eu&Hok&_).
    revert Hwf. eapply row_change; [exact Eu|done|]. intros x.
    apply (respects_bind (keeps_row id)); [|intros _; apply row_finish].
    destruct (negb _); [apply row_disable_all|]. destruct (bool_decide _); [apply row_disable_outside|by row_tac id].
  - cbv zeta. fold ps. destruct (bool_decide _ || bool_decide _); [|by revert Hwf; apply (reflexivity (R:=keeps_row id))].
    destruct (sa_update_law _ ac (ua_name d) ps None a (aw_accounts _ Hwf) Ha) as (r&Eu&Hok&_).
    revert Hwf. eapply row_change; [exact Eu|done|]. intros x.
    apply (respects_bind (keeps_row id)); [|intros _; apply row_finish].
    destruct (bool_decide _); [apply row_disable_outside|by row_tac id].
Qed.

Lemma row_delete_account id ac actor : respects (keeps_row id) (delete_identity_service_account (R:=R) ac actor).
Proof.
  apply row_with_account. intros a s Ha Hwf.
  destruct (sa_delete_law _ ac a (aw_accounts _ Hwf) Ha) as (a'&r&Ed&Hok&_).
  revert Hwf. eapply row_change; [exact Ed|done|]. intros x. apply (respects_bind (keeps_row id)); [by row_tac id|].
  intros s1. apply (respects_bind (keeps_row id)); [|intros _; apply row_finish]. exact (row_disable_loop id (λ _, true) _ _).
Qed.

Lemma row_create_key_request id ac actor d :
  respects (keeps_row id) (create_identity_service_account_api_key sha256 ac actor d).
Proof.
  apply row_with_account. intros a s _. apply row_catch; [apply keeps_row_create_key|].
  intros [[plain k]|e]; [apply row_finish|]. destruct e; by row_tac id.
Qed.

Lemma row_enable_request id ac key actor :
  id ≠ key → respects (keeps_row id) (enable_identity_service_account_api_key (R:=R) ac key actor).
Proof.
  intros Hne. apply row_with_key. intros s Hot. apply row_catch; [by apply keeps_row_enable|].
  intros [x|e]; [apply row_finish|]. destruct e; by row_tac id.
Qed.

Lemma row_rotate id ac key actor d rs : respects (keeps_row id) (rotate_service_account_api_key sha256 ac key actor d rs).
Proof.
  unfold rotate_service_account_api_key. destruct (no_reason rs); [by row_tac id|].
  apply row_with_account. intros a s _ Hwf. unfold mbind at 1, M_bind at 1, get_state at 1.
  destruct (_get_service_account_api_key ac key s) as [k|] eqn:Ek; [|by apply (reflexivity (R:=keeps_row id))].
  apply get_key_spec in Ek as (Ek&Hot&_); [|done]. rewrite Hot. cbv zeta. revert Hwf.
  apply (respects_bind (keeps_row id)); [apply keeps_row_create_key|]. intros [plain x]. by row_tac id.
Qed.

Lemma row_force_expire id ac key actor rs :
  respects (keeps_row id) (force_expire_service_account_api_key (R:=R) ac key actor rs).
Proof.
  unfold force_expire_service_account_api_key. destruct (no_reason rs); [by row_tac id|].
  apply row_with_account. intros a s _. apply row_catch; [apply keeps_row_expire|].
  intros [x|e]; [apply row_finish|]. destruct e; by row_tac id.
Qed.

Lemma row_authenticate id plain t p sc : respects (keeps_row id) (authenticate sha256 plain t p sc).
Proof.
  unfold authenticate. apply (respects_bind (keeps_row id)); [apply keeps_row_find|]. intros k.
  repeat (first [apply keeps_row_aside; [apply restricts_now|done]|apply keeps_row_aside; [apply restricts_audit_sink|done]
    |apply (respects_check (keeps_row id))|apply (respects_get_state (keeps_row id))|apply (respects_ret (keeps_row id))
    |apply (respects_if (keeps_row id))|apply (respects_match_option (keeps_row id))
    |apply keeps_row_accounts; intros r Hr; by apply (sa_mark_used_law r)
    |apply keeps_row_aside; [apply restricts_mark_key|intros s1; unfold on_api_key, on_key, zoom; by destruct (dict_get _ _)]
    |apply (respects_bind (keeps_row id))|intros ?]).
Qed.

Lemma row_step id s q : (∀ account actor, q ≠ REnableKey account id actor) → keeps_row id s (identity_step s q).
Proof.
  destruct q; intros Hq; [apply row_create_account|apply row_update_account|apply row_delete_account
    |apply row_create_key_request| | | |apply row_rotate|apply row_force_expire|apply row_authenticate].
  - apply row_with_key. intros x _. apply (respects_bind (keeps_row id)); [apply keeps_row_disable|intros ?; apply row_finish].
  - apply row_enable_request. intros ->. by eapply Hq.
  - apply row_with_key. intros x _. apply (respects_bind (keeps_row id)); [apply keeps_row_delete|intros ?; apply row_finish].
Qed.

(** A key that was disabled, expired or deleted stays out: whatever requests
    follow, as long as none of them enables that key, its plain text
    authenticates nobody. *)
Theorem revoked_key_stays_out s id w plain reqs t p sc
    (Hlp : auth_wf s) (Hdb : au_db s = true) (Hrow : dict_get id (au_rows s) = Some w)
    (Hhash : kw_key_hash w = sha256 plain) (Hrev : revoked w)
    (Hreqs : Forall (λ q, ∀ account actor, q ≠ REnableKey account id actor) reqs) :
  raises (authenticate sha256 plain t p sc (foldl identity_step s reqs)).1.
Proof.
  assert (keeps_row id s (foldl identity_step s reqs)) as Hk.
  { clear -Hreqs ServiceAccountsLaws0. revert s. induction Hreqs as [|q reqs Hq _ IH]; intros s; [reflexivity|].
    simpl. etrans; [by apply row_step|apply IH]. }
  destruct (Hk Hlp) as [Hwf' Hdb' Hrow']. destruct (Hrow' _ Hrow) as (w'&Hw'&Hh'&Hr').
  destruct (authenticate _ _ _ _ _ _) as [[actor|e] s'] eqn:E; [exfalso|by eexists].
  destruct (authenticate_inv _ _ _ _ _ _ _ Hwf' E) as (k&Hv&Hh&Hs&_). unfold key_view in Hv.
  rewrite Hdb', Hdb in Hv. destruct (key_row (ak_id k) _) as [w2|] eqn:E2; [|done]. injection Hv as Hk2.
  apply key_row_inv in E2 as [E2 Hd2]. rewrite <-Hk2 in Hh, Hs. simpl in Hh, Hs.
  assert (id = ak_id k) as -> by (eapply (aw_hash _ Hwf'); [done..|congruence]).
  simplify_eq. destruct (Hr' Hrev); congruence.
Qed.

(** ** New keys work *)

(** No other key has the same hash. *)
Definition only_hash s (id : Z) (h : string) : Prop :=
  ∀ id' k', key_view s id' = Some k' → ak_key_hash k' = h → id' = id.

Lemma find_unique {A} (P : A → bool) l x :
  x ∈ l → P x = true → (∀ y, y ∈ l → P y = true → y = x) → List.find P l = Some x.
Proof.
  intros Hx HP Hu. destruct (List.find P l) as [y|] eqn:E.
  - apply find_some in E as [Hy HPy]. f_equal. by apply Hu; [apply list_elem_of_In|].
  - by rewrite (find_none _ _ E x) in HP; [|apply list_elem_of_In].
Qed.

Lemma find_by_hash_complete s id k :
  auth_wf s → key_view s id = Some k → only_hash s id (ak_key_hash k) → ak_status k = "active" →
  ∃ l s', _find_by_hash (ak_key_hash k) s = (Ret (k <| ak_last_used_at := l |>), s') ∧
    au_now s' = au_now s ∧ (au_ticks s' ≤ S (au_ticks s))%nat ∧ au_service_accounts s' = au_service_accounts s ∧
    au_db s' = au_db s ∧ au_keys s' = au_keys s.
Proof.
  intros Hwf Hk Hu Hs. unfold _find_by_hash, auth_now, set_key_row. m_unfold. unfold only_hash, key_view in *.
  destruct (au_db s) eqn:Ed.
  - destruct (key_row id s) as [w|] eqn:Ew; [|done]. injection Hk as <-. apply key_row_inv in Ew as [Ew Hdel]. simpl in *.
    rewrite (find_unique _ _ w).
    + rewrite bool_decide_true by done. simpl. eexists (Some _), _. split; [done|]. simpl. split_and!; auto with lia.
    + apply values_elem; [apply Hwf|by eauto].
    + by rewrite bool_decide_true, Hdel.
    + intros y Hy [Hh%bool_decide_eq_true Hdy]%andb_true_iff. apply values_elem in Hy as [i Hi]; [|apply Hwf].
      assert (i = id) as -> by by eapply (aw_hash _ Hwf). congruence.
  - rewrite (find_unique _ _ k).
    + eexists (ak_last_used_at k), _. split; [by destruct k|]. split_and!; auto with lia.
    + apply values_elem; [apply Hwf|by eauto].
    + by rewrite bool_decide_true.
    + intros y Hy Hh%bool_decide_eq_true. apply values_elem in Hy as [i Hi]; [|apply Hwf].
      assert (i = id) as -> by by eapply Hu. congruence.
Qed.

Lemma authenticate_complete s id k a project sc :
  auth_wf s → key_view s id = Some k → only_hash s id (ak_key_hash k) → ak_status k = "active" →
  sa_view (au_service_accounts s) (ak_owner_id k) = Some a →
  (∀ q, ak_project_id k = Some q → project = Some q) → sc ∈ ak_scopes k →
  (∀ e n, ak_expires_at k = Some e → (n ≤ S (au_ticks s))%nat → au_now s n < e) →
  ∀ plain, ak_key_hash k = sha256 plain → ∃ s',
    authenticate sha256 plain (ak_tenant_id k) project sc s =
      (Ret (mkActor (ak_tenant_id k) project (ak_owner_type k) (pretty (ak_owner_id k)) (ak_scopes k) (Some (ak_id k))), s').
Proof.
  intros Hwf Hk Hu Hs Ha Hp Hsc He plain Hh.
  destruct (find_by_hash_complete s id k Hwf Hk Hu Hs) as (l&s1&Ef&Hnow&Htick&Hacc&Hdb&Hkeys).
  unfold authenticate, _hash. rewrite <-Hh. unfold mbind at 1, M_bind at 1. rewrite Ef. simpl.
  rewrite (bool_decide_true (ak_status k = "active")) by done.
  unfold mbind at 1, M_bind at 1, check at 1, mret at 1, M_ret at 1.
  assert (∃ s2, (match ak_expires_at k with
      | Some e => now ← auth_now; check (negb (e <=? now)) (APIKeyDisabledError (pretty (ak_id k)))
      | None => mret tt end) s1 = (Ret tt, s2) ∧ au_service_accounts s2 = au_service_accounts s ∧
      au_db s2 = au_db s ∧ au_keys s2 = au_keys s) as (s2&E2&Hacc2&Hdb2&Hkeys2).
  { destruct (ak_expires_at k) as [e|] eqn:Ee; [|by exists s1]. unfold auth_now. m_unfold. simpl.
    destruct (e <=? au_now s1 (au_ticks s1)) eqn:El; [|by eexists]. b2p. rewrite Hnow in El.
    specialize (He _ (au_ticks s1) eq_refl). lia. }
  unfold mbind at 1, M_bind at 1. rewrite E2. rewrite Z.eqb_refl.
  assert (match ak_project_id k with Some p => bool_decide (project = Some p) | None => true end = true) as ->.
  { destruct (ak_project_id k) as [q|]; [|done]. apply bool_decide_eq_true. by apply Hp. }
  rewrite (bool_decide_true (sc ∈ ak_scopes k)) by done.
  destruct (sa_mark_used_law (au_service_accounts s) (ak_owner_id k) (aw_accounts _ Hwf)) as (_&_&Hmark).
  specialize (Hmark (ltac:(by eexists))).
  unfold auth_now, on_api_key, on_key, in_accounts, in_audit_sink, write. m_unfold. simpl. rewrite Hdb2.
  unfold key_view in Hk. destruct (au_db s) eqn:Ed.
  - destruct (bool_decide (ak_owner_type k = _)); simpl; [|by eexists]. rewrite Hacc2.
    destruct (sa_mark_used (ak_owner_id k) (au_service_accounts s)) as [o r]. simpl in Hmark. rewrite Hmark. by eexists.
  - pose proof (aw_keys _ Hwf _ _ Hk) as [Hid _]. rewrite Hkeys2, Hid. simpl. rewrite Hk. simpl.
    destruct (bool_decide (ak_owner_type k = _)); simpl; [|by eexists]. rewrite Hacc2.
    destruct (sa_mark_used (ak_owner_id k) (au_service_accounts s)) as [o r]. simpl in Hmark. rewrite Hmark. by eexists.
Qed.

(** The hash of the next token is new. *)
Definition fresh_token s : Prop :=
  (∀ id w, dict_get id (au_rows s) = Some w → kw_key_hash w ≠ sha256 ("dr_" +:+ au_token s (au_drawn s))) ∧
  (∀ id k, dict_get id (au_keys s) = Some k → ak_key_hash k ≠ sha256 ("dr_" +:+ au_token s (au_drawn s))).

Lemma fresh_view s id k :
  fresh_token s → key_view s id = Some k → ak_key_hash k ≠ sha256 ("dr_" +:+ au_token s (au_drawn s)).
Proof.
  intros [Hr Hk]. unfold key_view. destruct (au_db s); [|by apply Hk].
  destruct (key_row id s) as [w|] eqn:E; [|done]. apply key_row_inv in E as [E _]. intros [= <-]. simpl. by eapply Hr.
Qed.

(** What [create_key] leaves behind. *)
Lemma create_key_spec t p n o sc by' e s plain k s' :
  auth_wf s → fresh_token s → create_key sha256 t p n "service_account" o sc by' e s = (Ret (plain, k), s') →
  auth_wf s' ∧ key_view s' (ak_id k) = Some k ∧ only_hash s' (ak_id k) (ak_key_hash k) ∧ ak_status k = "active" ∧
  rights k = ("service_account", o, t, p, sc) ∧ ak_expires_at k = e ∧ ak_key_hash k = sha256 plain ∧
  ∃ a, sa_view (au_service_accounts s') (ak_owner_id k) = Some a.
Proof.
  intros Hwf Hf Hc. unfold create_key in Hc. apply bind_ret_inv in Hc as ([]&s0&Ha&Hc).
  pose proof (assert_owner_run t p o sc s) as Hr. rewrite Ha in Hr. destruct Hr as [-> Hin].
  pose proof (issue_key_run t p n "service_account" o sc by' e s Hwf) as Hi. rewrite Hc in Hi.
  destruct Hi as (Hwf'&Hdb&Hacc&Hpl&Hnone&Hr&Hs&Hh&Hexp&Hv&_).
  destruct (Hin k Hr) as (_&a&Hview&_). split_and!; try done.
  - by rewrite Hv, decide_True.
  - intros i x. rewrite Hv. case_decide; [done|]. intros Hx Hxh. rewrite Hh, Hpl in Hxh. by destruct (fresh_view s i x Hf Hx).
  - exists a. by rewrite Hacc.
Qed.

Lemma issue_key_returns t p n ot o sc by' e s :
  auth_wf s → fresh_token s → ∃ plain k s', issue_key sha256 t p n ot o sc by' e s = (Ret (plain, k), s').
Proof.
  intros Hwf [Hr _]. unfold issue_key, draw_token, auth_now, insert_key_row. m_unfold. simpl.
  destruct (au_db s); [|by repeat eexists]. simpl. rewrite bool_decide_true; [by repeat eexists|].
  apply Forall_forall. intros w Hw. apply values_elem in Hw as [i Hi]; [|apply Hwf]. by apply (Hr i).
Qed.

(** A key that was just created authenticates its holder, as its owner and with
    exactly the scopes it was created with, for every scope among them, until it
    expires; tokens do not collide. *)
Theorem created_key_authenticates t p n o sc by' e s plain k s' project required
    (Hwf : auth_wf s) (Hfresh : fresh_token s)
    (Hcreate : create_key sha256 t p n "service_account" o sc by' e s = (Ret (plain, k), s'))
    (Hproject : ∀ q, p = Some q → project = Some q) (Hscope : required ∈ sc)
    (Htime : ∀ x i, e = Some x → (i ≤ S (au_ticks s'))%nat → au_now s' i < x) :
  ∃ s2, authenticate sha256 plain t project required s' =
    (Ret (mkActor t project "service_account" (pretty o) sc (Some (ak_id k))), s2).
Proof.
  destruct (create_key_spec _ _ _ _ _ _ _ _ _ _ _ Hwf Hfresh Hcreate) as (Hwf'&Hv&Hu&Hs&Hr&Hexp&Hh&a&Ha).
  injection Hr as R1 R2 R3 R4 R5.
  destruct (authenticate_complete s' (ak_id k) k a project required) with plain as [s2 E]; try done.
  - by rewrite R4.
  - by rewrite R5.
  - by rewrite Hexp.
  - exists s2. by rewrite <-R1, <-R2, <-R3, <-R5.
Qed.

(** * Where the requests fall short *)

(** [force_expire] checks the account in the path but not whose key it is: an
    operator who can reach one service account can expire any key of any other
    tenant. *)
Theorem force_expire_any_key s account key actor reason a k
    (Hwf : auth_wf s) (Haccount : sa_view (au_service_accounts s) account = Some a)
    (Hreach : _actor_can_access_target actor (sr_tenant_id a) (sr_project_id a) = true)
    (Hkey : key_view s key = Some k)
    (Hforeign : _actor_can_access_target actor (ak_tenant_id k) (ak_project_id k) = false)
    (Hreason : no_reason reason = false) :
  ∃ k' s', force_expire_service_account_api_key account key actor reason s = (Ret (Item k'), s') ∧
    key_view s' key = Some k' ∧ ak_status k' = "disabled".
Proof.
  unfold force_expire_service_account_api_key. rewrite Hreason, with_account_cases, Haccount, Hreach.
  unfold catch, expire_key, auth_now, set_key_row, on_api_key, on_key, _append_identity_audit. m_unfold. simpl.
  unfold key_view in *. destruct (au_db s) eqn:Ed.
  - change (key_row key _) with (key_row key s) at 1. destruct (key_row key s) as [w|] eqn:Ew; [|done]. simpl.
    eexists _, _. split; [done|]. simpl. unfold key_row. simpl. rewrite dict_get_set_eq.
    apply key_row_inv in Ew as [_ Hdel]. simpl. by rewrite Hdel.
  - simpl. rewrite Hkey. simpl. eexists _, _. split; [done|]. simpl. by rewrite dict_get_set_eq.
Qed.

(** Nothing bounds the permissions of a new service account by those of its
    creator: an operator of one project who may create accounts and keys makes
    himself an account with all scopes, a key for it, and with the key he is an
    administrator of every tenant. *)
Theorem service_account_escalation s actor name p record s1
    (Hwf : auth_wf s) (Hfresh : fresh_token s1) (Hproject : ac_project_id actor = Some p)
    (Hlimited : "*" ∉ ac_scopes actor)
    (Hcreate : create_identity_service_account actor (mkCreateAccount None None name (Some ["*"; "admin:read"])) s
       = (Ret (Item record), s1)) :
  ∃ plain k s2 admin s3,
    create_identity_service_account_api_key sha256 (sr_id record) actor
      (mkKeyBody name (Some ["*"; "admin:read"]) None) s1 = (Ret (Item (plain, k)), s2) ∧
    authenticate sha256 plain (ac_tenant_id actor) (Some p) "admin:read" s2 = (Ret admin, s3) ∧
    ∀ tenant project, _actor_can_access_target admin tenant project = true.
Proof.
  set (all := list_to_set ["*"; "admin:read"] : scopes_t).
  assert (auth_wf s1 ∧ sa_view (au_service_accounts s1) (sr_id record) = Some record ∧
    grants record = (ac_tenant_id actor, Some p, all, "active")) as (Hwf1&Hview&Hg).
  { unfold create_identity_service_account in Hcreate. simpl in Hcreate. rewrite Hproject in Hcreate.
    destruct (negb _) in Hcreate; [done|]. apply bind_ret_inv in Hcreate as (a&s0&Ha&Hcreate).
    apply zoom_inv in Ha as (r&Ha&->). injection Hcreate as -> <-.
    match type of Ha with sa_create ?t ?p ?n ?ps ?b ?x = _ =>
      pose proof (sa_create_law x t p n ps b (aw_accounts _ Hwf)) as Hc end.
    rewrite Ha in Hc. destruct Hc as (Hok&_&Hg&Hv). split_and!.
    - destruct Hwf as [W1 W2 W3 W4 W5 W6]. by split.
    - simpl. by rewrite Hv, decide_True.
    - exact Hg. }
  injection Hg as G1 G2 G3 G4. unfold create_identity_service_account_api_key. rewrite with_account_cases, Hview, G1, G2.
  assert (_actor_can_access_target actor (ac_tenant_id actor) (Some p) = true) as ->.
  { unfold _actor_can_access_target. rewrite bool_decide_false, Z.eqb_refl, Hproject by done. apply Z.eqb_refl. }
  destruct (issue_key_returns (ac_tenant_id actor) (Some p) (or_str name "API Key") "service_account" (sr_id record) all
    (ac_actor_id actor) None s1 Hwf1 Hfresh) as (plain&k&s2&Ei).
  assert (create_key sha256 (ac_tenant_id actor) (Some p) (or_str name "API Key") "service_account" (sr_id record) all
    (ac_actor_id actor) None s1 = (Ret (plain, k), s2)) as Ec.
  { unfold create_key, _assert_owner_scope_subset. rewrite bool_decide_true by done. simpl.
    unfold mbind at 1, M_bind at 1. unfold mbind at 1, M_bind at 1. rewrite (in_accounts_run _ _ _ _ (sa_get_law _ _)), Hview.
    rewrite set_accounts_same, G1, G2, G3, G4, !bool_decide_true by done. exact Ei. }
  destruct (create_key_spec _ _ _ _ _ _ _ _ _ _ _ Hwf1 Hfresh Ec) as (Hwf'&Hv&Hu&Hs&Hr&Hexp&Hh&a&Ha).
  injection Hr as R1 R2 R3 R4 R5. unfold catch, mbind at 1, M_bind at 1. simpl kb_scopes. simpl or_list. simpl kb_name.
  change (list_to_set ["*"; "admin:read"]) with all. simpl kb_expires_at. rewrite Ec.
  set (s2' := (_append_identity_audit actor "identity.api_key.create" "api_key" (ak_id k)
    [("service_account_id", VInt (sr_id record)); ("scopes", str_list (ak_scopes k))] s2).2).
  destruct (authenticate_complete s2' (ak_id k) k a (Some p) "admin:read") with plain as [s3 E]; try done.
  - by revert Hwf'; apply restricts_aside.
  - by rewrite R4.
  - rewrite R5. set_solver.
  - by rewrite Hexp.
  - exists plain, k, s2'. eexists _, s3. split; [done|]. split; [by rewrite <-R3|].
    intros t q. unfold _actor_can_access_target. simpl. rewrite R5, bool_decide_true; [done|set_solver].
Qed.
End props.

(** * Examples *)

Definition demo_accounts : AccountTable := mkAccountTable Z.of_nat 0 [] 1 [1; 2] [10; 20].
Definition demo_auth : APIKeyAuthenticator AccountTable :=
  new_authenticator demo_accounts Z.of_nat (λ n, pretty (Z.of_nat n)) true.
Definition demo_hash (s : string) : string := s.
(** An operator of each of two tenants. *)
Definition operator_one : AuthenticatedActor := mkActor 1 (Some 10) "operator" "7" {["admin:read"]} None.
Definition operator_two : AuthenticatedActor := mkActor 2 (Some 20) "operator" "8" {["admin:read"]} None.
Definition demo_requests : list identity_request :=
  [RCreateAccount operator_one (mkCreateAccount None None (Some "ci") (Some ["agent:read"; "run:read"]));
   RCreateKey 1 operator_one (mkKeyBody None (Some ["run:read"]) None);
   RCreateAccount operator_two (mkCreateAccount None None None None)].
Definition demo_keys : APIKeyAuthenticator AccountTable := foldl (identity_step demo_hash) demo_auth demo_requests.

Lemma demo_keys_lp : lp demo_keys.
Proof. apply lp_exec, lp_new. by intros id w. Qed.

Definition demo_caller : AuthenticatedActor := mkActor 1 (Some 10) "service_account" "1" {["run:read"]} (Some 1).

Lemma authenticate_sound_witness :
  ∃ k a, key_view demo_keys (ak_id k) = Some k ∧ ak_key_hash k = demo_hash "dr_0" ∧ ak_status k = "active" ∧
    (∀ e, ak_expires_at k = Some e → ∃ n, (au_ticks demo_keys ≤ n)%nat ∧ au_now demo_keys n < e) ∧
    sa_view (au_service_accounts demo_keys) (ak_owner_id k) = Some a ∧ sr_status a = "active" ∧ sr_tenant_id a = 1 ∧
    (∀ q, sr_project_id a = Some q → Some 10 = Some q) ∧
    "run:read" ∈ ac_scopes demo_caller ∧ ac_scopes demo_caller ⊆ sr_permissions a ∧
    ac_tenant_id demo_caller = 1 ∧ ac_project_id demo_caller = Some 10.
Proof.
  eapply (authenticate_sound demo_hash "dr_0" 1 (Some 10) "run:read" demo_keys
    demo_caller).
  - apply demo_keys_lp.
  - vm_compute. reflexivity.
Defined.

(** Taking the permission away disables the key. *)
Lemma least_privilege_invariant_witness :
  let s := foldl (identity_step demo_hash) demo_auth
    (demo_requests ++ [RUpdateAccount 1 operator_one (mkUpdateAccount None (Some ["agent:read"]) None)]) in
  least_privilege s ∧ ak_status <$> key_view s 1 = Some "disabled".
Proof.
  split; [|vm_compute; reflexivity]. apply (least_privilege_invariant demo_hash demo_accounts). by intros id w.
Defined.

Definition demo_revoked : APIKeyAuthenticator AccountTable :=
  foldl (identity_step demo_hash) demo_keys [RDisableKey 1 1 operator_one].

Lemma revoked_key_stays_out_witness :
  raises (authenticate demo_hash "dr_0" 1 (Some 10) "run:read" (foldl (identity_step demo_hash) demo_revoked
    [RCreateKey 1 operator_one (mkKeyBody None (Some ["run:read"]) None)])).1.
Proof.
  eapply (revoked_key_stays_out demo_hash demo_revoked 1).
  - apply (lp_exec demo_hash [RDisableKey 1 1 operator_one]), demo_keys_lp.
  - vm_compute. reflexivity.
  - vm_compute. reflexivity.
  - reflexivity.
  - by left.
  - repeat constructor; done.
Defined.

Lemma demo_fresh s :
  (forallb (λ w, negb (String.eqb (kw_key_hash w) (demo_hash ("dr_" +:+ au_token s (au_drawn s))))) (dict_values (au_rows s)) &&
   forallb (λ k, negb (String.eqb (ak_key_hash k) (demo_hash ("dr_" +:+ au_token s (au_drawn s))))) (dict_values (au_keys s)))%bool = true →
  fresh_token (R:=AccountTable) demo_hash s.
Proof.
  intros [H1 H2]%andb_true_iff. rewrite forallb_forall in H1, H2. split.
  - intros id w Hw He. specialize (H1 w). rewrite He, String.eqb_refl in H1. discriminate H1.
    apply list_elem_of_In, list_elem_of_fmap. exists (id, w). split; [done|]. by apply dict_get_elem.
  - intros id w Hw He. specialize (H2 w). rewrite He, String.eqb_refl in H2. discriminate H2.
    apply list_elem_of_In, list_elem_of_fmap. exists (id, w). split; [done|]. by apply dict_get_elem.
Qed.

Lemma created_key_authenticates_witness :
  ∃ s2, authenticate demo_hash "dr_1" 1 (Some 10) "agent:read"
      (create_key demo_hash 1 (Some 10) "new" "service_account" 1 {["agent:read"]} "7" (Some 1000) demo_keys).2 =
    (Ret (mkActor 1 (Some 10) "service_account" (pretty 1) {["agent:read"]} (Some 2)), s2).
Proof.
  set (c := create_key demo_hash 1 (Some 10) "new" "service_account" 1 {["agent:read"]} "7" (Some 1000) demo_keys).
  eassert (c = (Ret ("dr_1", _), c.2)) as Hc by (vm_compute; reflexivity).
  eapply (created_key_authenticates demo_hash 1 (Some 10) "new" 1 {["agent:read"]} "7" (Some 1000) demo_keys "dr_1" _ _ _ _) in Hc.
  - exact Hc.
  - apply demo_keys_lp.
  - apply demo_fresh. vm_compute. reflexivity.
  - by intros q [= <-].
  - set_solver.
  - intros x i [= <-] Hi. vm_compute in Hi. change (Z.of_nat i < 1000). lia.
Defined.

Lemma force_expire_any_key_witness :
  ∃ k' s', force_expire_service_account_api_key 2 1 operator_two (Some "cleanup") demo_keys = (Ret (Item k'), s') ∧
    key_view s' 1 = Some k' ∧ ak_status k' = "disabled".
Proof.
  eapply (force_expire_any_key demo_keys 2 1 operator_two (Some "cleanup")).
  - apply demo_keys_lp.
  - vm_compute. reflexivity.
  - vm_compute. reflexivity.
  - vm_compute. reflexivity.
  - vm_compute. reflexivity.
  - vm_compute. reflexivity.
Defined.

Definition demo_escalated : outcome (reply ServiceAccountRecord) * APIKeyAuthenticator AccountTable :=
  create_identity_service_account operator_one (mkCreateAccount None None None (Some ["*"; "admin:read"])) demo_keys.

Definition demo_record : ServiceAccountRecord := Eval vm_compute in
  match demo_escalated.1 with Ret (Item a) => a | _ => mkAccount 0 0 None "" ∅ "" "" 0 None end.

Lemma service_account_escalation_witness :
  ∃ plain k s2 admin s3,
    create_identity_service_account_api_key demo_hash (sr_id demo_record) operator_one
      (mkKeyBody None (Some ["*"; "admin:read"]) None) demo_escalated.2 = (Ret (Item (plain, k)), s2) ∧
    authenticate demo_hash plain (ac_tenant_id operator_one) (Some 10) "admin:read" s2 = (Ret admin, s3) ∧
    ∀ tenant project, _actor_can_access_target admin tenant project = true.
Proof.
  apply (service_account_escalation demo_hash demo_keys operator_one None 10 demo_record demo_escalated.2).
  - apply demo_keys_lp.
  - apply demo_fresh. vm_compute. reflexivity.
  - reflexivity.
  - set_solver.
  - vm_compute. reflexivity.
Defined.

(** A request that takes the permission [run:read] from the account comes between the
    check of [create_key] and the insertion of the key. *)
Definition demo_meanwhile : APIKeyAuthenticator AccountTable :=
  identity_step demo_hash demo_keys (RUpdateAccount 1 operator_one (mkUpdateAccount None (Some ["agent:read"]) None)).
Definition demo_raced : outcome (string * APIKeyRecord) * APIKeyAuthenticator AccountTable :=
  issue_key demo_hash 1 (Some 10) "late" "service_account" 1 {["run:read"]} "7" None demo_meanwhile.

(** [create_key] checks the owner's permissions in one transaction and stores the
    key in another: when the permission is taken from the account in between,
    the new key keeps it and works. *)
Theorem create_key_race :
  _assert_owner_scope_subset 1 (Some 10) "service_account" 1 {["run:read"]} demo_keys = (Ret tt, demo_keys) ∧
  returns demo_raced.1 ∧ ¬ least_privilege demo_raced.2 ∧
  returns (authenticate demo_hash "dr_1" 1 (Some 10) "run:read" demo_raced.2).1.
Proof.
  split; [vm_compute; reflexivity|]. split; [vm_compute; by eexists|]. split; [|vm_compute; by eexists].
  intros Hl. assert (is_Some (key_view demo_raced.2 2)) as [k Hk] by (vm_compute; by eexists).
  assert (ak_status <$> key_view demo_raced.2 2 = Some "active") as Ha by (vm_compute; reflexivity).
  assert (ak_scopes <$> key_view demo_raced.2 2 = Some {["run:read"]}) as Hs by (vm_compute; reflexivity).
  assert (ak_owner_id <$> key_view demo_raced.2 2 = Some 1) as Ho by (vm_compute; reflexivity).
  assert (sr_permissions <$> sa_view (au_service_accounts demo_raced.2) 1 = Some {["agent:read"]}) as Hp
    by (vm_compute; reflexivity).
  revert Hl Hk Ha Hs Ho Hp. generalize demo_raced.2. intros s Hl Hk Ha Hs Ho Hp.
  rewrite Hk in Ha, Hs, Ho. injection Ha as Ha. injection Hs as Hs. injection Ho as Ho.
  destruct (Hl 2 k Hk Ha) as (_&a&Hv&_&_&_&Hsub). rewrite Ho in Hv. rewrite Hv in Hp. injection Hp as Hp.
  rewrite Hs, Hp in Hsub. set_solver.
Qed.
