(* ===== verification/Console.v ===== *)
(** Console operators ([identity/console.py]): their credentials, sessions, roles,
    permissions and scopes, the cache of sessions, and the role administration of
    [api/admin/router.py] and [identity/permission_matrix.py].

    [pbkdf2] and [sha256] are the hashes of [hashlib]; the tokens and salts of
    [secrets] and the clock are streams in the state, the environment variables a
    record. The clock is read where its value is kept. *)

From stdpp Require Import gmap.
From Stdlib Require Import Ascii.
From S2P Require Import Prelude Values Json Tables SqlNative Policy ApiKeys.

(** * Data *)

Record OperatorRow := mkOperatorRow {
  ow_id : Z;
  ow_email : string;
  ow_name : string;
  ow_status : string;
  ow_created_at : Z;
  ow_updated_at : Z;
  ow_last_login_at : option Z;
  ow_is_deleted : bool;
  ow_deleted_at : option Z
}.
#[export] Instance OperatorRow_eta : Eta OperatorRow := λ o,
  mkOperatorRow (ow_id o) (ow_email o) (ow_name o) (ow_status o) (ow_created_at o) (ow_updated_at o)
    (ow_last_login_at o) (ow_is_deleted o) (ow_deleted_at o).

Record CredentialRow := mkCredential {
  cw_operator_id : Z;
  cw_password_hash : string;
  cw_password_changed_at : option Z;
  cw_failed_login_count : Z;
  cw_locked_until : option Z;
  cw_updated_at : Z
}.
#[export] Instance CredentialRow_eta : Eta CredentialRow := λ c,
  mkCredential (cw_operator_id c) (cw_password_hash c) (cw_password_changed_at c) (cw_failed_login_count c)
    (cw_locked_until c) (cw_updated_at c).

Record SessionRow := mkSessionRow {
  zw_id : Z;
  zw_operator_id : Z;
  zw_token_hash : string;
  zw_last_used_at : Z;
  zw_expires_at : Z;
  zw_revoked_at : option Z;
  zw_revoke_reason : option string;
  zw_ip_address : option string;
  zw_user_agent : option string;
  zw_created_at : Z
}.
#[export] Instance SessionRow_eta : Eta SessionRow := λ z,
  mkSessionRow (zw_id z) (zw_operator_id z) (zw_token_hash z) (zw_last_used_at z) (zw_expires_at z)
    (zw_revoked_at z) (zw_revoke_reason z) (zw_ip_address z) (zw_user_agent z) (zw_created_at z).

(** [None] stands for all tenants or projects. *)
Record AllowedScopeRow := mkScopeRow {
  pw_operator_id : Z;
  pw_tenant_id : option Z;
  pw_project_id : option Z;
  pw_environment : string;
  pw_created_at : Z
}.

Record RoleRow := mkRole {
  lw_id : Z;
  lw_name : string;
  lw_status : string;
  lw_is_deleted : bool;
  lw_deleted_at : option Z
}.
#[export] Instance RoleRow_eta : Eta RoleRow := λ r,
  mkRole (lw_id r) (lw_name r) (lw_status r) (lw_is_deleted r) (lw_deleted_at r).

Record PermissionRow := mkPermission {
  mw_id : Z;
  mw_code : string;
  mw_resource : string;
  mw_action : string;
  mw_status : string;
  mw_is_deleted : bool
}.

Record TenantRow := mkTenant { tn_id : Z; tn_name : string; tn_slug : string }.
Record ProjectRow := mkProject { pj_id : Z; pj_tenant_id : Z; pj_name : string; pj_slug : string }.
Record EnvironmentRow := mkEnvironment {
  en_tenant_id : Z; en_project_id : Z; en_name : string; en_environment : string
}.

Record ConsoleDb := mkConsoleDb {
  cd_operators : dict Z OperatorRow;
  cd_next_operator : Z;
  cd_credentials : dict Z CredentialRow;
  cd_sessions : dict Z SessionRow;
  cd_next_session : Z;
  cd_scopes : list AllowedScopeRow;
  cd_roles : dict Z RoleRow;
  cd_next_role : Z;
  cd_permissions : dict Z PermissionRow;
  cd_next_permission : Z;
  cd_operator_roles : list (Z * Z);
  cd_role_permissions : list (Z * Z);
  cd_operator_permissions : list (Z * Z);
  cd_tenants : dict Z TenantRow;
  cd_projects : dict Z ProjectRow;
  cd_environments : list EnvironmentRow;
  cd_next_tenant : Z;
  cd_next_project : Z
}.
#[export] Instance ConsoleDb_eta : Eta ConsoleDb := λ d,
  mkConsoleDb (cd_operators d) (cd_next_operator d) (cd_credentials d) (cd_sessions d) (cd_next_session d)
    (cd_scopes d) (cd_roles d) (cd_next_role d) (cd_permissions d) (cd_next_permission d)
    (cd_operator_roles d) (cd_role_permissions d) (cd_operator_permissions d) (cd_tenants d)
    (cd_projects d) (cd_environments d) (cd_next_tenant d) (cd_next_project d).
Definition empty_console_db : ConsoleDb := mkConsoleDb [] 1 [] [] 1 [] [] 1 [] 1 [] [] [] [] [] [] 1 1.

(** What the service shows of an operator, a session and a login. *)
Record AllowedScope := mkAllowedScope {
  as_tenant_id : option Z;
  as_tenant_name : option string;
  as_project_id : option Z;
  as_project_name : option string;
  as_environment : string;
  as_environment_name : string
}.
Record ConsoleOperator := mkConsoleOperator {
  cp_id : Z;
  cp_email : string;
  cp_name : string;
  cp_roles : list string;
  cp_permissions : scopes_t;
  cp_allowed_scopes : list AllowedScope;
  cp_status : string;
  cp_created_at : Z;
  cp_updated_at : Z;
  cp_last_login_at : option Z;
  cp_password_changed_at : option Z
}.
Record ConsoleSession := mkConsoleSession {
  cn_token : string;
  cn_operator_id : Z;
  cn_created_at : Z;
  cn_last_used_at : Z;
  cn_expires_at : Z
}.
Record SessionRecord := mkSessionRecord {
  sx_id : Z;
  sx_operator_id : Z;
  sx_status : string;
  sx_last_used_at : Z;
  sx_expires_at : Z;
  sx_revoked_at : option Z;
  sx_revoke_reason : option string
}.

(** The payload of a cached session. *)
Record CachePayload := mkPayload {
  py_session_id : Z;
  py_operator_id : Z;
  py_roles : list string;
  py_permissions : list string;
  py_allowed_scopes : list AllowedScope;
  py_expires_at : Z
}.

(** * The cache *)

(** The protocol [SessionCache]; the time is that of the call. *)
Class SessionCache (C : Type) := {
  sc_get : Z → string → C → option CachePayload * C;
  sc_set : Z → string → CachePayload → Z → C → C;
  sc_delete : string → C → C;
  sc_clear : C → C
}.

(** [MemorySessionCache]: payloads with the time until which they count. *)
Abbreviation MemorySessionCache := (dict string (CachePayload * Z)).

Definition memory_get (now : Z) (h : string) (c : MemorySessionCache) : option CachePayload * MemorySessionCache :=
  match dict_get h c with
  | None => (None, c)
  | Some (payload, expires_at) => if expires_at <=? now then (None, dict_pop h c) else (Some payload, c)
  end.
Definition memory_set (now : Z) (h : string) (payload : CachePayload) (ttl : Z) (c : MemorySessionCache)
  : MemorySessionCache := dict_set h (payload, now + seconds ttl) c.

#[export] Instance memory_session_cache : SessionCache MemorySessionCache := {
  sc_get := memory_get;
  sc_set := memory_set;
  sc_delete := dict_pop;
  sc_clear := λ _, []
}.

(** * The service *)

Record ConsoleConfig := mkConsoleConfig {
  cf_admin_email : string;
  cf_admin_password : string;
  cf_admin_name : string;
  cf_tenant_slug : string;
  cf_tenant_name : string;
  cf_project_slug : string;
  cf_project_name : string;
  cf_environment : string;
  cf_ttl_seconds : Z
}.

Record Console (C : Type) := mkConsole {
  co_db : ConsoleDb;
  co_cache : C;
  co_now : nat → Z;
  co_ticks : nat;
  co_token : nat → string;
  co_drawn : nat;
  co_salt : nat → string;
  co_salted : nat
}.
Arguments mkConsole {C}.
Arguments co_db {C}.
Arguments co_cache {C}.
Arguments co_now {C}.
Arguments co_ticks {C}.
Arguments co_token {C}.
Arguments co_drawn {C}.
Arguments co_salt {C}.
Arguments co_salted {C}.
#[export] Instance Console_eta {C} : Eta (Console C) := λ s,
  mkConsole (co_db s) (co_cache s) (co_now s) (co_ticks s) (co_token s) (co_drawn s) (co_salt s) (co_salted s).

(** ** Passwords *)

(** [text.split("$", n)] *)
Fixpoint split_dollar (n : nat) (l acc : chars) : list chars :=
  match l with
  | [] => [rev acc]
  | c :: l' =>
      match n with
      | S n' => if Ascii.eqb c "$" then rev acc :: split_dollar n' l' [] else split_dollar n l' (c :: acc)
      | O => [rev acc ++ l]
      end
  end.

Section passwords.
Context (pbkdf2 : string → string → Z → string).

Definition encode_password (password salt : string) (iterations : Z) : string :=
  "pbkdf2_sha256$" +:+ pretty iterations +:+ "$" +:+ salt +:+ "$" +:+ pbkdf2 password salt iterations.

Definition hash_password {C} (password : string) : M (Console C) string :=
  s ← get_state;
  modify (λ s, s <| co_salted := S (co_salted s) |>) ;;
  mret (encode_password password (co_salt s (co_salted s)) 240000).

(** Malformed hashes raise [ValueError], which counts as a mismatch. *)
Definition verify_password (password encoded : string) : bool :=
  match split_dollar 3 (to_chars encoded) [] with
  | [algorithm; iterations_text; salt; expected] =>
      if bool_decide (of_chars algorithm = "pbkdf2_sha256") then
        match py_int (of_chars iterations_text) with
        | Some iterations => bool_decide (pbkdf2 password (of_chars salt) iterations = of_chars expected)
        | None => false
        end
      else false
  | _ => false
  end.
End passwords.

(** [_permission_parts]: resource and action, split at the last colon. *)
Fixpoint rsplit_colon (l acc : chars) (best : option (chars * chars)) : option (chars * chars) :=
  match l with
  | [] => best
  | c :: l' => rsplit_colon l' (c :: acc) (if Ascii.eqb c ":" then Some (rev acc, l') else best)
  end.
Definition _permission_parts (permission : string) : string * string :=
  if String.eqb permission "*" then ("*", "*")
  else match rsplit_colon (to_chars permission) [] None with
       | Some (resource, action) => (of_chars resource, of_chars action)
       | None => (permission, "use")
       end.

(** A scope as the API is given it, and normalized. *)
Record ScopeArg := mkScopeArg {
  sg_tenant_id : option string;
  sg_project_id : option string;
  sg_environment : option string
}.
#[export] Instance ScopeArg_eq_dec : EqDecision ScopeArg.
Proof. solve_decision. Defined.

(** ** Queries *)

Definition _operator_by_email (email : string) (d : ConsoleDb) : option OperatorRow :=
  List.find (λ o, bool_decide (ow_email o = email) && negb (ow_is_deleted o)) (dict_values (cd_operators d)).

(** [session.get(ConsoleOperator, id)], when not deleted *)
Definition live_operator (id : Z) (d : ConsoleDb) : option OperatorRow :=
  o ← dict_get id (cd_operators d); if ow_is_deleted o then None else Some o.

Definition active_role (r : RoleRow) : bool := negb (lw_is_deleted r) && bool_decide (lw_status r = "active").
Definition active_permission (p : PermissionRow) : bool :=
  negb (mw_is_deleted p) && bool_decide (mw_status p = "active").

(** The second components of the links of [id]. *)
Definition linked (id : Z) (links : list (Z * Z)) : list Z := snd <$> List.filter (λ l, l.1 =? id) links.

Definition _operator_roles (id : Z) (d : ConsoleDb) : list string :=
  stable_sort (λ a b, chars_leb (to_chars a) (to_chars b))
    (lw_name <$> List.filter active_role (omap (λ r, dict_get r (cd_roles d)) (linked id (cd_operator_roles d)))).

(** The codes of the active permissions among [ids]. *)
Definition permission_codes (ids : list Z) (d : ConsoleDb) : scopes_t :=
  list_to_set (mw_code <$> List.filter active_permission (omap (λ p, dict_get p (cd_permissions d)) ids)).

(** Permissions through roles, whatever the status of the role. *)
Definition _operator_permissions (id : Z) (d : ConsoleDb) : scopes_t :=
  permission_codes (linked id (cd_operator_permissions d)) d ∪
  permission_codes (concat ((λ r, linked r (cd_role_permissions d)) <$> linked id (cd_operator_roles d))) d.

Definition operator_scopes (id : Z) (d : ConsoleDb) : list AllowedScopeRow :=
  stable_sort (λ a b, pw_created_at a <=? pw_created_at b)
    (List.filter (λ w, pw_operator_id w =? id) (cd_scopes d)).

Definition selector (v : option Z) : string := match v with Some z => pretty z | None => "*" end.
Definition _operator_scope_records (id : Z) (d : ConsoleDb) : list ScopeArg :=
  (λ w, mkScopeArg (Some (selector (pw_tenant_id w))) (Some (selector (pw_project_id w))) (Some (pw_environment w)))
    <$> operator_scopes id d.

Definition _environment_for_scope (w : AllowedScopeRow) (d : ConsoleDb) : option EnvironmentRow :=
  match pw_tenant_id w, pw_project_id w with
  | Some t, Some p =>
      if bool_decide (pw_environment w = "*") then None
      else List.find (λ e, (en_tenant_id e =? t) && (en_project_id e =? p)
             && bool_decide (en_environment e = pw_environment w)) (cd_environments d)
  | _, _ => None
  end.

Definition hydrate_scope (d : ConsoleDb) (w : AllowedScopeRow) : AllowedScope :=
  mkAllowedScope (pw_tenant_id w)
    (match pw_tenant_id w with Some t => tn_name <$> dict_get t (cd_tenants d) | None => Some "All tenants" end)
    (pw_project_id w)
    (match pw_project_id w with Some p => pj_name <$> dict_get p (cd_projects d) | None => Some "All projects" end)
    (pw_environment w)
    (if bool_decide (pw_environment w = "*") then "All environments"
     else match _environment_for_scope w d with Some e => en_name e | None => pw_environment w end).

Definition _hydrate_operator (o : OperatorRow) (d : ConsoleDb) : ConsoleOperator :=
  mkConsoleOperator (ow_id o) (ow_email o) (ow_name o) (_operator_roles (ow_id o) d)
    (_operator_permissions (ow_id o) d) (hydrate_scope d <$> operator_scopes (ow_id o) d) (ow_status o)
    (ow_created_at o) (ow_updated_at o) (ow_last_login_at o)
    (c ← dict_get (ow_id o) (cd_credentials d); cw_password_changed_at c).

(** Requests without a project or an environment match every scope of the tenant. *)
Definition can_access_scope (operator : ConsoleOperator) (tenant : Z) (project : option Z)
    (environment : option string) (d : ConsoleDb) : bool :=
  let scopes := match cp_allowed_scopes operator with
    | [] => (λ w, (pw_tenant_id w, pw_project_id w, pw_environment w)) <$> operator_scopes (cp_id operator) d
    | l => (λ a, (as_tenant_id a, as_project_id a, as_environment a)) <$> l
    end in
  existsb (λ '(t, p, e),
    match t with None => true | Some t => t =? tenant end &&
    match project with None => true | Some q => match p with None => true | Some p => p =? q end end &&
    match environment with None => true | Some v => bool_decide (e = "*") || bool_decide (e = v) end) scopes.

Section service.
Context {C : Type} `{!SessionCache C}.
Context (pbkdf2 : string → string → Z → string) (sha256 : string → string) (config : ConsoleConfig).
Abbreviation Svc := (Console C).
Implicit Types s : Svc.

Definition hash_token (token : string) : string := sha256 token.

Definition console_now : M Svc Z :=
  s ← get_state;
  modify (λ s, s <| co_ticks := S (co_ticks s) |>) ;;
  mret (co_now s (co_ticks s)).

Definition draw_session_token : M Svc string :=
  s ← get_state;
  modify (λ s, s <| co_drawn := S (co_drawn s) |>) ;;
  mret ("sess_" +:+ co_token s (co_drawn s)).

Definition get_db : M Svc ConsoleDb := gets co_db.
Definition modify_db (f : ConsoleDb → ConsoleDb) : M Svc unit := modify (λ s, s <| co_db := f (co_db s) |>).

(** [with self._session_factory() as session: ...; session.commit()]: an exception
    undoes the changes to the database, not those to the cache. *)
Definition transaction {A} (m : M Svc A) : M Svc A := λ s,
  match m s with
  | (Ret a, s') => (Ret a, s')
  | (Raise e, s') => (Raise e, s' <| co_db := co_db s |>)
  end.

Definition cache_get (h : string) : M Svc (option CachePayload) :=
  now ← console_now;
  s ← get_state;
  let '(p, c) := sc_get now h (co_cache s) in
  modify (λ s, s <| co_cache := c |>) ;;
  mret p.
Definition cache_set (h : string) (payload : CachePayload) (ttl : Z) : M Svc unit :=
  now ← console_now;
  modify (λ s, s <| co_cache := sc_set now h payload ttl (co_cache s) |>).
Definition cache_delete (h : string) : M Svc unit :=
  modify (λ s, s <| co_cache := sc_delete h (co_cache s) |>).

(** ** Roles, permissions and scopes *)

Definition _ensure_role (name : string) : M Svc Z :=
  d ← get_db;
  match List.find (λ r, bool_decide (lw_name r = name)) (dict_values (cd_roles d)) with
  | Some r => mret (lw_id r)
  | None =>
      let id := cd_next_role d in
      modify_db (λ d, d <| cd_roles := dict_set id (mkRole id name "active" false None) (cd_roles d) |>
                        <| cd_next_role := id + 1 |>) ;;
      mret id
  end.

Definition _ensure_permission (permission : string) : M Svc Z :=
  d ← get_db;
  match List.find (λ p, bool_decide (mw_code p = permission)) (dict_values (cd_permissions d)) with
  | Some p => mret (mw_id p)
  | None =>
      let id := cd_next_permission d in
      let '(resource, action) := _permission_parts permission in
      modify_db (λ d, d <| cd_permissions := dict_set id (mkPermission id permission resource action "active" false)
                             (cd_permissions d) |>
                        <| cd_next_permission := id + 1 |>) ;;
      mret id
  end.

Definition builtin_roles : list (string * list string) :=
  [("platform_admin", ["*"]);
   ("runtime_operator", ["agent:read"; "run:read"]);
   ("identity_admin", ["admin:read"; "identity:operator:write"; "identity:role:write"; "identity:permission:write";
      "identity:scope:write"; "identity:service-account:write"; "identity:api-key:write"])].

Definition link_role_permission (role permission : Z) : M Svc unit :=
  modify_db (λ d, d <| cd_role_permissions := cd_role_permissions d ++ [(role, permission)] |>).

(** Run before every request: the built-in roles get their permissions back. *)
Definition _seed_builtin_permissions : M Svc unit :=
  for_each builtin_roles (λ '(name, codes),
    role ← _ensure_role name;
    modify_db (λ d, d <| cd_role_permissions := List.filter (λ l, negb (l.1 =? role)) (cd_role_permissions d) |>) ;;
    for_each codes (λ permission, p ← _ensure_permission permission; link_role_permission role p)).

(** A role listed twice violates the uniqueness of the links. *)
Definition _replace_operator_roles (operator : Z) (roles : list string) : M Svc unit :=
  modify_db (λ d, d <| cd_operator_roles := List.filter (λ l, negb (l.1 =? operator)) (cd_operator_roles d) |>) ;;
  for_each roles (λ name,
    role ← _ensure_role name;
    d ← get_db;
    check (bool_decide ((operator, role) ∉ cd_operator_roles d)) (IntegrityError "uq_console_operator_role") ;;
    modify_db (λ d, d <| cd_operator_roles := cd_operator_roles d ++ [(operator, role)] |>)).

Definition _replace_operator_permissions (operator : Z) (permissions : scopes_t) : M Svc unit :=
  modify_db (λ d, d <| cd_operator_permissions :=
    List.filter (λ l, negb (l.1 =? operator)) (cd_operator_permissions d) |>) ;;
  for_each (elements permissions) (λ permission,
    p ← _ensure_permission permission;
    modify_db (λ d, d <| cd_operator_permissions := cd_operator_permissions d ++ [(operator, p)] |>)).

Definition _scope_selector_to_id (v : option string) : M Svc (option Z) :=
  let text := or_str v "*" in
  if String.eqb text "*" then mret None
  else z ← of_option (py_int text) (ValueError text); mret (Some z).

(** Two scopes with the same tenant, project and environment violate uniqueness;
    missing values never do. *)
Definition _add_operator_scope (operator : Z) (scope : ScopeArg) : M Svc unit :=
  tenant ← _scope_selector_to_id (sg_tenant_id scope);
  project ← _scope_selector_to_id (sg_project_id scope);
  let environment := or_str (sg_environment scope) "*" in
  now ← console_now;
  d ← get_db;
  check (negb (bool_decide (is_Some tenant) && bool_decide (is_Some project) &&
    existsb (λ w, (pw_operator_id w =? operator) && bool_decide (pw_tenant_id w = tenant)
      && bool_decide (pw_project_id w = project) && bool_decide (pw_environment w = environment)) (cd_scopes d)))
    (IntegrityError "uq_console_operator_scope") ;;
  modify_db (λ d, d <| cd_scopes := cd_scopes d ++ [mkScopeRow operator tenant project environment now] |>).

Definition _normalize_scope (scope : ScopeArg) : M Svc ScopeArg :=
  let tenant_value := or_str (sg_tenant_id scope) "*" in
  let project_value := or_str (sg_project_id scope) "*" in
  let environment_value := or_str (sg_environment scope) "*" in
  if String.eqb tenant_value "*" then mret (mkScopeArg (Some "*") (Some project_value) (Some environment_value))
  else
    t ← of_option (py_int tenant_value) (ValueError tenant_value);
    d ← get_db;
    tenant ← of_option (dict_get t (cd_tenants d)) (ValueError "scope_tenant_not_found");
    if String.eqb project_value "*" then
      mret (mkScopeArg (Some (pretty (tn_id tenant))) (Some "*") (Some environment_value))
    else
      p ← of_option (py_int project_value) (ValueError project_value);
      project ← of_option (dict_get p (cd_projects d)) (ValueError "scope_project_not_found");
      mret (mkScopeArg (Some (pretty (tn_id tenant))) (Some (pretty (pj_id project))) (Some environment_value)).

Definition _replace_operator_scopes (operator : Z) (scopes : list ScopeArg) : M Svc unit :=
  modify_db (λ d, d <| cd_scopes := List.filter (λ w, negb (pw_operator_id w =? operator)) (cd_scopes d) |>) ;;
  for_each scopes (λ scope, scope ← _normalize_scope scope; _add_operator_scope operator scope).

(** The scopes that can be normalized, each once. *)
Fixpoint normalized_scopes (records seen : list ScopeArg) : M Svc (list ScopeArg) :=
  match records with
  | [] => mret []
  | r :: records =>
      n ← catch (_normalize_scope r);
      match n with
      | Raise (ValueError _) => normalized_scopes records seen
      | Raise e => raise e
      | Ret n =>
          if bool_decide (n ∈ seen) then normalized_scopes records seen
          else rest ← normalized_scopes records (n :: seen); mret (n :: rest)
      end
  end.

Definition _canonicalize_operator_scopes (operator : Z) : M Svc unit :=
  d ← get_db;
  scopes ← normalized_scopes (_operator_scope_records operator d) [];
  _replace_operator_scopes operator scopes.

Definition _operator_has_scope (operator : Z) (scope : ScopeArg) : M Svc bool :=
  tenant ← _scope_selector_to_id (sg_tenant_id scope);
  project ← _scope_selector_to_id (sg_project_id scope);
  d ← get_db;
  mret (existsb (λ w, (pw_operator_id w =? operator) && bool_decide (pw_tenant_id w = tenant)
    && bool_decide (pw_project_id w = project)
    && bool_decide (pw_environment w = or_str (sg_environment scope) "*")) (cd_scopes d)).

Definition _ensure_default_scope_resources : M Svc ScopeArg :=
  d ← get_db;
  tenant ← match List.find (λ t, bool_decide (tn_slug t = cf_tenant_slug config)) (dict_values (cd_tenants d)) with
    | Some t => mret (tn_id t)
    | None =>
        let id := cd_next_tenant d in
        modify_db (λ d, d <| cd_tenants := dict_set id (mkTenant id (cf_tenant_name config) (cf_tenant_slug config))
                               (cd_tenants d) |> <| cd_next_tenant := id + 1 |>) ;;
        mret id
    end;
  project ← match List.find (λ p, (pj_tenant_id p =? tenant) && bool_decide (pj_slug p = cf_project_slug config))
                (dict_values (cd_projects d)) with
    | Some p => mret (pj_id p)
    | None =>
        let id := cd_next_project d in
        modify_db (λ d, d <| cd_projects := dict_set id (mkProject id tenant (cf_project_name config)
                               (cf_project_slug config)) (cd_projects d) |> <| cd_next_project := id + 1 |>) ;;
        mret id
    end;
  (if existsb (λ e, (en_tenant_id e =? tenant) && (en_project_id e =? project)
        && bool_decide (en_environment e = cf_environment config)) (cd_environments d)
   then mret tt
   else modify_db (λ d, d <| cd_environments := cd_environments d ++
          [mkEnvironment tenant project (cf_environment config) (cf_environment config)] |>)) ;;
  mret (mkScopeArg (Some (pretty tenant)) (Some (pretty project)) (Some (cf_environment config))).

(** ** Operators *)

Definition set_operator (o : OperatorRow) : M Svc unit :=
  modify_db (λ d, d <| cd_operators := dict_set (ow_id o) o (cd_operators d) |>).
Definition set_credential (c : CredentialRow) : M Svc unit :=
  modify_db (λ d, d <| cd_credentials := dict_set (cw_operator_id c) c (cd_credentials d) |>).
Definition set_session (z : SessionRow) : M Svc unit :=
  modify_db (λ d, d <| cd_sessions := dict_set (zw_id z) z (cd_sessions d) |>).

(** The rows of a new operator and its credential; email addresses are unique, those
    of deleted operators included. *)
Definition insert_operator (email name password : string) : M Svc OperatorRow :=
  now ← console_now;
  d ← get_db;
  check (negb (existsb (λ o, bool_decide (ow_email o = email)) (dict_values (cd_operators d))))
    (IntegrityError "uq_console_operators_email") ;;
  let o := mkOperatorRow (cd_next_operator d) email name "active" now now None false None in
  modify_db (λ d, d <| cd_operators := dict_set (ow_id o) o (cd_operators d) |>
                    <| cd_next_operator := cd_next_operator d + 1 |>) ;;
  h ← hash_password pbkdf2 password;
  set_credential (mkCredential (ow_id o) h (Some now) 0 None now) ;;
  mret o.

Definition ensure_bootstrap_operator : M Svc ConsoleOperator :=
  transaction (
    _seed_builtin_permissions ;;
    default_scope ← _ensure_default_scope_resources;
    d ← get_db;
    match _operator_by_email (cf_admin_email config) d with
    | Some existing =>
        has ← _operator_has_scope (ow_id existing) default_scope;
        (if (has : bool) then mret tt else _add_operator_scope (ow_id existing) default_scope) ;;
        _canonicalize_operator_scopes (ow_id existing) ;;
        d ← get_db;
        mret (_hydrate_operator existing d)
    | None =>
        operator ← insert_operator (cf_admin_email config) (cf_admin_name config) (cf_admin_password config);
        _replace_operator_roles (ow_id operator) ["platform_admin"] ;;
        _replace_operator_permissions (ow_id operator) {["*"]} ;;
        _replace_operator_scopes (ow_id operator) [default_scope] ;;
        d ← get_db;
        mret (_hydrate_operator operator d)
    end).

Definition create_operator (email name password : string) (roles : list string) (permissions : scopes_t)
    (allowed_scopes : list ScopeArg) : M Svc ConsoleOperator :=
  ensure_bootstrap_operator ;;
  transaction (
    d ← get_db;
    check (bool_decide (_operator_by_email email d = None)) (ValueError "operator_email_exists") ;;
    operator ← insert_operator email name password;
    _replace_operator_roles (ow_id operator) (match roles with [] => ["runtime_operator"] | _ => roles end) ;;
    _replace_operator_permissions (ow_id operator)
      (if bool_decide (permissions = ∅) then {["agent:read"; "run:read"]} else permissions) ;;
    scopes ← match allowed_scopes with [] => s ← _ensure_default_scope_resources; mret [s] | l => mret l end;
    _replace_operator_scopes (ow_id operator) scopes ;;
    d ← get_db;
    mret (_hydrate_operator operator d)).

(** ** Sessions *)

Definition session_by_hash (h : string) (d : ConsoleDb) : option SessionRow :=
  List.find (λ z, bool_decide (zw_token_hash z = h)) (dict_values (cd_sessions d)).

Definition _session_cache_payload (z : SessionRow) (o : OperatorRow) (d : ConsoleDb) : CachePayload :=
  let hydrated := _hydrate_operator o d in
  mkPayload (zw_id z) (ow_id o) (cp_roles hydrated) (sorted_scopes (cp_permissions hydrated))
    (cp_allowed_scopes hydrated) (zw_expires_at z).

Definition _session_is_active (z : option SessionRow) : M Svc bool :=
  match z with
  | None => mret false
  | Some z =>
      if bool_decide (is_Some (zw_revoked_at z)) then mret false
      else now ← console_now; mret (negb (zw_expires_at z <=? now))
  end.

(** [int((expires_at - now).total_seconds())], at least 1 *)
Definition ttl_of (expires_at now : Z) : Z := Z.max 1 (Z.quot (expires_at - now) (seconds 1)).

(** [authenticate]: five wrong passwords lock the account for a quarter of an hour. *)
Definition console_authenticate (email password : string) (ip_address user_agent : option string)
  : M Svc (option ConsoleSession) :=
  ensure_bootstrap_operator ;;
  transaction (
    d ← get_db;
    match _operator_by_email email d with
    | None => mret None
    | Some operator =>
        if negb (bool_decide (ow_status operator = "active")) then mret None
        else match dict_get (ow_id operator) (cd_credentials d) with
        | None => mret None
        | Some credential =>
            now ← console_now;
            if match cw_locked_until credential with Some l => now <? l | None => false end then mret None
            else if negb (verify_password pbkdf2 password (cw_password_hash credential)) then
              let credential := credential <| cw_failed_login_count := cw_failed_login_count credential + 1 |> in
              set_credential (if 5 <=? cw_failed_login_count credential
                then credential <| cw_locked_until := Some (now + seconds 900) |> else credential) ;;
              mret None
            else
              token ← draw_session_token;
              let h := hash_token token in
              let expires_at := now + seconds (cf_ttl_seconds config) in
              d ← get_db;
              check (negb (existsb (λ z, bool_decide (zw_token_hash z = h)) (dict_values (cd_sessions d))))
                (IntegrityError "uq_console_sessions_token_hash") ;;
              let session := mkSessionRow (cd_next_session d) (ow_id operator) h now expires_at None None
                ip_address user_agent now in
              let operator := operator <| ow_last_login_at := Some now |> <| ow_updated_at := now |> in
              set_credential (credential <| cw_failed_login_count := 0 |> <| cw_locked_until := None |>) ;;
              set_operator operator ;;
              modify_db (λ d, d <| cd_sessions := dict_set (zw_id session) session (cd_sessions d) |>
                                <| cd_next_session := cd_next_session d + 1 |>) ;;
              d ← get_db;
              cache_set h (_session_cache_payload session operator d) (ttl_of expires_at now) ;;
              mret (Some (mkConsoleSession token (ow_id operator) now now expires_at))
        end
    end).

Definition revoke_session (token reason : string) : M Svc unit :=
  transaction (
    d ← get_db;
    match session_by_hash (hash_token token) d with
    | Some z =>
        if bool_decide (zw_revoked_at z = None) then
          now ← console_now;
          set_session (z <| zw_revoked_at := Some now |> <| zw_revoke_reason := Some reason |>)
        else mret tt
    | None => mret tt
    end) ;;
  cache_delete (hash_token token).

Definition active_operator (o : option OperatorRow) : option OperatorRow :=
  o ← o; if bool_decide (ow_status o = "active") && negb (ow_is_deleted o) then Some o else None.

Definition _get_operator_by_session_from_db (h : string) : M Svc (option ConsoleOperator) :=
  transaction (A:=option ConsoleOperator) (
    d ← get_db;
    let z := session_by_hash h d in
    active ← _session_is_active z;
    match z with
    | None => mret None
    | Some z =>
        if negb active then cache_delete h ;; mret None
        else match active_operator (dict_get (zw_operator_id z) (cd_operators d)) with
        | None => cache_delete h ;; mret None
        | Some operator =>
            now ← console_now;
            let z := z <| zw_last_used_at := now |> in
            set_session z ;;
            d ← get_db;
            cache_set h (_session_cache_payload z operator d) (ttl_of (zw_expires_at z) now) ;;
            mret (Some (_hydrate_operator operator d))
        end
    end).

(** A cached session is looked up in the database, too. *)
Definition get_operator_by_session (token : string) : M Svc (option ConsoleOperator) :=
  let h := hash_token token in
  cached ← cache_get h;
  match cached with
  | Some payload =>
      now ← console_now;
      if py_expires_at payload <=? now then revoke_session token "expired" ;; mret None
      else transaction (
        d ← get_db;
        let z := session_by_hash h d in
        active ← _session_is_active z;
        match z with
        | Some z =>
            if negb active then cache_delete h ;; mret None
            else match active_operator (dict_get (py_operator_id payload) (cd_operators d)) with
            | None => cache_delete h ;; mret None
            | Some operator =>
                now ← console_now;
                set_session (z <| zw_last_used_at := now |>) ;;
                d ← get_db;
                mret (Some (_hydrate_operator operator d))
            end
        | None => cache_delete h ;; mret None
        end)
  | None => _get_operator_by_session_from_db h
  end.

Definition _revoke_operator_sessions (operator : Z) (reason : string) : M Svc unit :=
  now ← console_now;
  d ← get_db;
  for_each (List.filter (λ z, (zw_operator_id z =? operator) && bool_decide (zw_revoked_at z = None))
      (dict_values (cd_sessions d)))
    (λ z, set_session (z <| zw_revoked_at := Some now |> <| zw_revoke_reason := Some reason |>) ;;
          cache_delete (zw_token_hash z)).

(** ** Administration of operators *)

Definition list_operators : M Svc (list ConsoleOperator) :=
  ensure_bootstrap_operator ;;
  d ← get_db;
  mret ((λ o, _hydrate_operator o d) <$> stable_sort (λ a b, ow_created_at a <=? ow_created_at b)
    (List.filter (λ o, negb (ow_is_deleted o)) (dict_values (cd_operators d)))).

Record OperatorPatch := mkPatch {
  pt_name : option string;
  pt_roles : option (list string);
  pt_permissions : option scopes_t;
  pt_allowed_scopes : option (list ScopeArg);
  pt_status : option string
}.

(** [if value is not None: f(value)] *)
Definition if_given {A} (v : option A) (f : A → M Svc unit) : M Svc unit :=
  match v with Some x => f x | None => mret tt end.

Definition on_operator (id : Z) (f : OperatorRow → OperatorRow) : M Svc unit :=
  modify_db (λ d, d <| cd_operators := match dict_get id (cd_operators d) with
    | Some o => dict_set id (f o) (cd_operators d)
    | None => cd_operators d
    end |>).

Definition hydrated (id : Z) : M Svc (option ConsoleOperator) :=
  d ← get_db; mret ((λ o, _hydrate_operator o d) <$> dict_get id (cd_operators d)).

Definition update_operator (id : Z) (patch : OperatorPatch) : M Svc (option ConsoleOperator) :=
  ensure_bootstrap_operator ;;
  transaction (A:=option ConsoleOperator) (
    d ← get_db;
    match live_operator id d with
    | None => mret None
    | Some _ =>
        if_given (pt_name patch) (λ n, on_operator id (λ o, o <| ow_name := n |>)) ;;
        if_given (pt_status patch) (λ st,
          on_operator id (λ o, o <| ow_status := st |>) ;;
          if bool_decide (st = "active") then mret tt else _revoke_operator_sessions id "operator_disabled") ;;
        if_given (pt_roles patch) (_replace_operator_roles id) ;;
        if_given (pt_permissions patch) (_replace_operator_permissions id) ;;
        if_given (pt_allowed_scopes patch) (_replace_operator_scopes id) ;;
        now ← console_now;
        on_operator id (λ o, o <| ow_updated_at := now |>) ;;
        hydrated id
    end).

Definition change_password (id : Z) (current_password : option string) (new_password : string)
    (require_current : bool) : M Svc bool :=
  ensure_bootstrap_operator ;;
  transaction (A:=bool) (
    d ← get_db;
    match live_operator id d, dict_get id (cd_credentials d) with
    | Some _, Some credential =>
        if require_current && negb (match current_password with
             | Some p => verify_password pbkdf2 p (cw_password_hash credential)
             | None => false
             end)
        then mret false
        else
          now ← console_now;
          h ← hash_password pbkdf2 new_password;
          set_credential (credential <| cw_password_hash := h |> <| cw_password_changed_at := Some now |>
                                     <| cw_updated_at := now |>) ;;
          on_operator id (λ o, o <| ow_updated_at := now |>) ;;
          _revoke_operator_sessions id "password_changed" ;;
          mret true
    | _, _ => mret false
    end).

Definition revoke_operator_sessions (id : Z) (reason : string) : M Svc bool :=
  ensure_bootstrap_operator ;;
  transaction (A:=bool) (
    d ← get_db;
    match live_operator id d with
    | None => mret false
    | Some _ =>
        _revoke_operator_sessions id reason ;;
        now ← console_now;
        on_operator id (λ o, o <| ow_updated_at := now |>) ;;
        mret true
    end).

Definition _hydrate_session_record (now : Z) (z : SessionRow) : SessionRecord :=
  mkSessionRecord (zw_id z) (zw_operator_id z)
    (if bool_decide (is_Some (zw_revoked_at z)) then "revoked"
     else if zw_expires_at z <=? now then "expired" else "active")
    (zw_last_used_at z) (zw_expires_at z) (zw_revoked_at z) (zw_revoke_reason z).

Definition list_operator_sessions (id : Z) : M Svc (option (list SessionRecord)) :=
  ensure_bootstrap_operator ;;
  d ← get_db;
  match live_operator id d with
  | None => mret None
  | Some _ =>
      now ← console_now;
      mret (Some (_hydrate_session_record now <$> stable_sort (λ a b, zw_created_at b <=? zw_created_at a)
        (List.filter (λ z, zw_operator_id z =? id) (dict_values (cd_sessions d)))))
  end.

Definition delete_operator (id : Z) : M Svc (option ConsoleOperator) :=
  ensure_bootstrap_operator ;;
  transaction (A:=option ConsoleOperator) (
    d ← get_db;
    match live_operator id d with
    | None => mret None
    | Some _ =>
        now ← console_now;
        on_operator id (λ o, o <| ow_status := "deleted" |> <| ow_is_deleted := true |>
          <| ow_deleted_at := Some now |> <| ow_updated_at := now |>) ;;
        _revoke_operator_sessions id "operator_deleted" ;;
        hydrated id
    end).

(** Every table of the console is emptied. *)
Definition reset_console : M Svc unit :=
  modify_db (λ d, d <| cd_operators := [] |> <| cd_credentials := [] |> <| cd_sessions := [] |> <| cd_scopes := [] |>
    <| cd_roles := [] |> <| cd_permissions := [] |> <| cd_operator_roles := [] |>
    <| cd_role_permissions := [] |> <| cd_operator_permissions := [] |>) ;;
  modify (λ s, s <| co_cache := sc_clear (co_cache s) |>).

(** ** Administration of roles *)

(** [_delete_console_identity_resource] of a role *)
Definition delete_console_role (role : Z) : M Svc (reply Z) :=
  transaction (A:=reply Z) (
    d ← get_db;
    match dict_get role (cd_roles d) with
    | Some r =>
        if lw_is_deleted r then mret (Refused 404 "resource_not_found")
        else
          now ← console_now;
          modify_db (λ d, d <| cd_roles := dict_set role (r <| lw_status := "deleted" |> <| lw_is_deleted := true |>
            <| lw_deleted_at := Some now |>) (cd_roles d) |>) ;;
          mret (Item role)
    | None => mret (Refused 404 "resource_not_found")
    end).

(** [_update_console_identity_resource] of a role's status and permissions; unknown
    permissions are left out, and one given twice violates uniqueness. *)
Definition update_console_role (role : Z) (status : option string) (permissions : option (list string))
  : M Svc (reply Z) :=
  r ← catch (transaction (A:=reply Z) (
    d ← get_db;
    match dict_get role (cd_roles d) with
    | Some r =>
        if lw_is_deleted r then mret (Refused 404 "resource_not_found")
        else
          if_given status (λ st, modify_db (λ d, d <| cd_roles := dict_set role (r <| lw_status := st |>) (cd_roles d) |>)) ;;
          if_given permissions (λ codes,
            modify_db (λ d, d <| cd_role_permissions :=
              List.filter (λ l, negb (l.1 =? role)) (cd_role_permissions d) |>) ;;
            for_each codes (λ permission,
              d ← get_db;
              match List.find (λ p, bool_decide (mw_code p = permission)) (dict_values (cd_permissions d)) with
              | Some p =>
                  check (bool_decide ((role, mw_id p) ∉ cd_role_permissions d))
                    (IntegrityError "uq_console_role_permission") ;;
                  link_role_permission role (mw_id p)
              | None => mret tt
              end)) ;;
          mret (Item role)
    | None => mret (Refused 404 "resource_not_found")
    end));
  match r with
  | Raise (IntegrityError _) => mret (Refused 409 "resource_conflict")
  | Raise e => raise e
  | Ret x => mret x
  end.
End service.

(** ** The permission matrix *)

Definition _role_permission_codes (role : Z) (d : ConsoleDb) : scopes_t :=
  list_to_set (mw_code <$> List.filter (λ p, negb (mw_is_deleted p))
    (omap (λ p, dict_get p (cd_permissions d)) (linked role (cd_role_permissions d)))).

Definition _operator_effective_permissions (operator : Z) (overrides : list (Z * scopes_t)) (d : ConsoleDb) : scopes_t :=
  permission_codes (linked operator (cd_operator_permissions d)) d ∪
  ⋃ ((λ r, default (_role_permission_codes r d) (dict_get r overrides)) <$> linked operator (cd_operator_roles d)).

Record RoleMatrixPreview := mkPreview {
  rm_current_permissions : scopes_t;
  rm_preview_permissions : scopes_t;
  rm_added : scopes_t;
  rm_removed : scopes_t;
  rm_unchanged : scopes_t;
  rm_affected_operators : list (Z * scopes_t * scopes_t);
  rm_self_lockout : bool;
  rm_wildcard_removed : bool
}.

Definition role_matrix_preview (role : Z) (codes : list string) (current_operator : option Z) (d : ConsoleDb)
  : option RoleMatrixPreview :=
  r ← dict_get role (cd_roles d);
  if lw_is_deleted r then None
  else
    let current := _role_permission_codes role d in
    let preview : scopes_t := list_to_set codes in
    let operators := List.filter (λ o, negb (ow_is_deleted o) &&
      existsb (λ l, (l.1 =? ow_id o) && (l.2 =? role)) (cd_operator_roles d)) (dict_values (cd_operators d)) in
    let affected := (λ o, (ow_id o, _operator_effective_permissions (ow_id o) [] d,
      _operator_effective_permissions (ow_id o) [(role, preview)] d)) <$>
      stable_sort (λ a b, chars_leb (to_chars (ow_email a)) (to_chars (ow_email b))) operators in
    Some (mkPreview current preview (preview ∖ current) (current ∖ preview) (current ∩ preview) affected
      (existsb (λ '(o, _, after), bool_decide (current_operator = Some o) &&
         negb (bool_decide ({["admin:read"; "identity:role:write"]} ⊆ after))) affected)
      (bool_decide ("*" ∈ current) && negb (bool_decide ("*" ∈ preview)))).

Section matrix.
Context {C : Type} `{!SessionCache C}.
Abbreviation Svc := (Console C).

(** The operator who asks must keep what role governance needs. *)
Definition apply_role_matrix (role : Z) (codes : list string) (current_operator : option Z) (reason : option string)
  : M Svc (reply RoleMatrixPreview) :=
  if no_reason reason then mret (Refused 400 "audit_reason_required")
  else transaction (A:=reply RoleMatrixPreview) (
    d ← get_db;
    match role_matrix_preview role codes current_operator d with
    | None => mret (Refused 404 "role_not_found")
    | Some preview =>
        if rm_self_lockout preview then mret (Refused 409 "self_lockout_blocked")
        else
          modify_db (λ d, d <| cd_role_permissions :=
            List.filter (λ l, negb (l.1 =? role)) (cd_role_permissions d) |>) ;;
          for_each (sorted_scopes (rm_preview_permissions preview)) (λ permission,
            p ← _ensure_permission permission; link_role_permission role p) ;;
          mret (Item preview)
    end).
End matrix.
