(* ===== verification/ConsoleProps.v ===== *)
(** What the console guarantees its operators: passwords verify, sessions are sound and
    revoked sessions stay out, wrong passwords lock an account; and where the
    administration of roles and operators falls short. *)

From stdpp Require Import gmap.
From Stdlib Require Import Ascii.
From S2P Require Import Prelude Values Json Tables SqlNative Policy ApiKeys Console.

(** * Passwords *)

(** A part without a dollar sign is split off whole. *)
Lemma split_dollar_part n l acc rest :
  Forall (λ c, Ascii.eqb c "$" = false) l →
  split_dollar (S n) (l ++ "$"%char :: rest) acc = (rev acc ++ l) :: split_dollar n rest [].
Proof.
  revert acc. induction l as [|c l IH]; intros acc Hl; simpl.
  - by rewrite app_nil_r.
  - apply Forall_cons in Hl as [-> Hl]. rewrite IH by done. simpl. by rewrite <-app_assoc.
Qed.

Lemma split_dollar_rest l : split_dollar 0 l [] = [l].
Proof. by destruct l. Qed.

Section passwords.
Context (pbkdf2 : string → string → Z → string).

(** A password verifies against its own hash, and another password does exactly
    when the derived keys are equal; salts are hexadecimal. *)
Theorem password_verifies password attempt salt
    (Hsalt : Forall (λ c, Ascii.eqb c "$" = false) (to_chars salt)) :
  verify_password pbkdf2 attempt (encode_password pbkdf2 password salt 240000) =
    bool_decide (pbkdf2 attempt salt 240000 = pbkdf2 password salt 240000).
Proof.
  unfold verify_password, encode_password.
  assert (to_chars ("pbkdf2_sha256$" +:+ pretty 240000 +:+ "$" +:+ salt +:+ "$" +:+ pbkdf2 password salt 240000) =
    to_chars "pbkdf2_sha256" ++ "$"%char :: to_chars "240000" ++ "$"%char :: to_chars salt ++ "$"%char ::
    to_chars (pbkdf2 password salt 240000)) as ->.
  { change (pretty 240000) with "240000". rewrite !to_chars_app. reflexivity. }
  rewrite split_dollar_part by (repeat constructor). rewrite split_dollar_part by (repeat constructor).
  rewrite split_dollar_part by done. rewrite split_dollar_rest. simpl rev. simpl app.
  rewrite !of_to_chars. rewrite bool_decide_true by done. change (py_int "240000") with (Some 240000). done.
Qed.
End passwords.

Lemma password_verifies_witness :
  verify_password (λ p s _, s +:+ p) "secret" (encode_password (λ p s _, s +:+ p) "secret" "a1b2" 240000) =
    bool_decide ("a1b2secret" = "a1b2secret").
Proof. apply (password_verifies (λ p s _, s +:+ p) "secret" "secret" "a1b2"). repeat constructor. Defined.

(** * What the parts of an operation leave alone *)

Section frames.
Context {C : Type} `{!SessionCache C}.
Context (pbkdf2 : string → string → Z → string) (sha256 : string → string) (config : ConsoleConfig).
Abbreviation Svc := (Console C).
Implicit Types s : Svc.

(** The part of the state that authenticates. *)
Definition auth_part s :=
  (cd_operators (co_db s), cd_next_operator (co_db s), cd_credentials (co_db s), cd_sessions (co_db s),
   cd_next_session (co_db s), co_cache s, co_now s).
(** Only roles, permissions, scopes, default resources and the clock change. *)
Definition aside s s' : Prop := auth_part s' = auth_part s ∧ (co_ticks s ≤ co_ticks s')%nat.

#[export] Instance console_aside_preorder : PreOrder aside.
Proof.
  split; [by split|]. intros s1 s2 s3 [H1 T1] [H2 T2]. split; [by rewrite H2|lia].
Qed.

Lemma aside_now : respects aside (console_now (C:=C)).
Proof. intros s. split; [done|simpl; lia]. Qed.
Lemma aside_get_db : respects aside (get_db (C:=C)).
Proof. intros s. by split. Qed.

Ltac aside_step := first
  [apply aside_now|apply aside_get_db|apply (respects_ret aside)|apply (respects_raise aside)|apply (respects_check aside)
  |apply (respects_of_option aside)|apply (respects_get_state aside)|apply (respects_bind aside)
  |apply (respects_for_each aside)|apply (respects_if aside)|apply (respects_match_option aside)
  |progress intros|match goal with |- respects _ (let '(_, _) := ?x in _) => destruct x end
  |match goal with |- respects _ (modify_db _) => intros ?; split; [done|simpl; lia] end
  |match goal with |- respects _ (match ?x with _ => _ end) => destruct x end].
Ltac aside_tac := repeat aside_step.

Lemma aside_ensure_role name : respects aside (_ensure_role (C:=C) name).
Proof. unfold _ensure_role. by aside_tac. Qed.
Lemma aside_ensure_permission p : respects aside (_ensure_permission (C:=C) p).
Proof. unfold _ensure_permission. by aside_tac. Qed.
Lemma aside_link r p : respects aside (link_role_permission (C:=C) r p).
Proof. unfold link_role_permission. by aside_tac. Qed.
Lemma aside_seed : respects aside (_seed_builtin_permissions (C:=C)).
Proof.
  unfold _seed_builtin_permissions. apply (respects_for_each aside). intros [name codes] _.
  apply (respects_bind aside); [apply aside_ensure_role|]. intros role. apply (respects_bind aside); [by aside_tac|].
  intros _. apply (respects_for_each aside). intros c _. apply (respects_bind aside); [apply aside_ensure_permission|].
  intros p. apply aside_link.
Qed.
Lemma aside_replace_roles o roles : respects aside (_replace_operator_roles (C:=C) o roles).
Proof.
  unfold _replace_operator_roles. apply (respects_bind aside); [by aside_tac|]. intros _.
  apply (respects_for_each aside). intros name _. apply (respects_bind aside); [apply aside_ensure_role|]. by aside_tac.
Qed.
Lemma aside_replace_permissions o ps : respects aside (_replace_operator_permissions (C:=C) o ps).
Proof.
  unfold _replace_operator_permissions. apply (respects_bind aside); [by aside_tac|]. intros _.
  apply (respects_for_each aside). intros name _. apply (respects_bind aside); [apply aside_ensure_permission|]. by aside_tac.
Qed.
Lemma aside_selector v : respects aside (_scope_selector_to_id (C:=C) v).
Proof. unfold _scope_selector_to_id. cbv zeta. by aside_tac. Qed.
Lemma aside_add_scope o sc : respects aside (_add_operator_scope (C:=C) o sc).
Proof.
  unfold _add_operator_scope. apply (respects_bind aside); [apply aside_selector|]. intros t.
  apply (respects_bind aside); [apply aside_selector|]. by aside_tac.
Qed.
Lemma aside_normalize sc : respects aside (_normalize_scope (C:=C) sc).
Proof. unfold _normalize_scope. cbv zeta. by aside_tac. Qed.
Lemma aside_replace_scopes o scs : respects aside (_replace_operator_scopes (C:=C) o scs).
Proof.
  unfold _replace_operator_scopes. apply (respects_bind aside); [by aside_tac|]. intros _.
  apply (respects_for_each aside). intros sc _. apply (respects_bind aside); [apply aside_normalize|]. intros x. apply aside_add_scope.
Qed.
Lemma aside_catch {A} (m : M Svc A) : respects aside m → respects aside (catch m).
Proof. intros H s. unfold catch. specialize (H s). by destruct (m s). Qed.
Lemma aside_normalized rs seen : respects aside (normalized_scopes (C:=C) rs seen).
Proof.
  revert seen. induction rs as [|r rs IH]; intros seen; simpl; [by aside_tac|].
  apply (respects_bind aside); [apply aside_catch, aside_normalize|]. intros [n|e]; [|destruct e; by aside_tac].
  destruct (bool_decide _); [apply IH|]. apply (respects_bind aside); [apply IH|]. by aside_tac.
Qed.
Lemma aside_canonicalize o : respects aside (_canonicalize_operator_scopes (C:=C) o).
Proof.
  unfold _canonicalize_operator_scopes. apply (respects_bind aside); [by aside_tac|]. intros d.
  apply (respects_bind aside); [apply aside_normalized|]. intros l. apply aside_replace_scopes.
Qed.
Lemma aside_has_scope o sc : respects aside (_operator_has_scope (C:=C) o sc).
Proof.
  unfold _operator_has_scope. apply (respects_bind aside); [apply aside_selector|]. intros t.
  apply (respects_bind aside); [apply aside_selector|]. by aside_tac.
Qed.
Lemma aside_default_resources : respects aside (_ensure_default_scope_resources (C:=C) config).
Proof. unfold _ensure_default_scope_resources. by aside_tac. Qed.
Lemma aside_transaction {A} (m : M Svc A) : respects aside m → respects aside (transaction m).
Proof.
  intros H s. unfold transaction. specialize (H s). destruct (m s) as [[a|e] s']; [done|]. destruct H as [H T].
  split; [|done]. unfold auth_part in *. simpl in *. congruence.
Qed.

(** ** Steps that cannot fail *)

Definition total {A} (m : M Svc A) : Prop := ∀ s, ∃ a s', m s = (Ret a, s').

Lemma total_ret {A} (a : A) : total (mret a).
Proof. intros s. by eexists _, _. Qed.
Lemma total_bind {A B} (m : M Svc A) (f : A → M Svc B) : total m → (∀ a, total (f a)) → total (m ≫= f).
Proof.
  intros Hm Hf s. destruct (Hm s) as (a&s1&E). destruct (Hf a s1) as (b&s2&E2). exists b, s2.
  unfold mbind, M_bind. by rewrite E.
Qed.
Lemma total_for_each {A} (l : list A) (f : A → M Svc unit) : (∀ x, total (f x)) → total (for_each l f).
Proof. intros Hf. induction l as [|x l IH]; simpl; [apply total_ret|]. apply total_bind; [apply Hf|]. by intros _. Qed.
Lemma total_modify_db f : total (modify_db f).
Proof. intros s. by eexists _, _. Qed.
Lemma total_get_db : total get_db.
Proof. intros s. by eexists _, _. Qed.

Lemma total_ensure_role name : total (_ensure_role name).
Proof.
  apply total_bind; [apply total_get_db|]. intros d. destruct (List.find _ _); [apply total_ret|].
  apply total_bind; [apply total_modify_db|]. intros _. apply total_ret.
Qed.
Lemma total_ensure_permission p : total (_ensure_permission p).
Proof.
  apply total_bind; [apply total_get_db|]. intros d. destruct (List.find _ _); [apply total_ret|].
  destruct (_permission_parts p). apply total_bind; [apply total_modify_db|]. intros _. apply total_ret.
Qed.
Lemma total_seed : total _seed_builtin_permissions.
Proof.
  apply total_for_each. intros [name codes]. apply total_bind; [apply total_ensure_role|]. intros r.
  apply total_bind; [apply total_modify_db|]. intros _. apply total_for_each. intros c.
  apply total_bind; [apply total_ensure_permission|]. intros p. apply total_modify_db.
Qed.
Lemma total_default_resources : total (_ensure_default_scope_resources config).
Proof.
  unfold _ensure_default_scope_resources. apply total_bind; [apply total_get_db|]. intros d.
  apply total_bind. { destruct (List.find _ _); [apply total_ret|]. apply total_bind; [apply total_modify_db|]. intros _. apply total_ret. }
  intros t. apply total_bind. { destruct (List.find _ _); [apply total_ret|]. apply total_bind; [apply total_modify_db|]. intros _. apply total_ret. }
  intros p. apply total_bind; [|intros _; apply total_ret]. destruct (existsb _ _); [apply total_ret|apply total_modify_db].
Qed.
End frames.

(** * The bootstrap operator *)

Section bootstrap.
Context {C : Type} `{!SessionCache C}.
Context (pbkdf2 : string → string → Z → string) (config : ConsoleConfig).
Abbreviation Svc := (Console C).
Implicit Types s : Svc.

(** The two branches of [ensure_bootstrap_operator], after the resources are seeded. *)
Definition bootstrap_keep (o : OperatorRow) (scope : ScopeArg) : M Svc ConsoleOperator :=
  has ← _operator_has_scope (ow_id o) scope;
  (if (has : bool) then mret tt else _add_operator_scope (ow_id o) scope) ;;
  _canonicalize_operator_scopes (ow_id o) ;;
  d ← get_db;
  mret (_hydrate_operator o d).
Definition bootstrap_insert (scope : ScopeArg) : M Svc ConsoleOperator :=
  operator ← insert_operator pbkdf2 (cf_admin_email config) (cf_admin_name config) (cf_admin_password config);
  _replace_operator_roles (ow_id operator) ["platform_admin"] ;;
  _replace_operator_permissions (ow_id operator) {["*"]} ;;
  _replace_operator_scopes (ow_id operator) [scope] ;;
  d ← get_db;
  mret (_hydrate_operator operator d).

Lemma bootstrap_prefix s :
  ∃ s1 scope, aside s s1 ∧
    ensure_bootstrap_operator pbkdf2 config s =
      match match _operator_by_email (cf_admin_email config) (co_db s) with
            | Some existing => bootstrap_keep existing scope s1
            | None => bootstrap_insert scope s1
            end with
      | (Ret a, s') => (Ret a, s')
      | (Raise e, s') => (Raise e, s' <| co_db := co_db s |>)
      end.
Proof.
  destruct (total_seed (C:=C) s) as ([]&s0&E0). pose proof (aside_seed s) as A0. rewrite E0 in A0.
  destruct (total_default_resources (C:=C) config s0) as (scope&s1&E1).
  pose proof (aside_default_resources (C:=C) config s0) as A1. rewrite E1 in A1.
  assert (aside s s1) as A by by etrans. exists s1, scope. split; [done|].
  unfold ensure_bootstrap_operator, transaction.
  unfold mbind at 1, M_bind at 1. rewrite E0. unfold mbind at 1, M_bind at 1. rewrite E1.
  assert (_operator_by_email (cf_admin_email config) (co_db s) = _operator_by_email (cf_admin_email config) (co_db s1)) as ->.
  { unfold _operator_by_email. destruct A as [A _]. by injection A as -> _ _ _ _ _ _. }
  unfold mbind at 1, M_bind at 1. simpl. by destruct (_operator_by_email _ (co_db s1)).
Qed.

Lemma aside_bootstrap_keep o scope : respects aside (bootstrap_keep o scope).
Proof.
  apply (respects_bind aside); [apply aside_has_scope|]. intros has.
  apply (respects_bind aside); [destruct has; [apply (respects_ret aside)|apply aside_add_scope]|]. intros _.
  apply (respects_bind aside); [apply aside_canonicalize|]. intros _.
  apply (respects_bind aside); [apply aside_get_db|]. intros d. apply (respects_ret aside).
Qed.

(** The bootstrap operator is there: nothing else happens. *)
Lemma bootstrap_existing s o :
  _operator_by_email (cf_admin_email config) (co_db s) = Some o → aside s (ensure_bootstrap_operator pbkdf2 config s).2.
Proof.
  intros Ho. destruct (bootstrap_prefix s) as (s1&scope&A&->). rewrite Ho.
  pose proof (aside_bootstrap_keep o scope s1) as B. assert (aside s (bootstrap_keep o scope s1).2) as D by by etrans.
  clear A B. destruct (bootstrap_keep o scope s1) as [[a|e] s2]; [done|]. simpl in *. destruct D as [D T].
  split; [|done]. unfold auth_part in *. simpl in *. congruence.
Qed.

(** ** Deleting it *)

(** The address belongs to a deleted operator: nobody can be inserted under it. *)
Lemma bootstrap_refused s :
  _operator_by_email (cf_admin_email config) (co_db s) = None →
  existsb (λ o, bool_decide (ow_email o = cf_admin_email config)) (dict_values (cd_operators (co_db s))) = true →
  ∃ s', ensure_bootstrap_operator pbkdf2 config s = (Raise (IntegrityError "uq_console_operators_email"), s') ∧
    co_db s' = co_db s.
Proof.
  intros Hn He. destruct (bootstrap_prefix s) as (s1&scope&A&->). rewrite Hn.
  assert (cd_operators (co_db s1) = cd_operators (co_db s)) as Hop by by destruct A as [[= -> _ _ _ _ _ _] _].
  unfold bootstrap_insert, insert_operator. unfold mbind at 1, M_bind at 1. unfold mbind at 1, M_bind at 1. simpl.
  unfold mbind at 1, M_bind at 1. simpl. unfold mbind at 1, M_bind at 1. simpl.
  rewrite Hop, He. simpl. by eexists.
Qed.
End bootstrap.

(** * Requests *)

(** What an operator of the console can ask of the services. *)
Inductive Request :=
  | Login (email password : string) (ip_address user_agent : option string)
  | Logout (token reason : string)
  | WhoAmI (token : string)
  | ListOperators
  | CreateOperator (email name password : string) (roles : list string) (permissions : scopes_t)
      (allowed_scopes : list ScopeArg)
  | UpdateOperator (id : Z) (patch : OperatorPatch)
  | ChangePassword (id : Z) (current : option string) (new : string) (require_current : bool)
  | RevokeSessions (id : Z) (reason : string)
  | ListSessions (id : Z)
  | DeleteOperator (id : Z)
  | DeleteRole (role : Z)
  | UpdateRole (role : Z) (status : option string) (permissions : option (list string))
  | ApplyMatrix (role : Z) (codes : list string) (current : option Z) (reason : option string).

Section requests.
Context {C : Type} `{!SessionCache C}.
Context (pbkdf2 : string → string → Z → string) (sha256 : string → string) (config : ConsoleConfig).
Abbreviation Svc := (Console C).

Definition serve (r : Request) : M Svc unit :=
  match r with
  | Login e p ip ua => console_authenticate pbkdf2 sha256 config e p ip ua ;; mret tt
  | Logout t r => revoke_session sha256 t r
  | WhoAmI t => get_operator_by_session sha256 t ;; mret tt
  | ListOperators => list_operators pbkdf2 config ;; mret tt
  | CreateOperator e n p rs ps ss => create_operator pbkdf2 config e n p rs ps ss ;; mret tt
  | UpdateOperator i p => update_operator pbkdf2 config i p ;; mret tt
  | ChangePassword i c n q => change_password pbkdf2 config i c n q ;; mret tt
  | RevokeSessions i r => revoke_operator_sessions pbkdf2 config i r ;; mret tt
  | ListSessions i => list_operator_sessions pbkdf2 config i ;; mret tt
  | DeleteOperator i => delete_operator pbkdf2 config i ;; mret tt
  | DeleteRole r => delete_console_role r ;; mret tt
  | UpdateRole r st ps => update_console_role r st ps ;; mret tt
  | ApplyMatrix r cs o re => apply_role_matrix r cs o re ;; mret tt
  end.

(** Requests one after the other; one that raises is answered with an error, and the
    next is served. *)
Definition serve_all (rs : list Request) (s : Svc) : Svc := foldl (λ s r, (serve r s).2) s rs.

Lemma serve_all_keeps (I : Svc → Prop) rs :
  (∀ r, respects (keeps I) (serve r)) → ∀ s, I s → I (serve_all rs s).
Proof. intros H. induction rs as [|r rs IH]; intros s Hs; [done|]. apply IH. by apply (H r). Qed.
End requests.

(** * Sessions *)

(** What a cache promises: it returns what was stored under the key, or nothing. *)
Class SessionCacheLaws (C : Type) `{!SessionCache C} := {
  sc_entry : string → C → option CachePayload;
  sc_get_hit now h c p : (sc_get now h c).1 = Some p → sc_entry h c = Some p;
  sc_get_entry now h c h' p : sc_entry h' (sc_get now h c).2 = Some p → sc_entry h' c = Some p;
  sc_set_entry now h c q ttl h' p :
    sc_entry h' (sc_set now h q ttl c) = Some p → h' = h ∧ p = q ∨ sc_entry h' c = Some p;
  sc_delete_entry h c h' p : sc_entry h' (sc_delete h c) = Some p → sc_entry h' c = Some p
}.

#[export] Instance memory_session_cache_laws : SessionCacheLaws MemorySessionCache.
Proof.
  refine {| sc_entry := λ h c, fst <$> dict_get h c |}.
  - intros now h c p. simpl. unfold memory_get. destruct (dict_get h c) as [[q e]|]; [|done].
    destruct (e <=? now); [done|]. by intros [= ->].
  - intros now h c h' p. simpl. unfold memory_get. destruct (dict_get h c) as [[q e]|]; [|done].
    destruct (e <=? now); [|done]. simpl. destruct (decide (h = h')) as [<-|Hn].
    + by rewrite dict_get_pop_eq.
    + by rewrite dict_get_pop_ne.
  - intros now h c q ttl h' p. simpl. unfold memory_set. rewrite dict_get_set. case_decide; [|by right].
    intros [= ->]. by left.
  - intros h c h' p. simpl. destruct (decide (h = h')) as [<-|Hn].
    + by rewrite dict_get_pop_eq.
    + by rewrite dict_get_pop_ne.
Defined.

(** A session keeps its token, its operator and its expiry; a revoked one stays revoked. *)
Definition same_session (z z' : SessionRow) : Prop :=
  zw_token_hash z' = zw_token_hash z ∧ zw_operator_id z' = zw_operator_id z ∧ zw_expires_at z' = zw_expires_at z ∧
  (is_Some (zw_revoked_at z) → is_Some (zw_revoked_at z')).

#[export] Instance same_session_preorder : PreOrder same_session.
Proof. split; [done|]. intros z1 z2 z3 (?&?&?&?) (?&?&?&?). split_and!; (congruence || auto). Qed.

(** Sessions are stored under their ids, each with a token of its own. *)
Record sessions_wf (d : ConsoleDb) : Prop := {
  swf_nodup : NoDup (dict_keys (cd_sessions d));
  swf_key k z : dict_get k (cd_sessions d) = Some z → zw_id z = k;
  swf_fresh k z : dict_get k (cd_sessions d) = Some z → k < cd_next_session d;
  swf_unique k k' z z' : dict_get k (cd_sessions d) = Some z → dict_get k' (cd_sessions d) = Some z' →
    zw_token_hash z = zw_token_hash z' → k = k'
}.

Lemma session_by_hash_spec d h z : sessions_wf d →
  session_by_hash h d = Some z ↔ dict_get (zw_id z) (cd_sessions d) = Some z ∧ zw_token_hash z = h.
Proof.
  intros Hwf. unfold session_by_hash. split.
  - intros [Hin Hh%bool_decide_eq_true]%find_some. split; [|done]. apply list_elem_of_In in Hin.
    apply values_elem in Hin as [k Hk]; [|apply Hwf]. by rewrite (swf_key _ Hwf _ _ Hk).
  - intros [Hz Hh]. destruct (List.find _ _) as [z'|] eqn:E.
    + apply find_some in E as [Hin Hh'%bool_decide_eq_true]. apply list_elem_of_In in Hin.
      apply values_elem in Hin as [k Hk]; [|apply Hwf]. f_equal.
      assert (k = zw_id z) as -> by (eapply swf_unique; [exact Hwf|exact Hk|exact Hz|congruence]). congruence.
    + eapply List.find_none in E; [|apply list_elem_of_In, values_elem; [apply Hwf|by eexists]].
      by rewrite bool_decide_true in E.
Qed.

Section sessions.
Context {C : Type} `{!SessionCache C, !SessionCacheLaws C}.
Context (pbkdf2 : string → string → Z → string) (sha256 : string → string) (config : ConsoleConfig).
Abbreviation Svc := (Console C).
Implicit Types s : Svc.

(** What is cached is a session of the database, with its operator and expiry. *)
Definition cached_session (d : ConsoleDb) (h : string) (p : CachePayload) : Prop :=
  ∃ z, dict_get (py_session_id p) (cd_sessions d) = Some z ∧ zw_token_hash z = h ∧
    zw_operator_id z = py_operator_id p ∧ zw_expires_at z = py_expires_at p.

Definition operators_keyed (d : ConsoleDb) : Prop := ∀ k o, dict_get k (cd_operators d) = Some o → ow_id o = k.

Record console_inv s : Prop := {
  ci_wf : sessions_wf (co_db s);
  ci_operators : operators_keyed (co_db s);
  ci_cache h p : sc_entry h (co_cache s) = Some p → cached_session (co_db s) h p
}.

Definition kept s s' : Prop := ∀ k z, dict_get k (cd_sessions (co_db s)) = Some z →
  ∃ z', dict_get k (cd_sessions (co_db s')) = Some z' ∧ same_session z z'.
Definition sess s s' : Prop := console_inv s → console_inv s' ∧ kept s s'.
(** The same, and nothing new is cached. *)
Definition soft s s' : Prop :=
  sess s s' ∧ (console_inv s → ∀ h p, sc_entry h (co_cache s') = Some p → sc_entry h (co_cache s) = Some p).
(** Neither sessions nor the cache change. *)
Definition quiet s s' : Prop :=
  cd_sessions (co_db s') = cd_sessions (co_db s) ∧ cd_next_session (co_db s') = cd_next_session (co_db s) ∧
  co_cache s' = co_cache s ∧ (operators_keyed (co_db s) → operators_keyed (co_db s')).

#[export] Instance sess_preorder : PreOrder sess.
Proof.
  split.
  - intros s Hi. split; [done|]. intros k z Hk. by exists z.
  - intros s1 s2 s3 H12 H23 Hi. destruct (H12 Hi) as [Hi2 K12]. destruct (H23 Hi2) as [Hi3 K23]. split; [done|].
    intros k z Hk. destruct (K12 _ _ Hk) as (z2&Hk2&S2). destruct (K23 _ _ Hk2) as (z3&Hk3&S3).
    exists z3. split; [done|]. by etrans.
Qed.
#[export] Instance soft_preorder : PreOrder soft.
Proof.
  split; [by split|]. intros s1 s2 s3 [H1 E1] [H2 E2]. split; [by etrans|]. intros Hi h p Hp.
  apply E1, E2; [done|by apply H1|done].
Qed.
#[export] Instance quiet_preorder : PreOrder quiet.
Proof. split; [done|]. intros s1 s2 s3 (?&?&?&?) (?&?&?&?). unfold quiet. split_and!; [congruence..|auto]. Qed.

Lemma wf_same d d' : cd_sessions d' = cd_sessions d → cd_next_session d' = cd_next_session d →
  sessions_wf d → sessions_wf d'.
Proof. intros E1 E2 [H1 H2 H3 H4]. split; rewrite ?E1, ?E2; done. Qed.

Lemma quiet_soft s s' : quiet s s' → soft s s'.
Proof.
  intros (E1&E2&E3&E4). split; [|by rewrite E3]. intros [Hw Ho Hc]. split.
  - split; [by eapply wf_same|by apply E4|]. intros h p. rewrite E3. intros Hp. unfold cached_session. rewrite E1. by apply Hc.
  - intros k z. rewrite E1. intros Hk. by exists z.
Qed.
Lemma aside_quiet s s' : aside s s' → quiet s s'.
Proof. intros [[= E1 E2 E3 E4 E5 E6] _]. split_and!; [done..|]. unfold operators_keyed. by rewrite E1. Qed.
Lemma soft_sess s s' : soft s s' → sess s s'.
Proof. by intros [? _]. Qed.

(** A transaction undone leaves at most a smaller cache. *)
Lemma soft_transaction {A} (m : M Svc A) : respects soft m → respects soft (transaction m).
Proof.
  intros H s. unfold transaction. specialize (H s). destruct (m s) as [[a|e] s']; [done|]. destruct H as [_ H].
  simpl in *. split; [|done]. intros Hi. pose proof Hi as [Hw Ho Hc]. split; [split; simpl; [done..|by eauto]|]. intros k z Hk. by exists z.
Qed.
Lemma quiet_transaction {A} (m : M Svc A) : respects quiet m → respects quiet (transaction m).
Proof. intros H s. unfold transaction. specialize (H s). destruct (m s) as [[a|e] s']; [done|]. by destruct H as (_&_&?&_). Qed.

Lemma soft_cache_delete h : respects soft (cache_delete (C:=C) h).
Proof.
  intros s. split; [|intros _ h' p; apply sc_delete_entry]. intros [Hw Ho Hc]. split.
  - split; [done..|]. intros h' p Hp%sc_delete_entry. by apply Hc.
  - intros k z Hk. by exists z.
Qed.
Lemma soft_cache_get h : respects soft (cache_get (C:=C) h).
Proof.
  intros s. unfold cache_get, console_now. m_unfold. simpl.
  destruct (sc_get _ h _) as [p c] eqn:E. simpl. pose proof (sc_get_entry (co_now s (co_ticks s)) h (co_cache s)) as Hg.
  rewrite E in Hg. split; [|intros _ h' q; apply Hg]. intros [Hw Ho Hc]. split.
  - split; [done..|]. intros h' q Hq%Hg. by apply Hc.
  - intros k z Hk. by exists z.
Qed.

(** A session row is written over itself. *)
Lemma soft_set_session z z0 s :
  dict_get (zw_id z) (cd_sessions (co_db s)) = Some z0 → same_session z0 z → soft s (set_session z s).2.
Proof.
  intros Hz Hs. split; [|done]. intros [[W1 W2 W3 W4] Ho Hc].
  assert (∀ k y, dict_get k (dict_set (zw_id z) z (cd_sessions (co_db s))) = Some y →
    ∃ y0, dict_get k (cd_sessions (co_db s)) = Some y0 ∧ same_session y0 y ∧ (k = zw_id z → y = z)) as Hback.
  { intros k y. rewrite dict_get_set. case_decide; [|by eexists]. intros [= <-]. subst. by exists z0. }
  assert (kept s (set_session z s).2) as Hk.
  { intros k y Hy. simpl. rewrite dict_get_set. case_decide; [subst; exists z; split; [done|congruence]|by eexists]. }
  split; [|done]. split.
  - split; simpl.
    + by apply dict_set_nodup.
    + intros k y Hy. destruct (decide (k = zw_id z)) as [->|Hn].
      * rewrite dict_get_set_eq in Hy. congruence.
      * rewrite dict_get_set_ne in Hy by done. eauto.
    + intros k y (y0&Hy0&_)%Hback. eauto.
    + intros k k' y y' (y0&Hy0&S0&_)%Hback (y1&Hy1&S1&_)%Hback He. eapply W4; [exact Hy0|exact Hy1|].
      destruct S0 as [<- _], S1 as [<- _]. done.
  - done.
  - intros h p (y&Hy&?&?&?)%Hc. destruct (Hk _ _ Hy) as (y'&Hy'&?&?&?&_). exists y'. split_and!; [done|congruence..].
Qed.

(** ** Requests that leave the sessions alone *)

Lemma quiet_modify_db f :
  (∀ d, cd_sessions (f d) = cd_sessions d ∧ cd_next_session (f d) = cd_next_session d ∧ cd_operators (f d) = cd_operators d) →
  respects quiet (modify_db (C:=C) f).
Proof. intros H s. destruct (H (co_db s)) as (?&?&E). split_and!; [done..|]. unfold operators_keyed. simpl. by rewrite E. Qed.
Lemma keyed_set d o : operators_keyed d → operators_keyed (d <| cd_operators := dict_set (ow_id o) o (cd_operators d) |>).
Proof. intros H k o'. simpl. rewrite dict_get_set. case_decide; [|apply H]. intros [= <-]. done. Qed.
Lemma quiet_set_operator o : respects quiet (set_operator (C:=C) o).
Proof. intros s. split_and!; [done..|]. apply keyed_set. Qed.
Lemma quiet_on_operator id f : (∀ o, ow_id (f o) = ow_id o) → respects quiet (on_operator (C:=C) id f).
Proof.
  intros Hf s. split_and!; [done..|]. intros H k o'. simpl. destruct (dict_get id _) as [o|] eqn:E; [|apply H].
  rewrite dict_get_set. case_decide; [|apply H]. intros [= <-]. subst. rewrite Hf. by apply H.
Qed.
Lemma quiet_of_aside {A} (m : M Svc A) : respects aside m → respects quiet m.
Proof. apply respects_weaken, aside_quiet. Qed.
Lemma quiet_hash_password p : respects quiet (hash_password (C:=C) pbkdf2 p).
Proof. intros s. by split_and!. Qed.
Lemma quiet_catch {A} (m : M Svc A) : respects quiet m → respects quiet (catch m).
Proof. intros H s. unfold catch. specialize (H s). by destruct (m s). Qed.

Ltac quiet_step := first
  [apply quiet_of_aside; first [apply aside_now|apply aside_get_db|apply aside_ensure_permission|apply aside_link
    |apply aside_replace_roles|apply aside_replace_permissions|apply aside_replace_scopes|apply aside_default_resources
    |apply aside_bootstrap_keep]
  |apply quiet_hash_password|apply quiet_transaction|apply quiet_catch
  |apply (respects_ret quiet)|apply (respects_raise quiet)|apply (respects_check quiet)|apply (respects_of_option quiet)
  |apply (respects_bind quiet)|apply (respects_for_each quiet)|apply (respects_if quiet)|apply (respects_match_option quiet)
  |apply quiet_modify_db; done|apply quiet_set_operator|apply quiet_on_operator; done
  |progress intros
  |match goal with |- respects _ (match ?x with _ => _ end) => destruct x end].
Ltac quiet_tac := repeat quiet_step.

Lemma quiet_insert e n p : respects quiet (insert_operator (C:=C) pbkdf2 e n p).
Proof.
  unfold insert_operator, set_credential. cbv zeta. apply (respects_bind quiet); [by quiet_tac|]. intros now.
  apply (respects_bind quiet); [by quiet_tac|]. intros d. apply (respects_bind quiet); [by quiet_tac|]. intros _.
  apply (respects_bind quiet); [|by quiet_tac]. intros s. split_and!; [done..|]. intros H.
  by apply (keyed_set (co_db s) (mkOperatorRow (cd_next_operator d) e n "active" now now None false None)).
Qed.
Lemma quiet_bootstrap : respects quiet (ensure_bootstrap_operator (C:=C) pbkdf2 config).
Proof.
  intros s. destruct (bootstrap_prefix pbkdf2 config s) as (s1&scope&A&->). apply aside_quiet in A.
  assert (respects quiet (bootstrap_insert (C:=C) pbkdf2 config scope)) as Hi.
  { unfold bootstrap_insert. apply (respects_bind quiet); [apply quiet_insert|]. by quiet_tac. }
  destruct (_operator_by_email _ _) as [o|].
  - pose proof (quiet_of_aside _ (aside_bootstrap_keep o scope) s1) as B.
    destruct (bootstrap_keep o scope s1) as [[a|e] s2]; [by etrans|]. simpl in *. split_and!; [done..| |done].
    destruct A as (_&_&A&_), B as (_&_&B&_). simpl. congruence.
  - pose proof (Hi s1) as B. destruct (bootstrap_insert _ _ scope s1) as [[a|e] s2]; [by etrans|]. simpl in *.
    split_and!; [done..| |done]. destruct A as (_&_&A&_), B as (_&_&B&_). simpl. congruence.
Qed.

Lemma quiet_create e n p rs ps ss : respects quiet (create_operator (C:=C) pbkdf2 config e n p rs ps ss).
Proof.
  apply (respects_bind quiet); [apply quiet_bootstrap|]. intros _. apply quiet_transaction.
  apply (respects_bind quiet); [by quiet_tac|]. intros d. apply (respects_bind quiet); [by quiet_tac|]. intros _.
  apply (respects_bind quiet); [apply quiet_insert|]. by quiet_tac.
Qed.
Lemma quiet_list_operators : respects quiet (list_operators (C:=C) pbkdf2 config).
Proof. apply (respects_bind quiet); [apply quiet_bootstrap|]. by quiet_tac. Qed.
Lemma quiet_list_sessions id : respects quiet (list_operator_sessions (C:=C) pbkdf2 config id).
Proof. apply (respects_bind quiet); [apply quiet_bootstrap|]. by quiet_tac. Qed.
Lemma quiet_delete_role r : respects quiet (delete_console_role (C:=C) r).
Proof. unfold delete_console_role. by quiet_tac. Qed.
Lemma quiet_update_role r st ps : respects quiet (update_console_role (C:=C) r st ps).
Proof. unfold update_console_role, if_given. by quiet_tac. Qed.
Lemma quiet_apply_matrix r cs o re : respects quiet (apply_role_matrix (C:=C) r cs o re).
Proof. unfold apply_role_matrix. by quiet_tac. Qed.

(** ** Requests that revoke sessions *)

Lemma soft_of_quiet {A} (m : M Svc A) : respects quiet m → respects soft m.
Proof. apply respects_weaken, quiet_soft. Qed.

(** Rows of the table, each written back revoked. *)
Lemma soft_revoke_rows now reason l s :
  (∀ z, z ∈ l → ∃ z0, dict_get (zw_id z) (cd_sessions (co_db s)) = Some z0 ∧
    same_session z0 (z <| zw_revoked_at := Some now |> <| zw_revoke_reason := Some reason |>)) →
  soft s (for_each l (λ z, set_session (z <| zw_revoked_at := Some now |> <| zw_revoke_reason := Some reason |>) ;;
    cache_delete (zw_token_hash z)) s).2.
Proof.
  revert s. induction l as [|z l IH]; intros s Hl; [apply soft_preorder|]. simpl for_each.
  destruct (Hl z) as (z0&Hz0&Hs0); [left|].
  apply (respects_bind_at soft); [|intros [] s' [= <-]; apply IH].
  - apply (respects_bind_at soft); [by eapply soft_set_session|]. intros [] s' [= <-]. apply soft_cache_delete.
  - intros y Hy. destruct (Hl y) as (y0&Hy0&Sy0); [by right|]. simpl. rewrite dict_get_set. case_decide as Hid; [|by eexists].
    eexists. split; [done|]. simpl. rewrite <-Hid in Hy0. simplify_eq.
    destruct Sy0 as (H1&H2&H3&_), Hs0 as (H4&H5&H6&_). simpl in *. split_and!; [simpl; congruence..|]. by intros _; eexists.
Qed.

Lemma soft_under s s' : (console_inv s → soft s s') → soft s s'.
Proof. intros H. split; intros Hi; by apply H. Qed.

Lemma soft_revoke_operator id reason : respects soft (_revoke_operator_sessions (C:=C) id reason).
Proof.
  intros s. unfold _revoke_operator_sessions.
  apply (respects_bind_at soft); [apply soft_of_quiet; by quiet_tac|]. intros now s1 E1.
  apply (respects_bind_at soft); [apply soft_of_quiet; by quiet_tac|]. intros d s2 [= <- <-].
  apply soft_under. intros [Hw _ _]. apply soft_revoke_rows. intros z Hz.
  apply list_elem_of_In, filter_In in Hz as [Hz _]. apply list_elem_of_In, values_elem in Hz as [k Hk]; [|apply Hw].
  exists z. rewrite (swf_key _ Hw _ _ Hk). split; [done|]. split_and!; [done..|]. by intros _; eexists.
Qed.

Ltac soft_step := first
  [apply soft_revoke_operator|apply soft_cache_delete|apply soft_cache_get|apply soft_transaction
  |apply (respects_bind soft)|apply (respects_if soft)|apply (respects_match_option soft)
  |apply soft_of_quiet; solve [quiet_tac]
  |progress intros
  |match goal with |- respects _ (match ?x with _ => _ end) => destruct x end].
Ltac soft_tac := repeat soft_step.

Lemma soft_update id p : respects soft (update_operator (C:=C) pbkdf2 config id p).
Proof.
  apply (respects_bind soft); [apply soft_of_quiet, quiet_bootstrap|]. intros _. apply soft_transaction.
  unfold if_given, hydrated. by soft_tac.
Qed.
Lemma soft_change_password id c n q : respects soft (change_password (C:=C) pbkdf2 config id c n q).
Proof.
  apply (respects_bind soft); [apply soft_of_quiet, quiet_bootstrap|]. intros _. apply soft_transaction.
  unfold set_credential. by soft_tac.
Qed.
Lemma soft_revoke_sessions id r : respects soft (revoke_operator_sessions (C:=C) pbkdf2 config id r).
Proof.
  apply (respects_bind soft); [apply soft_of_quiet, quiet_bootstrap|]. intros _. apply soft_transaction.
  by soft_tac.
Qed.
Lemma soft_delete id : respects soft (delete_operator (C:=C) pbkdf2 config id).
Proof.
  apply (respects_bind soft); [apply soft_of_quiet, quiet_bootstrap|]. intros _. apply soft_transaction.
  unfold hydrated. by soft_tac.
Qed.

(** The row found under a token's hash is written back. *)
Lemma soft_touch h z z' s : session_by_hash h (co_db s) = Some z → zw_id z' = zw_id z → same_session z z' →
  soft s (set_session z' s).2.
Proof.
  intros Hz Hid Hs. apply soft_under. intros [Hw _ _]. apply session_by_hash_spec in Hz as [Hz _]; [|done].
  eapply soft_set_session; [by rewrite Hid|done].
Qed.

Lemma soft_logout t r : respects soft (revoke_session (C:=C) sha256 t r).
Proof.
  apply (respects_bind soft); [|intros _; apply soft_cache_delete]. apply soft_transaction. intros s.
  apply (respects_bind_at soft); [apply soft_of_quiet; by quiet_tac|]. intros d s2 [= <- <-].
  destruct (session_by_hash _ _) as [z|] eqn:Ez; [|apply soft_preorder]. case_bool_decide; [|apply soft_preorder].
  apply (respects_bind_at soft); [apply soft_of_quiet; by quiet_tac|]. intros now s1 [= <- <-].
  eapply soft_touch; [exact Ez|done|]. split_and!; [done..|]. by intros _; eexists.
Qed.

(** ** Requests that open or use a session *)

Lemma sess_of_soft {A} (m : M Svc A) : respects soft m → respects sess m.
Proof. apply respects_weaken, soft_sess. Qed.

Lemma sess_cache_set h p ttl s : (console_inv s → cached_session (co_db s) h p) → sess s (cache_set h p ttl s).2.
Proof.
  intros Hp Hi. pose proof Hi as [Hw Ho Hc]. split.
  - split; [done..|]. intros h' q [[-> ->]|Hq]%sc_set_entry; [by apply Hp|]. by apply Hc.
  - intros k z Hk. by exists z.
Qed.

Lemma sess_transaction {A} (m : M Svc A) s :
  sess s (m s).2 → (∀ e s', m s = (Raise e, s') → soft s s') → sess s (transaction m s).2.
Proof.
  intros Hm Hr. unfold transaction. destruct (m s) as [[a|e] s'] eqn:E; [done|]. destruct (Hr _ _ eq_refl) as [_ Hs].
  intros Hi. pose proof Hi as [Hw Ho Hc]. simpl. split; [split; simpl; [done..|by eauto]|]. intros k z Hk. by exists z.
Qed.

Lemma total_now : total (console_now (C:=C)).
Proof. intros s. by eexists _, _. Qed.
Lemma total_cache_set h p ttl : total (cache_set (C:=C) h p ttl).
Proof. intros s. by eexists _, _. Qed.
Lemma total_cache_delete h : total (cache_delete (C:=C) h).
Proof. intros s. by eexists _, _. Qed.
Ltac total_tac := repeat first [apply total_ret|apply total_now|apply total_cache_set|apply total_cache_delete
  |apply total_get_db|apply total_modify_db|apply total_bind|progress intros
  |match goal with |- total (match ?x with _ => _ end) => destruct x end].

Lemma session_by_hash_eq h d z : session_by_hash h d = Some z → zw_token_hash z = h.
Proof. by intros [_ ?%bool_decide_eq_true]%find_some. Qed.

Lemma active_operator_inv o o' : active_operator o = Some o' → o = Some o' ∧ ow_status o' = "active" ∧ ow_is_deleted o' = false.
Proof.
  unfold active_operator. destruct o as [o|]; [|done]. simpl. destruct (_ && _) eqn:E; [|done].
  apply andb_true_iff in E as [?%bool_decide_eq_true ?%negb_true_iff]. by intros [= ->].
Qed.

(** [_session_is_active] reads the clock at most once. *)
Lemma session_active_run z s :
  ∃ s1, _session_is_active z s = (Ret (match z with
    | Some z => negb (bool_decide (is_Some (zw_revoked_at z))) && negb (zw_expires_at z <=? co_now s (co_ticks s))
    | None => false end), s1) ∧ co_db s1 = co_db s ∧ soft s s1.
Proof.
  unfold _session_is_active. destruct z as [z|]; [|eexists; split_and!; [done..|apply soft_preorder]].
  case_bool_decide; [eexists; split_and!; [done..|apply soft_preorder]|].
  eexists. split_and!; [done..|]. by apply quiet_soft.
Qed.

Ltac soft_bind := apply (respects_bind_at sess); [apply sess_of_soft, soft_of_quiet; by quiet_tac|].

Lemma sess_from_db h : respects sess (_get_operator_by_session_from_db (C:=C) h).
Proof.
  intros s. apply sess_transaction.
  - soft_bind. intros d s0 [= <- <-]. cbv zeta. destruct (session_active_run (session_by_hash h (co_db s)) s) as (s1&E1&D1&S1).
    apply (respects_bind_at sess); [rewrite E1; by apply soft_sess|]. rewrite E1. intros a s2 [= _ <-].
    destruct (session_by_hash h (co_db s)) as [z|] eqn:Ez; [|apply sess_preorder].
    destruct a; cbn [negb]; [|apply sess_of_soft; by soft_tac].
    destruct (active_operator _) as [o|] eqn:Eo; [|apply sess_of_soft; by soft_tac].
    apply active_operator_inv in Eo as (Eo&_&_).
    soft_bind. intros now s3 [= _ <-].
    apply (respects_bind_at sess). { eapply soft_sess, soft_touch; [simpl; by rewrite D1|done..]. }
    intros [] s4 [= <-]. soft_bind. intros d s5 [= _ <-].
    apply (respects_bind_at sess); [|intros [] s6 _; apply sess_preorder].
    apply sess_cache_set. intros [_ Ho _]. exists (z <| zw_last_used_at := now |>). split; [apply dict_get_set_eq|].
    split_and!; [exact (session_by_hash_eq _ _ _ Ez)| |done]. simpl. symmetry. apply Ho. simpl. by rewrite D1.
  - intros e s' E. exfalso. revert E. match goal with |- ?m s = _ → _ => assert (total m) as Ht end.
    { unfold _session_is_active, set_session. cbv zeta. by total_tac. }
    destruct (Ht s) as (a&s1&->). done.
Qed.

Lemma sess_who_am_i t : respects sess (get_operator_by_session (C:=C) sha256 t).
Proof.
  unfold get_operator_by_session. apply (respects_bind sess); [apply sess_of_soft, soft_cache_get|].
  intros [p|]; [|apply sess_from_db]. apply (respects_bind sess); [apply sess_of_soft; by soft_tac|]. intros now.
  apply sess_of_soft. destruct (_ <=? now). { apply (respects_bind soft); [apply soft_logout|by soft_tac]. }
  apply soft_transaction. intros s. apply (respects_bind_at soft); [apply soft_of_quiet; by quiet_tac|].
  intros d s0 [= <- <-]. cbv zeta. destruct (session_active_run (session_by_hash (hash_token sha256 t) (co_db s)) s) as (s1&E1&D1&S1).
  apply (respects_bind_at soft); [by rewrite E1|]. rewrite E1. intros a s2 [= _ <-].
  destruct (session_by_hash _ (co_db s)) as [z|] eqn:Ez; [|by soft_tac].
  destruct a; cbn [negb]; [|by soft_tac]. destruct (active_operator _) as [o|]; [|by soft_tac].
  apply (respects_bind_at soft); [apply soft_of_quiet; by quiet_tac|]. intros now' s3 [= _ <-].
  apply (respects_bind_at soft). { eapply soft_touch; [simpl; by rewrite D1|done..]. }
  intros [] s4 _. apply soft_of_quiet. by quiet_tac.
Qed.

(** A session under a new token. *)
Lemma sess_insert z s :
  zw_id z = cd_next_session (co_db s) →
  existsb (λ y, bool_decide (zw_token_hash y = zw_token_hash z)) (dict_values (cd_sessions (co_db s))) = false →
  sess s (modify_db (λ d, d <| cd_sessions := dict_set (zw_id z) z (cd_sessions d) |>
                            <| cd_next_session := cd_next_session d + 1 |>) s).2.
Proof.
  intros Hid Hh [[W1 W2 W3 W4] Ho Hc].
  assert (∀ k y, dict_get k (cd_sessions (co_db s)) = Some y → zw_token_hash y ≠ zw_token_hash z) as Hne.
  { intros k y Hy He. apply not_true_iff_false in Hh. apply Hh, existsb_exists. exists y.
    split; [apply list_elem_of_In, values_elem; [done|by eexists]|by apply bool_decide_eq_true]. }
  assert (∀ k y, dict_get k (cd_sessions (co_db s)) = Some y → k ≠ zw_id z) as Hf.
  { intros k y Hy%W3 ->. lia. }
  assert (∀ k y, dict_get k (dict_set (zw_id z) z (cd_sessions (co_db s))) = Some y →
    k = zw_id z ∧ y = z ∨ dict_get k (cd_sessions (co_db s)) = Some y) as Hback.
  { intros k y. rewrite dict_get_set. case_decide; [|by right]. intros [= ->]. by left. }
  assert (∀ k y, dict_get k (cd_sessions (co_db s)) = Some y →
    dict_get k (dict_set (zw_id z) z (cd_sessions (co_db s))) = Some y) as Hfw.
  { intros k y Hy. rewrite dict_get_set_ne; [done|]. intros E. by apply (Hf _ _ Hy). }
  split; [split; [split; simpl| |]|].
  - by apply dict_set_nodup.
  - intros k y [[-> ->]|Hy]%Hback; [done|by apply W2].
  - intros k y [[-> ->]|Hy%W3]%Hback; lia.
  - intros k k' y y' [[-> ->]|Hy]%Hback [[-> ->]|Hy']%Hback E; [done| | |by eapply W4].
    + by destruct (Hne _ _ Hy').
    + by destruct (Hne _ _ Hy).
  - done.
  - intros h p (y&Hy&?)%Hc. exists y. simpl. auto.
  - intros k y Hy. exists y. split; [by apply Hfw|done].
Qed.

Lemma bind_raise_inv {A B} (m : M Svc A) (f : A → M Svc B) s e s' :
  (m ≫= f) s = (Raise e, s') → m s = (Raise e, s') ∨ ∃ a s1, m s = (Ret a, s1) ∧ f a s1 = (Raise e, s').
Proof. unfold mbind, M_bind. destruct (m s) as [[a|e1] s1]; [by eauto|]. intros [= -> ->]. by left. Qed.

(** [console_authenticate] once the password is verified. *)
Definition open_session operator credential now ip ua : M Svc (option ConsoleSession) :=
  token ← draw_session_token;
  let h := hash_token sha256 token in
  let expires_at := now + seconds (cf_ttl_seconds config) in
  d ← get_db;
  check (negb (existsb (λ z, bool_decide (zw_token_hash z = h)) (dict_values (cd_sessions d))))
    (IntegrityError "uq_console_sessions_token_hash") ;;
  let session := mkSessionRow (cd_next_session d) (ow_id operator) h now expires_at None None ip ua now in
  let operator := operator <| ow_last_login_at := Some now |> <| ow_updated_at := now |> in
  set_credential (credential <| cw_failed_login_count := 0 |> <| cw_locked_until := None |>) ;;
  set_operator operator ;;
  modify_db (λ d, d <| cd_sessions := dict_set (zw_id session) session (cd_sessions d) |>
                    <| cd_next_session := cd_next_session d + 1 |>) ;;
  d ← get_db;
  cache_set h (_session_cache_payload session operator d) (ttl_of expires_at now) ;;
  mret (Some (mkConsoleSession token (ow_id operator) now now expires_at)).

Lemma sess_open_session o c now ip ua : respects sess (open_session o c now ip ua).
Proof.
  intros s. unfold open_session. apply (respects_bind_at sess); [by apply soft_sess, quiet_soft|]. intros token s1 [= <- <-].
  cbv zeta. soft_bind. intros d s2 [= <- <-].
  apply (respects_bind_at sess); [apply (respects_check sess)|]. intros [] s2.
  destruct (existsb _ _) eqn:Ee; [done|]. intros [= <-].
  apply (respects_bind_at sess); [by apply soft_sess, quiet_soft|]. intros [] s3 [= <-].
  apply (respects_bind_at sess); [apply soft_sess, quiet_soft, quiet_set_operator|]. intros [] s4 [= <-].
  apply (respects_bind_at sess).
  { match goal with |- context [dict_set (zw_id ?z) _ _] => by apply (sess_insert z) end. }
  intros [] s5 [= <-]. soft_bind. intros d s6 [= _ <-].
  apply (respects_bind_at sess); [|intros [] s7 _; apply sess_preorder].
  apply sess_cache_set. intros _. eexists. split; [apply dict_get_set_eq|]. done.
Qed.

Lemma open_session_raise o c now ip ua s e s' : open_session o c now ip ua s = (Raise e, s') → soft s s'.
Proof.
  unfold open_session. intros [E|(token&s1&E1&E)]%bind_raise_inv; [done|]. injection E1 as <- <-.
  apply bind_raise_inv in E as [E|(d&s2&[= <- <-]&E)]; [done|].
  apply bind_raise_inv in E as [E|([]&s2&_&E)].
  - destruct (existsb _ _); [|done]. injection E as <- <-. by apply quiet_soft.
  - exfalso. revert E. cbv zeta. match goal with |- ?m s2 = _ → _ => assert (total m) as Ht end.
    { unfold set_credential, set_operator. by total_tac. }
    destruct (Ht s2) as (a&s3&->). done.
Qed.

Lemma sess_login e p ip ua : respects sess (console_authenticate (C:=C) pbkdf2 sha256 config e p ip ua).
Proof.
  apply (respects_bind sess); [apply sess_of_soft, soft_of_quiet, quiet_bootstrap|]. intros _ s.
  match goal with |- sess s (transaction ?m s).2 => assert (soft s (m s).2 ∨
    ∃ o c now s1, quiet s s1 ∧ m s = open_session o c now ip ua s1) as [H|(o&c&now&s1&Q&E)];
    [remember (m s) as r eqn:Er; unfold mbind at 1, M_bind at 1 in Er|..] end.
  - simpl in Er. destruct (_operator_by_email e (co_db s)) as [o|]; [|left; subst; apply soft_preorder].
    destruct (negb _); [left; subst; apply soft_preorder|].
    destruct (dict_get _ _) as [c|]; [|left; subst; apply soft_preorder].
    unfold mbind at 1, M_bind at 1 in Er. simpl in Er.
    destruct (match cw_locked_until c with Some _ => _ | None => _ end); [left; subst; by apply quiet_soft|].
    destruct (verify_password _ _ _); cbn [negb] in Er.
    + right. exists o, c, (co_now s (co_ticks s)), (s <| co_ticks := S (co_ticks s) |>). by split.
    + left. subst. by apply quiet_soft.
  - apply sess_transaction; [by apply soft_sess|]. intros e1 s1 E. by rewrite E in H.
  - apply sess_transaction; rewrite E.
    + etrans; [by apply soft_sess, quiet_soft|apply sess_open_session].
    + intros e1 s2 E2. etrans; [by apply quiet_soft|by eapply open_session_raise].
Qed.

Lemma sess_serve r : respects sess (serve (C:=C) pbkdf2 sha256 config r).
Proof.
  destruct r; simpl; try (apply (respects_bind sess); [|intros _; apply (respects_ret sess)]);
    first [apply sess_login|apply sess_who_am_i|apply sess_of_soft;
      first [apply soft_logout|apply soft_update|apply soft_change_password|apply soft_revoke_sessions|apply soft_delete
        |apply soft_of_quiet; first [apply quiet_list_operators|apply quiet_create|apply quiet_list_sessions|apply quiet_delete_role
          |apply quiet_update_role|apply quiet_apply_matrix]]].
Qed.

Lemma sess_serve_all rs s : sess s (serve_all (C:=C) pbkdf2 sha256 config rs s).
Proof.
  revert s. induction rs as [|r rs IH]; intros s; [apply sess_preorder|]. simpl. etrans; [apply sess_serve|apply IH].
Qed.

(** ** Who a token stands for *)

(** The session and the operator that a token gives access as, at a reading of the clock. *)
Definition stands_for token s (op : ConsoleOperator) (read : nat) : Prop :=
  ∃ z o, session_by_hash (hash_token sha256 token) (co_db s) = Some z ∧ zw_revoked_at z = None ∧
    co_now s read < zw_expires_at z ∧ dict_get (zw_operator_id z) (cd_operators (co_db s)) = Some o ∧
    ow_status o = "active" ∧ ow_is_deleted o = false ∧ cp_id op = zw_operator_id z ∧
    cp_permissions op = _operator_permissions (zw_operator_id z) (co_db s).

Lemma session_active_true z s s1 : _session_is_active (C:=C) z s = (Ret true, s1) →
  ∃ y, z = Some y ∧ zw_revoked_at y = None ∧ co_now s (co_ticks s) < zw_expires_at y ∧ co_db s1 = co_db s.
Proof.
  destruct (session_active_run z s) as (s1'&->&D&_). intros [= E ->]. destruct z as [y|]; [|done]. exists y.
  apply andb_true_iff in E as [E1%negb_true_iff E2%negb_true_iff]. apply bool_decide_eq_false in E1.
  apply Z.leb_gt in E2. split_and!; [done| |done|done]. destruct (zw_revoked_at y); [|done]. by destruct E1.
Qed.

Lemma transaction_ret_inv {A} (m : M Svc A) s a s' : transaction m s = (Ret a, s') → m s = (Ret a, s').
Proof. unfold transaction. by destruct (m s) as [[?|?] ?]. Qed.

(** The state in which the session is looked up has the same database and clock. *)
Lemma stands_for_same token s s1 op k : co_db s1 = co_db s → co_now s1 = co_now s →
  stands_for token s1 op k → stands_for token s op k.
Proof. intros E1 E2. unfold stands_for. by rewrite E1, E2. Qed.

(** Both paths end alike. *)
Lemma found_session token z o s (now : Z) (op : ConsoleOperator) k :
  operators_keyed (co_db s) →
  session_by_hash (hash_token sha256 token) (co_db s) = Some z → zw_revoked_at z = None → co_now s k < zw_expires_at z →
  active_operator (dict_get (zw_operator_id z) (cd_operators (co_db s))) = Some o →
  op = _hydrate_operator o ((co_db s) <| cd_sessions :=
    dict_set (zw_id z) (z <| zw_last_used_at := now |>) (cd_sessions (co_db s)) |>) → stands_for token s op k.
Proof.
  intros Ho Hz Hr He (Eo&Hs&Hd)%active_operator_inv ->. exists z, o. pose proof (Ho _ _ Eo) as Hid.
  split_and!; [done..|]. simpl. by rewrite Hid.
Qed.

Lemma from_db_found token s op s' :
  operators_keyed (co_db s) →
  _get_operator_by_session_from_db (hash_token sha256 token) s = (Ret (Some op), s') → stands_for token s op (co_ticks s).
Proof.
  intros Ho E%transaction_ret_inv. apply bind_ret_inv in E as (d&s0&[= <- <-]&E).
  apply bind_ret_inv in E as (a&s1&Ea&E).
  destruct a; [|by destruct (session_by_hash _ _) as [z|]].
  apply session_active_true in Ea as (z&Ez&Hr&He&D1). rewrite Ez in E. cbn [negb] in E.
  destruct (active_operator _) as [o|] eqn:Eo; [|done].
  apply bind_ret_inv in E as (now&s2&[= _ <-]&E). apply bind_ret_inv in E as ([]&s3&[= <-]&E).
  apply bind_ret_inv in E as (d&s4&[= <- <-]&E). apply bind_ret_inv in E as ([]&s5&_&[= <- _]).
  eapply (found_session token z o s now); [done..|]. simpl. by rewrite D1.
Qed.

Lemma token_sound token s op s' : console_inv s → get_operator_by_session sha256 token s = (Ret (Some op), s') →
  ∃ read, (co_ticks s ≤ read)%nat ∧ stands_for token s op read.
Proof.
  intros Hinv Hrun.   unfold get_operator_by_session in Hrun. apply bind_ret_inv in Hrun as (cached&s1&E1&E).
  assert (co_db s1 = co_db s ∧ co_now s1 = co_now s ∧ (co_ticks s ≤ co_ticks s1)%nat ∧
    ∀ p, cached = Some p → sc_entry (hash_token sha256 token) (co_cache s) = Some p) as (D1&N1&T1&Hp).
  { revert E1. unfold cache_get, console_now. m_unfold. simpl.
    pose proof (sc_get_hit (co_now s (co_ticks s)) (hash_token sha256 token) (co_cache s)) as Hh.
    destruct (sc_get _ _ _) as [p c]. intros [= <- <-]. simpl. split_and!; [done..|lia|]. intros q ->. by apply Hh. }
  destruct Hinv as [Hw Ho Hc]. destruct cached as [p|].
  - apply bind_ret_inv in E as (now&s2&[= <- <-]&E).
    destruct (_ <=? _); [by apply bind_ret_inv in E as (?&?&_&?)|].
    apply transaction_ret_inv in E. apply bind_ret_inv in E as (d&s3&[= <- <-]&E).
    apply bind_ret_inv in E as (a&s4&Ea&E). destruct a; [|by destruct (session_by_hash _ _) as [z|]].
    apply session_active_true in Ea as (z&Ez&Hr&He&D4). rewrite Ez in E. cbn [negb] in E.
    destruct (active_operator _) as [o|] eqn:Eo; [|done].
    apply bind_ret_inv in E as (now'&s5&[= _ <-]&E). apply bind_ret_inv in E as ([]&s6&[= <-]&E).
    apply bind_ret_inv in E as (d&s7&[= <- <-]&[= <- _]). exists (S (co_ticks s1)). split; [lia|].
    eapply stands_for_same; [exact D1|exact N1|]. simpl in Ez, Eo, He, D4.
    destruct (Hc _ _ (Hp _ eq_refl)) as (y&Hy&Hyh&Hyo&_).
    assert (y = z) as ->.
    { rewrite D1 in Ez. assert (session_by_hash (hash_token sha256 token) (co_db s) = Some y) as Hy2; [|congruence].
      apply session_by_hash_spec; [done|]. by rewrite (swf_key _ Hw _ _ Hy). }
    apply (found_session token z o s1 now'); [by rewrite D1|done|done|done| |].
    + by rewrite Hyo.
    + simpl. by rewrite D4.
  - exists (co_ticks s1). split; [done|]. eapply stands_for_same; [exact D1|exact N1|].
    eapply from_db_found; [by rewrite D1|done].
Qed.

(** C32: whoever a session token gives access as is the operator of a session stored
    under the hash of that token, neither revoked nor expired at a reading of the clock
    during the request; the operator is active and not deleted, and acts with the
    permissions the database holds, not with those cached at login. *)
Theorem session_sound token s op s' (Hinv : console_inv s)
    (Hrun : get_operator_by_session sha256 token s = (Ret (Some op), s')) :
  ∃ read, (co_ticks s ≤ read)%nat ∧ stands_for token s op read.
Proof. by eapply token_sound. Qed.

(** ** Signing an operator out *)

Definition all_revoked id s : Prop := ∀ k z, dict_get k (cd_sessions (co_db s)) = Some z →
  zw_operator_id z = id → is_Some (zw_revoked_at z).

Lemma all_revoked_quiet id s s' : quiet s s' → all_revoked id s → all_revoked id s'.
Proof. intros (E&_) H k z. rewrite E. apply H. Qed.

Lemma revoke_rows_all id now reason l s s' :
  (∀ k z, dict_get k (cd_sessions (co_db s)) = Some z → zw_operator_id z = id →
    is_Some (zw_revoked_at z) ∨ k ∈ zw_id <$> l) →
  for_each l (λ z, set_session (z <| zw_revoked_at := Some now |> <| zw_revoke_reason := Some reason |>) ;;
    cache_delete (zw_token_hash z)) s = (Ret tt, s') → all_revoked id s'.
Proof.
  revert s. induction l as [|y l IH]; intros s Hl E.
  - injection E as <-. intros k z Hk Hz. destruct (Hl _ _ Hk Hz) as [?|?%not_elem_of_nil]; done.
  - simpl for_each in E. apply bind_ret_inv in E as ([]&s1&[= <-]&E). eapply IH; [|exact E].
    intros k z. simpl. rewrite dict_get_set. case_decide as Hid; [intros [= <-] _; left; by eexists|].
    intros Hk Hz. destruct (Hl _ _ Hk Hz) as [?|[->|?]%elem_of_cons]; [by left|done|by right].
Qed.

Lemma revoke_operator_all id reason s s' :
  console_inv s → _revoke_operator_sessions id reason s = (Ret tt, s') → all_revoked id s'.
Proof.
  intros [Hw _ _] E. unfold _revoke_operator_sessions in E. apply bind_ret_inv in E as (now&s1&[= _ <-]&E).
  apply bind_ret_inv in E as (d&s2&[= <- <-]&E). eapply revoke_rows_all; [|exact E]. intros k z Hk Hz. simpl in *.
  destruct (zw_revoked_at z) as [t|] eqn:Er; [left; by eexists|right].
  apply list_elem_of_fmap. exists z. split; [by rewrite (swf_key _ Hw _ _ Hk)|].
  apply list_elem_of_In, filter_In. split; [apply list_elem_of_In, values_elem; [apply Hw|by eexists]|].
  by rewrite Hz, Z.eqb_refl, Er.
Qed.

(** Requests that end every session of an operator. *)
Inductive signed_out (id : Z) s s' : Prop :=
  | by_new_password current new q :
      change_password pbkdf2 config id current new q s = (Ret true, s') → signed_out id s s'
  | by_administrator reason :
      revoke_operator_sessions pbkdf2 config id reason s = (Ret true, s') → signed_out id s s'
  | by_deletion op :
      delete_operator pbkdf2 config id s = (Ret (Some op), s') → signed_out id s s'
  | by_disabling patch status op :
      pt_status patch = Some status → status ≠ "active" →
      update_operator pbkdf2 config id patch s = (Ret (Some op), s') → signed_out id s s'.

Lemma inv_of_quiet {A} (m : M Svc A) s a s' : respects quiet m → m s = (Ret a, s') → console_inv s → console_inv s'.
Proof. intros H E Hi. specialize (H s). rewrite E in H. apply quiet_soft in H as [H _]. by apply H. Qed.
Lemma all_revoked_run {A} id (m : M Svc A) s a s' :
  respects quiet m → m s = (Ret a, s') → all_revoked id s → all_revoked id s'.
Proof. intros H E. specialize (H s). rewrite E in H. by apply all_revoked_quiet. Qed.

Lemma signed_out_all id s s' : console_inv s → signed_out id s s' → all_revoked id s'.
Proof.
  intros Hi [c n q E|r E|op E|p st op Hst Hne E]; apply bind_ret_inv in E as (b&s1&Eb&E);
    pose proof (inv_of_quiet _ _ _ _ quiet_bootstrap Eb Hi) as Hi1; apply transaction_ret_inv in E;
    apply bind_ret_inv in E as (d&s2&[= <- <-]&E).
  - destruct (live_operator id _); [|done]. destruct (dict_get id _) as [cr|]; [|done].
    destruct (_ && _); [done|]. apply bind_ret_inv in E as (now&s2&E2&E).
    apply bind_ret_inv in E as (h&s3&E3&E). apply bind_ret_inv in E as ([]&s4&E4&E).
    apply bind_ret_inv in E as ([]&s5&E5&E). apply bind_ret_inv in E as ([]&s6&E6&[= <-]).
    eapply revoke_operator_all; [|exact E6]. unfold set_credential in E4.
    eapply inv_of_quiet, inv_of_quiet, inv_of_quiet, inv_of_quiet; [|exact E5| |exact E4| |exact E3| |exact E2|done];
      by quiet_tac.
  - destruct (live_operator id _); [|done]. apply bind_ret_inv in E as ([]&s2&E2&E).
    eapply all_revoked_run; [|exact E|by eapply revoke_operator_all]. by quiet_tac.
  - destruct (live_operator id _); [|done]. apply bind_ret_inv in E as (now&s2&E2&E).
    apply bind_ret_inv in E as ([]&s3&E3&E). apply bind_ret_inv in E as ([]&s4&E4&E).
    eapply all_revoked_run; [|exact E|eapply revoke_operator_all; [|exact E4]]; [unfold hydrated; by quiet_tac|].
    eapply inv_of_quiet, inv_of_quiet; [|exact E3| |exact E2|done]; by quiet_tac.
  - destruct (live_operator id _); [|done]. apply bind_ret_inv in E as ([]&s2&E2&E).
    apply bind_ret_inv in E as ([]&s3&E3&E). rewrite Hst in E3. simpl in E3. apply bind_ret_inv in E3 as ([]&s4&E4&E3).
    rewrite bool_decide_false in E3 by done.
    eapply all_revoked_run; [|exact E|eapply revoke_operator_all; [|exact E3]].
    + unfold if_given, hydrated. by quiet_tac.
    + eapply inv_of_quiet, inv_of_quiet; [|exact E4| |exact E2|done]; unfold if_given; by quiet_tac.
Qed.

Lemma signed_out_soft id s s' : signed_out id s s' → soft s s'.
Proof.
  intros [c n q E|r E|op E|p st op _ _ E];
    [pose proof (soft_change_password id c n q s) as H|pose proof (soft_revoke_sessions id r s) as H
    |pose proof (soft_delete id s) as H|pose proof (soft_update id p s) as H]; by rewrite E in H.
Qed.

(** C33: once an operator is given a new password, is disabled or deleted, or is signed
    out by an administrator, none of the tokens handed out before gives access again,
    whatever requests are served afterwards and whatever the cache holds. *)
Theorem signed_out_stays_out id s s' token z (Hinv : console_inv s) (Hout : signed_out id s s')
    (Hz : session_by_hash (hash_token sha256 token) (co_db s) = Some z) (Hid : zw_operator_id z = id) rs op s2 :
  get_operator_by_session sha256 token (serve_all pbkdf2 sha256 config rs s') ≠ (Ret (Some op), s2).
Proof.
  intros E. pose proof (signed_out_all _ _ _ Hinv Hout) as Ha. apply signed_out_soft in Hout as [Hs _].
  destruct (Hs Hinv) as [Hi1 K1]. destruct (sess_serve_all rs s' Hi1) as [Hi2 K2].
  apply session_by_hash_spec in Hz as [Hz Hh]; [|apply Hinv].
  destruct (K1 _ _ Hz) as (z1&Hz1&S1). destruct (K2 _ _ Hz1) as (z2&Hz2&S2).
  destruct (token_sound _ _ _ _ Hi2 E) as (k&_&y&o&Hy&Hr&_).
  apply session_by_hash_spec in Hy as [Hy Hyh]; [|apply Hi2].
  destruct S1 as (H1&O1&_&_), S2 as (H2&_&_&R2).
  assert (zw_id y = zw_id z) as Hk by (eapply swf_unique; [apply Hi2|exact Hy|exact Hz2|congruence]).
  rewrite Hk in Hy. simplify_eq. destruct R2 as [? R2]; [by eapply Ha|congruence].
Qed.
End sessions.

(** * Deleting the bootstrap operator *)

(** Operators are stored under their ids, each with an email address of its own. *)
Record operators_wf (d : ConsoleDb) : Prop := {
  owf_nodup : NoDup (dict_keys (cd_operators d));
  owf_key : operators_keyed d;
  owf_fresh k o : dict_get k (cd_operators d) = Some o → k < cd_next_operator d;
  owf_email k k' o o' : dict_get k (cd_operators d) = Some o → dict_get k' (cd_operators d) = Some o' →
    ow_email o = ow_email o' → k = k'
}.

(** The requests that begin with [ensure_bootstrap_operator]. *)
Definition administrative (r : Request) : bool :=
  match r with
  | Logout _ _ | WhoAmI _ | DeleteRole _ | UpdateRole _ _ _ | ApplyMatrix _ _ _ _ => false
  | _ => true
  end.

Section lockout.
Context {C : Type} `{!SessionCache C}.
Context (pbkdf2 : string → string → Z → string) (sha256 : string → string) (config : ConsoleConfig).
Abbreviation Svc := (Console C).
Implicit Types s : Svc.

Definition locked s : Prop :=
  _operator_by_email (cf_admin_email config) (co_db s) = None ∧
  existsb (λ o, bool_decide (ow_email o = cf_admin_email config)) (dict_values (cd_operators (co_db s))) = true.

Definition same_operators s s' : Prop := cd_operators (co_db s') = cd_operators (co_db s).
#[export] Instance same_operators_preorder : PreOrder same_operators.
Proof. split; unfold same_operators; congruence. Qed.

Lemma same_aside {A} (m : M Svc A) : respects aside m → respects same_operators m.
Proof. apply respects_weaken. by intros s s' [[= ? _ _ _ _ _ _] _]. Qed.
Lemma same_transaction {A} (m : M Svc A) : respects same_operators m → respects same_operators (transaction m).
Proof. intros H s. unfold transaction. specialize (H s). by destruct (m s) as [[?|?] ?]. Qed.
Lemma same_catch {A} (m : M Svc A) : respects same_operators m → respects same_operators (catch m).
Proof. intros H s. unfold catch. specialize (H s). by destruct (m s). Qed.
Lemma same_cache_get h : respects same_operators (cache_get (C:=C) h).
Proof. intros s. unfold cache_get, console_now. m_unfold. simpl. by destruct (sc_get _ h _). Qed.

Ltac same_step := first
  [apply same_aside; first [apply aside_now|apply aside_get_db|apply aside_link|apply aside_ensure_permission]
  |apply same_transaction|apply same_catch|apply same_cache_get
  |match goal with |- respects _ (modify_db _) => intros ?; done | |- respects _ (cache_delete _) => intros ?; done
     | |- respects _ (cache_set _ _ _) => intros ?; done | |- respects _ (set_session _) => intros ?; done end
  |apply (respects_ret same_operators)|apply (respects_raise same_operators)|apply (respects_check same_operators)
  |apply (respects_of_option same_operators)|apply (respects_bind same_operators)
  |apply (respects_for_each same_operators)|apply (respects_if same_operators)
  |apply (respects_match_option same_operators)
  |progress intros|match goal with |- respects _ (match ?x with _ => _ end) => destruct x end].
Ltac same_tac := repeat same_step.

Lemma same_revoke id reason : respects same_operators (_revoke_operator_sessions (C:=C) id reason).
Proof. unfold _revoke_operator_sessions. by same_tac. Qed.

Lemma same_serve r : administrative r = false → respects same_operators (serve (C:=C) pbkdf2 sha256 config r).
Proof.
  destruct r; intros Hr; try done; simpl; try (apply (respects_bind same_operators); [|by same_tac]).
  - unfold revoke_session. by same_tac.
  - unfold get_operator_by_session, _get_operator_by_session_from_db, revoke_session, _session_is_active. cbv zeta. by same_tac.
  - unfold delete_console_role. by same_tac.
  - unfold update_console_role, if_given. by same_tac.
  - unfold apply_role_matrix. by same_tac.
Qed.

Lemma locked_refuses r s : locked s → administrative r = true →
  ∃ s', serve pbkdf2 sha256 config r s = (Raise (IntegrityError "uq_console_operators_email"), s') ∧ co_db s' = co_db s.
Proof.
  intros [Hn He] Hr. destruct (bootstrap_refused pbkdf2 config s Hn He) as (s'&E&D). exists s'. split; [|done].
  destruct r; try done; simpl; unfold console_authenticate, list_operators, create_operator, update_operator,
    change_password, revoke_operator_sessions, list_operator_sessions, delete_operator;
    unfold mbind at 1, M_bind at 1; unfold mbind at 1, M_bind at 1; by rewrite E.
Qed.

Lemma locked_serve r : respects (keeps locked) (serve (C:=C) pbkdf2 sha256 config r).
Proof.
  intros s Hl. destruct (administrative r) eqn:Hr.
  - destruct (locked_refuses r s Hl Hr) as (s'&->&D). unfold locked in *. simpl. by rewrite D.
  - unfold locked, _operator_by_email in *. by rewrite (same_serve r Hr s).
Qed.

Lemma owf_aside s s' : aside s s' → operators_wf (co_db s) → operators_wf (co_db s').
Proof.
  intros [[= E1 E2 _ _ _ _ _] _] [H1 H2 H3 H4]. split; unfold operators_keyed; rewrite ?E1, ?E2; done.
Qed.

Lemma owf_insert e n p : respects (keeps (λ s, operators_wf (co_db s))) (insert_operator (C:=C) pbkdf2 e n p).
Proof.
  intros s Hw. unfold insert_operator. unfold mbind at 1, M_bind at 1. simpl. unfold mbind at 1, M_bind at 1. simpl.
  unfold mbind at 1, M_bind at 1. destruct (existsb _ _) eqn:Ee; [done|]. destruct Hw as [H1 H2 H3 H4].
  assert (∀ k o, dict_get k (cd_operators (co_db s)) = Some o → ow_email o ≠ e) as Hne.
  { intros k o Ho <-. apply not_true_iff_false in Ee. apply Ee, existsb_exists. exists o.
    split; [apply list_elem_of_In, values_elem; [done|by eexists]|by apply bool_decide_eq_true]. }
  split; simpl.
  - by apply dict_set_nodup.
  - intros k o. simpl. rewrite dict_get_set. case_decide; [|apply H2]. by intros [= <-].
  - intros k o. rewrite dict_get_set. case_decide; [subst; lia|]. intros Hk%H3. lia.
  - intros k k' o o'. rewrite !dict_get_set. repeat case_decide; [congruence| | |apply H4].
    + intros [= <-] Ho' E. simpl in E. by destruct (Hne _ _ Ho').
    + intros Ho [= <-] E. simpl in E. by destruct (Hne _ _ Ho).
Qed.

Lemma owf_bootstrap : respects (keeps (λ s, operators_wf (co_db s))) (ensure_bootstrap_operator (C:=C) pbkdf2 config).
Proof.
  intros s Hw. destruct (bootstrap_prefix pbkdf2 config s) as (s1&scope&A&->). apply owf_aside in A; [|done].
  destruct (_operator_by_email _ _) as [o|].
  - pose proof (owf_aside _ _ (aside_bootstrap_keep o scope s1) A) as H. by destruct (bootstrap_keep o scope s1) as [[?|?] ?].
  - assert (respects (keeps (λ s, operators_wf (co_db s))) (bootstrap_insert (C:=C) pbkdf2 config scope)) as H.
    { apply (respects_bind (keeps _)); [apply owf_insert|]. intros o.
      assert (∀ A (m : M Svc A), respects aside m → respects (keeps (λ s, operators_wf (co_db s))) m) as Ha.
      { intros A' m Hm s2 Hs. eapply owf_aside; [apply Hm|done]. }
      apply (respects_bind (keeps _)); [apply Ha, aside_replace_roles|]. intros _.
      apply (respects_bind (keeps _)); [apply Ha, aside_replace_permissions|]. intros _.
      apply (respects_bind (keeps _)); [apply Ha, aside_replace_scopes|]. intros _. apply Ha.
      apply (respects_bind aside); [apply aside_get_db|]. intros d. apply (respects_ret aside). }
    pose proof (H s1 A) as Hi. by destruct (bootstrap_insert _ _ scope s1) as [[?|?] ?].
Qed.

Lemma deletion_locks id s op s' : operators_wf (co_db s) →
  delete_operator pbkdf2 config id s = (Ret (Some op), s') → cp_email op = cf_admin_email config → locked s'.
Proof.
  intros Hw E He. apply bind_ret_inv in E as (b&s1&Eb&E). pose proof (owf_bootstrap s Hw) as Hw1. rewrite Eb in Hw1.
  apply transaction_ret_inv in E. apply bind_ret_inv in E as (d&s2&[= <- <-]&E).
  destruct (live_operator id (co_db s1)) as [o|] eqn:Eo; [|done]. unfold live_operator in Eo.
  destruct (dict_get id _) as [o'|] eqn:Ho; [|done]. simpl in Eo. destruct (ow_is_deleted o'); [done|]. injection Eo as ->.
  apply bind_ret_inv in E as (now&s2&[= _ <-]&E). apply bind_ret_inv in E as ([]&s3&[= <-]&E).
  apply bind_ret_inv in E as ([]&s4&E4&E). 
  match type of E4 with _ ?st = _ => pose proof (same_revoke id "operator_deleted" st) as S4 end.
  rewrite E4 in S4. unfold same_operators in S4. simpl in S4. rewrite Ho in S4.
  apply bind_ret_inv in E as (d&s5&[= <- <-]&E). injection E as E <-. rewrite S4, dict_get_set_eq in E. injection E as <-.
  simpl in He. destruct Hw1 as [W1 W2 W3 W4]. simpl in *.
  unfold locked, _operator_by_email. rewrite S4. split.
  - destruct (List.find _ _) as [x|] eqn:Ex; [|done]. exfalso. apply find_some in Ex as [Hin Hx].
    apply andb_true_iff in Hx as [Hx1%bool_decide_eq_true Hx2%negb_true_iff]. apply list_elem_of_In in Hin.
    apply values_elem in Hin as [k Hk]; [|by apply dict_set_nodup]. rewrite dict_get_set in Hk.
    case_decide as Hd; [injection Hk as <-; done|]. apply Hd. eapply W4; [exact Ho|exact Hk|congruence].
  - apply existsb_exists. eexists. split; [apply list_elem_of_In, values_elem; [by apply dict_set_nodup|]|].
    + exists id. apply dict_get_set_eq.
    + by apply bool_decide_eq_true.
Qed.

(** Deleting the bootstrap operator, which nothing prevents, makes the console
    unusable for good: its address stays taken, and every later login and every request
    of operator administration raises an [IntegrityError], whatever happens in between. *)
Theorem bootstrap_deletion_locks_console id s op s' (Hwf : operators_wf (co_db s))
    (Hdel : delete_operator pbkdf2 config id s = (Ret (Some op), s')) (Hop : cp_email op = cf_admin_email config)
    rs r (Hr : administrative r = true) :
  ∃ s'', serve pbkdf2 sha256 config r (serve_all pbkdf2 sha256 config rs s') =
    (Raise (IntegrityError "uq_console_operators_email"), s'') ∧
    co_db s'' = co_db (serve_all pbkdf2 sha256 config rs s').
Proof.
  apply locked_refuses; [|done]. apply serve_all_keeps; [intros q; apply locked_serve|]. by eapply deletion_locks.
Qed.
End lockout.

(** * Roles *)

Section roles.
Context {C : Type} `{!SessionCache C}.
Abbreviation Svc := (Console C).

(** Deleting a role takes no permission from anybody: the role is marked deleted
    and no longer shown, and every operator who has it keeps every permission it links. *)
Theorem deleted_role_still_grants role (s : Svc) s' (Hdel : delete_console_role role s = (Ret (Item role), s')) :
  (∃ r, dict_get role (cd_roles (co_db s')) = Some r ∧ active_role r = false) ∧
  ∀ operator, _operator_permissions operator (co_db s') = _operator_permissions operator (co_db s).
Proof.
  apply transaction_ret_inv in Hdel. apply bind_ret_inv in Hdel as (d&s1&[= <- <-]&E).
  destruct (dict_get role _) as [r|] eqn:Er; [|done]. destruct (lw_is_deleted r) eqn:Ed; [done|].
  apply bind_ret_inv in E as (now&s2&[= <- <-]&E). apply bind_ret_inv in E as ([]&s3&[= <-]&[= <-]).
  split; [|done]. eexists. split; [apply dict_get_set_eq|done].
Qed.
End roles.

(** * A console *)

Definition demo_console_config : ConsoleConfig :=
  mkConsoleConfig "admin@example.com" "hunter2" "Admin" "default-tenant" "Default Tenant" "default-project"
    "Default Project" "local" 28800.
Definition demo_pbkdf2 (password salt : string) (n : Z) : string := salt +:+ password.
Definition demo_sha256 (token : string) : string := "h:" +:+ token.
Definition demo_empty : Console MemorySessionCache :=
  mkConsole empty_console_db [] (λ n, Z.of_nat n * 1000000) 0 (λ n, pretty (Z.of_nat n)) 0 (λ n, pretty (Z.of_nat n)) 0.
Abbreviation demo_serve := (serve_all demo_pbkdf2 demo_sha256 demo_console_config).

(** The administrator logs in and adds an identity administrator, who logs in. *)
Definition demo_console : Console MemorySessionCache :=
  demo_serve [Login "admin@example.com" "hunter2" None None;
    CreateOperator "ida@example.com" "Ida" "opensesame" ["identity_admin"] {["agent:read"]} [];
    Login "ida@example.com" "opensesame" None None] demo_empty.

(** What role administration takes from a built-in role, the next request gives
    back: an administrator removes every permission of [identity_admin], and once
    anybody has listed the operators the role has them all again. *)
Theorem role_change_undone :
  let s1 := (apply_role_matrix 3 [] (Some 1) (Some "least privilege") demo_console).2 in
  let s2 := (list_operators demo_pbkdf2 demo_console_config s1).2 in
  (∃ p, (apply_role_matrix 3 [] (Some 1) (Some "least privilege") demo_console).1 = Ret (Item p)) ∧
  (lw_name <$> dict_get 3 (cd_roles (co_db demo_console))) = Some "identity_admin" ∧
  _role_permission_codes 3 (co_db s1) = ∅ ∧
  _operator_permissions 2 (co_db s1) = {["agent:read"]} ∧
  _operator_permissions 2 (co_db s2) = _operator_permissions 2 (co_db demo_console) ∧
  "identity:role:write" ∈ _operator_permissions 2 (co_db s2).
Proof.
  cbv zeta. split; [|split_and!; refine (bool_decide_unpack _ _); vm_compute; exact I].
  assert (match (apply_role_matrix 3 [] (Some 1) (Some "least privilege") demo_console).1 with
    | Ret (Item _) => true | _ => false end = true) as H by (vm_compute; reflexivity).
  destruct (_.1) as [[p|]|]; try done. by exists p.
Qed.

(** ** The theorems on it *)

Lemma demo_console_inv : console_inv demo_console.
Proof.
  apply (sess_serve_all demo_pbkdf2 demo_sha256 demo_console_config). split; [|done..].
  split; [constructor|done..].
Qed.

Lemma deleted_role_still_grants_witness :
  let s' := (delete_console_role 3 demo_console).2 in
  (∃ r, dict_get 3 (cd_roles (co_db s')) = Some r ∧ active_role r = false) ∧
  ∀ operator, _operator_permissions operator (co_db s') = _operator_permissions operator (co_db demo_console).
Proof.
  apply (deleted_role_still_grants 3 demo_console). vm_compute. reflexivity.
Defined.

Definition demo_who := get_operator_by_session demo_sha256 "sess_1" demo_console.
Definition demo_ida : ConsoleOperator :=
  match demo_who.1 with Ret (Some op) => op | _ => mkConsoleOperator 0 "" "" [] ∅ [] "" 0 0 None None end.

Lemma session_sound_witness :
  cp_email demo_ida = "ida@example.com" ∧
  ∃ read, (co_ticks demo_console ≤ read)%nat ∧ stands_for demo_sha256 "sess_1" demo_console demo_ida read.
Proof.
  split; [vm_compute; reflexivity|].
  apply (session_sound demo_sha256 "sess_1" demo_console demo_ida demo_who.2 demo_console_inv). vm_compute. reflexivity.
Defined.

Definition demo_signed_out :=
  (revoke_operator_sessions demo_pbkdf2 demo_console_config 2 "admin_revoked" demo_console).2.
Definition demo_session : SessionRow :=
  default (mkSessionRow 0 0 "" 0 0 None None None None 0) (session_by_hash "h:sess_1" (co_db demo_console)).

Lemma signed_out_stays_out_witness :
  get_operator_by_session demo_sha256 "sess_1"
    (demo_serve [Login "ida@example.com" "opensesame" None None] demo_signed_out) ≠ (Ret (Some demo_ida), demo_console).
Proof.
  apply (signed_out_stays_out demo_pbkdf2 demo_sha256 demo_console_config 2 demo_console demo_signed_out "sess_1" demo_session
    demo_console_inv).
  - apply (by_administrator _ _ _ _ _ "admin_revoked"). vm_compute. reflexivity.
  - vm_compute. reflexivity.
  - vm_compute. reflexivity.
Defined.

Definition demo_deleted := delete_operator demo_pbkdf2 demo_console_config 1 demo_empty.
Definition demo_admin : ConsoleOperator :=
  match demo_deleted.1 with Ret (Some op) => op | _ => mkConsoleOperator 0 "" "" [] ∅ [] "" 0 0 None None end.

Lemma bootstrap_deletion_locks_console_witness :
  ∃ s'', serve demo_pbkdf2 demo_sha256 demo_console_config (Login "admin@example.com" "hunter2" None None)
    (demo_serve [ListOperators] demo_deleted.2) = (Raise (IntegrityError "uq_console_operators_email"), s'') ∧
    co_db s'' = co_db (demo_serve [ListOperators] demo_deleted.2).
Proof.
  apply (bootstrap_deletion_locks_console demo_pbkdf2 demo_sha256 demo_console_config 1 demo_empty demo_admin demo_deleted.2).
  - split; [constructor|done..].
  - vm_compute. reflexivity.
  - vm_compute. reflexivity.
  - reflexivity.
Defined.
