(* ===== verification/ConsoleApi.v ===== *)
(** The HTTP side of the console: who a request comes from
    ([api/dependencies.py]) and the handlers of [api/auth.py] and of the session
    administration in [api/admin/identity_workflows.py].

    The state is that of the console service and that of the API key authenticator. A
    reply carries the item or the error code; bodies are checked before a handler runs,
    after the caller was looked up. *)

From stdpp Require Import gmap.
From Stdlib Require Import Ascii.
From S2P Require Import Prelude Values Json Tables SqlNative Policy ApiKeys Console.

(** * Requests *)

(** The headers and the cookie a handler is given. *)
Record Headers := mkHeaders {
  hd_authorization : option string;
  hd_console_session : option string;
  hd_tenant_id : option Z;
  hd_project_id : option Z;
  hd_environment : option string
}.

(** [text.removeprefix(prefix)] *)
Definition removeprefix (p s : string) : string := default s (strip_prefix p s).
Definition strip_string (s : string) : string := of_chars (strip (to_chars s)).

(** [sub in text] *)
Fixpoint contains (sub text : string) : bool :=
  starts_with sub text || match text with String _ text' => contains sub text' | EmptyString => false end.

(** [DIMOORUN_DEV_API_KEY] and [DIMOORUN_RUNTIME_MODE] *)
Record ApiConfig := mkApiConfig {
  ag_dev_key : option string;
  ag_runtime_mode : string
}.

Record Api (C R : Type) := mkApi {
  ap_console : Console C;
  ap_auth : APIKeyAuthenticator R
}.
Arguments mkApi {C R}.
Arguments ap_console {C R}.
Arguments ap_auth {C R}.
#[export] Instance Api_eta {C R} : Eta (Api C R) := λ s, mkApi (ap_console s) (ap_auth s).

(** ** Bodies *)

Record LoginRequest := mkLoginRequest { lr_email : string; lr_password : string }.
Record ChangePasswordRequest := mkChangePassword { cq_current_password : string; cq_new_password : string }.
Record OperatorCreateRequest := mkOperatorCreate {
  oc_email : string;
  oc_name : string;
  oc_password : string;
  oc_roles : list string;
  oc_permissions : list string;
  oc_allowed_scopes : list ScopeArg
}.
Record OperatorUpdateRequest := mkOperatorUpdate {
  ou_name : option string;
  ou_roles : option (list string);
  ou_permissions : option (list string);
  ou_allowed_scopes : option (list ScopeArg);
  ou_status : option string
}.

(** [Field(min_length=n)] *)
Definition min_length (n : nat) (s : string) : bool := (n <=? String.length s)%nat.
Definition valid_login (r : LoginRequest) : bool := min_length 3 (lr_email r) && min_length 1 (lr_password r).
Definition valid_change (r : ChangePasswordRequest) : bool :=
  min_length 1 (cq_current_password r) && min_length 8 (cq_new_password r).
Definition valid_create (r : OperatorCreateRequest) : bool :=
  min_length 3 (oc_email r) && min_length 1 (oc_name r) && min_length 8 (oc_password r).

(** * Permissions *)

Definition _required_console_permission (method path : string) : option string :=
  if bool_decide (method ∈ ["GET"; "HEAD"; "OPTIONS"]) then None
  else if contains "/v1/identity/operators" path then Some "identity:operator:write"
  else if contains "/v1/identity/roles" path then Some "identity:role:write"
  else if contains "/v1/identity/permissions" path then Some "identity:permission:write"
  else if contains "/v1/identity/tenants" path || contains "/v1/identity/projects" path
          || contains "/v1/identity/environments" path then Some "identity:scope:write"
  else if contains "/v1/identity/service-accounts" path then
    if contains "/api-keys" path then Some "identity:api-key:write" else Some "identity:service-account:write"
  else Some "admin:write".

Definition has_permission (actor : AuthenticatedActor) (permission : string) : bool :=
  bool_decide ("*" ∈ ac_scopes actor) || bool_decide (permission ∈ ac_scopes actor).

Section api.
Context {C R : Type} `{!SessionCache C, !ServiceAccounts R}.
Context (pbkdf2 : string → string → Z → string) (sha256 : string → string).
Context (config : ConsoleConfig) (env : ApiConfig).
Abbreviation Srv := (Api C R).
Implicit Types s : Srv.

Definition in_console {A} (m : M (Console C) A) : M Srv A := zoom ap_console (λ c s, s <| ap_console := c |>) m.
Definition in_auth {A} (m : M (APIKeyAuthenticator R) A) : M Srv A := zoom ap_auth (λ a s, s <| ap_auth := a |>) m.

(** [if dev_key and ... and plain_key == dev_key] *)
Definition is_dev_key (plain_key : string) : bool :=
  match ag_dev_key env with
  | Some k => negb (String.eqb k "") && String.eqb plain_key k
  | None => false
  end.

(** A token that names no session is tried as an API key. *)
Definition authenticate_api_key (h : Headers) (tenant : Z) (required_scope : string) : M Srv (reply AuthenticatedActor) :=
  let authorization := match hd_authorization h, hd_console_session h with
    | None, Some c => if String.eqb c "" then None else Some ("Bearer " +:+ strip_string c)
    | a, _ => a
    end in
  match authorization with
  | None => mret (Refused 401 "api_key_invalid")
  | Some a =>
      if negb (starts_with "Bearer " a) then mret (Refused 401 "api_key_invalid")
      else
        let plain_key := strip_string (removeprefix "Bearer " a) in
        operator ← (if starts_with "sess_" plain_key then in_console (get_operator_by_session sha256 plain_key)
                    else mret None);
        match operator with
        | Some operator =>
            d ← in_console get_db;
            if negb (can_access_scope operator tenant (hd_project_id h) (hd_environment h) d)
            then mret (Refused 403 "scope_not_allowed")
            else mret (Item (mkActor tenant (hd_project_id h) "operator" (pretty (cp_id operator))
                   (cp_permissions operator) None))
        | None =>
            if is_dev_key plain_key then
              if String.eqb (ag_runtime_mode env) "dev"
              then mret (Item (mkActor tenant (hd_project_id h) "service_account" "dev_console" {["*"]} None))
              else mret (Refused 401 "api_key_invalid")
            else
              r ← catch (in_auth (authenticate sha256 plain_key tenant (hd_project_id h) required_scope));
              match r with
              | Ret actor => mret (Item actor)
              | Raise (APIKeyScopeError _) => mret (Refused 403 "api_key_scope_denied")
              | Raise (APIKeyDisabledError _) => mret (Refused 401 "api_key_disabled")
              | Raise (APIKeyError _) => mret (Refused 401 "api_key_invalid")
              | Raise e => raise e
              end
        end
  end.

Definition require_console_actor (h : Headers) : M Srv (reply AuthenticatedActor) :=
  match hd_tenant_id h with
  | None => mret (Refused 400 "request_scope_required")
  | Some tenant =>
      r ← authenticate_api_key h tenant "admin:read";
      match r with
      | Refused c e => mret (Refused c e)
      | Item actor => mret (if has_permission actor "admin:read" then Item actor else Refused 403 "permission_denied")
      end
  end.

Definition enforce_console_actor (h : Headers) (method path : string) : M Srv (reply AuthenticatedActor) :=
  r ← require_console_actor h;
  match r with
  | Refused c e => mret (Refused c e)
  | Item actor =>
      mret (match _required_console_permission method path with
            | Some p => if has_permission actor p then Item actor else Refused 403 "permission_denied"
            | None => Item actor
            end)
  end.

(** * Handlers of [api/auth.py] *)

(** The dependency [ConsoleActorDep], the check of the body, and the handler. *)
Definition with_actor {A} (h : Headers) (valid : bool) (f : AuthenticatedActor → M Srv (reply A)) : M Srv (reply A) :=
  r ← require_console_actor h;
  if negb valid then mret (Refused 422 "validation_error")
  else match r with
       | Refused c e => mret (Refused c e)
       | Item actor => f actor
       end.

(** [_require_console_permission] *)
Definition permitted {A} (actor : AuthenticatedActor) (permission : string) (m : M Srv (reply A)) : M Srv (reply A) :=
  if has_permission actor permission then m else mret (Refused 403 "permission_denied").

Definition get_bootstrap_status : M Srv (reply ConsoleOperator) :=
  o ← in_console (ensure_bootstrap_operator pbkdf2 config); mret (Item o).

Definition login (payload : LoginRequest) (client user_agent : option string)
  : M Srv (reply (ConsoleSession * ConsoleOperator)) :=
  if negb (valid_login payload) then mret (Refused 422 "validation_error")
  else
    session ← in_console (console_authenticate pbkdf2 sha256 config (lr_email payload) (lr_password payload)
                client user_agent);
    match session with
    | None => mret (Refused 401 "invalid_credentials")
    | Some session =>
        operator ← in_console (get_operator_by_session sha256 (cn_token session));
        operator ← of_option operator AssertionError;
        mret (Item (session, operator))
    end.

(** The token is read from the header only. *)
Definition me (h : Headers) : M Srv (reply ConsoleOperator) :=
  with_actor h true (λ _,
    let token := match hd_authorization h with
      | Some a => if String.eqb a "" then "" else strip_string (removeprefix "Bearer " a)
      | None => ""
      end in
    operator ← in_console (get_operator_by_session sha256 token);
    mret (match operator with Some o => Item o | None => Refused 401 "session_invalid" end)).

Definition logout (h : Headers) : M Srv (reply unit) :=
  match hd_authorization h, hd_console_session h with
  | Some a, c =>
      if starts_with "Bearer " a
      then in_console (revoke_session sha256 (strip_string (removeprefix "Bearer " a)) "logout")
      else match c with
           | Some c => if String.eqb c "" then mret tt else in_console (revoke_session sha256 (strip_string c) "logout")
           | None => mret tt
           end
  | None, Some c => if String.eqb c "" then mret tt else in_console (revoke_session sha256 (strip_string c) "logout")
  | None, None => mret tt
  end ;;
  mret (Item tt).

Definition change_own_password (h : Headers) (payload : ChangePasswordRequest) : M Srv (reply unit) :=
  with_actor h (valid_change payload) (λ actor,
    id ← of_option (py_int (ac_actor_id actor)) (ValueError (ac_actor_id actor));
    changed ← in_console (change_password pbkdf2 config id (Some (cq_current_password payload))
                (cq_new_password payload) true);
    mret (if (changed : bool) then Item tt else Refused 400 "password_change_failed")).

Definition list_operators_handler (h : Headers) : M Srv (reply (list ConsoleOperator)) :=
  with_actor h true (λ _,
    l ← in_console (list_operators pbkdf2 config);
    in_console (list_operators pbkdf2 config) ;;
    mret (Item l)).

(** A [ValueError] of the scopes is told from that of the address. *)
Definition create_operator_handler (h : Headers) (payload : OperatorCreateRequest) : M Srv (reply ConsoleOperator) :=
  with_actor h (valid_create payload) (λ actor,
    permitted actor "identity:operator:write" (
      r ← catch (in_console (create_operator pbkdf2 config (oc_email payload) (oc_name payload) (oc_password payload)
            (oc_roles payload) (list_to_set (oc_permissions payload)) (oc_allowed_scopes payload)));
      match r with
      | Ret o => mret (Item o)
      | Raise (ValueError e) => mret (if starts_with "scope_" e then Refused 400 e else Refused 409 "operator_email_exists")
      | Raise e => raise e
      end)).

Definition update_operator_handler (h : Headers) (id : Z) (payload : OperatorUpdateRequest) : M Srv (reply ConsoleOperator) :=
  with_actor h true (λ actor,
    permitted actor "identity:operator:write" (
      r ← catch (in_console (update_operator pbkdf2 config id (mkPatch (ou_name payload) (ou_roles payload)
            (list_to_set <$> ou_permissions payload) (ou_allowed_scopes payload) (ou_status payload))));
      match r with
      | Ret (Some o) => mret (Item o)
      | Ret None => mret (Refused 404 "operator_not_found")
      | Raise (ValueError e) => if starts_with "scope_" e then mret (Refused 400 e) else raise (ValueError e)
      | Raise e => raise e
      end)).

Definition reset_operator_password (h : Headers) (id : Z) (new_password : string) : M Srv (reply unit) :=
  with_actor h (min_length 8 new_password) (λ actor,
    permitted actor "identity:operator:write" (
      changed ← in_console (change_password pbkdf2 config id None new_password false);
      mret (if (changed : bool) then Item tt else Refused 404 "operator_not_found"))).

Definition revoke_sessions_handler (h : Headers) (id : Z) : M Srv (reply unit) :=
  with_actor h true (λ actor,
    permitted actor "identity:operator:write" (
      revoked ← in_console (revoke_operator_sessions pbkdf2 config id "admin_revoked");
      mret (if (revoked : bool) then Item tt else Refused 404 "operator_not_found"))).

Definition list_sessions_handler (h : Headers) (id : Z) : M Srv (reply (list SessionRecord)) :=
  with_actor h true (λ _,
    l ← in_console (list_operator_sessions pbkdf2 config id);
    mret (match l with Some l => Item l | None => Refused 404 "operator_not_found" end)).

Definition delete_operator_handler (h : Headers) (id : Z) : M Srv (reply ConsoleOperator) :=
  with_actor h true (λ actor,
    permitted actor "identity:operator:write" (
      o ← in_console (delete_operator pbkdf2 config id);
      mret (match o with Some o => Item o | None => Refused 404 "operator_not_found" end))).

(** * One session ([revoke_operator_session] of [identity_workflows.py]) *)

Definition _active_identity_admin_session_count (operator : Z) : M (Console C) nat :=
  now ← console_now;
  d ← get_db;
  mret (length (List.filter (λ z, (zw_operator_id z =? operator) && bool_decide (zw_revoked_at z = None)
    && (now <? zw_expires_at z)) (dict_values (cd_sessions d)))).

Definition revoke_one_session (actor : AuthenticatedActor) (operator session : Z) : M (Console C) (reply unit) :=
  transaction (A:=reply unit) (
    d ← get_db;
    match live_operator operator d, dict_get session (cd_sessions d) with
    | Some _, Some z =>
        if negb (zw_operator_id z =? operator) then mret (Refused 404 "operator_session_not_found")
        else
          blocked ← (if bool_decide (ac_actor_type actor = "operator") && String.eqb (pretty operator) (ac_actor_id actor)
            then n ← _active_identity_admin_session_count operator; mret (n <=? 1)%nat
            else mret false);
          if (blocked : bool) then mret (Refused 409 "self_lockout_blocked")
          else
            now ← console_now;
            set_session (z <| zw_revoked_at := Some now |> <| zw_revoke_reason := Some "admin_revoked" |>) ;;
            cache_delete (zw_token_hash z) ;;
            mret (Item tt)
    | _, _ => mret (Refused 404 "operator_session_not_found")
    end).

Definition revoke_operator_session (h : Headers) (operator session : Z) : M Srv (reply unit) :=
  r ← enforce_console_actor h "POST" ("/v1/identity/workflows/operators/" +:+ pretty operator +:+ "/sessions/"
        +:+ pretty session +:+ "/revoke");
  match r with
  | Refused c e => mret (Refused c e)
  | Item actor =>
      r ← in_console (revoke_one_session actor operator session);
      match r with
      | Refused c e => mret (Refused c e)
      | Item _ =>
          in_auth (_append_identity_audit actor "identity.session.revoke" "console_session" session
            [("operator_id", VInt operator)]) ;;
          mret (Item tt)
      end
  end.
End api.
