(* ===== verification/ConsoleApiProps.v ===== *)
(** What the console's HTTP side guarantees: no operator is created, changed, deleted or
    given a password unless the caller is known and permitted; and where permissions and
    scopes fall short. *)

From stdpp Require Import gmap.
From S2P Require Import Prelude Values Json Tables SqlNative Policy ApiKeys Console ConsoleProps ConsoleApi.

(** * Looking a session up writes sessions only *)

Section lookups.
Context {C : Type} `{!SessionCache C}.
Context (sha256 : string → string).
Abbreviation Svc := (Console C).
Implicit Types s : Svc.

Definition only_sessions s s' : Prop :=
  ∃ l, co_db s' = (co_db s) <| cd_sessions := l |>.

#[export] Instance only_sessions_preorder : PreOrder only_sessions.
Proof.
  split.
  - intros s. exists (cd_sessions (co_db s)). by destruct (co_db s).
  - intros s1 s2 s3 [l1 E1] [l2 E2]. exists l2. by rewrite E2, E1.
Qed.




End lookups.

(** * Who a request comes from *)

Section access.
Context {C R : Type} `{!SessionCache C, !SessionCacheLaws C, !ServiceAccounts R}.
Context (pbkdf2 : string → string → Z → string) (sha256 : string → string).
Context (config : ConsoleConfig) (env : ApiConfig).
Abbreviation Srv := (Api C R).
Implicit Types s : Srv.






(** ** Writing operators *)




End access.

(** * A console with an identity administrator *)

Definition demo_api : Api MemorySessionCache ServiceAccountRegistry :=
  mkApi demo_console (new_authenticator (new_registry (λ n, Z.of_nat n)) (λ n, Z.of_nat n) (λ n, pretty (Z.of_nat n)) false).
Definition demo_env : ApiConfig := mkApiConfig None "production".
(** The token of Ida, who has the role [identity_admin] in the default project. *)
Definition ida_headers (project : option Z) : Headers :=
  mkHeaders (Some "Bearer sess_1") None (Some 1) project (Some "local").
Definition mallory : OperatorCreateRequest :=
  mkOperatorCreate "mallory@example.com" "Mallory" "password" ["platform_admin"] ["*"] [mkScopeArg (Some "*") None None].




(** Ida asks for a write of the administration, before and after. *)
Definition admin_write (h : Headers) (s : Api MemorySessionCache ServiceAccountRegistry) :=
  (enforce_console_actor demo_sha256 demo_env h "POST" "/v1/admin/settings" s).1.
Definition mallory_created :=
  (create_operator_handler demo_pbkdf2 demo_sha256 demo_console_config demo_env (ida_headers None) mallory demo_api).2.
Definition mallory_logged_in :=
  (login demo_pbkdf2 demo_sha256 demo_console_config (mkLoginRequest "mallory@example.com" "password") None None
    mallory_created).2.

(** Whoever may write operators may become anybody: Ida, who holds neither [*] nor
    [admin:write], creates an operator with every permission in every tenant, logs in as
    that operator, and is then accepted for any write of any tenant. *)
Theorem operator_write_escalates :
  admin_write (ida_headers None) demo_api = Ret (Refused 403 "permission_denied") ∧
  ∃ actor, admin_write (mkHeaders (Some "Bearer sess_2") None (Some 77) None None) mallory_logged_in = Ret (Item actor) ∧
    ac_tenant_id actor = 77 ∧ "*" ∈ ac_scopes actor.
Proof.
  split; [vm_compute; reflexivity|]. eexists. split; [vm_compute; reflexivity|]. split; [reflexivity|].
  refine (bool_decide_unpack _ _). vm_compute. exact I.
Qed.

(** ** Scopes *)

(** A second project in the default tenant. *)
Definition two_projects : Api MemorySessionCache ServiceAccountRegistry :=
  demo_api <| ap_console := demo_console <| co_db := (co_db demo_console) <| cd_projects :=
    dict_set 2 (mkProject 2 1 "Other" "other") (cd_projects (co_db demo_console)) |> |> |>.
Definition new_account : CreateAccount := mkCreateAccount None (Some 2) (Some "bot") (Some ["run:write"]).
Definition account_request (project : option Z) :=
  (enforce_console_actor demo_sha256 demo_env (ida_headers project) "POST" "/v1/identity/service-accounts" two_projects).1.
Definition account_made : M (Api MemorySessionCache ServiceAccountRegistry) (reply ServiceAccountRecord) :=
  r ← enforce_console_actor demo_sha256 demo_env (ida_headers None) "POST" "/v1/identity/service-accounts";
  match r with
  | Item actor => in_auth (create_identity_service_account actor new_account)
  | Refused c e => mret (Refused c e)
  end.

(** An operator confined to one project reaches the others of the tenant by naming
    no project: Ida's scope is project 1, a request for project 2 is refused, and the
    same request without the header creates a service account in project 2. *)
Theorem project_scope_bypassed :
  (λ w, (pw_tenant_id w, pw_project_id w)) <$> operator_scopes 2 (co_db (ap_console two_projects)) = [(Some 1, Some 1)] ∧
  account_request (Some 2) = Ret (Refused 403 "scope_not_allowed") ∧
  ∃ account, (account_made two_projects).1 = Ret (Item account) ∧ sr_project_id account = Some 2.
Proof.
  split; [vm_compute; reflexivity|]. split; [vm_compute; reflexivity|].
  eexists. split; [vm_compute; reflexivity|reflexivity].
Qed.
