(* ===== verification/DeploymentStore.v ===== *)
(** Deployments behind the HTTP API: what the handlers of [api/native/deployments.py]
    and [api/native/promotion.py] ask of the control service and of the native runtime
    store, as two interfaces, each with its in-process and its database-backed
    implementation ([SQLAlchemyDeploymentStore], [SQLAlchemyAuditSink]). *)

From stdpp Require Import gmap.
From S2P Require Import Prelude Values Json StateMachine Tables InMemory RunStore Deployments Idempotency NativeApi SqlNative.

(** * Interfaces *)

(** What the handlers ask of [DeploymentRuntimeControlService] and its store.
    [sv_assign] assigns attributes of the record [sv_get] returned: it changes the
    store where the record is the stored object, and nothing where it is a copy.
    [sv_rollback before after] is what a request that fails leaves. *)
Class DeploymentService (K : Type) := {
  sv_get : Z → M K DeploymentRecord;
  sv_list : option Z → option Z → M K (list DeploymentRecord);
  sv_add : DeploymentRecord → M K DeploymentRecord;
  sv_save : DeploymentRecord → M K DeploymentRecord;
  sv_archive : Z → M K DeploymentRecord;
  sv_assign : Z → (DeploymentRecord → DeploymentRecord) → M K unit;
  sv_control : DeploymentPolicyEngine → control_op → M K DeploymentRecord;
  sv_instances : Z → M K (list AgentInstanceRecord);
  sv_audit : AuditEntry → M K unit;
  sv_rollback : K → K → K
}.

(** What they ask of the native runtime store; [nr_sqlalchemy] is
    [isinstance(runtime, SQLAlchemyNativeRuntimeStore)]. *)
Class NativeRuntime (N : Type) := {
  nr_agent : Z → Z → Z → N → option NativeAgent;
  nr_version : Z → Z → N → option NativeAgentVersion;
  nr_runs : Z → Z → M N (list NativeRun);
  nr_tasks : Z → Z → M N (list NativeTask);
  nr_create_task_run : TaskRunArgs → M N (Z * Z * bool);
  nr_task_status : Z → N → string;
  nr_rollback : N → N → N;
  nr_sqlalchemy : bool
}.

#[export] Instance native_runtime_store (sha256 : string → string) : NativeRuntime NativeRuntimeStore := {
  nr_agent := get_agent;
  nr_version := get_version_by_id;
  nr_runs := λ t p, gets (list_runs t p);
  nr_tasks := λ t p, gets (list_tasks t p);
  nr_create_task_run := create_task_run sha256;
  nr_task_status := λ id s, match dict_get id (nv_tasks s) with Some t => task_status_value (nt_status t) | None => "" end;
  nr_rollback := λ _ after, after;
  nr_sqlalchemy := false
}.
#[export] Instance sql_native_runtime {B} `{!IdempotencyBackend B} (sha256 : string → string) : NativeRuntime (SqlNative B) := {
  nr_agent := sql_get_agent;
  nr_version := sql_get_version_by_id;
  nr_runs := sql_list_runs;
  nr_tasks := sql_list_tasks;
  nr_create_task_run := sql_create_task_run sha256;
  nr_task_status := λ id s, match dict_get id (db_tasks (sn_db s)) with Some t => tk_status t | None => "" end;
  nr_rollback := λ before after, before <| sn_ticks := sn_ticks after |>;
  nr_sqlalchemy := true
}.

(** ** In process *)

#[export] Instance in_process_deployments : DeploymentService ControlService := {
  sv_get := λ id, in_store (store_get id);
  sv_list := λ t p, gets (λ c, store_list t p (cs_deployments c));
  sv_add := λ d, in_store (store_add d);
  sv_save := λ d, in_store (store_save d);
  sv_archive := λ id, in_store (store_archive id);
  sv_assign := mutate_deployment;
  sv_control := run_control;
  sv_instances := list_instances;
  sv_audit := λ e, modify (λ c, c <| cs_audit := cs_audit c ++ [e] |>);
  sv_rollback := λ _ after, after
}.

(** ** In the database *)

Record DeploymentRow := mkDeploymentRow {
  dw_id : Z;
  dw_tenant_id : Z;
  dw_project_id : Z;
  dw_agent_id : Z;
  dw_agent_version_id : Z;
  dw_environment : string;
  dw_desired_status : string;
  dw_runtime_status : string;
  dw_replicas : Z;
  dw_config_json : pydict;
  dw_last_runtime_error : option string;
  dw_is_deleted : bool
}.
#[export] Instance DeploymentRow_eta : Eta DeploymentRow := λ w,
  mkDeploymentRow (dw_id w) (dw_tenant_id w) (dw_project_id w) (dw_agent_id w) (dw_agent_version_id w)
    (dw_environment w) (dw_desired_status w) (dw_runtime_status w) (dw_replicas w) (dw_config_json w)
    (dw_last_runtime_error w) (dw_is_deleted w).

(** The table with the audit log of the request's session. *)
Record SqlDeployments := mkSqlDeployments {
  sd_rows : dict Z DeploymentRow;
  sd_next : Z;
  sd_audit : list AuditEntry
}.
#[export] Instance SqlDeployments_eta : Eta SqlDeployments := λ s,
  mkSqlDeployments (sd_rows s) (sd_next s) (sd_audit s).

Definition all_desired : list DeploymentDesiredStatus :=
  [DD_draft; DD_active; DD_paused; DD_draining; DD_stopped; DD_archived].
Definition all_runtime : list DeploymentRuntimeStatus :=
  [DR_not_loaded; DR_warming_up; DR_ready; DR_degraded; DR_failed; DR_draining; DR_stopped].

(** [DeploymentDesiredStatus(value)], [None] where it raises *)
Definition desired_status_of (v : string) : option DeploymentDesiredStatus :=
  List.find (λ s, bool_decide (desired_status_value s = v)) all_desired.
Definition runtime_status_of (v : string) : option DeploymentRuntimeStatus :=
  List.find (λ s, bool_decide (runtime_status_value s = v)) all_runtime.

Definition deployment_from_model (w : DeploymentRow) : M SqlDeployments DeploymentRecord :=
  desired ← of_option (desired_status_of (dw_desired_status w)) (ValueError (dw_desired_status w));
  runtime ← of_option (runtime_status_of (dw_runtime_status w)) (ValueError (dw_runtime_status w));
  mret (mkDeployment (dw_id w) (dw_tenant_id w) (dw_project_id w) (dw_agent_id w) (dw_agent_version_id w)
    (dw_environment w) desired runtime (dw_replicas w) (dw_config_json w) (dw_last_runtime_error w)).

(** [DeploymentRepository.get_by_id] *)
Definition deployment_row (id : Z) (s : SqlDeployments) : option DeploymentRow :=
  w ← dict_get id (sd_rows s); if dw_is_deleted w then None else Some w.

(** The index over project, environment and agent of the live rows, checked when the
    session is flushed. *)
Definition same_slot (w v : DeploymentRow) : bool :=
  (dw_project_id w =? dw_project_id v) && bool_decide (dw_environment w = dw_environment v)
  && (dw_agent_id w =? dw_agent_id v).
Definition flush_row (w : DeploymentRow) : M SqlDeployments unit :=
  s ← get_state;
  check (negb (existsb (λ v, negb (dw_id v =? dw_id w) && negb (dw_is_deleted v) && same_slot w v)
      (dict_values (sd_rows s)))) (IntegrityError "uq_deployments_project_environment_agent_active") ;;
  modify (λ s, s <| sd_rows := dict_set (dw_id w) w (sd_rows s) |>).

Definition sql_add (d : DeploymentRecord) : M SqlDeployments DeploymentRecord :=
  s ← get_state;
  let w := mkDeploymentRow (sd_next s) (dp_tenant_id d) (dp_project_id d) (dp_agent_id d) (dp_agent_version_id d)
    (dp_environment d) (desired_status_value (dp_desired_status d)) (runtime_status_value (dp_runtime_status d))
    (dp_replicas d) (dp_config_json d) (dp_last_runtime_error d) false in
  flush_row w ;;
  modify (λ s, s <| sd_next := sd_next s + 1 |>) ;;
  deployment_from_model w.

Definition sql_get (id : Z) : M SqlDeployments DeploymentRecord :=
  s ← get_state;
  w ← of_option (deployment_row id s) (DeploymentNotFoundError id);
  deployment_from_model w.

Fixpoint from_models (l : list DeploymentRow) : M SqlDeployments (list DeploymentRecord) :=
  match l with
  | [] => mret []
  | w :: l => d ← deployment_from_model w; ds ← from_models l; mret (d :: ds)
  end.

Definition sql_list (tenant project : option Z) : M SqlDeployments (list DeploymentRecord) :=
  s ← get_state;
  from_models (List.filter (λ w, negb (dw_is_deleted w) &&
    match tenant with Some t => dw_tenant_id w =? t | None => true end &&
    match project with Some p => dw_project_id w =? p | None => true end) (dict_values (sd_rows s))).

(** [DeploymentRepository.transition] and the assignments after it *)
Definition sql_save (d : DeploymentRecord) : M SqlDeployments DeploymentRecord :=
  s ← get_state;
  w ← of_option (deployment_row (dp_id d) s) (KeyError (pretty (dp_id d)));
  let w := w <| dw_desired_status := desired_status_value (dp_desired_status d) |>
    <| dw_runtime_status := runtime_status_value (dp_runtime_status d) |>
    <| dw_last_runtime_error := dp_last_runtime_error d |> <| dw_agent_version_id := dp_agent_version_id d |>
    <| dw_environment := dp_environment d |> <| dw_replicas := dp_replicas d |> <| dw_config_json := dp_config_json d |> in
  flush_row w ;;
  deployment_from_model w.

Definition sql_archive (id : Z) : M SqlDeployments DeploymentRecord :=
  s ← get_state;
  w ← of_option (deployment_row id s) (DeploymentNotFoundError id);
  let w := w <| dw_desired_status := "archived" |> <| dw_runtime_status := "stopped" |> <| dw_is_deleted := true |> in
  modify (λ s, s <| sd_rows := dict_set id w (sd_rows s) |>) ;;
  deployment_from_model w.

Definition sql_audit (e : AuditEntry) : M SqlDeployments unit :=
  modify (λ s, s <| sd_audit := sd_audit s ++ [e] |>).

(** [_control] on copies; the service of a request has no instances of its own. *)
Definition sql_control (policy : DeploymentPolicyEngine) (op : control_op) : M SqlDeployments DeploymentRecord :=
  let a := op_args op in
  d ← sql_get (op_id op);
  match binding_error d (co_tenant_id a) (co_project_id a) None None with
  | Some e =>
      sql_audit (audit_of (op_action op) d a "denied" [("reason", match e with PolicyDeniedError r _ => r | _ => "" end)]) ;;
      raise e
  | None => mret tt
  end ;;
  let decision := policy (co_actor_id a) ("deployment." +:+ op_action op) d in
  (if dd_allowed decision then mret tt
   else
     sql_audit (audit_of (op_action op) d a "denied" [("reason", or_str (dd_reason decision) "policy_denied")]) ;;
     raise (PolicyDeniedError (or_str (dd_reason decision) "policy_denied") "policy_denied")) ;;
  let d := controlled (op_desired op) [] d in
  sql_save d ;;
  sql_audit (audit_of (op_action op) d a "allowed" []) ;;
  match op with
  | CRestart id _ => sql_get id
  | _ => mret d
  end.

#[export] Instance sql_deployments : DeploymentService SqlDeployments := {
  sv_get := sql_get;
  sv_list := sql_list;
  sv_add := sql_add;
  sv_save := sql_save;
  sv_archive := sql_archive;
  sv_assign := λ _ _, mret tt;
  sv_control := sql_control;
  sv_instances := λ id, sql_get id ;; mret [];
  sv_audit := sql_audit;
  sv_rollback := λ before _, before
}.
