(* ===== verification/Costs.v ===== *)
(** Cost attribution and budgets ([costs/attribution.py], [costs/budget_policy.py],
    [costs/enforcement.py]) over the usage the database holds.

    The rows of the usage table, of the policies and of the notification channels are
    lists in the order the database returns them. Of the in-process store only the
    answer of [evaluate_persisted_budget_policies] is modelled, and of a breakdown the
    overlay of quality gates is left out. *)

From stdpp Require Import gmap.
From Stdlib Require Import Ascii.
From S2P Require Import Prelude Values Json StateMachine Floats Deployments NativeApi DeploymentStore.

(** * Data *)

Record ModelUsageSnapshot := mkSnapshot {
  us_tenant_id : Z;
  us_project_id : option Z;
  us_run_id : Z;
  us_model : string;
  us_provider : option string;
  us_total_tokens : Z;
  us_cost : float;
  us_created_at : Z
}.

Record NotificationChannel := mkChannel {
  nc_id : Z;
  nc_tenant_id : Z;
  nc_project_id : option Z;
  nc_target_ref : string;
  nc_status : string;
  nc_is_deleted : bool
}.

Record CostBudgetPolicy := mkBudget {
  bp_id : Z;
  bp_tenant_id : Z;
  bp_project_id : option Z;
  bp_name : string;
  bp_environment : option string;
  bp_scope_type : string;
  bp_scope_ref : option string;
  bp_threshold_usd : float;
  bp_reset_window : string;
  bp_channel_id : Z;
  bp_action_mode : string;
  bp_status : string;
  bp_is_deleted : bool
}.

Record BudgetTables := mkBudgetTables {
  bt_policies : list CostBudgetPolicy;
  bt_channels : list NotificationChannel;
  bt_snapshots : list ModelUsageSnapshot
}.

Record CostUsageRow := mkUsageRow {
  cu_run_id : Z;
  cu_agent_id : Z;
  cu_deployment_id : option Z;
  cu_environment : option string;
  cu_provider : option string;
  cu_model : option string;
  cu_cost_usd : float;
  cu_total_tokens : Z;
  cu_status : string;
  cu_created_at : Z
}.

Inductive CostGroupBy := by_agent | by_deployment | by_run | by_provider | by_model.

Record CostBreakdown := mkBreakdown {
  cb_group_by : CostGroupBy;
  cb_key : string;
  cb_label : string;
  cb_total_cost_usd : float;
  cb_total_tokens : Z;
  cb_run_count : nat;
  cb_failed_run_count : nat;
  cb_latest_run_id : option Z;
  cb_latest_at : option Z
}.

Record CostSummary := mkCostSummary {
  sm_window_days : Z;
  sm_group_by : CostGroupBy;
  sm_total_cost_usd : float;
  sm_total_tokens : Z;
  sm_run_count : nat;
  sm_failed_run_count : nat;
  sm_breakdown : list CostBreakdown
}.

Record BudgetPreviewInput := mkPreviewInput {
  pi_threshold_usd : float;
  pi_scope_type : string;
  pi_scope_ref : option string;
  pi_reset_window : string;
  pi_notification_channel : string;
  pi_action_mode : string
}.

Record BudgetPreviewResult := mkPreviewResult {
  pv_current_spend_usd : float;
  pv_projected_spend_usd : float;
  pv_utilization_ratio : float;
  pv_would_trigger : bool;
  pv_notification_preview : string;
  pv_action_preview : string;
  pv_top_contributors : list CostBreakdown
}.

Record CostBudgetPolicyHit := mkHit {
  bh_policy_id : Z;
  bh_name : string;
  bh_action_mode : string;
  bh_scope_type : string;
  bh_scope_ref : option string;
  bh_environment : option string;
  bh_threshold_usd : float;
  bh_current_spend_usd : float;
  bh_channel_id : Z;
  bh_channel_name : string;
  bh_notification_channel : string
}.

Record BudgetDecision := mkBudgetDecision {
  bd_blocking_policy : option CostBudgetPolicyHit;
  bd_warning_policies : list CostBudgetPolicyHit
}.

(** The objects a request works with. *)
Record Backend (K N : Type) := mkBackend {
  bk_service : K;
  bk_native : N;
  bk_budget : BudgetTables
}.
Arguments mkBackend {K N}.
Arguments bk_service {K N}.
Arguments bk_native {K N}.
Arguments bk_budget {K N}.
#[export] Instance Backend_eta {K N} : Eta (Backend K N) := λ b,
  mkBackend (bk_service b) (bk_native b) (bk_budget b).

Definition in_service {K N A} (m : M K A) : M (Backend K N) A := zoom bk_service (λ k b, b <| bk_service := k |>) m.
Definition in_native {K N A} (m : M N A) : M (Backend K N) A := zoom bk_native (λ n b, b <| bk_native := n |>) m.

(** * Rows *)

Definition days (n : Z) : Z := seconds (n * 86400).

Definition run_usage (deployments : dict Z DeploymentRecord) (run : NativeRun) (u : ModelUsageSnapshot) : CostUsageRow :=
  mkUsageRow (us_run_id u) (nr_agent_id run) (nr_deployment_id run)
    (dp_environment <$> (nr_deployment_id run ≫= λ id, dict_get id deployments))
    (us_provider u) (Some (us_model u)) (us_cost u) (us_total_tokens u) (run_status_value (nr_status run))
    (us_created_at u).

(** [{d.id: d for d in deployments if d.environment == environment}] *)
Definition scoped (environment : string) (l : list DeploymentRecord) : dict Z DeploymentRecord :=
  foldl (λ acc d, if bool_decide (dp_environment d = environment) then dict_set (dp_id d) d acc else acc) [] l.

(** The runs of the window that belong to no deployment or to one in scope. *)
Definition run_map (deployments : dict Z DeploymentRecord) (window_start : Z) (runs : list NativeRun) : dict Z NativeRun :=
  foldl (λ acc r, if (window_start <=? nr_created_at r) &&
      match nr_deployment_id r with Some d => bool_decide (is_Some (dict_get d deployments)) | None => true end
    then dict_set (nr_id r) r acc else acc) [] runs.

Definition usage_rows (tenant project : Z) (deployments : dict Z DeploymentRecord) (window_start : Z)
    (runs : dict Z NativeRun) (l : list ModelUsageSnapshot) : list CostUsageRow :=
  omap (λ u,
    if (us_tenant_id u =? tenant) && bool_decide (us_project_id u = Some project) && (window_start <=? us_created_at u)
    then (λ run, run_usage deployments run u) <$> dict_get (us_run_id u) runs
    else None) l.

(** * Grouping *)

Definition _group_key (g : CostGroupBy) (row : CostUsageRow) : string * string :=
  match g with
  | by_agent => (pretty (cu_agent_id row), "Agent #" +:+ pretty (cu_agent_id row))
  | by_deployment =>
      (match cu_deployment_id row with Some d => if d =? 0 then "unbound" else pretty d | None => "unbound" end,
       match cu_deployment_id row with Some d => "Deployment #" +:+ pretty d | None => "Unbound" end)
  | by_run => (pretty (cu_run_id row), "Run #" +:+ pretty (cu_run_id row))
  | by_provider => let k := or_str (cu_provider row) "unknown" in (k, k)
  | by_model => let k := or_str (cu_model row) "unknown" in (k, k)
  end.

Definition group_rows (g : CostGroupBy) (rows : list CostUsageRow) : dict string (list CostUsageRow) :=
  foldl (λ acc r, let k := (_group_key g r).1 in dict_set k (default [] (dict_get k acc) ++ [r]) acc) [] rows.
Definition group_labels (g : CostGroupBy) (rows : list CostUsageRow) : dict string string :=
  foldl (λ acc r, dict_set (_group_key g r).1 (_group_key g r).2 acc) [] rows.

(** [len({item.run_id for item in items})] *)
Definition run_ids (l : list CostUsageRow) : gset Z := list_to_set (cu_run_id <$> l).
Definition failed_rows (l : list CostUsageRow) : list CostUsageRow :=
  List.filter (λ r, bool_decide (cu_status r = "failed")) l.

(** [max(items, key=lambda item: item.created_at)]: the first of the latest *)
Definition latest_row (l : list CostUsageRow) : option CostUsageRow :=
  foldl (λ acc r, match acc with
    | Some a => if cu_created_at a <? cu_created_at r then Some r else acc
    | None => Some r
    end) None l.

Definition sum_tokens (l : list CostUsageRow) : Z := foldl (λ acc r, acc + cu_total_tokens r) 0 l.

Section costs.
Context {K N : Type} `{!DeploymentService K, !NativeRuntime N}.
Context (sum_floats : list float → float).
Abbreviation Bk := (Backend K N).

Definition total_cost (l : list CostUsageRow) : float := sum_floats (cu_cost_usd <$> l).

Definition breakdown_of (g : CostGroupBy) (labels : dict string string) (p : string * list CostUsageRow) : CostBreakdown :=
  mkBreakdown g p.1 (default "" (dict_get p.1 labels)) (round_digits 6 (total_cost p.2)) (sum_tokens p.2)
    (size (run_ids p.2)) (size (run_ids (failed_rows p.2)))
    (cu_run_id <$> latest_row p.2) (cu_created_at <$> latest_row p.2).

Definition summary_of (g : CostGroupBy) (window : Z) (rows : list CostUsageRow) : CostSummary :=
  mkCostSummary window g (round_digits 6 (total_cost rows)) (sum_tokens rows) (size (run_ids rows))
    (size (run_ids (failed_rows rows)))
    (breakdown_of g (group_labels g rows) <$>
       stable_sort (λ a b, fleb (total_cost b.2) (total_cost a.2)) (group_rows g rows)).

(** [_load_cost_rows] on the database *)
Definition _load_cost_rows (tenant project : Z) (environment : string) (window now : Z) : M Bk (list CostUsageRow) :=
  let window_start := now - days window in
  deployments ← in_service (sv_list (Some tenant) (Some project));
  let deployments := scoped environment deployments in
  runs ← in_native (nr_runs tenant project);
  b ← get_state;
  mret (usage_rows tenant project deployments window_start (run_map deployments window_start runs)
    (bt_snapshots (bk_budget b))).

Definition build_cost_attribution_summary (tenant project : Z) (environment : string) (window : Z)
    (g : CostGroupBy) (now : Z) : M Bk CostSummary :=
  in_service (sv_list (Some tenant) (Some project)) ;;
  rows ← _load_cost_rows tenant project environment window now;
  mret (summary_of g window rows).

(** * Budgets *)

Definition _group_by_for_scope (scope_type : string) : CostGroupBy :=
  if bool_decide (scope_type = "deployment") then by_deployment
  else if bool_decide (scope_type = "agent") then by_agent
  else by_deployment.

Definition _filter_breakdown (l : list CostBreakdown) (scope_type : string) (scope_ref : option string) : list CostBreakdown :=
  if bool_decide (scope_type ∈ ["tenant"; "project"; "environment"]) then l
  else match scope_ref with
       | None => l
       | Some r => List.filter (λ i, bool_decide (cb_key i = r)) l
       end.

Definition window_days (reset_window : string) : option Z :=
  if bool_decide (reset_window = "daily") then Some 1
  else if bool_decide (reset_window = "weekly") then Some 7
  else if bool_decide (reset_window = "monthly") then Some 30
  else None.

(** [text.replace("_", " ")] *)
Definition spaced (s : string) : string :=
  of_chars ((λ c, if Ascii.eqb c "_" then " "%char else c) <$> to_chars s).

Definition preview_of (preview : BudgetPreviewInput) (window : Z) (l : list CostBreakdown) : BudgetPreviewResult :=
  let threshold := pi_threshold_usd preview in
  let filtered := _filter_breakdown l (pi_scope_type preview) (pi_scope_ref preview) in
  let current := round_digits 6 (sum_floats (cb_total_cost_usd <$> filtered)) in
  let ratio := if fltb (float_of_Z 0) threshold then fdiv current threshold else float_of_Z 0 in
  mkPreviewResult current (round_digits 6 (fmul current (fdiv (float_of_Z 30) (float_of_Z window)))) ratio
    (fleb threshold current)
    ("Notify " +:+ pi_notification_channel preview +:+ " when " +:+ pi_scope_type preview +:+ " reaches "
       +:+ fixed 1 (fmul ratio (float_of_Z 100)) +:+ "% of $" +:+ fixed 2 threshold +:+ ".")
    ("When exceeded, DimooRun will " +:+ spaced (pi_action_mode preview) +:+ " new spend for "
       +:+ pi_scope_type preview +:+ ".")
    (take 5 filtered).

Definition build_budget_preview (tenant project : Z) (environment : string) (preview : BudgetPreviewInput) (now : Z)
  : M Bk BudgetPreviewResult :=
  window ← of_option (window_days (pi_reset_window preview)) (KeyError (pi_reset_window preview));
  summary ← build_cost_attribution_summary tenant project environment window
    (_group_by_for_scope (pi_scope_type preview)) now;
  mret (preview_of preview window (sm_breakdown summary)).

(** * Enforcement *)

(** [column.in_(l)] in a [WHERE] clause: the comparison of a null is never true, and a
    null in the list matches nothing. *)
Definition sql_in {A} `{!EqDecision A} (x : option A) (l : list (option A)) : bool :=
  match x with Some v => bool_decide (Some v ∈ l) | None => false end.

Definition _policy_statement (tenant project : Z) (environment : string) (agent deployment : Z) (p : CostBudgetPolicy) : bool :=
  (bp_tenant_id p =? tenant) && negb (bp_is_deleted p) && bool_decide (bp_status p = "active")
  && sql_in (bp_project_id p) [Some project; None] && sql_in (bp_environment p) [Some environment; None]
  && ((bool_decide (bp_scope_type p = "tenant") && bool_decide (bp_scope_ref p = None))
      || (bool_decide (bp_scope_type p = "project") && sql_in (bp_scope_ref p) [None; Some (pretty project)])
      || (bool_decide (bp_scope_type p = "environment") && sql_in (bp_scope_ref p) [None; Some environment])
      || (bool_decide (bp_scope_type p = "agent") && sql_in (bp_scope_ref p) [Some (pretty agent)])
      || (bool_decide (bp_scope_type p = "deployment") && sql_in (bp_scope_ref p) [Some (pretty deployment)])).

(** The policies of the request, by id. *)
Definition selected_policies (tenant project : Z) (environment : string) (agent deployment : Z) (t : BudgetTables)
  : list CostBudgetPolicy :=
  stable_sort (λ a b, bp_id a <=? bp_id b)
    (List.filter (_policy_statement tenant project environment agent deployment) (bt_policies t)).

Definition channels_of (tenant project : Z) (t : BudgetTables) : dict Z NotificationChannel :=
  foldl (λ acc c, if (nc_tenant_id c =? tenant) && bool_decide (nc_project_id c = Some project) && negb (nc_is_deleted c)
    then dict_set (nc_id c) c acc else acc) [] (bt_channels t).

Definition channel_name (channels : dict Z NotificationChannel) (p : CostBudgetPolicy) : string :=
  match dict_get (bp_channel_id p) channels with
  | Some c => if bool_decide (nc_status c = "active") then nc_target_ref c else "channel:" +:+ pretty (bp_channel_id p)
  | None => "channel:" +:+ pretty (bp_channel_id p)
  end.

Definition hit_of (channels : dict Z NotificationChannel) (p : CostBudgetPolicy) (spend : float) : CostBudgetPolicyHit :=
  mkHit (bp_id p) (bp_name p) (bp_action_mode p) (bp_scope_type p) (bp_scope_ref p) (bp_environment p)
    (bp_threshold_usd p) spend (bp_channel_id p) (channel_name channels p) (channel_name channels p).

Definition preview_policy (tenant project : Z) (environment : string) (channels : dict Z NotificationChannel)
    (now : Z) (p : CostBudgetPolicy) : M Bk BudgetPreviewResult :=
  build_budget_preview tenant project (or_str (bp_environment p) environment)
    (mkPreviewInput (bp_threshold_usd p) (bp_scope_type p) (bp_scope_ref p) (bp_reset_window p)
      (channel_name channels p) (bp_action_mode p)) now.

(** The loop over the policies; [now i] is the clock when the [i]-th is looked at. *)
Fixpoint check_policies (tenant project : Z) (environment : string) (channels : dict Z NotificationChannel)
    (now : nat → Z) (l : list CostBudgetPolicy) (acc : BudgetDecision) : M Bk BudgetDecision :=
  match l with
  | [] => mret acc
  | p :: l =>
      preview ← preview_policy tenant project environment channels (now 0%nat) p;
      let hit := hit_of channels p (pv_current_spend_usd preview) in
      check_policies tenant project environment channels (λ i, now (S i)) l
        (if negb (pv_would_trigger preview) then acc
         else if bool_decide (bp_action_mode p = "warn")
         then mkBudgetDecision (bd_blocking_policy acc) (bd_warning_policies acc ++ [hit])
         else match bd_blocking_policy acc with
              | None => mkBudgetDecision (Some hit) (bd_warning_policies acc)
              | Some _ => acc
              end)
  end.

Definition evaluate_persisted_budget_policies (tenant project : Z) (environment : string) (agent deployment : Z)
    (now : nat → Z) : M Bk BudgetDecision :=
  if negb nr_sqlalchemy then mret (mkBudgetDecision None [])
  else
    b ← get_state;
    let policies := selected_policies tenant project environment agent deployment (bk_budget b) in
    match policies with
    | [] => mret (mkBudgetDecision None [])
    | _ => check_policies tenant project environment (channels_of tenant project (bk_budget b)) now policies
             (mkBudgetDecision None [])
    end.
End costs.

(** * What the verdict says *)

Section verdict.
Context {K N : Type} `{!DeploymentService K, !NativeRuntime N}.
Context (sum_floats : list float → float).
Abbreviation Bk := (Backend K N).

(** The previews of all policies, in order. *)
Fixpoint read_previews (tenant project : Z) (environment : string) (channels : dict Z NotificationChannel)
    (now : nat → Z) (l : list CostBudgetPolicy) : M Bk (list (CostBudgetPolicy * BudgetPreviewResult)) :=
  match l with
  | [] => mret []
  | p :: l =>
      preview ← preview_policy sum_floats tenant project environment channels (now 0%nat) p;
      rest ← read_previews tenant project environment channels (λ i, now (S i)) l;
      mret ((p, preview) :: rest)
  end.

Definition triggered (warn : bool) (p : CostBudgetPolicy * BudgetPreviewResult) : bool :=
  pv_would_trigger p.2 && Bool.eqb warn (bool_decide (bp_action_mode p.1 = "warn")).

(** The first policy that triggers and does more than warn blocks; every one that
    triggers and warns is reported. *)
Definition verdict (channels : dict Z NotificationChannel) (l : list (CostBudgetPolicy * BudgetPreviewResult)) : BudgetDecision :=
  let hits warn := (λ p, hit_of channels p.1 (pv_current_spend_usd p.2)) <$> List.filter (triggered warn) l in
  mkBudgetDecision (head (hits false)) (hits true).

Lemma check_policies_spec tenant project environment channels now l acc b :
  check_policies sum_floats tenant project environment channels now l acc b =
  (pl ← read_previews tenant project environment channels now l;
   mret (mkBudgetDecision (match bd_blocking_policy acc with Some h => Some h | None => bd_blocking_policy (verdict channels pl) end)
     (bd_warning_policies acc ++ bd_warning_policies (verdict channels pl)))) b.
Proof.
  revert now acc b. induction l as [|p l IH]; intros now acc b; simpl.
  - m_unfold. simpl. rewrite app_nil_r. by destruct acc as [[?|] ?].
  - unfold mbind, M_bind. destruct (preview_policy _ _ _ _ _ _ p b) as [[preview|e] b1]; [|done].
    rewrite IH. unfold mbind, M_bind.
    destruct (read_previews _ _ _ _ _ l b1) as [[pl|e] b2]; [|done]. unfold mret, M_ret. do 3 f_equal.
    + unfold verdict, triggered. simpl. destruct (pv_would_trigger preview); simpl; [|done].
      case_bool_decide; simpl; [done|]. destruct (bd_blocking_policy acc) eqn:E; simpl; by rewrite ?E.
    + unfold verdict, triggered. simpl. destruct (pv_would_trigger preview); simpl; [|done].
      case_bool_decide; simpl; [|by destruct (bd_blocking_policy acc)]. by rewrite <-app_assoc.
Qed.

(** With the database, the budgets of a request are judged as the verdict defines. *)
Lemma evaluate_verdict tenant project environment agent deployment now b : nr_sqlalchemy (N:=N) = true →
  evaluate_persisted_budget_policies sum_floats tenant project environment agent deployment now b =
  (pl ← read_previews tenant project environment (channels_of tenant project (bk_budget b)) now
          (selected_policies tenant project environment agent deployment (bk_budget b));
   mret (verdict (channels_of tenant project (bk_budget b)) pl)) b.
Proof.
  intros Hsql. unfold evaluate_persisted_budget_policies. rewrite Hsql. cbn [negb].
  unfold mbind at 1, M_bind at 1. unfold get_state. cbv zeta beta iota.
  destruct (selected_policies _ _ _ _ _ _) as [|p l] eqn:Hl; [done|].
  rewrite check_policies_spec. unfold mbind, M_bind. destruct (read_previews _ _ _ _ _ _ b) as [[pl|e] b1]; [|done].
  done.
Qed.

(** With the database, the verdict on a new task is: of the policies selected for
    it, by id, the first whose spend has reached its threshold and that does more than
    warn is the one that blocks, and all that have reached theirs and warn are reported;
    whatever way floats are summed. *)
Theorem budget_verdict tenant project environment agent deployment now b (Hsql : nr_sqlalchemy (N:=N) = true) :
  evaluate_persisted_budget_policies sum_floats tenant project environment agent deployment now b =
  (pl ← read_previews tenant project environment (channels_of tenant project (bk_budget b)) now
          (selected_policies tenant project environment agent deployment (bk_budget b));
   mret (verdict (channels_of tenant project (bk_budget b)) pl)) b.
Proof. by apply evaluate_verdict. Qed.

(** ** Policies for all projects or all environments *)

Definition repolicy (l : list CostBudgetPolicy) (b : Bk) : Bk :=
  b <| bk_budget := mkBudgetTables l (bt_channels (bk_budget b)) (bt_snapshots (bk_budget b)) |>.

(** [m] does not look at the policies. *)
Definition blind {A} (m : M Bk A) : Prop := ∀ l b, m (repolicy l b) = ((m b).1, repolicy l (m b).2).

Lemma blind_ret {A} (a : A) : blind (mret a).
Proof. done. Qed.
Lemma blind_bind {A B} (m : M Bk A) (f : A → M Bk B) : blind m → (∀ a, blind (f a)) → blind (m ≫= f).
Proof.
  intros Hm Hf l b. unfold mbind, M_bind. rewrite Hm. destruct (m b) as [[a|e] b1]; [apply Hf|done].
Qed.
Lemma blind_service {A} (m : M K A) : blind (in_service m).
Proof. intros l b. unfold in_service, zoom. simpl. by destruct (m _). Qed.
Lemma blind_native {A} (m : M N A) : blind (in_native m).
Proof. intros l b. unfold in_native, zoom. simpl. by destruct (m _). Qed.

Lemma blind_rows tenant project environment window now : blind (_load_cost_rows tenant project environment window now).
Proof.
  unfold _load_cost_rows. apply blind_bind; [apply blind_service|intros d].
  apply blind_bind; [apply blind_native|intros runs]. by intros l b.
Qed.

Lemma blind_preview tenant project environment channels now p :
  blind (preview_policy sum_floats tenant project environment channels now p).
Proof.
  unfold preview_policy, build_budget_preview, build_cost_attribution_summary.
  apply blind_bind; [intros l b; unfold of_option; by destruct (window_days _)|intros w].
  apply blind_bind; [|done]. apply blind_bind; [apply blind_service|intros _].
  apply blind_bind; [apply blind_rows|done].
Qed.

Lemma blind_check tenant project environment channels now l acc :
  blind (check_policies sum_floats tenant project environment channels now l acc).
Proof.
  revert now acc. induction l as [|p l IH]; intros now acc; [done|]. simpl.
  apply blind_bind; [apply blind_preview|intros ?; apply IH].
Qed.

(** The policies that name both a project and an environment. *)
Definition named_scope (p : CostBudgetPolicy) : bool :=
  match bp_project_id p, bp_environment p with Some _, Some _ => true | _, _ => false end.

Lemma selected_named tenant project environment agent deployment t :
  selected_policies tenant project environment agent deployment t =
  selected_policies tenant project environment agent deployment
    (mkBudgetTables (List.filter named_scope (bt_policies t)) (bt_channels t) (bt_snapshots t)).
Proof.
  unfold selected_policies. f_equal. simpl. induction (bt_policies t) as [|p l IH]; [done|]. simpl. rewrite IH.
  destruct (named_scope p) eqn:Hp; simpl; [done|].
  assert (_policy_statement tenant project environment agent deployment p = false) as ->; [|done].
  unfold named_scope in Hp. unfold _policy_statement, sql_in.
  destruct (bp_project_id p), (bp_environment p); try done; by rewrite ?andb_false_r, ?andb_false_l.
Qed.

(** A budget policy without an environment, or without a project, which the tables
    allow and which reads as a budget for all of them, is never enforced: the verdict is
    what it would be if all such policies did not exist, whatever their scope, threshold
    and the money spent. (The query compares the column with a list that holds
    [None].) *)
Theorem open_budgets_ignored tenant project environment agent deployment now b :
  (evaluate_persisted_budget_policies sum_floats tenant project environment agent deployment now b).1 =
  (evaluate_persisted_budget_policies sum_floats tenant project environment agent deployment now
    (repolicy (List.filter named_scope (bt_policies (bk_budget b))) b)).1.
Proof.
  unfold evaluate_persisted_budget_policies. destruct nr_sqlalchemy; [|done]. cbn [negb].
  unfold mbind, M_bind, get_state. cbv beta iota zeta.
  rewrite (selected_named tenant project environment agent deployment (bk_budget b)).
  change (channels_of tenant project (bk_budget (repolicy _ b))) with (channels_of tenant project (bk_budget b)).
  change (bk_budget (repolicy ?l b)) with (mkBudgetTables l (bt_channels (bk_budget b)) (bt_snapshots (bk_budget b))).
  destruct (selected_policies _ _ _ _ _ _); [done|]. by rewrite blind_check.
Qed.
End verdict.
