(* ===== verification/DeploymentLaws.v ===== *)
(** What the deployment service promises to the HTTP handlers: which records an
    operation may touch and what a saved record reads back as. The in-process service
    and the database-backed one both keep these laws. *)

From S2P Require Import Prelude Values Json StateMachine InMemory RunStore Deployments DeploymentStore.

Definition scope_of (d : DeploymentRecord) : Z * Z := (dp_tenant_id d, dp_project_id d).

(** Two versions of one deployment. *)
Definition same_identity (d d' : DeploymentRecord) : Prop :=
  dp_id d = dp_id d' ∧ scope_of d = scope_of d' ∧ dp_agent_id d = dp_agent_id d'.

#[export] Instance same_identity_equiv : Equivalence same_identity.
Proof. unfold same_identity. split; repeat intro; destruct_and?; split_and!; congruence. Qed.

Section relations.
Context {K Row : Type} (lookup : Z → K → option Row) (scope : Row → Z * Z) (inv : K → Prop).

(** The record [id], if there is one, belongs to the scope; there is one. *)
Definition own (id : Z) (sc : Z * Z) (k : K) : Prop := ∀ row, lookup id k = Some row → scope row = sc.
Definition holds (id : Z) (sc : Z * Z) (k : K) : Prop := ∃ row, lookup id k = Some row ∧ scope row = sc.

(** Only the record [id] may change, and [P] stays true of it. *)
Definition stays (P : K → Prop) (id : Z) : relation K := λ k k',
  inv k → P k → inv k' ∧ P k' ∧ ∀ i, i ≠ id → lookup i k' = lookup i k.

#[export] Instance stays_preorder P id : PreOrder (stays P id).
Proof.
  split; [by intros ???|]. intros k1 k2 k3 H1 H2 Hi Ho.
  destruct (H1 Hi Ho) as (Hi2&Ho2&E2), (H2 Hi2 Ho2) as (?&?&E3). split_and!; [done..|].
  intros i Hne. by rewrite E3, E2.
Qed.

Lemma holds_own id sc k : holds id sc k → own id sc k.
Proof. intros (row&E&Hs) row' E'. congruence. Qed.

(** The record [id] as other scopes see it. *)
Definition foreign (sc : Z * Z) (id : Z) (k : K) : option Row :=
  row ← lookup id k; if decide (scope row = sc) then None else Some row.

(** Nothing outside of the scope appears, changes or goes away. *)
Definition isolated (sc : Z * Z) : relation K := λ k k',
  inv k → inv k' ∧ ∀ id, foreign sc id k' = foreign sc id k.

#[export] Instance isolated_preorder sc : PreOrder (isolated sc).
Proof.
  split; [by intros ??|]. intros k1 k2 k3 H1 H2 Hi.
  destruct (H1 Hi) as [Hi2 E2], (H2 Hi2) as [? E3]. split; [done|]. intros id. by rewrite E3, E2.
Qed.

Lemma own_foreign id sc k : own id sc k → foreign sc id k = None.
Proof.
  intros Ho. unfold foreign. destruct (lookup id k) as [row|] eqn:E; [|done]. simpl.
  by rewrite decide_True by (by apply Ho).
Qed.

Lemma stays_isolated id sc (P : K → Prop) k k' : (∀ k, P k → own id sc k) → P k → stays P id k k' → isolated sc k k'.
Proof.
  intros HP Ho Hs Hi. destruct (Hs Hi Ho) as (?&Ho'&E). split; [done|]. intros i.
  destruct (decide (i = id)) as [->|]; [by rewrite !own_foreign by auto|]. unfold foreign. by rewrite E.
Qed.
End relations.

Class DeploymentLaws (K : Type) `{!DeploymentService K} := {
  dl_row : Type;
  dl_lookup : Z → K → option dl_row;
  dl_scope : dl_row → Z * Z;
  dl_inv : K → Prop;
  dl_stays := λ id sc, stays dl_lookup dl_inv (own dl_lookup dl_scope id sc) id;
  dl_keeps := λ id sc, stays dl_lookup dl_inv (holds dl_lookup dl_scope id sc) id;
  dl_isolated := isolated dl_lookup dl_scope dl_inv;
  dl_get_state id k : (sv_get id k).2 = k;
  dl_get_row id k d : dl_inv k → (sv_get id k).1 = Ret d →
    dp_id d = id ∧ ∃ row, dl_lookup id k = Some row ∧ dl_scope row = scope_of d;
  dl_list_state t p k : (sv_list t p k).2 = k;
  dl_instances_state id k : (sv_instances id k).2 = k;
  dl_add d : dp_id d = 0 → respects (dl_isolated (scope_of d)) (sv_add d);
  dl_save d : respects (dl_keeps (dp_id d) (scope_of d)) (sv_save d);
  dl_archive id sc : respects (dl_stays id sc) (sv_archive id);
  dl_assign id sc f : (∀ d, same_identity d (f d)) → respects (dl_keeps id sc) (sv_assign id f);
  dl_control policy op sc : respects (dl_stays (op_id op) sc) (sv_control policy op);
  dl_audit e P id : (∀ k k', (∀ i, dl_lookup i k' = dl_lookup i k) → P k → P k') →
    respects (stays dl_lookup dl_inv P id) (sv_audit e);
  dl_rollback_isolated sc k k' : dl_isolated sc k k' → dl_isolated sc k (sv_rollback k k');
  dl_save_get id d d1 d2 k k' : dl_inv k → (sv_get id k).1 = Ret d → same_identity d d1 →
    sv_save d1 k = (Ret d2, k') → d2 = d1 ∧ (sv_get id k').1 = Ret d1;
  dl_assign_get id f d k : dl_inv k → (sv_get id k).1 = Ret d → (∀ d, same_identity d (f d)) →
    (sv_assign id f k).1 = Ret tt ∧ ∃ d', (sv_get id (sv_assign id f k).2).1 = Ret d' ∧ same_identity d d';
  dl_audit_get e id k : (sv_audit e k).1 = Ret tt ∧ (sv_get id (sv_audit e k).2).1 = (sv_get id k).1
}.
#[export] Existing Instance stays_preorder.
#[export] Existing Instance isolated_preorder.
#[export] Instance dl_keeps_preorder {K} `{DeploymentLaws K} id sc : PreOrder (dl_keeps id sc).
Proof. apply _. Qed.
#[export] Instance dl_stays_preorder {K} `{DeploymentLaws K} id sc : PreOrder (dl_stays id sc).
Proof. apply _. Qed.
#[export] Instance dl_isolated_preorder {K} `{DeploymentLaws K} sc : PreOrder (dl_isolated sc).
Proof. apply _. Qed.

(** * The in-process service *)

(** Records are filed under their ids, and ids are handed out in order. *)
Definition control_inv (c : ControlService) : Prop :=
  filed c ∧ ∀ id d, deployment_of id c = Some d → id < store_next_id (cs_deployments c).

Abbreviation control_stays := (stays deployment_of control_inv).

(** Replacing a record. *)
Lemma replace_stays (P : ControlService → Prop) id c c' d' :
  deployments (cs_deployments c') = dict_set id d' (deployments (cs_deployments c)) →
  store_next_id (cs_deployments c') = store_next_id (cs_deployments c) →
  is_Some (deployment_of id c) → dp_id d' = id →
  (P c → deployment_of id c' = Some d' → P c') → control_stays P id c c'.
Proof.
  intros Hd Hn [d0 Hd0] Hid HP [Hf Hlt] Ho.
  unfold control_inv, filed, deployment_of in *. rewrite Hd, Hn in *. rewrite dict_get_set_eq in HP.
  split_and!; [..|by apply HP|].
  - intros i d. rewrite dict_get_set. case_decide; [by intros [= <-]; subst|apply Hf].
  - intros i d. rewrite dict_get_set. case_decide; [subst i; intros _; by eapply Hlt|apply Hlt].
  - intros i Hne. by rewrite dict_get_set_ne.
Qed.

Lemma keep_stays (P : ControlService → Prop) id c c' : cs_deployments c' = cs_deployments c → (P c → P c') →
  control_stays P id c c'.
Proof. unfold stays, control_inv, filed, deployment_of. intros -> HP Hi Ho. split_and!; [by apply Hi..|by apply HP|done]. Qed.

Lemma control_next policy op : respects (λ c c', store_next_id (cs_deployments c') = store_next_id (cs_deployments c))
  (run_control policy op).
Proof.
  assert (PreOrder (λ c c', store_next_id (cs_deployments c') = store_next_id (cs_deployments c))) as Hp
    by (split; repeat intro; congruence).
  set (R := λ c c' : ControlService, store_next_id (cs_deployments c') = store_next_id (cs_deployments c)) in *.
  assert (∀ A (m : M InMemoryDeploymentStore A), respects (λ s s', store_next_id s' = store_next_id s) m →
    respects R (in_store m)) as Hst.
  { intros A m Hm c. unfold in_store, zoom, R. specialize (Hm (cs_deployments c)). by destruct (m _) as [r s]. }
  assert (∀ A (m : M AgentInstanceRegistry A), respects R (in_registry m)) as Hreg.
  { intros A m c. unfold in_registry, zoom, R. by destruct (m _) as [r s]. }
  assert (∀ id, respects R (in_store (store_get id))) as Hget.
  { intros id. apply Hst. unfold store_get. intros s. m_unfold. by destruct (dict_get id _). }
  assert (∀ d, respects R (in_store (store_save d))) as Hsave by (intros d; apply Hst; by intros s).
  assert (∀ id f, respects R (mutate_deployment id f)) as Hmut.
  { intros id f. apply Hst. intros s. unfold zoom, on_key. m_unfold. by destruct (dict_get id _). }
  assert (∀ a d b r m, respects R (_write_audit a d b r m)) as Haud by (intros; by intros c).
  assert (∀ id a action desired, respects R (_control policy id a action desired)) as Hctl.
  { intros id a action desired. unfold _control. apply respects_bind; [done|apply Hget|intros d].
    apply respects_bind; [done| |intros _].
    { destruct (binding_error _ _ _ _ _); [|by apply respects_ret].
      apply respects_bind; [done|apply Haud|intros; by apply respects_raise]. }
    apply respects_bind; [done| |intros _].
    { destruct (dd_allowed _); [by apply respects_ret|].
      apply respects_bind; [done|apply Haud|intros; by apply respects_raise]. }
    repeat (apply respects_bind; [done|done || by apply respects_get_state|intros ?]). by apply respects_ret. }
  assert (∀ id r b, respects R (summarize id r b)) as Hsum.
  { intros id r b. unfold summarize.
    repeat (apply respects_bind; [done|done || by apply respects_get_state|intros ?]). by apply respects_ret. }
  destruct op; simpl; unfold activate, pause, resume, drain_deployment, stop, restart; try done;
    repeat (apply respects_bind; [done|done|intros ?]); try done; by apply respects_ret.
Qed.

Lemma control_lawful policy op sc :
  respects (control_stays (own deployment_of scope_of (op_id op) sc) (op_id op)) (run_control policy op).
Proof.
  intros c Hi Ho. pose proof (run_control_spec policy op c (proj1 Hi)) as Hs.
  pose proof (control_next policy op c) as Hn.
  destruct (deployment_of (op_id op) c) as [d|] eqn:Hd; [|by rewrite Hs].
  destruct (refusal policy _ _ d) as [[e reason]|] eqn:Hr; [rewrite Hs; by apply (keep_stays _ _ c)|].
  destruct Hs as (d'&d''&c'&E&Hdep&Hid&_&Ht&Hp&_). rewrite E in Hn |- *. simpl in Hn |- *.
  eapply (replace_stays _ (op_id op) c c' d''); try done.
  - rewrite Hid. by apply (proj1 Hi).
  - intros _ E' row Hrow. rewrite <-(Ho d Hd). unfold scope_of. assert (row = d'') as -> by congruence. by rewrite Ht, Hp.
Qed.

#[export] Instance in_process_lawful : DeploymentLaws ControlService.
Proof.
  refine {| dl_row := DeploymentRecord; dl_lookup := deployment_of; dl_scope := scope_of; dl_inv := control_inv |}; simpl.
  - intros id c. by rewrite get_run_eq.
  - intros id c d [Hf _]. rewrite get_run_eq. destruct (deployment_of id c) as [d'|] eqn:Hd; [|done].
    intros [= <-]. split; [by apply Hf|by eauto].
  - done.
  - intros id c. unfold list_instances, mbind, M_bind. rewrite get_run_eq. by destruct (deployment_of id c).
  - intros d Hid c [Hf Hlt]. unfold in_store, store_add. m_unfold. rewrite Hid. simpl.
    set (n := store_next_id (cs_deployments c)).
    assert (dict_get n (deployments (cs_deployments c)) = None) as Hfresh.
    { destruct (dict_get n _) as [d0|] eqn:E; [|done]. apply Hlt in E. lia. }
    split; [split|].
    + intros i d'. simpl. rewrite dict_get_set. case_decide; [by intros [= <-]|apply Hf].
    + intros i d'. unfold deployment_of. simpl. rewrite dict_get_set.
      case_decide; [subst i; intros _; fold n; lia|intros Hd%Hlt; fold n in Hd; lia].
    + intros i. unfold foreign, deployment_of. simpl. rewrite dict_get_set. case_decide; [|done]. subst i. simpl.
      rewrite Hfresh. simpl. by rewrite decide_True.
  - intros d c Hi Ho. apply (replace_stays _ _ c _ d); try done.
    + destruct Ho as (row&?&_). by eexists.
    + intros _ E. by exists d.
  - intros id sc c Hi Ho. unfold in_store, store_archive, store_get. m_unfold.
    destruct (dict_get id (deployments (cs_deployments c))) as [d|]; [|by destruct c].
    simpl. destruct Hi as [Hf Hlt]. unfold control_inv, filed, own, deployment_of in *. simpl.
    assert (∀ i d', dict_get i (dict_pop id (deployments (cs_deployments c))) = Some d' →
      dict_get i (deployments (cs_deployments c)) = Some d') as Hpop.
    { intros i d'. destruct (decide (id = i)) as [<-|]; [by rewrite dict_get_pop_eq|by rewrite dict_get_pop_ne]. }
    split_and!; [by eauto..|by intros row Hr%Hpop; eauto|]. intros i Hne. by rewrite dict_get_pop_ne.
  - intros id sc f Hf c Hi Ho. pose proof Ho as (d&Hd&Hsc).
    rewrite (mutate_run id f c d) by done. apply (replace_stays _ id c _ (f d)); try done.
    + rewrite <-(proj1 (Hf d)). by apply (proj1 Hi).
    + intros _ E. exists (f d). split; [done|]. by rewrite <-(proj1 (proj2 (Hf d))).
  - apply control_lawful.
  - intros e P id HP c. apply keep_stays; [done|]. by apply HP.
  - done.
  - intros id d d1 d2 c c' Hi. rewrite get_run_eq. destruct (deployment_of id c) as [d0|] eqn:Hd; [|done].
    intros [= ->] Hs. unfold in_store, store_save. m_unfold. intros [= <- <-].
    split; [done|]. unfold store_get. m_unfold. simpl.
    rewrite <-(proj1 Hs), (proj1 Hi id d Hd). by rewrite dict_get_set_eq.
  - intros id f d c Hi. rewrite get_run_eq. destruct (deployment_of id c) as [d0|] eqn:Hd; [|done].
    intros [= ->] Hf. rewrite (mutate_run id f c d) by done. split; [done|]. exists (f d). split; [|done].
    rewrite get_run_eq. unfold deployment_of. simpl. by rewrite dict_get_set_eq.
  - intros e id c. by rewrite !get_run_eq.
Defined.

(** * The database *)

Definition row_scope (w : DeploymentRow) : Z * Z := (dw_tenant_id w, dw_project_id w).
Definition rows_inv (s : SqlDeployments) : Prop :=
  ∀ id w, dict_get id (sd_rows s) = Some w → dw_id w = id ∧ id < sd_next s.

Abbreviation rows_stay := (stays deployment_row rows_inv).

Lemma desired_roundtrip st : desired_status_of (desired_status_value st) = Some st.
Proof. by destruct st. Qed.
Lemma runtime_roundtrip st : runtime_status_of (runtime_status_value st) = Some st.
Proof. by destruct st. Qed.

Lemma from_model_state w s : (deployment_from_model w s).2 = s.
Proof. unfold deployment_from_model. m_unfold. by destruct (desired_status_of (dw_desired_status w)), (runtime_status_of (dw_runtime_status w)). Qed.

(** What the record of a row holds. *)
Lemma from_model_ret w s d : (deployment_from_model w s).1 = Ret d →
  dp_id d = dw_id w ∧ scope_of d = row_scope w ∧ dp_agent_id d = dw_agent_id w.
Proof.
  unfold deployment_from_model. m_unfold.
  destruct (desired_status_of (dw_desired_status w)), (runtime_status_of (dw_runtime_status w)); try done. by intros [= <-].
Qed.

(** The row of a record reads back as the record. *)
Lemma from_model_saved d s :
  deployment_from_model (mkDeploymentRow (dp_id d) (dp_tenant_id d) (dp_project_id d) (dp_agent_id d)
    (dp_agent_version_id d) (dp_environment d) (desired_status_value (dp_desired_status d))
    (runtime_status_value (dp_runtime_status d)) (dp_replicas d) (dp_config_json d) (dp_last_runtime_error d) false) s
  = (Ret d, s).
Proof.
  unfold deployment_from_model. simpl. rewrite desired_roundtrip, runtime_roundtrip. m_unfold. by destruct d.
Qed.

Lemma get_row_eq id s : sql_get id s =
  match deployment_row id s with
  | Some w => deployment_from_model w s
  | None => (Raise (DeploymentNotFoundError id), s)
  end.
Proof. unfold sql_get, of_option. m_unfold. by destruct (deployment_row id s). Qed.

Lemma get_state_eq id s : (sql_get id s).2 = s.
Proof. rewrite get_row_eq. destruct (deployment_row id s); [apply from_model_state|done]. Qed.

Lemma from_models_state l s : (from_models l s).2 = s.
Proof.
  induction l as [|w l IH]; [done|]. simpl. unfold mbind, M_bind.
  pose proof (from_model_state w s) as Hw. destruct (deployment_from_model w s) as [[d|e] s']; simpl in *; [|done].
  subst s'. destruct (from_models l s) as [[ds|e] s']; simpl in *; done.
Qed.

Lemma flush_eq w s : flush_row w s = (Raise (IntegrityError "uq_deployments_project_environment_agent_active"), s) ∨
  flush_row w s = (Ret tt, s <| sd_rows := dict_set (dw_id w) w (sd_rows s) |>).
Proof. unfold flush_row. m_unfold. destruct (negb _); [by right|by left]. Qed.

(** Replacing a row; the live row may be taken away. *)
Lemma replace_row_stays (P : SqlDeployments → Prop) id s s' w' :
  sd_rows s' = dict_set id w' (sd_rows s) → sd_next s' = sd_next s → is_Some (deployment_row id s) →
  dw_id w' = id → (P s → deployment_row id s' = (if dw_is_deleted w' then None else Some w') → P s') →
  rows_stay P id s s'.
Proof.
  intros Hr Hn [w0 Hw0] Hid HP Hi Ho. unfold rows_inv, deployment_row in *. rewrite Hr, Hn in *.
  rewrite dict_get_set_eq in HP. destruct (dict_get id (sd_rows s)) as [w1|] eqn:E; [|done]. split_and!; [..|by apply HP|].
  - intros i w. rewrite dict_get_set. case_decide; [intros [= <-]; subst i|apply Hi].
    split; [done|]. by eapply Hi.
  - intros i Hne. by rewrite dict_get_set_ne.
Qed.

Lemma keep_rows_stay (P : SqlDeployments → Prop) id s s' : sd_rows s' = sd_rows s → sd_next s' = sd_next s →
  (P s → P s') → rows_stay P id s s'.
Proof. unfold stays, rows_inv, deployment_row. intros -> -> HP Hi Ho. split_and!; [done|by apply HP|done]. Qed.

(** A live row is filed under its id. *)
Lemma live_row id s w : rows_inv s → deployment_row id s = Some w → dw_id w = id ∧ dw_is_deleted w = false.
Proof.
  intros Hi. unfold deployment_row. destruct (dict_get id (sd_rows s)) as [w'|] eqn:E; [|done]. simpl.
  destruct (dw_is_deleted w') eqn:Hd; [done|]. intros [= <-]. split; [by eapply Hi|done].
Qed.

Definition saved_row (d : DeploymentRecord) (w : DeploymentRow) : DeploymentRow :=
  w <| dw_desired_status := desired_status_value (dp_desired_status d) |>
    <| dw_runtime_status := runtime_status_value (dp_runtime_status d) |>
    <| dw_last_runtime_error := dp_last_runtime_error d |> <| dw_agent_version_id := dp_agent_version_id d |>
    <| dw_environment := dp_environment d |> <| dw_replicas := dp_replicas d |> <| dw_config_json := dp_config_json d |>.
Definition archived_row (w : DeploymentRow) : DeploymentRow :=
  w <| dw_desired_status := "archived" |> <| dw_runtime_status := "stopped" |> <| dw_is_deleted := true |>.

(** What [save] does: nothing, or it replaces the row. *)
Lemma save_cases d s :
  ((sql_save d s).2 = s ∧ raises (sql_save d s).1) ∨
  ∃ w, deployment_row (dp_id d) s = Some w ∧
    sql_save d s = deployment_from_model (saved_row d w) (s <| sd_rows := dict_set (dw_id w) (saved_row d w) (sd_rows s) |>).
Proof.
  unfold sql_save, of_option. unfold mbind, M_bind, get_state.
  destruct (deployment_row (dp_id d) s) as [w|] eqn:Hw; [|left; split; [done|by eexists]].
  unfold mret, M_ret. cbv beta iota zeta. fold (saved_row d w).
  destruct (flush_eq (saved_row d w) s) as [->| ->]; [left; split; [done|by eexists]|]. right. by exists w.
Qed.

Lemma archive_cases id s :
  (sql_archive id s).2 = s ∨
  ∃ w, deployment_row id s = Some w ∧
    (sql_archive id s).2 = s <| sd_rows := dict_set id (archived_row w) (sd_rows s) |>.
Proof.
  unfold sql_archive, of_option. unfold mbind, M_bind, get_state.
  destruct (deployment_row id s) as [w|] eqn:Hw; [|by left].
  unfold mret, M_ret, modify. cbv beta iota zeta. fold (archived_row w). rewrite from_model_state. right. by exists w.
Qed.

(** Scopes of rows survive a save, and so does the row. *)
Definition scoped_by (P : SqlDeployments → Prop) (id : Z) : Prop := ∀ s s' w w',
  deployment_row id s = Some w → deployment_row id s' = Some w' → row_scope w' = row_scope w → P s → P s'.

Lemma own_scoped id sc : scoped_by (own deployment_row row_scope id sc) id.
Proof. intros s s' w w' Hw Hw' Hs Ho row Hr. assert (row = w') as -> by congruence. rewrite Hs. by apply Ho. Qed.
Lemma holds_scoped id sc : scoped_by (holds deployment_row row_scope id sc) id.
Proof. intros s s' w w' Hw Hw' Hs (row&E&Hsc). exists w'. split; [done|]. rewrite Hs. congruence. Qed.

Lemma sql_save_stays (P : SqlDeployments → Prop) d s : scoped_by P (dp_id d) → rows_stay P (dp_id d) s (sql_save d s).2.
Proof.
  intros HP. destruct (save_cases d s) as [[-> _]|(w&Hw&->)]; [by apply keep_rows_stay|]. rewrite from_model_state.
  intros Hi Ho. destruct (live_row _ _ _ Hi Hw) as [Hid Hlive].
  apply (replace_row_stays P (dp_id d) s _ (saved_row d w)); try done.
  - simpl. by rewrite Hid.
  - intros HPs E. simpl in E. rewrite Hlive in E. by apply (HP s _ w (saved_row d w)).
Qed.

Lemma sql_archive_stays id sc s : rows_stay (own deployment_row row_scope id sc) id s (sql_archive id s).2.
Proof.
  destruct (archive_cases id s) as [->|(w&Hw&->)]; [by apply keep_rows_stay|].
  intros Hi Ho. destruct (live_row _ _ _ Hi Hw) as [Hid _].
  apply (replace_row_stays _ id s _ (archived_row w)); try done.
  intros _ E row Hr. by rewrite E in Hr.
Qed.

Lemma sql_audit_stays e (P : SqlDeployments → Prop) id :
  (∀ s s', (∀ i, deployment_row i s' = deployment_row i s) → P s → P s') → respects (rows_stay P id) (sql_audit e).
Proof. intros HP s. apply keep_rows_stay; [done..|]. by apply HP. Qed.

Lemma sql_get_stays i (P : SqlDeployments → Prop) id : respects (rows_stay P id) (sql_get i).
Proof. intros s. rewrite get_state_eq. by apply keep_rows_stay. Qed.

Lemma own_lookup {K Row} (lookup : Z → K → option Row) scope id sc k k' :
  (∀ i, lookup i k' = lookup i k) → own lookup scope id sc k → own lookup scope id sc k'.
Proof. unfold own. by intros ->. Qed.
Lemma holds_lookup {K Row} (lookup : Z → K → option Row) scope id sc k k' :
  (∀ i, lookup i k' = lookup i k) → holds lookup scope id sc k → holds lookup scope id sc k'.
Proof. unfold holds. by intros ->. Qed.

(** The record [get] returns carries the id asked for. *)
Lemma sql_get_id id s d : rows_inv s → (sql_get id s).1 = Ret d → dp_id d = id ∧
  ∃ w, deployment_row id s = Some w ∧ row_scope w = scope_of d ∧ dp_agent_id d = dw_agent_id w.
Proof.
  intros Hi. rewrite get_row_eq. destruct (deployment_row id s) as [w|] eqn:Hw; [|done].
  intros Hd. apply from_model_ret in Hd as (Hd1&Hd2&Hd3). destruct (live_row _ _ _ Hi Hw) as [Hid _].
  split; [by rewrite Hd1|]. by exists w.
Qed.

Lemma sql_control_stays policy op sc :
  respects (rows_stay (own deployment_row row_scope (op_id op) sc) (op_id op)) (sql_control policy op).
Proof.
  set (Rel := rows_stay (own deployment_row row_scope (op_id op) sc) (op_id op)).
  intros s Hi Ho. assert (Rel s (sql_control policy op s).2) as Hst; [|by apply Hst].
  unfold sql_control. cbv zeta. apply respects_bind_at; [apply _|apply sql_get_stays|]. intros d s' Hg.
  assert (s' = s) as -> by (pose proof (get_state_eq (op_id op) s) as Hs; by rewrite Hg in Hs).
  assert (dp_id d = op_id op) as Hid by (eapply sql_get_id; [done|by rewrite Hg]). clear Hi Ho Hg. revert s.
  assert (∀ e, respects Rel (sql_audit e)) as Haudit by (intros e; apply sql_audit_stays; intros ??; apply own_lookup).
  assert (∀ e x, respects Rel (sql_audit e ;; @raise SqlDeployments unit x)) as Hdeny.
  { intros e x. apply (respects_bind Rel); [apply Haudit|]. intros _. apply respects_raise, _. }
  apply (respects_bind Rel); [|intros _].
  { destruct (binding_error _ _ _ _ _); [apply Hdeny|apply respects_ret, _]. }
  apply (respects_bind Rel); [|intros _].
  { destruct (dd_allowed _); [apply respects_ret, _|apply Hdeny]. }
  apply (respects_bind Rel); [|intros _].
  { unfold Rel. rewrite <-Hid. intros s. apply (sql_save_stays _ (controlled (op_desired op) [] d)), own_scoped. }
  apply (respects_bind Rel); [apply Haudit|intros _].
  destruct op; try (apply respects_ret, _). apply sql_get_stays.
Qed.

Lemma sql_add_isolated d : respects (isolated deployment_row row_scope rows_inv (scope_of d)) (sql_add d).
Proof.
  intros s Hi. unfold sql_add. unfold mbind, M_bind, get_state. cbv zeta.
  set (w := mkDeploymentRow _ _ _ _ _ _ _ _ _ _ _ _). destruct (flush_eq w s) as [->| ->]; [done|].
  unfold modify. rewrite from_model_state.
  assert (dict_get (sd_next s) (sd_rows s) = None) as Hfresh.
  { destruct (dict_get (sd_next s) (sd_rows s)) as [w0|] eqn:E; [|done]. apply Hi in E. lia. }
  split.
  - intros i w'. simpl. rewrite dict_get_set. case_decide as Hdec.
    + intros [= <-]. simpl. lia.
    + intros Hg%Hi. lia.
  - intros i. unfold foreign, deployment_row. simpl. rewrite dict_get_set. case_decide as Hdec; [|done]. subst i.
    rewrite Hfresh. simpl. by rewrite decide_True.
Qed.

(** A saved record reads back as it was saved. *)
Lemma sql_save_get id d d1 d2 s s' : rows_inv s → (sql_get id s).1 = Ret d → same_identity d d1 →
  sql_save d1 s = (Ret d2, s') → d2 = d1 ∧ (sql_get id s').1 = Ret d1.
Proof.
  intros Hi Hg (Hid&Hsc&Ha) Hs. destruct (sql_get_id id s d Hi Hg) as (Hdid&w&Hw&Hwsc&Hwa).
  destruct (save_cases d1 s) as [[_ [e He]]|(w'&Hw'&E)]; [by rewrite Hs in He|].
  rewrite <-Hid, Hdid, Hw in Hw'. injection Hw' as <-. destruct (live_row _ _ _ Hi Hw) as [Hwid Hlive].
  assert (saved_row d1 w = mkDeploymentRow (dp_id d1) (dp_tenant_id d1) (dp_project_id d1) (dp_agent_id d1)
    (dp_agent_version_id d1) (dp_environment d1) (desired_status_value (dp_desired_status d1))
    (runtime_status_value (dp_runtime_status d1)) (dp_replicas d1) (dp_config_json d1) (dp_last_runtime_error d1) false)
    as Hrow.
  { rewrite Hsc in Hwsc. unfold row_scope, scope_of in Hwsc. injection Hwsc as Ht Hp. unfold saved_row. simpl.
    rewrite Hwid, Hlive, Ht, Hp, <-Hwa, <-Ha, <-Hid, Hdid. done. }
  rewrite Hs, Hrow, from_model_saved in E. injection E as -> ->. split; [done|].
  rewrite get_row_eq. unfold deployment_row. simpl. rewrite Hwid, dict_get_set_eq. simpl. by rewrite from_model_saved.
Qed.

#[export] Instance sql_lawful : DeploymentLaws SqlDeployments.
Proof.
  refine {| dl_row := DeploymentRow; dl_lookup := deployment_row; dl_scope := row_scope; dl_inv := rows_inv |}; simpl.
  - apply get_state_eq.
  - intros id s d Hi Hd. destruct (sql_get_id id s d Hi Hd) as (?&w&?&?&_). by eauto.
  - intros t p s. apply from_models_state.
  - intros id s. unfold mbind, M_bind. pose proof (get_state_eq id s) as Hs. by destruct (sql_get id s) as [[d|e] s'].
  - intros d _. apply sql_add_isolated.
  - intros d s. apply sql_save_stays, holds_scoped.
  - intros id sc s. apply sql_archive_stays.
  - intros id sc f _ s. by apply keep_rows_stay.
  - apply sql_control_stays.
  - apply sql_audit_stays.
  - intros sc s s' _ Hi. done.
  - apply sql_save_get.
  - intros id f d s Hi Hg _. split; [done|]. exists d. split; [done|reflexivity].
  - intros e id s. split; [done|]. rewrite !get_row_eq. unfold deployment_row. simpl.
    destruct (dict_get id (sd_rows s)) as [w|]; [|done]. simpl. destruct (dw_is_deleted w); [done|].
    unfold deployment_from_model. m_unfold.
    by destruct (desired_status_of (dw_desired_status w)), (runtime_status_of (dw_runtime_status w)).
Defined.
