(* ===== verification/DeploymentApi.v ===== *)
(** Deployments over HTTP: the handlers of [api/native/deployments.py], and promotion
    and rollback of [api/native/promotion.py] with the quality gates of
    [api/admin/experiments.py].

    A reply carries the item or the status and error code; a body that fails the checks
    of its model is refused before anything else is read. An experiment is its quality
    gate, whose evidence is copied and never read but for the candidate's id. *)

From stdpp Require Import gmap.
From S2P Require Import Prelude Values Json StateMachine Floats Deployments Idempotency NativeApi ApiKeys Console ConsoleApi DeploymentStore Costs.

(** * State *)

Record QualityGate := mkGate {
  qg_status : string;
  qg_promotion_allowed : bool;
  qg_blocked_reason : option string;
  qg_required_evidence : list string;
  qg_evidence : pydict
}.

Record DeliveryAttempt := mkAttempt {
  de_id : Z;
  de_channel_id : option Z;
  de_channel_name : string;
  de_target_ref : string;
  de_status : string;
  de_source : string;
  de_message : string;
  de_request_id : option string
}.

Record DeployApi (C R K N : Type) := mkDeployApi {
  da_api : Api C R;
  da_backend : Backend K N;
  da_experiments : dict Z QualityGate;
  da_attempts : list DeliveryAttempt;
  da_delivery_sequence : Z
}.
Arguments mkDeployApi {C R K N}.
Arguments da_api {C R K N}.
Arguments da_backend {C R K N}.
Arguments da_experiments {C R K N}.
Arguments da_attempts {C R K N}.
Arguments da_delivery_sequence {C R K N}.
#[export] Instance DeployApi_eta {C R K N} : Eta (DeployApi C R K N) := λ s,
  mkDeployApi (da_api s) (da_backend s) (da_experiments s) (da_attempts s) (da_delivery_sequence s).

(** ** Bodies *)

Record DeploymentCreate := mkDeploymentCreate {
  dc_agent_id : Z;
  dc_agent_version_id : Z;
  dc_environment : string;
  dc_desired_status : DeploymentDesiredStatus;
  dc_replicas : Z;
  dc_config : pydict
}.
Record DeploymentUpdate := mkDeploymentUpdate {
  du_agent_version_id : option Z;
  du_environment : option string;
  du_replicas : option Z;
  du_config : option pydict
}.
Record DeploymentTaskCreate := mkTaskCreate { dt_input : pydict; dt_thread_id : option string }.
Record TaskCreated := mkTaskCreated { tr_run_id : Z; tr_task_id : Z; tr_status : string; tr_replayed : bool }.
Record DeploymentPromotePayload := mkPromote {
  pp_candidate_version_id : Z;
  pp_expected_current_version_id : Z;
  pp_experiment_run_id : Z;
  pp_rollout_reason : string
}.
Record DeploymentRollbackPayload := mkRollback {
  rp_expected_current_version_id : Z;
  rp_rollback_agent_version_id : option Z;
  rp_rollback_reason : string
}.
Record PromotionPreview := mkPromotionPreview {
  pw_deployment_id : Z;
  pw_environment : string;
  pw_desired_status : string;
  pw_runtime_status : string;
  pw_current_agent_version_id : Z;
  pw_candidate_agent_version_id : Z;
  pw_active_runs : nat;
  pw_queued_tasks : nat;
  pw_candidate_validation_status : string;
  pw_rollback_agent_version_id : Z;
  pw_can_promote : bool;
  pw_blocked_reason : option string;
  pw_warnings : list string;
  pw_quality_gate : QualityGate
}.

Definition valid_deployment_create (p : DeploymentCreate) : bool :=
  min_length 1 (dc_environment p) && (1 <=? dc_replicas p).
Definition valid_deployment_update (p : DeploymentUpdate) : bool :=
  match du_environment p with Some e => min_length 1 e | None => true end &&
  match du_replicas p with Some n => 1 <=? n | None => true end.

(** ** Promotion data *)

Definition _promotion_config (d : DeploymentRecord) : pydict :=
  match dict_get "promotion" (dp_config_json d) with Some (VDict p) => p | _ => [] end.

(** [isinstance(previous, int)] holds of truth values, too. *)
Definition _rollback_version_id (d : DeploymentRecord) : option Z :=
  match dict_get "previous_agent_version_id" (_promotion_config d) with
  | Some (VInt z) => Some z
  | Some (VBool b) => Some (Z.b2z b)
  | _ => None
  end.

Definition gate_value (g : QualityGate) : value :=
  VDict [("status", VStr (qg_status g)); ("promotion_allowed", VBool (qg_promotion_allowed g));
    ("blocked_reason", of_str_opt (qg_blocked_reason g));
    ("required_evidence", VList (VStr <$> qg_required_evidence g)); ("evidence", VDict (qg_evidence g))].

Definition missing_evidence (reason : string) (deployment candidate experiment : option Z) : QualityGate :=
  mkGate "failed" false (Some reason) ["experiment_run"; "evaluation_results"]
    [("deployment_id", of_int_opt deployment); ("candidate_agent_version_id", of_int_opt candidate);
     ("experiment_run_id", of_int_opt experiment)].

(** The id the evidence names: an integer or [None], as [_gate] writes it. *)
Definition evidence_candidate (g : QualityGate) : option Z :=
  match dict_get "candidate_agent_version_id" (qg_evidence g) with Some (VInt z) => Some z | _ => None end.

Definition quality_gate_for_candidate (deployment candidate experiment : option Z)
    (experiments : dict Z QualityGate) : QualityGate :=
  match experiment with
  | None => missing_evidence "quality_evidence_required" deployment candidate experiment
  | Some e =>
      if e <=? 0 then missing_evidence "quality_evidence_required" deployment candidate experiment
      else match dict_get e experiments with
           | None => missing_evidence "experiment_run_not_found" deployment candidate experiment
           | Some g =>
               match candidate, evidence_candidate g with
               | Some c, Some ec =>
                   if c =? ec then g
                   else mkGate "failed" false (Some "candidate_evidence_mismatch") (qg_required_evidence g)
                          (dict_set "requested_candidate_agent_version_id" (VInt c) (qg_evidence g))
               | _, _ => g
               end
           end
  end.

Section api.
Context {C R K N : Type} `{!SessionCache C, !ServiceAccounts R, !DeploymentService K, !NativeRuntime N}.
Context (sha256 : string → string) (env : ApiConfig) (sum_floats : list float → float).
Context (policy : DeploymentPolicyEngine).
Abbreviation Srv := (DeployApi C R K N).
Implicit Types s : Srv.

Definition in_api {A} (m : M (Api C R) A) : M Srv A := zoom da_api (λ a s, s <| da_api := a |>) m.
Definition in_backend {A} (m : M (Backend K N) A) : M Srv A := zoom da_backend (λ b s, s <| da_backend := b |>) m.
Definition service {A} (m : M K A) : M Srv A := in_backend (in_service m).
Definition native {A} (m : M N A) : M Srv A := in_backend (in_native m).

(** The generators that provide the service and the runtime: a request that raises is
    rolled back. *)
Definition request {A} (m : M Srv A) : M Srv A := λ s,
  match m s with
  | (Ret a, s') => (Ret a, s')
  | (Raise e, s') => (Raise e, s' <| da_backend :=
      mkBackend (sv_rollback (bk_service (da_backend s)) (bk_service (da_backend s')))
        (nr_rollback (bk_native (da_backend s)) (bk_native (da_backend s'))) (bk_budget (da_backend s')) |>)
  end.

Definition validated {A} (valid : bool) (m : M Srv (reply A)) : M Srv (reply A) :=
  if valid then m else mret (Refused 422 "validation_error").

(** [require_scope] and [authenticate_api_key], which is given neither cookie nor
    environment *)
Definition _authorize {A} (h : Headers) (required_scope : string)
    (f : Z → Z → AuthenticatedActor → M Srv (reply A)) : M Srv (reply A) :=
  match hd_tenant_id h, hd_project_id h with
  | Some tenant, Some project =>
      r ← in_api (authenticate_api_key sha256 env
            (mkHeaders (hd_authorization h) None (Some tenant) (Some project) None) tenant required_scope);
      match r with
      | Refused c e => mret (Refused c e)
      | Item actor => f tenant project actor
      end
  | _, _ => mret (Refused 400 "request_scope_required")
  end.

Definition deployment_in_scope (d : DeploymentRecord) (tenant project : Z) : bool :=
  (dp_tenant_id d =? tenant) && (dp_project_id d =? project).

Definition _get_scoped_deployment {A} (id tenant project : Z) (f : DeploymentRecord → M Srv (reply A)) : M Srv (reply A) :=
  r ← catch (service (sv_get id));
  match r with
  | Ret d => if deployment_in_scope d tenant project then f d else mret (Refused 404 "deployment_not_found")
  | Raise (DeploymentNotFoundError _) => mret (Refused 404 "deployment_not_found")
  | Raise e => raise e
  end.

(** Assigns attributes of the record [d] that [get] returned. *)
Definition assign (d : DeploymentRecord) (f : DeploymentRecord → DeploymentRecord) : M Srv DeploymentRecord :=
  service (sv_assign (dp_id d) f) ;; mret (f d).

Definition write_audit (action : string) (id : Z) (actor : AuthenticatedActor) (tenant project : Z)
    (rid : option string) (result : string) (metadata : dict string string) : M Srv unit :=
  service (sv_audit (mkAuditEntry action "deployment" id (Some (ac_actor_id actor)) tenant project rid result metadata)).

(** A ready version of the agent, or the reply *)
Definition _candidate_version_error (agent version : Z) (s : Srv) : option (Z * string) :=
  match nr_version agent version (bk_native (da_backend s)) with
  | None => Some (404, "agent_version_not_found")
  | Some v => if bool_decide (av_status v = "ready") then None else Some (409, "agent_version_not_ready")
  end.

(** * Handlers of [deployments.py] *)

Definition create_deployment (h : Headers) (rid : option string) (payload : DeploymentCreate) : M Srv (reply DeploymentRecord) :=
  validated (valid_deployment_create payload) (_authorize h "agent:deploy" (λ tenant project actor,
    s ← get_state;
    match nr_agent (dc_agent_id payload) tenant project (bk_native (da_backend s)) with
    | None => mret (Refused 404 "agent_not_found")
    | Some agent =>
        if negb (bool_decide (ag_status agent = "active")) then mret (Refused 409 "agent_not_active")
        else match _candidate_version_error (dc_agent_id payload) (dc_agent_version_id payload) s with
        | Some (c, e) => mret (Refused c e)
        | None =>
            l ← service (sv_list (Some tenant) (Some project));
            if existsb (λ d, bool_decide (dp_environment d = dc_environment payload)
                 && (dp_agent_id d =? dc_agent_id payload)) l
            then mret (Refused 409 "deployment_already_exists")
            else
              d ← service (sv_add (mkDeployment 0 tenant project (dc_agent_id payload) (dc_agent_version_id payload)
                    (dc_environment payload) (dc_desired_status payload)
                    (if bool_decide (dc_desired_status payload = DD_stopped) then DR_stopped else DR_not_loaded)
                    (dc_replicas payload) (dc_config payload) None));
              write_audit "deployment.create" (dp_id d) actor tenant project rid "allowed"
                [("agent_id", pretty (dc_agent_id payload)); ("agent_version_id", pretty (dc_agent_version_id payload));
                 ("environment", dc_environment payload)] ;;
              mret (Item d)
        end
    end)).

Definition list_deployments (h : Headers) : M Srv (reply (list DeploymentRecord)) :=
  _authorize h "agent:read" (λ tenant project _,
    l ← service (sv_list (Some tenant) (Some project)); mret (Item l)).

Definition get_deployment (h : Headers) (id : Z) : M Srv (reply DeploymentRecord) :=
  _authorize h "agent:read" (λ tenant project _,
    _get_scoped_deployment id tenant project (λ d, mret (Item d))).

Definition update_deployment (h : Headers) (rid : option string) (id : Z) (payload : DeploymentUpdate)
  : M Srv (reply DeploymentRecord) :=
  validated (valid_deployment_update payload) (_authorize h "agent:deploy" (λ tenant project actor,
    _get_scoped_deployment id tenant project (λ d,
      s ← get_state;
      match (version ← du_agent_version_id payload; _candidate_version_error (dp_agent_id d) version s) with
      | Some (c, e) => mret (Refused c e)
      | None =>
          d ← match du_agent_version_id payload with
              | Some version => assign d (λ d, d <| dp_agent_version_id := version |>)
              | None => mret d
              end;
          taken ← match du_environment payload with
              | Some e =>
                  if bool_decide (e = dp_environment d) then mret false
                  else l ← service (sv_list (Some tenant) (Some project));
                       mret (existsb (λ x, negb (dp_id x =? dp_id d) && (dp_agent_id x =? dp_agent_id d)
                         && bool_decide (dp_environment x = e)) l)
              | None => mret false
              end;
          if (taken : bool) then mret (Refused 409 "deployment_already_exists")
          else
            d ← match du_environment payload with
                | Some e => assign d (λ d, d <| dp_environment := e |>) | None => mret d end;
            d ← match du_replicas payload with
                | Some n => assign d (λ d, d <| dp_replicas := n |>) | None => mret d end;
            d ← match du_config payload with
                | Some c => assign d (λ d, d <| dp_config_json := c |>) | None => mret d end;
            updated ← service (sv_save d);
            write_audit "deployment.update" (dp_id d) actor tenant project rid "allowed" [] ;;
            mret (Item updated)
      end))).

Definition archive_deployment (h : Headers) (rid : option string) (id : Z) : M Srv (reply DeploymentRecord) :=
  _authorize h "agent:deploy" (λ tenant project actor,
    _get_scoped_deployment id tenant project (λ _,
      archived ← service (sv_archive id);
      write_audit "deployment.archive" id actor tenant project rid "allowed" [] ;;
      mret (Item archived))).

Definition list_deployment_instances (h : Headers) (id : Z) : M Srv (reply (list AgentInstanceRecord)) :=
  _authorize h "agent:read" (λ tenant project _,
    _get_scoped_deployment id tenant project (λ _,
      r ← catch (service (sv_instances id));
      match r with
      | Ret l => mret (Item l)
      | Raise (DeploymentNotFoundError _) => mret (Refused 404 "deployment_not_found")
      | Raise e => raise e
      end)).

(** ** Tasks *)

Definition record_delivery_attempt (channel : option Z) (name target message source : string) (rid : option string)
  : M Srv unit :=
  modify (λ s, s <| da_delivery_sequence := da_delivery_sequence s + 1 |>) ;;
  modify (λ s, s <| da_attempts := da_attempts s ++
    [mkAttempt (da_delivery_sequence s) channel name target "sent" source message rid] |>).

Definition _record_budget_notification_attempt (deployment : Z) (rid : option string) (p : CostBudgetPolicyHit) : M Srv unit :=
  record_delivery_attempt (Some (bh_channel_id p)) (bh_channel_name p) (bh_notification_channel p)
    ("Cost budget policy " +:+ bh_name p +:+ " triggered for deployment #" +:+ pretty deployment +:+ " at "
      +:+ fixed 2 (bh_current_spend_usd p) +:+ " USD (threshold " +:+ fixed 2 (bh_threshold_usd p) +:+ " USD, scope "
      +:+ bh_scope_type p +:+ ":" +:+ or_str (bh_scope_ref p) "*" +:+ ", mode " +:+ bh_action_mode p +:+ ").")
    ("cost_budget_policy." +:+ bh_action_mode p) rid.

Definition needs_approval (p : CostBudgetPolicyHit) : bool := bool_decide (bh_action_mode p = "require_approval").

Definition budget_metadata (p : CostBudgetPolicyHit) : dict string string :=
  [("reason", if needs_approval p then "cost_budget_requires_approval" else "cost_budget_exceeded");
   ("policy_id", pretty (bh_policy_id p)); ("policy_name", bh_name p); ("action_mode", bh_action_mode p);
   ("scope_type", bh_scope_type p); ("scope_ref", or_str (bh_scope_ref p) "");
   ("threshold_usd", fixed 6 (bh_threshold_usd p)); ("current_spend_usd", fixed 6 (bh_current_spend_usd p))].

(** [payload.model_dump(mode="json")] *)
Definition task_body (p : DeploymentTaskCreate) : pydict :=
  [("input", VDict (dt_input p)); ("thread_id", of_str_opt (dt_thread_id p))].

(** Why a deployment takes no task: its own state, its agent and its version. *)
Definition task_refusal (d : DeploymentRecord) (tenant project : Z) (s : Srv) : option (Z * string) :=
  if negb (bool_decide (dp_desired_status d = DD_active)) then Some (409, "deployment_not_active")
  else match nr_agent (dp_agent_id d) tenant project (bk_native (da_backend s)) with
       | None => Some (404, "agent_not_found")
       | Some agent =>
           if negb (bool_decide (ag_status agent = "active")) then Some (409, "agent_not_active")
           else _candidate_version_error (dp_agent_id d) (dp_agent_version_id d) s
       end.

Definition create_deployment_task (h : Headers) (rid idempotency_key : option string) (now : nat → Z) (id : Z)
    (payload : DeploymentTaskCreate) : M Srv (reply TaskCreated) :=
  _authorize h "agent:invoke" (λ tenant project actor,
    _get_scoped_deployment id tenant project (λ d,
      s ← get_state;
      match task_refusal d tenant project s with
      | Some (c, e) => mret (Refused c e)
      | None =>
          decision ← in_backend (evaluate_persisted_budget_policies sum_floats tenant project (dp_environment d)
                       (dp_agent_id d) (dp_id d) now);
          match bd_blocking_policy decision with
          | Some p =>
              _record_budget_notification_attempt (dp_id d) rid p ;;
              write_audit "deployment.task.create" (dp_id d) actor tenant project rid "denied" (budget_metadata p) ;;
              mret (Refused 403 (if needs_approval p then "approval_required" else "cost_budget_exceeded"))
          | None =>
              for_each (bd_warning_policies decision) (_record_budget_notification_attempt (dp_id d) rid) ;;
              r ← catch (native (nr_create_task_run (mkTaskRunArgs tenant project (dp_agent_id d) (dp_agent_version_id d)
                    (dt_input payload) (dt_thread_id payload) idempotency_key
                    ("/v1/deployments/" +:+ pretty id +:+ "/tasks") (task_body payload) (Some (dp_id d)))));
              match r with
              | Ret (run, task, replayed) =>
                  s ← get_state;
                  mret (Item (mkTaskCreated run task (nr_task_status task (bk_native (da_backend s))) replayed))
              | Raise (IdempotencyConflictError _) => mret (Refused 409 "idempotency_key_conflict")
              | Raise e => raise e
              end
          end
      end)).

(** ** Control: the six actions share [control_response] *)

Definition control_args (h : Headers) (rid : option string) (actor : AuthenticatedActor) : ControlArgs :=
  mkControlArgs (Some (ac_actor_id actor)) (hd_tenant_id h) (hd_project_id h) rid.

Definition control_response (h : Headers) (rid : option string) (id : Z) (op : Z → ControlArgs → control_op)
  : M Srv (reply DeploymentRecord) :=
  _authorize h "agent:deploy" (λ tenant project actor,
    _get_scoped_deployment id tenant project (λ _,
      r ← catch (service (sv_control policy (op id (control_args h rid actor))));
      match r with
      | Ret d => mret (Item d)
      | Raise (DeploymentNotFoundError _) => mret (Refused 404 "deployment_not_found")
      | Raise (PolicyDeniedError _ code) => mret (Refused 403 code)
      | Raise e => raise e
      end)).

Definition activate_deployment h rid id := control_response h rid id CActivate.
Definition pause_deployment h rid id := control_response h rid id CPause.
Definition resume_deployment h rid id := control_response h rid id CResume.
Definition drain_deployment_handler h rid id := control_response h rid id CDrain.
Definition stop_deployment h rid id := control_response h rid id CStop.
Definition restart_deployment h rid id := control_response h rid id CRestart.

(** * Promotion *)

Definition _runtime_pressure (deployment tenant project : Z) : M Srv (nat * nat) :=
  runs ← native (nr_runs tenant project);
  let mine := List.filter (λ r, bool_decide (nr_deployment_id r = Some deployment)) runs in
  let active : gset Z := list_to_set (nr_id <$> List.filter (λ r,
    match nr_status r with RS_pending | RS_running | RS_interrupted => true | _ => false end) mine) in
  tasks ← native (nr_tasks tenant project);
  mret (size active, length (List.filter (λ t, bool_decide (nt_run_id t ∈ nr_id <$> mine)
    && match nt_status t with TS_queued => true | _ => false end) tasks)).

Definition _promotion_preview (d : DeploymentRecord) (candidate : Z) (experiment : option Z) (tenant project : Z)
  : M Srv PromotionPreview :=
  s ← get_state;
  let version := nr_version (dp_agent_id d) candidate (bk_native (da_backend s)) in
  let blocked := match version with
    | None => Some "candidate_version_not_found"
    | Some v => if bool_decide (av_status v = "ready") then None else Some "candidate_version_not_ready"
    end in
  '(active, queued) ← _runtime_pressure (dp_id d) tenant project;
  let gate := quality_gate_for_candidate (Some (dp_id d)) (Some candidate) experiment (da_experiments s) in
  let blocked := if qg_promotion_allowed gate then blocked
    else Some (or_str (qg_blocked_reason gate) (default "None" blocked)) in
  mret (mkPromotionPreview (dp_id d) (dp_environment d) (desired_status_value (dp_desired_status d))
    (runtime_status_value (dp_runtime_status d)) (dp_agent_version_id d) candidate active queued
    (match version with Some v => av_status v | None => "missing" end)
    (or_int (_rollback_version_id d) (dp_agent_version_id d)) (bool_decide (blocked = None)) blocked
    ((if (0 <? active)%nat then ["active_runs_will_continue_on_current_version"] else []) ++
     (if (0 <? queued)%nat then ["queued_tasks_will_use_current_version"] else [])) gate).

Definition preview_deployment_promotion (h : Headers) (id candidate : Z) (experiment : option Z) : M Srv (reply PromotionPreview) :=
  _authorize h "agent:read" (λ tenant project _,
    _get_scoped_deployment id tenant project (λ d,
      p ← _promotion_preview d candidate experiment tenant project; mret (Item p))).

Definition _expected_version_conflict (d : DeploymentRecord) (expected : Z) : option (Z * string) :=
  if dp_agent_version_id d =? expected then None else Some (409, "deployment_version_conflict").

Definition _quality_gate_error (d : DeploymentRecord) (candidate experiment : Z) (s : Srv) : option (Z * string) :=
  let gate := quality_gate_for_candidate (Some (dp_id d)) (Some candidate) (Some experiment) (da_experiments s) in
  if qg_promotion_allowed gate then None else Some (409, or_str (qg_blocked_reason gate) "quality_gate_failed").

Definition _policy_error (d : DeploymentRecord) (action : string) (actor : AuthenticatedActor) (rid : option string)
  : M Srv (option (Z * string)) :=
  let decision := policy (Some (ac_actor_id actor)) action d in
  if dd_allowed decision then mret None
  else
    write_audit action (dp_id d) actor (dp_tenant_id d) (dp_project_id d) rid "denied"
      [("reason", or_str (dd_reason decision) "policy_denied")] ;;
    mret (Some (403, "policy_denied")).

(** [if error is not None: return error] *)
Definition unless {A} (e : option (Z * string)) (m : M Srv (reply A)) : M Srv (reply A) :=
  match e with Some (c, code) => mret (Refused c code) | None => m end.

Definition promotion_entry (previous : Z) (payload : DeploymentPromotePayload) (gate : QualityGate)
    (idempotency_key : option string) : pydict :=
  [("previous_agent_version_id", VInt previous); ("current_agent_version_id", VInt (pp_candidate_version_id payload));
   ("experiment_run_id", VInt (pp_experiment_run_id payload)); ("quality_gate", gate_value gate);
   ("rollout_reason", VStr (pp_rollout_reason payload)); ("idempotency_key", of_str_opt idempotency_key)].

Definition promote_deployment (h : Headers) (rid idempotency_key : option string) (id : Z) (payload : DeploymentPromotePayload)
  : M Srv (reply DeploymentRecord) :=
  validated (min_length 1 (pp_rollout_reason payload)) (_authorize h "agent:deploy" (λ tenant project actor,
    _get_scoped_deployment id tenant project (λ d,
      s ← get_state;
      unless (_expected_version_conflict d (pp_expected_current_version_id payload)) (
      unless (_candidate_version_error (dp_agent_id d) (pp_candidate_version_id payload) s) (
      unless (_quality_gate_error d (pp_candidate_version_id payload) (pp_experiment_run_id payload) s) (
        e ← _policy_error d "deployment.promote" actor rid;
        unless e (
          let previous := dp_agent_version_id d in
          let gate := quality_gate_for_candidate (Some (dp_id d)) (Some (pp_candidate_version_id payload))
            (Some (pp_experiment_run_id payload)) (da_experiments s) in
          d ← assign d (λ d, d <| dp_agent_version_id := pp_candidate_version_id payload |>);
          d ← assign d (λ d, d <| dp_config_json := dict_set "promotion"
                (VDict (promotion_entry previous payload gate idempotency_key)) (dp_config_json d) |>);
          updated ← service (sv_save d);
          write_audit "deployment.promote" (dp_id d) actor tenant project rid "allowed"
            [("previous_agent_version_id", pretty previous);
             ("candidate_agent_version_id", pretty (pp_candidate_version_id payload));
             ("experiment_run_id", pretty (pp_experiment_run_id payload));
             ("rollout_reason", pp_rollout_reason payload); ("idempotency_key", or_str idempotency_key "")] ;;
          mret (Item updated)))))))).

(** [payload.rollback_agent_version_id or _rollback_version_id(deployment)] *)
Definition rollback_target (payload : DeploymentRollbackPayload) (d : DeploymentRecord) : option Z :=
  match rp_rollback_agent_version_id payload with
  | Some z => if z =? 0 then _rollback_version_id d else Some z
  | None => _rollback_version_id d
  end.

Definition rollback_entry (replaced target : Z) (reason : string) (idempotency_key : option string) (d : DeploymentRecord) : pydict :=
  dict_merge (_promotion_config d)
    [("previous_agent_version_id", VInt replaced); ("current_agent_version_id", VInt target);
     ("rollback_reason", VStr reason); ("idempotency_key", of_str_opt idempotency_key)].

Definition rollback_deployment (h : Headers) (rid idempotency_key : option string) (id : Z) (payload : DeploymentRollbackPayload)
  : M Srv (reply DeploymentRecord) :=
  validated (min_length 1 (rp_rollback_reason payload)) (_authorize h "agent:deploy" (λ tenant project actor,
    _get_scoped_deployment id tenant project (λ d,
      s ← get_state;
      unless (_expected_version_conflict d (rp_expected_current_version_id payload)) (
        match rollback_target payload d with
        | None => mret (Refused 409 "deployment_rollback_unavailable")
        | Some target =>
            unless (_candidate_version_error (dp_agent_id d) target s) (
              e ← _policy_error d "deployment.rollback" actor rid;
              unless e (
                let replaced := dp_agent_version_id d in
                d ← assign d (λ d, d <| dp_agent_version_id := target |>);
                d ← assign d (λ d, d <| dp_config_json := dict_set "promotion"
                      (VDict (rollback_entry replaced target (rp_rollback_reason payload) idempotency_key d))
                      (dp_config_json d) |>);
                updated ← service (sv_save d);
                write_audit "deployment.rollback" (dp_id d) actor tenant project rid "allowed"
                  [("previous_agent_version_id", pretty replaced); ("rollback_agent_version_id", pretty target);
                   ("rollback_reason", rp_rollback_reason payload); ("idempotency_key", or_str idempotency_key "")] ;;
                mret (Item updated)))
        end)))).
End api.
