(* ===== verification/DeploymentApiProps.v ===== *)
(** What the deployment handlers guarantee, over any service that keeps the laws:
    requests reach the deployments of their own scope only, a promotion passed every
    guard, a rollback undoes it, and a task is taken within the budgets. *)

From stdpp Require Import gmap.
From S2P Require Import Prelude Values Json StateMachine Tables InMemory RunStore Floats Deployments Idempotency NativeApi SqlNative ApiKeys Console ConsoleApi ConsoleApiProps DeploymentStore Costs DeploymentLaws DeploymentApi.

Inductive control_action := A_activate | A_pause | A_resume | A_drain | A_stop | A_restart.

(** A request to the deployment routes. *)
Inductive deployment_call :=
| CallCreate (payload : DeploymentCreate)
| CallList
| CallGet (id : Z)
| CallUpdate (id : Z) (payload : DeploymentUpdate)
| CallArchive (id : Z)
| CallInstances (id : Z)
| CallTask (now : nat → Z) (id : Z) (payload : DeploymentTaskCreate)
| CallControl (a : control_action) (id : Z)
| CallPreview (id candidate : Z) (experiment : option Z)
| CallPromote (id : Z) (payload : DeploymentPromotePayload)
| CallRollback (id : Z) (payload : DeploymentRollbackPayload).

Record deployment_request := mkRequest {
  rq_headers : Headers;
  rq_request_id : option string;
  rq_idempotency_key : option string;
  rq_call : deployment_call
}.

Definition rq_scope (q : deployment_request) : option Z * option Z :=
  (hd_tenant_id (rq_headers q), hd_project_id (rq_headers q)).

Section props.
Context {C R K N : Type} `{!SessionCache C, !ServiceAccounts R, !DeploymentService K, !NativeRuntime N, !DeploymentLaws K}.
Context (sha256 : string → string) (env : ApiConfig) (sum_floats : list float → float).
Context (policy : DeploymentPolicyEngine).
Abbreviation Srv := (DeployApi C R K N).
Implicit Types s : Srv.

Definition svc s : K := bk_service (da_backend s).

(** * Requests *)

Definition op_of (a : control_action) : Z → ControlArgs → control_op :=
  match a with
  | A_activate => CActivate | A_pause => CPause | A_resume => CResume
  | A_drain => CDrain | A_stop => CStop | A_restart => CRestart
  end.

(** Serves one request; the reply is dropped. *)
Definition serve (q : deployment_request) : M Srv unit :=
  let h := rq_headers q in
  let rid := rq_request_id q in
  let key := rq_idempotency_key q in
  match rq_call q with
  | CallCreate payload => request (create_deployment sha256 env h rid payload) ;; mret tt
  | CallList => request (list_deployments sha256 env h) ;; mret tt
  | CallGet id => request (get_deployment sha256 env h id) ;; mret tt
  | CallUpdate id payload => request (update_deployment sha256 env h rid id payload) ;; mret tt
  | CallArchive id => request (archive_deployment sha256 env h rid id) ;; mret tt
  | CallInstances id => request (list_deployment_instances sha256 env h id) ;; mret tt
  | CallTask now id payload => request (create_deployment_task sha256 env sum_floats h rid key now id payload) ;; mret tt
  | CallControl a id => request (control_response sha256 env policy h rid id (op_of a)) ;; mret tt
  | CallPreview id c e => request (preview_deployment_promotion sha256 env h id c e) ;; mret tt
  | CallPromote id payload => request (promote_deployment sha256 env policy h rid key id payload) ;; mret tt
  | CallRollback id payload => request (rollback_deployment sha256 env policy h rid key id payload) ;; mret tt
  end.

Definition serve_all (l : list deployment_request) s : Srv := foldl (λ s q, (serve q s).2) s l.

(** * Effects on the service *)

Definition on_service (Rel : relation K) : relation Srv := λ s s', Rel (svc s) (svc s').

#[local] Instance on_service_preorder Rel `{!PreOrder Rel} : PreOrder (on_service Rel).
Proof. unfold on_service. split; [by intros ?|]. intros s1 s2 s3. by apply transitivity. Qed.

Section lifting.
Context (Rel : relation K) `{!PreOrder Rel}.

Lemma service_respects {A} (m : M K A) : respects Rel m → respects (on_service Rel) (service (C:=C) (R:=R) (N:=N) m).
Proof.
  intros Hm s. specialize (Hm (svc s)). unfold service, in_backend, in_service, zoom, on_service, svc in *.
  by destruct (m _) as [r k].
Qed.

Lemma native_respects {A} (m : M N A) : respects (on_service Rel) (native (C:=C) (R:=R) (K:=K) m).
Proof. intros s. unfold native, in_backend, in_native, zoom, on_service, svc. by destruct (m _) as [r n]. Qed.

Lemma in_api_respects {A} (m : M (Api C R) A) : respects (on_service Rel) (in_api (K:=K) (N:=N) m).
Proof. intros s. unfold in_api, zoom, on_service, svc. by destruct (m _) as [r a]. Qed.

Lemma budget_respects tenant project environment agent deployment now :
  respects (on_service Rel) (in_backend (C:=C) (R:=R)
    (evaluate_persisted_budget_policies (K:=K) (N:=N) sum_floats tenant project environment agent deployment now)).
Proof.
  set (RelB := λ b b' : Backend K N, Rel (bk_service b) (bk_service b')).
  assert (PreOrder RelB) by (unfold RelB; split; [by intros ?|intros ???; by apply transitivity]).
  assert (∀ t p, respects RelB (in_service (sv_list t p))) as Hlist.
  { intros t p b. unfold RelB, in_service, zoom. pose proof (dl_list_state t p (bk_service b)) as Hs.
    destruct (sv_list t p _) as [r k]. simpl in *. by subst. }
  assert (∀ t p, respects RelB (in_native (K:=K) (nr_runs t p))) as Hruns.
  { intros t p b. unfold RelB, in_native, zoom. by destruct (nr_runs t p _) as [r n]. }
  assert (∀ l now acc channels, respects RelB
    (check_policies sum_floats tenant project environment channels now l acc)) as Hloop.
  { induction l as [|p l IH]; intros now' acc channels; simpl; [by apply respects_ret|].
    apply (respects_bind RelB); [|intros ?; apply IH].
    unfold preview_policy, build_budget_preview, build_cost_attribution_summary, _load_cost_rows.
    apply (respects_bind RelB); [by apply respects_of_option|intros w].
    apply (respects_bind RelB); [|intros ?; by apply respects_ret].
    apply (respects_bind RelB); [apply Hlist|intros _].
    apply (respects_bind RelB); [|intros ?; by apply respects_ret].
    apply (respects_bind RelB); [apply Hlist|intros ?].
    apply (respects_bind RelB); [apply Hruns|intros ?].
    apply (respects_bind RelB); [by apply respects_get_state|intros ?; by apply respects_ret]. }
  assert (respects RelB (evaluate_persisted_budget_policies (K:=K) (N:=N) sum_floats tenant project environment agent
    deployment now)) as Hev.
  { unfold evaluate_persisted_budget_policies. destruct nr_sqlalchemy; [|by apply respects_ret]. cbn [negb].
    apply (respects_bind RelB); [by apply respects_get_state|intros b].
    destruct (selected_policies _ _ _ _ _ _); [by apply respects_ret|apply Hloop]. }
  intros s. specialize (Hev (da_backend s)). unfold in_backend, zoom, on_service, svc.
  by destruct (evaluate_persisted_budget_policies _ _ _ _ _ _ _ _) as [r b].
Qed.

Lemma attempt_respects deployment rid p :
  respects (on_service Rel) (_record_budget_notification_attempt (C:=C) (R:=R) (K:=K) (N:=N) deployment rid p).
Proof. intros s. unfold on_service, svc. simpl. reflexivity. Qed.

Lemma catch_respects {A} (m : M Srv A) : respects (on_service Rel) m → respects (on_service Rel) (catch m).
Proof. intros Hm s. specialize (Hm s). unfold catch. by destruct (m s) as [r s']. Qed.
End lifting.

(** * Isolation *)

Definition iso (sc : Z * Z) : relation Srv := on_service (dl_isolated sc).
#[local] Instance iso_preorder sc : PreOrder (iso sc).
Proof. apply _. Qed.

(** What [f] may do to the deployment a handler was asked for. *)
Definition within (P : Z → Z * Z → K → Prop) (id : Z) (sc : Z * Z) : relation Srv :=
  on_service (stays dl_lookup dl_inv (P id sc) id).
#[local] Instance within_preorder P id sc : PreOrder (within P id sc).
Proof. apply _. Qed.

Abbreviation held := (holds dl_lookup dl_scope).
Abbreviation owned := (own dl_lookup dl_scope).

Lemma scoped_iso {A} (P : Z → Z * Z → K → Prop) id tenant project (f : DeploymentRecord → M Srv (reply A)) :
  (∀ sc k, P id sc k → owned id sc k) → (∀ sc k, held id sc k → P id sc k) →
  (∀ d, dp_id d = id → scope_of d = (tenant, project) → respects (within P id (tenant, project)) (f d)) →
  respects (iso (tenant, project)) (_get_scoped_deployment id tenant project f).
Proof.
  intros HP1 HP2 Hf s Hinv.
  assert (iso (tenant, project) s (_get_scoped_deployment id tenant project f s).2) as Hst; [|by apply Hst].
  unfold _get_scoped_deployment. pose proof (dl_get_state id (svc s)) as Hs. pose proof (dl_get_row id (svc s)) as Hrow.
  unfold mbind, M_bind, catch, service, in_backend, in_service, zoom. fold (svc s).
  destruct (sv_get id (svc s)) as [r k]; simpl in Hs, Hrow; subst k. cbv beta iota.
  set (s1 := s <| da_backend := _ |>).
  assert (iso (tenant, project) s s1) as Hiso by (unfold iso, on_service; change (svc s1) with (svc s); reflexivity).
  destruct r as [d|e].
  - destruct (deployment_in_scope d tenant project) eqn:Hin; [|exact Hiso].
    unfold deployment_in_scope in Hin. apply andb_true_iff in Hin as [Ht%Z.eqb_eq Hp%Z.eqb_eq].
    destruct (Hrow d Hinv eq_refl) as (Hid&row&Hr&Hsc).
    assert (scope_of d = (tenant, project)) as Hd by (unfold scope_of; congruence).
    eapply (stays_isolated _ _ _ id _ (P id (tenant, project))); [auto| |exact (Hf d Hid Hd s1)].
    apply HP2. exists row. split; [done|congruence].
  - destruct e; exact Hiso.
Qed.

Lemma authorize_iso {A} h scope (f : Z → Z → AuthenticatedActor → M Srv (reply A)) sc :
  (hd_tenant_id h, hd_project_id h) = (Some sc.1, Some sc.2) →
  (∀ actor, respects (iso sc) (f sc.1 sc.2 actor)) → respects (iso sc) (_authorize sha256 env h scope f).
Proof.
  intros [= Ht Hp] Hf. unfold _authorize. rewrite Ht, Hp.
  apply (respects_bind (iso sc)); [apply in_api_respects, _|]. intros [actor|c e]; [apply Hf|apply respects_ret, _].
Qed.

Lemma audit_within P action id' actor t p rid res md id sc :
  (∀ k k', (∀ i, dl_lookup i k' = dl_lookup i k) → P id sc k → P id sc k') →
  respects (within P id sc) (write_audit (C:=C) (R:=R) (N:=N) action id' actor t p rid res md).
Proof. intros HP. apply service_respects. by apply dl_audit. Qed.

Lemma audit_held action id' actor t p rid res md id sc :
  respects (within held id sc) (write_audit (C:=C) (R:=R) (N:=N) action id' actor t p rid res md).
Proof. apply audit_within. intros k k'. apply holds_lookup. Qed.
Lemma audit_owned action id' actor t p rid res md id sc :
  respects (within owned id sc) (write_audit (C:=C) (R:=R) (N:=N) action id' actor t p rid res md).
Proof. apply audit_within. intros k k'. apply own_lookup. Qed.

Lemma list_respects Rel `{!PreOrder Rel} t p :
  respects (on_service Rel) (service (C:=C) (R:=R) (N:=N) (sv_list t p)).
Proof. apply service_respects. intros k. rewrite dl_list_state. reflexivity. Qed.

(** An assignment keeps the record's identity, and so does a sequence of them. *)
Lemma assign_held d f id sc : dp_id d = id → (∀ d, same_identity d (f d)) →
  respects (within held id sc) (assign (C:=C) (R:=R) (N:=N) d f).
Proof.
  intros <- Hf. unfold assign. apply (respects_bind (within held (dp_id d) sc));
    [by apply service_respects, dl_assign|intros _; apply respects_ret, _].
Qed.

Lemma save_held d id sc : dp_id d = id → scope_of d = sc →
  respects (within held id sc) (service (C:=C) (R:=R) (N:=N) (sv_save d)).
Proof. intros <- <-. apply service_respects, dl_save. Qed.

(** ** The handlers *)

Lemma validated_iso {A} b (m : M Srv (reply A)) sc : respects (iso sc) m → respects (iso sc) (validated b m).
Proof. intros Hm. destruct b; [done|apply respects_ret, _]. Qed.

Lemma unless_within {A} Rel `{!PreOrder Rel} e (m : M Srv (reply A)) : respects Rel m → respects Rel (unless e m).
Proof. intros Hm. destruct e as [[c code]|]; [by apply respects_ret|done]. Qed.

Lemma create_iso h rid payload sc : (hd_tenant_id h, hd_project_id h) = (Some sc.1, Some sc.2) →
  respects (iso sc) (create_deployment sha256 env h rid payload).
Proof.
  intros Hh. apply validated_iso, authorize_iso; [done|]. intros actor.
  apply (respects_bind (iso sc)); [apply respects_get_state, _|intros s].
  destruct (nr_agent _ _ _ _) as [agent|]; [|apply respects_ret, _].
  destruct (negb _); [apply respects_ret, _|].
  destruct (_candidate_version_error _ _ _) as [[c e]|]; [apply respects_ret, _|].
  apply (respects_bind (iso sc)); [apply list_respects, _|intros l].
  destruct (existsb _ l); [apply respects_ret, _|].
  apply (respects_bind (iso sc)); [|intros d].
  { apply service_respects. replace sc with (sc.1, sc.2) at 1 by (by destruct sc). by apply dl_add. }
  apply (respects_bind (iso sc)); [|intros _; apply respects_ret, _].
  apply service_respects. intros k Hi.
  assert (stays dl_lookup dl_inv (λ k', ∀ i, dl_lookup i k' = dl_lookup i k) 0 k (sv_audit
    (mkAuditEntry "deployment.create" "deployment" (dp_id d) (Some (ac_actor_id actor)) sc.1 sc.2 rid "allowed"
      [("agent_id", pretty (dc_agent_id payload)); ("agent_version_id", pretty (dc_agent_version_id payload));
       ("environment", dc_environment payload)]) k).2) as Hst.
  { apply dl_audit. intros k1 k2 H1 H2 i. by rewrite H1. }
  destruct (Hst Hi) as (?&Heq&_); [done|]. split; [done|]. intros i. unfold foreign. by rewrite Heq.
Qed.

Lemma update_iso h rid id payload sc : (hd_tenant_id h, hd_project_id h) = (Some sc.1, Some sc.2) →
  respects (iso sc) (update_deployment sha256 env h rid id payload).
Proof.
  intros Hh. apply validated_iso, authorize_iso; [done|]. intros actor. destruct sc as [tenant project].
  apply (scoped_iso held); [intros ??; apply holds_own|done|]. simpl. intros d0 Hid0 Hsc0.
  set (Rel := within held id (tenant, project)). 
  apply (respects_bind Rel); [apply respects_get_state, _|intros s].
  destruct (_ ≫= _) as [[c e]|]; [apply respects_ret, _|].
  assert (∀ {A} (o : option A) (f : A → DeploymentRecord → DeploymentRecord) (g : DeploymentRecord → M Srv (reply DeploymentRecord)) d,
    same_identity d0 d → (∀ a d, same_identity d (f a d)) → (∀ d, same_identity d0 d → respects Rel (g d)) →
    respects Rel (d ← match o with Some a => assign d (f a) | None => mret d end; g d)) as Hopt.
  { intros A o f g d Hd Hf Hg s1. apply respects_bind_at; [apply _| |].
    - destruct o; [|apply respects_ret, _]. apply assign_held; [by rewrite <-(proj1 Hd)|apply Hf].
    - intros d1 s2 E. apply Hg. destruct o as [a|]; [|by injection E as <- _].
      apply bind_ret_inv in E as (_&s3&_&[= <- _]). etrans; [done|apply Hf]. }
  refine (Hopt _ (du_agent_version_id payload) (λ v d, d <| dp_agent_version_id := v |>) _ d0 _ _ _);
    [reflexivity|by intros|intros d1 Hd1].
  apply (respects_bind Rel).
  { destruct (du_environment payload) as [e|]; [|apply respects_ret, _].
    destruct (bool_decide _); [apply respects_ret, _|].
    apply (respects_bind Rel); [apply list_respects, _|intros l; apply respects_ret, _]. }
  intros [|]; [apply respects_ret, _|].
  refine (Hopt _ (du_environment payload) (λ e d, d <| dp_environment := e |>) _ d1 _ _ _); [done|by intros|intros d2 Hd2].
  refine (Hopt _ (du_replicas payload) (λ n d, d <| dp_replicas := n |>) _ d2 _ _ _); [done|by intros|intros d3 Hd3].
  refine (Hopt _ (du_config payload) (λ c d, d <| dp_config_json := c |>) _ d3 _ _ _); [done|by intros|intros d4 Hd4].
  apply (respects_bind Rel); [apply save_held; [by rewrite <-(proj1 Hd4)|by rewrite <-(proj1 (proj2 Hd4))]|intros u].
  apply (respects_bind Rel); [apply audit_held|intros _; apply respects_ret, _].
Qed.

Lemma archive_iso h rid id sc : (hd_tenant_id h, hd_project_id h) = (Some sc.1, Some sc.2) →
  respects (iso sc) (archive_deployment sha256 env h rid id).
Proof.
  intros Hh. apply authorize_iso; [done|]. intros actor. destruct sc as [tenant project].
  apply (scoped_iso owned); [done|intros ??; apply holds_own|]. simpl. intros d Hid Hsc.
  set (Rel := within owned id (tenant, project)).
  apply (respects_bind Rel); [apply service_respects, dl_archive|intros a].
  apply (respects_bind Rel); [apply audit_owned|intros _; apply respects_ret, _].
Qed.

Lemma control_iso h rid id op sc : (∀ a, op_id (op id a) = id) →
  (hd_tenant_id h, hd_project_id h) = (Some sc.1, Some sc.2) →
  respects (iso sc) (control_response sha256 env policy h rid id op).
Proof.
  intros Hop Hh. apply authorize_iso; [done|]. intros actor. destruct sc as [tenant project].
  apply (scoped_iso owned); [done|intros ??; apply holds_own|]. simpl. intros d Hid Hsc.
  set (Rel := within owned id (tenant, project)).
  apply (respects_bind Rel).
  { apply catch_respects, service_respects. rewrite <-(Hop (control_args h rid actor)) at 1 2. apply dl_control. }
  intros [d'|[]]; first [apply respects_ret, _|apply respects_raise, _].
Qed.

Lemma task_iso h rid key now id payload sc : (hd_tenant_id h, hd_project_id h) = (Some sc.1, Some sc.2) →
  respects (iso sc) (create_deployment_task sha256 env sum_floats h rid key now id payload).
Proof.
  intros Hh. apply authorize_iso; [done|]. intros actor. destruct sc as [tenant project].
  apply (scoped_iso held); [intros ??; apply holds_own|done|]. simpl. intros d Hid Hsc.
  set (Rel := within held id (tenant, project)).
  apply (respects_bind Rel); [apply respects_get_state, _|intros s].
  destruct (task_refusal _ _ _ _) as [[c e]|]; [apply respects_ret, _|].
  apply (respects_bind Rel); [apply budget_respects, _|intros dec].
  destruct (bd_blocking_policy dec) as [p|].
  - apply (respects_bind Rel); [apply attempt_respects, _|intros _].
    apply (respects_bind Rel); [apply audit_held|intros _; apply respects_ret, _].
  - apply (respects_bind Rel); [apply (respects_for_each Rel); intros p _; apply attempt_respects, _|intros _].
    apply (respects_bind Rel); [apply catch_respects, native_respects, _|].
    intros [[[run task] replayed]|[]]; try (first [apply respects_ret, _|apply respects_raise, _]).
    apply (respects_bind Rel); [apply respects_get_state, _|intros s']. apply respects_ret, _.
Qed.

Lemma policy_held d action actor rid id sc : respects (within held id sc)
  (_policy_error (C:=C) (R:=R) (N:=N) policy d action actor rid).
Proof.
  unfold _policy_error. destruct (dd_allowed _); [apply respects_ret, _|].
  apply (respects_bind (within held id sc)); [apply audit_held|intros _; apply respects_ret, _].
Qed.

(** Two assignments and a save: the end of a promotion or rollback. *)
Lemma commit_held id sc d f g (k : DeploymentRecord → DeploymentRecord → M Srv (reply DeploymentRecord)) :
  dp_id d = id → scope_of d = sc → (∀ d, same_identity d (f d)) → (∀ d, same_identity d (g d)) →
  (∀ d u, respects (within held id sc) (k d u)) →
  respects (within held id sc) (d ← assign d f; d ← assign d g; u ← service (sv_save d); k d u).
Proof.
  intros Hid Hsc Hf Hg Hk. set (Rel := within held id sc). intros s.
  apply respects_bind_at; [apply _|by apply assign_held|]. intros d1 s1 E1.
  apply bind_ret_inv in E1 as (_&s'&_&[= <- _]). destruct (Hf d) as (Hf1&Hf2&_).
  apply respects_bind_at; [apply _|apply assign_held; [congruence|done]|]. intros d2 s2 E2.
  apply bind_ret_inv in E2 as (_&s''&_&[= <- _]). destruct (Hg (f d)) as (Hg1&Hg2&_).
  apply (respects_bind Rel); [apply save_held; congruence|apply Hk].
Qed.

Lemma promote_iso h rid key id payload sc : (hd_tenant_id h, hd_project_id h) = (Some sc.1, Some sc.2) →
  respects (iso sc) (promote_deployment sha256 env policy h rid key id payload).
Proof.
  intros Hh. apply validated_iso, authorize_iso; [done|]. intros actor. destruct sc as [tenant project].
  apply (scoped_iso held); [intros ??; apply holds_own|done|]. simpl. intros d Hid Hsc.
  set (Rel := within held id (tenant, project)).
  apply (respects_bind Rel); [apply respects_get_state, _|intros s].
  do 3 (apply (unless_within Rel)). apply (respects_bind Rel); [apply policy_held|intros e]. apply (unless_within Rel).
  apply commit_held; [done..|]. intros d' u.
  apply (respects_bind Rel); [apply audit_held|intros _; apply respects_ret, _].
Qed.

Lemma rollback_iso h rid key id payload sc : (hd_tenant_id h, hd_project_id h) = (Some sc.1, Some sc.2) →
  respects (iso sc) (rollback_deployment sha256 env policy h rid key id payload).
Proof.
  intros Hh. apply validated_iso, authorize_iso; [done|]. intros actor. destruct sc as [tenant project].
  apply (scoped_iso held); [intros ??; apply holds_own|done|]. simpl. intros d Hid Hsc.
  set (Rel := within held id (tenant, project)).
  apply (respects_bind Rel); [apply respects_get_state, _|intros s]. apply (unless_within Rel).
  destruct (rollback_target payload d) as [target|]; [|apply respects_ret, _].
  apply (unless_within Rel). apply (respects_bind Rel); [apply policy_held|intros e]. apply (unless_within Rel).
  apply commit_held; [done..|]. intros d' u.
  apply (respects_bind Rel); [apply audit_held|intros _; apply respects_ret, _].
Qed.

(** ** Reads *)

Lemma list_iso h sc : (hd_tenant_id h, hd_project_id h) = (Some sc.1, Some sc.2) →
  respects (iso sc) (list_deployments (N:=N) sha256 env h).
Proof.
  intros Hh. apply authorize_iso; [done|]. intros actor.
  apply (respects_bind (iso sc)); [apply list_respects, _|intros l; apply respects_ret, _].
Qed.

(** A read of one deployment. *)
Lemma read_iso {A} h scope id (f : Z → Z → DeploymentRecord → M Srv (reply A)) sc :
  (hd_tenant_id h, hd_project_id h) = (Some sc.1, Some sc.2) →
  (∀ d t p, respects (within held id sc) (f t p d)) →
  respects (iso sc) (_authorize sha256 env h scope (λ t p _, _get_scoped_deployment id t p (f t p))).
Proof.
  intros Hh Hf. apply authorize_iso; [done|]. intros actor. destruct sc as [tenant project].
  apply (scoped_iso held); [intros ??; apply holds_own|done|]. intros d _ _. apply Hf.
Qed.

Lemma instances_iso h id sc : (hd_tenant_id h, hd_project_id h) = (Some sc.1, Some sc.2) →
  respects (iso sc) (list_deployment_instances (N:=N) sha256 env h id).
Proof.
  intros Hh. apply read_iso; [done|]. intros d t p. set (Rel := within held id sc).
  apply (respects_bind Rel).
  { apply catch_respects, service_respects. intros k. rewrite dl_instances_state. reflexivity. }
  intros [l|[]]; first [apply respects_ret, _|apply respects_raise, _].
Qed.

Lemma preview_iso h id c e sc : (hd_tenant_id h, hd_project_id h) = (Some sc.1, Some sc.2) →
  respects (iso sc) (preview_deployment_promotion sha256 env h id c e).
Proof.
  intros Hh. apply read_iso; [done|]. intros d t p. set (Rel := within held id sc).
  apply (respects_bind Rel); [|intros ?; apply respects_ret, _].
  apply (respects_bind Rel); [apply respects_get_state, _|intros s].
  apply (respects_bind Rel); [|intros [a q]; apply respects_ret, _].
  apply (respects_bind Rel); [apply native_respects, _|intros runs].
  apply (respects_bind Rel); [apply native_respects, _|intros tasks; apply respects_ret, _].
Qed.

Lemma request_iso {A} (m : M Srv A) sc : respects (iso sc) m → respects (iso sc) (request m ;; mret tt).
Proof.
  intros Hm s. specialize (Hm s). unfold mbind, M_bind, request. destruct (m s) as [[a|e] s']; [done|].
  unfold iso, on_service, svc in *. simpl in *. by apply dl_rollback_isolated.
Qed.

Lemma serve_iso q sc : rq_scope q = (Some sc.1, Some sc.2) → respects (iso sc) (serve q).
Proof.
  unfold rq_scope. intros Hh. unfold serve. destruct (rq_call q); apply request_iso.
  - by apply create_iso.
  - by apply list_iso.
  - apply read_iso; [done|]. intros d t p. apply respects_ret, _.
  - by apply update_iso.
  - by apply archive_iso.
  - by apply instances_iso.
  - by apply task_iso.
  - apply control_iso; [|done]. by destruct a.
  - by apply preview_iso.
  - by apply promote_iso.
  - by apply rollback_iso.
Qed.

(** Without both headers nothing happens. *)
Lemma authorize_unscoped {A} h scope (f : Z → Z → AuthenticatedActor → M Srv (reply A)) s :
  (∀ t p, (hd_tenant_id h, hd_project_id h) ≠ (Some t, Some p)) →
  _authorize sha256 env h scope f s = (Ret (Refused 400 "request_scope_required"), s).
Proof.
  intros Hh. unfold _authorize. destruct (hd_tenant_id h) as [t|], (hd_project_id h) as [p|]; try done.
  by destruct (Hh t p).
Qed.

Lemma validated_unscoped {A} b h scope (f : Z → Z → AuthenticatedActor → M Srv (reply A)) s :
  (∀ t p, (hd_tenant_id h, hd_project_id h) ≠ (Some t, Some p)) →
  ∃ r, validated b (_authorize sha256 env h scope f) s = (Ret r, s).
Proof. intros Hh. unfold validated. destruct b; [rewrite authorize_unscoped by done|]; by eexists. Qed.

Lemma serve_unscoped q s : (∀ t p, rq_scope q ≠ (Some t, Some p)) → (serve q s).2 = s.
Proof.
  unfold rq_scope. intros Hh. unfold serve, mbind, M_bind, request.
  destruct (rq_call q);
    unfold create_deployment, list_deployments, get_deployment, update_deployment, archive_deployment,
      list_deployment_instances, create_deployment_task, control_response, preview_deployment_promotion,
      promote_deployment, rollback_deployment;
    try (rewrite authorize_unscoped by done; done).
  all: match goal with |- context [validated ?b (_authorize _ _ ?h ?sc ?f) ?x] =>
    destruct (validated_unscoped b h sc f x Hh) as [r ->]; done end.
Qed.

(** C36: whatever requests are sent to the deployment routes with the headers of other
    scopes, valid or not, the deployments of a tenant's project stay exactly as they
    were. This holds for every service that keeps the laws, so for the in-process and
    the database-backed one. *)
Theorem deployments_isolated (sc : Z * Z) (l : list deployment_request) s (id : Z) (row : dl_row)
    (Hinv : dl_inv (svc s)) (Hl : Forall (λ q, rq_scope q ≠ (Some sc.1, Some sc.2)) l)
    (Hrow : dl_lookup id (svc s) = Some row) (Hsc : dl_scope row = sc) :
  dl_lookup id (svc (serve_all l s)) = Some row ∧ dl_inv (svc (serve_all l s)).
Proof.
  revert s Hinv Hrow. induction Hl as [|q l Hq _ IH]; intros s Hinv Hrow; [done|]. simpl.
  assert (dl_inv (svc (serve q s).2) ∧ dl_lookup id (svc (serve q s).2) = Some row) as [Hi Hr]; [|by apply IH].
  destruct (rq_scope q) as [[t|] [p|]] eqn:Hq'; try (rewrite serve_unscoped by (by rewrite Hq'); done).
  destruct (serve_iso q (t, p) Hq' s Hinv) as [Hi Hf]. split; [done|]. specialize (Hf id).
  unfold foreign in Hf. rewrite Hrow in Hf. simpl in Hf.
  rewrite decide_False in Hf by (intros E; apply Hq; by rewrite <-Hsc, E).
  destruct (dl_lookup id (svc (serve q s).2)) as [row'|]; [|done]. simpl in Hf. by case_decide; simplify_eq.
Qed.

(** * What a reply with an item means *)

Lemma authorize_item {A} h scope (f : Z → Z → AuthenticatedActor → M Srv (reply A)) s x s' :
  _authorize sha256 env h scope f s = (Ret (Item x), s') →
  ∃ tenant project actor a, hd_tenant_id h = Some tenant ∧ hd_project_id h = Some project ∧
    f tenant project actor (s <| da_api := a |>) = (Ret (Item x), s').
Proof.
  unfold _authorize. destruct (hd_tenant_id h) as [t|], (hd_project_id h) as [p|]; try done.
  intros (r&s1&E&Hf)%bind_ret_inv. unfold in_api, zoom in E.
  destruct (authenticate_api_key _ _ _ _ _ _) as [r' a]. injection E as -> <-.
  destruct r as [actor|c e]; [|done]. by exists t, p, actor, a.
Qed.

Lemma validated_item {A} b (m : M Srv (reply A)) s x s' :
  validated b m s = (Ret (Item x), s') → b = true ∧ m s = (Ret (Item x), s').
Proof. unfold validated. by destruct b. Qed.

Lemma unless_item {A} e (m : M Srv (reply A)) s x s' :
  unless e m s = (Ret (Item x), s') → e = None ∧ m s = (Ret (Item x), s').
Proof. unfold unless. by destruct e as [[c code]|]. Qed.

Lemma service_eq {A} (m : M K A) s : service (C:=C) (R:=R) (N:=N) m s =
  ((m (svc s)).1, s <| da_backend := (da_backend s) <| bk_service := (m (svc s)).2 |> |>).
Proof. unfold service, in_backend, in_service, zoom, svc. by destruct (m _) as [r k]. Qed.

Lemma set_svc_id s : s <| da_backend := (da_backend s) <| bk_service := svc s |> |> = s.
Proof. unfold svc. by destruct s as [? [???] ???]. Qed.

Lemma scoped_item {A} id tenant project (f : DeploymentRecord → M Srv (reply A)) s x s' :
  _get_scoped_deployment id tenant project f s = (Ret (Item x), s') →
  ∃ d, (sv_get id (svc s)).1 = Ret d ∧ scope_of d = (tenant, project) ∧ f d s = (Ret (Item x), s').
Proof.
  unfold _get_scoped_deployment, catch. unfold mbind, M_bind. rewrite service_eq.
  rewrite (dl_get_state id (svc s)), set_svc_id. destruct (sv_get id (svc s)).1 as [d|e]; [|by destruct e].
  destruct (deployment_in_scope d tenant project) eqn:Hin; [|done]. intros Hf. exists d. split_and!; [done| |done].
  apply andb_true_iff in Hin as [Ht%Z.eqb_eq Hp%Z.eqb_eq]. unfold scope_of. by rewrite Ht, Hp.
Qed.

(** Two assignments and a save leave the record they name. *)
Lemma commit_item id d f g (k : DeploymentRecord → DeploymentRecord → M Srv (reply DeploymentRecord)) s x s' :
  dl_inv (svc s) → (sv_get id (svc s)).1 = Ret d → (∀ d, same_identity d (f d)) → (∀ d, same_identity d (g d)) →
  (d ← assign d f; d ← assign d g; u ← service (sv_save d); k d u) s = (Ret (Item x), s') →
  ∃ kk, dl_inv kk ∧ (sv_get id kk).1 = Ret (g (f d)) ∧
    k (g (f d)) (g (f d)) (s <| da_backend := (da_backend s) <| bk_service := kk |> |>) = (Ret (Item x), s').
Proof.
  intros Hi Hg Hf Hgi. destruct (dl_get_row id (svc s) d Hi Hg) as (Hid&row&Hrow&Hsc).
  assert (held id (scope_of d) (svc s)) as Hh by (by exists row).
  unfold assign. unfold mbind, M_bind. rewrite service_eq. rewrite Hid.
  destruct (dl_assign_get id f d (svc s) Hi Hg Hf) as (Ha1&d1&Hd1&Hs1). rewrite Ha1. cbv beta iota.
  set (k1 := (sv_assign id f (svc s)).2). set (s1 := s <| da_backend := _ |>). change (svc s1) with k1 in *.
  destruct (dl_assign id (scope_of d) f Hf (svc s) Hi Hh) as (Hi1&Hh1&_). fold k1 in Hi1, Hh1, Hd1.
  unfold mret, M_ret. rewrite service_eq. change (svc s1) with k1.
  rewrite <-(proj1 (Hf d)), Hid.
  destruct (dl_assign_get id g d1 k1 Hi1 Hd1 Hgi) as (Ha2&d2&Hd2&Hs2). rewrite Ha2. cbv beta iota.
  destruct (dl_assign id (scope_of d) g Hgi k1 Hi1 Hh1) as (Hi2&Hh2&_). set (k2 := (sv_assign id g k1).2) in *.
  set (s2 := s1 <| da_backend := _ |>). rewrite service_eq. change (svc s2) with k2.
  assert (same_identity d2 (g (f d))) as Hsame.
  { etrans; [symmetry; exact Hs2|]. etrans; [symmetry; exact Hs1|]. etrans; [apply Hf|apply Hgi]. }
  assert (dp_id (g (f d)) = id ∧ scope_of (g (f d)) = scope_of d) as [Hid' Hsc'].
  { destruct (Hgi (f d)) as (E1&E2&_), (Hf d) as (E3&E4&_). split; congruence. }
  pose proof (dl_save (g (f d)) k2) as Hsave. rewrite Hid', Hsc' in Hsave. destruct (Hsave Hi2 Hh2) as (Hi3&_).
  destruct (sv_save (g (f d)) k2) as [[u|e] k3] eqn:Es; [|done]. simpl. simpl in Hi3.
  destruct (dl_save_get id d2 (g (f d)) u k2 k3 Hi2 Hd2 Hsame Es) as [-> Hgk]. intros Hk. exists k3. by split_and!.
Qed.

Lemma audit_eq action id actor t p rid res md s :
  write_audit (C:=C) (R:=R) (N:=N) action id actor t p rid res md s =
  (Ret tt, s <| da_backend := (da_backend s) <| bk_service := (sv_audit (mkAuditEntry action "deployment" id
     (Some (ac_actor_id actor)) t p rid res md) (svc s)).2 |> |>).
Proof. unfold write_audit. rewrite service_eq. by destruct (dl_audit_get (mkAuditEntry action "deployment" id
  (Some (ac_actor_id actor)) t p rid res md) 0 (svc s)) as [-> _]. Qed.

Lemma audit_inv e k : dl_inv k → dl_inv (sv_audit e k).2.
Proof. intros Hi. by apply (dl_audit e (λ _, True) 0). Qed.

Lemma candidate_ready agent version s : _candidate_version_error (C:=C) (R:=R) (K:=K) agent version s = None →
  ∃ v, nr_version agent version (bk_native (da_backend s)) = Some v ∧ av_status v = "ready".
Proof.
  unfold _candidate_version_error. destruct (nr_version _ _ _) as [v|]; [|done].
  case_bool_decide; [|done]. by exists v.
Qed.

(** A gate that lets a promotion pass is the experiment's own. *)
Lemma gate_passed deployment candidate experiment experiments :
  qg_promotion_allowed (quality_gate_for_candidate deployment (Some candidate) (Some experiment) experiments) = true →
  ∃ g, dict_get experiment experiments = Some g ∧ qg_promotion_allowed g = true ∧ 0 < experiment ∧
    (∀ c, evidence_candidate g = Some c → c = candidate) ∧
    quality_gate_for_candidate deployment (Some candidate) (Some experiment) experiments = g.
Proof.
  unfold quality_gate_for_candidate. destruct (experiment <=? 0) eqn:He; [done|].
  destruct (dict_get experiment experiments) as [g|]; [|done].
  destruct (evidence_candidate g) as [ec|] eqn:Hc.
  - destruct (Z.eqb_spec candidate ec) as [->|]; [|done]. intros Hp. exists g. split_and!; [done..|blia| |done].
    intros c Hc'. congruence.
  - intros Hp. exists g. split_and!; [done|done|blia| |done]. intros c Hc'. congruence.
Qed.

Lemma policy_item d action actor rid s e s' : _policy_error (C:=C) (R:=R) (N:=N) policy d action actor rid s = (Ret e, s') →
  (e = None ∧ dd_allowed (policy (Some (ac_actor_id actor)) action d) = true ∧ s' = s) ∨ e = Some (403, "policy_denied").
Proof.
  unfold _policy_error. destruct (dd_allowed _) eqn:Hd; [intros [= <- <-]; by left|].
  intros (?&?&_&[= <- _])%bind_ret_inv. by right.
Qed.

Definition promoted (payload : DeploymentPromotePayload) (gate : QualityGate) (key : option string)
    (d : DeploymentRecord) : DeploymentRecord :=
  d <| dp_agent_version_id := pp_candidate_version_id payload |>
    <| dp_config_json := dict_set "promotion"
         (VDict (promotion_entry (dp_agent_version_id d) payload gate key)) (dp_config_json d) |>.

(** What a promotion that was answered with the deployment went through. *)
Lemma promote_item h rid key id payload s d' s' : dl_inv (svc s) →
  promote_deployment sha256 env policy h rid key id payload s = (Ret (Item d'), s') →
  ∃ d v gate actor, (sv_get id (svc s)).1 = Ret d ∧
    hd_tenant_id h = Some (dp_tenant_id d) ∧ hd_project_id h = Some (dp_project_id d) ∧
    dp_agent_version_id d = pp_expected_current_version_id payload ∧
    nr_version (dp_agent_id d) (pp_candidate_version_id payload) (bk_native (da_backend s)) = Some v ∧ av_status v = "ready" ∧
    dict_get (pp_experiment_run_id payload) (da_experiments s) = Some gate ∧ qg_promotion_allowed gate = true ∧
    (∀ c, evidence_candidate gate = Some c → c = pp_candidate_version_id payload) ∧
    dd_allowed (policy (Some (ac_actor_id actor)) "deployment.promote" d) = true ∧
    d' = promoted payload gate key d ∧ dl_inv (svc s') ∧ (sv_get id (svc s')).1 = Ret d' ∧
    bk_native (da_backend s') = bk_native (da_backend s) ∧ da_experiments s' = da_experiments s.
Proof.
  intros Hi Hrun. apply validated_item in Hrun as [_ (t&p&actor&a&Ht&Hp&Hrun)%authorize_item].
  set (s0 := s <| da_api := a |>) in Hrun. apply scoped_item in Hrun as (d&Hd&Hsc&Hrun). change (svc s0) with (svc s) in Hd.
  apply bind_ret_inv in Hrun as (s0'&s0''&[= <- <-]&Hrun).
  apply unless_item in Hrun as [Hv Hrun]. apply unless_item in Hrun as [(v&Hv1&Hv2)%candidate_ready Hrun].
  apply unless_item in Hrun as [Hgate Hrun]. apply bind_ret_inv in Hrun as (e&s1&Hpol&Hrun).
  apply unless_item in Hrun as [-> Hrun]. apply policy_item in Hpol as [(_&Hpol&->)|]; [|done].
  unfold _quality_gate_error in Hgate.
  destruct (qg_promotion_allowed _) eqn:Hq in Hgate; [|done]. apply gate_passed in Hq as (gate&Hg1&Hg2&_&Hg3&Hgeq).
  rewrite Hgeq in Hrun. unfold _expected_version_conflict in Hv. destruct (Z.eqb_spec (dp_agent_version_id d)
    (pp_expected_current_version_id payload)) as [Hexp|]; [|done].
  eapply commit_item in Hrun as (kk&Hkk&Hget&Hrun); [|done|exact Hd|done|done].
  unfold mbind, M_bind in Hrun. rewrite audit_eq in Hrun. injection Hrun as <- <-.
  injection Hsc as Hsc1 Hsc2. exists d, v, gate, actor. split_and!; try done; [congruence..| |].
  - by apply audit_inv.
  - unfold svc at 1. simpl. by rewrite (proj2 (dl_audit_get _ id kk)).
Qed.

(** C39: a promotion is answered with the deployment only if the deployment is one of
    the request's tenant and project, still on the version the caller expected, the
    candidate is a ready version of the same agent, the named experiment's quality gate
    allows promotion and its evidence is not about another candidate, and the policy
    allows it; then the candidate is what the service stores, with the version it
    replaced, and nothing else of the deployment changed. *)
Theorem promote_guarded h rid key id payload s d' s' (Hinv : dl_inv (svc s))
    (Hrun : promote_deployment sha256 env policy h rid key id payload s = (Ret (Item d'), s')) :
  ∃ d v gate actor, (sv_get id (svc s)).1 = Ret d ∧
    hd_tenant_id h = Some (dp_tenant_id d) ∧ hd_project_id h = Some (dp_project_id d) ∧
    dp_agent_version_id d = pp_expected_current_version_id payload ∧
    nr_version (dp_agent_id d) (pp_candidate_version_id payload) (bk_native (da_backend s)) = Some v ∧ av_status v = "ready" ∧
    dict_get (pp_experiment_run_id payload) (da_experiments s) = Some gate ∧ qg_promotion_allowed gate = true ∧
    (∀ c, evidence_candidate gate = Some c → c = pp_candidate_version_id payload) ∧
    dd_allowed (policy (Some (ac_actor_id actor)) "deployment.promote" d) = true ∧
    d' = promoted payload gate key d ∧ (sv_get id (svc s')).1 = Ret d'.
Proof.
  destruct (promote_item h rid key id payload s d' s' Hinv Hrun) as (d&v&gate&actor&?&?&?&?&?&?&?&?&?&?&?&_&?&_).
  by exists d, v, gate, actor.
Qed.

Lemma rollback_version_promoted payload gate key d :
  _rollback_version_id (promoted payload gate key d) = Some (dp_agent_version_id d).
Proof. unfold _rollback_version_id, _promotion_config, promoted. simpl. by rewrite dict_get_set_eq. Qed.

Definition rolled_back (target : Z) (reason : string) (key : option string) (d : DeploymentRecord) : DeploymentRecord :=
  d <| dp_agent_version_id := target |>
    <| dp_config_json := dict_set "promotion" (VDict (rollback_entry (dp_agent_version_id d) target reason key d))
         (dp_config_json d) |>.

(** * Tasks *)

Lemma task_accepted d tenant project s : task_refusal (C:=C) (R:=R) (K:=K) d tenant project s = None →
  dp_desired_status d = DD_active ∧
  (∃ agent, nr_agent (dp_agent_id d) tenant project (bk_native (da_backend s)) = Some agent ∧ ag_status agent = "active") ∧
  ∃ v, nr_version (dp_agent_id d) (dp_agent_version_id d) (bk_native (da_backend s)) = Some v ∧ av_status v = "ready".
Proof.
  unfold task_refusal. case_bool_decide as Ha; cbn [negb]; [|done].
  destruct (nr_agent _ _ _ _) as [agent|]; [|done]. case_bool_decide as Hs; cbn [negb]; [|done].
  intros Hv%candidate_ready. by eauto.
Qed.

(** No policy blocks: those that trigger only warn. *)
Lemma verdict_open channels l p pv : bd_blocking_policy (verdict channels l) = None → (p, pv) ∈ l →
  bp_action_mode p ≠ "warn" → pv_would_trigger pv = false.
Proof.
  unfold verdict. simpl. intros Hh Hin Hm. destruct (pv_would_trigger pv) eqn:Ht; [|done]. exfalso.
  assert ((p, pv) ∈ List.filter (triggered false) l) as Hf.
  { apply list_elem_of_In, filter_In. split; [by apply list_elem_of_In|]. unfold triggered. simpl.
    rewrite Ht. simpl. by rewrite bool_decide_false. }
  destruct (List.filter (triggered false) l); [by apply elem_of_nil in Hf|done].
Qed.

(** With the database, a task is taken only for a deployment of the request's
    tenant and project that is active, whose agent is active and whose version is ready,
    and only while no selected budget policy that rejects or asks for approval has
    reached its threshold. *)
Theorem task_within_budget h rid key now id payload s r s' (Hsql : nr_sqlalchemy (N:=N) = true)
    (Hrun : create_deployment_task sha256 env sum_floats h rid key now id payload s = (Ret (Item r), s')) :
  ∃ tenant project d agent v pl,
    hd_tenant_id h = Some tenant ∧ hd_project_id h = Some project ∧
    (sv_get id (svc s)).1 = Ret d ∧ scope_of d = (tenant, project) ∧ dp_desired_status d = DD_active ∧
    nr_agent (dp_agent_id d) tenant project (bk_native (da_backend s)) = Some agent ∧ ag_status agent = "active" ∧
    nr_version (dp_agent_id d) (dp_agent_version_id d) (bk_native (da_backend s)) = Some v ∧ av_status v = "ready" ∧
    (read_previews sum_floats tenant project (dp_environment d)
      (channels_of tenant project (bk_budget (da_backend s))) now
      (selected_policies tenant project (dp_environment d) (dp_agent_id d) (dp_id d) (bk_budget (da_backend s)))
      (da_backend s)).1 = Ret pl ∧
    ∀ p pv, (p, pv) ∈ pl → bp_action_mode p ≠ "warn" → pv_would_trigger pv = false.
Proof.
  apply authorize_item in Hrun as (t&p&actor&a&Ht&Hp&Hrun). set (s0 := s <| da_api := a |>) in Hrun.
  apply scoped_item in Hrun as (d&Hd&Hsc&Hrun). apply bind_ret_inv in Hrun as (s1&s2&[= <- <-]&Hrun).
  destruct (task_refusal d t p s0) as [[c e]|] eqn:Hr; [done|].
  apply task_accepted in Hr as (Hact&(agent&Hag1&Hag2)&v&Hv1&Hv2).
  apply bind_ret_inv in Hrun as (dec&s3&Hev&Hrun). unfold in_backend in Hev. apply zoom_inv in Hev as (b'&Hev&_).
  change (da_backend s0) with (da_backend s) in *. rewrite evaluate_verdict in Hev by done.
  apply bind_ret_inv in Hev as (pl&b1&Hpl&[= <- _]).
  exists t, p, d, agent, v, pl. split_and!; try done; [by rewrite Hpl|].
  intros q pv. apply (verdict_open (channels_of t p (bk_budget (da_backend s)))).
  destruct (bd_blocking_policy _) as [hit|]; [|done].
  apply bind_ret_inv in Hrun as (?&?&_&Hrun). by apply bind_ret_inv in Hrun as (?&?&_&Hrun).
Qed.
End props.

(** * Promotion and back, in process *)

Section in_process.
Context {C R N : Type} `{!SessionCache C, !ServiceAccounts R, !NativeRuntime N}.
Context (sha256 : string → string) (env : ApiConfig) (policy : DeploymentPolicyEngine).
Abbreviation Srv := (DeployApi C R ControlService N).
Implicit Types s : Srv.

(** The state with another service. *)
Definition with_svc (c : ControlService) s : Srv := s <| da_backend := (da_backend s) <| bk_service := c |> |>.
Definition put_deployment (id : Z) (d : DeploymentRecord) (c : ControlService) : ControlService :=
  c <| cs_deployments := (cs_deployments c) <| deployments := dict_set id d (deployments (cs_deployments c)) |> |>.

Lemma assign_run s id f d : dp_id d = id → deployment_of id (svc s) = Some d →
  assign d f s = (Ret (f d), with_svc (put_deployment id (f d) (svc s)) s).
Proof. intros <- Hd. unfold assign. unfold mbind, M_bind. rewrite service_eq. simpl. by rewrite (mutate_run _ _ _ d). Qed.

Lemma save_run s d : service (sv_save d) s = (Ret d, with_svc (put_deployment (dp_id d) d (svc s)) s).
Proof. by rewrite service_eq. Qed.

Lemma commit_run {A} id d f g (k : DeploymentRecord → DeploymentRecord → M Srv A) s :
  control_inv (svc s) → deployment_of id (svc s) = Some d → (∀ d, same_identity d (f d)) → (∀ d, same_identity d (g d)) →
  (d ← assign d f; d ← assign d g; u ← service (sv_save d); k d u) s =
  k (g (f d)) (g (f d)) (with_svc (put_deployment id (g (f d)) (svc s)) s).
Proof.
  intros Hi Hd Hf Hg. assert (dp_id d = id) as Hid by (by apply (proj1 Hi)).
  assert (dp_id (f d) = id) as Hidf by (by rewrite <-(proj1 (Hf d))).
  assert (dp_id (g (f d)) = id) as Hidg by (by rewrite <-(proj1 (Hg (f d)))).
  unfold mbind, M_bind. rewrite (assign_run s id f d) by done.
  rewrite (assign_run _ id g (f d)); [|done|unfold deployment_of; simpl; apply dict_get_set_eq].
  rewrite save_run, Hidg. f_equal. unfold with_svc, put_deployment, svc. simpl. by rewrite !dict_set_set.
Qed.

Lemma authorize_run {A} h scope tenant project actor (f : Z → Z → AuthenticatedActor → M Srv (reply A)) s :
  hd_tenant_id h = Some tenant → hd_project_id h = Some project →
  (authenticate_api_key sha256 env (mkHeaders (hd_authorization h) None (Some tenant) (Some project) None) tenant scope
    (da_api s)).1 = Ret (Item actor) →
  ∃ a, _authorize sha256 env h scope f s = f tenant project actor (s <| da_api := a |>).
Proof.
  intros Ht Hp Ha. unfold _authorize. rewrite Ht, Hp. unfold mbind, M_bind, in_api, zoom.
  destruct (authenticate_api_key _ _ _ _ _ _) as [r a]. simpl in Ha. subst r. by exists a.
Qed.

Lemma scoped_run {A} id d (f : DeploymentRecord → M Srv (reply A)) s : deployment_of id (svc s) = Some d →
  _get_scoped_deployment id (dp_tenant_id d) (dp_project_id d) f s = f d s.
Proof.
  intros Hd. unfold _get_scoped_deployment, catch. unfold mbind, M_bind. rewrite service_eq. change (sv_get id) with (in_store (store_get id)).
  rewrite get_run_eq, Hd. cbn [fst snd]. rewrite set_svc_id. unfold deployment_in_scope. by rewrite !Z.eqb_refl.
Qed.

(** Rolling back undoes a promotion. Once a promotion was answered with the
    deployment, a rollback that names no version of its own, from a caller who is
    admitted and allowed and as long as the replaced version is still ready, puts that
    version back, and records the promoted one as the version to go to next. *)
Theorem rollback_undoes_promotion h rid key id payload s d1 s1 d h' rid' key' payload' actor v
    (Hinv : control_inv (svc s)) (Hd : deployment_of id (svc s) = Some d)
    (Hrun : promote_deployment sha256 env policy h rid key id payload s = (Ret (Item d1), s1))
    (Ht : hd_tenant_id h' = Some (dp_tenant_id d)) (Hp : hd_project_id h' = Some (dp_project_id d))
    (Hauth : (authenticate_api_key sha256 env (mkHeaders (hd_authorization h') None (Some (dp_tenant_id d))
      (Some (dp_project_id d)) None) (dp_tenant_id d) "agent:deploy" (da_api s1)).1 = Ret (Item actor))
    (Hv : nr_version (dp_agent_id d) (dp_agent_version_id d) (bk_native (da_backend s1)) = Some v)
    (Hready : av_status v = "ready")
    (Hpol : dd_allowed (policy (Some (ac_actor_id actor)) "deployment.rollback" d1) = true)
    (Hexp : rp_expected_current_version_id payload' = pp_candidate_version_id payload)
    (Hnone : rp_rollback_agent_version_id payload' = None) (Hreason : min_length 1 (rp_rollback_reason payload') = true) :
  ∃ d2 s2, rollback_deployment sha256 env policy h' rid' key' id payload' s1 = (Ret (Item d2), s2) ∧
    d2 = rolled_back (dp_agent_version_id d) (rp_rollback_reason payload') key' d1 ∧
    dp_agent_version_id d2 = dp_agent_version_id d ∧ deployment_of id (svc s2) = Some d2 ∧
    _rollback_version_id d2 = Some (pp_candidate_version_id payload).
Proof.
  assert ((sv_get id (svc s)).1 = Ret d) as Hg by (simpl; by rewrite get_run_eq, Hd).
  assert (dl_inv (svc s)) as Hdl by exact Hinv.
  destruct (promote_item sha256 env policy h rid key id payload s d1 s1 Hdl Hrun)
    as (d0&v0&gate&actor0&Hg0&_&_&_&_&_&_&_&_&_&Hd1&Hdl1&Hg1&_&_).
  assert (control_inv (svc s1)) as Hinv1 by exact Hdl1.
  rewrite Hg in Hg0. injection Hg0 as <-.
  assert (deployment_of id (svc s1) = Some d1) as Hd1s.
  { simpl in Hg1. rewrite get_run_eq in Hg1. destruct (deployment_of id (svc s1)); [|done]. simpl in Hg1. congruence. }
  assert (same_identity d d1) as (Hid&Hsc&Hag) by (by rewrite Hd1).
  assert (dp_id d1 = id) as Hid1 by (by apply (proj1 Hinv1)).
  injection Hsc as Ht1 Hp1. rewrite Ht1, Hp1 in *.
  unfold rollback_deployment, validated. rewrite Hreason.
  match goal with |- context [_authorize _ _ _ _ ?f _] =>
    destruct (authorize_run h' "agent:deploy" _ _ actor f s1 Ht Hp Hauth) as [a ->] end.
  set (s0 := s1 <| da_api := a |>). rewrite (scoped_run id d1) by done.
  unfold mbind at 1, M_bind at 1. unfold get_state at 1.
  assert (dp_agent_version_id d1 = pp_candidate_version_id payload) as Hv1 by (by rewrite Hd1).
  unfold _expected_version_conflict. rewrite Hv1, Hexp, Z.eqb_refl. cbn [unless].
  assert (_rollback_version_id d1 = Some (dp_agent_version_id d)) as Hback by (rewrite Hd1; apply rollback_version_promoted).
  unfold rollback_target. rewrite Hnone, Hback.
  unfold _candidate_version_error. change (da_backend s0) with (da_backend s1).
  rewrite <-Hag, Hv, bool_decide_true by done. cbn [unless].
  unfold mbind at 1, M_bind at 1. unfold _policy_error. rewrite Hpol. unfold mret at 1, M_ret at 1. cbn [unless].
  rewrite (commit_run id d1) by done. unfold mbind, M_bind. rewrite audit_eq. do 2 eexists. split; [done|].
  rewrite <-Hv1. split; [done|]. split; [done|]. split.
  - unfold deployment_of. simpl. by rewrite dict_get_set_eq.
  - unfold _rollback_version_id, _promotion_config. simpl. rewrite dict_get_set_eq. unfold rollback_entry, dict_merge. simpl.
    by rewrite !dict_get_set.
Qed.

(** * An update that is refused *)

Lemma authenticate_refusal h tenant scope (a : Api C R) c e a' :
  authenticate_api_key sha256 env h tenant scope a = (Ret (Refused c e), a') → c ≠ 409.
Proof.
  unfold authenticate_api_key.
  set (o := match hd_authorization h, hd_console_session h with
    | None, Some c => if String.eqb c "" then None else Some ("Bearer " +:+ strip_string c) | a, _ => a end).
  destruct o as [auth|]; [|by intros [= <- <- _]]. destruct (negb _); [by intros [= <- <- _]|]. cbv zeta.
  intros (op&s1&_&Hrun)%bind_ret_inv. destruct op as [op|].
  - apply bind_ret_inv in Hrun as (d&s2&_&Hrun). destruct (negb _); [by injection Hrun as <- <- _|done].
  - destruct (is_dev_key _ _); [destruct (String.eqb _ _); [done|by injection Hrun as <- <- _]|].
    apply bind_ret_inv in Hrun as (r&s2&_&Hrun). destruct r as [actor|ex]; [done|].
    destruct ex; try done; by injection Hrun as <- <- _.
Qed.

(** In process, a deployment update that is refused because another deployment of
    the agent has the environment has already put the new agent version in the stored
    record: the caller reads 409 and the version changed. (The handler assigns the
    attribute of the shared record before it looks for the conflict.) *)
Theorem refused_update_changes_version h rid id payload version s s' (Hinv : control_inv (svc s))
    (Hv : du_agent_version_id payload = Some version)
    (Hrun : update_deployment sha256 env h rid id payload s = (Ret (Refused 409 "deployment_already_exists"), s')) :
  ∃ d, deployment_of id (svc s) = Some d ∧
    deployment_of id (svc s') = Some (d <| dp_agent_version_id := version |>).
Proof.
  unfold update_deployment, validated in Hrun. destruct (valid_deployment_update payload); [|done].
  unfold _authorize in Hrun. destruct (hd_tenant_id h) as [t|], (hd_project_id h) as [p|]; try done.
  apply bind_ret_inv in Hrun as (r&s1&Hauth&Hrun). unfold in_api in Hauth. apply zoom_inv in Hauth as (a&Hauth&->).
  destruct r as [actor|c e]; [|injection Hrun as -> _ _; by apply authenticate_refusal in Hauth].
  set (s0 := s <| da_api := a |>) in Hrun. unfold _get_scoped_deployment, catch in Hrun.
  unfold mbind at 1, M_bind at 1 in Hrun. rewrite service_eq in Hrun.
  change (sv_get id) with (in_store (store_get id)) in Hrun. change (svc s0) with (svc s) in Hrun.
  rewrite get_run_eq in Hrun. destruct (deployment_of id (svc s)) as [d|] eqn:Hd; [|done].
  cbn [fst snd] in Hrun. change (svc s) with (svc s0) in Hrun. rewrite set_svc_id in Hrun.
  destruct (deployment_in_scope d t p); [|done]. exists d. split; [done|].
  apply bind_ret_inv in Hrun as (s2&s3&[= <- <-]&Hrun). rewrite Hv in Hrun. simpl in Hrun.
  destruct (_candidate_version_error _ _ s0) as [[c e]|] eqn:Hc.
  { injection Hrun as -> -> _. unfold _candidate_version_error in Hc.
    destruct (nr_version _ _ _) as [v|]; [|done]. by case_bool_decide. }
  unfold mbind at 1, M_bind at 1 in Hrun. rewrite (assign_run s0 id _ d) in Hrun; [|by apply (proj1 Hinv)|done].
  apply bind_ret_inv in Hrun as (taken&s4&Htaken&Hrun).
  set (s1 := with_svc _ s0) in Htaken. assert (s4 = s1) as ->.
  { destruct (du_environment payload) as [e|]; [|by injection Htaken as _ <-].
    destruct (bool_decide _); [by injection Htaken as _ <-|].
    apply bind_ret_inv in Htaken as (l&s5&Hl&[= _ <-]).
    replace s5 with (service (sv_list (Some t) (Some p)) s1).2 by exact (f_equal snd Hl). rewrite service_eq. apply set_svc_id. }
  destruct taken.
  - injection Hrun as <-. unfold deployment_of. simpl. by rewrite dict_get_set_eq.
  - exfalso. clear -Hrun. do 4 (apply bind_ret_inv in Hrun as (?&?&_&Hrun)). by apply bind_ret_inv in Hrun as (?&?&_&Hrun).
Qed.
End in_process.

(** * Instances *)

Lemma run_eq {A B} (x : A * B) (a : A) : x.1 = a → x = (a, x.2).
Proof. destruct x. by intros <-. Qed.

Definition demo_hash (s : string) : string := s.
#[local] Instance demo_runtime : NativeRuntime NativeRuntimeStore := native_runtime_store demo_hash.
#[local] Instance demo_sql_runtime : NativeRuntime (SqlNative IdemTable) := sql_native_runtime demo_hash.

Definition dev_env : ApiConfig := mkApiConfig (Some "dev") "dev".
Definition dev_headers (tenant project : Z) : Headers := mkHeaders (Some "Bearer dev") None (Some tenant) (Some project) None.

Definition demo_version_args : VersionArgs := mkVersionArgs "1" "file://pkg" "python" "python" "main:run" [] [].
Definition demo_native : NativeRuntimeStore :=
  ((create_agent 1 1 "support" None ;; create_version 1 demo_version_args ;; create_version 1 demo_version_args)
     (new_native Z.of_nat)).2.

Definition demo_deployment (id tenant project : Z) (environment : string) : DeploymentRecord :=
  mkDeployment id tenant project 1 1 environment DD_active DR_not_loaded 1 [] None.
Definition demo_control : ControlService :=
  mkControl (mkDeploymentStore [(1, demo_deployment 1 1 1 "production"); (2, demo_deployment 2 1 1 "staging");
    (3, demo_deployment 3 2 2 "production")] 4) (Deployments.mkRegistry [] 1) [].
Definition demo_gate : QualityGate :=
  mkGate "passed" true None ["experiment_run"; "evaluation_results"] [("candidate_agent_version_id", VInt 2)].
Definition demo_deploy_api : DeployApi MemorySessionCache ServiceAccountRegistry ControlService NativeRuntimeStore :=
  mkDeployApi demo_api (mkBackend demo_control demo_native (mkBudgetTables [] [] [])) [(401, demo_gate)] [] 600.

Lemma demo_control_inv : control_inv demo_control.
Proof.
  split.
  - intros id d. unfold demo_control. simpl. repeat case_decide; by intros [= <-].
  - intros id d. unfold demo_control, deployment_of. simpl. repeat case_decide; subst; intros [= <-]; lia.
Qed.

Definition demo_update : DeploymentUpdate := mkDeploymentUpdate (Some 2) (Some "staging") None None.
Definition demo_deployment_requests : list deployment_request :=
  [mkRequest (dev_headers 1 1) None None (CallUpdate 1 demo_update);
   mkRequest (dev_headers 1 1) None None (CallArchive 3);
   mkRequest (dev_headers 1 1) None None (CallControl A_stop 2);
   mkRequest (mkHeaders None None None None None) None None (CallArchive 3)].

Lemma deployments_isolated_witness :
  dl_lookup 3 (svc (serve_all demo_hash dev_env sum_plain AllowAllPolicyEngine demo_deployment_requests demo_deploy_api))
  = Some (demo_deployment 3 2 2 "production") ∧
  dl_inv (svc (serve_all demo_hash dev_env sum_plain AllowAllPolicyEngine demo_deployment_requests demo_deploy_api)).
Proof.
  eapply (@deployments_isolated _ _ _ _ memory_session_cache in_memory_accounts in_process_deployments demo_runtime
    in_process_lawful demo_hash dev_env sum_plain AllowAllPolicyEngine (2, 2) demo_deployment_requests demo_deploy_api 3);
    [exact demo_control_inv| |reflexivity|reflexivity].
  by repeat constructor.
Defined.

Definition demo_promote : DeploymentPromotePayload := mkPromote 2 1 401 "better answers".
Definition demo_promoted := promote_deployment demo_hash dev_env AllowAllPolicyEngine (dev_headers 1 1) None None 1 demo_promote
  demo_deploy_api.
Definition demo_promoted_record : DeploymentRecord := Eval vm_compute in
  match demo_promoted.1 with Ret (Item d) => d | _ => demo_deployment 0 0 0 "" end.

Lemma demo_promote_run :
  promote_deployment demo_hash dev_env AllowAllPolicyEngine (dev_headers 1 1) None None 1 demo_promote demo_deploy_api
  = (Ret (Item demo_promoted_record), demo_promoted.2).
Proof. unfold demo_promoted. apply run_eq. vm_compute. reflexivity. Qed.

Lemma promote_guarded_witness :
  ∃ d v, (sv_get 1 demo_control).1 = Ret d ∧ dp_agent_version_id d = 1 ∧
    nr_version 1 2 demo_native = Some v ∧ av_status v = "ready".
Proof.
  destruct (@promote_guarded _ _ _ _ memory_session_cache in_memory_accounts in_process_deployments demo_runtime
    in_process_lawful demo_hash dev_env AllowAllPolicyEngine (dev_headers 1 1) None None 1 demo_promote demo_deploy_api
    demo_promoted_record demo_promoted.2 demo_control_inv demo_promote_run)
    as (d&v&gate&actor&Hd&_&_&Hexp&Hv&Hr&_).
  exists d, v. split; [exact Hd|]. split; [exact Hexp|]. split; [|exact Hr].
  injection Hd as <-. exact Hv.
Defined.

Definition demo_rollback : DeploymentRollbackPayload := mkRollback 2 None "worse answers".

Lemma rollback_undoes_promotion_witness :
  ∃ d2 s2, rollback_deployment demo_hash dev_env AllowAllPolicyEngine (dev_headers 1 1) None None 1 demo_rollback demo_promoted.2
    = (Ret (Item d2), s2) ∧ dp_agent_version_id d2 = 1 ∧ _rollback_version_id d2 = Some 2.
Proof.
  edestruct (rollback_undoes_promotion demo_hash dev_env AllowAllPolicyEngine (dev_headers 1 1) None None 1 demo_promote
    demo_deploy_api demo_promoted_record demo_promoted.2 (demo_deployment 1 1 1 "production") (dev_headers 1 1) None None
    demo_rollback) as (d2&s2&Hrun&_&Hv&_&Hb).
  - exact demo_control_inv.
  - reflexivity.
  - exact demo_promote_run.
  - reflexivity.
  - reflexivity.
  - vm_compute. reflexivity.
  - vm_compute. reflexivity.
  - reflexivity.
  - reflexivity.
  - reflexivity.
  - reflexivity.
  - reflexivity.
  - exists d2, s2. split; [exact Hrun|]. split; [exact Hv|exact Hb].
Defined.

Definition demo_conflict := update_deployment demo_hash dev_env (dev_headers 1 1) None 1 demo_update demo_deploy_api.

Lemma demo_conflict_run :
  update_deployment demo_hash dev_env (dev_headers 1 1) None 1 demo_update demo_deploy_api
  = (Ret (Refused 409 "deployment_already_exists"), demo_conflict.2).
Proof. unfold demo_conflict. apply run_eq. vm_compute. reflexivity. Qed.

Lemma refused_update_changes_version_witness :
  dp_agent_version_id <$> deployment_of 1 demo_control = Some 1 ∧
  dp_agent_version_id <$> deployment_of 1 (svc demo_conflict.2) = Some 2.
Proof.
  split; [reflexivity|].
  destruct (refused_update_changes_version demo_hash dev_env (dev_headers 1 1) None 1 demo_update 2 demo_deploy_api
    demo_conflict.2 demo_control_inv eq_refl demo_conflict_run) as (d&_&->).
  reflexivity.
Defined.

(** ** With the database *)

Definition demo_sql_native : SqlNative IdemTable :=
  mkSqlNative empty_db [(1, mkAgentRow 1 1 1 "support" None "active" 0 false None)]
    [(1, mkVersionRow 1 1 "1" "file://pkg" "python" "python" "main:run" [] [] "ready" 0 false None)] 2 2 []
    (mkIdemTable [] 1) Z.of_nat 0.
Definition demo_rows : SqlDeployments :=
  mkSqlDeployments [(1, mkDeploymentRow 1 1 1 1 1 "production" "active" "not_loaded" 1 [] None false)] 2 [].
Definition demo_policy (threshold : float) (environment : option string) : CostBudgetPolicy :=
  mkBudget 1 1 (Some 1) "guardrail" environment "tenant" None threshold "monthly" 1 "reject" "active" false.
Definition demo_sql_api (p : CostBudgetPolicy)
  : DeployApi MemorySessionCache ServiceAccountRegistry SqlDeployments (SqlNative IdemTable) :=
  mkDeployApi demo_api (mkBackend demo_rows demo_sql_native (mkBudgetTables [p] [] [])) [] [] 600.
Definition demo_task (p : CostBudgetPolicy) := create_deployment_task demo_hash dev_env sum_plain (dev_headers 1 1) None None
  (λ _, 0) 1 (mkTaskCreate [] None) (demo_sql_api p).
Definition demo_task_reply : TaskCreated := mkTaskCreated 1 1 "queued" false.

Definition demo_budget : CostBudgetPolicy := demo_policy (float_of_Z 100) (Some "production").
Lemma demo_task_run :
  create_deployment_task demo_hash dev_env sum_plain (dev_headers 1 1) None None (λ _, 0) 1 (mkTaskCreate [] None)
    (demo_sql_api demo_budget) = (Ret (Item demo_task_reply), (demo_task demo_budget).2).
Proof. unfold demo_task. apply run_eq. vm_compute. reflexivity. Qed.

(** The same policy with nothing to spend refuses the task; without an environment it
    does not. *)
Lemma task_within_budget_witness :
  (demo_task (demo_policy (float_of_Z 0) (Some "production"))).1 = Ret (Refused 403 "cost_budget_exceeded") ∧
  (demo_task (demo_policy (float_of_Z 0) None)).1 = Ret (Item demo_task_reply) ∧
  ∃ d, (sv_get 1 demo_rows).1 = Ret d ∧ dp_desired_status d = DD_active.
Proof.
  split; [vm_compute; reflexivity|]. split; [vm_compute; reflexivity|].
  destruct (@task_within_budget _ _ _ _ memory_session_cache in_memory_accounts sql_deployments demo_sql_runtime
    sql_lawful demo_hash dev_env sum_plain (dev_headers 1 1) None None (λ _, 0) 1 (mkTaskCreate [] None)
    (demo_sql_api demo_budget) demo_task_reply _ eq_refl demo_task_run)
    as (t&p&d&agent&v&pl&_&_&Hd&_&Ha&_).
  exists d. split; [exact Hd|exact Ha].
Defined.

Lemma budget_verdict_witness :
  (evaluate_persisted_budget_policies sum_plain 1 1 "production" 1 1 (λ _, 0)
    (da_backend (demo_sql_api (demo_policy (float_of_Z 0) (Some "production"))))).1
  = Ret (mkBudgetDecision (Some (hit_of [] (demo_policy (float_of_Z 0) (Some "production")) (float_of_Z 0))) []).
Proof. rewrite (@budget_verdict _ _ sql_deployments demo_sql_runtime sum_plain 1 1 "production" 1 1 (λ _, 0) _ eq_refl). vm_compute. reflexivity. Defined.
