(* ===== verification/Packages.v ===== *)
(** Validation of agent packages ([packages/validation.py]). Hashing is a parameter;
    the texts of errors and warnings are reduced to what they mention. *)

From stdpp Require Import gmap.
From Stdlib Require Import Ascii.
From S2P Require Import Prelude Values Json ConsoleApi.

Definition SUPPORTED_RUNTIME_PAIRS : dict string string :=
  [("langgraph", "langgraph"); ("langchain-agent", "langchain-agent"); ("deepagents", "deepagents")].
Definition SUPPORTED_CAPABILITIES : list string :=
  ["invoke"; "stream"; "streaming"; "checkpoint"; "resume"; "interrupt"; "human_in_loop"; "tool_events";
   "model_events"; "token_usage"; "filesystem"; "subagents"].

Record PackageValidationError := mkPackageError {
  pe_field : string;
  pe_code : string;
  pe_subject : option string
}.

Inductive PackageWarning :=
| W_no_capabilities
| W_dependencies_not_a_list
| W_dependency_not_an_object (v : value)
| W_dependency_without_name
| W_dependency_without_version (name : string).

Record PackageValidationRequest := mkPackageRequest {
  pk_package_uri : string;
  pk_framework : string;
  pk_adapter : string;
  pk_entrypoint : string;
  pk_manifest : pydict;
  pk_required_secret_refs : list string
}.

Record PackageValidationResult := mkPackageResult {
  pr_status : string;
  pr_ready : bool;
  pr_validation_token : option string;
  pr_errors : list PackageValidationError;
  pr_warnings : list PackageWarning;
  pr_missing_secret_refs : list string;
  pr_capabilities : pydict;
  pr_next_action : string
}.

(** * Paths *)

(** [path.replace("\\", "/").split("/")] *)
Fixpoint path_parts_of (l : chars) : list chars :=
  match l with
  | [] => [[]]
  | c :: l' =>
      if Ascii.eqb c "/" || (code c =? 92) then [] :: path_parts_of l'
      else match path_parts_of l' with
           | p :: ps => (c :: p) :: ps
           | [] => [[c]]
           end
  end.
Definition path_parts (s : string) : list string := of_chars <$> path_parts_of (to_chars s).

(** [WINDOWS_ABSOLUTE_PATH_RE.match] *)
Definition is_letter (c : ascii) : bool :=
  ((65 <=? code c) && (code c <=? 90)) || ((97 <=? code c) && (code c <=? 122)).
Definition windows_absolute (s : string) : bool :=
  match to_chars s with
  | d :: c :: p :: _ => is_letter d && Ascii.eqb c ":" && (Ascii.eqb p "/" || (code p =? 92))
  | _ => false
  end.

Definition backslash : string := of_chars [chr 92].

Definition package_uri_allowed_for_validation (uri : string) : bool :=
  if starts_with "oci://" uri then true
  else if starts_with "file://" uri then
    let path := removeprefix "file://" uri in
    negb (String.eqb path "") && negb (bool_decide (".." ∈ path_parts path))
  else
    (starts_with "./" uri || starts_with "/" uri || starts_with ("." +:+ backslash) uri || windows_absolute uri)
    && negb (bool_decide (".." ∈ path_parts uri)).

Definition package_uri_allowed_in_runtime (uri runtime_mode : string) : bool :=
  if bool_decide (runtime_mode = "dev")
  then starts_with "memory://" uri || package_uri_allowed_for_validation uri
  else starts_with "oci://" uri.

(** * The token *)

Definition _manifest_without_validation_token (manifest : pydict) : pydict := dict_pop "validation_token" manifest.

Section token.
Context (sha256 : string → string).

(** [None] where [json.dumps] raises *)
Definition validation_token (package_uri framework adapter entrypoint : string) (manifest : pydict) : option string :=
  encoded ← json_dumps (VDict [("package_uri", VStr package_uri); ("framework", VStr framework);
    ("adapter", VStr adapter); ("entrypoint", VStr entrypoint);
    ("manifest", VDict (_manifest_without_validation_token manifest))]);
  Some ("pkgval_" +:+ String.substring 0 32 (sha256 encoded)).

Definition manifest_has_valid_token (package_uri framework adapter entrypoint : string) (manifest : pydict) : option bool :=
  match dict_get "validation_token" manifest with
  | Some (VStr token) =>
      expected ← validation_token package_uri framework adapter entrypoint manifest;
      Some (String.eqb token expected)
  | _ => Some false
  end.

(** * Validation *)

Definition list_entry (k : string) (d : pydict) : list value :=
  match dict_get k d with Some (VList l) => l | _ => [] end.

Definition _manifest_secret_refs (manifest : pydict) : list string :=
  omap (λ v, match v with
    | VStr s => Some s
    | VDict d => match dict_get "ref" d with Some (VStr s) => Some s | _ => None end
    | _ => None
    end) (list_entry "secrets" manifest)
  ++ omap (λ v, match v with VStr s => Some s | _ => None end) (list_entry "required_secrets" manifest).

Definition dependency_warning (v : value) : option PackageWarning :=
  match v with
  | VDict d =>
      match dict_get "name" d with
      | Some (VStr name) =>
          if String.eqb name "" then Some W_dependency_without_name
          else match dict_get "version" d with
               | Some (VStr version) => if String.eqb version "" then Some (W_dependency_without_version name) else None
               | _ => Some (W_dependency_without_version name)
               end
      | _ => Some W_dependency_without_name
      end
  | _ => Some (W_dependency_not_an_object v)
  end.

Definition _dependency_warnings (manifest : pydict) : list PackageWarning :=
  match dict_get "dependencies" manifest with
  | None | Some VNone => []
  | Some (VList l) => omap dependency_warning l
  | Some _ => [W_dependencies_not_a_list]
  end.

(** [":" not in s or any(not part for part in s.split(":", 1))] *)
Fixpoint split_colon (l : chars) : option (chars * chars) :=
  match l with
  | [] => None
  | c :: l' => if Ascii.eqb c ":" then Some ([], l') else (λ p, (c :: p.1, p.2)) <$> split_colon l'
  end.
Definition entrypoint_valid (s : string) : bool :=
  match split_colon (to_chars s) with Some (_ :: _, _ :: _) => true | _ => false end.

Definition supported_pair (adapter framework : string) : bool :=
  bool_decide (dict_get adapter SUPPORTED_RUNTIME_PAIRS = Some framework).

Definition manifest_runtime (manifest : pydict) : option pydict :=
  match dict_get "runtime" manifest with Some (VDict r) => Some r | _ => None end.

(** [runtime.get(key, given) != given], and without a default for the entry point *)
Definition runtime_matches (r : PackageValidationRequest) (runtime : pydict) : bool :=
  bool_decide (default (VStr (pk_framework r)) (dict_get "framework" runtime) = VStr (pk_framework r))
  && bool_decide (default (VStr (pk_adapter r)) (dict_get "adapter" runtime) = VStr (pk_adapter r))
  && bool_decide (dict_get "entrypoint" runtime = Some (VStr (pk_entrypoint r))).

Definition missing_secrets (r : PackageValidationRequest) : list string :=
  List.filter (λ s, negb (bool_decide (s ∈ _manifest_secret_refs (pk_manifest r)))) (pk_required_secret_refs r).

(** The capabilities with the errors of their form. *)
Definition manifest_capabilities (manifest : pydict) : pydict :=
  match dict_get "capabilities" manifest with Some (VDict c) => c | _ => [] end.
Definition capabilities_wellformed (manifest : pydict) : bool :=
  match dict_get "capabilities" manifest with None | Some VNone | Some (VDict _) => true | _ => false end.
Definition unsupported_capabilities (manifest : pydict) : list string :=
  List.filter (λ c, negb (bool_decide (c ∈ SUPPORTED_CAPABILITIES))) (dict_keys (manifest_capabilities manifest)).

Definition when (b : bool) (e : PackageValidationError) : list PackageValidationError := if b then [e] else [].

Definition package_errors (r : PackageValidationRequest) : list PackageValidationError :=
  when (negb (package_uri_allowed_for_validation (pk_package_uri r))) (mkPackageError "package_uri" "package_uri_not_allowed" None)
  ++ when (negb (supported_pair (pk_adapter r) (pk_framework r))) (mkPackageError "runtime" "unsupported_runtime_pair" None)
  ++ when (negb (entrypoint_valid (pk_entrypoint r))) (mkPackageError "entrypoint" "invalid_entrypoint" None)
  ++ when (bool_decide (manifest_runtime (pk_manifest r) = None)) (mkPackageError "manifest.runtime" "manifest_runtime_missing" None)
  ++ when (negb (runtime_matches r (default [] (manifest_runtime (pk_manifest r)))))
       (mkPackageError "manifest.runtime" "manifest_runtime_mismatch" None)
  ++ ((λ s, mkPackageError "required_secret_refs" "required_secret_missing" (Some s)) <$> missing_secrets r)
  ++ when (negb (capabilities_wellformed (pk_manifest r))) (mkPackageError "manifest.capabilities" "invalid_capabilities" None)
  ++ ((λ c, mkPackageError "manifest.capabilities" "unsupported_capability" (Some c)) <$> unsupported_capabilities (pk_manifest r)).

Definition package_warnings (manifest : pydict) : list PackageWarning :=
  match dict_get "capabilities" manifest with None | Some VNone => [W_no_capabilities] | _ => [] end
  ++ _dependency_warnings manifest.

Definition validate_package (r : PackageValidationRequest) : option PackageValidationResult :=
  match package_errors r with
  | [] =>
      token ← validation_token (pk_package_uri r) (pk_framework r) (pk_adapter r) (pk_entrypoint r) (pk_manifest r);
      Some (mkPackageResult "valid" true (Some token) [] (package_warnings (pk_manifest r)) []
        (manifest_capabilities (pk_manifest r)) "create_ready_agent_version")
  | errors =>
      Some (mkPackageResult "invalid" false None errors (package_warnings (pk_manifest r)) (missing_secrets r)
        (manifest_capabilities (pk_manifest r)) "fix_validation_errors")
  end.
End token.

(** * What a valid package is *)

Lemma when_nil b e : when b e = [] ↔ b = false.
Proof. by destruct b. Qed.

Lemma fmap_nil_iff {A B} (f : A → B) (l : list A) : f <$> l = [] ↔ l = [].
Proof. by destruct l. Qed.

Lemma filter_nil {A} (f : A → bool) l : List.filter f l = [] ↔ ∀ x, x ∈ l → f x = false.
Proof.
  induction l as [|x l IH]; simpl; [split; [by intros _ x Hx%elem_of_nil|done]|].
  destruct (f x) eqn:E; split; try done.
  - intros H. specialize (H x ltac:(left)). congruence.
  - intros H y [->|Hy]%elem_of_cons; [done|]. by apply IH.
  - intros H. apply IH. intros y Hy. apply H. by right.
Qed.

Lemma path_parts_no_dots uri : package_uri_allowed_for_validation uri = true →
  starts_with "oci://" uri = true ∨ ".." ∉ path_parts (removeprefix "file://" uri).
Proof.
  unfold package_uri_allowed_for_validation. destruct (starts_with "oci://" uri); [by left|].
  destruct (starts_with "file://" uri) eqn:Hf; intros H; right; apply andb_true_iff in H as [_ H];
    apply negb_true_iff in H; apply bool_decide_eq_false in H; [done|].
  unfold removeprefix. unfold starts_with in Hf. destruct (strip_prefix "file://" uri); [|done].
  apply bool_decide_eq_false in Hf. by destruct Hf.
Qed.

Lemma capability_keys manifest : (∀ x, x ∈ dict_keys (manifest_capabilities manifest) →
    negb (bool_decide (x ∈ SUPPORTED_CAPABILITIES)) = false) ↔
  ∀ x, x ∈ dict_keys (manifest_capabilities manifest) → x ∈ SUPPORTED_CAPABILITIES.
Proof. split; intros H x Hx; specialize (H x Hx); rewrite negb_false_iff, bool_decide_eq_true in *; done. Qed.

(** A request has no errors exactly when it is valid. *)
Lemma package_errors_nil r : package_errors r = [] ↔
  package_uri_allowed_for_validation (pk_package_uri r) = true ∧
  dict_get (pk_adapter r) SUPPORTED_RUNTIME_PAIRS = Some (pk_framework r) ∧
  entrypoint_valid (pk_entrypoint r) = true ∧
  (∃ runtime, manifest_runtime (pk_manifest r) = Some runtime ∧ runtime_matches r runtime = true) ∧
  (∀ s, s ∈ pk_required_secret_refs r → s ∈ _manifest_secret_refs (pk_manifest r)) ∧
  capabilities_wellformed (pk_manifest r) = true ∧
  (∀ c, c ∈ dict_keys (manifest_capabilities (pk_manifest r)) → c ∈ SUPPORTED_CAPABILITIES).
Proof.
  unfold package_errors, missing_secrets, unsupported_capabilities, supported_pair.
  rewrite !app_nil, !when_nil, !fmap_nil_iff, !filter_nil, !negb_false_iff, bool_decide_eq_false, bool_decide_eq_true.
  rewrite capability_keys. split.
  - intros (?&?&?&Hrt&Hm&Hs&?&?). split_and!; try done.
    + destruct (manifest_runtime (pk_manifest r)) as [rt|]; [|done]. by exists rt.
    + intros s Hin. specialize (Hs s Hin). by rewrite negb_false_iff, bool_decide_eq_true in Hs.
  - intros (?&?&?&(rt&Hrt&Hm)&Hs&?&?). rewrite Hrt. split_and!; try done.
    intros s Hin. rewrite negb_false_iff, bool_decide_eq_true. by apply Hs.
Qed.

Lemma dict_pop_set {V} (k : string) (v : V) d : dict_pop k (dict_set k v d) = dict_pop k d.
Proof.
  unfold dict_pop. induction d as [|[k' v'] d IH]; simpl.
  - rewrite filter_cons, decide_False by (by intros []). done.
  - destruct (decide (k = k')) as [<-|Hne].
    + rewrite !filter_cons, !decide_False by (by intros []). done.
    + rewrite !filter_cons, IH. done.
Qed.

Section results.
Context (sha256 : string → string).

(** A package is answered ready exactly when its URI is allowed, framework and
    adapter are a supported pair, the entry point names a module and a function, the
    manifest's runtime section agrees with the request, the manifest declares every
    secret required and only supported capabilities; only then there is a token. *)
Theorem validate_package_correct r res (Hv : validate_package sha256 r = Some res) :
  (pr_ready res = true ↔
    package_uri_allowed_for_validation (pk_package_uri r) = true ∧
    dict_get (pk_adapter r) SUPPORTED_RUNTIME_PAIRS = Some (pk_framework r) ∧
    entrypoint_valid (pk_entrypoint r) = true ∧
    (∃ runtime, manifest_runtime (pk_manifest r) = Some runtime ∧ runtime_matches r runtime = true) ∧
    (∀ s, s ∈ pk_required_secret_refs r → s ∈ _manifest_secret_refs (pk_manifest r)) ∧
    capabilities_wellformed (pk_manifest r) = true ∧
    (∀ c, c ∈ dict_keys (manifest_capabilities (pk_manifest r)) → c ∈ SUPPORTED_CAPABILITIES)) ∧
  (is_Some (pr_validation_token res) ↔ pr_ready res = true) ∧ (pr_errors res = [] ↔ pr_ready res = true).
Proof.
  rewrite <-package_errors_nil. unfold validate_package in Hv. destruct (package_errors r) as [|e l].
  - destruct (validation_token _ _ _ _ _ _) as [t|]; [|done]. injection Hv as <-. simpl.
    split_and!; split; try done.
  - injection Hv as <-. simpl. split_and!; split; try done.
Qed.

(** The token of a package is accepted once it is put in the manifest: a version
    with the token validation issued can become ready. But nothing else is checked: the
    token is a plain hash of what the caller sends, so a caller who computes it has it
    accepted for any package, valid or not. *)
Theorem computed_token_accepted package_uri framework adapter entrypoint manifest token
    (Ht : validation_token sha256 package_uri framework adapter entrypoint manifest = Some token) :
  manifest_has_valid_token sha256 package_uri framework adapter entrypoint
    (dict_set "validation_token" (VStr token) manifest) = Some true.
Proof.
  unfold manifest_has_valid_token. rewrite dict_get_set_eq. unfold validation_token, _manifest_without_validation_token in *.
  rewrite dict_pop_set. destruct (json_dumps _) as [e|]; [|done]. simpl in *. injection Ht as <-. by rewrite String.eqb_refl.
Qed.
End results.

Definition demo_manifest : pydict :=
  [("runtime", VDict [("entrypoint", VStr "main:run")]); ("secrets", VList [VDict [("ref", VStr "key")]]);
   ("capabilities", VDict [("invoke", VBool true)])].
Definition demo_package : PackageValidationRequest :=
  mkPackageRequest "file://pkgs/support" "langgraph" "langgraph" "main:run" demo_manifest ["key"].

Lemma validate_package_correct_witness : ∃ res, validate_package (λ s, s) demo_package = Some res ∧
  pr_ready res = true ∧ entrypoint_valid "main:run" = true.
Proof.
  eexists. split; [vm_compute; reflexivity|]. split; [reflexivity|].
  eapply (validate_package_correct (λ s, s) demo_package); [vm_compute; reflexivity|reflexivity].
Defined.

(** A package no validation would let pass. *)
Lemma computed_token_accepted_witness :
  package_uri_allowed_for_validation "https://evil.example/x" = false ∧
  ∃ token, manifest_has_valid_token (λ s, s) "https://evil.example/x" "?" "?" "" [("validation_token", VStr token)] = Some true.
Proof.
  split; [vm_compute; reflexivity|]. eexists.
  apply (computed_token_accepted (λ s, s) "https://evil.example/x" "?" "?" "" []). vm_compute. reflexivity.
Defined.
