(* ===== verification/NativeStore.v ===== *)
(** The native runtime stores as the handlers of [api/native/agents.py], [runs.py],
    [tasks.py] and [replay_jobs.py] use them: one interface with the in-process and the
    database-backed implementation, and what the handlers rely on of the versions. *)

From stdpp Require Import gmap.
From S2P Require Import Prelude Values Json JsonLoads StateMachine Tables Idempotency Streaming NativeApi SqlNative DeploymentStore.

(** What [update_version] is given to keep a version as it is. *)
Definition version_args (v : NativeAgentVersion) : VersionArgs :=
  mkVersionArgs (av_version v) (av_package_uri v) (av_framework v) (av_adapter v) (av_entrypoint v)
    (av_capabilities v) (av_manifest v).

(** What the handlers ask of the store besides [NativeRuntime]. Agents and versions are
    named by their ids; what an operation returns is the object after it. *)
Class NativeStore (N : Type) := {
  ns_create_agent : Z → Z → string → option string → M N NativeAgent;
  ns_list_agents : Z → Z → N → list NativeAgent;
  ns_update_agent : Z → option string → option string → option string → M N NativeAgent;
  ns_archive_agent : Z → M N NativeAgent;
  ns_create_version : Z → VersionArgs → M N NativeAgentVersion;
  ns_list_versions : Z → N → list NativeAgentVersion;
  ns_get_version : Z → string → N → option NativeAgentVersion;
  ns_update_version : Z → VersionArgs → string → M N NativeAgentVersion;
  ns_archive_version : Z → M N NativeAgentVersion;
  ns_latest_version : Z → N → option NativeAgentVersion;
  ns_get_run : Z → Z → Z → M N (option NativeRun);
  ns_get_task : Z → Z → Z → M N (option NativeTask);
  ns_run_events : Z → M N (list AgentEvent);
  ns_events : Z → Z → M N (list AgentEvent);
  ns_attempts : Z → M N (list RunAttempt);
  ns_cancel_run : NativeRun → M N NativeRun;
  ns_cancel_task : NativeTask → M N NativeTask;
  ns_replay_run : NativeRun → option Z → M N NativeRun
}.

(** * In process *)

(** Operations return the stored object: its attributes are read afterwards. *)
Definition read_agent (id : Z) : M NativeRuntimeStore NativeAgent :=
  s ← get_state; of_option (dict_get id (nv_agents s)) (KeyError (pretty id)).
Definition read_version (id : Z) : M NativeRuntimeStore NativeAgentVersion :=
  s ← get_state; of_option (dict_get id (nv_versions s)) (KeyError (pretty id)).
Definition read_run (id : Z) : M NativeRuntimeStore NativeRun :=
  s ← get_state; of_option (dict_get id (nv_runs s)) (KeyError (pretty id)).
Definition read_task (id : Z) : M NativeRuntimeStore NativeTask :=
  s ← get_state; of_option (dict_get id (nv_tasks s)) (KeyError (pretty id)).

(** [sorted(events, key=lambda event: (event.run_id or 0, event.sequence or 0))] *)
Definition event_leb (a b : AgentEvent) : bool :=
  let run e := or_int (ev_run_id e) 0 in
  let seq e := or_int (ev_sequence e) 0 in
  (run a <? run b) || ((run a =? run b) && (seq a <=? seq b)).

Fixpoint events_of_runs (runs : list NativeRun) : M NativeRuntimeStore (list AgentEvent) :=
  match runs with
  | [] => mret []
  | r :: runs => l ← list_run_events (nr_id r); m ← events_of_runs runs; mret (l ++ m)
  end.

Definition list_events (tenant project : Z) : M NativeRuntimeStore (list AgentEvent) :=
  s ← get_state;
  events ← events_of_runs (list_runs tenant project s);
  mret (stable_sort event_leb events).

#[export] Instance in_process_native (sha256 : string → string) : NativeStore NativeRuntimeStore := {
  ns_create_agent := create_agent;
  ns_list_agents := list_agents;
  ns_update_agent := λ id name description status, update_agent id name description status ;; read_agent id;
  ns_archive_agent := λ id, archive_agent id ;; read_agent id;
  ns_create_version := create_version;
  ns_list_versions := list_versions;
  ns_get_version := get_version;
  ns_update_version := λ id v status, update_version id v status ;; read_version id;
  ns_archive_version := λ id, archive_version id ;; read_version id;
  ns_latest_version := latest_version;
  ns_get_run := λ id t p, gets (get_native_run id t p);
  ns_get_task := λ id t p, gets (get_task id t p);
  ns_run_events := list_run_events;
  ns_events := list_events;
  ns_attempts := λ _, mret [];
  ns_cancel_run := λ run, cancel_run (nr_id run) ;; read_run (nr_id run);
  ns_cancel_task := λ task, cancel_task (nt_id task) ;; read_task (nt_id task);
  ns_replay_run := λ run version, id ← replay_run sha256 run version; read_run id
}.

(** * In the database *)

Section sql.
Context {B : Type} `{!IdempotencyBackend B}.
Context (sha256 : string → string).

Definition read_agent_row (id : Z) : M (SqlNative B) NativeAgent :=
  s ← get_state; a ← of_option (dict_get id (sn_agents s)) (KeyError (pretty id)); mret (_agent_from_model a).
Definition read_version_row (id : Z) : M (SqlNative B) NativeAgentVersion :=
  s ← get_state; v ← of_option (dict_get id (sn_versions s)) (KeyError (pretty id)); mret (_version_from_model v).
Definition read_run_row (id : Z) : M (SqlNative B) NativeRun :=
  s ← get_state; r ← of_option (dict_get id (db_runs (sn_db s))) (KeyError (pretty id)); native_run_of r.
Definition read_task_row (id : Z) : M (SqlNative B) NativeTask :=
  s ← get_state; t ← of_option (dict_get id (db_tasks (sn_db s))) (KeyError (pretty id)); native_task_of t.

(** The event of a row; its time stamp is that of the reading. *)
Definition agent_event_of (e : Event) : M (SqlNative B) AgentEvent :=
  now ← sql_now;
  mret (mkAgentEvent (er_type e) (er_payload_json e) (Some (er_run_id e)) (er_attempt_id e) (Some (er_sequence e))
    (Some (er_event_id e)) (er_framework e) now (er_visibility_level e)).

Definition sql_list_run_events (run : Z) : M (SqlNative B) (list AgentEvent) :=
  s ← get_state; read_rows agent_event_of (list_by_run run (sn_db s)).

(** The newest 200 of the project; rows are stamped in the order they are inserted. *)
Definition sql_list_events (tenant project : Z) : M (SqlNative B) (list AgentEvent) :=
  s ← get_state;
  read_rows agent_event_of (take 200 (reverse (List.filter (λ e, (er_tenant_id e =? tenant)
    && (er_project_id e =? project) && negb (er_is_deleted e)) (db_events (sn_db s))))).

(** The query of [list_run_attempts]. *)
Definition sql_attempts (run : Z) (s : SqlNative B) : list RunAttempt :=
  stable_sort (λ a b, at_attempt_no a <=? at_attempt_no b)
    (List.filter (λ a, (at_run_id a =? run) && negb (at_is_deleted a)) (dict_values (db_attempts (sn_db s)))).

#[export] Instance sql_native : NativeStore (SqlNative B) := {
  ns_create_agent := sql_create_agent;
  ns_list_agents := sql_list_agents;
  ns_update_agent := λ id name description status, sql_update_agent id name description status ;; read_agent_row id;
  ns_archive_agent := λ id, sql_archive_agent id ;; read_agent_row id;
  ns_create_version := sql_create_version;
  ns_list_versions := sql_list_versions;
  ns_get_version := sql_get_version;
  ns_update_version := λ id v status, sql_update_version id v status ;; read_version_row id;
  ns_archive_version := λ id, sql_archive_version id ;; read_version_row id;
  ns_latest_version := sql_latest_version;
  ns_get_run := sql_get_run;
  ns_get_task := sql_get_task;
  ns_run_events := sql_list_run_events;
  ns_events := sql_list_events;
  ns_attempts := λ run, gets (sql_attempts run);
  ns_cancel_run := λ run,
    if bool_decide (run_status_value (nr_status run) = "cancelled") then mret run
    else sql_native_cancel_run run ;; read_run_row (nr_id run);
  ns_cancel_task := λ task,
    if bool_decide (task_status_value (nt_status task) = "cancelled") then mret task
    else sql_native_cancel_task task ;; read_task_row (nt_id task);
  ns_replay_run := λ run version, id ← sql_replay_run sha256 run version; read_run_row id
}.
End sql.
