(* ===== verification/NativeLaws.v ===== *)
(** What the native runtime stores promise to the handlers about agent versions: only
    the operations on versions change versions, a version is what it was created or
    updated to, and a new run executes the version it was created for. Both stores keep
    these laws. *)

From stdpp Require Import gmap.
From S2P Require Import Prelude Values Json JsonLoads StateMachine Tables Idempotency Streaming NativeApi SqlNative DeploymentStore NativeStore.

Section views.
Context {N : Type} (version : Z → N → option NativeAgentVersion) (filed : N → Prop).

(** The versions are the same; [x] was stored and the others are the same. *)
Definition same_versions : relation N := λ n n',
  (∀ id, version id n' = version id n) ∧ (filed n → filed n').
Definition stored (x : NativeAgentVersion) : relation N := λ n n',
  (∀ id, version id n' = if decide (id = av_id x) then Some x else version id n) ∧ (filed n → filed n').

#[export] Instance same_versions_preorder : PreOrder same_versions.
Proof. split; [by intros ?|]. intros n1 n2 n3 [H1 F1] [H2 F2]. split; [|by auto]. intros id. by rewrite H2, H1. Qed.
End views.

(** [nl_filed]: versions are filed under their ids. [nl_rolled_back]: a failed request leaves the versions there were. *)
Class NativeLaws (N : Type) `{!NativeRuntime N, !NativeStore N} := {
  nl_version : Z → N → option NativeAgentVersion;
  nl_run_version : Z → N → option Z;
  nl_filed : N → Prop;
  nl_same := same_versions nl_version nl_filed;
  nl_stored := stored nl_version nl_filed;
  nl_rolled_back : Prop;
  nl_create_agent t p name description : respects nl_same (ns_create_agent t p name description);
  nl_update_agent id name description status : respects nl_same (ns_update_agent id name description status);
  nl_archive_agent id : respects nl_same (ns_archive_agent id);
  nl_create_version agent args n : match ns_create_version agent args n with
    | (Ret x, n') => nl_stored x n n' ∧ av_agent_id x = agent ∧ version_args x = args ∧ av_status x = "ready"
    | (Raise _, n') => nl_same n n'
    end;
  nl_update_version id args status n : nl_filed n → match ns_update_version id args status n with
    | (Ret x, n') => nl_stored x n n' ∧ av_id x = id ∧ version_args x = args ∧ av_status x = status
    | (Raise _, n') => nl_same n n'
    end;
  nl_update_total id args status n : is_Some (nl_version id n) →
    returns (ns_update_version id args status n).1 ∨ nl_rolled_back;
  nl_archive_version id n : nl_filed n → match ns_archive_version id n with
    | (Ret x, n') => nl_stored x n n' ∧ av_id x = id ∧ av_status x = "archived"
    | (Raise _, n') => nl_same n n'
    end;
  nl_archive_total agent name v n : nl_filed n → ns_get_version agent name n = Some v →
    returns (ns_archive_version (av_id v) n).1;
  nl_get_version agent name n v : nl_filed n → ns_get_version agent name n = Some v →
    nl_version (av_id v) n = Some v ∧ av_agent_id v = agent;
  nl_latest_version agent n v : nl_filed n → ns_latest_version agent n = Some v →
    nl_version (av_id v) n = Some v ∧ av_agent_id v = agent;
  nl_create_task_run a : respects nl_same (nr_create_task_run a);
  nl_new_run a n run task n' : nr_create_task_run a n = (Ret (run, task, false), n') →
    nl_run_version run n' = Some (ta_agent_version a);
  nl_runs t p : respects nl_same (nr_runs t p);
  nl_tasks t p : respects nl_same (nr_tasks t p);
  nl_get_run id t p : respects nl_same (ns_get_run id t p);
  nl_get_task id t p : respects nl_same (ns_get_task id t p);
  nl_run_events id : respects nl_same (ns_run_events id);
  nl_events t p : respects nl_same (ns_events t p);
  nl_attempts id : respects nl_same (ns_attempts id);
  nl_cancel_run run : respects nl_same (ns_cancel_run run);
  nl_cancel_task task : respects nl_same (ns_cancel_task task);
  nl_replay_run run version : respects nl_same (ns_replay_run run version);
  nl_replay_pending run version n replay n' : ns_replay_run run version n = (Ret replay, n') →
    nr_status replay = RS_pending ∧ nr_output replay = None ∧ nr_error replay = None;
  nl_rollback n n' : nl_same n (nr_rollback n n') ∨ (¬ nl_rolled_back ∧ nl_same n' (nr_rollback n n'))
}.
#[export] Existing Instance same_versions_preorder.
#[export] Instance nl_same_preorder {N} `{NativeLaws N} : PreOrder nl_same.
Proof. apply _. Qed.

(** The operations that leave versions alone. *)
Create HintDb quiet discriminated.
#[export] Hint Resolve nl_create_agent nl_update_agent nl_archive_agent nl_create_task_run nl_runs nl_tasks nl_get_run
  nl_get_task nl_run_events nl_events nl_attempts nl_cancel_run nl_cancel_task nl_replay_run : quiet.

Lemma respects_zoom {S T A} (R : relation S) (g : S → T) put (m : M T A) :
  (∀ s t, R s (put t s)) → respects R (zoom g put m).
Proof. intros H s. unfold zoom. destruct (m (g s)) as [r t]. apply H. Qed.

Lemma respects_run {S A} (R : relation S) (m : M S A) s r s' : respects R m → m s = (r, s') → R s s'.
Proof. intros H E. specialize (H s). by rewrite E in H. Qed.

Lemma respects_int_entry {S} (R : relation S) `{!PreOrder R} k d : respects R (int_entry k d).
Proof. unfold int_entry. destruct (dict_get k d) as [[]|]; (apply respects_ret || apply respects_raise); apply _. Qed.

Lemma respects_decode {S} (R : relation S) `{!PreOrder R} v : respects R (_decode_ref v).
Proof.
  unfold _decode_ref. destruct v as [t|]; [destruct (strip_prefix _ t)|]; try (apply respects_ret; apply _).
  apply respects_bind; [apply _|apply respects_of_option; apply _|intros ?]. apply respects_ret; apply _.
Qed.

Lemma respects_catch {S A} (R : relation S) (m : M S A) : respects R m → respects R (catch m).
Proof. intros H s. specialize (H s). unfold catch. by destruct (m s). Qed.

Ltac step_quietly := repeat match goal with
  | |- respects _ (mret _) => apply respects_ret; apply _
  | |- respects _ (raise _) => apply respects_raise; apply _
  | |- respects _ get_state => apply respects_get_state; apply _
  | |- respects _ (gets _) => apply respects_gets; apply _
  | |- respects _ (check _ _) => apply respects_check; apply _
  | |- respects _ (of_option _ _) => apply respects_of_option; apply _
  | |- respects _ (int_entry _ _) => apply respects_int_entry; apply _
  | |- respects _ (_decode_ref _) => apply respects_decode; apply _
  | |- respects _ (zoom _ _ _) => apply respects_zoom; by intros
  | |- respects _ (modify _) => apply respects_modify; by intros
  | |- respects _ (mbind _ _) => apply respects_bind; [apply _| |intros ?]
  | |- respects _ (for_each _ _) => apply respects_for_each; [apply _|intros ? _]
  | |- respects _ (if ?b then _ else _) => destruct b
  | |- respects _ (match ?o with Some _ => _ | None => _ end) => destruct o
  | |- respects _ (let '(_, _) := ?p in _) => destruct p
  | _ => solve [eauto with quiet_ops nocore]
  end.
Create HintDb quiet_ops discriminated.

(** Records filed under their keys. *)
Section filed.
Context {V : Type} (key : V → Z).
Definition filed_by (d : dict Z V) : Prop := NoDup (dict_keys d) ∧ ∀ id v, dict_get id d = Some v → key v = id.

Lemma filed_set d v : filed_by d → filed_by (dict_set (key v) v d).
Proof.
  intros [Hn Hk]. split; [by apply dict_set_nodup|]. intros id w. rewrite dict_get_set.
  case_decide; [by intros [= <-]|apply Hk].
Qed.

Lemma filed_value d v : filed_by d → v ∈ dict_values d → dict_get (key v) d = Some v.
Proof. intros [Hn Hk] Hv. apply values_elem in Hv as [k E]; [|done]. by rewrite (Hk _ _ E). Qed.

Lemma filed_find d p v : filed_by d → List.find p (dict_values d) = Some v → dict_get (key v) d = Some v ∧ p v = true.
Proof. intros Hf [Hin Hp]%find_some. split; [|done]. by apply filed_value, list_elem_of_In. Qed.
End filed.

(** * The in-process store *)

Definition native_filed (s : NativeRuntimeStore) : Prop := filed_by av_id (nv_versions s).
Definition native_version (id : Z) (s : NativeRuntimeStore) : option NativeAgentVersion := dict_get id (nv_versions s).

(** Versions stay; runs and versions stay. *)
Definition native_quiet : relation NativeRuntimeStore := λ s s', nv_versions s' = nv_versions s.
Definition native_still : relation NativeRuntimeStore := λ s s', nv_versions s' = nv_versions s ∧ nv_runs s' = nv_runs s.
#[local] Instance native_quiet_preorder : PreOrder native_quiet.
Proof. split; [done|]. unfold native_quiet. intros ???. congruence. Qed.
#[local] Instance native_still_preorder : PreOrder native_still.
Proof. split; [done|]. unfold native_still. intros ??? [] []. split; congruence. Qed.

Lemma quiet_same {A} (m : M NativeRuntimeStore A) : respects native_quiet m →
  respects (same_versions native_version native_filed) m.
Proof.
  apply respects_weaken. unfold same_versions, native_version, native_filed. intros s s' E. by rewrite E.
Qed.

Lemma still_record_event run type payload : respects native_still (record_event run type payload).
Proof. unfold record_event, native_now, with_replay_buffer. step_quietly. Qed.

Lemma still_idempotency {A} (m : M IdempotencyStore A) : respects native_still (with_idempotency m).
Proof. unfold with_idempotency. step_quietly. Qed.

Lemma still_quiet {A} (m : M NativeRuntimeStore A) : respects native_still m → respects native_quiet m.
Proof. apply respects_weaken. by intros s s' []. Qed.

Lemma quiet_record_event run type payload : respects native_quiet (record_event run type payload).
Proof. apply still_quiet, still_record_event. Qed.
#[local] Hint Resolve quiet_record_event : quiet_ops.

(** A run that was just queued. *)
Definition new_run_of (a : TaskRunArgs) (r : NativeRun) : Prop :=
  nr_agent_version_id r = ta_agent_version a ∧ nr_status r = RS_pending ∧ nr_output r = None ∧ nr_error r = None.

Lemma native_added a s run task s' : add_task_run a s = (Ret (run, task), s') →
  nv_versions s' = nv_versions s ∧ ∃ r, dict_get run (nv_runs s') = Some r ∧ new_run_of a r.
Proof.
  unfold add_task_run, native_now. m_unfold. simpl.
  destruct (record_event _ _ _ _) as [[?|?] s1] eqn:E1; [|done].
  destruct (record_event _ _ _ s1) as [[?|?] s2] eqn:E2; [|done]. intros [= <- <- <-].
  apply (respects_run native_still) in E1 as [V1 R1]; [|apply still_record_event].
  apply (respects_run native_still) in E2 as [V2 R2]; [|apply still_record_event].
  rewrite V2, V1, R2, R1. simpl. split; [done|]. rewrite dict_get_set_eq. by eexists.
Qed.

Lemma quiet_add_task_run a : respects native_quiet (add_task_run a).
Proof. unfold add_task_run, native_now. step_quietly. Qed.
#[local] Hint Resolve quiet_add_task_run : quiet_ops.

Section in_process.
Context (sha256 : string → string).

Lemma quiet_create_task_run a : respects native_quiet (create_task_run sha256 a).
Proof.
  unfold create_task_run, _stable_hash, with_idempotency. step_quietly.
Qed.

#[local] Hint Resolve quiet_create_task_run : quiet_ops.

Lemma native_created a s run task b s' : create_task_run sha256 a s = (Ret (run, task, b), s') → b = false →
  ∃ r, dict_get run (nv_runs s') = Some r ∧ new_run_of a r.
Proof.
  unfold create_task_run. destruct (given_key a) as [key|].
  - intros (hash&s1&_&H)%bind_ret_inv Hb. apply bind_ret_inv in H as (rv&s2&_&H).
    destruct (replayed_response rv) as [d|].
    { repeat (apply bind_ret_inv in H as (?&?&_&H)). injection H as _ _ <- _. done. }
    apply bind_ret_inv in H as ([run' task']&s3&E&H). apply bind_ret_inv in H as (?&s4&E4&H). injection H as -> -> _ <-.
    apply (respects_run native_still) in E4 as [_ ->]; [|apply still_idempotency]. by eapply native_added.
  - intros ([run' task']&s1&E&H)%bind_ret_inv _. injection H as -> -> _ <-. by eapply native_added.
Qed.

Lemma native_replayed run version s id s' : replay_run sha256 run version s = (Ret id, s') →
  ∃ r a, dict_get id (nv_runs s') = Some r ∧ new_run_of a r.
Proof.
  unfold replay_run. intros (s0&s1&E0&H)%bind_ret_inv. injection E0 as <- <-.
  destruct (get_agent _ _ _ _) as [agent|]; [|done]. destruct (get_version_by_id _ _ _) as [v|]; [|done].
  apply bind_ret_inv in H as ([[id' task] b]&s2&E&H). apply bind_ret_inv in H as (?&s3&E3&H). injection H as -> <-.
  apply (respects_run native_still) in E3 as [_ ->]; [|apply still_record_event].
  unfold create_task_run in E. simpl in E. apply bind_ret_inv in E as ([r' t']&s4&E&H). injection H as -> -> _ <-.
  destruct (native_added _ _ _ _ _ E) as (_&r&?&?). by eexists r, _.
Qed.
End in_process.
#[local] Hint Resolve quiet_create_task_run : quiet_ops.

(** Sorting by creation time keeps the elements. *)
Lemma last_sorted {A} (leb : A → A → bool) l x : last (stable_sort leb l) = Some x → x ∈ l.
Proof. intros H. rewrite <-(stable_sort_perm leb l). by apply last_Some_elem_of. Qed.

Lemma native_stored_at id (f : NativeAgentVersion → NativeAgentVersion) s :
  native_filed s → (∀ v, av_id (f v) = av_id v) →
  match (on_version id (modify f) ;; read_version id) s with
  | (Ret x, s') => stored native_version native_filed x s s' ∧ av_id x = id ∧ ∃ v, x = f v
  | (Raise _, s') => same_versions native_version native_filed s s'
  end ∧ (is_Some (native_version id s) → returns ((on_version id (modify f) ;; read_version id) s).1).
Proof.
  intros Hf Hid. unfold on_version, zoom, on_key, read_version, native_version. m_unfold.
  destruct (dict_get id (nv_versions s)) as [v|] eqn:E; simpl.
  - rewrite dict_get_set_eq. simpl. assert (av_id (f v) = id) as Hv by (rewrite Hid; by apply Hf).
    split; [|by eexists]. split; [|by eauto]. unfold stored, native_filed in *. simpl. rewrite Hv. split.
    + intros i. rewrite dict_get_set. repeat case_decide; congruence.
    + intros _. pose proof (filed_set av_id _ (f v) Hf). by rewrite Hv in *.
  - split; [by split|]. by intros [].
Qed.

#[export] Instance in_process_native_laws (sha256 : string → string) :
  @NativeLaws NativeRuntimeStore (native_runtime_store sha256) (in_process_native sha256).
Proof.
  refine {| nl_version := native_version; nl_filed := native_filed; nl_rolled_back := False;
    nl_run_version := λ id s, nr_agent_version_id <$> dict_get id (nv_runs s) |}; simpl.
  - intros t p name d. apply quiet_same. unfold create_agent, native_now. step_quietly.
  - intros id name d st. apply quiet_same. unfold update_agent, on_agent, read_agent. step_quietly.
  - intros id. apply quiet_same. unfold archive_agent, on_agent, read_agent. step_quietly.
  - intros agent args s. simpl. split_and!; [split|done|by destruct args|done]; simpl.
    + intros id. unfold native_version. simpl. rewrite dict_get_set. repeat case_decide; congruence.
    + intros Hf. by apply (filed_set av_id _ (mkNativeVersion _ _ _ _ _ _ _ _ _ _ _)).
  - intros id args st s Hf. destruct (native_stored_at id (λ x, x <| av_version := va_version args |>
      <| av_package_uri := va_package_uri args |> <| av_framework := va_framework args |> <| av_adapter := va_adapter args |>
      <| av_entrypoint := va_entrypoint args |> <| av_capabilities := va_capabilities args |>
      <| av_manifest := va_manifest args |> <| av_status := st |>) s Hf) as [H _]; [done|].
    fold (update_version id args st) in H. destruct ((update_version id args st ;; read_version id) s) as [[x|e] s']; [|done].
    destruct H as (?&?&v&->). split_and!; [done..| |done]. by destruct args.
  - intros id args st s Hs. left. unfold update_version, on_version, zoom, on_key, read_version, native_version in *. m_unfold.
    destruct (dict_get id (nv_versions s)) as [v|]; [|by destruct Hs]. simpl. rewrite dict_get_set_eq. by eexists.
  - intros id s Hf. destruct (native_stored_at id (λ v, v <| av_status := "archived" |>) s Hf) as [H _]; [done|].
    fold (archive_version id) in H. destruct ((archive_version id ;; read_version id) s) as [[x|e] s']; [|done]. destruct H as (?&?&v&->). done.
  - intros agent name v s Hf [Hv _]%(filed_find av_id); [|done].
    apply (native_stored_at (av_id v) (λ v, v <| av_status := "archived" |>) s Hf); [done|by eexists].
  - intros agent name s v Hf [Hv Hp]%(filed_find av_id); [|done]. split; [done|].
    apply andb_true_iff in Hp as [Hp _]. unfold live_version in Hp. apply andb_true_iff in Hp as [Hp _]. blia.
  - intros agent s v Hf Hl. unfold latest_version, list_versions in Hl. apply last_sorted in Hl.
    apply list_elem_of_In, filter_In in Hl as [Hv Hp]. unfold live_version in Hp. apply andb_true_iff in Hp as [Hp _].
    split; [by apply (filed_value av_id), list_elem_of_In|blia].
  - intros a. apply quiet_same, quiet_create_task_run.
  - intros a s run task s' H. destruct (native_created _ _ _ _ _ _ _ H eq_refl) as (r&->&Hv&_). simpl. by rewrite Hv.
  - intros t p. apply quiet_same. step_quietly.
  - intros t p. apply quiet_same. step_quietly.
  - intros id t p. apply quiet_same. step_quietly.
  - intros id t p. apply quiet_same. step_quietly.
  - intros id. apply quiet_same. unfold list_run_events, with_replay_buffer. step_quietly.
  - intros t p. apply quiet_same. unfold list_events. apply respects_bind; [apply _|by apply respects_get_state; apply _|].
    intros s. apply respects_bind; [apply _| |intros; by apply respects_ret; apply _].
    generalize (list_runs t p s). intros l. induction l as [|r l IH]; simpl; [by apply respects_ret; apply _|].
    unfold list_run_events, with_replay_buffer. step_quietly.
  - intros id. apply quiet_same. step_quietly.
  - intros run. apply quiet_same. unfold cancel_run, assert_run_transition, assert_transition, on_native_run, native_now, read_run. step_quietly.
  - intros task. apply quiet_same.
    unfold cancel_task, assert_task_transition, assert_run_transition, assert_transition, on_native_run, on_native_task, native_now, read_task.
    step_quietly.
  - intros run version. apply quiet_same. unfold replay_run, read_run. step_quietly.
  - intros run version s replay s' (id&s1&E&H)%bind_ret_inv. destruct (native_replayed _ _ _ _ _ _ E) as (r&a&Hr&Hn).
    unfold read_run in H. apply bind_ret_inv in H as (s2&s3&E2&H). injection E2 as <- <-. unfold of_option in H. rewrite Hr in H.
    injection H as <- <-. by destruct Hn as (_&?&?&?).
  - intros s s'. right. split; [by intros []|done].
Defined.

(** * The database-backed store *)

Section sql.
Context {B : Type} `{!IdempotencyBackend B}.
Context (sha256 : string → string).
Abbreviation St := (SqlNative B).

Definition row_version (id : Z) (s : St) : option NativeAgentVersion := _version_from_model <$> dict_get id (sn_versions s).
Definition rows_filed (s : St) : Prop := filed_by vw_id (sn_versions s).

Definition row_quiet : relation St := λ s s', sn_versions s' = sn_versions s.
Definition row_still : relation St := λ s s', sn_versions s' = sn_versions s ∧ db_runs (sn_db s') = db_runs (sn_db s).
#[local] Instance row_quiet_preorder : PreOrder row_quiet.
Proof. split; [done|]. unfold row_quiet. intros ???. congruence. Qed.
#[local] Instance row_still_preorder : PreOrder row_still.
Proof. split; [done|]. unfold row_still. intros ??? [] []. split; congruence. Qed.

Lemma row_quiet_same {A} (m : M St A) : respects row_quiet m → respects (same_versions row_version rows_filed) m.
Proof. apply respects_weaken. unfold same_versions, row_version, rows_filed. intros s s' E. by rewrite E. Qed.

Lemma row_quiet_read {T A} (read : T → M St A) l : (∀ x, respects row_quiet (read x)) → respects row_quiet (read_rows read l).
Proof.
  intros H. induction l as [|x l IH]; simpl; [apply respects_ret; apply _|].
  apply respects_bind; [apply _|done|intros y]. apply respects_bind; [apply _|done|intros z]. apply respects_ret; apply _.
Qed.

Lemma row_quiet_run r : respects row_quiet (native_run_of (B:=B) r).
Proof. unfold native_run_of. step_quietly. Qed.

Lemma row_quiet_task t : respects row_quiet (native_task_of (B:=B) t).
Proof. unfold native_task_of. step_quietly. Qed.

#[local] Hint Resolve row_quiet_run row_quiet_task : quiet_ops.

Lemma row_still_event run att t p ty pl f v : respects row_still (in_session (B:=B) (append_event run att t p ty pl f v)).
Proof. intros s. unfold in_session, zoom. by rewrite append_event_run. Qed.

Lemma row_added a s run task s' : sql_add_task_run (B:=B) a s = (Ret (run, task), s') →
  ∃ r, dict_get run (db_runs (sn_db s')) = Some r ∧ rn_agent_version_id r = ta_agent_version a ∧
    rn_status r = "pending" ∧ rn_output_ref r = None ∧ rn_error r = None.
Proof.
  unfold sql_add_task_run. intros (ref&s0&E0&H)%bind_ret_inv.
  unfold sql_now in H. m_unfold in H. unfold in_session, zoom, append_audit in H. simpl in H.
  injection H as <- <- <-. simpl. rewrite dict_get_set_eq. by eexists.
Qed.

Lemma row_quiet_add a : respects row_quiet (sql_add_task_run (B:=B) a).
Proof. unfold sql_add_task_run, _encode_ref, sql_now, in_session, append_audit. step_quietly. Qed.
#[local] Hint Resolve row_quiet_add : quiet_ops.

Lemma row_quiet_create a : respects row_quiet (sql_create_task_run sha256 a).
Proof.
  unfold sql_create_task_run, _stable_hash, in_idempotency, sql_get_run, sql_get_task. step_quietly.
  all: repeat match goal with o : option _ |- _ => destruct o end; step_quietly.
Qed.

#[local] Hint Resolve row_quiet_create : quiet_ops.

Lemma row_created a s run task b s' : sql_create_task_run sha256 a s = (Ret (run, task, b), s') → b = false →
  ∃ r, dict_get run (db_runs (sn_db s')) = Some r ∧ rn_agent_version_id r = ta_agent_version a ∧
    rn_status r = "pending" ∧ rn_output_ref r = None ∧ rn_error r = None.
Proof.
  unfold sql_create_task_run. destruct (given_key a) as [key|].
  - intros (hash&s1&_&H)%bind_ret_inv Hb. apply bind_ret_inv in H as (rv&s2&_&H).
    destruct (replayed_response rv) as [d|].
    { apply bind_ret_inv in H as (?&?&_&H). apply bind_ret_inv in H as (run'&?&_&H). apply bind_ret_inv in H as (?&?&_&H).
      apply bind_ret_inv in H as (task'&?&_&H). destruct run', task'; try done. by injection H as _ _ <- _. }
    apply bind_ret_inv in H as ([run' task']&s3&E&H). apply bind_ret_inv in H as (?&s4&E4&H). injection H as -> -> _ <-.
    apply (respects_run row_still) in E4 as [_ ->]; [by eapply row_added|]. unfold in_idempotency. step_quietly.
  - intros ([run' task']&s1&E&H)%bind_ret_inv _. injection H as -> -> _ <-. by eapply row_added.
Qed.

Lemma row_replayed run version s id s' : sql_replay_run sha256 run version s = (Ret id, s') →
  ∃ r, dict_get id (db_runs (sn_db s')) = Some r ∧ rn_status r = "pending" ∧ rn_output_ref r = None ∧ rn_error r = None.
Proof.
  unfold sql_replay_run. intros (s0&s1&E0&H)%bind_ret_inv. injection E0 as <- <-.
  destruct (sql_get_agent _ _ _ _) as [agent|]; [|done]. destruct (sql_get_version_by_id _ _ _) as [v|]; [|done].
  apply bind_ret_inv in H as ([[id' task] b]&s2&E&H). apply bind_ret_inv in H as (?&s3&E3&H). injection H as -> <-.
  apply (respects_run row_still) in E3 as [_ ->]; [|apply row_still_event].
  unfold sql_create_task_run in E. simpl in E. apply bind_ret_inv in E as ([r' t']&s4&E&H). injection H as -> -> _ <-.
  destruct (row_added _ _ _ _ _ E) as (r&?&_&?). by exists r.
Qed.

(** Replacing the row [id] by [w]. *)
Lemma row_stored s s' id w : rows_filed s → vw_id w = id → sn_versions s' = dict_set id w (sn_versions s) →
  stored row_version rows_filed (_version_from_model w) s s'.
Proof.
  intros Hf <- E. unfold stored, row_version, rows_filed in *. rewrite E. simpl. split.
  - intros i. rewrite dict_get_set. repeat case_decide; subst; done.
  - intros _. by apply filed_set.
Qed.

Lemma row_by_id id (s : St) w : version_by_id id s = Some w → dict_get id (sn_versions s) = Some w.
Proof. unfold version_by_id. destruct (dict_get id _) as [x|]; [|done]. simpl. by destruct (vw_is_deleted x); intros [= ->]. Qed.

Lemma row_updated id args status (s : St) : rows_filed s →
  match (sql_update_version id args status ;; read_version_row id) s with
  | (Ret x, s') => stored row_version rows_filed x s s' ∧ av_id x = id ∧ version_args x = args ∧ av_status x = status
  | (Raise _, s') => same_versions row_version rows_filed s s'
  end.
Proof.
  intros Hf. unfold sql_update_version, flush_version, read_version_row. m_unfold.
  destruct (version_by_id id s) as [w|] eqn:E; [|done]. apply row_by_id in E. simpl.
  assert (vw_id w = id) as Hw by by apply Hf. rewrite Hw. destruct (negb _); [|done]. simpl. rewrite dict_get_set_eq. simpl.
  split_and!; [|done|by destruct args|done].
  refine (row_stored s _ id (mkVersionRow _ _ _ _ _ _ _ _ _ _ _ _ _) Hf _ _); done.
Qed.

Lemma row_archived id (s : St) : rows_filed s →
  match (sql_archive_version id ;; read_version_row id) s with
  | (Ret x, s') => stored row_version rows_filed x s s' ∧ av_id x = id ∧ av_status x = "archived"
  | (Raise _, s') => same_versions row_version rows_filed s s'
  end ∧ (is_Some (version_by_id id s) → returns ((sql_archive_version id ;; read_version_row id) s).1).
Proof.
  intros Hf. unfold sql_archive_version, on_version_row, on_key, sql_now, read_version_row. m_unfold.
  destruct (version_by_id id s) as [w|] eqn:E; [|by split; [|intros []]]. apply row_by_id in E. simpl. rewrite E. simpl.
  rewrite dict_get_set_eq. simpl. rewrite dict_get_set_eq. simpl.
  assert (vw_id w = id) as Hw by by apply Hf. split; [|by eexists]. split_and!; [|done..].
  refine (row_stored s _ id (mkVersionRow _ _ _ _ _ _ _ _ _ _ _ _ _) Hf _ _); [done|]. simpl. by rewrite dict_set_set.
Qed.

Lemma row_found s p w : rows_filed s → List.find p (dict_values (sn_versions s)) = Some w →
  row_version (vw_id w) s = Some (_version_from_model w) ∧ dict_get (vw_id w) (sn_versions s) = Some w ∧ p w = true.
Proof. intros Hf [Hg Hp]%(filed_find vw_id); [|done]. unfold row_version. by rewrite Hg. Qed.

#[export] Instance sql_native_laws : @NativeLaws St (sql_native_runtime sha256) (sql_native sha256).
Proof.
  refine {| nl_version := row_version; nl_filed := rows_filed; nl_rolled_back := True;
    nl_run_version := λ id s, rn_agent_version_id <$> dict_get id (db_runs (sn_db s)) |}; simpl.
  - intros t p name d. apply row_quiet_same. unfold sql_create_agent, flush_agent, sql_now. step_quietly.
  - intros id name d st. apply row_quiet_same. unfold sql_update_agent, flush_agent, read_agent_row. step_quietly.
  - intros id. apply row_quiet_same. unfold sql_archive_agent, on_agent_row, sql_now, read_agent_row. step_quietly.
  - intros agent args s. unfold sql_create_version, sql_now, flush_version. m_unfold. simpl.
    destruct (negb _); simpl; [|by split]. split_and!; [|done|by destruct args|done]. split; simpl.
    + intros id. unfold row_version. simpl. rewrite dict_get_set. repeat case_decide; subst; done.
    + intros Hf. by apply (filed_set vw_id _ (mkVersionRow _ _ _ _ _ _ _ _ _ _ _ _ _)).
  - intros id args st s Hf. by apply row_updated.
  - by right.
  - intros id s Hf. by apply row_archived.
  - intros agent name v s Hf. unfold sql_get_version. destruct (List.find _ _) as [w|] eqn:E; [|done]. intros [= <-].
    apply row_found in E as (_&Hg&Hp); [|done]. apply row_archived; [done|]. simpl. unfold version_by_id. rewrite Hg. simpl.
    unfold live_version_row in Hp. destruct (vw_is_deleted w); [|by eexists]. by rewrite andb_false_r in Hp.
  - intros agent name s v Hf. unfold sql_get_version. destruct (List.find _ _) as [w|] eqn:E; [|done]. intros [= <-].
    apply row_found in E as (Hv&_&Hp); [|done]. split; [done|]. simpl. unfold live_version_row in Hp.
    repeat (apply andb_true_iff in Hp as [Hp _]). blia.
  - intros agent s v Hf Hl. unfold sql_latest_version, sql_list_versions in Hl. apply last_sorted in Hl.
    apply list_elem_of_fmap in Hl as (w&->&Hl). apply list_elem_of_In, filter_In in Hl as [Hv Hp].
    apply list_elem_of_In in Hv. apply (filed_value vw_id) in Hv; [|done]. split; [unfold row_version; simpl; by rewrite Hv|].
    unfold live_version_row in Hp. repeat (apply andb_true_iff in Hp as [Hp _]). simpl. blia.
  - intros a. apply row_quiet_same, row_quiet_create.
  - intros a s run task s' H. destruct (row_created _ _ _ _ _ _ H eq_refl) as (r&->&Hv&_). simpl. by rewrite Hv.
  - intros t p. apply row_quiet_same. unfold sql_list_runs. apply respects_bind; [apply _|apply respects_get_state; apply _|].
    intros s. apply row_quiet_read, row_quiet_run.
  - intros t p. apply row_quiet_same. unfold sql_list_tasks. apply respects_bind; [apply _|apply respects_get_state; apply _|].
    intros s. apply row_quiet_read, row_quiet_task.
  - intros id t p. apply row_quiet_same. unfold sql_get_run. step_quietly.
  - intros id t p. apply row_quiet_same. unfold sql_get_task. step_quietly.
  - intros id. apply row_quiet_same. unfold sql_list_run_events. apply respects_bind; [apply _|apply respects_get_state; apply _|].
    intros s. apply row_quiet_read. intros e. unfold agent_event_of, sql_now. step_quietly.
  - intros t p. apply row_quiet_same. unfold sql_list_events. apply respects_bind; [apply _|apply respects_get_state; apply _|].
    intros s. apply row_quiet_read. intros e. unfold agent_event_of, sql_now. step_quietly.
  - intros id. apply row_quiet_same. step_quietly.
  - intros run. apply row_quiet_same. unfold sql_native_cancel_run, run_transition, task_transition, assert_run_transition,
      assert_task_transition, assert_transition, in_session, sql_now, read_run_row. step_quietly.
  - intros task. apply row_quiet_same. unfold sql_native_cancel_task, run_transition, task_transition, assert_run_transition,
      assert_task_transition, assert_transition, in_session, sql_now, read_task_row. step_quietly.
  - intros run version. apply row_quiet_same. unfold sql_replay_run, in_session, read_run_row. step_quietly.
  - intros run version s replay s' (id&s1&E&H)%bind_ret_inv. destruct (row_replayed _ _ _ _ _ E) as (r&Hr&Hs&Ho&He).
    unfold read_run_row in H. apply bind_ret_inv in H as (s2&s3&E2&H). injection E2 as <- <-. rewrite Hr in H.
    apply bind_ret_inv in H as (r'&s4&E4&H). injection E4 as <- <-. unfold native_run_of in H. rewrite Hs, Ho, He in H.
    apply bind_ret_inv in H as (st&s5&E5&H). injection E5 as <- <-. apply bind_ret_inv in H as (input&s6&_&H).
    apply bind_ret_inv in H as (o&s7&E7&H). injection E7 as <- <-. by injection H as <- <-.
  - intros s s'. left. by split.
Defined.
End sql.
