(* ===== verification/AgentApi.v ===== *)
(** Agents, runs, tasks and replay comparisons over HTTP: the handlers of
    [api/native/agents.py], [packages.py], [runs.py] (without the integration
    evidence), [tasks.py] and [replay_jobs.py].

    A reply carries the item or the status and error code. Random identifiers come from
    a sequence of the server; [now] is the time of the request. *)

From stdpp Require Import gmap.
From Stdlib Require Import SpecFloat.
From S2P Require Import Prelude Values Json StateMachine Tables Floats Idempotency Streaming NativeApi ApiKeys Console ConsoleApi DeploymentStore Packages NativeStore.

(** * Bodies and replies *)

Record AgentCreate := mkAgentCreate { gc_name : string; gc_description : option string }.
(** A field that is not set or null is [None]; a description can be set to null. *)
Record AgentUpdate := mkAgentUpdate {
  gu_name : option string;
  gu_description : option (option string);
  gu_status : option string
}.
Record AgentVersionCreate := mkVersionCreate { vc_args : VersionArgs; vc_status : string }.
Record AgentVersionUpdate := mkVersionUpdate {
  vu_version : option string;
  vu_package_uri : option string;
  vu_framework : option string;
  vu_adapter : option string;
  vu_entrypoint : option string;
  vu_capabilities : option pydict;
  vu_manifest : option pydict;
  vu_status : option string
}.
Record AgentTaskCreate := mkAgentTask { gt_input : pydict; gt_version : option string; gt_thread_id : option string }.
Record AgentTaskCreateResponse := mkAgentTaskReply {
  gr_run_id : Z;
  gr_task_id : Z;
  gr_status : string;
  gr_replayed : bool
}.

Record RunRead := mkRunRead { rd_run : NativeRun; rd_latency_ms : option Z }.
Record EventRead := mkEventRead {
  ed_run_id : Z;
  ed_event_id : string;
  ed_sequence : Z;
  ed_type : string;
  ed_payload : pydict;
  ed_visibility_level : string
}.

Record ReplayComparisonRequest := mkComparisonRequest {
  cr_source_run_id : Z;
  cr_candidate_agent_version_id : option Z;
  cr_replay_config : pydict
}.
Record DatasetCaptureRequest := mkCaptureRequest { dq_dataset_name : string; dq_label : option string }.
Record ValueDiff := mkValueDiff { vd_changed : bool; vd_source : value; vd_replay : value }.
Record EventDiff := mkEventDiff {
  ef_changed : bool;
  ef_source_count : nat;
  ef_replay_count : nat;
  ef_added_types : list string;
  ef_removed_types : list string
}.
(** What the comparison says it was made from. *)
Record Provenance := mkProvenance {
  pv_source_run_id : Z;
  pv_replay_run_id : Z;
  pv_candidate_agent_version_id : Z;
  pv_replay_config : pydict;
  pv_created_at : Z
}.
Record ReplayComparisonRead := mkComparison {
  rx_comparison_id : string;
  rx_source_run : RunRead;
  rx_replay_run : RunRead;
  rx_source_events : list EventRead;
  rx_replay_events : list EventRead;
  rx_input_diff : ValueDiff;
  rx_output_diff : ValueDiff;
  rx_error_diff : ValueDiff;
  rx_event_diff : EventDiff;
  rx_latency_delta_ms : option Z;
  rx_regression_signal : string;
  rx_provenance : Provenance
}.
Record DatasetCaptureRead := mkCapture {
  dr_capture_id : string;
  dr_comparison_id : string;
  dr_dataset_name : string;
  dr_label : option string;
  dr_source_run_id : Z;
  dr_replay_run_id : Z;
  dr_captured_at : Z
}.

(** ** Views *)

(** [int(x)] of a finite float *)
Definition float_trunc (x : float) : Z :=
  match x with
  | S754_finite s m e =>
      let n := if 0 <=? e then Zpos m * 2 ^ e else Zpos m / 2 ^ (- e) in if s then - n else n
  | _ => 0
  end.

(** [int(delta.total_seconds() * 1000)] of a difference in microseconds *)
Definition delta_ms (d : Z) : Z :=
  float_trunc (fmul (float_of_ratio (d <? 0) (Z.abs d) 1000000) (float_of_Z 1000)).

Definition _run_to_read (run : NativeRun) : RunRead :=
  mkRunRead run (match nr_started_at run, nr_finished_at run with
    | Some s, Some f => Some (delta_ms (f - s))
    | _, _ => None
    end).

Definition event_to_read (run : Z) (e : AgentEvent) : EventRead :=
  mkEventRead (or_int (ev_run_id e) run) (or_str (ev_event_id e) "") (or_int (ev_sequence e) 0) (ev_type e)
    (ev_payload e) (ev_visibility_level e).

(** [v == w]: the order of a dictionary's entries does not matter, and truth values
    equal the integers they are. *)
Fixpoint py_eqb (v w : value) {struct v} : bool :=
  match v, w with
  | VNone, VNone => true
  | VBool a, VBool b => Bool.eqb a b
  | VBool a, VInt b => Z.b2z a =? b
  | VInt a, VBool b => a =? Z.b2z b
  | VInt a, VInt b => a =? b
  | VStr a, VStr b => String.eqb a b
  | VTime a, VTime b => a =? b
  | VList l, VList k =>
      (fix go (l k : list value) : bool :=
         match l, k with
         | [], [] => true
         | x :: l', y :: k' => py_eqb x y && go l' k'
         | _, _ => false
         end) l k
  | VDict d, VDict e =>
      Nat.eqb (length d) (length e) &&
      (fix go (d : list (string * value)) : bool :=
         match d with
         | [] => true
         | (a, x) :: d' => match dict_get a e with Some y => py_eqb x y && go d' | None => false end
         end) d
  | _, _ => false
  end.

Definition of_dict_opt (o : option pydict) : value := match o with Some d => VDict d | None => VNone end.

Definition _value_diff (source replay : value) : ValueDiff := mkValueDiff (negb (py_eqb source replay)) source replay.

Definition _event_diff (source replay : list EventRead) : EventDiff :=
  let source_types := ed_type <$> source in
  let replay_types := ed_type <$> replay in
  mkEventDiff (negb (bool_decide (source_types = replay_types))) (length source) (length replay)
    (List.filter (λ t, negb (bool_decide (t ∈ source_types))) replay_types)
    (List.filter (λ t, negb (bool_decide (t ∈ replay_types))) source_types).

Definition _latency_delta (source replay : RunRead) : option Z :=
  s ← rd_latency_ms source; r ← rd_latency_ms replay; Some (r - s).

Definition SUPPORTED_AGENT_RUNTIMES : dict string string :=
  [("langgraph", "langgraph"); ("langchain-agent", "langchain-agent"); ("deepagents", "deepagents")].

Definition _validate_agent_runtime (framework adapter : string) : option (Z * string) :=
  if bool_decide (dict_get adapter SUPPORTED_AGENT_RUNTIMES = Some framework) then None
  else Some (400, "unsupported_agent_runtime").

Definition valid_package_payload (r : PackageValidationRequest) : bool :=
  min_length 1 (pk_package_uri r) && min_length 1 (pk_framework r) && min_length 1 (pk_adapter r)
  && min_length 1 (pk_entrypoint r).

(** * State *)

Record AgentServer (C R N : Type) := mkAgentServer {
  ax_api : Api C R;
  ax_native : N;
  ax_comparisons : dict string ReplayComparisonRead;
  ax_uuid : nat → string;
  ax_uuids : nat
}.
Arguments mkAgentServer {C R N}.
Arguments ax_api {C R N}.
Arguments ax_native {C R N}.
Arguments ax_comparisons {C R N}.
Arguments ax_uuid {C R N}.
Arguments ax_uuids {C R N}.
#[export] Instance AgentServer_eta {C R N} : Eta (AgentServer C R N) := λ s,
  mkAgentServer (ax_api s) (ax_native s) (ax_comparisons s) (ax_uuid s) (ax_uuids s).

Section api.
Context {C R N : Type} `{!SessionCache C, !ServiceAccounts R, !NativeRuntime N, !NativeStore N}.
Context (sha256 : string → string) (env : ApiConfig).
Abbreviation Srv := (AgentServer C R N).
Implicit Types s : Srv.

Definition ax_in_api {A} (m : M (Api C R) A) : M Srv A := zoom ax_api (λ a s, s <| ax_api := a |>) m.
Definition in_runtime {A} (m : M N A) : M Srv A := zoom ax_native (λ n s, s <| ax_native := n |>) m.
Definition runtime {A} (f : N → A) : M Srv A := gets (λ s, f (ax_native s)).

(** [uuid4().hex[:12]] *)
Definition fresh_hex : M Srv string :=
  s ← get_state; modify (λ s, s <| ax_uuids := S (ax_uuids s) |>) ;; mret (ax_uuid s (ax_uuids s)).

(** [get_native_runtime]: a request that raises is rolled back. *)
Definition served {A} (m : M Srv A) : M Srv A := λ s,
  match m s with
  | (Ret a, s') => (Ret a, s')
  | (Raise e, s') => (Raise e, s' <| ax_native := nr_rollback (ax_native s) (ax_native s') |>)
  end.

Definition _auth {A} (h : Headers) (required_scope : string) (f : Z → Z → M Srv (reply A)) : M Srv (reply A) :=
  match hd_tenant_id h, hd_project_id h with
  | Some tenant, Some project =>
      r ← ax_in_api (authenticate_api_key sha256 env
            (mkHeaders (hd_authorization h) None (Some tenant) (Some project) None) tenant required_scope);
      match r with
      | Refused c e => mret (Refused c e)
      | Item _ => f tenant project
      end
  | _, _ => mret (Refused 400 "request_scope_required")
  end.

(** The reply of a check, or what follows. *)
Definition unless {A} (error : option (Z * string)) (m : M Srv (reply A)) : M Srv (reply A) :=
  match error with Some (c, e) => mret (Refused c e) | None => m end.

Definition or_404 {A B} (o : option A) (error : string) (f : A → M Srv (reply B)) : M Srv (reply B) :=
  match o with Some a => f a | None => mret (Refused 404 error) end.

(** * Packages *)

Definition validate_agent_package (h : Headers) (payload : PackageValidationRequest) : M Srv (reply PackageValidationResult) :=
  if negb (valid_package_payload payload) then mret (Refused 422 "validation_error")
  else _auth h "agent:write" (λ _ _,
    result ← of_option (validate_package sha256 payload) type_error; mret (Item result)).

(** * Agents *)

Definition scoped_agent {A} (id tenant project : Z) (f : NativeAgent → M Srv (reply A)) : M Srv (reply A) :=
  agent ← runtime (nr_agent id tenant project); or_404 agent "agent_not_found" f.

Definition create_agent (h : Headers) (payload : AgentCreate) : M Srv (reply NativeAgent) :=
  _auth h "agent:write" (λ tenant project,
    agent ← in_runtime (ns_create_agent tenant project (gc_name payload) (gc_description payload));
    mret (Item agent)).

Definition list_agents (h : Headers) : M Srv (reply (list NativeAgent)) :=
  _auth h "agent:read" (λ tenant project, l ← runtime (ns_list_agents tenant project); mret (Item l)).

Definition get_agent (h : Headers) (id : Z) : M Srv (reply NativeAgent) :=
  _auth h "agent:read" (λ tenant project, scoped_agent id tenant project (λ agent, mret (Item agent))).

Definition update_agent (h : Headers) (id : Z) (payload : AgentUpdate) : M Srv (reply NativeAgent) :=
  _auth h "agent:write" (λ tenant project, scoped_agent id tenant project (λ existing,
    agent ← in_runtime (ns_update_agent (ag_id existing) (Some (default (ag_name existing) (gu_name payload)))
      (default (ag_description existing) (gu_description payload))
      (Some (default (ag_status existing) (gu_status payload))));
    mret (Item agent))).

Definition delete_agent (h : Headers) (id : Z) : M Srv (reply NativeAgent) :=
  _auth h "agent:write" (λ tenant project, scoped_agent id tenant project (λ existing,
    agent ← in_runtime (ns_archive_agent (ag_id existing)); mret (Item agent))).

(** ** Versions *)

Definition _validate_ready_gate (v : VersionArgs) (status : string) : M Srv (option (Z * string)) :=
  if negb (bool_decide (status = "ready")) then mret None
  else
    valid ← of_option (manifest_has_valid_token sha256 (va_package_uri v) (va_framework v) (va_adapter v)
              (va_entrypoint v) (va_manifest v)) type_error;
    mret (if (valid : bool) then None else Some (409, "package_validation_required")).

(** The store creates versions as ready; another status is set at once. *)
Definition create_agent_version (h : Headers) (id : Z) (payload : AgentVersionCreate) : M Srv (reply NativeAgentVersion) :=
  _auth h "agent:write" (λ tenant project, scoped_agent id tenant project (λ agent,
    unless (_validate_agent_runtime (va_framework (vc_args payload)) (va_adapter (vc_args payload))) (
      error ← _validate_ready_gate (vc_args payload) (vc_status payload);
      unless error (
        version ← in_runtime (ns_create_version (ag_id agent) (vc_args payload));
        if bool_decide (vc_status payload = av_status version) then mret (Item version)
        else
          version ← in_runtime (ns_update_version (av_id version) (version_args version) (vc_status payload));
          mret (Item version))))).

Definition list_agent_versions (h : Headers) (id : Z) : M Srv (reply (list NativeAgentVersion)) :=
  r ← get_agent h id;
  match r with
  | Refused c e => mret (Refused c e)
  | Item _ => l ← runtime (ns_list_versions id); mret (Item l)
  end.

Definition get_agent_version (h : Headers) (id : Z) (version : string) : M Srv (reply NativeAgentVersion) :=
  _auth h "agent:write" (λ tenant project, scoped_agent id tenant project (λ _,
    v ← runtime (ns_get_version id version);
    or_404 v "agent_version_not_found" (λ v, mret (Item v)))).

Definition next_args (v : NativeAgentVersion) (p : AgentVersionUpdate) : VersionArgs :=
  mkVersionArgs (or_str (vu_version p) (av_version v)) (or_str (vu_package_uri p) (av_package_uri v))
    (or_str (vu_framework p) (av_framework v)) (or_str (vu_adapter p) (av_adapter v))
    (or_str (vu_entrypoint p) (av_entrypoint v)) (default (av_capabilities v) (vu_capabilities p))
    (default (av_manifest v) (vu_manifest p)).

Definition update_agent_version (h : Headers) (id : Z) (version : string) (payload : AgentVersionUpdate)
  : M Srv (reply NativeAgentVersion) :=
  _auth h "agent:write" (λ tenant project, scoped_agent id tenant project (λ _,
    v ← runtime (ns_get_version id version);
    or_404 v "agent_version_not_found" (λ existing,
      let next := next_args existing payload in
      let status := or_str (vu_status payload) (av_status existing) in
      other ← runtime (ns_get_version id (va_version next));
      if negb (bool_decide (va_version next = av_version existing)) && negb (bool_decide (other = None))
      then mret (Refused 409 "agent_version_conflict")
      else unless (_validate_agent_runtime (va_framework next) (va_adapter next)) (
        error ← _validate_ready_gate next status;
        unless error (
          updated ← in_runtime (ns_update_version (av_id existing) next status);
          mret (Item updated)))))).

(** Authorized by [get_agent]. *)
Definition delete_agent_version (h : Headers) (id : Z) (version : string) : M Srv (reply NativeAgentVersion) :=
  r ← get_agent h id;
  match r with
  | Refused c e => mret (Refused c e)
  | Item _ =>
      v ← runtime (ns_get_version id version);
      or_404 v "agent_version_not_found" (λ existing,
        archived ← in_runtime (ns_archive_version (av_id existing)); mret (Item archived))
  end.

(** ** Tasks of an agent *)

(** [payload.model_dump(mode="json")] *)
Definition agent_task_body (p : AgentTaskCreate) : pydict :=
  [("input", VDict (gt_input p)); ("version", of_str_opt (gt_version p)); ("thread_id", of_str_opt (gt_thread_id p))].

Definition create_agent_task (h : Headers) (idempotency_key : option string) (id : Z) (payload : AgentTaskCreate)
  : M Srv (reply AgentTaskCreateResponse) :=
  _auth h "agent:invoke" (λ tenant project, scoped_agent id tenant project (λ agent,
    version ← runtime (if str_truthy (gt_version payload) then ns_get_version id (or_str (gt_version payload) "")
                       else ns_latest_version id);
    or_404 version "agent_version_not_found" (λ version,
      if negb (bool_decide (ag_status agent = "active")) then mret (Refused 409 "agent_not_active")
      else if negb (bool_decide (av_status version = "ready")) then mret (Refused 409 "agent_version_not_ready")
      else
        r ← catch (in_runtime (nr_create_task_run (mkTaskRunArgs tenant project (ag_id agent) (av_id version)
              (gt_input payload) (gt_thread_id payload) idempotency_key
              ("/v1/agents/" +:+ pretty id +:+ "/tasks") (agent_task_body payload) None)));
        match r with
        | Ret (run, task, replayed) =>
            status ← runtime (nr_task_status task);
            mret (Item (mkAgentTaskReply run task status replayed))
        | Raise (IdempotencyConflictError _) => mret (Refused 409 "idempotency_key_conflict")
        | Raise e => raise e
        end))).

Definition invoke_agent h key id payload := create_agent_task h key id payload.
Definition stream_agent h key id payload := create_agent_task h key id payload.

(** * Runs *)

Definition _find_run {A} (h : Headers) (required_scope : string) (id : Z) (f : NativeRun → M Srv (reply A)) : M Srv (reply A) :=
  _auth h required_scope (λ tenant project,
    run ← in_runtime (ns_get_run id tenant project); or_404 run "run_not_found" f).

Definition get_run (h : Headers) (id : Z) : M Srv (reply RunRead) :=
  _find_run h "agent:read" id (λ run, mret (Item (_run_to_read run))).

Definition list_runs (h : Headers) : M Srv (reply (list RunRead)) :=
  _auth h "agent:read" (λ tenant project,
    l ← in_runtime (nr_runs tenant project); mret (Item (_run_to_read <$> l))).

Definition _event_reads (run : Z) : M Srv (list EventRead) :=
  l ← in_runtime (ns_run_events run); mret (event_to_read run <$> l).

Definition list_run_events (h : Headers) (id : Z) : M Srv (reply (list EventRead)) :=
  _find_run h "agent:read" id (λ run, l ← _event_reads (nr_id run); mret (Item l)).

Definition list_events (h : Headers) : M Srv (reply (list EventRead)) :=
  _auth h "agent:read" (λ tenant project,
    l ← in_runtime (ns_events tenant project); mret (Item (event_to_read 0 <$> l))).

Definition list_run_attempts (h : Headers) (id : Z) : M Srv (reply (list RunAttempt)) :=
  _find_run h "agent:read" id (λ run, l ← in_runtime (ns_attempts (nr_id run)); mret (Item l)).

Definition cancel_run (h : Headers) (id : Z) : M Srv (reply RunRead) :=
  _find_run h "agent:invoke" id (λ run,
    cancelled ← in_runtime (ns_cancel_run run); mret (Item (_run_to_read cancelled))).

(** Both only read the run. *)
Definition resume_run (h : Headers) (id : Z) : M Srv (reply RunRead) := get_run h id.
Definition retry_run (h : Headers) (id : Z) : M Srv (reply RunRead) := get_run h id.

Definition replay_run (h : Headers) (id : Z) (agent_version_id : option Z) : M Srv (reply RunRead) :=
  _find_run h "agent:invoke" id (λ run,
    r ← catch (in_runtime (ns_replay_run run agent_version_id));
    match r with
    | Ret replay => mret (Item (_run_to_read replay))
    | Raise (KeyError _) => mret (Refused 404 "agent_version_not_found")
    | Raise e => raise e
    end).

(** * Tasks *)

Definition _find_task {A} (h : Headers) (required_scope : string) (id : Z) (f : NativeTask → M Srv (reply A)) : M Srv (reply A) :=
  _auth h required_scope (λ tenant project,
    task ← in_runtime (ns_get_task id tenant project); or_404 task "task_not_found" f).

Definition get_task (h : Headers) (id : Z) : M Srv (reply NativeTask) :=
  _find_task h "agent:read" id (λ task, mret (Item task)).

Definition list_tasks (h : Headers) : M Srv (reply (list NativeTask)) :=
  _auth h "agent:read" (λ tenant project, l ← in_runtime (nr_tasks tenant project); mret (Item l)).

Definition cancel_task (h : Headers) (id : Z) : M Srv (reply NativeTask) :=
  _find_task h "agent:invoke" id (λ task,
    cancelled ← in_runtime (ns_cancel_task task); mret (Item cancelled)).

(** * Replay comparisons *)

(** Why the candidate version cannot be compared. *)
Definition candidate_error (agent : Z) (candidate : option Z) s : option (Z * string) :=
  version ← candidate;
  match nr_version agent version (ax_native s) with
  | None => Some (404, "agent_version_not_found")
  | Some v => if bool_decide (av_status v = "ready") then None else Some (409, "agent_version_not_ready")
  end.

Definition comparison_of (id : string) (source replay : RunRead) (source_events replay_events : list EventRead)
    (config : pydict) (now : Z) : ReplayComparisonRead :=
  let output_diff := _value_diff (of_dict_opt (nr_output (rd_run source))) (of_dict_opt (nr_output (rd_run replay))) in
  let error_diff := _value_diff (of_dict_opt (nr_error (rd_run source))) (of_dict_opt (nr_error (rd_run replay))) in
  mkComparison id source replay source_events replay_events
    (_value_diff (VDict (nr_input (rd_run source))) (VDict (nr_input (rd_run replay)))) output_diff error_diff
    (_event_diff source_events replay_events) (_latency_delta source replay)
    (if vd_changed output_diff || vd_changed error_diff then "changed" else "unchanged")
    (mkProvenance (nr_id (rd_run source)) (nr_id (rd_run replay)) (nr_agent_version_id (rd_run replay)) config now).

Definition create_replay_comparison (h : Headers) (now : Z) (payload : ReplayComparisonRequest)
  : M Srv (reply ReplayComparisonRead) :=
  _auth h "agent:invoke" (λ tenant project,
    source ← in_runtime (ns_get_run (cr_source_run_id payload) tenant project);
    or_404 source "run_not_found" (λ source,
      s ← get_state;
      unless (candidate_error (nr_agent_id source) (cr_candidate_agent_version_id payload) s) (
        r ← catch (in_runtime (ns_replay_run source (cr_candidate_agent_version_id payload)));
        match r with
        | Ret replay =>
            source_events ← _event_reads (nr_id source);
            replay_events ← _event_reads (nr_id replay);
            hex ← fresh_hex;
            let comparison := comparison_of ("cmp_" +:+ hex) (_run_to_read source) (_run_to_read replay)
              source_events replay_events (cr_replay_config payload) now in
            modify (λ s, s <| ax_comparisons := dict_set (rx_comparison_id comparison) comparison (ax_comparisons s) |>) ;;
            mret (Item comparison)
        | Raise (KeyError _) => mret (Refused 404 "agent_version_not_found")
        | Raise e => raise e
        end))).

(** The comparison is looked up by its id alone. *)
Definition capture_replay_comparison_dataset (h : Headers) (now : Z) (id : string) (payload : DatasetCaptureRequest)
  : M Srv (reply DatasetCaptureRead) :=
  _auth h "agent:write" (λ _ _,
    comparison ← gets (λ s, dict_get id (ax_comparisons s));
    or_404 comparison "replay_comparison_not_found" (λ comparison,
      hex ← fresh_hex;
      mret (Item (mkCapture ("dataset_capture_" +:+ hex) id (dq_dataset_name payload) (dq_label payload)
        (nr_id (rd_run (rx_source_run comparison))) (nr_id (rd_run (rx_replay_run comparison))) now)))).

(** * Requests *)

Inductive agent_request :=
| GCreate (payload : AgentCreate)
| GUpdate (id : Z) (payload : AgentUpdate)
| GDelete (id : Z)
| GCreateVersion (id : Z) (payload : AgentVersionCreate)
| GUpdateVersion (id : Z) (version : string) (payload : AgentVersionUpdate)
| GDeleteVersion (id : Z) (version : string)
| GTask (key : option string) (id : Z) (payload : AgentTaskCreate)
| GCancelRun (id : Z)
| GReplay (id : Z) (agent_version_id : option Z)
| GCancelTask (id : Z)
| GCompare (now : Z) (payload : ReplayComparisonRequest)
| GCapture (now : Z) (id : string) (payload : DatasetCaptureRequest)
| GRead (what : agent_read)
with agent_read :=
| RValidate (payload : PackageValidationRequest)
| RAgents
| RAgent (id : Z)
| RVersions (id : Z)
| RVersion (id : Z) (version : string)
| RRuns
| RRun (id : Z)
| RRunEvents (id : Z)
| REvents
| RAttempts (id : Z)
| RTasks
| RTask (id : Z).

Definition answer {A} (m : M Srv (reply A)) : M Srv unit := served (m ;; mret tt).

Definition serve_read (h : Headers) (r : agent_read) : M Srv unit :=
  match r with
  | RValidate payload => answer (validate_agent_package h payload)
  | RAgents => answer (list_agents h)
  | RAgent id => answer (get_agent h id)
  | RVersions id => answer (list_agent_versions h id)
  | RVersion id version => answer (get_agent_version h id version)
  | RRuns => answer (list_runs h)
  | RRun id => answer (get_run h id)
  | RRunEvents id => answer (list_run_events h id)
  | REvents => answer (list_events h)
  | RAttempts id => answer (list_run_attempts h id)
  | RTasks => answer (list_tasks h)
  | RTask id => answer (get_task h id)
  end.

Definition serve_agent (h : Headers) (r : agent_request) : M Srv unit :=
  match r with
  | GCreate payload => answer (create_agent h payload)
  | GUpdate id payload => answer (update_agent h id payload)
  | GDelete id => answer (delete_agent h id)
  | GCreateVersion id payload => answer (create_agent_version h id payload)
  | GUpdateVersion id version payload => answer (update_agent_version h id version payload)
  | GDeleteVersion id version => answer (delete_agent_version h id version)
  | GTask key id payload => answer (create_agent_task h key id payload)
  | GCancelRun id => answer (cancel_run h id)
  | GReplay id version => answer (replay_run h id version)
  | GCancelTask id => answer (cancel_task h id)
  | GCompare now payload => answer (create_replay_comparison h now payload)
  | GCapture now id payload => answer (capture_replay_comparison_dataset h now id payload)
  | GRead r => serve_read h r
  end.
End api.
