(* ===== verification/AgentApiProps.v ===== *)
(** What the native API keeps: only validated packages become ready and run, who may
    call what, and what a replay comparison says. Proved against the interface of the
    stores, and so for both. *)

From stdpp Require Import gmap.
From S2P Require Import Prelude Values Json JsonLoads StateMachine Tables Idempotency Streaming NativeApi SqlNative ApiKeys ApiKeyProps Console ConsoleProps ConsoleApi ConsoleApiProps DeploymentStore Packages NativeStore NativeLaws AgentApi.

Section props.
Context {C R N : Type} `{!SessionCache C, !ServiceAccounts R, !NativeRuntime N, !NativeStore N, !NativeLaws N}.
Context (sha256 : string → string) (env : ApiConfig).
Abbreviation Srv := (AgentServer C R N).
Implicit Types s : Srv.

(** * Only validated versions are ready *)

Definition args_validated (v : VersionArgs) : Prop :=
  manifest_has_valid_token sha256 (va_package_uri v) (va_framework v) (va_adapter v) (va_entrypoint v) (va_manifest v)
  = Some true.
Definition version_validated (v : NativeAgentVersion) : Prop := args_validated (version_args v).

Definition validated (n : N) : Prop :=
  nl_filed n ∧ ∀ id v, nl_version id n = Some v → av_status v = "ready" → version_validated v.

Lemma validated_same n n' : nl_same n n' → validated n → validated n'.
Proof. intros [Hv Hf] [F V]. split; [by apply Hf|]. intros id v. rewrite Hv. apply V. Qed.

Lemma validated_stored x n n' : nl_stored x n n' → validated n → (av_status x = "ready" → version_validated x) → validated n'.
Proof. intros [Hv Hf] [F V] Hx. split; [by apply Hf|]. intros id v. rewrite Hv. case_decide; [by intros [= <-]|apply V]. Qed.

(** What a handler keeps: the invariant when it returns, and [Q] of the result; when it
    raises, the invariant unless the store rolls back. *)
Definition triple {A} (m : M Srv A) (Q : A → Prop) : Prop := ∀ s, validated (ax_native s) →
  match m s with
  | (Ret a, s') => validated (ax_native s') ∧ Q a
  | (Raise _, s') => validated (ax_native s') ∨ nl_rolled_back
  end.
Definition any {A} (_ : A) : Prop := True.

Lemma triple_ret {A} (a : A) (Q : A → Prop) : Q a → triple (mret a) Q.
Proof. intros HQ s Hs. done. Qed.

Lemma triple_raise {A} e (Q : A → Prop) : triple (raise e) Q.
Proof. intros s Hs. by left. Qed.

Lemma triple_bind {A B} (m : M Srv A) (f : A → M Srv B) Q Q' :
  triple m Q → (∀ a, Q a → triple (f a) Q') → triple (m ≫= f) Q'.
Proof.
  intros Hm Hf s Hs. specialize (Hm s Hs). unfold mbind, M_bind. destruct (m s) as [[a|e] s']; [|done].
  destruct Hm as [Hs' HQ]. by apply Hf.
Qed.

(** Code that does not touch the runtime. *)
Lemma triple_aside {A} (m : M Srv A) : (∀ s, ax_native (m s).2 = ax_native s) → triple m any.
Proof. intros H s Hs. specialize (H s). destruct (m s) as [[a|e] s']; simpl in H; rewrite H; [done|by left]. Qed.

Lemma triple_quiet {A} (m : M N A) : respects nl_same m → triple (in_runtime m) any.
Proof.
  intros H s Hs. unfold in_runtime, zoom. specialize (H (ax_native s)).
  destruct (m (ax_native s)) as [[a|e] n']; simpl; [split; [|done]|left]; by eapply validated_same.
Qed.

Lemma triple_catch {A} (m : M N A) : respects nl_same m → triple (catch (in_runtime m)) any.
Proof.
  intros H s Hs. unfold catch, in_runtime, zoom. specialize (H (ax_native s)).
  destruct (m (ax_native s)) as [r n']. simpl. split; [|done]. by eapply validated_same.
Qed.

Lemma triple_served {A} (m : M Srv A) s : triple m any → validated (ax_native s) → validated (ax_native (served m s).2).
Proof.
  intros Hm Hs. specialize (Hm s Hs). unfold served. destruct (m s) as [[a|e] s']; simpl; [by apply Hm|].
  destruct (nl_rollback (ax_native s) (ax_native s')) as [H|[Hn H]]; [by eapply validated_same|].
  destruct Hm as [Hm|]; [by eapply validated_same|done].
Qed.

(** ** Pieces *)

Lemma triple_auth {A} h scope (f : Z → Z → M Srv (reply A)) :
  (∀ t p, triple (f t p) any) → triple (_auth sha256 env h scope f) any.
Proof.
  intros Hf. unfold _auth. destruct (hd_tenant_id h), (hd_project_id h); try (by apply triple_ret).
  eapply triple_bind; [apply triple_aside|].
  { intros s. unfold ax_in_api, zoom. by destruct (authenticate_api_key _ _ _ _ _ _). }
  intros [actor|c e] _; [apply Hf|by apply triple_ret].
Qed.

Lemma triple_or_404 {A B} (o : option A) error (f : A → M Srv (reply B)) :
  (∀ a, triple (f a) any) → triple (or_404 o error f) any.
Proof. intros Hf. destruct o; [apply Hf|by apply triple_ret]. Qed.

Lemma triple_unless {A} error (m : M Srv (reply A)) : (error = None → triple m any) → triple (unless error m) any.
Proof. intros Hm. destruct error as [[c e]|]; [by apply triple_ret|by apply Hm]. Qed.

Lemma triple_agent {A} id t p (f : NativeAgent → M Srv (reply A)) :
  (∀ a, triple (f a) any) → triple (scoped_agent id t p f) any.
Proof. intros Hf. eapply triple_bind; [by apply triple_aside|]. intros o _. by apply triple_or_404. Qed.

(** A ready version passes the gate only with its token. *)
Definition accepted (args : VersionArgs) (status : string) : Prop := status = "ready" → args_validated args.

Lemma triple_gate args status :
  triple (_validate_ready_gate (C:=C) (R:=R) (N:=N) sha256 args status) (λ error, error = None → accepted args status).
Proof.
  intros s Hs. unfold _validate_ready_gate, accepted. case_bool_decide as E; simpl; [|done].
  destruct (manifest_has_valid_token _ _ _ _ _ _) as [[]|] eqn:Ht; simpl; [by split|by split|by left].
Qed.

Lemma triple_update id args status : accepted args status →
  triple (in_runtime (C:=C) (R:=R) (ns_update_version id args status)) any.
Proof.
  intros Ha s Hs. pose proof (nl_update_version id args status (ax_native s) (proj1 Hs)) as H.
  unfold in_runtime, zoom. destruct (ns_update_version _ _ _ _) as [[x|e] n']; simpl; [|left; by eapply validated_same].
  destruct H as (Hst&_&Ea&Es). split; [|done]. eapply validated_stored; [done..|].
  unfold version_validated. rewrite Ea, Es. exact Ha.
Qed.

Lemma triple_archive id : triple (in_runtime (C:=C) (R:=R) (ns_archive_version id)) any.
Proof.
  intros s Hs. pose proof (nl_archive_version id (ax_native s) (proj1 Hs)) as H.
  unfold in_runtime, zoom. destruct (ns_archive_version _ _) as [[x|e] n']; simpl; [|left; by eapply validated_same].
  destruct H as (Hst&_&Es). split; [|done]. eapply validated_stored; [done..|]. by rewrite Es.
Qed.

(** A new version is ready for a moment; it stays so only if it passed the gate. *)
Lemma triple_create agent args status : accepted args status →
  triple (version ← in_runtime (C:=C) (R:=R) (ns_create_version agent args);
    if bool_decide (status = av_status version) then mret (Item version)
    else version ← in_runtime (ns_update_version (av_id version) (version_args version) status);
         mret (Item version)) any.
Proof.
  intros Ha s Hs. pose proof (nl_create_version agent args (ax_native s)) as H.
  unfold mbind at 1, M_bind at 1, in_runtime, zoom. destruct (ns_create_version _ _ _) as [[x|e] n1]; simpl.
  2:{ left. by eapply validated_same. }
  destruct H as ([Hst Hf]&_&Ea&Es). rewrite Es. case_bool_decide as E; simpl.
  { split; [|done]. eapply validated_stored; [by split|done|]. intros _. unfold version_validated. rewrite Ea. by apply Ha. }
  pose proof (nl_update_version (av_id x) (version_args x) status n1 (Hf (proj1 Hs))) as H.
  pose proof (nl_update_total (av_id x) (version_args x) status n1) as Ht.
  unfold mbind, M_bind. simpl. destruct (ns_update_version _ _ _ n1) as [[y|e] n2]; simpl.
  - destruct H as ([Hst2 Hf2]&Hy&_&Ey). split; [|done]. split; [by apply Hf2, Hf, Hs|].
    intros id v. rewrite Hst2, Hst, Hy. destruct (decide (id = av_id x)); [intros [= <-]; by rewrite Ey|]. by apply Hs.
  - right. destruct Ht as [[]|?]; [|done..]. rewrite Hst, decide_True; [by eexists|done].
Qed.

(** ** Handlers *)

Ltac handle := repeat match goal with
  | |- triple (_auth _ _ _ _ _) _ => apply triple_auth; intros
  | |- triple (scoped_agent _ _ _ _) _ => apply triple_agent; intros
  | |- triple (or_404 _ _ _) _ => apply triple_or_404; intros
  | |- triple (unless _ _) _ => apply triple_unless; intros
  | |- triple (mret _) _ => by apply triple_ret
  | |- triple (raise _) _ => apply triple_raise
  | |- triple (catch (in_runtime _)) _ => apply triple_catch; auto with quiet nocore
  | |- triple (in_runtime (ns_archive_version _)) _ => apply triple_archive
  | |- triple (in_runtime _) _ => apply triple_quiet; solve [auto with quiet nocore]
  | |- triple (runtime _) _ => by apply triple_aside
  | |- triple (gets _) _ => by apply triple_aside
  | |- triple get_state _ => by apply triple_aside
  | |- triple (modify _) _ => by apply triple_aside
  | |- triple fresh_hex _ => by apply triple_aside
  | |- triple (of_option ?o _) _ => destruct o; simpl
  | |- triple (mbind _ (_validate_ready_gate _ _ _)) _ => fail 1
  | |- triple (mbind _ _) _ => eapply (triple_bind _ _ any); [|intros ? _]
  | |- triple (if ?b then _ else _) _ => destruct b
  | |- triple (match ?r with _ => _ end) _ => destruct r
  | |- triple (let _ := _ in _) _ => cbv zeta
  end.

Lemma triple_create_version h id payload : triple (create_agent_version sha256 env h id payload) any.
Proof.
  unfold create_agent_version. apply triple_auth; intros. apply triple_agent; intros. apply triple_unless; intros.
  eapply triple_bind; [apply triple_gate|]. intros error He. apply triple_unless; intros. by apply triple_create, He.
Qed.

Lemma triple_update_version h id version payload : triple (update_agent_version sha256 env h id version payload) any.
Proof.
  unfold update_agent_version. apply triple_auth; intros. apply triple_agent; intros.
  eapply (triple_bind _ _ any); [by apply triple_aside|intros v _]. apply triple_or_404; intros.
  eapply (triple_bind _ _ any); [by apply triple_aside|intros other _]. destruct (_ && _); [by apply triple_ret|].
  apply triple_unless; intros. eapply triple_bind; [apply triple_gate|]. intros error He. apply triple_unless; intros.
  eapply (triple_bind _ _ any); [by apply triple_update, He|intros ? _]. by apply triple_ret.
Qed.

Lemma triple_get_agent h id : triple (get_agent sha256 env h id) any.
Proof. unfold get_agent. handle. Qed.

Lemma serve_agent_validated h r s : validated (ax_native s) → validated (ax_native (serve_agent sha256 env h r s).2).
Proof.
  assert (∀ A (m : M Srv (reply A)), triple m any → validated (ax_native s) → validated (ax_native (answer m s).2)) as Ha.
  { intros A m Hm. apply triple_served. eapply (triple_bind _ _ any); [done|intros ? _]. by apply triple_ret. }
  destruct r as [| | | | | | | | | | | |what]; [..|destruct what]; cbn [serve_agent serve_read]; apply Ha;
    try match goal with
    | |- triple (create_agent_version _ _ _ _ _) _ => apply triple_create_version
    | |- triple (update_agent_version _ _ _ _ _ _) _ => apply triple_update_version
    | |- triple (get_agent _ _ _ _) _ => apply triple_get_agent
    end.
  all: unfold create_agent, update_agent, delete_agent, delete_agent_version, create_agent_task, cancel_run, replay_run,
    cancel_task, create_replay_comparison, capture_replay_comparison_dataset, validate_agent_package, list_agents,
    list_agent_versions, get_agent_version, list_runs, get_run, list_run_events, list_events, list_run_attempts,
    list_tasks, get_task, _find_run, _find_task, _event_reads; handle.
  all: apply triple_get_agent.
Qed.

(** * Sequences of requests *)

Definition after (reqs : list (Headers * agent_request)) s : Srv :=
  foldl (λ s r, (serve_agent sha256 env r.1 r.2 s).2) s reqs.

Lemma after_validated reqs s : validated (ax_native s) → validated (ax_native (after reqs s)).
Proof.
  revert s. unfold after. induction reqs as [|r reqs IH]; intros s Hs; simpl; [done|]. by apply IH, serve_agent_validated.
Qed.

(** C37: whatever requests the native API serves, from whomever and with whichever
    store, a version that is ready has a validation token for exactly its package,
    framework, adapter, entry point and manifest. *)
Theorem ready_versions_validated reqs s id v :
  validated (ax_native s) → nl_version id (ax_native (after reqs s)) = Some v → av_status v = "ready" →
  manifest_has_valid_token sha256 (av_package_uri v) (av_framework v) (av_adapter v) (av_entrypoint v) (av_manifest v)
  = Some true.
Proof. intros Hs. by apply (after_validated reqs s Hs). Qed.

(** ** A task that was accepted *)

Lemma auth_inv {A} h scope (f : Z → Z → M Srv (reply A)) s a s' :
  _auth sha256 env h scope f s = (Ret (Item a), s') →
  ∃ tenant project api, hd_tenant_id h = Some tenant ∧ hd_project_id h = Some project ∧
    f tenant project (s <| ax_api := api |>) = (Ret (Item a), s').
Proof.
  unfold _auth. destruct (hd_tenant_id h) as [t|], (hd_project_id h) as [p|]; try done.
  intros (r&s1&E&H)%bind_ret_inv. apply zoom_inv in E as (api&_&->). destruct r as [actor|c e]; [|done].
  by exists t, p, api.
Qed.

Lemma or_404_inv {A B} (o : option A) error (f : A → M Srv (reply B)) s b s' :
  or_404 o error f s = (Ret (Item b), s') → ∃ a, o = Some a ∧ f a s = (Ret (Item b), s').
Proof. destruct o; [by eauto|done]. Qed.

Lemma scoped_agent_inv {A} id t p (f : NativeAgent → M Srv (reply A)) s b s' :
  scoped_agent id t p f s = (Ret (Item b), s') → ∃ agent, nr_agent id t p (ax_native s) = Some agent ∧ f agent s = (Ret (Item b), s').
Proof. intros (o&s1&E&H)%bind_ret_inv. injection E as <- <-. by apply or_404_inv in H. Qed.

(** The version a task asks for. *)
Definition requested_version (id : Z) (payload : AgentTaskCreate) (n : N) : option NativeAgentVersion :=
  (if str_truthy (gt_version payload) then ns_get_version id (or_str (gt_version payload) "") else ns_latest_version id) n.

Lemma task_inv h key id payload s r s' : create_agent_task sha256 env h key id payload s = (Ret (Item r), s') →
  ∃ tenant project agent v, hd_tenant_id h = Some tenant ∧ hd_project_id h = Some project ∧
    nr_agent id tenant project (ax_native s) = Some agent ∧ ag_status agent = "active" ∧
    requested_version id payload (ax_native s) = Some v ∧ av_status v = "ready" ∧
    (gr_replayed r = false → nl_run_version (gr_run_id r) (ax_native s') = Some (av_id v)).
Proof.
  intros (t&p&api&Ht&Hp&H)%auth_inv. apply scoped_agent_inv in H as (agent&Hg&H).
  apply bind_ret_inv in H as (o&s1&E&H). injection E as <- <-. apply or_404_inv in H as (v&Hv&H).
  case_bool_decide as Hact; [simpl in H|done]. case_bool_decide as Hst; [simpl in H|done].
  apply bind_ret_inv in H as (rr&s2&E&H). unfold catch in E.
  destruct (in_runtime _ _) as [r0 s3] eqn:E3. injection E as <- <-. apply zoom_inv in E3 as (n'&E3&->).
  destruct r0 as [[[run task] b]|e]; [|by destruct e]. injection H as <- <-.
  exists t, p, agent, v. split_and!; try done. simpl. intros ->. by apply nl_new_run in E3.
Qed.

(** C38: a task that is accepted is for an active agent of the caller's project and a
    ready version of that agent whose package was validated, whatever requests came
    before, and the new run executes that version. *)
Theorem task_runs_validated_version reqs s h key id payload r s' :
  validated (ax_native s) → create_agent_task sha256 env h key id payload (after reqs s) = (Ret (Item r), s') →
  ∃ tenant project agent v, hd_tenant_id h = Some tenant ∧ hd_project_id h = Some project ∧
    nr_agent id tenant project (ax_native (after reqs s)) = Some agent ∧ ag_status agent = "active" ∧
    nl_version (av_id v) (ax_native (after reqs s)) = Some v ∧ av_agent_id v = id ∧ av_status v = "ready" ∧
    manifest_has_valid_token sha256 (av_package_uri v) (av_framework v) (av_adapter v) (av_entrypoint v) (av_manifest v)
      = Some true ∧
    (gr_replayed r = false → nl_run_version (gr_run_id r) (ax_native s') = Some (av_id v)).
Proof.
  intros Hs (t&p&agent&v&?&?&?&?&Hv&Hr&?)%task_inv. apply (after_validated reqs) in Hs as [Hf Hall].
  assert (nl_version (av_id v) (ax_native (after reqs s)) = Some v ∧ av_agent_id v = id) as [Hl Ha].
  { unfold requested_version in Hv. destruct (str_truthy _); [by eapply nl_get_version|by eapply nl_latest_version]. }
  exists t, p, agent, v. split_and!; try done. by eapply Hall.
Qed.

(** * Replay comparisons *)

(** A replay comparison compares the source with a run that was just queued and has
    not been executed: its output and error are empty, so the signal says [changed]
    exactly when the source has an output or an error, whatever the candidate would do. *)
Theorem comparison_of_queued_run h now payload s c s' :
  create_replay_comparison sha256 env h now payload s = (Ret (Item c), s') →
  nr_status (rd_run (rx_replay_run c)) = RS_pending ∧ vd_replay (rx_output_diff c) = VNone ∧
  vd_replay (rx_error_diff c) = VNone ∧
  (rx_regression_signal c = "changed" ↔
    nr_output (rd_run (rx_source_run c)) ≠ None ∨ nr_error (rd_run (rx_source_run c)) ≠ None).
Proof.
  intros (t&p&api&_&_&H)%auth_inv. apply bind_ret_inv in H as (o&s1&_&H). apply or_404_inv in H as (source&_&H).
  apply bind_ret_inv in H as (s2&s3&_&H). unfold unless in H. destruct (candidate_error _ _ _) as [[]|]; [done|].
  apply bind_ret_inv in H as (r&s4&E&H). unfold catch in E.
  destruct (in_runtime _ _) as [r0 s5] eqn:E5. injection E as <- <-. apply zoom_inv in E5 as (n'&E5&->).
  destruct r0 as [replay|e]; [|by destruct e]. apply nl_replay_pending in E5 as (Hst&Ho&He).
  apply bind_ret_inv in H as (se&?&_&H). apply bind_ret_inv in H as (re&?&_&H). apply bind_ret_inv in H as (hex&?&_&H).
  apply bind_ret_inv in H as (?&?&_&H). injection H as <- <-. simpl. rewrite Ho, He. split_and!; try done.
  destruct (nr_output source), (nr_error source); simpl; naive_solver.
Qed.

(** * Who may call *)

Lemma session_authenticates token tenant project operator c' (Hsess : starts_with "sess_" (strip_string token) = true)
    scope (a : Api C R) :
  get_operator_by_session sha256 (strip_string token) (ap_console a) = (Ret (Some operator), c') →
  can_access_scope operator tenant (Some project) None (co_db c') = true →
  authenticate_api_key sha256 env (mkHeaders (Some ("Bearer " +:+ token)) None (Some tenant) (Some project) None) tenant scope a
  = (Ret (Item (mkActor tenant (Some project) "operator" (pretty (cp_id operator)) (cp_permissions operator) None)),
     a <| ap_console := c' |>).
Proof.
  intros Hop Hacc. unfold authenticate_api_key. cbn [hd_authorization hd_console_session hd_project_id hd_environment].
  assert (starts_with "Bearer " ("Bearer " +:+ token) = true) as ->.
  { unfold starts_with. rewrite strip_prefix_app. by apply bool_decide_eq_true. }
  assert (removeprefix "Bearer " ("Bearer " +:+ token) = token) as ->.
  { unfold removeprefix. by rewrite strip_prefix_app. }
  cbn [negb]. rewrite Hsess. unfold mbind, M_bind, in_console, zoom. rewrite Hop. unfold get_db, gets. cbn.
  rewrite Hacc. done.
Qed.

(** An operator session has every scope: whatever scope a handler requires, a
    signed-in operator whose scopes cover the tenant and the project gets through, and
    the operator's permissions are never looked at. *)
Theorem session_needs_no_permission {A} h token tenant project operator c' scope (f : Z → Z → M Srv (reply A)) s :
  hd_tenant_id h = Some tenant → hd_project_id h = Some project → hd_authorization h = Some ("Bearer " +:+ token) →
  starts_with "sess_" (strip_string token) = true →
  get_operator_by_session sha256 (strip_string token) (ap_console (ax_api s)) = (Ret (Some operator), c') →
  can_access_scope operator tenant (Some project) None (co_db c') = true →
  _auth sha256 env h scope f s = f tenant project (s <| ax_api := (ax_api s) <| ap_console := c' |> |>).
Proof.
  intros Ht Hp Ha Hsess Hop Hacc. unfold _auth, ax_in_api. rewrite Ht, Hp, Ha.
  unfold mbind at 1, M_bind at 1, zoom at 1. rewrite (session_authenticates _ _ _ _ _ Hsess _ _ Hop Hacc). done.
Qed.

(** Whoever may read an agent may delete its versions: deletion is authorized by
    the handler that reads the agent. *)
Theorem reader_deletes_version h id version s agent s1 v :
  nl_filed (ax_native s) → get_agent sha256 env h id s = (Ret (Item agent), s1) →
  ns_get_version id version (ax_native s) = Some v →
  ∃ x s', delete_agent_version sha256 env h id version s = (Ret (Item x), s') ∧
    nl_version (av_id v) (ax_native s') = Some x ∧ av_status x = "archived".
Proof.
  intros Hf Hg Hv. assert (ax_native s1 = ax_native s) as Hn.
  { pose proof Hg as (t&p&api&_&_&H)%auth_inv. apply scoped_agent_inv in H as (a&_&H). by injection H as _ <-. }
  pose proof (nl_archive_version (av_id v) _ Hf) as Ha. pose proof (nl_archive_total _ _ _ _ Hf Hv) as [x0 Ht].
  unfold delete_agent_version. unfold mbind at 1, M_bind at 1. rewrite Hg.
  unfold runtime, gets, mbind, M_bind, or_404. rewrite Hn, Hv. unfold in_runtime, zoom. rewrite Hn.
  destruct (ns_archive_version _ _) as [[x|e] n']; [|done]. simpl. destruct Ha as ([Hst _]&Hid&Hs).
  eexists x, _. split; [done|]. simpl. by rewrite Hst, Hid, decide_True.
Qed.
End props.

(** * A server *)

Definition api_hash (s : string) : string := s.
Definition agent_env : ApiConfig := mkApiConfig (Some "dev") "dev".
Definition agent_headers (key : string) : Headers := mkHeaders (Some ("Bearer " +:+ key)) None (Some 1) (Some 1) None.

Definition demo_manifest : pydict := [("runtime", VDict [("entrypoint", VStr "app:run")])].
Definition demo_token : string := Eval vm_compute in
  default "" (validation_token api_hash "oci://support" "langgraph" "langgraph" "app:run" demo_manifest).
Definition demo_args (manifest : pydict) : VersionArgs :=
  mkVersionArgs "1" "oci://support" "langgraph" "langgraph" "app:run" [] manifest.
Definition demo_upload (status : string) : AgentVersionCreate :=
  mkVersionCreate (demo_args (dict_set "validation_token" (VStr demo_token) demo_manifest)) status.

(** A key that may read agents. *)
Definition reader_api : Api MemorySessionCache ServiceAccountRegistry :=
  (in_auth (in_accounts (sa_create 1 (Some 1) "bot" {["agent:read"]} "1") ;;
            create_key api_hash 1 (Some 1) "reader" "service_account" 1 {["agent:read"]} "1" None) demo_api).2.
Definition reader_key : string := Eval vm_compute in
  match (in_auth (in_accounts (sa_create 1 (Some 1) "bot" {["agent:read"]} "1") ;;
            create_key api_hash 1 (Some 1) "reader" "service_account" 1 {["agent:read"]} "1" None) demo_api).1 with
  | Ret (k, _) => k
  | Raise _ => ""
  end.

Definition in_process_server : AgentServer MemorySessionCache ServiceAccountRegistry NativeRuntimeStore :=
  mkAgentServer reader_api (new_native Z.of_nat) [] (λ n, pretty (Z.of_nat n)) 0.
Definition database_server : AgentServer MemorySessionCache ServiceAccountRegistry (SqlNative IdemTable) :=
  mkAgentServer demo_api (mkSqlNative empty_db [] [] 1 1 [] (mkIdemTable [] 1) Z.of_nat 0) [] (λ n, pretty (Z.of_nat n)) 0.

Definition demo_agent_requests : list (Headers * agent_request) :=
  [(agent_headers "dev", GCreate (mkAgentCreate "support" None));
   (agent_headers "dev", GCreateVersion 1 (mkVersionCreate (demo_args []) "ready"));
   (agent_headers "dev", GCreateVersion 1 (demo_upload "ready"))].

#[local] Instance process_runtime : NativeRuntime NativeRuntimeStore := native_runtime_store api_hash.
#[local] Instance process_native : NativeStore NativeRuntimeStore := in_process_native api_hash.
#[local] Instance process_laws : NativeLaws NativeRuntimeStore := in_process_native_laws api_hash.
#[local] Instance database_runtime : NativeRuntime (SqlNative IdemTable) := sql_native_runtime api_hash.
#[local] Instance database_native : NativeStore (SqlNative IdemTable) := sql_native api_hash.
#[local] Instance database_laws : NativeLaws (SqlNative IdemTable) := sql_native_laws api_hash.

Lemma in_process_validated : validated api_hash (ax_native in_process_server).
Proof. split; [split; [constructor|done]|done]. Qed.
Lemma database_validated : validated api_hash (ax_native database_server).
Proof. split; [split; [constructor|done]|done]. Qed.

Lemma ready_versions_validated_witness : ∃ v,
  nl_version 1 (ax_native (after api_hash agent_env demo_agent_requests in_process_server)) = Some v ∧
  nl_version 2 (ax_native (after api_hash agent_env demo_agent_requests in_process_server)) = None ∧
  manifest_has_valid_token api_hash (av_package_uri v) (av_framework v) (av_adapter v) (av_entrypoint v) (av_manifest v)
  = Some true.
Proof.
  eexists. split; [vm_compute; reflexivity|]. split; [vm_compute; reflexivity|].
  apply (ready_versions_validated api_hash agent_env demo_agent_requests in_process_server 1);
    [exact in_process_validated|vm_compute; reflexivity|reflexivity].
Defined.

Lemma run_result {A B} (x : A * B) (a : A) : x.1 = a → x = (a, x.2).
Proof. destruct x. by intros <-. Qed.

(** ** A task, with the database *)

Definition demo_agent_task : AgentTaskCreate := mkAgentTask [("q", VStr "hello")] None None.
Definition demo_accepted := create_agent_task api_hash agent_env (agent_headers "dev") None 1 demo_agent_task
  (after api_hash agent_env demo_agent_requests database_server).

Lemma demo_accepted_run :
  create_agent_task api_hash agent_env (agent_headers "dev") None 1 demo_agent_task
    (after api_hash agent_env demo_agent_requests database_server)
  = (Ret (Item (mkAgentTaskReply 1 1 "queued" false)), demo_accepted.2).
Proof. unfold demo_accepted. apply run_result. vm_compute. reflexivity. Qed.

Lemma task_runs_validated_version_witness : ∃ v,
  nl_version (av_id v) (ax_native (after api_hash agent_env demo_agent_requests database_server)) = Some v ∧
  av_status v = "ready" ∧ nl_run_version 1 (ax_native demo_accepted.2) = Some (av_id v).
Proof.
  destruct (task_runs_validated_version api_hash agent_env demo_agent_requests database_server (agent_headers "dev") None 1
    demo_agent_task _ _ database_validated demo_accepted_run) as (t&p&agent&v&_&_&_&_&Hv&_&Hs&_&Hr).
  exists v. split; [exact Hv|]. split; [exact Hs|exact (Hr eq_refl)].
Defined.

(** ** A comparison *)

(** The run with an output. *)
Definition demo_finished : AgentServer MemorySessionCache ServiceAccountRegistry NativeRuntimeStore :=
  let s := (create_agent_task api_hash agent_env (agent_headers "dev") None 1 demo_agent_task
    (after api_hash agent_env demo_agent_requests in_process_server)).2 in
  s <| ax_native := (ax_native s) <| nv_runs := (λ p : Z * NativeRun, (p.1, p.2 <| nr_status := RS_succeeded |>
    <| nr_output := Some [("a", VStr "hi")] |>)) <$> nv_runs (ax_native s) |> |>.
Definition demo_compare : ReplayComparisonRequest := mkComparisonRequest 1 None [].
Definition demo_compared := create_replay_comparison api_hash agent_env (agent_headers "dev") 0 demo_compare demo_finished.
Definition demo_comparison : ReplayComparisonRead := Eval vm_compute in
  match demo_compared.1 with
  | Ret (Item c) => c
  | _ => comparison_of "" (_run_to_read (mkNativeRun 0 0 0 0 0 None RS_pending [] None None None None 0 None None))
           (_run_to_read (mkNativeRun 0 0 0 0 0 None RS_pending [] None None None None 0 None None)) [] [] [] 0
  end.

Lemma demo_compared_run :
  create_replay_comparison api_hash agent_env (agent_headers "dev") 0 demo_compare demo_finished
  = (Ret (Item demo_comparison), demo_compared.2).
Proof. unfold demo_compared. apply run_result. vm_compute. reflexivity. Qed.

Lemma comparison_of_queued_run_witness :
  nr_id (rd_run (rx_source_run demo_comparison)) = 1 ∧ nr_status (rd_run (rx_replay_run demo_comparison)) = RS_pending ∧
  rx_regression_signal demo_comparison = "changed".
Proof.
  destruct (comparison_of_queued_run api_hash agent_env (agent_headers "dev") 0 demo_compare demo_finished
    demo_comparison demo_compared.2 demo_compared_run) as (Hst&_&_&Hs).
  split; [reflexivity|]. split; [exact Hst|]. apply Hs. left. discriminate.
Defined.

(** ** Callers *)

(** Ida, who may not write agents, creates one. *)
Definition ida_server : AgentServer MemorySessionCache ServiceAccountRegistry NativeRuntimeStore :=
  mkAgentServer demo_api (new_native Z.of_nat) [] (λ n, pretty (Z.of_nat n)) 0.
Definition ida_agent : AgentCreate := mkAgentCreate "mine" None.

Lemma session_needs_no_permission_witness :
  bool_decide ("agent:write" ∈ cp_permissions demo_ida) = false ∧ bool_decide ("*" ∈ cp_permissions demo_ida) = false ∧
  ∃ agent, (create_agent demo_sha256 demo_env (agent_headers "sess_1") ida_agent ida_server).1 = Ret (Item agent) ∧
    ag_name agent = "mine".
Proof.
  split; [vm_compute; reflexivity|]. split; [vm_compute; reflexivity|]. unfold create_agent.
  rewrite (session_needs_no_permission demo_sha256 demo_env (agent_headers "sess_1") "sess_1" 1 1 demo_ida demo_who.2);
    [|reflexivity|reflexivity|reflexivity|vm_compute; reflexivity|vm_compute; reflexivity|vm_compute; reflexivity].
  eexists. split; [reflexivity|reflexivity].
Defined.

(** The reader may not change the version, and deletes it. *)
Definition reader_server : AgentServer MemorySessionCache ServiceAccountRegistry NativeRuntimeStore :=
  after api_hash agent_env demo_agent_requests in_process_server.
Definition reader_read := get_agent api_hash agent_env (agent_headers reader_key) 1 reader_server.
Definition demo_support : NativeAgent := mkNativeAgent 1 1 1 "support" None "active" 0.

Lemma reader_read_run :
  get_agent api_hash agent_env (agent_headers reader_key) 1 reader_server = (Ret (Item demo_support), reader_read.2).
Proof. unfold reader_read. apply run_result. vm_compute. reflexivity. Qed.

Lemma reader_deletes_version_witness :
  (update_agent_version api_hash agent_env (agent_headers reader_key) 1 "1"
    (mkVersionUpdate None None None None None None None (Some "draft")) reader_server).1
  = Ret (Refused 403 "api_key_scope_denied") ∧
  ∃ x s', delete_agent_version api_hash agent_env (agent_headers reader_key) 1 "1" reader_server = (Ret (Item x), s') ∧
    av_status x = "archived".
Proof.
  split; [vm_compute; reflexivity|].
  destruct (reader_deletes_version api_hash agent_env (agent_headers reader_key) 1 "1" reader_server demo_support
    reader_read.2 (mkNativeVersion 1 1 "1" "oci://support" "langgraph" "langgraph" "app:run" []
      (dict_set "validation_token" (VStr demo_token) demo_manifest) "ready" 1)) as (x&s'&E&_&Hs).
  - exact (proj1 (after_validated api_hash agent_env demo_agent_requests in_process_server in_process_validated)).
  - exact reader_read_run.
  - vm_compute. reflexivity.
  - exists x, s'. split; [exact E|exact Hs].
Defined.
