(* ===== verification/Batches.v ===== *)
(** Datasets captured from runs and batches of runs: [api/admin/datasets.py],
    [runtime/batch_runs.py] and [api/admin/batches.py].

    The handlers of these routers run behind [enforce_console_actor]. A payload is a
    dictionary of values; [now] is the time of the request. A row of the table of batches
    is its columns with the metadata, whose entries are fields. *)

From stdpp Require Import gmap.
From S2P Require Import Prelude Values Json StateMachine Tables Deployments NativeApi ApiKeys Console ConsoleApi DeploymentStore NativeStore.

(** * Reading payloads *)

Section payloads.
Context {S : Type} (py_str : value → string) (py_repr : string → string).

Definition item_of (key : string) (payload : pydict) : value := default VNone (dict_get key payload).
(** [int(value)] *)
Definition int_value (v : value) : M S Z :=
  match v with
  | VInt z => mret z
  | VBool b => mret (Z.b2z b)
  | VStr s => of_option (py_int s) (ValueError ("invalid literal for int() with base 10: " +:+ py_repr s))
  | _ => raise (TypeError "int() argument must be a string, a bytes-like object or a real number")
  end.
(** [int(payload.get(key) or default)] *)
Definition int_or (key : string) (d : Z) (payload : pydict) : M S Z :=
  let v := item_of key payload in if truthy v then int_value v else mret d.
(** [str(payload.get(key) or default)] *)
Definition str_or (key d : string) (payload : pydict) : string :=
  let v := item_of key payload in if truthy v then py_str v else d.
(** [dict(payload.get(key) or {})] of an object or a scalar *)
Definition dict_or_empty (key : string) (payload : pydict) : M S pydict :=
  let v := item_of key payload in
  if truthy v then
    match v with
    | VDict d => mret d
    | VStr _ => raise (ValueError "dictionary update sequence element #0 has length 1; 2 is required")
    | _ => raise (TypeError "cannot convert dictionary update sequence element #0 to a sequence")
    end
  else mret [].
Definition _optional_string (v : value) : option string :=
  match v with
  | VNone => None
  | _ => let text := strip_string (py_str v) in if String.eqb text "" then None else Some text
  end.
End payloads.

(** * Datasets ([api/admin/datasets.py]) *)

Definition redacted_text : value := VStr "[REDACTED]".
Fixpoint _redact (v : value) (fields : gset string) : value :=
  match v with
  | VDict d => VDict ((fix go (d : list (string * value)) : list (string * value) := match d with
      | [] => []
      | (k, x) :: d => (k, if bool_decide (k ∈ fields) then redacted_text else _redact x fields) :: go d
      end) d)
  | VList l => VList ((fix go (l : list value) : list value := match l with
      | [] => []
      | x :: l => _redact x fields :: go l
      end) l)
  | _ => v
  end.

Record CapturedItem := mkCaptured {
  ci_dataset_id : Z;
  ci_dataset_name : string;
  ci_dataset_item_id : Z;
  ci_source_run_id : Z;
  ci_label : value;
  ci_expected_ref : value;
  ci_input : value;
  ci_output : value;
  ci_error : value;
  ci_redaction_fields : gset string;
  ci_captured_at : Z;
  ci_environment : option string;
  ci_request_id : option string;
  ci_tenant_id : Z;
  ci_project_id : Z
}.

Record CapturedDataset := mkDataset {
  cd_id : Z;
  cd_name : string;
  cd_tenant_id : Z;
  cd_project_id : Z;
  cd_created_at : Z
}.

Definition dataset_key : Type := string * Z * Z * string.
Definition run_key : Type := string * Z * Z * Z * Z.

(** The module's dictionaries and counters. *)
Record Datasets := mkDatasets {
  ds_url : option string;
  ds_dataset_sequence : Z;
  ds_item_sequence : Z;
  ds_datasets : dict dataset_key CapturedDataset;
  ds_by_run : dict run_key CapturedItem;
  ds_by_dataset : dict Z (list CapturedItem)
}.
#[export] Instance Datasets_eta : Eta Datasets := λ s,
  mkDatasets (ds_url s) (ds_dataset_sequence s) (ds_item_sequence s) (ds_datasets s) (ds_by_run s) (ds_by_dataset s).

Definition reset_quality_datasets : Datasets := mkDatasets None 20 300 [] [] [].
Definition _sync_state (url : string) : M Datasets unit :=
  modify (λ s, if bool_decide (ds_url s = Some url) then s else reset_quality_datasets <| ds_url := Some url |>).
Definition _next_dataset_id : M Datasets Z :=
  modify (λ s, s <| ds_dataset_sequence := ds_dataset_sequence s + 1 |>) ;; gets ds_dataset_sequence.
Definition _next_dataset_item_id : M Datasets Z :=
  modify (λ s, s <| ds_item_sequence := ds_item_sequence s + 1 |>) ;; gets ds_item_sequence.

Definition _dataset_for (url : string) (tenant project : Z) (name : string) (now : Z) : M Datasets CapturedDataset :=
  s ← get_state;
  match dict_get (url, tenant, project, name) (ds_datasets s) with
  | Some d => mret d
  | None =>
      id ← _next_dataset_id;
      let d := mkDataset id name tenant project now in
      modify (λ s, s <| ds_datasets := dict_set (url, tenant, project, name) d (ds_datasets s) |>) ;;
      mret d
  end.

Definition items_of (id : Z) (s : Datasets) : list CapturedItem := default [] (dict_get id (ds_by_dataset s)).
Definition dataset_items_for (url : string) (id : Z) : M Datasets (list CapturedItem) :=
  _sync_state url ;; gets (items_of id).

(** [{str(field) for field in data.get("redact_fields", []) if ...}] *)
Definition iterate {S} (v : value) : M S (list value) :=
  match v with
  | VList l => mret l
  | VDict d => mret (VStr <$> dict_keys d)
  | VStr s => mret ((λ c, VStr (String c EmptyString)) <$> to_chars s)
  | _ => raise (TypeError "object is not iterable")
  end.
Definition named_field (v : value) : option string :=
  match v with VStr s => if String.eqb (strip_string s) "" then None else Some s | _ => None end.
Definition redact_fields {S} (data : pydict) : M S (gset string) :=
  l ← iterate (default (VList []) (dict_get "redact_fields" data)); mret (list_to_set (omap named_field l)).

(** Recording the run, once the dataset and the run are known; [true] for a duplicate. *)
Definition capture (url : string) (now : Z) (rid environment : option string) (tenant project : Z) (name : string)
    (data : pydict) (run : NativeRun) : M Datasets (CapturedItem * bool) :=
  _sync_state url ;;
  d ← _dataset_for url tenant project name now;
  let key := (url, tenant, project, cd_id d, nr_id run) in
  s ← get_state;
  match dict_get key (ds_by_run s) with
  | Some item => mret (item, true)
  | None =>
      fields ← redact_fields data;
      id ← _next_dataset_item_id;
      let item := mkCaptured (cd_id d) (cd_name d) id (nr_id run) (item_of "label" data) (item_of "expected_ref" data)
        (_redact (VDict (nr_input run)) fields) (_redact (from_option VDict VNone (nr_output run)) fields)
        (_redact (from_option VDict VNone (nr_error run)) fields) fields now environment rid tenant project in
      modify (λ s, s <| ds_by_run := dict_set key item (ds_by_run s) |>
        <| ds_by_dataset := dict_set (cd_id d) (items_of (cd_id d) s ++ [item]) (ds_by_dataset s) |>) ;;
      mret (item, false)
  end.

(** * Batches ([runtime/batch_runs.py]) *)

Record BatchProgressSummary := mkSummary {
  sm_total : Z;
  sm_queued : Z;
  sm_running : Z;
  sm_retrying : Z;
  sm_failed : Z;
  sm_dead_letter : Z;
  sm_cancelled : Z;
  sm_completed : Z;
  sm_terminal : Z
}.

Record BatchItem := mkBatchItem {
  bi_index : nat;
  bi_status : string;
  bi_input : value;
  bi_run_id : option Z;
  bi_task_id : option Z;
  bi_error_code : option string;
  bi_message : option string
}.
#[export] Instance BatchItem_eta : Eta BatchItem := λ i,
  mkBatchItem (bi_index i) (bi_status i) (bi_input i) (bi_run_id i) (bi_task_id i) (bi_error_code i) (bi_message i).

Record Batch := mkBatch {
  nb_name : string;
  nb_deployment_id : Z;
  nb_dataset_id : option Z;
  nb_input_items : list value;
  nb_concurrency : Z;
  nb_retry_policy : pydict;
  nb_cancel_policy : string;
  nb_partial_failure_policy : string;
  nb_artifact_output_ref : option string;
  nb_audit_reason : string
}.

Section normalize.
Context (py_str : value → string) (py_repr : string → string) (url : string).

Definition normalize_batch_payload (payload : pydict) : M Datasets Batch :=
  let name := or_str (Some (strip_string (str_or py_str "name" "runtime-batch" payload))) "runtime-batch" in
  deployment ← int_or py_repr "deployment_id" 0 payload;
  check (0 <? deployment) (ValueError "deployment_id_required") ;;
  concurrency ← int_or py_repr "concurrency" 1 payload;
  check (0 <? concurrency) (ValueError "concurrency_invalid") ;;
  retry ← dict_or_empty "retry_policy" payload;
  let cancel := str_or py_str "cancel_policy" "queued_only" payload in
  check (bool_decide (cancel ∈ ["queued_only"; "best_effort"])) (ValueError "cancel_policy_invalid") ;;
  let partial := str_or py_str "partial_failure_policy" "continue" payload in
  check (bool_decide (partial ∈ ["continue"; "abort"])) (ValueError "partial_failure_policy_invalid") ;;
  let reason := strip_string (str_or py_str "audit_reason" "" payload) in
  check (negb (String.eqb reason "")) (ValueError "audit_reason_required") ;;
  d ← int_or py_repr "dataset_id" 0 payload;
  let dataset := if d =? 0 then None else Some d in
  let input_items := item_of "input_items" payload in
  check (xorb (bool_decide (is_Some dataset)) (truthy input_items)) (ValueError "batch_input_source_required") ;;
  items ← match dataset with
    | Some id => l ← dataset_items_for url id; mret (ci_input <$> l)
    | None => match input_items with VList l => mret l | _ => raise (ValueError "input_items_invalid") end
    end;
  mret (mkBatch name deployment dataset items concurrency retry cancel partial
    (_optional_string py_str (item_of "artifact_output_ref" payload)) reason).
End normalize.

(** The two lists: the objects, and a failed item for each input that is none. *)
Definition failed_item (index : nat) (input : value) : BatchItem :=
  mkBatchItem index "failed" input None None (Some "batch_item_invalid") (Some "Batch input item must be an object.").
Fixpoint normalize_items {S} (index : nat) (items : list value) (policy : string) : M S (list pydict * list BatchItem) :=
  match items with
  | [] => mret ([], [])
  | VDict d :: items => '(accepted, failed) ← normalize_items (Datatypes.S index) items policy; mret (d :: accepted, failed)
  | x :: items =>
      check (negb (bool_decide (policy = "abort"))) (ValueError "batch_item_invalid") ;;
      '(accepted, failed) ← normalize_items (Datatypes.S index) items policy;
      mret (accepted, failed_item index x :: failed)
  end.
Definition normalize_batch_items {S} (items : list value) (policy : string) : M S (list pydict * list BatchItem) :=
  normalize_items 0 items policy.

Definition count (statuses : list string) (items : list BatchItem) : Z :=
  Z.of_nat (length (List.filter (λ i, bool_decide (or_str (Some (bi_status i)) "queued" ∈ statuses)) items)).

Definition summarize_batch_items (items : list BatchItem) : BatchProgressSummary :=
  mkSummary (Z.of_nat (length items)) (count ["queued"] items) (count ["leased"; "running"] items) (count ["retrying"] items)
    (count ["failed"] items) (count ["dead_letter"] items) (count ["cancelled"] items) (count ["succeeded"; "completed"] items)
    (count ["failed"] items + count ["dead_letter"] items + count ["cancelled"] items + count ["succeeded"; "completed"] items).

Definition overall_batch_status (s : BatchProgressSummary) : string :=
  if sm_total s =? 0 then "empty"
  else if sm_cancelled s =? sm_total s then "cancelled"
  else if sm_failed s + sm_dead_letter s =? sm_total s then "failed"
  else if sm_completed s =? sm_total s then "completed"
  else if (0 <? sm_running s) || (0 <? sm_retrying s) then "running"
  else if (0 <? sm_failed s) || (0 <? sm_dead_letter s) then "partial_failed"
  else "queued".

(** * Batches over HTTP ([api/admin/batches.py]) *)

(** The columns that repeat the summary. *)
Record BatchCounts := mkCounts {
  bc_total : Z;
  bc_queued : Z;
  bc_running : Z;
  bc_completed : Z;
  bc_failed : Z;
  bc_dead_letter : Z;
  bc_cancelled : Z
}.
Definition counts_of (s : BatchProgressSummary) : BatchCounts :=
  mkCounts (sm_total s) (sm_queued s) (sm_running s) (sm_completed s) (sm_failed s) (sm_dead_letter s) (sm_cancelled s).
(** [progress_summary.update({...})] *)
Definition update_summary (c : BatchCounts) (s : BatchProgressSummary) : BatchProgressSummary :=
  mkSummary (bc_total c) (bc_queued c) (bc_running c) (sm_retrying s) (bc_failed c) (bc_dead_letter c) (bc_cancelled c)
    (bc_completed c) (sm_terminal s).

Record BatchMetadata := mkBatchMetadata {
  bm_batch : Batch;
  bm_deployment_id : option Z;
  bm_cancel_policy : string;
  bm_partial_failure_policy : string;
  bm_environment : option string;
  bm_agent_id : Z;
  bm_agent_version_id : Z;
  bm_items : list BatchItem;
  bm_progress_summary : BatchProgressSummary;
  bm_last_updated_at : option Z;
  bm_completed_at : option Z;
  bm_cancelled_at : option Z;
  bm_cancel_audit_reason : option string
}.
#[export] Instance BatchMetadata_eta : Eta BatchMetadata := λ m,
  mkBatchMetadata (bm_batch m) (bm_deployment_id m) (bm_cancel_policy m) (bm_partial_failure_policy m) (bm_environment m)
    (bm_agent_id m) (bm_agent_version_id m) (bm_items m) (bm_progress_summary m) (bm_last_updated_at m)
    (bm_completed_at m) (bm_cancelled_at m) (bm_cancel_audit_reason m).

Record BatchRun := mkBatchRun {
  br_id : Z;
  br_tenant_id : Z;
  br_project_id : Z;
  br_status : string;
  br_deployment_id : option Z;
  br_counts : BatchCounts;
  br_partial_failure_policy : string;
  br_cancel_policy : string;
  br_last_recomputed_at : option Z;
  br_metadata : BatchMetadata;
  br_is_deleted : bool
}.
#[export] Instance BatchRun_eta : Eta BatchRun := λ r,
  mkBatchRun (br_id r) (br_tenant_id r) (br_project_id r) (br_status r) (br_deployment_id r) (br_counts r)
    (br_partial_failure_policy r) (br_cancel_policy r) (br_last_recomputed_at r) (br_metadata r) (br_is_deleted r).

(** The columns as the metadata say. *)
Definition _apply_batch_metadata (r : BatchRun) : BatchRun :=
  let m := br_metadata r in
  r <| br_deployment_id := match bm_deployment_id m with Some d => if d =? 0 then None else Some d | None => None end |>
    <| br_counts := counts_of (bm_progress_summary m) |>
    <| br_partial_failure_policy := or_str (Some (bm_partial_failure_policy m)) "continue" |>
    <| br_cancel_policy := or_str (Some (bm_cancel_policy m)) "queued_only" |>
    <| br_last_recomputed_at := bm_last_updated_at m |>.
(** The metadata as the columns say. *)
Definition _persist_batch_metadata (m : BatchMetadata) (r : BatchRun) : BatchRun :=
  r <| br_metadata := m <| bm_deployment_id := br_deployment_id r |>
         <| bm_partial_failure_policy := br_partial_failure_policy r |>
         <| bm_cancel_policy := br_cancel_policy r |>
         <| bm_last_updated_at := br_last_recomputed_at r |>
         <| bm_progress_summary := update_summary (br_counts r) (bm_progress_summary m) |> |>.
(** The summary into the columns. *)
Definition recompute (s : BatchProgressSummary) (now : Z) (r : BatchRun) : BatchRun :=
  r <| br_counts := counts_of s |> <| br_last_recomputed_at := Some now |>.

Record BatchServer (C R K N : Type) := mkBatchServer {
  bx_api : Api C R;
  bx_service : K;
  bx_native : N;
  bx_datasets : Datasets;
  bx_batches : dict Z BatchRun;
  bx_next : Z
}.
Arguments mkBatchServer {C R K N}.
Arguments bx_api {C R K N}.
Arguments bx_service {C R K N}.
Arguments bx_native {C R K N}.
Arguments bx_datasets {C R K N}.
Arguments bx_batches {C R K N}.
Arguments bx_next {C R K N}.
#[export] Instance BatchServer_eta {C R K N} : Eta (BatchServer C R K N) := λ s,
  mkBatchServer (bx_api s) (bx_service s) (bx_native s) (bx_datasets s) (bx_batches s) (bx_next s).

Section api.
Context {C R K N : Type} `{!SessionCache C, !ServiceAccounts R, !DeploymentService K, !NativeRuntime N, !NativeStore N}.
Context (sha256 : string → string) (env : ApiConfig) (py_str : value → string) (py_repr : string → string) (url : string).
Abbreviation Srv := (BatchServer C R K N).
Implicit Types s : Srv.

Definition bx_in_api {A} (m : M (Api C R) A) : M Srv A := zoom bx_api (λ a s, s <| bx_api := a |>) m.
Definition bx_in_service {A} (m : M K A) : M Srv A := zoom bx_service (λ k s, s <| bx_service := k |>) m.
Definition bx_in_native {A} (m : M N A) : M Srv A := zoom bx_native (λ n s, s <| bx_native := n |>) m.
Definition bx_in_datasets {A} (m : M Datasets A) : M Srv A := zoom bx_datasets (λ d s, s <| bx_datasets := d |>) m.

(** The dependencies of the router and of the handler: a request that raises is rolled
    back in the stores that can be. *)
Definition rolled_back {A} (m : M Srv A) : M Srv A := λ s,
  match m s with
  | (Ret a, s') => (Ret a, s')
  | (Raise e, s') => (Raise e, s' <| bx_service := sv_rollback (bx_service s) (bx_service s') |>
                                  <| bx_native := nr_rollback (bx_native s) (bx_native s') |>)
  end.
Definition console {A} (h : Headers) (method path : string) (m : M Srv (reply A)) : M Srv (reply A) :=
  r ← bx_in_api (enforce_console_actor sha256 env h method path);
  match r with
  | Refused c e => mret (Refused c e)
  | Item _ => rolled_back m
  end.

Definition _require_scope {A} (h : Headers) (f : Z → Z → M Srv (reply A)) : M Srv (reply A) :=
  match hd_tenant_id h, hd_project_id h with
  | Some tenant, Some project => f tenant project
  | _, _ => mret (Refused 400 "scope_headers_required")
  end.

(** ** Capturing *)

Definition capture_run_to_dataset (h : Headers) (rid : option string) (now : Z) (data : pydict)
  : M Srv (reply (CapturedItem * bool)) :=
  console h "POST" "/v1/datasets/capture-run" (
    let name := strip_string (str_or py_str "dataset_name" "" data) in
    source ← int_or py_repr "source_run_id" 0 data;
    match hd_tenant_id h, hd_project_id h with
    | Some tenant, Some project =>
        if String.eqb name "" || (source <=? 0) then mret (Refused 400 "invalid_dataset_capture")
        else
          run ← bx_in_native (ns_get_run source tenant project);
          match run with
          | None => mret (Refused 404 "run_not_found")
          | Some run =>
              x ← bx_in_datasets (capture url now rid (hd_environment h) tenant project name data run); mret (Item x)
          end
    | _, _ => mret (Refused 400 "invalid_dataset_capture")
    end).

(** ** Creating *)

Definition batch_request (b : Batch) (index : nat) (input : pydict) : pydict :=
  [("batch_name", VStr (nb_name b)); ("index", VInt (Z.of_nat index)); ("input", VDict input);
   ("audit_reason", VStr (nb_audit_reason b))].
Definition queued_item (index : nat) (input : pydict) (run task : Z) : BatchItem :=
  mkBatchItem index "queued" (VDict input) (Some run) (Some task) None None.

(** One run per accepted item. *)
Fixpoint create_items (tenant project agent version deployment : Z) (b : Batch) (index : nat) (inputs : list pydict)
  : M Srv (list BatchItem) :=
  match inputs with
  | [] => mret []
  | input :: inputs =>
      '(run, task, _) ← bx_in_native (nr_create_task_run (mkTaskRunArgs tenant project agent version input None None
          "/v1/batch-runs" (batch_request b index input) (Some deployment)));
      items ← create_items tenant project agent version deployment b (S index) inputs;
      mret (queued_item index input run task :: items)
  end.

Definition index_leb (a b : BatchItem) : bool := Nat.leb (bi_index a) (bi_index b).

(** What the normalisation says, [ValueError]s as replies. *)
Definition normalized (payload : pydict) : M Srv (reply (Batch * list pydict * list BatchItem)) :=
  r ← catch (b ← bx_in_datasets (normalize_batch_payload py_str py_repr url payload);
             '(accepted, failed) ← normalize_batch_items (nb_input_items b) (nb_partial_failure_policy b);
             mret (b, accepted, failed));
  match r with
  | Ret x => mret (Item x)
  | Raise (ValueError e) => mret (Refused 400 e)
  | Raise e => raise e
  end.

Definition insert_batch (r : BatchRun) : M Srv BatchRun :=
  s ← get_state;
  let r := _apply_batch_metadata (r <| br_id := bx_next s |>) in
  modify (λ s, s <| bx_batches := dict_set (bx_next s) r (bx_batches s) |> <| bx_next := bx_next s + 1 |>) ;;
  mret r.

Definition batch_row (tenant project : Z) (environment : option string) (b : Batch) (d : DeploymentRecord)
    (items : list BatchItem) (now : Z) : BatchRun :=
  let summary := summarize_batch_items items in
  mkBatchRun 0 tenant project (overall_batch_status summary) None (mkCounts 0 0 0 0 0 0 0) "continue" "queued_only" None
    (mkBatchMetadata b (Some (nb_deployment_id b)) (nb_cancel_policy b) (nb_partial_failure_policy b) environment
      (dp_agent_id d) (dp_agent_version_id d) items summary (Some now) None None None) false.

Definition create_batch_run (h : Headers) (now : Z) (payload : pydict) : M Srv (reply BatchRun) :=
  console h "POST" "/v1/batch-runs" (
    n ← normalized payload;
    match n with
    | Refused c e => mret (Refused c e)
    | Item (b, accepted, failed) => _require_scope h (λ tenant project,
        found ← catch (bx_in_service (sv_get (nb_deployment_id b)));
        match found with
        | Raise _ => mret (Refused 404 "deployment_not_found")
        | Ret d =>
            if negb ((dp_tenant_id d =? tenant) && (dp_project_id d =? project)
                     && bool_decide (Some (dp_environment d) = hd_environment h))
            then mret (Refused 404 "deployment_not_found")
            else
              s ← get_state;
              match nr_agent (dp_agent_id d) tenant project (bx_native s),
                    nr_version (dp_agent_id d) (dp_agent_version_id d) (bx_native s) with
              | Some agent, Some version =>
                  created ← create_items tenant project (ag_id agent) (av_id version) (dp_id d) b 0 accepted;
                  let items := stable_sort index_leb (failed ++ created) in
                  r ← insert_batch (batch_row tenant project (hd_environment h) b d items now);
                  mret (Item r)
              | _, _ => mret (Refused 409 "batch_binding_invalid")
              end
        end)
    end).

(** ** Reading *)

(** An item brought up to date with its task, and whether it changed. *)
Definition refresh_item (tenant project : Z) (i : BatchItem) : M Srv (BatchItem * bool) :=
  match bi_task_id i with
  | None => mret (i, false)
  | Some id =>
      t ← bx_in_native (ns_get_task id tenant project);
      match t with
      | None => mret (i, false)
      | Some t =>
          let next := task_status_value (nt_status t) in
          let '(i, c1) := if bool_decide (bi_status i = next) then (i, false) else (i <| bi_status := next |>, true) in
          match nt_dead_letter_reason t with
          | Some reason => if negb (String.eqb reason "") && negb (str_truthy (bi_message i))
                           then mret (i <| bi_message := Some reason |>, true) else mret (i, c1)
          | None => mret (i, c1)
          end
      end
  end.
Fixpoint refresh_items (tenant project : Z) (items : list BatchItem) : M Srv (list BatchItem * bool) :=
  match items with
  | [] => mret ([], false)
  | i :: items =>
      '(i, c) ← refresh_item tenant project i;
      '(items, c') ← refresh_items tenant project items;
      mret (i :: items, c || c')
  end.

(** Whether two summaries, two lists of items are equal: the new list holds the objects
    of the old one. *)
#[export] Instance summary_eq_dec : EqDecision BatchProgressSummary.
Proof. solve_decision. Defined.

(** The summary of the refreshed items goes to the columns; the metadata, a copy, are kept
    only when something changed. *)
Definition refreshed (now : Z) (items : list BatchItem) (changed : bool) (r : BatchRun) : BatchRun :=
  let r := _apply_batch_metadata r in
  let summary := summarize_batch_items items in
  let m := (br_metadata r) <| bm_items := items |> <| bm_progress_summary := summary |> <| bm_last_updated_at := Some now |> in
  let m := if (sm_terminal summary =? sm_total summary) && (0 <? sm_total summary)
           then m <| bm_completed_at := Some (default now (bm_completed_at m)) |> else m in
  let changed := changed || negb (bool_decide (bm_progress_summary (br_metadata r) = summary))
                 || negb (bool_decide (br_status r = overall_batch_status summary)) in
  let r := (recompute summary now r) <| br_status := overall_batch_status summary |> in
  if changed then _persist_batch_metadata m r else r.

Definition _refresh_batch_record (tenant project now : Z) (r : BatchRun) : M Srv BatchRun :=
  '(items, changed) ← refresh_items tenant project (bm_items (br_metadata r));
  let r := refreshed now items changed r in
  modify (λ s, s <| bx_batches := dict_set (br_id r) r (bx_batches s) |>) ;;
  mret r.
Fixpoint refresh_all (tenant project now : Z) (rs : list BatchRun) : M Srv (list BatchRun) :=
  match rs with
  | [] => mret []
  | r :: rs => r ← _refresh_batch_record tenant project now r; rs ← refresh_all tenant project now rs; mret (r :: rs)
  end.

Definition in_scope (tenant project : Z) (r : BatchRun) : bool :=
  negb (br_is_deleted r) && (br_tenant_id r =? tenant) && (br_project_id r =? project).
Definition id_leb (a b : BatchRun) : bool := br_id a <=? br_id b.

(** [_batch_item] reads the columns from the metadata. *)
Definition _batch_item (r : BatchRun) : BatchRun := _apply_batch_metadata r.

Definition list_batch_runs (h : Headers) (now : Z) : M Srv (reply (list BatchRun)) :=
  console h "GET" "/v1/batch-runs" (_require_scope h (λ tenant project,
    s ← get_state;
    rs ← refresh_all tenant project now
      (stable_sort id_leb (List.filter (in_scope tenant project) (dict_values (bx_batches s))));
    mret (Item (_batch_item <$> rs)))).

Definition scoped_batch {A} (id tenant project : Z) (f : BatchRun → M Srv (reply A)) : M Srv (reply A) :=
  s ← get_state;
  match dict_get id (bx_batches s) with
  | Some r => if in_scope tenant project r then f r else mret (Refused 404 "batch_run_not_found")
  | None => mret (Refused 404 "batch_run_not_found")
  end.

Definition get_batch_run (h : Headers) (now id : Z) : M Srv (reply BatchRun) :=
  console h "GET" ("/v1/batch-runs/" +:+ pretty id) (_require_scope h (λ tenant project,
    scoped_batch id tenant project (λ r, r ← _refresh_batch_record tenant project now r; mret (Item (_batch_item r))))).

(** ** Cancelling *)

Definition cancellable (t : NativeTask) : bool :=
  bool_decide (task_status_value (nt_status t) ∈ ["queued"; "leased"; "running"]).
Definition task_map (tasks : list NativeTask) : dict Z NativeTask := foldl (λ d t, dict_set (nt_id t) t d) [] tasks.

Definition cancel_item (tasks : dict Z NativeTask) (i : BatchItem) : M Srv BatchItem :=
  match id ← bi_task_id i; t ← dict_get id tasks; if cancellable t then Some t else None with
  | Some t => bx_in_native (ns_cancel_task t) ;; mret (i <| bi_status := "cancelled" |>)
  | None => mret (if bool_decide (bi_status i = "queued") then i <| bi_status := "cancelled" |> else i)
  end.
Fixpoint cancel_items (tasks : dict Z NativeTask) (items : list BatchItem) : M Srv (list BatchItem) :=
  match items with
  | [] => mret []
  | i :: items => i ← cancel_item tasks i; items ← cancel_items tasks items; mret (i :: items)
  end.

Definition cancelled_record (now : Z) (reason : string) (items : list BatchItem) (r : BatchRun) : BatchRun :=
  let r := _apply_batch_metadata r in
  let summary := summarize_batch_items items in
  let m := (br_metadata r) <| bm_items := items |> <| bm_progress_summary := summary |> <| bm_cancelled_at := Some now |>
             <| bm_cancel_audit_reason := Some reason |> in
  _persist_batch_metadata m ((recompute summary now r) <| br_status := overall_batch_status summary |>).

Definition cancel_batch_run (h : Headers) (now id : Z) (payload : pydict) : M Srv (reply BatchRun) :=
  console h "POST" ("/v1/batch-runs/" +:+ pretty id +:+ "/cancel") (
    let reason := strip_string (str_or py_str "audit_reason" "" payload) in
    if String.eqb reason "" then mret (Refused 400 "audit_reason_required")
    else _require_scope h (λ tenant project, scoped_batch id tenant project (λ r,
      tasks ← bx_in_native (nr_tasks tenant project);
      items ← cancel_items (task_map tasks) (bm_items (br_metadata r));
      let r := cancelled_record now reason items r in
      modify (λ s, s <| bx_batches := dict_set (br_id r) r (bx_batches s) |>) ;;
      mret (Item (_batch_item r))))).
End api.
