(* ===== verification/BatchProps.v ===== *)
(** Batches and datasets: the counters of a batch tally with its items, cancelling leaves
    no item waiting, and captured runs show no redacted field. *)

From stdpp Require Import gmap relations.
From S2P Require Import Prelude Values Json StateMachine Tables Deployments NativeApi ApiKeys Console ConsoleApi DeploymentStore NativeStore ConsoleApiProps DeploymentApiProps Batches.

(** * Summaries *)

(** The statuses the summary counts. *)
Definition known_status (status : string) : Prop :=
  status ∈ ["queued"; "leased"; "running"; "retrying"; "failed"; "dead_letter"; "cancelled"; "succeeded"; "completed"].

Lemma known_task_status (t : TaskStatus) : known_status (task_status_value t).
Proof. destruct t; unfold known_status; simpl; set_solver. Qed.




(** * Rows that tally *)

Definition row_items (r : BatchRun) : list BatchItem := bm_items (br_metadata r).
Definition row_inputs (r : BatchRun) : list value := nb_input_items (bm_batch (br_metadata r)).

(** One item per input; columns, metadata and status as the items say. *)
Record tallied (r : BatchRun) : Prop := mkTallied {
  tl_items : length (row_items r) = length (row_inputs r);
  tl_known : Forall (λ i, known_status (bi_status i)) (row_items r);
  tl_counts : br_counts r = counts_of (summarize_batch_items (row_items r));
  tl_summary : bm_progress_summary (br_metadata r) = summarize_batch_items (row_items r);
  tl_status : br_status r = overall_batch_status (summarize_batch_items (row_items r))
}.

Lemma update_counts s : update_summary (counts_of s) s = s.
Proof. by destruct s. Qed.

Lemma tallied_refreshed now items changed r :
  tallied r → length items = length (row_items r) → Forall (λ i, known_status (bi_status i)) items →
  (changed = false → items = row_items r) → tallied (refreshed now items changed r).
Proof.
  intros [H1 H2 H3 H4 H5] Hl Hk Hc. unfold refreshed. cbv zeta.
  destruct (changed || _ || _) eqn:E.
  - assert (∀ m, bm_items m = items → bm_progress_summary m = summarize_batch_items items →
      nb_input_items (bm_batch m) = row_inputs r → tallied (_persist_batch_metadata m
        ((recompute (summarize_batch_items items) now (_apply_batch_metadata r))
          <| br_status := overall_batch_status (summarize_batch_items items) |>))) as H.
    { intros m Hi Hs Hb. split; unfold row_items, row_inputs in *; simpl; rewrite ?Hi, ?Hs; [congruence|done|done| |done].
      apply update_counts. }
    destruct (_ && _); by apply H.
  - apply orb_false_iff in E as [[Hch%Hc _]%orb_false_iff _]. subst items.
    split; unfold row_items, row_inputs in *; simpl in *; [congruence|done..].
Qed.

Lemma tallied_cancelled now reason items r :
  tallied r → length items = length (row_items r) → Forall (λ i, known_status (bi_status i)) items →
  tallied (cancelled_record now reason items r).
Proof.
  intros [H1 H2 H3 H4 H5] Hl Hk. split; unfold row_items, row_inputs in *; simpl in *; [congruence|done|done| |done].
  apply update_counts.
Qed.

Lemma normalize_items_length {S} (s : S) items policy : ∀ index accepted failed,
  (normalize_items index items policy s).1 = Ret (accepted, failed) →
  length items = (length failed + length accepted)%nat ∧ Forall (λ i, bi_status i = "failed") failed.
Proof.
  induction items as [|v items IH]; intros index accepted failed.
  { intros [= <- <-]. by split. }
  assert (∀ v, (∀ d, v ≠ VDict d) → (normalize_items index (v :: items) policy s).1 = Ret (accepted, failed) →
    length (v :: items) = (length failed + length accepted)%nat ∧ Forall (λ i, bi_status i = "failed") failed) as H.
  { intros x Hx. assert (normalize_items index (x :: items) policy s =
      (check (negb (bool_decide (policy = "abort"))) (ValueError "batch_item_invalid") ;;
       '(accepted, failed) ← normalize_items (Datatypes.S index) items policy;
       mret (accepted, failed_item index x :: failed)) s) as -> by (destruct x; try done; by destruct (Hx d)).
    unfold check, mbind, M_bind. destruct (negb _); [|done]. simpl.
    specialize (IH (Datatypes.S index)). destruct (normalize_items _ items policy s) as [[[a f]|e] s'] eqn:E; [|done].
    simpl. intros [= <- <-]. destruct (IH a f eq_refl) as [-> Hf]. simpl. split; [lia|by constructor]. }
  destruct v; try (by apply H). simpl. unfold mbind, M_bind. specialize (IH (Datatypes.S index)).
  destruct (normalize_items _ items policy s) as [[[a f]|e] s'] eqn:E; [|done].
  simpl. intros [= <- <-]. destruct (IH a f eq_refl) as [-> Hf]. simpl. split; [lia|done].
Qed.

(** * The handlers keep the rows in step *)

Section handlers.
Context {C R K N : Type} `{!SessionCache C, !ServiceAccounts R, !DeploymentService K, !NativeRuntime N, !NativeStore N}.
Context (sha256 : string → string) (env : ApiConfig) (py_str : value → string) (py_repr : string → string) (url : string).
Abbreviation Srv := (BatchServer C R K N).

Definition all_tallied (s : Srv) : Prop := ∀ id r, (id, r) ∈ bx_batches s → tallied r.

(** [m] keeps the rows in step, and what it returns satisfies [Q]. *)
Definition keeps {A} (m : M Srv A) (Q : A → Prop) : Prop := ∀ s,
  all_tallied s → all_tallied (m s).2 ∧ ∀ a, (m s).1 = Ret a → Q a.

Lemma keeps_bind {A B} (m : M Srv A) (k : A → M Srv B) Q Q' :
  keeps m Q → (∀ a, Q a → keeps (k a) Q') → keeps (a ← m; k a) Q'.
Proof.
  intros Hm Hk s Hs. destruct (Hm s Hs) as [Hs' Hq]. unfold mbind, M_bind.
  destruct (m s) as [[a|e] s'] eqn:E; [|done]. by apply Hk; [apply Hq|].
Qed.
Lemma keeps_ret {A} (a : A) (Q : A → Prop) : Q a → keeps (mret a) Q.
Proof. intros Hq s Hs. split; [done|]. by intros ? [= <-]. Qed.
Lemma keeps_raise {A} e (Q : A → Prop) : keeps (raise e) Q.
Proof. by intros s Hs. Qed.
Lemma keeps_get : keeps get_state (λ s, all_tallied s).
Proof. intros s Hs. split; [done|]. by intros ? [= <-]. Qed.
Lemma keeps_true {A} (m : M Srv A) Q : keeps m Q → keeps m (λ _, True).
Proof. intros H s Hs. by destruct (H s Hs). Qed.

(** Whatever does not touch the table. *)
Lemma keeps_elsewhere {A} (m : M Srv A) : (∀ s, bx_batches (m s).2 = bx_batches s) → keeps m (λ _, True).
Proof. intros H s Hs. split; [|done]. intros id r. rewrite H. apply Hs. Qed.
Lemma keeps_native {A} (m : M N A) : keeps (bx_in_native m) (λ _, True).
Proof. apply keeps_elsewhere. intros s. unfold bx_in_native, zoom. by destruct (m _). Qed.

Lemma keeps_catch {A} (m : M Srv A) Q : keeps m Q → keeps (catch m) (λ o, match o with Ret a => Q a | Raise _ => True end).
Proof.
  intros H s Hs. destruct (H s Hs) as [Hs' Hq]. unfold catch. destruct (m s) as [[a|e] s']; (split; [done|]);
    intros o [= <-]; [by apply Hq|done].
Qed.

Lemma keeps_console {A} h method path (m : M Srv (reply A)) Q : keeps m Q → keeps (console sha256 env h method path m) (λ _, True).
Proof.
  intros Hm. unfold console. eapply keeps_bind.
  { apply keeps_elsewhere. intros s. unfold bx_in_api, zoom. by destruct (enforce_console_actor _ _ _ _ _ _). }
  intros [a|c e] _; [|by apply keeps_ret]. intros s Hs. destruct (Hm s Hs) as [Hs' _]. unfold rolled_back.
  destruct (m s) as [[x|e] s']; (split; [|done]); exact Hs'.
Qed.

Lemma keeps_scope {A} h (f : Z → Z → M Srv (reply A)) : (∀ t p, keeps (f t p) (λ _, True)) → keeps (_require_scope h f) (λ _, True).
Proof. intros H. unfold _require_scope. destruct (hd_tenant_id h), (hd_project_id h); auto; by apply keeps_ret. Qed.

Lemma keeps_scoped {A} id t p (f : BatchRun → M Srv (reply A)) :
  (∀ r, tallied r → keeps (f r) (λ _, True)) → keeps (scoped_batch id t p f) (λ _, True).
Proof.
  intros H. unfold scoped_batch. eapply keeps_bind; [apply keeps_get|]. intros s Hs.
  destruct (dict_get id (bx_batches s)) as [r|] eqn:Hr; [|by apply keeps_ret].
  destruct (in_scope t p r); [|by apply keeps_ret]. apply H, (Hs id). by apply dict_get_elem.
Qed.

Lemma keeps_write r : tallied r → keeps (modify (λ s : Srv, s <| bx_batches := dict_set (br_id r) r (bx_batches s) |>)) (λ _, True).
Proof.
  intros Hr s Hs. split; [|done]. intros id x. simpl. intros [[-> ->]|H]%dict_elem_set; [done|]. by apply (Hs id).
Qed.

(** ** Creating *)

Lemma keeps_create_items t p a v d b inputs : ∀ index, keeps (create_items t p a v d b index inputs)
  (λ items, length items = length inputs ∧ Forall (λ i, bi_status i = "queued") items).
Proof.
  induction inputs as [|input inputs IH]; intros index; simpl; [by apply keeps_ret|].
  eapply keeps_bind; [apply keeps_native|]. intros [[run task] replayed] _.
  eapply keeps_bind; [apply IH|]. intros items [Hl Hq]. apply keeps_ret. simpl. split; [by rewrite Hl|by constructor].
Qed.

Lemma keeps_normalized payload : keeps (normalized py_str py_repr url payload)
  (λ x, match x with
        | Item (b, accepted, failed) => length (nb_input_items b) = (length failed + length accepted)%nat ∧
            Forall (λ i, bi_status i = "failed") failed
        | Refused _ _ => True
        end).
Proof.
  unfold normalized. eapply keeps_bind.
  - apply (keeps_catch _ (λ x : Batch * list pydict * list BatchItem, length (nb_input_items x.1.1) =
      (length x.2 + length x.1.2)%nat ∧ Forall (λ i, bi_status i = "failed") x.2)).
    eapply keeps_bind.
    { apply keeps_elsewhere. intros s. unfold bx_in_datasets, zoom. by destruct (normalize_batch_payload _ _ _ _ _). }
    intros b _. intros s Hs. unfold normalize_batch_items, mbind, M_bind.
    pose proof (normalize_items_length s (nb_input_items b) (nb_partial_failure_policy b) 0) as H.
    assert (∀ l i, (normalize_items i l (nb_partial_failure_policy b) s).2 = s) as Hst.
    { clear. induction l as [|v l IH]; intros i; [done|]. simpl.
      destruct v; unfold check, mbind, M_bind; try (destruct (negb _); [simpl|done]);
        (specialize (IH (S i)); destruct (normalize_items _ l _ s) as [[[? ?]|?] ?]; simpl in *; by subst). }
    specialize (Hst (nb_input_items b) 0%nat).
    destruct (normalize_items 0 _ _ s) as [[[a f]|e] s']; simpl in *; subst s'; (split; [done|]); [|done].
    intros x [= <-]. simpl. by apply H.
  - intros [[[b accepted] failed]|[]] H; try apply keeps_raise; by apply keeps_ret.
Qed.

Lemma keeps_insert r : tallied (_apply_batch_metadata r) → keeps (insert_batch r : M Srv BatchRun) (λ _, True).
Proof.
  intros Hr s Hs. split; [|done]. intros id x. unfold insert_batch. m_unfold. simpl. intros [[-> ->]|H]%dict_elem_set.
  - destruct Hr. by split.
  - by apply (Hs id).
Qed.

Lemma keeps_create h now payload : keeps (create_batch_run sha256 env py_str py_repr url h now payload) (λ _, True).
Proof.
  apply (keeps_console _ _ _ _ (λ _, True)). eapply keeps_bind; [apply keeps_normalized|].
  intros [[[b accepted] failed]|c e] Hn; [|by apply keeps_ret]. destruct Hn as [Hlen Hf].
  apply keeps_scope. intros t p. eapply keeps_bind.
  { apply (keeps_catch _ (λ _, True)). apply keeps_elsewhere. intros s. unfold bx_in_service, zoom. by destruct (sv_get _ _). }
  intros [d|e] _; [|by apply keeps_ret]. destruct (negb _); [by apply keeps_ret|].
  eapply keeps_bind; [apply keeps_get|]. intros s _.
  destruct (nr_agent _ _ _ _); [|by apply keeps_ret]. destruct (nr_version _ _ _); [|by apply keeps_ret].
  eapply keeps_bind; [apply keeps_create_items|]. intros items [Hl Hq].
  eapply keeps_bind; [apply keeps_insert|intros r _; by apply keeps_ret].
  split; unfold row_items, row_inputs; simpl; [|..]; try done.
  - by rewrite (Permutation_length (stable_sort_perm _ _)), length_app, Hlen, Hl.
  - rewrite stable_sort_perm. apply Forall_app. split; (eapply Forall_impl; [done|]); intros i ->; unfold known_status; set_solver.
Qed.

(** ** Reading *)

Lemma keeps_refresh_item t p i : known_status (bi_status i) → keeps (refresh_item t p i : M Srv _)
  (λ x, known_status (bi_status x.1) ∧ (x.2 = false → x.1 = i)).
Proof.
  intros Hi. unfold refresh_item. destruct (bi_task_id i) as [id|]; [|by apply keeps_ret].
  eapply keeps_bind; [apply keeps_native|]. intros [task|] _; [|by apply keeps_ret].
  pose proof (known_task_status (nt_status task)). case_bool_decide as E;
    (destruct (nt_dead_letter_reason task); [destruct (_ && _)|]); by apply keeps_ret.
Qed.

Lemma keeps_refresh_items t p items : Forall (λ i, known_status (bi_status i)) items → keeps (refresh_items t p items : M Srv _)
  (λ x, Forall (λ i, known_status (bi_status i)) x.1 ∧ length x.1 = length items ∧ (x.2 = false → x.1 = items)).
Proof.
  induction 1 as [|i items Hi _ IH]; simpl; [by apply keeps_ret|].
  eapply keeps_bind; [by apply keeps_refresh_item|]. intros [i' c] [Hk Hc].
  eapply keeps_bind; [exact IH|]. intros [items' c'] (Hk'&Hl&Hc'). apply keeps_ret. simpl in *.
  split; [by constructor|]. split; [by rewrite Hl|]. intros [? ?]%orb_false_iff. f_equal; auto.
Qed.

Lemma keeps_refresh t p now r : tallied r → keeps (_refresh_batch_record t p now r : M Srv _) (λ _, True).
Proof.
  intros Hr. unfold _refresh_batch_record. eapply keeps_bind; [apply keeps_refresh_items, Hr|].
  intros [items c] (Hk&Hl&Hc). cbv zeta. eapply keeps_bind; [apply keeps_write|intros _ _; by apply keeps_ret].
  by apply tallied_refreshed.
Qed.

Lemma keeps_refresh_all t p now rs : Forall tallied rs → keeps (refresh_all t p now rs : M Srv _) (λ _, True).
Proof.
  induction 1 as [|r rs Hr _ IH]; simpl; [by apply keeps_ret|].
  eapply keeps_bind; [by apply keeps_refresh|]. intros r' _. eapply keeps_bind; [exact IH|]. intros rs' _. by apply keeps_ret.
Qed.

Lemma keeps_list h now : keeps (list_batch_runs sha256 env h now : M Srv _) (λ _, True).
Proof.
  apply (keeps_console _ _ _ _ (λ _, True)), keeps_scope. intros t p. eapply keeps_bind; [apply keeps_get|]. intros s Hs.
  eapply keeps_bind; [apply keeps_refresh_all|intros rs _; by apply keeps_ret].
  rewrite stable_sort_perm. apply Forall_forall. intros r [Hin _]%list_elem_of_In%List.filter_In.
  apply list_elem_of_In, list_elem_of_fmap in Hin as ([id x]&->&Hin). by apply (Hs id).
Qed.

Lemma keeps_get_batch h now id : keeps (get_batch_run sha256 env h now id : M Srv _) (λ _, True).
Proof.
  apply (keeps_console _ _ _ _ (λ _, True)), keeps_scope. intros t p. apply keeps_scoped. intros r Hr.
  eapply keeps_bind; [by apply keeps_refresh|]. intros r' _. by apply keeps_ret.
Qed.

(** ** Cancelling *)

(** What cancelling makes of an item, when the tasks were [tasks]. *)
Definition cancel_outcome (tasks : dict Z NativeTask) (i i' : BatchItem) : Prop :=
  i' = i <| bi_status := bi_status i' |> ∧ bi_status i' ≠ "queued" ∧
  (bi_status i' = bi_status i ∨ bi_status i' = "cancelled") ∧
  (∀ id t, bi_task_id i = Some id → dict_get id tasks = Some t → cancellable t = true → bi_status i' = "cancelled").

Lemma keeps_cancel_item tasks i : keeps (cancel_item tasks i : M Srv _) (cancel_outcome tasks i).
Proof.
  unfold cancel_item, cancel_outcome. destruct (id ← bi_task_id i; _) as [t|] eqn:E.
  - eapply keeps_bind; [apply keeps_native|]. intros _ _. apply keeps_ret. simpl. split_and!; auto.
  - apply keeps_ret. assert (∀ id t, bi_task_id i = Some id → dict_get id tasks = Some t → cancellable t ≠ true) as Hn.
    { intros id t Hid Ht Hc. rewrite Hid in E. simpl in E. rewrite Ht in E. simpl in E. by rewrite Hc in E. }
    case_bool_decide; (split_and!; [by destruct i|auto..|]); [..|intros id t H1 H2 H3; by destruct (Hn id t)].
    intros id t H1 H2 H3. by destruct (Hn id t).
Qed.

Lemma keeps_cancel_items tasks items : keeps (cancel_items tasks items : M Srv _) (Forall2 (cancel_outcome tasks) items).
Proof.
  induction items as [|i items IH]; simpl; [by apply keeps_ret|].
  eapply keeps_bind; [apply keeps_cancel_item|]. intros i' Hi. eapply keeps_bind; [exact IH|]. intros items' H.
  apply keeps_ret. by constructor.
Qed.

Lemma cancel_known tasks items items' : Forall2 (cancel_outcome tasks) items items' →
  Forall (λ i, known_status (bi_status i)) items → Forall (λ i, known_status (bi_status i)) items'.
Proof.
  induction 1 as [|i i' items items' (_&_&[Hs|Hs]&_) _ IH]; inversion 1; subst; constructor; auto; rewrite Hs;
    [done|unfold known_status; set_solver].
Qed.

Lemma keeps_cancel_batch h now id payload : keeps (cancel_batch_run sha256 env py_str h now id payload : M Srv _) (λ _, True).
Proof.
  apply (keeps_console _ _ _ _ (λ _, True)). cbv zeta. destruct (String.eqb _ ""); [by apply keeps_ret|].
  apply keeps_scope. intros t p. apply keeps_scoped. intros r Hr. eapply keeps_bind; [apply keeps_native|]. intros tasks _.
  eapply keeps_bind; [apply keeps_cancel_items|]. intros items Hi. cbv zeta.
  eapply keeps_bind; [apply keeps_write|intros _ _; by apply keeps_ret].
  apply tallied_cancelled; [done|symmetry; by eapply Forall2_length|]. eapply cancel_known; [exact Hi|apply Hr].
Qed.

Lemma keeps_capture h rid now data : keeps (capture_run_to_dataset sha256 env py_str py_repr url h rid now data : M Srv _) (λ _, True).
Proof.
  apply (keeps_console _ _ _ _ (λ _, True)). cbv zeta. eapply keeps_bind.
  { apply keeps_elsewhere. intros s. unfold int_or. destruct (truthy _); [|done].
    destruct (item_of _ _); try done. simpl. unfold of_option. by destruct (py_int _). }
  intros source _. destruct (hd_tenant_id h), (hd_project_id h); try by apply keeps_ret. destruct (_ || _); [by apply keeps_ret|].
  eapply keeps_bind; [apply keeps_native|]. intros [run|] _; [|by apply keeps_ret].
  eapply keeps_bind; [|intros x _; by apply keeps_ret]. apply keeps_elsewhere. intros s. unfold bx_in_datasets, zoom.
  by destruct (capture _ _ _ _ _ _ _ _ _ _).
Qed.

(** ** Any requests *)

Inductive batch_request : Type :=
  | QCapture (rid : option string) (data : pydict)
  | QCreate (payload : pydict)
  | QList
  | QGet (id : Z)
  | QCancel (id : Z) (payload : pydict).

Definition effect {A} (m : M Srv A) (s : Srv) : Srv := (m s).2.
Definition served (q : Headers * Z * batch_request) : Srv → Srv :=
  let '(h, now, q) := q in
  match q with
  | QCapture rid data => effect (capture_run_to_dataset sha256 env py_str py_repr url h rid now data)
  | QCreate payload => effect (create_batch_run sha256 env py_str py_repr url h now payload)
  | QList => effect (list_batch_runs sha256 env h now)
  | QGet id => effect (get_batch_run sha256 env h now id)
  | QCancel id payload => effect (cancel_batch_run sha256 env py_str h now id payload)
  end.
Definition after (qs : list (Headers * Z * batch_request)) (s : Srv) : Srv := foldl (λ s q, served q s) s qs.

Lemma served_tallied q s : all_tallied s → all_tallied (served q s).
Proof.
  destruct q as [[h now] []]; intros Hs; simpl.
  - by apply keeps_capture.
  - by apply keeps_create.
  - by apply keeps_list.
  - by apply keeps_get_batch.
  - by apply keeps_cancel_batch.
Qed.

Lemma after_tallied qs s : all_tallied s → all_tallied (after qs s).
Proof. revert s. induction qs as [|q qs IH]; intros s Hs; [done|]. simpl. by apply IH, served_tallied. Qed.


(** Cancelling a batch leaves no item waiting: an item whose task is queued, leased or
    running is cancelled whatever the cancel policy of the batch, an item that waits without
    such a task too, and the others keep their status. *)
Theorem cancel_settles h now id payload (s : Srv) r s' : all_tallied s →
  cancel_batch_run sha256 env py_str h now id payload s = (Ret (Item r), s') →
  ∃ old tenant project tasks n, dict_get id (bx_batches s) = Some old ∧ in_scope tenant project old = true ∧
    hd_tenant_id h = Some tenant ∧ hd_project_id h = Some project ∧
    nr_tasks tenant project (bx_native s) = (Ret tasks, n) ∧
    Forall2 (cancel_outcome (task_map tasks)) (row_items old) (row_items r).
Proof.
  intros Hs. unfold cancel_batch_run, console. unfold mbind at 1, M_bind at 1. unfold bx_in_api, zoom.
  destruct (enforce_console_actor _ _ _ _ _ _) as [[[actor|c e]|e] a]; [|done..]. unfold rolled_back.
  set (s1 := _ <| bx_api := a |>). assert (all_tallied s1) as Hs1 by done. cbv zeta.
  destruct (String.eqb _ ""); [done|]. unfold _require_scope. destruct (hd_tenant_id h) as [t|]; [|done].
  destruct (hd_project_id h) as [p|]; [|done]. unfold scoped_batch, get_state. unfold mbind at 1, M_bind at 1.
  change (bx_batches s1) with (bx_batches s). destruct (dict_get id (bx_batches s)) as [old|] eqn:Hold; [|done].
  destruct (in_scope t p old) eqn:Hsc; [|done]. unfold mbind at 1, M_bind at 1. unfold bx_in_native at 1, zoom.
  change (bx_native s1) with (bx_native s). destruct (nr_tasks t p (bx_native s)) as [[tasks|e] n] eqn:Ht; [|done].
  set (s2 := _ <| bx_native := n |>). assert (all_tallied s2) as Hs2 by done.
  destruct (keeps_cancel_items (task_map tasks) (bm_items (br_metadata old)) s2 Hs2) as [_ Hq].
  unfold mbind at 1, M_bind at 1. destruct (cancel_items _ _ s2) as [[items|e] s3]; [|done].
  intros [= <- _]. exists old, t, p, tasks, n. split_and!; [done..|]. by apply Hq.
Qed.
End handlers.

(** * Captured runs *)

(** Every field of that name, at any depth, is redacted. *)
Fixpoint hides (fields : gset string) (v : value) : Prop :=
  match v with
  | VDict d => (fix go (d : list (string * value)) : Prop := match d with
      | [] => True
      | (k, x) :: d => (k ∈ fields → x = redacted_text) ∧ hides fields x ∧ go d
      end) d
  | VList l => (fix go (l : list value) : Prop := match l with
      | [] => True
      | x :: l => hides fields x ∧ go l
      end) l
  | _ => True
  end.

Lemma redact_hides fields v : hides fields (_redact v fields).
Proof.
  induction v as [| | | | |l IH|d IH] using value_deep_ind; try done; simpl.
  - induction IH; [done|]. by split.
  - induction IH as [|[k x] d Hx _ IHd]; [done|]. simpl in *. case_bool_decide; (split_and!; [|done..]); done.
Qed.

(** Redacting what hides the fields changes nothing. *)
Lemma redact_hidden fields v : hides fields v → _redact v fields = v.
Proof.
  induction v as [| | | | |l IH|d IH] using value_deep_ind; try done; simpl; intros H; f_equal.
  - induction IH as [|x l Hx _ IHl]; [done|]. destruct H as [? ?]. f_equal; auto.
  - induction IH as [|[k x] d Hx _ IHd]; [done|]. destruct H as (Hk&Hh&Hd). simpl in *. rewrite (IHd Hd).
    case_bool_decide; [by rewrite Hk|]. by rewrite Hx.
Qed.

Definition item_hides (i : CapturedItem) : Prop :=
  hides (ci_redaction_fields i) (ci_input i) ∧ hides (ci_redaction_fields i) (ci_output i) ∧ hides (ci_redaction_fields i) (ci_error i).

(** Items are found by their run and in their dataset, and hide their fields. *)
Record captured (s : Datasets) : Prop := mkCapturedInv {
  cp_by_run : ∀ key i, dict_get key (ds_by_run s) = Some i → item_hides i;
  cp_by_dataset : ∀ id i, i ∈ items_of id s → item_hides i ∧ ci_dataset_id i = id
}.

Lemma sync_captured url s : captured s → captured (_sync_state url s).2.
Proof.
  intros Hs. unfold _sync_state, modify. simpl. case_bool_decide; [done|]. split; [done|]. intros id i Hi. by apply elem_of_nil in Hi.
Qed.

Lemma dataset_for_captured url t p name now s : captured s → captured (_dataset_for url t p name now s).2.
Proof.
  intros [H1 H2]. unfold _dataset_for, _next_dataset_id. m_unfold. destruct (dict_get (url, t, p, name) (ds_datasets s)); by split.
Qed.

(** A captured run shows none of the fields that were to be redacted, at any depth of
    its input, output and error, and no capture changes that of the items there are. *)
Theorem captures_redacted url now rid environment t p name data run s :
  captured s → captured (capture url now rid environment t p name data run s).2.
Proof.
  intros Hs. apply (sync_captured url) in Hs. unfold capture. unfold mbind at 1, M_bind at 1.
  destruct (_sync_state url s) as [[[]|e] s1]; [|done]. simpl in Hs.
  apply (dataset_for_captured url t p name now) in Hs. unfold mbind at 1, M_bind at 1.
  destruct (_dataset_for _ _ _ _ _ _) as [[d|e] s2]; [|done]. simpl in Hs. unfold mbind at 1, M_bind at 1, get_state.
  destruct (dict_get (url, t, p, cd_id d, nr_id run) (ds_by_run s2)) as [i|] eqn:Hi; [done|]. unfold mbind at 1, M_bind at 1.
  assert ((redact_fields data s2).2 = s2) as Hr.
  { unfold redact_fields, mbind, M_bind. by destruct (default _ _). }
  destruct (redact_fields data s2) as [[fields|e] s3]; simpl in Hr; subst s3; [|done].
  unfold _next_dataset_item_id. m_unfold. destruct Hs as [H1 H2]. set (item := mkCaptured _ _ _ _ _ _ _ _ _ _ _ _ _ _ _).
  assert (item_hides item) as Hnew by (split_and!; apply redact_hides).
  assert (ci_dataset_id item = cd_id d) as Hid by done. clearbody item. split; simpl.
  - intros key i. rewrite dict_get_set. case_decide; [|apply H1]. by intros [= <-].
  - intros id i. unfold items_of. simpl. rewrite dict_get_set. case_decide as Hd; [|apply H2]. simpl. subst id.
    intros [H| ->%list_elem_of_singleton]%elem_of_app; [by apply H2|done].
Qed.

(** * Examples *)

(** A batch whose items are all settled counts as queued. *)
Example settled_batch_queued : let item status := mkBatchItem 0 status VNone None None None None in
  let s := summarize_batch_items [item "succeeded"; item "cancelled"] in
  sm_terminal s = sm_total s ∧ overall_batch_status s = "queued".
Proof. done. Qed.

(** A batch of two inputs, the first of which is no object: both items have the index 0. *)
#[local] Instance batch_runtime : NativeRuntime NativeRuntimeStore := native_runtime_store demo_hash.
#[local] Instance batch_store : NativeStore NativeRuntimeStore := in_process_native demo_hash.
Definition batch_server : BatchServer MemorySessionCache ServiceAccountRegistry ControlService NativeRuntimeStore :=
  mkBatchServer demo_api demo_control demo_native reset_quality_datasets [] 1.
Definition batch_headers : Headers := mkHeaders (Some "Bearer dev") None (Some 1) (Some 1) (Some "production").
Definition demo_str (v : value) : string := match v with VStr s => s | _ => "" end.
Definition demo_payload : pydict :=
  [("deployment_id", VInt 1); ("audit_reason", VStr "nightly"); ("input_items", VList [VInt 5; VDict [("q", VStr "hello")]])].
Definition demo_reason : pydict := [("audit_reason", VStr "stop")].
Definition demo_after (qs : list batch_request) :=
  after demo_hash dev_env demo_str demo_hash "sqlite://" ((λ q, (batch_headers, 0, q)) <$> qs) batch_server.

Definition demo_created_row : option BatchRun := Eval vm_compute in dict_get 1 (bx_batches (demo_after [QCreate demo_payload])).

Example batch_indices_collide : option_map (λ r, bi_index <$> row_items r) demo_created_row = Some [0%nat; 0%nat].
Proof. vm_compute. reflexivity. Qed.


(** The batch, cancelled: the item that waited is cancelled, the failed one stays. *)
Definition demo_cancelled := cancel_batch_run demo_hash dev_env demo_str batch_headers 7 1 demo_reason (demo_after [QCreate demo_payload]).
Definition demo_cancelled_row : BatchRun := Eval vm_compute in
  match demo_cancelled.1 with Ret (Item r) => r | _ => batch_row 0 0 None (mkBatch "" 0 None [] 0 [] "" "" None "")
    (demo_deployment 0 0 0 "") [] 0 end.

Lemma demo_cancelled_run :
  cancel_batch_run demo_hash dev_env demo_str batch_headers 7 1 demo_reason (demo_after [QCreate demo_payload])
  = (Ret (Item demo_cancelled_row), demo_cancelled.2).
Proof. unfold demo_cancelled. apply run_eq. vm_compute. reflexivity. Qed.

Lemma cancel_settles_witness : ∃ old, dict_get 1 (bx_batches (demo_after [QCreate demo_payload])) = Some old ∧
  length (row_items old) = length (row_items demo_cancelled_row) ∧
  (bi_status <$> row_items demo_cancelled_row) = ["failed"; "cancelled"].
Proof.
  destruct (cancel_settles demo_hash dev_env demo_str batch_headers 7 1 demo_reason (demo_after [QCreate demo_payload])
    demo_cancelled_row demo_cancelled.2) as (old&t&p&tasks&n&Hold&_&_&_&_&Hf).
  - apply after_tallied. intros i x Hx. by apply elem_of_nil in Hx.
  - exact demo_cancelled_run.
  - exists old. split; [exact Hold|]. split; [exact (Forall2_length _ _ _ Hf)|]. reflexivity.
Defined.

Definition demo_run : NativeRun :=
  mkNativeRun 1 1 1 1 1 None RS_succeeded [("user", VDict [("email", VStr "a@b"); ("age", VInt 30)])] None None None None 0 None None.

Lemma captures_redacted_witness : ∃ i,
  items_of 21 (capture "sqlite://" 0 None None 1 1 "eval" [("redact_fields", VList [VStr "email"])] demo_run
    reset_quality_datasets).2 = [i] ∧ item_hides i ∧
  ci_input i = VDict [("user", VDict [("email", redacted_text); ("age", VInt 30)])].
Proof.
  assert (captured reset_quality_datasets) as H0 by (split; [done|intros id i Hi; by apply elem_of_nil in Hi]).
  destruct (captures_redacted "sqlite://" 0 None None 1 1 "eval" [("redact_fields", VList [VStr "email"])] demo_run
    reset_quality_datasets H0) as [_ H2].
  destruct (items_of 21 (capture "sqlite://" 0 None None 1 1 "eval" [("redact_fields", VList [VStr "email"])] demo_run
    reset_quality_datasets).2) as [|i [|]] eqn:E; [by vm_compute in E| |by vm_compute in E].
  exists i. split; [reflexivity|]. split; [apply (H2 21); rewrite E; by apply list_elem_of_singleton|].
  vm_compute in E. injection E as <-. reflexivity.
Defined.

(** A run that is captured again with more fields to redact is not redacted. *)
Example recapture_keeps_fields :
  let s := (capture "sqlite://" 0 None None 1 1 "eval" [] demo_run reset_quality_datasets).2 in
  ∃ i, (capture "sqlite://" 0 None None 1 1 "eval" [("redact_fields", VList [VStr "email"])] demo_run s).1 = Ret (i, true) ∧
    ci_input i = VDict (nr_input demo_run).
Proof. eexists. split; vm_compute; reflexivity. Qed.
