(* ===== verification/Hitl.v ===== *)
(** Human approval tasks: the in-process service and the database-backed
    service of [hitl/service.py], and that the second implements the first. *)

From S2P Require Import Prelude Values Policy.

Record HumanTaskRecord := mkHumanTask {
  ht_id : Z;
  ht_tenant_id : Z;
  ht_project_id : option Z;
  ht_run_id : option Z;
  ht_attempt_id : option Z;
  ht_task_id : option Z;
  ht_type : string;
  ht_status : string;
  ht_payload : pydict;
  ht_requested_by : option string;
  ht_assignee_user_id : option string;
  ht_assignee_role : option string;
  ht_expires_at : option Z;
  ht_created_at : Z;
  ht_updated_at : option Z
}.
#[export] Instance HumanTaskRecord_eta : Eta HumanTaskRecord := λ t,
  mkHumanTask (ht_id t) (ht_tenant_id t) (ht_project_id t) (ht_run_id t) (ht_attempt_id t)
    (ht_task_id t) (ht_type t) (ht_status t) (ht_payload t) (ht_requested_by t)
    (ht_assignee_user_id t) (ht_assignee_role t) (ht_expires_at t) (ht_created_at t)
    (ht_updated_at t).

(** The arguments of [create_approval]. *)
Record ApprovalArgs := mkApprovalArgs {
  aa_tenant_id : Z;
  aa_project_id : option Z;
  aa_run_id : option Z;
  aa_attempt_id : option Z;
  aa_task_id : option Z;
  aa_payload : pydict;
  aa_requested_by : option string;
  aa_assignee_role : option string;
  aa_expires_at : option Z
}.

(** The audit records both services write. *)
Definition create_audit (a : ApprovalArgs) (id : Z) : AuditRecord :=
  mkAuditRecord (aa_tenant_id a) (aa_project_id a) (aa_requested_by a)
    (if str_truthy (aa_requested_by a) then "user" else "system") "human_task" (Some id) "create"
    "allow" None [] [("type", VStr "approval"); ("status", VStr "pending")].
Definition decide_audit (tenant : Z) (project : option Z) (actor : string) (id : Z) (approved : bool)
  : AuditRecord :=
  mkAuditRecord tenant project (Some actor) "user" "human_task" (Some id) "decide"
    (if approved then "approved" else "rejected") None [] [("approved", VBool approved)].

(** * [HumanTaskService] *)

Record HumanTaskService := mkHitl {
  hs_audit : AuditSink;
  hs_tasks : dict Z HumanTaskRecord;
  hs_next_id : Z
}.
#[export] Instance HumanTaskService_eta : Eta HumanTaskService := λ h,
  mkHitl (hs_audit h) (hs_tasks h) (hs_next_id h).

Definition hs_write (r : AuditRecord) : M HumanTaskService unit :=
  zoom hs_audit (λ l h, h <| hs_audit := l |>) (write r).

Definition create_approval (now : Z) (a : ApprovalArgs) : M HumanTaskService HumanTaskRecord :=
  h ← get_state;
  let task := mkHumanTask (hs_next_id h) (aa_tenant_id a) (aa_project_id a) (aa_run_id a)
    (aa_attempt_id a) (aa_task_id a) "approval" "pending" (aa_payload a) (aa_requested_by a) None
    (aa_assignee_role a) (aa_expires_at a) now None in
  modify (λ h, h <| hs_next_id := hs_next_id h + 1 |>) ;;
  modify (λ h, h <| hs_tasks := dict_set (ht_id task) task (hs_tasks h) |>) ;;
  hs_write (create_audit a (ht_id task)) ;;
  mret task.

Definition decide_body (now : Z) (actor : string) (approved : bool) (payload : option pydict)
  : M HumanTaskRecord HumanTaskRecord :=
  t ← get_state;
  check (negb (bool_decide (ht_requested_by t = Some actor))) (PermissionError "approval_self_review_denied") ;;
  check (bool_decide (ht_status t = "pending")) (PermissionError "human_task_not_pending") ;;
  modify (λ t, t <| ht_status := if approved then "approved" else "rejected" |>) ;;
  modify (λ t, t <| ht_payload := dict_set "decision" (VDict (default [] payload)) (ht_payload t) |>) ;;
  modify (λ t, t <| ht_updated_at := Some now |>) ;;
  get_state.

Definition decide_task (now id : Z) (actor : string) (approved : bool) (payload : option pydict)
  : M HumanTaskService HumanTaskRecord :=
  t ← zoom hs_tasks (λ d h, h <| hs_tasks := d |>)
    (on_key id (KeyError (pretty id)) (decide_body now actor approved payload));
  hs_write (decide_audit (ht_tenant_id t) (ht_project_id t) actor (ht_id t) approved) ;;
  mret t.

(** * [SQLAlchemyHumanTaskService] *)

(** Rows of the tables [human_tasks] and [approval_requests], by primary key. *)
Record HumanTaskRow := mkHumanTaskRow {
  hr_tenant_id : Z;
  hr_project_id : option Z;
  hr_run_id : option Z;
  hr_attempt_id : option Z;
  hr_task_id : option Z;
  hr_type : string;
  hr_status : string;
  hr_assignee_user_id : option Z;
  hr_assignee_role : option string;
  hr_payload_ref : option string;
  hr_decision_ref : option string;
  hr_expires_at : option Z;
  hr_created_at : option Z;
  hr_updated_at : option Z
}.
#[export] Instance HumanTaskRow_eta : Eta HumanTaskRow := λ r,
  mkHumanTaskRow (hr_tenant_id r) (hr_project_id r) (hr_run_id r) (hr_attempt_id r) (hr_task_id r)
    (hr_type r) (hr_status r) (hr_assignee_user_id r) (hr_assignee_role r) (hr_payload_ref r)
    (hr_decision_ref r) (hr_expires_at r) (hr_created_at r) (hr_updated_at r).

Record ApprovalRow := mkApprovalRow {
  ap_tenant_id : Z;
  ap_project_id : option Z;
  ap_human_task_id : Z;
  ap_requested_by : option string;
  ap_status : string;
  ap_decision_ref : option string;
  ap_metadata : pydict
}.
#[export] Instance ApprovalRow_eta : Eta ApprovalRow := λ r,
  mkApprovalRow (ap_tenant_id r) (ap_project_id r) (ap_human_task_id r) (ap_requested_by r)
    (ap_status r) (ap_decision_ref r) (ap_metadata r).

Record SqlHitl := mkSqlHitl {
  sh_audit : AuditSink;
  sh_tasks : dict Z HumanTaskRow;
  sh_next_task : Z;
  sh_approvals : dict Z ApprovalRow;
  sh_next_approval : Z
}.
#[export] Instance SqlHitl_eta : Eta SqlHitl := λ s,
  mkSqlHitl (sh_audit s) (sh_tasks s) (sh_next_task s) (sh_approvals s) (sh_next_approval s).

Definition sh_write (r : AuditRecord) : M SqlHitl unit :=
  zoom sh_audit (λ l s, s <| sh_audit := l |>) (write r).

(** [created] and [updated] are the timestamps the database gives the new row. *)
Definition sql_create_approval (now : Z) (created updated : option Z) (a : ApprovalArgs)
  : M SqlHitl HumanTaskRecord :=
  s ← get_state;
  let id := sh_next_task s in
  let row := mkHumanTaskRow (aa_tenant_id a) (aa_project_id a) (aa_run_id a) (aa_attempt_id a)
    (aa_task_id a) "approval" "pending" None (aa_assignee_role a) (Some "inline:payload") None
    (aa_expires_at a) created updated in
  modify (λ s, s <| sh_tasks := dict_set id row (sh_tasks s) |> <| sh_next_task := id + 1 |>) ;;
  let approval := mkApprovalRow (aa_tenant_id a) (aa_project_id a) id (aa_requested_by a) "pending"
    None [("payload", VDict (aa_payload a))] in
  modify (λ s, s <| sh_approvals := dict_set (sh_next_approval s) approval (sh_approvals s) |>
                 <| sh_next_approval := sh_next_approval s + 1 |>) ;;
  sh_write (create_audit a id) ;;
  mret (mkHumanTask id (aa_tenant_id a) (aa_project_id a) (aa_run_id a) (aa_attempt_id a)
    (aa_task_id a) (hr_type row) (hr_status row) (aa_payload a) (aa_requested_by a) None
    (aa_assignee_role a) (aa_expires_at a) (default now (hr_created_at row)) (hr_updated_at row)).

(** [select(ApprovalRequest).where(human_task_id == id).order_by(id.desc())], first row. *)
Definition latest_approval (id : Z) (l : dict Z ApprovalRow) : option (Z * ApprovalRow) :=
  head (stable_sort (λ a b, b.1 <=? a.1) (List.filter (λ p, ap_human_task_id p.2 =? id) l)).

Definition get_dict (k : string) (d : pydict) : pydict :=
  match dict_get k d with Some (VDict p) => p | _ => [] end.

Definition sql_decide (now id : Z) (actor : string) (approved : bool) (payload : option pydict)
  : M SqlHitl HumanTaskRecord :=
  s ← get_state;
  task ← of_option (dict_get id (sh_tasks s)) (KeyError (pretty id));
  let approval := latest_approval id (sh_approvals s) in
  let requested_by := match approval with Some (_, a) => ap_requested_by a | None => None end in
  check (negb (bool_decide (requested_by = Some actor))) (PermissionError "approval_self_review_denied") ;;
  check (bool_decide (hr_status task = "pending")) (PermissionError "human_task_not_pending") ;;
  let status := if approved then "approved" else "rejected" in
  let task := task <| hr_status := status |> <| hr_decision_ref := Some "inline:decision" |>
                   <| hr_updated_at := Some now |> in
  modify (λ s, s <| sh_tasks := dict_set id task (sh_tasks s) |>) ;;
  match approval with
  | Some (k, a) =>
      modify (λ s, s <| sh_approvals := dict_set k
        (a <| ap_status := status |> <| ap_decision_ref := Some "inline:decision" |>
           <| ap_metadata := dict_set "decision" (VDict (default [] payload)) (ap_metadata a) |>)
        (sh_approvals s) |>)
  | None => mret tt
  end ;;
  sh_write (decide_audit (hr_tenant_id task) (hr_project_id task) actor id approved) ;;
  let payload_data := match approval with
    | Some (_, a) =>
        let d := get_dict "payload" (ap_metadata a) in
        match payload with
        | Some (x :: p) => dict_set "decision" (VDict (x :: p)) d
        | _ => d
        end
    | None => []
    end in
  mret (mkHumanTask id (hr_tenant_id task) (hr_project_id task) (hr_run_id task) (hr_attempt_id task)
    (hr_task_id task) (hr_type task) (hr_status task) payload_data requested_by
    (match hr_assignee_user_id task with
     | Some u => if u =? 0 then None else Some (pretty u)
     | None => None
     end) (hr_assignee_role task) (hr_expires_at task) (default now (hr_created_at task))
    (hr_updated_at task)).

(** * The database-backed service implements the in-process one *)

Inductive hitl_op :=
| HCreate (now : Z) (created updated : option Z) (a : ApprovalArgs)
| HDecide (now id : Z) (actor : string) (approved : bool) (payload : option pydict).

Definition run_hitl (op : hitl_op) : M HumanTaskService HumanTaskRecord :=
  match op with
  | HCreate now _ _ a => create_approval now a
  | HDecide now id actor approved payload => decide_task now id actor approved payload
  end.
Definition run_sql (op : hitl_op) : M SqlHitl HumanTaskRecord :=
  match op with
  | HCreate now created updated a => sql_create_approval now created updated a
  | HDecide now id actor approved payload => sql_decide now id actor approved payload
  end.

(** The records two calls return describe the same task. *)
Definition same_task (t t' : HumanTaskRecord) : Prop :=
  ht_id t = ht_id t' ∧ ht_tenant_id t = ht_tenant_id t' ∧ ht_project_id t = ht_project_id t' ∧
  ht_run_id t = ht_run_id t' ∧ ht_attempt_id t = ht_attempt_id t' ∧ ht_task_id t = ht_task_id t' ∧
  ht_type t = ht_type t' ∧ ht_status t = ht_status t' ∧ ht_requested_by t = ht_requested_by t' ∧
  ht_assignee_role t = ht_assignee_role t' ∧ ht_expires_at t = ht_expires_at t'.

Definition same_outcome (r r' : outcome HumanTaskRecord) : Prop :=
  match r, r' with
  | Ret t, Ret t' => same_task t t'
  | Raise e, Raise e' => e = e'
  | _, _ => False
  end.

(** A stored task and its row. *)
Definition row_of (id : Z) (t : HumanTaskRecord) (r : HumanTaskRow) : Prop :=
  ht_id t = id ∧ ht_tenant_id t = hr_tenant_id r ∧ ht_project_id t = hr_project_id r ∧
  ht_run_id t = hr_run_id r ∧ ht_attempt_id t = hr_attempt_id r ∧ ht_task_id t = hr_task_id r ∧
  ht_type t = hr_type r ∧ ht_status t = hr_status r ∧ ht_assignee_role t = hr_assignee_role r ∧
  ht_expires_at t = hr_expires_at r.

Definition approvals_of (id : Z) (s : SqlHitl) : list (Z * ApprovalRow) :=
  List.filter (λ p, ap_human_task_id p.2 =? id) (sh_approvals s).

(** A task and its row go with exactly one approval request, by the same
    requester. *)
Definition task_related (id : Z) (h : HumanTaskService) (s : SqlHitl) : Prop :=
  match dict_get id (hs_tasks h), dict_get id (sh_tasks s) with
  | Some t, Some r => row_of id t r ∧
      ∃ k a, approvals_of id s = [(k, a)] ∧ ap_requested_by a = ht_requested_by t
  | None, None => approvals_of id s = []
  | _, _ => False
  end.

Record related (h : HumanTaskService) (s : SqlHitl) : Prop := {
  rel_audit : hs_audit h = sh_audit s;
  rel_next : hs_next_id h = sh_next_task s;
  rel_fresh : ∀ id, sh_next_task s ≤ id → dict_get id (hs_tasks h) = None;
  rel_keys : NoDup (dict_keys (sh_approvals s));
  rel_approvals : ∀ k, is_Some (dict_get k (sh_approvals s)) → k < sh_next_approval s;
  rel_tasks : ∀ id, task_related id h s
}.

Lemma filter_set_ne {V} (p : Z * V → bool) k a a' (l : dict Z V) :
  dict_get k l = Some a → p (k, a) = false → p (k, a') = false →
  List.filter p (dict_set k a' l) = List.filter p l.
Proof.
  intros Hk Ha Ha'. induction l as [|[k1 v1] l IH]; simpl in *; [done|].
  destruct (decide (k = k1)) as [->|]; simplify_eq/=; [by rewrite Ha, Ha'|]. by rewrite IH.
Qed.

Lemma filter_set_eq {V} (p : Z * V → bool) k a a' (l : dict Z V) :
  dict_get k l = Some a → p (k, a) = true → p (k, a') = true →
  List.filter p (dict_set k a' l) = dict_set k a' (List.filter p l).
Proof.
  intros Hk Ha Ha'. induction l as [|[k1 v1] l IH]; simpl in *; [done|].
  destruct (decide (k = k1)) as [->|]; simplify_eq/=.
  - rewrite Ha, Ha'. simpl. by rewrite decide_True.
  - destruct (p (k1, v1)); simpl; [rewrite decide_False by done; f_equal|]; by apply IH.
Qed.

Lemma approvals_get id s k a : NoDup (dict_keys (sh_approvals s)) →
  approvals_of id s = [(k, a)] → dict_get k (sh_approvals s) = Some a ∧ ap_human_task_id a = id.
Proof.
  intros Hnd Hf. assert (In (k, a) (approvals_of id s)) as Hin by (rewrite Hf; by left).
  apply filter_In in Hin as [Hin Hid%Z.eqb_eq]. split; [|done].
  apply dict_elem_get; [done|]. by apply list_elem_of_In.
Qed.

Lemma create_related h s now created updated a : related h s →
  same_outcome (create_approval now a h).1 (sql_create_approval now created updated a s).1 ∧
  related (create_approval now a h).2 (sql_create_approval now created updated a s).2.
Proof.
  intros [Haud Hnext Hfresh Hkeys Hap Htasks]. unfold create_approval, sql_create_approval, hs_write, sh_write, write.
  m_unfold. simpl. split; [by split_and!|].
  assert (dict_get (sh_next_approval s) (sh_approvals s) = None) as Hk.
  { destruct (dict_get _ _) eqn:E; [|done]. by apply mk_is_Some, Hap, Z.lt_irrefl in E. }
  assert (dict_get (sh_next_task s) (hs_tasks h) = None) as Hid by (by apply Hfresh).
  split; simpl.
  - by rewrite Haud, Hnext.
  - by rewrite Hnext.
  - intros id Hle. rewrite dict_get_set_ne by lia. apply Hfresh. lia.
  - by apply dict_set_nodup.
  - intros k. rewrite dict_get_set. case_decide; [lia|]. intros H'%Hap. lia.
  - intros id. specialize (Htasks id). unfold task_related, approvals_of in *. simpl.
    rewrite Hnext, !dict_get_set. rewrite dict_set_fresh, List.filter_app by done. simpl.
    case_decide as Heq; [subst id|].
    + rewrite Hid in Htasks. destruct (dict_get _ (sh_tasks s)); [done|].
      rewrite Htasks, Z.eqb_refl. simpl. split; [by split_and!|]. by do 2 eexists.
    + rewrite (proj2 (Z.eqb_neq _ _)), app_nil_r by done. exact Htasks.
Qed.

Lemma decide_body_spec now actor approved payload t :
  decide_body now actor approved payload t =
  if bool_decide (ht_requested_by t = Some actor) then (Raise (PermissionError "approval_self_review_denied"), t)
  else if bool_decide (ht_status t = "pending") then
    let t' := t <| ht_status := if approved then "approved" else "rejected" |>
      <| ht_payload := dict_set "decision" (VDict (default [] payload)) (ht_payload t) |>
      <| ht_updated_at := Some now |> in (Ret t', t')
  else (Raise (PermissionError "human_task_not_pending"), t).
Proof.
  unfold decide_body. m_unfold. destruct (bool_decide (ht_requested_by t = Some actor)); [done|]. simpl.
  by destruct (bool_decide (ht_status t = "pending")).
Qed.

Lemma decide_related h s now id actor approved payload : related h s →
  same_outcome (decide_task now id actor approved payload h).1 (sql_decide now id actor approved payload s).1 ∧
  related (decide_task now id actor approved payload h).2 (sql_decide now id actor approved payload s).2.
Proof.
  intros Hrel. pose proof Hrel as [Haud Hnext Hfresh Hkeys Hap Htasks]. pose proof (Htasks id) as Hid.
  unfold task_related in Hid. unfold decide_task, sql_decide, mbind, M_bind, get_state, zoom, on_key.
  destruct (dict_get id (hs_tasks h)) as [t|] eqn:Ht, (dict_get id (sh_tasks s)) as [r|] eqn:Hr; try done.
  destruct Hid as (Hrow&k&a&Hka&Hby). destruct (approvals_get id s k a Hkeys Hka) as [Hk Hhid].
  rewrite decide_body_spec. simpl. unfold latest_approval. fold (approvals_of id s). rewrite Hka. simpl.
  rewrite Hby. unfold check, raise, mret, M_ret.
  destruct (bool_decide (ht_requested_by t = Some actor)); simpl.
  { split; [done|]. rewrite dict_set_id by done. by destruct h, s. }
  destruct Hrow as (H1&H2&H3&H4&H5&H6&H7&H8&H9&H10). rewrite <-H8.
  destruct (bool_decide (ht_status t = "pending")); simpl.
  2:{ split; [done|]. rewrite dict_set_id by done. by destruct h, s. }
  split; [by split_and!|]. split; simpl.
  - by rewrite Haud, H1, H2, H3.
  - done.
  - intros id' Hle. rewrite dict_get_set_ne; [by apply Hfresh|]. intros ->. by rewrite Hfresh in Ht.
  - by apply dict_set_nodup.
  - intros k'. rewrite dict_get_set. case_decide; [subst; intros _; apply Hap; by exists a|apply Hap].
  - intros id'. specialize (Htasks id'). unfold task_related, approvals_of in *. simpl. rewrite !dict_get_set.
    case_decide as Heq; [subst id'|].
    + split; [by split_and!|]. rewrite (filter_set_eq _ _ a) by (simpl; rewrite ?Hhid; (done || apply Z.eqb_refl)).
      rewrite Hka. simpl. rewrite decide_True by done. by do 2 eexists.
    + rewrite (filter_set_ne _ _ a); [exact Htasks|done|..]; simpl; rewrite Hhid; by apply Z.eqb_neq.
Qed.

(** The results of a sequence of calls, and the state it ends in. *)
Fixpoint trace_of {S} (run : hitl_op → M S HumanTaskRecord) (ops : list hitl_op) (s : S)
  : list (outcome HumanTaskRecord) * S :=
  match ops with
  | [] => ([], s)
  | op :: ops' =>
      let '(r, s') := run op s in let '(rs, s'') := trace_of run ops' s' in (r :: rs, s'')
  end.

Lemma trace_related ops h s : related h s →
  Forall2 same_outcome (trace_of run_hitl ops h).1 (trace_of run_sql ops s).1 ∧
  related (trace_of run_hitl ops h).2 (trace_of run_sql ops s).2.
Proof.
  revert h s. induction ops as [|op ops IH]; intros h s Hrel; simpl; [by split|].
  assert (same_outcome (run_hitl op h).1 (run_sql op s).1 ∧ related (run_hitl op h).2 (run_sql op s).2) as [Ho Hr].
  { destruct op; [by apply create_related|by apply decide_related]. }
  destruct (run_hitl op h) as [r h'], (run_sql op s) as [r' s']. simpl in *.
  destruct (IH h' s' Hr) as [Hf Hrel']. destruct (trace_of run_hitl ops h'), (trace_of run_sql ops s').
  split; [by constructor|done].
Qed.

Definition empty_hitl : HumanTaskService := mkHitl [] [] 1.
Definition empty_sql : SqlHitl := mkSqlHitl [] [] 1 [] 1.

(** C20: the database-backed service implements the in-process one: for any
    sequence of approvals created and decided, call by call the two raise the same
    errors or return the same task (id, scope, links, type, status, requester,
    role and expiry), and they write the same audit records. *)
Theorem sql_hitl_refines (ops : list hitl_op) :
  Forall2 same_outcome (trace_of run_hitl ops empty_hitl).1 (trace_of run_sql ops empty_sql).1 ∧
  hs_audit (trace_of run_hitl ops empty_hitl).2 = sh_audit (trace_of run_sql ops empty_sql).2.
Proof.
  destruct (trace_related ops empty_hitl empty_sql) as [Ho Hr]; [|by split; [|apply Hr]].
  split; simpl; try done. constructor.
Qed.

(** An approval is decided at most once and never by its requester: a decision
    that returns found the task pending and requested by someone else, and after
    it every further decision on that task, by anyone, raises and changes nothing. *)
Theorem decided_once (h h' : HumanTaskService) (now now' id : Z) (actor actor' : string)
    (approved approved' : bool) (p p' : option pydict) (t : HumanTaskRecord)
    (Hdec : decide_task now id actor approved p h = (Ret t, h')) :
  (∃ t0, dict_get id (hs_tasks h) = Some t0 ∧ ht_status t0 = "pending" ∧ ht_requested_by t0 ≠ Some actor ∧
     ht_status t = (if approved then "approved" else "rejected") ∧
     hs_audit h' = hs_audit h ++ [decide_audit (ht_tenant_id t0) (ht_project_id t0) actor (ht_id t0) approved]) ∧
  ∃ e, decide_task now' id actor' approved' p' h' = (Raise e, h').
Proof.
  unfold decide_task, mbind, M_bind, zoom, on_key in *.
  destruct (dict_get id (hs_tasks h)) as [t0|] eqn:Ht; [|done]. rewrite decide_body_spec in Hdec.
  case_bool_decide as Hby; [done|]. case_bool_decide as Hst; [|done]. injection Hdec as <- <-. simpl.
  split; [by exists t0|]. rewrite dict_get_set_eq, decide_body_spec. simpl.
  case_bool_decide; simpl; [|destruct approved; simpl]; eexists; rewrite dict_set_id by (by rewrite dict_get_set_eq);
    done.
Qed.

Definition demo_pending : HumanTaskService := Eval vm_compute in
  (create_approval 1 (mkApprovalArgs 1 None None None None [] (Some "alice") None None) empty_hitl).2.
Definition demo_decided : HumanTaskService := Eval vm_compute in
  (decide_task 3 1 "bob" true None demo_pending).2.

Lemma decided_once_witness :
  (decide_task 3 1 "alice" true None demo_pending).1 = Raise (PermissionError "approval_self_review_denied") ∧
  ∃ x, decide_task 4 1 "carol" false None demo_decided = (Raise x, demo_decided).
Proof.
  split; [vm_compute; reflexivity|].
  refine (proj2 (decided_once demo_pending demo_decided 3 4 1 "bob" "carol" true false None None _ _)).
  vm_compute. reflexivity.
Defined.
