(* ===== verification/Gateways.v ===== *)
(** What agents reach the outside world through: the tool gateway of
    [tools/gateway.py] and the secret providers of [secrets/provider.py], both
    behind the policy engine. *)

From S2P Require Import Prelude Values Json Context Policy Hitl.

Section gateways.
(** [W] is the world the tool handlers act on. *)
Context {W : Type}.
Context (py_str : value → string) (rules : list StaticPolicyRule).

(** * Tools *)

Record ToolDefinition := mkTool {
  tl_id : Z;
  tl_tenant_id : Z;
  tl_project_id : option Z;
  tl_name : string;
  tl_risk_level : string;
  tl_schema : pydict;
  tl_handler : pydict → M W pydict
}.

Record ToolCallResult := mkToolResult {
  tc_status : string;
  tc_output : option pydict;
  tc_human_task_id : option Z
}.

(** The gateway with the engine's audit sink, the human-task service and the
    world the handlers act on. *)
Record ToolGateway := mkToolGateway {
  tg_sink : AuditSink;
  tg_human : HumanTaskService;
  tg_tools : dict Z ToolDefinition;
  tg_world : W
}.
#[export] Instance ToolGateway_eta : Eta ToolGateway := λ g,
  mkToolGateway (tg_sink g) (tg_human g) (tg_tools g) (tg_world g).

Definition engine {A} (m : M AuditSink A) : M ToolGateway A :=
  zoom tg_sink (λ l g, g <| tg_sink := l |>) m.
Definition humans {A} (m : M HumanTaskService A) : M ToolGateway A :=
  zoom tg_human (λ h g, g <| tg_human := h |>) m.
Definition in_handler {A} (m : M W A) : M ToolGateway A :=
  zoom tg_world (λ w g, g <| tg_world := w |>) m.

Definition register (t : ToolDefinition) : M ToolGateway ToolDefinition :=
  modify (λ g, g <| tg_tools := dict_set (tl_id t) t (tg_tools g) |>) ;;
  mret t.

Definition tool_actor_type (actor : option string) : string :=
  if str_truthy actor then "user" else "agent".

(** The request recorded for a call from another scope. *)
Definition violation_request (t : ToolDefinition) (c : RuntimeContext) (actor : option string)
  : PolicyRequest :=
  mkPolicyRequest (cx_tenant_id c) (cx_project_id c) actor (tool_actor_type actor) "tool"
    (Some (tl_id t)) "call" (Some (tl_risk_level t)) None None None None None None
    (to_metadata false c) [].

(** The request the engine decides on. *)
Definition call_request (t : ToolDefinition) (c : RuntimeContext) (actor : option string)
  : PolicyRequest :=
  mkPolicyRequest (cx_tenant_id c) (cx_project_id c) actor (tool_actor_type actor) "tool"
    (Some (tl_id t)) "call" (Some (tl_risk_level t)) None None (Some (cx_agent_id c))
    (Some (cx_agent_version_id c)) (cx_deployment_id c) None (to_metadata false c) [].

Definition tool_audit (t : ToolDefinition) (c : RuntimeContext) (actor : option string)
    (result : string) : AuditRecord :=
  mkAuditRecord (cx_tenant_id c) (cx_project_id c) actor (tool_actor_type actor) "tool"
    (Some (tl_id t)) "call" result None []
    [("tool_name", VStr (tl_name t)); ("risk_level", VStr (tl_risk_level t))].

Definition in_scope (t : ToolDefinition) (c : RuntimeContext) : bool :=
  bool_decide (tl_tenant_id t = cx_tenant_id c) && bool_decide (tl_project_id t = cx_project_id c).

Definition approval_args (t : ToolDefinition) (arguments : pydict) (c : RuntimeContext)
    (actor : option string) : ApprovalArgs :=
  mkApprovalArgs (cx_tenant_id c) (cx_project_id c) (Some (cx_run_id c)) None (cx_task_id c)
    [("tool_id", VInt (tl_id t)); ("arguments", VDict arguments); ("risk_level", VStr (tl_risk_level t))]
    actor None None.

Definition call (now tool_id : Z) (arguments : pydict) (c : RuntimeContext) (actor : option string)
  : M ToolGateway ToolCallResult :=
  g ← get_state;
  t ← of_option (dict_get tool_id (tg_tools g)) (KeyError (pretty tool_id));
  if negb (in_scope t c) then
    engine (record_violation (violation_request t c actor) "tool_scope_mismatch"
      [("tool_tenant_id", VInt (tl_tenant_id t)); ("tool_project_id", of_int_opt (tl_project_id t))]) ;;
    raise (ToolScopeMismatchError (tl_id t))
  else
    d ← engine (evaluate py_str rules (call_request t c actor));
    match pd_decision d with
    | D_deny => raise (PermissionError (or_str (pd_reason d) "tool_call_denied"))
    | D_require_approval =>
        task ← humans (create_approval now (approval_args t arguments c actor));
        engine (write (tool_audit t c actor "approval_required")) ;;
        mret (mkToolResult "approval_required" None (Some (ht_id task)))
    | _ =>
        output ← in_handler (tl_handler t arguments);
        engine (write (tool_audit t c actor "allow")) ;;
        mret (mkToolResult "succeeded" (Some output) None)
    end.

(** A row of the table [tools]. *)
Record ToolRow := mkToolRow {
  tr_id : Z;
  tr_tenant_id : Z;
  tr_project_id : option Z;
  tr_name : string;
  tr_schema_json : pydict;
  tr_risk_level : string;
  tr_status : string;
  tr_is_deleted : bool
}.

Definition tool_row_matches (c : RuntimeContext) (name : string) (r : ToolRow) : bool :=
  bool_decide (tr_tenant_id r = cx_tenant_id c) && bool_decide (tr_project_id r = cx_project_id c)
  && bool_decide (tr_name r = name) && bool_decide (tr_status r = "active") && negb (tr_is_deleted r).

(** [SQLAlchemyToolGateway.call_by_name]: looks the tool up and calls it through
    a fresh gateway that holds only this tool. *)
Definition call_by_name (now : Z) (rows : list ToolRow) (name : string) (arguments : pydict)
    (c : RuntimeContext) (actor : option string) (handler : pydict → M W pydict)
  : M ToolGateway ToolCallResult :=
  match List.find (tool_row_matches c name) rows with
  | None => raise (KeyError name)
  | Some r =>
      modify (λ g, g <| tg_tools := [] |>) ;;
      register (mkTool (tr_id r) (tr_tenant_id r) (tr_project_id r) (tr_name r) (tr_risk_level r)
        (tr_schema_json r) handler) ;;
      call now (tr_id r) arguments c actor
  end.

(** * Secrets *)

Record SecretRecord := mkSecret {
  se_tenant_id : Z;
  se_project_id : option Z;
  se_name : string;
  se_value : string;
  se_status : string;
  se_last_used_at : option Z
}.
#[export] Instance SecretRecord_eta : Eta SecretRecord := λ s,
  mkSecret (se_tenant_id s) (se_project_id s) (se_name s) (se_value s) (se_status s) (se_last_used_at s).

Record InMemorySecretProvider := mkSecretProvider {
  sp_sink : AuditSink;
  sp_secrets_map : dict (Z * option Z * string) SecretRecord
}.
#[export] Instance InMemorySecretProvider_eta : Eta InMemorySecretProvider := λ p,
  mkSecretProvider (sp_sink p) (sp_secrets_map p).

Definition put_secret (tenant : Z) (project : option Z) (name value : string)
  : M InMemorySecretProvider SecretRecord :=
  let record := mkSecret tenant project name value "active" None in
  modify (λ p, p <| sp_secrets_map := dict_set (tenant, project, name) record (sp_secrets_map p) |>) ;;
  mret record.

(** [str(user_id or service_account_id)], [None] when both are absent. *)
Definition secret_actor (c : RuntimeContext) : option string :=
  match cx_user_id c, cx_service_account_id c with
  | None, None => None
  | u, s => Some (match u with
      | Some z => if z =? 0 then match s with Some x => pretty x | None => "None" end else pretty z
      | None => match s with Some x => pretty x | None => "None" end
      end)
  end.
Definition secret_actor_type (c : RuntimeContext) : string :=
  match cx_service_account_id c with
  | Some z => if z =? 0 then "user" else "service_account"
  | None => "user"
  end.

Definition secret_violation (c : RuntimeContext) (name : string) : PolicyRequest :=
  mkPolicyRequest (cx_tenant_id c) (cx_project_id c) (secret_actor c) (secret_actor_type c) "secret"
    None "read" None None None None None None None (to_metadata false c) [("secret_name", VStr name)].

Definition secret_request (tenant : Z) (project : option Z) (name : string) (c : RuntimeContext)
    (resource : option Z) (environment : option string) (metadata : pydict) : PolicyRequest :=
  mkPolicyRequest tenant project (secret_actor c) (secret_actor_type c) "secret" resource "read" None
    None None (Some (cx_agent_id c)) (Some (cx_agent_version_id c)) (cx_deployment_id c) environment
    (to_metadata false c) metadata.

Definition secret_audit (tenant : Z) (project : option Z) (c : RuntimeContext) (resource : option Z)
    (metadata : pydict) : AuditRecord :=
  mkAuditRecord tenant project (secret_actor c) (secret_actor_type c) "secret" resource "read" "allow"
    None [] metadata.

Definition secret_in_scope (tenant : Z) (project : option Z) (c : RuntimeContext) : bool :=
  bool_decide (tenant = cx_tenant_id c) && bool_decide (project = cx_project_id c).

Definition scope_metadata (tenant : Z) (project : option Z) : pydict :=
  [("requested_tenant_id", VInt tenant); ("requested_project_id", of_int_opt project)].

Definition sp_engine {A} (m : M AuditSink A) : M InMemorySecretProvider A :=
  zoom sp_sink (λ l p, p <| sp_sink := l |>) m.

Definition get_secret (now tenant : Z) (project : option Z) (name : string) (c : RuntimeContext)
  : M InMemorySecretProvider string :=
  if negb (secret_in_scope tenant project c) then
    sp_engine (record_violation (secret_violation c name) "secret_scope_mismatch"
      (scope_metadata tenant project)) ;;
    raise (SecretScopeMismatchError name)
  else
    p ← get_state;
    record ← of_option (dict_get (tenant, project, name) (sp_secrets_map p)) (KeyError name);
    d ← sp_engine (evaluate py_str rules
      (secret_request tenant project name c None None [("secret_name", VStr name)]));
    (if bool_decide (pd_decision d = D_deny)
     then raise (SecretAccessDeniedError (or_str (pd_reason d) "secret_access_denied")) else mret tt) ;;
    modify (λ p, p <| sp_secrets_map := dict_set (tenant, project, name)
      (record <| se_last_used_at := Some now |>) (sp_secrets_map p) |>) ;;
    sp_engine (write (secret_audit tenant project c None [("secret_name", VStr name)])) ;;
    mret (se_value record).

(** A row of the table [secrets]; the value itself is not stored there. *)
Record SecretRow := mkSecretRow {
  sr_id : Z;
  sr_tenant_id : Z;
  sr_project_id : Z;
  sr_name : string;
  sr_provider : string;
  sr_scope : string;
  sr_status : string;
  sr_is_deleted : bool;
  sr_last_used_at : option Z
}.
#[export] Instance SecretRow_eta : Eta SecretRow := λ r,
  mkSecretRow (sr_id r) (sr_tenant_id r) (sr_project_id r) (sr_name r) (sr_provider r) (sr_scope r)
    (sr_status r) (sr_is_deleted r) (sr_last_used_at r).

Record SqlSecretProvider := mkSqlSecrets {
  ss_sink : AuditSink;
  ss_rows : dict Z SecretRow
}.
#[export] Instance SqlSecretProvider_eta : Eta SqlSecretProvider := λ p,
  mkSqlSecrets (ss_sink p) (ss_rows p).

Definition ss_engine {A} (m : M AuditSink A) : M SqlSecretProvider A :=
  zoom ss_sink (λ l p, p <| ss_sink := l |>) m.

Definition _secret_record (tenant : Z) (project : option Z) (name : string)
  : M SqlSecretProvider (Z * SecretRow) :=
  p ← get_state;
  of_option (List.find (λ q, bool_decide (sr_tenant_id q.2 = tenant)
      && bool_decide (Some (sr_project_id q.2) = project) && bool_decide (sr_name q.2 = name)
      && bool_decide (sr_status q.2 = "active") && negb (sr_is_deleted q.2)) (ss_rows p))
    (KeyError name).

Definition sql_get_secret (now tenant : Z) (project : option Z) (name : string) (c : RuntimeContext)
  : M SqlSecretProvider string :=
  if negb (secret_in_scope tenant project c) then
    ss_engine (record_violation (secret_violation c name) "secret_scope_mismatch"
      (scope_metadata tenant project)) ;;
    raise (SecretScopeMismatchError name)
  else
    kr ← _secret_record tenant project name;
    let r := kr.2 in
    let metadata := [("secret_name", VStr name); ("provider", VStr (sr_provider r));
                     ("scope", VStr (sr_scope r))] in
    d ← ss_engine (evaluate py_str rules
      (secret_request tenant project name c (Some (sr_id r)) (cx_environment c) metadata));
    (if bool_decide (pd_decision d = D_deny)
     then raise (SecretAccessDeniedError (or_str (pd_reason d) "secret_access_denied")) else mret tt) ;;
    secret_ref ← of_option (dict_get name (cx_secrets c)) (KeyError name);
    modify (λ p, p <| ss_rows := dict_set kr.1 (r <| sr_last_used_at := Some now |>) (ss_rows p) |>) ;;
    ss_engine (write (secret_audit tenant project c (Some (sr_id r)) metadata)) ;;
    mret secret_ref.
End gateways.
Arguments ToolDefinition : clear implicits.
Arguments ToolGateway : clear implicits.

(** * Theorems *)

Lemma in_scope_decide {W} (t : ToolDefinition W) (c : RuntimeContext) :
  in_scope t c = bool_decide (tl_tenant_id t = cx_tenant_id c ∧ tl_project_id t = cx_project_id c).
Proof. unfold in_scope. by rewrite bool_decide_and. Qed.

Section tool_theorems.
Context {W : Type} (py_str : value → string) (rules : list StaticPolicyRule).

(** The engine's verdict on a call, as the rules decide it. *)
Definition denied (q : PolicyRequest) : Prop := matched_by rules D_deny q.
Definition needs_approval (q : PolicyRequest) : Prop := matched_by rules D_require_approval q.

(** C17: a tool's handler runs only for a caller in the tool's own tenant and
    project, when no matching policy denies the call and none asks for approval;
    in every other case the world the handler acts on is untouched. A call from
    another scope, a denied call and a call to an unknown tool raise; a call that
    needs approval returns "approval_required" with the id of a new pending human
    task that carries the tool and its arguments. *)
Theorem tool_call_guarded (now tool_id : Z) (arguments : pydict) (c : RuntimeContext)
    (actor : option string) (g : ToolGateway W) :
  let '(r, g') := call py_str rules now tool_id arguments c actor g in
  match dict_get tool_id (tg_tools g) with
  | None => r = Raise (KeyError (pretty tool_id)) ∧ g' = g
  | Some t =>
      if decide (tl_tenant_id t = cx_tenant_id c ∧ tl_project_id t = cx_project_id c) then
        (denied (call_request t c actor) → raises r ∧ tg_world g' = tg_world g ∧ tg_human g' = tg_human g) ∧
        (¬ denied (call_request t c actor) → needs_approval (call_request t c actor) →
          r = Ret (mkToolResult "approval_required" None (Some (hs_next_id (tg_human g)))) ∧
          tg_world g' = tg_world g ∧
          ∃ task, dict_get (hs_next_id (tg_human g)) (hs_tasks (tg_human g')) = Some task ∧
            ht_status task = "pending" ∧ ht_requested_by task = actor ∧
            dict_get "arguments" (ht_payload task) = Some (VDict arguments)) ∧
        (¬ denied (call_request t c actor) → ¬ needs_approval (call_request t c actor) →
          match tl_handler t arguments (tg_world g) with
          | (Ret output, w) => r = Ret (mkToolResult "succeeded" (Some output) None) ∧ tg_world g' = w ∧
              tg_sink g' = tg_sink g ++ [tool_audit t c actor "allow"]
          | (Raise e, w) => r = Raise e ∧ tg_world g' = w ∧ tg_sink g' = tg_sink g
          end)
      else r = Raise (ToolScopeMismatchError (tl_id t)) ∧ tg_world g' = tg_world g ∧
        ∃ record, tg_sink g' = tg_sink g ++ [record] ∧ ar_result record = "policy_violation"
  end.
Proof.
  unfold call, mbind, M_bind, get_state, of_option.
  destruct (dict_get tool_id (tg_tools g)) as [t|]; [|done]. simpl.
  rewrite in_scope_decide. case_decide as Hsc; rewrite ?bool_decide_true, ?bool_decide_false by done;
    simpl; [|split_and!; [done|done|by eexists]].
  destruct (evaluate_spec py_str rules (call_request t c actor) (tg_sink g)) as (d&sink'&Hev&Hd&Ha&Hs).
  unfold engine, zoom. rewrite Hev. cbv beta iota.
  fold (denied (call_request t c actor)) in Hd, Ha. fold (needs_approval (call_request t c actor)) in Ha.
  destruct (decide (pd_decision d = D_deny)) as [E1|E1]; [rewrite E1; apply Hd in E1|
    destruct (decide (pd_decision d = D_require_approval)) as [E2|E2]; [rewrite E2; apply Ha in E2 as [E2 E3]|]].
  - simpl. split_and!; [|done..]. intros _. split; [by eexists|done].
  - simpl. split; [done|]. split; [|by intros _ ?].
    intros _ _. split_and!; [done|done|]. rewrite dict_get_set_eq. by eexists.
  - rewrite bool_decide_false in Hs by tauto. subst sink'.
    assert (¬ denied (call_request t c actor)) as Hn1 by (by rewrite <-Hd).
    assert (¬ needs_approval (call_request t c actor)) as Hn2 by tauto.
    unfold in_handler, zoom.
    destruct (pd_decision d) eqn:Ed; try done; simpl;
      destruct (tl_handler t arguments (tg_world g)) as [[out|e] w]; simpl; by split_and!.
Qed.
End tool_theorems.

(** The tool gateway does not tell the policy engine which environment a
    call comes from, so a rule limited to an environment never applies to a tool
    call, whatever it says: with or without it every call behaves the same. *)
Theorem tool_environment_rule_ignored {W} (py_str : value → string) (rules : list StaticPolicyRule)
    (x : StaticPolicyRule) (env : string) (Hx : ru_environment x = Some env) (now tool_id : Z)
    (arguments : pydict) (c : RuntimeContext) (actor : option string) (g : ToolGateway W) :
  call py_str (x :: rules) now tool_id arguments c actor g = call py_str rules now tool_id arguments c actor g.
Proof.
  unfold call, mbind, M_bind, get_state, of_option.
  destruct (dict_get tool_id (tg_tools g)) as [t|]; [|done]. simpl.
  destruct (negb (in_scope t c)); [done|]. unfold engine, zoom.
  assert (evaluate py_str (x :: rules) (call_request t c actor) = evaluate py_str rules (call_request t c actor)) as ->; [|done].
  assert (matching (x :: rules) (call_request t c actor) = matching rules (call_request t c actor)) as Hm.
  { unfold matching. simpl. replace (matches x (call_request t c actor)) with false; [done|].
    unfold matches. rewrite Hx. cbn [pr_environment call_request].
    change (conflicts (Some env) None) with true. by repeat case_match. }
  unfold evaluate. by rewrite Hm.
Qed.

(** A secret is handed out only to a context of the tenant and project it was
    asked for, only as stored under that scope and name, and never when a matching
    policy denies the read; a refused read leaves every stored secret as it was. *)
Theorem secret_isolation (py_str : value → string) (rules : list StaticPolicyRule) (now tenant : Z)
    (project : option Z) (name : string) (c : RuntimeContext) (p : InMemorySecretProvider) :
  let '(r, p') := get_secret py_str rules now tenant project name c p in
  match r with
  | Ret v => tenant = cx_tenant_id c ∧ project = cx_project_id c ∧
      (∃ record, dict_get (cx_tenant_id c, cx_project_id c, name) (sp_secrets_map p) = Some record ∧
         se_value record = v) ∧
      ¬ matched_by rules D_deny
          (secret_request tenant project name c None None [("secret_name", VStr name)]) ∧
      last (sp_sink p') = Some (secret_audit tenant project c None [("secret_name", VStr name)])
  | Raise _ => sp_secrets_map p' = sp_secrets_map p
  end.
Proof.
  unfold get_secret. destruct (secret_in_scope tenant project c) eqn:Hs; simpl; [|done].
  unfold secret_in_scope in Hs. apply andb_true_iff in Hs as [Ht%bool_decide_eq_true Hp%bool_decide_eq_true].
  subst. unfold mbind, M_bind, get_state, of_option.
  destruct (dict_get _ (sp_secrets_map p)) as [record|] eqn:Hr; [|done]. unfold mret at 1, M_ret at 1.
  destruct (evaluate_spec py_str rules (secret_request (cx_tenant_id c) (cx_project_id c) name c None None
    [("secret_name", VStr name)]) (sp_sink p)) as (d&sink'&Hev&Hd&_&_).
  unfold sp_engine, zoom. rewrite Hev. case_bool_decide as E; simpl; [done|].
  split_and!; [done|done|by eexists|by rewrite <-Hd|]. by rewrite last_snoc.
Qed.

(** A policy that requires approval does not stop a secret from being read:
    the engine's verdict "require_approval" is logged, and the value is returned
    all the same. *)
Theorem secret_approval_not_enforced (py_str : value → string) (rules : list StaticPolicyRule) (now tenant : Z)
    (project : option Z) (name : string) (c : RuntimeContext) (p : InMemorySecretProvider)
    (record : SecretRecord) (Hscope : tenant = cx_tenant_id c ∧ project = cx_project_id c)
    (Hrec : dict_get (tenant, project, name) (sp_secrets_map p) = Some record)
    (Hnd : ¬ matched_by rules D_deny
        (secret_request tenant project name c None None [("secret_name", VStr name)]))
    (Happr : matched_by rules D_require_approval
        (secret_request tenant project name c None None [("secret_name", VStr name)])) :
  (get_secret py_str rules now tenant project name c p).1 = Ret (se_value record).
Proof.
  unfold get_secret, secret_in_scope. destruct Hscope as [<- <-]. rewrite !bool_decide_true by done.
  simpl. unfold mbind, M_bind, get_state, of_option. rewrite Hrec.
  unfold mret at 1, M_ret at 1.
  destruct (evaluate_spec py_str rules (secret_request tenant project name c None None
    [("secret_name", VStr name)]) (sp_sink p)) as (d&sink'&Hev&Hd&_&_).
  unfold sp_engine, zoom. rewrite Hev. case_bool_decide as E; simpl; [|done].
  by apply Hd in E.
Qed.

(** ** Concrete gateways *)

Definition demo_context : RuntimeContext :=
  mkRuntimeContext 1 (Some 1) 10 (Some 20) 5 50 None (Some 3) None None None None None None None None
    (Some "production") None None None None [] [] [] [].

(** Deny every tool call in production. *)
Definition production_deny : StaticPolicyRule :=
  mkRule "p1" "tool" "call" D_deny "frozen" None None (Some "production") None None None [].

(** A tool that counts its calls. *)
Definition demo_gateway : ToolGateway Z :=
  mkToolGateway [] (mkHitl [] [] 1)
    [(9, mkTool 9 1 (Some 1) "wipe" "destructive" [] (λ _ n, (Ret [], n + 1)))] 0.

Lemma tool_environment_rule_ignored_witness :
  call (λ _, "") [production_deny] 1 9 [] demo_context (Some "u") demo_gateway
  = call (λ _, "") [] 1 9 [] demo_context (Some "u") demo_gateway ∧
  tg_world (call (λ _, "") [production_deny] 1 9 [] demo_context (Some "u") demo_gateway).2 = 1.
Proof.
  split; [apply (tool_environment_rule_ignored (λ _, "") [] production_deny "production");
    reflexivity|vm_compute; reflexivity].
Defined.

Definition approve_reads : StaticPolicyRule :=
  mkRule "p2" "secret" "read" D_require_approval "four eyes" None None None None None None [].
Definition demo_secrets : InMemorySecretProvider := Eval vm_compute in
  (put_secret 1 (Some 1) "db" "hunter2" (mkSecretProvider [] [])).2.

Lemma secret_approval_not_enforced_witness :
  (get_secret (λ _, "") [approve_reads] 5 1 (Some 1) "db" demo_context demo_secrets).1 = Ret "hunter2".
Proof.
  refine (secret_approval_not_enforced (λ _, "") [approve_reads] 5 1 (Some 1) "db" demo_context demo_secrets
    (mkSecret 1 (Some 1) "db" "hunter2" "active" None) _ _ _ _).
  - split; reflexivity.
  - vm_compute. reflexivity.
  - intros (r&Hin&_&Hd). apply list_elem_of_singleton in Hin as ->. discriminate Hd.
  - exists approve_reads. split; [left|split; vm_compute; reflexivity].
Defined.
