(* ===== verification/ModelGateway.v ===== *)
(** The model gateway ([model_gateway/provider.py]): which model a run may use, at which
    cost and through which gateway, and what was used.

    The estimated cost a policy request carries and the cost in the audit log are left
    out: nothing reads them. [py_float] is Python's [float] of a value, [None] where it
    raises; the model call itself is a parameter that acts on a world [W]. *)

From stdpp Require Import gmap.
From Stdlib Require Import SpecFloat.
From S2P Require Import Prelude Values Json Floats Context Policy Gateways.

(** * Data *)

Record ModelGatewayConfig := mkModelGateway {
  mg_id : Z;
  mg_tenant_id : Z;
  mg_project_id : option Z;
  mg_provider_type : string;
  mg_base_url : string;
  mg_credential_ref : string;
  mg_default_model_group : option string;
  mg_status : string;
  mg_is_deleted : bool
}.

(** A policy; [mp_agent_id], [mp_agent_version_id], [mp_status] and [mp_is_deleted] are
    columns of the table only. *)
Record ModelPolicyConfig := mkModelPolicy {
  mp_id : Z;
  mp_tenant_id : Z;
  mp_project_id : option Z;
  mp_gateway_id : Z;
  mp_default_model : string;
  mp_allowed_models : list string;
  mp_denied_models : list string;
  mp_max_tokens_per_run : option Z;
  mp_max_cost_per_run : option float;
  mp_max_cost_per_day : option float;
  mp_fallback_policy : pydict;
  mp_on_budget_exceeded : string;
  mp_agent_id : option Z;
  mp_agent_version_id : option Z;
  mp_status : string;
  mp_is_deleted : bool
}.

Record PreparedModelRequest := mkPrepared {
  pm_gateway_id : Z;
  pm_base_url : string;
  pm_credential_ref : string;
  pm_model : string;
  pm_provider_type : string
}.

Record ModelUsageSnapshot := mkUsage {
  us_id : Z;
  us_run_id : Z;
  us_attempt_id : option Z;
  us_gateway_id : Z;
  us_gateway_request_id : option string;
  us_model : string;
  us_provider : option string;
  us_prompt_tokens : Z;
  us_completion_tokens : Z;
  us_total_tokens : Z;
  us_cost : float;
  us_currency : string;
  us_raw_usage : pydict
}.

Record ModelExecutionResult := mkExecution {
  me_request : PreparedModelRequest;
  me_payload : pydict;
  me_usage_snapshot : ModelUsageSnapshot
}.

(** * What both providers check *)

Section checks.
Context (py_str : value → string) (rules : list StaticPolicyRule).

(** [model in allowed], [model not in denied], and the budget of a run. *)
Definition check_model {S} (p : ModelPolicyConfig) (model : string) : M S unit :=
  check (bool_decide (mp_allowed_models p = []) || bool_decide (model ∈ mp_allowed_models p)) (ModelNotAllowedError model) ;;
  check (negb (bool_decide (model ∈ mp_denied_models p))) (ModelNotAllowedError model).
Definition over_budget (p : ModelPolicyConfig) (estimated_cost : float) : bool :=
  match mp_max_cost_per_run p with Some limit => fltb limit estimated_cost | None => false end.
Definition check_budget {S} (p : ModelPolicyConfig) (estimated_cost : float) : M S unit :=
  if over_budget p estimated_cost then
    if bool_decide (mp_on_budget_exceeded p = "reject") then raise (BudgetExceededError "max_cost_per_run")
    else if bool_decide (mp_on_budget_exceeded p = "require_approval")
    then raise (ModelPolicyDecisionError "require_approval" (Some "model_budget_requires_approval"))
    else if bool_decide (mp_on_budget_exceeded p = "fallback")
    then raise (ModelPolicyDecisionError "fallback" (Some "model_budget_requires_fallback"))
    else mret tt
  else mret tt.

Definition model_violation (g : ModelGatewayConfig) (c : RuntimeContext) : PolicyRequest :=
  mkPolicyRequest (cx_tenant_id c) (cx_project_id c) (secret_actor c) (secret_actor_type c) "model_gateway"
    (Some (mg_id g)) "use" None None None None None None None (to_metadata false c) [].
(** [environment] is given by the database-backed provider only. *)
Definition model_request (environment : option string) (g : ModelGatewayConfig) (c : RuntimeContext) (model : string)
  : PolicyRequest :=
  mkPolicyRequest (cx_tenant_id c) (cx_project_id c) (secret_actor c) (secret_actor_type c) "model_gateway"
    (Some (mg_id g)) "use" None None None (Some (cx_agent_id c)) (Some (cx_agent_version_id c)) (cx_deployment_id c)
    environment (to_metadata false c) [("model", VStr model)].

Definition gateway_in_scope (g : ModelGatewayConfig) (c : RuntimeContext) : bool :=
  bool_decide (mg_tenant_id g = cx_tenant_id c) && bool_decide (mg_project_id g = cx_project_id c).
Definition _assert_gateway_scope (g : ModelGatewayConfig) (c : RuntimeContext) : M AuditSink unit :=
  if gateway_in_scope g c then mret tt
  else
    record_violation (model_violation g c) "model_gateway_scope_mismatch"
      [("gateway_tenant_id", VInt (mg_tenant_id g)); ("gateway_project_id", of_int_opt (mg_project_id g))] ;;
    raise (ModelGatewayScopeMismatchError (mg_id g)).

(** The verdict of the engine, from the scope check on. *)
Definition decide_use (environment : option string) (g : ModelGatewayConfig) (c : RuntimeContext) (model : string)
  : M AuditSink PreparedModelRequest :=
  _assert_gateway_scope g c ;;
  d ← evaluate py_str rules (model_request environment g c model);
  match pd_decision d with
  | D_deny => raise (PermissionError (or_str (pd_reason d) "model_gateway_denied"))
  | D_allow | D_allow_with_limit =>
      mret (mkPrepared (mg_id g) (mg_base_url g) (mg_credential_ref g) model (mg_provider_type g))
  | d' => raise (ModelPolicyDecisionError (decision_value d') (pd_reason d))
  end.

Definition use_model (environment : option string) (g : ModelGatewayConfig) (p : ModelPolicyConfig) (c : RuntimeContext)
    (requested : option string) (estimated_cost : float) : M AuditSink PreparedModelRequest :=
  let model := or_str requested (mp_default_model p) in
  check_model p model ;;
  check_budget p estimated_cost ;;
  decide_use environment g c model.
End checks.

Definition usage_of (id : Z) (attempt : option Z) (g : ModelGatewayConfig) (gateway_id : Z) (c : RuntimeContext)
    (request_id : option string) (model : string) (prompt completion : Z) (cost : float) (currency : string)
    (raw : pydict) : ModelUsageSnapshot :=
  mkUsage id (cx_run_id c) attempt gateway_id request_id model (Some (mg_provider_type g)) prompt completion
    (prompt + completion) cost currency raw.

(** * In process *)

Record InMemoryModelGatewayProvider := mkModelProvider {
  im_sink : AuditSink;
  im_gateways : dict Z ModelGatewayConfig;
  im_policies : dict (Z * option Z) ModelPolicyConfig;
  im_usage_snapshots : list ModelUsageSnapshot;
  im_next_usage_id : Z
}.
#[export] Instance InMemoryModelGatewayProvider_eta : Eta InMemoryModelGatewayProvider := λ s,
  mkModelProvider (im_sink s) (im_gateways s) (im_policies s) (im_usage_snapshots s) (im_next_usage_id s).

Section in_process.
Context (py_str : value → string) (rules : list StaticPolicyRule).
Definition im_engine {A} (m : M AuditSink A) : M InMemoryModelGatewayProvider A := zoom im_sink (λ l s, s <| im_sink := l |>) m.

Definition register_gateway (g : ModelGatewayConfig) : M InMemoryModelGatewayProvider ModelGatewayConfig :=
  modify (λ s, s <| im_gateways := dict_set (mg_id g) g (im_gateways s) |>) ;; mret g.
Definition set_policy (p : ModelPolicyConfig) : M InMemoryModelGatewayProvider ModelPolicyConfig :=
  modify (λ s, s <| im_policies := dict_set (mp_tenant_id p, mp_project_id p) p (im_policies s) |>) ;; mret p.

Definition policy_for (c : RuntimeContext) : M InMemoryModelGatewayProvider ModelPolicyConfig :=
  s ← get_state; of_option (dict_get (cx_tenant_id c, cx_project_id c) (im_policies s)) (KeyError (pretty (cx_tenant_id c))).
Definition gateway_for (id : Z) : M InMemoryModelGatewayProvider ModelGatewayConfig :=
  s ← get_state; of_option (dict_get id (im_gateways s)) (KeyError (pretty id)).

(** The gateway is looked up after the checks on the policy. *)
Definition prepare_chat_request (c : RuntimeContext) (requested : option string) (estimated_cost : float)
  : M InMemoryModelGatewayProvider PreparedModelRequest :=
  p ← policy_for c;
  let model := or_str requested (mp_default_model p) in
  check_model p model ;;
  check_budget p estimated_cost ;;
  g ← gateway_for (mp_gateway_id p);
  im_engine (decide_use py_str rules None g c model).

Definition _allocate_usage_id : M InMemoryModelGatewayProvider Z :=
  modify (λ s, s <| im_next_usage_id := im_next_usage_id s + 1 |>) ;; gets im_next_usage_id.

Definition record_usage (c : RuntimeContext) (request_id : option string) (model : string) (prompt completion : Z)
    (cost : float) (currency : string) (raw : pydict) : M InMemoryModelGatewayProvider ModelUsageSnapshot :=
  p ← policy_for c;
  g ← gateway_for (mp_gateway_id p);
  im_engine (_assert_gateway_scope g c) ;;
  id ← _allocate_usage_id;
  let u := usage_of id None g (mp_gateway_id p) c request_id model prompt completion cost currency raw in
  modify (λ s, s <| im_usage_snapshots := im_usage_snapshots s ++ [u] |>) ;;
  mret u.
End in_process.

(** * In the database *)

Record SQLAlchemyModelGatewayProvider (W : Type) := mkSqlModels {
  sm_sink : AuditSink;
  sm_gateways : dict Z ModelGatewayConfig;
  sm_policies : list ModelPolicyConfig;
  sm_usage : list ModelUsageSnapshot;
  sm_next_usage : Z;
  sm_world : W
}.
Arguments mkSqlModels {W}.
Arguments sm_sink {W}.
Arguments sm_gateways {W}.
Arguments sm_policies {W}.
Arguments sm_usage {W}.
Arguments sm_next_usage {W}.
Arguments sm_world {W}.
#[export] Instance SQLAlchemyModelGatewayProvider_eta {W} : Eta (SQLAlchemyModelGatewayProvider W) := λ s,
  mkSqlModels (sm_sink s) (sm_gateways s) (sm_policies s) (sm_usage s) (sm_next_usage s) (sm_world s).

Section database.
Context {W : Type} (py_str : value → string) (py_float : value → option float) (rules : list StaticPolicyRule).
Abbreviation Srv := (SQLAlchemyModelGatewayProvider W).
Definition sm_engine {A} (m : M AuditSink A) : M Srv A := zoom sm_sink (λ l s, s <| sm_sink := l |>) m.
Definition in_world {A} (m : M W A) : M Srv A := zoom sm_world (λ w s, s <| sm_world := w |>) m.

(** The id of the configured gateway; a truth value is an integer. *)
Definition configured_gateway (c : RuntimeContext) : option Z :=
  match dict_get "model_gateway" (cx_config c) with
  | Some (VDict d) => match dict_get "id" d with Some (VInt z) => Some z | Some (VBool b) => Some (Z.b2z b) | _ => None end
  | _ => None
  end.
Definition _gateway (c : RuntimeContext) : M Srv ModelGatewayConfig :=
  id ← of_option (configured_gateway c) (KeyError "model_gateway_not_configured");
  s ← get_state;
  g ← of_option (dict_get id (sm_gateways s)) (KeyError "model_gateway_not_found");
  check (negb (mg_is_deleted g) && bool_decide (mg_status g = "active")) (KeyError "model_gateway_not_found") ;;
  mret g.

(** The first active policy of the scope and gateway that names the agent and version or
    none; the table is in the order of its ids. *)
Definition policy_applies (c : RuntimeContext) (gateway_id : Z) (p : ModelPolicyConfig) : bool :=
  bool_decide (mp_tenant_id p = cx_tenant_id c) && bool_decide (mp_project_id p = cx_project_id c)
  && (mp_gateway_id p =? gateway_id) && bool_decide (mp_status p = "active") && negb (mp_is_deleted p)
  && match mp_agent_id p with Some a => a =? cx_agent_id c | None => true end
  && match mp_agent_version_id p with Some v => v =? cx_agent_version_id c | None => true end.
Definition _policy (c : RuntimeContext) (gateway_id : Z) : M Srv ModelPolicyConfig :=
  s ← get_state; of_option (List.find (policy_applies c gateway_id) (sm_policies s)) (KeyError "model_policy_not_found").

Definition sql_prepare_chat_request (c : RuntimeContext) (requested : option string) (estimated_cost : float)
  : M Srv PreparedModelRequest :=
  g ← _gateway c;
  p ← _policy c (mg_id g);
  sm_engine (use_model py_str rules (cx_environment c) g p c requested estimated_cost).

Definition sql_record_usage (c : RuntimeContext) (request_id : option string) (model : string) (prompt completion : Z)
    (cost : float) (currency : string) (raw : pydict) : M Srv ModelUsageSnapshot :=
  g ← _gateway c;
  sm_engine (_assert_gateway_scope g c) ;;
  s ← get_state;
  let u := usage_of (sm_next_usage s) (cx_attempt_id c) g (mg_id g) c request_id model prompt completion cost currency raw in
  modify (λ s, s <| sm_usage := sm_usage s ++ [u] |> <| sm_next_usage := sm_next_usage s + 1 |>) ;;
  mret u.

Definition _int_value (v : value) : Z :=
  match v with VInt z => z | VBool b => Z.b2z b | VStr s => default 0 (py_int s) | _ => 0 end.
Definition _float_value (v : value) : float :=
  match v with VNone => float_of_Z 0 | v => default (float_of_Z 0) (py_float v) end.
Definition _string_or_none (v : value) : option string := match v with VNone => None | v => Some (py_str v) end.

(** What the call returned, as an object *)
Definition payload_of (v : value) : pydict := match v with VDict d => d | v => [("output", v)] end.
Definition get (key : string) (d : pydict) : value := default VNone (dict_get key d).
Definition usage_data (payload : pydict) : pydict := match get "usage" payload with VDict d => d | _ => [] end.

Definition model_audit (c : RuntimeContext) (gateway_id : Z) (result : string) (metadata : pydict) : AuditRecord :=
  mkAuditRecord (cx_tenant_id c) (cx_project_id c) (secret_actor c) (secret_actor_type c) "model_gateway"
    (Some gateway_id) "use" result None [] metadata.

(** [execute] raises [TimeoutError] when the time is up. *)
Definition run_chat (c : RuntimeContext) (requested : option string) (estimated_cost : float)
    (execute : PreparedModelRequest → M W value) : M Srv ModelExecutionResult :=
  request ← sql_prepare_chat_request c requested estimated_cost;
  r ← catch (in_world (execute request));
  match r with
  | Raise TimeoutError =>
      sm_engine (write (model_audit c (pm_gateway_id request) "timeout" [("model", VStr (pm_model request))])) ;;
      raise ModelGatewayTimeoutError
  | Raise e => raise e
  | Ret v =>
      let payload := payload_of v in
      let usage := usage_data payload in
      u ← sql_record_usage c (_string_or_none (get "gateway_request_id" payload))
            (or_str (_string_or_none (get "model" payload)) (pm_model request)) (_int_value (get "prompt_tokens" usage))
            (_int_value (get "completion_tokens" usage)) (_float_value (get "cost" usage))
            (or_str (_string_or_none (get "currency" usage)) "USD") usage;
      sm_engine (write (model_audit c (pm_gateway_id request) "allow"
        [("model", VStr (us_model u)); ("gateway_request_id", of_str_opt (us_gateway_request_id u));
         ("total_tokens", VInt (us_total_tokens u)); ("currency", VStr (us_currency u))])) ;;
      mret (mkExecution request payload u)
  end.
End database.

(** * Theorems *)

(** When a request is granted: the gateway is of the caller's scope, the model is one the
    policy allows, the run is within its budget or the policy only warns, and no rule denies
    the use or wants it approved. *)
Definition allows (p : ModelPolicyConfig) (model : string) : Prop :=
  (mp_allowed_models p = [] ∨ model ∈ mp_allowed_models p) ∧ model ∉ mp_denied_models p.
Definition affordable (p : ModelPolicyConfig) (cost : float) : Prop :=
  over_budget p cost = true → mp_on_budget_exceeded p ∉ ["reject"; "require_approval"; "fallback"].

Record granted (rules : list StaticPolicyRule) (environment : option string) (g : ModelGatewayConfig) (p : ModelPolicyConfig)
    (c : RuntimeContext) (requested : option string) (cost : float) (r : PreparedModelRequest) : Prop := mkGranted {
  gd_scope : mg_tenant_id g = cx_tenant_id c ∧ mg_project_id g = cx_project_id c;
  gd_model : pm_model r = or_str requested (mp_default_model p) ∧ allows p (pm_model r);
  gd_budget : affordable p cost;
  gd_rules : ¬ matched_by rules D_deny (model_request environment g c (pm_model r)) ∧
             ¬ matched_by rules D_require_approval (model_request environment g c (pm_model r));
  gd_request : r = mkPrepared (mg_id g) (mg_base_url g) (mg_credential_ref g) (pm_model r) (mg_provider_type g)
}.

Lemma check_model_ret {S} p model (s s' : S) : check_model p model s = (Ret tt, s') → s' = s ∧ allows p model.
Proof.
  unfold check_model, check, mbind, M_bind, allows.
  destruct (bool_decide_reflect (mp_allowed_models p = [])), (bool_decide_reflect (model ∈ mp_allowed_models p)),
    (bool_decide_reflect (model ∈ mp_denied_models p)); simpl; try done; intros [= <-]; auto.
Qed.

Lemma check_budget_ret {S} p cost (s s' : S) : check_budget p cost s = (Ret tt, s') → s' = s ∧ affordable p cost.
Proof.
  unfold check_budget, affordable. destruct (over_budget p cost); [|by intros [= <-]].
  repeat (case_bool_decide; [done|]). intros [= <-]. split; [done|]. intros _. set_solver.
Qed.

Lemma decide_use_ret py_str rules env g c model sink r sink' :
  decide_use py_str rules env g c model sink = (Ret r, sink') →
  sink' = sink ∧ gateway_in_scope g c = true ∧
  ¬ matched_by rules D_deny (model_request env g c model) ∧ ¬ matched_by rules D_require_approval (model_request env g c model) ∧
  r = mkPrepared (mg_id g) (mg_base_url g) (mg_credential_ref g) model (mg_provider_type g).
Proof.
  unfold decide_use, _assert_gateway_scope. destruct (gateway_in_scope g c); [|done]. unfold mbind at 1, M_bind at 1. simpl.
  destruct (evaluate_spec py_str rules (model_request env g c model) sink) as (d&sk&He&Hd&Ha&Hs).
  unfold mbind, M_bind. rewrite He. destruct (pd_decision d) eqn:Ed; simpl; try done; intros [= <- <-];
    rewrite bool_decide_false in Hs by (intros [?|?]; congruence); naive_solver.
Qed.

Lemma use_model_ret py_str rules env g p c requested cost sink r sink' :
  use_model py_str rules env g p c requested cost sink = (Ret r, sink') → sink' = sink ∧ granted rules env g p c requested cost r.
Proof.
  unfold use_model. intros H. apply bind_ret_inv in H as ([]&s1&H1&H). apply check_model_ret in H1 as [-> Hm].
  apply bind_ret_inv in H as ([]&s2&H2&H). apply check_budget_ret in H2 as [-> Hb].
  apply decide_use_ret in H as (->&Hs&Hd&Ha&->). split; [done|].
  unfold gateway_in_scope in Hs. apply andb_true_iff in Hs as [?%bool_decide_eq_true ?%bool_decide_eq_true]. by split.
Qed.

(** In process, a request for a model is prepared only when it is granted under the
    policy of the caller's tenant and project. *)
Theorem model_request_granted py_str rules c requested cost s r s' :
  prepare_chat_request py_str rules c requested cost s = (Ret r, s') →
  ∃ p g, dict_get (cx_tenant_id c, cx_project_id c) (im_policies s) = Some p ∧
    dict_get (mp_gateway_id p) (im_gateways s) = Some g ∧ granted rules None g p c requested cost r ∧ s' = s.
Proof.
  unfold prepare_chat_request, policy_for, gateway_for. intros H.
  apply bind_ret_inv in H as (p&s1&H1&H). unfold get_state, of_option, mbind, M_bind in H1.
  destruct (dict_get _ (im_policies s)) as [p'|] eqn:Hp; [|done]. injection H1 as -> <-.
  apply bind_ret_inv in H as ([]&s2&H2&H). apply check_model_ret in H2 as [-> Hm].
  apply bind_ret_inv in H as ([]&s3&H3&H). apply check_budget_ret in H3 as [-> Hb].
  apply bind_ret_inv in H as (g&s4&H4&H). unfold get_state, of_option, mbind, M_bind in H4.
  destruct (dict_get _ (im_gateways s)) as [g'|] eqn:Hg; [|done]. injection H4 as -> <-.
  apply zoom_inv in H as (sink&H&->). apply decide_use_ret in H as (->&Hs&Hd&Ha&->).
  exists p, g. split_and!; [done|done| |by destruct s].
  unfold gateway_in_scope in Hs. apply andb_true_iff in Hs as [?%bool_decide_eq_true ?%bool_decide_eq_true]. by split.
Qed.

Section sql_theorems.
Context {W : Type} (py_str : value → string) (py_float : value → option float) (rules : list StaticPolicyRule).
Implicit Types s : SQLAlchemyModelGatewayProvider W.

(** The gateway and the policy a context uses. *)
Definition gateway_of (c : RuntimeContext) s : option ModelGatewayConfig :=
  id ← configured_gateway c; g ← dict_get id (sm_gateways s);
  if negb (mg_is_deleted g) && bool_decide (mg_status g = "active") then Some g else None.
Definition policy_of (c : RuntimeContext) (g : ModelGatewayConfig) s : option ModelPolicyConfig :=
  List.find (policy_applies c (mg_id g)) (sm_policies s).

Lemma gateway_run c s : (∃ g, _gateway c s = (Ret g, s) ∧ gateway_of c s = Some g) ∨ ∃ e, _gateway c s = (Raise e, s).
Proof.
  unfold _gateway, gateway_of. m_unfold. destruct (configured_gateway c) as [id|]; simpl; [|by eauto].
  destruct (dict_get id (sm_gateways s)) as [g|]; simpl; [|by eauto]. destruct (_ && _); eauto.
Qed.
Lemma policy_run c g s : (∃ p, _policy c (mg_id g) s = (Ret p, s) ∧ policy_of c g s = Some p) ∨ ∃ e, _policy c (mg_id g) s = (Raise e, s).
Proof. unfold _policy, policy_of. m_unfold. destruct (List.find _ _); eauto. Qed.

(** Nothing but the audit log has changed. *)
Definition only_audited s s' : Prop := s' = s <| sm_sink := sm_sink s' |>.

Lemma engine_only_audited {A} (m : M AuditSink A) s : only_audited s (sm_engine m s).2.
Proof. unfold sm_engine, zoom, only_audited. by destruct (m (sm_sink s)). Qed.

Lemma sql_prepare_run c requested cost s :
  (∃ e s', sql_prepare_chat_request py_str rules c requested cost s = (Raise e, s') ∧ only_audited s s') ∨
  ∃ g p r, sql_prepare_chat_request py_str rules c requested cost s = (Ret r, s) ∧ gateway_of c s = Some g ∧
    policy_of c g s = Some p ∧ granted rules (cx_environment c) g p c requested cost r.
Proof.
  unfold sql_prepare_chat_request, mbind, M_bind. destruct (gateway_run c s) as [(g&->&Hg)|[e ->]].
  2: { left. exists e, s. split; [done|]. by destruct s. }
  destruct (policy_run c g s) as [(p&->&Hp)|[e ->]].
  2: { left. exists e, s. split; [done|]. by destruct s. }
  pose proof (engine_only_audited (use_model py_str rules (cx_environment c) g p c requested cost) s) as Ho.
  unfold sm_engine, zoom in *. destruct (use_model _ _ _ _ _ _ _ _ _) as [[r|e] sink] eqn:E; [|by left; eauto].
  right. apply use_model_ret in E as [-> Hr]. exists g, p, r. split_and!; [by destruct s|done..].
Qed.

Lemma sql_record_run c request_id model prompt completion cost currency raw g s :
  gateway_of c s = Some g → gateway_in_scope g c = true →
  let u := usage_of (sm_next_usage s) (cx_attempt_id c) g (mg_id g) c request_id model prompt completion cost currency raw in
  sql_record_usage c request_id model prompt completion cost currency raw s =
  (Ret u, s <| sm_usage := sm_usage s ++ [u] |> <| sm_next_usage := sm_next_usage s + 1 |>).
Proof.
  intros Hg Hs. unfold sql_record_usage, mbind, M_bind. destruct (gateway_run c s) as [(g'&->&Hg')|[e He]].
  - rewrite Hg in Hg'. injection Hg' as <-. unfold sm_engine, zoom, _assert_gateway_scope. rewrite Hs. by destruct s.
  - unfold gateway_of in Hg. unfold _gateway in He. m_unfold in He. destruct (configured_gateway c) as [id|]; [|done]. simpl in *.
    destruct (dict_get id (sm_gateways s)) as [g'|]; [|done]. simpl in *. by destruct (_ && _).
Qed.

(** C19: A model is called only when the request is granted, and a call that was refused
    touches nothing but the audit log; a call that succeeded is recorded once, for the run and
    the gateway, with the sum of its tokens. *)
Theorem model_call_guarded c requested cost execute s :
  let '(r, s') := run_chat py_str py_float rules c requested cost execute s in
  (∃ e, r = Raise e ∧ only_audited s s') ∨
  ∃ g p request, gateway_of c s = Some g ∧ policy_of c g s = Some p ∧
    granted rules (cx_environment c) g p c requested cost request ∧
    sm_world s' = (execute request (sm_world s)).2 ∧
    match r with
    | Ret x => me_request x = request ∧ sm_usage s' = sm_usage s ++ [me_usage_snapshot x] ∧
        us_run_id (me_usage_snapshot x) = cx_run_id c ∧ us_gateway_id (me_usage_snapshot x) = mg_id g ∧
        us_total_tokens (me_usage_snapshot x) = us_prompt_tokens (me_usage_snapshot x) + us_completion_tokens (me_usage_snapshot x)
    | Raise _ => sm_usage s' = sm_usage s
    end.
Proof.
  unfold run_chat. unfold mbind at 1, M_bind at 1.
  destruct (sql_prepare_run c requested cost s) as [(e&s'&->&Ho)|(g&p&request&->&Hg&Hp&Hgr)]; [by left; eauto|].
  unfold mbind at 1, M_bind at 1, catch, in_world, zoom.
  destruct (execute request (sm_world s)) as [v w] eqn:Hx. set (s1 := s <| sm_world := w |>).
  assert (gateway_in_scope g c = true) as Hsc.
  { destruct (gd_scope _ _ _ _ _ _ _ _ Hgr) as [H1 H2]. unfold gateway_in_scope. by rewrite !bool_decide_true. }
  destruct v as [v|e].
  - cbv zeta. unfold mbind at 1, M_bind at 1. rewrite (sql_record_run _ _ _ _ _ _ _ _ g s1) by done.
    unfold sm_engine, zoom, write, mbind, M_bind, modify. simpl. right. exists g, p, request. rewrite Hx. by split_and!.
  - destruct e; unfold sm_engine, zoom, write, mbind, M_bind, modify, raise; simpl; right; exists g, p, request; rewrite Hx;
      by split_and!.
Qed.
End sql_theorems.

(** The limits on tokens and on the cost of a day are never read. *)
Lemma daily_and_token_limits_ignored py_str rules env g p c requested cost tokens day sink :
  use_model py_str rules env g (mkModelPolicy (mp_id p) (mp_tenant_id p) (mp_project_id p) (mp_gateway_id p)
    (mp_default_model p) (mp_allowed_models p) (mp_denied_models p) tokens (mp_max_cost_per_run p) day (mp_fallback_policy p)
    (mp_on_budget_exceeded p) (mp_agent_id p) (mp_agent_version_id p) (mp_status p) (mp_is_deleted p)) c requested cost sink =
  use_model py_str rules env g p c requested cost sink.
Proof. done. Qed.

(** ** Example *)

Definition demo_model_gateway : ModelGatewayConfig := mkModelGateway 1 1 (Some 1) "openai_compatible" "https://models" "secret:key" None "active" false.
Definition demo_model_policy : ModelPolicyConfig :=
  mkModelPolicy 1 1 (Some 1) 1 "small" ["small"; "large"] ["large"] None (Some (float_of_Z 1)) None [] "reject" None None "active" false.
Definition demo_models : InMemoryModelGatewayProvider := mkModelProvider [] [(1, demo_model_gateway)] [((1, Some 1), demo_model_policy)] [] 0.
Definition demo_prepared : PreparedModelRequest := mkPrepared 1 "https://models" "secret:key" "small" "openai_compatible".

Lemma model_request_granted_witness :
  prepare_chat_request (λ _, "") [] demo_context None (float_of_Z 1) demo_models = (Ret demo_prepared, demo_models) ∧
  allows demo_model_policy "small" ∧ affordable demo_model_policy (float_of_Z 1) ∧
  (prepare_chat_request (λ _, "") [] demo_context (Some "large") (float_of_Z 1) demo_models).1 = Raise (ModelNotAllowedError "large") ∧
  (prepare_chat_request (λ _, "") [] demo_context None (float_of_Z 2) demo_models).1 = Raise (BudgetExceededError "max_cost_per_run").
Proof.
  assert (prepare_chat_request (λ _, "") [] demo_context None (float_of_Z 1) demo_models = (Ret demo_prepared, demo_models)) as E
    by reflexivity.
  destruct (model_request_granted (λ _, "") [] demo_context None (float_of_Z 1) demo_models demo_prepared demo_models E)
    as (p&g&Hp&Hg&Hgr&_). injection Hp as <-.
  split; [exact E|]. split; [exact (proj2 (gd_model _ _ _ _ _ _ _ _ Hgr))|]. split; [exact (gd_budget _ _ _ _ _ _ _ _ Hgr)|].
  split; reflexivity.
Defined.
