(* ===== verification/Registry.v ===== *)
(** What a worker loads for a run: the registry of [packages/registry.py], the references
    of packages in [packages/materializer.py] and the policy rules of
    [worker/durable.py].

    Extracting a package from an archive is a parameter, and so is [Path.resolve]. *)

From stdpp Require Import gmap.
From Stdlib Require Import Ascii.
From S2P Require Import Prelude Values Json Tables Policy SqlNative DeploymentStore Packages Executor.

(** * Tables *)

(** The columns of the mixins every table here has. *)
Record RowBase := mkBase {
  rb_id : Z;
  rb_tenant_id : Z;
  rb_project_id : option Z;
  rb_status : string;
  rb_is_deleted : bool
}.

Record ExecutionProfile := mkProfile {
  ep_base : RowBase;
  ep_name : string;
  ep_isolation_level : string;
  ep_image : option string;
  ep_python_version : option string;
  ep_dependency_lock_required : bool;
  ep_network_policy : string;
  ep_filesystem_policy : string;
  ep_cpu_limit : option string;
  ep_memory_limit : option string;
  ep_timeout_seconds : option Z;
  ep_allowed_env_json : list string;
  ep_allowed_secret_refs_json : list string;
  ep_allowed_gateway_refs_json : list string
}.
Record ModelGateway := mkGatewayRow {
  gy_base : RowBase;
  gy_name : string;
  gy_provider_type : string;
  gy_base_url : string;
  gy_credential_ref : string;
  gy_default_model_group : option string;
  gy_metadata_json : pydict
}.
Record SandboxPolicy := mkSandbox {
  sx_base : RowBase;
  sx_name : string;
  sx_isolation_level : string;
  sx_network_policy : string;
  sx_filesystem_policy : string;
  sx_metadata_json : pydict
}.
Record ContainerPoolPolicy := mkPool {
  pl_base : RowBase;
  pl_name : string;
  pl_max_containers : Z;
  pl_cpu_limit : string;
  pl_memory_limit : string;
  pl_idle_timeout_seconds : Z;
  pl_metadata_json : pydict
}.
Record Tool := mkRegistryTool {
  to_base : RowBase;
  to_name : string;
  to_description : option string;
  to_schema_json : pydict;
  to_risk_level : string
}.

Record RegistryTables := mkRegistryTables {
  rt_versions : dict Z AgentVersionRow;
  rt_deployments : dict Z DeploymentRow;
  rt_profiles : list ExecutionProfile;
  rt_gateways : dict Z ModelGateway;
  rt_sandboxes : dict Z SandboxPolicy;
  rt_pools : dict Z ContainerPoolPolicy;
  rt_tools : dict Z Tool
}.

(** * Bindings *)

(** [isinstance(value, int)]: a truth value is an integer. *)
Definition as_int (v : option value) : option Z :=
  match v with Some (VInt z) => Some z | Some (VBool b) => Some (Z.b2z b) | _ => None end.

Definition usable (b : RowBase) : bool := negb (rb_is_deleted b) && bool_decide (rb_status b = "active").
Definition owned (tenant : Z) (project : option Z) (b : RowBase) : bool :=
  (rb_tenant_id b =? tenant) && bool_decide (rb_project_id b = project).

(** A row named by an id of the configuration: missing, out of scope, or found. *)
Definition bound {S R} (base : R → RowBase) (rows : dict Z R) (tenant : Z) (project : option Z) (what : string) (id : Z) : M S R :=
  match dict_get id rows with
  | Some r =>
      check (usable (base r)) (PackageRegistryError (what +:+ "_not_found")) ;;
      check (owned tenant project (base r)) (PackageRegistryError (what +:+ "_scope_mismatch")) ;;
      mret r
  | None => raise (PackageRegistryError (what +:+ "_not_found"))
  end.
Definition bound_opt {S R} (base : R → RowBase) (rows : dict Z R) (tenant : Z) (project : option Z) (what : string)
    (v : option value) : M S (option R) :=
  match as_int v with
  | None => mret None
  | Some id => r ← bound base rows tenant project what id; mret (Some r)
  end.

Section registry.
Context (sha256 : string → string) (resolve : string → string).

(** What [OciPackageMaterializer.materialize] returns, or its error code. *)
Record MaterializedPackage := mkMaterialized { mz_source_uri : string; mz_load_path : string; mz_source_path : string }.
Context (materialize : string → MaterializedPackage + string) (runtime_mode : string).

Definition _model_gateway (tenant : Z) (project : option Z) (config : pydict) : M RegistryTables (option ModelGateway) :=
  s ← get_state; bound_opt gy_base (rt_gateways s) tenant project "model_gateway" (dict_get "model_gateway_id" config).
Definition _sandbox_policy (tenant : Z) (project : option Z) (config : pydict) : M RegistryTables (option SandboxPolicy) :=
  s ← get_state; bound_opt sx_base (rt_sandboxes s) tenant project "sandbox_policy" (dict_get "sandbox_policy_id" config).
Definition _container_pool_policy (tenant : Z) (project : option Z) (config : pydict)
  : M RegistryTables (option ContainerPoolPolicy) :=
  s ← get_state;
  bound_opt pl_base (rt_pools s) tenant project "container_pool_policy" (dict_get "container_pool_policy_id" config).

(** A profile is named, and looked for among those of the scope. *)
Definition profile_matches (tenant : Z) (project : option Z) (name : string) (p : ExecutionProfile) : bool :=
  owned tenant project (ep_base p) && bool_decide (ep_name p = name) && usable (ep_base p).
Definition _execution_profile (tenant : Z) (project : option Z) (config : pydict) : M RegistryTables (option ExecutionProfile) :=
  match dict_get "execution_profile_id" config with
  | Some (VStr name) =>
      if String.eqb name "" then mret None
      else
        s ← get_state;
        p ← of_option (List.find (profile_matches tenant project name) (rt_profiles s))
              (PackageRegistryError "execution_profile_not_found");
        mret (Some p)
  | _ => mret None
  end.

Fixpoint resolve_tools (tenant : Z) (project : option Z) (ids : list value) : M RegistryTables (list Tool) :=
  match ids with
  | [] => mret []
  | v :: ids =>
      id ← of_option (as_int (Some v)) (PackageRegistryError "tool_binding_invalid");
      s ← get_state;
      t ← bound to_base (rt_tools s) tenant project "tool" id;
      ts ← resolve_tools tenant project ids;
      mret (t :: ts)
  end.
Definition _tools (tenant : Z) (project : option Z) (config : pydict) : M RegistryTables (list Tool) :=
  match dict_get "tool_ids" config with
  | Some (VList ids) => resolve_tools tenant project ids
  | _ => mret []
  end.

Definition secret_binding (b : dict string string) (v : value) : dict string string :=
  match v with
  | VDict d => match dict_get "name" d, dict_get "ref" d with
               | Some (VStr name), Some (VStr ref) => dict_set name ref b
               | _, _ => b
               end
  | _ => b
  end.
Definition required_secret (b : dict string string) (v : value) : dict string string :=
  match v with VStr ref => if bool_decide (ref ∈ dict_values b) then b else dict_set ref ref b | _ => b end.
Definition _secret_bindings (manifest : pydict) : dict string string :=
  let entries k := match dict_get k manifest with Some (VList l) => l | _ => [] end in
  foldl required_secret (foldl secret_binding [] (entries "secrets")) (entries "required_secrets").

(** ** Payloads *)

Definition texts (l : list string) : value := VList (VStr <$> l).
Definition _execution_profile_payload (p : option ExecutionProfile) : value :=
  match p with
  | None => VNone
  | Some p => VDict [("name", VStr (ep_name p)); ("isolation_level", VStr (ep_isolation_level p));
      ("image", of_str_opt (ep_image p)); ("python_version", of_str_opt (ep_python_version p));
      ("dependency_lock_required", VBool (ep_dependency_lock_required p)); ("network_policy", VStr (ep_network_policy p));
      ("filesystem_policy", VStr (ep_filesystem_policy p)); ("cpu_limit", of_str_opt (ep_cpu_limit p));
      ("memory_limit", of_str_opt (ep_memory_limit p)); ("timeout_seconds", of_int_opt (ep_timeout_seconds p));
      ("allowed_env", texts (ep_allowed_env_json p)); ("allowed_secret_refs", texts (ep_allowed_secret_refs_json p));
      ("allowed_gateway_refs", texts (ep_allowed_gateway_refs_json p))]
  end.
Definition _model_gateway_payload (g : option ModelGateway) : value :=
  match g with
  | None => VNone
  | Some g => VDict [("id", VInt (rb_id (gy_base g))); ("name", VStr (gy_name g)); ("provider_type", VStr (gy_provider_type g));
      ("base_url", VStr (gy_base_url g)); ("credential_ref", VStr (gy_credential_ref g));
      ("default_model_group", of_str_opt (gy_default_model_group g)); ("metadata", VDict (gy_metadata_json g))]
  end.
Definition _sandbox_policy_payload (p : option SandboxPolicy) : value :=
  match p with
  | None => VNone
  | Some p => VDict [("id", VInt (rb_id (sx_base p))); ("name", VStr (sx_name p)); ("isolation_level", VStr (sx_isolation_level p));
      ("network_policy", VStr (sx_network_policy p)); ("filesystem_policy", VStr (sx_filesystem_policy p));
      ("metadata", VDict (sx_metadata_json p))]
  end.
Definition _container_pool_payload (p : option ContainerPoolPolicy) : value :=
  match p with
  | None => VNone
  | Some p => VDict [("id", VInt (rb_id (pl_base p))); ("name", VStr (pl_name p)); ("max_containers", VInt (pl_max_containers p));
      ("cpu_limit", VStr (pl_cpu_limit p)); ("memory_limit", VStr (pl_memory_limit p));
      ("idle_timeout_seconds", VInt (pl_idle_timeout_seconds p)); ("metadata", VDict (pl_metadata_json p))]
  end.
Definition tool_payload (t : Tool) : value :=
  VDict [("id", VInt (rb_id (to_base t))); ("name", VStr (to_name t)); ("description", of_str_opt (to_description t));
    ("risk_level", VStr (to_risk_level t)); ("schema", VDict (to_schema_json t))].

(** ** The configuration of a run *)

Record Bindings := mkBindings {
  bd_profile : option ExecutionProfile;
  bd_sandbox : option SandboxPolicy;
  bd_pool : option ContainerPoolPolicy;
  bd_gateway : option ModelGateway;
  bd_tools : list Tool
}.
Definition bindings_for (tenant : Z) (project : option Z) (config : pydict) : M RegistryTables Bindings :=
  profile ← _execution_profile tenant project config;
  sandbox ← _sandbox_policy tenant project config;
  pool ← _container_pool_policy tenant project config;
  gateway ← _model_gateway tenant project config;
  tools ← _tools tenant project config;
  mret (mkBindings profile sandbox pool gateway tools).

(** [**mapping.get(key, {})] *)
Definition mapping_entry (key : string) (d : pydict) : M RegistryTables pydict :=
  match dict_get key d with
  | None => mret []
  | Some (VDict e) => mret e
  | Some _ => raise (TypeError "object is not a mapping")
  end.
Definition without_none (d : pydict) : pydict := List.filter (λ p, match p.2 with VNone => false | _ => true end) d.

Definition runtime_config (manifest_config runtime : pydict) (environment : option string) (config : pydict) (b : Bindings)
    (secrets : dict string string) : pydict :=
  let timeout := match dict_get "timeout_seconds" config with
    | Some v => if truthy v then v else of_int_opt (bd_profile b ≫= ep_timeout_seconds)
    | None => of_int_opt (bd_profile b ≫= ep_timeout_seconds)
    end in
  let fixed := [("environment", of_str_opt environment); ("deployment_config", VDict config);
    ("execution_profile", _execution_profile_payload (bd_profile b)); ("model_gateway", _model_gateway_payload (bd_gateway b));
    ("tool_gateway", VDict [("tools", VList (tool_payload <$> bd_tools b))]);
    ("sandbox_policy", _sandbox_policy_payload (bd_sandbox b)); ("container_pool_policy", _container_pool_payload (bd_pool b));
    ("secret_refs", VDict ((λ p, (p.1, VStr p.2)) <$> secrets))] in
  let d := dict_merge (dict_merge manifest_config runtime) fixed in
  without_none (match timeout with VNone => d | v => dict_set "timeout_seconds" v d end).

Definition bindings_metadata (b : Bindings) : pydict :=
  without_none [("execution_profile_id", of_str_opt (ep_name <$> bd_profile b));
    ("model_gateway_id", of_int_opt ((λ g, rb_id (gy_base g)) <$> bd_gateway b));
    ("sandbox_policy_id", of_int_opt ((λ p, rb_id (sx_base p)) <$> bd_sandbox b));
    ("container_pool_policy_id", of_int_opt ((λ p, rb_id (pl_base p)) <$> bd_pool b));
    ("tool_ids", VList ((λ t, VInt (rb_id (to_base t))) <$> bd_tools b))].

(** The configuration, the secrets and the metadata. *)
Definition _resolve_bindings (v : AgentVersionRow) (d : option DeploymentRow) (tenant : Z) (project : option Z)
  : M RegistryTables (pydict * dict string string * pydict) :=
  let manifest := vw_manifest_json v in
  let config := from_option dw_config_json [] d in
  b ← bindings_for tenant project config;
  let secrets := _secret_bindings manifest in
  m ← mapping_entry "runtime_config" manifest;
  r ← mapping_entry "runtime" config;
  mret (runtime_config m r (dw_environment <$> d) config b secrets, secrets, bindings_metadata b).

(** ** Resolving *)

Definition _deployment (id : option Z) (tenant : Z) (project : option Z) : M RegistryTables (option DeploymentRow) :=
  match id with
  | None => mret None
  | Some id =>
      s ← get_state;
      match dict_get id (rt_deployments s) with
      | Some d =>
          check (negb (dw_is_deleted d)) (PackageRegistryError "deployment_not_found") ;;
          check ((dw_tenant_id d =? tenant) && bool_decide (Some (dw_project_id d) = project))
            (PackageRegistryError "deployment_scope_mismatch") ;;
          mret (Some d)
      | None => raise (PackageRegistryError "deployment_not_found")
      end
  end.

Definition _assert_ready_runtime (v : AgentVersionRow) : M RegistryTables unit :=
  check (bool_decide (vw_status v = "ready")) (PackageRegistryError "agent_version_not_ready") ;;
  valid ← of_option (manifest_has_valid_token sha256 (vw_package_uri v) (vw_framework v) (vw_adapter v) (vw_entrypoint v)
    (vw_manifest_json v)) type_error;
  check valid (PackageRegistryError "package_validation_required") ;;
  check (package_uri_allowed_in_runtime (vw_package_uri v) runtime_mode)
    (PackageRegistryError "production_package_uri_not_allowed").

Definition _normalize_package_uri (uri : string) : string :=
  if starts_with "file://" uri then default uri (strip_prefix "file://" uri)
  else if starts_with "oci://" uri || starts_with "memory://" uri then uri
  else if starts_with "./" uri || starts_with ("." +:+ backslash) uri then resolve uri
  else uri.

Definition _resolved_package_uri (uri : string) : M RegistryTables (string * pydict) :=
  if negb (starts_with "oci://" uri) then mret (_normalize_package_uri uri, [("source_package_uri", VStr uri)])
  else match materialize uri with
  | inl m => mret (mz_load_path m, [("source_package_uri", VStr (mz_source_uri m));
      ("materialized_package_path", VStr (mz_load_path m)); ("materialized_package_source", VStr (mz_source_path m))])
  | inr code => raise (PackageRegistryError code)
  end.

Definition resolve_for_run (version : Z) (deployment : option Z) (tenant : Z) (project : option Z)
  : M RegistryTables AgentRuntimeSpec :=
  s ← get_state;
  match dict_get version (rt_versions s) with
  | None => raise (PackageRegistryError "worker_agent_version_not_found")
  | Some v =>
      check (negb (vw_is_deleted v)) (PackageRegistryError "worker_agent_version_not_found") ;;
      d ← _deployment deployment tenant project;
      _assert_ready_runtime v ;;
      '(config, secrets, metadata) ← _resolve_bindings v d tenant project;
      '(uri, package_metadata) ← _resolved_package_uri (vw_package_uri v);
      mret (mkSpec (vw_adapter v) uri (vw_manifest_json v) config (Some secrets) (Some (dict_merge metadata package_metadata)))
  end.
End registry.

(** * References of packages ([packages/materializer.py]) *)

Record OciPackageReference := mkOci { oc_registry : string; oc_repository : string; oc_reference : string }.

(** [text.split(sep, maxsplit=1)] when [sep] occurs, and [text.rpartition(sep)] *)
Fixpoint partition (sep : Ascii.ascii) (s : string) : option (string * string) :=
  match s with
  | EmptyString => None
  | String c s' => if Ascii.eqb c sep then Some (EmptyString, s')
                   else '(a, b) ← partition sep s'; Some (String c a, b)
  end.
Fixpoint rpartition (sep : Ascii.ascii) (s : string) : option (string * string) :=
  match s with
  | EmptyString => None
  | String c s' =>
      match rpartition sep s' with
      | Some (a, b) => Some (String c a, b)
      | None => if Ascii.eqb c sep then Some (EmptyString, s') else None
      end
  end.
Fixpoint replace_char (old new : Ascii.ascii) (s : string) : string :=
  match s with EmptyString => EmptyString | String c s' => String (if Ascii.eqb c old then new else c) (replace_char old new s') end.
Fixpoint occurs (sub text : string) : bool :=
  starts_with sub text || match text with String _ text' => occurs sub text' | EmptyString => false end.
(** [text.split("/")] *)
Fixpoint split_slash (s : string) : list string :=
  match s with
  | EmptyString => [EmptyString]
  | String c s' =>
      if Ascii.eqb c "/"%char then EmptyString :: split_slash s'
      else match split_slash s' with p :: ps => String c p :: ps | [] => [String c EmptyString] end
  end.

Definition invalid_oci : exn := PackageRegistryError "oci_package_uri_invalid".
Definition parse_oci_package_uri (uri : string) : outcome OciPackageReference :=
  match strip_prefix "oci://" uri with
  | None => Raise invalid_oci
  | Some rest =>
      if negb (occurs "/" rest) then Raise invalid_oci
      else
        let named := if occurs "@sha256:" rest
          then '(name, digest) ← partition "@"%char rest; Some (name, replace_char ":"%char "-"%char digest)
          else '(name, reference) ← rpartition ":"%char rest;
               if String.eqb name "" || negb (occurs "/" name) || String.eqb reference "" then None else Some (name, reference) in
        match named with
        | None => Raise invalid_oci
        | Some (name, reference) =>
            match partition "/"%char name with
            | None => Raise (ValueError "not enough values to unpack (expected 2, got 1)")
            | Some (registry, repository) =>
                if String.eqb registry "" || String.eqb repository "" then Raise invalid_oci
                else Ret (mkOci registry repository reference)
            end
        end
  end.

(** ** Paths

    An absolute path is the list of its components; [pathlib] drops empty components and
    dots when it joins paths. *)
Definition components (p : string) : list string :=
  List.filter (λ c, negb (String.eqb c "") && negb (String.eqb c ".")) (split_slash p).
Definition join (base : list string) (p : string) : list string :=
  if starts_with "/" p then components p else base ++ components p.
(** The components of the repository, joined to the base one by one *)
Definition join_all (base : list string) (ps : list string) : list string := foldl join base ps.

Definition _candidate_source_paths (r : OciPackageReference) (roots : list (list string)) : list (list string) :=
  let ref := oc_reference r in
  roots ≫= λ root,
    let base := join_all (join root (oc_registry r)) (split_slash (oc_repository r)) in
    [join base ref; join (join base ref) "package"; join base (ref +:+ ".tar.gz"); join (join base ref) "package.tar.gz";
     join base (ref +:+ ".tgz"); join (join base ref) "package.tgz"; join base (ref +:+ ".zip"); join (join base ref) "package.zip"].

(** Where a path leads. *)
Definition step_into (p : list string) (c : string) : list string :=
  if String.eqb c ".." then removelast p else p ++ [c].
Definition normalize (p : list string) : list string := foldl step_into [] p.

(** * Policy rules ([worker/durable.py]) *)

Record PolicyRow := mkPolicyRow {
  po_base : RowBase;
  po_resource_type : string;
  po_action : string;
  po_decision : string;
  po_priority : Z;
  po_risk_level : option string;
  po_condition_json : pydict;
  po_reason : option string;
  po_metadata_json : pydict
}.

Section rules.
Context (py_str : value → string).

Definition all_decisions : list Decision :=
  [D_allow; D_deny; D_allow_with_redaction; D_allow_with_limit; D_require_approval; D_require_dry_run; D_fallback].
Definition _decision_value (v : string) : Decision :=
  default D_allow (List.find (λ d, bool_decide (decision_value d = v)) all_decisions).
Definition _int_or_none (v : value) : option Z :=
  match v with VInt z => Some z | VBool b => Some (Z.b2z b) | VStr s => py_int s | _ => None end.
Definition durable_string_or_none (v : value) : option string := match v with VNone => None | v => Some (py_str v) end.
Definition entry (key : string) (d : pydict) : value := default VNone (dict_get key d).

Definition rule_of (p : PolicyRow) : StaticPolicyRule :=
  let c := po_condition_json p in
  mkRule (pretty (rb_id (po_base p))) (po_resource_type p) (po_action p) (_decision_value (po_decision p))
    (or_str (po_reason p) (po_decision p)) (Some (rb_tenant_id (po_base p))) (rb_project_id (po_base p))
    (match entry "environment" c with
     | VStr e => Some e
     | _ => match entry "_environment" (po_metadata_json p) with VStr e => Some e | _ => None end
     end)
    (match durable_string_or_none (entry "risk_level" c) with
     | Some r => if String.eqb r "" then po_risk_level p else Some r
     | None => po_risk_level p
     end)
    (_int_or_none (entry "resource_id" c)) None (po_metadata_json p).

(** [policy_environment not in {None, environment}]; an environment that is a list or a
    dictionary, on which this raises, is not considered. *)
Definition other_environment (environment : option string) (p : PolicyRow) : bool :=
  match environment, entry "_environment" (po_metadata_json p) with
  | None, _ | _, VNone => false
  | Some e, VStr e' => negb (String.eqb e e')
  | Some _, _ => true
  end.

Definition policy_leb (a b : PolicyRow) : bool :=
  (po_priority a <? po_priority b) || ((po_priority a =? po_priority b) && (rb_id (po_base a) <=? rb_id (po_base b))).

Definition selected (tenant : Z) (project : option Z) (p : PolicyRow) : bool :=
  owned tenant project (po_base p) && usable (po_base p).
Definition _policy_rules (rows : list PolicyRow) (tenant : Z) (project : option Z) (environment : option string)
  : list StaticPolicyRule :=
  rule_of <$> List.filter (λ p, negb (other_environment environment p))
    (stable_sort policy_leb (List.filter (selected tenant project) rows)).
End rules.
