(* ===== verification/RegistryProps.v ===== *)
(** The registry gives a run only what is ready, validated and of its scope; which
    references of packages stay inside the package directories; stored policies decide. *)

From stdpp Require Import gmap.
From Stdlib Require Import Ascii.
From S2P Require Import Prelude Values Json Tables Policy SqlNative DeploymentStore Packages Executor Registry.

(** * Resolving *)



(** A row that may be used in the scope. *)
Definition available {R} (base : R → RowBase) (tenant : Z) (project : option Z) (r : R) : Prop :=
  rb_tenant_id (base r) = tenant ∧ rb_project_id (base r) = project ∧
  rb_status (base r) = "active" ∧ rb_is_deleted (base r) = false.

Lemma available_spec {R} (base : R → RowBase) tenant project r :
  usable (base r) = true → owned tenant project (base r) = true → available base tenant project r.
Proof.
  unfold usable, owned, available. intros [H1%negb_true_iff H2%bool_decide_eq_true]%andb_true_iff
    [H3%Z.eqb_eq H4%bool_decide_eq_true]%andb_true_iff. done.
Qed.













(** * Package directories *)

(** No component goes up. *)
Definition upless (p : list string) : Prop := ".." ∉ p.

Lemma normalize_upless acc p : upless p → foldl step_into acc p = acc ++ p.
Proof.
  revert acc. induction p as [|c p IH]; intros acc H; [by rewrite app_nil_r|]. simpl. unfold upless in *.
  rewrite not_elem_of_cons in H. destruct H as [Hc Hp]. rewrite IH by done. unfold step_into.
  destruct (String.eqb_spec c ".."); [congruence|]. by rewrite <-app_assoc.
Qed.

Lemma components_upless s : upless (split_slash s) → upless (components s).
Proof. unfold upless, components. intros H Hin. apply H. apply list_elem_of_In, List.filter_In in Hin as [Hin _]. by apply list_elem_of_In. Qed.

(** Joining text that neither starts at the top nor goes up stays below. *)
Definition below (root p : list string) : Prop := upless p ∧ root `prefix_of` p.

Lemma below_join root p s : below root p → starts_with "/" s = false → upless (split_slash s) → below root (join p s).
Proof.
  intros [Hu Hp] Hs Hc. unfold join. rewrite Hs. split.
  - unfold upless. rewrite elem_of_app. intros [?|?]; [done|]. by apply (components_upless s).
  - by apply prefix_app_r.
Qed.

Lemma split_slash_ne s : split_slash s ≠ [].
Proof. destruct s as [|c s]; [done|]. simpl. destruct (Ascii.eqb c _); [done|]. by destruct (split_slash s). Qed.

Lemma starts_slash c q : starts_with "/" (String c q) = Ascii.eqb "/"%char c.
Proof.
  unfold starts_with. cbn [strip_prefix]. destruct (Ascii.eqb "/"%char c); [by apply bool_decide_eq_true; eexists|].
  apply bool_decide_eq_false. by intros [].
Qed.

(** The components of a text have no slash in them. *)
Lemma slashless s p : p ∈ split_slash s → starts_with "/" p = false.
Proof.
  revert p. induction s as [|c s IH]; intros p; simpl.
  - by intros ->%list_elem_of_singleton.
  - destruct (Ascii.eqb_spec c "/"%char) as [->|Hc].
    + intros [->|H]%elem_of_cons; [done|by apply IH].
    + assert (∀ q, starts_with "/" (String c q) = false) as Hq.
      { intros q. rewrite starts_slash. destruct (Ascii.eqb_spec "/"%char c); congruence. }
      destruct (split_slash s) as [|q ps]; [by intros ->%list_elem_of_singleton|].
      intros [->|H]%elem_of_cons; [apply Hq|]. apply IH. by right.
Qed.

Lemma split_one s p : p ∈ split_slash s → split_slash p = [p].
Proof.
  revert p. induction s as [|c s IH]; intros p; simpl; [by intros ->%list_elem_of_singleton|].
  destruct (Ascii.eqb c "/"%char) eqn:Hc.
  - intros [->|H]%elem_of_cons; [done|by apply IH].
  - destruct (split_slash s) as [|q ps] eqn:E; [by destruct (split_slash_ne s)|].
    intros [->|H]%elem_of_cons; [|apply IH; by right]. simpl. rewrite Hc, (IH q); [done|left].
Qed.

Lemma below_join_all root s p : below root p → upless (split_slash s) → below root (join_all p (split_slash s)).
Proof.
  intros Hp Hs. unfold join_all. assert (∀ l p, below root p → (∀ c, c ∈ l → c ∈ split_slash s) → below root (foldl join p l)) as H.
  { clear Hp p. intros l. induction l as [|c l IH]; intros p Hp Hl; [done|]. simpl. apply IH.
    - apply below_join; [done|eapply slashless, Hl; left|]. rewrite (split_one s c) by (apply Hl; left).
      unfold upless. intros E%list_elem_of_singleton. apply Hs, Hl. rewrite <-E. left.
    - intros x Hx. apply Hl. by right. }
  by apply H.
Qed.

(** A suffix with a dot does not make a component go up. *)
Lemma split_suffix s suffix : split_slash suffix = [suffix] → ∃ l x, split_slash s = l ++ [x] ∧ split_slash (s +:+ suffix) = l ++ [x +:+ suffix].
Proof.
  intros Hx. induction s as [|c s (l&x&H1&H2)]; [by exists [], ""|].
  change (String c s +:+ suffix) with (String c (s +:+ suffix)). simpl. rewrite H1, H2.
  destruct (Ascii.eqb c "/"%char); [by exists ("" :: l), x|].
  destruct l as [|y l]; simpl; [by exists [], (String c x)|by exists (String c y :: l), x].
Qed.

Lemma upless_suffix s suffix : split_slash suffix = [suffix] → (3 ≤ String.length suffix)%nat → upless (split_slash s) →
  upless (split_slash (s +:+ suffix)).
Proof.
  intros Hx Hl Hs. destruct (split_suffix s suffix Hx) as (l&x&H1&->). unfold upless in *. rewrite H1 in Hs.
  rewrite elem_of_app, list_elem_of_singleton in *. intros [?|He]; [tauto|].
  assert (String.length (x +:+ suffix) = 2%nat) as Hlen by (by rewrite <-He).
  assert (String.length (x +:+ suffix) = (String.length x + String.length suffix)%nat) as Ha.
  { clear. induction x as [|c x IH]; [done|]. change (String c x +:+ suffix) with (String c (x +:+ suffix)). simpl. by rewrite IH. }
  lia.
Qed.

Lemma relative_suffix s suffix : starts_with "/" s = false → starts_with "/" suffix = false → starts_with "/" (s +:+ suffix) = false.
Proof.
  destruct s as [|c s]; [done|]. intros H _. change (String c s +:+ suffix) with (String c (s +:+ suffix)).
  by rewrite starts_slash in *.
Qed.

(** A reference whose registry, repository and tag have no component that goes up, and
    whose tag does not start at the top, is looked for inside the package directories only. *)
Theorem oci_candidates_inside r roots p :
  upless (split_slash (oc_registry r)) → starts_with "/" (oc_registry r) = false → upless (split_slash (oc_repository r)) →
  upless (split_slash (oc_reference r)) → starts_with "/" (oc_reference r) = false → Forall upless roots →
  p ∈ _candidate_source_paths r roots → ∃ root, root ∈ roots ∧ root `prefix_of` normalize p.
Proof.
  intros Hg Hg' Hr Ht Ht' Hroots (root&Hp&Hin)%list_elem_of_bind. exists root. split; [done|].
  rewrite Forall_forall in Hroots. specialize (Hroots _ Hin).
  assert (below root p) as [Hu Hpre].
  { assert (below root (join_all (join root (oc_registry r)) (split_slash (oc_repository r)))) as Hb.
    { apply below_join_all; [|done]. by apply below_join. }
    set (base := join_all _ _) in *. assert (below root (join base (oc_reference r))) as Hj by by apply below_join.
    assert (∀ x, starts_with "/" x = false → split_slash x = [x] → (3 ≤ String.length x)%nat →
      below root (join base (oc_reference r +:+ x))) as Hx.
    { intros x H1 H2 H3. apply below_join; [done|by apply relative_suffix|by apply upless_suffix]. }
    assert (∀ x, starts_with "/" x = false → upless (split_slash x) → below root (join (join base (oc_reference r)) x)) as Hy.
    { intros x H1 H2. by apply below_join. }
    repeat (apply elem_of_cons in Hp as [->|Hp]; [first [exact Hj|apply Hx; [done|done|simpl; lia]|
      apply Hy; [done|by apply (bool_decide_unpack _)]]|]). by apply elem_of_nil in Hp. }
  unfold normalize. rewrite normalize_upless by done. done.
Qed.

(** The code has no such check: a reference can lead out of the package directories. *)
Example oci_reference_escapes :
  match parse_oci_package_uri "oci://registry/../../../etc:ssh" with
  | Ret r => normalize <$> head (_candidate_source_paths r [["srv"; "oci"]])
  | Raise _ => None
  end = Some ["etc"; "ssh"].
Proof. vm_compute. reflexivity. Qed.

(** * Stored policies *)

Section stored.
Context (py_str : value → string).

Lemma rules_of_rows rows tenant project environment x :
  x ∈ _policy_rules py_str rows tenant project environment ↔
  ∃ p, p ∈ rows ∧ available po_base tenant project p ∧ other_environment environment p = false ∧ x = rule_of py_str p.
Proof.
  unfold _policy_rules. rewrite list_elem_of_fmap. setoid_rewrite list_elem_of_In at 1. setoid_rewrite List.filter_In.
  setoid_rewrite negb_true_iff. split.
  - intros (p&->&Hp&He). apply list_elem_of_In in Hp. rewrite stable_sort_perm in Hp.
    apply list_elem_of_In, List.filter_In in Hp as [Hp [Ho Hu]%andb_true_iff]. exists p.
    split_and!; [by apply list_elem_of_In|by apply available_spec|done|done].
  - intros (p&Hp&(H1&H2&H3&H4)&He&->). exists p. split; [done|]. split; [|done]. apply list_elem_of_In. rewrite stable_sort_perm.
    apply list_elem_of_In, List.filter_In. split; [by apply list_elem_of_In|]. unfold selected, owned, usable.
    rewrite H1, H2, H3, H4, Z.eqb_refl. by rewrite !bool_decide_true.
Qed.

Lemma decision_value_of d : _decision_value (decision_value d) = d.
Proof. by destruct d. Qed.

(** A policy stored as a denial denies: while it is active in the tenant and project of
    the run and meant for its environment, every request its rule matches is denied, whatever
    other policies there are. *)
Theorem stored_deny_enforced rows tenant project environment p q sink :
  p ∈ rows → available po_base tenant project p → other_environment environment p = false →
  po_decision p = "deny" → matches (rule_of py_str p) q = true →
  ∃ d sink', evaluate py_str (_policy_rules py_str rows tenant project environment) q sink = (Ret d, sink') ∧ pd_decision d = D_deny.
Proof.
  intros Hp Ha He Hd Hm. destruct (evaluate_spec py_str (_policy_rules py_str rows tenant project environment) q sink)
    as (d&sink'&Hev&Hdeny&_). exists d, sink'. split; [done|]. apply Hdeny. exists (rule_of py_str p).
  split; [|split; [done|]]; [apply rules_of_rows; by exists p|]. simpl. rewrite Hd. done.
Qed.

(** A decision that is not one of the words is an allowance. *)
Lemma unknown_decision_allows p : (∀ d, decision_value d ≠ po_decision p) → ru_decision (rule_of py_str p) = D_allow.
Proof.
  intros H. simpl. unfold _decision_value. destruct (List.find _ _) as [d|] eqn:E; [|done].
  apply List.find_some in E as [_ E%bool_decide_eq_true]. by destruct (H d).
Qed.

(** A policy of the whole tenant is no rule for the runs of a project. *)
Lemma tenant_wide_policies_ignored rows tenant project environment x : 
  x ∈ _policy_rules py_str rows tenant (Some project) environment → ru_project_id x = Some project.
Proof. intros (p&_&(_&Hp&_)&_&->)%rules_of_rows. exact Hp. Qed.
End stored.

(** * Examples *)



Lemma oci_candidates_inside_witness : ∃ root, root ∈ [["srv"; "oci"]] ∧ root `prefix_of` normalize ["srv"; "oci"; "registry"; "team"; "agent"; "1.0"].
Proof.
  apply (oci_candidates_inside (mkOci "registry" "team/agent" "1.0") [["srv"; "oci"]]); try reflexivity;
    by apply (bool_decide_unpack _).
Defined.

Lemma stored_deny_enforced_witness : ∃ d sink', evaluate (λ _, "") (_policy_rules (λ _, "")
    [mkPolicyRow (mkBase 1 1 (Some 1) "active" false) "tool" "call" "deny" 100 None [] None []] 1 (Some 1) None)
    tool_request [] = (Ret d, sink') ∧ pd_decision d = D_deny.
Proof.
  apply (stored_deny_enforced (λ _, "") _ 1 (Some 1) None
    (mkPolicyRow (mkBase 1 1 (Some 1) "active" false) "tool" "call" "deny" 100 None [] None [])); try reflexivity; [left|by split].
Defined.
