(* ===== verification/Observe.v ===== *)
(** Redaction and sampling ([observability/policies.py]), the compliance audit log
    ([audit.py]), the sinks of events and spans ([events.py], [traces.py]), the exporter
    ([exporters.py]) and the metrics registry ([metrics.py]).

    The text of an exception, [str(exc)], is the parameter [exc_text]; a sink outside the
    repository acts on a world [W]. *)

From stdpp Require Import gmap.
From Stdlib Require Import SpecFloat Ascii.
From S2P Require Import Prelude Values Json Floats Streaming Context.

(** * Redaction *)

Fixpoint _redact_value (v : value) (fields : gset string) (replacement : string) : value :=
  match v with
  | VDict d => VDict ((fix go (d : list (string * value)) : list (string * value) := match d with
      | [] => []
      | (k, x) :: d => (k, if bool_decide (k ∈ fields) then VStr replacement else _redact_value x fields replacement) :: go d
      end) d)
  | VList l => VList ((fix go (l : list value) : list value := match l with
      | [] => []
      | x :: l => _redact_value x fields replacement :: go l
      end) l)
  | _ => v
  end.

Record RedactionPolicy := mkRedaction {
  rp_fields : gset string;
  rp_replacement : string
}.
(** [RedactionPolicy(fields=...)] *)
Definition redaction (fields : gset string) : RedactionPolicy := mkRedaction fields "[REDACTED]".

(** [RedactionPolicy.apply]: a dictionary stays one, so the [TypeError] of the source is
    for payloads that are none. *)
Definition redact_entry (p : RedactionPolicy) (e : string * value) : string * value :=
  (e.1, if bool_decide (e.1 ∈ rp_fields p) then VStr (rp_replacement p) else _redact_value e.2 (rp_fields p) (rp_replacement p)).
Definition apply (p : RedactionPolicy) (payload : pydict) : pydict := redact_entry p <$> payload.

(** A dictionary that also holds floats at its top level, and its redaction. *)
Inductive cell := Val (v : value) | Flt (x : float).
Definition redact_cell (p : RedactionPolicy) (e : string * cell) : string * cell :=
  (e.1, if bool_decide (e.1 ∈ rp_fields p) then Val (VStr (rp_replacement p))
        else match e.2 with Val v => Val (_redact_value v (rp_fields p) (rp_replacement p)) | Flt x => Flt x end).
Definition apply_cells (p : RedactionPolicy) (payload : dict string cell) : dict string cell := redact_cell p <$> payload.

(** * Visibility and sampling *)

Record VisibilityPolicy := mkVisibility { vp_allowed_levels : gset string }.
Definition allows (p : VisibilityPolicy) (level : string) : bool := bool_decide (level ∈ vp_allowed_levels p).

Record SamplingPolicy := mkSampling { sa_sample_rate : float }.

(** The bytes of [text.encode("utf-8")]. *)
Definition utf8_char (c : ascii) : list Z :=
  let z := code c in if z <? 128 then [z] else [192 + z / 64; 128 + z mod 64].
Definition utf8 (s : string) : list Z := to_chars s ≫= utf8_char.
(** [int.from_bytes(bytes, "little")] *)
Fixpoint from_bytes (l : list Z) : Z := match l with [] => 0 | b :: l => b + 256 * from_bytes l end.
(** [int(x)]: towards zero; a float that is no number has none. *)
Definition py_trunc (x : float) : option Z :=
  match x with
  | S754_zero _ => Some 0
  | S754_finite s m e =>
      let n := if 0 <=? e then Zpos m * 2 ^ e else Zpos m / 2 ^ (- e) in Some (if s then - n else n)
  | _ => None
  end.

Definition should_sample {S} (p : SamplingPolicy) (trace_id : string) : M S bool :=
  if fleb (sa_sample_rate p) (float_of_Z 0) then mret false
  else if fleb (float_of_Z 1) (sa_sample_rate p) then mret true
  else
    limit ← of_option (py_trunc (fmul (sa_sample_rate p) (float_of_Z 10000))) (ValueError "cannot convert float NaN to integer");
    mret (from_bytes (utf8 trace_id) mod 10000 <? limit).

(** * The compliance audit log *)

Record ComplianceAuditRecord := mkComplianceRecord {
  ca_id : Z;
  ca_tenant_id : Z;
  ca_project_id : option Z;
  ca_actor_id : option string;
  ca_actor_type : string;
  ca_action : string;
  ca_resource_type : string;
  ca_resource_id : option Z;
  ca_result : string;
  ca_metadata : pydict;
  ca_created_at : Z
}.

Record InMemoryComplianceAuditLog := mkAuditLog {
  al_redaction_policy : RedactionPolicy;
  al_records : list ComplianceAuditRecord;
  al_next_id : Z
}.
#[export] Instance InMemoryComplianceAuditLog_eta : Eta InMemoryComplianceAuditLog := λ l,
  mkAuditLog (al_redaction_policy l) (al_records l) (al_next_id l).
(** [RedactionPolicy(fields={"api_key", "secret"})], the default of logs and exporters. *)
Definition default_redaction : RedactionPolicy := redaction {["api_key"; "secret"]}.
Definition new_audit_log (p : option RedactionPolicy) : InMemoryComplianceAuditLog :=
  mkAuditLog (default default_redaction p) [] 1.

Definition record (now tenant : Z) (project : option Z) (actor : option string) (actor_type action resource_type : string)
    (resource : option Z) (result : string) (metadata : pydict) : M InMemoryComplianceAuditLog ComplianceAuditRecord :=
  l ← get_state;
  let r := mkComplianceRecord (al_next_id l) tenant project actor actor_type action resource_type resource result
    (apply (al_redaction_policy l) metadata) now in
  modify (λ l, l <| al_next_id := al_next_id l + 1 |>) ;;
  modify (λ l, l <| al_records := al_records l ++ [r] |>) ;;
  mret r.

(** * The sinks of events and spans *)

Record InMemoryEventSink := mkEventSink {
  es_redaction_policy : RedactionPolicy;
  es_events : list AgentEvent
}.
#[export] Instance InMemoryEventSink_eta : Eta InMemoryEventSink := λ s, mkEventSink (es_redaction_policy s) (es_events s).

(** [a or b] of optional integers and texts. *)
Definition or_opt_int (a b : option Z) : option Z :=
  match a with Some z => if z =? 0 then b else a | None => b end.
Definition or_opt_str (a b : option string) : option string := if str_truthy a then a else b.

Definition emit (e : AgentEvent) (c : RuntimeContext) : M InMemoryEventSink AgentEvent :=
  s ← get_state;
  check (bool_decide (is_Some (ev_sequence e))) (ValueError "event_sequence_required") ;;
  let stored := post_init (e <| ev_run_id := or_opt_int (ev_run_id e) (Some (cx_run_id c)) |>
    <| ev_attempt_id := or_opt_int (ev_attempt_id e) (cx_attempt_id c) |>
    <| ev_framework := or_opt_str (ev_framework e) (cx_framework c) |>
    <| ev_payload := apply (es_redaction_policy s) (ev_payload e) |>) in
  modify (λ s, s <| es_events := es_events s ++ [stored] |>) ;;
  mret stored.

Record TraceSpan := mkSpan {
  ts_trace_id : string;
  ts_span_id : string;
  ts_parent_span_id : option string;
  ts_name : string;
  ts_kind : string;
  ts_tenant_id : Z;
  ts_project_id : option Z;
  ts_run_id : option Z;
  ts_metadata : pydict;
  ts_started_at : Z;
  ts_finished_at : option Z;
  ts_latency_ms : option Z
}.
#[export] Instance TraceSpan_eta : Eta TraceSpan := λ t,
  mkSpan (ts_trace_id t) (ts_span_id t) (ts_parent_span_id t) (ts_name t) (ts_kind t) (ts_tenant_id t) (ts_project_id t)
    (ts_run_id t) (ts_metadata t) (ts_started_at t) (ts_finished_at t) (ts_latency_ms t).

Record InMemoryTraceSink := mkTraceSink {
  tk_redaction_policy : RedactionPolicy;
  tk_sampling_policy : SamplingPolicy;
  tk_spans : list TraceSpan
}.
#[export] Instance InMemoryTraceSink_eta : Eta InMemoryTraceSink := λ s,
  mkTraceSink (tk_redaction_policy s) (tk_sampling_policy s) (tk_spans s).

Definition record_span (t : TraceSpan) : M InMemoryTraceSink (option TraceSpan) :=
  s ← get_state;
  sampled ← should_sample (tk_sampling_policy s) (ts_trace_id t);
  if (sampled : bool) then
    let stored := t <| ts_metadata := apply (tk_redaction_policy s) (ts_metadata t) |> in
    modify (λ s, s <| tk_spans := tk_spans s ++ [stored] |>) ;; mret (Some stored)
  else mret None.

(** * The exporter *)

Record ExporterConfig := mkExporterConfig {
  xc_name : string;
  xc_kind : string;
  xc_enabled : bool
}.
Record ExportFailure := mkExportFailure {
  xf_exporter : string;
  xf_payload_type : string;
  xf_reason : string;
  xf_payload : pydict
}.

Section exporter.
Context {W : Type} (exc_text : exn → string) (send : pydict → M W unit).

Record ObservabilityExporter := mkExporter {
  ox_config : ExporterConfig;
  ox_sink : W;
  ox_redaction_policy : RedactionPolicy;
  ox_sampling_policy : SamplingPolicy;
  ox_failures : list ExportFailure;
  ox_delivered : list pydict
}.
#[export] Instance ObservabilityExporter_eta : Eta ObservabilityExporter := λ x,
  mkExporter (ox_config x) (ox_sink x) (ox_redaction_policy x) (ox_sampling_policy x) (ox_failures x) (ox_delivered x).

Definition _send (payload_type : string) (payload : pydict) : M ObservabilityExporter bool :=
  x ← get_state;
  let redacted := apply (ox_redaction_policy x) payload in
  r ← catch (zoom ox_sink (λ w x, x <| ox_sink := w |>) (send redacted));
  match r with
  | Raise e =>
      modify (λ x, x <| ox_failures := ox_failures x ++
        [mkExportFailure (xc_name (ox_config x)) payload_type (exc_text e) redacted] |>) ;;
      mret false
  | Ret _ => modify (λ x, x <| ox_delivered := ox_delivered x ++ [redacted] |>) ;; mret true
  end.

(** [str(event.event_id or event.run_id or event.type)] *)
Definition export_trace_id (e : AgentEvent) : string :=
  match or_opt_str (ev_event_id e) None, or_opt_int (ev_run_id e) None with
  | Some id, _ => id
  | None, Some r => pretty r
  | None, None => ev_type e
  end.
Definition exported_event (e : AgentEvent) : pydict :=
  [("ledger", VStr "event"); ("type", VStr (ev_type e)); ("run_id", of_int_opt (ev_run_id e));
   ("attempt_id", of_int_opt (ev_attempt_id e)); ("sequence", of_int_opt (ev_sequence e));
   ("event_id", of_str_opt (ev_event_id e)); ("payload", VDict (ev_payload e))].
Definition export_event (e : AgentEvent) : M ObservabilityExporter bool :=
  x ← get_state;
  if negb (xc_enabled (ox_config x)) then mret false
  else
    sampled ← should_sample (ox_sampling_policy x) (export_trace_id e);
    if (sampled : bool) then _send "event" (exported_event e) else mret false.

Definition exported_audit (r : ComplianceAuditRecord) : pydict :=
  [("ledger", VStr "audit"); ("action", VStr (ca_action r)); ("resource_type", VStr (ca_resource_type r));
   ("resource_id", of_int_opt (ca_resource_id r)); ("result", VStr (ca_result r)); ("metadata", VDict (ca_metadata r))].
Definition export_audit (r : ComplianceAuditRecord) : M ObservabilityExporter bool :=
  x ← get_state;
  if xc_enabled (ox_config x) then _send "audit" (exported_audit r) else mret false.
End exporter.
Arguments ObservabilityExporter : clear implicits.

(** The sink of the tests. *)
Record InMemoryExportSink := mkExportSink {
  xs_payloads : list pydict;
  xs_fail_next : bool
}.
#[export] Instance InMemoryExportSink_eta : Eta InMemoryExportSink := λ s, mkExportSink (xs_payloads s) (xs_fail_next s).
Definition sink_send (payload : pydict) : M InMemoryExportSink unit :=
  s ← get_state;
  if xs_fail_next s then
    modify (λ s, s <| xs_fail_next := false |>) ;; raise (RuntimeError "export_sink_failed")
  else modify (λ s, s <| xs_payloads := xs_payloads s ++ [payload] |>).

(** * Metrics *)

Record MetricsRegistry := mkMetrics {
  mt_counters : dict string Z;
  mt_gauges : dict string float;
  mt_histograms : dict string (list float)
}.
#[export] Instance MetricsRegistry_eta : Eta MetricsRegistry := λ m, mkMetrics (mt_counters m) (mt_gauges m) (mt_histograms m).
Definition new_metrics : MetricsRegistry := mkMetrics [] [] [].
Definition increment (name : string) (amount : Z) : M MetricsRegistry unit :=
  modify (λ m, m <| mt_counters := dict_set name (default 0 (dict_get name (mt_counters m)) + amount) (mt_counters m) |>).
Definition set_gauge (name : string) (v : float) : M MetricsRegistry unit :=
  modify (λ m, m <| mt_gauges := dict_set name v (mt_gauges m) |>).
Definition observe (name : string) (v : float) : M MetricsRegistry unit :=
  modify (λ m, m <| mt_histograms := dict_set name (default [] (dict_get name (mt_histograms m)) ++ [v]) (mt_histograms m) |>).
(** [snapshot] copies the lists, so later observations leave it as it is. *)
Definition snapshot : M MetricsRegistry MetricsRegistry := get_state.

(** * What the sinks disclose *)

(** Every field of that name, at any depth, carries the replacement. *)
Fixpoint hidden (p : RedactionPolicy) (v : value) : Prop :=
  match v with
  | VDict d => (fix go (d : list (string * value)) : Prop := match d with
      | [] => True
      | (k, x) :: d => (k ∈ rp_fields p → x = VStr (rp_replacement p)) ∧ hidden p x ∧ go d
      end) d
  | VList l => (fix go (l : list value) : Prop := match l with
      | [] => True
      | x :: l => hidden p x ∧ go l
      end) l
  | _ => True
  end.
Definition conceals (p : RedactionPolicy) (d : pydict) : Prop := hidden p (VDict d).

Lemma redact_value_hidden p v : hidden p (_redact_value v (rp_fields p) (rp_replacement p)).
Proof.
  induction v as [| | | | |l IH|d IH] using value_deep_ind; try done; simpl.
  - induction IH; [done|]. by split.
  - induction IH as [|[k x] d Hx _ IHd]; [done|]. simpl in *. case_bool_decide; (split_and!; [|done..]); done.
Qed.

Lemma apply_value p d : VDict (apply p d) = _redact_value (VDict d) (rp_fields p) (rp_replacement p).
Proof. simpl. f_equal. unfold apply. induction d as [|[k x] d IH]; [done|]. by rewrite fmap_cons, IH. Qed.

Lemma apply_conceals p d : conceals p (apply p d).
Proof. unfold conceals. rewrite apply_value. apply redact_value_hidden. Qed.

Lemma apply_keys p d : dict_keys (apply p d) = dict_keys d.
Proof. unfold dict_keys, apply. rewrite <-list_fmap_compose. done. Qed.

(** Fields that are not to be redacted and hold no dictionary keep their values. *)
Lemma apply_get p d k v :
  k ∉ rp_fields p → dict_get k d = Some v → dict_get k (apply p d) = Some (_redact_value v (rp_fields p) (rp_replacement p)).
Proof.
  intros Hk. induction d as [|[k' x] d IH]; [done|]. unfold apply in *. simpl. case_decide as E; [|done].
  intros [= ->]. subst k'. by rewrite bool_decide_false.
Qed.

(** The calls of a log. *)
Record AuditCall := mkAuditCall {
  ac_now : Z; ac_tenant : Z; ac_project : option Z; ac_actor : option string; ac_actor_type : string; ac_action : string;
  ac_resource_type : string; ac_resource : option Z; ac_result : string; ac_metadata : pydict
}.
Definition record_call (a : AuditCall) : M InMemoryComplianceAuditLog ComplianceAuditRecord :=
  record (ac_now a) (ac_tenant a) (ac_project a) (ac_actor a) (ac_actor_type a) (ac_action a) (ac_resource_type a)
    (ac_resource a) (ac_result a) (ac_metadata a).

(** The records are numbered in the order they were written and conceal what the policy
    names. *)
Definition log_ok (l : InMemoryComplianceAuditLog) : Prop :=
  ca_id <$> al_records l = (λ i, 1 + Z.of_nat i) <$> seq 0 (length (al_records l)) ∧
  al_next_id l = 1 + Z.of_nat (length (al_records l)) ∧
  Forall (λ r, conceals (al_redaction_policy l) (ca_metadata r)) (al_records l).

Lemma record_ok now t p a at' ac rt r res m l : log_ok l → log_ok (record now t p a at' ac rt r res m l).2.
Proof.
  intros (Hid&Hn&Hc). unfold log_ok. simpl. rewrite !fmap_app, Hid, length_app, seq_app, fmap_app. simpl.
  split_and!; [by rewrite Hn|lia|]. apply Forall_app_2; [done|]. apply Forall_singleton, apply_conceals.
Qed.

Definition record_calls (calls : list AuditCall) (l : InMemoryComplianceAuditLog) : InMemoryComplianceAuditLog :=
  foldl (λ l a, (record_call a l).2) l calls.
Lemma record_calls_length calls l : length (al_records (record_calls calls l)) = (length (al_records l) + length calls)%nat.
Proof.
  revert l. induction calls as [|a calls IH]; intros l; simpl; [lia|]. rewrite IH. simpl. rewrite length_app. simpl. lia.
Qed.

(** The audit log only grows, numbers its records from one, and shows none of the fields
    its policy names, whatever is written to it. *)
Theorem audit_log_redacted policy calls :
  log_ok (record_calls calls (new_audit_log policy)) ∧
  length (al_records (record_calls calls (new_audit_log policy))) = length calls.
Proof.
  split; [|by rewrite record_calls_length].
  assert (log_ok (new_audit_log policy)) as H by (split_and!; done). revert H. generalize (new_audit_log policy).
  induction calls as [|a calls IH]; intros l Hl; [done|]. apply IH. by apply record_ok.
Qed.

Lemma should_sample_state {S} p t (s : S) : (should_sample p t s).2 = s.
Proof.
  unfold should_sample. case_match; [done|]. case_match; [done|]. by destruct (py_trunc _).
Qed.

(** ** Exports *)

Section exports.
Context {W : Type} (exc_text : exn → string) (send : pydict → M W unit).
(** What the sink is left with by payloads that conceal the fields of the policy. *)
Context (p : RedactionPolicy) (I : W → Prop) (HI : ∀ d w, conceals p d → I w → I (send d w).2).

Definition exporter_ok (x : ObservabilityExporter W) : Prop :=
  ox_redaction_policy x = p ∧ I (ox_sink x) ∧ Forall (conceals p) (ox_delivered x) ∧
  Forall (λ f, conceals p (xf_payload f)) (ox_failures x).
Definition exported (x : ObservabilityExporter W) : nat := (length (ox_delivered x) + length (ox_failures x))%nat.

(** A payload is delivered or kept as a failure, never dropped. *)
Lemma send_ok type payload x : exporter_ok x →
  let '(r, x') := _send exc_text send type payload x in
  exporter_ok x' ∧ exported x' = S (exported x) ∧ ∃ sent, r = Ret sent ∧
  length (ox_delivered x') = (length (ox_delivered x) + if sent : bool then 1 else 0)%nat.
Proof.
  intros (Hp&Hi&Hd&Hf). unfold _send, catch, zoom, mbind, M_bind. simpl. rewrite Hp.
  pose proof (HI (apply p payload) (ox_sink x) (apply_conceals p payload) Hi) as Hw.
  destruct (send (apply p payload) (ox_sink x)) as [[[]|e] w]; simpl in *; unfold exporter_ok, exported; simpl;
    rewrite length_app; simpl.
  - split_and!; try done; [apply Forall_app_2; [done|]; apply Forall_singleton, apply_conceals|lia|by exists true].
  - split_and!; try done; [apply Forall_app_2; [done|]; apply Forall_singleton, apply_conceals|lia|].
    exists false. by rewrite Nat.add_0_r.
Qed.

Definition export (item : AgentEvent + ComplianceAuditRecord) : M (ObservabilityExporter W) bool :=
  match item with inl e => export_event exc_text send e | inr r => export_audit exc_text send r end.

(** Whatever is exported, and whether the sink accepts it or raises, nothing that leaves
    the process or is kept as a failure shows a field the policy names. *)
Theorem exports_redacted items x :
  exporter_ok x → exporter_ok (foldl (λ x i, (export i x).2) x items).
Proof.
  revert x. induction items as [|i items IH]; intros x Hx; [done|]. apply IH.
  assert (∀ type payload, exporter_ok (_send exc_text send type payload x).2) as Hs.
  { intros type payload. pose proof (send_ok type payload x Hx) as H.
    destruct (_send exc_text send type payload x). by destruct H. }
  destruct i as [e|r]; simpl; unfold export_event, export_audit, mbind, M_bind; simpl.
  - case_match; [done|].
    pose proof (should_sample_state (ox_sampling_policy x) (export_trace_id e) x) as He.
    destruct (should_sample _ _ x) as [[[]|] ?]; simpl in He; subst; [apply Hs|done..].
  - case_match; [apply Hs|done].
Qed.
End exports.
