(* ===== verification/Artifacts.v ===== *)
(** The artifact stores ([artifacts/store.py]): in memory, in local files and in an
    object store; and the backups that check them ([enterprise/dr.py]).

    The three classes share one state, as the inherited attributes do: [as_objects] is
    used in memory only, [as_files] are the files under the root directory and [as_client]
    is the world the object client acts on. [sha256] is the hexadecimal digest and
    [isoformat] the text of a time. What is written is ASCII, so [encode] and [decode]
    keep the characters. *)

From stdpp Require Import gmap.
From Stdlib Require Import Ascii.
From S2P Require Import Prelude Values Json JsonLoads Context Observe.

(** * Data *)

Record ArtifactRecord := mkArtifact {
  ar_id : Z;
  ar_tenant_id : Z;
  ar_project_id : option Z;
  ar_run_id : option Z;
  ar_attempt_id : option Z;
  ar_event_id : option string;
  ar_artifact_type : string;
  ar_mime_type : string;
  ar_size_bytes : Z;
  ar_storage_uri : string;
  ar_checksum : string;
  ar_visibility_level : string;
  ar_created_by : option string;
  ar_created_at : Z;
  ar_metadata : pydict
}.
#[export] Instance ArtifactRecord_eta : Eta ArtifactRecord := λ r,
  mkArtifact (ar_id r) (ar_tenant_id r) (ar_project_id r) (ar_run_id r) (ar_attempt_id r) (ar_event_id r)
    (ar_artifact_type r) (ar_mime_type r) (ar_size_bytes r) (ar_storage_uri r) (ar_checksum r) (ar_visibility_level r)
    (ar_created_by r) (ar_created_at r) (ar_metadata r).

(** The client of an object store, and what a store that keeps its objects promises. *)
Class ObjectStoreClient (W : Type) := {
  put_object : string → string → string → string → dict string string → M W unit;
  get_object : string → string → M W string;
  presigned_get_url : string → string → Z → M W string
}.
Class ObjectStoreLaws (W : Type) `{!ObjectStoreClient W} := {
  put_get b k body ct m w w' : put_object b k body ct m w = (Ret tt, w') → (get_object b k w').1 = Ret body;
  put_other b k body ct m b' k' x w :
    (b, k) ≠ (b', k') → (get_object b' k' w).1 = Ret x → (get_object b' k' (put_object b k body ct m w).2).1 = Ret x;
  get_keeps b k b' k' x w : (get_object b k w).1 = Ret x → (get_object b k (get_object b' k' w).2).1 = Ret x;
  presigned_keeps b k b' k' n x w : (get_object b k w).1 = Ret x → (get_object b k (presigned_get_url b' k' n w).2).1 = Ret x
}.

(** The class of a store and what it is built with. *)
Inductive StoreKind :=
| InMemoryArtifactStore
| LocalArtifactStore (public_base_url : option string)
| S3CompatibleArtifactStore (bucket endpoint_url scheme : string) (has_client : bool).

Record ArtifactStore (W : Type) := mkStore {
  as_audit_log : InMemoryComplianceAuditLog;
  as_records : dict string ArtifactRecord;
  as_objects : dict string string;
  as_next_id : Z;
  as_files : dict string string;
  as_client : W
}.
Arguments mkStore {W}.
Arguments as_audit_log {W}. Arguments as_records {W}. Arguments as_objects {W}. Arguments as_next_id {W}.
Arguments as_files {W}. Arguments as_client {W}.
#[export] Instance ArtifactStore_eta {W} : Eta (ArtifactStore W) := λ s,
  mkStore (as_audit_log s) (as_records s) (as_objects s) (as_next_id s) (as_files s) (as_client s).

(** A new store: the directories may hold files and the object store objects. *)
Definition new_store {W} (log : InMemoryComplianceAuditLog) (files : dict string string) (client : W) : ArtifactStore W :=
  mkStore log [] [] 1 files client.

Record WriteArgs := mkWriteArgs {
  wa_context : RuntimeContext;
  wa_artifact_type : string;
  wa_payload : pydict;
  wa_visibility_level : string;
  wa_created_by : option string;
  wa_event_id : option string;
  wa_metadata : option pydict
}.

(** [dict(v)]: a copy of a dictionary, or one made of pairs with text keys. *)
Definition pair_of (v : value) : option (string * value) :=
  match v with
  | VList [VStr k; x] => Some (k, x)
  | VStr (String a (String b EmptyString)) => Some (String a EmptyString, VStr (String b EmptyString))
  | VDict [(a, _); (b, _)] => Some (a, VStr b)
  | _ => None
  end.
Definition py_dict (v : value) : option pydict :=
  match v with
  | VDict d => Some d
  | VList l => foldl (λ d p, dict_set p.1 p.2 d) [] <$> mapM pair_of l
  | VStr EmptyString => Some []
  | _ => None
  end.

(** * Texts *)

Definition rstrip_slash (s : string) : string :=
  of_chars (rev ((fix go (l : list ascii) : list ascii := match l with
    | c :: l' => if Ascii.eqb c "/" then go l' else l
    | [] => [] end) (rev (to_chars s)))).

(** [urllib.parse.quote] *)
Definition upper_hex (z : Z) : ascii := if z <? 10 then chr (48 + z) else chr (55 + z).
Definition quote_safe (z : Z) : bool :=
  ((48 <=? z) && (z <=? 57)) || ((65 <=? z) && (z <=? 90)) || ((97 <=? z) && (z <=? 122))
  || (z =? 95) || (z =? 46) || (z =? 45) || (z =? 126) || (z =? 47).
Definition quote_byte (z : Z) : list ascii :=
  if quote_safe z then [chr z] else ["%"%char; upper_hex (z / 16); upper_hex (z mod 16)].
Definition quote (s : string) : string := of_chars (utf8 s ≫= quote_byte).

Definition object_path (id : Z) : string := "objects/" +:+ pretty id +:+ ".json".
Definition metadata_path (id : Z) : string := "metadata/" +:+ pretty id +:+ ".json".
Definition _object_key (id : Z) : string := "artifacts/" +:+ pretty id +:+ ".json".
Definition memory_uri (id : Z) : string := "memory://artifact/" +:+ pretty id.
Definition local_uri (id : Z) : string := "local://artifact/" +:+ pretty id.
Definition s3_uri (scheme bucket : string) (id : Z) : string :=
  scheme +:+ "://" +:+ bucket +:+ "/artifacts/" +:+ pretty id +:+ ".json".

Section store.
Context {W : Type} `{!ObjectStoreClient W} (sha256 : string → string) (isoformat : Z → string).

Definition _checksum (encoded : string) : string := "sha256:" +:+ sha256 encoded.
Definition _encode_json (payload : pydict) : option string := json_dumps (VDict payload).
Definition _ensure_checksum {S} (uri encoded expected : string) : M S unit :=
  check (bool_decide (_checksum encoded = expected)) (ArtifactChecksumMismatchError uri).

Definition _context_actor_id (c : RuntimeContext) : option string :=
  pretty <$> or_opt_int (cx_user_id c) (cx_service_account_id c).
Definition reader_type (c : RuntimeContext) : string :=
  if bool_decide (or_opt_int (cx_service_account_id c) None = None) then "user" else "service_account".

Definition _record_to_json (r : ArtifactRecord) : pydict :=
  [("id", VInt (ar_id r)); ("tenant_id", VInt (ar_tenant_id r)); ("project_id", of_int_opt (ar_project_id r));
   ("run_id", of_int_opt (ar_run_id r)); ("attempt_id", of_int_opt (ar_attempt_id r));
   ("event_id", of_str_opt (ar_event_id r)); ("artifact_type", VStr (ar_artifact_type r));
   ("mime_type", VStr (ar_mime_type r)); ("size_bytes", VInt (ar_size_bytes r)); ("storage_uri", VStr (ar_storage_uri r));
   ("checksum", VStr (ar_checksum r)); ("visibility_level", VStr (ar_visibility_level r));
   ("created_by", of_str_opt (ar_created_by r)); ("created_at", VStr (isoformat (ar_created_at r)));
   ("metadata", VDict (ar_metadata r))].

Definition artifact_of (now id : Z) (uri encoded : string) (a : WriteArgs) : ArtifactRecord :=
  mkArtifact id (cx_tenant_id (wa_context a)) (cx_project_id (wa_context a)) (Some (cx_run_id (wa_context a)))
    (cx_attempt_id (wa_context a)) (wa_event_id a) (wa_artifact_type a) "application/json" (str_len encoded) uri
    (_checksum encoded) (wa_visibility_level a) (wa_created_by a) now (default [] (wa_metadata a)).

(** * Writing *)

Definition _allocate_id : M (ArtifactStore W) Z :=
  s ← get_state;
  modify (λ s, s <| as_next_id := as_next_id s + 1 |>) ;; mret (as_next_id s).
Definition write_file (path text : string) : M (ArtifactStore W) unit :=
  modify (λ s, s <| as_files := dict_set path text (as_files s) |>).
Definition read_file (path : string) : M (ArtifactStore W) string :=
  s ← get_state; of_option (dict_get path (as_files s)) (FileNotFoundError path).
Definition in_client {A} (m : M W A) : M (ArtifactStore W) A := zoom as_client (λ w s, s <| as_client := w |>) m.
Definition put_record (uri : string) (r : ArtifactRecord) : M (ArtifactStore W) unit :=
  modify (λ s, s <| as_records := dict_set uri r (as_records s) |>).

Definition pop_record (uri : string) : M (ArtifactStore W) unit :=
  modify (λ s, s <| as_records := dict_pop uri (as_records s) |>).
Definition put_bytes (uri text : string) : M (ArtifactStore W) unit :=
  modify (λ s, s <| as_objects := dict_set uri text (as_objects s) |>).

Definition memory_write_json (now : Z) (a : WriteArgs) : M (ArtifactStore W) ArtifactRecord :=
  encoded ← of_option (_encode_json (wa_payload a)) type_error;
  id ← _allocate_id;
  let r := artifact_of now id (memory_uri id) encoded a in
  put_record (memory_uri id) r ;;
  put_bytes (memory_uri id) encoded ;;
  mret r.

(** The metadata file is the last thing that can fail: the object is written by then. *)
Definition write_metadata (r : ArtifactRecord) : M (ArtifactStore W) unit :=
  text ← of_option (json_dumps (VDict (_record_to_json r))) type_error;
  write_file (metadata_path (ar_id r)) text.
Definition local_write_json (now : Z) (a : WriteArgs) : M (ArtifactStore W) ArtifactRecord :=
  encoded ← of_option (_encode_json (wa_payload a)) type_error;
  id ← _allocate_id;
  let r := artifact_of now id (local_uri id) encoded a in
  write_file (object_path id) encoded ;;
  write_metadata r ;;
  put_record (local_uri id) r ;;
  mret r.

Definition upload (bucket : string) (r : ArtifactRecord) : M (ArtifactStore W) unit :=
  body ← read_file (object_path (ar_id r));
  in_client (put_object bucket (_object_key (ar_id r)) body (ar_mime_type r)
    [("checksum", ar_checksum r); ("artifact_id", pretty (ar_id r))]).
(** [replace(record, storage_uri=uri)] *)
Definition with_uri (uri : string) (r : ArtifactRecord) : ArtifactRecord := r <| ar_storage_uri := uri |>.
Definition s3_write_json (bucket scheme : string) (has_client : bool) (now : Z) (a : WriteArgs)
  : M (ArtifactStore W) ArtifactRecord :=
  r ← local_write_json now a;
  let uri := s3_uri scheme bucket (ar_id r) in
  let s3_record := with_uri uri r in
  pop_record (ar_storage_uri r) ;;
  put_record uri s3_record ;;
  write_metadata s3_record ;;
  (if has_client then upload bucket r else mret tt) ;;
  mret s3_record.

(** * Reading *)

Definition audit_read (now : Z) (c : RuntimeContext) (r : ArtifactRecord) (result : string) (reason : option string)
  : M (ArtifactStore W) unit :=
  zoom as_audit_log (λ l s, s <| as_audit_log := l |>)
    (record now (cx_tenant_id c) (cx_project_id c) (_context_actor_id c) (reader_type c) "artifact.read" "artifact"
      (Some (ar_id r)) result
      (match reason with Some t => [("reason", VStr t)] | None => [] end ++ [("visibility_level", VStr (ar_visibility_level r))])) ;;
  mret tt.

Definition artifact_in_scope (r : ArtifactRecord) (c : RuntimeContext) : bool :=
  bool_decide (ar_tenant_id r = cx_tenant_id c) && bool_decide (ar_project_id r = cx_project_id c).
Definition required_permission (r : ArtifactRecord) : string := "artifact:read:" +:+ ar_visibility_level r.

(** The guards of every store; [uri] is the address in the exception. *)
Definition authorize (now : Z) (uri : string) (r : ArtifactRecord) (c : RuntimeContext) (permissions : gset string)
  : M (ArtifactStore W) unit :=
  if negb (artifact_in_scope r c) then
    audit_read now c r "deny" (Some "scope_mismatch") ;; raise (ArtifactAccessDeniedError uri)
  else if negb (bool_decide (required_permission r ∈ permissions)) then
    audit_read now c r "deny" None ;; raise (ArtifactAccessDeniedError uri)
  else mret tt.
Definition _authorize_read (now : Z) (r : ArtifactRecord) (c : RuntimeContext) (permissions : gset string)
  : M (ArtifactStore W) unit := authorize now (ar_storage_uri r) r c permissions.

Definition get_record (uri : string) : M (ArtifactStore W) ArtifactRecord :=
  s ← get_state; of_option (dict_get uri (as_records s)) (KeyError uri).
(** A wrong checksum is audited and raised. *)
Definition checked (now : Z) (uri encoded : string) (r : ArtifactRecord) (c : RuntimeContext) : M (ArtifactStore W) unit :=
  try_except (_ensure_checksum uri encoded (ar_checksum r))
    (λ e, audit_read now c r "deny" (Some "checksum_mismatch") ;; raise e).
(** [dict(json.loads(encoded.decode("utf-8")))] *)
Definition decode {S} (encoded : string) : M S pydict :=
  payload ← of_option (json_loads encoded) (ValueError "Expecting value");
  of_option (py_dict payload) (TypeError "cannot convert to dict").

Definition memory_read_json (now : Z) (uri : string) (c : RuntimeContext) (permissions : gset string)
  : M (ArtifactStore W) pydict :=
  r ← get_record uri;
  authorize now uri r c permissions ;;
  s ← get_state;
  encoded ← of_option (dict_get uri (as_objects s)) (KeyError uri);
  checked now uri encoded r c ;;
  payload ← of_option (json_loads encoded) (ValueError "Expecting value");
  audit_read now c r "allow" None ;;
  of_option (py_dict payload) (TypeError "cannot convert to dict").

Definition local_read_json (now : Z) (uri : string) (c : RuntimeContext) (permissions : gset string)
  : M (ArtifactStore W) pydict :=
  r ← get_record uri;
  _authorize_read now r c permissions ;;
  encoded ← read_file (object_path (ar_id r));
  checked now uri encoded r c ;;
  audit_read now c r "allow" None ;;
  decode encoded.

Definition s3_read_json (bucket : string) (has_client : bool) (now : Z) (uri : string) (c : RuntimeContext)
    (permissions : gset string) : M (ArtifactStore W) pydict :=
  if negb has_client then local_read_json now uri c permissions
  else
    r ← get_record uri;
    _authorize_read now r c permissions ;;
    encoded ← in_client (get_object bucket (_object_key (ar_id r)));
    checked now uri encoded r c ;;
    audit_read now c r "allow" None ;;
    decode encoded.

(** * Addresses for downloads *)

Definition local_signed_download_url (public_base_url : option string) (uri : string) (expires : Z)
  : M (ArtifactStore W) string :=
  r ← get_record uri;
  match or_opt_str public_base_url None with
  | Some base => mret (rstrip_slash base +:+ "/" +:+ quote (pretty (ar_id r)) +:+ "?expires=" +:+ pretty expires)
  | None => mret (uri +:+ "?expires=" +:+ pretty expires)
  end.
Definition s3_signed_download_url (bucket endpoint_url : string) (has_client : bool) (uri : string) (expires : Z)
  : M (ArtifactStore W) string :=
  r ← get_record uri;
  if has_client then in_client (presigned_get_url bucket (_object_key (ar_id r)) expires)
  else mret (rstrip_slash endpoint_url +:+ "/" +:+ quote bucket +:+ "/artifacts/" +:+ quote (pretty (ar_id r)) +:+ ".json"
    +:+ "?expires=" +:+ pretty expires).

(** * The methods of a store of a class *)

Definition write_json (k : StoreKind) : Z → WriteArgs → M (ArtifactStore W) ArtifactRecord :=
  match k with
  | InMemoryArtifactStore => memory_write_json
  | LocalArtifactStore _ => local_write_json
  | S3CompatibleArtifactStore bucket _ scheme has_client => s3_write_json bucket scheme has_client
  end.
Definition read_json (k : StoreKind) : Z → string → RuntimeContext → gset string → M (ArtifactStore W) pydict :=
  match k with
  | InMemoryArtifactStore => memory_read_json
  | LocalArtifactStore _ => local_read_json
  | S3CompatibleArtifactStore bucket _ _ has_client => s3_read_json bucket has_client
  end.
(** The in-memory store has no such method. *)
Definition signed_download_url (k : StoreKind) (uri : string) (expires : Z) : M (ArtifactStore W) string :=
  match k with
  | InMemoryArtifactStore => raise (AgentError "AttributeError" "signed_download_url")
  | LocalArtifactStore base => local_signed_download_url base uri expires
  | S3CompatibleArtifactStore bucket endpoint _ has_client => s3_signed_download_url bucket endpoint has_client uri expires
  end.
End store.
