(* ===== verification/ArtifactProps.v ===== *)
(** What the artifact stores promise: what was written is read back by whoever may read it,
    whatever else the store is used for, and reads are guarded and audited. *)

From stdpp Require Import gmap.
From Stdlib Require Import Ascii.
From S2P Require Import Prelude Values Json JsonLoads Context Observe Artifacts.

(** * Addresses tell artifacts apart *)

Lemma to_chars_inj a b : to_chars a = to_chars b → a = b.
Proof. intros H. by rewrite <-(of_to_chars a), H, of_to_chars. Qed.
Lemma append_inj_r a b x : a +:+ x = b +:+ x → a = b.
Proof. intros H%(f_equal to_chars). rewrite !to_chars_app in H. by apply to_chars_inj, (app_inv_tail (to_chars x)). Qed.
Lemma append_inj_l a b x : x +:+ a = x +:+ b → a = b.
Proof. intros H%(f_equal to_chars). rewrite !to_chars_app in H. by apply to_chars_inj, (app_inv_head (to_chars x)). Qed.

Lemma numbered_inj pre suf (a b : Z) : pre +:+ pretty a +:+ suf = pre +:+ pretty b +:+ suf → a = b.
Proof. intros H%append_inj_l%append_inj_r. by apply (inj pretty). Qed.

Lemma pretty_no_dot (z : Z) : "."%char ∉ to_chars (pretty z).
Proof.
  assert (∀ l, Forall (λ c, is_digit c = true) l → "."%char ∉ l) as Hd.
  { intros l Hl Hin. rewrite Forall_forall in Hl. specialize (Hl _ Hin). by vm_compute in Hl. }
  assert (∀ p, "."%char ∉ to_chars (pretty (N.pos p))) as Hp.
  { intros p. unfold pretty, pretty_N. rewrite decide_False by done. by apply Hd, pretty_N_go_digits. }
  destruct z as [|p|p]; [by apply Hd; repeat constructor|apply Hp|].
  change (to_chars (pretty (Z.neg p))) with ("-"%char :: to_chars (pretty (N.pos p))).
  by intros [?|?%Hp]%elem_of_cons.
Qed.

Lemma s3_not_local scheme bucket a b : s3_uri scheme bucket a ≠ local_uri b.
Proof.
  intros H. apply (pretty_no_dot b).
  assert ("."%char ∈ to_chars (local_uri b)) as Hin.
  { rewrite <-H. unfold s3_uri. rewrite !to_chars_app. rewrite !elem_of_app. do 5 right. simpl. left. }
  unfold local_uri in Hin. rewrite to_chars_app, elem_of_app in Hin. destruct Hin as [Hin|Hin]; [|done].
  apply (bool_decide_eq_true_2 ("."%char ∈ to_chars "local://artifact/")) in Hin. by vm_compute in Hin.
Qed.

Definition uri_of (k : StoreKind) (id : Z) : string :=
  match k with
  | InMemoryArtifactStore => memory_uri id
  | LocalArtifactStore _ => local_uri id
  | S3CompatibleArtifactStore bucket _ scheme _ => s3_uri scheme bucket id
  end.
Lemma uri_of_inj k a b : uri_of k a = uri_of k b → a = b.
Proof.
  destruct k; simpl; [intros H%append_inj_l; by apply (inj pretty)..|].
  unfold s3_uri. intros H%append_inj_l%append_inj_l%append_inj_l. by apply (numbered_inj "/artifacts/" ".json") in H.
Qed.

Section promises.
Context {W : Type} `{!ObjectStoreClient W, !ObjectStoreLaws W} (sha256 : string → string) (isoformat : Z → string).
Context (k : StoreKind).
Implicit Types s : ArtifactStore W.

(** The bytes of an artifact, where the class keeps them. *)
Definition object_is s (id : Z) (text : string) : Prop :=
  match k with
  | InMemoryArtifactStore => dict_get (memory_uri id) (as_objects s) = Some text
  | LocalArtifactStore _ | S3CompatibleArtifactStore _ _ _ false => dict_get (object_path id) (as_files s) = Some text
  | S3CompatibleArtifactStore bucket _ _ true => (get_object bucket (_object_key id) (as_client s)).1 = Ret text
  end.

(** An artifact with its bytes: addressed by its number, below the next one. *)
Record stored s (r : ArtifactRecord) (text : string) : Prop := {
  st_uri : ar_storage_uri r = uri_of k (ar_id r);
  st_record : dict_get (uri_of k (ar_id r)) (as_records s) = Some r;
  st_checksum : ar_checksum r = _checksum sha256 text;
  st_number : ar_id r < as_next_id s;
  st_object : object_is s (ar_id r) text
}.

Inductive artifact_op :=
| OpWrite (now : Z) (a : WriteArgs)
| OpRead (now : Z) (uri : string) (c : RuntimeContext) (permissions : gset string)
| OpUrl (uri : string) (expires : Z).
Definition run_op s (o : artifact_op) : ArtifactStore W :=
  match o with
  | OpWrite now a => (write_json sha256 isoformat k now a s).2
  | OpRead now uri c permissions => (read_json sha256 k now uri c permissions s).2
  | OpUrl uri expires => (signed_download_url k uri expires s).2
  end.
Definition after (ops : list artifact_op) s : ArtifactStore W := foldl run_op s ops.

(** ** Reads leave the artifacts alone *)

Definition same_artifacts : relation (ArtifactStore W) := λ s s',
  as_records s' = as_records s ∧ as_objects s' = as_objects s ∧ as_next_id s' = as_next_id s ∧ as_files s' = as_files s ∧
  ∀ b key x, (get_object b key (as_client s)).1 = Ret x → (get_object b key (as_client s')).1 = Ret x.
#[local] Instance same_artifacts_preorder : PreOrder same_artifacts.
Proof.
  split; [by intros s|]. intros s1 s2 s3 (?&?&?&?&Ha) (?&?&?&?&Hb). unfold same_artifacts.
  split_and!; [congruence..|auto].
Qed.

Lemma same_stored s s' r text : same_artifacts s s' → stored s r text → stored s' r text.
Proof.
  intros (H1&H2&H3&H4&H5) [? ? ? ? Ho]. split; rewrite ?H1, ?H3; try done.
  unfold object_is in *. rewrite H2, H4. destruct k as [|?|? ? ? []]; auto.
Qed.

Lemma audit_same now c r result reason : respects same_artifacts (audit_read now c r result reason).
Proof. done. Qed.
Lemma client_same {A} (m : M W A) :
  (∀ b key x w, (get_object b key w).1 = Ret x → (get_object b key (m w).2).1 = Ret x) → respects same_artifacts (in_client m).
Proof.
  intros Hm s. unfold in_client, zoom. specialize (Hm) with (w := as_client s). by destruct (m (as_client s)).
Qed.
Lemma get_record_same uri : respects same_artifacts (get_record uri).
Proof. apply respects_bind; [apply _|apply respects_get_state, _|]. intros. apply respects_of_option, _. Qed.
Lemma read_file_same path : respects same_artifacts (read_file path).
Proof. apply respects_bind; [apply _|apply respects_get_state, _|]. intros. apply respects_of_option, _. Qed.
Lemma checked_same now uri encoded r c : respects same_artifacts (checked sha256 now uri encoded r c).
Proof.
  apply respects_try; [apply _|apply respects_check, _|]. intros e.
  apply respects_bind; [apply _|apply audit_same|]. intros _. apply respects_raise, _.
Qed.
Lemma authorize_same now uri r c ps : respects same_artifacts (authorize now uri r c ps).
Proof.
  unfold authorize. repeat case_match; try apply respects_ret, _;
    (apply respects_bind; [apply _|apply audit_same|]; intros _; apply respects_raise, _).
Qed.
Lemma decode_same encoded : respects same_artifacts (decode encoded).
Proof. apply respects_bind; [apply _|apply respects_of_option, _|]. intros. apply respects_of_option, _. Qed.

(** Walks through a method made of the pieces above. *)
Ltac same_step := first
  [ apply audit_same | apply get_record_same | apply read_file_same | apply checked_same | apply authorize_same
  | apply decode_same | apply respects_of_option, _ | apply respects_get_state, _ | apply respects_ret, _
  | apply respects_raise, _ | apply client_same; intros; by first [apply get_keeps | apply presigned_keeps]
  | apply respects_bind; [apply _| |intros ?] ].

Lemma read_same now uri c ps : respects same_artifacts (read_json sha256 k now uri c ps).
Proof.
  destruct k as [|?|? ? ? []]; simpl; unfold memory_read_json, s3_read_json, local_read_json, _authorize_read; simpl;
    repeat same_step.
Qed.
Lemma url_same uri n : respects same_artifacts (signed_download_url k uri n).
Proof.
  destruct k as [|b|? ? ? []]; simpl; unfold local_signed_download_url, s3_signed_download_url; [|destruct (or_opt_str b None)|..];
    repeat same_step.
Qed.

(** ** A write touches its own number only *)

Definition touches (n : Z) : relation (ArtifactStore W) := λ s s',
  as_next_id s ≤ as_next_id s' ∧ ∀ id, id ≠ n →
    dict_get (uri_of k id) (as_records s') = dict_get (uri_of k id) (as_records s) ∧
    dict_get (memory_uri id) (as_objects s') = dict_get (memory_uri id) (as_objects s) ∧
    dict_get (object_path id) (as_files s') = dict_get (object_path id) (as_files s) ∧
    ∀ b x, (get_object b (_object_key id) (as_client s)).1 = Ret x → (get_object b (_object_key id) (as_client s')).1 = Ret x.
#[local] Instance touches_preorder n : PreOrder (touches n).
Proof.
  split; [by intros s|]. intros s1 s2 s3 [Hn Ha] [Hn' Hb]. split; [lia|]. intros id Hid.
  destruct (Ha id Hid) as (?&?&?&?), (Hb id Hid) as (?&?&?&?). split_and!; [congruence..|auto].
Qed.

Lemma touches_stored n s s' r text : touches n s s' → ar_id r ≠ n → stored s r text → stored s' r text.
Proof.
  intros [Hn Ht] Hid [? ? ? ? Ho]. destruct (Ht _ Hid) as (H1&H2&H3&H4).
  split; rewrite ?H1; try done; [lia|]. unfold object_is in *. rewrite H2, H3.
  destruct k as [|?|? ? ? []]; auto.
Qed.

Lemma put_record_touches n uri r : (∀ id, id ≠ n → uri_of k id ≠ uri) → respects (touches n) (put_record uri r).
Proof.
  intros Hu s. split; [done|]. intros id Hid. split_and!; try done. simpl. apply dict_get_set_ne. by apply not_eq_sym, Hu.
Qed.
Lemma pop_record_touches n uri :
  (∀ id, id ≠ n → uri_of k id ≠ uri) → respects (touches n) (pop_record uri).
Proof.
  intros Hu s. split; [done|]. intros id Hid. split_and!; try done. simpl. apply dict_get_pop_ne. by apply not_eq_sym, Hu.
Qed.
Lemma put_bytes_touches n text : respects (touches n) (put_bytes (memory_uri n) text).
Proof.
  intros s. split; [done|]. intros id Hid. split_and!; try done. simpl. apply dict_get_set_ne.
  intros H%append_inj_l. by apply Hid, (inj pretty).
Qed.
Lemma write_file_touches n path text :
  path = object_path n ∨ path = metadata_path n → respects (touches n) (write_file path text).
Proof.
  intros Hp s. split; [done|]. intros id Hid. split_and!; try done. simpl. apply dict_get_set_ne.
  destruct Hp as [->| ->]; [|done]. intros H. by apply Hid, (numbered_inj "objects/" ".json").
Qed.
Lemma write_metadata_touches r : respects (touches (ar_id r)) (write_metadata isoformat r).
Proof.
  apply respects_bind; [apply _|apply respects_of_option, _|]. intros text. apply write_file_touches. by right.
Qed.
Lemma upload_touches b r : respects (touches (ar_id r)) (upload b r).
Proof.
  apply respects_bind; [apply _| |intros body].
  - apply respects_bind; [apply _|apply respects_get_state, _|]. intros. apply respects_of_option, _.
  - intros s. unfold in_client, zoom. split.
    { by destruct (put_object _ _ _ _ _ _). }
    intros id Hid. pose proof (λ b' x, put_other b (_object_key (ar_id r)) body (ar_mime_type r)
      [("checksum", ar_checksum r); ("artifact_id", pretty (ar_id r))] b' (_object_key id) x (as_client s)) as Hk.
    destruct (put_object _ _ _ _ _ _) as [o w]. split_and!; try done. simpl in *. intros b' x.
    apply Hk. intros H%(f_equal snd). apply Hid. symmetry. by apply (numbered_inj "artifacts/" ".json").
Qed.

Lemma not_local n : k ≠ InMemoryArtifactStore → ∀ id, id ≠ n → uri_of k id ≠ local_uri n.
Proof.
  intros Hk id Hid. destruct k; [done|..]; simpl.
  - intros H%append_inj_l. by apply Hid, (inj pretty).
  - apply s3_not_local.
Qed.
Lemma not_same n id : id ≠ n → uri_of k id ≠ uri_of k n.
Proof. by intros Hid H%uri_of_inj. Qed.

(** The number a write takes is the next one, and nobody else has it. *)
Lemma allocate_touches {A} (f : Z → M (ArtifactStore W) A) s :
  (∀ n, respects (touches n) (f n)) → touches (as_next_id s) s ((_allocate_id ≫= f) s).2.
Proof.
  intros Hf. unfold mbind, M_bind, _allocate_id, get_state, modify. simpl.
  etrans; [|apply Hf]. split; [simpl; lia|done].
Qed.

Lemma local_write_touches now a s :
  k ≠ InMemoryArtifactStore → touches (as_next_id s) s (local_write_json sha256 isoformat now a s).2.
Proof.
  intros Hk. unfold local_write_json. destruct (_encode_json _) as [text|]; [|reflexivity].
  apply (allocate_touches (λ n, _)). intros n.
  apply respects_bind; [apply _|apply write_file_touches; by left|]. intros _.
  apply respects_bind; [apply _|apply (write_metadata_touches (artifact_of _ _ n _ _ _))|]. intros _.
  apply respects_bind; [apply _|apply put_record_touches, not_local, Hk|]. intros _. apply respects_ret, _.
Qed.

(** What a write to files leaves behind. *)
Lemma local_write_inv now a s r s' : local_write_json sha256 isoformat now a s = (Ret r, s') → ∃ text,
  _encode_json (wa_payload a) = Some text ∧ r = artifact_of sha256 now (as_next_id s) (local_uri (as_next_id s)) text a ∧
  dict_get (object_path (as_next_id s)) (as_files s') = Some text ∧ as_next_id s' = as_next_id s + 1 ∧
  dict_get (local_uri (as_next_id s)) (as_records s') = Some r.
Proof.
  unfold local_write_json, write_metadata. destruct (_encode_json _) as [text|]; [|done]. simpl.
  unfold mbind, M_bind. simpl. destruct (json_dumps _) as [mt|]; [|done]. simpl. intros [= <- <-].
  exists text. simpl. rewrite dict_get_set_eq, dict_get_set_ne by done. by rewrite dict_get_set_eq.
Qed.

Lemma s3_write_touches b url sc cl now a s :
  k = S3CompatibleArtifactStore b url sc cl → touches (as_next_id s) s (s3_write_json sha256 isoformat b sc cl now a s).2.
Proof.
  intros Hk. assert (k ≠ InMemoryArtifactStore) as Hm by (rewrite Hk; done). unfold s3_write_json.
  apply (respects_bind_at (touches (as_next_id s))); [by apply local_write_touches|].
  intros r s' (text&_&Er&_)%local_write_inv. revert s'.
  assert (ar_storage_uri r = local_uri (ar_id r)) as Hu by (by rewrite Er).
  replace (as_next_id s) with (ar_id r) by (by rewrite Er).
  apply respects_bind; [apply _|rewrite Hu; apply pop_record_touches, not_local, Hm|]. intros _.
  apply respects_bind; [apply _|apply put_record_touches|intros _].
  { intros id Hid. pose proof (not_same _ _ Hid) as H. rewrite Hk in H |- *. done. }
  apply respects_bind; [apply _|exact (write_metadata_touches (with_uri (s3_uri sc b (ar_id r)) r))|intros _].
  apply respects_bind; [apply _|destruct cl; [apply upload_touches|apply respects_ret, _]|intros _].
  apply respects_ret, _.
Qed.

Lemma write_touches now a s : touches (as_next_id s) s (write_json sha256 isoformat k now a s).2.
Proof.
  destruct k as [|?|b url sc cl] eqn:Ek; simpl.
  - unfold memory_write_json. destruct (_encode_json _) as [text|]; [|reflexivity].
    apply (allocate_touches (λ n, _)). intros n.
    apply respects_bind; [apply _|apply put_record_touches|intros _].
    { intros id Hid. pose proof (not_same _ _ Hid) as H. by rewrite Ek in H |- *. }
    apply respects_bind; [apply _|apply put_bytes_touches|intros _]. apply respects_ret, _.
  - apply local_write_touches. by rewrite Ek.
  - by eapply s3_write_touches.
Qed.

Lemma op_stored s o r text : stored s r text → stored (run_op s o) r text.
Proof.
  intros H. destruct o; simpl.
  - eapply touches_stored; [apply write_touches| |done]. pose proof (st_number _ _ _ H). lia.
  - by eapply same_stored; [apply read_same|].
  - by eapply same_stored; [apply url_same|].
Qed.
Lemma after_stored ops s r text : stored s r text → stored (after ops s) r text.
Proof. revert s. induction ops as [|o ops IH]; intros s H; [done|]. by apply IH, op_stored. Qed.

(** ** What was written is read back *)

Definition describes (r : ArtifactRecord) (a : WriteArgs) (text : string) : Prop :=
  ar_tenant_id r = cx_tenant_id (wa_context a) ∧ ar_project_id r = cx_project_id (wa_context a) ∧
  ar_visibility_level r = wa_visibility_level a ∧ ar_size_bytes r = str_len text ∧ ar_checksum r = _checksum sha256 text.

Lemma upload_inv b r text s s' :
  dict_get (object_path (ar_id r)) (as_files s) = Some text → upload b r s = (Ret tt, s') →
  as_records s' = as_records s ∧ as_next_id s' = as_next_id s ∧
  (get_object b (_object_key (ar_id r)) (as_client s')).1 = Ret text.
Proof.
  intros Hf. unfold upload, read_file, in_client, zoom, mbind, M_bind. simpl. rewrite Hf. simpl.
  destruct (put_object _ _ _ _ _ _) as [[[]|] w] eqn:E; [|done]. intros [= <-]. simpl. by apply put_get in E.
Qed.

Lemma write_stored now a s r s' : write_json sha256 isoformat k now a s = (Ret r, s') → ∃ text,
  _encode_json (wa_payload a) = Some text ∧ stored s' r text ∧ describes r a text.
Proof.
  destruct k as [|?|b url sc cl] eqn:Ek; simpl.
  - unfold memory_write_json. destruct (_encode_json _) as [text|] eqn:Et; [|done]. intros [= <- <-].
    exists text. split_and!; try done. split; simpl; rewrite ?Ek; try done; [|lia|].
    + apply dict_get_set_eq.
    + unfold object_is. rewrite Ek. apply dict_get_set_eq.
  - intros (text&Et&->&Hf&Hn&Hr)%local_write_inv. exists text. split_and!; try done.
    split; simpl; rewrite ?Ek; try done; [lia|]. unfold object_is. by rewrite Ek.
  - unfold s3_write_json. intros (r0&s0&(text&Et&->&Hf&Hn&Hr)%local_write_inv&H)%bind_ret_inv.
    exists text. split; [done|]. revert H. unfold write_metadata, mbind, M_bind. simpl.
    destruct (json_dumps _) as [mt|]; [|done]. simpl. destruct cl.
    + destruct (upload b _ _) as [[[]|] s1] eqn:Eu; [|done]. intros [= <- <-].
      apply (upload_inv b _ text) in Eu as (H1&H2&H3); [|simpl; by rewrite dict_get_set_ne].
      split; [|done]. split; simpl in *; rewrite ?Ek, ?H1, ?H2; try done; [apply dict_get_set_eq|simpl; lia|].
      unfold object_is. by rewrite Ek.
    + intros [= <- <-]. split; [|done]. split; simpl; rewrite ?Ek; try done; [apply dict_get_set_eq|lia|].
      unfold object_is. rewrite Ek. simpl. by rewrite dict_get_set_ne.
Qed.

(** One more record in the log, of an allowed read. *)
Definition allowed_read (c : RuntimeContext) (r : ArtifactRecord) s s' : Prop := ∃ e,
  al_records (as_audit_log s') = al_records (as_audit_log s) ++ [e] ∧ ca_result e = "allow" ∧ ca_action e = "artifact.read" ∧
  ca_resource_id e = Some (ar_id r) ∧ ca_tenant_id e = cx_tenant_id c ∧ ca_project_id e = cx_project_id c ∧
  ca_actor_id e = _context_actor_id c.

Lemma authorize_granted now uri r c ps s :
  artifact_in_scope r c = true → required_permission r ∈ ps → authorize now uri r c ps s = (Ret tt, s).
Proof. intros Hs Hp. unfold authorize. rewrite Hs. simpl. by rewrite bool_decide_true. Qed.
Lemma checked_granted now uri text r c s :
  ar_checksum r = _checksum sha256 text → checked sha256 now uri text r c s = (Ret tt, s).
Proof. intros H. unfold checked, try_except, _ensure_checksum. by rewrite bool_decide_true. Qed.

Lemma stored_read now c ps s r text d :
  stored s r text → artifact_in_scope r c = true → required_permission r ∈ ps → json_loads text = Some (VDict d) →
  ∃ s', read_json sha256 k now (ar_storage_uri r) c ps s = (Ret d, s') ∧ allowed_read c r s s'.
Proof.
  intros [Hu Hr Hc Hn Ho] Hs Hp Hj. rewrite <-Hu in Hr. unfold object_is in Ho.
  destruct k as [|?|b url sc cl] eqn:Ek; simpl in *.
  - unfold memory_read_json, get_record, mbind, M_bind. simpl. rewrite Hr. simpl. rewrite authorize_granted by done.
    rewrite Hu, Ho. simpl. rewrite checked_granted, Hj by done. eexists. split; [done|]. eexists. by split_and!.
  - unfold local_read_json, get_record, _authorize_read, read_file, decode, mbind, M_bind. simpl. rewrite Hr. simpl.
    rewrite authorize_granted, Ho by done. simpl. rewrite checked_granted, Hj by done.
    eexists. split; [done|]. eexists. by split_and!.
  - unfold s3_read_json, local_read_json, get_record, _authorize_read, read_file, decode, mbind, M_bind.
    destruct cl; simpl; rewrite Hr; simpl; rewrite authorize_granted by done.
    + unfold in_client, zoom. destruct (get_object _ _ _) as [o w]. simpl in Ho. subst o.
      rewrite checked_granted, Hj by done. eexists. split; [done|]. eexists. by split_and!.
    + rewrite Ho. simpl. rewrite checked_granted, Hj by done. eexists. split; [done|]. eexists. by split_and!.
Qed.

(** C21: An artifact that was written is read back, by whoever is in its scope and holds
    the permission for its visibility, with the payload as it was written (keys sorted)
    and one audit record, whatever was written, read or asked for in between, in each of
    the three stores, over any object store that keeps its objects. *)
Theorem artifact_reads_back now now' a s r s' ops c ps :
  unique_keys (VDict (wa_payload a)) →
  write_json sha256 isoformat k now a s = (Ret r, s') →
  cx_tenant_id c = cx_tenant_id (wa_context a) → cx_project_id c = cx_project_id (wa_context a) →
  "artifact:read:" +:+ wa_visibility_level a ∈ ps →
  ∃ s'', read_json sha256 k now' (ar_storage_uri r) c ps (after ops s') = (Ret (canon_dict (wa_payload a)), s'') ∧
  allowed_read c r (after ops s') s''.
Proof.
  intros Hk (text&Et&Hs&Ht&Hp&Hv&_)%write_stored Hct Hcp Hps.
  apply (stored_read now' c ps _ r text); [by apply after_stored| | |].
  - unfold artifact_in_scope. by rewrite Ht, Hp, Hct, Hcp, !bool_decide_true.
  - unfold required_permission. by rewrite Hv.
  - by rewrite (loads_dumps _ _ Hk Et), canon_VDict.
Qed.

(** ** Reads are guarded *)

Lemma authorize_inv now uri r c ps s s' :
  authorize now uri r c ps s = (Ret tt, s') → s' = s ∧ artifact_in_scope r c = true ∧ required_permission r ∈ ps.
Proof.
  unfold authorize. destruct (artifact_in_scope r c); simpl; [|done].
  case_bool_decide; simpl; [|done]. by intros [= <-].
Qed.
Lemma checked_inv now uri text r c s s' :
  checked sha256 now uri text r c s = (Ret tt, s') → s' = s ∧ _checksum sha256 text = ar_checksum r.
Proof.
  unfold checked, try_except, _ensure_checksum. case_bool_decide; simpl; [|done]. by intros [= <-].
Qed.
Lemma get_record_inv uri s r s' : get_record uri s = (Ret r, s') → s' = s ∧ dict_get uri (as_records s) = Some r.
Proof. unfold get_record, mbind, M_bind. simpl. destruct (dict_get _ _); [|done]. by intros [= <- <-]. Qed.

(** The bytes a read of the class gets at the artifact. *)
Definition fetch (uri : string) (r : ArtifactRecord) : M (ArtifactStore W) string :=
  match k with
  | InMemoryArtifactStore => s ← get_state; of_option (dict_get uri (as_objects s)) (KeyError uri)
  | LocalArtifactStore _ | S3CompatibleArtifactStore _ _ _ false => read_file (object_path (ar_id r))
  | S3CompatibleArtifactStore bucket _ _ true => in_client (get_object bucket (_object_key (ar_id r)))
  end.
Lemma fetch_log uri r s text s' : fetch uri r s = (Ret text, s') → as_audit_log s' = as_audit_log s.
Proof.
  unfold fetch, read_file, in_client, zoom, mbind, M_bind. destruct k as [|?|? ? ? []]; simpl;
    try (destruct (dict_get _ _); [|done]; by intros [= <- <-]).
  destruct (get_object _ _ _) as [o w]. by intros [= _ <-].
Qed.

(** What a read that returns has gone through, in the order of either class. *)
Definition passed now c r text d s s' : Prop :=
  _checksum sha256 text = ar_checksum r ∧ json_loads text ≫= py_dict = Some d ∧ s' = (audit_read now c r "allow" None s).2.
Lemma file_tail_inv now uri text r c s d s' :
  (checked sha256 now uri text r c ;; audit_read now c r "allow" None ;; decode text) s = (Ret d, s') → passed now c r text d s s'.
Proof.
  intros ([]&s1&[-> Hc]%checked_inv&H)%bind_ret_inv. revert H. unfold decode, passed, mbind, M_bind. simpl.
  destruct (json_loads text) as [payload|]; [|done]. simpl. destruct (py_dict payload); [|done]. by intros [= <- <-].
Qed.
Lemma memory_tail_inv now uri text r c s d s' :
  (checked sha256 now uri text r c ;;
   payload ← of_option (json_loads text) (ValueError "Expecting value");
   audit_read now c r "allow" None ;;
   of_option (py_dict payload) (TypeError "cannot convert to dict")) s = (Ret d, s') → passed now c r text d s s'.
Proof.
  intros ([]&s1&[-> Hc]%checked_inv&H)%bind_ret_inv. revert H. unfold passed, mbind, M_bind.
  destruct (json_loads text) as [payload|]; [|done]. simpl. destruct (py_dict payload); [|done]. by intros [= <- <-].
Qed.

Lemma read_inv now uri c ps s d s' : read_json sha256 k now uri c ps s = (Ret d, s') → ∃ r text s1,
  dict_get uri (as_records s) = Some r ∧ artifact_in_scope r c = true ∧ required_permission r ∈ ps ∧
  fetch uri r s = (Ret text, s1) ∧ passed now c r text d s1 s'.
Proof.
  unfold fetch, read_json. destruct k as [|?|b url sc []];
    unfold memory_read_json, s3_read_json, local_read_json, _authorize_read;
    intros (r&s0&[-> Hr]%get_record_inv&([]&s1&(->&Hs&Hp)%authorize_inv&H)%bind_ret_inv)%bind_ret_inv.
  - apply bind_ret_inv in H as (?&?&[= <- <-]&(text&s1&Ho&H)%bind_ret_inv). apply memory_tail_inv in H.
    exists r, text, s1. split_and!; done.
  - apply bind_ret_inv in H as (text&s1&Hf&H%file_tail_inv). by exists r, text, s1.
  - apply bind_ret_inv in H as (text&s1&Hf&H%file_tail_inv). by exists r, text, s1.
  - apply bind_ret_inv in H as (text&s1&Hf&H%file_tail_inv). by exists r, text, s1.
Qed.

(** A payload is handed out only for a registered artifact of the reader's scope, to a
    reader with the permission for its visibility, when the bytes have the checksum that
    was recorded; the log has one more record that says so. *)
Theorem artifact_reads_guarded now uri c ps s d s' :
  read_json sha256 k now uri c ps s = (Ret d, s') → ∃ r text s1,
  dict_get uri (as_records s) = Some r ∧ artifact_in_scope r c = true ∧ required_permission r ∈ ps ∧
  fetch uri r s = (Ret text, s1) ∧ _checksum sha256 text = ar_checksum r ∧ json_loads text ≫= py_dict = Some d ∧
  allowed_read c r s s'.
Proof.
  intros (r&text&s1&Hr&Hs&Hp&Hf&Hc&Hj&->)%read_inv. exists r, text, s1. split_and!; try done.
  apply fetch_log in Hf. unfold allowed_read. rewrite <-Hf. eexists. by split_and!.
Qed.

(** A reader from elsewhere, or without the permission, is refused, and the refusal is on
    record; nothing else changes. *)
Theorem artifact_reads_refused now uri c ps s r :
  dict_get uri (as_records s) = Some r → artifact_in_scope r c = false ∨ required_permission r ∉ ps → ∃ u s' e,
  read_json sha256 k now uri c ps s = (Raise (ArtifactAccessDeniedError u), s') ∧ same_artifacts s s' ∧
  al_records (as_audit_log s') = al_records (as_audit_log s) ++ [e] ∧ ca_result e = "deny" ∧ ca_resource_id e = Some (ar_id r).
Proof.
  intros Hr Hno.
  assert (∀ u, ∃ s' e, authorize now u r c ps s = (Raise (ArtifactAccessDeniedError u), s') ∧ same_artifacts s s' ∧
    al_records (as_audit_log s') = al_records (as_audit_log s) ++ [e] ∧ ca_result e = "deny" ∧ ca_resource_id e = Some (ar_id r)) as H.
  { intros u. unfold authorize. destruct (artifact_in_scope r c); simpl; [|eexists _, _; by split_and!].
    destruct Hno as [|Hno]; [done|]. rewrite bool_decide_false by done. simpl. eexists _, _; by split_and!. }
  assert (∀ A u (f : ArtifactRecord → M (ArtifactStore W) A), ∃ s' e,
    (r ← get_record uri; authorize now (u r) r c ps ;; f r) s = (Raise (ArtifactAccessDeniedError (u r)), s') ∧
    same_artifacts s s' ∧ al_records (as_audit_log s') = al_records (as_audit_log s) ++ [e] ∧ ca_result e = "deny" ∧
    ca_resource_id e = Some (ar_id r)) as Hf.
  { intros A u f. destruct (H (u r)) as (s'&e&Ha&He). exists s', e. split; [|done].
    unfold get_record, mbind, M_bind. simpl. rewrite Hr. simpl. by rewrite Ha. }
  destruct k as [|?|b url sc []]; [eexists; apply (Hf _ (λ _, uri))|eexists; apply (Hf _ ar_storage_uri)..].
Qed.
End promises.

(** * An object store in memory *)

Abbreviation Bucket := (dict (string * string) string).
#[export] Instance bucket_client : ObjectStoreClient Bucket := {|
  put_object b key body ct m := modify (dict_set (b, key) body);
  get_object b key := λ w, (from_option Ret (Raise (KeyError key)) (dict_get (b, key) w), w);
  presigned_get_url b key n := mret (b +:+ "/" +:+ key)
|}.
#[export] Instance bucket_laws : ObjectStoreLaws Bucket.
Proof.
  split; simpl; try done.
  - intros b key body ct m w w' [= <-]. by rewrite dict_get_set_eq.
  - intros b key body ct m b' key' x w Hne H. by rewrite dict_get_set_ne.
Qed.

(** * Concrete runs *)

Definition demo_digest (s : string) : string := pretty (str_len s).
Definition demo_context (tenant run : Z) : RuntimeContext :=
  mkRuntimeContext tenant (Some 1) run None 1 1 None (Some 5) None None None None None None None None None None None None
    None [] [] [] [].
Definition demo_write (tenant : Z) (payload : pydict) : WriteArgs :=
  mkWriteArgs (demo_context tenant 9) "report" payload "internal" (Some "ida") None None.
Definition demo_kind : StoreKind := S3CompatibleArtifactStore "runs" "https://s3/" "s3" true.
Definition demo_store : ArtifactStore Bucket := new_store (new_audit_log None) [] [].
Definition demo_written : ArtifactStore Bucket :=
  (write_json demo_digest pretty demo_kind 0 (demo_write 1 [("b", VInt 2); ("a", VNone)]) demo_store).2.

Lemma artifact_reads_back_witness : ∃ s,
  read_json demo_digest demo_kind 9 "s3://runs/artifacts/1.json" (demo_context 1 9) {["artifact:read:internal"]}
    (after demo_digest pretty demo_kind [OpWrite 1 (demo_write 2 []); OpUrl "s3://runs/artifacts/2.json" 60] demo_written) =
  (Ret [("a", VNone); ("b", VInt 2)], s).
Proof.
  destruct (write_json demo_digest pretty demo_kind 0 (demo_write 1 [("b", VInt 2); ("a", VNone)]) demo_store) as [[r|e] s'] eqn:E;
    [|by vm_compute in E].
  assert (ar_storage_uri r = "s3://runs/artifacts/1.json") as <- by (vm_compute in E; by simplify_eq/=).
  assert (s' = demo_written) as <- by (unfold demo_written; by rewrite E).
  destruct (artifact_reads_back demo_digest pretty demo_kind 0 9 (demo_write 1 [("b", VInt 2); ("a", VNone)]) demo_store r s'
    [OpWrite 1 (demo_write 2 []); OpUrl "s3://runs/artifacts/2.json" 60] (demo_context 1 9) {["artifact:read:internal"]})
    as (s''&H&_); [|exact E|reflexivity|reflexivity|by apply elem_of_singleton|].
  - simpl. split_and!; try done. repeat constructor; set_solver.
  - exists s''. exact H.
Defined.

(** A store on files that is started again numbers from one: the next write replaces the
    file of the first artifact, and the address that was handed out for it reads as the
    new one. *)
Theorem restart_overwrites_artifacts :
  let first := local_write_json demo_digest pretty 0 (demo_write 1 [("of", VStr "the first run")]) demo_store in
  let again := new_store (W:=Bucket) (new_audit_log None) (as_files first.2) [] in
  let second := local_write_json demo_digest pretty 1 (demo_write 1 [("of", VStr "another run")]) again in
  ∃ r, first.1 = Ret r ∧ (read_json demo_digest (LocalArtifactStore None) 2 (ar_storage_uri r) (demo_context 1 9)
    {["artifact:read:internal"]} second.2).1 = Ret [("of", VStr "another run")] ∧
  dict_get (object_path (ar_id r)) (as_files second.2) ≠ dict_get (object_path (ar_id r)) (as_files first.2).
Proof. eexists. split_and!; [reflexivity|vm_compute; reflexivity|by vm_compute]. Qed.

(** The address of a download carries no signature and is given out without a check. *)
Theorem download_url_unsigned s r expires :
  dict_get (ar_storage_uri r) (as_records s) = Some r →
  (local_signed_download_url (W:=Bucket) None (ar_storage_uri r) expires s).1 =
  Ret (ar_storage_uri r +:+ "?expires=" +:+ pretty expires).
Proof. intros H. unfold local_signed_download_url, get_record, mbind, M_bind. simpl. by rewrite H. Qed.
