(* ===== verification/Backups.v ===== *)
(** Backup plans and dry runs of restores ([enterprise/dr.py]), over the records of the
    artifact stores. *)

From stdpp Require Import gmap.
From S2P Require Import Prelude Values Json JsonLoads Context Observe Artifacts ArtifactProps.

(** * Data *)

Record BackupPlan := mkPlan {
  bp_id : Z;
  bp_tenant_id : Z;
  bp_project_id : option Z;
  bp_name : string;
  bp_scope : string;
  bp_targets : list string;
  bp_schedule : string;
  bp_retention_days : Z;
  bp_storage_ref : string;
  bp_status : string;
  bp_created_by : option string;
  bp_rpo_seconds : option Z;
  bp_rto_seconds : option Z
}.

(** One entry of a report. *)
Record RestoreCheck := mkCheck {
  ck_target : string;
  ck_artifact_id : Z;
  ck_passed : bool;
  ck_reason : option string
}.
Record RestoreValidationReport := mkReport {
  vr_id : Z;
  vr_backup_ref : string;
  vr_restore_scope : string;
  vr_passed : bool;
  vr_checks : list RestoreCheck;
  vr_created_at : Z
}.
Record RestoreJob := mkJob {
  rj_id : Z;
  rj_tenant_id : Z;
  rj_project_id : option Z;
  rj_backup_ref : string;
  rj_restore_scope : string;
  rj_status : string;
  rj_backup_plan_id : option Z;
  rj_validation_report : RestoreValidationReport;
  rj_started_at : Z;
  rj_finished_at : Z
}.
Record BackupRestoreService := mkBackups {
  br_audit_log : InMemoryComplianceAuditLog;
  br_plans : dict Z BackupPlan;
  br_restore_jobs : dict Z RestoreJob;
  br_next_plan_id : Z;
  br_next_report_id : Z;
  br_next_job_id : Z
}.
#[export] Instance BackupRestoreService_eta : Eta BackupRestoreService := λ s,
  mkBackups (br_audit_log s) (br_plans s) (br_restore_jobs s) (br_next_plan_id s) (br_next_report_id s) (br_next_job_id s).

(** * Operations *)

Section backups.
Context (sha256 : string → string).

Definition _allocate_plan_id : M BackupRestoreService Z :=
  modify (λ s, s <| br_next_plan_id := br_next_plan_id s + 1 |>) ;; gets br_next_plan_id.
Definition _allocate_report_id : M BackupRestoreService Z :=
  modify (λ s, s <| br_next_report_id := br_next_report_id s + 1 |>) ;; gets br_next_report_id.
Definition _allocate_job_id : M BackupRestoreService Z :=
  modify (λ s, s <| br_next_job_id := br_next_job_id s + 1 |>) ;; gets br_next_job_id.

Definition backup_scopes : list string := ["tenant"; "project"; "platform"].
Definition create_plan (tenant : Z) (project : option Z) (name scope : string) (targets : list string) (schedule : string)
    (retention : Z) (storage_ref : string) (created_by : option string) (rpo rto : option Z)
  : M BackupRestoreService BackupPlan :=
  check (bool_decide (scope ∈ backup_scopes)) (ValueError "backup_scope_invalid") ;;
  check (negb (bool_decide (scope = "project") && bool_decide (project = None))) (ValueError "project_backup_requires_project_id") ;;
  id ← _allocate_plan_id;
  let plan := mkPlan id tenant project name scope targets schedule retention storage_ref "active" created_by rpo rto in
  modify (λ s, s <| br_plans := dict_set id plan (br_plans s) |>) ;;
  mret plan.

Definition _validate_artifact (r : ArtifactRecord) (data : string) : RestoreCheck :=
  if bool_decide ("sha256:" +:+ sha256 data = ar_checksum r) && (ar_size_bytes r =? str_len data)
  then mkCheck "artifact" (ar_id r) true None
  else mkCheck "artifact" (ar_id r) false (Some "artifact_checksum_mismatch").

(** The plan that is named exists, in this scope and for this kind of restore. *)
Definition check_plan (tenant : Z) (project : option Z) (restore_scope : string) (plan_id : option Z)
  : M BackupRestoreService unit :=
  match plan_id with
  | None => mret tt
  | Some id =>
      s ← get_state;
      plan ← of_option (dict_get id (br_plans s)) (RestoreValidationError "backup_plan_not_found");
      check (bool_decide (bp_tenant_id plan = tenant) && bool_decide (bp_project_id plan = project))
        (RestoreValidationError "backup_plan_scope_mismatch") ;;
      check (bool_decide (bp_scope plan = restore_scope)) (RestoreValidationError "backup_plan_restore_scope_mismatch")
  end.
Definition restore_in_scope (tenant : Z) (project : option Z) (p : ArtifactRecord * string) : bool :=
  bool_decide (ar_tenant_id p.1 = tenant) && bool_decide (ar_project_id p.1 = project).

Definition dry_run_restore (now finished tenant : Z) (project : option Z) (backup_ref restore_scope : string)
    (artifacts : list (ArtifactRecord * string)) (actor : option string) (plan_id : option Z)
  : M BackupRestoreService RestoreJob :=
  check_plan tenant project restore_scope plan_id ;;
  for_each artifacts (λ p, check (restore_in_scope tenant project p) (RestoreValidationError "artifact_scope_mismatch")) ;;
  let checks := (λ p, _validate_artifact p.1 p.2) <$> artifacts in
  let passed := forallb ck_passed checks in
  report_id ← _allocate_report_id;
  let report := mkReport report_id backup_ref restore_scope passed checks now in
  job_id ← _allocate_job_id;
  let job := mkJob job_id tenant project backup_ref restore_scope (if passed then "dry_run_passed" else "dry_run_failed") plan_id
    report now finished in
  modify (λ s, s <| br_restore_jobs := dict_set job_id job (br_restore_jobs s) |>) ;;
  zoom br_audit_log (λ l s, s <| br_audit_log := l |>)
    (record finished tenant project actor (if str_truthy actor then "user" else "system") "restore.dry_run" "restore_job"
      (Some job_id) (if passed then "allow" else "deny")
      [("backup_ref", VStr backup_ref); ("restore_scope", VStr restore_scope); ("passed", VBool passed)]) ;;
  mret job.
End backups.

(** * What a dry run says *)

(** The bytes are those the record describes. *)
Definition intact (sha256 : string → string) (p : ArtifactRecord * string) : Prop :=
  ar_checksum p.1 = _checksum sha256 p.2 ∧ ar_size_bytes p.1 = str_len p.2.

Lemma validate_intact sha256 r data : ck_passed (_validate_artifact sha256 r data) = true ↔ intact sha256 (r, data).
Proof.
  unfold _validate_artifact, intact, _checksum. simpl. case_bool_decide as E; simpl.
  - destruct (ar_size_bytes r =? str_len data) eqn:En; simpl; b2p; naive_solver.
  - split; [done|]. by intros [? _].
Qed.
Lemma validate_all sha256 artifacts :
  forallb ck_passed ((λ p, _validate_artifact sha256 p.1 p.2) <$> artifacts) = true ↔ Forall (intact sha256) artifacts.
Proof.
  induction artifacts as [|[r data] l IH]; [done|]. rewrite fmap_cons, Forall_cons, <-IH, <-validate_intact. apply andb_true_iff.
Qed.

Lemma for_each_check {S A} (f : A → bool) e l (s s' : S) :
  for_each l (λ x, check (f x) e) s = (Ret tt, s') → s' = s ∧ Forall (λ x, f x = true) l.
Proof.
  revert s. induction l as [|x l IH]; intros s; simpl; [by intros [= <-]|].
  unfold check at 1. destruct (f x) eqn:E; [|done]. intros H. apply IH in H as [-> H]. auto.
Qed.

Lemma check_plan_inv t p sc id s s' : check_plan t p sc id s = (Ret tt, s') → s' = s ∧
  ∀ i, id = Some i → ∃ plan, dict_get i (br_plans s) = Some plan ∧ bp_tenant_id plan = t ∧ bp_project_id plan = p ∧ bp_scope plan = sc.
Proof.
  destruct id as [i|]; simpl; [|by intros [= <-]]. unfold mbind, M_bind. simpl.
  destruct (dict_get i _) as [plan|] eqn:E; [|done]. simpl. repeat (case_bool_decide; simpl; try done). intros [= <-].
  split; [done|]. intros ? [= <-]. by exists plan.
Qed.

(** A dry run is reported as passed exactly when every artifact has the bytes its record
    describes; it is only made for artifacts of the scope, under a plan of the scope if
    one is named, and leaves the job and one audit record that says how it went. *)
Theorem dry_run_correct sha256 now fin t p ref sc artifacts actor id s job s' :
  dry_run_restore sha256 now fin t p ref sc artifacts actor id s = (Ret job, s') →
  (rj_status job = "dry_run_passed" ↔ Forall (intact sha256) artifacts) ∧
  (rj_status job = "dry_run_failed" ↔ ¬ Forall (intact sha256) artifacts) ∧
  Forall (λ x, ar_tenant_id x.1 = t ∧ ar_project_id x.1 = p) artifacts ∧
  (∀ i, id = Some i → ∃ plan, dict_get i (br_plans s) = Some plan ∧ bp_tenant_id plan = t ∧ bp_project_id plan = p ∧ bp_scope plan = sc) ∧
  dict_get (rj_id job) (br_restore_jobs s') = Some job ∧
  ∃ e, al_records (br_audit_log s') = al_records (br_audit_log s) ++ [e] ∧ ca_resource_id e = Some (rj_id job) ∧
    (ca_result e = "allow" ↔ Forall (intact sha256) artifacts).
Proof.
  intros ([]&s0&[-> Hplan]%check_plan_inv&([]&s1&[-> Hall]%for_each_check&H)%bind_ret_inv)%bind_ret_inv.
  revert H. intros [= <- <-]. cbn [rj_status rj_id]. pose proof (validate_all sha256 artifacts) as Hv.
  set (passed := forallb _ _) in *. clearbody passed. rewrite <-Hv.
  split; [by destruct passed|]. split; [destruct passed; split; first [done|by intros []]|]. split; [|split; [done|split]].
  - eapply Forall_impl; [exact Hall|]. intros x. unfold restore_in_scope. by intros [?%bool_decide_eq_true ?%bool_decide_eq_true]%andb_true_iff.
  - apply dict_get_set_eq.
  - eexists. split; [done|]. split; [done|]. simpl. rewrite <-Hv. by destruct passed.
Qed.

(** Artifacts as a store wrote them, with the bytes it keeps, pass. *)
Theorem stored_artifacts_restore {W} `{!ObjectStoreClient W, !ObjectStoreLaws W} sha256 isoformat k now a (s : ArtifactStore W) r s' :
  write_json sha256 isoformat k now a s = (Ret r, s') →
  ∃ text, stored sha256 k s' r text ∧ ck_passed (_validate_artifact sha256 r text) = true.
Proof.
  intros (text&_&Hs&_&_&_&Hl&Hc)%write_stored. exists text. split; [done|]. by apply validate_intact.
Qed.

(** A dry run over nothing passes. *)
Theorem empty_restore_passes sha256 now fin t p ref sc actor s :
  ∃ job, (dry_run_restore sha256 now fin t p ref sc [] actor None s).1 = Ret job ∧ rj_status job = "dry_run_passed".
Proof. eexists. by split. Qed.

Definition demo_backups : BackupRestoreService := mkBackups (new_audit_log None) [] [] 0 0 0.
Lemma dry_run_correct_witness :
  let r := artifact_of demo_digest 0 1 (local_uri 1) "{}" (demo_write 1 []) in
  ∃ job, (dry_run_restore demo_digest 0 1 1 (Some 1) "b" "tenant" [(r, "{}")] None None demo_backups).1 = Ret job ∧
  rj_status job = "dry_run_passed".
Proof.
  intros r. destruct (dry_run_restore demo_digest 0 1 1 (Some 1) "b" "tenant" [(r, "{}")] None None demo_backups) as [[job|e] s'] eqn:E;
    [|by vm_compute in E].
  exists job. split; [done|]. apply dry_run_correct in E as [E _]. apply E. by repeat constructor.
Defined.
