(* ===== verification/Webhooks.v ===== *)
(** Webhook subscriptions ([extensions/webhooks.py]): which events go where, at which
    rate, and what is kept of each attempt.

    A dispatch reads the clock when it comes to a subscription; [clock id] is that time
    for the subscription [id]. The transport acts on a world [W]; [exc_text] is the text
    of an exception. *)

From stdpp Require Import gmap.
From S2P Require Import Prelude Values Json Streaming Context ApiKeys Observe.

(** * Data *)

Record WebhookSubscription := mkSubscription {
  sb_id : Z;
  sb_tenant_id : Z;
  sb_project_id : option Z;
  sb_name : string;
  sb_event_types : gset string;
  sb_target_url : string;
  sb_secret_ref : string;
  sb_permissions : gset string;
  sb_status : string;
  sb_retry_policy : pydict;
  sb_rate_limit_per_minute : Z
}.
Definition public_dict (b : WebhookSubscription) : pydict :=
  [("id", VInt (sb_id b)); ("tenant_id", VInt (sb_tenant_id b)); ("project_id", of_int_opt (sb_project_id b));
   ("name", VStr (sb_name b)); ("event_types", VList (VStr <$> sorted_scopes (sb_event_types b)));
   ("target_url", VStr (sb_target_url b)); ("secret_ref", VStr "[REDACTED]");
   ("permissions", VList (VStr <$> sorted_scopes (sb_permissions b))); ("status", VStr (sb_status b));
   ("retry_policy", VDict (sb_retry_policy b)); ("rate_limit_per_minute", VInt (sb_rate_limit_per_minute b))].

Record WebhookDelivery := mkDelivery {
  dv_subscription_id : Z;
  dv_event_id : option string;
  dv_status : string;
  dv_reason : option string;
  dv_created_at : Z
}.

Section service.
Context {W : Type} (post : string → pydict → dict string string → M W unit) (exc_text : exn → string).

Record WebhookSubscriptionService := mkWebhooks {
  wh_transport : W;
  wh_audit_log : InMemoryComplianceAuditLog;
  wh_redaction_policy : RedactionPolicy;
  wh_subscriptions : dict Z WebhookSubscription;
  wh_deliveries : list WebhookDelivery;
  wh_delivery_windows : dict Z (Z * Z);
  wh_next_subscription_id : Z
}.
#[export] Instance WebhookSubscriptionService_eta : Eta WebhookSubscriptionService := λ s,
  mkWebhooks (wh_transport s) (wh_audit_log s) (wh_redaction_policy s) (wh_subscriptions s) (wh_deliveries s)
    (wh_delivery_windows s) (wh_next_subscription_id s).
Definition new_webhooks (w : W) (log : InMemoryComplianceAuditLog) (p : option RedactionPolicy) : WebhookSubscriptionService :=
  mkWebhooks w log (default default_redaction p) [] [] [] 0.

(** * Operations *)

Definition _allocate_subscription_id : M WebhookSubscriptionService Z :=
  modify (λ s, s <| wh_next_subscription_id := wh_next_subscription_id s + 1 |>) ;; gets wh_next_subscription_id.

Definition subscribe (tenant : Z) (project : option Z) (name : string) (event_types : gset string) (url secret : string)
    (permissions : gset string) : M WebhookSubscriptionService WebhookSubscription :=
  check (bool_decide ("event:receive" ∈ permissions)) (PermissionError "webhook_subscription_permission_required") ;;
  id ← _allocate_subscription_id;
  let b := mkSubscription id tenant project name event_types url secret permissions "active" [] 60 in
  modify (λ s, s <| wh_subscriptions := dict_set id b (wh_subscriptions s) |>) ;;
  mret b.

Definition _matches (b : WebhookSubscription) (e : AgentEvent) (tenant : Z) (project : option Z) : bool :=
  bool_decide (sb_status b = "active") && bool_decide (sb_tenant_id b = tenant) && bool_decide (sb_project_id b = project)
  && bool_decide (ev_type e ∈ sb_event_types b).

(** The window after a request at [now], and whether it is let through. *)
Definition rate_step (limit now : Z) (w : option (Z * Z)) : bool * (Z * Z) :=
  let '(window_start, count) := default (now, 0) w in
  let '(window_start, count) := if seconds 60 <=? now - window_start then (now, 0) else (window_start, count) in
  if limit <=? count then (false, (window_start, count)) else (true, (window_start, count + 1)).
Definition _allow_rate (now : Z) (b : WebhookSubscription) : M WebhookSubscriptionService bool :=
  s ← get_state;
  let '(allowed, w) := rate_step (sb_rate_limit_per_minute b) now (dict_get (sb_id b) (wh_delivery_windows s)) in
  modify (λ s, s <| wh_delivery_windows := dict_set (sb_id b) w (wh_delivery_windows s) |>) ;;
  mret allowed.

Definition _record_delivery (now : Z) (b : WebhookSubscription) (e : AgentEvent) (status : string) (reason : option string)
  : M WebhookSubscriptionService unit :=
  modify (λ s, s <| wh_deliveries := wh_deliveries s ++ [mkDelivery (sb_id b) (ev_event_id e) status reason now] |>) ;;
  zoom wh_audit_log (λ l s, s <| wh_audit_log := l |>)
    (record now (sb_tenant_id b) (sb_project_id b) None "system" "webhook.dispatch" "webhook_subscription" (Some (sb_id b))
      (if bool_decide (status = "delivered") then "allow" else "deny")
      [("event_id", of_str_opt (ev_event_id e)); ("reason", of_str_opt reason)]) ;;
  mret tt.

Definition event_payload (e : AgentEvent) : pydict :=
  [("event_id", of_str_opt (ev_event_id e)); ("type", VStr (ev_type e)); ("run_id", of_int_opt (ev_run_id e));
   ("attempt_id", of_int_opt (ev_attempt_id e)); ("sequence", of_int_opt (ev_sequence e)); ("payload", VDict (ev_payload e))].

(** One subscription of a dispatch: whether the event was delivered to it. *)
Definition offer (clock : Z → Z) (e : AgentEvent) (tenant : Z) (project : option Z) (b : WebhookSubscription)
  : M WebhookSubscriptionService bool :=
  let now := clock (sb_id b) in
  if negb (_matches b e tenant project) then mret false
  else
    allowed ← _allow_rate now b;
    if negb allowed then _record_delivery now b e "failed" (Some "rate_limited") ;; mret false
    else
      s ← get_state;
      let payload := apply (wh_redaction_policy s) (event_payload e) in
      r ← catch (zoom wh_transport (λ w s, s <| wh_transport := w |>)
        (post (sb_target_url b) payload [("X-DimooRun-Webhook-Secret-Ref", sb_secret_ref b)]));
      match r with
      | Raise x => _record_delivery now b e "failed" (Some (exc_text x)) ;; mret false
      | Ret _ => _record_delivery now b e "delivered" None ;; mret true
      end.
Fixpoint dispatch_loop (clock : Z → Z) (e : AgentEvent) (tenant : Z) (project : option Z) (l : list WebhookSubscription)
    (delivered : Z) : M WebhookSubscriptionService Z :=
  match l with
  | [] => mret delivered
  | b :: l =>
      done ← offer clock e tenant project b;
      dispatch_loop clock e tenant project l (if (done : bool) then delivered + 1 else delivered)
  end.
Definition dispatch (clock : Z → Z) (e : AgentEvent) (tenant : Z) (project : option Z) : M WebhookSubscriptionService Z :=
  s ← get_state; dispatch_loop clock e tenant project (dict_values (wh_subscriptions s)) 0.

(** * The rate *)

(** How many of the requests at the times [ts] are let through. *)
Fixpoint granted (limit : Z) (ts : list Z) (w : option (Z * Z)) : Z :=
  match ts with
  | [] => 0
  | t :: ts => let '(allowed, w') := rate_step limit t w in (if allowed : bool then 1 else 0) + granted limit ts (Some w')
  end.

Lemma rate_step_some limit t start count : rate_step limit t (Some (start, count)) =
  if seconds 60 <=? t - start then if limit <=? 0 then (false, (t, 0)) else (true, (t, 1))
  else if limit <=? count then (false, (start, count)) else (true, (start, count + 1)).
Proof. unfold rate_step, default, from_option, id. by destruct (seconds 60 <=? t - start). Qed.

(** Within a window. *)
Lemma granted_window limit ts start count :
  0 ≤ limit → 0 ≤ count → Forall (λ t, t - start < seconds 60) ts → granted limit ts (Some (start, count)) ≤ Z.max 0 (limit - count).
Proof.
  intros Hl. revert count. induction ts as [|t ts IH]; intros count Hc Ht; [simpl; lia|].
  apply Forall_cons in Ht as [Ht Hts]. cbn [granted]. rewrite rate_step_some. destruct (seconds 60 <=? t - start) eqn:E; [blia|].
  destruct (limit <=? count) eqn:El; simpl; b2p.
  - specialize (IH count Hc Hts). lia.
  - specialize (IH (count + 1) ltac:(lia) Hts). lia.
Qed.
(** Within a minute, whatever the window was. *)
Lemma granted_minute limit ts from start count :
  0 ≤ limit → 0 ≤ count → Forall (λ t, from ≤ t < from + seconds 60) ts →
  granted limit ts (Some (start, count)) ≤ Z.max 0 (limit - count) + limit.
Proof.
  intros Hl. revert count. induction ts as [|t ts IH]; intros count Hc Ht; [simpl; lia|].
  apply Forall_cons in Ht as [Ht Hts]. cbn [granted]. rewrite rate_step_some. destruct (seconds 60 <=? t - start) eqn:E.
  - assert (Forall (λ t', t' - t < seconds 60) ts) as Hw by (eapply Forall_impl; [exact Hts|]; intros; cbn beta in *; lia).
    destruct (limit <=? 0) eqn:El; simpl; b2p.
    + pose proof (granted_window limit ts t 0 Hl ltac:(lia) Hw). lia.
    + pose proof (granted_window limit ts t 1 Hl ltac:(lia) Hw). lia.
  - destruct (limit <=? count) eqn:El; simpl; b2p.
    + specialize (IH count Hc Hts). lia.
    + specialize (IH (count + 1) ltac:(lia) Hts). lia.
Qed.
Lemma granted_first limit ts from :
  0 ≤ limit → Forall (λ t, from ≤ t < from + seconds 60) ts → granted limit ts None ≤ limit.
Proof.
  intros Hl Ht. destruct ts as [|t ts]; [done|].
  change (granted limit (t :: ts) None) with (granted limit (t :: ts) (Some (t, 0))).
  etrans; [apply granted_window; [done..|]|lia].
  apply Forall_cons in Ht as [Ht Hts]. constructor; [unfold seconds; lia|].
  eapply Forall_impl; [exact Hts|]. intros; cbn beta in *; lia.
Qed.

(** ** Over dispatches *)

(** Subscriptions are kept under their ids. *)
Definition filed (s : WebhookSubscriptionService) : Prop :=
  NoDup (dict_keys (wh_subscriptions s)) ∧ sb_id <$> dict_values (wh_subscriptions s) = dict_keys (wh_subscriptions s).

Definition is_delivered (id : Z) (d : WebhookDelivery) : bool :=
  bool_decide (dv_subscription_id d = id) && bool_decide (dv_status d = "delivered").
Definition deliveries_to (id : Z) (s : WebhookSubscriptionService) : Z := count (is_delivered id) (wh_deliveries s).

(** An offer to another subscription. *)
Definition unrelated (id : Z) : relation WebhookSubscriptionService := λ s s',
  wh_subscriptions s' = wh_subscriptions s ∧ deliveries_to id s' = deliveries_to id s ∧
  dict_get id (wh_delivery_windows s') = dict_get id (wh_delivery_windows s).
#[local] Instance unrelated_preorder id : PreOrder (unrelated id).
Proof. split; [by intros s|]. intros s1 s2 s3 (?&?&?) (?&?&?). unfold unrelated. split_and!; congruence. Qed.

Lemma record_unrelated id now b e st rs :
  sb_id b ≠ id ∨ st ≠ "delivered" → respects (unrelated id) (_record_delivery now b e st rs).
Proof.
  intros Hb s. split_and!; try done. unfold deliveries_to. simpl. rewrite count_app, count_cons.
  assert (is_delivered id (mkDelivery (sb_id b) (ev_event_id e) st rs now) = false) as ->; [|change (count (is_delivered id) []) with 0; lia].
  unfold is_delivered. simpl. destruct Hb; [by rewrite bool_decide_false|]. rewrite (bool_decide_false (st = _)) by done.
  apply andb_false_r.
Qed.
Lemma rate_unrelated id now b : sb_id b ≠ id → respects (unrelated id) (_allow_rate now b).
Proof.
  intros Hb s. unfold _allow_rate, mbind, M_bind. simpl. destruct (rate_step _ _ _). split_and!; try done. simpl.
  by apply dict_get_set_ne.
Qed.
Lemma post_unrelated id url d h :
  respects (unrelated id) (catch (zoom wh_transport (λ w s, s <| wh_transport := w |>) (post url d h))).
Proof. intros s. unfold catch, zoom. by destruct (post _ _ _ _). Qed.

Lemma offer_unrelated id clock e t p b : sb_id b ≠ id → respects (unrelated id) (offer clock e t p b).
Proof.
  intros Hb. unfold offer. case_match; [apply respects_ret, _|].
  apply respects_bind; [apply _|by apply rate_unrelated|intros allowed].
  assert (∀ st rs (x : bool), respects (unrelated id) (_record_delivery (clock (sb_id b)) b e st rs ;; mret x)) as Hr.
  { intros st rs x. apply respects_bind; [apply _|apply record_unrelated; by left|]. intros _. apply respects_ret, _. }
  case_match; [apply Hr|]. apply respects_bind; [apply _|apply respects_get_state, _|intros s].
  apply respects_bind; [apply _|apply post_unrelated|]. intros [|]; apply Hr.
Qed.

(** What a dispatch does for the subscription [id] of rate [limit] at [now]. *)
Definition served (id limit now : Z) : relation WebhookSubscriptionService := λ s s',
  wh_subscriptions s' = wh_subscriptions s ∧
  dict_get id (wh_delivery_windows s') = Some (rate_step limit now (dict_get id (wh_delivery_windows s))).2 ∧
  deliveries_to id s' ≤ deliveries_to id s + (if (rate_step limit now (dict_get id (wh_delivery_windows s))).1 then 1 else 0).

Lemma one_more id d l : count (is_delivered id) (l ++ [d]) ≤ count (is_delivered id) l + 1.
Proof. rewrite count_app, count_cons. change (count (is_delivered id) []) with 0. case_match; lia. Qed.

Lemma offer_own clock e t p b s :
  unrelated (sb_id b) s (offer clock e t p b s).2 ∨
  served (sb_id b) (sb_rate_limit_per_minute b) (clock (sb_id b)) s (offer clock e t p b s).2.
Proof.
  unfold offer. destruct (negb (_matches b e t p)); [by left|]. right. unfold _allow_rate, mbind, M_bind. simpl.
  destruct (rate_step _ _ _) as [allowed w] eqn:Er. unfold served. rewrite Er. simpl. destruct allowed; simpl.
  - unfold catch, zoom. simpl. destruct (post _ _ _ _) as [[[]|x] w'];
      (split_and!; [done|apply dict_get_set_eq|apply one_more]).
  - split_and!; [done|apply dict_get_set_eq|]. rewrite Z.add_0_r. apply Z.eq_le_incl.
    apply (record_unrelated (sb_id b) (clock (sb_id b)) b e "failed" (Some "rate_limited") ltac:(by right) s).
Qed.

Lemma loop_unrelated id clock e t p l n :
  id ∉ (sb_id <$> l) → respects (unrelated id) (dispatch_loop clock e t p l n).
Proof.
  revert n. induction l as [|b l IH]; intros n Hin; [apply respects_ret, _|]. rewrite fmap_cons in Hin.
  apply not_elem_of_cons in Hin as [Hb Hl].
  apply respects_bind; [apply _|by apply offer_unrelated|]. intros done. by apply IH.
Qed.

Lemma loop_serves clock e t p l n b s :
  NoDup (sb_id <$> l) → b ∈ l →
  unrelated (sb_id b) s (dispatch_loop clock e t p l n s).2 ∨
  served (sb_id b) (sb_rate_limit_per_minute b) (clock (sb_id b)) s (dispatch_loop clock e t p l n s).2.
Proof.
  revert n s. induction l as [|b' l IH]; intros n s Hnd Hin; [by apply elem_of_nil in Hin|].
  rewrite fmap_cons in Hnd. apply NoDup_cons in Hnd as [Hb' Hnd]. simpl. unfold mbind, M_bind.
  apply elem_of_cons in Hin as [->|Hin].
  - pose proof (offer_own clock e t p b' s) as Ho. destruct (offer clock e t p b' s) as [[x|x] s1]; simpl in *; [|done].
    pose proof (loop_unrelated (sb_id b') clock e t p l (if x then n + 1 else n) Hb' s1) as (H1&H2&H3).
    destruct Ho as [(?&?&?)|(?&?&?)]; [left|right]; unfold unrelated, served; split_and!; congruence.
  - assert (sb_id b' ≠ sb_id b) as Hne by (intros He; apply Hb'; rewrite He; by apply list_elem_of_fmap_2).
    pose proof (offer_unrelated (sb_id b) clock e t p b' Hne s) as Ho.
    destruct (offer clock e t p b' s) as [[x|x] s1]; simpl in *; [|by left]. destruct Ho as (Ha&Hb&Hc).
    destruct (IH (if x then n + 1 else n) s1 Hnd Hin) as [(?&?&?)|(?&Hd&He)]; [left|right].
    + unfold unrelated. split_and!; congruence.
    + unfold served. rewrite Hc in Hd, He. rewrite Hb in He. split_and!; congruence.
Qed.

Record Dispatch := mkDispatch { di_clock : Z → Z; di_event : AgentEvent; di_tenant : Z; di_project : option Z }.
Definition dispatch_all (ds : list Dispatch) (s : WebhookSubscriptionService) : WebhookSubscriptionService :=
  foldl (λ s d, (dispatch (di_clock d) (di_event d) (di_tenant d) (di_project d) s).2) s ds.

Lemma dispatches_granted ds b from s : filed s → b ∈ dict_values (wh_subscriptions s) →
  Forall (λ d, from ≤ di_clock d (sb_id b) < from + seconds 60) ds →
  ∃ ts, Forall (λ t, from ≤ t < from + seconds 60) ts ∧
  deliveries_to (sb_id b) (dispatch_all ds s) ≤ deliveries_to (sb_id b) s +
    granted (sb_rate_limit_per_minute b) ts (dict_get (sb_id b) (wh_delivery_windows s)).
Proof.
  revert s. induction ds as [|d ds IH]; intros s Hf Hb Ht; [exists []; simpl; split; [done|lia]|].
  apply Forall_cons in Ht as [Ht Hts]. destruct Hf as [Hnd Hid]. simpl.
  pose proof (loop_serves (di_clock d) (di_event d) (di_tenant d) (di_project d) (dict_values (wh_subscriptions s)) 0 b s
    ltac:(by rewrite Hid) Hb) as Hs.
  change (dispatch_loop (di_clock d) (di_event d) (di_tenant d) (di_project d) (dict_values (wh_subscriptions s)) 0 s)
    with (dispatch (di_clock d) (di_event d) (di_tenant d) (di_project d) s) in Hs.
  set (s1 := (dispatch _ _ _ _ s).2) in *. clearbody s1.
  assert (wh_subscriptions s1 = wh_subscriptions s) as Hsub by (by destruct Hs as [(?&?&?)|(?&?&?)]).
  destruct (IH s1) as (ts&Hin&Hle); [unfold filed; by rewrite Hsub|by rewrite Hsub|done|].
  destruct Hs as [(_&H2&H3)|(_&H2&H3)].
  - exists ts. split; [done|]. by rewrite H2, H3 in Hle.
  - exists (di_clock d (sb_id b) :: ts). split; [by constructor|]. cbn [granted]. rewrite H2 in Hle.
    destruct (rate_step _ _ _) as [allowed w]. simpl in *. lia.
Qed.

(** Within any minute, however events come in and whatever the transport does, a
    subscription is sent at most twice its limit, and at most its limit if nothing was
    sent to it before. *)
Theorem webhook_rate_limited ds b from s :
  filed s → b ∈ dict_values (wh_subscriptions s) → 0 ≤ sb_rate_limit_per_minute b →
  Forall (λ d, from ≤ di_clock d (sb_id b) < from + seconds 60) ds →
  (∀ start n, dict_get (sb_id b) (wh_delivery_windows s) = Some (start, n) → 0 ≤ n) →
  deliveries_to (sb_id b) (dispatch_all ds s) - deliveries_to (sb_id b) s ≤ 2 * sb_rate_limit_per_minute b ∧
  (dict_get (sb_id b) (wh_delivery_windows s) = None →
    deliveries_to (sb_id b) (dispatch_all ds s) - deliveries_to (sb_id b) s ≤ sb_rate_limit_per_minute b).
Proof.
  intros Hf Hb Hl Hd Hw. destruct (dispatches_granted ds b from s Hf Hb Hd) as (ts&Hts&Hle).
  destruct (dict_get _ (wh_delivery_windows s)) as [[start n]|].
  - split; [|done]. pose proof (granted_minute (sb_rate_limit_per_minute b) ts from start n Hl (Hw _ _ eq_refl) Hts).
    specialize (Hw _ _ eq_refl). lia.
  - pose proof (granted_first (sb_rate_limit_per_minute b) ts from Hl Hts). split; [|intros _]; lia.
Qed.

(** Subscribing keeps them filed. *)
Lemma subscribe_filed t p name types url secret ps s :
  filed s → Forall (λ i, i ≤ wh_next_subscription_id s) (dict_keys (wh_subscriptions s)) →
  let s' := (subscribe t p name types url secret ps s).2 in
  filed s' ∧ Forall (λ i, i ≤ wh_next_subscription_id s') (dict_keys (wh_subscriptions s')).
Proof.
  intros [Hnd Hid] Hle. unfold subscribe, check. case_bool_decide; [|done]. simpl.
  rewrite dict_set_fresh.
  2: { apply dict_get_None. intros Hin. rewrite Forall_forall in Hle. specialize (Hle _ Hin). lia. }
  unfold filed, dict_keys, dict_values in *. simpl. rewrite !fmap_app. split_and!.
  - apply NoDup_app. split_and!; [done| |apply NoDup_singleton]. intros i Hi ->%list_elem_of_singleton.
    rewrite Forall_forall in Hle. specialize (Hle _ Hi). simpl in Hle. lia.
  - by rewrite Hid.
  - apply Forall_app_2; [eapply Forall_impl; [exact Hle|]; simpl; lia|]. apply Forall_singleton. simpl. lia.
Qed.

(** An event goes out only to active subscriptions of its scope and type. *)
Lemma offer_matching clock e t p b s s' :
  offer clock e t p b s = (Ret true, s') →
  sb_status b = "active" ∧ sb_tenant_id b = t ∧ sb_project_id b = p ∧ ev_type e ∈ sb_event_types b.
Proof.
  unfold offer, _matches. intros H. repeat (case_bool_decide; simpl in H; [|done]). done.
Qed.
End service.
Arguments WebhookSubscriptionService : clear implicits.

(** * The transport of the tests *)

Record InMemoryWebhookTransport := mkTransport {
  it_requests : list (string * pydict * dict string string);
  it_fail_next : bool
}.
#[export] Instance InMemoryWebhookTransport_eta : Eta InMemoryWebhookTransport := λ t, mkTransport (it_requests t) (it_fail_next t).
Definition memory_post (url : string) (payload : pydict) (headers : dict string string) : M InMemoryWebhookTransport unit :=
  t ← get_state;
  if it_fail_next t then
    modify (λ t, t <| it_fail_next := false |>) ;; raise (RuntimeError "webhook_delivery_failed")
  else modify (λ t, t <| it_requests := it_requests t ++ [(url, payload, headers)] |>).

(** * Concrete runs *)

Definition demo_event : AgentEvent := mkAgentEvent "run.completed" [("secret", VStr "x")] (Some 1) None (Some 1) None None 0 "internal".
Definition demo_webhooks : WebhookSubscriptionService InMemoryWebhookTransport :=
  (subscribe 1 (Some 1) "hook" {["run.completed"]} "https://hook" "vault/hook" {["event:receive"]}
    (new_webhooks (mkTransport [] false) (new_audit_log None) None)).2.
Definition demo_dispatch (now : Z) : Dispatch := mkDispatch (λ _, seconds now) demo_event 1 (Some 1).

Lemma webhook_rate_limited_witness :
  deliveries_to 1 (dispatch_all memory_post (λ _, "failed") (replicate 70 (demo_dispatch 0)) demo_webhooks) ≤ 60.
Proof.
  destruct (webhook_rate_limited memory_post (λ _, "failed") (replicate 70 (demo_dispatch 0))
    (mkSubscription 1 1 (Some 1) "hook" {["run.completed"]} "https://hook" "vault/hook" {["event:receive"]} "active" [] 60) 0 demo_webhooks)
    as [_ H].
  - split; [|done]. apply NoDup_singleton.
  - left.
  - done.
  - apply Forall_replicate. by vm_compute.
  - done.
  - specialize (H eq_refl). change (deliveries_to _ demo_webhooks) with 0 in H. simpl sb_rate_limit_per_minute in H. simpl sb_id in H. lia.
Defined.

(** The window starts anew a minute after its first request, so a burst at its end and one
    at the start of the next go out within seconds: more than the limit in a minute. *)
Theorem webhook_burst :
  let before := dispatch_all memory_post (λ _, "failed") [demo_dispatch 0] demo_webhooks in
  let after := dispatch_all memory_post (λ _, "failed")
    (replicate 59 (demo_dispatch 59) ++ replicate 60 (demo_dispatch 60)) before in
  deliveries_to 1 after - deliveries_to 1 before = 119 ∧ sb_rate_limit_per_minute <$> dict_values (wh_subscriptions after) = [60].
Proof. by vm_compute. Qed.
