(* ===== verification/Alerts.v ===== *)
(** Alert rules, notification channels and incidents ([notifications/alerts.py]). [now] is
    the time a method reads at its start; an incident is created at that time. *)

From stdpp Require Import gmap.
From Stdlib Require Import SpecFloat.
From S2P Require Import Prelude Values Json Floats Context Observe.

(** * Data *)

Record NotificationChannel := mkChannel {
  nc_id : Z;
  nc_tenant_id : Z;
  nc_project_id : option Z;
  nc_type : string;
  nc_target_ref : string;
  nc_status : string;
  nc_metadata : pydict
}.
Record AlertRule := mkRule {
  al_id : Z;
  al_tenant_id : Z;
  al_project_id : option Z;
  al_name : string;
  al_signal : string;
  al_threshold : float;
  al_channel_id : Z;
  al_status : string;
  al_dedupe_window_seconds : Z;
  al_cooldown_seconds : Z
}.
Record IncidentEvent := mkIncident {
  in_id : Z;
  in_tenant_id : Z;
  in_project_id : option Z;
  in_signal : string;
  in_severity : string;
  in_status : string;
  in_source_ref : string;
  in_value : float;
  in_metadata : pydict;
  in_acknowledged_by : option string;
  in_resolved_by : option string;
  in_created_at : Z;
  in_updated_at : option Z
}.
#[export] Instance IncidentEvent_eta : Eta IncidentEvent := λ i,
  mkIncident (in_id i) (in_tenant_id i) (in_project_id i) (in_signal i) (in_severity i) (in_status i) (in_source_ref i)
    (in_value i) (in_metadata i) (in_acknowledged_by i) (in_resolved_by i) (in_created_at i) (in_updated_at i).

Record NotificationService := mkNotifications {
  nf_channels : dict Z NotificationChannel;
  nf_rules : dict Z AlertRule;
  nf_incidents : list IncidentEvent;
  nf_deliveries : list (dict string cell);
  nf_failed_deliveries : list (dict string cell);
  nf_audit_log : option InMemoryComplianceAuditLog;
  nf_redaction_policy : RedactionPolicy;
  nf_last_delivery_at : dict Z Z;
  nf_next_incident_id : Z
}.
#[export] Instance NotificationService_eta : Eta NotificationService := λ s,
  mkNotifications (nf_channels s) (nf_rules s) (nf_incidents s) (nf_deliveries s) (nf_failed_deliveries s) (nf_audit_log s)
    (nf_redaction_policy s) (nf_last_delivery_at s) (nf_next_incident_id s).
Definition new_notifications (log : option InMemoryComplianceAuditLog) (p : option RedactionPolicy) : NotificationService :=
  mkNotifications [] [] [] [] [] log (default default_redaction p) [] 0.

(** * Channels and rules *)

Definition register_channel (c : NotificationChannel) : M NotificationService NotificationChannel :=
  modify (λ s, s <| nf_channels := dict_set (nc_id c) c (nf_channels s) |>) ;; mret c.

Definition _validate_rule_channel (r : AlertRule) : M NotificationService unit :=
  s ← get_state;
  c ← of_option (dict_get (al_channel_id r) (nf_channels s)) (NotificationConfigurationError "notification_channel_not_found");
  check (bool_decide (nc_tenant_id c = al_tenant_id r) && bool_decide (nc_project_id c = al_project_id r))
    (NotificationConfigurationError "notification_channel_scope_mismatch") ;;
  check (bool_decide (nc_status c = "active")) (NotificationConfigurationError "notification_channel_inactive").

Definition register_rule (r : AlertRule) : M NotificationService AlertRule :=
  _validate_rule_channel r ;;
  modify (λ s, s <| nf_rules := dict_set (al_id r) r (nf_rules s) |>) ;; mret r.

(** * Signals *)

Definition is_open (i : IncidentEvent) : bool :=
  bool_decide (in_status i = "open") || bool_decide (in_status i = "acknowledged").
Definition duplicate_of (r : AlertRule) (source : string) (now : Z) (i : IncidentEvent) : bool :=
  bool_decide (in_tenant_id i = al_tenant_id r) && bool_decide (in_project_id i = al_project_id r)
  && bool_decide (in_signal i = al_signal r) && bool_decide (in_source_ref i = source) && is_open i
  && (now - seconds (al_dedupe_window_seconds r) <=? in_created_at i).
Definition _find_open_duplicate (r : AlertRule) (source : string) (now : Z) : M NotificationService (option IncidentEvent) :=
  gets (λ s, List.find (duplicate_of r source now) (rev (nf_incidents s))).

Definition _is_in_cooldown (r : AlertRule) (now : Z) : M NotificationService bool :=
  gets (λ s, match dict_get (al_id r) (nf_last_delivery_at s) with
    | Some last => now - last <? seconds (al_cooldown_seconds r)
    | None => false
    end).

Definition _allocate_incident_id : M NotificationService Z :=
  modify (λ s, s <| nf_next_incident_id := nf_next_incident_id s + 1 |>) ;; gets nf_next_incident_id.

Definition notification (r : AlertRule) (i : IncidentEvent) : dict string cell :=
  [("channel_id", Val (VInt (al_channel_id r))); ("incident_id", Val (VInt (in_id i))); ("signal", Val (VStr (in_signal i)));
   ("value", Flt (in_value i)); ("metadata", Val (VDict (in_metadata i)))].
Definition _deliver (r : AlertRule) (i : IncidentEvent) : M NotificationService unit :=
  s ← get_state;
  c ← of_option (dict_get (al_channel_id r) (nf_channels s)) (KeyError (pretty (al_channel_id r)));
  let payload := apply_cells (nf_redaction_policy s) (notification r i) in
  if truthy (default VNone (dict_get "fail_delivery" (nc_metadata c))) then
    modify (λ s, s <| nf_failed_deliveries := nf_failed_deliveries s ++
      [dict_set "reason" (Val (VStr "notification_delivery_failed")) payload] |>)
  else modify (λ s, s <| nf_deliveries := nf_deliveries s ++ [payload] |>).

Definition fires (tenant : Z) (project : option Z) (signal : string) (v : float) (r : AlertRule) : bool :=
  bool_decide (al_tenant_id r = tenant) && bool_decide (al_project_id r = project) && bool_decide (al_signal r = signal)
  && bool_decide (al_status r = "active") && fleb (al_threshold r) v.

(** The end of a firing: a new incident and its notification. *)
Definition open_incident (now : Z) (tenant : Z) (project : option Z) (signal : string) (v : float) (source : string)
    (payload : pydict) (r : AlertRule) : M NotificationService (option IncidentEvent) :=
  id ← _allocate_incident_id;
  p ← gets nf_redaction_policy;
  let i := mkIncident id tenant project signal "warning" "open" source v
    [("rule_id", VInt (al_id r)); ("payload", VDict (apply p payload))] None None now None in
  modify (λ s, s <| nf_incidents := nf_incidents s ++ [i] |>) ;;
  _deliver r i ;;
  modify (λ s, s <| nf_last_delivery_at := dict_set (al_id r) now (nf_last_delivery_at s) |>) ;;
  mret (Some i).
(** What the first rule that fires does; the others are not looked at. *)
Definition fire (now : Z) (tenant : Z) (project : option Z) (signal : string) (v : float) (source : string) (payload : pydict)
    (r : AlertRule) : M NotificationService (option IncidentEvent) :=
  _validate_rule_channel r ;;
  deduped ← _find_open_duplicate r source now;
  match deduped with
  | Some i => mret (Some i)
  | None =>
      cool ← _is_in_cooldown r now;
      if (cool : bool) then mret None else open_incident now tenant project signal v source payload r
  end.
Definition evaluate_signal (now : Z) (tenant : Z) (project : option Z) (signal : string) (v : float) (source : string)
    (payload : pydict) : M NotificationService (option IncidentEvent) :=
  s ← get_state;
  match List.find (fires tenant project signal v) (dict_values (nf_rules s)) with
  | Some r => fire now tenant project signal v source payload r
  | None => mret None
  end.

(** * Incidents *)

Definition _get_incident (id : Z) : M NotificationService IncidentEvent :=
  s ← get_state; of_option (List.find (λ i, in_id i =? id) (nf_incidents s)) (KeyError (pretty id)).

(** [self.incidents[self.incidents.index(incident)] = updated]: the first incident equal to
    the one found, which is the first with its id. *)
Fixpoint replace_first (id : Z) (i : IncidentEvent) (l : list IncidentEvent) : list IncidentEvent :=
  match l with
  | [] => []
  | x :: l => if in_id x =? id then i :: l else x :: replace_first id i l
  end.
Definition _replace_incident (i updated : IncidentEvent) : M NotificationService IncidentEvent :=
  modify (λ s, s <| nf_incidents := replace_first (in_id i) updated (nf_incidents s) |>) ;; mret updated.

Definition _audit_incident_action (now : Z) (i : IncidentEvent) (action actor : string) : M NotificationService unit :=
  s ← get_state;
  match nf_audit_log s with
  | None => mret tt
  | Some log =>
      let l := (record now (in_tenant_id i) (in_project_id i) (Some actor) "user" action "incident_event" (Some (in_id i)) "allow"
        [("signal", VStr (in_signal i)); ("status", VStr (in_status i))] log).2 in
      modify (λ s, s <| nf_audit_log := Some l |>)
  end.

Definition acknowledge_incident (now id : Z) (actor : string) : M NotificationService IncidentEvent :=
  i ← _get_incident id;
  updated ← _replace_incident i (i <| in_status := "acknowledged" |> <| in_acknowledged_by := Some actor |> <| in_updated_at := Some now |>);
  _audit_incident_action now updated "incident.acknowledge" actor ;;
  mret updated.
Definition resolve_incident (now id : Z) (actor : string) : M NotificationService IncidentEvent :=
  i ← _get_incident id;
  updated ← _replace_incident i (i <| in_status := "resolved" |> <| in_resolved_by := Some actor |> <| in_updated_at := Some now |>);
  _audit_incident_action now updated "incident.resolve" actor ;;
  mret updated.

(** * What a signal leads to *)

(** The channel of the rule is there, in its scope and active. *)
Definition channel_ready (s : NotificationService) (r : AlertRule) : Prop := ∃ c,
  dict_get (al_channel_id r) (nf_channels s) = Some c ∧ nc_tenant_id c = al_tenant_id r ∧ nc_project_id c = al_project_id r ∧
  nc_status c = "active".

Lemma validate_inv r s s' : _validate_rule_channel r s = (Ret tt, s') → s' = s ∧ channel_ready s r.
Proof.
  unfold _validate_rule_channel, mbind, M_bind. simpl. destruct (dict_get _ _) as [c|] eqn:E; [|done]. simpl.
  repeat (case_bool_decide; simpl; try done). intros [= <-]. split; [done|]. by exists c.
Qed.

(** Exactly one notification was made for the incident, sent or kept as failed. *)
Definition notified (r : AlertRule) (i : IncidentEvent) (s s' : NotificationService) : Prop :=
  let sent := apply_cells (nf_redaction_policy s) (notification r i) in
  (nf_deliveries s' = nf_deliveries s ++ [sent] ∧ nf_failed_deliveries s' = nf_failed_deliveries s) ∨
  (nf_deliveries s' = nf_deliveries s ∧ nf_failed_deliveries s' = nf_failed_deliveries s ++
    [dict_set "reason" (Val (VStr "notification_delivery_failed")) sent]).

Lemma deliver_inv r i s s' : _deliver r i s = (Ret tt, s') → notified r i s s' ∧
  nf_incidents s' = nf_incidents s ∧ nf_rules s' = nf_rules s ∧ nf_channels s' = nf_channels s ∧
  nf_last_delivery_at s' = nf_last_delivery_at s ∧ nf_next_incident_id s' = nf_next_incident_id s.
Proof.
  unfold _deliver, mbind, M_bind. simpl. destruct (dict_get _ (nf_channels s)) as [c|]; [|done]. simpl.
  destruct (truthy _); intros [= <-]; (split; [|done]); [by right|by left].
Qed.

(** A new incident of a rule. *)
Record raised (now : Z) (r : AlertRule) (source : string) (payload : pydict) (i : IncidentEvent) (s s' : NotificationService) : Prop := {
  ra_number : in_id i = nf_next_incident_id s + 1 ∧ nf_next_incident_id s' = nf_next_incident_id s + 1;
  ra_open : in_status i = "open" ∧ in_created_at i = now ∧ in_source_ref i = source ∧ in_signal i = al_signal r ∧
    in_tenant_id i = al_tenant_id r ∧ in_project_id i = al_project_id r;
  ra_fresh : Forall (λ j, duplicate_of r source now j = false) (nf_incidents s);
  ra_cool : ∀ last, dict_get (al_id r) (nf_last_delivery_at s) = Some last → seconds (al_cooldown_seconds r) ≤ now - last;
  ra_incidents : nf_incidents s' = nf_incidents s ++ [i];
  ra_notified : notified r i s s';
  ra_last : nf_last_delivery_at s' = dict_set (al_id r) now (nf_last_delivery_at s);
  ra_concealed : conceals (nf_redaction_policy s) (apply (nf_redaction_policy s) payload) ∧
    dict_get "payload" (in_metadata i) = Some (VDict (apply (nf_redaction_policy s) payload))
}.

Lemma find_rev_none {A} (f : A → bool) l : List.find f (rev l) = None → Forall (λ x, f x = false) l.
Proof.
  intros H. apply Forall_forall. intros x Hx. apply (find_none _ _ H). rewrite <-in_rev. by apply list_elem_of_In.
Qed.

Lemma open_incident_raises now t p signal v source payload r s res s' :
  open_incident now t p signal v source payload r s = (Ret res, s') →
  al_tenant_id r = t → al_project_id r = p → al_signal r = signal →
  Forall (λ j, duplicate_of r source now j = false) (nf_incidents s) →
  (∀ last, dict_get (al_id r) (nf_last_delivery_at s) = Some last → seconds (al_cooldown_seconds r) ≤ now - last) →
  ∃ i, res = Some i ∧ raised now r source payload i s s'.
Proof.
  intros H Ht Hp Hs Hd Hc. revert H. unfold open_incident, _allocate_incident_id, mbind, M_bind. simpl.
  destruct (_deliver _ _ _) as [[[]|] s1] eqn:E; [|done]. intros [= <- <-]. eexists. split; [done|].
  apply deliver_inv in E as (Hn&H1&H2&H3&H4&H5). simpl in *. split; simpl; try done.
  - by rewrite H4.
  - split; [apply apply_conceals|done].
Qed.

(** Every answer to a signal: nothing if no rule fires, nothing while the first rule that
    fires is in its cooldown, the incident that is already open for the same source, or a
    new incident with exactly one redacted notification on an active channel of the scope;
    the first two and the third change nothing. *)
Theorem signal_correct now t p signal v source payload s res s' :
  evaluate_signal now t p signal v source payload s = (Ret res, s') →
  match List.find (fires t p signal v) (dict_values (nf_rules s)) with
  | None => res = None ∧ s' = s
  | Some r => channel_ready s r ∧
      match res with
      | None => s' = s ∧ ∃ last, dict_get (al_id r) (nf_last_delivery_at s) = Some last ∧ now - last < seconds (al_cooldown_seconds r)
      | Some i => (s' = s ∧ i ∈ nf_incidents s ∧ duplicate_of r source now i = true) ∨ raised now r source payload i s s'
      end
  end.
Proof.
  unfold evaluate_signal, mbind, M_bind. simpl. destruct (List.find _ _) as [r|] eqn:Ef; [|by intros [= <- <-]].
  apply find_some in Ef as [_ Hf].
  assert (al_tenant_id r = t ∧ al_project_id r = p ∧ al_signal r = signal) as (Ht&Hp&Hs).
  { unfold fires in Hf. by repeat case_bool_decide. }
  intros ([]&s1&[-> Hc]%validate_inv&H)%bind_ret_inv. split; [done|].
  revert H. unfold _find_open_duplicate, _is_in_cooldown, gets. unfold mbind at 1, M_bind at 1.
  destruct (List.find (duplicate_of r source now) _) as [i|] eqn:Ed.
  { intros [= <- <-]. left. apply find_some in Ed as [Hin Hd]. split_and!; [done| |done]. by apply list_elem_of_In, in_rev. }
  unfold mbind at 1, M_bind at 1. destruct (dict_get (al_id r) _) as [last|] eqn:El.
  - destruct (now - last <? seconds (al_cooldown_seconds r)) eqn:Ec.
    { intros [= <- <-]. split; [done|]. exists last. split; [done|blia]. }
    intros H. eapply open_incident_raises in H as (i&->&H); [by right|done..| |]; [by apply find_rev_none|].
    intros ? E. rewrite El in E. injection E as <-. blia.
  - intros H. eapply open_incident_raises in H as (i&->&H); [by right|done..| |]; [by apply find_rev_none|].
    intros ? E. by rewrite El in E.
Qed.

(** ** Incidents are numbered *)

Definition numbered (s : NotificationService) : Prop :=
  in_id <$> nf_incidents s = (λ i, 1 + Z.of_nat i) <$> seq 0 (length (nf_incidents s)) ∧
  nf_next_incident_id s = Z.of_nat (length (nf_incidents s)).

Inductive alert_op :=
| OpChannel (c : NotificationChannel)
| OpRule (r : AlertRule)
| OpSignal (now t : Z) (p : option Z) (signal : string) (v : float) (source : string) (payload : pydict)
| OpAcknowledge (now id : Z) (actor : string)
| OpResolve (now id : Z) (actor : string).
Definition run_alert (s : NotificationService) (o : alert_op) : NotificationService :=
  match o with
  | OpChannel c => (register_channel c s).2
  | OpRule r => (register_rule r s).2
  | OpSignal now t p signal v source payload => (evaluate_signal now t p signal v source payload s).2
  | OpAcknowledge now id actor => (acknowledge_incident now id actor s).2
  | OpResolve now id actor => (resolve_incident now id actor s).2
  end.

Lemma replace_first_ids id i l : in_id i = id → in_id <$> replace_first id i l = in_id <$> l.
Proof.
  intros Hi. induction l as [|x l IH]; [done|]. cbn [replace_first].
  destruct (in_id x =? id) eqn:E; rewrite !fmap_cons; [b2p; congruence|]. by rewrite IH.
Qed.
Lemma same_ids_numbered s s' :
  in_id <$> nf_incidents s' = in_id <$> nf_incidents s → nf_next_incident_id s' = nf_next_incident_id s → numbered s → numbered s'.
Proof.
  intros Hi Hn [H1 H2]. assert (length (nf_incidents s') = length (nf_incidents s)) as Hl.
  { by rewrite <-(length_fmap in_id), Hi, length_fmap. }
  split; [by rewrite Hi, Hl|]. by rewrite Hn, Hl.
Qed.

Lemma audit_incident_same now i action actor s : nf_incidents (_audit_incident_action now i action actor s).2 = nf_incidents s ∧
  nf_next_incident_id (_audit_incident_action now i action actor s).2 = nf_next_incident_id s ∧
  (_audit_incident_action now i action actor s).1 = Ret tt.
Proof. unfold _audit_incident_action, mbind, M_bind. simpl. by destruct (nf_audit_log s). Qed.

(** Changing an incident that is found leaves the numbers alone. *)
Lemma change_numbered now id action actor (f : IncidentEvent → IncidentEvent) s :
  (∀ i, in_id (f i) = in_id i) → numbered s →
  numbered ((i ← _get_incident id; updated ← _replace_incident i (f i); _audit_incident_action now updated action actor ;;
    mret updated) s).2.
Proof.
  intros Hf. unfold _get_incident, _replace_incident, mbind, M_bind. simpl.
  destruct (List.find _ _) as [i|] eqn:E; [|done]. simpl.
  destruct (audit_incident_same now (f i) action actor (s <| nf_incidents := replace_first (in_id i) (f i) (nf_incidents s) |>))
    as (H1&H2&H3).
  destruct (_audit_incident_action _ _ _ _ _) as [o s1]. simpl in *. subst o. simpl.
  apply same_ids_numbered; [|done]. rewrite H1. apply replace_first_ids, Hf.
Qed.

Lemma validate_state r s : (_validate_rule_channel r s).2 = s.
Proof.
  unfold _validate_rule_channel, mbind, M_bind. simpl. destruct (dict_get _ _); [|done]. simpl.
  repeat (case_bool_decide; simpl; try done).
Qed.

(** Only the configuration of a channel makes a signal raise, before anything is done. *)
Lemma deliver_ready r i s c : dict_get (al_channel_id r) (nf_channels s) = Some c → ∃ s', _deliver r i s = (Ret tt, s').
Proof. intros Hc. unfold _deliver, mbind, M_bind. simpl. rewrite Hc. simpl. destruct (truthy _); by eexists. Qed.
Lemma open_incident_ready now t p signal v source payload r s :
  channel_ready s r → ∃ res s', open_incident now t p signal v source payload r s = (Ret res, s').
Proof.
  intros (c&Hc&_). unfold open_incident, _allocate_incident_id, gets, mbind, M_bind. simpl.
  match goal with |- context [_deliver ?r ?i ?s] => destruct (deliver_ready r i s c Hc) as [s' ->] end. by eexists _, _.
Qed.
Lemma signal_raise now t p signal v source payload s e s' :
  evaluate_signal now t p signal v source payload s = (Raise e, s') → s' = s.
Proof.
  unfold evaluate_signal, mbind, M_bind. simpl. destruct (List.find _ _) as [r|]; [|done].
  unfold fire, mbind at 1, M_bind at 1. pose proof (validate_state r s) as Hv.
  destruct (_validate_rule_channel r s) as [[[]|x] s1] eqn:Ev; simpl in Hv; subst s1; [|by intros [= _ <-]].
  apply validate_inv in Ev as [_ Hc].
  unfold _find_open_duplicate, gets. unfold mbind at 1, M_bind at 1. case_match; [done|].
  unfold _is_in_cooldown, gets. unfold mbind at 1, M_bind at 1. case_match; [done|].
  destruct (open_incident_ready now t p signal v source payload r s Hc) as (res&s1&->). done.
Qed.

Lemma signal_numbered now t p signal v source payload s :
  numbered s → numbered (evaluate_signal now t p signal v source payload s).2.
Proof.
  intros Hn. destruct (evaluate_signal now t p signal v source payload s) as [[res|e] s'] eqn:E; simpl; [|by apply signal_raise in E as ->].
  apply signal_correct in E. destruct (List.find _ _) as [r|]; [|by destruct E as [_ ->]].
  destruct E as [_ E]. destruct res as [i|]; [|by destruct E as [-> _]]. destruct E as [(->&_)|E]; [done|].
  destruct Hn as [H1 H2]. destruct (ra_number _ _ _ _ _ _ _ E) as [Hi Hx].
  unfold numbered. rewrite (ra_incidents _ _ _ _ _ _ _ E), fmap_app, H1, length_app, seq_app, fmap_app. simpl.
  split; [do 2 f_equal|]; lia.
Qed.

(** Whatever channels, rules, signals, acknowledgements and resolutions come in, the
    incidents are numbered from one in the order they were opened. *)
Theorem incidents_numbered log policy ops : numbered (foldl run_alert (new_notifications log policy) ops).
Proof.
  assert (numbered (new_notifications log policy)) as H by done. revert H. generalize (new_notifications log policy).
  induction ops as [|o ops IH]; intros s Hn; [done|]. apply IH. destruct o; simpl.
  - done.
  - unfold register_rule, mbind, M_bind. pose proof (validate_state r s) as Hv.
    destruct (_validate_rule_channel r s) as [[[]|] s1]; simpl in *; by subst s1.
  - by apply signal_numbered.
  - by apply change_numbered.
  - by apply change_numbered.
Qed.

(** ** Rules behind the first one *)

(** Only the first rule that fires is looked at: another rule on the same signal neither
    opens an incident nor notifies its channel, also while the first is in its cooldown. *)
Theorem later_rules_silent now t p signal v source payload s r r' :
  List.find (fires t p signal v) (dict_values (nf_rules s)) = Some r → al_id r' ≠ al_id r →
  dict_get (al_id r') (nf_last_delivery_at (evaluate_signal now t p signal v source payload s).2) =
  dict_get (al_id r') (nf_last_delivery_at s) ∧
  (dict_get (al_id r) (nf_last_delivery_at s) = Some now → 0 < al_cooldown_seconds r → Forall (λ i, is_open i = false) (nf_incidents s) →
    ∀ res, (evaluate_signal now t p signal v source payload s).1 = Ret res → res = None).
Proof.
  intros Hf Hne. split.
  - destruct (evaluate_signal now t p signal v source payload s) as [[res|e] s'] eqn:E; simpl.
    + apply signal_correct in E. rewrite Hf in E. destruct E as [_ E].
      destruct res as [i|]; [destruct E as [(->&_)|E]|by destruct E as [-> _]]; [done|].
      rewrite (ra_last _ _ _ _ _ _ _ E). by apply dict_get_set_ne.
    + by apply signal_raise in E as ->.
  - intros Hl Hcd Ho res Hr. destruct (evaluate_signal now t p signal v source payload s) as [o s'] eqn:E. simpl in Hr. subst o.
    apply signal_correct in E. rewrite Hf in E. destruct E as [_ E]. destruct res as [i|]; [|done].
    destruct E as [(_&Hi&Hd)|E].
    + rewrite Forall_forall in Ho. unfold duplicate_of in Hd. rewrite (Ho _ Hi), andb_false_r in Hd. done.
    + pose proof (ra_cool _ _ _ _ _ _ _ E _ Hl). unfold seconds in *. lia.
Qed.

(** * Concrete runs *)

Definition demo_rule (id channel : Z) : AlertRule :=
  mkRule id 1 (Some 1) "errors" "error_rate" (float_of_Z 5) channel "active" 300 60.
Definition demo_channel (id : Z) : NotificationChannel := mkChannel id 1 (Some 1) "email" "ops" "active" [].
Definition demo_alerts : NotificationService :=
  foldl run_alert (new_notifications (Some (new_audit_log None)) None)
    [OpChannel (demo_channel 1); OpChannel (demo_channel 2); OpRule (demo_rule 1 1); OpRule (demo_rule 2 2)].

Lemma signal_correct_witness : ∃ i s,
  evaluate_signal 0 1 (Some 1) "error_rate" (float_of_Z 7) "run 9" [("secret", VStr "x")] demo_alerts = (Ret (Some i), s) ∧
  length (nf_incidents s) = 1%nat.
Proof.
  destruct (evaluate_signal 0 1 (Some 1) "error_rate" (float_of_Z 7) "run 9" [("secret", VStr "x")] demo_alerts) as [[res|e] s] eqn:E;
    [|by vm_compute in E].
  pose proof (signal_correct 0 1 (Some 1) "error_rate" (float_of_Z 7) "run 9" [("secret", VStr "x")] demo_alerts res s E) as H.
  change (List.find _ _) with (Some (demo_rule 1 1)) in H. destruct H as [_ H].
  destruct res as [i|]; [|by vm_compute in E]. exists i, s. split; [done|].
  destruct H as [(_&H&_)|H]; [by apply elem_of_nil in H|]. by rewrite (ra_incidents _ _ _ _ _ _ _ H).
Defined.

(** An incident that was resolved and is then acknowledged counts as open again: the next
    signal of its source within the window is taken for it and nobody is notified. *)
Theorem acknowledging_reopens :
  let signal now := OpSignal now 1 (Some 1) "error_rate" (float_of_Z 7) "run 9" [] in
  let s := foldl run_alert demo_alerts [signal 0; OpResolve (seconds 1) 1 "ida"; OpAcknowledge (seconds 2) 1 "bo"] in
  (in_status <$> nf_incidents s) = ["acknowledged"] ∧ (in_resolved_by <$> nf_incidents s) = [Some "ida"] ∧
  nf_deliveries (run_alert s (signal (seconds 200))) = nf_deliveries s ∧
  length (nf_deliveries (run_alert (foldl run_alert demo_alerts [signal 0; OpResolve (seconds 1) 1 "ida"]) (signal (seconds 200)))) = 2%nat.
Proof. by vm_compute. Qed.
