(* ===== verification/Services.v ===== *)
(** The small in-process services: datasets made from runs ([datasets/service.py]), prompt
    assets ([prompts/assets.py]), semantic stores ([memory/providers.py]), the container
    pool and its sandbox policy ([sandbox/]) and experiments with their quality gate
    ([evals/service.py]).

    An evaluator and an operation in the sandbox act on a world [W]. [exc_text] is the text
    of an exception, [list_repr] that of a list of names and [py_float] is Python's [float]
    of a value, [None] where it raises. *)

From stdpp Require Import gmap.
From Stdlib Require Import SpecFloat.
From S2P Require Import Prelude Values Json Floats Context Policy ApiKeys AgentApi Observe Artifacts.

(** * Datasets *)

Module DatasetService.
Record Dataset := mkDataset {
  ds_id : Z;
  ds_tenant_id : Z;
  ds_project_id : Z;
  ds_name : string;
  ds_source : string;
  ds_schema : pydict;
  ds_created_by : string;
  ds_description : option string;
  ds_visibility_level : string;
  ds_created_at : Z
}.
Record DatasetItem := mkItem {
  di_id : Z;
  di_tenant_id : Z;
  di_project_id : Z;
  di_dataset_id : Z;
  di_source_run_id : option Z;
  di_input_data : pydict;
  di_output_data : pydict;
  di_expected : option pydict;
  di_created_by : string;
  di_created_at : Z
}.
Record DatasetServiceState := mkDatasetService {
  redaction_policy : RedactionPolicy;
  datasets : dict Z Dataset;
  items : dict Z DatasetItem;
  next_dataset_id : Z;
  next_item_id : Z
}.
#[export] Instance dataset_service_eta : Eta DatasetServiceState := λ s, mkDatasetService (redaction_policy s) (datasets s) (items s) (next_dataset_id s) (next_item_id s).
Definition new_dataset_service (fields : gset string) : DatasetServiceState := mkDatasetService (redaction fields) [] [] 1 1.

Definition create_dataset (now tenant project : Z) (name source : string) (schema : pydict) (by' : string)
    (description : option string) : M DatasetServiceState Dataset :=
  s ← get_state;
  let d := mkDataset (next_dataset_id s) tenant project name source schema by' description "internal" now in
  modify (λ s, s <| next_dataset_id := next_dataset_id s + 1 |> <| datasets := dict_set (ds_id d) d (datasets s) |>) ;;
  mret d.

Definition add_item_from_run (now dataset_id tenant project run_id : Z) (input output : pydict) (expected : option pydict)
    (by' : string) : M DatasetServiceState DatasetItem :=
  s ← get_state;
  d ← of_option (dict_get dataset_id (datasets s)) (DatasetScopeMismatchError "dataset_not_found");
  check (bool_decide (ds_tenant_id d = tenant) && bool_decide (ds_project_id d = project))
    (DatasetScopeMismatchError "dataset_scope_mismatch") ;;
  let i := mkItem (next_item_id s) tenant project dataset_id (Some run_id) (apply (redaction_policy s) input)
    (apply (redaction_policy s) output) (apply (redaction_policy s) <$> expected) by' now in
  modify (λ s, s <| next_item_id := next_item_id s + 1 |> <| items := dict_set (di_id i) i (items s) |>) ;;
  mret i.

(** Every item belongs to a dataset of its scope and conceals the fields of the service. *)
Definition item_ok (s : DatasetServiceState) (i : DatasetItem) : Prop :=
  (∃ d, dict_get (di_dataset_id i) (datasets s) = Some d ∧ ds_tenant_id d = di_tenant_id i ∧ ds_project_id d = di_project_id i) ∧
  conceals (redaction_policy s) (di_input_data i) ∧ conceals (redaction_policy s) (di_output_data i) ∧
  ∀ e, di_expected i = Some e → conceals (redaction_policy s) e.
Definition ok (s : DatasetServiceState) : Prop :=
  (∀ k i, dict_get k (items s) = Some i → item_ok s i) ∧ ∀ k d, dict_get k (datasets s) = Some d → k < next_dataset_id s.

Inductive dataset_op :=
| Create (now tenant project : Z) (name source : string) (schema : pydict) (by' : string) (description : option string)
| Add (now dataset_id tenant project run_id : Z) (input output : pydict) (expected : option pydict) (by' : string).
Definition run_dataset_op (s : DatasetServiceState) (o : dataset_op) : DatasetServiceState :=
  match o with
  | Create now te p n so sc b d => (create_dataset now te p n so sc b d s).2
  | Add now id te p r i o' e b => (add_item_from_run now id te p r i o' e b s).2
  end.

Lemma create_ok now te p n so sc b d s : ok s → ok (create_dataset now te p n so sc b d s).2.
Proof.
  intros [Hi Hd]. split; simpl.
  - intros k i H. destruct (Hi k i H) as [(x&Hx&?) ?]. split; [|done]. exists x. split; [|done]. simpl.
    rewrite dict_get_set_ne; [done|]. intros E. rewrite <-E in Hx. specialize (Hd _ _ Hx). lia.
  - intros k x. rewrite dict_get_set. case_decide; [intros _; lia|]. intros Hk. specialize (Hd _ _ Hk). lia.
Qed.
Lemma add_ok now id te p r i o e b s : ok s → ok (add_item_from_run now id te p r i o e b s).2.
Proof.
  intros [Hi Hd]. unfold add_item_from_run, mbind, M_bind. simpl. destruct (dict_get id (datasets s)) as [d|] eqn:Ed; [|done].
  simpl. repeat (case_bool_decide; simpl; [|done]). split; [|done]. simpl. intros k x. rewrite dict_get_set. case_decide; [|apply Hi].
  intros [= <-]. split; simpl; [by exists d|]. split_and!; try apply apply_conceals. intros e' He.
  destruct e; [|done]. simpl in He. injection He as <-. apply apply_conceals.
Qed.

(** Whatever is asked of the service, an item is only ever in a dataset of its own tenant
    and project and shows none of the fields to be redacted. *)
Theorem datasets_scoped_and_redacted fields ops : ok (foldl run_dataset_op (new_dataset_service fields) ops).
Proof.
  assert (ok (new_dataset_service fields)) as H by done. revert H. generalize (new_dataset_service fields).
  induction ops as [|o ops IH]; intros s Hs; [done|]. apply IH. destruct o; [by apply create_ok|by apply add_ok].
Qed.
End DatasetService.

(** * Prompt assets *)

Module PromptAssetStore.
Record PromptAsset := mkPrompt {
  pa_id : Z;
  pa_tenant_id : Z;
  pa_project_id : Z;
  pa_name : string;
  pa_version : string;
  pa_content_ref : string;
  pa_variables_schema : pydict;
  pa_created_by : string;
  pa_visibility_level : string;
  pa_metadata : pydict
}.
Record PromptStore := mkPromptStore {
  sink : AuditSink;
  prompts : dict (Z * Z * string * string) PromptAsset;
  next_prompt_id : Z
}.
#[export] Instance prompt_store_eta : Eta PromptStore := λ s, mkPromptStore (sink s) (prompts s) (next_prompt_id s).

Section prompts.
Context (py_str : value → string) (rules : list StaticPolicyRule).

Definition _allocate_prompt_id : M PromptStore Z :=
  modify (λ s, s <| next_prompt_id := next_prompt_id s + 1 |>) ;; gets next_prompt_id.
Definition prompt_request (tenant project : Z) (name version by' : string) : PolicyRequest :=
  mkPolicyRequest tenant (Some project) (Some by') "user" "prompt" None "create" None None None None None None None []
    [("name", VStr name); ("version", VStr version)].

Definition create_prompt (tenant project : Z) (name version content : string) (schema : pydict) (by' : string)
  : M PromptStore PromptAsset :=
  check (negb (bool_decide (version = "latest"))) (AssetVersionError "prompt assets must use explicit versions") ;;
  d ← zoom sink (λ l s, s <| sink := l |>) (evaluate py_str rules (prompt_request tenant project name version by'));
  check (negb (bool_decide (pd_decision d = D_deny))) (PermissionError (or_str (pd_reason d) "prompt_create_denied")) ;;
  id ← _allocate_prompt_id;
  let p := mkPrompt id tenant project name version content schema by' "internal" [] in
  modify (λ s, s <| prompts := dict_set (tenant, project, name, version) p (prompts s) |>) ;;
  mret p.
Definition resolve_prompt (tenant project : Z) (name version : string) : M PromptStore PromptAsset :=
  check (negb (bool_decide (version = "latest"))) (AssetVersionError "production must bind explicit prompt versions") ;;
  s ← get_state; of_option (dict_get (tenant, project, name, version) (prompts s)) (KeyError name).

(** A version is resolved to what was created last for exactly this tenant, project, name
    and version. *)
Lemma create_inv te p n v c sc b s r s' : create_prompt te p n v c sc b s = (Ret r, s') →
  v ≠ "latest" ∧ prompts s' = dict_set (te, p, n, v) r (prompts s) ∧ pa_content_ref r = c ∧ pa_variables_schema r = sc ∧ pa_created_by r = b.
Proof.
  unfold create_prompt, check. case_bool_decide as Hv; [done|]. simpl.
  intros ([]&s1&[= <-]&(d&s2&H&Hr)%bind_ret_inv)%bind_ret_inv.
  apply zoom_inv in H as (l&_&->). revert Hr. case_bool_decide; [done|]. simpl. by intros [= <- <-].
Qed.

Theorem prompt_resolves te p n v c sc b s r s' te' p' n' v' :
  create_prompt te p n v c sc b s = (Ret r, s') →
  resolve_prompt te p n v s' = (Ret r, s') ∧
  ((te', p', n', v') ≠ (te, p, n, v) → (resolve_prompt te' p' n' v' s').1 = (resolve_prompt te' p' n' v' s).1).
Proof.
  intros (Hv&Hp&_)%create_inv. unfold resolve_prompt, mbind, M_bind. rewrite (bool_decide_false (v = "latest")) by done. simpl.
  rewrite Hp, dict_get_set_eq. split; [done|]. intros Hne. case_bool_decide; [done|]. simpl.
  rewrite Hp, dict_get_set_ne by done. by destruct (dict_get _ _).
Qed.

(** A version is not fixed: creating it again replaces what it resolves to. *)
Theorem prompt_version_replaced te p n v c c' sc b s r s' r' s'' :
  create_prompt te p n v c sc b s = (Ret r, s') → create_prompt te p n v c' sc b s' = (Ret r', s'') →
  ∃ a, resolve_prompt te p n v s'' = (Ret a, s'') ∧ pa_content_ref a = c'.
Proof.
  intros _ (Hv&Hp&Hc&_)%create_inv. exists r'. split; [|done].
  unfold resolve_prompt, mbind, M_bind. rewrite bool_decide_false by done. simpl. by rewrite Hp, dict_get_set_eq.
Qed.
End prompts.

(** Only a denial stops the creation: where a rule asks for approval the prompt is made. *)
Theorem prompt_approval_ignored :
  let rules := [mkRule "p" "prompt" "create" D_require_approval "review prompts" None None None None None None []] in
  ∃ p, (create_prompt (λ _, "") rules 1 1 "greeting" "1.0" "ref" [] "ida" (mkPromptStore [] [] 0)).1 = Ret p ∧
  (evaluate (λ _, "") rules (prompt_request 1 1 "greeting" "1.0" "ida") []).1 = Ret (decision_require_approval "review prompts" "p").
Proof. eexists. split; vm_compute; reflexivity. Qed.
End PromptAssetStore.

(** * Semantic stores *)

Module SemanticStoreProviderRegistry.
Record SemanticStoreProvider := mkProvider {
  sp_id : Z;
  sp_tenant_id : Z;
  sp_project_id : Z;
  sp_name : string;
  sp_embedding_model : string;
  sp_embedding_gateway_id : option Z;
  sp_connection_ref : string;
  sp_retention_policy_id : option string;
  sp_status : string;
  sp_metadata : pydict
}.
Record ProviderRegistry := mkProviderRegistry {
  providers : dict Z SemanticStoreProvider;
  next_provider_id : Z
}.
#[export] Instance provider_registry_eta : Eta ProviderRegistry := λ s, mkProviderRegistry (providers s) (next_provider_id s).
Definition _allocate_provider_id : M ProviderRegistry Z :=
  modify (λ s, s <| next_provider_id := next_provider_id s + 1 |>) ;; gets next_provider_id.
Definition register (tenant project : Z) (name model : string) (gateway : option Z) (connection : string)
    (retention : option string) (metadata : option pydict) : M ProviderRegistry SemanticStoreProvider :=
  id ← _allocate_provider_id;
  let p := mkProvider id tenant project name model gateway connection retention "active" (default [] metadata) in
  modify (λ s, s <| providers := dict_set id p (providers s) |>) ;;
  mret p.
Definition get (id : Z) : M ProviderRegistry SemanticStoreProvider :=
  s ← get_state; of_option (dict_get id (providers s)) (KeyError (pretty id)).
End SemanticStoreProviderRegistry.

(** * The sandbox *)

Module Sandbox.
Record SandboxPolicy := mkPolicy {
  xp_isolation_level : string;
  xp_network_policy : string;
  xp_filesystem_policy : string;
  xp_allowed_env : gset string;
  xp_allowed_secret_refs : gset string;
  xp_allowed_gateway_refs : gset string
}.
Definition isolation_levels : list string := ["L0"; "L1"; "L2"; "L3"; "L4"].
(** [SandboxPolicy(...)] with its [__post_init__]. *)
Definition make_policy {S} (level network fs : string) (env secrets gateways : gset string) : M S SandboxPolicy :=
  check (bool_decide (level ∈ isolation_levels)) (SandboxPolicyViolation "unsupported isolation level") ;;
  mret (mkPolicy level network fs env secrets gateways).

(** [secret_refs] in the order in which the set is walked. *)
Record ContainerPoolRequest := mkRequest {
  cr_tenant_id : Z;
  cr_project_id : Z;
  cr_deployment_id : Z;
  cr_desired_status : string;
  cr_env : dict string string;
  cr_secret_refs : list string;
  cr_resources : dict string string
}.

Section pool.
Context {W : Type} (exc_text : exn → string) (list_repr : list string → string).

Definition validate_env {S} (p : SandboxPolicy) (env : dict string string) : M S unit :=
  let blocked : gset string := list_to_set (dict_keys env) ∖ xp_allowed_env p in
  check (bool_decide (blocked = ∅)) (SandboxPolicyViolation ("env keys are not allowed: " +:+ list_repr (sorted_scopes blocked))).
Definition validate_secret_ref {S} (p : SandboxPolicy) (ref : string) : M S unit :=
  check (bool_decide (ref ∈ xp_allowed_secret_refs p)) (SandboxPolicyViolation ("secret ref is not allowed: " +:+ ref)).
Definition validate_gateway_ref {S} (p : SandboxPolicy) (ref : string) : M S unit :=
  check (bool_decide (ref ∈ xp_allowed_gateway_refs p)) (SandboxPolicyViolation ("gateway ref is not allowed: " +:+ ref)).

Record ContainerPool := mkPool {
  cp_policy : SandboxPolicy;
  cp_audit_log : InMemoryComplianceAuditLog;
  cp_executions : list (Z * pydict);
  cp_world : W
}.
#[export] Instance ContainerPool_eta : Eta ContainerPool := λ c, mkPool (cp_policy c) (cp_audit_log c) (cp_executions c) (cp_world c).

Definition resources_value (q : ContainerPoolRequest) : value := VDict ((λ p, (p.1, VStr p.2)) <$> cr_resources q).
Definition audit_execution (now : Z) (q : ContainerPoolRequest) (actor : option string) (result : string) (metadata : pydict)
  : M ContainerPool unit :=
  zoom cp_audit_log (λ l c, c <| cp_audit_log := l |>)
    (record now (cr_tenant_id q) (Some (cr_project_id q)) actor (if str_truthy actor then "service_account" else "system")
      "sandbox.execute" "deployment" (Some (cr_deployment_id q)) result metadata) ;;
  mret tt.
(** The checks before the operation. *)
Definition accept_request {S} (p : SandboxPolicy) (q : ContainerPoolRequest) : M S unit :=
  check (bool_decide (cr_desired_status q = "active")) (ContainerPoolBoundaryError "deployment_not_active") ;;
  validate_env p (cr_env q) ;;
  for_each (cr_secret_refs q) (validate_secret_ref p).
Definition run (now : Z) (q : ContainerPoolRequest) (actor : option string) (operation : M W pydict) : M ContainerPool pydict :=
  c ← get_state;
  result ← try_except
    (accept_request (cp_policy c) q ;; zoom cp_world (λ w c, c <| cp_world := w |>) operation)
    (λ e, audit_execution now q actor "deny" [("reason", VStr (exc_text e)); ("resources", resources_value q)] ;; raise e);
  audit_execution now q actor "allow" [("resources", resources_value q)] ;;
  modify (λ c, c <| cp_executions := cp_executions c ++ [(cr_deployment_id q, result)] |>) ;;
  mret result.

(** What a policy lets through. *)
Definition within (p : SandboxPolicy) (q : ContainerPoolRequest) : Prop :=
  cr_desired_status q = "active" ∧ (∀ k, k ∈ dict_keys (cr_env q) → k ∈ xp_allowed_env p) ∧
  ∀ r, r ∈ cr_secret_refs q → r ∈ xp_allowed_secret_refs p.

Lemma secrets_iff {S} p l (s : S) :
  (for_each l (validate_secret_ref p) s = (Ret tt, s) ∧ ∀ r, r ∈ l → r ∈ xp_allowed_secret_refs p) ∨
  (∃ e, for_each l (validate_secret_ref p) s = (Raise e, s)) ∧ ¬ ∀ r, r ∈ l → r ∈ xp_allowed_secret_refs p.
Proof.
  induction l as [|x l IH]; [left; split; [done|]; intros r Hr; by apply elem_of_nil in Hr|].
  cbn [for_each]. unfold mbind, M_bind. destruct (validate_secret_ref p x s) as [o s'] eqn:E.
  unfold validate_secret_ref, check in E. case_bool_decide as Hx; injection E as <- <-.
  - destruct IH as [[H1 H2]|[H1 H2]]; [left|right]; (split; [done|]).
    + intros r [->|Hr]%elem_of_cons; auto.
    + intros H. apply H2. intros r Hr. apply H. by right.
  - right. split; [by eexists|]. intros H. apply Hx, H. left.
Qed.
Lemma blocked_iff (env : dict string string) (allowed : gset string) :
  list_to_set (dict_keys env) ∖ allowed = (∅ : gset string) ↔ ∀ k, k ∈ dict_keys env → k ∈ allowed.
Proof.
  split.
  - intros H k Hk. destruct (decide (k ∈ allowed)) as [|Hn]; [done|]. exfalso. apply (not_elem_of_empty (C:=gset string) k).
    rewrite <-H. apply elem_of_difference. by rewrite elem_of_list_to_set.
  - intros H. apply set_eq. intros k. rewrite elem_of_difference, elem_of_list_to_set. split; [|by intros ?%elem_of_empty].
    intros [Hk Hn]. by destruct Hn; apply H.
Qed.
Lemma accept_iff {S} p q (s : S) :
  (accept_request p q s = (Ret tt, s) ∧ within p q) ∨ (∃ e, accept_request p q s = (Raise e, s)) ∧ ¬ within p q.
Proof.
  unfold accept_request, validate_env, mbind, M_bind, check, within. case_bool_decide as Ha; simpl.
  2: { right. split; [by eexists|]. by intros [? _]. }
  case_bool_decide as He; simpl.
  2: { right. split; [by eexists|]. intros (_&H&_). by apply He, blocked_iff. }
  destruct (secrets_iff p (cr_secret_refs q) s) as [[-> H]|[H1 H2]]; [left|right].
  - split_and!; [done..| |done]. by apply blocked_iff.
  - split; [done|]. intros (_&_&H). done.
Qed.

(** The operation runs exactly when the deployment is active and every environment key and
    secret of the request is allowed; otherwise the world stays as it is and the caller
    gets an exception. Every request leaves exactly one audit record, which says [allow]
    exactly when the result is returned and kept. *)
Theorem sandbox_confines now q actor operation c :
  let '(r, c') := run now q actor operation c in
  (∃ e, al_records (cp_audit_log c') = al_records (cp_audit_log c) ++ [e] ∧ ca_resource_id e = Some (cr_deployment_id q) ∧
    (ca_result e = "allow" ↔ returns r)) ∧
  (within (cp_policy c) q → r = (operation (cp_world c)).1 ∧ cp_world c' = (operation (cp_world c)).2) ∧
  (¬ within (cp_policy c) q → raises r ∧ cp_world c' = cp_world c) ∧
  cp_executions c' = cp_executions c ++ match r with Ret d => [(cr_deployment_id q, d)] | Raise _ => [] end.
Proof.
  unfold run, try_except, mbind, M_bind. simpl.
  destruct (accept_iff (cp_policy c) q c) as [[-> Hw]|[[e ->] Hw]].
  - unfold zoom. destruct (operation (cp_world c)) as [[d|e] w]; simpl;
      (split; [|split; [done|split; [done|by rewrite ?app_nil_r]]]).
    + eexists. split; [done|]. split; [done|]. split; [by eexists|done].
    + eexists. split; [done|]. split; [done|]. split; [done|]. by intros [? ?].
  - simpl. split; [|split; [done|split; [by split; [eexists|]|by rewrite app_nil_r]]].
    eexists. split; [done|]. split; [done|]. split; [done|]. by intros [? ?].
Qed.
End pool.
End Sandbox.

(** * Experiments *)

Module Evaluation.
Record Experiment := mkExperiment {
  ex_id : Z;
  ex_tenant_id : Z;
  ex_project_id : Z;
  ex_name : string;
  ex_agent_id : Z;
  ex_baseline_agent_version_id : option Z;
  ex_candidate_agent_version_id : Z;
  ex_dataset_id : Z;
  ex_evaluator_config : pydict;
  ex_status : string
}.
Record ExperimentRun := mkExperimentRun {
  er_id : Z;
  er_experiment_id : Z;
  er_status : string;
  er_started_at : Z;
  er_finished_at : option Z
}.
Record EvaluationResult := mkResult {
  rs_id : Z;
  rs_tenant_id : Z;
  rs_project_id : Z;
  rs_experiment_run_id : Z;
  rs_evaluator_name : string;
  rs_score : float;
  rs_passed : bool;
  rs_metadata : pydict
}.
Record QualityGateDecision := mkGate {
  qg_experiment_run_id : Z;
  qg_allowed : bool;
  qg_failed_evaluators : list string
}.

(** An evaluator: input, output, trace and what was expected, to a dictionary. *)
Record Evaluator (W : Type) := mkEvaluator {
  ev_name : string;
  ev_evaluate : value → value → value → value → M W (dict string cell)
}.
Arguments mkEvaluator {W}. Arguments ev_name {W}. Arguments ev_evaluate {W}.

Definition is_none (v : value) : bool := match v with VNone => true | _ => false end.
Definition threshold_score (output expected : value) : float :=
  if negb (is_none expected) && py_eqb output expected then float_of_Z 1 else float_of_Z 0.
Definition ThresholdEvaluator {W} (name : string) (passing : float) : Evaluator W :=
  mkEvaluator name (λ input output trace expected,
    mret [("score", Flt (threshold_score output expected));
          ("passed", Val (VBool (fleb passing (threshold_score output expected))));
          ("metadata", Val (VDict [("reason", VStr "exact_match")]))]).

Record InMemoryEvaluationService (W : Type) := mkService {
  ie_experiments : dict Z Experiment;
  ie_experiment_runs : dict Z ExperimentRun;
  ie_results : list EvaluationResult;
  ie_next_experiment_id : Z;
  ie_next_run_id : Z;
  ie_next_result_id : Z;
  ie_world : W
}.
Arguments mkService {W}. Arguments ie_experiments {W}. Arguments ie_experiment_runs {W}. Arguments ie_results {W}.
Arguments ie_next_experiment_id {W}. Arguments ie_next_run_id {W}. Arguments ie_next_result_id {W}. Arguments ie_world {W}.
#[export] Instance InMemoryEvaluationService_eta {W} : Eta (InMemoryEvaluationService W) := λ s,
  mkService (ie_experiments s) (ie_experiment_runs s) (ie_results s) (ie_next_experiment_id s) (ie_next_run_id s)
    (ie_next_result_id s) (ie_world s).
Definition new_evaluation {W} (w : W) : InMemoryEvaluationService W := mkService [] [] [] 1 1 1 w.

Section service.
Context {W : Type} (py_float : value → option float).
Implicit Types s : InMemoryEvaluationService W.

Definition create_experiment (tenant project : Z) (name : string) (agent : Z) (baseline : option Z) (candidate dataset : Z)
    (config : pydict) : M (InMemoryEvaluationService W) Experiment :=
  s ← get_state;
  let e := mkExperiment (ie_next_experiment_id s) tenant project name agent baseline candidate dataset config "draft" in
  modify (λ s, s <| ie_next_experiment_id := ie_next_experiment_id s + 1 |> <| ie_experiments := dict_set (ex_id e) e (ie_experiments s) |>) ;;
  mret e.

(** [float(x)], [bool(x)] and [dict(x)] of an entry. *)
Definition cell_float (x : cell) : option float := match x with Flt f => Some f | Val v => py_float v end.
Definition cell_bool (x : cell) : bool :=
  match x with Flt f => match f with S754_zero _ => false | _ => true end | Val v => truthy v end.
Definition cell_dict (x : cell) : option pydict := match x with Val v => py_dict v | Flt _ => None end.

(** The result an evaluator's dictionary stands for. *)
Definition result_of (id : Z) (e : Experiment) (run : Z) (name : string) (d : dict string cell)
  : M (InMemoryEvaluationService W) EvaluationResult :=
  score ← of_option (dict_get "score" d) (KeyError "score");
  score ← of_option (cell_float score) (TypeError "float() argument must be a string or a real number");
  passed ← of_option (dict_get "passed" d) (KeyError "passed");
  metadata ← of_option (cell_dict (default (Val (VDict [])) (dict_get "metadata" d))) (TypeError "object is not iterable");
  mret (mkResult id (ex_tenant_id e) (ex_project_id e) run name score (cell_bool passed) metadata).

Definition add_result (r : EvaluationResult) : M (InMemoryEvaluationService W) unit :=
  modify (λ s, s <| ie_results := ie_results s ++ [r] |>) ;;
  modify (λ s, s <| ie_next_result_id := ie_next_result_id s + 1 |>).
Definition evaluate_item (e : Experiment) (run : Z) (item : pydict) (v : Evaluator W) : M (InMemoryEvaluationService W) unit :=
  input ← of_option (dict_get "input_data" item) (KeyError "input_data");
  output ← of_option (dict_get "output_data" item) (KeyError "output_data");
  d ← zoom ie_world (λ w s, s <| ie_world := w |>) (ev_evaluate v input output
    (default (VDict []) (dict_get "trace" item)) (default VNone (dict_get "expected" item)));
  s ← get_state;
  r ← result_of (ie_next_result_id s) e run (ev_name v) d;
  add_result r.

(** The run is registered as succeeded before anything is evaluated. *)
Definition start_run (now experiment : Z) : M (InMemoryEvaluationService W) ExperimentRun :=
  s ← get_state;
  let r := mkExperimentRun (ie_next_run_id s) experiment "succeeded" now (Some now) in
  modify (λ s, s <| ie_next_run_id := ie_next_run_id s + 1 |> <| ie_experiment_runs := dict_set (er_id r) r (ie_experiment_runs s) |>) ;;
  mret r.
Definition run_experiment (now experiment : Z) (items : list pydict) (evaluators : list (Evaluator W))
  : M (InMemoryEvaluationService W) ExperimentRun :=
  s ← get_state;
  e ← of_option (dict_get experiment (ie_experiments s)) (KeyError (pretty experiment));
  r ← start_run now experiment;
  for_each items (λ item, for_each evaluators (evaluate_item e (er_id r) item)) ;;
  mret r.

Definition quality_gate (run : Z) : M (InMemoryEvaluationService W) QualityGateDecision :=
  gets (λ s,
    let failed := rs_evaluator_name <$> List.filter (λ r, (rs_experiment_run_id r =? run) && negb (rs_passed r)) (ie_results s) in
    mkGate run (match failed with [] => true | _ => false end) failed).

(** ** The gate *)

(** Results are of runs that were started. *)
Definition past s : Prop := Forall (λ r, rs_experiment_run_id r < ie_next_run_id s) (ie_results s).

(** What an evaluation leaves: results of this run at the end of the list. *)
Definition extends (run : Z) (names : list string) s s' : Prop := ∃ rs,
  ie_results s' = ie_results s ++ rs ∧ Forall (λ r, rs_experiment_run_id r = run) rs ∧ rs_evaluator_name <$> rs = names ∧
  ie_next_run_id s' = ie_next_run_id s.
Lemma extends_refl run s : extends run [] s s.
Proof. exists []. by rewrite app_nil_r. Qed.
Lemma extends_trans run n1 n2 s1 s2 s3 : extends run n1 s1 s2 → extends run n2 s2 s3 → extends run (n1 ++ n2) s1 s3.
Proof.
  intros (r1&H1&F1&N1&X1) (r2&H2&F2&N2&X2). exists (r1 ++ r2).
  rewrite fmap_app, N1, N2, H2, H1, app_assoc, X2, X1. split_and!; try done. by apply Forall_app_2.
Qed.

Lemma result_of_inv id e run name d s r s' :
  result_of id e run name d s = (Ret r, s') → s' = s ∧ rs_experiment_run_id r = run ∧ rs_evaluator_name r = name.
Proof.
  unfold result_of. destruct (dict_get "score" d) as [c|]; [|done]. destruct (dict_get "passed" d) as [p|];
    unfold mbind, M_bind; simpl; destruct (cell_float c); try done. simpl.
  destruct (cell_dict _); [|done]. by intros [= <- <-].
Qed.

Lemma evaluate_item_extends e run item v s s' :
  evaluate_item e run item v s = (Ret tt, s') → extends run [ev_name v] s s'.
Proof.
  unfold evaluate_item. intros (input&s1&Hi&(output&s2&Ho&(d&s3&Hd&H)%bind_ret_inv)%bind_ret_inv)%bind_ret_inv.
  assert (s1 = s) as -> by (destruct (dict_get "input_data" item); [by injection Hi|done]).
  assert (s2 = s) as -> by (destruct (dict_get "output_data" item); [by injection Ho|done]).
  apply zoom_inv in Hd as (w&_&->).
  apply bind_ret_inv in H as (?&?&[= <- <-]&(r&s4&(->&Hr&Hn)%result_of_inv&[= <-])%bind_ret_inv).
  exists [r]. split_and!; simpl; try done; [by constructor|by rewrite Hn].
Qed.

Lemma for_each_extends {A} run (f : A → M (InMemoryEvaluationService W) unit) (names : A → list string) l s s' :
  (∀ x s s', f x s = (Ret tt, s') → extends run (names x) s s') → for_each l f s = (Ret tt, s') →
  extends run (l ≫= names) s s'.
Proof.
  intros Hf. revert s. induction l as [|x l IH]; intros s; simpl; [intros [= <-]; apply extends_refl|].
  intros ([]&s1&H1&H2)%bind_ret_inv. eapply extends_trans; [by apply Hf|by apply IH].
Qed.

(** When an experiment comes back, every evaluator has judged every item, in order, and
    the gate lets the run pass exactly when none of them failed it; it names the failing
    ones in that order. *)
Theorem quality_gate_correct now experiment items evaluators s r s' :
  past s → run_experiment now experiment items evaluators s = (Ret r, s') → ∃ rs,
  ie_results s' = ie_results s ++ rs ∧ rs_evaluator_name <$> rs = (items ≫= λ _, ev_name <$> evaluators) ∧ past s' ∧
  quality_gate (er_id r) s' = (Ret (mkGate (er_id r) (forallb rs_passed rs)
    (rs_evaluator_name <$> List.filter (λ x, negb (rs_passed x)) rs)), s').
Proof.
  intros Hp (?&?&[= <- <-]&(e&s1&He&(run&s2&[= <- <-]&([]&s3&Hl&[= <- <-])%bind_ret_inv)%bind_ret_inv)%bind_ret_inv)%bind_ret_inv.
  assert (s1 = s) as -> by (destruct (dict_get experiment _); [by injection He|done]).
  apply (for_each_extends (ie_next_run_id s) _ (λ _, ev_name <$> evaluators)) in Hl as (rs&H1&H2&H3&H4).
  2: { intros item t t' Ht. apply (for_each_extends (ie_next_run_id s) _ (λ v, [ev_name v])) in Ht.
       - replace (ev_name <$> evaluators) with (evaluators ≫= λ v, [ev_name v]); [done|].
         clear. induction evaluators as [|v l IH]; [done|]. rewrite fmap_cons, bind_cons. simpl. by f_equal.
       - intros v u u'. apply evaluate_item_extends. }
  simpl in H1, H4. exists rs. split_and!; [done..| |].
  - unfold past. rewrite H1, H4. apply Forall_app_2; eapply Forall_impl; [exact Hp|simpl; lia|exact H2|simpl; lia].
  - unfold quality_gate, gets. rewrite H1. simpl. do 2 f_equal.
    assert (List.filter (λ x, (rs_experiment_run_id x =? ie_next_run_id s) && negb (rs_passed x)) (ie_results s ++ rs) =
      List.filter (λ x, negb (rs_passed x)) rs) as ->.
    { rewrite List.filter_app. replace (List.filter _ (ie_results s)) with (@nil EvaluationResult).
      - simpl. apply List.filter_ext_in. intros x Hx%list_elem_of_In. rewrite Forall_forall in H2. rewrite (H2 _ Hx), Z.eqb_refl. done.
      - symmetry. clear - Hp. unfold past in Hp. induction Hp as [|x l Hx _ IH]; [done|]. simpl.
        destruct (rs_experiment_run_id x =? ie_next_run_id s) eqn:E; [blia|done]. }
    f_equal. clear. induction rs as [|x l IH]; [done|]. simpl. destruct (rs_passed x); simpl; [done|done].
Qed.

(** A run nobody has heard of passes. *)
Theorem unknown_run_passes s run : Forall (λ r, rs_experiment_run_id r ≠ run) (ie_results s) →
  quality_gate run s = (Ret (mkGate run true []), s).
Proof.
  intros H. unfold quality_gate, gets. replace (List.filter _ (ie_results s)) with (@nil EvaluationResult); [done|].
  symmetry. induction H as [|x l Hx _ IH]; [done|]. simpl. destruct (rs_experiment_run_id x =? run) eqn:E; [by apply Z.eqb_eq in E|done].
Qed.
End service.

(** ** Concrete runs *)

Definition demo_service : InMemoryEvaluationService unit :=
  (create_experiment 1 1 "answers" 1 None 2 3 [] (new_evaluation tt)).2.
Definition demo_item (output : Z) : pydict :=
  [("input_data", VDict []); ("output_data", VDict [("x", VInt output)]); ("expected", VDict [("x", VInt 1)])].
Definition exact : Evaluator unit := ThresholdEvaluator "exact" (float_of_Z 1).

Lemma quality_gate_correct_witness : ∃ r s,
  run_experiment (λ _, None) 0 1 [demo_item 1; demo_item 2] [exact] demo_service = (Ret r, s) ∧
  (quality_gate (er_id r) s).1 = Ret (mkGate 1 false ["exact"]).
Proof.
  destruct (run_experiment (λ _, None) 0 1 [demo_item 1; demo_item 2] [exact] demo_service) as [[r|e] s] eqn:E; [|by vm_compute in E].
  exists r, s. split; [done|].
  destruct (quality_gate_correct (λ _, None) 0 1 [demo_item 1; demo_item 2] [exact] demo_service r s) as (rs&H1&_&_&->);
    [by constructor|exact E|].
  vm_compute in E. injection E as <- <-. simpl in H1. subst rs. done.
Defined.

(** An evaluator that raises leaves a run that says it succeeded, and the gate lets it
    pass. *)
Theorem failed_evaluation_passes :
  let broken := mkEvaluator "broken" (λ _ _ _ _, raise (RuntimeError "model unavailable")) in
  let '(r, s) := run_experiment (λ _, None) 0 1 [demo_item 2] [broken] demo_service in
  r = Raise (RuntimeError "model unavailable") ∧ er_status <$> dict_get 1 (ie_experiment_runs s) = Some "succeeded" ∧
  (quality_gate 1 s).1 = Ret (mkGate 1 true []).
Proof. by vm_compute. Qed.
End Evaluation.
