(* ===== verification/Assets.v ===== *)
(** The life of catalog items, prompts, configurations and templates in the database
    ([catalog/asset_lifecycle.py]) and the routes that drive it ([api/admin/catalog.py],
    [api/admin/assets.py]).

    A row is identified by its kind and id. The state of an asset lives in its JSON
    metadata (for a catalog item in its requirements and a column); where the code applies
    [dict] or [list] to a stored value of another shape it raises, which is [None] in the
    functions below. [py_str] is Python's [str] of a value that is no text, [isoformat] the
    text of a time. *)

From stdpp Require Import gmap.
From S2P Require Import Prelude Values Json Tables Policy ApiKeys Console ConsoleApi Observe Artifacts AgentApi.

(** * Data *)

Inductive AssetKind := K_catalog | K_prompt | K_config | K_template.
#[export] Instance AssetKind_eq_dec : EqDecision AssetKind.
Proof. solve_decision. Defined.

(** What the four tables have of their own. *)
Inductive AssetBody :=
| CatalogBody (type provider risk_level status : string) (schema capabilities required_secrets required_permissions : value)
    (runtime_requirements : pydict)
| PromptBody (content_ref : string) (variables_schema : value) (visibility_level : string) (metadata : pydict)
| ConfigBody (content_ref : string) (schema : value) (environment : option string) (metadata : pydict)
| TemplateBody (type content_ref : string) (schema : value) (metadata : pydict).

Record AssetRow := mkAsset {
  at_id : Z;
  at_tenant_id : Z;
  at_project_id : option Z;
  at_name : string;
  at_version : string;
  at_created_at : option Z;
  at_updated_at : option Z;
  at_is_deleted : bool;
  at_body : AssetBody
}.
#[export] Instance AssetRow_eta : Eta AssetRow := λ r,
  mkAsset (at_id r) (at_tenant_id r) (at_project_id r) (at_name r) (at_version r) (at_created_at r) (at_updated_at r)
    (at_is_deleted r) (at_body r).

Definition kind_of (r : AssetRow) : AssetKind :=
  match at_body r with
  | CatalogBody _ _ _ _ _ _ _ _ _ => K_catalog
  | PromptBody _ _ _ _ => K_prompt
  | ConfigBody _ _ _ _ => K_config
  | TemplateBody _ _ _ _ => K_template
  end.

(** The columns that are read of the other tables. *)
Record AssetDeployment := mkAssetDeployment {
  ad_id : Z;
  ad_tenant_id : Z;
  ad_project_id : Z;
  ad_agent_version_id : Z;
  ad_environment : string;
  ad_desired_status : string;
  ad_config_json : pydict;
  ad_is_deleted : bool
}.
Record AssetAgentVersion := mkAssetVersion {
  aw_id : Z;
  aw_status : string;
  aw_manifest_json : pydict;
  aw_is_deleted : bool
}.
Record NamedRow := mkNamed {
  nr_tenant_id : Z;
  nr_project_id : option Z;
  nr_name : value;
  nr_is_deleted : bool
}.
Record AssetTables := mkAssetTables {
  tb_assets : dict (AssetKind * Z) AssetRow;
  tb_deployments : list AssetDeployment;
  tb_versions : list AssetAgentVersion;
  tb_gateways : list NamedRow;
  tb_policies : list NamedRow
}.
#[export] Instance AssetTables_eta : Eta AssetTables := λ s,
  mkAssetTables (tb_assets s) (tb_deployments s) (tb_versions s) (tb_gateways s) (tb_policies s).

Definition kind_value (k : AssetKind) : string :=
  match k with K_catalog => "catalog" | K_prompt => "prompt" | K_config => "config" | K_template => "template" end.
Definition _normalize_asset_kind (v : string) : option AssetKind :=
  if bool_decide (v ∈ ["catalog"; "catalog_item"; "catalog_items"]) then Some K_catalog
  else if bool_decide (v ∈ ["prompt"; "prompts"; "prompt_asset"]) then Some K_prompt
  else if bool_decide (v ∈ ["config"; "configs"; "config_asset"]) then Some K_config
  else if bool_decide (v ∈ ["template"; "templates"; "template_asset"]) then Some K_template
  else None.
Definition usage_ref_key (k : AssetKind) : string :=
  match k with
  | K_catalog => "catalog_item_refs" | K_prompt => "prompt_asset_refs"
  | K_config => "config_asset_refs" | K_template => "template_asset_refs"
  end.

(** * Metadata *)

(** [dict(v or {})] and [list(v or [])] *)
Definition dict_of (v : value) : option pydict := if truthy v then py_dict v else Some [].
Definition list_of (v : value) : option (list value) :=
  if truthy v then
    match v with
    | VList l => Some l
    | VDict d => Some (VStr <$> dict_keys d)
    | VStr s => Some ((λ c, VStr (String c EmptyString)) <$> to_chars s)
    | _ => None
    end
  else Some [].
(** [d.get(key)] *)
Definition get (key : string) (d : pydict) : value := default VNone (dict_get key d).

Section assets.
Context (py_str : value → string) (isoformat : Z → string).
Definition text (v : value) : string := match v with VStr s => s | _ => py_str v end.

Definition _metadata (r : AssetRow) : option pydict :=
  match at_body r with
  | CatalogBody _ _ _ _ _ _ _ _ requirements => dict_of (get "_asset_metadata" requirements)
  | PromptBody _ _ _ m | ConfigBody _ _ _ m | TemplateBody _ _ _ m => Some m
  end.
Definition _write_metadata (m : pydict) (r : AssetRow) : AssetRow :=
  match at_body r with
  | CatalogBody ty pv rk st sc ca se pe requirements =>
      r <| at_body := CatalogBody ty pv rk st sc ca se pe (dict_set "_asset_metadata" (VDict m) requirements) |>
  | PromptBody c v vi _ => r <| at_body := PromptBody c v vi m |>
  | ConfigBody c sc e _ => r <| at_body := ConfigBody c sc e m |>
  | TemplateBody ty c sc _ => r <| at_body := TemplateBody ty c sc m |>
  end.

Definition _lifecycle (r : AssetRow) : option pydict :=
  m ← _metadata r;
  l ← dict_of (get "lifecycle" m);
  Some (match at_body r with
  | CatalogBody _ _ _ status _ _ _ _ _ => dict_set "status" (VStr status) l
  | _ => match dict_get "status" l with Some _ => l | None => dict_set "status" (VStr "draft") l end
  end).
Definition _status (r : AssetRow) : option string :=
  match at_body r with
  | CatalogBody _ _ _ status _ _ _ _ _ => Some status
  | _ => l ← _lifecycle r; Some (if truthy (get "status" l) then text (get "status" l) else "draft")
  end.
(** [record.status = status] of a catalog item. *)
Definition with_status (status : string) (r : AssetRow) : AssetRow :=
  match at_body r with
  | CatalogBody ty pv rk _ sc ca se pe q => r <| at_body := CatalogBody ty pv rk status sc ca se pe q |>
  | _ => r
  end.

Definition action_stamp (action : string) : option string :=
  if String.eqb action "validate" then Some "validated_at"
  else if String.eqb action "approve" then Some "approved_at"
  else if String.eqb action "publish" then Some "published_at"
  else if String.eqb action "deprecate" then Some "deprecated_at"
  else if String.eqb action "archive" then Some "archived_at"
  else if String.eqb action "rollback" then Some "rolled_back_at"
  else None.
(** [lifecycle.update(...)] and the time stamp of the action. *)
Definition moved_lifecycle (now : Z) (status : string) (actor reason : option string) (action : string) (l : pydict) : pydict :=
  let stamp := VStr (isoformat now) in
  let l := dict_merge l [("status", VStr status); ("updated_at", stamp); ("updated_by", of_str_opt actor);
    ("last_action", VStr action); ("last_audit_reason", of_str_opt reason)] in
  match action_stamp action with Some key => dict_set key stamp l | None => l end.
(** The row and its lifecycle after an action. *)
Definition _set_lifecycle (now : Z) (status : string) (actor reason : option string) (action : string) (r : AssetRow)
  : option (AssetRow * pydict) :=
  m ← _metadata r;
  l ← dict_of (get "lifecycle" m);
  current ← _status r;
  let previous := if truthy (get "status" l) then get "status" l else VStr current in
  let l := moved_lifecycle now status actor reason action l in
  history ← list_of (get "history" l);
  let l := dict_set "history" (VList (history ++ [VDict
    [("at", VStr (isoformat now)); ("action", VStr action); ("actor_id", of_str_opt actor); ("audit_reason", of_str_opt reason);
     ("from_status", previous); ("to_status", VStr status)]])) l in
  Some (with_status status (_write_metadata (dict_set "lifecycle" (VDict l) m) r), l).
Definition _set_validation (validation : value) (r : AssetRow) : option AssetRow :=
  m ← _metadata r; Some (_write_metadata (dict_set "validation" validation m) r).

Definition _record_type (r : AssetRow) : option string :=
  match at_body r with CatalogBody ty _ _ _ _ _ _ _ _ | TemplateBody ty _ _ _ => Some ty | _ => None end.

(** * Queries *)

(** The other versions: same scope, name and, where there is one, type. *)
Definition same_group (r x : AssetRow) : bool :=
  bool_decide (kind_of x = kind_of r) && bool_decide (at_tenant_id x = at_tenant_id r)
  && bool_decide (at_project_id x = at_project_id r) && bool_decide (at_name x = at_name r)
  && bool_decide (_record_type x = _record_type r) && negb (at_is_deleted x).
Definition created_leb (a b : AssetRow) : bool :=
  (default 0 (at_created_at a) <? default 0 (at_created_at b))
  || ((default 0 (at_created_at a) =? default 0 (at_created_at b)) && (at_id a <=? at_id b)).
Definition _version_history (s : AssetTables) (r : AssetRow) : list AssetRow :=
  stable_sort created_leb (List.filter (same_group r) (dict_values (tb_assets s))).

Definition find_asset (k : AssetKind) (id tenant project : Z) (s : AssetTables) : option AssetRow :=
  r ← dict_get (k, id) (tb_assets s);
  if negb (at_is_deleted r) && (at_tenant_id r =? tenant) && bool_decide (at_project_id r = Some project) then Some r else None.

Definition find_asset_by_name_version (k : AssetKind) (tenant : Z) (project : option Z) (name version : string)
    (type : option string) (s : AssetTables) : option AssetRow :=
  List.find (λ r, bool_decide (kind_of r = k) && (at_tenant_id r =? tenant) && bool_decide (at_project_id r = project)
    && bool_decide (at_name r = name) && bool_decide (at_version r = version) && negb (at_is_deleted r)
    && match k, type with
       | K_catalog, Some t | K_template, Some t => bool_decide (_record_type r = Some t)
       | _, _ => true
       end) (dict_values (tb_assets s)).

(** Whether a value mentions an asset; looking up an unhashable type raises. *)
Fixpoint _contains_asset_reference (v : value) (name version : string) (type : option string) : option bool :=
  match v with
  | VStr s => Some (String.eqb s (name +:+ ":" +:+ version) || String.eqb s (name +:+ "@" +:+ version))
  | VDict d =>
      if py_eqb (get "name" d) (VStr name) && py_eqb (get "version" d) (VStr version) then
        match type with
        | None => Some true
        | Some t => match get "type" d with
            | VNone => Some true
            | VStr s => Some (String.eqb s t)
            | VList _ | VDict _ => None
            | _ => Some false
            end
        end
      else
        (fix go (d : list (string * value)) : option bool := match d with
        | [] => Some false
        | (_, x) :: d => b ← _contains_asset_reference x name version type; if (b : bool) then Some true else go d
        end) d
  | VList l =>
      (fix go (l : list value) : option bool := match l with
      | [] => Some false
      | x :: l => b ← _contains_asset_reference x name version type; if (b : bool) then Some true else go l
      end) l
  | _ => Some false
  end.

Record UsageEntry := mkUsageEntry {
  ue_resource_kind : string;
  ue_resource_id : Z;
  ue_environment : option string;
  ue_status : string;
  ue_active : bool
}.
(** The deployments of the scope. *)
Definition deployment_usage (r : AssetRow) (d : AssetDeployment) : option (list UsageEntry) :=
  used ← _contains_asset_reference (get (usage_ref_key (kind_of r)) (ad_config_json d)) (at_name r) (at_version r) (_record_type r);
  Some (if (used : bool) then
    [mkUsageEntry "deployment" (ad_id d) (Some (ad_environment d)) (ad_desired_status d)
      (negb (bool_decide (ad_desired_status d ∈ ["draft"; "stopped"])))] else []).
Definition version_usage (r : AssetRow) (w : AssetAgentVersion) : option (list UsageEntry) :=
  used ← _contains_asset_reference (VDict (aw_manifest_json w)) (at_name r) (at_version r) (_record_type r);
  Some (if (used : bool) then
    [mkUsageEntry "agent_version" (aw_id w) None (aw_status w) (negb (bool_decide (aw_status w ∈ ["draft"; "archived"])))] else []).
(** The outer join repeats a version for each of its deployments; no scope is asked for. *)
Definition joined_versions (s : AssetTables) : list AssetAgentVersion :=
  List.filter (λ w, negb (aw_is_deleted w)) (tb_versions s) ≫= λ w,
    replicate (Nat.max 1 (length (List.filter (λ d, ad_agent_version_id d =? aw_id w) (tb_deployments s)))) w.
Definition scope_deployments (r : AssetRow) (s : AssetTables) : list AssetDeployment :=
  List.filter (λ d, (ad_tenant_id d =? at_tenant_id r) && bool_decide (Some (ad_project_id d) = at_project_id r)
    && negb (ad_is_deleted d)) (tb_deployments s).
Definition _usage_entries (r : AssetRow) (s : AssetTables) : option (list UsageEntry) :=
  a ← mapM (deployment_usage r) (scope_deployments r s);
  b ← mapM (version_usage r) (joined_versions s);
  Some (concat a ++ concat b).
Definition in_active_deployment (l : list UsageEntry) : bool :=
  existsb (λ e, bool_decide (ue_resource_kind e = "deployment") && ue_active e) l.

Definition _risk_flags (r : AssetRow) (used_by : list UsageEntry) : option (list string) :=
  l ← _lifecycle r;
  last ← match get "status" l with
    | VStr st => Some (if bool_decide (st ∈ ["deprecated"; "archived"]) then ["lifecycle_" +:+ st] else [])
    | VList _ | VDict _ => None
    | _ => Some []
    end;
  Some ((if String.eqb (at_version r) "latest" then ["floating_version"] else [])
    ++ (if in_active_deployment used_by then ["active_deployment_dependency"] else [])
    ++ (match at_body r with
        | CatalogBody _ _ rk _ _ _ _ _ _ => if bool_decide (rk ∈ ["high"; "critical"]) then ["high_risk_component"] else []
        | _ => []
        end)
    ++ last).

(** * Validation *)

Definition issue (code field message : string) : value :=
  VDict [("code", VStr code); ("field", VStr field); ("message", VStr message)].
Definition is_dict (v : value) : bool := match v with VDict _ => true | _ => false end.

(** The data with references, and the references to secrets, gateways and policies. *)
Definition _validation_sources (r : AssetRow) : option (pydict * list value * list value * list value) :=
  m ← _metadata r;
  let '(data, secrets) := match at_body r with
    | CatalogBody _ _ _ _ _ _ se _ q => (q, se)
    | _ => (m, get "secret_refs" m)
    end in
  a ← list_of secrets; b ← list_of (get "model_gateway_refs" data); c ← list_of (get "policy_refs" data);
  Some (data, a, b, c).
Definition as_dict (v : value) : option pydict := match v with VDict d => Some d | _ => None end.
Definition _dependency_refs (r : AssetRow) : option (list pydict) :=
  match _validation_sources r with
  | Some (data, _, _, _) => option_map (λ l : list value, omap (M:=list) as_dict l) (list_of (get "dependencies" data))
  | None => None
  end.

Definition shape_issues (r : AssetRow) : list value :=
  match at_body r with
  | PromptBody _ v _ _ =>
      if is_dict v then [] else [issue "variables_schema_invalid" "variables_schema_json" "variables schema must be an object."]
  | CatalogBody _ _ _ _ sc _ _ _ _ | ConfigBody _ sc _ _ | TemplateBody _ _ sc _ =>
      if is_dict sc then [] else [issue "schema_invalid" "schema_json" "schema must be an object."]
  end.
Definition environment_issues (r : AssetRow) (environment : option string) : list value :=
  match at_body r with
  | ConfigBody _ _ e _ =>
      if str_truthy environment && str_truthy e && negb (bool_decide (e = environment))
      then [issue "environment_scope_mismatch" "environment" "Config asset environment does not match the selected environment."]
      else []
  | _ => []
  end.
Definition secret_issue (v : value) : list value :=
  match v with
  | VStr s => if starts_with "secret:" s then [] else [issue "secret_ref_invalid" "secret_refs" ("Invalid secret ref: " +:+ s)]
  | _ => [issue "secret_ref_invalid" "secret_refs" ("Invalid secret ref: " +:+ text v)]
  end.
(** The names in scope; policies have one only where their metadata says so. *)
Definition scoped_rows (r : AssetRow) (l : list NamedRow) : list NamedRow :=
  List.filter (λ n, (nr_tenant_id n =? at_tenant_id r) && bool_decide (nr_project_id n = at_project_id r) && negb (nr_is_deleted n)) l.
Definition gateway_names (r : AssetRow) (s : AssetTables) : list string := text ∘ nr_name <$> scoped_rows r (tb_gateways s).
Definition policy_names (r : AssetRow) (s : AssetTables) : list string :=
  text ∘ nr_name <$> List.filter (truthy ∘ nr_name) (scoped_rows r (tb_policies s)).
Definition ref_issue (code field what : string) (names : list string) (v : value) : list value :=
  match v with
  | VStr s => if bool_decide (s ∈ names) then [] else [issue code field (what +:+ s)]
  | _ => [issue code field (what +:+ text v)]
  end.
(** [str(d.get(key) or "")] *)
Definition text_or_empty (v : value) : string := if truthy v then text v else "".
Definition dependency_issue (s : AssetTables) (r : AssetRow) (d : pydict) : list value :=
  let kind_raw := text_or_empty (if truthy (get "kind" d) then get "kind" d else get "asset_kind" d) in
  let name := text_or_empty (get "name" d) in
  let version := text_or_empty (get "version" d) in
  if String.eqb kind_raw "" || String.eqb name "" || String.eqb version "" then
    [issue "dependency_ref_invalid" "dependencies" "Dependency refs must include kind, name, and version."]
  else if String.eqb version "latest" then
    [issue "dependency_version_invalid" "dependencies" (name +:+ " uses forbidden version latest.")]
  else match _normalize_asset_kind kind_raw with
    | None => [issue "dependency_kind_invalid" "dependencies" ("Unsupported dependency kind: " +:+ kind_raw)]
    | Some k =>
        match find_asset_by_name_version k (at_tenant_id r) (at_project_id r) name version
          (or_opt_str (Some (text_or_empty (get "type" d))) None) s with
        | Some _ => []
        | None => [issue "dependency_missing" "dependencies"
            ("Dependency " +:+ kind_value k +:+ ":" +:+ name +:+ ":" +:+ version +:+ " was not found.")]
        end
    end.

Definition issues_of (s : AssetTables) (r : AssetRow) (environment : option string) : option (list value) :=
  match _validation_sources r, _dependency_refs r with
  | Some (_, secrets, gateways, policies), Some dependencies =>
      Some ((if String.eqb (at_version r) "latest" then [issue "explicit_version_required" "version" "latest is not allowed."] else [])
        ++ shape_issues r ++ environment_issues r environment
        ++ (secrets ≫= secret_issue)
        ++ (gateways ≫= ref_issue "model_gateway_ref_invalid" "model_gateway_refs" "Unknown model gateway ref: " (gateway_names r s))
        ++ (policies ≫= ref_issue "policy_ref_invalid" "policy_refs" "Unknown policy ref: " (policy_names r s))
        ++ (dependencies ≫= dependency_issue s r))
  | _, _ => None
  end.
Definition _validation_result (now : Z) (s : AssetTables) (r : AssetRow) (environment : option string) : option pydict :=
  l ← _lifecycle r;
  issues ← issues_of s r environment;
  Some [("status", VStr (match issues with [] => "passed" | _ => "failed" end)); ("validated_at", VStr (isoformat now));
    ("issues", VList issues); ("version", VStr (at_version r)); ("name", VStr (at_name r)); ("lifecycle_status", get "status" l)].

(** * Views *)

(** Requirements without the entries of the server. *)
Definition public_requirements (q : pydict) : pydict := List.filter (λ p, negb (starts_with "_" p.1)) q.
Definition _filtered_metadata (m : pydict) : pydict := List.filter (λ p, negb (bool_decide (p.1 ∈ ["lifecycle"; "validation"]))) m.
Definition of_time_opt (t : option Z) : value := match t with Some z => VStr (isoformat z) | None => VNone end.

Definition serialize_asset (r : AssetRow) : option pydict :=
  m ← _metadata r; st ← _status r; l ← _lifecycle r;
  let head := [("id", VInt (at_id r)); ("tenant_id", VInt (at_tenant_id r)); ("project_id", of_int_opt (at_project_id r));
    ("name", VStr (at_name r)); ("version", VStr (at_version r)); ("status", VStr st); ("lifecycle", VDict l);
    ("created_at", of_time_opt (at_created_at r)); ("updated_at", of_time_opt (at_updated_at r))] in
  match at_body r with
  | CatalogBody ty pv rk _ sc ca se pe q =>
      sc ← dict_of sc; ca ← dict_of ca; se ← list_of se; pe ← list_of pe;
      Some (head ++ [("kind", VStr "catalog"); ("type", VStr ty); ("provider", VStr pv); ("schema", VDict sc);
        ("capabilities", VDict ca); ("risk_level", VStr rk); ("required_secrets", VList se); ("required_permissions", VList pe);
        ("runtime_requirements", VDict (public_requirements q))])
  | PromptBody c v vi _ =>
      v ← dict_of v;
      Some (head ++ [("kind", VStr "prompt"); ("content_ref", VStr c); ("variables_schema", VDict v);
        ("visibility_level", VStr vi); ("metadata", VDict (_filtered_metadata m))])
  | ConfigBody c sc e _ =>
      sc ← dict_of sc;
      Some (head ++ [("kind", VStr "config"); ("content_ref", VStr c); ("schema", VDict sc); ("environment", of_str_opt e);
        ("metadata", VDict (_filtered_metadata m))])
  | TemplateBody ty c sc _ =>
      sc ← dict_of sc;
      Some (head ++ [("kind", VStr "template"); ("type", VStr ty); ("content_ref", VStr c); ("schema", VDict sc);
        ("metadata", VDict (_filtered_metadata m))])
  end.

Definition _record_snapshot (r : AssetRow) : option pydict :=
  l ← _lifecycle r; st ← _status r;
  let head := [("name", VStr (at_name r)); ("version", VStr (at_version r)); ("status", VStr st); ("lifecycle_status", get "status" l)] in
  match at_body r with
  | CatalogBody ty pv rk _ _ _ se pe q =>
      se ← list_of se; pe ← list_of pe;
      Some (head ++ [("type", VStr ty); ("provider", VStr pv); ("risk_level", VStr rk); ("required_secrets", VList se);
        ("required_permissions", VList pe); ("runtime_requirements", VDict (public_requirements q))])
  | PromptBody c v vi _ =>
      v ← dict_of v; Some (head ++ [("content_ref", VStr c); ("variables_schema", VDict v); ("visibility_level", VStr vi)])
  | ConfigBody c sc e _ =>
      sc ← dict_of sc; Some (head ++ [("content_ref", VStr c); ("schema", VDict sc); ("environment", of_str_opt e)])
  | TemplateBody ty c sc _ =>
      sc ← dict_of sc; Some (head ++ [("type", VStr ty); ("content_ref", VStr c); ("schema", VDict sc)])
  end.

Definition _diff (before : option pydict) (after : pydict) : pydict :=
  let previous := default [] before in
  let keys := sorted_scopes (list_to_set (dict_keys previous) ∪ list_to_set (dict_keys after)) in
  let changed := List.filter (λ k, negb (py_eqb (get k previous) (get k after))) keys in
  [("changed_fields", VList ((λ k, VDict [("field", VStr k); ("before", get k previous); ("after", get k after)]) <$> changed));
   ("has_changes", VBool (match changed with [] => false | _ => true end))].

Definition usage_value (e : UsageEntry) : value :=
  VDict [("resource_kind", VStr (ue_resource_kind e)); ("resource_id", VInt (ue_resource_id e));
    ("environment", of_str_opt (ue_environment e)); ("status", VStr (ue_status e)); ("active", VBool (ue_active e))].
(** The last version before this one. *)
Fixpoint previous_of (id : Z) (l : list AssetRow) (previous : option AssetRow) : option AssetRow :=
  match l with
  | [] => previous
  | c :: l => if at_id c =? id then previous else previous_of id l (Some c)
  end.
Definition asset_detail (s : AssetTables) (r : AssetRow) (environment : option string) : option pydict :=
  m ← _metadata r; l ← _lifecycle r; validation ← dict_of (get "validation" m);
  dependencies ← _dependency_refs r; used_by ← _usage_entries r s;
  let history := _version_history s r in
  item ← serialize_asset r;
  flags ← _risk_flags r used_by;
  versions ← mapM serialize_asset history;
  before ← match previous_of (at_id r) history None with
    | Some p => Some <$> _record_snapshot p
    | None => Some None
    end;
  after ← _record_snapshot r;
  Some [("item", VDict item); ("lifecycle", VDict l); ("validation", VDict validation); ("dependencies", VList (VDict <$> dependencies));
    ("used_by", VList (usage_value <$> used_by)); ("risk_flags", VList (VStr <$> flags)); ("version_history", VList (VDict <$> versions));
    ("diff_to_previous", VDict (_diff before after)); ("environment", of_str_opt environment)].

(** * Actions *)

Definition bad : exn := TypeError "cannot convert dictionary update sequence element".
Definition put_row (r : AssetRow) : M AssetTables unit :=
  modify (λ s, s <| tb_assets := dict_set (kind_of r, at_id r) r (tb_assets s) |>).
(** An action on a row: the row and its lifecycle as they are then. *)
Definition act (now : Z) (status : string) (actor reason : option string) (action : string) (r : AssetRow)
  : M AssetTables (AssetRow * pydict) :=
  p ← of_option (_set_lifecycle now status actor reason action r) bad;
  put_row p.1 ;; mret p.
Definition answer (r : AssetRow) (l : pydict) : M AssetTables pydict :=
  item ← of_option (serialize_asset r) bad; mret [("item", VDict item); ("lifecycle", VDict l)].

Definition validate_asset (now : Z) (actor reason environment : option string) (r : AssetRow) : M AssetTables pydict :=
  s ← get_state;
  validation ← of_option (_validation_result now s r environment) bad;
  r ← of_option (_set_validation (VDict validation) r) bad;
  current ← of_option (_status r) bad;
  let next := if bool_decide (get "status" validation = VStr "passed") then "validated" else current in
  p ← act now next actor reason "validate" r;
  a ← answer p.1 p.2;
  mret (("validation", VDict validation) :: a).

Definition validation_passed (r : AssetRow) : option bool :=
  m ← _metadata r; v ← dict_of (get "validation" m); Some (py_eqb (get "status" v) (VStr "passed")).
Definition approve_asset (now : Z) (actor reason : option string) (r : AssetRow) : M AssetTables pydict :=
  passed ← of_option (validation_passed r) bad;
  check passed (AssetLifecycleError "asset_validation_required" 400) ;;
  p ← act now "approved" actor reason "approve" r;
  answer p.1 p.2.

(** Published versions of the same asset make way. *)
Definition supersede (now : Z) (actor : option string) (r sibling : AssetRow) : M AssetTables unit :=
  if at_id sibling =? at_id r then mret tt
  else
    st ← of_option (_status sibling) bad;
    if negb (String.eqb st "published") then mret tt
    else act now "deprecated" actor (Some ("superseded_by:" +:+ pretty (at_id r))) "deprecate" sibling ;; mret tt.
Definition publish_asset (now : Z) (actor reason : option string) (r : AssetRow) : M AssetTables pydict :=
  st ← of_option (_status r) bad;
  check (bool_decide (st ∈ ["approved"; "published"])) (AssetLifecycleError "asset_approval_required" 400) ;;
  s ← get_state;
  for_each (_version_history s r) (supersede now actor r) ;;
  p ← act now "published" actor reason "publish" r;
  answer p.1 p.2.

Definition deprecate_asset (now : Z) (actor reason : option string) (r : AssetRow) : M AssetTables pydict :=
  s ← get_state;
  used_by ← of_option (_usage_entries r s) bad;
  check (negb (in_active_deployment used_by)) (AssetLifecycleError "asset_in_use_by_active_deployment" 409) ;;
  p ← act now "deprecated" actor reason "deprecate" r;
  a ← answer p.1 p.2;
  mret (a ++ [("used_by", VList (usage_value <$> used_by))]).
Definition archive_asset (now : Z) (actor reason : option string) (r : AssetRow) : M AssetTables pydict :=
  s ← get_state;
  used_by ← of_option (_usage_entries r s) bad;
  check (negb (existsb ue_active used_by)) (AssetLifecycleError "asset_still_referenced" 409) ;;
  p ← act now "archived" actor reason "archive" r;
  a ← answer p.1 p.2;
  mret (a ++ [("used_by", VList (usage_value <$> used_by))]).

Definition rollback_target (history : list AssetRow) (r : AssetRow) (version : option string) : option AssetRow :=
  match or_opt_str version None with
  | Some v => List.find (λ c, String.eqb (at_version c) v) history
  | None => last (List.filter (λ c, negb (at_id c =? at_id r)) history)
  end.
Definition rollback_asset (now : Z) (actor reason version : option string) (r : AssetRow) : M AssetTables pydict :=
  s ← get_state;
  target ← of_option (rollback_target (_version_history s r) r version) (AssetLifecycleError "rollback_target_not_found" 404);
  check (negb (at_id target =? at_id r)) (AssetLifecycleError "rollback_target_invalid" 400) ;;
  p ← act now "deprecated" actor reason "rollback" r;
  q ← act now "published" actor reason "publish" target;
  item ← of_option (serialize_asset q.1) bad;
  from ← of_option (serialize_asset p.1) bad;
  mret [("item", VDict item); ("rolled_back_from", VDict from); ("lifecycle", VDict q.2)].

(** * Routes *)

Inductive AssetAction := A_approve | A_publish | A_deprecate | A_archive | A_rollback.
Inductive AssetRequest :=
| Detail
| Validate (payload : pydict)
| Write (a : AssetAction) (payload : pydict).
Record AssetHeaders := mkAssetHeaders {
  ah_tenant_id : option Z;
  ah_project_id : option Z;
  ah_environment : option string;
  ah_actor_id : option string
}.

(** [str(data.get(key) or "").strip() or None] *)
Definition stripped (key : string) (data : pydict) : option string := or_opt_str (Some (strip_string (text_or_empty (get key data)))) None.
Definition not_found (k : AssetKind) : string :=
  match k with K_catalog => "catalog_item" | K_prompt => "prompt_asset" | K_config => "config_asset" | K_template => "template_asset" end
  +:+ "_not_found".

Definition perform (now : Z) (h : AssetHeaders) (a : AssetAction) (reason : string) (data : pydict) (r : AssetRow)
  : M AssetTables pydict :=
  match a with
  | A_approve => approve_asset now (ah_actor_id h) (Some reason) r
  | A_publish => publish_asset now (ah_actor_id h) (Some reason) r
  | A_deprecate => deprecate_asset now (ah_actor_id h) (Some reason) r
  | A_archive => archive_asset now (ah_actor_id h) (Some reason) r
  | A_rollback => rollback_asset now (ah_actor_id h) (Some reason) (stripped "target_version" data) r
  end.
(** A session: committed when the work returns; an error of the lifecycle is answered with
    its code, other exceptions pass on; both leave the tables as they were. *)
Definition session (work : M AssetTables pydict) : M AssetTables (reply pydict) := λ s,
  match work s with
  | (Ret a, s') => (Ret (Item a), s')
  | (Raise (AssetLifecycleError code status), _) => (Ret (Refused status code), s)
  | (Raise e, _) => (Raise e, s)
  end.
Definition with_record (h : AssetHeaders) (k : AssetKind) (id tenant project : Z) (work : AssetRow → M AssetTables pydict)
  : M AssetTables (reply pydict) := λ s,
  match find_asset k id tenant project s with
  | None => (Ret (Refused 404 (not_found k)), s)
  | Some r => session (work r) s
  end.
Definition serve_asset (now : Z) (h : AssetHeaders) (k : AssetKind) (id : Z) (q : AssetRequest) : M AssetTables (reply pydict) :=
  match ah_tenant_id h, ah_project_id h with
  | Some tenant, Some project =>
      match q with
      | Detail => with_record h k id tenant project (λ r, s ← get_state; of_option (asset_detail s r (ah_environment h)) bad)
      | Validate data => with_record h k id tenant project
          (validate_asset now (ah_actor_id h) (stripped "audit_reason" data) (ah_environment h))
      | Write a data =>
          match stripped "audit_reason" data with
          | None => mret (Refused 400 "audit_reason_required")
          | Some reason => with_record h k id tenant project (perform now h a reason data)
          end
      end
  | _, _ => mret (Refused 400 "scope_headers_required")
  end.

(** The router of the catalog: the same work on items of the catalog. *)
Definition get_catalog_item_detail (now : Z) (h : AssetHeaders) (id : Z) : M AssetTables (reply pydict) :=
  serve_asset now h K_catalog id Detail.
Definition validate_catalog_item (now : Z) (h : AssetHeaders) (id : Z) (payload : pydict) : M AssetTables (reply pydict) :=
  serve_asset now h K_catalog id (Validate payload).
Definition _catalog_lifecycle_write (now : Z) (h : AssetHeaders) (a : AssetAction) (id : Z) (payload : pydict)
  : M AssetTables (reply pydict) := serve_asset now h K_catalog id (Write a payload).
Definition approve_catalog_item (now : Z) (h : AssetHeaders) := _catalog_lifecycle_write now h A_approve.
Definition publish_catalog_item (now : Z) (h : AssetHeaders) := _catalog_lifecycle_write now h A_publish.
Definition deprecate_catalog_item (now : Z) (h : AssetHeaders) := _catalog_lifecycle_write now h A_deprecate.
Definition archive_catalog_item (now : Z) (h : AssetHeaders) := _catalog_lifecycle_write now h A_archive.
Definition rollback_catalog_item (now : Z) (h : AssetHeaders) := _catalog_lifecycle_write now h A_rollback.
End assets.
