(* ===== verification/AssetProps.v ===== *)
(** What the life of an asset keeps: one published version at a time, approval before
    publication, no retirement of what is in use; and where rollbacks and repeated
    validations get around it. *)

From stdpp Require Import gmap.
From S2P Require Import Prelude Values Json Tables Policy ApiKeys Console ConsoleApi Observe Artifacts AgentApi Assets.

Section promises.
Context (py_str : value → string) (isoformat : Z → string).
Implicit Types (r x : AssetRow) (s : AssetTables).

(** * Rows under an action *)

(** What an action leaves of a row. *)
Definition same_asset (a b : AssetRow) : Prop :=
  at_id a = at_id b ∧ kind_of a = kind_of b ∧ at_tenant_id a = at_tenant_id b ∧ at_project_id a = at_project_id b ∧
  at_name a = at_name b ∧ at_version a = at_version b ∧ _record_type a = _record_type b ∧ at_is_deleted a = at_is_deleted b.
#[local] Instance same_asset_equiv : Equivalence same_asset.
Proof.
  unfold same_asset. split; [by intros x|intros x y (?&?&?&?&?&?&?&?); split_and!; congruence|].
  intros x y z (?&?&?&?&?&?&?&?) (?&?&?&?&?&?&?&?). split_and!; congruence.
Qed.

Lemma write_metadata_same m r : same_asset (_write_metadata m r) r.
Proof. unfold _write_metadata, same_asset, kind_of, _record_type. by destruct (at_body r) eqn:E; simpl; rewrite ?E. Qed.
Lemma with_status_same st r : same_asset (with_status st r) r.
Proof. unfold with_status, same_asset, kind_of, _record_type. by destruct (at_body r) eqn:E; simpl; rewrite ?E. Qed.

Lemma moved_status now st actor reason action l :
  dict_get "status" (moved_lifecycle isoformat now st actor reason action l) = Some (VStr st).
Proof.
  unfold moved_lifecycle, dict_merge, action_stamp. simpl.
  repeat case_match; simplify_eq/=; rewrite !dict_get_set_ne by done; apply dict_get_set_eq.
Qed.

(** What an action makes of a row. *)
Lemma set_lifecycle_inv now st actor reason action r r' l :
  _set_lifecycle py_str isoformat now st actor reason action r = Some (r', l) → ∃ m,
  r' = with_status st (_write_metadata (dict_set "lifecycle" (VDict l) m) r) ∧ dict_get "status" l = Some (VStr st) ∧ _metadata r = Some m.
Proof.
  unfold _set_lifecycle. destruct (_metadata r) as [m|]; [|done]. simpl. destruct (dict_of (get "lifecycle" m)) as [l0|]; [|done]. simpl.
  destruct (_status py_str r) as [cur|]; [|done]. simpl. destruct (list_of _) as [history|]; [|done]. simpl. intros [= <- <-].
  exists m. split; [done|]. split; [|done]. rewrite dict_get_set_ne by done. apply moved_status.
Qed.
Lemma dict_of_full d k v : dict_get k d = Some v → dict_of (VDict d) = Some d.
Proof. intros H. unfold dict_of. by destruct d. Qed.

Lemma lifecycle_written l m r st :
  dict_get "status" l = Some (VStr st) →
  (_status py_str (with_status st (_write_metadata (dict_set "lifecycle" (VDict l) m) r)) = Some "published" ↔ st = "published").
Proof.
  intros Hl. set (m' := dict_set "lifecycle" (VDict l) m).
  assert (get "lifecycle" m' = VDict l) as Hm by (unfold get; subst m'; by rewrite dict_get_set_eq).
  assert (∀ x : string, (if truthy (VStr st) then st else "draft") = "published" ↔ st = "published") as Hx.
  { intros _. simpl. destruct (String.eqb_spec st ""); [by subst|done]. }
  unfold _status, with_status, _write_metadata, _lifecycle, _metadata.
  destruct (at_body r); simpl; [naive_solver|..]; rewrite Hm, (dict_of_full _ _ _ Hl); simpl; unfold get; rewrite Hl; simpl;
    rewrite Hl; simpl; rewrite <-(Hx ""); simpl; naive_solver.
Qed.

Lemma set_lifecycle_same now st actor reason action r r' l :
  _set_lifecycle py_str isoformat now st actor reason action r = Some (r', l) →
  same_asset r' r ∧ (_status py_str r' = Some "published" ↔ st = "published").
Proof.
  intros (m&->&Hl&_)%set_lifecycle_inv. split; [|by apply lifecycle_written].
  etrans; [apply with_status_same|apply write_metadata_same].
Qed.
Lemma set_validation_same v r r' :
  _set_validation v r = Some r' → same_asset r' r ∧ _status py_str r' = _status py_str r.
Proof.
  unfold _set_validation. destruct (_metadata r) as [m|] eqn:Em; [|done]. intros [= <-]. split; [apply write_metadata_same|].
  revert Em. unfold _status, _lifecycle, _metadata, _write_metadata, get. destruct (at_body r); simpl; try done;
    intros [= ->]; by rewrite dict_get_set_ne.
Qed.

(** * One published version *)

Definition published r : Prop := _status py_str r = Some "published" ∧ at_is_deleted r = false.
(** Versions of one asset. *)
Definition versions_of_one (a b : AssetRow) : Prop :=
  kind_of a = kind_of b ∧ at_tenant_id a = at_tenant_id b ∧ at_project_id a = at_project_id b ∧ at_name a = at_name b ∧
  _record_type a = _record_type b.

Definition row_filed s : Prop :=
  NoDup (dict_keys (tb_assets s)) ∧ ∀ key r, dict_get key (tb_assets s) = Some r → key = (kind_of r, at_id r).
Definition single s : Prop := row_filed s ∧ ∀ ka kb a b,
  dict_get ka (tb_assets s) = Some a → dict_get kb (tb_assets s) = Some b → published a → published b → versions_of_one a b → ka = kb.

(** Nothing becomes published. *)
Definition weakens : relation AssetTables := λ s s',
  row_filed s → row_filed s' ∧
  (∀ key y, dict_get key (tb_assets s') = Some y → ∃ x, dict_get key (tb_assets s) = Some x ∧ same_asset y x ∧ (published y → published x)) ∧
  ∀ key x, dict_get key (tb_assets s) = Some x → ∃ y, dict_get key (tb_assets s') = Some y ∧ same_asset y x.
#[local] Instance weakens_preorder : PreOrder weakens.
Proof.
  split; [intros s Hf; split; [done|]; split; intros key x Hx; exists x; by split_and!|].
  intros s1 s2 s3 H12 H23 Hf. destruct (H12 Hf) as (Hf2&H1&H2). destruct (H23 Hf2) as (Hf3&H3&H4). split; [done|]. split.
  - intros key z (y&Hy&?&?)%H3. apply H1 in Hy as (x&Hx&?&?). exists x. split_and!; [done|by etrans|auto].
  - intros key x (y&Hy&?)%H2. apply H4 in Hy as (z&Hz&?). exists z. split; [done|by etrans].
Qed.

Lemma weakens_single s s' : weakens s s' → single s → single s'.
Proof.
  intros Hw [Hf Hs]. destruct (Hw Hf) as (Hf'&Hb&_). split; [done|]. intros ka kb a b Ha Hb' Pa Pb Hg.
  destruct (Hb _ _ Ha) as (a0&Ha0&Sa&Qa). destruct (Hb _ _ Hb') as (b0&Hb0&Sb&Qb).
  apply (Hs ka kb a0 b0); auto. unfold versions_of_one, same_asset in *. destruct_and!. split_and!; congruence.
Qed.

(** Writing a row of the table back with another state. *)
Lemma put_row_filed r r' s key :
  row_filed s → dict_get key (tb_assets s) = Some r → same_asset r' r → row_filed (put_row r' s).2 ∧ key = (kind_of r', at_id r').
Proof.
  intros [Hn Hf] Hr Hs. assert (key = (kind_of r', at_id r')) as ->.
  { rewrite (Hf _ _ Hr). unfold same_asset in Hs. destruct_and!. congruence. }
  split; [|done]. split; simpl; [by apply dict_set_nodup|]. intros key x. rewrite dict_get_set. case_decide as E; [|apply Hf].
  intros [= <-]. done.
Qed.
Lemma put_row_weakens r r' s key :
  dict_get key (tb_assets s) = Some r → same_asset r' r → (published r' → published r) → weakens s (put_row r' s).2.
Proof.
  intros Hr Hs Hp Hf. destruct (put_row_filed r r' s key Hf Hr Hs) as [Hf' Ek]. split; [done|]. simpl. rewrite <-Ek. split.
  - intros k' y. rewrite dict_get_set. case_decide as E; [subst k'; intros [= <-]; by exists r|intros Hy; exists y; by split_and!].
  - intros k' x Hx. rewrite dict_get_set. case_decide as E; [|exists x; by split_and!]. subst k'. exists r'. split; [done|].
    rewrite Hr in Hx. by injection Hx as <-.
Qed.

Lemma act_inv now st actor reason action r s r' l s' :
  act py_str isoformat now st actor reason action r s = (Ret (r', l), s') →
  s' = (put_row r' s).2 ∧ same_asset r' r ∧ (_status py_str r' = Some "published" ↔ st = "published").
Proof.
  unfold act, mbind, M_bind. destruct (_set_lifecycle _ _ _ _ _ _ _ _) as [[r1 l1]|] eqn:E; [|done]. simpl. intros [= <- _ <-].
  apply set_lifecycle_same in E. split; [done|exact E].
Qed.
Lemma act_weakens now st actor reason action r s key p s' :
  dict_get key (tb_assets s) = Some r → st ≠ "published" → act py_str isoformat now st actor reason action r s = (Ret p, s') →
  weakens s s'.
Proof.
  intros Hr Hst. destruct p as [r' l]. intros (->&Hs&Hp)%act_inv. eapply put_row_weakens; [done..|].
  intros [Hq _]. by apply Hp in Hq.
Qed.
Lemma answer_inv r l s a s' : answer py_str isoformat r l s = (Ret a, s') → s' = s.
Proof. unfold answer, mbind, M_bind. destruct (serialize_asset _ _ _); [|done]. by intros [= _ <-]. Qed.
Lemma of_option_inv {A} (o : option A) e s a s' : of_option o e s = (Ret a, s') → o = Some a ∧ s' = s.
Proof. destruct o; [|done]. by intros [= <- <-]. Qed.

(** ** The actions *)

Lemma validate_weakens now actor reason environment r s key a s' :
  dict_get key (tb_assets s) = Some r → validate_asset py_str isoformat now actor reason environment r s = (Ret a, s') → weakens s s'.
Proof.
  intros Hr (?&?&[= <- <-]&(v&?&[_ ->]%of_option_inv&(r1&?&[H1 ->]%of_option_inv&(cur&?&[Hc ->]%of_option_inv&H)%bind_ret_inv)%bind_ret_inv)%bind_ret_inv)%bind_ret_inv.
  apply set_validation_same in H1 as [Hs Hst].
  apply bind_ret_inv in H as ([r2 l]&s2&(->&Hs2&Hp)%act_inv&(a0&?&->%answer_inv&[= _ <-])%bind_ret_inv).
  apply (put_row_weakens r r2 s key); [done|by etrans|]. intros [Hq Hd]. split.
  - apply Hp in Hq. destruct (bool_decide _); [done|]. subst cur. by rewrite Hst in Hc.
  - unfold same_asset in *. destruct_and!. congruence.
Qed.
Lemma approve_weakens now actor reason r s key a s' :
  dict_get key (tb_assets s) = Some r → approve_asset py_str isoformat now actor reason r s = (Ret a, s') → weakens s s'.
Proof.
  intros Hr (b&?&[_ ->]%of_option_inv&([]&s1&Hc&(p&s2&Ha&->%answer_inv)%bind_ret_inv)%bind_ret_inv)%bind_ret_inv.
  destruct b; [injection Hc as <-|done]. by eapply act_weakens; [exact Hr| |exact Ha].
Qed.

(** Deprecating and archiving look at the uses first. *)
Lemma deprecate_inv now actor reason r s key a s' :
  dict_get key (tb_assets s) = Some r → deprecate_asset py_str isoformat now actor reason r s = (Ret a, s') →
  weakens s s' ∧ ∃ used, _usage_entries r s = Some used ∧ in_active_deployment used = false.
Proof.
  intros Hr (?&?&[= <- <-]&(used&?&[Hu ->]%of_option_inv&([]&s1&Hc&(p&s2&Ha&(a0&?&->%answer_inv&[= _ <-])%bind_ret_inv)%bind_ret_inv)%bind_ret_inv)%bind_ret_inv)%bind_ret_inv.
  destruct (in_active_deployment used) eqn:E; [done|]. injection Hc as <-. split; [by eapply act_weakens; [exact Hr| |exact Ha]|]. by exists used.
Qed.
Lemma archive_inv now actor reason r s key a s' :
  dict_get key (tb_assets s) = Some r → archive_asset py_str isoformat now actor reason r s = (Ret a, s') →
  weakens s s' ∧ ∃ used, _usage_entries r s = Some used ∧ existsb ue_active used = false.
Proof.
  intros Hr (?&?&[= <- <-]&(used&?&[Hu ->]%of_option_inv&([]&s1&Hc&(p&s2&Ha&(a0&?&->%answer_inv&[= _ <-])%bind_ret_inv)%bind_ret_inv)%bind_ret_inv)%bind_ret_inv)%bind_ret_inv.
  destruct (existsb ue_active used) eqn:E; [done|]. injection Hc as <-. split; [by eapply act_weakens; [exact Hr| |exact Ha]|]. by exists used.
Qed.

(** A sibling that is superseded. *)
Lemma supersede_weakens now actor r x s key x0 s' :
  row_filed s → dict_get key (tb_assets s) = Some x0 → same_asset x x0 → supersede py_str isoformat now actor r x s = (Ret tt, s') →
  weakens s s' ∧
  (at_id x ≠ at_id r → _status py_str x = Some "published" → ∀ y, dict_get key (tb_assets s') = Some y → ¬ published y).
Proof.
  intros Hf Hx Hs. unfold supersede. destruct (at_id x =? at_id r) eqn:Ei.
  { intros [= <-]. split; [reflexivity|]. apply Z.eqb_eq in Ei. done. }
  intros (st&?&[Hst ->]%of_option_inv&H)%bind_ret_inv. destruct (String.eqb_spec st "published"); simpl in H.
  2: { injection H as <-. split; [reflexivity|]. intros _ Hp. rewrite Hp in Hst. by injection Hst. }
  apply bind_ret_inv in H as ([x1 l]&s1&(->&Hs1&Hp)%act_inv&[= <-]).
  assert (¬ published x1) as Hno by (intros [Hq _]; by apply Hp in Hq).
  assert (same_asset x1 x0) as Hs2 by by etrans.
  split; [by apply (put_row_weakens x0 x1 s key)|]. intros _ _ y. simpl.
  destruct (put_row_filed x0 x1 s key Hf Hx Hs2) as [_ <-]. rewrite dict_get_set_eq. by intros [= <-].
Qed.

(** All of them: what was published of the versions given, other than [r], is no more. *)
Lemma supersede_all now actor r l s s' : row_filed s →
  (∀ x, x ∈ l → ∃ x0, dict_get (kind_of x, at_id x) (tb_assets s) = Some x0 ∧ same_asset x x0) →
  for_each l (supersede py_str isoformat now actor r) s = (Ret tt, s') →
  weakens s s' ∧ ∀ x, x ∈ l → at_id x ≠ at_id r → _status py_str x = Some "published" →
    ∀ y, dict_get (kind_of x, at_id x) (tb_assets s') = Some y → ¬ published y.
Proof.
  revert s. induction l as [|x l IH]; intros s Hf Hl; simpl.
  { intros [= <-]. split; [reflexivity|]. intros x Hx. by apply elem_of_nil in Hx. }
  intros ([]&s1&H1&H2)%bind_ret_inv. destruct (Hl x ltac:(left)) as (x0&Hx0&Hs0).
  destruct (supersede_weakens now actor r x s _ x0 s1 Hf Hx0 Hs0 H1) as [W1 P1]. destruct (W1 Hf) as (Hf1&_&Hk1).
  destruct (IH s1 Hf1) as [W2 P2]; [|done|].
  { intros z Hz. destruct (Hl z ltac:(by right)) as (z0&Hz0&Hsz). apply Hk1 in Hz0 as (z1&Hz1&Hs1). exists z1. split; [done|].
    etrans; [done|by symmetry]. }
  split; [by etrans|]. intros z [->|Hz]%elem_of_cons Hid Hst y Hy Py; [|by eapply P2].
  destruct (W2 Hf1) as (_&Hb2&_). apply Hb2 in Hy as (y1&Hy1&_&Hp). by eapply P1; [..|apply Hp].
Qed.

Lemma history_elem s r x : row_filed s → x ∈ _version_history s r ↔
  dict_get (kind_of x, at_id x) (tb_assets s) = Some x ∧ same_group r x = true.
Proof.
  intros [Hn Hf]. unfold _version_history. rewrite stable_sort_perm, list_elem_of_In, filter_In, <-list_elem_of_In.
  rewrite values_elem by done. split; [|naive_solver]. intros [[key Hk] Hg]. split; [|done]. by rewrite <-(Hf _ _ Hk).
Qed.
Lemma same_group_iff r x : same_group r x = true ↔ versions_of_one x r ∧ at_is_deleted x = false.
Proof.
  unfold same_group, versions_of_one. rewrite !andb_true_iff, !bool_decide_eq_true, negb_true_iff. naive_solver.
Qed.

Lemma publish_single now actor reason r s key a s' :
  dict_get key (tb_assets s) = Some r → publish_asset py_str isoformat now actor reason r s = (Ret a, s') → single s →
  single s' ∧ ∃ st, _status py_str r = Some st ∧ st ∈ ["approved"; "published"].
Proof.
  intros Hr (st&?&[Hst ->]%of_option_inv&([]&s1&Hc&(?&?&[= <- <-]&([]&s2&Hl&([r' l]&s3&(->&Hsr&Hp)%act_inv&->%answer_inv)%bind_ret_inv)%bind_ret_inv)%bind_ret_inv)%bind_ret_inv)%bind_ret_inv [Hf Hs].
  unfold check in Hc. case_bool_decide as Hin; [injection Hc as <-|done]. split; [|by exists st].
  destruct (supersede_all now actor r (_version_history s r) s s2 Hf) as [W P]; [|exact Hl|].
  { intros x [Hx _]%history_elem; [|done]. by exists x. }
  destruct (W Hf) as (Hf2&Hb&Hk). destruct (Hk _ _ Hr) as (r2&Hr2&Hs2).
  destruct (put_row_filed r2 r' s2 key Hf2 Hr2) as [Hf3 Ek]; [etrans; [done|by symmetry]|]. split; [done|].
  assert (∀ kb b, kb ≠ key → dict_get kb (tb_assets s2) = Some b → published b → versions_of_one r' b → False) as Hno.
  { intros kb b Hne Hb2 Pb Hg. destruct (Hb _ _ Hb2) as (b0&Hb0&Sb&Pb0). specialize (Pb0 Pb).
    destruct Hf as [Hn Hfk]. pose proof (Hfk _ _ Hb0) as ->. pose proof (Hfk _ _ Hr) as Ekey.
    assert (versions_of_one b0 r) as Hg0.
    { unfold versions_of_one, same_asset in *. destruct_and!. split_and!; congruence. }
    apply (P b0) with (y := b); [..|by destruct Pb0|done|done].
    - apply history_elem; [done|]. split; [done|]. apply same_group_iff. split; [done|by destruct Pb0].
    - intros Hid. apply Hne. rewrite Ekey. destruct Hg0 as [Hkk _]. congruence. }
  simpl. rewrite <-Ek. intros ka kb a1 b1. rewrite !dict_get_set. case_decide as Ea; case_decide as Eb; [by subst|..].
  - subst ka. intros [= <-] H1 _ P1 Hg. exfalso. by eapply Hno.
  - subst kb. intros H1 [= <-] P1 _ Hg. exfalso. eapply Hno; [|done..|]; [done|]. unfold versions_of_one in *. by destruct_and!.
  - intros H1 H2 P1 P2 Hg. apply (weakens_single s s2 W (conj Hf Hs)) with a1 b1; done.
Qed.

(** ** Requests *)

Record AssetCall := mkCall { cl_now : Z; cl_headers : AssetHeaders; cl_kind : AssetKind; cl_id : Z; cl_request : AssetRequest }.
Definition serve_call (c : AssetCall) : M AssetTables (reply pydict) :=
  serve_asset py_str isoformat (cl_now c) (cl_headers c) (cl_kind c) (cl_id c) (cl_request c).
Definition no_rollback (c : AssetCall) : Prop := match cl_request c with Write A_rollback _ => False | _ => True end.

Lemma session_keeps (I : AssetTables → Prop) work s : I s → (∀ a s', work s = (Ret a, s') → I s') → I (session work s).2.
Proof.
  intros Hs Hw. unfold session. destruct (work s) as [[a|e] s']; [by eapply Hw|]. by destruct e.
Qed.
Lemma record_keeps (I : AssetTables → Prop) h k id t p work s :
  I s → (∀ r a s', dict_get (k, id) (tb_assets s) = Some r → work r s = (Ret a, s') → I s') → I (with_record h k id t p work s).2.
Proof.
  intros Hs Hw. unfold with_record, find_asset. destruct (dict_get (k, id) (tb_assets s)) as [r|] eqn:E; [|done]. simpl.
  destruct (_ && _); [|done]. apply session_keeps; [done|]. intros a s'. by apply Hw.
Qed.

Lemma serve_single c s : no_rollback c → single s → single (serve_call c s).2.
Proof.
  intros Hc Hs. unfold serve_call, serve_asset. destruct (ah_tenant_id (cl_headers c)), (ah_project_id (cl_headers c)); try done.
  unfold no_rollback in Hc. destruct (cl_request c) as [|data|act data]; [| |destruct (stripped py_str "audit_reason" data); [|exact Hs]];
    (apply record_keeps; [done|intros r res s' Hr Hres]).
  - revert Hres. unfold mbind, M_bind. simpl. intros [_ ->]%of_option_inv. done.
  - by eapply weakens_single; [eapply validate_weakens|].
  - destruct act; simpl in Hres; try done.
    + by eapply weakens_single; [eapply approve_weakens|].
    + by eapply publish_single in Hres as [? _].
    + by eapply weakens_single; [eapply deprecate_inv|].
    + by eapply weakens_single; [eapply archive_inv|].
Qed.

(** C40: However catalog items, prompts, configurations and templates are validated,
    approved, published, deprecated and archived, by requests of whatever scope, an asset
    has at most one published version at a time, as long as nothing is rolled back. *)
Theorem one_published_version calls s :
  Forall no_rollback calls → single s → single (foldl (λ s c, (serve_call c s).2) s calls).
Proof.
  intros Hc. revert s. induction Hc as [|c calls Hc _ IH]; intros s Hs; [done|]. apply IH. by apply serve_single.
Qed.

(** What is published was approved, or published already, when the request came. *)
Theorem publication_needs_approval now h k id data s a s' :
  single s → serve_asset py_str isoformat now h k id (Write A_publish data) s = (Ret (Item a), s') →
  ∃ r st, dict_get (k, id) (tb_assets s) = Some r ∧ Some (at_tenant_id r) = ah_tenant_id h ∧ at_project_id r = ah_project_id h ∧
  _status py_str r = Some st ∧ st ∈ ["approved"; "published"] ∧ is_Some (stripped py_str "audit_reason" data).
Proof.
  intros Hs. unfold serve_asset. destruct (ah_tenant_id h) as [t|], (ah_project_id h) as [p|]; try done.
  destruct (stripped py_str "audit_reason" data) as [reason|]; [|done]. unfold with_record, find_asset.
  destruct (dict_get (k, id) (tb_assets s)) as [r|] eqn:Er; [|done]. simpl.
  destruct (negb (at_is_deleted r) && (at_tenant_id r =? t) && bool_decide (at_project_id r = Some p)) eqn:Eg; [|done].
  apply andb_true_iff in Eg as [[_ Ht%Z.eqb_eq]%andb_true_iff Hp%bool_decide_eq_true].
  unfold session. destruct (publish_asset _ _ _ _ _ _ _) as [[a'|e] s1] eqn:E; [|by destruct e].
  intros _. eapply publish_single in E as (_&st&?&?); [|done..]. exists r, st. split_and!; [done|by rewrite Ht|done..|by eexists].
Qed.

(** An asset that an active deployment of its scope refers to is not deprecated, and one
    with any active reference is not archived. *)
Theorem used_assets_stay now h k id act data s a s' :
  act = A_deprecate ∨ act = A_archive →
  serve_asset py_str isoformat now h k id (Write act data) s = (Ret (Item a), s') →
  ∃ r used, dict_get (k, id) (tb_assets s) = Some r ∧ _usage_entries r s = Some used ∧ in_active_deployment used = false ∧
  (act = A_archive → existsb ue_active used = false).
Proof.
  intros Hact. unfold serve_asset. destruct (ah_tenant_id h) as [t|], (ah_project_id h) as [p|]; try done.
  destruct (stripped py_str "audit_reason" data) as [reason|]; [|done]. unfold with_record, find_asset.
  destruct (dict_get (k, id) (tb_assets s)) as [r|] eqn:Er; [|done]. simpl. destruct (_ && _); [|done].
  unfold session. destruct (perform _ _ _ _ _ _ _ _ _) as [[a'|e] s1] eqn:E; [|by destruct e]. intros _. exists r.
  destruct Hact as [->| ->]; simpl in E.
  - eapply deprecate_inv in E as (_&used&?&?); [|done]. by exists used.
  - eapply archive_inv in E as (_&used&?&Hu); [|done]. exists used. split_and!; try done.
    apply not_true_is_false. intros (e&He&Ha)%existsb_exists. apply andb_true_iff in Ha as [_ Ha].
    apply not_true_iff_false in Hu. apply Hu. apply existsb_exists. by exists e.
Qed.
End promises.

(** * Concrete runs *)

Definition demo_text (v : value) : string := "?".
Definition demo_prompt (id : Z) (version : string) (schema : value) : AssetRow :=
  mkAsset id 1 (Some 1) "greeting" version (Some id) None false (PromptBody "ref" schema "internal" []).
Definition demo_tables (l : list AssetRow) : AssetTables :=
  mkAssetTables ((λ r, ((kind_of r, at_id r), r)) <$> l) [] [] [] [].
Definition demo_headers : AssetHeaders := mkAssetHeaders (Some 1) (Some 1) None (Some "ida").
Definition demo_reason : pydict := [("audit_reason", VStr "release")].
Definition demo_calls (l : list (Z * AssetRequest)) : list AssetCall :=
  (λ p, mkCall 0 demo_headers K_prompt p.1 p.2) <$> l.
Definition demo_serve (l : list (Z * AssetRequest)) (s : AssetTables) : AssetTables :=
  foldl (λ s c, (serve_call demo_text pretty c s).2) s (demo_calls l).
Definition demo_status (s : AssetTables) : list (option string) := _status demo_text <$> dict_values (tb_assets s).
Definition full (id : Z) : list (Z * AssetRequest) :=
  [(id, Validate []); (id, Write A_approve demo_reason); (id, Write A_publish demo_reason)].

Lemma demo_single l : NoDup ((λ r, (kind_of r, at_id r)) <$> l) → Forall (λ r, _status demo_text r ≠ Some "published") l →
  single demo_text (demo_tables l).
Proof.
  intros Hn Hl.
  assert (∀ key r, dict_get key (tb_assets (demo_tables l)) = Some r → r ∈ l ∧ key = (kind_of r, at_id r)) as Hk.
  { intros key r H%dict_get_elem. apply list_elem_of_fmap in H as (x&[= -> ->]&Hx). done. }
  split; [split|].
  - unfold dict_keys, demo_tables. simpl. by rewrite <-list_fmap_compose.
  - intros key r H. by apply Hk.
  - intros ka kb a b [Ha _]%Hk _ [Pa _]. rewrite Forall_forall in Hl. by destruct (Hl _ Ha).
Qed.

Lemma one_published_version_witness :
  single demo_text (demo_serve (full 1 ++ full 2) (demo_tables [demo_prompt 1 "1.0" (VDict []); demo_prompt 2 "2.0" (VDict [])])) ∧
  demo_status (demo_serve (full 1 ++ full 2) (demo_tables [demo_prompt 1 "1.0" (VDict []); demo_prompt 2 "2.0" (VDict [])])) =
    [Some "deprecated"; Some "published"].
Proof.
  split; [|vm_compute; reflexivity].
  apply (one_published_version demo_text pretty (demo_calls (full 1 ++ full 2))).
  - repeat constructor.
  - apply demo_single; [repeat constructor; set_solver|repeat constructor; by vm_compute].
Defined.

(** A rollback from a version that is not the published one leaves two published. *)
Theorem rollback_publishes_twice :
  demo_status (demo_serve (full 1 ++ full 2 ++ [(1, Write A_rollback (("target_version", VStr "0.9") :: demo_reason))])
    (demo_tables [demo_prompt 3 "0.9" (VDict []); demo_prompt 1 "1.0" (VDict []); demo_prompt 2 "2.0" (VDict [])])) =
  [Some "published"; Some "deprecated"; Some "published"].
Proof. by vm_compute. Qed.

(** A rollback without a target goes to the newest other version, also a later one that was
    never validated nor approved. *)
Theorem rollback_publishes_draft :
  demo_status (demo_serve (full 1 ++ [(1, Write A_rollback demo_reason)])
    (demo_tables [demo_prompt 1 "1.0" (VDict []); demo_prompt 2 "2.0" VNone])) = [Some "deprecated"; Some "published"].
Proof. by vm_compute. Qed.

(** A validation that fails leaves the status of an approved version, and it can be
    published. *)
Theorem failed_validation_publishes :
  let s := demo_serve [(1, Validate []); (1, Write A_approve demo_reason)] (demo_tables [demo_prompt 1 "1.0" (VDict [])]) in
  let bad := s <| tb_assets := dict_map_values (λ r, match at_body r with
    | PromptBody c _ v m => r <| at_body := PromptBody c VNone v m |> | _ => r end) (tb_assets s) |> in
  let s' := demo_serve [(1, Validate []); (1, Write A_publish demo_reason)] bad in
  demo_status s' = [Some "published"] ∧ (validation_passed <$> dict_values (tb_assets s')) = [Some false].
Proof. by vm_compute. Qed.

(** An archived version is approved and published again. *)
Theorem archived_returns :
  demo_status (demo_serve (full 1 ++ [(1, Write A_archive demo_reason); (1, Write A_approve demo_reason); (1, Write A_publish demo_reason)])
    (demo_tables [demo_prompt 1 "1.0" (VDict [])])) = [Some "published"].
Proof. by vm_compute. Qed.

(** Agent versions of all tenants count as users of an asset: a manifest that mentions its
    name and version, wherever it is, keeps the asset from being archived. *)
Theorem foreign_version_blocks_archive :
  let s := (demo_tables [demo_prompt 1 "1.0" (VDict [])]) <| tb_versions := [mkAssetVersion 7 "ready" [("uses", VStr "greeting:1.0")] false] |> in
  (serve_call demo_text pretty (mkCall 0 demo_headers K_prompt 1 (Write A_archive demo_reason)) s).1 =
  Ret (Refused 409 "asset_still_referenced").
Proof. by vm_compute. Qed.
