(* ===== verification/Surfaces.v ===== *)
(** Small parts around the runtime: published surfaces and ingress routes ([gateway/]), the
    catalog service ([catalog/service.py]), replay jobs ([replay/service.py]) and the check of
    the settings at start-up ([core/startup_checks.py]). *)

From stdpp Require Import gmap.
From S2P Require Import Prelude Values Json Policy StateMachine Deployments ConsoleApi.

(** * Published surfaces *)

Definition ALLOWED_SURFACE_TYPES : list string := ["api"; "chat"; "task"; "stream"; "mcp_server"; "webhook"].
Record PublishedSurfaceConfig := mkSurface {
  su_id : Z;
  su_tenant_id : Z;
  su_project_id : Z;
  su_deployment_id : Z;
  su_type : string;
  su_status : string
}.
Record PublishedSurfaceRegistry := mkSurfaces {
  ps_deployments : InMemoryDeploymentStore;
  ps_surfaces : dict Z PublishedSurfaceConfig
}.
#[export] Instance PublishedSurfaceRegistry_eta : Eta PublishedSurfaceRegistry := λ s, mkSurfaces (ps_deployments s) (ps_surfaces s).
Definition surface_error (msg : string) : exn := ValueError msg.
Definition publish (x : PublishedSurfaceConfig) : M PublishedSurfaceRegistry PublishedSurfaceConfig :=
  d ← zoom ps_deployments (λ l s, s <| ps_deployments := l |>) (store_get (su_deployment_id x));
  check (bool_decide (su_type x ∈ ALLOWED_SURFACE_TYPES)) (surface_error "unsupported PublishedSurface type") ;;
  check (bool_decide (dp_desired_status d = DD_active)) (surface_error "PublishedSurface requires an active Deployment") ;;
  check ((dp_tenant_id d =? su_tenant_id x) && (dp_project_id d =? su_project_id x))
    (surface_error "PublishedSurface tenant_id and project_id must match Deployment") ;;
  modify (λ s, s <| ps_surfaces := dict_set (su_id x) x (ps_surfaces s) |>) ;;
  mret x.

(** A surface is published exactly for an active deployment of its own tenant and project
    and a known type; otherwise nothing changes. *)
Theorem surface_needs_active_deployment x s :
  let '(r, s') := publish x s in
  match r with
  | Ret y => y = x ∧ s' = s <| ps_surfaces := dict_set (su_id x) x (ps_surfaces s) |> ∧ su_type x ∈ ALLOWED_SURFACE_TYPES ∧
      ∃ d, dict_get (su_deployment_id x) (deployments (ps_deployments s)) = Some d ∧ dp_desired_status d = DD_active ∧
      dp_tenant_id d = su_tenant_id x ∧ dp_project_id d = su_project_id x
  | Raise _ => s' = s
  end.
Proof.
  destruct s as [ds ss]. unfold publish, zoom, store_get, check, mbind, M_bind. simpl.
  destruct (dict_get (su_deployment_id x) (deployments ds)) as [d|]; simpl; [|done].
  case_bool_decide; simpl; [|done]. case_bool_decide; simpl; [|done].
  destruct (dp_tenant_id d =? su_tenant_id x) eqn:Et; simpl; [|done].
  destruct (dp_project_id d =? su_project_id x) eqn:Ep; simpl; [|done]. b2p. split_and!; try done. by exists d.
Qed.

(** * Ingress routes *)

Record IngressRouteConfig := mkRoute {
  ir_id : Z;
  ir_surface_id : Z;
  ir_path : string;
  ir_auth_mode : string;
  ir_custom_domain : option string;
  ir_cors_policy_id : option string;
  ir_rate_limit_policy_id : option string;
  ir_request_transform_ref : option string;
  ir_response_transform_ref : option string;
  ir_access_log_enabled : bool
}.
Definition validate {S} (x : IngressRouteConfig) : M S IngressRouteConfig :=
  check (bool_decide (ir_auth_mode x ∈ ["api_key"; "jwt"; "public"; "internal"])) (ValueError "unsupported auth_mode") ;;
  check (starts_with "/" (ir_path x)) (ValueError "path must start with /") ;;
  check (negb (bool_decide (ir_auth_mode x = "public") && negb (str_truthy (ir_rate_limit_policy_id x))))
    (ValueError "public auth_mode requires a rate_limit_policy_id") ;;
  check (negb (bool_decide (ir_auth_mode x = "public") && negb (ir_access_log_enabled x)))
    (ValueError "public auth_mode requires access logs") ;;
  mret x.

(** A public route is limited and logged. *)
Theorem public_routes_guarded {S} x (s s' : S) y :
  validate x s = (Ret y, s') → y = x ∧ starts_with "/" (ir_path x) = true ∧
  (ir_auth_mode x = "public" → str_truthy (ir_rate_limit_policy_id x) = true ∧ ir_access_log_enabled x = true).
Proof.
  unfold validate, check. intros H. destruct (bool_decide (ir_auth_mode x ∈ _)); [|done].
  destruct (starts_with "/" (ir_path x)); [|done]. case_bool_decide as E; simpl in H.
  - destruct (str_truthy _); [|done]. destruct (ir_access_log_enabled x); [|done]. by injection H as <-.
  - injection H as <-. by split_and!.
Qed.

(** * The catalog service *)

Module Catalog.
Record CatalogItem := mkItem {
  it_id : Z;
  it_tenant_id : Z;
  it_project_id : option Z;
  it_type : string;
  it_name : string;
  it_provider : string;
  it_version : string;
  it_schema : pydict;
  it_risk_level : string;
  it_required_permissions : gset string;
  it_capabilities : pydict;
  it_required_secrets : gset string;
  it_runtime_requirements : pydict;
  it_status : string
}.
Record CatalogService := mkCatalog {
  ct_sink : AuditSink;
  ct_items : dict Z CatalogItem
}.
#[export] Instance CatalogService_eta : Eta CatalogService := λ s, mkCatalog (ct_sink s) (ct_items s).
Section catalog.
Context (py_str : value → string) (rules : list StaticPolicyRule).
Definition catalog_request (i : CatalogItem) (actor : option string) : PolicyRequest :=
  mkPolicyRequest (it_tenant_id i) (it_project_id i) actor (if str_truthy actor then "user" else "system") "catalog"
    (Some (it_id i)) "create" (Some (it_risk_level i)) None None None None None None [] [].
Definition register_item (i : CatalogItem) (actor : option string) : M CatalogService CatalogItem :=
  d ← zoom ct_sink (λ l s, s <| ct_sink := l |>) (evaluate py_str rules (catalog_request i actor));
  check (negb (bool_decide (pd_decision d = D_deny))) (PermissionError (or_str (pd_reason d) "catalog_create_denied")) ;;
  modify (λ s, s <| ct_items := dict_set (it_id i) i (ct_items s) |>) ;;
  mret i.

(** What the rules deny is not registered. *)
Theorem denied_item_not_registered i actor s d l :
  evaluate py_str rules (catalog_request i actor) (ct_sink s) = (Ret d, l) → pd_decision d = D_deny →
  ∃ e, register_item i actor s = (Raise e, s <| ct_sink := l |>).
Proof.
  intros H Hd. unfold register_item, zoom, mbind, M_bind. rewrite H, Hd. simpl. by eexists.
Qed.
End catalog.
End Catalog.

(** * Replay jobs *)

Record ReplaySourceRun := mkReplaySource {
  rr_run_id : Z;
  rr_tenant_id : Z;
  rr_project_id : Z;
  rr_agent_id : Z;
  rr_agent_version_id : Z;
  rr_deployment_id : option Z;
  rr_input_ref : option string;
  rr_input_data : pydict;
  rr_status : string
}.
Record ReplayJob := mkReplayJob {
  rj_id : Z;
  rj_tenant_id : Z;
  rj_project_id : Z;
  rj_source_run_id : Z;
  rj_source_agent_version_id : Z;
  rj_candidate_agent_version_id : Z;
  rj_replay_run_id : option Z;
  rj_replay_task_id : option Z;
  rj_requested_by : string;
  rj_status : string;
  rj_override_config : pydict;
  rj_created_at : Z
}.
(** What [create_run_task] is called with. *)
Record ReplayArgs := mkReplayArgs {
  ra_tenant_id : Z;
  ra_project_id : Z;
  ra_agent_id : Z;
  ra_agent_version_id : Z;
  ra_deployment_id : option Z;
  ra_input_data : pydict;
  ra_override_config : pydict;
  ra_queue : string
}.
Section replay.
Context {W : Type} (create_run_task : option (ReplayArgs → M W (Z * Z))).
Record InMemoryReplayService := mkReplays {
  rv_world : W;
  rv_jobs : dict Z ReplayJob;
  rv_next_job_id : Z
}.
#[export] Instance InMemoryReplayService_eta : Eta InMemoryReplayService := λ s, mkReplays (rv_world s) (rv_jobs s) (rv_next_job_id s).
Definition terminal_statuses : list string := ["failed"; "succeeded"; "cancelled"; "timeout"].
Definition replay_args (x : ReplaySourceRun) (candidate : Z) (config : pydict) : ReplayArgs :=
  mkReplayArgs (rr_tenant_id x) (rr_project_id x) (rr_agent_id x) candidate (rr_deployment_id x) (rr_input_data x) config "replay".
Definition create_replay_job (now : Z) (x : ReplaySourceRun) (candidate : Z) (by' : string) (config : option pydict)
  : M InMemoryReplayService ReplayJob :=
  check (bool_decide (rr_status x ∈ terminal_statuses)) (PermissionError "source_run_not_terminal") ;;
  ids ← match create_run_task with
    | Some f =>
        p ← zoom rv_world (λ w s, s <| rv_world := w |>) (f (replay_args x candidate (default [] config)));
        mret (Some p.1, Some p.2)
    | None => mret (None, None)
    end;
  s ← get_state;
  let j := mkReplayJob (rv_next_job_id s) (rr_tenant_id x) (rr_project_id x) (rr_run_id x) (rr_agent_version_id x) candidate
    ids.1 ids.2 by' "created" (default [] config) now in
  modify (λ s, s <| rv_next_job_id := rv_next_job_id s + 1 |> <| rv_jobs := dict_set (rj_id j) j (rv_jobs s) |>) ;;
  mret j.

(** Only a run that has ended is replayed, in its own scope and with its own input; the job
    is kept under its id. *)
Theorem replay_of_ended_run now x candidate by' config s j s' :
  create_replay_job now x candidate by' config s = (Ret j, s') →
  rr_status x ∈ terminal_statuses ∧ dict_get (rj_id j) (rv_jobs s') = Some j ∧ rj_id j = rv_next_job_id s ∧
  rj_tenant_id j = rr_tenant_id x ∧ rj_project_id j = rr_project_id x ∧
  match create_run_task with
  | Some f => ∃ run task w, f (replay_args x candidate (default [] config)) (rv_world s) = (Ret (run, task), w) ∧
      rj_replay_run_id j = Some run ∧ rj_replay_task_id j = Some task ∧ rv_world s' = w
  | None => rj_replay_run_id j = None ∧ rv_world s' = rv_world s
  end.
Proof.
  unfold create_replay_job, check. case_bool_decide; [|done]. destruct create_run_task as [f|]; unfold zoom, mbind, M_bind; simpl.
  - destruct (f _ _) as [[[run task]|e] w] eqn:E; [|done]. intros [= <- <-]. simpl. split_and!; try done; [apply dict_get_set_eq|].
    by exists run, task, w.
  - intros [= <- <-]. simpl. split_and!; try done. apply dict_get_set_eq.
Qed.
End replay.

(** * Settings at start-up *)

(** What the check reads of the settings and the environment. *)
Record StartupSettings := mkStartup {
  sg_mode : string;
  sg_database_url : string;
  sg_native_runtime_store : string;
  sg_object_backend : string;
  sg_access_key : string;
  sg_secret_key : string;
  sg_cors_origins : list string;
  sg_secret_provider : option string;
  sg_dev_api_key : option string;
  sg_bootstrap_password : option string
}.
Definition when (b : bool) (msg : string) : list string := if b then [msg] else [].
Definition password_errors (p : option string) : list string :=
  match p with
  | None => ["Production mode requires an explicit non-default DIMOORUN_BOOTSTRAP_ADMIN_PASSWORD."]
  | Some s =>
      if String.eqb (strip_string s) "" then ["Production mode requires an explicit non-default DIMOORUN_BOOTSTRAP_ADMIN_PASSWORD."]
      else when (bool_decide (s ∈ ["admin123"; "admin12345"])) "Production mode cannot use the default DIMOORUN_BOOTSTRAP_ADMIN_PASSWORD."
  end.
Definition validate_production_settings (g : StartupSettings) : list string :=
  if negb (String.eqb (sg_mode g) "production") then []
  else
    when (starts_with "sqlite" (sg_database_url g)) "Production mode cannot use SQLite."
    ++ when (String.eqb (sg_native_runtime_store g) "memory") "Production mode cannot use the in-memory runtime store."
    ++ when (bool_decide (sg_object_backend g ∈ ["memory"; "local"])) "Production mode requires object storage instead of memory/local artifacts."
    ++ when (String.eqb (sg_access_key g) "dimoorun") "Production mode cannot use the default object store access key."
    ++ when (String.eqb (sg_secret_key g) "dimoorun-dev-secret") "Production mode cannot use the default object store secret key."
    ++ when (existsb (λ o, bool_decide (o ∈ ["http://127.0.0.1:5173"; "http://localhost:5173"])) (sg_cors_origins g))
         "Production mode cannot keep local dev CORS origins enabled."
    ++ when (String.eqb (default "memory" (sg_secret_provider g)) "memory") "Production mode requires a configured secret provider."
    ++ when (str_truthy (sg_dev_api_key g)) "Production mode cannot expose DIMOORUN_DEV_API_KEY."
    ++ password_errors (sg_bootstrap_password g).

Lemma when_silent b msg : when b msg = [] ↔ b = false.
Proof. by destruct b. Qed.

(** Production starts exactly without any of the defaults for development. *)
Theorem production_settings_safe g :
  sg_mode g = "production" →
  validate_production_settings g = [] ↔
  starts_with "sqlite" (sg_database_url g) = false ∧ sg_native_runtime_store g ≠ "memory" ∧
  sg_object_backend g ∉ ["memory"; "local"] ∧ sg_access_key g ≠ "dimoorun" ∧ sg_secret_key g ≠ "dimoorun-dev-secret" ∧
  (∀ o, o ∈ sg_cors_origins g → o ∉ ["http://127.0.0.1:5173"; "http://localhost:5173"]) ∧
  default "memory" (sg_secret_provider g) ≠ "memory" ∧ str_truthy (sg_dev_api_key g) = false ∧
  ∃ p, sg_bootstrap_password g = Some p ∧ strip_string p ≠ "" ∧ p ∉ ["admin123"; "admin12345"].
Proof.
  intros Hm. unfold validate_production_settings. rewrite Hm. simpl. rewrite !app_nil, !when_silent, !String.eqb_neq, bool_decide_eq_false.
  assert (existsb (λ o, bool_decide (o ∈ ["http://127.0.0.1:5173"; "http://localhost:5173"])) (sg_cors_origins g) = false ↔
    ∀ o, o ∈ sg_cors_origins g → o ∉ ["http://127.0.0.1:5173"; "http://localhost:5173"]) as ->.
  { rewrite <-not_true_iff_false, existsb_exists. split.
    - intros H o Ho Hin. apply H. exists o. by rewrite <-list_elem_of_In, bool_decide_eq_true.
    - intros H (o&Ho&Hin). apply list_elem_of_In in Ho. apply bool_decide_eq_true in Hin. by apply (H o). }
  assert (password_errors (sg_bootstrap_password g) = [] ↔
    ∃ p, sg_bootstrap_password g = Some p ∧ strip_string p ≠ "" ∧ p ∉ ["admin123"; "admin12345"]) as ->; [|done].
  destruct (sg_bootstrap_password g) as [p|]; simpl; [|naive_solver].
  destruct (String.eqb_spec (strip_string p) "") as [E|E]; [naive_solver|].
  rewrite when_silent, bool_decide_eq_false. naive_solver.
Qed.

(** The mode [enterprise] is not checked at all. *)
Theorem enterprise_unchecked g : sg_mode g = "enterprise" → validate_production_settings g = [].
Proof. intros H. unfold validate_production_settings. by rewrite H. Qed.
