(* ===== verification/Workers.v ===== *)
(** Workers: the worker registry of [runtime/capacity.py] (in memory, or backed
    by the table [worker_snapshots]), the operator actions on a worker, and the
    polling loop of [worker/loop.py] that obeys them. *)

From S2P Require Import Prelude Values Json StateMachine NativeApi.

(** * Worker records *)

Record WorkerRecord := mkWorker {
  wk_id : option Z;
  wk_worker_id : string;
  wk_tenant_id : Z;
  wk_project_id : Z;
  wk_environment : string;
  wk_queues : list string;
  wk_version : string;
  wk_capacity : Z;
  wk_status : string;
  wk_drain_status : string;
  wk_heartbeat_at : option Z;
  wk_last_error : option string;
  wk_restart_requested_at : option Z;
  wk_metadata : pydict
}.
#[export] Instance WorkerRecord_eta : Eta WorkerRecord := λ w,
  mkWorker (wk_id w) (wk_worker_id w) (wk_tenant_id w) (wk_project_id w) (wk_environment w)
    (wk_queues w) (wk_version w) (wk_capacity w) (wk_status w) (wk_drain_status w)
    (wk_heartbeat_at w) (wk_last_error w) (wk_restart_requested_at w) (wk_metadata w).

(** The identity of a worker. *)
Record Scope := mkScope {
  sc_worker_id : string;
  sc_tenant_id : Z;
  sc_project_id : Z;
  sc_environment : string
}.
#[export] Instance Scope_eq_dec : EqDecision Scope.
Proof. solve_decision. Defined.
Definition scope_of (w : WorkerRecord) : Scope :=
  mkScope (wk_worker_id w) (wk_tenant_id w) (wk_project_id w) (wk_environment w).

(** [WorkerRecord(worker_id=..., tenant_id=..., project_id=..., environment=...)] *)
Definition new_worker (s : Scope) : WorkerRecord :=
  mkWorker None (sc_worker_id s) (sc_tenant_id s) (sc_project_id s) (sc_environment s)
    ["default"] "unknown" 1 "idle" "active" None None None [].

(** [sorted({*queues}) or ["default"]] *)
Definition normalize_queues (l : list string) : list string :=
  match stable_sort (λ a b, chars_leb (to_chars a) (to_chars b)) (remove_dups l) with
  | [] => ["default"]
  | q => q
  end.

Definition touch (status : string) (heartbeat_at : Z) (queues : option (list string))
    (version : option string) (capacity : option Z) (last_error : option string)
    (w : WorkerRecord) : WorkerRecord :=
  w <| wk_status := status |> <| wk_heartbeat_at := Some heartbeat_at |>
    <| wk_queues := match queues with Some q => normalize_queues q | None => wk_queues w end |>
    <| wk_version := default (wk_version w) version |>
    <| wk_capacity := match capacity with Some c => if 0 <? c then c else wk_capacity w | None => wk_capacity w end |>
    <| wk_last_error := match last_error with Some e => Some e | None => wk_last_error w end |>.

(** * The table [worker_snapshots] *)

Record WorkerSnapshot := mkWorkerSnapshot {
  ws_id : Z;
  ws_tenant_id : Z;
  ws_project_id : Z;
  ws_environment : string;
  ws_worker_id : string;
  ws_status : string;
  ws_drain_status : string;
  ws_version : string;
  ws_capacity : Z;
  ws_heartbeat_at : option Z;
  ws_last_error : option string;
  ws_restart_requested_at : option Z;
  ws_metadata_json : pydict;
  ws_is_deleted : bool;
  ws_updated_at : Z
}.
#[export] Instance WorkerSnapshot_eta : Eta WorkerSnapshot := λ s,
  mkWorkerSnapshot (ws_id s) (ws_tenant_id s) (ws_project_id s) (ws_environment s) (ws_worker_id s)
    (ws_status s) (ws_drain_status s) (ws_version s) (ws_capacity s) (ws_heartbeat_at s)
    (ws_last_error s) (ws_restart_requested_at s) (ws_metadata_json s) (ws_is_deleted s)
    (ws_updated_at s).

#[export] Instance WorkerSnapshot_eq_dec : EqDecision WorkerSnapshot.
Proof. solve_decision. Defined.

(** Flushing a changed row: [updated_at] is set when some column changed. *)
Definition flushed (now : Z) (old new : WorkerSnapshot) : WorkerSnapshot :=
  if decide (new = old) then old else new <| ws_updated_at := now |>.

Section registry.
(** [str(x)] of a value that is not a string. *)
Context (py_str : value → string).

Definition _record_from_snapshot (s : WorkerSnapshot) : WorkerRecord :=
  let queues := match dict_get "queues" (ws_metadata_json s) with
    | Some (VList l) => (λ v, match v with VStr q => q | v => py_str v end) <$> l
    | _ => ["default"]
    end in
  mkWorker (Some (ws_id s)) (ws_worker_id s) (ws_tenant_id s) (ws_project_id s) (ws_environment s)
    (normalize_queues queues) (ws_version s) (Z.max 1 (ws_capacity s)) (ws_status s)
    (ws_drain_status s) (ws_heartbeat_at s) (ws_last_error s) (ws_restart_requested_at s)
    (dict_pop "queues" (ws_metadata_json s)).

(** The query arguments of [get] and the control methods. *)
Record Query := mkQuery {
  q_tenant_id : option Z;
  q_project_id : option Z;
  q_environment : option string
}.
Definition exact (s : Scope) : Query :=
  mkQuery (Some (sc_tenant_id s)) (Some (sc_project_id s)) (Some (sc_environment s)).

Definition wanted {A} `{!EqDecision A} (o : option A) (x : A) : bool :=
  match o with Some y => bool_decide (x = y) | None => true end.

Definition row_selected (worker : string) (q : Query) (s : WorkerSnapshot) : bool :=
  bool_decide (ws_worker_id s = worker) && negb (ws_is_deleted s)
  && wanted (q_tenant_id q) (ws_tenant_id s) && wanted (q_project_id q) (ws_project_id s)
  && wanted (q_environment q) (ws_environment s).

Definition record_selected (q : Query) (w : WorkerRecord) : bool :=
  wanted (q_tenant_id q) (wk_tenant_id w) && wanted (q_project_id q) (wk_project_id w)
  && wanted (q_environment q) (wk_environment w).

(** [order_by(updated_at.desc(), id.desc()).first()] *)
Definition newest (l : list WorkerSnapshot) : option WorkerSnapshot :=
  head (stable_sort (λ a b, (ws_updated_at b <? ws_updated_at a)
    || ((ws_updated_at a =? ws_updated_at b) && (ws_id b <=? ws_id a))) l).

(** The registry. [wr_db] is [None] when no database session can be opened, and
    every operation then falls back to the in-memory records. *)
Record WorkerRegistry := mkWorkerRegistry {
  wr_workers : dict string WorkerRecord;
  wr_db : option (dict Z WorkerSnapshot);
  wr_next_row : Z
}.
#[export] Instance WorkerRegistry_eta : Eta WorkerRegistry := λ r,
  mkWorkerRegistry (wr_workers r) (wr_db r) (wr_next_row r).

Definition _db_get (worker : string) (q : Query) (r : WorkerRegistry) : option WorkerRecord :=
  match wr_db r with
  | None => None
  | Some rows => _record_from_snapshot <$> newest (List.filter (row_selected worker q) (dict_values rows))
  end.

Definition registry_get (worker : string) (q : Query) (r : WorkerRegistry) : option WorkerRecord :=
  match _db_get worker q r with
  | Some w => Some w
  | None =>
      match dict_get worker (wr_workers r) with
      | Some w => if record_selected q w then Some w else None
      | None => None
      end
  end.

(** The columns [_db_upsert] writes. *)
Definition write_columns (w : WorkerRecord) (s : WorkerSnapshot) : WorkerSnapshot :=
  s <| ws_status := wk_status w |> <| ws_drain_status := wk_drain_status w |>
    <| ws_version := wk_version w |> <| ws_capacity := Z.max 1 (wk_capacity w) |>
    <| ws_heartbeat_at := wk_heartbeat_at w |> <| ws_last_error := wk_last_error w |>
    <| ws_restart_requested_at := wk_restart_requested_at w |>
    <| ws_metadata_json := dict_merge [("queues", VList (VStr <$> wk_queues w))] (wk_metadata w) |>.

Definition same_scope (w : WorkerRecord) (s : WorkerSnapshot) : bool :=
  (ws_tenant_id s =? wk_tenant_id w) && (ws_project_id s =? wk_project_id w)
  && bool_decide (ws_environment s = wk_environment w) && bool_decide (ws_worker_id s = wk_worker_id w)
  && negb (ws_is_deleted s).

(** [_persist]: [true] when the row was written. [one_or_none] raises when two
    rows have the scope, and the session is rolled back. *)
Definition _persist (now : Z) (w : WorkerRecord) : M WorkerRegistry bool :=
  r ← get_state;
  match wr_db r with
  | None => mret false
  | Some rows =>
      match List.filter (λ p, same_scope w p.2) rows with
      | [] =>
          let s := mkWorkerSnapshot (wr_next_row r) (wk_tenant_id w) (wk_project_id w)
            (wk_environment w) (wk_worker_id w) "idle" "active" "" 1 None None None [] false now in
          modify (λ r, r <| wr_db := Some (dict_set (wr_next_row r) (write_columns w s) rows) |>
                         <| wr_next_row := wr_next_row r + 1 |>) ;;
          mret true
      | [(k, s)] =>
          modify (λ r, r <| wr_db := Some (dict_set k (flushed now s (write_columns w s)) rows) |>) ;;
          mret true
      | _ => mret false
      end
  end.

Definition remember_worker (w : WorkerRecord) : M WorkerRegistry unit :=
  modify (λ r, r <| wr_workers := dict_set (wk_worker_id w) w (wr_workers r) |>).

(** [heartbeat]; [now] is its time, [now_db] the database's for [updated_at]. *)
Definition heartbeat (now now_db : Z) (sc : Scope) (status : string) (queues : option (list string))
    (version : option string) (capacity : option Z) (last_error : option string)
  : M WorkerRegistry WorkerRecord :=
  r ← get_state;
  let w := default (new_worker sc) (registry_get (sc_worker_id sc) (exact sc) r) in
  let w := w <| wk_tenant_id := sc_tenant_id sc |> <| wk_project_id := sc_project_id sc |>
             <| wk_environment := sc_environment sc |> in
  let w := touch status now queues version capacity last_error w in
  persisted ← _persist now_db w;
  if (persisted : bool) then
    r ← get_state;
    mret (default w (registry_get (sc_worker_id sc) (exact sc) r))
  else remember_worker w ;; mret w.

Definition ensure (now_db : Z) (sc : Scope) (status version : string) (capacity : Z)
  : M WorkerRegistry WorkerRecord :=
  r ← get_state;
  match registry_get (sc_worker_id sc) (exact sc) r with
  | Some w => mret w
  | None =>
      let w := (new_worker sc) <| wk_status := status |> <| wk_version := version |>
                 <| wk_capacity := Z.max 1 capacity |> in
      persisted ← _persist now_db w;
      if (persisted : bool) then
        r ← get_state;
        mret (default w (registry_get (sc_worker_id sc) (exact sc) r))
      else remember_worker w ;; mret w
  end.

Definition _require (worker : string) (q : Query) : M WorkerRegistry WorkerRecord :=
  r ← get_state; of_option (registry_get worker q r) (KeyError worker).

(** [_db_set_drain_status] and [_db_request_restart]: change the newest row of
    the scope. *)
Definition update_row (now : Z) (sc : Scope) (f : WorkerSnapshot → WorkerSnapshot)
  : M WorkerRegistry bool :=
  r ← get_state;
  match wr_db r with
  | None => mret false
  | Some rows =>
      match newest (List.filter (row_selected (sc_worker_id sc) (exact sc)) (dict_values rows)) with
      | None => mret false
      | Some s =>
          modify (λ r, r <| wr_db := Some (dict_set (ws_id s) (flushed now s (f s)) rows) |>) ;;
          mret true
      end
  end.

(** The common body of [_set_drain_status] and [request_restart]. *)
Definition change_worker (now_db : Z) (worker : string) (q : Query)
    (f : WorkerRecord → WorkerRecord) (f_row : WorkerSnapshot → WorkerSnapshot)
  : M WorkerRegistry WorkerRecord :=
  w ← _require worker q;
  let sc := mkScope worker (wk_tenant_id w) (wk_project_id w) (wk_environment w) in
  r ← get_state;
  done ← match _db_get worker (exact sc) r with
         | Some _ => update_row now_db sc f_row
         | None => mret false
         end;
  if (done : bool) then _require worker (exact sc)
  else
    let w := f w in
    modify (λ r, r <| wr_workers := dict_set worker w (wr_workers r) |>) ;;
    mret w.

Definition _set_drain_status (now_db : Z) (worker drain_status : string) (q : Query)
  : M WorkerRegistry WorkerRecord :=
  change_worker now_db worker q (λ w, w <| wk_drain_status := drain_status |>)
    (λ s, s <| ws_drain_status := drain_status |>).

Definition drain_worker (now_db : Z) (worker : string) (q : Query) := _set_drain_status now_db worker "draining" q.
Definition undrain (now_db : Z) (worker : string) (q : Query) := _set_drain_status now_db worker "active" q.
Definition quarantine (now_db : Z) (worker : string) (q : Query) := _set_drain_status now_db worker "quarantined" q.

Definition request_restart (now now_db : Z) (worker : string) (q : Query) : M WorkerRegistry WorkerRecord :=
  change_worker now_db worker q (λ w, w <| wk_restart_requested_at := Some now |>)
    (λ s, s <| ws_restart_requested_at := Some now |>).

Definition reset : M WorkerRegistry unit :=
  modify (λ r, r <| wr_workers := [] |>) ;;
  modify (λ r, r <| wr_db := match wr_db r with Some _ => Some [] | None => None end |>).

(** [WorkerRegistry.list]: the database rows first, then the in-memory records
    of workers the database does not know, sorted by worker id. *)
Definition registry_list (q : Query) (r : WorkerRegistry) : list WorkerRecord :=
  let from_db := match wr_db r with
    | None => []
    | Some rows => _record_from_snapshot <$>
        List.filter (λ s, negb (ws_is_deleted s) && wanted (q_tenant_id q) (ws_tenant_id s)
          && wanted (q_project_id q) (ws_project_id s) && wanted (q_environment q) (ws_environment s))
          (dict_values rows)
    end in
  let known := foldl (λ d w, dict_set (wk_worker_id w) w d) [] from_db in
  let all := foldl (λ d w, match dict_get (wk_worker_id w) d with
                           | Some _ => d
                           | None => dict_set (wk_worker_id w) w d
                           end) known
               (List.filter (record_selected q) (dict_values (wr_workers r))) in
  stable_sort (λ a b, chars_leb (to_chars (wk_worker_id a)) (to_chars (wk_worker_id b))) (dict_values all).
End registry.

(** * Operator actions *)

(** [str.lower] on the letters of ASCII. *)
Definition lower_char (c : Ascii.ascii) : Ascii.ascii :=
  if (65 <=? code c) && (code c <=? 90) then chr (code c + 32) else c.
Definition lower (s : string) : string := of_chars (lower_char <$> to_chars s).

Definition is_critical_attempt (t : NativeTask) : bool :=
  let reason := default [] (nt_quota_blocking_reason t) in
  bool_decide (nt_resource_class t = Some "critical")
  || existsb (λ k, match dict_get k reason with
                   | Some (VStr v) => bool_decide (lower v = "critical")
                   | _ => false
                   end) ["risk"; "severity"; "priority"].

Definition is_active_task (t : NativeTask) : bool :=
  match nt_status t with TS_leased | TS_running => true | _ => false end.

Record WorkerAction := mkAction {
  wa_action : string;
  wa_label : string;
  wa_available : bool;
  wa_disabled_reasons : list string;
  wa_required_permissions : list string;
  wa_audit_required : bool
}.

(** [if cond: disabled_reasons.append(reason)] *)
Definition reason_if (cond : bool) (reason : string) : list string := if cond then [reason] else [].

Definition disabled_reasons (w : WorkerRecord) (tasks : list NativeTask) (scopes : list string)
    (action : string) : list string :=
  let has_permission := bool_decide ("*" ∈ scopes) || bool_decide ("agent:deploy" ∈ scopes) in
  let critical := count is_critical_attempt tasks in
  let active := count is_active_task tasks in
  reason_if (negb has_permission) "Current actor lacks agent:deploy permission." ++
  (if bool_decide (action = "drain") then
     reason_if (negb (bool_decide (wk_drain_status w = "active"))) "Worker must be active before it can drain."
     ++ reason_if (0 <? critical) "Worker has active critical attempt and cannot drain safely."
   else if bool_decide (action = "undrain") && negb (bool_decide (wk_drain_status w = "draining")) then
     ["Worker must be draining before it can resume scheduling."]
   else if bool_decide (action = "quarantine") then
     reason_if (bool_decide (wk_drain_status w = "quarantined")) "Worker is already quarantined."
     ++ reason_if (0 <? active) "Worker still has active attempts and cannot quarantine safely."
   else reason_if (bool_decide (action = "restart-request")
                   && bool_decide (is_Some (wk_restart_requested_at w)))
          "Worker already has a pending restart request.").

Definition build_worker_actions (w : WorkerRecord) (tasks : list NativeTask) (scopes : list string)
  : list WorkerAction :=
  (λ p, let reasons := disabled_reasons w tasks scopes p.1 in
        mkAction p.1 p.2 (match reasons with [] => true | _ => false end) reasons ["agent:deploy"] true)
  <$> [("drain", "Drain worker"); ("undrain", "Resume scheduling");
       ("quarantine", "Quarantine worker"); ("restart-request", "Request restart")].

(** * The polling loop *)

Section loop.
Context (py_str : value → string).
(** [W] is everything outside the registry: the queue, the runs, the agents. *)
Context {W : Type}.

(** What the loop shares with the rest of the system. *)
Record Shared := mkShared {
  sd_registry : WorkerRegistry;
  sd_world : W
}.
#[export] Instance Shared_eta : Eta Shared := λ s, mkShared (sd_registry s) (sd_world s).

(** The message of a cancel subscriber. *)
Record CancelMessage := mkCancel {
  cm_worker_id : option string;
  cm_run_id : option Z;
  cm_task_id : option Z
}.

(** The constructor arguments of [WorkerLoop]; the callables run on the shared
    system. A cancel handler is an object with [cancel_run] or a plain callable.
    Of the task backend the loop uses [lease] (for its queue and worker: the task id
    and fencing token) and [mark_running]; of [execute_once] whether it did
    something. *)
Record LoopConfig := mkLoopConfig {
  lc_scope : Scope;
  lc_queue : string;
  lc_version : string;
  lc_capacity : Z;
  lc_cancel_subscriber : option (M Shared (option CancelMessage));
  lc_cancel_handler : option (sum (Z → option Z → M Shared unit) (CancelMessage → M Shared unit));
  lc_execute_once : option (M Shared bool);
  lc_task_backend : option (M Shared (option (Z * Z)) * (Z → Z → M Shared unit))
}.

Record WorkerLoop := mkLoop {
  wl_shared : Shared;
  wl_heartbeat : string;
  wl_stopped : bool;
  wl_shutdown_requested : bool;
  wl_ticks : nat
}.
#[export] Instance WorkerLoop_eta : Eta WorkerLoop := λ l,
  mkLoop (wl_shared l) (wl_heartbeat l) (wl_stopped l) (wl_shutdown_requested l) (wl_ticks l).

(** [clock i] is the [i]-th reading of the clock. *)
Context (cfg : LoopConfig) (clock : nat → Z).

Definition tick : M WorkerLoop Z := λ l, (Ret (clock (wl_ticks l)), l <| wl_ticks := S (wl_ticks l) |>).

Definition shared {A} (m : M Shared A) : M WorkerLoop A :=
  zoom wl_shared (λ s l, l <| wl_shared := s |>) m.
Definition registry {A} (m : M WorkerRegistry A) : M WorkerLoop A :=
  shared (zoom sd_registry (λ r s, s <| sd_registry := r |>) m).

Definition _publish_heartbeat (status : string) : M WorkerLoop unit :=
  now ← tick;
  now_db ← tick;
  registry (heartbeat py_str now now_db (lc_scope cfg) status (Some [lc_queue cfg])
    (Some (lc_version cfg)) (Some (lc_capacity cfg)) None) ;;
  mret tt.

(** [self.heartbeat = WorkerHeartbeat(...); self._publish_heartbeat(status)] *)
Definition beat (status : string) : M WorkerLoop string :=
  modify (λ l, l <| wl_heartbeat := status |>) ;;
  _publish_heartbeat status ;;
  mret status.

Definition stop_loop : M WorkerLoop string :=
  modify (λ l, l <| wl_stopped := true |>) ;;
  beat "stopped".

(** The worker's own record, as the registry has it. *)
Definition own_record (l : WorkerLoop) : option WorkerRecord :=
  registry_get py_str (sc_worker_id (lc_scope cfg)) (exact (lc_scope cfg)) (sd_registry (wl_shared l)).

Definition drain_status_of (l : WorkerLoop) : string :=
  match own_record l with Some w => wk_drain_status w | None => "active" end.

Definition _lifecycle_status : M WorkerLoop (option string) :=
  l ← get_state;
  if wl_stopped l then mret (Some "stopped")
  else if bool_decide (drain_status_of l = "quarantined") then mret (Some "quarantined")
  else if bool_decide (drain_status_of l = "draining") || wl_shutdown_requested l then
    modify (λ l, l <| wl_stopped := true |>) ;;
    mret (Some "stopped")
  else mret None.

Definition _handle_cancel_message (m : CancelMessage) : M WorkerLoop unit :=
  match lc_cancel_handler cfg, cm_run_id m with
  | Some (inl cancel_run), Some run => shared (cancel_run run (cm_task_id m))
  | Some (inr handler), Some _ => shared (handler m)
  | _, _ => mret tt
  end.

(** One attempt of the loop to do work: [Some status] when it did some. *)
Definition poll_cancel : M WorkerLoop (option string) :=
  match lc_cancel_subscriber cfg with
  | None => mret None
  | Some listen =>
      message ← shared listen;
      match message with
      | Some m =>
          if match cm_worker_id m with
             | None => true
             | Some w => bool_decide (w = sc_worker_id (lc_scope cfg))
             end
          then _handle_cancel_message m ;; s ← beat "cancel_requested"; mret (Some s)
          else mret None
      | None => mret None
      end
  end.

Definition poll_execute : M WorkerLoop (option string) :=
  match lc_execute_once cfg with
  | None => mret None
  | Some execute =>
      result ← shared execute;
      if (result : bool) then s ← beat "executed"; mret (Some s) else mret None
  end.

Definition poll_backend : M WorkerLoop (option string) :=
  match lc_task_backend cfg with
  | None => mret None
  | Some (lease, mark_running) =>
      leased ← shared lease;
      match leased with
      | Some (task_id, fencing_token) =>
          shared (mark_running task_id fencing_token) ;;
          s ← beat "running";
          mret (Some s)
      | None => mret None
      end
  end.

(** [m], and when it did nothing [k]. *)
Definition or_else (m : M WorkerLoop (option string)) (k : M WorkerLoop string) : M WorkerLoop string :=
  r ← m; match r with Some s => mret s | None => k end.

Definition run_once : M WorkerLoop string :=
  lifecycle ← _lifecycle_status;
  match lifecycle with
  | Some s => if bool_decide (s = "stopped") then stop_loop else beat s
  | None => or_else poll_cancel (or_else poll_execute (or_else poll_backend (beat "idle")))
  end.

(** [run_forever], for at most [fuel] iterations: whether it ended by itself. *)
Fixpoint run_loop (fuel : nat) : M WorkerLoop bool :=
  match fuel with
  | O => mret false
  | S n => l ← get_state; if wl_stopped l then mret true else run_once ;; run_loop n
  end.
Definition run_forever (fuel : nat) : M WorkerLoop bool := beat "running" ;; run_loop fuel.

Definition request_shutdown (graceful : bool) : M WorkerLoop unit :=
  if negb graceful then stop_loop ;; mret tt
  else
    modify (λ l, l <| wl_shutdown_requested := true |>) ;;
    l ← get_state;
    match own_record l with
    | Some w =>
        if bool_decide (wk_drain_status w = "active") then
          now_db ← tick;
          registry (drain_worker py_str now_db (sc_worker_id (lc_scope cfg)) (exact (lc_scope cfg))) ;;
          mret tt
        else mret tt
    | None => mret tt
    end.

(** ** Theorems *)

(** The world outside the registry is untouched. *)
Definition idle_step (l l' : WorkerLoop) : Prop := sd_world (wl_shared l') = sd_world (wl_shared l).

#[local] Instance idle_preorder : PreOrder idle_step.
Proof. unfold idle_step. split; [by intros l|]. intros l1 l2 l3 H1 H2. congruence. Qed.

Lemma registry_idle {A} (m : M WorkerRegistry A) : respects idle_step (registry m).
Proof. intros l. unfold registry, shared, zoom. by destruct (m _). Qed.

Lemma tick_idle : respects idle_step tick.
Proof. by intros l. Qed.

Lemma beat_idle s : respects idle_step (beat s).
Proof.
  unfold beat, _publish_heartbeat. apply respects_bind; [apply _|by apply respects_modify|intros _].
  apply respects_bind; [apply _| |auto with respects].
  apply respects_bind; [apply _|apply tick_idle|intros t].
  apply respects_bind; [apply _|apply tick_idle|intros t'].
  apply respects_bind; [apply _|apply registry_idle|auto with respects].
Qed.

Lemma persist_ret now_db w r : ∃ b r', _persist now_db w r = (Ret b, r').
Proof.
  unfold _persist. m_unfold. destruct (wr_db r); [|by do 2 eexists].
  destruct (List.filter _ _) as [|[k s] [|? ?]]; by do 2 eexists.
Qed.

Lemma heartbeat_ret now now_db sc st q v c e r :
  ∃ w r', heartbeat py_str now now_db sc st q v c e r = (Ret w, r').
Proof.
  unfold heartbeat, mbind, M_bind, get_state.
  match goal with |- context [_persist now_db ?w ?r] => destruct (persist_ret now_db w r) as (b&r'&->) end.
  destruct b; by do 2 eexists.
Qed.

Lemma beat_ret s l : ∃ l', beat s l = (Ret s, l') ∧ wl_heartbeat l' = s ∧ wl_stopped l' = wl_stopped l ∧
  wl_shutdown_requested l' = wl_shutdown_requested l.
Proof.
  unfold beat, _publish_heartbeat, registry, shared, zoom, mbind, M_bind, modify, tick. simpl.
  destruct (heartbeat_ret (clock (wl_ticks l)) (clock (S (wl_ticks l))) (lc_scope cfg) s
    (Some [lc_queue cfg]) (Some (lc_version cfg)) (Some (lc_capacity cfg)) None
    (sd_registry (wl_shared l))) as (w&r'&->).
  eexists. by split_and!.
Qed.

Lemma stop_ret l : ∃ l', stop_loop l = (Ret "stopped", l') ∧ wl_stopped l' = true ∧ idle_step l l'.
Proof.
  unfold stop_loop, mbind, M_bind, modify.
  destruct (beat_ret "stopped" (l <| wl_stopped := true |>)) as (l'&Hb&_&Hs&_). rewrite Hb.
  exists l'. split_and!; [done|done|]. pose proof (beat_idle "stopped" (l <| wl_stopped := true |>)) as Hi.
  by rewrite Hb in Hi.
Qed.

(** A worker that is stopped, asked to shut down, draining or quarantined
    takes no work: the loop's step leases nothing, runs no agent and handles no
    cancellation, it only reports its status; and unless it is quarantined it has
    stopped for good afterwards. *)
Theorem withdrawn_worker_takes_no_work (l : WorkerLoop)
    (Hw : wl_stopped l = true ∨ wl_shutdown_requested l = true ∨ drain_status_of l = "draining" ∨
          drain_status_of l = "quarantined") :
  ∃ s l', run_once l = (Ret s, l') ∧ sd_world (wl_shared l') = sd_world (wl_shared l) ∧
    (s = "quarantined" ∨ (s = "stopped" ∧ wl_stopped l' = true)).
Proof.
  unfold run_once, _lifecycle_status, mbind, M_bind, get_state.
  destruct (wl_stopped l) eqn:Hs; simpl.
  { destruct (stop_ret l) as (l'&->&?&?). do 2 eexists. split_and!; [done|done|]. by right. }
  case_bool_decide as Hq; simpl.
  { destruct (beat_ret "quarantined" l) as (l'&Hb&_). pose proof (beat_idle "quarantined" l) as Hi.
    rewrite Hb in Hi |- *. do 2 eexists. split_and!; [done|done|]. by left. }
  assert (bool_decide (drain_status_of l = "draining") || wl_shutdown_requested l = true) as ->.
  { destruct Hw as [?|[->|[->|?]]]; [done|by rewrite orb_true_r|by rewrite bool_decide_true|done]. }
  simpl. destruct (stop_ret (l <| wl_stopped := true |>)) as (l'&H1&?&Hi).
  change (mkLoop (wl_shared l) (wl_heartbeat l) true (wl_shutdown_requested l) (wl_ticks l)) with (l <| wl_stopped := true |>).
  rewrite H1. do 2 eexists. split_and!; [done|exact Hi|]. by right.
Qed.

End loop.

(** * The registry without a database *)

Definition control_state (w : WorkerRecord) : string * option Z :=
  (wk_drain_status w, wk_restart_requested_at w).

Lemma heartbeat_in_memory py_str now now_db sc st q v c e r : wr_db r = None →
  let w := touch st now q v c e
    ((default (new_worker sc) (registry_get py_str (sc_worker_id sc) (exact sc) r))
       <| wk_tenant_id := sc_tenant_id sc |> <| wk_project_id := sc_project_id sc |>
       <| wk_environment := sc_environment sc |>) in
  heartbeat py_str now now_db sc st q v c e r =
    (Ret w, r <| wr_workers := dict_set (wk_worker_id w) w (wr_workers r) |>).
Proof. intros Hdb. unfold heartbeat, _persist, remember_worker. m_unfold. by rewrite Hdb. Qed.

Lemma get_in_memory py_str worker q r : wr_db r = None →
  registry_get py_str worker q r =
  match dict_get worker (wr_workers r) with
  | Some w => if record_selected q w then Some w else None
  | None => None
  end.
Proof. intros Hdb. unfold registry_get, _db_get. by rewrite Hdb. Qed.

Lemma selected_exact sc w : wk_tenant_id w = sc_tenant_id sc → wk_project_id w = sc_project_id sc →
  wk_environment w = sc_environment sc → record_selected (exact sc) w = true.
Proof. intros H1 H2 H3. unfold record_selected, wanted. simpl. by rewrite !bool_decide_true. Qed.

(** The records are filed under their own worker ids. *)
Definition workers_filed (r : WorkerRegistry) : Prop :=
  ∀ k w, dict_get k (wr_workers r) = Some w → wk_worker_id w = k.

(** Without a database, what operators decided about a worker survives its
    heartbeats: a heartbeat updates the status and the time of the worker's record
    and keeps its drain status (active, draining or quarantined) and a pending
    restart request. *)
Theorem heartbeat_keeps_control (py_str : value → string) (now now_db : Z) (sc : Scope) (st : string) q v c e
    (r : WorkerRegistry) (w : WorkerRecord) (Hdb : wr_db r = None) (Hf : workers_filed r)
    (Hw : registry_get py_str (sc_worker_id sc) (exact sc) r = Some w) :
  ∃ w', registry_get py_str (sc_worker_id sc) (exact sc) (heartbeat py_str now now_db sc st q v c e r).2 = Some w' ∧
    control_state w' = control_state w ∧ wk_status w' = st ∧ wk_heartbeat_at w' = Some now.
Proof.
  rewrite heartbeat_in_memory by done. rewrite Hw. simpl. rewrite get_in_memory by done. simpl.
  assert (wk_worker_id w = sc_worker_id sc) as Hid.
  { rewrite get_in_memory in Hw by done. destruct (dict_get _ _) as [w0|] eqn:E; [|done].
    destruct (record_selected _ w0); simplify_eq. by apply Hf. }
  rewrite Hid, dict_get_set_eq, selected_exact by done. eexists. by split_and!.
Qed.

(** Without a database the registry keeps one record per worker id, whatever
    the tenant, project and environment: a heartbeat of a worker in one scope
    deletes the record of the worker with the same id in another scope, and with
    it that worker's quarantine or drain. *)
Theorem heartbeat_other_scope_forgets (py_str : value → string) (now now_db : Z) (sc : Scope) (st : string) q v c e
    (r : WorkerRegistry) (w : WorkerRecord) (Hdb : wr_db r = None)
    (Hw : dict_get (sc_worker_id sc) (wr_workers r) = Some w)
    (Hother : wk_tenant_id w ≠ sc_tenant_id sc) :
  let r' := (heartbeat py_str now now_db sc st q v c e r).2 in
  registry_get py_str (sc_worker_id sc) (mkQuery (Some (wk_tenant_id w)) None None) r' = None ∧
  ∃ w', registry_get py_str (sc_worker_id sc) (exact sc) r' = Some w' ∧ wk_drain_status w' = "active".
Proof.
  simpl. rewrite heartbeat_in_memory by done.
  assert (registry_get py_str (sc_worker_id sc) (exact sc) r = None) as ->.
  { rewrite get_in_memory, Hw by done. unfold record_selected, wanted. simpl. by rewrite bool_decide_false. }
  simpl. rewrite !get_in_memory by done. simpl. rewrite !dict_get_set_eq. split.
  - unfold record_selected, wanted. simpl. by rewrite bool_decide_false by congruence.
  - rewrite selected_exact by done. by eexists.
Qed.

(** The operator console offers to drain a worker exactly when the actor may
    deploy, the worker is active and no critical attempt is on it, and to
    quarantine it exactly when the actor may deploy, it is not quarantined already
    and has no active attempt; a disabled action always states a reason. *)
Theorem worker_actions_correct (w : WorkerRecord) (tasks : list NativeTask) (scopes : list string) :
  let actions := build_worker_actions w tasks scopes in
  let permitted := "*" ∈ scopes ∨ "agent:deploy" ∈ scopes in
  (∀ a, a ∈ actions → wa_available a = true ↔ wa_disabled_reasons a = []) ∧
  (∀ a, a ∈ actions → wa_action a = "drain" → (wa_available a = true ↔
     permitted ∧ wk_drain_status w = "active" ∧ ∀ t, t ∈ tasks → is_critical_attempt t = false)) ∧
  (∀ a, a ∈ actions → wa_action a = "quarantine" → (wa_available a = true ↔
     permitted ∧ wk_drain_status w ≠ "quarantined" ∧ ∀ t, t ∈ tasks → is_active_task t = false)).
Proof.
  assert (∀ p, (0 <? count p tasks) = false ↔ ∀ t, t ∈ tasks → p t = false) as Hcount.
  { intros p. unfold count. rewrite Z.ltb_ge. split.
    - intros H t Hin. destruct (p t) eqn:E; [|done].
      assert (In t (List.filter p tasks)) as Hi by (apply filter_In; by rewrite <-list_elem_of_In).
      destruct (List.filter p tasks); [done|]. simpl in H. lia.
    - intros H. destruct (List.filter p tasks) as [|t l] eqn:E; [done|].
      assert (In t (List.filter p tasks)) as [Hin Ht]%filter_In by (rewrite E; by left).
      rewrite H in Ht; [done|]. by apply list_elem_of_In. }
  assert (∀ a, a ∈ build_worker_actions w tasks scopes → wa_disabled_reasons a
    = disabled_reasons w tasks scopes (wa_action a) ∧
    (wa_available a = true ↔ wa_disabled_reasons a = [])) as Hall.
  { intros a ([act lbl]&->&_)%list_elem_of_fmap. simpl. split; [done|]. by destruct (disabled_reasons _ _ _ _). }
  split; [by intros a [_ Hav]%Hall|]. split; intros a [Hr Hav]%Hall Hact; rewrite Hav, Hr, Hact; clear Hr Hav Hact;
    unfold disabled_reasons; rewrite <-Hcount; unfold reason_if.
  - rewrite (bool_decide_true ("drain" = "drain")) by done.
    destruct (0 <? _); repeat case_bool_decide; simpl; naive_solver.
  - rewrite (bool_decide_false ("quarantine" = "drain")), (bool_decide_false ("quarantine" = "undrain")),
      (bool_decide_true ("quarantine" = "quarantine")) by done.
    destruct (0 <? count is_active_task tasks); repeat case_bool_decide; simpl; naive_solver.
Qed.

(** ** Concrete registries and loops *)

Definition demo_scope : Scope := mkScope "w1" 1 1 "production".
Definition quarantined_registry : WorkerRegistry := Eval vm_compute in
  (quarantine (λ _, "") 2 "w1" (mkQuery None None None)
    (heartbeat (λ _, "") 1 1 demo_scope "idle" None None None None (mkWorkerRegistry [] None 1)).2).2.
Definition demo_worker : WorkerRecord :=
  mkWorker None "w1" 1 1 "production" ["default"] "unknown" 1 "idle" "quarantined" (Some 1) None None [].

Lemma heartbeat_keeps_control_witness :
  ∃ w', registry_get (λ _, "") "w1" (exact demo_scope)
      (heartbeat (λ _, "") 9 9 demo_scope "running" None None None None quarantined_registry).2 = Some w' ∧
    control_state w' = ("quarantined", None).
Proof.
  destruct (heartbeat_keeps_control (λ _, "") 9 9 demo_scope "running" None None None None
    quarantined_registry demo_worker) as (w'&H1&H2&_).
  - reflexivity.
  - intros k w. unfold quarantined_registry. cbn. destruct (decide (k = "w1")); intros H; simplify_eq/=; done.
  - vm_compute. reflexivity.
  - exists w'. split; [exact H1|exact H2].
Defined.

Lemma heartbeat_other_scope_forgets_witness :
  registry_get (λ _, "") "w1" (mkQuery (Some 1) None None)
    (heartbeat (λ _, "") 9 9 (mkScope "w1" 2 1 "production") "idle" None None None None
       quarantined_registry).2 = None.
Proof.
  refine (proj1 (heartbeat_other_scope_forgets (λ _, "") 9 9 (mkScope "w1" 2 1 "production") "idle" None None None None
    quarantined_registry demo_worker _ _ _)); [reflexivity|vm_compute; reflexivity|discriminate].
Defined.

(** A loop whose executor counts its executions. *)
Definition demo_loop_config : LoopConfig (W := Z) :=
  mkLoopConfig demo_scope "default" "dev" 1 None None
    (Some (λ s, (Ret true, s <| sd_world := sd_world s + 1 |>))) None.
Definition demo_loop (r : WorkerRegistry) (shutdown : bool) : WorkerLoop (W := Z) :=
  mkLoop (mkShared r 0) "starting" false shutdown 0.

Lemma withdrawn_worker_takes_no_work_witness :
  (∃ l', run_once (λ _, "") demo_loop_config Z.of_nat (demo_loop (mkWorkerRegistry [] None 1) false)
      = (Ret "executed", l') ∧ sd_world (wl_shared l') = 1) ∧
  ∃ s l', run_once (λ _, "") demo_loop_config Z.of_nat (demo_loop quarantined_registry false) = (Ret s, l') ∧
    sd_world (wl_shared l') = 0.
Proof.
  split; [eexists; split; vm_compute; reflexivity|].
  destruct (withdrawn_worker_takes_no_work (λ _, "") demo_loop_config Z.of_nat
    (demo_loop quarantined_registry false)) as (s&l'&H1&H2&_).
  - right. right. right. vm_compute. reflexivity.
  - exists s, l'. split; [exact H1|exact H2].
Defined.

